(* ===== verification/_CoqProject ===== *)
-Q . S2P
Prelude.v
Bitmap.v
Interrupt.v
DList.v
Paging.v
Memory.v
PageAlloc.v
Process.v
Fork.v
ForkMem.v
Arena.v
Sched.v
Sync.v
Screen.v
Task.v
Ioqueue.v
Keyboard.v
CString.v
Stdio.v
Printf.v
Disk.v
Layout.v
Inode.v
Path.v
Dir.v
File.v
Alloc.v
Contents.v
FileWrite.v
DirSpec.v
Fs.v
Proc.v
ForkSpec.v
ExitSpec.v
Exec.v
ExecSpec.v
Ps.v
Console.v
Boot.v
Format.v
Partition.v
FormatSpec.v
Shell.v
Commands.v
Session.v
Programs.v
Syscall.v
Startup.v
Messages.v
