(* ===== verification/Prelude.v ===== *)
(** * TrueOS: a verification development

    TrueOS is a 32-bit x86 teaching kernel (src/): a boot loader, a kernel with
    threads, virtual memory, interrupts and a disk driver, a Unix-like file
    system, user processes and a shell.  This library models the C code of the
    kernel as functions on explicit states and proves what makes the parts
    correct.

    ** Parts of the program and files

    - lib/kernel/bitmap.c -- [Bitmap]: allocation bitmaps, used by the page
      pools, the pid pool and the partition.
    - kernel/interrupt.c -- [Interrupt]: the interrupt flag, critical
      sections, gate descriptors, handler table; [Startup]: programming the
      interrupt controllers and the timer (device/timer.c), the task state
      segment and the descriptors (userprog/tss.c), sleeping.
    - lib/kernel/list.c -- [DList]: module [DList] is the pointer code on a
      heap of cells, module [Queue] the sequences it implements; the other
      files use [Queue].
    - kernel/memory.c -- [Paging]: page tables as the processor walks them and
      the kernel's window to them; [Memory]: physical pools, virtual address
      pools, [malloc_page], [mfree_page], start-up; [PageAlloc]: the class that
      states what the page allocator promises, with its instance; [Arena]:
      [sys_malloc] and [sys_free], proved against the class.
    - thread/thread.c, thread/sync.c, device/timer.c, the parts of
      userprog/process.c and tss.c the scheduler calls -- [Sched]: tasks,
      [schedule], blocking, semaphores, locks, the timer interrupt; [Sync]: the
      operations interleaved as a transition system.
    - lib/kernel/print.s -- [Screen]: the text screen and its cursor, one
      character, strings, numbers.
    - device/console.c, lib/kernel/printk.c, [sys_print_pcb] and the other
      system calls that print -- [Console]: printing under the lock of the
      console, interleaved, over [Sync] and [Screen].
    - thread/thread.c, userprog/wait_exit.c -- [Task]: pids, creating and
      removing threads, parts of wait and exit; [Ps]: the listing of the
      tasks; [Boot]: [thread_init], the first tasks.
    - device/ioqueue.c, shell/pipe.c -- [Ioqueue]: ring buffers with sleeping
      readers and writers, pipes.
    - device/keyboard.c -- [Keyboard]: the scan code handler.
    - lib/string.c, lib/stdio.c -- [CString], [Stdio]; [Printf]: what a format
      and its arguments stand for.
    - device/ide.c -- [Disk]: reading and writing sectors through the
      registers of the channel, identifying a drive; [Partition]: walking the
      partition tables, [ide_init].
    - fs/super_block.h, inode.h, dir.h -- [Layout]: bytes of the structures on
      disk.
    - fs/inode.c and the bitmap routines of fs/file.c -- [Inode]: the mounted
      partition, shared inodes; [Alloc]: lemmas on block allocation.
    - fs/fs.c, path_parse and path_depth_cnt -- [Path].
    - fs/dir.c -- [Dir], its theorems in [DirSpec].
    - fs/file.c -- [File], its theorems in [Contents] (the abstract file,
      reading) and [FileWrite] (writing).
    - fs/fs.c, shell/pipe.c -- [Fs]: the system calls; [Format]: making and
      mounting a file system, its theorems in [FormatSpec].
    - userprog/process.c -- [Process]: the page directory and the pool of
      virtual addresses of a process, its first registers.
    - userprog/fork.c, userprog/wait_exit.c, process_execute -- [Fork]: copying
      the pages of a process, with the invariant of two address spaces over one
      memory; [ForkMem]: all memory operations of one fork in a row; [Proc]:
      [process_execute], [sys_fork] and [sys_exit] over the whole kernel, with
      theorems in [ForkSpec] and [ExitSpec].
    - userprog/exec.c -- [Exec]: reading an ELF file, loading its segments,
      [sys_execv]; theorems in [ExecSpec].
    - userprog/syscall-init.c, lib/user/syscall.c, the trap of
      kernel/kernel.s -- [Syscall]: call numbers, the table, the stubs, the
      context that is saved and restored.
    - shell/shell.c, shell/buildin_cmd.c -- [Shell]: line editing, cutting a
      line into words, resolving a path; [Commands]: the built-in commands,
      external commands, pipelines, the loop of [my_shell]; [Session]: whole
      sessions evaluated on a formatted disk.
    - command/*.c and start.s, [init] of kernel/main.c -- [Programs]: the user
      programs.
    - kernel/debug.c, the general handler of kernel/interrupt.c --
      [Messages]: what a failed ASSERT and an exception put on the screen.

    ** How C is read

    A routine that touches state is a function in the monad [M S] on the state
    [S] of its component; it ends with a value, with [Panic] (a failed ASSERT
    or a PANIC, after which the kernel spins), with [Fault] (an access outside
    every object, NULL included) or with [NoFuel].  Integers are elements of
    [Z] kept in the range of their C type by [u8], [u16], [u32], [i32] wherever
    the code may leave it.  Pointers are addresses.  Objects several parties
    share (list cells, PCBs, semaphores, locks, inodes, directories, heap
    arenas) live in stores keyed by address; buffers private to a routine are
    values.  What the routines of the kernel print for diagnosis is left out of
    their models; what commands and [sys_ps] print is modelled as their writes,
    what the routines of the console do is modelled down to the cells of the
    screen.

    A thread that calls [schedule] stops in the middle of its routine.  What it
    has left to do is a stack of frames in the state ([Sched.frame]); the
    transition system of [Sync] resumes it when it is scheduled again.

    Loops over data of known length recurse on it.  The others carry fuel: the
    list scans (the theorems hold from the length of the list plus one on), the
    string loops (length plus one), the pieces of a disk transfer (one round
    per 256 sectors), [itoa] (32 digits), the copy loops of [file_read] and
    [file_write] (one round per sector, bounded by the 140 blocks of a file),
    [partition_scan] (one level per table of the chain, plus one), the loops of
    ls over the entries of a directory, a pipeline (one round per bar of the
    line), sleeping (one round per yield), the loop of cat (one round per 1024
    bytes, and one for the end of the file).
    Every theorem about such a routine states that it returns.

    ** What the theorems show

    - Scheduling: no interleaving of timer interrupts, locks, semaphores,
      blocking and waking makes an ASSERT fail; locks exclude each other; a
      free lock with waiters has a waiter awake.
    - Memory: [malloc_page] maps fresh frames and nothing else, [mfree_page]
      undoes it; the heap hands out disjoint blocks and returns empty arenas;
      the self-map computes what the processor computes.
    - Lists and rings refine sequences and FIFOs; the keyboard handler decodes
      every sequence of key events.
    - Disk: [ide_read] and [ide_write] implement the array of sectors, which is
      what the file system components use; the scan of a chain of partition
      tables ends and finds its partitions in order.
    - File system: what is written to an inode is what is opened later; reading
      returns a piece of the contents of a file, writing extends them through
      direct and indirect blocks; searching a directory is searching the
      sequence of its entries, adding an entry adds exactly that entry.
    - Processes: a new process has a space of its own with nothing of the user
      part mapped and the part of the kernel shared; its first page is its
      stack.  [sys_fork] makes a child with a copy of every page in frames of
      its own and leaves the parent as it was; exit frees exactly the frames of
      the user part.  exec puts the bytes of every segment of the file where
      its program header says, in pages the process had or fresh ones.
    - Start-up: after [thread_init] the tasks are init, main and idle with the
      pids 1, 2 and 3; the interrupt lines that are open are those of timer,
      keyboard and disk, and each reaches its handler.
    - System calls: every stub reaches the service of its name with the
      arguments of its caller and returns its result, and no other register
      changes.
    - Shell: a line with bars runs its commands in order with their standard
      input and output in the pipe and restores both; cd enters the directory
      its argument names; cat copies a file to its standard output.
    - Screen and console: the screen shows the last 25 rows of what was
      printed; texts of the console printed by several threads never mix;
      panics and exceptions show their message.
    - Strings, numerals, formatted output, paths, lines of the shell: the usual
      contracts and round trips.

    Some theorems record what the code does against its intention: a scan of
    a full bitmap panics, a second reader of a ring may sleep on data,
    [vsprintf] leaves its buffer unterminated, and others; they are named where
    they stand.

    ** Interfaces

    Code below a component is a class when the component is proved against a
    contract: [HasEflags] (critical sections), [PageAlloc] (pages), [Heap] (the
    heap as the file system uses it: distinct addresses that are not NULL for
    as long as there is room), [Devices] (console, keyboard and rings behind
    descriptors), [FileCalls] and [TaskCalls] (the system as the shell sees
    it), [ProgCalls] with [Descriptors] (the system as the user programs see
    it), [Clock] (ticks that pass while a thread yields).  [PageAlloc] is
    discharged by [Memory], [FileCalls] by [Fs], which also meets what
    [Descriptors] says of reading; the witnesses give concrete instances for
    the others.

    ** Not modelled

    Assembly of the boot loader and of the interrupt entries, and switch.s
    beyond the change of the current task; the prompt and the echo of the
    shell; diagnostics printed by the kernel on the way; the two older versions
    of exec in userprog/, which the build does not compile. *)

From stdpp Require Export base numbers list list_numbers gmap strings.
From Stdlib Require Export ZArith Lia.

#[global] Open Scope Z_scope.

(** ** Outcomes of C code

    A kernel routine returns a value, or stops in [panic_spin] (a failed
    [ASSERT]/[PANIC], kernel/debug.h), or touches memory outside every object
    it may use (including NULL), or is still running when the loop bound of
    the model is used up. *)
Inductive outcome (A : Type) : Type :=
| Ok (a : A)
| Panic (why : string)
| Fault
| NoFuel.
Arguments Ok {A} a.
Arguments Panic {A} why.
Arguments Fault {A}.
Arguments NoFuel {A}.

#[global] Instance outcome_ret : MRet outcome := fun A a => Ok a.
#[global] Instance outcome_bind : MBind outcome := fun A B f m =>
  match m with
  | Ok a => f a
  | Panic w => Panic w
  | Fault => Fault
  | NoFuel => NoFuel
  end.

(** [ASSERT(c)] of kernel/debug.h: continue when [c] holds, spin otherwise. *)
Definition ASSERT (c : bool) (why : string) : outcome () :=
  if c then Ok () else Panic why.

(** A read through a C array: outside the object there is nothing to read. *)
Definition aget {A} (l : list A) (i : Z) : outcome A :=
  if i <? 0 then Fault
  else match l !! Z.to_nat i with Some a => Ok a | None => Fault end.

(** A write through a C array. *)
Definition aset {A} (l : list A) (i : Z) (a : A) : outcome (list A) :=
  if i <? 0 then Fault
  else if (Z.to_nat i <? length l)%nat then Ok (<[Z.to_nat i := a]> l) else Fault.

(** ** State and outcome: the monad of the stateful components *)
Definition M (S A : Type) : Type := S -> outcome (A * S).

#[global] Instance M_ret S : MRet (M S) := fun A a s => Ok (a, s).
#[global] Instance M_bind S : MBind (M S) := fun A B f m s =>
  match m s with
  | Ok (a, s') => f a s'
  | Panic w => Panic w
  | Fault => Fault
  | NoFuel => NoFuel
  end.

Definition getS {S} : M S S := fun s => Ok (s, s).
Definition putS {S} (s' : S) : M S () := fun _ => Ok (tt, s').
Definition modS {S} (f : S -> S) : M S () := fun s => Ok (tt, f s).
Definition liftO {S A} (o : outcome A) : M S A := fun s => a ← o; Ok (a, s).
Definition assertM {S} (c : bool) (why : string) : M S () := liftO (ASSERT c why).
Definition panicM {S A} (why : string) : M S A := fun _ => Panic why.
Definition faultM {S A} : M S A := fun _ => Fault.

(** ** Machine integers of lib/stdint.h *)
Definition wrapu (w z : Z) : Z := z mod 2 ^ w.
Definition wraps (w z : Z) : Z :=
  let m := z mod 2 ^ w in if m <? 2 ^ (w - 1) then m else m - 2 ^ w.

Abbreviation u8 := (wrapu 8).
Abbreviation u16 := (wrapu 16).
Abbreviation u32 := (wrapu 32).
Abbreviation i8 := (wraps 8).
Abbreviation i16 := (wraps 16).
Abbreviation i32 := (wraps 32).

(** [DIV_ROUND_UP] of kernel/global.h, on [uint32_t] operands. *)
Definition DIV_ROUND_UP (x step : Z) : Z := u32 (u32 (x + step - 1) / step).

(** The null pointer, an address. *)
Definition NULL : Z := 0.

(** A C truth value is an [int]. *)
Definition truth (z : Z) : bool := negb (z =? 0).

(** ** Shared lemmas *)

Lemma wrapu_small w z : 0 <= z < 2 ^ w -> wrapu w z = z.
Proof. apply Z.mod_small. Qed.

Lemma wrapu_range w z : 0 <= w -> 0 <= wrapu w z < 2 ^ w.
Proof. intros. apply Z.mod_pos_bound. lia. Qed.

Lemma wrapu_idem w z : 0 <= w -> wrapu w (wrapu w z) = wrapu w z.
Proof. intros. apply wrapu_small, wrapu_range. done. Qed.

Lemma wraps_small w z : 0 < w -> - 2 ^ (w - 1) <= z < 2 ^ (w - 1) -> wraps w z = z.
Proof.
  intros Hw Hz. unfold wraps.
  assert (2 ^ w = 2 * 2 ^ (w - 1)) as Hp.
  { replace w with (Z.succ (w - 1)) at 1 by lia. apply Z.pow_succ_r. lia. }
  destruct (Z.ltb_spec z 0).
  - replace (z mod 2 ^ w) with (z + 2 ^ w).
    + destruct (Z.ltb_spec (z + 2 ^ w) (2 ^ (w - 1))); lia.
    + rewrite <- (Z.mod_small (z + 2 ^ w) (2 ^ w)) by lia.
      replace (z + 2 ^ w) with (z + 1 * 2 ^ w) by lia. apply Z.mod_add. lia.
  - rewrite Z.mod_small by lia.
    destruct (Z.ltb_spec z (2 ^ (w - 1))); lia.
Qed.

(** Changing the sign a word is read with does not change the word. *)
Lemma u32_i32 z : u32 (i32 z) = u32 z.
Proof.
  unfold wraps, wrapu. destruct (_ <? _); [apply Z.mod_mod; lia|].
  rewrite Zminus_mod, Z_mod_same_full, Z.sub_0_r, !Zmod_mod. done.
Qed.

Lemma bind_Ok {A B} (a : A) (f : A -> outcome B) : (Ok a ≫= f) = f a.
Proof. reflexivity. Qed.

Lemma bind_inv {A B} (m : outcome A) (f : A -> outcome B) (b : B) :
  (m ≫= f) = Ok b -> exists a, m = Ok a /\ f a = Ok b.
Proof. destruct m; cbn; intros H; try discriminate. eauto. Qed.

Lemma mbindM_Ok {S A B} (m : M S A) (f : A -> M S B) s a s' :
  m s = Ok (a, s') -> (m ≫= f) s = f a s'.
Proof. intros H. unfold mbind, M_bind. by rewrite H. Qed.

Lemma mbindM_inv {S A B} (m : M S A) (f : A -> M S B) s b s'' :
  (m ≫= f) s = Ok (b, s'') -> exists a s', m s = Ok (a, s') /\ f a s' = Ok (b, s'').
Proof.
  unfold mbind, M_bind. destruct (m s) as [[a s']| | |] eqn:E; intros H; try discriminate.
  eauto.
Qed.

(** The primitive computations at the head of a bind. *)
Lemma getS_bind {S B} (f : S -> M S B) s : (getS ≫= f) s = f s s.
Proof. reflexivity. Qed.
Lemma modS_bind {S B} (g : S -> S) (f : () -> M S B) s : (modS g ≫= f) s = f tt (g s).
Proof. reflexivity. Qed.
Lemma mret_bind {S A B} (a : A) (f : A -> M S B) s : (mret a ≫= f) s = f a s.
Proof. reflexivity. Qed.
Lemma liftO_bind {S A B} (o : outcome A) (a : A) (f : A -> M S B) s : o = Ok a -> (liftO o ≫= f) s = f a s.
Proof. by intros ->. Qed.
Lemma mbindM_ext {S A B} (m : M S A) (f g : A -> M S B) s :
  (forall a s', f a s' = g a s') -> (m ≫= f) s = (m ≫= g) s.
Proof. intros E. unfold mbind, M_bind. destruct (m s) as [[a s']| | |]; [apply E|done..]. Qed.

Lemma mbindM_NoFuel {S A B} (m : M S A) (f : A -> M S B) s : m s = NoFuel -> (m ≫= f) s = NoFuel.
Proof. intros E. unfold mbind, M_bind. by rewrite E. Qed.
Lemma mbindM_assoc {S A B C} (m : M S A) (f : A -> M S B) (g : B -> M S C) s :
  ((m ≫= f) ≫= g) s = (m ≫= fun a => f a ≫= g) s.
Proof. unfold mbind, M_bind. by destruct (m s) as [[]| | |]. Qed.

(** A guard that holds. *)
Lemma assertM_run {S} c w (s : S) : c = true -> assertM c w s = Ok (tt, s).
Proof. by intros ->. Qed.

Lemma ASSERT_true w : ASSERT true w = Ok ().
Proof. reflexivity. Qed.

Lemma aget_lookup {A} (l : list A) i a :
  aget l i = Ok a <-> 0 <= i /\ l !! Z.to_nat i = Some a.
Proof.
  unfold aget. destruct (Z.ltb_spec i 0); split.
  - discriminate.
  - intros [? _]; lia.
  - destruct (l !! Z.to_nat i); intros [= ->]. auto with lia.
  - intros [_ ->]. reflexivity.
Qed.

Lemma aget_Ok {A} (l : list A) i a :
  0 <= i -> l !! Z.to_nat i = Some a -> aget l i = Ok a.
Proof. intros. by apply aget_lookup. Qed.

Lemma aget_in_range {A} (l : list A) i :
  0 <= i < Z.of_nat (length l) -> exists a, aget l i = Ok a /\ l !! Z.to_nat i = Some a.
Proof.
  intros Hi. destruct (lookup_lt_is_Some_2 l (Z.to_nat i)) as [a Ha]; [lia|].
  exists a. split; [|done]. apply aget_Ok; [lia|done].
Qed.

Lemma aget_out {A} (l : list A) i : Z.of_nat (length l) <= i -> aget l i = Fault.
Proof.
  intros Hi. unfold aget. destruct (Z.ltb_spec i 0); [done|].
  rewrite lookup_ge_None_2; [done|lia].
Qed.

Lemma aset_Ok {A} (l : list A) i a :
  0 <= i < Z.of_nat (length l) -> aset l i a = Ok (<[Z.to_nat i := a]> l).
Proof.
  intros Hi. unfold aset. destruct (Z.ltb_spec i 0); [lia|].
  destruct (Nat.ltb_spec (Z.to_nat i) (length l)); [done|lia].
Qed.

Lemma aset_inv {A} (l l' : list A) i a :
  aset l i a = Ok l' -> 0 <= i < Z.of_nat (length l) /\ l' = <[Z.to_nat i := a]> l.
Proof.
  unfold aset. destruct (Z.ltb_spec i 0); [discriminate|].
  destruct (Nat.ltb_spec (Z.to_nat i) (length l)); [|discriminate].
  intros [= <-]. split; [lia|done].
Qed.

(** An access at a known place of a list. *)
Lemma aget_at {A} (pre : list A) a r i : i = Z.of_nat (length pre) -> aget (pre ++ a :: r) i = Ok a.
Proof. intros ->. apply aget_Ok; [lia|]. by rewrite Nat2Z.id, list_lookup_middle. Qed.
Lemma aset_at {A} (pre : list A) x a r i : i = Z.of_nat (length pre) -> aset (pre ++ x :: r) i a = Ok (pre ++ a :: r).
Proof.
  intros ->. rewrite aset_Ok by (rewrite length_app; cbn; lia). by rewrite Nat2Z.id, insert_app_r_alt, Nat.sub_diag by lia.
Qed.

(** A finite check over an index range, by evaluation. *)
Lemma forall_range_dec (f : Z -> bool) n :
  forallb f (seqZ 0 n) = true -> forall j, 0 <= j < n -> f j = true.
Proof.
  rewrite forallb_forall. intros H j Hj. apply H. apply list_elem_of_In, elem_of_seqZ. lia.
Qed.

Lemma filter_ext_elem {A} (P Q : A -> Prop) `{forall x, Decision (P x)} `{forall x, Decision (Q x)}
    (l : list A) :
  (forall x, x ∈ l -> P x <-> Q x) -> filter P l = filter Q l.
Proof.
  induction l as [|a l IH]; intros Hl; [done|]. rewrite !filter_cons.
  rewrite IH by (intros; apply Hl; by right).
  specialize (Hl a ltac:(left)). destruct (decide (P a)), (decide (Q a)); tauto.
Qed.

Lemma filter_all_elem {A} (P : A -> Prop) `{forall x, Decision (P x)} (l : list A) :
  (forall x, x ∈ l -> P x) -> filter P l = l.
Proof.
  induction l as [|a l IH]; intros Hl; [done|]. rewrite filter_cons, decide_True by (apply Hl; left).
  by rewrite IH by (intros; apply Hl; by right).
Qed.

Lemma filter_none_elem {A} (P : A -> Prop) `{forall x, Decision (P x)} (l : list A) :
  (forall x, x ∈ l -> ~ P x) -> filter P l = [].
Proof.
  induction l as [|a l IH]; intros Hl; [done|]. rewrite filter_cons, decide_False by (apply Hl; left).
  by rewrite IH by (intros; apply Hl; by right).
Qed.

(** ** Automation *)
Create HintDb trueos discriminated.
#[export] Hint Resolve wrapu_small wrapu_range aget_Ok aset_Ok : trueos.

(** Take one monadic step: rewrite the head computation of a bind with a
    known result. *)
Ltac mrun H := rewrite (mbindM_Ok _ _ _ _ _ H); cbn beta iota.

(** The same up to conversion of the state. *)
Ltac mrunc H := erewrite mbindM_Ok; [|exact H]; cbn beta iota.

(** Split a successful bind hypothesis into its parts, repeatedly. *)
Ltac minv :=
  repeat match goal with
  | H : (mbind _ _) _ = Ok _ |- _ =>
      let a := fresh "a" in let s := fresh "s" in
      let H1 := fresh "H" in
      apply mbindM_inv in H; destruct H as (a & s & H1 & H)
  | H : mbind _ _ = Ok _ |- _ =>
      let a := fresh "a" in let H1 := fresh "H" in
      apply bind_inv in H; destruct H as (a & H1 & H)
  | H : Ok _ = Ok _ |- _ => injection H as H
  | H : Panic _ = Ok _ |- _ => discriminate H
  | H : Fault = Ok _ |- _ => discriminate H
  | H : NoFuel = Ok _ |- _ => discriminate H
  end.

(** Case analysis on the boolean comparisons of a goal or hypothesis. *)
Ltac zcase :=
  repeat match goal with
  | |- context [?a =? ?b] => destruct (Z.eqb_spec a b)
  | |- context [?a <? ?b] => destruct (Z.ltb_spec a b)
  | |- context [?a <=? ?b] => destruct (Z.leb_spec a b)
  end.
