(* ===== verification/Bitmap.v ===== *)
(** * Bitmaps (lib/kernel/bitmap.h, lib/kernel/bitmap.c)

    The bitmap allocator under the page pools, the pid pool and the block and
    inode maps of the file system.  [bits] holds the bytes that can be read
    from the [bits] pointer on; the bitmap proper is the first
    [btmp_bytes_len] of them, what follows is whatever lies behind it in
    memory.  The theorems give the read-over-write law of [bitmap_set], show
    that [bitmap_scan] is a first-fit search, and say what it does at the end
    of the map. *)

From S2P Require Import Prelude.

Record bitmap : Type := mk_bitmap {
  btmp_bytes_len : Z;
  bits : list Z
}.

Definition BITMAP_MASK : Z := 1.

(** [bitmap_init]: [memset(bits, 0, btmp_bytes_len)]. *)
Definition bitmap_init (btmp : bitmap) : outcome bitmap :=
  let n := Z.to_nat (btmp_bytes_len btmp) in
  if (n <=? length (bits btmp))%nat
  then Ok (mk_bitmap (btmp_bytes_len btmp) (replicate n 0 ++ drop n (bits btmp)))
  else Fault.

(** [bitmap_scan_test]: the C [bool] is the masked byte itself. *)
Definition bitmap_scan_test (btmp : bitmap) (bit_idx : Z) : outcome Z :=
  let byte_idx := bit_idx / 8 in
  let bit_odd := bit_idx mod 8 in
  byte ← aget (bits btmp) byte_idx;
  Ok (Z.land byte (Z.shiftl BITMAP_MASK bit_odd)).

(** First loop of [bitmap_scan]: skip the bytes that are all ones.  The byte
    is read before the index is compared with the length. *)
Fixpoint scan_bytes (fuel : nat) (btmp : bitmap) (idx_byte : Z) : outcome Z :=
  match fuel with
  | O => NoFuel
  | S fuel' =>
      byte ← aget (bits btmp) idx_byte;
      if (255 =? byte) && (idx_byte <? btmp_bytes_len btmp)
      then scan_bytes fuel' btmp (u32 (idx_byte + 1))
      else Ok idx_byte
  end.

(** Second loop: the first clear bit of the byte. *)
Fixpoint scan_bits (fuel : nat) (byte : Z) (idx_bit : Z) : outcome Z :=
  match fuel with
  | O => NoFuel
  | S fuel' =>
      if truth (Z.land (u8 (Z.shiftl BITMAP_MASK idx_bit)) byte)
      then scan_bits fuel' byte (idx_bit + 1)
      else Ok idx_bit
  end.

(** Third loop: count clear bits from [next_bit]; [bit_left] iterations. *)
Fixpoint scan_run (bit_left : nat) (btmp : bitmap) (cnt next_bit count : Z) : outcome Z :=
  match bit_left with
  | O => Ok (-1)
  | S bit_left' =>
      t ← bitmap_scan_test btmp next_bit;
      let count := if truth t then 0 else u32 (count + 1) in
      if count =? cnt then Ok (i32 (u32 (next_bit - cnt + 1)))
      else scan_run bit_left' btmp cnt (u32 (next_bit + 1)) count
  end.

Definition bitmap_scan (btmp : bitmap) (cnt : Z) : outcome Z :=
  idx_byte ← scan_bytes (S (Z.to_nat (btmp_bytes_len btmp))) btmp 0;
  _ ← ASSERT (idx_byte <? btmp_bytes_len btmp) "bitmap_scan: idx_byte < btmp->btmp_bytes_len";
  if idx_byte =? btmp_bytes_len btmp then Ok (-1) else
  byte ← aget (bits btmp) idx_byte;
  idx_bit ← scan_bits 9 byte 0;
  let bit_idx_start := i32 (u32 (idx_byte * 8 + idx_bit)) in
  if cnt =? 1 then Ok bit_idx_start else
  let bit_left := u32 (u32 (btmp_bytes_len btmp * 8) - bit_idx_start) in
  scan_run (Z.to_nat bit_left) btmp cnt (u32 (bit_idx_start + 1)) 1.

Definition bitmap_set (btmp : bitmap) (bit_idx value : Z) : outcome bitmap :=
  _ ← ASSERT ((value =? 0) || (value =? 1)) "bitmap_set: value == 0 || value == 1";
  let byte_idx := bit_idx / 8 in
  let bit_odd := bit_idx mod 8 in
  byte ← aget (bits btmp) byte_idx;
  let byte' := if truth value
               then u8 (Z.lor byte (Z.shiftl BITMAP_MASK bit_odd))
               else u8 (Z.land byte (Z.lnot (Z.shiftl BITMAP_MASK bit_odd))) in
  l ← aset (bits btmp) byte_idx byte';
  Ok (mk_bitmap (btmp_bytes_len btmp) l).

(** ** Specification vocabulary *)

(** The bit [i] of the memory behind [bits]; bits that cannot be read are
    reported as set. *)
Definition bit_used (btmp : bitmap) (i : Z) : bool :=
  match bits btmp !! Z.to_nat (i / 8) with
  | Some byte => Z.testbit byte (i mod 8)
  | None => true
  end.

Definition is_byte (z : Z) : Prop := 0 <= z < 256.

(** The representation invariant: the map lies inside its memory, its bytes
    are bytes and its bit indices fit an [int32_t]. *)
Record bitmap_wf (btmp : bitmap) : Prop := {
  wf_len_nonneg : 0 <= btmp_bytes_len btmp;
  wf_len_small : btmp_bytes_len btmp * 8 < 2 ^ 31 - 8;
  wf_len_mem : btmp_bytes_len btmp <= Z.of_nat (length (bits btmp));
  wf_bytes : Forall is_byte (bits btmp)
}.

Definition nbits (btmp : bitmap) : Z := btmp_bytes_len btmp * 8.

(** [run btmp k cnt]: the [cnt] bits from [k] on are clear. *)
Definition run (btmp : bitmap) (k cnt : Z) : Prop :=
  forall j, k <= j < k + cnt -> bit_used btmp j = false.

(** ** Bit-level lemmas *)

Lemma testbit_mask k j : 0 <= k -> 0 <= j -> Z.testbit (Z.shiftl BITMAP_MASK k) j = (k =? j).
Proof.
  intros. unfold BITMAP_MASK. rewrite Z.shiftl_spec by done.
  destruct (Z.eqb_spec k j) as [->|].
  - by rewrite Z.sub_diag.
  - destruct (Z.ltb_spec (j - k) 0); [by apply Z.testbit_neg_r|].
    change 1 with (2 ^ 0). apply Z.pow2_bits_false. lia.
Qed.

Lemma land_mask_truth b k : 0 <= k ->
  truth (Z.land b (Z.shiftl BITMAP_MASK k)) = Z.testbit b k.
Proof.
  intros. unfold truth, BITMAP_MASK. rewrite Z.shiftl_1_l.
  destruct (Z.eqb_spec (Z.land b (2 ^ k)) 0) as [E|E]; cbn.
  - apply (f_equal (fun z => Z.testbit z k)) in E.
    rewrite Z.land_spec, Z.pow2_bits_true, andb_true_r, Z.bits_0 in E by lia. done.
  - destruct (Z.testbit b k) eqn:Hb; [done|]. exfalso. apply E.
    apply Z.bits_inj'. intros j Hj. rewrite Z.land_spec, Z.bits_0.
    destruct (Z.eqb_spec k j) as [->|]; [by rewrite Hb|].
    rewrite Z.pow2_bits_false by lia. apply andb_false_r.
Qed.

Lemma byte_bit_high z j : is_byte z -> 8 <= j -> Z.testbit z j = false.
Proof.
  intros [H0 H1] Hj. destruct (Z.eq_dec z 0) as [->|]; [by rewrite Z.bits_0|].
  apply Z.bits_above_log2; [done|].
  assert (Z.log2 z < 8) by (apply Z.log2_lt_pow2; lia). lia.
Qed.

Lemma testbit_u8 z j : 0 <= j -> Z.testbit (u8 z) j = (j <? 8) && Z.testbit z j.
Proof.
  intros. unfold wrapu. destruct (Z.ltb_spec j 8); cbn.
  - by rewrite Z.mod_pow2_bits_low.
  - rewrite Z.mod_pow2_bits_high; [done|lia].
Qed.

Lemma u8_is_byte z : is_byte (u8 z).
Proof. apply (wrapu_range 8). lia. Qed.

Lemma byte_255 z : is_byte z -> (forall j, 0 <= j < 8 -> Z.testbit z j = true) -> z = 255.
Proof.
  intros Hz H. apply Z.bits_inj'. intros j Hj.
  change 255 with (Z.ones 8). destruct (Z.ltb_spec j 8).
  - rewrite Z.ones_spec_low by lia. apply H. lia.
  - rewrite Z.ones_spec_high by lia. by apply byte_bit_high.
Qed.

Lemma byte_not_255 z : is_byte z -> z <> 255 -> exists j, 0 <= j < 8 /\ Z.testbit z j = false.
Proof.
  intros Hz Hn.
  destruct (Z.testbit z 0) eqn:H0; [|exists 0; split; [lia|done]].
  destruct (Z.testbit z 1) eqn:H1; [|exists 1; split; [lia|done]].
  destruct (Z.testbit z 2) eqn:H2; [|exists 2; split; [lia|done]].
  destruct (Z.testbit z 3) eqn:H3; [|exists 3; split; [lia|done]].
  destruct (Z.testbit z 4) eqn:H4; [|exists 4; split; [lia|done]].
  destruct (Z.testbit z 5) eqn:H5; [|exists 5; split; [lia|done]].
  destruct (Z.testbit z 6) eqn:H6; [|exists 6; split; [lia|done]].
  destruct (Z.testbit z 7) eqn:H7; [|exists 7; split; [lia|done]].
  destruct Hn. apply byte_255; [done|]. intros j Hj.
  assert (j = 0 \/ j = 1 \/ j = 2 \/ j = 3 \/ j = 4 \/ j = 5 \/ j = 6 \/ j = 7) as D by lia.
  repeat (destruct D as [->|D]; [done|]). by rewrite D.
Qed.

Lemma bitmap_scan_test_spec btmp i :
  0 <= i < Z.of_nat (length (bits btmp)) * 8 ->
  exists t, bitmap_scan_test btmp i = Ok t /\ truth t = bit_used btmp i.
Proof.
  intros Hi. unfold bitmap_scan_test, bit_used.
  destruct (aget_in_range (bits btmp) (i / 8)) as (b & -> & ->).
  { split; [apply Z.div_pos; lia|]. apply Z.div_lt_upper_bound; lia. }
  eexists. split; [done|]. apply land_mask_truth. apply Z.mod_pos_bound. lia.
Qed.

Lemma bit_used_split btmp q r byte :
  bits btmp !! Z.to_nat q = Some byte -> 0 <= q -> 0 <= r < 8 ->
  bit_used btmp (q * 8 + r) = Z.testbit byte r.
Proof.
  intros Hb Hq Hr. unfold bit_used.
  replace ((q * 8 + r) / 8) with q by (rewrite Z.add_comm, Z.div_add, Z.div_small; lia).
  replace ((q * 8 + r) mod 8) with r
    by (rewrite Z.add_comm, Z.mod_add, Z.mod_small; lia).
  by rewrite Hb.
Qed.

(** Where the first loop stops: the first byte that is not [0xFF]. *)
Lemma scan_bytes_stop fuel btmp i :
  bitmap_wf btmp -> 0 <= i <= btmp_bytes_len btmp ->
  (Z.to_nat (btmp_bytes_len btmp - i) < fuel)%nat ->
  (forall j, 0 <= j < i -> bits btmp !! Z.to_nat j = Some 255) ->
  (exists k byte, i <= k < btmp_bytes_len btmp /\ scan_bytes fuel btmp i = Ok k /\
     bits btmp !! Z.to_nat k = Some byte /\ byte <> 255 /\
     forall j, 0 <= j < k -> bits btmp !! Z.to_nat j = Some 255) \/
  ((forall j, 0 <= j < btmp_bytes_len btmp -> bits btmp !! Z.to_nat j = Some 255) /\
   scan_bytes fuel btmp i =
     if btmp_bytes_len btmp <? Z.of_nat (length (bits btmp)) then Ok (btmp_bytes_len btmp)
     else Fault).
Proof.
  intros Hwf. pose proof Hwf as [L0 L1 L2 L3].
  revert i. induction fuel as [|fuel IH]; intros i Hi Hf Hall; [lia|]. cbn [scan_bytes].
  destruct (Z.eq_dec i (btmp_bytes_len btmp)) as [->|Hne].
  - right. split; [done|]. rewrite Z.ltb_irrefl.
    destruct (Z.ltb_spec (btmp_bytes_len btmp) (Z.of_nat (length (bits btmp)))).
    + destruct (aget_in_range (bits btmp) (btmp_bytes_len btmp)) as (b & -> & _); [lia|].
      rewrite bind_Ok, andb_false_r. done.
    + by rewrite aget_out.
  - destruct (aget_in_range (bits btmp) i) as (b & -> & Hb); [lia|].
    rewrite bind_Ok. destruct (Z.eqb_spec 255 b) as [<-|Hb'].
    + destruct (Z.ltb_spec i (btmp_bytes_len btmp)); [|lia]. cbn [andb].
      rewrite wrapu_small by lia.
      assert (forall j, 0 <= j < i + 1 -> bits btmp !! Z.to_nat j = Some 255) as Hall'.
      { intros j Hj. destruct (Z.eq_dec j i) as [->|]; [done|]. apply Hall. lia. }
      destruct (IH (i + 1)) as [(k & byte & ? & ? & ?)|]; [lia|lia|done| |by right].
      left. exists k, byte. split; [lia|done].
    + left. exists i, b. split; [lia|]. split; [done|]. split; [done|]. split; [congruence|done].
Qed.

Lemma scan_bits_stop n byte i :
  is_byte byte -> 0 <= i -> (exists j, i <= j < 8 /\ Z.testbit byte j = false) ->
  (Z.to_nat (8 - i) < n)%nat ->
  exists k, i <= k < 8 /\ scan_bits n byte i = Ok k /\ Z.testbit byte k = false /\
    forall j, i <= j < k -> Z.testbit byte j = true.
Proof.
  intros Hb. revert i. induction n as [|n IH]; intros i Hi (j & Hj & Hf) Hn; [lia|].
  cbn [scan_bits]. rewrite (wrapu_small 8).
  2:{ unfold BITMAP_MASK. rewrite Z.shiftl_1_l. split; [lia|]. apply Z.pow_lt_mono_r; lia. }
  rewrite Z.land_comm, land_mask_truth by done.
  destruct (Z.testbit byte i) eqn:E.
  - assert (i <> j) by congruence.
    destruct (IH (i + 1)) as (k & ? & -> & ? & Hall); [lia| |lia|].
    { exists j. split; [lia|done]. }
    exists k. split; [lia|]. split; [done|]. split; [done|]. intros j' Hj'.
    destruct (Z.eq_dec j' i) as [->|]; [done|]. apply Hall. lia.
  - exists i. split; [lia|]. split; [done|]. split; [done|]. lia.
Qed.

(** The first two loops together: the first clear bit of the map. *)
Lemma scan_start btmp :
  bitmap_wf btmp ->
  (exists f, 0 <= f < nbits btmp /\ bit_used btmp f = false) ->
  exists q r byte, 0 <= q < btmp_bytes_len btmp /\ 0 <= r < 8 /\
    scan_bytes (S (Z.to_nat (btmp_bytes_len btmp))) btmp 0 = Ok q /\
    bits btmp !! Z.to_nat q = Some byte /\ scan_bits 9 byte 0 = Ok r /\
    bit_used btmp (q * 8 + r) = false /\
    forall j, 0 <= j < q * 8 + r -> bit_used btmp j = true.
Proof.
  intros Hwf (f & Hf & Hfree). pose proof Hwf as [L0 L1 L2 L3]. unfold nbits in Hf.
  destruct (scan_bytes_stop (S (Z.to_nat (btmp_bytes_len btmp))) btmp 0 Hwf)
    as [(q & byte & Hq & Hs & Hb & Hne & Hall)|[Hall _]]; [lia|lia|lia| |].
  - assert (is_byte byte) as Hby by (eapply Forall_lookup_1; eauto).
    destruct (byte_not_255 byte Hby Hne) as (r0 & Hr0 & Hr0').
    destruct (scan_bits_stop 9 byte 0 Hby) as (r & Hr & Hsb & Hrf & Hrall);
      [lia|by exists r0|lia|].
    exists q, r, byte. repeat (split; [lia || done|]). split.
    { by rewrite (bit_used_split _ _ _ byte) by (done || lia). }
    intros j Hj. pose proof (Z.div_mod j 8 ltac:(lia)) as Hdm.
    pose proof (Z.mod_pos_bound j 8 ltac:(lia)) as Hm.
    replace j with (j / 8 * 8 + j mod 8) by lia.
    destruct (Z.ltb_spec (j / 8) q).
    + rewrite (bit_used_split _ _ _ 255); [|apply Hall; split; [apply Z.div_pos; lia|lia]
        |apply Z.div_pos; lia|lia].
      change 255 with (Z.ones 8). apply Z.ones_spec_low. lia.
    + assert (j / 8 = q) as -> by lia.
      rewrite (bit_used_split _ _ _ byte) by (done || lia). apply Hrall. lia.
  - exfalso. unfold bit_used in Hfree. rewrite Hall in Hfree.
    2:{ split; [apply Z.div_pos; lia|apply Z.div_lt_upper_bound; lia]. }
    change 255 with (Z.ones 8) in Hfree. rewrite Z.ones_spec_low in Hfree; [done|].
    pose proof (Z.mod_pos_bound f 8). lia.
Qed.

Lemma run_extend btmp k cnt : 0 <= cnt ->
  run btmp k (cnt + 1) <-> run btmp k cnt /\ bit_used btmp (k + cnt) = false.
Proof.
  intros Hc. unfold run. split.
  - intros H. split; [intros j Hj|]; apply H; lia.
  - intros [H H1] j Hj. destruct (Z.eq_dec j (k + cnt)) as [->|]; [done|]. apply H. lia.
Qed.

(** The third loop.  [next] is the bit about to be tested, the [count] bits
    before it are clear and no run of [cnt] bits ends before [next]. *)
Lemma scan_run_first_fit n btmp cnt next count :
  0 < cnt -> 0 <= count < cnt -> count <= next -> next + Z.of_nat n < 2 ^ 31 ->
  next + Z.of_nat n <= Z.of_nat (length (bits btmp)) * 8 -> cnt < 2 ^ 32 ->
  run btmp (next - count) count ->
  (forall k, 0 <= k -> k + cnt <= next -> ~ run btmp k cnt) ->
  (forall k, 0 <= k < next - count -> k + cnt > next -> ~ run btmp k cnt) ->
  exists r, scan_run n btmp cnt next count = Ok r /\
    ((r = -1 /\ forall k, 0 <= k -> k + cnt <= next + Z.of_nat n -> ~ run btmp k cnt) \/
     (0 <= r /\ r + cnt <= next + Z.of_nat n /\ run btmp r cnt /\
      forall k, 0 <= k < r -> ~ run btmp k cnt)).
Proof.
  revert next count. induction n as [|n IH];
    intros next count Hc Hcnt Hle Hb Hmem Hcs Hrun Hno Hmid; cbn [scan_run].
  { exists (-1). split; [done|]. left. split; [done|]. intros k Hk Hk'. apply Hno; lia. }
  destruct (bitmap_scan_test_spec btmp next) as (t & -> & Ht); [lia|].
  rewrite bind_Ok, Ht. destruct (bit_used btmp next) eqn:Hu.
  - destruct (Z.eqb_spec 0 cnt) as [?|_]; [lia|].
    rewrite (wrapu_small 32 (next + 1)) by lia.
    assert (forall k, 0 <= k -> k + cnt > next -> k <= next -> ~ run btmp k cnt) as Hx.
    { intros k ? ? ? H. specialize (H next). rewrite Hu in H. discriminate H. lia. }
    destruct (IH (next + 1) 0) as (r & -> & Hr); try lia.
    + intros j Hj. lia.
    + intros k Hk Hk'. destruct (Z.leb_spec (k + cnt) next); [apply Hno|apply Hx]; lia.
    + intros k Hk Hk'. apply Hx; lia.
    + exists r. split; [done|]. replace (next + Z.of_nat (S n)) with (next + 1 + Z.of_nat n) by lia.
      done.
  - rewrite (wrapu_small 32 (count + 1)) by lia.
    assert (run btmp (next - count) (count + 1)) as Hrun'.
    { apply run_extend; [lia|]. split; [done|]. by replace (next - count + count) with next by lia. }
    assert (forall k, 0 <= k < next - count -> ~ run btmp k cnt) as Hbefore.
    { intros k Hk. destruct (Z.leb_spec (k + cnt) next); [apply Hno|apply Hmid]; lia. }
    destruct (Z.eqb_spec (count + 1) cnt) as [<-|Hne].
    + exists (next - count). split.
      { rewrite (wrapu_small 32) by lia. rewrite wraps_small by lia. f_equal. lia. }
      right. split; [lia|]. split; [lia|]. split; [done|]. done.
    + rewrite (wrapu_small 32 (next + 1)) by lia.
      destruct (IH (next + 1) (count + 1)) as (r & -> & Hr); try lia.
      * by replace (next + 1 - (count + 1)) with (next - count) by lia.
      * intros k Hk Hk'. destruct (Z.leb_spec (k + cnt) next); [apply Hno; lia|].
        apply Hbefore. lia.
      * intros k Hk Hk'. apply Hbefore. lia.
      * exists r. split; [done|].
        replace (next + Z.of_nat (S n)) with (next + 1 + Z.of_nat n) by lia. done.
Qed.

(** ** The operations *)

Lemma bit_used_insert btmp i byte byte' j :
  0 <= i -> 0 <= j -> bits btmp !! Z.to_nat (i / 8) = Some byte ->
  bit_used (mk_bitmap (btmp_bytes_len btmp) (<[Z.to_nat (i / 8) := byte']> (bits btmp))) j =
    if i / 8 =? j / 8 then Z.testbit byte' (j mod 8) else bit_used btmp j.
Proof.
  intros Hi Hj Hb. unfold bit_used. cbn [bits].
  assert (0 <= i / 8) by (apply Z.div_pos; lia). assert (0 <= j / 8) by (apply Z.div_pos; lia).
  destruct (Z.eqb_spec (i / 8) (j / 8)) as [<-|Hne].
  - rewrite list_lookup_insert_eq; [done|]. by eapply lookup_lt_Some.
  - rewrite list_lookup_insert_ne by lia. done.
Qed.

Lemma same_bit i j : i / 8 = j / 8 -> i mod 8 = j mod 8 -> i = j.
Proof.
  intros Hq Hm. pose proof (Z.div_mod i 8 ltac:(lia)). pose proof (Z.div_mod j 8 ltac:(lia)). lia.
Qed.

Lemma bitmap_set_ok btmp i v :
  bitmap_wf btmp -> 0 <= i < nbits btmp -> v = 0 \/ v = 1 ->
  exists btmp', bitmap_set btmp i v = Ok btmp' /\ bitmap_wf btmp' /\
    btmp_bytes_len btmp' = btmp_bytes_len btmp /\
    length (bits btmp') = length (bits btmp) /\
    forall j, 0 <= j -> bit_used btmp' j = if j =? i then v =? 1 else bit_used btmp j.
Proof.
  intros [L0 L1 L2 L3] Hi Hv. unfold nbits in Hi. unfold bitmap_set.
  assert (0 <= i / 8 < Z.of_nat (length (bits btmp))) as Hq.
  { split; [apply Z.div_pos; lia|]. apply Z.div_lt_upper_bound; lia. }
  destruct (aget_in_range (bits btmp) (i / 8)) as (byte & Hg & Hb); [lia|].
  assert (is_byte byte) as Hby by (eapply Forall_lookup_1; eauto).
  pose proof (Z.mod_pos_bound i 8 ltac:(lia)) as Hm.
  replace ((v =? 0) || (v =? 1)) with true by (destruct Hv as [->| ->]; done).
  rewrite ASSERT_true, bind_Ok, Hg, bind_Ok, aset_Ok, bind_Ok by done.
  eexists. split; [done|]. split; [|split; [done|split; [cbn; by rewrite length_insert|]]].
  - split; cbn; [done..| |].
    + by rewrite length_insert.
    + apply Forall_insert; [done|]. destruct Hv as [->| ->]; apply u8_is_byte.
  - intros j Hj. rewrite (bit_used_insert _ _ byte) by (lia || done).
    pose proof (Z.mod_pos_bound j 8 ltac:(lia)) as Hmj.
    destruct (Z.eqb_spec j i) as [->|Hne].
    + rewrite Z.eqb_refl. destruct Hv as [->| ->]; cbn [truth negb Z.eqb];
        rewrite testbit_u8 by lia; destruct (Z.ltb_spec (i mod 8) 8); try lia; cbn [andb].
      * rewrite Z.land_spec, Z.lnot_spec, testbit_mask, Z.eqb_refl by lia. apply andb_false_r.
      * rewrite Z.lor_spec, testbit_mask, Z.eqb_refl by lia. apply orb_true_r.
    + destruct (Z.eqb_spec (i / 8) (j / 8)) as [Hq'|]; [|done].
      assert ((i mod 8 =? j mod 8) = false) as Hmne.
      { apply Z.eqb_neq. intros ?. apply Hne. symmetry. by apply same_bit. }
      assert (bit_used btmp j = Z.testbit byte (j mod 8)) as ->.
      { unfold bit_used. by rewrite <- Hq', Hb. }
      destruct Hv as [->| ->]; cbn [truth negb Z.eqb];
        rewrite testbit_u8 by lia; destruct (Z.ltb_spec (j mod 8) 8); try lia; cbn [andb].
      * rewrite Z.land_spec, Z.lnot_spec, testbit_mask, Hmne by lia. apply andb_true_r.
      * rewrite Z.lor_spec, testbit_mask, Hmne by lia. apply orb_false_r.
Qed.

Lemma bitmap_scan_one_ok btmp :
  bitmap_wf btmp ->
  (exists f, 0 <= f < nbits btmp /\ bit_used btmp f = false) ->
  exists k, bitmap_scan btmp 1 = Ok k /\ 0 <= k < nbits btmp /\ bit_used btmp k = false /\
    forall j, 0 <= j < k -> bit_used btmp j = true.
Proof.
  intros Hwf Hf. pose proof Hwf as [L0 L1 L2 L3].
  destruct (scan_start btmp Hwf Hf) as (q & r & byte & Hq & Hr & Hs & Hb & Hsb & Hfree & Hall).
  exists (q * 8 + r). unfold bitmap_scan. rewrite Hs, bind_Ok.
  destruct (Z.ltb_spec q (btmp_bytes_len btmp)); [|lia]. rewrite ASSERT_true, bind_Ok.
  destruct (Z.eqb_spec q (btmp_bytes_len btmp)); [lia|].
  rewrite (aget_Ok _ _ byte), bind_Ok, Hsb, bind_Ok by (lia || done). cbn [Z.eqb Pos.eqb].
  rewrite wrapu_small, wraps_small by lia. unfold nbits. split; [done|]. split; [lia|]. done.
Qed.

(** Claim the first clear bit: the scan-then-set pattern that every client of
    the allocator uses. *)
Lemma bitmap_claim btmp :
  bitmap_wf btmp ->
  (exists f, 0 <= f < nbits btmp /\ bit_used btmp f = false) ->
  exists k btmp', bitmap_scan btmp 1 = Ok k /\ bitmap_set btmp k 1 = Ok btmp' /\
    0 <= k < nbits btmp /\ bit_used btmp k = false /\ bitmap_wf btmp' /\
    btmp_bytes_len btmp' = btmp_bytes_len btmp /\ length (bits btmp') = length (bits btmp) /\
    forall j, 0 <= j -> bit_used btmp' j = if j =? k then true else bit_used btmp j.
Proof.
  intros Hwf Hf. destruct (bitmap_scan_one_ok btmp Hwf Hf) as (k & Hs & Hk & Hfree & _).
  destruct (bitmap_set_ok btmp k 1 Hwf Hk) as (b' & Hset & Hwf' & Hlen & Hmem & Hread); [auto|].
  exists k, b'. auto 10.
Qed.

Lemma bitmap_scan_one_full btmp :
  bitmap_wf btmp -> (forall j, 0 <= j < nbits btmp -> bit_used btmp j = true) ->
  forall cnt, bitmap_scan btmp cnt =
    if btmp_bytes_len btmp <? Z.of_nat (length (bits btmp))
    then Panic "bitmap_scan: idx_byte < btmp->btmp_bytes_len" else Fault.
Proof.
  intros Hwf Hfull cnt. pose proof Hwf as [L0 L1 L2 L3]. unfold bitmap_scan.
  destruct (scan_bytes_stop (S (Z.to_nat (btmp_bytes_len btmp))) btmp 0 Hwf)
    as [(q & byte & Hq & Hs & Hb & Hne & Hall)|[Hall Hs]]; [lia|lia|lia| |].
  - exfalso. destruct (byte_not_255 byte) as (r & Hr & Hf); [by eapply Forall_lookup_1| done|].
    rewrite <- (bit_used_split btmp q r byte) in Hf by (done || lia).
    rewrite Hfull in Hf; [done|]. unfold nbits. lia.
  - rewrite Hs. destruct (_ <? _); [|done]. rewrite bind_Ok, Z.ltb_irrefl. done.
Qed.

(** [bitmap_scan] for more than one bit. *)
Lemma bitmap_scan_run_ok btmp cnt f :
  bitmap_wf btmp -> 2 <= cnt < 2 ^ 31 ->
  btmp_bytes_len btmp < Z.of_nat (length (bits btmp)) ->
  0 <= f < nbits btmp -> bit_used btmp f = false ->
  exists r, bitmap_scan btmp cnt = Ok r /\
    ((r = -1 /\ forall k, 0 <= k -> k + cnt <= nbits btmp + 1 -> ~ run btmp k cnt) \/
     (0 <= r /\ r + cnt <= nbits btmp + 1 /\ run btmp r cnt /\
      forall k, 0 <= k < r -> ~ run btmp k cnt)).
Proof.
  intros Hwf Hc Hmem Hf Hfree. pose proof Hwf as [L0 L1 L2 L3].
  destruct (scan_start btmp Hwf) as (q & r & byte & Hq & Hr & Hs & Hb & Hsb & Hst & Hall);
    [by exists f|].
  unfold bitmap_scan. rewrite Hs, bind_Ok.
  destruct (Z.ltb_spec q (btmp_bytes_len btmp)); [|lia]. rewrite ASSERT_true, bind_Ok.
  destruct (Z.eqb_spec q (btmp_bytes_len btmp)); [lia|].
  rewrite (aget_Ok _ _ byte), bind_Ok, Hsb, bind_Ok by (lia || done).
  destruct (Z.eqb_spec cnt 1); [lia|].
  rewrite (wrapu_small 32 (q * 8 + r)), wraps_small by lia.
  rewrite (wrapu_small 32 (btmp_bytes_len btmp * 8)) by lia.
  rewrite !wrapu_small by lia. set (s := q * 8 + r) in *.
  destruct (scan_run_first_fit (Z.to_nat (btmp_bytes_len btmp * 8 - s)) btmp cnt (s + 1) 1)
    as (x & -> & Hx); try lia.
  - replace (s + 1 - 1) with s by lia. intros j Hj. by assert (j = s) as -> by lia.
  - intros k Hk Hk' Hr'. specialize (Hr' k). rewrite Hall in Hr'; [|lia].
    assert (true = false) by (apply Hr'; lia). done.
  - intros k Hk Hk' Hr'. specialize (Hr' k). rewrite Hall in Hr'; [|lia].
    assert (true = false) by (apply Hr'; lia). done.
  - exists x. split; [done|]. unfold nbits.
    replace (s + 1 + Z.of_nat (Z.to_nat (btmp_bytes_len btmp * 8 - s)))
      with (btmp_bytes_len btmp * 8 + 1) in Hx by lia. done.
Qed.

(** [bitmap_scan] on a map that has a run of the wanted length. *)
Lemma bitmap_scan_any btmp cnt k :
  bitmap_wf btmp -> 1 <= cnt < 2 ^ 31 -> btmp_bytes_len btmp < Z.of_nat (length (bits btmp)) ->
  0 <= k -> k + cnt <= nbits btmp -> run btmp k cnt ->
  exists r, bitmap_scan btmp cnt = Ok r /\ 0 <= r <= k /\ run btmp r cnt.
Proof.
  intros Hwf Hc Hmem Hk Hle Hrun. assert (bit_used btmp k = false) as Hf by (apply Hrun; lia).
  destruct (Z.eq_dec cnt 1) as [->|Hne].
  - destruct (bitmap_scan_one_ok btmp Hwf) as (r & Hs & Hr & Hfr & Hall); [exists k; split; [lia|done]|].
    exists r. split; [done|]. split.
    + destruct (Z.leb_spec r k); [lia|]. rewrite Hall in Hf; [done|lia].
    + intros j Hj. by assert (j = r) as -> by lia.
  - destruct (bitmap_scan_run_ok btmp cnt k) as (r & Hs & [[-> Hno]|(H1 & H2 & H3 & H4)]); try done; try lia.
    + destruct (Hno k); [lia|lia|done].
    + exists r. split; [done|]. split; [|done]. destruct (Z.leb_spec r k); [lia|]. by destruct (H4 k); [lia|].
Qed.

(** ** Theorems *)

(** Read-over-write for [bitmap_set]: on a well-formed map, setting an
    in-range bit to 0 or 1 succeeds, changes exactly that bit, and keeps the
    map well formed. *)
Theorem bitmap_set_read_over_write btmp i v :
  bitmap_wf btmp -> 0 <= i < nbits btmp -> v = 0 \/ v = 1 ->
  exists btmp', bitmap_set btmp i v = Ok btmp' /\ bitmap_wf btmp' /\ nbits btmp' = nbits btmp /\
    forall j, 0 <= j -> bit_used btmp' j = if j =? i then v =? 1 else bit_used btmp j.
Proof.
  intros Hwf Hi Hv. destruct (bitmap_set_ok btmp i v Hwf Hi Hv) as (b' & Hs & Hw & Hl & _ & Hr).
  exists b'. unfold nbits. rewrite Hl. auto.
Qed.

(** [bitmap_scan btmp 1] is first fit: when some bit is clear it returns
    the least clear bit, so all bits below the result are used. *)
Theorem bitmap_scan_one_first_fit btmp f :
  bitmap_wf btmp -> 0 <= f < nbits btmp -> bit_used btmp f = false ->
  exists k, bitmap_scan btmp 1 = Ok k /\ 0 <= k <= f /\ bit_used btmp k = false /\
    forall j, 0 <= j < k -> bit_used btmp j = true.
Proof.
  intros Hwf Hf Hfree. destruct (bitmap_scan_one_ok btmp Hwf) as (k & Hs & Hk & Hkf & Hall); [by exists f|].
  exists k. split; [done|]. split; [|done].
  destruct (Z.leb_spec k f); [lia|]. rewrite Hall in Hfree; [done|lia].
Qed.

(** [bitmap_scan btmp cnt] for [cnt >= 2] on a map with a clear bit: it
    terminates and returns the first run of [cnt] clear bits, or -1 when there
    is none -- where the search window is one bit longer than the map
    ([nbits + 1]), because [bit_left] counts the start bit twice. *)
Theorem bitmap_scan_run_first_fit btmp cnt f :
  bitmap_wf btmp -> 2 <= cnt < 2 ^ 31 ->
  btmp_bytes_len btmp < Z.of_nat (length (bits btmp)) ->
  0 <= f < nbits btmp -> bit_used btmp f = false ->
  exists r, bitmap_scan btmp cnt = Ok r /\
    ((r = -1 /\ forall k, 0 <= k -> k + cnt <= nbits btmp + 1 -> ~ run btmp k cnt) \/
     (0 <= r /\ r + cnt <= nbits btmp + 1 /\ run btmp r cnt /\
      forall k, 0 <= k < r -> ~ run btmp k cnt)).
Proof. apply bitmap_scan_run_ok. Qed.

(** C33. On a full map [bitmap_scan] never reports failure: the [ASSERT] in
    front of the [return -1] stops the kernel first (or, with no readable byte
    behind the map, the loop has already read outside it). *)
Theorem bitmap_scan_full_never_minus_one btmp cnt :
  bitmap_wf btmp -> (forall j, 0 <= j < nbits btmp -> bit_used btmp j = true) ->
  bitmap_scan btmp cnt =
    if btmp_bytes_len btmp <? Z.of_nat (length (bits btmp))
    then Panic "bitmap_scan: idx_byte < btmp->btmp_bytes_len" else Fault.
Proof. intros Hwf Hfull. by apply bitmap_scan_one_full. Qed.

(** The one-bit overrun of the window is reachable: on a one-byte map
    whose only clear bit is the last one, a request for two bits returns 7,
    i.e. a run whose second bit (8) is outside the map. *)
Theorem bitmap_scan_overrun :
  let btmp := mk_bitmap 1 [127; 0] in
  bitmap_scan btmp 2 = Ok 7 /\ ~ (7 + 2 <= nbits btmp).
Proof. split; [reflexivity|]. unfold nbits. cbn. lia. Qed.

(** ** Witnesses *)

Definition demo_map : bitmap := mk_bitmap 2 [255; 3; 0].

Lemma demo_map_wf : bitmap_wf demo_map.
Proof. split; cbn; try lia. repeat constructor; unfold is_byte; lia. Defined.

Lemma bitmap_set_read_over_write_witness :
  exists btmp', bitmap_set demo_map 10 1 = Ok btmp' /\ bitmap_wf btmp' /\
    nbits btmp' = nbits demo_map /\
    forall j, 0 <= j -> bit_used btmp' j = if j =? 10 then 1 =? 1 else bit_used demo_map j.
Proof.
  apply (bitmap_set_read_over_write demo_map 10 1 demo_map_wf); [unfold nbits; cbn; lia|auto].
Defined.

Lemma bitmap_scan_one_first_fit_witness :
  exists k, bitmap_scan demo_map 1 = Ok k /\ 0 <= k <= 12 /\ bit_used demo_map k = false /\
    forall j, 0 <= j < k -> bit_used demo_map j = true.
Proof.
  apply (bitmap_scan_one_first_fit demo_map 12 demo_map_wf); [unfold nbits; cbn; lia|reflexivity].
Defined.

Lemma bitmap_scan_run_first_fit_witness :
  exists r, bitmap_scan demo_map 3 = Ok r /\
    ((r = -1 /\ forall k, 0 <= k -> k + 3 <= nbits demo_map + 1 -> ~ run demo_map k 3) \/
     (0 <= r /\ r + 3 <= nbits demo_map + 1 /\ run demo_map r 3 /\
      forall k, 0 <= k < r -> ~ run demo_map k 3)).
Proof.
  apply (bitmap_scan_run_first_fit demo_map 3 12 demo_map_wf);
    [lia|cbn; lia|unfold nbits; cbn; lia|reflexivity].
Defined.

Lemma bitmap_scan_full_never_minus_one_witness :
  bitmap_scan (mk_bitmap 2 [255; 255; 7]) 1 =
    Panic "bitmap_scan: idx_byte < btmp->btmp_bytes_len".
Proof.
  apply (bitmap_scan_full_never_minus_one (mk_bitmap 2 [255; 255; 7]) 1).
  - split; cbn; try lia. repeat constructor; unfold is_byte; lia.
  - apply (forall_range_dec (bit_used _)). reflexivity.
Defined.
