(* ===== verification/Interrupt.v ===== *)
(** * Interrupt state and gate descriptors (kernel/interrupt.h, kernel/interrupt.c)

    The interrupt flag lives in bit 9 of EFLAGS.  Every component whose code
    brackets a critical section with [intr_disable]/[intr_set_status] carries
    an EFLAGS word in its state; the class [HasEflags] is that interface.
    The second half models the interrupt descriptor table and the handler
    table. *)

From S2P Require Import Prelude.

Inductive intr_status : Type := INTR_OFF | INTR_ON.

#[global] Instance intr_status_eq_dec : EqDecision intr_status.
Proof. solve_decision. Defined.

(** What a component must offer for the interrupt routines to work on it. *)
Class HasEflags (S : Type) : Type := {
  eflags_of : S -> Z;
  with_eflags : Z -> S -> S;
  eflags_with : forall z s, eflags_of (with_eflags z s) = z;
  with_eflags_id : forall s, with_eflags (eflags_of s) s = s;
  with_eflags_twice : forall z z' s, with_eflags z (with_eflags z' s) = with_eflags z s
}.

Definition EFLAGS_IF : Z := 0x200.

Section Status.
Context {S : Type} `{HasEflags S}.

Definition intr_get_status_of (s : S) : intr_status :=
  if truth (Z.land (eflags_of s) EFLAGS_IF) then INTR_ON else INTR_OFF.

Definition intr_get_status : M S intr_status := fun s => Ok (intr_get_status_of s, s).

Definition sti : M S () := modS (fun s => with_eflags (Z.lor (eflags_of s) EFLAGS_IF) s).
Definition cli : M S () :=
  modS (fun s => with_eflags (Z.land (eflags_of s) (Z.lnot EFLAGS_IF)) s).

Definition intr_enable : M S intr_status :=
  old_status ← intr_get_status;
  _ ← (if decide (old_status = INTR_OFF) then sti else mret tt);
  mret old_status.

Definition intr_disable : M S intr_status :=
  old_status ← intr_get_status;
  _ ← (if decide (old_status = INTR_ON) then cli else mret tt);
  mret old_status.

Definition intr_set_status (status : intr_status) : M S intr_status :=
  match status with INTR_ON => intr_enable | INTR_OFF => intr_disable end.

(** *** Lemmas *)

(** EFLAGS with the interrupt flag cleared, the state [intr_disable] leaves. *)
Definition masked (s : S) : S := with_eflags (Z.land (eflags_of s) (Z.lnot EFLAGS_IF)) s.

Lemma if_bit (z : Z) : truth (Z.land z EFLAGS_IF) = Z.testbit z 9.
Proof.
  unfold truth, EFLAGS_IF. change 0x200 with (2 ^ 9).
  destruct (Z.eqb_spec (Z.land z (2 ^ 9)) 0) as [E|E]; cbn.
  - apply (f_equal (fun x => Z.testbit x 9)) in E.
    rewrite Z.land_spec, Z.pow2_bits_true, andb_true_r, Z.bits_0 in E by lia. done.
  - destruct (Z.testbit z 9) eqn:Hb; [done|]. exfalso. apply E.
    apply Z.bits_inj'. intros j Hj. rewrite Z.land_spec, Z.bits_0.
    destruct (Z.eqb_spec 9 j) as [<-|]; [by rewrite Hb|].
    rewrite Z.pow2_bits_false by lia. apply andb_false_r.
Qed.

Lemma cli_noop (z : Z) : Z.testbit z 9 = false -> Z.land z (Z.lnot EFLAGS_IF) = z.
Proof.
  intros Hz. apply Z.bits_inj'. intros j Hj. unfold EFLAGS_IF. change 0x200 with (2 ^ 9).
  rewrite Z.land_spec, Z.lnot_spec by done. destruct (Z.eqb_spec 9 j) as [<-|].
  - by rewrite Hz.
  - rewrite Z.pow2_bits_false by lia. apply andb_true_r.
Qed.

Lemma sti_after_cli (z : Z) :
  Z.testbit z 9 = true -> Z.lor (Z.land z (Z.lnot EFLAGS_IF)) EFLAGS_IF = z.
Proof.
  intros Hz. apply Z.bits_inj'. intros j Hj. unfold EFLAGS_IF. change 0x200 with (2 ^ 9).
  rewrite Z.lor_spec, Z.land_spec, Z.lnot_spec by done. destruct (Z.eqb_spec 9 j) as [<-|].
  - rewrite Z.pow2_bits_true, Hz by lia. done.
  - rewrite Z.pow2_bits_false, orb_false_r by lia. apply andb_true_r.
Qed.

Lemma cli_clears (z : Z) : Z.testbit (Z.land z (Z.lnot EFLAGS_IF)) 9 = false.
Proof. rewrite Z.land_spec, Z.lnot_spec by lia. unfold EFLAGS_IF. change 0x200 with (2 ^ 9).
  rewrite Z.pow2_bits_true by lia. apply andb_false_r. Qed.

Lemma status_on s : intr_get_status_of s = INTR_ON <-> Z.testbit (eflags_of s) 9 = true.
Proof.
  unfold intr_get_status_of. rewrite if_bit. destruct (Z.testbit _ 9); split; done.
Qed.

Lemma status_off s : intr_get_status_of s = INTR_OFF <-> Z.testbit (eflags_of s) 9 = false.
Proof.
  unfold intr_get_status_of. rewrite if_bit. destruct (Z.testbit _ 9); split; done.
Qed.

Lemma masked_off s : intr_get_status_of (masked s) = INTR_OFF.
Proof. apply status_off. unfold masked. rewrite eflags_with. apply cli_clears. Qed.

Lemma masked_id s : intr_get_status_of s = INTR_OFF -> masked s = s.
Proof.
  intros Hs. unfold masked. rewrite cli_noop by by apply status_off. apply with_eflags_id.
Qed.

Lemma intr_disable_run s : intr_disable s = Ok (intr_get_status_of s, masked s).
Proof.
  unfold intr_disable, mbind, M_bind, intr_get_status. destruct (intr_get_status_of s) eqn:E.
  - cbn. by rewrite masked_id.
  - cbn. done.
Qed.

Lemma intr_enable_run s : intr_get_status_of s = INTR_OFF ->
  intr_enable s = Ok (INTR_OFF, with_eflags (Z.lor (eflags_of s) EFLAGS_IF) s).
Proof. intros E. unfold intr_enable, mbind, M_bind, intr_get_status. by rewrite E. Qed.

(** Leaving a critical section entered from [s0]: the flag of [s0] comes back
    whatever the body did to the rest of the state. *)
Lemma intr_restore_run s0 s :
  eflags_of s = eflags_of (masked s0) ->
  exists r, intr_set_status (intr_get_status_of s0) s = Ok (r, with_eflags (eflags_of s0) s).
Proof.
  intros He. assert (intr_get_status_of s = INTR_OFF) as Hoff.
  { apply status_off. rewrite He. unfold masked. rewrite eflags_with. apply cli_clears. }
  unfold intr_set_status. destruct (intr_get_status_of s0) eqn:E.
  - rewrite masked_id in He by done. rewrite <- He, with_eflags_id, intr_disable_run, masked_id by done.
    eauto.
  - exists INTR_OFF. rewrite intr_enable_run by done. rewrite He. unfold masked.
    rewrite eflags_with, sti_after_cli by by apply status_on. done.
Qed.

End Status.

(** ** Descriptor tables *)

(** [struct gate_desc] *)
Record gate_desc : Type := mk_gate {
  func_offset_low_word : Z;
  selector : Z;
  dcount : Z;
  attribute : Z;
  func_offset_high_word : Z
}.

Definition IDT_DESC_CNT : Z := 0x81.
Definition SELECTOR_K_CODE : Z := Z.shiftl 1 3 + Z.shiftl 0 2 + 0.
Definition IDT_DESC_ATTR_DPL0 : Z := Z.shiftl 1 7 + Z.shiftl 0 5 + 0xE.
Definition IDT_DESC_ATTR_DPL3 : Z := Z.shiftl 1 7 + Z.shiftl 3 5 + 0xE.

(** [make_idt_desc]: the gate for the handler at address [function]. *)
Definition make_idt_desc (attr function : Z) : gate_desc :=
  mk_gate (u16 (Z.land function 0x0000FFFF)) SELECTOR_K_CODE 0 (u8 attr)
    (u16 (Z.shiftr (Z.land function 0xFFFF0000) 16)).

(** The loop of [idt_desc_init]: the first [n] gates, one per entry stub. *)
Fixpoint fill_gates (intr_entry_table : list Z) (n : nat) : outcome (list gate_desc) :=
  match n, intr_entry_table with
  | O, _ => Ok []
  | S _, [] => Fault
  | S n', e :: l => t ← fill_gates l n'; Ok (make_idt_desc IDT_DESC_ATTR_DPL0 e :: t)
  end.

(** [idt_desc_init]: then the system call gate in the last slot with DPL 3. *)
Definition idt_desc_init (intr_entry_table : list Z) (syscall_handler : Z) : outcome (list gate_desc) :=
  let lastindex := IDT_DESC_CNT - 1 in
  idt ← fill_gates intr_entry_table (Z.to_nat IDT_DESC_CNT);
  aset idt lastindex (make_idt_desc IDT_DESC_ATTR_DPL3 syscall_handler).

(** [register_handler]: [idt_table[vector_no] = function]; the table has
    [IDT_DESC_CNT] entries and the index is not checked. *)
Definition register_handler (idt_table : list Z) (vector_no function : Z) : outcome (list Z) :=
  aset idt_table (u8 vector_no) function.

(** The address the processor jumps to through a gate. *)
Definition gate_offset (g : gate_desc) : Z :=
  Z.lor (Z.shiftl (func_offset_high_word g) 16) (func_offset_low_word g).

(** Descriptor privilege level of a gate: bits 5 and 6 of the attribute byte. *)
Definition gate_dpl (g : gate_desc) : Z := Z.land (Z.shiftr (attribute g) 5) 3.

Lemma split_words (f : Z) : 0 <= f < 2 ^ 32 ->
  Z.lor (Z.shiftl (u16 (Z.shiftr (Z.land f 0xFFFF0000) 16)) 16) (u16 (Z.land f 0x0000FFFF)) = f.
Proof.
  intros Hf. apply Z.bits_inj'. intros j Hj. rewrite Z.lor_spec, Z.shiftl_spec by done.
  change 0xFFFF0000 with (Z.shiftl (Z.ones 16) 16). change 0xFFFF with (Z.ones 16).
  unfold wrapu. destruct (Z.ltb_spec j 16).
  - rewrite Z.testbit_neg_r, Z.mod_pow2_bits_low, Z.land_spec, Z.ones_spec_low by lia. cbn.
    apply andb_true_r.
  - rewrite (Z.mod_pow2_bits_high _ 16 j), orb_false_r by lia.
    destruct (Z.ltb_spec j 32).
    + rewrite Z.mod_pow2_bits_low, Z.shiftr_spec, Z.land_spec, Z.shiftl_spec by lia.
      replace (j - 16 + 16) with j by lia. rewrite Z.ones_spec_low by lia. apply andb_true_r.
    + rewrite Z.mod_pow2_bits_high by lia. symmetry.
      destruct (Z.eq_dec f 0) as [->|]; [apply Z.bits_0|].
      apply Z.bits_above_log2; [lia|].
      assert (Z.log2 f < 32) by (apply Z.log2_lt_pow2; lia). lia.
Qed.

Lemma gate_offset_make attr f : 0 <= f < 2 ^ 32 -> gate_offset (make_idt_desc attr f) = f.
Proof.
  intros Hf. unfold gate_offset, make_idt_desc. cbn [func_offset_high_word func_offset_low_word].
  by rewrite split_words.
Qed.

Lemma fill_gates_run l n : length l = n ->
  fill_gates l n = Ok (make_idt_desc IDT_DESC_ATTR_DPL0 <$> l).
Proof.
  revert l. induction n as [|n IH]; intros [|e l]; cbn; try done.
  intros Hlen. rewrite IH; [done|lia].
Qed.

(** The gate table built by [idt_desc_init]. *)
Lemma idt_desc_init_run tbl sys :
  length tbl = Z.to_nat IDT_DESC_CNT ->
  idt_desc_init tbl sys =
    Ok (<[Z.to_nat (IDT_DESC_CNT - 1) := make_idt_desc IDT_DESC_ATTR_DPL3 sys]>
          (make_idt_desc IDT_DESC_ATTR_DPL0 <$> tbl)).
Proof.
  intros Hl. unfold idt_desc_init. rewrite fill_gates_run, bind_Ok by done.
  apply aset_Ok. rewrite length_fmap, Hl. unfold IDT_DESC_CNT. lia.
Qed.

(** ** Theorems *)

(** Critical sections: for every component state and every body that
    leaves EFLAGS alone, [intr_disable] switches interrupts off, and the
    matching [intr_set_status(old_status)] brings back exactly the EFLAGS word
    of the entry, so nested critical sections compose. *)
Theorem critical_section_restores_eflags {S} `{HasEflags S} (s s1 s2 : S) old :
  intr_disable s = Ok (old, s1) -> eflags_of s2 = eflags_of s1 ->
  intr_get_status_of s1 = INTR_OFF /\
  exists r, intr_set_status old s2 = Ok (r, with_eflags (eflags_of s) s2).
Proof.
  rewrite intr_disable_run. intros [= <- <-] He. split; [apply masked_off|].
  by apply intr_restore_run.
Qed.

(** The descriptor table: [idt_desc_init] succeeds on a full entry table;
    gate [i] leads to entry stub [i] with DPL 0, except the last gate (vector
    0x80), which leads to [syscall_handler] with DPL 3 so that user code may
    raise it. *)
Theorem idt_gates_lead_to_their_handlers tbl sys :
  length tbl = Z.to_nat IDT_DESC_CNT -> Forall (fun a => 0 <= a < 2 ^ 32) tbl ->
  0 <= sys < 2 ^ 32 ->
  exists idt, idt_desc_init tbl sys = Ok idt /\
    (forall i e, 0 <= i < IDT_DESC_CNT - 1 -> tbl !! Z.to_nat i = Some e ->
       exists g, idt !! Z.to_nat i = Some g /\ gate_offset g = e /\ gate_dpl g = 0) /\
    exists g, idt !! Z.to_nat 0x80 = Some g /\ gate_offset g = sys /\ gate_dpl g = 3.
Proof.
  intros Hl Hr Hs. rewrite idt_desc_init_run by done. eexists. split; [done|]. split.
  - intros i e Hi He. exists (make_idt_desc IDT_DESC_ATTR_DPL0 e).
    rewrite list_lookup_insert_ne by lia. rewrite list_lookup_fmap, He. split; [done|].
    split; [|done]. rewrite gate_offset_make; [done|]. by eapply Forall_lookup_1 in Hr.
  - exists (make_idt_desc IDT_DESC_ATTR_DPL3 sys). split.
    + apply list_lookup_insert_eq. rewrite length_fmap, Hl. unfold IDT_DESC_CNT. lia.
    + split; [by apply gate_offset_make|done].
Qed.

#[global] Program Instance word_HasEflags : HasEflags Z := {|
  eflags_of := id; with_eflags := fun z _ => z
|}.
Solve Obligations with done.

Lemma critical_section_restores_eflags_witness :
  intr_get_status_of 0x2 = INTR_OFF /\ exists r, intr_set_status INTR_ON 0x2 =
    Ok (r, with_eflags (eflags_of 0x202) 0x2).
Proof. apply (critical_section_restores_eflags 0x202 0x2 0x2 INTR_ON); reflexivity. Defined.

Lemma idt_gates_lead_to_their_handlers_witness :
  exists idt, idt_desc_init (seqZ 0xC0001500 0x81) 0xC0001abc = Ok idt /\
    (forall i e, 0 <= i < IDT_DESC_CNT - 1 -> seqZ 0xC0001500 0x81 !! Z.to_nat i = Some e ->
       exists g, idt !! Z.to_nat i = Some g /\ gate_offset g = e /\ gate_dpl g = 0) /\
    exists g, idt !! Z.to_nat 0x80 = Some g /\ gate_offset g = 0xC0001abc /\ gate_dpl g = 3.
Proof.
  apply (idt_gates_lead_to_their_handlers (seqZ 0xC0001500 0x81) 0xC0001abc).
  - reflexivity.
  - apply Forall_forall. intros x [? ?]%elem_of_seqZ. lia.
  - lia.
Defined.
