(* ===== verification/DList.v ===== *)
(** * Intrusive doubly linked lists (lib/kernel/list.h, lib/kernel/list.c)

    The queue of the kernel: ready and all-threads lists, semaphore waiters,
    free memory blocks, partitions and open inodes.  [DList] is the pointer
    code on a heap of [list_elem] cells; [Queue] is the sequence of element
    addresses it stands for.  One refinement theorem per operation relates the
    two; the other components use the [Queue] operations. *)

From S2P Require Import Prelude Interrupt.

(** ** Abstract queues *)
Module Queue.

Definition q_push (xs : list Z) (e : Z) : list Z := e :: xs.
Definition q_append (xs : list Z) (e : Z) : list Z := xs ++ [e].
Definition q_remove (xs : list Z) (e : Z) : list Z := filter (fun x => x <> e) xs.
Definition q_find (xs : list Z) (e : Z) : bool := bool_decide (e ∈ xs).
Definition q_empty (xs : list Z) : bool := match xs with [] => true | _ => false end.

(** Popping the empty queue unlinks the tail sentinel through its NULL
    successor, see [list_pop_empty_faults]. *)
Definition q_pop (xs : list Z) : outcome (Z * list Z) :=
  match xs with [] => Fault | e :: xs' => Ok (e, xs') end.

(** Visit the elements in order until the callback answers true; NULL (0)
    when it never does. *)
Fixpoint q_traversal {X} (func : Z -> Z -> M X bool) (arg : Z) (xs : list Z) : M X Z :=
  match xs with
  | [] => mret 0
  | e :: xs' => b ← func e arg; if (b : bool) then mret e else q_traversal func arg xs'
  end.

End Queue.

(** ** The pointer code *)

(** [struct list_elem]; NULL is address 0. *)
Record list_elem : Type := mk_elem { prev : Z; next : Z }.

(** The heap of list cells, EFLAGS, and the rest [X] of the machine, which
    only [list_traversal]'s callback touches. *)
Record lstate (X : Type) : Type := mk_lstate {
  cells : gmap Z list_elem;
  lflags : Z;
  rest : X
}.
Arguments mk_lstate {X}.
Arguments cells {X}.
Arguments lflags {X}.
Arguments rest {X}.

#[global] Program Instance lstate_HasEflags X : HasEflags (lstate X) := {|
  eflags_of := lflags;
  with_eflags := fun z s => mk_lstate (cells s) z (rest s)
|}.
Solve Obligations with (intros; repeat match goal with s : lstate _ |- _ => destruct s end; reflexivity).

Module DList.
Section Ops.
Context {X : Type}.

Definition load (p : Z) : M (lstate X) list_elem := fun s =>
  match cells s !! p with Some c => Ok (c, s) | None => Fault end.

Definition store (p : Z) (f : list_elem -> list_elem) : M (lstate X) () := fun s =>
  match cells s !! p with
  | Some c => Ok (tt, mk_lstate (<[p := f c]> (cells s)) (lflags s) (rest s))
  | None => Fault
  end.

Definition set_prev (v : Z) (c : list_elem) : list_elem := mk_elem v (next c).
Definition set_next (v : Z) (c : list_elem) : list_elem := mk_elem (prev c) v.

(** A [struct list] at address [l] has its head cell at [l] and its tail cell
    right behind it (a [list_elem] is 8 bytes). *)
Definition head_of (l : Z) : Z := l.
Definition tail_of (l : Z) : Z := l + 8.

Definition list_init (l : Z) : M (lstate X) () :=
  _ ← store (head_of l) (set_prev 0);
  _ ← store (head_of l) (set_next (tail_of l));
  _ ← store (tail_of l) (set_prev (head_of l));
  store (tail_of l) (set_next 0).

Definition list_insert_before (before elem : Z) : M (lstate X) () :=
  old_status ← intr_disable;
  b ← load before;
  _ ← store (prev b) (set_next elem);
  b ← load before;
  _ ← store elem (set_prev (prev b));
  _ ← store elem (set_next before);
  _ ← store before (set_prev elem);
  _ ← intr_set_status old_status;
  mret tt.

Definition list_push (plist elem : Z) : M (lstate X) () :=
  h ← load (head_of plist);
  list_insert_before (next h) elem.

Definition list_append (plist elem : Z) : M (lstate X) () :=
  list_insert_before (tail_of plist) elem.

Definition list_remove (pelem : Z) : M (lstate X) () :=
  old_status ← intr_disable;
  c ← load pelem;
  _ ← store (prev c) (set_next (next c));
  c ← load pelem;
  _ ← store (next c) (set_prev (prev c));
  _ ← intr_set_status old_status;
  mret tt.

Definition list_pop (plist : Z) : M (lstate X) Z :=
  h ← load (head_of plist);
  let elem := next h in
  _ ← list_remove elem;
  mret elem.

Definition list_empty (plist : Z) : M (lstate X) bool :=
  h ← load (head_of plist);
  mret (next h =? tail_of plist).

(** The [while (elem != &plist->tail)] loop of [elem_find]. *)
Fixpoint find_loop (fuel : nat) (plist obj_elem elem : Z) : M (lstate X) bool :=
  match fuel with
  | O => fun _ => NoFuel
  | S fuel' =>
      if elem =? tail_of plist then mret false
      else if elem =? obj_elem then mret true
      else c ← load elem; find_loop fuel' plist obj_elem (next c)
  end.

Definition elem_find (fuel : nat) (plist obj_elem : Z) : M (lstate X) bool :=
  h ← load (head_of plist);
  find_loop fuel plist obj_elem (next h).

(** Run the callback on the rest of the machine. *)
Definition on_rest {A} (m : M X A) : M (lstate X) A := fun s =>
  match m (rest s) with
  | Ok (a, r) => Ok (a, mk_lstate (cells s) (lflags s) r)
  | Panic w => Panic w
  | Fault => Fault
  | NoFuel => NoFuel
  end.

Fixpoint traversal_loop (fuel : nat) (plist : Z) (func : Z -> Z -> M X bool) (arg elem : Z) :
    M (lstate X) Z :=
  match fuel with
  | O => fun _ => NoFuel
  | S fuel' =>
      if elem =? tail_of plist then mret 0
      else b ← on_rest (func elem arg);
           if (b : bool) then mret elem
           else c ← load elem; traversal_loop fuel' plist func arg (next c)
  end.

Definition list_traversal (fuel : nat) (plist : Z) (func : Z -> Z -> M X bool) (arg : Z) :
    M (lstate X) Z :=
  h ← load (head_of plist);
  let elem := next h in
  e ← list_empty plist;
  if (e : bool) then mret 0 else traversal_loop fuel plist func arg elem.

Fixpoint len_loop (fuel : nat) (plist elem length : Z) : M (lstate X) Z :=
  match fuel with
  | O => fun _ => NoFuel
  | S fuel' =>
      if elem =? tail_of plist then mret length
      else c ← load elem; len_loop fuel' plist (next c) (u32 (length + 1))
  end.

Definition list_len (fuel : nat) (plist : Z) : M (lstate X) Z :=
  h ← load (head_of plist);
  len_loop fuel plist (next h) 0.

(** ** Representation *)

Definition nxt (m : gmap Z list_elem) (p : Z) : option Z := next <$> m !! p.
Definition prv (m : gmap Z list_elem) (p : Z) : option Z := prev <$> m !! p.

(** Neighbours of the sequence point at each other. *)
Fixpoint linked (m : gmap Z list_elem) (ps : list Z) : Prop :=
  match ps with
  | a :: (b :: _) as t => nxt m a = Some b /\ prv m b = Some a /\ linked m t
  | _ => True
  end.

(** The list at [l] holds the elements [xs], in order. *)
Record dlist (m : gmap Z list_elem) (l : Z) (xs : list Z) : Prop := {
  dl_linked : linked m (l :: xs ++ [tail_of l]);
  dl_nodup : NoDup (l :: xs ++ [tail_of l]);
  dl_head : prv m l = Some 0;
  dl_tail : nxt m (tail_of l) = Some 0;
  dl_null : m !! 0 = None
}.

End Ops.

(** ** Heap lemmas *)

Lemma load_run {X} p c (s : lstate X) : cells s !! p = Some c -> load p s = Ok (c, s).
Proof. unfold load. by intros ->. Qed.

Lemma insert_is_alter (m : gmap Z list_elem) p c f : m !! p = Some c -> <[p := f c]> m = alter f p m.
Proof.
  intros Hp. apply map_eq. intros i. rewrite lookup_insert, lookup_alter.
  case_decide; [subst|done]. by rewrite Hp.
Qed.

Lemma store_run {X} p f (s : lstate X) : is_Some (cells s !! p) ->
  store p f s = Ok (tt, mk_lstate (alter f p (cells s)) (lflags s) (rest s)).
Proof. unfold store. intros [c Hc]. rewrite Hc. by rewrite (insert_is_alter _ _ c). Qed.

(** A critical section over the cells: enter, run a body that only changes
    the cells, leave. *)
Lemma leave_run {X} (s : lstate X) m' :
  exists r, intr_set_status (intr_get_status_of s) (mk_lstate m' (lflags (masked s)) (rest s)) =
    Ok (r, mk_lstate m' (lflags s) (rest s)).
Proof.
  destruct (intr_restore_run s (mk_lstate m' (lflags (masked s)) (rest s))) as [r Hr]; [done|].
  exists r. exact Hr.
Qed.

Lemma linked_cons2 m a b t :
  linked m (a :: b :: t) <-> nxt m a = Some b /\ prv m b = Some a /\ linked m (b :: t).
Proof. done. Qed.

Lemma linked_app m L a R :
  linked m (L ++ a :: R) <-> linked m (L ++ [a]) /\ linked m (a :: R).
Proof.
  induction L as [|x [|y L] IH]; cbn [app linked] in *; [tauto| |].
  - destruct R; cbn; tauto.
  - rewrite IH. tauto.
Qed.

Lemma linked_frame m m' ps :
  (forall a, a ∈ removelast ps -> nxt m' a = nxt m a) ->
  (forall b, b ∈ tail ps -> prv m' b = prv m b) ->
  linked m ps -> linked m' ps.
Proof.
  induction ps as [|a [|b ps] IH]; cbn [linked]; [done..|].
  intros Hn Hp (H1 & H2 & H3). split; [|split].
  - rewrite Hn; [done|]. cbn. left.
  - rewrite Hp; [done|]. cbn. left.
  - apply IH; [| |done].
    + intros x Hx. apply Hn. cbn [removelast] in *. right. done.
    + intros x Hx. apply Hp. cbn in *. right. done.
Qed.

Lemma linked_dom m ps a : (2 <= length ps)%nat -> linked m ps -> a ∈ ps -> is_Some (m !! a).
Proof.
  induction ps as [|x [|y ps] IH]; cbn [length linked]; intros Hl; try lia.
  intros (Hn & Hp & Hr) [->|Ha]%elem_of_cons.
  - unfold nxt in Hn. destruct (m !! x); [by eexists|done].
  - destruct ps as [|z ps].
    + apply list_elem_of_singleton in Ha as ->. unfold prv in Hp. destruct (m !! y); [by eexists|done].
    + apply IH; [cbn; lia|done|done].
Qed.

Lemma dlist_dom m l xs a : dlist m l xs -> a ∈ l :: xs ++ [tail_of l] -> is_Some (m !! a).
Proof.
  intros [H _ _ _ _]. apply linked_dom; [|done]. cbn. rewrite length_app. cbn. lia.
Qed.

Lemma removelast_snoc {A} (L : list A) a : removelast (L ++ [a]) = L.
Proof. rewrite removelast_app by done. cbn. apply app_nil_r. Qed.

(** Four stores link [x] between its neighbours [a] and [b]. *)
Definition link_between (m : gmap Z list_elem) (a x b : Z) : gmap Z list_elem :=
  alter (set_prev x) b (alter (set_next b) x (alter (set_prev a) x (alter (set_next x) a m))).

(** Two stores unlink what is between [a] and [b]. *)
Definition unlink_between (m : gmap Z list_elem) (a b : Z) : gmap Z list_elem :=
  alter (set_prev a) b (alter (set_next b) a m).

Lemma nxt_alter m p q f :
  nxt (alter f p m) q = if decide (p = q) then (fun c => next (f c)) <$> m !! q else nxt m q.
Proof.
  unfold nxt. destruct (decide (p = q)) as [->|].
  - rewrite lookup_alter_eq. by destruct (m !! q).
  - by rewrite lookup_alter_ne.
Qed.

Lemma prv_alter m p q f :
  prv (alter f p m) q = if decide (p = q) then (fun c => prev (f c)) <$> m !! q else prv m q.
Proof.
  unfold prv. destruct (decide (p = q)) as [->|].
  - rewrite lookup_alter_eq. by destruct (m !! q).
  - by rewrite lookup_alter_ne.
Qed.

Lemma nxt_set_prev m p q v : nxt (alter (set_prev v) p m) q = nxt m q.
Proof. rewrite nxt_alter. case_decide; [|done]. unfold nxt. by destruct (m !! q). Qed.

Lemma prv_set_next m p q v : prv (alter (set_next v) p m) q = prv m q.
Proof. rewrite prv_alter. case_decide; [|done]. unfold prv. by destruct (m !! q). Qed.

Lemma nxt_set_next m p q v :
  nxt (alter (set_next v) p m) q = if decide (p = q) then (fun _ => v) <$> m !! q else nxt m q.
Proof. rewrite nxt_alter. done. Qed.

Lemma prv_set_prev m p q v :
  prv (alter (set_prev v) p m) q = if decide (p = q) then (fun _ => v) <$> m !! q else prv m q.
Proof. rewrite prv_alter. done. Qed.

Create Rewrite HintDb dlist.
#[export] Hint Rewrite nxt_set_prev prv_set_next nxt_set_next prv_set_prev : dlist.

Lemma alter_dom (m : gmap Z list_elem) f p q : is_Some (alter f p m !! q) <-> is_Some (m !! q).
Proof. rewrite lookup_alter. case_decide; [|done]. subst. apply fmap_is_Some. Qed.

Lemma fmap_const_Some {A B} (o : option A) (b : B) : is_Some o -> (fun _ => b) <$> o = Some b.
Proof. by intros [? ->]. Qed.

Lemma elem_of_removelast {A} (l : list A) x : x ∈ removelast l -> x ∈ l.
Proof. induction l as [|a [|b l] IH]; cbn in *; set_solver. Qed.

(** A pointer written by one of the stores above. *)
Ltac solve_link :=
  autorewrite with dlist; repeat case_decide; subst;
  first [ by apply fmap_const_Some; rewrite ?alter_dom | done | exfalso; congruence | exfalso; set_solver ].

Lemma linked_insert m L a x b R :
  NoDup (L ++ a :: b :: R) -> x ∉ L ++ a :: b :: R -> is_Some (m !! x) ->
  linked m (L ++ a :: b :: R) -> linked (link_between m a x b) (L ++ a :: x :: b :: R).
Proof.
  intros Hnd Hx Hdx Hl.
  assert (is_Some (m !! a) /\ is_Some (m !! b)) as [Hda Hdb].
  { split; eapply linked_dom; try exact Hl; rewrite ?length_app; cbn; try lia; set_solver. }
  apply NoDup_app in Hnd as (HL & HLR & HR). apply NoDup_cons in HR as [Ha HR].
  apply NoDup_cons in HR as [Hb HR].
  rewrite linked_app, linked_cons2 in Hl. destruct Hl as [Hl1 (Hab & Hba & Hl2)].
  rewrite linked_app, !linked_cons2. unfold link_between. split.
  - eapply linked_frame; [| |exact Hl1].
    + rewrite removelast_snoc. intros c Hc. autorewrite with dlist.
      rewrite !decide_False by set_solver. done.
    + intros c Hc. assert (c ∈ L ++ [a]) by (destruct L; cbn in *; set_solver).
      autorewrite with dlist. rewrite !decide_False by set_solver. done.
  - do 4 (split; [solve_link|]).
    eapply linked_frame; [| |exact Hl2].
    + intros c Hc. assert (c ∈ b :: R) by (by apply elem_of_removelast).
      autorewrite with dlist. rewrite !decide_False by set_solver. done.
    + cbn. intros c Hc. autorewrite with dlist. rewrite !decide_False by set_solver. done.
Qed.

Lemma linked_remove m L a x b R :
  NoDup (L ++ a :: x :: b :: R) ->
  linked m (L ++ a :: x :: b :: R) -> linked (unlink_between m a b) (L ++ a :: b :: R).
Proof.
  intros Hnd Hl.
  assert (is_Some (m !! a) /\ is_Some (m !! b)) as [Hda Hdb].
  { split; eapply linked_dom; try exact Hl; rewrite ?length_app; cbn; try lia; set_solver. }
  apply NoDup_app in Hnd as (HL & HLR & HR). apply NoDup_cons in HR as [Ha HR].
  apply NoDup_cons in HR as [Hx HR]. apply NoDup_cons in HR as [Hb HR].
  rewrite linked_app, !linked_cons2 in Hl. destruct Hl as [Hl1 (_ & _ & _ & _ & Hl2)].
  rewrite linked_app, linked_cons2. unfold unlink_between. split.
  - eapply linked_frame; [| |exact Hl1].
    + rewrite removelast_snoc. intros c Hc. autorewrite with dlist.
      rewrite !decide_False by set_solver. done.
    + intros c Hc. assert (c ∈ L ++ [a]) by (destruct L; cbn in *; set_solver).
      autorewrite with dlist. rewrite !decide_False by set_solver. done.
  - do 2 (split; [solve_link|]).
    eapply linked_frame; [| |exact Hl2].
    + intros c Hc. assert (c ∈ b :: R) by (by apply elem_of_removelast).
      autorewrite with dlist. rewrite !decide_False by set_solver. done.
    + cbn. intros c Hc. autorewrite with dlist. rewrite !decide_False by set_solver. done.
Qed.

Lemma insert_before_run {X} (s : lstate X) a x b :
  prv (cells s) b = Some a -> is_Some (cells s !! a) -> is_Some (cells s !! x) ->
  a <> b -> a <> x -> b <> x ->
  list_insert_before b x s = Ok (tt, mk_lstate (link_between (cells s) a x b) (lflags s) (rest s)).
Proof.
  intros Hp Ha Hx Hab Hax Hbx. unfold list_insert_before. mrun (intr_disable_run s).
  unfold prv in Hp. apply fmap_Some in Hp as (cb & Hb & ->).
  assert (forall s' : lstate X, cells s' !! b = Some cb -> load b s' = Ok (cb, s')) as Hload
    by (intros; by apply load_run).
  mrun (Hload (masked s) Hb).
  erewrite mbindM_Ok by (by apply store_run). cbn [cells masked with_eflags lstate_HasEflags rest lflags].
  erewrite mbindM_Ok by (apply Hload; cbn; by rewrite lookup_alter_ne).
  erewrite mbindM_Ok by (apply store_run; cbn; by rewrite !alter_dom). cbn [cells rest lflags].
  erewrite mbindM_Ok by (apply store_run; cbn; by rewrite !alter_dom). cbn [cells rest lflags].
  erewrite mbindM_Ok by (apply store_run; cbn; rewrite !alter_dom; by eexists).
  cbn [cells rest lflags].
  destruct (leave_run s (link_between (cells s) (prev cb) x b)) as [r Hr].
  rewrite (mbindM_Ok _ _ _ r _ Hr). done.
Qed.

Lemma remove_run {X} (s : lstate X) a x b :
  prv (cells s) x = Some a -> nxt (cells s) x = Some b ->
  is_Some (cells s !! a) -> is_Some (cells s !! b) -> a <> x ->
  list_remove x s = Ok (tt, mk_lstate (unlink_between (cells s) a b) (lflags s) (rest s)).
Proof.
  intros Hp Hn Ha Hb Hax. unfold list_remove. mrun (intr_disable_run s).
  unfold prv, nxt in Hp, Hn. apply fmap_Some in Hp as (cx & Hx & ->).
  rewrite Hx in Hn. cbn in Hn. injection Hn as <-.
  assert (forall s' : lstate X, cells s' !! x = Some cx -> load x s' = Ok (cx, s')) as Hload
    by (intros; by apply load_run).
  mrun (Hload (masked s) Hx).
  erewrite mbindM_Ok by (by apply store_run). cbn [cells masked with_eflags lstate_HasEflags rest lflags].
  erewrite mbindM_Ok by (apply Hload; cbn; by rewrite lookup_alter_ne).
  erewrite mbindM_Ok by (apply store_run; cbn; by rewrite !alter_dom). cbn [cells rest lflags].
  destruct (leave_run s (unlink_between (cells s) (prev cx) (next cx))) as [r Hr].
  rewrite (mbindM_Ok _ _ _ r _ Hr). done.
Qed.

(** Every position of the list has a left and a right neighbour. *)
Lemma split_at (l t : Z) xs ys : exists L a b R,
  l :: (xs ++ ys) ++ [t] = L ++ a :: b :: R /\ L ++ [a] = l :: xs /\ ys ++ [t] = b :: R.
Proof.
  destruct (exists_last (l := l :: xs)) as (L & a & HL); [done|].
  destruct (ys ++ [t]) as [|b R] eqn:HR; [by destruct ys|].
  exists L, a, b, R. split; [|done].
  rewrite <- app_assoc, HR. change (l :: xs ++ b :: R) with ((l :: xs) ++ b :: R).
  rewrite HL, <- app_assoc. done.
Qed.

Lemma prv_of_linked m L a b R : linked m (L ++ a :: b :: R) -> prv m b = Some a /\ nxt m a = Some b.
Proof. rewrite linked_app, linked_cons2. tauto. Qed.

(** Insertion in front of the element that follows [xs]. *)
Lemma dlist_insert {X} (s : lstate X) l xs ys x before :
  dlist (cells s) l (xs ++ ys) -> x ∉ l :: (xs ++ ys) ++ [tail_of l] ->
  is_Some (cells s !! x) -> hd_error (ys ++ [tail_of l]) = Some before ->
  exists m', list_insert_before before x s = Ok (tt, mk_lstate m' (lflags s) (rest s)) /\
    dlist m' l (xs ++ x :: ys) /\
    forall p, p ∉ l :: (xs ++ ys) ++ [tail_of l] -> p <> x -> m' !! p = cells s !! p.
Proof.
  intros [Hl Hnd Hh Ht H0] Hx Hdx Hb.
  destruct (split_at l (tail_of l) xs ys) as (L & a & b & R & E & EL & ER).
  rewrite ER in Hb. injection Hb as <-. rewrite E in Hl, Hnd, Hx.
  destruct (prv_of_linked _ _ _ _ _ Hl) as [Hpb Hna].
  assert (a <> b) as Hab by (apply NoDup_app in Hnd as (_ & _ & [? ?]%NoDup_cons); set_solver).
  assert (a <> x /\ b <> x) as [Hax Hbx] by set_solver.
  exists (link_between (cells s) a x b). split; [|split].
  - apply insert_before_run; try done. unfold nxt in Hna. by destruct (cells s !! a).
  - assert (l :: (xs ++ x :: ys) ++ [tail_of l] = L ++ a :: x :: b :: R) as E'.
    { rewrite <- app_assoc. cbn. rewrite ER. change (l :: xs ++ x :: b :: R) with ((l :: xs) ++ x :: b :: R).
      rewrite <- EL, <- app_assoc. done. }
    assert (l ∈ L ++ a :: b :: R /\ tail_of l ∈ L ++ a :: b :: R) as [Hlin Htin]
      by (rewrite <- E; set_solver).
    assert (b <> l).
    { intros ->. rewrite <- E in Hnd. apply NoDup_cons in Hnd as [Hn _]. apply Hn.
      rewrite <- app_assoc, ER. set_solver. }
    assert (a <> tail_of l).
    { intros ->. assert (tail_of l ∈ l :: xs) as Hi by (rewrite <- EL; set_solver).
      rewrite <- E in Hnd. rewrite <- app_assoc in Hnd. change (l :: xs ++ ys ++ [tail_of l])
        with ((l :: xs) ++ ys ++ [tail_of l]) in Hnd.
      apply NoDup_app in Hnd as (_ & Hd & _). apply (Hd _ Hi). set_solver. }
    split.
    + rewrite E'. by apply linked_insert.
    + rewrite E'. apply NoDup_app in Hnd as (HL & HLR & HR). apply NoDup_cons in HR as [Ha HR].
      apply NoDup_app. split; [done|]. split; [set_solver|].
      apply NoDup_cons. split; [set_solver|]. apply NoDup_cons. split; [set_solver|done].
    + unfold link_between. autorewrite with dlist. rewrite !decide_False by set_solver. done.
    + unfold link_between. autorewrite with dlist. rewrite !decide_False by set_solver. done.
    + unfold link_between. apply eq_None_not_Some. rewrite !alter_dom. rewrite H0.
      by intros [? ?].
  - rewrite E. intros p Hp Hpx. unfold link_between. rewrite !lookup_alter_ne by set_solver. done.
Qed.

Lemma filter_ne_notin (xs : list Z) x : x ∉ xs -> filter (fun y => y <> x) xs = xs.
Proof.
  induction xs as [|y xs IH]; intros Hx; [done|].
  rewrite filter_cons_True by set_solver. rewrite IH; set_solver.
Qed.

Lemma filter_ne_split (xs ys : list Z) x :
  x ∉ xs -> x ∉ ys -> Queue.q_remove (xs ++ x :: ys) x = xs ++ ys.
Proof.
  intros Hx Hy. unfold Queue.q_remove. rewrite filter_app, filter_cons_False by naive_solver.
  rewrite !filter_ne_notin by done. done.
Qed.

(** Removal of one element. *)
Lemma dlist_remove {X} (s : lstate X) l xs ys x :
  dlist (cells s) l (xs ++ x :: ys) ->
  exists m', list_remove x s = Ok (tt, mk_lstate m' (lflags s) (rest s)) /\
    dlist m' l (xs ++ ys) /\ m' !! x = cells s !! x /\
    forall p, p ∉ l :: (xs ++ ys) ++ [tail_of l] -> m' !! p = cells s !! p.
Proof.
  intros [Hl Hnd Hh Ht H0].
  destruct (split_at l (tail_of l) xs ys) as (L & a & b & R & E & EL & ER).
  assert (l :: (xs ++ x :: ys) ++ [tail_of l] = L ++ a :: x :: b :: R) as E'.
  { rewrite <- app_assoc. cbn. rewrite ER. change (l :: xs ++ x :: b :: R) with ((l :: xs) ++ x :: b :: R).
    rewrite <- EL, <- app_assoc. done. }
  rewrite E' in Hl, Hnd.
  assert (l ∈ L ++ [a] /\ tail_of l ∈ b :: R) as [Hlin Htin]
    by (rewrite EL, <- ER; set_solver).
  pose proof Hnd as Hnd2. apply NoDup_app in Hnd2 as (HL & HLR & HR). apply NoDup_cons in HR as [Ha HR].
  apply NoDup_cons in HR as [Hx HR]. apply NoDup_cons in HR as [Hb HR].
  pose proof Hl as Hl'. rewrite linked_app, !linked_cons2 in Hl'.
  destruct Hl' as (_ & Hax & Hxa & Hxb & Hbx & _).
  assert (is_Some (cells s !! a)) as Hda by (unfold nxt in Hax; by destruct (cells s !! a)).
  assert (is_Some (cells s !! b)) as Hdb by (unfold prv in Hbx; by destruct (cells s !! b)).
  exists (unlink_between (cells s) a b). split; [apply remove_run; try done; set_solver|].
  split; [|split].
  - assert (b <> l) by (intros ->; set_solver). assert (a <> tail_of l) by (intros ->; set_solver).
    split; unfold unlink_between.
    + rewrite E. by eapply linked_remove.
    + rewrite E. apply NoDup_app. split; [done|]. split; [set_solver|].
      apply NoDup_cons. split; [set_solver|]. apply NoDup_cons. done.
    + autorewrite with dlist. rewrite !decide_False by done. done.
    + autorewrite with dlist. rewrite !decide_False by done. done.
    + apply eq_None_not_Some. rewrite !alter_dom, H0. by intros [? ?].
  - unfold unlink_between. rewrite !lookup_alter_ne by set_solver. done.
  - rewrite E. intros p Hp. unfold unlink_between. rewrite !lookup_alter_ne by set_solver. done.
Qed.

(** Following [next] from any suffix. *)
Lemma dlist_next m l xs p ys : dlist m l (xs ++ p :: ys) ->
  exists c, m !! p = Some c /\ Some (next c) = hd_error (ys ++ [tail_of l]) /\ p <> tail_of l.
Proof.
  intros [Hl Hnd _ _ _].
  rewrite <- app_assoc in Hl, Hnd. cbn [app] in Hl, Hnd.
  destruct (ys ++ [tail_of l]) as [|b R] eqn:E; [by destruct ys|].
  change (l :: xs ++ p :: b :: R) with ((l :: xs) ++ p :: b :: R) in Hl, Hnd.
  apply prv_of_linked in Hl as [_ Hn]. unfold nxt in Hn. apply fmap_Some in Hn as (c & Hc & Hn).
  exists c. split; [done|]. split; [by rewrite Hn|].
  apply NoDup_app in Hnd as (_ & _ & [Hp _]%NoDup_cons). intros ->. apply Hp. rewrite <- E. set_solver.
Qed.

Lemma dlist_head_next m l xs : dlist m l xs ->
  exists c, m !! l = Some c /\ Some (next c) = hd_error (xs ++ [tail_of l]).
Proof.
  intros [Hl _ _ _ _]. destruct (xs ++ [tail_of l]) as [|b R] eqn:E; [by destruct xs|].
  apply (prv_of_linked _ []) in Hl as [_ Hn]. unfold nxt in Hn.
  apply fmap_Some in Hn as (c & Hc & Hn). exists c. by rewrite Hn.
Qed.

Lemma find_loop_run {X} (s : lstate X) l obj ys : forall xs p fuel,
  dlist (cells s) l (xs ++ ys) -> Some p = hd_error (ys ++ [tail_of l]) ->
  (length ys < fuel)%nat ->
  find_loop fuel l obj p s = Ok (Queue.q_find ys obj, s).
Proof.
  induction ys as [|y ys IH]; intros xs p fuel Hd Hp Hf; (destruct fuel as [|fuel]; [cbn in Hf; lia|]);
    cbn in Hp; injection Hp as ->; cbn [find_loop].
  - by rewrite Z.eqb_refl.
  - destruct (dlist_next _ _ _ _ _ Hd) as (c & Hc & Hn & Ht).
    destruct (Z.eqb_spec y (tail_of l)); [done|]. unfold Queue.q_find.
    destruct (Z.eqb_spec y obj) as [->|Hne].
    + rewrite bool_decide_true by set_solver. done.
    + erewrite mbindM_Ok by (by apply load_run).
      rewrite (IH (xs ++ [y])); [|by rewrite <- app_assoc|done|cbn in Hf; lia].
      unfold Queue.q_find. f_equal. f_equal. apply bool_decide_ext. set_solver.
Qed.

Lemma len_loop_run {X} (s : lstate X) l ys : forall xs p n fuel,
  dlist (cells s) l (xs ++ ys) -> Some p = hd_error (ys ++ [tail_of l]) ->
  (length ys < fuel)%nat -> 0 <= n < 2 ^ 32 ->
  len_loop fuel l p n s = Ok (u32 (n + Z.of_nat (length ys)), s).
Proof.
  induction ys as [|y ys IH]; intros xs p n fuel Hd Hp Hf Hn; (destruct fuel as [|fuel]; [cbn in Hf; lia|]);
    cbn in Hp; injection Hp as ->; cbn [len_loop].
  - rewrite Z.eqb_refl. cbn. rewrite wrapu_small by lia. by rewrite Z.add_0_r.
  - destruct (dlist_next _ _ _ _ _ Hd) as (c & Hc & Hnx & Ht).
    destruct (Z.eqb_spec y (tail_of l)); [done|].
    erewrite mbindM_Ok by (by apply load_run).
    rewrite (IH (xs ++ [y])); [|by rewrite <- app_assoc|done|cbn in Hf; lia|apply (wrapu_range 32); lia].
    f_equal. f_equal. unfold wrapu. rewrite Zplus_mod_idemp_l. f_equal. cbn [length]. lia.
Qed.

Lemma traversal_loop_run {X} (f : Z -> Z -> M X bool) arg l ys : forall (s : lstate X) xs p fuel,
  dlist (cells s) l (xs ++ ys) -> Some p = hd_error (ys ++ [tail_of l]) ->
  (length ys < fuel)%nat ->
  traversal_loop fuel l f arg p s = on_rest (Queue.q_traversal f arg ys) s.
Proof.
  induction ys as [|y ys IH]; intros s xs p fuel Hd Hp Hf; (destruct fuel as [|fuel]; [cbn in Hf; lia|]);
    cbn in Hp; injection Hp as ->; cbn [traversal_loop Queue.q_traversal].
  - rewrite Z.eqb_refl. by destruct s.
  - destruct (dlist_next _ _ _ _ _ Hd) as (c & Hc & Hnx & Ht).
    destruct (Z.eqb_spec y (tail_of l)); [done|].
    unfold mbind, M_bind, on_rest. destruct (f y arg (rest s)) as [[[] r]| | |]; [done| |done..].
    erewrite load_run by done.
    rewrite (IH _ (xs ++ [y])); [done|by rewrite <- app_assoc|done|cbn in Hf; lia].
Qed.

(** ** Refinement theorems *)

(** C31. [list_push] and [list_append] implement insertion at the front and at
    the back: on a list that represents [xs], with a cell [x] that is not on
    it, each call succeeds, leaves EFLAGS and the rest of the machine as they
    were, represents [x :: xs] resp. [xs ++ [x]], and changes no cell outside
    the list and [x]. *)
Theorem list_insertion_refines {X} (s : lstate X) l xs x :
  dlist (cells s) l xs -> x ∉ l :: xs ++ [tail_of l] -> is_Some (cells s !! x) ->
  (exists m', list_push l x s = Ok (tt, mk_lstate m' (lflags s) (rest s)) /\
     dlist m' l (Queue.q_push xs x) /\
     forall p, p ∉ l :: xs ++ [tail_of l] -> p <> x -> m' !! p = cells s !! p) /\
  (exists m', list_append l x s = Ok (tt, mk_lstate m' (lflags s) (rest s)) /\
     dlist m' l (Queue.q_append xs x) /\
     forall p, p ∉ l :: xs ++ [tail_of l] -> p <> x -> m' !! p = cells s !! p).
Proof.
  intros Hd Hx Hdx. split.
  - destruct (dlist_head_next _ _ _ Hd) as (c & Hc & Hn).
    unfold list_push. erewrite mbindM_Ok by (by apply load_run).
    destruct (dlist_insert s l [] xs x (next c)) as (m' & Hr & Hd' & Hf); [done..|by exists m'].
  - destruct (dlist_insert s l xs [] x (tail_of l)) as (m' & Hr & Hd' & Hf);
      [by rewrite app_nil_r|by rewrite app_nil_r|done|done|].
    rewrite app_nil_r in Hf. by exists m'.
Qed.

(** C32. [list_remove] implements removal of an element that is on the list,
    [list_pop] removal of the first one; popping the empty list writes through
    the NULL successor of the tail sentinel. *)
Theorem list_removal_refines {X} (s : lstate X) l xs :
  dlist (cells s) l xs ->
  (forall x, x ∈ xs ->
     exists m', list_remove x s = Ok (tt, mk_lstate m' (lflags s) (rest s)) /\
       dlist m' l (Queue.q_remove xs x) /\
       forall p, p ∉ l :: xs ++ [tail_of l] -> m' !! p = cells s !! p) /\
  match Queue.q_pop xs with
  | Ok (e, xs') => exists m', list_pop l s = Ok (e, mk_lstate m' (lflags s) (rest s)) /\
                     dlist m' l xs'
  | _ => list_pop l s = Fault
  end.
Proof.
  intros Hd. split.
  - intros x Hx. apply list_elem_of_split in Hx as (ys & zs & ->).
    destruct (dlist_remove s l ys zs x Hd) as (m' & Hr & Hd' & Hsx & Hf).
    exists m'. split; [done|]. split.
    + destruct Hd as [_ Hnd _ _ _]. apply NoDup_cons in Hnd as [_ Hnd].
      apply NoDup_app in Hnd as (Hnd & _ & _). apply NoDup_app in Hnd as (_ & H1 & H2).
      apply NoDup_cons in H2 as [H2 _]. rewrite filter_ne_split; [done| |done]. set_solver.
    + intros p Hp. apply Hf. set_solver.
  - destruct (dlist_head_next _ _ _ Hd) as (c & Hc & Hn). unfold list_pop.
    erewrite mbindM_Ok by (by apply load_run). destruct xs as [|e xs]; cbn [Queue.q_pop].
    + cbn in Hn. injection Hn as ->. destruct Hd as [(Hn & Hp & _) _ _ Ht H0].
      unfold mbind at 1. unfold M_bind at 1. unfold list_remove. mrun (intr_disable_run s).
      unfold prv, nxt in Hp, Ht. apply fmap_Some in Hp as (t & Ht' & Hp).
      rewrite Ht' in Ht. cbn in Ht. injection Ht as Ht.
      erewrite mbindM_Ok by (by apply load_run).
      erewrite mbindM_Ok by (apply store_run; rewrite <- Hp; by eexists). rewrite <- Hp.
      assert (l <> tail_of l) by (unfold tail_of; lia).
      erewrite mbindM_Ok by (apply load_run; cbn; by rewrite lookup_alter_ne).
      unfold mbind at 1, M_bind at 1, store at 1. cbn. rewrite Ht, lookup_alter_ne, H0; [done|].
      intros ->. by rewrite Hc in H0.
    + cbn in Hn. injection Hn as ->.
      destruct (dlist_remove s l [] xs e Hd) as (m' & Hr & Hd' & _).
      exists m'. split; [|done]. by erewrite mbindM_Ok by done.
Qed.

(** The loops over a list terminate (one step more than the list is long
    is enough) and compute what they name: [elem_find] membership, [list_len]
    the length, [list_empty] emptiness, and [list_traversal] calls its
    callback on the elements in order until it answers true. *)
Theorem list_scans_refine {X} (s : lstate X) l xs obj f arg fuel :
  dlist (cells s) l xs -> (length xs < fuel)%nat ->
  elem_find fuel l obj s = Ok (Queue.q_find xs obj, s) /\
  list_len fuel l s = Ok (u32 (Z.of_nat (length xs)), s) /\
  list_empty l s = Ok (Queue.q_empty xs, s) /\
  list_traversal fuel l f arg s = on_rest (Queue.q_traversal f arg xs) s.
Proof.
  intros Hd Hf. destruct (dlist_head_next _ _ _ Hd) as (c & Hc & Hn).
  assert (load l s = Ok (c, s)) as Hload by (by apply load_run).
  assert (list_empty l s = Ok (Queue.q_empty xs, s)) as Hempty.
  { unfold list_empty. mrun Hload. destruct xs as [|x xs]; cbn in Hn; injection Hn as ->.
    - by rewrite Z.eqb_refl.
    - destruct (dlist_next _ _ [] _ _ Hd) as (_ & _ & _ & Ht). by destruct (Z.eqb_spec x (tail_of l)). }
  split; [|split; [|split; [done|]]].
  - unfold elem_find. mrun Hload. by apply (find_loop_run s l obj xs []).
  - unfold list_len. mrun Hload. rewrite (len_loop_run s l xs []); [done..|lia].
  - unfold list_traversal. mrun Hload. mrun Hempty. destruct xs as [|x xs].
    + by destruct s.
    + cbn [Queue.q_empty]. by rewrite (traversal_loop_run f arg l (x :: xs) s []).
Qed.

(** [list_init] makes an empty list out of two cells. *)
Lemma list_init_refines {X} (s : lstate X) l :
  is_Some (cells s !! l) -> is_Some (cells s !! tail_of l) -> cells s !! 0 = None ->
  exists m', list_init l s = Ok (tt, mk_lstate m' (lflags s) (rest s)) /\ dlist m' l [].
Proof.
  intros Hl Ht H0. unfold list_init, head_of. assert (l <> tail_of l) by (unfold tail_of; lia).
  erewrite mbindM_Ok by (by apply store_run). cbn [cells lflags rest].
  erewrite mbindM_Ok by (apply store_run; cbn; by rewrite alter_dom). cbn [cells lflags rest].
  erewrite mbindM_Ok by (apply store_run; cbn; by rewrite !alter_dom). cbn [cells lflags rest].
  rewrite store_run by (cbn; by rewrite !alter_dom). cbn [cells lflags rest]. eexists. split; [done|].
  split; cbn [app].
  - rewrite linked_cons2. split; [|split; [|done]]; solve_link.
  - apply NoDup_cons. split; [set_solver|apply NoDup_singleton].
  - solve_link.
  - solve_link.
  - cbn. apply eq_None_not_Some. rewrite !alter_dom, H0. by intros [? ?].
Qed.

(** ** Witnesses: the list at 100 holds the cells 200 and 300; 400 is free *)

Definition demo_state : lstate () := mk_lstate
  (<[100 := mk_elem 0 200]> (<[200 := mk_elem 100 300]> (<[300 := mk_elem 200 108]>
     (<[108 := mk_elem 300 0]> (<[400 := mk_elem 0 0]> ∅))))) 0x202 tt.

Lemma demo_dlist : dlist (cells demo_state) 100 [200; 300].
Proof.
  split; try reflexivity; [by vm_compute|].
  apply (bool_decide_unpack _). by vm_compute.
Defined.

Lemma list_insertion_refines_witness :
  (exists m', list_push 100 400 demo_state = Ok (tt, mk_lstate m' 0x202 tt) /\
     dlist m' 100 [400; 200; 300]) /\
  (exists m', list_append 100 400 demo_state = Ok (tt, mk_lstate m' 0x202 tt) /\
     dlist m' 100 [200; 300; 400]).
Proof.
  destruct (list_insertion_refines demo_state 100 [200; 300] 400 demo_dlist)
    as [(m1 & ? & ? & _) (m2 & ? & ? & _)].
  - unfold tail_of. set_solver.
  - by eexists.
  - split; [by exists m1|by exists m2].
Defined.

Lemma list_removal_refines_witness :
  exists m', list_pop 100 demo_state = Ok (200, mk_lstate m' 0x202 tt) /\ dlist m' 100 [300].
Proof.
  destruct (list_removal_refines demo_state 100 [200; 300] demo_dlist) as [_ H]. exact H.
Defined.

Lemma list_scans_refine_witness :
  elem_find 5 100 300 demo_state = Ok (true, demo_state) /\
  list_len 5 100 demo_state = Ok (2, demo_state).
Proof.
  destruct (list_scans_refine demo_state 100 [200; 300] 300 (fun _ _ => mret false) 0 5 demo_dlist)
    as (H1 & H2 & _); [cbn; lia|]. split; [exact H1|exact H2].
Defined.
End DList.
