(* ===== verification/Paging.v ===== *)
(** * Page tables (kernel/memory.c: pte_ptr, pde_ptr, addr_v2p, page_table_pte_remove)

    The two-level page table of the 32-bit x86, as the processor walks it, and
    the kernel's accesses to it.  The kernel never touches a page table by its
    physical address: the last page directory entry points to the directory
    itself, and [pde_ptr]/[pte_ptr] compute addresses in the window this
    opens.  All accesses below therefore go through the same translation the
    processor does; the theorems show that the window works. *)

From S2P Require Import Prelude.

(** Physical memory by aligned 32-bit words (a word never written is 0), and
    the page directory base register. *)
Record mmu : Type := mk_mmu { pmem : gmap Z Z; cr3 : Z }.

Definition pread (m : mmu) (pa : Z) : Z := default 0 (pmem m !! pa).
Definition pwrite (m : mmu) (pa w : Z) : mmu := mk_mmu (<[pa := w]> (pmem m)) (cr3 m).

Definition PG_P_1 : Z := 1.
Definition PG_RW_W : Z := 2.
Definition PG_US_U : Z := 4.
Definition PG_SIZE : Z := 4096.

Definition PDE_IDX (addr : Z) : Z := Z.shiftr (Z.land addr 0xFFC00000) 22.
Definition PTE_IDX (addr : Z) : Z := Z.shiftr (Z.land addr 0x003FF000) 12.

(** The frame address of an entry, and its present bit. *)
Definition frame_of (entry : Z) : Z := Z.land entry 0xFFFFF000.
Definition present (entry : Z) : bool := truth (Z.land entry 0x00000001).

(** The walk of the processor. *)
Definition pde_pa (m : mmu) (va : Z) : Z := cr3 m + PDE_IDX va * 4.
Definition pte_pa (m : mmu) (va : Z) : Z := frame_of (pread m (pde_pa m va)) + PTE_IDX va * 4.
Definition translate (m : mmu) (va : Z) : option Z :=
  if present (pread m (pde_pa m va)) then
    if present (pread m (pte_pa m va))
    then Some (frame_of (pread m (pte_pa m va)) + Z.land va 0xFFF)
    else None
  else None.

(** A load or store at a virtual address; a missing translation is a page
    fault, which the kernel answers by stopping. *)
Definition vload (va : Z) : M mmu Z := fun m =>
  match translate m va with Some pa => Ok (pread m pa, m) | None => Fault end.
Definition vstore (va w : Z) : M mmu () := fun m =>
  match translate m va with Some pa => Ok (tt, pwrite m pa w) | None => Fault end.

Definition pte_ptr (vaddr : Z) : Z :=
  u32 (0xFFC00000 + Z.shiftr (Z.land vaddr 0xFFC00000) 10 + PTE_IDX vaddr * 4).

Definition pde_ptr (vaddr : Z) : Z := u32 (0xFFFFF000 + PDE_IDX vaddr * 4).

Definition addr_v2p (vaddr : Z) : M mmu Z :=
  pte ← vload (pte_ptr vaddr);
  mret (u32 (Z.land pte 0xfffff000 + Z.land vaddr 0x00000fff)).

(** [page_table_pte_remove]: clear the P bit; [invlpg] only drops a cached
    copy of the entry, and the model has no such cache. *)
Definition page_table_pte_remove (vaddr : Z) : M mmu () :=
  let pte := pte_ptr vaddr in
  w ← vload pte;
  vstore pte (Z.land w (Z.lnot PG_P_1)).

(** The entry for a frame, with the flags every mapping gets. *)
Definition entry (phyaddr : Z) : Z := Z.lor (Z.lor (Z.lor phyaddr PG_US_U) PG_RW_W) PG_P_1.

(** [memset(va, 0, n * 4)] on word-aligned [va], a word at a time. *)
Fixpoint zero_words (n : nat) (va : Z) : M mmu () :=
  match n with
  | O => mret tt
  | S n' => _ ← vstore va 0; zero_words n' (va + 4)
  end.

(** ** Address arithmetic *)

Lemma land_field x lo n : 0 <= lo -> 0 <= n -> 0 <= x ->
  Z.land x (Z.shiftl (Z.ones n) lo) = (x / 2 ^ lo) mod 2 ^ n * 2 ^ lo.
Proof.
  intros Hlo Hn Hx. rewrite <- Z.shiftl_mul_pow2, <- Z.land_ones, <- Z.shiftr_div_pow2 by lia.
  apply Z.bits_inj'. intros j Hj. rewrite Z.land_spec, !Z.shiftl_spec by lia.
  destruct (Z.ltb_spec j lo).
  - rewrite (Z.testbit_neg_r _ (j - lo)), (Z.testbit_neg_r _ (j - lo)) by lia. apply andb_false_r.
  - rewrite Z.land_spec, Z.shiftr_spec by lia. by replace (j - lo + lo) with j by lia.
Qed.

Lemma frame_of_eq x : 0 <= x < 2 ^ 32 -> frame_of x = x / 4096 * 4096.
Proof.
  intros Hx. unfold frame_of. change 0xFFFFF000 with (Z.shiftl (Z.ones 20) 12).
  rewrite land_field by lia. change (2 ^ 12) with 4096. rewrite Z.mod_small; [done|].
  split; [apply Z.div_pos; lia|]. apply Z.div_lt_upper_bound; lia.
Qed.

Lemma PDE_IDX_eq va : 0 <= va < 2 ^ 32 -> PDE_IDX va = va / 2 ^ 22.
Proof.
  intros Hx. unfold PDE_IDX. change 0xFFC00000 with (Z.shiftl (Z.ones 10) 22).
  rewrite land_field, Z.shiftr_div_pow2, Z.div_mul by lia. apply Z.mod_small.
  split; [apply Z.div_pos; lia|]. apply Z.div_lt_upper_bound; lia.
Qed.

Lemma PTE_IDX_eq va : 0 <= va -> PTE_IDX va = (va / 4096) mod 1024.
Proof.
  intros Hx. unfold PTE_IDX. change 0x003FF000 with (Z.shiftl (Z.ones 10) 12).
  rewrite land_field, Z.shiftr_div_pow2, Z.div_mul by lia. done.
Qed.

Lemma land_FFF va : Z.land va 0xFFF = va mod 4096.
Proof. change 0xFFF with (Z.ones 12). by rewrite Z.land_ones. Qed.

Lemma PDE_IDX_range va : 0 <= va < 2 ^ 32 -> 0 <= PDE_IDX va < 1024.
Proof.
  intros. rewrite PDE_IDX_eq by done.
  split; [apply Z.div_pos; lia|]. apply Z.div_lt_upper_bound; lia.
Qed.

Lemma PTE_IDX_range va : 0 <= va -> 0 <= PTE_IDX va < 1024.
Proof. intros. rewrite PTE_IDX_eq by done. apply Z.mod_pos_bound. lia. Qed.

(** Building an address from its three fields. *)
Definition mkva (d t o : Z) : Z := d * 2 ^ 22 + t * 4096 + o.

Lemma mkva_fields d t o : 0 <= d < 1024 -> 0 <= t < 1024 -> 0 <= o < 4096 ->
  0 <= mkva d t o < 2 ^ 32 /\ PDE_IDX (mkva d t o) = d /\ PTE_IDX (mkva d t o) = t /\
  Z.land (mkva d t o) 0xFFF = o.
Proof.
  intros Hd Ht Ho. unfold mkva. assert (0 <= d * 2 ^ 22 + t * 4096 + o < 2 ^ 32) as Hr by lia.
  split; [done|]. split; [|split].
  - rewrite PDE_IDX_eq by done. symmetry. apply (Z.div_unique_pos _ _ _ (t * 4096 + o)); lia.
  - rewrite PTE_IDX_eq by lia.
    replace ((d * 2 ^ 22 + t * 4096 + o) / 4096) with (d * 1024 + t)
      by (apply (Z.div_unique_pos _ _ _ o); lia).
    symmetry. apply (Z.mod_unique_pos _ _ d); lia.
  - rewrite land_FFF. symmetry. apply (Z.mod_unique_pos _ _ (d * 1024 + t)); lia.
Qed.

Lemma mkva_split va : 0 <= va < 2 ^ 32 -> va = mkva (PDE_IDX va) (PTE_IDX va) (va mod 4096).
Proof.
  intros Hv. unfold mkva. rewrite PDE_IDX_eq, PTE_IDX_eq by lia.
  pose proof (Z.div_mod va 4096 ltac:(lia)). pose proof (Z.div_mod (va / 4096) 1024 ltac:(lia)).
  replace (va / 2 ^ 22) with (va / 4096 / 1024) by (rewrite Z.div_div; [done|lia|lia]). lia.
Qed.

(** [pde_ptr] and [pte_ptr] are these addresses of the window. *)
Lemma pde_ptr_mkva va : 0 <= va < 2 ^ 32 -> pde_ptr va = mkva 1023 1023 (PDE_IDX va * 4).
Proof.
  intros Hv. pose proof (PDE_IDX_range va Hv). unfold pde_ptr, mkva.
  rewrite wrapu_small by lia. lia.
Qed.

Lemma pte_ptr_mkva va : 0 <= va < 2 ^ 32 -> pte_ptr va = mkva 1023 (PDE_IDX va) (PTE_IDX va * 4).
Proof.
  intros Hv. pose proof (PDE_IDX_range va Hv). pose proof (PTE_IDX_range va ltac:(lia)).
  unfold pte_ptr, mkva.
  replace (Z.shiftr (Z.land va 0xFFC00000) 10) with (PDE_IDX va * 4096).
  { rewrite wrapu_small by lia. lia. }
  unfold PDE_IDX. rewrite <- Z.shiftl_mul_pow2 with (n := 12) by lia.
  change 0xFFC00000 with (Z.shiftl (Z.ones 10) 22). rewrite land_field by lia.
  rewrite Z.shiftr_div_pow2, Z.div_mul, Z.shiftl_mul_pow2, Z.shiftr_div_pow2 by lia.
  set (Q := (va / 2 ^ 22) mod 2 ^ 10).
  replace (Q * 2 ^ 22) with (Q * 2 ^ 12 * 2 ^ 10) by lia. by rewrite Z.div_mul by lia.
Qed.

(** ** The window *)

(** The directory is page aligned, below 4 GiB, and its last entry maps it. *)
Record self_mapped (m : mmu) : Prop := {
  sm_base : exists q, cr3 m = q * 4096 /\ 0 <= q < 2 ^ 20;
  sm_words : forall a w, pmem m !! a = Some w -> 0 <= w < 2 ^ 32;
  sm_present : present (pread m (cr3 m + 1023 * 4)) = true;
  sm_frame : frame_of (pread m (cr3 m + 1023 * 4)) = cr3 m
}.

Lemma pread_range m a : self_mapped m -> 0 <= pread m a < 2 ^ 32.
Proof.
  intros [_ Hw _ _]. unfold pread. destruct (pmem m !! a) eqn:E; cbn; [by eapply Hw|lia].
Qed.

(** A window address with directory slot 1023 and table slot [d] reaches the
    page table of slot [d]. *)
Lemma window_translate m d o : self_mapped m -> 0 <= d < 1024 -> 0 <= o < 4096 ->
  translate m (mkva 1023 d o) =
    if present (pread m (cr3 m + d * 4)) then Some (frame_of (pread m (cr3 m + d * 4)) + o) else None.
Proof.
  intros [_ _ Hp Hf] Hd Ho. destruct (mkva_fields 1023 d o) as (_ & E1 & E2 & E3); [lia..|].
  unfold translate, pte_pa, pde_pa. rewrite E1, Hp, Hf, E2, E3. done.
Qed.

Lemma translate_pde m va : self_mapped m -> 0 <= va < 2 ^ 32 ->
  translate m (pde_ptr va) = Some (pde_pa m va).
Proof.
  intros Hs Hv. pose proof (PDE_IDX_range va Hv).
  rewrite pde_ptr_mkva, window_translate by (done || lia).
  destruct Hs as [_ _ Hp Hf]. by rewrite Hp, Hf.
Qed.

Lemma translate_pte m va : self_mapped m -> 0 <= va < 2 ^ 32 ->
  translate m (pte_ptr va) =
    if present (pread m (pde_pa m va)) then Some (pte_pa m va) else None.
Proof.
  intros Hs Hv. pose proof (PDE_IDX_range va Hv). pose proof (PTE_IDX_range va ltac:(lia)).
  rewrite pte_ptr_mkva, window_translate by (done || lia). done.
Qed.

(** ** Words, entries and pages *)

Definition aligned (p : Z) : Prop := exists q, p = q * 4096 /\ 0 <= q < 2 ^ 20.

Lemma aligned_same_page p p' o o' :
  aligned p -> aligned p' -> 0 <= o < 4096 -> 0 <= o' < 4096 -> p + o = p' + o' -> p = p' /\ o = o'.
Proof. intros (q & -> & _) (q' & -> & _) Ho Ho' E. assert (q = q') by lia. subst. lia. Qed.

Lemma frame_aligned w : 0 <= w < 2 ^ 32 -> aligned (frame_of w).
Proof.
  intros Hw. rewrite frame_of_eq by done. exists (w / 4096). split; [done|].
  split; [apply Z.div_pos; lia|]. apply Z.div_lt_upper_bound; lia.
Qed.

Lemma entry_eq p : aligned p -> entry p = p + 7.
Proof.
  intros (q & -> & Hq). unfold entry, PG_US_U, PG_RW_W, PG_P_1.
  rewrite <- !Z.lor_assoc. change (Z.lor 4 (Z.lor 2 1)) with 7.
  rewrite Z.add_nocarry_lxor, Z.lxor_lor; [done| |].
  - change 7 with (Z.ones 3). rewrite Z.land_ones by lia. change (2 ^ 3) with 8.
    replace (q * 4096) with (q * 512 * 8) by lia. apply Z.mod_mul. lia.
  - change 7 with (Z.ones 3). rewrite Z.land_ones by lia. change (2 ^ 3) with 8.
    replace (q * 4096) with (q * 512 * 8) by lia. apply Z.mod_mul. lia.
Qed.

Lemma entry_spec p : aligned p ->
  frame_of (entry p) = p /\ present (entry p) = true /\ 0 <= entry p < 2 ^ 32.
Proof.
  intros Hp. rewrite entry_eq by done. destruct Hp as (q & -> & Hq).
  assert (0 <= q * 4096 + 7 < 2 ^ 32) by lia. split; [|split; [|done]].
  - rewrite frame_of_eq by done. replace ((q * 4096 + 7) / 4096) with q; [done|].
    apply (Z.div_unique_pos _ _ _ 7); lia.
  - unfold present, truth. change 1 with (Z.ones 1). rewrite Z.land_ones by lia.
    replace ((q * 4096 + 7) mod 2 ^ 1) with 1; [done|].
    apply (Z.mod_unique_pos _ _ (q * 2048 + 3)); lia.
Qed.

Lemma present_cleared w : present (Z.land w (Z.lnot PG_P_1)) = false.
Proof.
  unfold present, truth, PG_P_1. rewrite <- Z.land_assoc. change (Z.land (Z.lnot 1) 1) with 0.
  by rewrite Z.land_0_r.
Qed.

Lemma land_range w x : 0 <= w < 2 ^ 32 -> 0 <= Z.land w x < 2 ^ 32.
Proof.
  intros Hw. split; [apply Z.land_nonneg; lia|].
  destruct (Z.eq_dec (Z.land w x) 0) as [->|Hne]; [lia|].
  apply Z.log2_lt_pow2; [pose proof (proj2 (Z.land_nonneg w x) (or_introl (proj1 Hw))); lia|].
  apply Z.lt_nge. intros Hl.
  assert (Z.testbit (Z.land w x) (Z.log2 (Z.land w x)) = true) as Hb
    by (apply Z.bit_log2; pose proof (proj2 (Z.land_nonneg w x) (or_introl (proj1 Hw))); lia).
  rewrite Z.land_spec in Hb. apply andb_true_iff in Hb as [Hb _].
  destruct (Z.eq_dec w 0) as [->|]; [by rewrite Z.bits_0 in Hb|].
  rewrite Z.bits_above_log2 in Hb; [done|lia|].
  assert (Z.log2 w < 32) by (apply Z.log2_lt_pow2; lia). lia.
Qed.

Lemma pread_pwrite m a w b : pread (pwrite m a w) b = if decide (a = b) then w else pread m b.
Proof. unfold pread, pwrite. cbn. rewrite lookup_insert. by case_decide. Qed.

(** The directory entry of slot [d]. *)
Definition pde (m : mmu) (d : Z) : Z := pread m (cr3 m + d * 4).

(** Well-formed page tables: the window is there, and the tables of the other
    slots are pairwise distinct pages, none of them the directory. *)
Record pt_wf (m : mmu) : Prop := {
  pw_self : self_mapped m;
  pw_dir : forall d, 0 <= d < 1023 -> present (pde m d) = true -> frame_of (pde m d) <> cr3 m;
  pw_inj : forall d d', 0 <= d < 1023 -> 0 <= d' < 1023 -> present (pde m d) = true ->
    present (pde m d') = true -> frame_of (pde m d) = frame_of (pde m d') -> d = d'
}.

Definition same_page (va va' : Z) : Prop := va / 4096 = va' / 4096.

Lemma same_page_idx va va' : 0 <= va < 2 ^ 32 -> 0 <= va' < 2 ^ 32 ->
  PDE_IDX va = PDE_IDX va' -> PTE_IDX va = PTE_IDX va' -> same_page va va'.
Proof.
  intros Hv Hv' E1 E2. unfold same_page. rewrite PDE_IDX_eq in E1 by done.
  rewrite (PDE_IDX_eq va') in E1 by done. rewrite !PTE_IDX_eq in E2 by lia.
  pose proof (Z.div_mod (va / 4096) 1024 ltac:(lia)). pose proof (Z.div_mod (va' / 4096) 1024 ltac:(lia)).
  replace (va / 4096 / 1024) with (va / 2 ^ 22) in * by (rewrite Z.div_div; [done|lia|lia]).
  replace (va' / 4096 / 1024) with (va' / 2 ^ 22) in * by (rewrite Z.div_div; [done|lia|lia]).
  lia.
Qed.

Lemma translate_eq m va : translate m va =
  if present (pde m (PDE_IDX va)) then
    if present (pread m (frame_of (pde m (PDE_IDX va)) + PTE_IDX va * 4))
    then Some (frame_of (pread m (frame_of (pde m (PDE_IDX va)) + PTE_IDX va * 4)) + Z.land va 0xFFF)
    else None
  else None.
Proof. done. Qed.

(** A store to a word outside the directory leaves the directory as it is. *)
Lemma pde_pwrite m a w d :
  pt_wf m -> 0 <= d < 1024 -> (exists p o, a = p + o /\ aligned p /\ 0 <= o < 4096 /\ p <> cr3 m) ->
  pde (pwrite m a w) d = pde m d.
Proof.
  intros [[Hb _ _ _] _ _] Hd (p & o & -> & Hp & Ho & Hne). unfold pde.
  rewrite pread_pwrite. change (cr3 (pwrite m (p + o) w)) with (cr3 m). case_decide as E; [|done].
  apply aligned_same_page in E as [E _]; [done|done|exact Hb|done|lia].
Qed.

Lemma pt_wf_pwrite m a w :
  pt_wf m -> 0 <= w < 2 ^ 32 ->
  (exists p o, a = p + o /\ aligned p /\ 0 <= o < 4096 /\ p <> cr3 m) -> pt_wf (pwrite m a w).
Proof.
  intros Hm Hw Ha. pose proof (fun d Hd => pde_pwrite m a w d Hm Hd Ha) as Hpde.
  pose proof Hm as [[H1 H2 H3 H4] H5 H6]. split; [split|..].
  - done.
  - intros b x. cbn. rewrite lookup_insert. case_decide; [by intros [= <-]|apply H2].
  - change (present (pde (pwrite m a w) 1023) = true). rewrite Hpde by lia. done.
  - change (frame_of (pde (pwrite m a w) 1023) = cr3 m). rewrite Hpde by lia. done.
  - intros d Hd. rewrite Hpde by lia. by apply H5.
  - intros d d' Hd Hd'. rewrite !Hpde by lia. by apply H6.
Qed.

(** ** Effects on the translation *)

Lemma pte_pa_off m va : pt_wf m -> 0 <= va < 2 ^ 32 -> PDE_IDX va <> 1023 ->
  present (pde m (PDE_IDX va)) = true ->
  exists p o, pte_pa m va = p + o /\ aligned p /\ 0 <= o < 4096 /\ p <> cr3 m.
Proof.
  intros Hm Hv Hd Hp. pose proof (PDE_IDX_range va Hv). pose proof (PTE_IDX_range va ltac:(lia)).
  exists (frame_of (pde m (PDE_IDX va))), (PTE_IDX va * 4). split; [done|].
  split; [apply frame_aligned, pread_range, Hm|]. split; [lia|]. apply pw_dir; [done|lia|done].
Qed.

(** Writing the page table entry of [va]. *)
Lemma write_pte m va w :
  pt_wf m -> 0 <= va < 2 ^ 32 -> PDE_IDX va <> 1023 -> present (pde m (PDE_IDX va)) = true ->
  0 <= w < 2 ^ 32 ->
  let m' := pwrite m (pte_pa m va) w in
  pt_wf m' /\ (forall d, 0 <= d < 1024 -> pde m' d = pde m d) /\
  translate m' va = (if present w then Some (frame_of w + Z.land va 0xFFF) else None) /\
  (forall va', 0 <= va' < 2 ^ 32 -> ~ same_page va va' -> translate m' va' = translate m va').
Proof.
  intros Hm Hv Hd Hp Hw m'.
  pose proof (pte_pa_off m va Hm Hv Hd Hp) as Hoff.
  pose proof (fun d Hd => pde_pwrite m (pte_pa m va) w d Hm Hd Hoff) as Hpde. fold m' in Hpde.
  pose proof (PDE_IDX_range va Hv). pose proof (PTE_IDX_range va ltac:(lia)).
  split; [by apply pt_wf_pwrite|]. split; [done|]. split.
  - rewrite translate_eq, Hpde, Hp by lia. unfold m'. rewrite !pread_pwrite.
    rewrite !decide_True by done. done.
  - intros va' Hv' Hns. pose proof (PDE_IDX_range va' Hv'). pose proof (PTE_IDX_range va' ltac:(lia)).
    rewrite !translate_eq, Hpde by lia. destruct (present (pde m (PDE_IDX va'))) eqn:Hp'; [|done].
    unfold m'. rewrite !pread_pwrite. case_decide as E; [|done]. exfalso. apply Hns.
    unfold pte_pa, pde_pa in E. fold (pde m (PDE_IDX va)) in E.
    apply aligned_same_page in E as [Ef Eo];
      [|apply frame_aligned, pread_range, Hm|apply frame_aligned, pread_range, Hm|lia|lia].
    destruct (Z.eq_dec (PDE_IDX va') 1023) as [E1|E1].
    + rewrite E1 in Ef. destruct Hm as [[_ _ _ Hsf] Hdir _]. unfold pde at 2 in Ef.
      rewrite Hsf in Ef. by destruct (Hdir (PDE_IDX va) ltac:(lia) Hp).
    + apply same_page_idx; [done..| |lia].
      destruct Hm as [_ _ Hinj]. apply Hinj; try done; lia.
Qed.

(** Installing a fresh table [p] in the empty directory slot [d]: no
    translation is created or lost outside the window, whatever [p] holds. *)
Definition fresh_table (m : mmu) (p : Z) : Prop :=
  aligned p /\ p <> cr3 m /\
  forall d, 0 <= d < 1023 -> present (pde m d) = true -> frame_of (pde m d) <> p.

Lemma install_pde m d p :
  pt_wf m -> 0 <= d < 1023 -> present (pde m d) = false -> fresh_table m p ->
  let m' := pwrite m (cr3 m + d * 4) (entry p) in
  pt_wf m' /\ pde m' d = entry p /\
  (forall d', 0 <= d' < 1024 -> d' <> d -> pde m' d' = pde m d') /\
  (forall a, (exists p' o, a = p' + o /\ aligned p' /\ 0 <= o < 4096 /\ p' <> cr3 m) ->
     pread m' a = pread m a).
Proof.
  intros Hm Hd Habs (Hpa & Hpc & Hpf) m'. destruct (entry_spec p Hpa) as (Ef & Ep & Er).
  assert (pde m' d = entry p) as E1.
  { unfold pde, m'. rewrite pread_pwrite. by rewrite decide_True. }
  assert (forall d', 0 <= d' < 1024 -> d' <> d -> pde m' d' = pde m d') as E2.
  { intros d' Hd' Hne. unfold pde, m'. rewrite pread_pwrite. rewrite decide_False; [done|].
    cbn [cr3 pwrite]. lia. }
  split; [|split; [done|split; [done|]]].
  - pose proof Hm as [[H1 H2 H3 H4] H5 H6]. split; [split|..].
    + done.
    + intros b x. cbn. rewrite lookup_insert. case_decide; [by intros [= <-]|apply H2].
    + change (present (pde m' 1023) = true). rewrite E2 by lia. done.
    + change (frame_of (pde m' 1023) = cr3 m). rewrite E2 by lia. done.
    + intros x Hx. destruct (Z.eq_dec x d) as [->|]; [by rewrite E1, Ef|].
      rewrite E2 by lia. by apply H5.
    + intros x y Hx Hy. destruct (Z.eq_dec x d) as [->|], (Z.eq_dec y d) as [->|]; try done;
        rewrite ?E1, ?E2, ?Ef by lia.
      * intros _ Hpy Efr. by destruct (Hpf y Hy Hpy).
      * intros Hpx _ Efr. by destruct (Hpf x Hx Hpx).
      * by apply H6.
  - intros a (p' & o & -> & Hp' & Ho & Hne). unfold m'. rewrite pread_pwrite.
    case_decide as E; [|done]. symmetry in E.
    apply aligned_same_page in E as [E _]; [done|done|apply Hm|done|lia].
Qed.

(** Clearing the new table through the window. *)
Lemma zero_words_run n : forall m d o,
  pt_wf m -> 0 <= d < 1023 -> present (pde m d) = true ->
  0 <= o -> o + 4 * Z.of_nat n <= 4096 -> o mod 4 = 0 ->
  exists m', zero_words n (mkva 1023 d o) m = Ok (tt, m') /\ pt_wf m' /\ cr3 m' = cr3 m /\
    (forall d', 0 <= d' < 1024 -> pde m' d' = pde m d') /\
    (forall a, pread m' a = if decide (frame_of (pde m d) + o <= a < frame_of (pde m d) + o + 4 * Z.of_nat n
                                       /\ (a - frame_of (pde m d)) mod 4 = 0)
                            then 0 else pread m a).
Proof.
  induction n as [|n IH]; intros m d o Hm Hd Hp Ho Hle Hal; cbn [zero_words].
  { exists m. do 3 (split; [done|]). split; [done|]. intros a. rewrite decide_False; [done|lia]. }
  set (F := frame_of (pde m d)) in *.
  assert (exists p o', F + o = p + o' /\ aligned p /\ 0 <= o' < 4096 /\ p <> cr3 m) as Hoff.
  { exists F, o. split; [done|]. split; [apply frame_aligned, pread_range, Hm|].
    split; [lia|]. apply pw_dir; [done|lia|done]. }
  set (m1 := pwrite m (F + o) 0).
  assert (pt_wf m1) as Hm1 by (apply pt_wf_pwrite; [done|lia|done]).
  pose proof (fun d' Hd' => pde_pwrite m (F + o) 0 d' Hm Hd' Hoff) as Hpde. fold m1 in Hpde.
  assert (vstore (mkva 1023 d o) 0 m = Ok (tt, m1)) as Hst.
  { unfold vstore. rewrite window_translate by (apply Hm || lia).
    fold (pde m d). by rewrite Hp. }
  mrun Hst. replace (mkva 1023 d o + 4) with (mkva 1023 d (o + 4)) by (unfold mkva; lia).
  destruct (IH m1 d (o + 4)) as (m' & Hr & Hwf & Hc & Hpde' & Hrd); try lia; [done|by rewrite Hpde by lia| |].
  { rewrite Z.add_mod, Hal by lia. done. }
  exists m'. split; [done|]. split; [done|]. split; [done|].
  split; [intros; rewrite Hpde', Hpde by lia; done|].
  intros a. rewrite Hrd, Hpde by lia. fold F. unfold m1. rewrite pread_pwrite.
  destruct (decide (F + o = a)) as [<-|Hne].
  - rewrite (decide_True (P := F + o <= F + o < F + o + 4 * Z.of_nat (S n) /\ _)).
    { by case_decide. }
    split; [lia|]. by replace (F + o - F) with o by lia.
  - apply decide_ext. split; [intros [? ?]; split; [lia|done]|]. intros [Hra Hma]. split; [|done].
    pose proof (Z.div_mod (a - F) 4 ltac:(lia)). pose proof (Z.div_mod o 4 ltac:(lia)). lia.
Qed.

(** ** Theorems *)

(** The window of [pde_ptr] and [pte_ptr]: when the last directory entry
    maps the directory itself, the address [pde_ptr va] translates to the
    physical address of the directory entry the processor uses for [va], and,
    when that entry is present, [pte_ptr va] to that of its page table entry. *)
Theorem window_reaches_page_tables m va :
  self_mapped m -> 0 <= va < 2 ^ 32 ->
  translate m (pde_ptr va) = Some (pde_pa m va) /\
  (present (pread m (pde_pa m va)) = true -> translate m (pte_ptr va) = Some (pte_pa m va)).
Proof.
  intros Hs Hv. split; [by apply translate_pde|]. intros Hp. by rewrite translate_pte, Hp.
Qed.

Lemma addr_v2p_run m va pa : self_mapped m -> 0 <= va < 2 ^ 32 ->
  translate m va = Some pa -> addr_v2p va m = Ok (pa, m).
Proof.
  intros Hs Hv Ht. unfold addr_v2p.
  unfold translate in Ht. destruct (present (pread m (pde_pa m va))) eqn:Hp; [|done].
  destruct (present (pread m (pte_pa m va))) eqn:Hp'; [|done]. injection Ht as <-.
  assert (vload (pte_ptr va) m = Ok (pread m (pte_pa m va), m)) as Hl.
  { unfold vload. by rewrite translate_pte, Hp. }
  mrun Hl. unfold mret, M_ret. fold (frame_of (pread m (pte_pa m va))). f_equal. f_equal.
  destruct (frame_aligned (pread m (pte_pa m va))) as (q & -> & Hq); [by apply pread_range|].
  rewrite land_FFF. pose proof (Z.mod_pos_bound va 4096 ltac:(lia)). apply wrapu_small. lia.
Qed.

(** C30. [addr_v2p] agrees with the processor: for a mapped address it returns
    the physical address the processor translates it to. *)
Theorem addr_v2p_is_translation m va pa :
  self_mapped m -> 0 <= va < 2 ^ 32 -> translate m va = Some pa -> addr_v2p va m = Ok (pa, m).
Proof. apply addr_v2p_run. Qed.

Lemma pte_remove_run m va : pt_wf m -> 0 <= va < 2 ^ 32 -> PDE_IDX va <> 1023 ->
  present (pde m (PDE_IDX va)) = true ->
  page_table_pte_remove va m =
    Ok (tt, pwrite m (pte_pa m va) (Z.land (pread m (pte_pa m va)) (Z.lnot PG_P_1))).
Proof.
  intros Hm Hv Hd Hp. unfold page_table_pte_remove.
  assert (translate m (pte_ptr va) = Some (pte_pa m va)) as Ht.
  { rewrite translate_pte by (apply Hm || done). unfold pde in Hp. unfold pde_pa. by rewrite Hp. }
  assert (vload (pte_ptr va) m = Ok (pread m (pte_pa m va), m)) as Hl by (unfold vload; by rewrite Ht).
  mrun Hl. unfold vstore. by rewrite Ht.
Qed.

(** [page_table_pte_remove va] takes away the translation of the page of
    [va] and of no other page, and keeps the page tables well formed. *)
Theorem pte_remove_unmaps m va :
  pt_wf m -> 0 <= va < 2 ^ 32 -> PDE_IDX va <> 1023 -> present (pde m (PDE_IDX va)) = true ->
  exists m', page_table_pte_remove va m = Ok (tt, m') /\ pt_wf m' /\ translate m' va = None /\
    forall va', 0 <= va' < 2 ^ 32 -> ~ same_page va va' -> translate m' va' = translate m va'.
Proof.
  intros Hm Hv Hd Hp. rewrite pte_remove_run by done. eexists. split; [done|].
  destruct (write_pte m va (Z.land (pread m (pte_pa m va)) (Z.lnot PG_P_1)) Hm Hv Hd Hp)
    as (H1 & _ & H2 & H3); [apply land_range, pread_range, Hm|].
  rewrite present_cleared in H2. done.
Qed.

(** ** Witnesses: the directory at 0x100000 with one table at 0x101000 that
    maps 0xC0000000 to frame 0x5000 *)

Definition demo_mmu : mmu := mk_mmu
  (<[0x100000 + 1023 * 4 := 0x100007]> (<[0x100000 + 768 * 4 := 0x101007]>
     (<[0x101000 := 0x5007]> ∅))) 0x100000.

Lemma demo_mmu_self : self_mapped demo_mmu.
Proof.
  split; [exists 0x100; split; [reflexivity|lia]| |reflexivity|reflexivity].
  intros a w Hw. unfold demo_mmu in Hw. cbn [pmem] in Hw.
  repeat (apply lookup_insert_Some in Hw as [[_ <-]|[_ Hw]]; [lia|]).
  by rewrite lookup_empty in Hw.
Defined.

Lemma demo_pde d : 0 <= d < 1023 -> d <> 768 -> pde demo_mmu d = 0.
Proof.
  intros Hd Hne. unfold pde, pread, demo_mmu. cbn [pmem cr3].
  rewrite !lookup_insert_ne by lia. done.
Defined.

Lemma demo_mmu_wf : pt_wf demo_mmu.
Proof.
  split; [apply demo_mmu_self| |].
  - intros d Hd. destruct (Z.eq_dec d 768) as [->|]; [done|]. by rewrite demo_pde.
  - intros d d' Hd Hd'. destruct (Z.eq_dec d 768) as [->|]; [|by rewrite demo_pde].
    destruct (Z.eq_dec d' 768) as [->|]; [done|]. by rewrite (demo_pde d').
Defined.

Lemma window_reaches_page_tables_witness :
  translate demo_mmu (pde_ptr 0xC0000123) = Some (pde_pa demo_mmu 0xC0000123) /\
  translate demo_mmu (pte_ptr 0xC0000123) = Some (pte_pa demo_mmu 0xC0000123).
Proof.
  destruct (window_reaches_page_tables demo_mmu 0xC0000123 demo_mmu_self) as [H1 H2]; [lia|].
  split; [exact H1|]. apply H2. reflexivity.
Defined.

Lemma addr_v2p_is_translation_witness : addr_v2p 0xC0000123 demo_mmu = Ok (0x5123, demo_mmu).
Proof. apply (addr_v2p_is_translation demo_mmu 0xC0000123 0x5123 demo_mmu_self); [lia|reflexivity]. Defined.

Lemma pte_remove_unmaps_witness :
  exists m', page_table_pte_remove 0xC0000123 demo_mmu = Ok (tt, m') /\ pt_wf m' /\
    translate m' 0xC0000123 = None /\
    forall va', 0 <= va' < 2 ^ 32 -> ~ same_page 0xC0000123 va' ->
      translate m' va' = translate demo_mmu va'.
Proof.
  apply (pte_remove_unmaps demo_mmu 0xC0000123 demo_mmu_wf); [lia|discriminate|reflexivity].
Defined.
