(* ===== verification/Memory.v ===== *)
(** * Physical and virtual page management (kernel/memory.c)

    The page allocator: the two physical pools, the virtual address pools, and
    the page tables that tie them together.  The bitmaps are those of
    [Bitmap], the page tables those of [Paging]; every load and store of a
    page table entry goes through the processor's translation.  The pool locks
    are counted for the running thread ([lock_acquire] by the holder counts
    up, [lock_release] counts down); contention is the subject of [Sync]. *)

From S2P Require Import Prelude Bitmap Paging.

Inductive pool_flags : Type := PF_KERNEL | PF_USER.

(** [struct virtual_addr] *)
Record virtual_addr : Type := mk_vaddr { vaddr_bitmap : bitmap; vaddr_start : Z }.

(** [struct pool]; [holds] is [lock.holder_repeat_nr] as long as the running
    thread is the only one to use the pool. *)
Record pool : Type := mk_pool {
  pool_bitmap : bitmap;
  phy_addr_start : Z;
  pool_size : Z;
  holds : Z
}.

(** The globals of memory.c and the two PCB fields of the running thread it
    uses. *)
Record memst : Type := mk_memst {
  mm : mmu;
  kernel_pool : pool;
  user_pool : pool;
  kernel_vaddr : virtual_addr;
  userprog_vaddr : virtual_addr;
  cur_pgdir : Z
}.

Definition set_mm (m : mmu) (s : memst) : memst :=
  mk_memst m (kernel_pool s) (user_pool s) (kernel_vaddr s) (userprog_vaddr s) (cur_pgdir s).
Definition set_kernel_pool (p : pool) (s : memst) : memst :=
  mk_memst (mm s) p (user_pool s) (kernel_vaddr s) (userprog_vaddr s) (cur_pgdir s).
Definition set_user_pool (p : pool) (s : memst) : memst :=
  mk_memst (mm s) (kernel_pool s) p (kernel_vaddr s) (userprog_vaddr s) (cur_pgdir s).
Definition set_kernel_vaddr (v : virtual_addr) (s : memst) : memst :=
  mk_memst (mm s) (kernel_pool s) (user_pool s) v (userprog_vaddr s) (cur_pgdir s).
Definition set_userprog_vaddr (v : virtual_addr) (s : memst) : memst :=
  mk_memst (mm s) (kernel_pool s) (user_pool s) (kernel_vaddr s) v (cur_pgdir s).

Definition set_pool_bitmap (b : bitmap) (p : pool) : pool :=
  mk_pool b (phy_addr_start p) (pool_size p) (holds p).
Definition set_holds (h : Z) (p : pool) : pool :=
  mk_pool (pool_bitmap p) (phy_addr_start p) (pool_size p) h.

(** The pool a flag selects ([pf & PF_KERNEL ? &kernel_pool : &user_pool]). *)
Definition pool_of (pf : pool_flags) (s : memst) : pool :=
  match pf with PF_KERNEL => kernel_pool s | PF_USER => user_pool s end.
Definition set_pool (pf : pool_flags) (p : pool) (s : memst) : memst :=
  match pf with PF_KERNEL => set_kernel_pool p s | PF_USER => set_user_pool p s end.
Definition vaddr_of (pf : pool_flags) (s : memst) : virtual_addr :=
  match pf with PF_KERNEL => kernel_vaddr s | PF_USER => userprog_vaddr s end.
Definition set_vaddr (pf : pool_flags) (v : virtual_addr) (s : memst) : memst :=
  match pf with PF_KERNEL => set_kernel_vaddr v s | PF_USER => set_userprog_vaddr v s end.

Definition PAGE_SIZE : Z := 4096.
Definition K_HEAP_START : Z := 0xC0200000.
Definition MEM_BITMAP_BASE : Z := 0xC009A000.

(** Run a page table access on the whole state. *)
Definition on_mmu {A} (c : M mmu A) : M memst A := fun s =>
  match c (mm s) with
  | Ok (a, m) => Ok (a, set_mm m s)
  | Panic w => Panic w
  | Fault => Fault
  | NoFuel => NoFuel
  end.

(** [lock_acquire]/[lock_release] of a pool by the running thread. *)
Definition pool_lock (pf : pool_flags) : M memst () :=
  modS (fun s => set_pool pf (set_holds (holds (pool_of pf s) + 1) (pool_of pf s)) s).
Definition pool_unlock (pf : pool_flags) : M memst () :=
  s ← getS;
  _ ← assertM (1 <=? holds (pool_of pf s)) "lock_release: plock->holder == running_thread()";
  modS (fun s => set_pool pf (set_holds (holds (pool_of pf s) - 1) (pool_of pf s)) s).

(** The loop [while (cnt < pg_cnt) bitmap_set(btmp, bit_idx_start + cnt++, value)]. *)
Fixpoint set_run (n : nat) (btmp : bitmap) (bit_idx_start cnt value : Z) : outcome bitmap :=
  match n with
  | O => Ok btmp
  | S n' =>
      btmp' ← bitmap_set btmp (u32 (bit_idx_start + cnt)) value;
      set_run n' btmp' bit_idx_start (cnt + 1) value
  end.

Definition vaddr_get (pf : pool_flags) (pg_cnt : Z) : M memst Z :=
  s ← getS;
  let v := vaddr_of pf s in
  bit_idx_start ← liftO (bitmap_scan (vaddr_bitmap v) pg_cnt);
  if bit_idx_start =? -1 then mret NULL else
  b' ← liftO (set_run (Z.to_nat pg_cnt) (vaddr_bitmap v) bit_idx_start 0 1);
  _ ← modS (set_vaddr pf (mk_vaddr b' (vaddr_start v)));
  let va := u32 (vaddr_start v + bit_idx_start * PAGE_SIZE) in
  match pf with
  | PF_KERNEL => mret va
  | PF_USER =>
      _ ← assertM (va <? 0xC0000000 - PG_SIZE) "vaddr_get: (uint32_t)vaddr_start < (0xC0000000 - PG_SIZE)";
      mret va
  end.

Definition palloc (pf : pool_flags) : M memst Z :=
  s ← getS;
  let m_pool := pool_of pf s in
  bit_idx ← liftO (bitmap_scan (pool_bitmap m_pool) 1);
  if bit_idx =? -1 then mret NULL else
  b' ← liftO (bitmap_set (pool_bitmap m_pool) bit_idx 1);
  _ ← modS (set_pool pf (set_pool_bitmap b' m_pool));
  mret (u32 (bit_idx * PAGE_SIZE + phy_addr_start m_pool)).

Definition memset0 (va size : Z) : M memst () :=
  _ ← assertM (negb (va =? 0)) "memset: dst_ != NULL";
  on_mmu (zero_words (Z.to_nat (size / 4)) va).

Definition page_table_add (vaddr page_phyaddr : Z) : M memst () :=
  let pde := pde_ptr vaddr in
  let pte := pte_ptr vaddr in
  d ← on_mmu (vload pde);
  if present d then
    t ← on_mmu (vload pte);
    _ ← assertM (negb (present t)) "page_table_add: !(*pte & 0x00000001)";
    on_mmu (vstore pte (entry page_phyaddr))
  else
    pde_phyaddr ← palloc PF_KERNEL;
    _ ← on_mmu (vstore pde (entry pde_phyaddr));
    _ ← memset0 (Z.land pte 0xFFFFF000) PAGE_SIZE;
    t ← on_mmu (vload pte);
    _ ← assertM (negb (present t)) "page_table_add: !(*pte & 0x00000001)";
    on_mmu (vstore pte (entry page_phyaddr)).

(** The loop of [malloc_page]; false when a physical page is missing. *)
Fixpoint map_pages (n : nat) (pf : pool_flags) (vaddr : Z) : M memst bool :=
  match n with
  | O => mret true
  | S n' =>
      page_phyaddr ← palloc pf;
      if page_phyaddr =? NULL then mret false else
      _ ← page_table_add vaddr page_phyaddr;
      map_pages n' pf (u32 (vaddr + PAGE_SIZE))
  end.

Definition malloc_page (pf : pool_flags) (pg_cnt : Z) : M memst Z :=
  _ ← assertM ((0 <? pg_cnt) && (pg_cnt <? 3840)) "malloc_page: pg_cnt > 0 && pg_cnt < 3840";
  vaddr_start ← vaddr_get pf pg_cnt;
  if vaddr_start =? NULL then mret NULL else
  ok ← map_pages (Z.to_nat pg_cnt) pf vaddr_start;
  if (ok : bool) then mret vaddr_start else mret NULL.

Definition get_kernel_pages (pg_cnt : Z) : M memst Z :=
  _ ← pool_lock PF_KERNEL;
  vaddr ← malloc_page PF_KERNEL pg_cnt;
  _ ← (if vaddr =? NULL then mret tt else memset0 vaddr (u32 (pg_cnt * PAGE_SIZE)));
  _ ← pool_unlock PF_KERNEL;
  mret vaddr.

Definition get_user_pages (pg_cnt : Z) : M memst Z :=
  _ ← pool_lock PF_USER;
  vaddr ← malloc_page PF_USER pg_cnt;
  _ ← memset0 vaddr (u32 (pg_cnt * PG_SIZE));
  _ ← pool_unlock PF_USER;
  mret vaddr.

Definition get_a_page (pf : pool_flags) (vaddr : Z) : M memst Z :=
  _ ← pool_lock pf;
  s ← getS;
  _ ← match pf with
      | PF_USER =>
          if cur_pgdir s =? NULL
          then panicM "get_a_page:not allow kernel alloc userspace or user alloc kernelspace by get_a_page"
          else
            let v := userprog_vaddr s in
            let bit_idx := i32 (u32 (vaddr - vaddr_start v) / PG_SIZE) in
            _ ← assertM (0 <=? bit_idx) "get_a_page: bit_idx >= 0";
            b' ← liftO (bitmap_set (vaddr_bitmap v) bit_idx 1);
            modS (set_userprog_vaddr (mk_vaddr b' (vaddr_start v)))
      | PF_KERNEL =>
          if cur_pgdir s =? NULL
          then
            let v := kernel_vaddr s in
            let bit_idx := i32 (u32 (vaddr - vaddr_start v) / PG_SIZE) in
            _ ← assertM (0 <=? bit_idx) "get_a_page: bit_idx >= 0";
            b' ← liftO (bitmap_set (vaddr_bitmap v) bit_idx 1);
            modS (set_kernel_vaddr (mk_vaddr b' (vaddr_start v)))
          else panicM "get_a_page:not allow kernel alloc userspace or user alloc kernelspace by get_a_page"
      end;
  page_phyaddr ← palloc pf;
  if page_phyaddr =? NULL then mret NULL else
  _ ← page_table_add vaddr page_phyaddr;
  _ ← pool_unlock pf;
  mret vaddr.

Definition get_a_page_without_opvaddrbitmap (pf : pool_flags) (vaddr : Z) : M memst Z :=
  _ ← pool_lock pf;
  page_phyaddr ← palloc pf;
  if page_phyaddr =? NULL then (_ ← pool_unlock pf; mret NULL) else
  _ ← page_table_add vaddr page_phyaddr;
  _ ← pool_unlock pf;
  mret vaddr.

(** Pool and bit of a physical page: the test on [user_pool.phy_addr_start]
    that [pfree] and [free_a_phy_page] share. *)
Definition phys_slot (s : memst) (pg_phy_addr : Z) : pool_flags * Z :=
  if phy_addr_start (user_pool s) <=? pg_phy_addr
  then (PF_USER, u32 (pg_phy_addr - phy_addr_start (user_pool s)) / PG_SIZE)
  else (PF_KERNEL, u32 (pg_phy_addr - phy_addr_start (kernel_pool s)) / PG_SIZE).

Definition pfree (pg_phy_addr : Z) : M memst () :=
  s ← getS;
  let '(pf, bit_idx) := phys_slot s pg_phy_addr in
  b' ← liftO (bitmap_set (pool_bitmap (pool_of pf s)) bit_idx 0);
  modS (set_pool pf (set_pool_bitmap b' (pool_of pf s))).

Definition free_a_phy_page (pg_phy_addr : Z) : M memst () :=
  s ← getS;
  let '(pf, bit_idx) := phys_slot s pg_phy_addr in
  b' ← liftO (bitmap_set (pool_bitmap (pool_of pf s)) bit_idx 0);
  modS (set_pool pf (set_pool_bitmap b' (pool_of pf s))).

Definition vaddr_remove (pf : pool_flags) (vaddr pg_cnt : Z) : M memst () :=
  s ← getS;
  let v := vaddr_of pf s in
  let bit_idx_start := u32 (vaddr - vaddr_start v) / PG_SIZE in
  b' ← liftO (set_run (Z.to_nat pg_cnt) (vaddr_bitmap v) bit_idx_start 0 0);
  modS (set_vaddr pf (mk_vaddr b' (vaddr_start v))).

(** The loop of [mfree_page]: release the frame behind each page and its page
    table entry; [user] says which pool the first frame belongs to. *)
Fixpoint unmap_pages (n : nat) (user : bool) (vaddr : Z) : M memst () :=
  match n with
  | O => mret tt
  | S n' =>
      let vaddr := u32 (vaddr + PG_SIZE) in
      pg_phy_addr ← on_mmu (addr_v2p vaddr);
      s ← getS;
      _ ← assertM
            (if user
             then (pg_phy_addr mod PG_SIZE =? 0) && (phy_addr_start (user_pool s) <=? pg_phy_addr)
             else (pg_phy_addr mod PG_SIZE =? 0) &&
                  (phy_addr_start (kernel_pool s) <=? pg_phy_addr) &&
                  (pg_phy_addr <? phy_addr_start (user_pool s)))
            "mfree_page: frame in its pool";
      _ ← pfree pg_phy_addr;
      _ ← on_mmu (page_table_pte_remove vaddr);
      unmap_pages n' user vaddr
  end.

Definition mfree_page (pf : pool_flags) (vaddr pg_cnt : Z) : M memst () :=
  _ ← assertM ((1 <=? pg_cnt) && (vaddr mod PG_SIZE =? 0)) "mfree_page: pg_cnt >=1 && vaddr % PG_SIZE == 0";
  pg_phy_addr ← on_mmu (addr_v2p vaddr);
  _ ← assertM ((pg_phy_addr mod PG_SIZE =? 0) && (0x102000 <=? pg_phy_addr))
        "mfree_page: (pg_phy_addr % PG_SIZE) == 0 && pg_phy_addr >= 0x102000";
  s ← getS;
  _ ← unmap_pages (Z.to_nat pg_cnt) (phy_addr_start (user_pool s) <=? pg_phy_addr)
        (u32 (vaddr - PG_SIZE));
  vaddr_remove pf vaddr pg_cnt.

(** [mem_pool_init]: [raw] is the memory from [MEM_BITMAP_BASE] on, where the
    three bitmaps lie one behind the other.  What a pool bitmap shows behind
    its own bytes is the state of that memory at its initialisation; the
    scans of the physical pools (always for one bit) do not depend on it. *)
Definition mem_pool_init (all_mem : Z) (raw : list Z) : outcome (pool * pool * virtual_addr) :=
  let page_table_size := PAGE_SIZE * 256 in
  let used_mem := page_table_size + 0x100000 in
  let free_mem := u32 (all_mem - used_mem) in
  let all_free_pages := u16 (free_mem / PAGE_SIZE) in
  let kernel_free_pages := all_free_pages / 2 in
  let user_free_pages := u16 (all_free_pages - kernel_free_pages) in
  let kbm_length := kernel_free_pages / 8 in
  let ubm_length := user_free_pages / 8 in
  let kp_start := used_mem in
  let up_start := u32 (kp_start + kernel_free_pages * PAGE_SIZE) in
  kb ← bitmap_init (mk_bitmap kbm_length raw);
  ub ← bitmap_init (mk_bitmap ubm_length (drop (Z.to_nat kbm_length) (bits kb)));
  vb ← bitmap_init (mk_bitmap kbm_length (drop (Z.to_nat ubm_length) (bits ub)));
  Ok (mk_pool kb kp_start (kernel_free_pages * PAGE_SIZE) 0,
      mk_pool ub up_start (user_free_pages * PAGE_SIZE) 0,
      mk_vaddr vb K_HEAP_START).

(** ** Invariants *)

Definition frames (p : pool) : Z := nbits (pool_bitmap p).

(** The physical pages a pool manages lie below 4 GiB, page 0 is not one of
    them, and the bitmap is well formed. *)
Record pool_wf (p : pool) : Prop := {
  pl_bitmap : bitmap_wf (pool_bitmap p);
  pl_start : exists q, phy_addr_start p = q * 4096 /\ 0 < q /\ q + frames p <= 2 ^ 20
}.

(** The frame [f] is a free page of the pool. *)
Definition frame_free (p : pool) (f : Z) : Prop :=
  exists i, 0 <= i < frames p /\ f = phy_addr_start p + i * 4096 /\ bit_used (pool_bitmap p) i = false.

(** How many free pages are left. *)
Definition nfree (btmp : bitmap) : nat :=
  length (filter (fun i => bit_used btmp i = false) (seqZ 0 (nbits btmp))).

(** The invariant of the page allocator: page tables and pools are well
    formed, the pools do not overlap, and no page that serves as a page table
    or directory is free in a pool. *)
Record mem_wf (s : memst) : Prop := {
  mw_pt : pt_wf (mm s);
  mw_kernel : pool_wf (kernel_pool s);
  mw_user : pool_wf (user_pool s);
  mw_disjoint : phy_addr_start (kernel_pool s) + frames (kernel_pool s) * 4096
                <= phy_addr_start (user_pool s);
  mw_tables : forall pf d, 0 <= d < 1023 -> present (pde (mm s) d) = true ->
    ~ frame_free (pool_of pf s) (frame_of (pde (mm s) d));
  mw_cr3 : forall pf, ~ frame_free (pool_of pf s) (cr3 (mm s))
}.

(** A virtual address pool: whole pages below the page table window, and an
    address whose bit is clear has no translation. *)
Record vaddr_wf (pf : pool_flags) (s : memst) : Prop := {
  vw_bitmap : bitmap_wf (vaddr_bitmap (vaddr_of pf s));
  vw_behind : btmp_bytes_len (vaddr_bitmap (vaddr_of pf s)) <
              Z.of_nat (length (bits (vaddr_bitmap (vaddr_of pf s))));
  vw_start : exists q, vaddr_start (vaddr_of pf s) = q * 4096 /\ 0 < q /\
     q + nbits (vaddr_bitmap (vaddr_of pf s)) <= 0xFFC00;
  vw_clear : forall i, 0 <= i < nbits (vaddr_bitmap (vaddr_of pf s)) ->
     bit_used (vaddr_bitmap (vaddr_of pf s)) i = false ->
     translate (mm s) (vaddr_start (vaddr_of pf s) + i * 4096) = None
}.

(** ** Counting free bits *)

Lemma count_remove (P P' : Z -> Prop) `{forall x, Decision (P x)} `{forall x, Decision (P' x)} l k :
  NoDup l -> k ∈ l -> P k -> (forall j, j ∈ l -> P' j <-> P j /\ j <> k) ->
  length (filter P l) = S (length (filter P' l)).
Proof.
  induction l as [|a l IH]; intros Hnd Hk HP Heq; [by apply elem_of_nil in Hk|].
  apply NoDup_cons in Hnd as [Ha Hnd]. rewrite !filter_cons.
  assert (forall j, j ∈ l -> P' j <-> P j /\ j <> k) as Heq' by (intros; apply Heq; set_solver).
  destruct (decide (a = k)) as [->|Hne].
  - rewrite decide_True by done. rewrite decide_False by (rewrite Heq by set_solver; tauto).
    cbn. do 2 f_equal. apply filter_ext_elem. intros j Hj. rewrite Heq' by done.
    split; [|tauto]. intros ?. split; [done|]. by intros ->.
  - assert (k ∈ l) by set_solver. specialize (IH Hnd H1 HP Heq').
    specialize (Heq a ltac:(set_solver)). destruct (decide (P a)), (decide (P' a)); cbn; try tauto; lia.
Qed.

Lemma nfree_claim b b' k :
  0 <= k < nbits b -> nbits b' = nbits b -> bit_used b k = false ->
  (forall j, 0 <= j -> bit_used b' j = if j =? k then true else bit_used b j) ->
  nfree b = S (nfree b').
Proof.
  intros Hk Hn Hf Hr. unfold nfree. rewrite Hn. apply (count_remove _ _ _ k).
  - apply NoDup_seqZ.
  - apply elem_of_seqZ. lia.
  - done.
  - intros j [Hj _]%elem_of_seqZ. cbn beta. rewrite Hr by lia. destruct (Z.eqb_spec j k) as [->|Hne].
    + split; [done|]. by intros [_ ?].
    + split; [done|]. by intros [? _].
Qed.

Lemma nfree_exists b : (0 < nfree b)%nat -> exists f, 0 <= f < nbits b /\ bit_used b f = false.
Proof.
  unfold nfree. intros Hn.
  destruct (filter (fun i => bit_used b i = false) (seqZ 0 (nbits b))) as [|f l] eqn:E; [cbn in Hn; lia|].
  assert (f ∈ filter (fun i => bit_used b i = false) (seqZ 0 (nbits b))) as Hf by (rewrite E; left).
  apply list_elem_of_filter in Hf as [Hf Hin]. apply elem_of_seqZ in Hin. exists f. split; [lia|done].
Qed.

(** ** The physical pools *)

Lemma palloc_run pf s :
  pool_wf (pool_of pf s) -> (0 < nfree (pool_bitmap (pool_of pf s)))%nat ->
  exists f b', let p' := set_pool_bitmap b' (pool_of pf s) in
    palloc pf s = Ok (f, set_pool pf p' s) /\ pool_wf p' /\ frames p' = frames (pool_of pf s) /\
    frame_free (pool_of pf s) f /\ aligned f /\ f <> 0 /\
    nfree (pool_bitmap (pool_of pf s)) = S (nfree b') /\
    forall x, frame_free p' x <-> frame_free (pool_of pf s) x /\ x <> f.
Proof.
  intros [Hb (q & Hq & Hq0 & Hq1)] Hn. unfold frames in Hq1.
  destruct (bitmap_claim _ Hb (nfree_exists _ Hn))
    as (k & b' & Hs & Hset & Hk & Hfree & Hb' & Hlen & Hmem & Hr).
  assert (nbits b' = nbits (pool_bitmap (pool_of pf s))) as Hnb by (unfold nbits; by rewrite Hlen).
  exists (phy_addr_start (pool_of pf s) + k * 4096), b'. cbn zeta.
  split; [|split; [split|split; [|split; [|split; [|split; [|split]]]]]].
  - unfold palloc, getS, liftO. unfold mbind, M_bind. rewrite Hs. cbn [mbind outcome_bind].
    destruct (Z.eqb_spec k (-1)); [lia|]. rewrite Hset. cbn. unfold PAGE_SIZE.
    rewrite wrapu_small; [unfold mret, M_ret; do 2 f_equal; lia|lia].
  - done.
  - exists q. unfold frames. cbn. rewrite Hnb. done.
  - unfold frames. cbn. done.
  - exists k. split; [done|]. done.
  - exists (q + k). split; [lia|lia].
  - lia.
  - by apply (nfree_claim _ _ k).
  - intros x. unfold frame_free, frames. cbn. rewrite Hnb. split.
    + intros (i & Hi & -> & Hu). rewrite Hr in Hu by lia. destruct (Z.eqb_spec i k); [done|].
      split; [by exists i|lia].
    + intros [(i & Hi & -> & Hu) Hne]. exists i. split; [done|]. split; [done|].
      rewrite Hr by lia. destruct (Z.eqb_spec i k) as [->|]; [lia|done].
Qed.

Lemma nfree_zero b : nfree b = 0%nat -> forall j, 0 <= j < nbits b -> bit_used b j = true.
Proof.
  unfold nfree. intros Hn j Hj. destruct (bit_used b j) eqn:E; [done|].
  assert (j ∈ filter (fun i => bit_used b i = false) (seqZ 0 (nbits b))) as Hin.
  { apply list_elem_of_filter. split; [done|]. apply elem_of_seqZ. lia. }
  apply nil_length_inv in Hn. rewrite Hn in Hin. by apply elem_of_nil in Hin.
Qed.

(** Setters and getters. *)
Lemma pool_of_set pf pf' p s :
  pool_of pf (set_pool pf' p s) =
    match pf, pf' with
    | PF_KERNEL, PF_KERNEL | PF_USER, PF_USER => p
    | _, _ => pool_of pf s
    end.
Proof. by destruct pf, pf'. Qed.

(** The effect of taking a page out of a pool on the invariant. *)
Lemma mem_wf_claim pf s f b' :
  mem_wf s -> pool_wf (set_pool_bitmap b' (pool_of pf s)) ->
  frames (set_pool_bitmap b' (pool_of pf s)) = frames (pool_of pf s) ->
  (forall x, frame_free (set_pool_bitmap b' (pool_of pf s)) x <-> frame_free (pool_of pf s) x /\ x <> f) ->
  mem_wf (set_pool pf (set_pool_bitmap b' (pool_of pf s)) s).
Proof.
  intros [H1 H2 H3 H4 H5 H6] Hp Hfr Hfree. destruct pf; cbn in *.
  - split; cbn; try done.
    + unfold frames in *. cbn in *. rewrite Hfr. done.
    + intros [] d Hd Hpr; [|by apply (H5 PF_USER)]. cbn. rewrite Hfree.
      intros [? _]. by apply (H5 PF_KERNEL d Hd Hpr).
    + intros []; [|by apply (H6 PF_USER)]. cbn. rewrite Hfree. intros [? _]. by apply (H6 PF_KERNEL).
  - split; cbn; try done.
    + intros [] d Hd Hpr; [by apply (H5 PF_KERNEL)|]. cbn. rewrite Hfree.
      intros [? _]. by apply (H5 PF_USER d Hd Hpr).
    + intros []; [by apply (H6 PF_KERNEL)|]. cbn. rewrite Hfree. intros [? _]. by apply (H6 PF_USER).
Qed.

(** No page is free in both pools. *)
Lemma frame_free_disjoint s x : mem_wf s ->
  frame_free (kernel_pool s) x -> ~ frame_free (user_pool s) x.
Proof.
  intros Hw (i & Hi & -> & _) (j & Hj & E & _). pose proof (mw_disjoint _ Hw). lia.
Qed.

(** A successful page table access inside a memory operation. *)
Lemma on_mmu_run {A} (c : M mmu A) s a m' :
  c (mm s) = Ok (a, m') -> on_mmu c s = Ok (a, set_mm m' s).
Proof. unfold on_mmu. by intros ->. Qed.

Lemma set_mm_same s : set_mm (mm s) s = s.
Proof. by destruct s. Qed.

Lemma vload_pde_run s va : mem_wf s -> 0 <= va < 2 ^ 32 ->
  on_mmu (vload (pde_ptr va)) s = Ok (pde (mm s) (PDE_IDX va), s).
Proof.
  intros Hw Hv. erewrite on_mmu_run; [by rewrite set_mm_same|].
  unfold vload. by rewrite translate_pde by (apply Hw || done).
Qed.

Lemma vload_pte_run s va : self_mapped (mm s) -> 0 <= va < 2 ^ 32 ->
  present (pde (mm s) (PDE_IDX va)) = true ->
  on_mmu (vload (pte_ptr va)) s = Ok (pread (mm s) (pte_pa (mm s) va), s).
Proof.
  intros Hw Hv Hp. erewrite on_mmu_run; [by rewrite set_mm_same|].
  unfold vload. rewrite translate_pte by done. unfold pde in Hp. unfold pde_pa. by rewrite Hp.
Qed.

Lemma vstore_pte_run s va w : self_mapped (mm s) -> 0 <= va < 2 ^ 32 ->
  present (pde (mm s) (PDE_IDX va)) = true ->
  on_mmu (vstore (pte_ptr va) w) s = Ok (tt, set_mm (pwrite (mm s) (pte_pa (mm s) va) w) s).
Proof.
  intros Hw Hv Hp. apply on_mmu_run.
  unfold vstore. rewrite translate_pte by done. unfold pde in Hp. unfold pde_pa. by rewrite Hp.
Qed.

(** Changing page table words that keep the directory and its frames. *)
Lemma mem_wf_set_mm m' s : mem_wf s -> pt_wf m' -> cr3 m' = cr3 (mm s) ->
  (forall d, 0 <= d < 1024 -> pde m' d = pde (mm s) d) -> mem_wf (set_mm m' s).
Proof.
  intros [H1 H2 H3 H4 H5 H6] Hm Hc Hp. split; cbn; try done.
  - intros pf d Hd. rewrite Hp by lia. by apply (H5 pf).
  - intros pf. rewrite Hc. apply (H6 pf).
Qed.

(** The tail of [page_table_add], shared by its two branches. *)
Lemma store_mapping s va phy :
  mem_wf s -> 0 <= va < 2 ^ 32 -> PDE_IDX va <> 1023 -> aligned phy ->
  present (pde (mm s) (PDE_IDX va)) = true -> translate (mm s) va = None ->
  exists m', (t ← on_mmu (vload (pte_ptr va));
              _ ← assertM (negb (present t)) "page_table_add: !(*pte & 0x00000001)";
              on_mmu (vstore (pte_ptr va) (entry phy))) s = Ok (tt, set_mm m' s) /\
    mem_wf (set_mm m' s) /\ cr3 m' = cr3 (mm s) /\
    (forall d, 0 <= d < 1024 -> pde m' d = pde (mm s) d) /\
    translate m' va = Some (phy + va mod 4096) /\
    (forall va', 0 <= va' < 2 ^ 32 -> ~ same_page va va' -> translate m' va' = translate (mm s) va') /\
    (forall a, ~ frame_of (pde (mm s) (PDE_IDX va)) <= a < frame_of (pde (mm s) (PDE_IDX va)) + 4096 -> pread m' a = pread (mm s) a).
Proof.
  intros Hw Hv Hd Hphy Hp Ht. destruct (entry_spec phy Hphy) as (Ef & Ep & Er).
  destruct (write_pte (mm s) va (entry phy)) as (W1 & W2 & W3 & W4); try done; [apply Hw|].
  assert (present (pread (mm s) (pte_pa (mm s) va)) = false) as Habs.
  { unfold translate in Ht. unfold pde in Hp. unfold pde_pa in Ht at 1. rewrite Hp in Ht.
    destruct (present (pread (mm s) (pte_pa (mm s) va))); done. }
  eexists. split; [|split; [|split; [|split; [|split; [|split]]]]].
  - mrun (vload_pte_run s va (pw_self _ (mw_pt _ Hw)) Hv Hp).
    erewrite mbindM_Ok by (apply assertM_run; by rewrite Habs). apply vstore_pte_run; [apply Hw|done|done].
  - apply mem_wf_set_mm; [done|exact W1|done|exact W2].
  - done.
  - exact W2.
  - rewrite W3, Ep, Ef, land_FFF. done.
  - exact W4.
  - intros a Ha. rewrite pread_pwrite. case_decide as E; [|done]. subst a. exfalso. apply Ha.
    pose proof (PTE_IDX_range va ltac:(lia)). unfold pte_pa, pde_pa. fold (pde (mm s) (PDE_IDX va)). lia.
Qed.

(** What page table work leaves alone, and the pools it may only draw from. *)
Record keeps (s s' : memst) : Prop := {
  kp_kv : kernel_vaddr s' = kernel_vaddr s;
  kp_uv : userprog_vaddr s' = userprog_vaddr s;
  kp_pgdir : cur_pgdir s' = cur_pgdir s;
  kp_start pf : phy_addr_start (pool_of pf s') = phy_addr_start (pool_of pf s);
  kp_frames pf : frames (pool_of pf s') = frames (pool_of pf s);
  kp_holds pf : holds (pool_of pf s') = holds (pool_of pf s);
  kp_free pf x : frame_free (pool_of pf s') x -> frame_free (pool_of pf s) x;
  kp_cr3 : cr3 (mm s') = cr3 (mm s);
  kp_tables d : 0 <= d < 1023 -> present (pde (mm s') d) = true ->
    pde (mm s') d = pde (mm s) d \/ frame_free (kernel_pool s) (frame_of (pde (mm s') d))
}.

#[global] Instance keeps_preorder : PreOrder keeps.
Proof.
  split.
  - intros s. split; try done. by left.
  - intros s1 s2 s3 [H1 H2 H3 H4 H5 H6 H7 H8 H9] [K1 K2 K3 K4 K5 K6 K7 K8 K9]. split; try congruence.
    + eauto.
    + intros d Hd Hp. destruct (K9 d Hd Hp) as [E|F]; [|right; by apply (H7 PF_KERNEL)].
      rewrite E in *. by apply H9.
Qed.

Lemma keeps_set_mm m' s : cr3 m' = cr3 (mm s) ->
  (forall d, 0 <= d < 1023 -> present (pde m' d) = true ->
     pde m' d = pde (mm s) d \/ frame_free (kernel_pool s) (frame_of (pde m' d))) ->
  keeps s (set_mm m' s).
Proof. intros Hc Hd. split; try done; by intros []. Qed.

(** A page that holds data: neither the directory nor a page table. *)
Definition data_frame (s : memst) (f : Z) : Prop :=
  f <> cr3 (mm s) /\ forall d, 0 <= d < 1023 -> present (pde (mm s) d) = true -> frame_of (pde (mm s) d) <> f.

Lemma free_data_frame pf s f : mem_wf s -> frame_free (pool_of pf s) f -> data_frame s f.
Proof.
  intros Hw Hf. split; [intros ->; by apply (mw_cr3 _ Hw pf)|].
  intros d Hd Hp <-. by apply (mw_tables _ Hw pf d Hd Hp).
Qed.

Lemma data_frame_keeps s s' f :
  keeps s s' -> data_frame s f -> ~ frame_free (kernel_pool s) f -> data_frame s' f.
Proof.
  intros K [H1 H2] Hf. split; [by rewrite (kp_cr3 _ _ K)|]. intros d Hd Hp E.
  destruct (kp_tables _ _ K d Hd Hp) as [E'|F]; [|by rewrite E in F]. rewrite E' in *. by apply (H2 d).
Qed.

Lemma keeps_claim pf s f b' :
  frames (set_pool_bitmap b' (pool_of pf s)) = frames (pool_of pf s) ->
  (forall x, frame_free (set_pool_bitmap b' (pool_of pf s)) x <-> frame_free (pool_of pf s) x /\ x <> f) ->
  keeps s (set_pool pf (set_pool_bitmap b' (pool_of pf s)) s).
Proof.
  intros Hf Hx. destruct pf; split; try done; try (by left); intros pf'; destruct pf'; cbn in *; try done;
    intros x; rewrite Hx; tauto.
Qed.

Lemma pte_window va : 0 <= va < 2 ^ 32 -> Z.land (pte_ptr va) 0xFFFFF000 = mkva 1023 (PDE_IDX va) 0.
Proof.
  intros Hv. pose proof (PDE_IDX_range va Hv). pose proof (PTE_IDX_range va ltac:(lia)).
  rewrite pte_ptr_mkva by done. fold (frame_of (mkva 1023 (PDE_IDX va) (PTE_IDX va * 4))).
  destruct (mkva_fields 1023 (PDE_IDX va) (PTE_IDX va * 4)) as [Hr _]; [lia..|].
  rewrite frame_of_eq by done. unfold mkva in *.
  replace ((1023 * 2 ^ 22 + PDE_IDX va * 4096 + PTE_IDX va * 4) / 4096)
    with (1023 * 1024 + PDE_IDX va); [lia|].
  apply (Z.div_unique_pos _ _ _ (PTE_IDX va * 4)); lia.
Qed.

(** Filling an empty directory slot with a cleared table changes no
    translation outside the window. *)
Lemma cleared_table m va p :
  pt_wf m -> 0 <= va < 2 ^ 32 -> PDE_IDX va <> 1023 -> present (pde m (PDE_IDX va)) = false ->
  fresh_table m p ->
  exists m', zero_words 1024 (mkva 1023 (PDE_IDX va) 0) (pwrite m (pde_pa m va) (entry p)) = Ok (tt, m') /\
    pt_wf m' /\ cr3 m' = cr3 m /\ pde m' (PDE_IDX va) = entry p /\
    (forall d, 0 <= d < 1024 -> d <> PDE_IDX va -> pde m' d = pde m d) /\
    (forall va', 0 <= va' < 2 ^ 32 -> PDE_IDX va' <> 1023 -> translate m' va' = translate m va') /\
    (forall a, a <> pde_pa m va -> ~ p <= a < p + 4096 -> pread m' a = pread m a).
Proof.
  intros Hm Hv Hd Habs Hf. pose proof (PDE_IDX_range va Hv) as Hr.
  destruct (entry_spec p (proj1 Hf)) as (Ef & Ep & Er).
  destruct (install_pde m (PDE_IDX va) p Hm ltac:(lia) Habs Hf) as (I1 & I2 & I3 & I4).
  fold (pde_pa m va) in *. set (m1 := pwrite m (pde_pa m va) (entry p)) in *.
  destruct (zero_words_run 1024 m1 (PDE_IDX va) 0 I1 ltac:(lia)) as (m' & Z1 & Z2 & Z3 & Z4 & Z5);
    [by rewrite I2|lia|lia|done|].
  exists m'. split; [done|]. split; [done|]. split; [done|]. split; [by rewrite Z4 by lia|].
  split; [intros; rewrite Z4 by lia; by apply I3|]. split; cycle 1.
  { intros a Ha1 Ha2. rewrite Z5, decide_False by (rewrite I2, Ef; lia). unfold m1. rewrite pread_pwrite. by case_decide. }
  intros va' Hv' Hd'. pose proof (PDE_IDX_range va' Hv'). pose proof (PTE_IDX_range va' ltac:(lia)).
  rewrite I2, Ef in Z5. rewrite !translate_eq, Z4 by lia.
  destruct (Z.eq_dec (PDE_IDX va') (PDE_IDX va)) as [->|Hne].
  - rewrite I2, Ep, Ef, Habs, Z5, decide_True; [done|]. split; [lia|].
    replace (p + PTE_IDX va' * 4 - p) with (PTE_IDX va' * 4) by lia. apply Z.mod_mul. lia.
  - rewrite I3 by lia. destruct (present (pde m (PDE_IDX va'))) eqn:Hp; [|done].
    assert (aligned (frame_of (pde m (PDE_IDX va')))) as Hal by (apply frame_aligned, pread_range, Hm).
    assert (frame_of (pde m (PDE_IDX va')) <> cr3 m) by (apply pw_dir; [done|lia|done]).
    assert (pread m' (frame_of (pde m (PDE_IDX va')) + PTE_IDX va' * 4) =
            pread m (frame_of (pde m (PDE_IDX va')) + PTE_IDX va' * 4)) as ->; [|done].
    rewrite Z5, decide_False.
    + apply I4. exists (frame_of (pde m (PDE_IDX va'))), (PTE_IDX va' * 4). split; [done|].
      split; [done|]. split; [lia|done].
    + intros [Hin _]. destruct Hf as ((q & -> & Hq) & _ & Hf).
      apply (Hf (PDE_IDX va') ltac:(lia) Hp). destruct Hal as (q' & E & Hq'). rewrite E in *. lia.
Qed.

(** The branch of [page_table_add] that adds a page table. *)
Lemma new_table s va (k : M memst ()) :
  mem_wf s -> 0 <= va < 2 ^ 32 -> PDE_IDX va <> 1023 -> present (pde (mm s) (PDE_IDX va)) = false ->
  (0 < nfree (pool_bitmap (kernel_pool s)))%nat ->
  exists s', (pde_phyaddr ← palloc PF_KERNEL;
              _ ← on_mmu (vstore (pde_ptr va) (entry pde_phyaddr));
              _ ← memset0 (Z.land (pte_ptr va) 0xFFFFF000) PAGE_SIZE; k) s = k s' /\
    mem_wf s' /\ keeps s s' /\ present (pde (mm s') (PDE_IDX va)) = true /\
    user_pool s' = user_pool s /\
    nfree (pool_bitmap (kernel_pool s)) = S (nfree (pool_bitmap (kernel_pool s'))) /\
    (forall va', 0 <= va' < 2 ^ 32 -> PDE_IDX va' <> 1023 ->
       translate (mm s') va' = translate (mm s) va') /\
    (forall a, a <> pde_pa (mm s) va ->
       ~ frame_of (pde (mm s') (PDE_IDX va)) <= a < frame_of (pde (mm s') (PDE_IDX va)) + 4096 -> pread (mm s') a = pread (mm s) a).
Proof.
  intros Hw Hv Hd Habs Hn. pose proof (PDE_IDX_range va Hv) as Hr.
  destruct (palloc_run PF_KERNEL s (mw_kernel _ Hw) Hn) as (f & b' & P1 & P2 & P3 & P4 & P5 & P6 & P7 & P8).
  cbn zeta in *. set (s1 := set_pool PF_KERNEL _ s) in *.
  assert (mem_wf s1) as Hw1 by (by eapply mem_wf_claim).
  assert (keeps s s1) as Hk1 by (by eapply keeps_claim).
  assert (fresh_table (mm s) f) as Hf.
  { split; [done|]. by apply (free_data_frame PF_KERNEL). }
  destruct (cleared_table (mm s) va f) as (m' & C1 & C2 & C3 & C4 & C5 & C6 & C7); try done; [apply Hw|].
  exists (set_mm m' s1). split; [|split; [|split; [|split; [|split; [|split; [|split]]]]]].
  - mrun P1. erewrite mbindM_Ok; cycle 1.
    { apply on_mmu_run. unfold vstore. cbn [mm s1 set_pool set_kernel_pool].
      rewrite translate_pde by (apply Hw || done). done. }
    erewrite mbindM_Ok; cycle 1.
    { unfold memset0. rewrite pte_window by done. erewrite mbindM_Ok; cycle 1.
      { apply assertM_run. destruct (Z.eqb_spec (mkva 1023 (PDE_IDX va) 0) 0) as [E|]; [|done].
        unfold mkva in E. lia. }
      apply on_mmu_run. exact C1. }
    done.
  - destruct Hw1 as [W1 W2 W3 W4 W5 W6]. split; cbn [mm set_mm kernel_pool user_pool]; try done.
    + intros pf d Hd' Hp. destruct (Z.eq_dec d (PDE_IDX va)) as [->|].
      * rewrite C4. destruct (entry_spec f P5) as (-> & _). destruct pf; cbn; [rewrite P8; tauto|].
        by apply frame_free_disjoint.
      * rewrite C5 in * by lia. by apply (W5 pf).
    + intros pf. rewrite C3. apply (W6 pf).
  - destruct Hk1 as [K1 K2 K3 K4 K5 K6 K7 K8 K9].
    split; try done. intros d Hd' Hp. cbn [mm set_mm] in *.
    destruct (Z.eq_dec d (PDE_IDX va)) as [->|]; [|left; by apply C5; lia].
    right. rewrite C4. by destruct (entry_spec f P5) as (-> & _).
  - cbn. rewrite C4. by destruct (entry_spec f P5) as (_ & -> & _).
  - done.
  - exact P7.
  - exact C6.
  - cbn [mm set_mm]. rewrite C4. destruct (entry_spec f P5) as (-> & _). exact C7.
Qed.

(** Only the directory entry of [va] and the page table behind it are written. *)
Definition table_written (va : Z) (s s' : memst) : Prop :=
  forall a, a <> pde_pa (mm s) va ->
    ~ frame_of (pde (mm s') (PDE_IDX va)) <= a < frame_of (pde (mm s') (PDE_IDX va)) + 4096 -> pread (mm s') a = pread (mm s) a.

(** [page_table_add] maps an unmapped page and changes no other mapping. *)
Lemma page_table_add_ok s va phy :
  mem_wf s -> 0 <= va < 2 ^ 32 -> PDE_IDX va <> 1023 -> aligned phy ->
  translate (mm s) va = None -> (0 < nfree (pool_bitmap (kernel_pool s)))%nat ->
  exists s', page_table_add va phy s = Ok (tt, s') /\ mem_wf s' /\ keeps s s' /\
    user_pool s' = user_pool s /\
    (nfree (pool_bitmap (kernel_pool s)) <= S (nfree (pool_bitmap (kernel_pool s'))))%nat /\
    translate (mm s') va = Some (phy + va mod 4096) /\
    (forall va', 0 <= va' < 2 ^ 32 -> PDE_IDX va' <> 1023 -> ~ same_page va va' ->
       translate (mm s') va' = translate (mm s) va') /\
    table_written va s s'.
Proof.
  intros Hw Hv Hd Hphy Ht Hn. unfold page_table_add. mrun (vload_pde_run s va Hw Hv).
  destruct (present (pde (mm s) (PDE_IDX va))) eqn:Hp.
  - destruct (store_mapping s va phy) as (m' & R & W & C & D & T & O & X); try done. pose proof (PDE_IDX_range va Hv).
    exists (set_mm m' s). split; [exact R|]. split; [done|].
    split; [apply keeps_set_mm; [done|intros; left; apply D; lia]|].
    split; [done|]. split; [cbn; lia|]. split; [exact T|]. split; [intros; by apply O|].
    intros a _ Ha. apply X. cbn [mm set_mm] in Ha. by rewrite D in Ha by lia.
  - destruct (new_table s va
      (t ← on_mmu (vload (pte_ptr va));
       _ ← assertM (negb (present t)) "page_table_add: !(*pte & 0x00000001)";
       on_mmu (vstore (pte_ptr va) (entry phy))) Hw Hv Hd Hp Hn) as (s1 & R1 & W1 & K1 & P1 & U1 & N1 & T1 & X1).
    destruct (store_mapping s1 va phy) as (m' & R & W & C & D & T & O & X); try done; [by rewrite T1|]. pose proof (PDE_IDX_range va Hv).
    exists (set_mm m' s1). split; [by rewrite R1, R|]. split; [done|].
    split; [etransitivity; [exact K1|apply keeps_set_mm; [done|intros; left; apply D; lia]]|]. split; [done|]. split; [cbn; lia|].
    split; [exact T|]. split; [intros va' Hv' Hd' Hns; cbn; by rewrite O, T1|].
    intros a Ha1 Ha2. cbn [mm set_mm] in *. rewrite D in Ha2 by lia. rewrite X by done. by apply X1.
Qed.

(** Pages that hold data keep their words. *)
Definition words_kept (s s' : memst) : Prop :=
  forall f o, aligned f -> data_frame s f -> (forall pf, ~ frame_free (pool_of pf s) f) -> 0 <= o < 4096 -> pread (mm s') (f + o) = pread (mm s) (f + o).

Lemma words_kept_trans s1 s2 s3 : keeps s1 s2 -> words_kept s1 s2 -> words_kept s2 s3 -> words_kept s1 s3.
Proof.
  intros K H1 H2 f o Ha Hd Hf Ho. rewrite H2; [by apply H1|done| | |done].
  - apply (data_frame_keeps s1); [done|done|apply (Hf PF_KERNEL)].
  - intros pf Hx. by apply (Hf pf), (kp_free _ _ K).
Qed.

Lemma table_written_kept va s s' : mem_wf s -> mem_wf s' -> keeps s s' -> 0 <= va < 2 ^ 32 -> PDE_IDX va <> 1023 -> translate (mm s') va <> None ->
  table_written va s s' -> words_kept s s'.
Proof.
  intros Hw Hw' K Hv Hd Ht X f o Ha Hdf Hf Ho. pose proof (PDE_IDX_range va Hv) as Hr. apply X.
  - unfold pde_pa. intros E. destruct (aligned_same_page f (cr3 (mm s)) o (PDE_IDX va * 4) Ha) as [E' _]; [apply (sm_base _ (pw_self _ (mw_pt _ Hw)))|lia|lia|done|]. by apply Hdf.
  - intros Hin. assert (present (pde (mm s') (PDE_IDX va)) = true) as Hp by (rewrite translate_eq in Ht; by destruct (present (pde (mm s') (PDE_IDX va)))).
    assert (aligned (frame_of (pde (mm s') (PDE_IDX va)))) as Hal by (apply frame_aligned, pread_range, Hw').
    destruct (aligned_same_page f (frame_of (pde (mm s') (PDE_IDX va))) o (f + o - frame_of (pde (mm s') (PDE_IDX va))) Ha Hal) as [E _]; [lia|lia|lia|].
    destruct (kp_tables _ _ K (PDE_IDX va) ltac:(lia) Hp) as [Et|Et].
    + destruct Hdf as [_ Hdf]. apply (Hdf (PDE_IDX va)); [lia|by rewrite <- Et|by rewrite <- Et].
    + apply (Hf PF_KERNEL). by rewrite E.
Qed.

(** Enough free pages for [n] pages of a pool: every page may need a new page
    table, which always comes from the kernel pool. *)
Definition room (pf : pool_flags) (n : nat) (s : memst) : Prop :=
  (n <= nfree (pool_bitmap (pool_of pf s)))%nat /\
  (n + (if pf is PF_KERNEL then n else 0) <= nfree (pool_bitmap (kernel_pool s)))%nat.

(** One round of the loop of [malloc_page]. *)
Lemma map_page_ok pf s va :
  mem_wf s -> 0 <= va < 2 ^ 32 -> va mod 4096 = 0 -> PDE_IDX va <> 1023 ->
  translate (mm s) va = None -> room pf 1 s ->
  exists f s1 s', palloc pf s = Ok (f, s1) /\ f <> 0 /\ page_table_add va f s1 = Ok (tt, s') /\
    mem_wf s' /\ keeps s s' /\ (forall n, room pf (S n) s -> room pf n s') /\
    frame_free (pool_of pf s) f /\ ~ frame_free (pool_of pf s') f /\
    data_frame s' f /\ translate (mm s') va = Some f /\
    (forall va', 0 <= va' < 2 ^ 32 -> PDE_IDX va' <> 1023 -> ~ same_page va va' ->
       translate (mm s') va' = translate (mm s) va') /\ table_written va s s' /\ (pf = PF_KERNEL -> user_pool s' = user_pool s).
Proof.
  intros Hw Hv Hal Hd Ht [Hn Hk].
  destruct (palloc_run pf s) as (f & b' & P1 & P2 & P3 & P4 & P5 & P6 & P7 & P8);
    [by destruct pf; apply Hw|lia|].
  cbn zeta in *. set (s1 := set_pool pf _ s) in *.
  assert (pool_bitmap (pool_of pf s1) = b') as Eb by (by destruct pf).
  assert (nfree (pool_bitmap (kernel_pool s)) <=
          (if pf is PF_KERNEL then 1 else 0) + nfree (pool_bitmap (kernel_pool s1)))%nat as Hk1
    by (destruct pf; cbn in *; lia).
  destruct (page_table_add_ok s1 va f) as (s' & A1 & A2 & A3 & A4 & A5 & A6 & A7 & A8); try done.
  { by eapply mem_wf_claim. }
  { by destruct pf. }
  { destruct pf; cbn in *; lia. }
  exists f, s1, s'. split; [exact P1|]. split; [done|]. split; [done|]. split; [done|].
  assert (keeps s s1) as Hks by (by eapply keeps_claim).
  split; [by etransitivity|]. split; [|split; [done|split; [|split; [|split; [|split; [|split]]]]]].
  - intros n [Hn' Hk']. split; [|destruct pf; cbn in *; lia]. destruct pf; cbn in *; [lia|]. rewrite A4. cbn. lia.
  - intros Hf. apply (kp_free _ _ A3) in Hf. unfold s1 in Hf. rewrite pool_of_set in Hf.
    destruct pf; by apply P8 in Hf as [_ ?].
  - apply (data_frame_keeps s1); [done| |].
    + apply (free_data_frame pf) in P4; [|done]. by destruct pf.
    + destruct pf; cbn; [rewrite P8; tauto|]. intros Hf. by apply (frame_free_disjoint s f).
  - rewrite A6, Hal. f_equal. lia.
  - intros va' Hv' Hd' Hns. rewrite A7 by done. by destruct pf.
  - unfold table_written in *. replace (mm s1) with (mm s) in A8 by (by destruct pf). exact A8.
  - intros ->. exact A4.
Qed.

Lemma page_not_window q : 0 <= q < 0xFFC00 -> PDE_IDX (q * 4096) <> 1023.
Proof.
  intros Hq. rewrite PDE_IDX_eq by lia. intros E.
  pose proof (Z.mul_div_le (q * 4096) (2 ^ 22) ltac:(lia)). lia.
Qed.

(** The loop of [malloc_page]: distinct free frames behind consecutive pages. *)
Lemma map_pages_ok pf n : forall s q,
  mem_wf s -> 0 <= q -> q + Z.of_nat n <= 0xFFC00 -> room pf n s ->
  (forall i, 0 <= i < Z.of_nat n -> translate (mm s) ((q + i) * 4096) = None) ->
  exists s' fs, map_pages n pf (q * 4096) s = Ok (true, s') /\ mem_wf s' /\ keeps s s' /\
    (forall j, room pf (n + j) s -> room pf j s') /\ length fs = n /\ NoDup fs /\ Forall (frame_free (pool_of pf s)) fs /\
    Forall (fun f => ~ frame_free (pool_of pf s') f /\ data_frame s' f) fs /\
    (forall i f, fs !! i = Some f -> translate (mm s') ((q + Z.of_nat i) * 4096) = Some f) /\
    (forall va', 0 <= va' < 2 ^ 32 -> PDE_IDX va' <> 1023 ->
       ~ q <= va' / 4096 < q + Z.of_nat n -> translate (mm s') va' = translate (mm s) va') /\
    words_kept s s' /\ (pf = PF_KERNEL -> user_pool s' = user_pool s).
Proof.
  induction n as [|n IH]; intros s q Hw Hq Hqn Hr Hnone; cbn [map_pages].
  { exists s, []. do 3 (split; [done|]). split; [done|]. split; [done|]. split; [constructor|].
    do 2 (split; [constructor|]). done. }
  destruct (map_page_ok pf s (q * 4096) Hw)
    as (f & s1 & s2 & P & Hf0 & A & W2 & K2 & R2 & F & F' & D & T & O & X & U); try done; [lia|apply Z.mod_mul; lia|
    apply page_not_window; lia| | |].
  { specialize (Hnone 0). rewrite Z.add_0_r in Hnone. apply Hnone. lia. }
  { destruct Hr as [Hr1 Hr2]. split; [lia|destruct pf; lia]. }
  assert (forall i, 0 < i -> ~ same_page (q * 4096) ((q + i) * 4096)) as Hns.
  { intros i Hi. unfold same_page. rewrite !Z.div_mul by lia. lia. }
  destruct (IH s2 (q + 1)) as (s' & fs & I1 & I2 & I3 & IR & I4 & I5 & I6 & I7 & I8 & I9 & IX & IU); try done; [lia|lia|by apply R2| |].
  { intros i Hi. rewrite <- Z.add_assoc, O; [apply Hnone; lia|lia|apply page_not_window; lia|apply Hns; lia]. }
  exists s', (f :: fs). split.
  { mrun P. destruct (Z.eqb_spec f NULL); [done|]. mrun A. unfold PAGE_SIZE.
    rewrite wrapu_small by lia. by replace (q * 4096 + 4096) with ((q + 1) * 4096) by lia. }
  split; [done|]. split; [by etransitivity|]. split; [intros j Hj; apply IR, R2; by rewrite <- plus_Sn_m|]. split; [cbn; lia|]. split; [|split; [|split; [|split; [|split; [|split]]]]].
  - constructor; [|done]. intros Hin. rewrite Forall_forall in I6. by apply I6 in Hin.
  - constructor; [done|]. eapply Forall_impl; [exact I6|]. intros x. apply (kp_free _ _ K2).
  - constructor; [|done]. split; [intros Hx; by apply F', (kp_free _ _ I3)|].
    apply (data_frame_keeps s2); [done|done|]. destruct pf; [done|]. intros Hx.
    apply (frame_free_disjoint s f Hw); [by apply (kp_free _ _ K2 PF_KERNEL)|done].
  - intros [|i] g; cbn [lookup list_lookup]; [intros [= <-]|intros Hi].
    + rewrite Z.add_0_r, I9; [done|lia|apply page_not_window; lia|]. rewrite Z.div_mul by lia. lia.
    + replace (q + Z.of_nat (S i)) with (q + 1 + Z.of_nat i) by lia. by apply I8.
  - intros va' Hv' Hd' Hout. rewrite I9 by (done || lia). apply O; try done.
    unfold same_page. rewrite Z.div_mul by lia. lia.
  - apply (words_kept_trans s s2 s'); [done| |done]. apply (table_written_kept (q * 4096)); [done|done|done|lia|apply page_not_window; lia|by rewrite T|done].
  - intros E. rewrite IU by done. by apply U.
Qed.

(** ** Virtual address ranges *)

Lemma set_run_ok n : forall b k cnt v,
  bitmap_wf b -> 0 <= k -> 0 <= cnt -> k + cnt + Z.of_nat n <= nbits b -> v = 0 \/ v = 1 ->
  exists b', set_run n b k cnt v = Ok b' /\ bitmap_wf b' /\
    btmp_bytes_len b' = btmp_bytes_len b /\ length (bits b') = length (bits b) /\
    forall j, 0 <= j -> bit_used b' j =
      if (k + cnt <=? j) && (j <? k + cnt + Z.of_nat n) then v =? 1 else bit_used b j.
Proof.
  induction n as [|n IH]; intros b k cnt v Hb Hk Hc Hle Hv; cbn [set_run].
  { exists b. do 4 (split; [done|]). intros j Hj. zcase; cbn; done || lia. }
  pose proof (wf_len_small _ Hb). unfold nbits in *. rewrite wrapu_small by lia.
  destruct (bitmap_set_ok b (k + cnt) v Hb) as (b1 & S1 & W1 & L1 & M1 & U1); [unfold nbits; lia|done|].
  destruct (IH b1 k (cnt + 1) v) as (b' & S' & W' & L' & M' & U'); try done; try lia.
  exists b'. rewrite S1, bind_Ok. split; [done|]. split; [done|]. split; [congruence|].
  split; [congruence|]. intros j Hj. rewrite U', U1 by done.
  destruct (Z.eqb_spec j (k + cnt)), (Z.leb_spec (k + cnt) j), (Z.leb_spec (k + (cnt + 1)) j),
    (Z.ltb_spec j (k + (cnt + 1) + Z.of_nat n)), (Z.ltb_spec j (k + cnt + Z.of_nat (S n)));
    cbn; done || lia.
Qed.

(** The virtual pool of [pf] starts at page [q]. *)
Lemma vaddr_get_run pf s n k q :
  vaddr_wf pf s -> vaddr_start (vaddr_of pf s) = q * 4096 -> 0 < q ->
  q + nbits (vaddr_bitmap (vaddr_of pf s)) <= 0xFFC00 ->
  1 <= n < 3840 -> 0 <= k -> k + n <= nbits (vaddr_bitmap (vaddr_of pf s)) ->
  run (vaddr_bitmap (vaddr_of pf s)) k n ->
  (pf = PF_USER -> q + k < 0xBFFFF) ->
  exists r b', vaddr_get pf n s =
      Ok ((q + r) * 4096, set_vaddr pf (mk_vaddr b' (vaddr_start (vaddr_of pf s))) s) /\
    0 <= r <= k /\ run (vaddr_bitmap (vaddr_of pf s)) r n /\ bitmap_wf b' /\
    btmp_bytes_len b' = btmp_bytes_len (vaddr_bitmap (vaddr_of pf s)) /\
    length (bits b') = length (bits (vaddr_bitmap (vaddr_of pf s))) /\
    forall j, 0 <= j -> bit_used b' j =
      if (r <=? j) && (j <? r + n) then true else bit_used (vaddr_bitmap (vaddr_of pf s)) j.
Proof.
  intros [Hb Hmem _ _] Hq Hq0 Hq1 Hn Hk Hkn Hrun Hu.
  destruct (bitmap_scan_any _ n k Hb ltac:(lia) Hmem Hk Hkn Hrun) as (r & Hs & Hr & Hrr).
  destruct (set_run_ok (Z.to_nat n) (vaddr_bitmap (vaddr_of pf s)) r 0 1 Hb)
    as (b' & S' & W' & L' & M' & U'); [lia|lia|lia|by right|].
  exists r, b'. split; [|split; [done|split; [done|split; [done|split; [done|split; [done|]]]]]].
  - unfold vaddr_get. rewrite (mbindM_Ok _ _ s s s eq_refl). rewrite Hq.
    erewrite mbindM_Ok by (unfold liftO; by rewrite Hs).
    destruct (Z.eqb_spec r (-1)); [lia|].
    erewrite mbindM_Ok by (unfold liftO; by rewrite S'). erewrite mbindM_Ok by done.
    unfold PAGE_SIZE. replace (q * 4096 + r * 4096) with ((q + r) * 4096) by lia.
    rewrite wrapu_small by lia. destruct pf; [done|]. erewrite mbindM_Ok; [done|].
    apply assertM_run. unfold PG_SIZE. apply Z.ltb_lt. specialize (Hu eq_refl). lia.
  - intros j Hj. rewrite U', Z.add_0_r, Z2Nat.id by lia. done.
Qed.

(** Changing only the virtual pool's bitmap is invisible to page tables. *)
Lemma mem_wf_set_vaddr pf v s : mem_wf s -> mem_wf (set_vaddr pf v s).
Proof.
  intros [H1 H2 H3 H4 H5 H6].
  destruct pf; split; try done; intros pf; by (apply (H5 pf) || apply (H6 pf)).
Qed.

Lemma vaddr_of_set pf v s : vaddr_of pf (set_vaddr pf v s) = v.
Proof. by destruct pf. Qed.

Lemma vaddr_of_keeps pf s s' : keeps s s' -> vaddr_of pf s' = vaddr_of pf s.
Proof. intros K. destruct pf; apply K. Qed.

Lemma room_set_vaddr pf pf' v n s : room pf n s -> room pf n (set_vaddr pf' v s).
Proof. by destruct pf, pf'. Qed.

Lemma pool_of_set_vaddr pf pf' v s : pool_of pf (set_vaddr pf' v s) = pool_of pf s.
Proof. by destruct pf, pf'. Qed.

Lemma mm_set_vaddr pf v s : mm (set_vaddr pf v s) = mm s.
Proof. by destruct pf. Qed.

(** The virtual pages from [q + r] on, [n] of them, are handed out in [s']:
    their bits are set, and [fs] are the distinct frames behind them, all
    fresh from the pool. *)
Record handed_out (pf : pool_flags) (s s' : memst) (q r : Z) (fs : list Z) : Prop := {
  ho_bits : forall j, 0 <= j -> bit_used (vaddr_bitmap (vaddr_of pf s')) j =
     if (r <=? j) && (j <? r + Z.of_nat (length fs)) then true
     else bit_used (vaddr_bitmap (vaddr_of pf s)) j;
  ho_start : vaddr_start (vaddr_of pf s') = vaddr_start (vaddr_of pf s);
  ho_nodup : NoDup fs;
  ho_were_free : Forall (frame_free (pool_of pf s)) fs;
  ho_taken : Forall (fun f => ~ frame_free (pool_of pf s') f /\ data_frame s' f) fs;
  ho_mapped : forall i f, fs !! i = Some f -> translate (mm s') ((q + r + Z.of_nat i) * 4096) = Some f;
  ho_others : forall va, 0 <= va < 2 ^ 32 -> PDE_IDX va <> 1023 ->
     ~ q + r <= va / 4096 < q + r + Z.of_nat (length fs) -> translate (mm s') va = translate (mm s) va;
  ho_starts : forall pf', phy_addr_start (pool_of pf' s') = phy_addr_start (pool_of pf' s);
  ho_frames : forall pf', frames (pool_of pf' s') = frames (pool_of pf' s);
  ho_nbits : nbits (vaddr_bitmap (vaddr_of pf s')) = nbits (vaddr_bitmap (vaddr_of pf s));
  ho_free : forall pf' x, frame_free (pool_of pf' s') x -> frame_free (pool_of pf' s) x;
  ho_data : forall f, data_frame s f -> ~ frame_free (kernel_pool s) f -> data_frame s' f
}.

Lemma malloc_page_run pf s n k q :
  mem_wf s -> vaddr_wf pf s -> vaddr_start (vaddr_of pf s) = q * 4096 ->
  0 < n < 3840 -> 0 <= k -> k + n <= nbits (vaddr_bitmap (vaddr_of pf s)) ->
  run (vaddr_bitmap (vaddr_of pf s)) k n -> (pf = PF_USER -> q + k < 0xBFFFF) ->
  room pf (Z.to_nat n) s ->
  exists s' r fs, malloc_page pf n s = Ok ((q + r) * 4096, s') /\ 0 <= r <= k /\
    run (vaddr_bitmap (vaddr_of pf s)) r n /\ Z.of_nat (length fs) = n /\
    handed_out pf s s' q r fs /\ mem_wf s' /\ vaddr_wf pf s' /\
    (forall pf', holds (pool_of pf' s') = holds (pool_of pf' s)) /\
    q + nbits (vaddr_bitmap (vaddr_of pf s)) <= 0xFFC00 /\ 0 < q /\
    (forall j, room pf (Z.to_nat n + j) s -> room pf j s') /\
    words_kept s s' /\ (pf = PF_KERNEL -> user_pool s' = user_pool s /\ userprog_vaddr s' = userprog_vaddr s /\ cur_pgdir s' = cur_pgdir s /\ cr3 (mm s') = cr3 (mm s)).
Proof.
  intros Hw Hvw Hq Hn Hk Hkn Hrun Hu Hroom. pose proof Hvw as [Hb Hmem (q' & Hq' & Hq0 & Hq1) Hclear].
  assert (q' = q) as -> by lia.
  destruct (vaddr_get_run pf s n k q Hvw Hq Hq0 Hq1 ltac:(lia) Hk Hkn Hrun Hu)
    as (r & b' & G & Hr & Hrr & Wb & Lb & Mb & Ub).
  set (v' := mk_vaddr b' (vaddr_start (vaddr_of pf s))) in *. set (s1 := set_vaddr pf v' s) in *.
  assert (nbits b' = nbits (vaddr_bitmap (vaddr_of pf s))) as Enb by (unfold nbits; by rewrite Lb).
  destruct (map_pages_ok pf (Z.to_nat n) s1 (q + r))
    as (s' & fs & M1 & M2 & M3 & MR & M4 & M5 & M6 & M7 & M8 & M9 & MX & MU); try lia.
  { by apply mem_wf_set_vaddr. }
  { by apply room_set_vaddr. }
  { intros i Hi. unfold s1. rewrite mm_set_vaddr.
    replace ((q + r + i) * 4096) with (vaddr_start (vaddr_of pf s) + (r + i) * 4096) by lia.
    apply Hclear; [lia|]. apply Hrr. lia. }
  assert (vaddr_of pf s' = v') as Ev by (rewrite (vaddr_of_keeps _ _ _ M3); apply vaddr_of_set).
  assert (Z.of_nat (length fs) = n) as Hlen by lia.
  exists s', r, fs. split; [|split; [done|split; [done|split; [done|split; [split|split; [done|split; [split|]]]]]]].
  - unfold malloc_page. erewrite mbindM_Ok by (apply assertM_run; zcase; cbn; done || lia).
    mrun G. unfold NULL. destruct (Z.eqb_spec ((q + r) * 4096) 0); [lia|]. by mrun M1.
  - intros j Hj. rewrite Ev. cbn. rewrite Ub by done. by rewrite Hlen.
  - by rewrite Ev.
  - done.
  - unfold s1 in M6. by rewrite pool_of_set_vaddr in M6.
  - done.
  - exact M8.
  - intros va Hv Hd Hout. rewrite M9; [unfold s1; by rewrite mm_set_vaddr|done|done|].
    rewrite Z2Nat.id by lia. by rewrite Hlen in Hout.
  - intros pf'. rewrite (kp_start _ _ M3). unfold s1. by rewrite pool_of_set_vaddr.
  - intros pf'. rewrite (kp_frames _ _ M3). unfold s1. by rewrite pool_of_set_vaddr.
  - by rewrite Ev.
  - intros pf' x Hx. apply (kp_free _ _ M3) in Hx. unfold s1 in Hx. by rewrite pool_of_set_vaddr in Hx.
  - intros f Hf Hnf. apply (data_frame_keeps s1 s' f M3); by destruct pf.
  - by rewrite Ev.
  - rewrite Ev. cbn. lia.
  - exists q. rewrite Ev. cbn. rewrite Enb. done.
  - intros i Hi. rewrite Ev in *. cbn in *. rewrite Enb in Hi. rewrite Ub by lia.
    destruct ((r <=? i) && (i <? r + n)) eqn:E; [done|]. intros Hf.
    rewrite Hq. replace (q * 4096 + i * 4096) with ((q + i) * 4096) by lia. rewrite M9.
    + unfold s1. rewrite mm_set_vaddr. rewrite <- (Hclear i Hi Hf). f_equal. lia.
    + lia.
    + apply page_not_window. lia.
    + rewrite Z.div_mul by lia. apply andb_false_iff in E. rewrite Z.leb_gt, Z.ltb_ge in E. lia.
  - split; [intros pf'; rewrite (kp_holds _ _ M3); unfold s1; by rewrite pool_of_set_vaddr|].
    split; [done|]. split; [done|]. split; [intros j Hj; apply MR; by apply room_set_vaddr|]. split.
    + intros f o Ha Hd Hf Ho. rewrite MX; [unfold s1; by rewrite mm_set_vaddr|done|by destruct pf| |done].
      intros pf'. unfold s1. by rewrite pool_of_set_vaddr.
    + intros ->. rewrite MU, (kp_uv _ _ M3), (kp_pgdir _ _ M3), (kp_cr3 _ _ M3) by done. done.
Qed.

(** ** Giving pages back *)

(** [f] is one of the pages the pool manages. *)
Definition in_pool (p : pool) (f : Z) : Prop :=
  exists i, 0 <= i < frames p /\ f = phy_addr_start p + i * 4096.

Lemma in_pool_aligned pf s f : mem_wf s -> in_pool (pool_of pf s) f ->
  aligned f /\ f mod 4096 = 0 /\ phy_addr_start (pool_of pf s) <= f /\
  (pf = PF_KERNEL -> f < phy_addr_start (user_pool s)).
Proof.
  intros Hw (i & Hi & ->).
  assert (pool_wf (pool_of pf s)) as [_ (q & Hq & Hq0 & Hq1)] by (destruct pf; apply Hw).
  split; [exists (q + i); lia|]. split.
  { rewrite Hq. replace (q * 4096 + i * 4096) with ((q + i) * 4096) by lia. apply Z.mod_mul. lia. }
  split; [lia|]. intros ->. pose proof (mw_disjoint _ Hw). cbn in *. lia.
Qed.

(** The part of the invariant that is about the pools. *)
Definition pools_wf (s : memst) : Prop :=
  pool_wf (kernel_pool s) /\ pool_wf (user_pool s) /\ phy_addr_start (kernel_pool s) + frames (kernel_pool s) * 4096 <= phy_addr_start (user_pool s).

Lemma mem_wf_pools s : mem_wf s -> pools_wf s.
Proof. intros [_ H2 H3 H4 _ _]. done. Qed.

Lemma phys_slot_run pf s i : pools_wf s -> 0 <= i < frames (pool_of pf s) ->
  phys_slot s (phy_addr_start (pool_of pf s) + i * 4096) = (pf, i).
Proof.
  intros ([_ (q & Hq & Hq0 & Hq1)] & [_ (u & Hu & Hu0 & Hu1)] & Hdis) Hi.
  unfold phys_slot, PG_SIZE. destruct pf; cbn in *;
    destruct (Z.leb_spec (phy_addr_start (user_pool s)) (phy_addr_start (kernel_pool s) + i * 4096)) as [?|?];
    try lia; zcase; try lia; f_equal.
  - rewrite wrapu_small by lia. replace (_ + i * 4096 - _) with (i * 4096) by lia. apply Z.div_mul. lia.
  - rewrite wrapu_small by lia. replace (_ + i * 4096 - _) with (i * 4096) by lia. apply Z.div_mul. lia.
  - rewrite wrapu_small by lia. replace (_ + i * 4096 - _) with (i * 4096) by lia. apply Z.div_mul. lia.
Qed.

Lemma mem_wf_release pf s f b' :
  mem_wf s -> pool_wf (set_pool_bitmap b' (pool_of pf s)) ->
  frames (set_pool_bitmap b' (pool_of pf s)) = frames (pool_of pf s) -> data_frame s f ->
  (forall x, frame_free (set_pool_bitmap b' (pool_of pf s)) x <-> frame_free (pool_of pf s) x \/ x = f) ->
  mem_wf (set_pool pf (set_pool_bitmap b' (pool_of pf s)) s).
Proof.
  intros [H1 H2 H3 H4 H5 H6] Hp Hfr [D1 D2] Hfree.
  assert (forall pf' x, frame_free (pool_of pf' (set_pool pf (set_pool_bitmap b' (pool_of pf s)) s)) x ->
            frame_free (pool_of pf' s) x \/ x = f) as Hall.
  { intros pf' x. rewrite pool_of_set. destruct pf, pf'; cbn in *; rewrite ?Hfree; tauto. }
  split.
  - by destruct pf.
  - by destruct pf.
  - by destruct pf.
  - destruct pf; unfold frames in *; cbn in *; [by rewrite Hfr|done].
  - intros pf' d Hd Hpr Hf. apply Hall in Hf. replace (mm (set_pool pf _ s)) with (mm s) in * by (by destruct pf).
    destruct Hf as [Hf|Hf]; [by apply (H5 pf' d Hd Hpr)|by apply (D2 d Hd Hpr)].
  - intros pf' Hf. apply Hall in Hf. replace (mm (set_pool pf _ s)) with (mm s) in * by (by destruct pf).
    destruct Hf as [Hf|Hf]; [by apply (H6 pf')|by apply D1].
Qed.

(** [pfree] and [free_a_phy_page] put the frame back into its pool. *)
Lemma free_page_run pf s f : pools_wf s -> in_pool (pool_of pf s) f ->
  exists b', let s' := set_pool pf (set_pool_bitmap b' (pool_of pf s)) s in
    pfree f s = Ok (tt, s') /\ free_a_phy_page f s = Ok (tt, s') /\ pool_wf (set_pool_bitmap b' (pool_of pf s)) /\
    frames (pool_of pf s') = frames (pool_of pf s) /\
    forall x, frame_free (pool_of pf s') x <-> frame_free (pool_of pf s) x \/ x = f.
Proof.
  intros Hw (i & Hi & ->).
  assert (pool_wf (pool_of pf s)) as [Hb (q & Hq & Hq0 & Hq1)] by (destruct pf; apply Hw).
  destruct (bitmap_set_ok _ i 0 Hb Hi (or_introl eq_refl)) as (b' & S' & W' & L' & M' & U').
  assert (nbits b' = nbits (pool_bitmap (pool_of pf s))) as Enb by (unfold nbits; by rewrite L').
  assert (forall x, frame_free (set_pool_bitmap b' (pool_of pf s)) x <->
            frame_free (pool_of pf s) x \/ x = phy_addr_start (pool_of pf s) + i * 4096) as Hx.
  { intros x. unfold frame_free, frames in *. cbn. rewrite Enb. split.
    - intros (j & Hj & -> & Hu). rewrite U' in Hu by lia. destruct (Z.eqb_spec j i) as [->|]; [by right|].
      left. by exists j.
    - intros [(j & Hj & -> & Hu)| ->]; [exists j|exists i]; (split; [done|]); (split; [done|]); rewrite U' by lia.
      + by destruct (j =? i).
      + by rewrite Z.eqb_refl. }
  exists b'. cbn zeta. unfold pfree, free_a_phy_page, getS. unfold mbind, M_bind. cbn beta iota.
  rewrite phys_slot_run by done. unfold liftO. rewrite S'. split; [done|]. split; [done|]. split; [|split].
  - split; [done|]. exists q. unfold frames in *. cbn. by rewrite Enb.
  - rewrite pool_of_set. unfold frames. by destruct pf; cbn in *.
  - rewrite pool_of_set. by destruct pf.
Qed.

Lemma pfree_run pf s f : mem_wf s -> in_pool (pool_of pf s) f -> data_frame s f ->
  exists b', let s' := set_pool pf (set_pool_bitmap b' (pool_of pf s)) s in
    pfree f s = Ok (tt, s') /\ free_a_phy_page f s = Ok (tt, s') /\ mem_wf s' /\
    frames (pool_of pf s') = frames (pool_of pf s) /\
    forall x, frame_free (pool_of pf s') x <-> frame_free (pool_of pf s) x \/ x = f.
Proof.
  intros Hw Hin Hd. destruct (free_page_run pf s f (mem_wf_pools _ Hw) Hin) as (b' & E1 & E2 & Hp & Hf & Hx). exists b'. cbn zeta in *.
  split; [done|]. split; [done|]. split; [|done]. rewrite pool_of_set in Hf, Hx. apply (mem_wf_release pf s f b'); [done|done|by destruct pf|done|by destruct pf].
Qed.

(** Removing one mapping inside a memory operation. *)
Lemma pte_remove_ok s va : mem_wf s -> 0 <= va < 2 ^ 32 -> PDE_IDX va <> 1023 ->
  (exists pa, translate (mm s) va = Some pa) ->
  exists m', on_mmu (page_table_pte_remove va) s = Ok (tt, set_mm m' s) /\ mem_wf (set_mm m' s) /\
    cr3 m' = cr3 (mm s) /\ (forall d, 0 <= d < 1024 -> pde m' d = pde (mm s) d) /\
    translate m' va = None /\
    (forall va', 0 <= va' < 2 ^ 32 -> ~ same_page va va' -> translate m' va' = translate (mm s) va') /\
    (forall a, ~ frame_of (pde (mm s) (PDE_IDX va)) <= a < frame_of (pde (mm s) (PDE_IDX va)) + 4096 -> pread m' a = pread (mm s) a).
Proof.
  intros Hw Hv Hd (pa & Ht).
  assert (present (pde (mm s) (PDE_IDX va)) = true) as Hp.
  { rewrite translate_eq in Ht. by destruct (present (pde (mm s) (PDE_IDX va))). }
  destruct (write_pte (mm s) va (Z.land (pread (mm s) (pte_pa (mm s) va)) (Z.lnot PG_P_1)))
    as (W1 & W2 & W3 & W4); try done; [apply Hw|apply land_range, pread_range, Hw|].
  eexists. split; [apply on_mmu_run, pte_remove_run; try done; apply Hw|].
  split; [by apply mem_wf_set_mm|]. split; [done|]. split; [exact W2|]. split; [|split; [exact W4|]].
  - by rewrite W3, present_cleared.
  - intros a Ha. rewrite pread_pwrite. case_decide as E; [|done]. subst a. exfalso. apply Ha.
    pose proof (PTE_IDX_range va ltac:(lia)). unfold pte_pa, pde_pa. fold (pde (mm s) (PDE_IDX va)). lia.
Qed.

(** Unmapping [n] pages from page [q] on writes their page tables only. *)
Record entries_cleared (pf : pool_flags) (q n : Z) (s s' : memst) : Prop := {
  ec_cr3 : cr3 (mm s') = cr3 (mm s);
  ec_dir d : 0 <= d < 1024 -> pde (mm s') d = pde (mm s) d;
  ec_words a : (forall i, 0 <= i < n -> ~ frame_of (pde (mm s) (PDE_IDX ((q + i) * 4096))) <= a < frame_of (pde (mm s) (PDE_IDX ((q + i) * 4096))) + 4096) ->
    pread (mm s') a = pread (mm s) a;
  ec_pools pf' : pf' <> pf -> pool_of pf' s' = pool_of pf' s;
  ec_pgdir : cur_pgdir s' = cur_pgdir s;
  ec_holds pf' : holds (pool_of pf' s') = holds (pool_of pf' s)
}.

(** The loop of [mfree_page]: the frames behind the pages return to their
    pool, and the pages lose their translation. *)
Lemma unmap_pages_ok pf fs : forall s q,
  mem_wf s -> 0 < q -> q + Z.of_nat (length fs) <= 0xFFC00 ->
  Forall (fun f => in_pool (pool_of pf s) f /\ data_frame s f) fs ->
  (forall i f, fs !! i = Some f -> translate (mm s) ((q + Z.of_nat i) * 4096) = Some f) ->
  exists s', unmap_pages (length fs) (match pf with PF_USER => true | PF_KERNEL => false end)
               ((q - 1) * 4096) s = Ok (tt, s') /\ mem_wf s' /\
    kernel_vaddr s' = kernel_vaddr s /\ userprog_vaddr s' = userprog_vaddr s /\
    (forall i, 0 <= i < Z.of_nat (length fs) -> translate (mm s') ((q + i) * 4096) = None) /\
    (forall va, 0 <= va < 2 ^ 32 -> PDE_IDX va <> 1023 ->
       ~ q <= va / 4096 < q + Z.of_nat (length fs) -> translate (mm s') va = translate (mm s) va) /\
    (forall x, frame_free (pool_of pf s') x <-> frame_free (pool_of pf s) x \/ x ∈ fs) /\
    (forall x, in_pool (pool_of pf s') x <-> in_pool (pool_of pf s) x) /\
    (forall x, data_frame s' x <-> data_frame s x) /\
    (forall pf', phy_addr_start (pool_of pf' s') = phy_addr_start (pool_of pf' s)) /\
    entries_cleared pf q (Z.of_nat (length fs)) s s'.
Proof.
  induction fs as [|f fs IH]; intros s q Hw Hq Hqn Hall Hmap; cbn [length unmap_pages].
  { exists s. do 4 (split; [done|]). split; [lia|]. split; [done|]. split; [intros x; set_solver|done]. }
  cbn [length] in *. apply Forall_cons in Hall as [[Hin Hdata] Hall].
  pose proof (page_not_window q ltac:(lia)) as Hnw.
  destruct (in_pool_aligned pf s f Hw Hin) as (Hal & Hmod & Hge & Hlt).
  pose proof (Hmap O f eq_refl) as Ht. rewrite Z.add_0_r in Ht.
  destruct (pfree_run pf s f Hw Hin Hdata) as (b' & F1 & _ & F2 & F3 & F4). cbn zeta in *.
  set (s1 := set_pool pf _ s) in *.
  assert (mm s1 = mm s) as Emm by (by destruct pf).
  destruct (pte_remove_ok s1 (q * 4096) F2 ltac:(lia) Hnw) as (m' & R1 & R2 & R3 & R4 & R5 & R6 & R7).
  { rewrite Emm. by exists f. }
  rewrite Emm in *. set (s2 := set_mm m' s1) in *.
  assert (forall i, 0 <= i -> ~ same_page (q * 4096) ((q + 1 + i) * 4096)) as Hns.
  { intros i Hi. unfold same_page. rewrite !Z.div_mul by lia. lia. }
  assert (forall x, in_pool (pool_of pf s2) x <-> in_pool (pool_of pf s) x) as Ein.
  { intros x. unfold in_pool. destruct pf; cbn in *; unfold frames in *; cbn in *; by rewrite F3. }
  assert (forall x, data_frame s2 x <-> data_frame s x) as Eda.
  { intros x. unfold data_frame. cbn [mm s2 set_mm]. rewrite R3.
    split; intros [D1 D2]; (split; [done|]); intros d Hd; specialize (D2 d Hd); [rewrite R4 in D2 by lia|rewrite R4 by lia]; done. }
  destruct (IH s2 (q + 1)) as (s' & I1 & I2 & I3 & I4 & I5 & I6 & I7 & I8 & I9 & I10 & I11); try done; try lia.
  { eapply Forall_impl; [exact Hall|]. intros g [Hg Hdg]. split; [by apply Ein|by apply Eda]. }
  { intros i g Hi. cbn [mm s2 set_mm]. pose proof (lookup_lt_Some _ _ _ Hi).
    rewrite R6; [|lia|apply Hns; lia]. replace (q + 1 + Z.of_nat i) with (q + Z.of_nat (S i)) by lia. by apply Hmap. }
  exists s'. split; [|split; [done|split; [|split; [|split; [|split; [|split; [|split; [|split; [|split]]]]]]]]].
  - unfold PG_SIZE. rewrite wrapu_small by lia. replace ((q - 1) * 4096 + 4096) with (q * 4096) by lia.
    erewrite mbindM_Ok; cycle 1.
    { apply on_mmu_run, addr_v2p_run; [apply Hw|lia|exact Ht]. }
    rewrite set_mm_same. rewrite (mbindM_Ok _ _ s s s eq_refl).
    erewrite mbindM_Ok; cycle 1.
    { apply assertM_run. destruct pf; try specialize (Hlt eq_refl); cbn in *; rewrite Hmod, Z.eqb_refl; cbn; zcase; cbn; done || lia. }
    mrun F1. mrun R1. replace (q * 4096) with ((q + 1 - 1) * 4096) by lia. exact I1.
  - rewrite I3. by destruct pf.
  - rewrite I4. by destruct pf.
  - intros i Hi. destruct (Z.eq_dec i 0) as [->|].
    + rewrite Z.add_0_r, I6; [done|lia|done|]. rewrite Z.div_mul by lia. lia.
    + replace (q + i) with (q + 1 + (i - 1)) by lia. apply I5. lia.
  - intros va Hv Hd Hout. rewrite I6 by (done || lia). cbn [mm s2 set_mm]. apply R6; [done|].
    unfold same_page. rewrite Z.div_mul by lia. lia.
  - intros x. rewrite I7, elem_of_cons.
    replace (pool_of pf s2) with (pool_of pf s1) by (by destruct pf). rewrite F4. tauto.
  - intros x. by rewrite I8, Ein.
  - intros x. by rewrite I9, Eda.
  - intros pf'. rewrite I10. by destruct pf, pf'.
  - destruct I11 as [J1 J2 J3 J4 J5 J6]. split.
    + rewrite J1. exact R3.
    + intros d Hd. rewrite J2 by done. by apply R4.
    + intros a Ha. rewrite J3.
      * apply R7. specialize (Ha 0 ltac:(lia)). by rewrite Z.add_0_r in Ha.
      * intros i Hi. cbn [mm s2 set_mm]. pose proof (PDE_IDX_range ((q + 1 + i) * 4096) ltac:(lia)). rewrite R4 by lia.
        replace (q + 1 + i) with (q + (1 + i)) by lia. apply Ha. lia.
    + intros pf' Hne. rewrite J4 by done. by destruct pf, pf'.
    + rewrite J5. by destruct pf.
    + intros pf'. rewrite J6. by destruct pf, pf'.
Qed.

(** Clearing a range of a virtual pool. *)
Lemma vaddr_remove_run pf s n r q :
  vaddr_start (vaddr_of pf s) = q * 4096 -> 0 < q -> bitmap_wf (vaddr_bitmap (vaddr_of pf s)) ->
  q + nbits (vaddr_bitmap (vaddr_of pf s)) <= 0xFFC00 ->
  0 < n -> 0 <= r -> r + n <= nbits (vaddr_bitmap (vaddr_of pf s)) ->
  exists b', vaddr_remove pf ((q + r) * 4096) n s =
      Ok (tt, set_vaddr pf (mk_vaddr b' (vaddr_start (vaddr_of pf s))) s) /\ bitmap_wf b' /\
    btmp_bytes_len b' = btmp_bytes_len (vaddr_bitmap (vaddr_of pf s)) /\
    length (bits b') = length (bits (vaddr_bitmap (vaddr_of pf s))) /\
    forall j, 0 <= j -> bit_used b' j =
      if (r <=? j) && (j <? r + n) then false else bit_used (vaddr_bitmap (vaddr_of pf s)) j.
Proof.
  intros Hq Hq0 Hb Hlim Hn Hr Hrn.
  destruct (set_run_ok (Z.to_nat n) (vaddr_bitmap (vaddr_of pf s)) r 0 0 Hb)
    as (b' & S' & W' & L' & M' & U'); [lia|lia|lia|by left|].
  exists b'. split; [|split; [done|split; [done|split; [done|]]]].
  - unfold vaddr_remove. rewrite (mbindM_Ok _ _ s s s eq_refl). rewrite Hq. unfold PG_SIZE.
    replace ((q + r) * 4096 - q * 4096) with (r * 4096) by lia.
    rewrite wrapu_small, Z.div_mul by lia. by erewrite mbindM_Ok by (unfold liftO; by rewrite S').
  - intros j Hj. rewrite U', Z.add_0_r, Z2Nat.id by lia. done.
Qed.

Lemma mfree_page_run pf s q r fs :
  mem_wf s -> vaddr_wf pf s -> vaddr_start (vaddr_of pf s) = q * 4096 ->
  0x102000 <= phy_addr_start (kernel_pool s) -> fs <> [] -> 0 <= r ->
  r + Z.of_nat (length fs) <= nbits (vaddr_bitmap (vaddr_of pf s)) ->
  Forall (fun f => in_pool (pool_of pf s) f /\ data_frame s f) fs ->
  (forall i f, fs !! i = Some f -> translate (mm s) ((q + r + Z.of_nat i) * 4096) = Some f) ->
  exists s', mfree_page pf ((q + r) * 4096) (Z.of_nat (length fs)) s = Ok (tt, s') /\
    mem_wf s' /\ vaddr_wf pf s' /\
    (forall j, 0 <= j -> bit_used (vaddr_bitmap (vaddr_of pf s')) j =
       if (r <=? j) && (j <? r + Z.of_nat (length fs)) then false
       else bit_used (vaddr_bitmap (vaddr_of pf s)) j) /\
    (forall p, 0 <= p < 0xFFC00 -> translate (mm s') (p * 4096) =
       if (q + r <=? p) && (p <? q + r + Z.of_nat (length fs)) then None else translate (mm s) (p * 4096)) /\
    (forall x, frame_free (pool_of pf s') x <-> frame_free (pool_of pf s) x \/ x ∈ fs) /\
    (forall x, in_pool (pool_of pf s') x <-> in_pool (pool_of pf s) x) /\
    (forall x, data_frame s' x <-> data_frame s x) /\
    (forall pf', phy_addr_start (pool_of pf' s') = phy_addr_start (pool_of pf' s)) /\
    vaddr_start (vaddr_of pf s') = vaddr_start (vaddr_of pf s) /\
    nbits (vaddr_bitmap (vaddr_of pf s')) = nbits (vaddr_bitmap (vaddr_of pf s)) /\
    entries_cleared pf (q + r) (Z.of_nat (length fs)) s s' /\ (pf = PF_KERNEL -> userprog_vaddr s' = userprog_vaddr s).
Proof.
  intros Hw Hvw Hq Hbase Hne Hr Hrn Hall Hmap.
  pose proof Hvw as [Hb Hmem (q' & Hq' & Hq0 & Hq1) Hclear]. assert (q' = q) as -> by lia.
  destruct fs as [|f fs]; [done|]. set (l := f :: fs) in *.
  assert (0 < Z.of_nat (length l)) as Hl by (cbn; lia).
  destruct (unmap_pages_ok pf l s (q + r)) as (s1 & U1 & U2 & U3 & U4 & U5 & U6 & U7 & U8 & U9 & U10 & U11); try done; try lia.
  assert (vaddr_of pf s1 = vaddr_of pf s) as Ev by (by destruct pf).
  destruct (vaddr_remove_run pf s1 (Z.of_nat (length l)) r q) as (b' & R1 & R2 & R3 & R4 & R5);
    rewrite ?Ev; try done.
  rewrite Ev in *. set (s' := set_vaddr pf _ s1) in *. set (B := vaddr_bitmap (vaddr_of pf s)) in *.
  assert (forall p, 0 <= p < 0xFFC00 -> translate (mm s') (p * 4096) =
     if (q + r <=? p) && (p <? q + r + Z.of_nat (length l)) then None else translate (mm s) (p * 4096)) as Htr.
  { intros p Hp. unfold s'. rewrite mm_set_vaddr.
    destruct (Z.leb_spec (q + r) p), (Z.ltb_spec p (q + r + Z.of_nat (length l))); cbn [andb].
    2-4: apply U6; [lia|by apply page_not_window|rewrite Z.div_mul by lia; lia].
    replace p with (q + r + (p - (q + r))) by lia. apply U5. lia. }
  assert (vaddr_of pf s' = mk_vaddr b' (q * 4096)) as Ev' by (unfold s'; rewrite vaddr_of_set; by rewrite Hq).
  exists s'. split; [|split; [by apply mem_wf_set_vaddr|split; [split|split; [|split; [done|split]]]]].
  - apply Forall_cons in Hall as [[Hin Hdat] _]. pose proof (in_pool_aligned pf s f Hw Hin) as (_ & Hmod & Hge & Hlt).
    pose proof (mw_disjoint _ Hw). pose proof (Hmap O f eq_refl) as Ht. rewrite Z.add_0_r in Ht.
    unfold mfree_page, PG_SIZE. erewrite mbindM_Ok; cycle 1.
    { apply assertM_run. rewrite Z.mod_mul by lia. zcase; cbn; done || lia. }
    erewrite mbindM_Ok; cycle 1.
    { apply on_mmu_run, addr_v2p_run; [apply Hw|lia|exact Ht]. }
    rewrite set_mm_same. assert (0 <= frames (kernel_pool s)) as Hfr.
    { unfold frames, nbits. pose proof (wf_len_nonneg _ (pl_bitmap _ (mw_kernel _ Hw))). lia. }
    assert (0x102000 <= f) by (destruct pf; cbn in *; lia).
    erewrite mbindM_Ok; cycle 1.
    { apply assertM_run. rewrite Hmod. zcase; cbn; done || lia. }
    rewrite (mbindM_Ok _ _ s s s eq_refl). rewrite Nat2Z.id.
    replace (u32 ((q + r) * 4096 - 4096)) with ((q + r - 1) * 4096) by (rewrite wrapu_small; lia).
    replace (phy_addr_start (user_pool s) <=? f) with (match pf with PF_USER => true | PF_KERNEL => false end).
    2:{ destruct pf; try specialize (Hlt eq_refl); cbn in *; zcase; done || lia. }
    erewrite mbindM_Ok by exact U1. exact R1.
  - by rewrite Ev'.
  - rewrite Ev'. cbn [vaddr_bitmap]. lia.
  - exists q. rewrite Ev'. cbn [vaddr_start vaddr_bitmap]. unfold nbits in *. by rewrite R3.
  - intros i. rewrite Ev'. cbn [vaddr_start vaddr_bitmap]. unfold nbits in *. rewrite R3. intros Hi.
    rewrite R5 by lia. replace (q * 4096 + i * 4096) with ((q + i) * 4096) by lia.
    rewrite Htr by lia. specialize (Hclear i Hi).
    replace (vaddr_start (vaddr_of pf s) + i * 4096) with ((q + i) * 4096) in Hclear by lia.
    destruct (Z.leb_spec r i), (Z.ltb_spec i (r + Z.of_nat (length l))),
      (Z.leb_spec (q + r) (q + i)), (Z.ltb_spec (q + i) (q + r + Z.of_nat (length l))); cbn; try lia; tauto.
  - intros j Hj. rewrite Ev'. cbn [vaddr_bitmap]. by apply R5.
  - intros x. unfold s'. rewrite pool_of_set_vaddr. apply U7.
  - split; [intros x; unfold s'; rewrite pool_of_set_vaddr; apply U8|].
    split; [intros x; rewrite <- U9; unfold s', data_frame; by rewrite mm_set_vaddr|].
    split; [intros pf'; unfold s'; rewrite pool_of_set_vaddr; apply U10|].
    rewrite Ev'. cbn. split; [done|]. split; [unfold nbits; by rewrite R3|]. split; [|by intros ->].
    destruct U11 as [J1 J2 J3 J4 J5 J6]. unfold s'. split; rewrite ?mm_set_vaddr; try done; [..|by destruct pf|].
    + intros pf' Hne'. rewrite pool_of_set_vaddr. by apply J4.
    + intros pf'. rewrite pool_of_set_vaddr. apply J6.
Qed.

(** ** Start-up *)

Lemma bitmap_init_ok b : 0 <= btmp_bytes_len b -> btmp_bytes_len b * 8 < 2 ^ 31 - 8 ->
  btmp_bytes_len b <= Z.of_nat (length (bits b)) -> Forall is_byte (bits b) ->
  exists b', bitmap_init b = Ok b' /\ bitmap_wf b' /\ btmp_bytes_len b' = btmp_bytes_len b /\
    length (bits b') = length (bits b) /\
    drop (Z.to_nat (btmp_bytes_len b)) (bits b') = drop (Z.to_nat (btmp_bytes_len b)) (bits b) /\
    forall i, 0 <= i < nbits b' -> bit_used b' i = false.
Proof.
  intros H0 H1 H2 H3. unfold bitmap_init.
  destruct (Nat.leb_spec (Z.to_nat (btmp_bytes_len b)) (length (bits b))); [|lia].
  set (n := Z.to_nat (btmp_bytes_len b)) in *.
  assert (length (replicate n 0 ++ drop n (bits b)) = length (bits b)) as Hlen
    by (rewrite length_app, length_replicate, length_drop; lia).
  eexists. split; [done|]. cbn [btmp_bytes_len bits]. split; [|split; [done|split; [done|split]]].
  - split; cbn [btmp_bytes_len bits]; try lia. apply Forall_app. split.
    + apply Forall_replicate. unfold is_byte. lia.
    + by apply Forall_drop.
  - by rewrite drop_app_length' by (by rewrite length_replicate).
  - unfold nbits, bit_used. cbn [btmp_bytes_len bits]. intros i Hi.
    rewrite lookup_app_l, lookup_replicate_2; [apply Z.bits_0| |].
    + unfold n. apply Z2Nat.inj_lt; [apply Z.div_pos; lia|lia|apply Z.div_lt_upper_bound; lia].
    + rewrite length_replicate. unfold n.
      apply Z2Nat.inj_lt; [apply Z.div_pos; lia|lia|apply Z.div_lt_upper_bound; lia].
Qed.

(** ** Theorems *)

(** [palloc] on a pool with a free page returns such a page, whole and
    never at address 0, and takes exactly this page out of the pool; on an
    exhausted pool it does not return NULL, as its callers test for, but stops
    the kernel in the [ASSERT] of [bitmap_scan]. *)
Theorem palloc_takes_a_free_page pf s :
  pool_wf (pool_of pf s) ->
  (nfree (pool_bitmap (pool_of pf s)) <> 0%nat ->
     exists f s', palloc pf s = Ok (f, s') /\ frame_free (pool_of pf s) f /\ aligned f /\ f <> 0 /\
       mm s' = mm s /\ forall x, frame_free (pool_of pf s') x <-> frame_free (pool_of pf s) x /\ x <> f) /\
  (nfree (pool_bitmap (pool_of pf s)) = 0%nat -> forall x s', palloc pf s <> Ok (x, s')).
Proof.
  intros Hp. split.
  - intros Hn. destruct (palloc_run pf s Hp) as (f & b' & P1 & P2 & P3 & P4 & P5 & P6 & P7 & P8); [lia|].
    exists f, (set_pool pf (set_pool_bitmap b' (pool_of pf s)) s). rewrite pool_of_set.
    do 4 (split; [done|]). split; [by destruct pf|]. by destruct pf.
  - intros Hn x s' Hr. unfold palloc, getS, liftO in Hr. unfold mbind, M_bind in Hr.
    rewrite (bitmap_scan_one_full _ (pl_bitmap _ Hp) (nfree_zero _ Hn)) in Hr.
    by destruct (_ <? _) in Hr.
Qed.


(** [mfree_page] on pages that are mapped to frames of the pool (none of
    them a page table) succeeds: the pages lose their translation and no other
    page does, their bits in the virtual pool are cleared and no others, and
    exactly their frames are added to the free pages of the pool. *)
Theorem mfree_page_returns_pages pf s q r fs :
  mem_wf s -> vaddr_wf pf s -> vaddr_start (vaddr_of pf s) = q * 4096 ->
  0x102000 <= phy_addr_start (kernel_pool s) -> fs <> [] -> 0 <= r ->
  r + Z.of_nat (length fs) <= nbits (vaddr_bitmap (vaddr_of pf s)) ->
  Forall (fun f => in_pool (pool_of pf s) f /\ data_frame s f) fs ->
  (forall i f, fs !! i = Some f -> translate (mm s) ((q + r + Z.of_nat i) * 4096) = Some f) ->
  exists s', mfree_page pf ((q + r) * 4096) (Z.of_nat (length fs)) s = Ok (tt, s') /\
    mem_wf s' /\ vaddr_wf pf s' /\
    (forall j, 0 <= j -> bit_used (vaddr_bitmap (vaddr_of pf s')) j =
       if (r <=? j) && (j <? r + Z.of_nat (length fs)) then false
       else bit_used (vaddr_bitmap (vaddr_of pf s)) j) /\
    (forall p, 0 <= p < 0xFFC00 -> translate (mm s') (p * 4096) =
       if (q + r <=? p) && (p <? q + r + Z.of_nat (length fs)) then None else translate (mm s) (p * 4096)) /\
    (forall x, frame_free (pool_of pf s') x <-> frame_free (pool_of pf s) x \/ x ∈ fs).
Proof.
  intros. destruct (mfree_page_run pf s q r fs) as (s' & H9 & H10 & H11 & H12 & H13 & H14 & _); try done.
  by exists s'.
Qed.

(** Round trip: [malloc_page] followed by [mfree_page] of the same pages
    succeeds and restores the translation of every page and the whole virtual
    bitmap; no frame is lost from the pool except those that became page
    tables. *)
Theorem malloc_mfree_roundtrip pf s n k q :
  mem_wf s -> vaddr_wf pf s -> vaddr_start (vaddr_of pf s) = q * 4096 ->
  0x102000 <= phy_addr_start (kernel_pool s) ->
  0 < n < 3840 -> 0 <= k -> k + n <= nbits (vaddr_bitmap (vaddr_of pf s)) ->
  run (vaddr_bitmap (vaddr_of pf s)) k n -> (pf = PF_USER -> q + k < 0xBFFFF) ->
  room pf (Z.to_nat n) s ->
  exists va s' s'', malloc_page pf n s = Ok (va, s') /\ mfree_page pf va n s' = Ok (tt, s'') /\
    mem_wf s'' /\ vaddr_wf pf s'' /\
    (forall j, 0 <= j -> bit_used (vaddr_bitmap (vaddr_of pf s'')) j =
                         bit_used (vaddr_bitmap (vaddr_of pf s)) j) /\
    (forall p, 0 <= p < 0xFFC00 -> translate (mm s'') (p * 4096) = translate (mm s) (p * 4096)) /\
    (forall i, 0 <= i < n -> exists f, translate (mm s') (va + i * 4096) = Some f /\
       frame_free (pool_of pf s) f /\ frame_free (pool_of pf s'') f).
Proof.
  intros Hw Hvw Hq Hbase Hn Hk Hkn Hrun Hu Hroom.
  destruct (malloc_page_run pf s n k q) as (s' & r & fs & H1 & H2 & H3 & H4 & [O1 O2 O3 O4 O5 O6 O7 O8 O9 O10 _ _] & H6 & H7 & _ & H8 & H9 & _);
    try done.
  pose proof (vw_start _ _ H7) as (q' & Eq' & Hq' & Hlim). assert (q' = q) as -> by lia.
  destruct (mfree_page_run pf s' q r fs) as (s'' & F1 & F2 & F3 & F4 & F5 & F6 & _); try done; try lia.
  { pose proof (O8 PF_KERNEL) as E. cbn in E. lia. }
  { intros ->. cbn in H4. lia. }
  { apply Forall_forall. intros f Hf. rewrite Forall_forall in O4, O5. split; [|by apply O5].
    destruct (O4 f Hf) as (i & Hi & -> & _). exists i. by rewrite O8, O9. }
  rewrite H4 in *.
  exists ((q + r) * 4096), s', s''. do 4 (split; [done|]). split; [|split].
  - intros j Hj. rewrite F4, O1 by done.
    destruct ((r <=? j) && (j <? r + n)) eqn:E; [|done]. symmetry. apply H3.
    apply andb_true_iff in E. lia.
  - intros p Hp. rewrite F5 by done.
    destruct ((q + r <=? p) && (p <? q + r + n)) eqn:E.
    + apply andb_true_iff in E. pose proof (vw_clear _ _ Hvw (p - q) ltac:(lia)) as Hc.
      rewrite Hq in Hc. replace (q * 4096 + (p - q) * 4096) with (p * 4096) in Hc by lia.
      symmetry. apply Hc. apply H3. lia.
    + apply O7; [lia|by apply page_not_window|]. rewrite Z.div_mul by lia. apply andb_false_iff in E. lia.
  - intros i Hi. destruct (lookup_lt_is_Some_2 fs (Z.to_nat i)) as [f Hf]; [lia|]. exists f.
    rewrite Forall_forall in O4. pose proof (list_elem_of_lookup_2 _ _ _ Hf) as Hin.
    split; [|split; [by apply O4|apply F6; by right]].
    specialize (O6 _ _ Hf). replace ((q + r) * 4096 + i * 4096) with ((q + r + Z.of_nat (Z.to_nat i)) * 4096) by lia. done.
Qed.

(** C20. [mem_pool_init] with at most 256 MB (the 16-bit page count does not
    wrap below 0x10200000 bytes) divides the memory behind the 2 MB in use:
    the kernel pool starts at 0x200000, the user pool behind it, both are well
    formed with every page free, they do not overlap, no page of them lies
    outside the installed memory, at most 16 pages of it are left unmanaged,
    and the kernel heap has as many virtual as the kernel pool physical pages. *)
Theorem mem_pool_init_divides_memory all_mem raw :
  0x200000 <= all_mem < 0x10200000 -> Forall is_byte raw -> 0x3000 <= Z.of_nat (length raw) ->
  exists kp up kv, mem_pool_init all_mem raw = Ok (kp, up, kv) /\
    phy_addr_start kp = 0x200000 /\ pool_wf kp /\ pool_wf up /\
    phy_addr_start kp + frames kp * 4096 <= phy_addr_start up /\
    phy_addr_start up + frames up * 4096 <= all_mem /\
    all_mem < phy_addr_start kp + (frames kp + frames up + 16) * 4096 /\
    (forall i, 0 <= i < frames kp -> frame_free kp (0x200000 + i * 4096)) /\
    (forall i, 0 <= i < frames up -> frame_free up (phy_addr_start up + i * 4096)) /\
    vaddr_start kv = K_HEAP_START /\ nbits (vaddr_bitmap kv) = frames kp /\
    bitmap_wf (vaddr_bitmap kv).
Proof.
  intros Hm Hraw Hlen. unfold mem_pool_init, PAGE_SIZE.
  change (4096 * 256 + 0x100000) with 0x200000.
  rewrite (wrapu_small 32 (all_mem - _)) by lia.
  pose proof (Z.div_mod (all_mem - 0x200000) 4096 ltac:(lia)) as D1.
  pose proof (Z.mod_pos_bound (all_mem - 0x200000) 4096 ltac:(lia)) as D2.
  set (n := (all_mem - 0x200000) / 4096) in *. rewrite (wrapu_small 16 n) by lia.
  pose proof (Z.div_mod n 2 ltac:(lia)) as E1. pose proof (Z.mod_pos_bound n 2 ltac:(lia)) as E2.
  set (k := n / 2) in *. rewrite (wrapu_small 16 (n - k)) by lia.
  pose proof (Z.div_mod k 8 ltac:(lia)) as F1. pose proof (Z.mod_pos_bound k 8 ltac:(lia)) as F2.
  pose proof (Z.div_mod (n - k) 8 ltac:(lia)) as G1. pose proof (Z.mod_pos_bound (n - k) 8 ltac:(lia)) as G2.
  set (kb := k / 8) in *. set (ub := (n - k) / 8) in *. rewrite (wrapu_small 32 (0x200000 + k * 4096)) by lia.
  destruct (bitmap_init_ok (mk_bitmap kb raw)) as (b1 & -> & W1 & L1 & N1 & R1 & U1); cbn [btmp_bytes_len bits] in *; try lia; [done|].
  destruct (bitmap_init_ok (mk_bitmap ub (drop (Z.to_nat kb) (bits b1))))
    as (b2 & E & W2 & L2 & N2 & R2 & U2); cbn [btmp_bytes_len bits] in *; try lia.
  { rewrite length_drop. lia. }
  { apply Forall_drop, W1. }
  rewrite bind_Ok, E, bind_Ok. clear E. rewrite length_drop in N2.
  destruct (bitmap_init_ok (mk_bitmap kb (drop (Z.to_nat ub) (bits b2))))
    as (b3 & E & W3 & L3 & N3 & R3 & U3); cbn [btmp_bytes_len bits] in *; try lia.
  { rewrite length_drop. lia. }
  { apply Forall_drop, W2. }
  rewrite E, bind_Ok. do 3 eexists. split; [done|].
  unfold frames, frame_free, nbits in *. cbn [phy_addr_start pool_bitmap vaddr_start vaddr_bitmap].
  rewrite L1, L2, L3 in *.
  split; [done|]. split; [split; [done|]|].
  { exists 512. unfold frames, nbits. cbn [phy_addr_start pool_bitmap]. rewrite L1. lia. }
  split; [split; [done|]|].
  { exists (512 + k). unfold frames, nbits. cbn [phy_addr_start pool_bitmap]. rewrite L2. lia. }
  do 3 (split; [lia|]).
  split; [intros i Hi; exists i; unfold frames, nbits; cbn [pool_bitmap phy_addr_start]; rewrite L1; auto|].
  split; [intros i Hi; exists i; unfold frames, nbits; cbn [pool_bitmap phy_addr_start]; rewrite L2; auto|].
  split; [done|]. split; [done|done].
Qed.

(** The comment on [mem_bitmap_base] promises room for 512 MB, but
    [all_free_pages] is a [uint16_t]: with 512 MB installed the pools manage
    65024 pages, 254 MB, and the rest of the memory is never used. *)
Theorem mem_pool_init_loses_half_of_512MB :
  match mem_pool_init 0x20000000 (replicate (Z.to_nat 16384) 0) with
  | Ok (kp, up, _) => frames kp + frames up = 65024 /\ (0x20000000 - 0x200000) / 4096 = 130560
  | _ => False
  end.
Proof. vm_compute. split; reflexivity. Qed.

(** ** Witnesses: eight pages in each pool behind [demo_mmu], a kernel heap of
    eight pages of which the first is in use, and a user heap *)

Definition demo_mem : memst := mk_memst demo_mmu
  (mk_pool (mk_bitmap 1 [1; 0]) 0x200000 0x8000 0)
  (mk_pool (mk_bitmap 1 [2; 0]) 0x208000 0x8000 0)
  (mk_vaddr (mk_bitmap 1 [1; 0]) 0xC0200000)
  (mk_vaddr (mk_bitmap 1 [0; 0]) 0x8048000) 0.

Lemma demo_bitmap_wf x : 0 <= x < 256 -> bitmap_wf (mk_bitmap 1 [x; 0]).
Proof. intros Hx. split; cbn; try lia. repeat constructor; unfold is_byte; lia. Qed.

Lemma demo_mem_wf : mem_wf demo_mem.
Proof.
  assert (forall pf f, frame_free (pool_of pf demo_mem) f -> 0x200000 <= f) as Hge.
  { intros pf f (i & Hi & -> & _). destruct pf; unfold frames, nbits in Hi; cbn in *; lia. }
  split; cbn [demo_mem mm kernel_pool user_pool].
  - apply demo_mmu_wf.
  - split; [apply demo_bitmap_wf; lia|]. exists 512. unfold frames, nbits. cbn. lia.
  - split; [apply demo_bitmap_wf; lia|]. exists 520. unfold frames, nbits. cbn. lia.
  - unfold frames, nbits. cbn. lia.
  - intros pf d Hd Hp Hf. apply Hge in Hf. destruct (Z.eq_dec d 768) as [->|].
    + vm_compute in Hf. by apply Hf.
    + by rewrite demo_pde in Hp.
  - intros pf Hf. apply Hge in Hf. vm_compute in Hf. by apply Hf.
Qed.

Lemma demo_vaddr_wf pf : vaddr_wf pf demo_mem.
Proof.
  destruct pf; split; cbn [demo_mem vaddr_of kernel_vaddr userprog_vaddr vaddr_bitmap vaddr_start mm].
  - apply demo_bitmap_wf. lia.
  - cbn. lia.
  - exists 0xC0200. unfold nbits. cbn. lia.
  - unfold nbits. cbn [btmp_bytes_len]. intros i Hi _.
    assert (i = 0 \/ i = 1 \/ i = 2 \/ i = 3 \/ i = 4 \/ i = 5 \/ i = 6 \/ i = 7) as Hc by lia.
    repeat destruct Hc as [->|Hc]; [reflexivity..|]. subst. reflexivity.
  - apply demo_bitmap_wf. lia.
  - cbn. lia.
  - exists 0x8048. unfold nbits. cbn. lia.
  - unfold nbits. cbn [btmp_bytes_len]. intros i Hi _.
    assert (i = 0 \/ i = 1 \/ i = 2 \/ i = 3 \/ i = 4 \/ i = 5 \/ i = 6 \/ i = 7) as Hc by lia.
    repeat destruct Hc as [->|Hc]; [reflexivity..|]. subst. reflexivity.
Qed.

Lemma demo_run : run (vaddr_bitmap (vaddr_of PF_KERNEL demo_mem)) 1 2.
Proof. intros j Hj. assert (j = 1 \/ j = 2) as [->| ->] by lia; reflexivity. Qed.

Lemma demo_room : room PF_KERNEL (Z.to_nat 2) demo_mem.
Proof. split; vm_compute; lia. Qed.

Lemma palloc_takes_a_free_page_witness :
  exists f s', palloc PF_USER demo_mem = Ok (f, s') /\ frame_free (user_pool demo_mem) f /\
    aligned f /\ f <> 0 /\ mm s' = demo_mmu /\
    forall x, frame_free (pool_of PF_USER s') x <-> frame_free (user_pool demo_mem) x /\ x <> f.
Proof.
  destruct (palloc_takes_a_free_page PF_USER demo_mem) as [H _]; [apply demo_mem_wf|].
  apply H. vm_compute. discriminate.
Defined.


(** The page handed out as [0xC0201000], in the state after the allocation. *)
Definition demo_mem1 : memst := match malloc_page PF_KERNEL 1 demo_mem with
                                | Ok (_, s) => s | _ => demo_mem end.

Lemma demo_mem1_ok : exists r fs,
  malloc_page PF_KERNEL 1 demo_mem = Ok ((0xC0200 + r) * 4096, demo_mem1) /\ 0 <= r <= 1 /\
  Z.of_nat (length fs) = 1 /\ handed_out PF_KERNEL demo_mem demo_mem1 0xC0200 r fs /\
  mem_wf demo_mem1 /\ vaddr_wf PF_KERNEL demo_mem1.
Proof.
  destruct (malloc_page_run PF_KERNEL demo_mem 1 1 0xC0200 demo_mem_wf (demo_vaddr_wf _))
    as (s' & r & fs & H1 & H2 & H3 & H4 & H5 & H6 & H7 & _);
    [reflexivity|lia|lia|vm_compute; discriminate| |discriminate|split; vm_compute; lia|].
  { intros j Hj. apply demo_run. lia. }
  assert (demo_mem1 = s') as E by (unfold demo_mem1; by rewrite H1).
  rewrite E. exists r, fs. exact (conj H1 (conj H2 (conj H4 (conj H5 (conj H6 H7))))).
Qed.

Lemma mfree_page_returns_pages_witness :
  exists r fs s', mfree_page PF_KERNEL ((0xC0200 + r) * 4096) (Z.of_nat (length fs)) demo_mem1 = Ok (tt, s') /\
    length fs = 1%nat /\
    (forall x, frame_free (kernel_pool s') x <-> frame_free (kernel_pool demo_mem1) x \/ x ∈ fs).
Proof.
  destruct demo_mem1_ok as (r & fs & H1 & H2 & H3 & [O1 O2 O3 O4 O5 O6 O7 O8 O9 O10 _ _] & H5 & H6).
  destruct (mfree_page_returns_pages PF_KERNEL demo_mem1 0xC0200 r fs H5 H6) as (s' & F1 & F2 & F3 & F4 & F5 & F6).
  - rewrite O2. reflexivity.
  - pose proof (O8 PF_KERNEL) as E. cbn in E. lia.
  - intros ->. cbn in H3. lia.
  - lia.
  - rewrite O10. unfold nbits. cbn. lia.
  - apply Forall_forall. intros f Hf. rewrite Forall_forall in O4, O5. split; [|by apply O5].
    destruct (O4 f Hf) as (i & Hi & -> & _). exists i. rewrite O8, O9. exact (conj Hi eq_refl).
  - exact O6.
  - exists r, fs, s'. split; [exact F1|]. split; [lia|exact F6].
Defined.

Lemma malloc_mfree_roundtrip_witness :
  exists va s' s'', malloc_page PF_KERNEL 2 demo_mem = Ok (va, s') /\ mfree_page PF_KERNEL va 2 s' = Ok (tt, s'') /\
    mem_wf s''.
Proof.
  destruct (malloc_mfree_roundtrip PF_KERNEL demo_mem 2 1 0xC0200 demo_mem_wf (demo_vaddr_wf _))
    as (va & s' & s'' & H1 & H2 & H3 & _);
    [reflexivity|cbn; lia|lia|lia|vm_compute; discriminate|exact demo_run|discriminate|exact demo_room|].
  exists va, s', s''. exact (conj H1 (conj H2 H3)).
Defined.

Lemma mem_pool_init_divides_memory_witness :
  exists kp up kv, mem_pool_init 0x2000000 (replicate (Z.to_nat 0x4000) 0) = Ok (kp, up, kv) /\
    phy_addr_start up + frames up * 4096 <= 0x2000000.
Proof.
  destruct (mem_pool_init_divides_memory 0x2000000 (replicate (Z.to_nat 0x4000) 0))
    as (kp & up & kv & H1 & _ & _ & _ & _ & H2 & _).
  - lia.
  - apply Forall_replicate. unfold is_byte. lia.
  - rewrite length_replicate. lia.
  - exists kp, up, kv. exact (conj H1 H2).
Defined.
