(* ===== verification/PageAlloc.v ===== *)
(** * The page allocator as its clients see it

    [PageAlloc] states what [malloc_page] and [mfree_page] promise to the heap
    of [Arena] and to every other client: fresh runs of pages on allocation,
    and that exactly the returned pages stop being handed out.  The instance
    [memst_PageAlloc] discharges the contract with the theorems on the real
    page tables and bitmaps of [Memory]. *)

From S2P Require Import Prelude Bitmap Paging Memory.

(** [pa_live pf s p]: page number [p] of the pool [pf] is handed out. *)
Class PageAlloc (P : Type) : Type := {
  pa_malloc : pool_flags -> Z -> M P Z;
  pa_mfree : pool_flags -> Z -> Z -> M P ();
  pa_inv : pool_flags -> P -> Prop;
  pa_live : pool_flags -> P -> Z -> Prop;
  pa_room : pool_flags -> Z -> P -> Prop;
  pa_malloc_ok pf n s : pa_inv pf s -> 0 < n < 3840 -> pa_room pf n s ->
    exists p s', pa_malloc pf n s = Ok (p * 4096, s') /\ pa_inv pf s' /\
      0 < p /\ p + n <= 0xFFC00 /\ (forall x, p <= x < p + n -> ~ pa_live pf s x) /\
      (forall x, pa_live pf s' x <-> pa_live pf s x \/ p <= x < p + n);
  pa_mfree_ok pf p n s : pa_inv pf s -> 0 < n -> (forall x, p <= x < p + n -> pa_live pf s x) ->
    exists s', pa_mfree pf (p * 4096) n s = Ok (tt, s') /\ pa_inv pf s' /\
      (forall x, pa_live pf s' x <-> pa_live pf s x /\ ~ p <= x < p + n)
}.

(** ** The implementation *)

Definition vstart (pf : pool_flags) (s : memst) : Z := vaddr_start (vaddr_of pf s) / 4096.
Definition vbits (pf : pool_flags) (s : memst) : bitmap := vaddr_bitmap (vaddr_of pf s).

(** A page is handed out when its bit in the virtual pool is set. *)
Definition live (pf : pool_flags) (s : memst) (p : Z) : Prop :=
  0 <= p - vstart pf s < nbits (vbits pf s) /\ bit_used (vbits pf s) (p - vstart pf s) = true.

(** Every live page is mapped to a page of the pool that is not free and no
    page table, and no two live pages share a frame. *)
Record alloc_inv (pf : pool_flags) (s : memst) : Prop := {
  ai_mem : mem_wf s;
  ai_vaddr : vaddr_wf pf s;
  ai_base : 0x102000 <= phy_addr_start (kernel_pool s);
  ai_backed : forall p, live pf s p -> exists f, translate (mm s) (p * 4096) = Some f /\
    in_pool (pool_of pf s) f /\ ~ frame_free (pool_of pf s) f /\ data_frame s f;
  ai_inj : forall p p' f, live pf s p -> live pf s p' -> translate (mm s) (p * 4096) = Some f ->
    translate (mm s) (p' * 4096) = Some f -> p = p'
}.

(** A run of [n] free virtual pages, below the stack for a process, and the
    physical pages for it. *)
Definition alloc_room (pf : pool_flags) (n : Z) (s : memst) : Prop :=
  room pf (Z.to_nat n) s /\
  exists k, 0 <= k /\ k + n <= nbits (vbits pf s) /\ run (vbits pf s) k n /\
    (pf = PF_USER -> vstart pf s + k < 0xBFFFF).

Lemma vstart_eq pf s : vaddr_wf pf s -> vaddr_start (vaddr_of pf s) = vstart pf s * 4096 /\
  0 < vstart pf s /\ vstart pf s + nbits (vbits pf s) <= 0xFFC00.
Proof.
  intros [_ _ (q & Hq & Hq0 & Hq1) _]. unfold vstart, vbits. rewrite Hq, Z.div_mul by lia. done.
Qed.

Lemma in_range_dec p n x : (p <=? x) && (x <? p + n) = true <-> p <= x < p + n.
Proof. rewrite andb_true_iff, Z.leb_le, Z.ltb_lt. lia. Qed.

Lemma in_range_false p n x : (p <=? x) && (x <? p + n) = false <-> ~ p <= x < p + n.
Proof. rewrite andb_false_iff, Z.leb_gt, Z.ltb_ge. lia. Qed.

(** A range of page numbers seen from its list of frames. *)
Lemma range_index {A} (fs : list A) a x : a <= x < a + Z.of_nat (length fs) ->
  exists i f, fs !! i = Some f /\ x = a + Z.of_nat i.
Proof.
  intros Hx. destruct (lookup_lt_is_Some_2 fs (Z.to_nat (x - a))) as [f Hf]; [lia|].
  exists (Z.to_nat (x - a)), f. split; [done|lia].
Qed.

Lemma alloc_inv_malloc pf n s : alloc_inv pf s -> 0 < n < 3840 -> alloc_room pf n s ->
  exists p s', malloc_page pf n s = Ok (p * 4096, s') /\ alloc_inv pf s' /\
    0 < p /\ p + n <= 0xFFC00 /\ (forall x, p <= x < p + n -> ~ live pf s x) /\
    (forall x, live pf s' x <-> live pf s x \/ p <= x < p + n).
Proof.
  intros [Hw Hv Hbase Hback Hinj] Hn (Hroom & k & Hk & Hkn & Hrun & Hu).
  destruct (vstart_eq pf s Hv) as (Eq & Hq0 & Hq1). unfold vbits in *.
  destruct (malloc_page_run pf s n k (vstart pf s))
    as (s' & r & fs & H1 & H2 & H3 & H4 & [O1 O2 O3 O4 O5 O6 O7 O8 O9 O10 O11 O12] & H6 & H7 & _); try done.
  assert (vstart pf s' = vstart pf s) as Evs by (unfold vstart; by rewrite O2).
  rewrite Forall_forall in O4, O5.
  assert (forall x, live pf s' x <-> live pf s x \/ vstart pf s + r <= x < vstart pf s + r + n) as Hlive.
  { intros x. unfold live, vbits in *. rewrite Evs, O10. split.
    - intros [Hx Hu']. rewrite O1 in Hu' by lia. rewrite H4 in Hu'.
      destruct ((r <=? x - vstart pf s) && (x - vstart pf s <? r + n)) eqn:E; [|by left].
      apply in_range_dec in E. right. lia.
    - intros [[Hx Hu']|Hx]; (split; [lia|]); rewrite O1, H4 by lia.
      + rewrite Hu'. by destruct (_ && _).
      + rewrite (proj2 (in_range_dec _ _ _)); [done|lia]. }
  assert (forall x, vstart pf s + r <= x < vstart pf s + r + n -> ~ live pf s x) as Hfresh.
  { intros x Hx [_ Hu']. unfold vbits in *. rewrite H3 in Hu' by lia. done. }
  assert (forall x, live pf s x -> translate (mm s') (x * 4096) = translate (mm s) (x * 4096)) as Hold.
  { intros x Hx. pose proof (proj1 Hx) as Hr. unfold vbits in Hr.
    apply O7; [lia|apply page_not_window; lia|]. rewrite Z.div_mul by lia. rewrite H4.
    intros Hin. by apply (Hfresh x). }
  exists (vstart pf s + r), s'. split; [done|]. split; [split|].
  - done.
  - done.
  - pose proof (O8 PF_KERNEL) as E. cbn in E. lia.
  - intros x [Hx|Hx]%Hlive.
    + destruct (Hback x Hx) as (f & Ht & Hin & Hnf & Hd). exists f. rewrite Hold by done.
      split; [done|]. split; [unfold in_pool in *; by rewrite O8, O9|]. split; [intros Hf; by apply Hnf, O11|].
      apply O12; [done|]. destruct pf; [done|]. intros Hf. destruct Hin as (i & Hi & ->).
      destruct Hf as (j & Hj & E & _). pose proof (mw_disjoint _ Hw). cbn in *. lia.
    + rewrite <- H4 in Hx. destruct (range_index fs (vstart pf s + r) x Hx) as (i & f & Hf & ->).
      pose proof (list_elem_of_lookup_2 _ _ _ Hf) as Hin. destruct (O5 f Hin) as [Hnf Hd].
      exists f. split; [by apply O6|]. split; [|done]. destruct (O4 f Hin) as (j & Hj & -> & _).
      exists j. by rewrite O8, O9.
  - intros x x' f Hx Hx' Ht Ht'. apply Hlive in Hx, Hx'.
    assert (forall y z, live pf s y -> vstart pf s + r <= z < vstart pf s + r + n ->
              translate (mm s') (y * 4096) = Some f -> translate (mm s') (z * 4096) = Some f -> False) as Hmix.
    { intros y z Hy Hz Ty Tz. rewrite <- H4 in Hz. destruct (range_index fs _ z Hz) as (i & g & Hg & ->).
      rewrite (O6 _ _ Hg) in Tz. injection Tz as ->. rewrite Hold in Ty by done.
      destruct (Hback y Hy) as (g & Tg & _ & Hnf & _). rewrite Tg in Ty. injection Ty as ->.
      apply Hnf, O4. by eapply list_elem_of_lookup_2. }
    destruct Hx as [Hx|Hx], Hx' as [Hx'|Hx'].
    + rewrite Hold in Ht, Ht' by done. by eapply Hinj.
    + by destruct (Hmix x x').
    + by destruct (Hmix x' x).
    + rewrite <- H4 in Hx, Hx'. destruct (range_index fs _ x Hx) as (i & g & Hg & ->).
      destruct (range_index fs _ x' Hx') as (i' & g' & Hg' & ->).
      rewrite (O6 _ _ Hg) in Ht. rewrite (O6 _ _ Hg') in Ht'. simplify_eq.
      f_equal. f_equal. by eapply NoDup_lookup.
  - split; [lia|]. split; [lia|]. done.
Qed.

(** The frames behind a run of live pages. *)
Lemma live_frames pf s p n : alloc_inv pf s ->
  (forall x, p <= x < p + Z.of_nat n -> live pf s x) ->
  exists fs, length fs = n /\
    (forall i f, fs !! i = Some f -> translate (mm s) ((p + Z.of_nat i) * 4096) = Some f) /\
    Forall (fun f => in_pool (pool_of pf s) f /\ data_frame s f) fs.
Proof.
  intros Hi. revert p. induction n as [|n IH]; intros p Hl.
  - exists []. split; [done|]. split; [done|constructor].
  - destruct (ai_backed _ _ Hi p) as (f & Ht & Hin & _ & Hd); [apply Hl; lia|].
    destruct (IH (p + 1)) as (fs & E & Hfs & Hall); [intros; apply Hl; lia|].
    exists (f :: fs). split; [cbn; lia|]. split; [|by constructor].
    intros [|i] g; cbn [lookup list_lookup]; [intros [= <-]; by rewrite Z.add_0_r|].
    intros Hg. rewrite <- (Hfs _ _ Hg). f_equal. lia.
Qed.

Lemma alloc_inv_mfree pf p n s : alloc_inv pf s -> 0 < n ->
  (forall x, p <= x < p + n -> live pf s x) ->
  exists s', mfree_page pf (p * 4096) n s = Ok (tt, s') /\ alloc_inv pf s' /\
    (forall x, live pf s' x <-> live pf s x /\ ~ p <= x < p + n).
Proof.
  intros Hi Hn Hl. pose proof Hi as [Hw Hv Hbase Hback Hinj].
  destruct (vstart_eq pf s Hv) as (Eq & Hq0 & Hq1).
  destruct (live_frames pf s p (Z.to_nat n) Hi) as (fs & El & Hfs & Hall); [intros; apply Hl; lia|].
  pose proof (proj1 (Hl p ltac:(lia))) as L1. pose proof (proj1 (Hl (p + n - 1) ltac:(lia))) as L2.
  assert (Z.of_nat (length fs) = n) as En by lia.
  destruct (mfree_page_run pf s (vstart pf s) (p - vstart pf s) fs)
    as (s' & F1 & F2 & F3 & F4 & F5 & F6 & F7 & F8 & F9 & F10 & F11 & _); try done; try lia.
  { intros ->. cbn in En. lia. }
  { unfold vbits in *. lia. }
  { intros i f Hf. rewrite <- (Hfs _ _ Hf). f_equal. lia. }
  rewrite En in *. replace (vstart pf s + (p - vstart pf s)) with p in * by lia.
  assert (vstart pf s' = vstart pf s) as Evs by (unfold vstart; by rewrite F10).
  assert (forall x, live pf s' x <-> live pf s x /\ ~ p <= x < p + n) as Hlive.
  { intros x. unfold live, vbits in *. rewrite Evs, F11. split.
    - intros [Hx Hu]. rewrite F4 in Hu by lia.
      destruct ((p - vstart pf s <=? x - vstart pf s) && (x - vstart pf s <? p - vstart pf s + n)) eqn:E; [done|].
      apply in_range_false in E. split; [done|lia].
    - intros [[Hx Hu] Hout]. split; [done|]. rewrite F4 by lia.
      rewrite (proj2 (in_range_false _ _ _)) by lia. done. }
  assert (forall x, live pf s' x -> translate (mm s') (x * 4096) = translate (mm s) (x * 4096)) as Hold.
  { intros x Hx. apply Hlive in Hx as [Hx Hout]. pose proof (proj1 Hx) as Hr.
    rewrite F5 by lia. by rewrite (proj2 (in_range_false _ _ _)) by lia. }
  exists s'. split; [done|]. split; [split|done].
  - done.
  - done.
  - pose proof (F9 PF_KERNEL) as E. cbn in E. lia.
  - intros x Hx. rewrite Hold by done. apply Hlive in Hx as [Hx Hout].
    destruct (Hback x Hx) as (f & Ht & Hin & Hnf & Hd). exists f. split; [done|].
    split; [by apply F7|]. split; [|by apply F8]. rewrite F6. intros [Hf|Hf]; [done|].
    apply list_elem_of_lookup in Hf as (i & Hf). pose proof (lookup_lt_Some _ _ _ Hf).
    apply Hout. rewrite (Hinj x (p + Z.of_nat i) f); try done; [lia|apply Hl; lia|by apply Hfs].
  - intros x x' f Hx Hx'. rewrite !Hold by done. apply Hlive in Hx as [Hx _], Hx' as [Hx' _]. by apply Hinj.
Qed.

#[global] Instance memst_PageAlloc : PageAlloc memst := {|
  pa_malloc := malloc_page;
  pa_mfree := mfree_page;
  pa_inv := alloc_inv;
  pa_live := live;
  pa_room := alloc_room;
  pa_malloc_ok := alloc_inv_malloc;
  pa_mfree_ok := alloc_inv_mfree
|}.

(** ** Theorems *)


(** ** Witness: the heap of [demo_mem] with no page handed out *)

Definition demo_heap : memst := set_kernel_vaddr (mk_vaddr (mk_bitmap 1 [0; 0]) 0xC0200000) demo_mem.

Lemma demo_heap_inv : alloc_inv PF_KERNEL demo_heap.
Proof.
  assert (forall p, ~ live PF_KERNEL demo_heap p) as Hno.
  { intros p [Hp Hu]. change (vbits PF_KERNEL demo_heap) with (mk_bitmap 1 [0; 0]) in *.
    unfold nbits in Hp. cbn [btmp_bytes_len] in Hp. revert Hu.
    generalize dependent (p - vstart PF_KERNEL demo_heap). intros i Hi.
    assert (i = 0 \/ i = 1 \/ i = 2 \/ i = 3 \/ i = 4 \/ i = 5 \/ i = 6 \/ i = 7) as Hc by lia.
    repeat destruct Hc as [->|Hc]; try done. by subst. }
  split.
  - apply (mem_wf_set_vaddr PF_KERNEL), demo_mem_wf.
  - destruct (demo_vaddr_wf PF_KERNEL) as [H1 H2 H3 H4]. split.
    + apply demo_bitmap_wf. lia.
    + cbn. lia.
    + exact H3.
    + unfold nbits. intros i Hi _.
      assert (i = 0 \/ i = 1 \/ i = 2 \/ i = 3 \/ i = 4 \/ i = 5 \/ i = 6 \/ i = 7) as Hc by (cbn in Hi; lia).
      repeat destruct Hc as [->|Hc]; [reflexivity..|]. subst. reflexivity.
  - cbn. lia.
  - intros p Hp. by apply Hno in Hp.
  - intros p p' f Hp. by apply Hno in Hp.
Qed.

