(* ===== verification/Process.v ===== *)
(** * User address spaces (userprog/process.c)

    The page directory of a new process, its pool of virtual addresses, and
    switching between address spaces.  A space is a page directory over the
    common physical memory: [at_root m c] is memory [m] seen through directory
    [c].  Copies of aligned memory go word by word. *)

From S2P Require Import Prelude Bitmap Paging Memory.

Definition USER_VADDR_START : Z := 0x8048000.
Definition USER_STACK3_VADDR : Z := 0xC0000000 - 0x1000.

(** [memcpy] of whole words between aligned addresses. *)
Fixpoint copy_words (n : nat) (dst src : Z) : M mmu () :=
  match n with
  | O => mret tt
  | S n' => w ← vload src; _ ← vstore dst w; copy_words n' (dst + 4) (src + 4)
  end.
Definition memcpy (dst src size : Z) : M memst () :=
  _ ← assertM (negb (dst =? NULL) && negb (src =? NULL)) "memcpy: dst_ != NULL && src_ != NULL";
  on_mmu (copy_words (Z.to_nat (size / 4)) dst src).

Definition at_root (m : mmu) (c : Z) : mmu := mk_mmu (pmem m) c.

(** [pgdir] is the directory of the task. *)
Definition page_dir_activate (pgdir : Z) : M memst () :=
  pagedir_phy_addr ← (if pgdir =? NULL then mret 0x100000 else on_mmu (addr_v2p pgdir));
  modS (fun s => set_mm (at_root (mm s) pagedir_phy_addr) s).

Definition create_page_dir : M memst Z :=
  page_dir_vaddr ← get_kernel_pages 1;
  if page_dir_vaddr =? NULL then mret NULL
  else
    _ ← memcpy (u32 (page_dir_vaddr + 0x300 * 4)) (u32 (0xFFFFF000 + 0x300 * 4)) 1024;
    new_page_dir_phy_addr ← on_mmu (addr_v2p page_dir_vaddr);
    _ ← on_mmu (vstore (u32 (page_dir_vaddr + 1023 * 4)) (entry new_page_dir_phy_addr));
    mret page_dir_vaddr.

Definition user_bytes : Z := (0xC0000000 - USER_VADDR_START) / PG_SIZE / 8.

(** The address of the bitmap, in fresh pages of the kernel, and the pool. *)
Definition create_user_vaddr_bitmap : M memst (Z * virtual_addr) :=
  let bitmap_pg_cnt := DIV_ROUND_UP user_bytes PG_SIZE in
  bits ← get_kernel_pages bitmap_pg_cnt;
  _ ← assertM (negb (bits =? NULL)) "memset: dst_ != NULL";
  b ← liftO (bitmap_init (mk_bitmap user_bytes (replicate (Z.to_nat (bitmap_pg_cnt * PG_SIZE)) 0)));
  mret (bits, mk_vaddr b USER_VADDR_START).

(** What an interrupt saves on the stack of the kernel and [intr_exit] restores. *)
Record intr_stack : Type := mk_intr {
  vec_no : Z; edi : Z; esi : Z; ebp : Z; esp_dummy : Z; ebx : Z; edx : Z; ecx : Z; eax : Z;
  gs : Z; fs : Z; es : Z; ds : Z;
  err_code : Z; eip : Z; cs : Z; eflags : Z; esp : Z; ss : Z
}.

Definition SELECTOR_U_CODE : Z := 5 * 8 + 0 * 4 + 3.
Definition SELECTOR_U_DATA : Z := 6 * 8 + 0 * 4 + 3.
Definition EFLAGS_user : Z := Z.lor (Z.lor 0 (Z.shiftl 1 1)) (Z.shiftl 1 9).   (* EFLAGS_IOPL_0 | EFLAGS_MBS | EFLAGS_IF_1 *)

(** Up to the jump to [intr_exit].  [self_kstack] is the field of the running
    task and [proc_stack] the frame it points at behind the thread stack of 32
    bytes; the result is both as they are left. *)
Definition start_process (function self_kstack : Z) (proc_stack : intr_stack) : M memst (Z * intr_stack) :=
  let self_kstack := u32 (self_kstack + 32) in
  stack ← get_a_page PF_USER USER_STACK3_VADDR;
  mret (self_kstack,
        mk_intr (vec_no proc_stack) 0 0 0 0 0 0 0 0 SELECTOR_U_DATA SELECTOR_U_DATA SELECTOR_U_DATA SELECTOR_U_DATA
          (err_code proc_stack) function SELECTOR_U_CODE EFLAGS_user (u32 (stack + PG_SIZE)) SELECTOR_U_DATA).

(** ** Spaces over one memory *)

(** The page a word lies in. *)
Definition page_of (a : Z) : Z := a / 4096 * 4096.

Lemma page_of_off f o : aligned f -> 0 <= o < 4096 -> page_of (f + o) = f.
Proof. intros (q & -> & _) Ho. unfold page_of. f_equal. symmetry. apply (Z.div_unique_pos _ _ _ o); lia. Qed.

(** The pages a space is made of. *)
Definition table_page (m : mmu) (p : Z) : Prop :=
  p = cr3 m \/ exists d, 0 <= d < 1023 /\ present (pde m d) = true /\ p = frame_of (pde m d).

Definition words_ok (m : mmu) : Prop := forall a w, pmem m !! a = Some w -> 0 <= w < 2 ^ 32.

Lemma data_not_table s f : data_frame s f <-> ~ table_page (mm s) f.
Proof.
  split.
  - intros [H1 H2] [E|(d & Hd & Hp & E)]; [done|]. by apply (H2 d).
  - intros Hn. split; [intros E; apply Hn; by left|]. intros d Hd Hp E. apply Hn. right. by exists d.
Qed.

(** A space depends on its pages only. *)
Lemma space_ext m m' : pt_wf m -> words_ok m' -> cr3 m' = cr3 m ->
  (forall a, table_page m (page_of a) -> pread m' a = pread m a) ->
  pt_wf m' /\ (forall d, 0 <= d < 1024 -> pde m' d = pde m d) /\
  (forall va, 0 <= va < 2 ^ 32 -> translate m' va = translate m va).
Proof.
  intros Hm Hw Hc He. pose proof Hm as [[H1 H2 H3 H4] H5 H6].
  assert (forall d, 0 <= d < 1024 -> pde m' d = pde m d) as Hp.
  { intros d Hd. unfold pde. rewrite Hc. apply He. left. rewrite page_of_off; [done|exact H1|lia]. }
  split; [split; [split|..]|split; [exact Hp|]].
  - by rewrite Hc.
  - exact Hw.
  - change (present (pde m' 1023) = true). rewrite Hp by lia. exact H3.
  - change (frame_of (pde m' 1023) = cr3 m'). rewrite Hp, Hc by lia. exact H4.
  - intros d Hd. rewrite Hp, Hc by lia. by apply H5.
  - intros d d' Hd Hd'. rewrite !Hp by lia. by apply H6.
  - intros va Hv. pose proof (PDE_IDX_range va Hv) as Hd. pose proof (PTE_IDX_range va ltac:(lia)) as Ht.
    rewrite !translate_eq, Hp by lia. destruct (present (pde m (PDE_IDX va))) eqn:Ep; [|done]. rewrite He; [done|].
    rewrite page_of_off; [|apply frame_aligned, pread_range, Hm|lia].
    destruct (Z.eq_dec (PDE_IDX va) 1023) as [E|E]; [rewrite E; left; exact H4|right; exists (PDE_IDX va); split; [lia|done]].
Qed.

(** [m'] is [m] up to words of the pages [F]. *)
Record differs (F : Z -> Prop) (m m' : mmu) : Prop := {
  df_cr3 : cr3 m' = cr3 m;
  df_words : words_ok m -> words_ok m';
  df_same a : ~ F (page_of a) -> pread m' a = pread m a
}.

Lemma differs_refl F m : differs F m m.
Proof. by split. Qed.
Lemma differs_trans F G m1 m2 m3 : differs F m1 m2 -> differs G m2 m3 -> differs (fun p => F p \/ G p) m1 m3.
Proof.
  intros [A1 A2 A3] [B1 B2 B3]. split; [congruence|auto|]. intros a Ha. rewrite B3, A3; [done| |]; tauto.
Qed.
Lemma differs_mono (F G : Z -> Prop) m m' : (forall p, F p -> G p) -> differs F m m' -> differs G m m'.
Proof. intros Hfg [A1 A2 A3]. split; [done|done|]. intros a Ha. apply A3. intros Hf. apply Ha. auto. Qed.

Lemma differs_space F m m' : pt_wf m -> differs F m m' -> (forall p, F p -> ~ table_page m p) ->
  pt_wf m' /\ (forall d, 0 <= d < 1024 -> pde m' d = pde m d) /\ (forall va, 0 <= va < 2 ^ 32 -> translate m' va = translate m va).
Proof.
  intros Hm [D1 D2 D3] HF. apply space_ext; [done| |done|].
  - apply D2. destruct Hm as [[_ H2 _ _] _ _]. exact H2.
  - intros a Ha. apply D3. intros Hf. by apply (HF _ Hf).
Qed.

Lemma translate_page m va o f : aligned va -> 0 <= o < 4096 -> translate m va = Some f -> translate m (va + o) = Some (f + o).
Proof.
  intros (q & -> & Hq) Ho. pose proof (mkva_split (q * 4096) ltac:(lia)) as E.
  assert (q * 4096 mod 4096 = 0) as E0 by (apply Z.mod_mul; lia). rewrite E0 in E.
  pose proof (PDE_IDX_range (q * 4096) ltac:(lia)) as R1. pose proof (PTE_IDX_range (q * 4096) ltac:(lia)) as R2.
  assert (q * 4096 + o = mkva (PDE_IDX (q * 4096)) (PTE_IDX (q * 4096)) o) as E' by (unfold mkva in *; lia).
  destruct (mkva_fields (PDE_IDX (q * 4096)) (PTE_IDX (q * 4096)) o) as (_ & F1 & F2 & F3); [lia..|].
  rewrite !translate_eq, E', F1, F2, F3. destruct (present _); [|done]. destruct (present _); [|done].
  rewrite land_FFF, E0, Z.add_0_r. by intros [= ->].
Qed.

(** ** Stores to data pages *)

Lemma differs_pwrite m f o w : aligned f -> 0 <= o < 4096 -> 0 <= w < 2 ^ 32 -> differs (eq f) m (pwrite m (f + o) w).
Proof.
  intros Hf Ho Hw. split; [done| |].
  - intros Hm a x. cbn. rewrite lookup_insert. case_decide; [by intros [= <-]|apply Hm].
  - intros a Ha. rewrite pread_pwrite. case_decide as E; [|done]. subst a. exfalso. apply Ha. by rewrite page_of_off.
Qed.

(** The words from [f + o] on, [n] of them. *)
Definition in_words (f o : Z) (n : nat) (a : Z) : Prop := f + o <= a < f + o + 4 * Z.of_nat n /\ (a - f - o) mod 4 = 0.
#[global] Instance in_words_dec f o n a : Decision (in_words f o n a).
Proof. unfold in_words. apply _. Defined.

Lemma in_words_S f o n a : in_words f o (S n) a <-> a = f + o \/ in_words f (o + 4) n a.
Proof.
  unfold in_words. assert (forall z, (z - f - (o + 4)) mod 4 = (z - f - o) mod 4) as E.
  { intros z. replace (z - f - (o + 4)) with (z - f - o + (-1) * 4) by lia. apply Z.mod_add. lia. }
  rewrite E. split.
  - intros [H1 H2]. pose proof (Z.div_mod (a - f - o) 4 ltac:(lia)). destruct (Z.eq_dec a (f + o)); [by left|right]. lia.
  - intros [->|[H1 H2]]; [|lia]. split; [lia|]. replace (f + o - f - o) with 0 by lia. done.
Qed.

(** Clearing and copying words of the data page [f] behind [va]. *)
Lemma zero_page_run n : forall m va f o, pt_wf m -> aligned va -> translate m va = Some f -> aligned f -> ~ table_page m f ->
  0 <= o -> o + 4 * Z.of_nat n <= 4096 ->
  exists m', zero_words n (va + o) m = Ok (tt, m') /\ differs (eq f) m m' /\
    forall a, pread m' a = if decide (in_words f o n a) then 0 else pread m a.
Proof.
  induction n as [|n IH]; intros m va f o Hm Hva Ht Hf Hd Ho Hle; cbn [zero_words].
  { exists m. split; [done|]. split; [apply differs_refl|]. intros a. rewrite decide_False; [done|]. unfold in_words. lia. }
  assert (vstore (va + o) 0 m = Ok (tt, pwrite m (f + o) 0)) as E by (unfold vstore; by rewrite (translate_page m va o f) by (done || lia)).
  mrun E. pose proof (differs_pwrite m f o 0 Hf ltac:(lia) ltac:(lia)) as D1.
  destruct (differs_space _ _ _ Hm D1) as (Hm1 & Hp1 & Ht1); [by intros p <-|].
  replace (va + o + 4) with (va + (o + 4)) by lia.
  destruct (IH (pwrite m (f + o) 0) va f (o + 4)) as (m' & E' & D' & R'); try done; [|by intros Htab; apply Hd; destruct Htab as [?|(d & ? & Hpr & ?)]; [by left|right; exists d; rewrite Hp1 in * by lia]|lia|lia|].
  { rewrite Ht1; [done|]. destruct Hva as (q & -> & Hq). lia. }
  exists m'. split; [done|]. split; [eapply differs_mono; [|apply (differs_trans _ _ _ _ _ D1 D')]; by intros p []|].
  intros a. rewrite R', pread_pwrite. destruct (decide (in_words f (o + 4) n a)) as [H1|H1]; [rewrite decide_True; [done|apply in_words_S; by right]|].
  destruct (decide (f + o = a)) as [<-|H2]; [rewrite decide_True; [done|apply in_words_S; by left]|].
  rewrite decide_False; [done|]. rewrite in_words_S. intros [->|?]; done.
Qed.

Lemma copy_page_run n : forall m dst src fd fs od os, pt_wf m -> aligned dst -> aligned src -> translate m dst = Some fd -> translate m src = Some fs ->
  aligned fd -> aligned fs -> fd <> fs -> ~ table_page m fd -> 0 <= od -> od + 4 * Z.of_nat n <= 4096 -> 0 <= os -> os + 4 * Z.of_nat n <= 4096 ->
  exists m', copy_words n (dst + od) (src + os) m = Ok (tt, m') /\ differs (eq fd) m m' /\
    forall a, pread m' a = if decide (in_words fd od n a) then pread m (fs + os + (a - fd - od)) else pread m a.
Proof.
  induction n as [|n IH]; intros m dst src fd fs od os Hm Hdst Hsrc Htd Hts Hfd Hfs Hne Hd Hod Hled Hos Hles; cbn [copy_words].
  { exists m. split; [done|]. split; [apply differs_refl|]. intros a. rewrite decide_False; [done|]. unfold in_words. lia. }
  assert (vload (src + os) m = Ok (pread m (fs + os), m)) as E1 by (unfold vload; by rewrite (translate_page m src os fs) by (done || lia)).
  mrun E1. set (w := pread m (fs + os)). pose proof (pread_range m (fs + os) (pw_self _ Hm)) as Hw. fold w in Hw.
  assert (vstore (dst + od) w m = Ok (tt, pwrite m (fd + od) w)) as E2 by (unfold vstore; by rewrite (translate_page m dst od fd) by (done || lia)).
  mrun E2. pose proof (differs_pwrite m fd od w Hfd ltac:(lia) Hw) as D1.
  destruct (differs_space _ _ _ Hm D1) as (Hm1 & Hp1 & Ht1); [by intros p <-|].
  replace (dst + od + 4) with (dst + (od + 4)) by lia. replace (src + os + 4) with (src + (os + 4)) by lia.
  destruct (IH (pwrite m (fd + od) w) dst src fd fs (od + 4) (os + 4)) as (m' & E' & D' & R'); try done; try lia.
  { rewrite Ht1; [done|]. destruct Hdst as (q & -> & Hq). lia. }
  { rewrite Ht1; [done|]. destruct Hsrc as (q & -> & Hq). lia. }
  { intros Htab. apply Hd. destruct Htab as [?|(d & ? & Hpr & ?)]; [by left|right; exists d; rewrite Hp1 in * by lia; done]. }
  exists m'. split; [done|]. split; [eapply differs_mono; [|apply (differs_trans _ _ _ _ _ D1 D')]; by intros p []|].
  intros a. rewrite R', !pread_pwrite. destruct (decide (in_words fd (od + 4) n a)) as [H1|H1].
  - rewrite (decide_True (P := in_words fd od (S n) a)) by (apply in_words_S; by right). rewrite decide_False; [f_equal; lia|].
    intros E. destruct H1 as [H1 _]. assert (fd = fs /\ od = os + 4 + (a - fd - (od + 4))) as [? _]; [|done].
    apply aligned_same_page; done || lia.
  - destruct (decide (fd + od = a)) as [<-|H2].
    + rewrite decide_True by (apply in_words_S; by left). unfold w. f_equal. lia.
    + rewrite decide_False; [done|]. rewrite in_words_S. intros [->|?]; done.
Qed.

Lemma table_page_ext m m' : cr3 m' = cr3 m -> (forall d, 0 <= d < 1024 -> pde m' d = pde m d) -> forall p, table_page m' p <-> table_page m p.
Proof.
  intros Hc Hp p. unfold table_page. rewrite Hc. split; (intros [?|(d & Hd & H1 & H2)]; [by left|right]; exists d; rewrite Hp in * by lia; done).
Qed.


Lemma zero_words_split a b va m m' : zero_words a va m = Ok (tt, m') -> zero_words (a + b) va m = zero_words b (va + 4 * Z.of_nat a) m'.
Proof.
  revert va m. induction a as [|a IH]; intros va m E; cbn [zero_words Nat.add] in *.
  - injection E as <-. f_equal. lia.
  - destruct (mbindM_inv _ _ _ _ _ E) as ([] & m1 & E1 & E2). mrun E1. rewrite (IH _ _ E2). f_equal. lia.
Qed.

(** Consecutive pages. *)
Lemma zero_pages_run fs : forall m q, pt_wf m -> 0 <= q -> q + Z.of_nat (length fs) <= 2 ^ 20 -> Forall aligned fs -> Forall (fun f => ~ table_page m f) fs ->
  (forall i f, fs !! i = Some f -> translate m ((q + Z.of_nat i) * 4096) = Some f) ->
  exists m', zero_words (1024 * length fs) (q * 4096) m = Ok (tt, m') /\ differs (fun p => p ∈ fs) m m' /\
    forall f o, f ∈ fs -> 0 <= o < 4096 -> o mod 4 = 0 -> pread m' (f + o) = 0.
Proof.
  induction fs as [|f fs IH]; intros m q Hm Hq Hle Hal Hd Ht.
  { exists m. split; [done|]. split; [apply differs_refl|]. by intros f o ?%not_elem_of_nil. }
  inversion Hal as [|? ? Hf Hal']; inversion Hd as [|? ? Hdf Hd']; subst. cbn [length] in *.
  assert (aligned (q * 4096)) as Hqa by (exists q; lia).
  pose proof (Ht 0%nat f eq_refl) as Ht0. rewrite Z.add_0_r in Ht0.
  destruct (zero_page_run 1024 m (q * 4096) f 0 Hm Hqa Ht0 Hf Hdf ltac:(lia) ltac:(lia)) as (m1 & E1 & D1 & R1). rewrite Z.add_0_r in E1.
  destruct (differs_space _ _ _ Hm D1) as (Hm1 & Hp1 & Ht1); [by intros p <-|].
  destruct (IH m1 (q + 1)) as (m2 & E2 & D2 & R2); [done|lia|lia|done| | |].
  { eapply Forall_impl; [exact Hd'|]. intros x Hx. by rewrite (table_page_ext m m1 (df_cr3 _ _ _ D1) Hp1). }
  { intros i g Hi. rewrite Ht1; [|apply lookup_lt_Some in Hi; lia]. rewrite <- (Ht (S i) g Hi). f_equal. lia. }
  exists m2. split.
  { replace (1024 * S (length fs))%nat with (1024 + 1024 * length fs)%nat by lia. rewrite (zero_words_split _ _ _ _ _ E1), <- E2. f_equal. lia. }
  split; [eapply differs_mono; [|apply (differs_trans _ _ _ _ _ D1 D2)]; intros p [<-|?]; [left|by right]|].
  intros g o Hg Ho Hm4. destruct (decide (g ∈ fs)) as [Hin|Hnin]; [by apply R2|].
  apply elem_of_cons in Hg as [->|?]; [|done]. rewrite (df_same _ _ _ D2) by (by rewrite page_of_off). rewrite R1, decide_True; [done|].
  unfold in_words. split; [lia|]. by replace (f + o - f - 0) with o by lia.
Qed.

(** States that differ in the lock counts of the pools only. *)
Record alike (s s' : memst) : Prop := {
  al_mm : mm s' = mm s;
  al_kv : kernel_vaddr s' = kernel_vaddr s;
  al_uv : userprog_vaddr s' = userprog_vaddr s;
  al_dir : cur_pgdir s' = cur_pgdir s;
  al_bits pf : pool_bitmap (pool_of pf s') = pool_bitmap (pool_of pf s);
  al_start pf : phy_addr_start (pool_of pf s') = phy_addr_start (pool_of pf s)
}.
#[global] Instance alike_equiv : Equivalence alike.
Proof.
  split.
  - by split.
  - intros s s' [A1 A2 A3 A4 A5 A6]. by split.
  - intros s1 s2 s3 [A1 A2 A3 A4 A5 A6] [B1 B2 B3 B4 B5 B6]. split; try congruence; intros pf; congruence.
Qed.

Lemma alike_free s s' pf f : alike s s' -> frame_free (pool_of pf s') f <-> frame_free (pool_of pf s) f.
Proof. intros [A1 A2 A3 A4 A5 A6]. unfold frame_free, frames. by rewrite A5, A6. Qed.
Lemma alike_pool_wf s s' pf : alike s s' -> pool_wf (pool_of pf s) -> pool_wf (pool_of pf s').
Proof. intros [A1 A2 A3 A4 A5 A6] [H1 H2]. split; [by rewrite A5|]. unfold frames in *. by rewrite A5, A6. Qed.
Lemma alike_data s s' f : alike s s' -> data_frame s' f <-> data_frame s f.
Proof. intros [A1 A2 A3 A4 A5 A6]. unfold data_frame. by rewrite A1. Qed.

#[global] Instance mem_wf_alike : Proper (alike ==> iff) mem_wf.
Proof.
  assert (forall s s', alike s s' -> mem_wf s -> mem_wf s') as Himp.
  { intros s s' A [H1 H2 H3 H4 H5 H6]. pose proof A as [A1 A2 A3 A4 A5 A6]. split.
    - by rewrite A1.
    - by apply (alike_pool_wf s s' PF_KERNEL).
    - by apply (alike_pool_wf s s' PF_USER).
    - pose proof (A5 PF_KERNEL) as E1. pose proof (A6 PF_KERNEL) as E2. pose proof (A6 PF_USER) as E3. cbn in *. unfold frames in *. by rewrite E1, E2, E3.
    - intros pf d Hd Hp. rewrite A1 in *. rewrite (alike_free s s') by done. by apply (H5 pf).
    - intros pf. rewrite A1, (alike_free s s') by done. apply (H6 pf). }
  intros s s' A. split; [by apply Himp|apply Himp; by symmetry].
Qed.
#[global] Instance vaddr_wf_alike pf : Proper (alike ==> iff) (vaddr_wf pf).
Proof.
  assert (forall s s', alike s s' -> vaddr_wf pf s -> vaddr_wf pf s') as Himp.
  { intros s s' [A1 A2 A3 A4 A5 A6] [H1 H2 H3 H4]. assert (vaddr_of pf s' = vaddr_of pf s) as E by (by destruct pf). split; rewrite ?E, ?A1; done. }
  intros s s' A. split; [by apply Himp|apply Himp; by symmetry].
Qed.
#[global] Instance room_alike pf n : Proper (alike ==> iff) (room pf n).
Proof. intros s s' [A1 A2 A3 A4 A5 A6]. unfold room. pose proof (A5 PF_KERNEL) as E. cbn in E. by rewrite A5, E. Qed.
#[global] Instance handed_out_alike pf : Proper (alike ==> alike ==> eq ==> eq ==> eq ==> iff) (handed_out pf).
Proof.
  assert (forall s s' t t' q r fs, alike s s' -> alike t t' -> handed_out pf s t q r fs -> handed_out pf s' t' q r fs) as Himp.
  { intros s s' t t' q r fs A B [H1 H2 H3 H4 H5 H6 H7 H8 H9 H10 H11 H12].
    assert (vaddr_of pf s' = vaddr_of pf s) as Es by (destruct pf; apply A). assert (vaddr_of pf t' = vaddr_of pf t) as Et by (destruct pf; apply B).
    split.
    - intros j Hj. rewrite Es, Et. by apply H1.
    - by rewrite Es, Et.
    - done.
    - eapply Forall_impl; [exact H4|]. intros f. by apply (alike_free s s').
    - eapply Forall_impl; [exact H5|]. intros f [F1 F2]. split; [by rewrite (alike_free t t')|by apply (alike_data t t')].
    - rewrite (al_mm _ _ B). exact H6.
    - rewrite (al_mm _ _ B), (al_mm _ _ A). exact H7.
    - intros pf'. rewrite (al_start _ _ B), (al_start _ _ A). apply H8.
    - intros pf'. unfold frames in *. rewrite (al_bits _ _ B), (al_bits _ _ A). apply H9.
    - by rewrite Es, Et.
    - intros pf' x Hx. apply (alike_free s s' pf' x A). apply H11. by apply (alike_free t t' pf' x B).
    - intros f Hf Hk. apply (alike_data t t' f B). apply H12; [by apply (alike_data s s')|]. intros Hx. apply Hk. by apply (alike_free s s' PF_KERNEL f A). }
  intros s s' A t t' B q ? <- r ? <- fs ? <-. split; apply Himp; done || by symmetry.
Qed.

(** ** Pages for the kernel *)

Definition with_holds (pf : pool_flags) (h : Z) (s : memst) : memst := set_pool pf (set_holds h (pool_of pf s)) s.

Lemma alike_holds pf h s : alike s (with_holds pf h s).
Proof. destruct pf; split; try done; by intros []. Qed.

Lemma pool_lock_run pf s : pool_lock pf s = Ok (tt, with_holds pf (holds (pool_of pf s) + 1) s).
Proof. done. Qed.
Lemma pool_unlock_run pf s : 1 <= holds (pool_of pf s) -> pool_unlock pf s = Ok (tt, with_holds pf (holds (pool_of pf s) - 1) s).
Proof. intros Hh. unfold pool_unlock. rewrite getS_bind. erewrite mbindM_Ok by (apply assertM_run; lia). done. Qed.

(** Rewriting data pages leaves the allocator as it is. *)
Lemma mem_wf_differs F s m' : mem_wf s -> differs F (mm s) m' -> (forall p, F p -> ~ table_page (mm s) p) -> mem_wf (set_mm m' s).
Proof.
  intros Hw D HF. destruct (differs_space F (mm s) m' (mw_pt _ Hw) D HF) as (H1 & H2 & H3).
  apply mem_wf_set_mm; [done|done|apply D|done].
Qed.
Lemma vaddr_wf_differs F pf s m' : mem_wf s -> vaddr_wf pf s -> differs F (mm s) m' -> (forall p, F p -> ~ table_page (mm s) p) -> vaddr_wf pf (set_mm m' s).
Proof.
  intros Hw [H1 H2 H3 H4] D HF. destruct (differs_space F (mm s) m' (mw_pt _ Hw) D HF) as (_ & _ & T).
  assert (vaddr_of pf (set_mm m' s) = vaddr_of pf s) as E by (by destruct pf). split; rewrite ?E; try done.
  intros i Hi Hu. cbn [set_mm mm]. destruct H3 as (q & Hq & Hq0 & Hq1). rewrite T by (rewrite Hq; lia). by apply H4.
Qed.
Lemma handed_out_differs F pf s s' q r fs m' : mem_wf s' -> 0 < q + r -> q + r + Z.of_nat (length fs) <= 0xFFC00 -> handed_out pf s s' q r fs -> differs F (mm s') m' ->
  (forall p, F p -> ~ table_page (mm s') p) -> handed_out pf s (set_mm m' s') q r fs.
Proof.
  intros Hw Hq Hle [H1 H2 H3 H4 H5 H6 H7 H8 H9 H10 H11 H12] D HF. destruct (differs_space F (mm s') m' (mw_pt _ Hw) D HF) as (_ & P & T).
  assert (forall f, data_frame (set_mm m' s') f <-> data_frame s' f) as Hd.
  { intros f. rewrite !data_not_table. by rewrite (table_page_ext (mm s') m' (df_cr3 _ _ _ D) P). }
  assert (vaddr_of pf (set_mm m' s') = vaddr_of pf s') as E by (by destruct pf). assert (forall pf', pool_of pf' (set_mm m' s') = pool_of pf' s') as Ep by (by intros []).
  split; rewrite ?E; try done.
  - eapply Forall_impl; [exact H5|]. intros f [F1 F2]. rewrite Ep. split; [done|by apply Hd].
  - intros i f Hi. cbn [set_mm mm]. rewrite T; [by apply H6|]. apply lookup_lt_Some in Hi. lia.
  - intros va Hv Hd' Hout. cbn [set_mm mm]. rewrite T by done. by apply H7.
  - intros f F1 F2. apply Hd. by apply H12.
Qed.

(** The process is not disturbed by new pages of the kernel. *)
Record undisturbed (s s' : memst) : Prop := {
  ud_words : words_kept s s';
  ud_data f : data_frame s f -> ~ frame_free (kernel_pool s) f -> data_frame s' f;
  ud_free pf x : frame_free (pool_of pf s') x -> frame_free (pool_of pf s) x;
  ud_user : user_pool s' = user_pool s;
  ud_uv : userprog_vaddr s' = userprog_vaddr s;
  ud_dir : cur_pgdir s' = cur_pgdir s;
  ud_cr3 : cr3 (mm s') = cr3 (mm s);
  ud_holds : holds (kernel_pool s') = holds (kernel_pool s);
  ud_start pf : phy_addr_start (pool_of pf s') = phy_addr_start (pool_of pf s);
  ud_frames pf : frames (pool_of pf s') = frames (pool_of pf s)
}.

#[global] Instance undisturbed_preorder : PreOrder undisturbed.
Proof.
  split; [by split|]. intros s1 s2 s3 [A1 A2 A3 A4 A5 A6 A7 A8 A9 A10] [B1 B2 B3 B4 B5 B6 B7 B8 B9 B10]. split; try congruence.
  - intros f o Ha Hd Hf Ho. rewrite B1; [by apply A1|done|apply A2; [done|apply (Hf PF_KERNEL)]| |done]. intros pf Hx. by apply (Hf pf), A3.
  - intros f Hd Hf. apply B2; [by apply A2|]. intros Hx. by apply Hf, (A3 PF_KERNEL).
  - eauto.
Qed.

Lemma undisturbed_differs F s s' m' : undisturbed s s' -> mem_wf s' -> differs F (mm s') m' -> (forall p, F p -> ~ table_page (mm s') p /\ exists pf, frame_free (pool_of pf s) p) ->
  undisturbed s (set_mm m' s').
Proof.
  intros [A1 A2 A3 A4 A5 A6 A7 A8 A9 A10] Hw D HF. destruct (differs_space F (mm s') m' (mw_pt _ Hw) D) as (_ & P & _); [intros p Hp; by apply HF|].
  split; try done.
  - intros f o Ha Hd Hf Ho. rewrite <- A1 by done. apply (df_same _ _ _ D). rewrite page_of_off by done. intros Hp. destruct (HF f Hp) as [_ [pf Hx]]. by apply (Hf pf).
  - intros f Hd Hf. apply data_not_table. cbn [set_mm mm]. rewrite (table_page_ext (mm s') m' (df_cr3 _ _ _ D) P). apply data_not_table. by apply A2.
  - cbn [set_mm mm]. rewrite (df_cr3 _ _ _ D). exact A7.
Qed.

Lemma undisturbed_alike s s1 s2 s3 : alike s s1 -> undisturbed s1 s2 -> alike s2 s3 -> user_pool s3 = user_pool s -> holds (kernel_pool s3) = holds (kernel_pool s) -> undisturbed s s3.
Proof.
  intros A [U1 U2 U3 U4 U5 U6 U7 U8 U9 U10] B Hu Hh. pose proof A as [A1 A2 A3 A4 A5 A6]. pose proof B as [B1 B2 B3 B4 B5 B6]. split; try congruence; [..|intros pf; specialize (U10 pf); unfold frames in *; by rewrite B5, U10, A5].
  - intros f o Ha Hd Hf Ho. rewrite B1, <- A1. apply U1; [done|by apply (alike_data s s1)| |done]. intros pf. by rewrite (alike_free s s1).
  - intros f Hd Hf. apply (alike_data s2 s3 f B), U2; [by apply (alike_data s s1)|]. intros Hx. by apply Hf, (alike_free s s1 PF_KERNEL f A).
  - intros pf x Hx. apply (alike_free s s1 pf x A), U3, (alike_free s2 s3 pf x B), Hx.
Qed.

Lemma get_kernel_pages_run s n k q :
  mem_wf s -> vaddr_wf PF_KERNEL s -> vaddr_start (kernel_vaddr s) = q * 4096 -> 0 < n < 3840 -> 0 <= k -> k + n <= nbits (vaddr_bitmap (kernel_vaddr s)) ->
  run (vaddr_bitmap (kernel_vaddr s)) k n -> room PF_KERNEL (Z.to_nat n) s -> 0 <= holds (kernel_pool s) ->
  exists s' r fs, get_kernel_pages n s = Ok ((q + r) * 4096, s') /\ 0 <= r <= k /\ run (vaddr_bitmap (kernel_vaddr s)) r n /\ Z.of_nat (length fs) = n /\
    handed_out PF_KERNEL s s' q r fs /\ mem_wf s' /\ vaddr_wf PF_KERNEL s' /\ holds (kernel_pool s') = holds (kernel_pool s) /\
    q + nbits (vaddr_bitmap (kernel_vaddr s)) <= 0xFFC00 /\ 0 < q /\
    (forall j, room PF_KERNEL (Z.to_nat n + j) s -> room PF_KERNEL j s') /\
    (forall f o, f ∈ fs -> 0 <= o < 4096 -> o mod 4 = 0 -> pread (mm s') (f + o) = 0) /\ undisturbed s s'.
Proof.
  intros Hw Hv Hq Hn Hk Hkn Hrun Hroom Hh. set (s1 := with_holds PF_KERNEL (holds (kernel_pool s) + 1) s).
  pose proof (alike_holds PF_KERNEL (holds (kernel_pool s) + 1) s) as A1. fold s1 in A1.
  destruct (malloc_page_run PF_KERNEL s1 n k q) as (s2 & r & fs & E2 & Hr & Hrr & Hlen & Ho & Hw2 & Hv2 & Hh2 & Hq1 & Hq0 & Hj & Hwk & Huk); try done; [by rewrite <- A1..|].
  pose proof Ho as [_ _ _ O4 O5 O6 _ _ _ _ _ _].
  assert (Forall aligned fs) as Hal.
  { eapply Forall_impl; [exact O4|]. intros f Hf. apply (in_pool_aligned PF_KERNEL s f Hw). destruct Hf as (i & Hi & -> & _). by exists i. }
  assert (Forall (fun f => ~ table_page (mm s2) f) fs) as Hdat by (eapply Forall_impl; [exact O5|]; intros f [_ Hf]; by apply data_not_table).
  destruct (zero_pages_run fs (mm s2) (q + r)) as (m' & Ez & D & Hz); [apply Hw2|lia|change (2 ^ 20) with 1048576; cbn in *; lia|done|done|done|].
  assert (forall p, p ∈ fs -> ~ table_page (mm s2) p) as HF by (by rewrite Forall_forall in Hdat).
  set (s3 := set_mm m' s2). assert (holds (pool_of PF_KERNEL s3) = holds (kernel_pool s) + 1) as Hh3 by (cbn; apply (Hh2 PF_KERNEL)).
  set (s4 := with_holds PF_KERNEL (holds (kernel_pool s)) s3). pose proof (alike_holds PF_KERNEL (holds (kernel_pool s)) s3) as A4. fold s4 in A4.
  exists s4, r, fs. split.
  { unfold get_kernel_pages. mrun (pool_lock_run PF_KERNEL s). fold s1. mrun E2.
    unfold NULL. destruct (Z.eqb_spec ((q + r) * 4096) 0); [lia|]. erewrite mbindM_Ok; cycle 1.
    { unfold memset0. erewrite mbindM_Ok; [|apply assertM_run; destruct (Z.eqb_spec ((q + r) * 4096) 0); [lia|done]].
      apply on_mmu_run. unfold PAGE_SIZE. rewrite wrapu_small by (change (2 ^ 32) with 4294967296; lia).
      replace (Z.to_nat (n * 4096 / 4)) with (1024 * length fs)%nat; [exact Ez|]. replace (n * 4096) with (n * 1024 * 4) by lia. rewrite Z.div_mul by lia. lia. }
    fold s3. pose proof (pool_unlock_run PF_KERNEL s3 ltac:(lia)) as E3. rewrite Hh3 in E3. replace (holds (kernel_pool s) + 1 - 1) with (holds (kernel_pool s)) in E3 by lia. by mrun E3. }
  split; [done|]. split; [done|]. split; [done|]. split; [|split; [|split; [|split; [done|split; [done|split; [done|split; [|split]]]]]]].
  - rewrite <- A4. rewrite A1. apply (handed_out_differs (fun p => p ∈ fs)); [done|lia|cbn in *; lia|done|done|done].
  - rewrite <- A4. by apply (mem_wf_differs (fun p => p ∈ fs)).
  - rewrite <- A4. by apply (vaddr_wf_differs (fun p => p ∈ fs)).
  - intros j Hrj. rewrite <- A4. apply (Hj j). by rewrite <- A1.
  - exact Hz.
  - apply (undisturbed_alike s s1 s3 s4 A1); [|done|cbn; rewrite (proj1 (Huk eq_refl)); by destruct s|done].
    apply (undisturbed_differs (fun p => p ∈ fs)); [|done|done|].
    + destruct (Huk eq_refl) as (U1 & U2 & U3 & U4). split; [exact Hwk|apply (ho_data _ _ _ _ _ _ Ho)|apply (ho_free _ _ _ _ _ _ Ho)|exact U1|exact U2|exact U3|exact U4|exact (Hh2 PF_KERNEL)|apply (ho_starts _ _ _ _ _ _ Ho)|apply (ho_frames _ _ _ _ _ _ Ho)].
    + intros p Hp. split; [by apply HF|]. exists PF_KERNEL. rewrite Forall_forall in O4. by apply O4.
Qed.

(** ** A new page directory *)

(** The words of a fresh directory [f]: nothing below 0xC0000000, the tables of
    the running space above, and the window to itself. *)
Definition dir_word (m : mmu) (f d : Z) : Z := if d <? 768 then 0 else if d =? 1023 then entry f else pde m d.

Lemma fill_directory s va f : mem_wf s -> aligned va -> 0 < va < 0xFFC00000 -> translate (mm s) va = Some f -> aligned f -> ~ table_page (mm s) f ->
  (forall o, 0 <= o < 4096 -> o mod 4 = 0 -> pread (mm s) (f + o) = 0) ->
  exists m', (_ ← memcpy (u32 (va + 0x300 * 4)) (u32 (0xFFFFF000 + 0x300 * 4)) 1024;
              new_page_dir_phy_addr ← on_mmu (addr_v2p va);
              _ ← on_mmu (vstore (u32 (va + 1023 * 4)) (entry new_page_dir_phy_addr));
              mret va) s = Ok (va, set_mm m' s) /\ differs (eq f) (mm s) m' /\
    forall d, 0 <= d < 1024 -> pread m' (f + d * 4) = dir_word (mm s) f d.
Proof.
  intros Hw Hva Hlt Ht Hf Hd Hz. pose proof (mw_pt _ Hw) as Hm. pose proof Hm as [[Hb _ _ Hs4] _ _].
  assert (translate (mm s) 0xFFFFF000 = Some (cr3 (mm s))) as Hwin.
  { change 0xFFFFF000 with (mkva 1023 1023 0). rewrite window_translate by (apply Hm || lia). destruct Hm as [[_ _ Hp Hfr] _ _]. rewrite Hp, Hfr. by rewrite Z.add_0_r. }
  assert (f <> cr3 (mm s)) as Hne by (intros ->; apply Hd; by left).
  destruct (copy_page_run 256 (mm s) va 0xFFFFF000 f (cr3 (mm s)) (0x300 * 4) (0x300 * 4)) as (m1 & E1 & D1 & R1); try done; try lia.
  { exists 0xFFFFF. lia. }
  destruct (differs_space _ _ _ Hm D1) as (Hm1 & Hp1 & Ht1); [by intros p <-|].
  assert (translate m1 va = Some f) as Htv by (rewrite Ht1; [done|]; destruct Hva as (q & -> & ?); lia).
  assert (0 <= entry f < 2 ^ 32) as Her by (apply entry_spec, Hf).
  set (m2 := pwrite m1 (f + 1023 * 4) (entry f)). pose proof (differs_pwrite m1 f (1023 * 4) (entry f) Hf ltac:(lia) Her) as D2. fold m2 in D2.
  exists m2. split; [|split].
  - assert (forall z, 0 <= z < 4294967296 -> u32 z = z) as Hu by (intros z Hzr; by apply wrapu_small). rewrite !Hu by lia.
    assert (memcpy (va + 768 * 4) (4294963200 + 768 * 4) 1024 s = Ok (tt, set_mm m1 s)) as Ec.
    { unfold memcpy. erewrite mbindM_Ok; [|apply assertM_run; unfold NULL; destruct (Z.eqb_spec (va + 768 * 4) 0); [lia|]; done].
      apply on_mmu_run. exact E1. }
    mrun Ec. assert (on_mmu (addr_v2p va) (set_mm m1 s) = Ok (f, set_mm m1 s)) as Ea.
    { erewrite on_mmu_run; [reflexivity|]. apply addr_v2p_run; [apply Hm1|lia|exact Htv]. }
    mrun Ea. assert (on_mmu (vstore (va + 1023 * 4) (entry f)) (set_mm m1 s) = Ok (tt, set_mm m2 s)) as Es.
    { erewrite on_mmu_run; [reflexivity|]. unfold vstore. cbn [set_mm mm]. by rewrite (translate_page m1 va (1023 * 4) f) by (done || lia). }
    by mrun Es.
  - eapply differs_mono; [|apply (differs_trans _ _ _ _ _ D1 D2)]. by intros p [].
  - intros d Hd'. unfold m2, dir_word. rewrite pread_pwrite, R1.
    destruct (decide (f + 1023 * 4 = f + d * 4)) as [E|E].
    { assert (d = 1023) as -> by lia. done. }
    destruct (Z.eqb_spec d 1023); [lia|]. destruct (Z.ltb_spec d 768).
    + rewrite decide_False by (unfold in_words; lia). apply Hz; [lia|]. apply Z.mod_mul. lia.
    + rewrite decide_True; [unfold pde; f_equal; lia|]. unfold in_words. split; [lia|]. replace (f + d * 4 - f - 768 * 4) with ((d - 768) * 4) by lia. apply Z.mod_mul. lia.
Qed.

(** The space of a filled directory. *)
Lemma fresh_space s f : mem_wf s -> aligned f -> data_frame s f -> (forall pf, ~ frame_free (pool_of pf s) f) ->
  (forall d, 0 <= d < 1024 -> pread (mm s) (f + d * 4) = dir_word (mm s) f d) ->
  let s' := set_mm (at_root (mm s) f) s in
  mem_wf s' /\ (forall d, 0 <= d < 1024 -> pde (mm s') d = dir_word (mm s) f d) /\
  (forall va, 0 <= va < 0xC0000000 -> translate (mm s') va = None) /\
  (forall va, 0xC0000000 <= va < 0xFFC00000 -> translate (mm s') va = translate (mm s) va).
Proof.
  intros Hw Hf Hd Hnf Hdir s'. pose proof (entry_spec f Hf) as (Ef & Ep & Er). pose proof (mw_pt _ Hw) as Hm. pose proof Hm as [[M1 M2 M3 M4] M5 M6].
  assert (forall d, 0 <= d < 1024 -> pde (mm s') d = dir_word (mm s) f d) as Hp by (intros d Hd'; by apply Hdir).
  assert (forall d, 0 <= d < 1023 -> present (pde (mm s') d) = true -> 768 <= d /\ pde (mm s') d = pde (mm s) d) as Hk.
  { intros d Hd' Hpr. rewrite Hp in * by lia. unfold dir_word in *. destruct (Z.ltb_spec d 768); [done|]. destruct (Z.eqb_spec d 1023); [lia|done]. }
  assert (present (pde (mm s') 1023) = true /\ frame_of (pde (mm s') 1023) = f) as [Hself1 Hself2] by (rewrite Hp by lia; done).
  split; [|split; [exact Hp|]].
  - destruct Hw as [W1 W2 W3 W4 W5 W6]. split; try done; [split; [split|..]|..].
    + exact Hf.
    + exact M2.
    + exact Hself1.
    + exact Hself2.
    + intros d Hd' Hpr. destruct (Hk d Hd' Hpr) as [_ E]. rewrite E in *. apply Hd; done.
    + intros d d' Hd' Hd'' Hpr Hpr'. destruct (Hk d Hd' Hpr) as [_ E]. destruct (Hk d' Hd'' Hpr') as [_ E']. rewrite E, E' in *. by apply M6.
    + intros pf d Hd' Hpr. destruct (Hk d Hd' Hpr) as [_ E]. rewrite E in *. by apply (W5 pf).
  - split; intros va Hva.
    + assert (PDE_IDX va < 768) as Hi by (rewrite PDE_IDX_eq by lia; apply Z.div_lt_upper_bound; lia). pose proof (PDE_IDX_range va ltac:(lia)).
      rewrite translate_eq, Hp by lia. unfold dir_word. destruct (Z.ltb_spec (PDE_IDX va) 768); [done|lia].
    + assert (768 <= PDE_IDX va < 1023) as Hi.
      { rewrite PDE_IDX_eq by lia. split; [apply Z.div_le_lower_bound; lia|apply Z.div_lt_upper_bound; lia]. }
      rewrite !translate_eq, Hp by lia. unfold dir_word. destruct (Z.ltb_spec (PDE_IDX va) 768); [lia|]. destruct (Z.eqb_spec (PDE_IDX va) 1023); [lia|done].
Qed.

Lemma create_page_dir_run s k q :
  mem_wf s -> vaddr_wf PF_KERNEL s -> vaddr_start (kernel_vaddr s) = q * 4096 -> 0 <= k -> k + 1 <= nbits (vaddr_bitmap (kernel_vaddr s)) ->
  run (vaddr_bitmap (kernel_vaddr s)) k 1 -> room PF_KERNEL 1 s -> 0 <= holds (kernel_pool s) ->
  exists s' r f, create_page_dir s = Ok ((q + r) * 4096, s') /\ 0 <= r <= k /\ run (vaddr_bitmap (kernel_vaddr s)) r 1 /\ handed_out PF_KERNEL s s' q r [f] /\
    mem_wf s' /\ vaddr_wf PF_KERNEL s' /\ aligned f /\ data_frame s' f /\ (forall pf, ~ frame_free (pool_of pf s') f) /\
    translate (mm s') ((q + r) * 4096) = Some f /\ 0 < q /\ q + nbits (vaddr_bitmap (kernel_vaddr s)) <= 0xFFC00 /\
    (forall d, 0 <= d < 1024 -> pread (mm s') (f + d * 4) = dir_word (mm s') f d) /\ undisturbed s s' /\ (forall j, room PF_KERNEL (1 + j) s -> room PF_KERNEL j s').
Proof.
  intros Hw Hv Hq Hk Hkn Hrun Hroom Hh.
  destruct (get_kernel_pages_run s 1 k q Hw Hv Hq ltac:(lia) Hk Hkn Hrun Hroom Hh) as (s1 & r & fs & E1 & Hr & Hrr & Hlen & Ho & Hw1 & Hv1 & _ & Hq1 & Hq0 & Hj & Hz & Hu).
  destruct fs as [|f [|]]; cbn in Hlen; try lia. clear Hlen. pose proof Ho as [_ _ _ O4 O5 O6 _ _ _ _ O11 _].
  apply Forall_cons in O4 as [O4 _]. apply Forall_cons in O5 as [[O5 Hdf] _]. pose proof (O6 0%nat f eq_refl) as Ht. rewrite Z.add_0_r in Ht.
  assert (aligned f) as Hal by (apply (in_pool_aligned PF_KERNEL s f Hw); destruct O4 as (i & Hi & -> & _); by exists i).
  assert (forall pf, ~ frame_free (pool_of pf s1) f) as Hnf.
  { intros []; [exact O5|]. intros Hx. apply (O11 PF_USER) in Hx. by apply (frame_free_disjoint s f Hw). }
  destruct (fill_directory s1 ((q + r) * 4096) f Hw1) as (m' & E2 & D & Hdir); try done; [exists (q + r); lia|lia|by apply data_not_table|intros o Hoff Hm4; apply Hz; [left|done|done]|].
  assert (forall p, f = p -> ~ table_page (mm s1) p) as HF by (intros p <-; by apply data_not_table).
  destruct (differs_space _ _ _ (mw_pt _ Hw1) D HF) as (_ & Hp & Htr).
  exists (set_mm m' s1), r, f. split.
  { unfold create_page_dir. mrun E1. unfold NULL. destruct (Z.eqb_spec ((q + r) * 4096) 0); [lia|]. exact E2. }
  split; [done|]. split; [done|]. split; [apply (handed_out_differs (eq f)); try done; [lia|cbn [length]; lia]|].
  split; [by apply (mem_wf_differs (eq f))|]. split; [by apply (vaddr_wf_differs (eq f))|]. split; [done|].
  split; [apply data_not_table; cbn [set_mm mm]; rewrite (table_page_ext (mm s1) m' (df_cr3 _ _ _ D) Hp); by apply HF|].
  split; [by intros []; apply (Hnf PF_KERNEL) || apply (Hnf PF_USER)|]. split; [cbn [set_mm mm]; by rewrite Htr by lia|]. split; [done|]. split; [done|].
  split; [intros d Hd; cbn [set_mm mm]; rewrite Hdir by done; unfold dir_word; destruct (d <? 768); [done|]; destruct (d =? 1023); [done|]; by rewrite Hp|].
  split; [|exact Hj]. apply (undisturbed_differs (eq f)); [done|done|done|]. intros p <-. split; [by apply HF|by exists PF_KERNEL].
Qed.

Lemma page_dir_activate_run s pgdir f : self_mapped (mm s) -> 0 < pgdir < 2 ^ 32 -> translate (mm s) pgdir = Some f ->
  page_dir_activate pgdir s = Ok (tt, set_mm (at_root (mm s) f) s).
Proof.
  intros Hs Hp Ht. unfold page_dir_activate, NULL. destruct (Z.eqb_spec pgdir 0); [lia|].
  assert (on_mmu (addr_v2p pgdir) s = Ok (f, s)) as E by (erewrite on_mmu_run; [by rewrite set_mm_same|]; apply addr_v2p_run; [done|lia|done]).
  by mrun E.
Qed.

Lemma create_user_vaddr_bitmap_run s k q :
  mem_wf s -> vaddr_wf PF_KERNEL s -> vaddr_start (kernel_vaddr s) = q * 4096 -> 0 <= k -> k + 23 <= nbits (vaddr_bitmap (kernel_vaddr s)) ->
  run (vaddr_bitmap (kernel_vaddr s)) k 23 -> room PF_KERNEL 23 s -> 0 <= holds (kernel_pool s) ->
  exists b s' r fs, create_user_vaddr_bitmap s = Ok ((q + r) * 4096, mk_vaddr b USER_VADDR_START, s') /\ 0 <= r <= k /\ run (vaddr_bitmap (kernel_vaddr s)) r 23 /\ handed_out PF_KERNEL s s' q r fs /\
    mem_wf s' /\ vaddr_wf PF_KERNEL s' /\ holds (kernel_pool s') = holds (kernel_pool s) /\ length fs = 23%nat /\
    (forall j, room PF_KERNEL (23 + j) s -> room PF_KERNEL j s') /\
    bitmap_wf b /\ btmp_bytes_len b = user_bytes /\ Z.of_nat (length (bits b)) = 94208 /\ (forall i, 0 <= i < nbits b -> bit_used b i = false).
Proof.
  intros Hw Hv Hq Hk Hkn Hrun Hroom Hh.
  destruct (get_kernel_pages_run s 23 k q Hw Hv Hq ltac:(lia) Hk Hkn Hrun Hroom Hh) as (s1 & r & fs & E1 & Hr & Hrr & Hlen & Ho & Hw1 & Hv1 & Hh1 & Hq1 & Hq0 & Hj & _ & _).
  assert (user_bytes = 94199) as Eub by reflexivity. assert (DIV_ROUND_UP user_bytes PG_SIZE = 23) as Epg by reflexivity.
  remember (replicate (Z.to_nat (23 * PG_SIZE)) 0) as z eqn:Ez.
  assert (Z.of_nat (length z) = 94208) as Hz by (rewrite Ez, length_replicate; unfold PG_SIZE; lia).
  assert (Forall is_byte z) as Hzb by (rewrite Ez; apply Forall_replicate; unfold is_byte; lia).
  destruct (bitmap_init_ok (mk_bitmap user_bytes z)) as (b & E2 & Hb & Hbl & Hbb & _ & Hbz); cbn [btmp_bytes_len bits]; [lia|change (2 ^ 31) with 2147483648; lia|lia|done|].
  exists b, s1, r, fs. split.
  { unfold create_user_vaddr_bitmap. rewrite Epg. mrun E1. unfold NULL. erewrite mbindM_Ok by (apply assertM_run; destruct (Z.eqb_spec ((q + r) * 4096) 0); [lia|done]).
    rewrite <- Ez. by rewrite (liftO_bind _ _ _ _ E2). }
  clear Ez. cbn [bits] in Hbb. split; [exact Hr|]. split; [exact Hrr|]. split; [exact Ho|]. split; [exact Hw1|]. split; [exact Hv1|]. split; [exact Hh1|]. split; [lia|].
  split; [exact Hj|]. split; [exact Hb|]. split; [exact Hbl|]. split; [lia|exact Hbz].
Qed.

Lemma translate_floor m va pa : 0 <= va < 2 ^ 32 -> translate m va = Some pa -> translate m (page_of va) = Some (pa - va mod 4096).
Proof.
  intros Hv. unfold page_of. pose proof (mkva_split va Hv) as E. pose proof (PDE_IDX_range va Hv) as R1. pose proof (PTE_IDX_range va ltac:(lia)) as R2.
  pose proof (Z.mod_pos_bound va 4096 ltac:(lia)) as Hm. pose proof (Z.div_mod va 4096 ltac:(lia)).
  assert (va / 4096 * 4096 = mkva (PDE_IDX va) (PTE_IDX va) 0) as E0 by (unfold mkva in *; lia).
  destruct (mkva_fields (PDE_IDX va) (PTE_IDX va) 0) as (_ & F1 & F2 & F3); [lia..|].
  rewrite E0, !translate_eq, F1, F2, F3. destruct (present _); [|done]. destruct (present _); [|done]. rewrite land_FFF. intros [= <-]. f_equal. lia.
Qed.

(** Mappings survive the allocation of pages. *)
Lemma handed_out_kept pf s s' q r fs va pa : vaddr_wf pf s -> vaddr_start (vaddr_of pf s) = q * 4096 -> handed_out pf s s' q r fs -> 0 <= r ->
  r + Z.of_nat (length fs) <= nbits (vaddr_bitmap (vaddr_of pf s)) -> run (vaddr_bitmap (vaddr_of pf s)) r (Z.of_nat (length fs)) ->
  0 <= va < 0xFFC00000 -> translate (mm s) va = Some pa -> translate (mm s') va = Some pa.
Proof.
  intros [_ _ _ Hc] Hq Ho Hr Hle Hrun Hva Ht. rewrite <- Ht. assert (PDE_IDX va <> 1023) as Hd.
  { rewrite PDE_IDX_eq by lia. intros E. pose proof (Z.mul_div_le va (2 ^ 22) ltac:(lia)) as Hle'. rewrite E in Hle'. change (2 ^ 22) with 4194304 in Hle'. lia. }
  apply (ho_others _ _ _ _ _ _ Ho); [lia|done|]. intros Hin. pose proof (translate_floor (mm s) va pa ltac:(lia) Ht) as Hf.
  pose proof (Hc (va / 4096 - q) ltac:(lia)) as Hn. rewrite Hq in Hn. unfold page_of in Hf.
  replace (q * 4096 + (va / 4096 - q) * 4096) with (va / 4096 * 4096) in Hn by lia. rewrite Hn in Hf; [done|]. apply Hrun. lia.
Qed.


(** ** The first page of a process *)

Lemma get_a_page_run s i : mem_wf s -> vaddr_wf PF_USER s -> cur_pgdir s <> NULL -> 0 <= i < nbits (vaddr_bitmap (userprog_vaddr s)) ->
  translate (mm s) (vaddr_start (userprog_vaddr s) + i * 4096) = None -> room PF_USER 1 s -> 0 <= holds (user_pool s) ->
  let va := vaddr_start (userprog_vaddr s) + i * 4096 in
  exists s' f, get_a_page PF_USER va s = Ok (va, s') /\ mem_wf s' /\ vaddr_wf PF_USER s' /\ frame_free (user_pool s) f /\
    translate (mm s') va = Some f /\
    (forall j, 0 <= j -> bit_used (vaddr_bitmap (userprog_vaddr s')) j = if j =? i then true else bit_used (vaddr_bitmap (userprog_vaddr s)) j) /\
    (forall va', 0 <= va' < 2 ^ 32 -> PDE_IDX va' <> 1023 -> ~ same_page va va' -> translate (mm s') va' = translate (mm s) va') /\
    keeps (set_userprog_vaddr (userprog_vaddr s') s) s' /\ ~ frame_free (user_pool s') f /\ data_frame s' f /\ (forall n, room PF_USER (S n) s -> room PF_USER n s') /\
    vaddr_start (userprog_vaddr s') = vaddr_start (userprog_vaddr s) /\ nbits (vaddr_bitmap (userprog_vaddr s')) = nbits (vaddr_bitmap (userprog_vaddr s)) /\ words_kept s s'.
Proof.
  intros Hw Hv Hpg Hi Hbit Hroom Hh va. pose proof Hv as [Hb Hbe (q & Hq & Hq0 & Hq1) Hc]. cbn [vaddr_of] in *.
  set (v := userprog_vaddr s) in *. assert (va = (q + i) * 4096) as Eva by (unfold va; lia).
  assert (PDE_IDX va <> 1023) as Hwin by (rewrite Eva; apply page_not_window; lia).
  destruct (bitmap_set_ok (vaddr_bitmap v) i 1 Hb Hi ltac:(by right)) as (b' & Es & Wb & Lb & Mb & Ub).
  set (s1 := with_holds PF_USER (holds (user_pool s) + 1) s). set (s2 := set_userprog_vaddr (mk_vaddr b' (vaddr_start v)) s1).
  pose proof (alike_holds PF_USER (holds (user_pool s) + 1) s) as A1. fold s1 in A1.
  assert (mem_wf s2) as Hw2 by (apply (mem_wf_set_vaddr PF_USER); by rewrite <- A1).
  destruct (map_page_ok PF_USER s2 va Hw2) as (f & s3 & s4 & P & Hf0 & A & W4 & K4 & R4 & F & F' & D & T & O & TW & _); [lia|rewrite Eva; apply Z.mod_mul; lia|done|exact Hbit|exact Hroom|].
  assert (holds (pool_of PF_USER s4) = holds (user_pool s) + 1) as Hh4 by (rewrite (kp_holds _ _ K4); done).
  set (s5 := with_holds PF_USER (holds (user_pool s)) s4). pose proof (alike_holds PF_USER (holds (user_pool s)) s4) as A5. fold s5 in A5.
  assert (userprog_vaddr s5 = mk_vaddr b' (vaddr_start v)) as Euv by (rewrite (al_uv _ _ A5), (kp_uv _ _ K4); done).
  exists s5, f. split; [|split; [by rewrite <- A5|split; [|split; [exact F|split; [exact T|split; [|split; [exact O|split; [|split; [exact F'|split; [exact D|split; [exact R4|]]]]]]]]]]].
  - unfold get_a_page. mrun (pool_lock_run PF_USER s). change (with_holds PF_USER (holds (pool_of PF_USER s) + 1) s) with s1. rewrite getS_bind.
    assert (i32 (u32 (va - vaddr_start v) / PG_SIZE) = i) as Ei.
    { pose proof (wf_len_small _ Hb). unfold nbits in *. unfold va, PG_SIZE. rewrite wrapu_small by (change (2 ^ 32) with 4294967296; lia). replace (vaddr_start v + i * 4096 - vaddr_start v) with (i * 4096) by lia.
      rewrite Z.div_mul by lia. apply wraps_small; [lia|]. change (2 ^ (32 - 1)) with 2147483648. change (2 ^ 31) with 2147483648 in *. lia. }
    change (cur_pgdir s1) with (cur_pgdir s). destruct (Z.eqb_spec (cur_pgdir s) NULL); [done|]. cbv zeta. change (userprog_vaddr s1) with v.
    rewrite Ei.
    rewrite mbindM_assoc. erewrite mbindM_Ok by (apply assertM_run; lia). rewrite mbindM_assoc. rewrite (liftO_bind _ _ _ _ Es). rewrite modS_bind. fold s2. mrun P.
    unfold NULL. destruct (Z.eqb_spec f 0); [done|]. mrun A. pose proof (pool_unlock_run PF_USER s4 ltac:(lia)) as E5. rewrite Hh4 in E5.
    replace (holds (user_pool s) + 1 - 1) with (holds (user_pool s)) in E5 by lia. by mrun E5.
  - rewrite <- A5. assert (vaddr_of PF_USER s4 = mk_vaddr b' (vaddr_start v)) as E4 by (apply (kp_uv _ _ K4)). split; rewrite E4; cbn [vaddr_bitmap vaddr_start]; unfold nbits in *; rewrite ?Lb; [done|lia|by exists q|].
    intros j Hj Hu. rewrite Ub in Hu by lia. destruct (Z.eqb_spec j i) as [|Hne]; [done|]. rewrite O; [by apply Hc|lia| |].
    + replace (vaddr_start v + j * 4096) with ((q + j) * 4096) by lia. apply page_not_window. lia.
    + unfold same_page. replace (vaddr_start v + j * 4096) with ((q + j) * 4096) by lia. rewrite Eva, !Z.div_mul by lia. lia.
  - intros j Hj. rewrite Euv. cbn [vaddr_bitmap]. by apply Ub.
  - destruct K4 as [k1 k2 k3 k4 k5 k6 k7 k8 k9]. split; try done; intros pf; [specialize (k4 pf)|specialize (k5 pf)|specialize (k6 pf)|specialize (k7 pf)]; by destruct pf.
  - rewrite Euv. split; [done|]. split; [unfold nbits in *; cbn [vaddr_bitmap]; by rewrite Lb|].
    pose proof (table_written_kept va s2 s4 Hw2 W4 K4 ltac:(lia) Hwin ltac:(by rewrite T) TW) as Wk.
    intros g o Hg Hdg Hfg Ho. apply Wk; [done|done| |done]. intros pf. specialize (Hfg pf). by destruct pf.
Qed.

(** [start_process] gives the process its stack: the page below 0xC0000000
    is mapped to a frame that was free, nothing else is, and the registers it
    starts with have the stack pointer at the end of that page, the entry point
    as program counter, user segments, and interrupts on. *)
Theorem start_process_maps_stack s function kst k0 :
  mem_wf s -> vaddr_wf PF_USER s -> cur_pgdir s <> NULL -> vaddr_start (userprog_vaddr s) = USER_VADDR_START ->
  btmp_bytes_len (vaddr_bitmap (userprog_vaddr s)) = user_bytes ->
  (forall i, 0 <= i < nbits (vaddr_bitmap (userprog_vaddr s)) -> bit_used (vaddr_bitmap (userprog_vaddr s)) i = false) ->
  room PF_USER 1 s -> 0 <= holds (user_pool s) ->
  exists s' f regs, start_process function kst k0 s = Ok (u32 (kst + 32), regs, s') /\ mem_wf s' /\ vaddr_wf PF_USER s' /\
    frame_free (user_pool s) f /\ translate (mm s') 0xBFFFF000 = Some f /\
    (forall va, 0 <= va < 0xBFFFF000 -> translate (mm s') va = translate (mm s) va) /\
    esp regs = 0xC0000000 /\ eip regs = function /\ cs regs = 0x2b /\ ss regs = 0x33 /\ ds regs = 0x33 /\ eflags regs = 0x202.
Proof.
  intros Hw Hv Hpg Hst Hlen Hfree Hroom Hh. assert (nbits (vaddr_bitmap (userprog_vaddr s)) = 753592) as Hnb by (unfold nbits; rewrite Hlen; reflexivity).
  destruct (get_a_page_run s 753591 Hw Hv Hpg ltac:(lia) ltac:(apply (vw_clear _ _ Hv); [cbn [vaddr_of]; lia|apply Hfree; lia]) Hroom Hh) as (s' & f & E & W & V & F & T & _ & O & _).
  rewrite Hst in *. change (USER_VADDR_START + 753591 * 4096) with USER_STACK3_VADDR in *.
  exists s', f, (mk_intr (vec_no k0) 0 0 0 0 0 0 0 0 0x33 0x33 0x33 0x33 (err_code k0) function 0x2b 0x202 0xC0000000 0x33).
  split; [unfold start_process; by mrun E|]. split; [done|]. split; [done|]. split; [done|]. split; [exact T|].
  split; [|repeat split; reflexivity]. intros va Hva. apply O; [lia| |].
  - rewrite PDE_IDX_eq by lia. intros Ed. pose proof (Z.mul_div_le va (2 ^ 22) ltac:(lia)) as Hle. rewrite Ed in Hle. change (2 ^ 22) with 4194304 in Hle. lia.
  - unfold same_page, USER_STACK3_VADDR. change ((3221225472 - 4096) / 4096) with 786431. intros Eq. pose proof (Z.mul_div_le va 4096 ltac:(lia)). lia.
Qed.

(** ** Witnesses: 64 free pages in each pool, a kernel heap of 32 pages *)

Definition demo_space : memst := mk_memst demo_mmu
  (mk_pool (mk_bitmap 8 (replicate 9 0)) 0x200000 0x40000 0)
  (mk_pool (mk_bitmap 8 (replicate 9 0)) 0x240000 0x40000 0)
  (mk_vaddr (mk_bitmap 4 (replicate 5 0)) 0xC0200000)
  (mk_vaddr (mk_bitmap 1 [0; 0]) 0x8048000) 0.

Lemma demo_zero_map n k : (n <= k)%nat -> (n < 1000)%nat -> bitmap_wf (mk_bitmap (Z.of_nat n) (replicate k 0)).
Proof.
  intros Hn Hk. split; cbn [btmp_bytes_len bits]; [lia|change (2 ^ 31) with 2147483648; lia|rewrite length_replicate; lia|].
  apply Forall_replicate. unfold is_byte. lia.
Qed.

Lemma demo_space_wf : mem_wf demo_space.
Proof.
  assert (forall pf f, frame_free (pool_of pf demo_space) f -> 0x200000 <= f) as Hge.
  { intros pf f (i & Hi & -> & _). destruct pf; unfold frames, nbits in Hi; cbn in *; lia. }
  split; cbn [demo_space mm kernel_pool user_pool].
  - apply demo_mmu_wf.
  - split; [apply (demo_zero_map 8 9); lia|]. exists 512. unfold frames, nbits. cbn. lia.
  - split; [apply (demo_zero_map 8 9); lia|]. exists 576. unfold frames, nbits. cbn. lia.
  - unfold frames, nbits. cbn. lia.
  - intros pf d Hd Hp Hf. apply Hge in Hf. destruct (Z.eq_dec d 768) as [->|].
    + vm_compute in Hf. by apply Hf.
    + by rewrite demo_pde in Hp.
  - intros pf Hf. apply Hge in Hf. vm_compute in Hf. by apply Hf.
Qed.

Lemma demo_space_vaddr : vaddr_wf PF_KERNEL demo_space.
Proof.
  split; cbn [demo_space vaddr_of kernel_vaddr vaddr_bitmap vaddr_start mm].
  - apply (demo_zero_map 4 5); lia.
  - cbn. lia.
  - exists 0xC0200. unfold nbits. cbn. lia.
  - unfold nbits. cbn [btmp_bytes_len]. intros i Hi _.
    pose proof (forall_range_dec (fun i => bool_decide (translate demo_mmu (0xC0200000 + i * 4096) = None)) 32 eq_refl i ltac:(lia)) as E. by apply bool_decide_eq_true in E.
Qed.

Lemma demo_space_run : run (vaddr_bitmap (kernel_vaddr demo_space)) 0 24.
Proof. intros j Hj. pose proof (forall_range_dec (fun i => negb (bit_used (vaddr_bitmap (kernel_vaddr demo_space)) i)) 24 eq_refl j ltac:(lia)) as E. by apply negb_true_iff in E. Qed.


(** The same memory with the pool of a process. *)
Definition demo_pool : virtual_addr := mk_vaddr (mk_bitmap user_bytes (replicate (Z.to_nat 94208) 0)) USER_VADDR_START.
Definition demo_process : memst :=
  mk_memst demo_mmu (kernel_pool demo_space) (user_pool demo_space) (kernel_vaddr demo_space) demo_pool 0xC0201000.

Lemma demo_user_clear va : 0 <= va < 0xC0000000 -> translate demo_mmu va = None.
Proof.
  intros Hva. assert (PDE_IDX va < 768) by (rewrite PDE_IDX_eq by lia; apply Z.div_lt_upper_bound; lia). pose proof (PDE_IDX_range va ltac:(lia)).
  rewrite translate_eq, demo_pde by lia. done.
Qed.

Lemma demo_process_wf : mem_wf demo_process.
Proof. destruct demo_space_wf as [W1 W2 W3 W4 W5 W6]. split; [exact W1|exact W2|exact W3|exact W4| |]; intros []; [apply (W5 PF_KERNEL)|apply (W5 PF_USER)|apply (W6 PF_KERNEL)|apply (W6 PF_USER)]. Qed.

Lemma demo_process_free i : 0 <= i < nbits (vaddr_bitmap demo_pool) -> bit_used (vaddr_bitmap demo_pool) i = false.
Proof.
  assert (user_bytes = 94199) as E by reflexivity. unfold nbits, bit_used, demo_pool. cbn [vaddr_bitmap btmp_bytes_len bits]. rewrite E. intros Hi.
  rewrite lookup_replicate_2; [apply Z.bits_0|]. pose proof (Z.div_lt_upper_bound i 8 94208 ltac:(lia) ltac:(lia)). pose proof (Z.div_pos i 8 ltac:(lia) ltac:(lia)). lia.
Qed.

Lemma demo_process_vaddr : vaddr_wf PF_USER demo_process.
Proof.
  assert (user_bytes = 94199) as E by reflexivity. split; cbn [vaddr_of demo_process userprog_vaddr demo_pool vaddr_bitmap vaddr_start mm].
  - split; cbn [btmp_bytes_len bits]; rewrite ?E, ?length_replicate; [lia|change (2 ^ 31) with 2147483648; lia|lia|]. apply Forall_replicate. unfold is_byte. lia.
  - cbn [btmp_bytes_len bits]. rewrite E, length_replicate. lia.
  - exists 0x8048. unfold nbits. cbn [btmp_bytes_len]. rewrite E. unfold USER_VADDR_START. lia.
  - unfold nbits. cbn [btmp_bytes_len]. rewrite E. intros i Hi _. apply demo_user_clear. unfold USER_VADDR_START. lia.
Qed.

Lemma start_process_maps_stack_witness :
  exists s' f regs, start_process 0x8048100 0xC0203f94 (mk_intr 0 0 0 0 0 0 0 0 0 0 0 0 0 0 0 0 0 0 0) demo_process = Ok (0xC0203fb4, regs, s') /\ mem_wf s' /\ vaddr_wf PF_USER s' /\
    frame_free (user_pool demo_process) f /\ translate (mm s') 0xBFFFF000 = Some f /\
    (forall va, 0 <= va < 0xBFFFF000 -> translate (mm s') va = translate (mm demo_process) va) /\
    esp regs = 0xC0000000 /\ eip regs = 0x8048100 /\ cs regs = 0x2b /\ ss regs = 0x33 /\ ds regs = 0x33 /\ eflags regs = 0x202.
Proof.
  apply (start_process_maps_stack demo_process 0x8048100 0xC0203f94 (mk_intr 0 0 0 0 0 0 0 0 0 0 0 0 0 0 0 0 0 0 0) demo_process_wf demo_process_vaddr).
  - discriminate.
  - reflexivity.
  - reflexivity.
  - exact demo_process_free.
  - split; vm_compute; lia.
  - vm_compute. discriminate.
Defined.
