(* ===== verification/Fork.v ===== *)
(** * Copying an address space (userprog/fork.c)

    [copy_body_stack3] gives the child a page of its own for every page of the
    parent and copies the contents through a page of the kernel, switching
    between the two page directories.  The invariant is about two spaces over
    one physical memory that share the tables of the kernel and nothing else. *)

From S2P Require Import Prelude Bitmap Paging Memory Process.

(** The page of the loop: [child] and [parent] are the page directories of the
    two tasks as the kernel addresses them. *)
Definition copy_user_page (child parent buf_page prog_vaddr : Z) : M memst () :=
  _ ← memcpy buf_page prog_vaddr PG_SIZE;
  _ ← page_dir_activate child;
  _ ← get_a_page_without_opvaddrbitmap PF_USER prog_vaddr;
  _ ← memcpy prog_vaddr buf_page PG_SIZE;
  page_dir_activate parent.

(** The loops over the bits of a byte and the bytes of the bitmap of the parent. *)
Fixpoint copy_bits (n : nat) (copy : Z -> M memst ()) (vaddr_start byte idx_byte idx_bit : Z) : M memst () :=
  match n with
  | O => mret tt
  | S n' =>
      _ ← (if truth (Z.land (Z.shiftl BITMAP_MASK idx_bit) byte)
           then copy (u32 ((idx_byte * 8 + idx_bit) * PG_SIZE + vaddr_start))
           else mret tt);
      copy_bits n' copy vaddr_start byte idx_byte (idx_bit + 1)
  end.
Fixpoint copy_bytes (n : nat) (copy : Z -> M memst ()) (vaddr_start : Z) (vaddr_btmp : list Z) (idx_byte : Z) : M memst () :=
  match n with
  | O => mret tt
  | S n' =>
      byte ← liftO (aget vaddr_btmp idx_byte);
      _ ← (if truth byte then copy_bits 8 copy vaddr_start byte idx_byte 0 else mret tt);
      copy_bytes n' copy vaddr_start vaddr_btmp (idx_byte + 1)
  end.
Definition copy_body_stack3 (child parent : Z) (userprog : virtual_addr) (buf_page : Z) : M memst () :=
  copy_bytes (Z.to_nat (btmp_bytes_len (vaddr_bitmap userprog))) (copy_user_page child parent buf_page)
    (vaddr_start userprog) (bits (vaddr_bitmap userprog)) 0.

(** ** Two spaces *)

Definition space (R : Z) (s : memst) : mmu := at_root (mm s) R.
(** The state with directory [R] in the register. *)
Definition seen (R : Z) (s : memst) : memst := set_mm (space R s) s.

Lemma seen_seen R R' s : seen R (seen R' s) = seen R s.
Proof. done. Qed.
Lemma seen_same R s : cr3 (mm s) = R -> seen R s = s.
Proof. intros <-. destruct s as [[] ? ? ? ? ?]. done. Qed.
Lemma seen_pool R pf s : pool_of pf (seen R s) = pool_of pf s.
Proof. by destruct pf. Qed.

Section Spaces.
Context (P C : Z).

(** The directories [P] and [C] share the tables from 0xC0000000 on and no
    other page. *)
Record two_spaces (s : memst) : Prop := {
  ts_parent : mem_wf (seen P s);
  ts_child : mem_wf (seen C s);
  ts_kernel d : 768 <= d < 1023 -> pde (space C s) d = pde (space P s) d;
  ts_apart p : table_page (space P s) p -> table_page (space C s) p ->
    exists d, 768 <= d < 1023 /\ present (pde (space P s) d) = true /\ p = frame_of (pde (space P s) d)
}.

(** A page in use for data. *)
Record settled (s : memst) (f : Z) : Prop := {
  se_aligned : aligned f;
  se_parent : ~ table_page (space P s) f;
  se_child : ~ table_page (space C s) f;
  se_used pf : ~ frame_free (pool_of pf s) f
}.

(** What the copy does to the two spaces: pages [W] are written, and in the
    child the virtual pages [V] are mapped. *)
Record evolves (W V : Z -> Prop) (s s' : memst) : Prop := {
  ev_two : two_spaces s';
  ev_parent va : 0 <= va < 2 ^ 32 -> translate (space P s') va = translate (space P s) va;
  ev_child va : 0 <= va < 2 ^ 32 -> PDE_IDX va <> 1023 -> ~ V (page_of va) -> translate (space C s') va = translate (space C s) va;
  ev_settled x : settled s x -> settled s' x;
  ev_words x o : settled s x -> ~ W x -> 0 <= o < 4096 -> pread (mm s') (x + o) = pread (mm s) (x + o);
  ev_free pf x : frame_free (pool_of pf s') x -> frame_free (pool_of pf s) x;
  ev_kv : kernel_vaddr s' = kernel_vaddr s;
  ev_uv : userprog_vaddr s' = userprog_vaddr s;
  ev_dir : cur_pgdir s' = cur_pgdir s;
  ev_holds pf : holds (pool_of pf s') = holds (pool_of pf s);
  ev_start pf : phy_addr_start (pool_of pf s') = phy_addr_start (pool_of pf s);
  ev_frames pf : frames (pool_of pf s') = frames (pool_of pf s)
}.

Lemma evolves_refl W V s : two_spaces s -> evolves W V s s.
Proof. intros H. by split. Qed.
Lemma evolves_trans W1 V1 W2 V2 s1 s2 s3 : evolves W1 V1 s1 s2 -> evolves W2 V2 s2 s3 ->
  evolves (fun p => W1 p \/ W2 p) (fun p => V1 p \/ V2 p) s1 s3.
Proof.
  intros A B. split; [exact (ev_two _ _ _ _ B)|..].
  - intros va Hv. rewrite (ev_parent _ _ _ _ B) by done. by apply (ev_parent _ _ _ _ A).
  - intros va Hv Hd Hn. rewrite (ev_child _ _ _ _ B) by tauto. apply (ev_child _ _ _ _ A); tauto.
  - intros x Hx. apply (ev_settled _ _ _ _ B), (ev_settled _ _ _ _ A), Hx.
  - intros x o Hx Hn Ho. rewrite (ev_words _ _ _ _ B); [|apply (ev_settled _ _ _ _ A), Hx|tauto|done]. apply (ev_words _ _ _ _ A); tauto.
  - intros pf x Hx. by apply (ev_free _ _ _ _ A), (ev_free _ _ _ _ B).
  - rewrite (ev_kv _ _ _ _ B). exact (ev_kv _ _ _ _ A).
  - rewrite (ev_uv _ _ _ _ B). exact (ev_uv _ _ _ _ A).
  - rewrite (ev_dir _ _ _ _ B). exact (ev_dir _ _ _ _ A).
  - intros pf. rewrite (ev_holds _ _ _ _ B). exact (ev_holds _ _ _ _ A pf).
  - intros pf. rewrite (ev_start _ _ _ _ B). exact (ev_start _ _ _ _ A pf).
  - intros pf. rewrite (ev_frames _ _ _ _ B). exact (ev_frames _ _ _ _ A pf).
Qed.
Lemma evolves_mono (W1 V1 W2 V2 : Z -> Prop) s s' : (forall x, settled s x -> W1 x -> W2 x) -> (forall p, V1 p -> V2 p) ->
  evolves W1 V1 s s' -> evolves W2 V2 s s'.
Proof.
  intros HW HV A. destruct A as [A1 A3 A4 A5 A6 A7 A8 A9 A10 A11 A12 A13]. split; try done.
  - intros va Hv Hd Hn. apply A4; [done|done|]. intros Hv1. by apply Hn, HV.
  - intros x o Hx Hn Ho. apply A6; [done| |done]. intros Hw. by apply Hn, HW.
Qed.

(** The register does not matter. *)
Lemma two_spaces_seen R s : two_spaces s -> two_spaces (seen R s).
Proof. intros [H1 H2 H3 H4]. by split. Qed.
Lemma settled_seen R s x : settled (seen R s) x <-> settled s x.
Proof. split; intros [H1 H2 H3 H4]; (split; [done|done|done|]); intros []; (apply (H4 PF_KERNEL) || apply (H4 PF_USER)). Qed.
Lemma evolves_seen R R' W V s s' : evolves W V s s' -> evolves W V (seen R s) (seen R' s').
Proof.
  intros [H1 H2 H3 H4 H5 H6 H7 H8 H9 H10 H11 H12]. split; try done.
  - by apply two_spaces_seen.
  - intros x Hx. apply settled_seen, H4, (settled_seen R), Hx.
  - intros x o Hx. apply H5, (settled_seen R), Hx.
Qed.

Lemma space_aligned R s : mem_wf (seen R s) -> aligned R.
Proof. intros [[[H1 _ _ _] _ _] _ _ _ _ _]. exact H1. Qed.

(** Addresses of the kernel mean the same in both spaces. *)
Lemma kernel_translate s va : two_spaces s -> 768 <= PDE_IDX va < 1023 -> translate (space C s) va = translate (space P s) va.
Proof. intros H Hd. rewrite !translate_eq, (ts_kernel _ H) by done. done. Qed.

(** ** Writing a page of data *)

Lemma differs_root F m m' R : differs F m m' -> differs F (at_root m R) (at_root m' R).
Proof. intros [H1 H2 H3]. split; [done|exact H2|exact H3]. Qed.

Lemma write_evolves s f m' : two_spaces s -> settled s f -> differs (eq f) (mm s) m' -> evolves (eq f) (fun _ => False) s (set_mm m' s).
Proof.
  intros H Hf D. pose proof Hf as [F1 F2 F3 F4].
  assert (forall R, mem_wf (seen R s) -> ~ table_page (space R s) f ->
    pt_wf (at_root m' R) /\ (forall d, 0 <= d < 1024 -> pde (at_root m' R) d = pde (space R s) d) /\
    (forall va, 0 <= va < 2 ^ 32 -> translate (at_root m' R) va = translate (space R s) va)) as HS.
  { intros R Hw Hn. apply (differs_space (eq f)); [apply Hw|by apply differs_root|by intros p <-]. }
  destruct (HS P (ts_parent _ H) F2) as (P1 & P2 & P3). destruct (HS C (ts_child _ H) F3) as (C1 & C2 & C3).
  assert (forall p, table_page (at_root m' P) p <-> table_page (space P s) p) as TP by (by apply table_page_ext).
  assert (forall p, table_page (at_root m' C) p <-> table_page (space C s) p) as TC by (by apply table_page_ext).
  assert (forall pf, pool_of pf (set_mm m' s) = pool_of pf s) as Hpool by (by intros []).
  split; try done; try (intros pf; by rewrite Hpool).
  - split.
    + apply (mem_wf_set_mm (at_root m' P) (seen P s)); [apply H|done|done|done].
    + apply (mem_wf_set_mm (at_root m' C) (seen C s)); [apply H|done|done|done].
    + intros d Hd. change (pde (at_root m' C) d = pde (at_root m' P) d). rewrite P2, C2 by lia. by apply (ts_kernel _ H).
    + intros p Hp Hc. apply TP in Hp. apply TC in Hc. destruct (ts_apart _ H p Hp Hc) as (d & Hd & E). exists d.
      change (space P (set_mm m' s)) with (at_root m' P). rewrite P2 by lia. done.
  - intros va Hv _ _. by apply C3.
  - intros x [X1 X2 X3 X4]. split; [done|by intros ?%TP|by intros ?%TC|intros pf; by rewrite Hpool].
  - intros x o [X1 X2 X3 X4] Hne Ho. apply (df_same _ _ _ D). rewrite page_of_off by done. done.
Qed.

(** ** Mapping a page of the child *)

Lemma keeps_alike s s1 s4 s5 : alike s s1 -> alike s4 s5 -> (forall pf, holds (pool_of pf s5) = holds (pool_of pf s)) -> keeps s1 s4 -> keeps s s5.
Proof.
  intros A B Hh [K1 K2 K3 K4 K5 K6 K7 K8 K9]. pose proof A as [A1 A2 A3 A4 A5 A6]. pose proof B as [B1 B2 B3 B4 B5 B6]. split.
  - congruence.
  - congruence.
  - congruence.
  - intros pf. rewrite B6, K4. apply A6.
  - intros pf. specialize (K5 pf). unfold frames in *. rewrite B5, K5. f_equal. apply A5.
  - done.
  - intros pf x Hx. apply (alike_free s s1 pf x A), K7, (alike_free s4 s5 pf x B), Hx.
  - rewrite B1, K8. by rewrite A1.
  - intros d Hd. rewrite B1, <- A1. intros Hp. destruct (K9 d Hd Hp) as [E|E]; [by left|right]. by apply (alike_free s s1 PF_KERNEL _ A).
Qed.

Lemma get_page_run t va : mem_wf t -> 0 < va < 2 ^ 32 -> va mod 4096 = 0 -> PDE_IDX va <> 1023 -> translate (mm t) va = None -> room PF_USER 1 t ->
  0 <= holds (user_pool t) ->
  exists g t', get_a_page_without_opvaddrbitmap PF_USER va t = Ok (va, t') /\ mem_wf t' /\ keeps t t' /\ (forall n, room PF_USER (S n) t -> room PF_USER n t') /\
    frame_free (user_pool t) g /\ ~ frame_free (user_pool t') g /\ data_frame t' g /\ translate (mm t') va = Some g /\
    (forall va', 0 <= va' < 2 ^ 32 -> PDE_IDX va' <> 1023 -> ~ same_page va va' -> translate (mm t') va' = translate (mm t) va') /\ table_written va t t'.
Proof.
  intros Hw Hv Hm Hd Ht Hr Hh. set (t1 := with_holds PF_USER (holds (user_pool t) + 1) t).
  pose proof (alike_holds PF_USER (holds (user_pool t) + 1) t) as A1. fold t1 in A1.
  destruct (map_page_ok PF_USER t1 va) as (g & t2 & t3 & E1 & Hg0 & E2 & W3 & K3 & R3 & F & F' & D & T & O & X & _); [by rewrite <- A1|lia|done|done|done|by rewrite <- A1|].
  pose proof (kp_holds _ _ K3) as Hh3. pose proof (Hh3 PF_USER) as Hu3. change (holds (pool_of PF_USER t1)) with (holds (user_pool t) + 1) in Hu3.
  pose proof (pool_unlock_run PF_USER t3 ltac:(lia)) as E3. rewrite Hu3 in E3. replace (holds (user_pool t) + 1 - 1) with (holds (user_pool t)) in E3 by lia.
  pose proof (alike_holds PF_USER (holds (user_pool t)) t3) as A3. set (t4 := with_holds PF_USER (holds (user_pool t)) t3) in *.
  exists g, t4. split; [|split; [by rewrite <- A3|split; [|split]]].
  - unfold get_a_page_without_opvaddrbitmap. mrun (pool_lock_run PF_USER t). fold t1. mrun E1. unfold NULL. destruct (Z.eqb_spec g 0); [done|]. mrun E2. by mrun E3.
  - apply (keeps_alike t t1 t3 t4 A1 A3); [|done]. intros []; [apply (Hh3 PF_KERNEL)|done].
  - intros n Hn. rewrite <- A3. apply R3. by rewrite <- A1.
  - split; [exact F|]. split; [exact F'|]. split; [by apply (alike_data t3 t4)|]. done.
Qed.

Lemma page_of_page va : aligned va -> page_of va = va.
Proof. intros Ha. pose proof (page_of_off va 0 Ha ltac:(lia)) as E. by rewrite Z.add_0_r in E. Qed.
Lemma page_bounds a : page_of a <= a < page_of a + 4096.
Proof. unfold page_of. pose proof (Z.div_mod a 4096 ltac:(lia)). pose proof (Z.mod_pos_bound a 4096 ltac:(lia)). lia. Qed.
Lemma page_of_in f a : aligned f -> f <= a < f + 4096 -> page_of a = f.
Proof. intros Hf Ha. replace a with (f + (a - f)) by lia. apply page_of_off; [done|lia]. Qed.

(** The table of [va] in the child after mapping: an old one of its own or a new one. *)
Lemma child_table s t va : two_spaces s -> cr3 (mm s) = C -> 0 <= va < 2 ^ 32 -> PDE_IDX va < 768 -> keeps s t -> translate (mm t) va <> None ->
  ~ table_page (space P s) (frame_of (pde (mm t) (PDE_IDX va))).
Proof.
  intros H Hc Hv Hd K Ht Hp. pose proof (PDE_IDX_range va Hv) as Hr.
  assert (present (pde (mm t) (PDE_IDX va)) = true) as Hpr by (rewrite translate_eq in Ht; destruct (present (pde (mm t) (PDE_IDX va))); done).
  assert (mm s = space C s) as Es by (unfold space; rewrite <- Hc; by destruct (mm s)).
  destruct (kp_tables _ _ K (PDE_IDX va) ltac:(lia) Hpr) as [E|E].
  - rewrite E, Es in *. destruct (ts_apart _ H _ Hp) as (d & Hd' & Hpd & Ef); [right; exists (PDE_IDX va); split; [lia|done]|].
    rewrite <- (ts_kernel _ H) in Ef, Hpd by done. pose proof (pw_inj _ (mw_pt _ (ts_child _ H)) (PDE_IDX va) d ltac:(lia) ltac:(lia) Hpr Hpd Ef). lia.
  - destruct Hp as [Ec|(d & Hd' & Hpd & Ef)].
    + apply (mw_cr3 _ (ts_parent _ H) PF_KERNEL). change (frame_free (kernel_pool s) P). by rewrite Ec in E.
    + apply (mw_tables _ (ts_parent _ H) PF_KERNEL d Hd' Hpd). change (frame_free (kernel_pool s) (frame_of (pde (space P s) d))). by rewrite <- Ef.
Qed.

(** The directory of the child beside the entry of [va]. *)
Lemma child_dir s t va d : mem_wf t -> cr3 (mm t) = cr3 (mm s) -> 0 <= va < 2 ^ 32 -> PDE_IDX va < 768 -> translate (mm t) va <> None ->
  table_written va s t -> 0 <= d < 1024 -> d <> PDE_IDX va -> pde (mm t) d = pde (mm s) d.
Proof.
  intros Hw Hc Hv Hd Ht X Hdr Hne. pose proof (PDE_IDX_range va Hv) as Hr. pose proof (mw_pt _ Hw) as [[Hb _ _ _] Hdir _].
  assert (present (pde (mm t) (PDE_IDX va)) = true) as Hpr by (rewrite translate_eq in Ht; destruct (present (pde (mm t) (PDE_IDX va))); done).
  specialize (Hdir (PDE_IDX va) ltac:(lia) Hpr). unfold pde at 1. rewrite Hc. apply X.
  - unfold pde_pa. lia.
  - intros Hin. apply Hdir. assert (aligned (frame_of (pde (mm t) (PDE_IDX va)))) as Hal by (apply frame_aligned, pread_range, Hw).
    apply (page_of_in _ _ Hal) in Hin. rewrite <- Hc, page_of_off in Hin by (done || lia). done.
Qed.

(** What is mapped in the child leaves the space of the parent as it is. *)
Lemma parent_kept s t va : two_spaces s -> cr3 (mm s) = C -> 0 <= va < 2 ^ 32 -> PDE_IDX va < 768 -> mem_wf t -> keeps s t -> translate (mm t) va <> None ->
  table_written va s t ->
  mem_wf (seen P t) /\ (forall d, 0 <= d < 1024 -> pde (space P t) d = pde (space P s) d) /\
  (forall a, 0 <= a < 2 ^ 32 -> translate (space P t) a = translate (space P s) a).
Proof.
  intros H Hc Hv Hd Hw K Ht X. pose proof (child_table s t va H Hc Hv Hd K Ht) as Htab. pose proof (ts_parent _ H) as HwP.
  pose proof (PDE_IDX_range va Hv) as Hr.
  assert (~ table_page (space P s) C) as HC.
  { intros Hp. destruct (ts_apart _ H C Hp) as (d & Hd' & Hpr & E); [by left|]. rewrite <- (ts_kernel _ H) in E, Hpr by done.
    by apply (pw_dir _ (mw_pt _ (ts_child _ H)) d ltac:(lia) Hpr). }
  destruct (space_ext (space P s) (space P t)) as (S1 & S2 & S3); [apply HwP|exact (sm_words _ (pw_self _ (mw_pt _ Hw)))|done| |].
  { intros a Ha. apply X.
    - intros ->. apply HC. unfold pde_pa in Ha. rewrite Hc, page_of_off in Ha; [done|apply (space_aligned C s), H|lia].
    - intros Hin. apply Htab. rewrite <- (page_of_in (frame_of (pde (mm t) (PDE_IDX va))) a); [done| |done]. apply frame_aligned, pread_range, Hw. }
  split; [|split; [exact S2|exact S3]]. destruct Hw as [W1 W2 W3 W4 W5 W6]. split; try done.
  - intros pf d Hd' Hpr Hf. rewrite seen_pool in Hf. apply (kp_free _ _ K) in Hf. change (mm (seen P t)) with (space P t) in *. rewrite S2 in * by lia.
    apply (mw_tables _ HwP pf d Hd' Hpr). by rewrite seen_pool.
  - intros pf Hf. rewrite seen_pool in Hf. apply (kp_free _ _ K) in Hf. apply (mw_cr3 _ HwP pf). by rewrite seen_pool.
Qed.

Lemma map_evolves s t va g : two_spaces s -> cr3 (mm s) = C -> aligned va -> PDE_IDX va < 768 -> mem_wf t -> keeps s t ->
  frame_free (user_pool s) g -> ~ frame_free (user_pool t) g -> data_frame t g -> translate (mm t) va = Some g ->
  (forall va', 0 <= va' < 2 ^ 32 -> PDE_IDX va' <> 1023 -> ~ same_page va va' -> translate (mm t) va' = translate (mm s) va') ->
  table_written va s t -> evolves (fun _ => False) (eq va) s t /\ settled t g.
Proof.
  intros H Hc Hva Hd Hw K F F' D T O X. assert (0 <= va < 2 ^ 32) as Hv by (destruct Hva as (q & -> & ?); lia). pose proof (PDE_IDX_range va Hv) as Hr.
  assert (translate (mm t) va <> None) as Ht by (by rewrite T).
  destruct (parent_kept s t va H Hc Hv Hd Hw K Ht X) as (S1 & S2 & S3). pose proof (child_table s t va H Hc Hv Hd K Ht) as Htab.
  assert (mm s = space C s) as Es by (unfold space; rewrite <- Hc; by destruct (mm s)).
  assert (mm t = space C t) as Et by (unfold space; rewrite <- Hc, <- (kp_cr3 _ _ K); by destruct (mm t)).
  assert (forall d, 0 <= d < 1024 -> d <> PDE_IDX va -> pde (space C t) d = pde (space C s) d) as Hdir.
  { intros d Hd' Hne. rewrite <- Es, <- Et. apply (child_dir s t va d); try done. apply K. }
  assert (forall p, table_page (space P t) p <-> table_page (space P s) p) as TP by (by apply table_page_ext).
  assert (forall p, table_page (space C t) p -> table_page (space C s) p \/ frame_free (kernel_pool s) p) as TC.
  { intros p [->|(d & Hd' & Hpr & ->)]; [left; by left|]. rewrite <- Et in *. destruct (kp_tables _ _ K d Hd' Hpr) as [E|E]; [left|by right].
    rewrite E, Es in *. right. by exists d. }
  assert (forall pf x, frame_free (pool_of pf s) x -> ~ table_page (space P s) x) as Hnt.
  { intros pf x Hx. apply (data_not_table (seen P s)). apply (free_data_frame pf); [apply H|]. by rewrite seen_pool. }
  assert (forall x, settled s x -> settled t x) as Hset.
  { intros x [X1 X2 X3 X4]. split; [done|by rewrite TP| |].
    - intros [Hx|Hx]%TC; [done|]. by apply (X4 PF_KERNEL).
    - intros pf Hx. by apply (X4 pf), (kp_free _ _ K). }
  split; [split; try done|split].
  - split; [done|rewrite seen_same; [done|by rewrite (kp_cr3 _ _ K)]|..].
    + intros d Hd'. rewrite Hdir, S2 by lia. by apply (ts_kernel _ H).
    + intros p Hp Hpc. apply TP in Hp. destruct (TC p Hpc) as [Hpc'|Hf]; [|by destruct (Hnt PF_KERNEL p Hf)].
      destruct (ts_apart _ H p Hp Hpc') as (d & Hd' & E). exists d. rewrite S2 by lia. done.
  - intros a Ha Hw' Hn. rewrite <- Es, <- Et. apply O; [done|done|]. unfold same_page. intros E. apply Hn. unfold page_of. rewrite <- E.
    destruct Hva as (q & -> & _). by rewrite Z.div_mul.
  - intros x o Hx _ Ho. apply Hset in Hx as Hx'. apply X.
    + intros E. apply (se_child _ _ Hx). left. rewrite <- (page_of_off x o (se_aligned _ _ Hx) Ho), E. unfold pde_pa. rewrite Hc.
      apply page_of_off; [apply (space_aligned C s), H|lia].
    + intros Hin. apply (se_child _ _ Hx'). right. exists (PDE_IDX va). rewrite <- Et. split; [lia|]. split.
      * rewrite translate_eq in Ht. by destruct (present (pde (mm t) (PDE_IDX va))).
      * rewrite <- (page_of_off x o (se_aligned _ _ Hx) Ho). apply page_of_in; [apply frame_aligned, pread_range, Hw|done].
  - apply (kp_free _ _ K).
  - apply K.
  - apply K.
  - apply K.
  - apply K.
  - apply K.
  - apply K.
  - apply (in_pool_aligned PF_USER (seen P s) g (ts_parent _ H)). destruct F as (i & Hi & -> & _). by exists i.
  - rewrite TP. by apply (Hnt PF_USER).
  - rewrite <- Et. by apply data_not_table.
  - intros []; [|done]. intros Hx. apply (kp_free _ _ K PF_KERNEL) in Hx. by apply (frame_free_disjoint (seen P s) g (ts_parent _ H)).
Qed.

(** ** One page *)

Lemma memcpy_page s dst src fd fs : mem_wf s -> aligned dst -> aligned src -> 0 < dst -> 0 < src -> translate (mm s) dst = Some fd -> translate (mm s) src = Some fs ->
  aligned fd -> aligned fs -> fd <> fs -> ~ table_page (mm s) fd ->
  exists m', memcpy dst src PG_SIZE s = Ok (tt, set_mm m' s) /\ differs (eq fd) (mm s) m' /\
    (forall o, 0 <= o < 4096 -> o mod 4 = 0 -> pread m' (fd + o) = pread (mm s) (fs + o)).
Proof.
  intros Hw Hd Hs Hd0 Hs0 Td Ts Ad As Hne Hn.
  destruct (copy_page_run 1024 (mm s) dst src fd fs 0 0) as (m' & E & D & R); try done; [apply Hw|].
  exists m'. split; [|split; [done|]].
  - unfold memcpy, NULL. erewrite mbindM_Ok by (apply assertM_run; destruct (Z.eqb_spec dst 0), (Z.eqb_spec src 0); (lia || done)).
    apply on_mmu_run. rewrite !Z.add_0_r in E. exact E.
  - intros o Ho Hm. rewrite R, decide_True; [f_equal; lia|]. unfold in_words. split; [lia|]. by replace (fd + o - fd - 0) with o by lia.
Qed.

(** An address of the kernel below the window. *)
Definition kernel_va (va : Z) : Prop := 0 < va < 2 ^ 32 /\ 768 <= PDE_IDX va < 1023.

(** The copy can go on: the directories and the buffer [buf], whose frame is
    [fb], are mapped, and the parent runs. *)
Record ready (child parent buf fb : Z) (s : memst) : Prop := {
  rd_two : two_spaces s;
  rd_cr3 : cr3 (mm s) = P;
  rd_child : kernel_va child /\ translate (space P s) child = Some C;
  rd_parent : kernel_va parent /\ translate (space P s) parent = Some P;
  rd_buf : kernel_va buf /\ aligned buf /\ translate (space P s) buf = Some fb;
  rd_settled : settled s fb;
  rd_holds : 0 <= holds (user_pool s)
}.

Lemma ready_evolves child parent buf fb W V s s' : ready child parent buf fb s -> evolves W V s s' -> cr3 (mm s') = P -> ready child parent buf fb s'.
Proof.
  intros [H1 H2 [K1 H3] [K2 H4] (K3 & A3 & H5) H6 H7] E Hc. unfold kernel_va in *.
  split; rewrite ?(ev_parent _ _ _ _ E) by lia; try done; [apply E|by apply (ev_settled _ _ _ _ E)|change (0 <= holds (pool_of PF_USER s')); by rewrite (ev_holds _ _ _ _ E PF_USER)].
Qed.

Lemma copy_user_page_run child parent buf fb s va f : ready child parent buf fb s -> aligned va -> 0 < va < 0xC0000000 ->
  translate (space P s) va = Some f -> settled s f -> f <> fb -> translate (space C s) va = None -> room PF_USER 1 s ->
  exists g s', copy_user_page child parent buf va s = Ok (tt, s') /\ evolves (eq fb) (eq va) s s' /\ cr3 (mm s') = P /\
    (forall n, room PF_USER (S n) s -> room PF_USER n s') /\ frame_free (user_pool s) g /\ settled s' g /\ translate (space C s') va = Some g /\
    (forall o, 0 <= o < 4096 -> o mod 4 = 0 -> pread (mm s') (g + o) = pread (mm s) (f + o)).
Proof.
  intros [H1 H2 [[K1 K1'] T1] [[K2 K2'] T2] ([K3 K3'] & A3 & T3) Hfb Hh] Hva Hv0 Tf Hf Hne Tn Hr.
  assert (mm s = space P s) as Es by (unfold space; rewrite <- H2; by destruct (mm s)).
  assert (PDE_IDX va < 768) as Hd by (rewrite PDE_IDX_eq by lia; apply Z.div_lt_upper_bound; lia).
  assert (mem_wf s) as Hw by (rewrite <- (seen_same P s) by done; apply H1).
  destruct (memcpy_page s buf va fb f) as (m1 & E1 & D1 & R1); try done; try lia; try (by rewrite Es); [apply Hfb|apply Hf|rewrite Es; apply Hfb|].
  pose proof (write_evolves s fb m1 H1 Hfb D1) as V1. set (s1 := set_mm m1 s) in *.
  assert (page_dir_activate child s1 = Ok (tt, seen C s1)) as E2.
  { apply page_dir_activate_run; [|lia|].
    - pose proof (mw_pt _ (ts_parent _ (ev_two _ _ _ _ V1))) as Hp. unfold seen, space in Hp. cbn [mm set_mm s1] in *.
      assert (at_root m1 P = m1) as Er by (unfold at_root; rewrite <- H2, <- (df_cr3 _ _ _ D1); by destruct m1). rewrite Er in Hp. apply Hp.
    - assert (mm s1 = space P s1) as -> by (unfold space, s1; cbn [set_mm mm]; unfold at_root; rewrite <- H2, <- (df_cr3 _ _ _ D1); by destruct m1).
      rewrite (ev_parent _ _ _ _ V1) by lia. done. }
  set (c1 := seen C s1) in *. pose proof (evolves_seen P C _ _ _ _ V1) as V1'. rewrite (seen_same P s H2) in V1'. fold c1 in V1'.
  assert (mem_wf c1) as Hwc by apply (ts_child _ (ev_two _ _ _ _ V1)).
  destruct (get_page_run c1 va) as (g & t & E3 & Hwt & Kt & Rt & Fg & Fg' & Dg & Tg & Ot & Xt); [done|lia|destruct Hva as (q & -> & _); apply Z.mod_mul; lia|lia| |done|done|].
  { change (translate (space C s1) va = None). rewrite (ev_child _ _ _ _ V1); [done|lia|lia|tauto]. }
  destruct (map_evolves c1 t va g) as (V2 & Hg); try done; [apply V1'|].
  assert (cr3 (mm t) = C) as Ct by (rewrite (kp_cr3 _ _ Kt); done).
  assert (mm t = space C t) as Et by (unfold space; rewrite <- Ct; by destruct (mm t)).
  assert (evolves (eq fb) (eq va) s t) as V12 by (eapply evolves_mono; [..|exact (evolves_trans _ _ _ _ _ _ _ V1' V2)]; tauto).
  assert (forall x pa, 0 < x < 2 ^ 32 -> 768 <= PDE_IDX x < 1023 -> translate (space P s) x = Some pa -> translate (mm t) x = Some pa) as Hk.
  { intros x pa Hx Hx' Tx. rewrite Et, kernel_translate, (ev_parent _ _ _ _ V12) by (done || lia || apply V12). done. }
  assert (g <> fb) as Hgb by (intros ->; by apply (se_used _ _ Hfb PF_USER)).
  pose proof (ev_settled _ _ _ _ V12 fb Hfb) as Hfb'.
  destruct (memcpy_page t va buf g fb) as (m2 & E4 & D4 & R4); try done; try lia; [by apply Hk|apply Hg|apply Hfb|by apply data_not_table|].
  pose proof (write_evolves t g m2 (ev_two _ _ _ _ V12) Hg D4) as V3. set (t2 := set_mm m2 t) in *.
  assert (page_dir_activate parent t2 = Ok (tt, seen P t2)) as E5.
  { destruct (differs_space _ _ _ (mw_pt _ Hwt) D4) as (Hm2 & _ & T4); [intros p <-; by apply data_not_table|].
    apply page_dir_activate_run; [apply Hm2|lia|]. change (mm t2) with m2. rewrite T4 by lia. by apply Hk. }
  pose proof (evolves_seen C P _ _ _ _ V3) as V3'. rewrite (seen_same C t Ct) in V3'.
  exists g, (seen P t2). split; [unfold copy_user_page; mrun E1; mrun E2; mrun E3; mrun E4; exact E5|]. split; [|split; [done|split; [|split; [exact Fg|split; [|split]]]]].
  - eapply evolves_mono; [..|exact (evolves_trans _ _ _ _ _ _ _ V12 V3')]; cbn beta; [|tauto].
    intros x Hx [|<-]; [done|]. by destruct (se_used _ _ Hx PF_USER).
  - intros n Hn. apply (Rt n), Hn.
  - apply (ev_settled _ _ _ _ V3'), Hg.
  - rewrite (ev_child _ _ _ _ V3') by (lia || tauto). by rewrite <- Et.
  - intros o Ho Hm. change (mm (seen P t2)) with (at_root m2 P). change (pread (at_root m2 P) (g + o)) with (pread m2 (g + o)). rewrite R4 by done.
    rewrite <- R1 by done. change (pread (mm t) (fb + o) = pread (mm c1) (fb + o)). apply (ev_words _ _ _ _ V2); [by apply (ev_settled _ _ _ _ V1')|tauto|done].
Qed.

(** ** All pages *)

Fixpoint copy_all (copy : Z -> M memst ()) (l : list Z) : M memst () :=
  match l with
  | [] => mret tt
  | va :: l' => _ ← copy va; copy_all copy l'
  end.

(** The frame [g] has the contents the frame [f] has in [s]. *)
Definition same_words (s : memst) (f : Z) (s' : memst) (g : Z) : Prop :=
  forall o, 0 <= o < 4096 -> o mod 4 = 0 -> pread (mm s') (g + o) = pread (mm s) (f + o).

(** The child has a page of its own at [va], a copy of the one of the parent. *)
Definition copied (s s' : memst) (va : Z) : Prop :=
  exists f g, translate (space P s) va = Some f /\ settled s f /\ translate (space C s') va = Some g /\ frame_free (user_pool s) g /\ settled s' g /\ same_words s f s' g.

(** A page of the parent the child does not have yet. *)
Definition pending (fb : Z) (s : memst) (va : Z) : Prop :=
  aligned va /\ 0 < va < 0xC0000000 /\ translate (space C s) va = None /\ exists f, translate (space P s) va = Some f /\ settled s f /\ f <> fb.

Lemma below_window va : 0 <= va < 0xC0000000 -> PDE_IDX va <> 1023.
Proof. intros Hv. assert (PDE_IDX va < 768) by (rewrite PDE_IDX_eq by lia; apply Z.div_lt_upper_bound; lia). lia. Qed.

Lemma pending_evolves fb W (V : Z -> Prop) s s' va : evolves W V s s' -> ~ V va -> pending fb s va -> pending fb s' va.
Proof.
  intros E Hn (A & B & T & f & Tf & Sf & Hne). split; [done|]. split; [done|]. split.
  - rewrite (ev_child _ _ _ _ E); [done|lia|apply below_window; lia|by rewrite page_of_page].
  - exists f. rewrite (ev_parent _ _ _ _ E) by lia. split; [done|]. split; [by apply (ev_settled _ _ _ _ E)|done].
Qed.

Lemma copy_all_run child parent buf fb l : forall s, ready child parent buf fb s -> NoDup l -> Forall (pending fb s) l -> room PF_USER (length l) s ->
  exists s', copy_all (copy_user_page child parent buf) l s = Ok (tt, s') /\ evolves (eq fb) (fun p => p ∈ l) s s' /\ cr3 (mm s') = P /\
    (forall va, va ∈ l -> copied s s' va) /\
    (forall va va' g, va ∈ l -> va' ∈ l -> translate (space C s') va = Some g -> translate (space C s') va' = Some g -> va = va').
Proof.
  induction l as [|va l IH]; intros s Hrd Hnd Hp Hroom; cbn [copy_all].
  { exists s. split; [done|]. split; [apply evolves_refl, (rd_two _ _ _ _ _ Hrd)|]. split; [exact (rd_cr3 _ _ _ _ _ Hrd)|]. split; [by intros ? ?%not_elem_of_nil|by intros ? ? ? ?%not_elem_of_nil]. }
  apply NoDup_cons in Hnd as [Hva Hnd]. apply Forall_cons in Hp as [(A & B & T & f & Tf & Sf & Hne) Hp].
  destruct (copy_user_page_run child parent buf fb s va f Hrd A B Tf Sf Hne T) as (g & s1 & E1 & V1 & C1 & R1 & Fg & Sg & Tg & Wg).
  { destruct Hroom as [H1 H2]. cbn [length] in *. split; lia. }
  assert (forall x, x ∈ l -> x <> va) as Hx by (by intros x Hin ->).
  destruct (IH s1) as (s' & E' & V' & C' & Hc & Hi); [by eapply ready_evolves|done| |by apply R1|].
  { apply Forall_forall. intros x Hin. rewrite Forall_forall in Hp. apply (pending_evolves fb (eq fb) (eq va) s); [exact V1| |by apply Hp]. intros E. by apply (Hx x). }
  assert (g <> fb) as Hgb by (intros ->; by apply (se_used _ _ (rd_settled _ _ _ _ _ Hrd) PF_USER)).
  assert (translate (space C s') va = Some g) as Tg'.
  { rewrite (ev_child _ _ _ _ V'); [done|lia|apply below_window; lia|by rewrite page_of_page]. }
  exists s'. split; [by mrun E1|]. split; [|split; [done|split]].
  - eapply evolves_mono; [..|exact (evolves_trans _ _ _ _ _ _ _ V1 V')]; cbn beta; [tauto|]. intros p [<-|?]; [left|by right].
  - intros x [->|Hin]%elem_of_cons.
    + exists f, g. split; [done|]. split; [done|]. split; [done|]. split; [done|]. split; [by apply (ev_settled _ _ _ _ V')|].
      intros o Ho Hm. rewrite (ev_words _ _ _ _ V') by (done || congruence). by apply Wg.
    + destruct (Hc x Hin) as (f' & g' & T1 & S1 & T2 & F2 & S2 & W2). rewrite Forall_forall in Hp. destruct (Hp x Hin) as (Ax & Bx & _ & f'' & Tf'' & Sf'' & Hne'').
      rewrite (ev_parent _ _ _ _ V1) in T1 by lia. assert (f'' = f') as -> by congruence.
      exists f', g'. split; [done|]. split; [done|]. split; [done|]. split; [by apply (ev_free _ _ _ _ V1 PF_USER)|]. split; [done|].
      intros o Ho Hm. rewrite W2 by done. apply (ev_words _ _ _ _ V1); [done|congruence|done].
  - assert (forall x, x ∈ l -> translate (space C s') x = Some g -> False) as Hno.
    { intros x Hin Tx. destruct (Hc x Hin) as (f' & g' & _ & _ & T2 & F2 & _). assert (g' = g) as -> by congruence. by apply (se_used _ _ Sg PF_USER). }
    intros x y h [->|Hx1]%elem_of_cons [->|Hy1]%elem_of_cons Tx Ty; [done|..].
    + destruct (Hno y Hy1). congruence.
    + destruct (Hno x Hx1). congruence.
    + by apply (Hi x y h).
Qed.

(** ** The loops visit the pages in use *)

Lemma copy_all_app copy l1 l2 s : copy_all copy (l1 ++ l2) s = (_ ← copy_all copy l1; copy_all copy l2) s.
Proof.
  revert s. induction l1 as [|va l1 IH]; intros s; cbn [app copy_all]; [done|]. rewrite mbindM_assoc.
  unfold mbind, M_bind at 1 2. destruct (copy va s) as [[? s1]| | |]; [|done..]. apply IH.
Qed.

(** The addresses of bits [i], ..., [i + n - 1] that are in use. *)
Definition used_pages (v : virtual_addr) (i : Z) (n : nat) : list Z :=
  (fun k => vaddr_start v + k * 4096) <$> filter (fun k => bit_used (vaddr_bitmap v) k = true) (seqZ i (Z.of_nat n)).

Lemma used_pages_S v i n : used_pages v i (S n) =
  (if bit_used (vaddr_bitmap v) i then [vaddr_start v + i * 4096] else []) ++ used_pages v (i + 1) n.
Proof.
  unfold used_pages. rewrite seqZ_cons by lia. rewrite filter_cons. replace (Z.pred (Z.of_nat (S n))) with (Z.of_nat n) by lia.
  destruct (bit_used (vaddr_bitmap v) i); [by rewrite decide_True|by rewrite decide_False].
Qed.
Lemma used_pages_app v i n k : used_pages v i (n + k) = used_pages v i n ++ used_pages v (i + Z.of_nat n) k.
Proof. unfold used_pages. rewrite Nat2Z.inj_add, seqZ_app by lia. by rewrite filter_app, fmap_app. Qed.

Lemma copy_bits_eq copy v j byte n : forall k s, bits (vaddr_bitmap v) !! Z.to_nat j = Some byte -> 0 <= j -> 0 <= k -> k + Z.of_nat n <= 8 ->
  0 <= vaddr_start v -> vaddr_start v + (j + 1) * 8 * 4096 <= 2 ^ 32 ->
  copy_bits n copy (vaddr_start v) byte j k s = copy_all copy (used_pages v (j * 8 + k) n) s.
Proof.
  induction n as [|n IH]; intros k s Hb Hj Hk Hkn H0 Hle; cbn [copy_bits]; [done|].
  rewrite used_pages_S, (bit_used_split _ _ _ _ Hb Hj) by lia. rewrite Z.land_comm, land_mask_truth by lia.
  replace (j * 8 + k + 1) with (j * 8 + (k + 1)) by lia. unfold PG_SIZE.
  rewrite wrapu_small by lia. replace ((j * 8 + k) * 4096 + vaddr_start v) with (vaddr_start v + (j * 8 + k) * 4096) by lia.
  destruct (Z.testbit byte k); cbn [app copy_all]; [|by rewrite mret_bind, IH by (done || lia)].
  unfold mbind, M_bind. destruct (copy _ s) as [[? s1]| | |]; [|done..]. apply IH; (done || lia).
Qed.

Lemma copy_bytes_eq copy v n : forall j s, (forall q, j <= q < j + Z.of_nat n -> exists byte, bits (vaddr_bitmap v) !! Z.to_nat q = Some byte /\ is_byte byte) -> 0 <= j ->
  0 <= vaddr_start v -> vaddr_start v + (j + Z.of_nat n) * 8 * 4096 <= 2 ^ 32 ->
  copy_bytes n copy (vaddr_start v) (bits (vaddr_bitmap v)) j s = copy_all copy (used_pages v (j * 8) (8 * n)) s.
Proof.
  induction n as [|n IH]; intros j s Hb Hj H0 Hle; cbn [copy_bytes]; [by rewrite Nat.mul_0_r|].
  destruct (Hb j ltac:(lia)) as (byte & Ej & _). rewrite (liftO_bind _ _ _ _ (aget_Ok _ _ _ Hj Ej)).
  replace (8 * S n)%nat with (8 + 8 * n)%nat by lia. rewrite used_pages_app, copy_all_app.
  pose proof (copy_bits_eq copy v j byte 8 0 s Ej Hj ltac:(lia) ltac:(lia) H0 ltac:(lia)) as Eb. rewrite Z.add_0_r in Eb.
  replace (j * 8 + Z.of_nat 8) with ((j + 1) * 8) by lia.
  assert ((if truth byte then copy_bits 8 copy (vaddr_start v) byte j 0 else mret tt) s = copy_all copy (used_pages v (j * 8) 8) s) as E1.
  { unfold truth. destruct (Z.eqb_spec byte 0) as [->|]; [|exact Eb]. cbn [negb]. unfold used_pages. rewrite filter_none_elem; [done|].
    intros k Hk. apply elem_of_seqZ in Hk. replace k with (j * 8 + (k - j * 8)) by lia. rewrite (bit_used_split _ _ _ _ Ej Hj) by lia. by rewrite Z.bits_0. }
  unfold mbind, M_bind at 1 2. rewrite E1. destruct (copy_all _ _ s) as [[? s1]| | |]; [|done..].
  apply IH; [|lia|done|lia]. intros q Hq. apply Hb. lia.
Qed.

Lemma used_pages_elem v i n va : va ∈ used_pages v i n <-> exists k, i <= k < i + Z.of_nat n /\ bit_used (vaddr_bitmap v) k = true /\ va = vaddr_start v + k * 4096.
Proof.
  unfold used_pages. rewrite list_elem_of_fmap. split.
  - intros (k & -> & [Hu Hk]%list_elem_of_filter). apply elem_of_seqZ in Hk. exists k. done.
  - intros (k & Hk & Hu & ->). exists k. split; [done|]. apply list_elem_of_filter. split; [done|]. apply elem_of_seqZ. lia.
Qed.
Lemma used_pages_nodup v i n : NoDup (used_pages v i n).
Proof. unfold used_pages. apply NoDup_fmap_2; [intros x y E; lia|]. apply NoDup_filter, NoDup_seqZ. Qed.

(** The pool of a process lies below 0xC0000000. *)
Record user_pool_wf (v : virtual_addr) : Prop := {
  up_bitmap : bitmap_wf (vaddr_bitmap v);
  up_start : exists q, vaddr_start v = q * 4096 /\ 0 < q /\ q + nbits (vaddr_bitmap v) <= 0xC0000
}.

(** The pages of the pool [v] in use. *)
Definition all_used (v : virtual_addr) : list Z := used_pages v 0 (Z.to_nat (nbits (vaddr_bitmap v))).

Lemma copy_body_run child parent buf fb v s : ready child parent buf fb s -> user_pool_wf v ->
  (forall va, va ∈ all_used v -> exists f, translate (space P s) va = Some f /\ settled s f /\ f <> fb) ->
  (forall va, 0 <= va < 0xC0000000 -> translate (space C s) va = None) -> room PF_USER (length (all_used v)) s ->
  exists s', copy_body_stack3 child parent v buf s = Ok (tt, s') /\ evolves (eq fb) (fun p => p ∈ all_used v) s s' /\ cr3 (mm s') = P /\
    (forall va, va ∈ all_used v -> copied s s' va) /\
    (forall va va' g, va ∈ all_used v -> va' ∈ all_used v -> translate (space C s') va = Some g -> translate (space C s') va' = Some g -> va = va').
Proof.
  intros Hrd [Hb (q & Hq & Hq0 & Hq1)] Hpar Hch Hroom.
  assert (copy_body_stack3 child parent v buf s = copy_all (copy_user_page child parent buf) (all_used v) s) as E.
  { unfold copy_body_stack3, all_used. pose proof (wf_len_nonneg _ Hb). rewrite copy_bytes_eq; [|..].
    - unfold nbits. rewrite Z.mul_0_l. by replace (8 * Z.to_nat (btmp_bytes_len (vaddr_bitmap v)))%nat with (Z.to_nat (btmp_bytes_len (vaddr_bitmap v) * 8)) by lia.
    - intros j Hj. destruct (lookup_lt_is_Some_2 (bits (vaddr_bitmap v)) (Z.to_nat j)) as [byte Eb]; [pose proof (wf_len_mem _ Hb); lia|].
      exists byte. split; [done|]. pose proof (wf_bytes _ Hb) as Hbytes. rewrite Forall_forall in Hbytes. apply Hbytes. by eapply list_elem_of_lookup_2.
    - lia.
    - lia.
    - unfold nbits in Hq1. change (2 ^ 32) with 4294967296. lia. }
  rewrite E. apply copy_all_run; [done|apply used_pages_nodup| |done].
  apply Forall_forall. intros va Hin. pose proof Hin as (k & Hk & Hu & Ev)%used_pages_elem. rewrite Hq in Ev.
  assert (0 <= k < nbits (vaddr_bitmap v)) by lia. assert (va = (q + k) * 4096) as Ea by lia.
  split; [exists (q + k); lia|]. split; [lia|]. split; [apply Hch; lia|]. by apply Hpar.
Qed.

End Spaces.

(** The space of a directory that was just made beside the one in use. *)
Lemma fresh_two_spaces s f : mem_wf s -> aligned f -> data_frame s f -> (forall pf, ~ frame_free (pool_of pf s) f) ->
  (forall d, 0 <= d < 1024 -> pread (mm s) (f + d * 4) = dir_word (mm s) f d) -> two_spaces (cr3 (mm s)) f s.
Proof.
  intros Hw Hf Hd Hnf Hdir. destruct (fresh_space s f Hw Hf Hd Hnf Hdir) as (W & Hp & _ & _).
  assert (space (cr3 (mm s)) s = mm s) as Es by (unfold space; by destruct (mm s)).
  split.
  - by rewrite seen_same.
  - exact W.
  - intros d Hd'. rewrite Es. change (pde (mm (set_mm (at_root (mm s) f) s)) d = pde (mm s) d). rewrite Hp by lia. unfold dir_word.
    destruct (Z.ltb_spec d 768); [lia|]. destruct (Z.eqb_spec d 1023); [lia|done].
  - intros p H1 H2. rewrite Es in *. destruct H2 as [->|(d & Hd' & Hpr & ->)]; [by apply data_not_table in Hd|]. exists d.
    change (pde (space f s) d) with (pde (mm (set_mm (at_root (mm s) f) s)) d) in *. rewrite Hp in * by lia. unfold dir_word in *.
    destruct (Z.ltb_spec d 768); [done|]. destruct (Z.eqb_spec d 1023); [lia|]. split; [lia|done].
Qed.
