(* ===== verification/ForkMem.v ===== *)
(** * The memory work of fork

    The pages the kernel takes for a child, one allocation after the other, the
    copy of the user part between the two spaces, and the return of the buffer:
    what [copy_process] does to the memory, as one lemma. *)

From S2P Require Import Prelude Bitmap Paging Memory Process Fork.

(** ** Pages of the kernel, one after the other *)

(** The pool of kernel addresses starts at page [q]; from bit [k] on [n] pages
    are free, and there is memory for them and for [N] pages more. *)
Record spare (q k : Z) (n N : nat) (s : memst) : Prop := {
  sp_wf : mem_wf s;
  sp_vaddr : vaddr_wf PF_KERNEL s;
  sp_start : vaddr_start (kernel_vaddr s) = q * 4096;
  sp_high : 0xC0000 <= q;
  sp_k : 0 <= k /\ k + Z.of_nat n <= nbits (vaddr_bitmap (kernel_vaddr s));
  sp_run : run (vaddr_bitmap (kernel_vaddr s)) k (Z.of_nat n);
  sp_room : room PF_KERNEL (n + N) s;
  sp_holds : 0 <= holds (kernel_pool s)
}.

(** Mappings below the window stay, and the user part is as it was. *)
Definition maps_kept (s s' : memst) : Prop :=
  (forall va pa, 0 <= va < 0xFFC00000 -> translate (mm s) va = Some pa -> translate (mm s') va = Some pa) /\
  (forall va, 0 <= va < 0xC0000000 -> translate (mm s') va = translate (mm s) va).
#[global] Instance maps_kept_preorder : PreOrder maps_kept.
Proof. split; [done|]. intros s1 s2 s3 [A1 A2] [B1 B2]. split; [auto|]. intros va Hva. by rewrite B2, A2. Qed.

Lemma spare_step q k n n' N s s' r fs : spare q k (n + n') N s -> handed_out PF_KERNEL s s' q r fs -> mem_wf s' -> vaddr_wf PF_KERNEL s' -> undisturbed s s' ->
  (forall j, room PF_KERNEL (n + j) s -> room PF_KERNEL j s') -> length fs = n -> 0 <= r <= k -> run (vaddr_bitmap (kernel_vaddr s)) r (Z.of_nat n) ->
  spare q (k + Z.of_nat n) n' N s' /\ maps_kept s s'.
Proof.
  intros [S1 S2 S3 S4 S5 S6 S7 S8] Ho Hw Hv Hu Hj Hl Hr Hrr. pose proof (ho_nbits _ _ _ _ _ _ Ho) as Hn. pose proof (ho_start _ _ _ _ _ _ Ho) as Hs. pose proof (ho_bits _ _ _ _ _ _ Ho) as Hb.
  cbn [vaddr_of] in *. split; [split; try done|].
  - by rewrite Hs.
  - rewrite Hn. lia.
  - intros j Hjr. rewrite Hb by lia. rewrite Hl. destruct (Z.leb_spec r j), (Z.ltb_spec j (r + Z.of_nat n)); cbn [andb]; try (apply S6; lia). lia.
  - apply Hj. by replace (n + (n' + N))%nat with (n + n' + N)%nat by lia.
  - rewrite (ud_holds _ _ Hu). done.
  - split.
    + intros va pa Hva Ht. apply (handed_out_kept PF_KERNEL s s' q r fs va pa S2); cbn [vaddr_of]; rewrite ?Hl; (done || lia).
    + intros va Hva. apply (ho_others _ _ _ _ _ _ Ho); [lia|by apply below_window|]. pose proof (Z.div_lt_upper_bound va 4096 0xC0000 ltac:(lia) ltac:(lia)). lia.
Qed.

Lemma spare_pages q k n n' N s : spare q k (n + n') N s -> (0 < n < 3840)%nat ->
  exists s' r fs, get_kernel_pages (Z.of_nat n) s = Ok ((q + r) * 4096, s') /\ 0 <= r <= k /\ run (vaddr_bitmap (kernel_vaddr s)) r (Z.of_nat n) /\ length fs = n /\
    handed_out PF_KERNEL s s' q r fs /\ spare q (k + Z.of_nat n) n' N s' /\ maps_kept s s' /\ undisturbed s s' /\ q + nbits (vaddr_bitmap (kernel_vaddr s)) <= 0xFFC00.
Proof.
  intros Hs Hn. pose proof Hs as [S1 S2 S3 S4 S5 S6 S7 S8].
  destruct (get_kernel_pages_run s (Z.of_nat n) k q S1 S2 S3 ltac:(lia) ltac:(lia) ltac:(lia)) as (s' & r & fs & E & Hr & Hrr & Hlen & Ho & Hw & Hv & Hh & Hq1 & Hq0 & Hj & _ & Hu); [intros j Hj; apply S6; lia|rewrite Nat2Z.id; destruct S7; split; cbn in *; lia|done|].
  rewrite Nat2Z.id in Hj. destruct (spare_step q k n n' N s s' r fs Hs Ho Hw Hv Hu Hj ltac:(lia) Hr Hrr) as [Hs' Hm].
  exists s', r, fs. split; [exact E|]. split; [done|]. split; [done|]. split; [lia|]. done.
Qed.

Lemma spare_dir q k n' N s : spare q k (1 + n') N s ->
  exists s' r f, create_page_dir s = Ok ((q + r) * 4096, s') /\ 0 <= r <= k /\ handed_out PF_KERNEL s s' q r [f] /\ spare q (k + 1) n' N s' /\ maps_kept s s' /\ undisturbed s s' /\
    aligned f /\ data_frame s' f /\ (forall pf, ~ frame_free (pool_of pf s') f) /\ translate (mm s') ((q + r) * 4096) = Some f /\
    (forall d, 0 <= d < 1024 -> pread (mm s') (f + d * 4) = dir_word (mm s') f d) /\ q + nbits (vaddr_bitmap (kernel_vaddr s)) <= 0xFFC00.
Proof.
  intros Hs. pose proof Hs as [S1 S2 S3 S4 S5 S6 S7 S8].
  destruct (create_page_dir_run s k q S1 S2 S3) as (s' & r & f & E & Hr & Hrr & Ho & Hw & Hv & Hf & Hdf & Hnf & Ht & Hq0 & Hq1 & Hd & Hu & Hj); [lia|lia|intros j Hj; apply S6; lia|destruct S7; split; cbn in *; lia|done|].
  destruct (spare_step q k 1 n' N s s' r [f] Hs Ho Hw Hv Hu Hj eq_refl Hr Hrr) as [Hs' Hm]. exists s', r, f. done.
Qed.

(** ** The buffer is given back *)

Lemma on_mmu_inv {A} (c : M mmu A) s a s' : on_mmu c s = Ok (a, s') -> exists m', c (mm s) = Ok (a, m') /\ s' = set_mm m' s.
Proof. unfold on_mmu. destruct (c (mm s)) as [[]| | |]; intros E; try done. injection E as <- <-. by eexists. Qed.

(** What one call does to the memory: the entry of the page is rewritten. *)

(** ** Pages in use *)

Definition busy (s : memst) (f : Z) : Prop := aligned f /\ data_frame s f /\ forall pf, ~ frame_free (pool_of pf s) f.

Lemma busy_undisturbed s s' f : undisturbed s s' -> busy s f -> busy s' f.
Proof.
  intros U (A & D & F). split; [done|]. split; [apply (ud_data _ _ U); [done|apply (F PF_KERNEL)]|]. intros pf Hx. by apply (F pf), (ud_free _ _ U).
Qed.

(** A frame of the kernel that was handed out. *)
Lemma handed_busy s s' q r fs f : mem_wf s -> handed_out PF_KERNEL s s' q r fs -> f ∈ fs -> busy s' f /\ in_pool (kernel_pool s') f /\ frame_free (kernel_pool s) f.
Proof.
  intros Hw Ho Hf. pose proof (ho_were_free _ _ _ _ _ _ Ho) as H1. pose proof (ho_taken _ _ _ _ _ _ Ho) as H2. rewrite Forall_forall in H1, H2.
  specialize (H1 f Hf). destruct (H2 f Hf) as [H3 H4]. pose proof H1 as (i & Hi & Ef & _). split; [split; [|split; [done|]]|split; [|done]].
  - apply (in_pool_aligned PF_KERNEL s f Hw). by exists i.
  - intros []; [done|]. intros Hx. apply (ho_free _ _ _ _ _ _ Ho PF_USER) in Hx. by apply (frame_free_disjoint s f Hw).
  - pose proof (ho_starts _ _ _ _ _ _ Ho PF_KERNEL) as E1. pose proof (ho_frames _ _ _ _ _ _ Ho PF_KERNEL) as E2. cbn [pool_of] in *. exists i. by rewrite E1, E2.
Qed.

Lemma in_pool_undisturbed s s' f : undisturbed s s' -> in_pool (kernel_pool s) f -> in_pool (kernel_pool s') f.
Proof.
  intros U (i & Hi & ->). pose proof (ud_start _ _ U PF_KERNEL) as E1. pose proof (ud_frames _ _ U PF_KERNEL) as E2. cbn [pool_of] in *. exists i. by rewrite E1, E2.
Qed.

Lemma page_kernel_va q : 0xC0000 <= q < 0xFFC00 -> kernel_va (q * 4096) /\ aligned (q * 4096).
Proof.
  intros Hq. split; [|exists q; lia]. split; [lia|]. rewrite PDE_IDX_eq by lia. split; [apply Z.div_le_lower_bound; lia|apply Z.div_lt_upper_bound; lia].
Qed.

(** Data of the parent beside a fresh directory. *)
Lemma settled_fresh s C f : mem_wf s -> (forall d, 0 <= d < 1024 -> pread (mm s) (C + d * 4) = dir_word (mm s) C d) -> busy s f -> f <> C -> settled (cr3 (mm s)) C s f.
Proof.
  intros Hw Hdir (A & D & F) Hne. assert (space (cr3 (mm s)) s = mm s) as Es by (unfold space; by destruct (mm s)).
  split; [done|rewrite Es; by apply data_not_table| |done].
  intros [->|(d & Hd & Hpr & ->)]; [done|]. apply data_not_table in D. apply D. right. exists d. unfold pde in Hpr |- *. cbn [space at_root cr3] in *.
  change (pread (space C s) (C + d * 4)) with (pread (mm s) (C + d * 4)) in *. rewrite Hdir in * by lia. unfold dir_word in *.
  destruct (Z.ltb_spec d 768); [done|]. destruct (Z.eqb_spec d 1023); [lia|]. done.
Qed.

(** ** Writing a table of the kernel *)

Lemma translate_words m m' va : cr3 m' = cr3 m -> pread m' (pde_pa m va) = pread m (pde_pa m va) ->
  (present (pread m (pde_pa m va)) = true -> pread m' (pte_pa m va) = pread m (pte_pa m va)) -> translate m' va = translate m va.
Proof.
  intros Hc H1 H2. unfold translate. assert (pde_pa m' va = pde_pa m va) as E by (unfold pde_pa; by rewrite Hc).
  assert (pte_pa m' va = pte_pa m va) as E' by (unfold pte_pa; by rewrite E, H1). rewrite E, E', H1. destruct (present (pread m (pde_pa m va))); [|done]. by rewrite H2.
Qed.

Lemma low_kept m m' d0 va : pt_wf m -> cr3 m' = cr3 m -> 768 <= d0 < 1023 -> present (pde m d0) = true ->
  (forall a, ~ frame_of (pde m d0) <= a < frame_of (pde m d0) + 4096 -> pread m' a = pread m a) -> 0 <= va < 0xC0000000 -> translate m' va = translate m va.
Proof.
  intros Hm Hc Hd0 Hp0 X Hva. assert (PDE_IDX va < 768) as Hi by (rewrite PDE_IDX_eq by lia; apply Z.div_lt_upper_bound; lia). pose proof (PDE_IDX_range va ltac:(lia)) as Hr.
  pose proof (PTE_IDX_range va ltac:(lia)) as Ht. assert (aligned (frame_of (pde m d0))) as Ha by (apply frame_aligned, pread_range, Hm).
  apply translate_words; [done|..].
  - apply X. intros Hin. apply (page_of_in _ _ Ha) in Hin. unfold pde_pa in Hin. rewrite page_of_off in Hin; [|apply Hm|lia]. by apply (pw_dir _ Hm d0 ltac:(lia) Hp0).
  - intros Hp. apply X. intros Hin. apply (page_of_in _ _ Ha) in Hin. unfold pte_pa in Hin. rewrite page_of_off in Hin; [|apply frame_aligned, pread_range, Hm|lia].
    pose proof (pw_inj _ Hm (PDE_IDX va) d0 ltac:(lia) ltac:(lia) Hp Hp0 Hin). lia.
Qed.

(** ** The memory of parent and child *)

(** From memory [m] to [m']: the space [C] has a copy of every page of the pool
    [v] the space [P] has, in frames that were free and are its own, and nothing
    else below 0xC0000000; the space and the data of the parent are as before. *)
Record forked (P C : Z) (v : virtual_addr) (m m' : memst) : Prop := {
  fk_copy va : va ∈ all_used v ->
    exists f g, translate (space P m) va = Some f /\ translate (space C m') va = Some g /\ frame_free (user_pool m) g /\ same_words m f m' g;
  fk_own va va' g : va ∈ all_used v -> va' ∈ all_used v -> translate (space C m') va = Some g -> translate (space C m') va' = Some g -> va = va';
  fk_none va : 0 <= va < 0xC0000000 -> page_of va ∉ all_used v -> translate (space C m') va = None;
  fk_parent va : 0 <= va < 0xC0000000 -> translate (space P m') va = translate (space P m) va;
  fk_data va f o : va ∈ all_used v -> translate (space P m) va = Some f -> 0 <= o < 4096 -> pread (mm m') (f + o) = pread (mm m) (f + o);
  fk_cr3 : cr3 (mm m') = P
}.

(** The pages of the running process in use are mapped to frames in use, and
    its directory is an address of the kernel. *)
Record process_ok (pd : Z) (m : memst) : Prop := {
  po_dir : kernel_va pd /\ translate (mm m) pd = Some (cr3 (mm m));
  po_pool : user_pool_wf (userprog_vaddr m);
  po_pages va : va ∈ all_used (userprog_vaddr m) -> exists f, translate (mm m) va = Some f /\ busy m f;
  po_holds : 0 <= holds (user_pool m)
}.

Lemma all_used_low v va : user_pool_wf v -> va ∈ all_used v -> 0 < va < 0xC0000000 /\ aligned va.
Proof.
  intros [_ (q & Hq & Hq0 & Hq1)] (k & Hk & _ & ->)%used_pages_elem. rewrite Hq. split; [lia|]. exists (q + k). lia.
Qed.

(** The states before the copy: [buf] with its frame [fb], the directory [C]. *)
Lemma copy_ready q k N m m4 pd rd fb rb C : process_ok pd m -> spare q k 0 N m4 -> undisturbed m m4 -> maps_kept m m4 ->
  q + nbits (vaddr_bitmap (kernel_vaddr m4)) <= 0xFFC00 -> 0 <= rb < nbits (vaddr_bitmap (kernel_vaddr m4)) -> 0 <= rd < nbits (vaddr_bitmap (kernel_vaddr m4)) ->
  busy m4 fb -> translate (mm m4) ((q + rb) * 4096) = Some fb -> fb <> C ->
  aligned C -> data_frame m4 C -> (forall pf, ~ frame_free (pool_of pf m4) C) -> translate (mm m4) ((q + rd) * 4096) = Some C ->
  (forall d, 0 <= d < 1024 -> pread (mm m4) (C + d * 4) = dir_word (mm m4) C d) ->
  ready (cr3 (mm m)) C ((q + rd) * 4096) pd ((q + rb) * 4096) fb m4.
Proof.
  intros [[O1 O1'] O2 O3 O4] [S1 S2 S3 S4 S5 S6 S7 S8] U K Hq Hrb Hrd Hfb Tfb Hne Ha Hd Hf Td Hdir. pose proof (ud_cr3 _ _ U) as Ec.
  assert (space (cr3 (mm m)) m4 = mm m4) as Es by (unfold space; rewrite <- Ec; by destruct (mm m4)).
  split; rewrite ?Es.
  - rewrite <- Ec. by apply fresh_two_spaces.
  - done.
  - split; [apply page_kernel_va; lia|done].
  - split; [done|]. apply K; [|done]. destruct O1 as [O5 O6]. rewrite PDE_IDX_eq in O6 by lia.
    assert (pd < 1023 * 2 ^ 22) by (apply Z.nle_gt; intros Hle; pose proof (Z.div_le_lower_bound pd (2 ^ 22) 1023 ltac:(lia) ltac:(lia)); lia). lia.
  - split; [apply page_kernel_va; lia|]. split; [apply page_kernel_va; lia|done].
  - rewrite <- Ec. by apply settled_fresh.
  - rewrite (ud_user _ _ U). done.
Qed.

Lemma copy_forks q k N m m4 pd rd fb rb C : process_ok pd m -> spare q k 0 N m4 -> undisturbed m m4 -> maps_kept m m4 ->
  q + nbits (vaddr_bitmap (kernel_vaddr m4)) <= 0xFFC00 -> 0 <= rb < nbits (vaddr_bitmap (kernel_vaddr m4)) -> 0 <= rd < nbits (vaddr_bitmap (kernel_vaddr m4)) ->
  busy m4 fb -> translate (mm m4) ((q + rb) * 4096) = Some fb -> fb <> C -> ~ busy m fb -> ~ busy m C ->
  aligned C -> data_frame m4 C -> (forall pf, ~ frame_free (pool_of pf m4) C) -> translate (mm m4) ((q + rd) * 4096) = Some C ->
  (forall d, 0 <= d < 1024 -> pread (mm m4) (C + d * 4) = dir_word (mm m4) C d) ->
  room PF_USER (length (all_used (userprog_vaddr m))) m4 ->
  let P := cr3 (mm m) in
  exists m5, copy_body_stack3 ((q + rd) * 4096) pd (userprog_vaddr m) ((q + rb) * 4096) m4 = Ok (tt, m5) /\
    evolves P C (eq fb) (fun p => p ∈ all_used (userprog_vaddr m)) m4 m5 /\ forked P C (userprog_vaddr m) m m5 /\
    (forall va x, va ∈ all_used (userprog_vaddr m) -> translate (space C m5) va = Some x \/ translate (space P m) va = Some x -> settled P C m5 x).
Proof.
  intros Ho Hsp U K Hq Hrb Hrd Hfb Tfb Hne Hnb HnC Ha Hd Hf Td Hdir Hroom P.
  pose proof (copy_ready q k N m m4 pd rd fb rb C Ho Hsp U K Hq Hrb Hrd Hfb Tfb Hne Ha Hd Hf Td Hdir) as Hrdy. fold P in Hrdy.
  pose proof Ho as [_ O2 O3 _]. pose proof (sp_wf _ _ _ _ _ Hsp) as Hw4. pose proof (ud_cr3 _ _ U) as Ec.
  assert (space P m = mm m) as Em by (unfold space, P; by destruct (mm m)).
  assert (space P m4 = mm m4) as Em4 by (unfold space, P; rewrite <- Ec; by destruct (mm m4)).
  assert (forall va f, va ∈ all_used (userprog_vaddr m) -> translate (mm m) va = Some f -> translate (space P m4) va = Some f /\ settled P C m4 f /\ f <> fb /\ busy m f) as Hpg.
  { intros va f Hin Tf. destruct (O3 va Hin) as (f' & Tf' & Bf). assert (f' = f) as -> by congruence. destruct (all_used_low _ _ O2 Hin) as [Hlow _].
    rewrite Em4, (proj2 K) by lia. split; [done|]. split; [|split; [by intros ->|done]]. unfold P. rewrite <- Ec. apply settled_fresh; [done|done|by apply (busy_undisturbed m)|by intros ->]. }
  destruct (fresh_space m4 C Hw4 Ha Hd Hf Hdir) as (_ & _ & Hlow & _).
  destruct (copy_body_run P C ((q + rd) * 4096) pd ((q + rb) * 4096) fb (userprog_vaddr m) m4 Hrdy O2) as (m5 & E & V & C5 & Hc & Hi); [|exact Hlow|exact Hroom|].
  { intros va Hin. destruct (O3 va Hin) as (f & Tf & _). exists f. destruct (Hpg va f Hin Tf) as (H1 & H2 & H3 & _). done. }
  exists m5. split; [exact E|]. split; [exact V|]. split; [split|].
  - intros va Hin. destruct (Hc va Hin) as (f & g & T1 & S1 & T2 & F2 & S2 & W2). destruct (all_used_low _ _ O2 Hin) as [Hl _]. rewrite Em4, (proj2 K) in T1 by lia.
    destruct (Hpg va f Hin T1) as (_ & _ & _ & B1 & B2 & B3). exists f, g. rewrite Em. rewrite (ud_user _ _ U) in F2. split; [done|]. split; [done|]. split; [done|].
    intros o Hoff Hm. rewrite W2 by done. by apply (ud_words _ _ U).
  - exact Hi.
  - intros va Hva Hn. rewrite (ev_child _ _ _ _ _ _ V); [by apply Hlow|lia|by apply below_window|done].
  - intros va Hva. rewrite (ev_parent _ _ _ _ _ _ V), Em4, Em by lia. by apply K.
  - intros va f o Hin Tf Hoff. rewrite Em in Tf. destruct (Hpg va f Hin Tf) as (_ & S & Hnf & B1 & B2 & B3). rewrite (ev_words _ _ _ _ _ _ V) by (done || congruence).
    by apply (ud_words _ _ U).
  - exact C5.
  - intros va x Hin [Tx|Tx].
    + destruct (Hc va Hin) as (f & g & _ & _ & T2 & _ & S2 & _). by assert (x = g) as -> by congruence.
    + rewrite Em in Tx. apply (ev_settled _ _ _ _ _ _ V). by apply (Hpg va x).
Qed.

(** The buffer goes back: a table of the kernel is written, nothing else. *)
Lemma buffer_returned P C v q rb fb m m4 m5 W V : evolves P C W V m4 m5 -> cr3 (mm m5) = P -> cr3 (mm m4) = P -> vaddr_wf PF_KERNEL m4 -> vaddr_start (kernel_vaddr m4) = q * 4096 -> 0xC0000 <= q ->
  0x102000 <= phy_addr_start (kernel_pool m4) -> 0 <= rb < nbits (vaddr_bitmap (kernel_vaddr m4)) -> q + nbits (vaddr_bitmap (kernel_vaddr m4)) <= 0xFFC00 ->
  in_pool (kernel_pool m4) fb -> settled P C m4 fb -> translate (mm m4) ((q + rb) * 4096) = Some fb -> user_pool_wf v -> forked P C v m m5 ->
  (forall va x, va ∈ all_used v -> translate (space C m5) va = Some x \/ translate (space P m) va = Some x -> settled P C m5 x) ->
  exists m6, mfree_page PF_KERNEL ((q + rb) * 4096) 1 m5 = Ok (tt, m6) /\ forked P C v m m6 /\ userprog_vaddr m6 = userprog_vaddr m5 /\
    (forall p, 0 <= p < 0xFFC00 -> p <> q + rb -> translate (mm m6) (p * 4096) = translate (mm m5) (p * 4096)).
Proof.
  intros Ev C5 C4 Hv Hst Hq Hbase Hrb Hlim Hin Hfb Tfb Hvp Hfk Hset.
  assert (mm m5 = space P m5) as E5 by (unfold space; rewrite <- C5; by destruct (mm m5)).
  assert (mm m4 = space P m4) as E4 by (unfold space; rewrite <- C4; by destruct (mm m4)).
  pose proof (ev_two _ _ _ _ _ _ Ev) as Htwo. assert (mem_wf m5) as Hw5 by (rewrite <- (seen_same P m5) by done; apply Htwo).
  assert (vaddr_wf PF_KERNEL m5) as Hv5.
  { destruct Hv as [V1 V2 V3 V4]. cbn [vaddr_of] in *. split; cbn [vaddr_of]; rewrite (ev_kv _ _ _ _ _ _ Ev); try done.
    intros i Hi Hu. rewrite E5, (ev_parent _ _ _ _ _ _ Ev), <- E4; [by apply V4|]. rewrite Hst. lia. }
  pose proof (ev_start _ _ _ _ _ _ Ev PF_KERNEL) as Es. pose proof (ev_frames _ _ _ _ _ _ Ev PF_KERNEL) as Ef. cbn [pool_of] in Es, Ef.
  pose proof (ev_settled _ _ _ _ _ _ Ev fb Hfb) as Hfb5.
  destruct (mfree_page_run PF_KERNEL m5 q rb [fb] Hw5 Hv5) as (m6 & E & Hw6 & _ & _ & Htr & _ & _ & _ & _ & _ & _ & Hec & Hu); cbn [vaddr_of length].
  { by rewrite (ev_kv _ _ _ _ _ _ Ev). }
  { by rewrite Es. }
  { done. }
  { lia. }
  { rewrite (ev_kv _ _ _ _ _ _ Ev). lia. }
  { apply Forall_singleton. split; [|apply data_not_table; rewrite E5; apply Hfb5]. destruct Hin as (i & Hi & ->). exists i. cbn [pool_of]. by rewrite Es, Ef. }
  { intros [|i] f; [|done]. intros [= <-]. rewrite Z.add_0_r, E5, (ev_parent _ _ _ _ _ _ Ev), <- E4 by lia. done. }
  destruct Hec as [J1 J2 J3 J4 J5 J6]. cbn [length] in *.
  assert (translate (mm m5) ((q + rb) * 4096) = Some fb) as Tb by (rewrite E5, (ev_parent _ _ _ _ _ _ Ev), <- E4 by lia; done).
  set (d0 := PDE_IDX ((q + rb) * 4096)) in *. destruct (page_kernel_va (q + rb) ltac:(lia)) as [[_ Hd0] _]. fold d0 in Hd0.
  assert (present (pde (mm m5) d0) = true) as Hp0 by (rewrite translate_eq in Tb; fold d0 in Tb; by destruct (present (pde (mm m5) d0))).
  assert (forall a, ~ frame_of (pde (mm m5) d0) <= a < frame_of (pde (mm m5) d0) + 4096 -> pread (mm m6) a = pread (mm m5) a) as X.
  { intros a Ha. apply J3. intros i Hi. assert (i = 0) as -> by lia. rewrite Z.add_0_r. exact Ha. }
  assert (forall R va, R = P \/ R = C -> 0 <= va < 0xC0000000 -> translate (space R m6) va = translate (space R m5) va) as Hlow.
  { intros R va HR Hva. assert (pde (space R m5) d0 = pde (mm m5) d0) as Ed by (destruct HR as [->| ->]; rewrite E5; [done|by apply (ts_kernel _ _ _ Htwo)]).
    apply (low_kept (space R m5) (space R m6) d0 va); [destruct HR as [->| ->]; apply Htwo|done|done|by rewrite Ed| |done]. rewrite Ed. exact X. }
  assert (forall x o, settled P C m5 x -> 0 <= o < 4096 -> pread (mm m6) (x + o) = pread (mm m5) (x + o)) as Hwd.
  { intros x o Hx Ho. apply X. intros Ha. apply (se_parent _ _ _ _ Hx). right. exists d0. rewrite <- E5. split; [lia|]. split; [done|].
    rewrite <- (page_of_off x o (se_aligned _ _ _ _ Hx) Ho). apply page_of_in; [apply frame_aligned, pread_range, Hw5|done]. }
  exists m6. split; [exact E|]. split; [|split; [by apply Hu|]].
  - destruct Hfk as [F1 F2 F3 F4 F5 F6]. assert (forall va, va ∈ all_used v -> translate (space C m6) va = translate (space C m5) va) as HC.
    { intros va Hin'. apply Hlow; [by right|]. destruct (all_used_low _ _ Hvp Hin'). lia. }
    split.
    + intros va Hin'. destruct (F1 va Hin') as (f & g & T1 & T2 & Fg & Sw). exists f, g. rewrite HC by done. split; [done|]. split; [done|]. split; [done|].
      intros o Ho Hm. rewrite Hwd; [by apply Sw| |done]. apply (Hset va g Hin'). by left.
    + intros va va' g Hin' Hin''. rewrite !HC by done. by apply F2.
    + intros va Hva Hn. rewrite Hlow by auto. by apply F3.
    + intros va Hva. rewrite Hlow by auto. by apply F4.
    + intros va f o Hin' Tf Ho. rewrite Hwd; [by apply (F5 va)| |done]. apply (Hset va f Hin'). by right.
    + by rewrite J1.
  - intros p Hp Hne. rewrite Htr by done. destruct (Z.leb_spec (q + rb) p), (Z.ltb_spec p (q + rb + Z.of_nat 1)); cbn [andb]; try done. lia.
Qed.

Lemma free_not_busy pf m f : frame_free (pool_of pf m) f -> ~ busy m f.
Proof. intros Hf (_ & _ & Hn). by apply (Hn pf). Qed.

(** The six steps of [sys_fork] and [copy_process] on the memory. *)
Lemma fork_memory q k m pd : process_ok pd m -> spare q k 26 (length (all_used (userprog_vaddr m))) m ->
  (length (all_used (userprog_vaddr m)) <= nfree (pool_bitmap (user_pool m)))%nat -> 0x102000 <= phy_addr_start (kernel_pool m) ->
  exists rc m1 rb m2 rv m3 rd m4 m5 m6 C,
    get_kernel_pages 1 m = Ok ((q + rc) * 4096, m1) /\ get_kernel_pages 1 m1 = Ok ((q + rb) * 4096, m2) /\
    get_kernel_pages 23 m2 = Ok ((q + rv) * 4096, m3) /\ create_page_dir m3 = Ok ((q + rd) * 4096, m4) /\
    copy_body_stack3 ((q + rd) * 4096) pd (userprog_vaddr m) ((q + rb) * 4096) m4 = Ok (tt, m5) /\ mfree_page PF_KERNEL ((q + rb) * 4096) 1 m5 = Ok (tt, m6) /\
    userprog_vaddr m2 = userprog_vaddr m /\ userprog_vaddr m4 = userprog_vaddr m /\ userprog_vaddr m6 = userprog_vaddr m /\
    0 <= rc < nbits (vaddr_bitmap (kernel_vaddr m)) /\ bit_used (vaddr_bitmap (kernel_vaddr m)) rc = false /\ 0 <= rb /\ 0 <= rv /\ 0 <= rd /\
    forked (cr3 (mm m)) C (userprog_vaddr m) m m6 /\ translate (mm m6) ((q + rd) * 4096) = Some C.
Proof.
  intros Ho Hs HN Hbase. pose proof (sp_high _ _ _ _ _ Hs) as Hq.
  destruct (spare_pages q k 1 25 _ m Hs ltac:(lia)) as (m1 & rc & fc & E1 & Hrc & Rc & Lc & Ho1 & S1 & K1 & U1 & Lim).
  destruct (spare_pages q (k + 1) 1 24 _ m1 S1 ltac:(lia)) as (m2 & rb & fbs & E2 & Hrb & Rb & Lb & Ho2 & S2 & K2 & U2 & _).
  destruct (spare_pages q (k + 1 + 1) 23 1 _ m2 S2 ltac:(lia)) as (m3 & rv & fv & E3 & Hrv & Rv & Lv & Ho3 & S3 & K3 & U3 & _).
  destruct (spare_dir q _ 0 _ m3 S3) as (m4 & rd & C & E4 & Hrd & Ho4 & S4 & K4 & U4 & HaC & HdC & HfC & TC & Hdir & _).
  destruct fbs as [|fb [|]]; cbn in Lb; try lia. clear Lb.
  destruct (handed_busy m1 m2 q rb [fb] fb (sp_wf _ _ _ _ _ S1) Ho2 ltac:(left)) as (Bfb2 & Ifb2 & Ffb1).
  destruct (handed_busy m3 m4 q rd [C] C (sp_wf _ _ _ _ _ S3) Ho4 ltac:(left)) as (_ & _ & FC3).
  assert (undisturbed m1 m3) as U13 by (by transitivity m2). assert (undisturbed m2 m4) as U24 by (by transitivity m3).
  assert (undisturbed m m4) as U by (transitivity m1; [done|transitivity m3; done]).
  assert (maps_kept m2 m4) as K24 by (by transitivity m3). assert (maps_kept m m4) as K by (transitivity m1; [done|transitivity m2; done]).
  pose proof (busy_undisturbed _ _ _ U24 Bfb2) as Bfb4. pose proof (busy_undisturbed _ _ _ U3 Bfb2) as Bfb3.
  assert (fb <> C) as Hne by (intros ->; by apply (free_not_busy PF_KERNEL m3 C FC3)).
  assert (~ busy m fb) as Nfb by (apply (free_not_busy PF_KERNEL), (ud_free _ _ U1 PF_KERNEL), Ffb1).
  assert (~ busy m C) as NC by (apply (free_not_busy PF_KERNEL), (ud_free _ _ U1 PF_KERNEL), (ud_free _ _ U13 PF_KERNEL), FC3).
  pose proof (ho_nbits _ _ _ _ _ _ Ho1) as N1. pose proof (ho_nbits _ _ _ _ _ _ Ho2) as N2. pose proof (ho_nbits _ _ _ _ _ _ Ho3) as N3. pose proof (ho_nbits _ _ _ _ _ _ Ho4) as N4. cbn [vaddr_of] in *.
  pose proof (sp_k _ _ _ _ _ Hs) as Hkk. pose proof (sp_k _ _ _ _ _ S1) as Hk1. pose proof (sp_k _ _ _ _ _ S2) as Hk2. pose proof (sp_k _ _ _ _ _ S3) as Hk3.
  assert (translate (mm m4) ((q + rb) * 4096) = Some fb) as Tfb.
  { pose proof (ho_mapped _ _ _ _ _ _ Ho2 0%nat fb eq_refl) as T. rewrite Z.add_0_r in T. apply K24; [lia|done]. }
  destruct (copy_forks q _ _ m m4 pd rd fb rb C Ho S4 U K ltac:(lia) ltac:(lia) ltac:(lia) Bfb4 Tfb Hne Nfb NC HaC HdC HfC TC Hdir) as (m5 & E5 & V5 & F5 & Set5).
  { destruct (sp_room _ _ _ _ _ S4) as [R1 R2]. split; cbn [pool_of]; [by rewrite (ud_user _ _ U)|]. cbn in *. lia. }
  pose proof (copy_ready q _ _ m m4 pd rd fb rb C Ho S4 U K ltac:(lia) ltac:(lia) ltac:(lia) Bfb4 Tfb Hne HaC HdC HfC TC Hdir) as Hrdy.
  destruct (buffer_returned (cr3 (mm m)) C (userprog_vaddr m) q rb fb m m4 m5 _ _ V5 (fk_cr3 _ _ _ _ _ F5) (ud_cr3 _ _ U) (sp_vaddr _ _ _ _ _ S4) (sp_start _ _ _ _ _ S4) Hq)
    as (m6 & E6 & F6 & Uv6 & T6); [pose proof (ud_start _ _ U PF_KERNEL) as Eb; cbn [pool_of] in Eb; by rewrite Eb|lia|lia|by apply (in_pool_undisturbed m2)|apply (rd_settled _ _ _ _ _ _ _ Hrdy)|done|apply Ho|done|done|].
  exists rc, m1, rb, m2, rv, m3, rd, m4, m5, m6, C. do 6 (split; [done|]).
  split; [rewrite (ud_uv _ _ U2); apply U1|]. split; [apply U|]. split; [rewrite Uv6, (ev_uv _ _ _ _ _ _ V5); apply U|].
  split; [lia|]. split; [apply Rc; lia|]. split; [lia|]. split; [lia|]. split; [lia|]. split; [done|].
  assert (rd <> rb) as Hdb by (intros ->; congruence). rewrite T6 by lia.
  assert (mm m5 = space (cr3 (mm m)) m5) as -> by (unfold space; rewrite <- (fk_cr3 _ _ _ _ _ F5); by destruct (mm m5)).
  rewrite (ev_parent _ _ _ _ _ _ V5) by lia. assert (space (cr3 (mm m)) m4 = mm m4) as -> by (unfold space; rewrite <- (ud_cr3 _ _ U); by destruct (mm m4)). done.
Qed.
