(* ===== verification/Arena.v ===== *)
(** * The kernel and user heaps (kernel/memory.c: block_desc_init, sys_malloc, sys_free)

    Small requests are cut from one-page arenas of equally sized blocks,
    requests above 1024 bytes get whole pages; every arena starts with a
    12-byte header.  The heap is a client of the page allocator and is proved
    against its interface [PageAlloc] alone.  Block contents are not modelled,
    only headers and free lists; so the [memset]s that clear a block or a page
    before its header is written have no effect here. *)

From S2P Require Import Prelude Interrupt Paging Memory PageAlloc DList.
Import Queue.

(** [struct mem_block_desc], its [free_list] as the addresses of the free blocks. *)
Record mem_block_desc : Type := mk_desc {
  block_size : Z;
  blocks_per_arena : Z;
  free_list : list Z
}.

(** [struct arena]; [desc] is NULL ([None]) or points to an entry of the
    descriptor array of the same heap. *)
Record arena : Type := mk_arena { desc : option Z; cnt : Z; large : Z }.

Definition DESC_CNT : nat := 7.
Definition sizeof_arena : Z := 12.

(** The loop of [block_desc_init]; [block_size] is a [uint16_t]. *)
Fixpoint desc_init_from (n : nat) (block_size : Z) : list mem_block_desc :=
  match n with
  | O => []
  | S n' => mk_desc block_size ((PG_SIZE - sizeof_arena) / block_size) [] ::
            desc_init_from n' (u16 (block_size * 2))
  end.
Definition block_desc_init : list mem_block_desc := desc_init_from DESC_CNT 16.

(** [mem_init]: [total_mem] is the word the boot loader has left at 0x1200, the
    size of the memory in kilobytes; the second part is [k_block_descs]. *)
Definition mem_init (total_mem : Z) (raw : list Z) : outcome ((pool * pool * virtual_addr) * list mem_block_desc) :=
  pools ← mem_pool_init (u32 (total_mem * 1024)) raw;
  Ok (pools, block_desc_init).

(** What belongs to one heap: the descriptor array, the arena headers by the
    address of their page, and from its pool the size and the lock. *)
Record heap : Type := mk_heap {
  descs : list mem_block_desc;
  arenas : gmap Z arena;
  heap_pool_size : Z;
  heap_holds : Z
}.

Section Heap.
Context {P : Type} `{PageAlloc P}.

(** The page allocator, the heaps of the kernel and of the running process,
    and the [pgdir] of the running thread. *)
Record hstate : Type := mk_hstate { pages : P; k_heap : heap; u_heap : heap; pgdir : Z }.

Definition heap_of (pf : pool_flags) (s : hstate) : heap :=
  match pf with PF_KERNEL => k_heap s | PF_USER => u_heap s end.
Definition set_heap (pf : pool_flags) (h : heap) (s : hstate) : hstate :=
  match pf with
  | PF_KERNEL => mk_hstate (pages s) h (u_heap s) (pgdir s)
  | PF_USER => mk_hstate (pages s) (k_heap s) h (pgdir s)
  end.
Definition set_pages (p : P) (s : hstate) : hstate := mk_hstate p (k_heap s) (u_heap s) (pgdir s).

Definition on_heap (pf : pool_flags) (f : heap -> heap) : M hstate () :=
  modS (fun s => set_heap pf (f (heap_of pf s)) s).
Definition on_pages {A} (c : M P A) : M hstate A := fun s =>
  match c (pages s) with
  | Ok (a, p) => Ok (a, set_pages p s)
  | Panic w => Panic w
  | Fault => Fault
  | NoFuel => NoFuel
  end.

Definition h_lock (pf : pool_flags) : M hstate () :=
  on_heap pf (fun h => mk_heap (descs h) (arenas h) (heap_pool_size h) (heap_holds h + 1)).
Definition h_unlock (pf : pool_flags) : M hstate () :=
  s ← getS;
  _ ← assertM (1 <=? heap_holds (heap_of pf s)) "lock_release: plock->holder == running_thread()";
  on_heap pf (fun h => mk_heap (descs h) (arenas h) (heap_pool_size h) (heap_holds h - 1)).

Definition get_desc (pf : pool_flags) (i : Z) : M hstate mem_block_desc :=
  s ← getS; liftO (aget (descs (heap_of pf s)) i).
Definition get_arena (pf : pool_flags) (a : Z) : M hstate arena := fun s =>
  match arenas (heap_of pf s) !! a with Some x => Ok (x, s) | None => Fault end.

Definition put_free_list (i : Z) (l : list Z) (h : heap) : heap :=
  mk_heap (alter (fun d => mk_desc (block_size d) (blocks_per_arena d) l) (Z.to_nat i) (descs h))
    (arenas h) (heap_pool_size h) (heap_holds h).
Definition put_arena (a : Z) (x : arena) (h : heap) : heap :=
  mk_heap (descs h) (<[a := x]> (arenas h)) (heap_pool_size h) (heap_holds h).
Definition drop_arena (a : Z) (h : heap) : heap :=
  mk_heap (descs h) (delete a (arenas h)) (heap_pool_size h) (heap_holds h).

Definition arena2block (a idx block_size : Z) : Z := u32 (a + sizeof_arena + idx * block_size).
Definition block2arena (b : Z) : Z := Z.land b 0xFFFFF000.

(** The search for the block size; DESC_CNT when no descriptor fits. *)
Fixpoint find_desc (ds : list mem_block_desc) (size desc_idx : Z) : Z :=
  match ds with
  | [] => desc_idx
  | d :: ds' => if size <=? block_size d then desc_idx else find_desc ds' size (desc_idx + 1)
  end.

(** Cut the arena at [a] into blocks, from [block_idx] on. *)
Fixpoint carve (n : nat) (pf : pool_flags) (a desc_idx block_idx : Z) : M hstate () :=
  match n with
  | O => mret tt
  | S n' =>
      d ← get_desc pf desc_idx;
      let b := arena2block a block_idx (block_size d) in
      _ ← assertM (negb (q_find (free_list d) b)) "sys_malloc: !elem_find(&a->desc->free_list, &b->free_elem)";
      _ ← on_heap pf (put_free_list desc_idx (q_append (free_list d) b));
      carve n' pf a desc_idx (block_idx + 1)
  end.

Definition cur_pf (s : hstate) : pool_flags := if pgdir s =? NULL then PF_KERNEL else PF_USER.

(** A new arena for descriptor [desc_idx]; false when there is no page. *)
Definition new_arena (PF : pool_flags) (desc_idx : Z) : M hstate bool :=
  d ← get_desc PF desc_idx;
  a ← on_pages (pa_malloc PF 1);
  if a =? NULL then mret false else
  _ ← on_heap PF (put_arena a (mk_arena (Some desc_idx) (blocks_per_arena d) 0));
  _ ← carve (Z.to_nat (blocks_per_arena d)) PF a desc_idx 0;
  mret true.

Definition take_block (PF : pool_flags) (desc_idx : Z) : M hstate Z :=
  d ← get_desc PF desc_idx;
  bl ← liftO (q_pop (free_list d));
  let '(b, l) := bl in
  _ ← on_heap PF (put_free_list desc_idx l);
  let a := block2arena b in
  x ← get_arena PF a;
  _ ← on_heap PF (put_arena a (mk_arena (desc x) (u32 (cnt x - 1)) (large x)));
  mret b.

Definition sys_malloc (size : Z) : M hstate Z :=
  s ← getS;
  let PF := cur_pf s in
  if negb ((0 <? size) && (size <=? heap_pool_size (heap_of PF s))) then mret NULL else
  _ ← h_lock PF;
  if 1024 <? size then
    let page_cnt := DIV_ROUND_UP (u32 (size + sizeof_arena)) PG_SIZE in
    a ← on_pages (pa_malloc PF page_cnt);
    if a =? NULL then (_ ← h_unlock PF; mret NULL) else
    _ ← on_heap PF (put_arena a (mk_arena None page_cnt 1));
    _ ← h_unlock PF;
    mret (u32 (a + sizeof_arena))
  else
    s ← getS;
    let desc_idx := find_desc (descs (heap_of PF s)) size 0 in
    d ← get_desc PF desc_idx;
    ok ← (if q_empty (free_list d) then new_arena PF desc_idx else mret true);
    if negb ok then (_ ← h_unlock PF; mret NULL) else
    b ← take_block PF desc_idx;
    _ ← h_unlock PF;
    mret b.

(** Unlink every block of the arena at [a] from the free list. *)
Fixpoint uncarve (n : nat) (pf : pool_flags) (a desc_idx block_idx : Z) : M hstate () :=
  match n with
  | O => mret tt
  | S n' =>
      d ← get_desc pf desc_idx;
      let b := arena2block a block_idx (block_size d) in
      _ ← assertM (q_find (free_list d) b) "sys_free: elem_find(&a->desc->free_list, &b->free_elem)";
      _ ← on_heap pf (put_free_list desc_idx (q_remove (free_list d) b));
      uncarve n' pf a desc_idx (block_idx + 1)
  end.

(** The branch of [sys_free] for a block of an arena. *)
Definition free_block (PF : pool_flags) (b desc_idx : Z) : M hstate () :=
  let a := block2arena b in
  d ← get_desc PF desc_idx;
  _ ← on_heap PF (put_free_list desc_idx (q_append (free_list d) b));
  x ← get_arena PF a;
  let cnt' := u32 (cnt x + 1) in
  _ ← on_heap PF (put_arena a (mk_arena (desc x) cnt' (large x)));
  if cnt' =? blocks_per_arena d then
    _ ← uncarve (Z.to_nat (blocks_per_arena d)) PF a desc_idx 0;
    _ ← on_pages (pa_mfree PF a 1);
    on_heap PF (drop_arena a)
  else mret tt.

Definition sys_free (ptr : Z) : M hstate () :=
  _ ← assertM (negb (ptr =? NULL)) "sys_free: ptr != NULL";
  s ← getS;
  let PF := cur_pf s in
  _ ← match PF with
      | PF_KERNEL => assertM (K_HEAP_START <=? ptr) "sys_free: (uint32_t)ptr >= K_HEAP_START"
      | PF_USER => mret tt
      end;
  _ ← h_lock PF;
  let a := block2arena ptr in
  x ← get_arena PF a;
  _ ← assertM ((large x =? 0) || (large x =? 1)) "sys_free: a->large == 0 || a->large == 1";
  _ ← match desc x with
      | None => if large x =? 1
                then (_ ← on_pages (pa_mfree PF a (cnt x)); on_heap PF (drop_arena a))
                else faultM
      | Some desc_idx => free_block PF ptr desc_idx
      end;
  h_unlock PF.

End Heap.
Arguments hstate : clear implicits.

(** ** The invariant of a heap *)

(** [b] is a block of the arena at [a] whose descriptor is [d]. *)
Definition is_block (d : mem_block_desc) (a b : Z) : Prop :=
  exists k, 0 <= k < blocks_per_arena d /\ b = a + sizeof_arena + k * block_size d.

(** The blocks of the arena at [a] on the free list of [d]. *)
Definition free_in (d : mem_block_desc) (a : Z) : list Z :=
  filter (fun b => block2arena b = a) (free_list d).

(** The page numbers an arena occupies. *)
Definition occupies (a : Z) (x : arena) (p : Z) : Prop :=
  a / 4096 <= p < a / 4096 + (if desc x is None then cnt x else 1).

(** [h] is well formed on the live pages [L].  [full] is an arena that may be
    without an allocated block, between two steps of an operation. *)
Record heap_wf (L : Z -> Prop) (full : option Z) (h : heap) : Prop := {
  hw_len : length (descs h) = DESC_CNT;
  hw_desc : forall i d, descs h !! i = Some d ->
    block_size d = 16 * 2 ^ Z.of_nat i /\ blocks_per_arena d = (PG_SIZE - sizeof_arena) / block_size d;
  hw_nodup : forall i d, descs h !! i = Some d -> NoDup (free_list d);
  hw_free : forall i d b, descs h !! i = Some d -> b ∈ free_list d ->
    exists a x, arenas h !! a = Some x /\ desc x = Some (Z.of_nat i) /\ is_block d a b;
  hw_small : forall a x di, arenas h !! a = Some x -> desc x = Some di ->
    exists p i d, a = p * 4096 /\ 0 < p < 0xFFC00 /\ large x = 0 /\ di = Z.of_nat i /\
      descs h !! i = Some d /\ cnt x = Z.of_nat (length (free_in d a)) /\
      (cnt x < blocks_per_arena d \/ full = Some a);
  hw_large : forall a x, arenas h !! a = Some x -> desc x = None ->
    exists p, a = p * 4096 /\ 0 < p /\ large x = 1 /\ 0 < cnt x /\ p + cnt x <= 0xFFC00;
  hw_live : forall a x p, arenas h !! a = Some x -> occupies a x p -> L p;
  hw_disj : forall a a' x x' p, arenas h !! a = Some x -> arenas h !! a' = Some x' ->
    occupies a x p -> occupies a' x' p -> a = a'
}.

(** [b] is a block that was handed out and not given back. *)
Definition allocated (h : heap) (b : Z) : Prop :=
  exists a x i d, arenas h !! a = Some x /\ desc x = Some (Z.of_nat i) /\ descs h !! i = Some d /\
    is_block d a b /\ b ∉ free_list d.

(** ** Block arithmetic *)

Lemma desc_sizes i bs : (i < DESC_CNT)%nat -> bs = 16 * 2 ^ Z.of_nat i ->
  16 <= bs <= 1024 /\ 0 < (PG_SIZE - sizeof_arena) / bs <= 255 /\
  sizeof_arena + (PG_SIZE - sizeof_arena) / bs * bs <= 4096.
Proof.
  unfold DESC_CNT, PG_SIZE, sizeof_arena. intros Hi ->.
  do 7 (destruct i as [|i]; [vm_compute; split; [split; discriminate|]; split; [split; [reflexivity|discriminate]|discriminate]|]). lia.
Qed.

Section Blocks.
Context {L : Z -> Prop} {full : option Z} {h : heap} (Hh : heap_wf L full h).

Lemma desc_bounds i d : descs h !! i = Some d ->
  16 <= block_size d <= 1024 /\ 0 < blocks_per_arena d <= 255 /\
  sizeof_arena + blocks_per_arena d * block_size d <= 4096.
Proof.
  intros Hd. destruct (hw_desc _ _ _ Hh i d Hd) as [E1 E2]. rewrite E2.
  apply (desc_sizes i); [|done]. pose proof (lookup_lt_Some _ _ _ Hd). by rewrite (hw_len _ _ _ Hh) in H.
Qed.

Lemma block_in_page i d p b : descs h !! i = Some d -> is_block d (p * 4096) b ->
  p * 4096 + 12 <= b /\ b + block_size d <= (p + 1) * 4096.
Proof.
  intros Hd (k & Hk & ->). pose proof (desc_bounds i d Hd) as (B1 & B2 & B3).
  unfold sizeof_arena in *. nia.
Qed.

Lemma block2arena_block i d p b : descs h !! i = Some d -> 0 < p < 0xFFC00 ->
  is_block d (p * 4096) b -> block2arena b = p * 4096.
Proof.
  intros Hd Hp Hb. pose proof (block_in_page i d p b Hd Hb). pose proof (desc_bounds i d Hd).
  unfold block2arena. fold (frame_of b). rewrite frame_of_eq by lia.
  replace (b / 4096) with p; [done|]. apply (Z.div_unique_pos _ _ _ (b - p * 4096)); lia.
Qed.

Lemma arena2block_block i d p k : descs h !! i = Some d -> 0 < p < 0xFFC00 ->
  0 <= k < blocks_per_arena d -> arena2block (p * 4096) k (block_size d) = p * 4096 + 12 + k * block_size d.
Proof.
  intros Hd Hp Hk. assert (is_block d (p * 4096) (p * 4096 + sizeof_arena + k * block_size d)) as Hb by (by exists k).
  pose proof (block_in_page i d p _ Hd Hb). pose proof (desc_bounds i d Hd).
  unfold arena2block. unfold sizeof_arena in *. apply wrapu_small. lia.
Qed.

(** The page of an arena that has blocks. *)
Lemma arena_page a x i : arenas h !! a = Some x -> desc x = Some (Z.of_nat i) ->
  exists p d, a = p * 4096 /\ 0 < p < 0xFFC00 /\ large x = 0 /\ descs h !! i = Some d /\
    cnt x = Z.of_nat (length (free_in d a)) /\ (cnt x < blocks_per_arena d \/ full = Some a).
Proof.
  intros Hx Hd. destruct (hw_small _ _ _ Hh a x _ Hx Hd) as (p & j & d & H1 & H2 & H3 & H4 & H5).
  assert (j = i) as -> by lia. by exists p, d.
Qed.

(** A block determines its arena. *)
Lemma block_arena a x i d b : arenas h !! a = Some x -> desc x = Some (Z.of_nat i) ->
  descs h !! i = Some d -> is_block d a b -> block2arena b = a.
Proof.
  intros Hx Hd Hi Hb. destruct (arena_page a x i Hx Hd) as (p & d' & -> & Hp & _).
  by apply (block2arena_block i d p b).
Qed.

(** The free list entry says in which arena the block lies. *)
Lemma free_block_arena i d b : descs h !! i = Some d -> b ∈ free_list d ->
  exists x, arenas h !! block2arena b = Some x /\ desc x = Some (Z.of_nat i) /\ is_block d (block2arena b) b.
Proof.
  intros Hd Hb. destruct (hw_free _ _ _ Hh i d b Hd Hb) as (a & x & Hx & Hdx & Hblk).
  rewrite (block_arena a x i d b) by done. by exists x.
Qed.

(** The blocks of an arena, as a list. *)
Definition blocks (d : mem_block_desc) (a : Z) : list Z :=
  (fun k => a + sizeof_arena + k * block_size d) <$> seqZ 0 (blocks_per_arena d).

Lemma elem_of_blocks d a b : b ∈ blocks d a <-> is_block d a b.
Proof.
  unfold blocks, is_block. rewrite list_elem_of_fmap. split.
  - intros (k & -> & Hk%elem_of_seqZ). exists k. split; [lia|done].
  - intros (k & Hk & ->). exists k. split; [done|]. apply elem_of_seqZ. lia.
Qed.

Lemma length_blocks d a : 0 <= blocks_per_arena d -> Z.of_nat (length (blocks d a)) = blocks_per_arena d.
Proof. intros Hd. unfold blocks. rewrite length_fmap, length_seqZ. lia. Qed.

Lemma NoDup_blocks d a : 0 < block_size d -> NoDup (blocks d a).
Proof.
  intros Hd. apply NoDup_fmap_2_strong; [|apply NoDup_seqZ]. intros x y _ _ E. nia.
Qed.

(** Pigeonhole: no more free blocks than blocks, and with all of them free
    every block is on the list. *)
Lemma free_in_bound a x i d : arenas h !! a = Some x -> desc x = Some (Z.of_nat i) -> descs h !! i = Some d ->
  Z.of_nat (length (free_in d a)) <= blocks_per_arena d /\
  (Z.of_nat (length (free_in d a)) = blocks_per_arena d -> forall b, is_block d a b -> b ∈ free_list d).
Proof.
  intros Hx Hdx Hd. pose proof (desc_bounds i d Hd) as (B1 & B2 & _).
  assert (free_in d a ⊆+ blocks d a) as Hsub.
  { apply NoDup_submseteq; [apply NoDup_filter, (hw_nodup _ _ _ Hh i d Hd)|].
    intros b [Hb Hin]%list_elem_of_filter. apply elem_of_blocks.
    destruct (free_block_arena i d b Hd Hin) as (y & Hy & Hdy & Hblk). by rewrite Hb in Hblk. }
  pose proof (length_blocks d a ltac:(lia)) as Hl. split; [apply submseteq_length in Hsub; lia|].
  intros E b Hb. apply elem_of_blocks in Hb.
  assert (free_in d a ≡ₚ blocks d a) as HP by (apply submseteq_length_Permutation; [done|lia]).
  rewrite <- HP in Hb. by apply list_elem_of_filter in Hb as [_ ?].
Qed.
End Blocks.

(** ** Updates of a heap *)

Definition with_free (l : list Z) (d : mem_block_desc) : mem_block_desc :=
  mk_desc (block_size d) (blocks_per_arena d) l.

Lemma lookup_put_free_list i j l h :
  descs (put_free_list (Z.of_nat i) l h) !! j =
    if decide (i = j) then with_free l <$> descs h !! j else descs h !! j.
Proof.
  cbn. rewrite Nat2Z.id. case_decide; [subst; apply list_lookup_alter_eq|by apply list_lookup_alter_ne].
Qed.

Lemma put_free_list_inv i j l h d' : descs (put_free_list (Z.of_nat i) l h) !! j = Some d' ->
  exists d, descs h !! j = Some d /\ block_size d' = block_size d /\ blocks_per_arena d' = blocks_per_arena d /\
    ((i = j /\ free_list d' = l) \/ (i <> j /\ d' = d)).
Proof.
  rewrite lookup_put_free_list. case_decide as E.
  - destruct (descs h !! j) as [d|] eqn:Ed; [|done]. intros [= <-]. exists d. do 3 (split; [done|]). by left.
  - intros Hd. exists d'. do 3 (split; [done|]). by right.
Qed.

(** Only page counts matter for the pages of an arena. *)
Lemma occupies_ext a x x' p : desc x' = desc x -> (desc x = None -> cnt x' = cnt x) ->
  occupies a x' p <-> occupies a x p.
Proof. unfold occupies. intros -> E. destruct (desc x); [done|]. by rewrite E. Qed.

(** Exchanging the free list of a descriptor and the counter of one of its
    arenas together. *)
Lemma heap_wf_update L full full' h i d a x l c :
  heap_wf L full h -> descs h !! i = Some d -> arenas h !! a = Some x -> desc x = Some (Z.of_nat i) ->
  NoDup l -> (forall b, b ∈ l -> b ∈ free_list d \/ is_block d a b) ->
  c = Z.of_nat (length (filter (fun b => block2arena b = a) l)) ->
  (c < blocks_per_arena d \/ full' = Some a) ->
  (forall a', a' <> a -> length (filter (fun b => block2arena b = a') l) = length (free_in d a')) ->
  (forall a', a' <> a -> full = Some a' -> full' = Some a') ->
  heap_wf L full' (put_arena a (mk_arena (desc x) c (large x)) (put_free_list (Z.of_nat i) l h)).
Proof.
  intros Hh Hd Hx Hdx Hnd Hin Hc Hcb Hoth Hfull. pose proof Hh as [W1 W2 W3 W4 W5 W6 W7 W8].
  assert (forall a' y, <[a := mk_arena (desc x) c (large x)]> (arenas h) !! a' = Some y ->
            exists y0, arenas h !! a' = Some y0 /\ desc y = desc y0 /\ large y = large y0 /\
              (a' <> a -> y = y0) /\ (a' = a -> cnt y = c)) as Hinv.
  { intros a' y [[<- <-]|[Hne Hy]]%lookup_insert_Some; [by exists x|]. by exists y. }
  assert (forall a' y y0 p, arenas h !! a' = Some y0 -> desc y = desc y0 -> (a' <> a -> y = y0) ->
            occupies a' y p -> occupies a' y0 p) as Hocc.
  { intros a' y y0 p Hy0 E Hne. apply occupies_ext; [done|]. intros En. destruct (decide (a' = a)) as [->|].
    - simplify_eq. congruence.
    - by rewrite Hne. }
  split; cbn [put_arena descs arenas].
  - cbn. by rewrite length_alter.
  - intros j d' (d0 & H0 & -> & -> & _)%put_free_list_inv. by apply W2.
  - intros j d' (d0 & H0 & _ & _ & [[<- ->]|[_ ->]])%put_free_list_inv; [done|by apply (W3 j)].
  - intros j d' b (d0 & H0 & E1 & E2 & [[<- El]|[Hne ->]])%put_free_list_inv Hb.
    + rewrite El in Hb. assert (d0 = d) as -> by congruence.
      destruct (Hin b Hb) as [Hb'|Hb'].
      * destruct (W4 i d b Hd Hb') as (a' & y & Hy & Hdy & k & Hk & ->).
        destruct (decide (a' = a)) as [->|Hne].
        -- simplify_eq. eexists a, _. rewrite lookup_insert_eq. split; [done|]. split; [done|].
           exists k. by rewrite E1, E2.
        -- exists a', y. rewrite lookup_insert_ne by done. split; [done|]. split; [done|].
           exists k. by rewrite E1, E2.
      * eexists a, _. rewrite lookup_insert_eq. split; [done|]. split; [done|].
        destruct Hb' as (k & Hk & ->). exists k. by rewrite E1, E2.
    + destruct (W4 j d0 b H0 Hb) as (a' & y & Hy & Hdy & Hblk). exists a', y.
      rewrite lookup_insert_ne; [done|]. intros ->. simplify_eq.
  - intros a' y di Hy Hdy. destruct (Hinv a' y Hy) as (y0 & H0 & Ed & El & Hne & Heq). rewrite Ed in Hdy.
    destruct (W5 a' y0 di H0 Hdy) as (p & j & d0 & -> & Hp & Hlg & -> & Hd0 & Hcnt & Hfl).
    destruct (decide (p * 4096 = a)) as [Ea|Na].
    + subst a. rewrite H0 in Hx. injection Hx as ->. rewrite Hdx in Hdy. injection Hdy as Hij.
      assert (j = i) as -> by lia. assert (d0 = d) as -> by congruence.
      exists p, i, (with_free l d). split; [done|]. split; [done|]. split; [congruence|]. split; [done|].
      rewrite lookup_put_free_list, decide_True, Hd by done. split; [done|]. rewrite Heq by done. done.
    + rewrite Hne by done. destruct (decide (i = j)) as [<-|Nij].
      * assert (d0 = d) as -> by congruence. exists p, i, (with_free l d).
        rewrite lookup_put_free_list, decide_True, Hd by done. do 5 (split; [done|]).
        split; [rewrite Hcnt; unfold free_in at 2; cbn; by rewrite Hoth|]. destruct Hfl; [by left|right; eauto].
      * exists p, j, d0. rewrite lookup_put_free_list, decide_False by done. do 5 (split; [done|]).
        split; [done|]. destruct Hfl; [by left|right; eauto].
  - intros a' y Hy Hdy. destruct (Hinv a' y Hy) as (y0 & H0 & Ed & El & Hne & Heq). rewrite Ed in Hdy.
    destruct (decide (a' = a)) as [->|Na]; [simplify_eq; congruence|]. rewrite Hne by done. by apply W6.
  - intros a' y p Hy Ho. destruct (Hinv a' y Hy) as (y0 & H0 & Ed & El & Hne & Heq). eauto.
  - intros a1 a2 y1 y2 p Hy1 Hy2 Ho1 Ho2. destruct (Hinv _ _ Hy1) as (z1 & ? & ? & ? & ? & ?).
    destruct (Hinv _ _ Hy2) as (z2 & ? & ? & ? & ? & ?). eapply (W8 a1 a2 z1 z2); eauto.
Qed.

(** What such an update does to the allocated blocks. *)
Lemma allocated_update L full h i d a x l c b :
  heap_wf L full h -> descs h !! i = Some d -> arenas h !! a = Some x -> desc x = Some (Z.of_nat i) ->
  (forall b, (b ∈ l <-> b ∈ free_list d) \/ is_block d a b) ->
  allocated (put_arena a (mk_arena (desc x) c (large x)) (put_free_list (Z.of_nat i) l h)) b <->
  (allocated h b /\ (b ∈ l -> ~ is_block d a b)) \/ (is_block d a b /\ b ∉ l).
Proof.
  intros Hh Hd Hx Hdx Hl. unfold allocated. cbn [put_arena descs arenas]. split.
  - intros (a' & y & j & d' & Hy & Hdy & Hd' & Hb & Hn).
    apply put_free_list_inv in Hd' as (d0 & H0 & E1 & E2 & Hc).
    assert (is_block d0 a' b) as Hb0 by (destruct Hb as (k & Hk & ->); exists k; by rewrite <- E1, <- E2).
    apply lookup_insert_Some in Hy as [[<- <-]|[Hne Hy]].
    + cbn in Hdy. rewrite Hdx in Hdy. injection Hdy as Hij. assert (j = i) as -> by lia.
      destruct Hc as [[_ El]|[? _]]; [|done]. rewrite El in Hn. assert (d0 = d) as -> by congruence. by right.
    + assert (~ (j = i /\ is_block d a b)) as Hno.
      { intros [-> Hb']. apply Hne. rewrite <- (block_arena Hh a x i d b Hx Hdx Hd Hb').
        apply (block_arena Hh a' y i d0 b Hy Hdy H0 Hb0). }
      left. destruct Hc as [[<- El]|[Hij ->]].
      * assert (d0 = d) as -> by congruence. rewrite El in Hn. split; [|done].
        exists a', y, i, d. do 4 (split; [done|]). destruct (Hl b) as [E|Hb']; [by rewrite <- E|by destruct Hno].
      * split; [by exists a', y, j, d0|]. intros _ Hb'.
        assert (a' = a); [|done]. rewrite <- (block_arena Hh a x i d b Hx Hdx Hd Hb').
        symmetry. apply (block_arena Hh a' y j d0 b Hy Hdy H0 Hb0).
  - intros [[(a' & y & j & d' & Hy & Hdy & Hd' & Hb & Hn) Hnl]|[Hb Hn]].
    + destruct (decide (a' = a)) as [->|Hne].
      * assert (y = x) as -> by congruence.
        assert (j = i) as -> by (rewrite Hdx in Hdy; injection Hdy as ?; lia).
        assert (d' = d) as -> by congruence.
        eexists a, _, i, (with_free l d). rewrite lookup_insert_eq, lookup_put_free_list, decide_True, Hd by done.
        do 3 (split; [done|]). split; [done|]. cbn. intros Hin. by apply Hnl.
      * destruct (decide (i = j)) as [<-|Hij].
        -- assert (d' = d) as -> by congruence. exists a', y, i, (with_free l d).
           rewrite lookup_insert_ne, lookup_put_free_list, decide_True, Hd by done. do 3 (split; [done|]).
           split; [done|]. cbn. destruct (Hl b) as [E|Hb']; [by rewrite E|].
           destruct Hne. rewrite <- (block_arena Hh a x i d b Hx Hdx Hd Hb').
           symmetry. apply (block_arena Hh a' y i d b Hy Hdy Hd Hb).
        -- exists a', y, j, d'. by rewrite lookup_insert_ne, lookup_put_free_list, decide_False by done.
    + eexists a, _, i, (with_free l d). rewrite lookup_insert_eq, lookup_put_free_list, decide_True, Hd by done. done.
Qed.

(** Taking the first block of a free list. *)
Lemma pop_wf L full h i d b l :
  heap_wf L full h -> descs h !! i = Some d -> free_list d = b :: l ->
  (full = None \/ full = Some (block2arena b)) ->
  exists x, arenas h !! block2arena b = Some x /\ desc x = Some (Z.of_nat i) /\ is_block d (block2arena b) b /\
    let h' := put_arena (block2arena b) (mk_arena (desc x) (u32 (cnt x - 1)) (large x))
                (put_free_list (Z.of_nat i) l h) in
    heap_wf L None h' /\ ~ allocated h b /\ (forall b', allocated h' b' <-> allocated h b' \/ b' = b).
Proof.
  intros Hh Hd Hl Hfull. assert (b ∈ free_list d) as Hb by (rewrite Hl; left).
  destruct (free_block_arena Hh i d b Hd Hb) as (x & Hx & Hdx & Hblk).
  pose proof (hw_nodup _ _ _ Hh i d Hd) as Hnd. rewrite Hl in Hnd. apply NoDup_cons in Hnd as [Hnb Hnd].
  destruct (arena_page Hh _ x i Hx Hdx) as (p & d' & Ea & Hp & Hlg & Hd' & Hc & Hf).
  assert (d' = d) as -> by congruence.
  destruct (free_in_bound Hh _ x i d Hx Hdx Hd) as [Hle _].
  pose proof (desc_bounds Hh i d Hd) as (_ & B2 & _).
  assert (free_in d (block2arena b) = b :: filter (fun y => block2arena y = block2arena b) l) as Efi.
  { unfold free_in. rewrite Hl, filter_cons, decide_True by done. done. }
  rewrite Efi in *. cbn [length] in *.
  exists x. split; [done|]. split; [done|]. split; [done|]. cbn zeta.
  rewrite wrapu_small by lia.
  assert (forall b', (b' ∈ l <-> b' ∈ free_list d) \/ is_block d (block2arena b) b') as Hsame.
  { intros b'. destruct (decide (b' = b)) as [->|Hne]; [by right|]. left. rewrite Hl. set_solver. }
  split; [|split].
  - eapply heap_wf_update; try done.
    + intros b' Hb'. left. rewrite Hl. by right.
    + lia.
    + left. lia.
    + intros a' Ha'. unfold free_in. rewrite Hl, filter_cons. by rewrite decide_False.
    + intros a' Ha' E. destruct Hfull; congruence.
  - intros (a' & y & j & d0 & Hy & Hdy & Hd0 & Hb0 & Hn). apply Hn.
    assert (a' = block2arena b) as -> by (symmetry; by apply (block_arena Hh a' y j d0 b)).
    assert (y = x) as -> by congruence. rewrite Hdx in Hdy. injection Hdy as Hij.
    assert (j = i) as -> by lia. congruence.
  - intros b'. rewrite (allocated_update L full h i d _ x l _ b') by done. split.
    + intros [[Ha _]|[Hb' Hn]]; [by left|]. destruct (decide (b' = b)) as [->|Hne]; [by right|left].
      exists (block2arena b), x, i, d. do 4 (split; [done|]). rewrite Hl. set_solver.
    + intros [Ha| ->]; [|by right]. left. split; [done|]. intros Hin Hb'.
      destruct Ha as (a' & y & j & d0 & Hy & Hdy & Hd0 & Hb0 & Hn). apply Hn.
      assert (a' = block2arena b) as ->.
      { rewrite <- (block_arena Hh a' y j d0 b' Hy Hdy Hd0 Hb0). symmetry.
        by rewrite (block_arena Hh _ x i d b' Hx Hdx Hd Hb'). }
      assert (y = x) as -> by congruence. rewrite Hdx in Hdy. injection Hdy as Hij.
      assert (j = i) as -> by lia. assert (d0 = d) as -> by congruence. rewrite Hl. by right.
Qed.

(** A block and its arena are determined by the address. *)
Lemma block_owner L full h a x i d a' y j d' b : heap_wf L full h ->
  arenas h !! a = Some x -> desc x = Some (Z.of_nat i) -> descs h !! i = Some d -> is_block d a b ->
  arenas h !! a' = Some y -> desc y = Some (Z.of_nat j) -> descs h !! j = Some d' -> is_block d' a' b ->
  a' = a /\ y = x /\ j = i /\ d' = d.
Proof.
  intros Hh Hx Hdx Hd Hb Hy Hdy Hd' Hb'.
  assert (a' = a) as ->.
  { rewrite <- (block_arena Hh a x i d b Hx Hdx Hd Hb). symmetry. by apply (block_arena Hh a' y j d' b). }
  assert (y = x) as -> by congruence. rewrite Hdx in Hdy. injection Hdy as Hij.
  assert (j = i) as -> by lia. split; [done|]. split; [done|]. split; [done|congruence].
Qed.

(** Giving a block back. *)
Lemma push_wf L h i d b a x :
  heap_wf L None h -> descs h !! i = Some d -> arenas h !! a = Some x -> desc x = Some (Z.of_nat i) ->
  is_block d a b -> b ∉ free_list d ->
  let h' := put_arena a (mk_arena (desc x) (u32 (cnt x + 1)) (large x))
              (put_free_list (Z.of_nat i) (q_append (free_list d) b) h) in
  u32 (cnt x + 1) = cnt x + 1 /\ cnt x + 1 <= blocks_per_arena d /\
  heap_wf L (if cnt x + 1 =? blocks_per_arena d then Some a else None) h' /\
  (forall b', allocated h' b' <-> allocated h b' /\ b' <> b).
Proof.
  intros Hh Hd Hx Hdx Hblk Hn. pose proof (block_arena Hh a x i d b Hx Hdx Hd Hblk) as Eab.
  destruct (arena_page Hh _ x i Hx Hdx) as (p & d' & Ea & Hp & Hlg & Hd' & Hc & Hf).
  assert (d' = d) as -> by congruence.
  destruct (free_in_bound Hh _ x i d Hx Hdx Hd) as [Hle Hall].
  pose proof (desc_bounds Hh i d Hd) as (_ & B2 & _).
  assert (cnt x + 1 <= blocks_per_arena d) as Hlt.
  { destruct (Z.eq_dec (Z.of_nat (length (free_in d a))) (blocks_per_arena d)) as [E|]; [|lia].
    by destruct Hn; apply Hall. }
  assert (u32 (cnt x + 1) = cnt x + 1) as Eu by (apply wrapu_small; lia).
  rewrite Eu. cbn zeta. split; [done|]. split; [done|]. split.
  - eapply heap_wf_update; try done.
    + unfold q_append. apply NoDup_app. split; [by apply (hw_nodup _ _ _ Hh i)|].
      split; [|apply NoDup_singleton]. intros y Hy Hy'%list_elem_of_singleton. by subst.
    + unfold q_append. intros b' [Hb'|Hb'%list_elem_of_singleton]%elem_of_app; [by left|right; by subst].
    + unfold q_append. rewrite filter_app, length_app. fold (free_in d a).
      rewrite filter_cons, decide_True by done. cbn. lia.
    + destruct (Z.eqb_spec (cnt x + 1) (blocks_per_arena d)); [by right|left; lia].
    + intros a' Ha'. unfold q_append. rewrite filter_app, length_app. fold (free_in d a').
      rewrite filter_cons, decide_False by congruence. cbn. lia.
  - intros b'. rewrite (allocated_update L None h i d a x _ _ b'); try done.
    2:{ intros y. destruct (decide (y = b)) as [->|]; [by right|left]. unfold q_append. set_solver. }
    split.
    + intros [[Ha Hnb]|[Hb' Hnb]].
      * split; [done|]. intros ->. apply Hnb; [|done]. unfold q_append. set_solver.
      * split; [|intros ->; apply Hnb; unfold q_append; set_solver].
        exists a, x, i, d. do 4 (split; [done|]). intros ?. apply Hnb. unfold q_append. set_solver.
    + intros [Ha Hne]. left. split; [done|]. intros Hin Hb'.
      destruct Ha as (a' & y & j & d0 & Hy & Hdy & Hd0 & Hb0 & Hn0).
      destruct (block_owner L None h a x i d a' y j d0 b') as (-> & -> & -> & ->); try done.
      apply Hn0. unfold q_append in Hin. set_solver.
Qed.

(** A fresh page as an arena without free blocks. *)
Lemma put_new_wf L h i d p :
  heap_wf L None h -> descs h !! i = Some d -> free_list d = [] -> 0 < p < 0xFFC00 -> ~ L p ->
  let h' := put_arena (p * 4096) (mk_arena (Some (Z.of_nat i)) 0 0) h in
  heap_wf (fun y => L y \/ p <= y < p + 1) None h' /\ arenas h !! (p * 4096) = None /\
  (forall b, allocated h b -> ~ is_block d (p * 4096) b) /\
  (forall b, allocated h' b <-> allocated h b \/ is_block d (p * 4096) b).
Proof.
  intros Hh Hd Hl Hp HL h'. pose proof (desc_bounds Hh i d Hd) as (_ & B2 & _).
  assert (arenas h !! (p * 4096) = None) as Hfresh.
  { destruct (arenas h !! (p * 4096)) as [x|] eqn:Hx; [|done]. destruct HL.
    apply (hw_live _ _ _ Hh (p * 4096) x p Hx). unfold occupies. rewrite Z.div_mul by lia.
    destruct (desc x) eqn:E; [lia|].
    destruct (hw_large _ _ _ Hh _ _ Hx E) as (q & Eq & _ & _ & Hc & _). lia. }
  assert (heap_wf (fun y => L y \/ p <= y < p + 1) None h') as Hh'.
  { pose proof Hh as [W1 W2 W3 W4 W5 W6 W7 W8].
    assert (forall y, occupies (p * 4096) (mk_arena (Some (Z.of_nat i)) 0 0) y <-> y = p) as Hocc.
    { intros y. unfold occupies. cbn. rewrite Z.div_mul by lia. lia. }
    assert (forall a x y, arenas h !! a = Some x -> occupies a x y -> y <> p) as Hold.
    { intros a x y Hx Hy ->. by apply HL, (W7 a x). }
    split; cbn [h' put_arena descs arenas]; try done.
    - intros j d' b Hd' Hb. destruct (W4 j d' b Hd' Hb) as (a & x & Hx & Hr). exists a, x.
      rewrite lookup_insert_ne by congruence. done.
    - intros a x di [[<- <-]|[Hne Hx]]%lookup_insert_Some Hdx; [|by apply W5].
      injection Hdx as <-. exists p, i, d. do 5 (split; [done|]). unfold free_in. rewrite Hl.
      split; [done|left; cbn; lia].
    - intros a x [[<- <-]|[Hne Hx]]%lookup_insert_Some Hdx; [done|by apply W6].
    - intros a x y [[<- <-]|[Hne Hx]]%lookup_insert_Some Hy; [|left; eauto]. apply Hocc in Hy. right. lia.
    - intros a a' x x' y Hx Hx' Hy Hy'.
      apply lookup_insert_Some in Hx as [[<- <-]|[Hne Hx]], Hx' as [[<- <-]|[Hne' Hx']]; try done.
      + apply Hocc in Hy as ->. by destruct (Hold _ _ _ Hx' Hy').
      + apply Hocc in Hy' as ->. by destruct (Hold _ _ _ Hx Hy).
      + by eapply W8. }
  split; [done|]. split; [done|]. split.
  - intros b (a & x & j & d' & Hx & Hdx & Hd' & Hb & _) Hb'. 
    destruct (block_owner _ None h' (p * 4096) (mk_arena (Some (Z.of_nat i)) 0 0) i d a x j d' b Hh')
      as (-> & _); try done; cbn; [apply lookup_insert_eq|rewrite lookup_insert_ne by congruence; done|].
    congruence.
  - intros b. split.
    + intros (a & x & j & d' & Hx & Hdx & Hd' & Hb & Hn). cbn in Hx.
      apply lookup_insert_Some in Hx as [[<- <-]|[Hne Hx]].
      * injection Hdx as Hij. assert (j = i) as -> by lia. right. by assert (d' = d) as -> by (cbn in *; congruence).
      * left. by exists a, x, j, d'.
    + intros [(a & x & j & d' & Hx & Hdx & Hd' & Hb & Hn)|Hb].
      * exists a, x, j, d'. cbn. rewrite lookup_insert_ne by congruence. done.
      * eexists _, _, i, d. cbn. rewrite lookup_insert_eq. do 4 (split; [done|]). rewrite Hl. apply not_elem_of_nil.
Qed.

(** Removing an arena without free blocks on the list. *)
Lemma drop_wf L h i d a x p :
  heap_wf L None h -> descs h !! i = Some d -> arenas h !! a = Some x -> desc x = Some (Z.of_nat i) ->
  a = p * 4096 -> free_in d a = [] ->
  heap_wf (fun y => L y /\ ~ p <= y < p + 1) None (drop_arena a h) /\
  (forall b, allocated (drop_arena a h) b <-> allocated h b /\ ~ is_block d a b).
Proof.
  intros Hh Hd Hx Hdx Ea Hf. pose proof Hh as [W1 W2 W3 W4 W5 W6 W7 W8].
  assert (forall y, occupies a x y <-> y = p) as Hocc.
  { intros y. unfold occupies. rewrite Hdx, Ea, Z.div_mul by lia. lia. }
  split.
  - split; cbn [drop_arena descs arenas]; try done.
    + intros j d' b Hd' Hb. destruct (W4 j d' b Hd' Hb) as (a' & y & Hy & Hdy & Hblk). exists a', y.
      rewrite lookup_delete_ne; [done|]. intros ->. assert (y = x) as -> by congruence.
      rewrite Hdx in Hdy. injection Hdy as Hij. assert (j = i) as -> by lia. assert (d' = d) as -> by congruence.
      assert (b ∈ free_in d a') as Hin; [|by rewrite Hf in Hin; apply elem_of_nil in Hin].
      apply list_elem_of_filter. split; [by apply (block_arena Hh a' x i d b)|done].
    + intros a' y di [_ Hy]%lookup_delete_Some. by apply W5.
    + intros a' y [_ Hy]%lookup_delete_Some. by apply W6.
    + intros a' y z [Hne Hy]%lookup_delete_Some Ho. split; [by eapply W7|]. intros Hz.
      apply Hne. apply (W8 a a' x y z); try done. apply Hocc. lia.
    + intros a1 a2 y1 y2 z [_ Hy1]%lookup_delete_Some [_ Hy2]%lookup_delete_Some. by apply W8.
  - intros b. split.
    + intros (a' & y & j & d' & Hy & Hdy & Hd' & Hb & Hn). cbn in Hy. apply lookup_delete_Some in Hy as [Hne Hy].
      split; [by exists a', y, j, d'|]. intros Hb'. apply Hne.
      destruct (block_owner L None h a x i d a' y j d' b) as (-> & _); done.
    + intros [(a' & y & j & d' & Hy & Hdy & Hd' & Hb & Hn) Hnb]. exists a', y, j, d'. cbn.
      rewrite lookup_delete_ne; [done|]. intros <-. apply Hnb.
      assert (y = x) as -> by congruence. rewrite Hdx in Hdy. injection Hdy as Hij.
      assert (j = i) as -> by lia. by assert (d' = d) as -> by congruence.
Qed.

(** ** The operations on the whole state *)

Section HeapOps.
Context {P : Type} `{PA : PageAlloc P}.
Implicit Types (s : hstate P) (pf : pool_flags).

Definition live_pages pf s : Z -> Prop := pa_live pf (pages s).

(** The heap of [pf] and the page allocator under it are well formed. *)
Definition state_wf pf s : Prop :=
  pa_inv pf (pages s) /\ heap_wf (live_pages pf s) None (heap_of pf s).

Lemma on_heap_run pf f s : on_heap pf f s = Ok (tt, set_heap pf (f (heap_of pf s)) s).
Proof. done. Qed.

Lemma heap_of_set pf h s : heap_of pf (set_heap pf h s) = h.
Proof. by destruct pf. Qed.

Lemma set_heap_set pf h h' s : set_heap pf h (set_heap pf h' s) = set_heap pf h s.
Proof. by destruct pf. Qed.

Lemma set_heap_same pf s : set_heap pf (heap_of pf s) s = s.
Proof. by destruct pf, s. Qed.

Lemma pages_set_heap pf h s : pages (set_heap pf h s) = pages s.
Proof. by destruct pf. Qed.

Lemma heap_of_set_pages pf p s : heap_of pf (set_pages p s) = heap_of pf s.
Proof. by destruct pf. Qed.

Lemma pgdir_set_heap pf h s : pgdir (set_heap pf h s) = pgdir s.
Proof. by destruct pf. Qed.

Lemma cur_pf_set_heap pf h s : cur_pf (set_heap pf h s) = cur_pf s.
Proof. by destruct pf. Qed.

Lemma get_desc_run pf s i d : descs (heap_of pf s) !! i = Some d -> get_desc pf (Z.of_nat i) s = Ok (d, s).
Proof.
  intros Hd. unfold get_desc, getS. unfold mbind, M_bind, liftO.
  rewrite (aget_Ok _ _ d); [done|lia|by rewrite Nat2Z.id].
Qed.

Lemma get_arena_run pf s a x : arenas (heap_of pf s) !! a = Some x -> get_arena pf a s = Ok (x, s).
Proof. intros Hx. unfold get_arena. by rewrite Hx. Qed.

Lemma on_pages_run {A} (c : M P A) s a p : c (pages s) = Ok (a, p) -> on_pages c s = Ok (a, set_pages p s).
Proof. unfold on_pages. by intros ->. Qed.

Lemma put_free_list_twice i l l' h :
  put_free_list i l (put_free_list i l' h) = put_free_list i l h.
Proof.
  unfold put_free_list. cbn. f_equal. apply list_eq. intros j.
  destruct (decide (Z.to_nat i = j)) as [<-|Hne].
  - rewrite !list_lookup_alter_eq. by destruct (descs h !! Z.to_nat i).
  - by rewrite !list_lookup_alter_ne.
Qed.

(** The carving loop appends the blocks in order. *)
Lemma carve_run pf n : forall s p i d k,
  descs (heap_of pf s) !! i = Some d -> 0 < p < 0xFFC00 -> 0 <= k -> k + Z.of_nat n <= blocks_per_arena d ->
  (forall j, 0 <= j < blocks_per_arena d ->
     arena2block (p * 4096) j (block_size d) = p * 4096 + sizeof_arena + j * block_size d) ->
  0 < block_size d ->
  (forall b, b ∈ free_list d -> exists j, 0 <= j < k /\ b = p * 4096 + sizeof_arena + j * block_size d) ->
  carve n pf (p * 4096) (Z.of_nat i) k s =
    Ok (tt, set_heap pf (put_free_list (Z.of_nat i)
       (free_list d ++ ((fun j => p * 4096 + sizeof_arena + j * block_size d) <$> seqZ k (Z.of_nat n)))
       (heap_of pf s)) s).
Proof.
  induction n as [|n IH]; intros s p i d k Hd Hp Hk Hn Hab Hbs Hin; cbn [carve].
  { unfold mret, M_ret. do 2 f_equal. rewrite <- (set_heap_same pf s) at 1. f_equal.
    destruct (heap_of pf s) as [ds ar ps hs]. cbn in *. unfold put_free_list. cbn. f_equal.
    rewrite Nat2Z.id, app_nil_r. symmetry. apply list_eq. intros j.
    destruct (decide (i = j)) as [<-|Hne]; [|by rewrite list_lookup_alter_ne].
    rewrite list_lookup_alter_eq, Hd. by destruct d. }
  mrun (get_desc_run pf s i d Hd). rewrite Hab by lia.
  erewrite mbindM_Ok; cycle 1.
  { apply assertM_run. unfold q_find. rewrite bool_decide_eq_false_2; [done|].
    intros (j & Hj & E)%Hin. nia. }
  rewrite (mbindM_Ok _ _ _ _ _ (on_heap_run _ _ _)).
  set (b := p * 4096 + sizeof_arena + k * block_size d).
  rewrite (IH _ p i (with_free (q_append (free_list d) b) d)); cbn [block_size blocks_per_arena with_free]; try done; try lia.
  - do 2 f_equal. rewrite heap_of_set, set_heap_set. f_equal. rewrite put_free_list_twice.
    f_equal. cbn [free_list with_free]. unfold q_append. rewrite <- app_assoc. f_equal.
    rewrite (seqZ_cons k (Z.of_nat (S n))) by lia. cbn. f_equal. f_equal. f_equal; lia.
  - rewrite heap_of_set, lookup_put_free_list, decide_True, Hd by done. done.
  - cbn [free_list with_free]. unfold q_append. intros b' [Hb'|Hb'%list_elem_of_singleton]%elem_of_app.
    + destruct (Hin b' Hb') as (j & Hj & ->). exists j. split; [lia|done].
    + exists k. split; [lia|done].
Qed.

(** A new arena: the descriptor gets a full page of free blocks, and no block
    changes hands. *)
Lemma new_arena_run pf s i d :
  state_wf pf s -> descs (heap_of pf s) !! i = Some d -> free_list d = [] -> pa_room pf 1 (pages s) ->
  exists p pg h', new_arena pf (Z.of_nat i) s = Ok (true, set_heap pf h' (set_pages pg s)) /\
    pa_inv pf pg /\ heap_wf (pa_live pf pg) (Some (p * 4096)) h' /\
    descs h' !! i = Some (with_free (blocks d (p * 4096)) d) /\
    (forall b, b ∈ blocks d (p * 4096) -> block2arena b = p * 4096) /\
    (forall b, allocated h' b <-> allocated (heap_of pf s) b) /\
    heap_pool_size h' = heap_pool_size (heap_of pf s) /\ heap_holds h' = heap_holds (heap_of pf s) /\
    (forall j, (fun d => (block_size d, blocks_per_arena d)) <$> descs h' !! j =
               (fun d => (block_size d, blocks_per_arena d)) <$> descs (heap_of pf s) !! j).
Proof.
  intros [Hi Hh] Hd Hl Hr. unfold live_pages in Hh.
  destruct (pa_malloc_ok pf 1 (pages s) Hi ltac:(lia) Hr) as (p & pg & Hm & Hi' & Hp0 & Hp1 & Hfr & Hlv).
  pose proof (desc_bounds Hh i d Hd) as (B1 & B2 & B3).
  set (h0 := heap_of pf s) in *. set (a := p * 4096).
  destruct (put_new_wf _ h0 i d p Hh Hd Hl ltac:(lia)) as (N1 & N2 & N3 & N4); [apply Hfr; lia|].
  fold a in N1, N2, N3, N4. set (h1 := put_arena a (mk_arena (Some (Z.of_nat i)) 0 0) h0) in *.
  assert (arenas h1 !! a = Some (mk_arena (Some (Z.of_nat i)) 0 0)) as Ha1 by apply lookup_insert_eq.
  assert (forall b, is_block d a b -> block2arena b = a) as Hba.
  { intros b Hb. by apply (block_arena N1 a (mk_arena (Some (Z.of_nat i)) 0 0) i d b). }
  set (h2 := put_arena a (mk_arena (Some (Z.of_nat i)) (blocks_per_arena d) 0)
               (put_free_list (Z.of_nat i) (blocks d a) h1)).
  assert (heap_wf (pa_live pf pg) (Some a) h2) as Hh2.
  { assert (heap_wf (pa_live pf pg) None h1) as N1'.
    { destruct N1 as [W1 W2 W3 W4 W5 W6 W7 W8]. split; try done.
      intros a' x' y Hx' Ho. apply Hlv. by eapply W7. }
    eapply (heap_wf_update _ None (Some a) h1 i d a (mk_arena (Some (Z.of_nat i)) 0 0)); try done.
    - apply NoDup_blocks. lia.
    - intros b Hb. right. by apply elem_of_blocks.
    - rewrite filter_all_elem; [rewrite length_blocks; lia|]. intros b Hb%elem_of_blocks. by apply Hba.
    - by right.
    - intros a' Ha'. unfold free_in. rewrite Hl. rewrite filter_none_elem; [done|].
      intros b Hb%elem_of_blocks E. by rewrite (Hba b Hb) in E. }
  assert (forall b, allocated h2 b <-> allocated h0 b) as Hal.
  { intros b. unfold h2.
    pose proof (allocated_update _ None h1 i d a (mk_arena (Some (Z.of_nat i)) 0 0) (blocks d a) (blocks_per_arena d) b N1) as E.
    cbn [desc large] in E. rewrite E; try done.
    2:{ intros b'. destruct (decide (b' ∈ blocks d a)) as [Hb'|Hb']; [right; by apply elem_of_blocks|left].
        rewrite Hl. set_solver. }
    rewrite N4, elem_of_blocks. split; [|intros Hb; left; split; [by left|intros _; by apply N3]].
    intros [[[Hb|Hb] Hnb]|[Hb Hnb]]; [done| |done]. by destruct (Hnb Hb). }
  exists p, pg, h2. fold a.
  split; [|split; [done|split; [done|split; [|split; [|split; [done|]]]]]].
  - unfold new_arena. mrun (get_desc_run pf s i d Hd). mrun (on_pages_run _ _ _ _ Hm).
    unfold NULL. destruct (Z.eqb_spec (p * 4096) 0); [lia|].
    rewrite (mbindM_Ok _ _ _ _ _ (on_heap_run _ _ _)).
    rewrite heap_of_set_pages. fold h0 a.
    erewrite mbindM_Ok; cycle 1.
    { apply (carve_run pf _ _ p i d 0).
      - rewrite heap_of_set. exact Hd.
      - lia.
      - lia.
      - lia.
      - intros j Hj. apply (arena2block_block Hh i d p j Hd); [lia|done].
      - lia.
      - rewrite Hl. intros b Hb. by apply elem_of_nil in Hb. }
    unfold mret, M_ret. do 2 f_equal. rewrite heap_of_set, set_heap_set. f_equal.
    rewrite Hl. cbn [app]. unfold h2, h1. unfold blocks. rewrite Z2Nat.id by lia.
    unfold put_arena, put_free_list. cbn. by rewrite insert_insert_eq.
  - unfold h2. cbn [put_arena descs]. rewrite lookup_put_free_list, decide_True by done.
    unfold h1. cbn [put_arena descs]. by rewrite Hd.
  - intros b Hb%elem_of_blocks. by apply Hba.
  - split; [done|]. split; [done|]. intros j. unfold h2. cbn [put_arena descs].
    rewrite lookup_put_free_list. unfold h1. cbn [put_arena descs].
    case_decide as E; [|done]. by destruct (descs h0 !! j).
Qed.

(** Handing out the first free block. *)
Lemma take_block_run pf s L full i d b l :
  heap_wf L full (heap_of pf s) -> descs (heap_of pf s) !! i = Some d -> free_list d = b :: l ->
  (full = None \/ full = Some (block2arena b)) ->
  exists h', take_block pf (Z.of_nat i) s = Ok (b, set_heap pf h' s) /\ heap_wf L None h' /\
    ~ allocated (heap_of pf s) b /\ (forall b', allocated h' b' <-> allocated (heap_of pf s) b' \/ b' = b) /\
    (exists a x, arenas h' !! a = Some x /\ desc x = Some (Z.of_nat i) /\ is_block d a b) /\
    heap_pool_size h' = heap_pool_size (heap_of pf s) /\ heap_holds h' = heap_holds (heap_of pf s).
Proof.
  intros Hh Hd Hl Hfull. destruct (pop_wf L full _ i d b l Hh Hd Hl Hfull) as (x & Hx & Hdx & Hblk & Hw & Hn & Ha).
  cbn zeta in *. eexists. split; [|split; [exact Hw|split; [done|split; [exact Ha|split; [|done]]]]].
  - unfold take_block. mrun (get_desc_run pf s i d Hd). erewrite mbindM_Ok by (unfold liftO; by rewrite Hl). cbn beta iota.
    rewrite (mbindM_Ok _ _ _ _ _ (on_heap_run _ _ _)).
    erewrite mbindM_Ok by (apply get_arena_run; rewrite heap_of_set; exact Hx).
    rewrite (mbindM_Ok _ _ _ _ _ (on_heap_run _ _ _)). unfold mret, M_ret.
    by rewrite heap_of_set, set_heap_set.
  - eexists _, _. split; [apply lookup_insert_eq|]. done.
Qed.

(** The lock counter is not part of the heap invariant. *)
Definition with_holds (k : Z) (h : heap) : heap := mk_heap (descs h) (arenas h) (heap_pool_size h) k.

Lemma heap_wf_holds L full k h : heap_wf L full (with_holds k h) <-> heap_wf L full h.
Proof. split; intros [W1 W2 W3 W4 W5 W6 W7 W8]; by split. Qed.

Lemma h_unlock_run pf s : 1 <= heap_holds (heap_of pf s) ->
  h_unlock pf s = Ok (tt, set_heap pf (with_holds (heap_holds (heap_of pf s) - 1) (heap_of pf s)) s).
Proof.
  intros Hk. unfold h_unlock. rewrite (mbindM_Ok _ _ s s s eq_refl).
  erewrite mbindM_Ok by (apply assertM_run; by apply Z.leb_le). done.
Qed.

(** The block size chosen for a request. *)
Lemma find_desc_spec ds size : forall k,
  (exists i d, find_desc ds size k = k + Z.of_nat i /\ ds !! i = Some d /\ size <= block_size d /\
     forall j d', (j < i)%nat -> ds !! j = Some d' -> block_size d' < size) \/
  (forall j d', ds !! j = Some d' -> block_size d' < size).
Proof.
  induction ds as [|d ds IH]; intros k; [right; intros j d'; by rewrite lookup_nil|]. cbn [find_desc].
  destruct (Z.leb_spec size (block_size d)) as [Hle|Hgt].
  - left. exists O, d. split; [lia|]. split; [done|]. split; [done|]. intros; lia.
  - destruct (IH (k + 1)) as [(i & d0 & E & Hd & Hs & Hlt)|Hall]; [left|right].
    + exists (S i), d0. split; [lia|]. split; [done|]. split; [done|].
      intros [|j] d' Hj; cbn; [intros [= <-]; lia|]. apply Hlt. lia.
    + intros [|j] d'; cbn; [intros [= <-]; lia|]. apply Hall.
Qed.

Lemma find_desc_run L full h size : heap_wf L full h -> 0 < size <= 1024 ->
  exists i d, find_desc (descs h) size 0 = Z.of_nat i /\ descs h !! i = Some d /\
    size <= block_size d /\ (block_size d = 16 \/ block_size d < 2 * size).
Proof.
  intros Hh Hs. destruct (find_desc_spec (descs h) size 0) as [(i & d & E & Hd & Hle & Hlt)|Hall].
  - exists i, d. split; [lia|]. split; [done|]. split; [done|].
    destruct (hw_desc _ _ _ Hh i d Hd) as [Eb _]. destruct i as [|i]; [left; by rewrite Eb|right].
    destruct (lookup_lt_is_Some_2 (descs h) i) as [d' Hd']; [pose proof (lookup_lt_Some _ _ _ Hd); lia|].
    specialize (Hlt i d' ltac:(lia) Hd'). destruct (hw_desc _ _ _ Hh i d' Hd') as [Eb' _].
    rewrite Nat2Z.inj_succ, Z.pow_succ_r in Eb by lia. lia.
  - destruct (lookup_lt_is_Some_2 (descs h) 6) as [d Hd]; [rewrite (hw_len _ _ _ Hh); unfold DESC_CNT; lia|].
    specialize (Hall _ _ Hd). destruct (hw_desc _ _ _ Hh 6%nat d Hd) as [E _].
    change (16 * 2 ^ Z.of_nat 6) with 1024 in E. lia.
Qed.

(** The small branch of [sys_malloc] under the lock: the free list has a block,
    if need be after a new arena. *)
Lemma obtain_block pf s i d :
  state_wf pf s -> descs (heap_of pf s) !! i = Some d -> pa_room pf 1 (pages s) ->
  exists b s', (ok ← (if q_empty (free_list d) then new_arena pf (Z.of_nat i) else mret true);
                if negb ok then (_ ← h_unlock pf; mret NULL) else
                b ← take_block pf (Z.of_nat i); _ ← h_unlock pf; mret b) s =
               (_ ← h_unlock pf; mret b) s' /\
    state_wf pf s' /\ heap_pool_size (heap_of pf s') = heap_pool_size (heap_of pf s) /\
    heap_holds (heap_of pf s') = heap_holds (heap_of pf s) /\ pgdir s' = pgdir s /\
    ~ allocated (heap_of pf s) b /\
    (forall b', allocated (heap_of pf s') b' <-> allocated (heap_of pf s) b' \/ b' = b) /\
    (exists a x, arenas (heap_of pf s') !! a = Some x /\ desc x = Some (Z.of_nat i) /\ is_block d a b).
Proof.
  intros [Hi Hh] Hd Hr. destruct (free_list d) as [|b l] eqn:Hl; cbn [q_empty].
  - destruct (new_arena_run pf s i d (conj Hi Hh) Hd Hl Hr)
      as (p & pg & h1 & N & Hi' & Hh1 & Hd1 & Hba & Hal & E1 & E2 & _).
    assert (exists b l, blocks d (p * 4096) = b :: l) as (b & l & Eb).
    { pose proof (desc_bounds Hh i d Hd). pose proof (length_blocks d (p * 4096) ltac:(lia)) as Hlen.
      destruct (blocks d (p * 4096)) as [|b l]; [cbn in Hlen; lia|]. by exists b, l. }
    destruct (take_block_run pf (set_heap pf h1 (set_pages pg s)) (pa_live pf pg) (Some (p * 4096)) i
      (with_free (blocks d (p * 4096)) d) b l) as (h' & T & Hh' & Hn & Ha & Hx & E3 & E4);
      rewrite ?heap_of_set in *; try done.
    { right. f_equal. symmetry. apply Hba. rewrite Eb. left. }
    exists b, (set_heap pf h' (set_heap pf h1 (set_pages pg s))). split; [mrun N; cbn [negb]; by mrun T|].
    unfold state_wf, live_pages. rewrite !heap_of_set, !pages_set_heap. cbn [pages set_pages].
    split; [done|]. split; [congruence|]. split; [congruence|]. split; [by destruct pf|].
    split; [by rewrite <- Hal|]. split; [intros b'; by rewrite Ha, Hal|done].
  - destruct (take_block_run pf s _ None i d b l Hh Hd Hl) as (h' & T & Hh' & Hn & Ha & Hx & E3 & E4); [by left|].
    exists b, (set_heap pf h' s). split; [rewrite (mbindM_Ok _ _ s true s eq_refl); cbn [negb]; by mrun T|].
    unfold state_wf, live_pages. rewrite !heap_of_set, !pages_set_heap.
    do 3 (split; [done|]). split; [by destruct pf|]. done.
Qed.

Lemma h_lock_run pf s :
  h_lock pf s = Ok (tt, set_heap pf (with_holds (heap_holds (heap_of pf s) + 1) (heap_of pf s)) s).
Proof. done. Qed.

Lemma state_wf_holds pf k s :
  state_wf pf (set_heap pf (with_holds k (heap_of pf s)) s) <-> state_wf pf s.
Proof. unfold state_wf, live_pages. by rewrite heap_of_set, pages_set_heap, heap_wf_holds. Qed.

(** The loop that empties an arena: exactly its blocks leave the free list. *)
Lemma uncarve_run pf n : forall s p i d k,
  descs (heap_of pf s) !! i = Some d -> 0 <= k -> k + Z.of_nat n <= blocks_per_arena d ->
  (forall j, 0 <= j < blocks_per_arena d ->
     arena2block (p * 4096) j (block_size d) = p * 4096 + sizeof_arena + j * block_size d /\
     block2arena (p * 4096 + sizeof_arena + j * block_size d) = p * 4096) ->
  0 < block_size d -> NoDup (free_list d) ->
  (forall j, k <= j < k + Z.of_nat n -> p * 4096 + sizeof_arena + j * block_size d ∈ free_list d) ->
  exists l, uncarve n pf (p * 4096) (Z.of_nat i) k s =
      Ok (tt, set_heap pf (put_free_list (Z.of_nat i) l (heap_of pf s)) s) /\ NoDup l /\
    (forall b, b ∈ l <-> b ∈ free_list d /\
       ~ exists j, k <= j < k + Z.of_nat n /\ b = p * 4096 + sizeof_arena + j * block_size d) /\
    (forall a, a <> p * 4096 -> filter (fun b => block2arena b = a) l = free_in d a).
Proof.
  induction n as [|n IH]; intros s p i d k Hd Hk Hn Hab Hbs Hnd Hin; cbn [uncarve].
  { exists (free_list d). split; [|split; [done|split; [|done]]].
    - unfold mret, M_ret. do 2 f_equal. rewrite <- (set_heap_same pf s) at 1. f_equal.
      destruct (heap_of pf s) as [ds ar ps hs]. cbn in *. unfold put_free_list. cbn. f_equal.
      rewrite Nat2Z.id. symmetry. apply list_eq. intros j.
      destruct (decide (i = j)) as [<-|Hne]; [|by rewrite list_lookup_alter_ne].
      rewrite list_lookup_alter_eq, Hd. by destruct d.
    - intros b. split; [|tauto]. intros Hb. split; [done|]. intros (j & Hj & _). lia. }
  mrun (get_desc_run pf s i d Hd). rewrite (proj1 (Hab k ltac:(lia))).
  set (b := p * 4096 + sizeof_arena + k * block_size d).
  erewrite mbindM_Ok; cycle 1.
  { apply assertM_run. unfold q_find. apply bool_decide_eq_true_2. apply Hin. lia. }
  rewrite (mbindM_Ok _ _ _ _ _ (on_heap_run _ _ _)).
  destruct (IH (set_heap pf (put_free_list (Z.of_nat i) (q_remove (free_list d) b) (heap_of pf s)) s) p i
              (with_free (q_remove (free_list d) b) d) (k + 1))
    as (l & R & Hndl & Hl & Hf); cbn [block_size blocks_per_arena free_list with_free]; try done; try lia.
  - by rewrite heap_of_set, lookup_put_free_list, decide_True, Hd by done.
  - by apply NoDup_filter.
  - intros j Hj. apply list_elem_of_filter. split; [|apply Hin; lia]. unfold b. nia.
  - exists l. cbn [block_size blocks_per_arena free_list with_free] in *.
    split; [|split; [done|split]].
    + rewrite R. rewrite heap_of_set, set_heap_set. by rewrite put_free_list_twice.
    + intros b'. rewrite Hl. unfold q_remove. rewrite list_elem_of_filter. split.
      * intros [[Hne Hb'] Hno]. split; [done|]. intros (j & Hj & E). destruct (Z.eq_dec j k) as [->|].
        -- done.
        -- apply Hno. exists j. split; [lia|done].
      * intros [Hb' Hno]. split; [split; [|done]|].
        -- intros ->. apply Hno. exists k. split; [lia|done].
        -- intros (j & Hj & E). apply Hno. exists j. split; [lia|done].
    + intros a Ha. rewrite Hf by done. unfold free_in, q_remove. cbn [free_list with_free].
      rewrite list_filter_filter. apply filter_ext_elem. intros y _. split; [tauto|]. intros E.
      split; [done|]. intros ->. unfold b in E. rewrite (proj2 (Hab k ltac:(lia))) in E. done.
Qed.

(** An arena whose blocks are all free: it leaves the heap, its page goes back
    to the page allocator, and no allocated block is concerned. *)
Lemma release_arena pf s i d a x :
  pa_inv pf (pages s) -> heap_wf (live_pages pf s) (Some a) (heap_of pf s) ->
  descs (heap_of pf s) !! i = Some d -> arenas (heap_of pf s) !! a = Some x ->
  desc x = Some (Z.of_nat i) -> cnt x = blocks_per_arena d ->
  exists s', (_ ← uncarve (Z.to_nat (blocks_per_arena d)) pf a (Z.of_nat i) 0;
              _ ← on_pages (pa_mfree pf a 1); on_heap pf (drop_arena a)) s = Ok (tt, s') /\
    state_wf pf s' /\ heap_holds (heap_of pf s') = heap_holds (heap_of pf s) /\ pgdir s' = pgdir s /\
    heap_pool_size (heap_of pf s') = heap_pool_size (heap_of pf s) /\
    (forall b, allocated (heap_of pf s') b <-> allocated (heap_of pf s) b).
Proof.
  intros Hi Hh Hd Hx Hdx Hc.
  destruct (arena_page Hh a x i Hx Hdx) as (p & d' & Ea & Hp & Hlg & Hd' & Hcnt & _).
  assert (d' = d) as -> by congruence. subst a.
  pose proof (desc_bounds Hh i d Hd) as (B1 & B2 & _).
  destruct (free_in_bound Hh _ x i d Hx Hdx Hd) as [_ Hall]. rewrite <- Hcnt in Hall. specialize (Hall Hc).
  assert (forall j, 0 <= j < blocks_per_arena d ->
     arena2block (p * 4096) j (block_size d) = p * 4096 + sizeof_arena + j * block_size d /\
     block2arena (p * 4096 + sizeof_arena + j * block_size d) = p * 4096) as Hab.
  { intros j Hj. split; [by apply (arena2block_block Hh i d p j)|].
    apply (block2arena_block Hh i d p); [done|done|by exists j]. }
  destruct (uncarve_run pf (Z.to_nat (blocks_per_arena d)) s p i d 0)
    as (l & U & Hnd & Hl & Hf); try done; try lia; [by apply (hw_nodup _ _ _ Hh i)|intros j Hj; apply Hall; exists j; split; [lia|done]|].
  rewrite Z.add_0_l, Z2Nat.id in Hl by lia.
  assert (forall b, b ∈ l <-> b ∈ free_list d /\ ~ is_block d (p * 4096) b) as Hl' by exact Hl.
  assert (filter (fun b => block2arena b = p * 4096) l = []) as Hnone.
  { apply filter_none_elem. intros b [Hb Hnb]%Hl' E.
    destruct (free_block_arena Hh i d b Hd Hb) as (y & Hy & _ & Hblk). rewrite E in *. done. }
  set (h := heap_of pf s) in *. set (x0 := mk_arena (desc x) 0 (large x)).
  set (h1 := put_arena (p * 4096) x0 (put_free_list (Z.of_nat i) l h)).
  assert (heap_wf (live_pages pf s) None h1) as Hh1.
  { eapply (heap_wf_update _ (Some (p * 4096))); try done.
    - intros b [Hb _]%Hl'. by left.
    - by rewrite Hnone.
    - left. lia.
    - intros a' Ha'. by rewrite Hf.
    - intros a' Ha' [= E]. done. }
  assert (forall b, allocated h1 b <-> allocated h b \/ is_block d (p * 4096) b) as Ha1.
  { intros b. unfold h1, x0. rewrite (allocated_update _ _ h i d _ x l 0 b Hh Hd Hx Hdx).
    2:{ intros b'. rewrite Hl'. destruct (decide (b' ∈ blocks d (p * 4096))) as [Hb'|Hb'].
        - right. by apply elem_of_blocks.
        - left. rewrite elem_of_blocks in Hb'. tauto. }
    split; [tauto|]. intros [Ha|Hb].
    - left. split; [done|]. intros [_ ?]%Hl'. done.
    - right. split; [done|]. rewrite Hl'. tauto. }
  destruct (drop_wf _ h1 i (with_free l d) (p * 4096) x0 p Hh1) as [Hh2 Ha2]; try done.
  { unfold h1. cbn [put_arena descs]. by rewrite lookup_put_free_list, decide_True, Hd by done. }
  { apply lookup_insert_eq. }
  assert (drop_arena (p * 4096) h1 = drop_arena (p * 4096) (put_free_list (Z.of_nat i) l h)) as Edrop.
  { unfold h1, drop_arena, put_arena. cbn. by rewrite delete_insert_eq. }
  rewrite Edrop in *.
  destruct (pa_mfree_ok pf p 1 (pages s) Hi ltac:(lia)) as (pg & Hm & Hi' & Hlv).
  { intros y Hy. apply (hw_live _ _ _ Hh (p * 4096) x); [done|]. unfold occupies.
    rewrite Hdx, Z.div_mul by lia. lia. }
  eexists. split; [|split; [split|split; [|split; [|split]]]].
  - mrun U. erewrite mbindM_Ok; cycle 1.
    { apply on_pages_run. rewrite pages_set_heap. exact Hm. }
    rewrite on_heap_run. done.
  - rewrite pages_set_heap. exact Hi'.
  - unfold live_pages. rewrite pages_set_heap, !heap_of_set, heap_of_set_pages, heap_of_set. cbn [pages set_pages].
    destruct Hh2 as [W1 W2 W3 W4 W5 W6 W7 W8]. split; try done.
    intros a' x' y Hx' Ho. apply Hlv. by apply (W7 a' x').
  - rewrite !heap_of_set, heap_of_set_pages, heap_of_set. done.
  - by destruct pf.
  - rewrite !heap_of_set, heap_of_set_pages, heap_of_set. done.
  - intros b. rewrite !heap_of_set, heap_of_set_pages, heap_of_set, Ha2, Ha1.
    assert (is_block (with_free l d) (p * 4096) b <-> is_block d (p * 4096) b) as -> by done.
    split; [tauto|]. intros Ha. split; [by left|]. intros Hb.
    destruct Ha as (a' & y & j & d' & Hy & Hdy & Hdj & Hb' & Hn).
    destruct (block_owner _ _ h (p * 4096) x i d a' y j d' b Hh) as (-> & -> & -> & ->); try done.
    by apply Hn, Hall.
Qed.

(** The small branch of [sys_malloc]. *)
Lemma sys_malloc_small_run size s :
  state_wf (cur_pf s) s -> 0 < size <= 1024 -> size <= heap_pool_size (heap_of (cur_pf s) s) ->
  0 <= heap_holds (heap_of (cur_pf s) s) -> pa_room (cur_pf s) 1 (pages s) ->
  exists b s', sys_malloc size s = Ok (b, s') /\ state_wf (cur_pf s) s' /\ pgdir s' = pgdir s /\
    heap_holds (heap_of (cur_pf s) s') = heap_holds (heap_of (cur_pf s) s) /\
    ~ allocated (heap_of (cur_pf s) s) b /\
    (forall b', allocated (heap_of (cur_pf s) s') b' <-> allocated (heap_of (cur_pf s) s) b' \/ b' = b) /\
    exists a x i d, arenas (heap_of (cur_pf s) s') !! a = Some x /\ desc x = Some (Z.of_nat i) /\
      is_block d a b /\ size <= block_size d /\ (block_size d = 16 \/ block_size d < 2 * size).
Proof.
  intros Hw Hs Hps Hk Hr. set (pf := cur_pf s) in *.
  set (s1 := set_heap pf (with_holds (heap_holds (heap_of pf s) + 1) (heap_of pf s)) s).
  assert (state_wf pf s1) as Hw1 by (by apply state_wf_holds).
  destruct (find_desc_run _ _ _ size (proj2 Hw1) Hs) as (i & d & Ef & Hd & Hle & Hmin).
  destruct (obtain_block pf s1 i d Hw1 Hd) as (b & s2 & O1 & O2 & O3 & O4 & O5 & O6 & O7 & a & x & O8 & O9 & O10).
  { unfold s1. by rewrite pages_set_heap. }
  unfold s1 in O4. rewrite heap_of_set in O4. cbn [heap_holds with_holds] in O4.
  eexists b, _. split; [|split; [|split; [|split; [|split; [|split]]]]].
  - unfold sys_malloc. rewrite (mbindM_Ok _ _ s s s eq_refl). fold pf.
    destruct (Z.ltb_spec 0 size); [|lia]. destruct (Z.leb_spec size (heap_pool_size (heap_of pf s))); [|lia].
    cbn [andb negb]. mrun (h_lock_run pf s). fold s1. destruct (Z.ltb_spec 1024 size); [lia|].
    rewrite (mbindM_Ok _ _ s1 s1 s1 eq_refl). rewrite Ef. mrun (get_desc_run pf s1 i d Hd).
    rewrite O1. erewrite mbindM_Ok by (apply h_unlock_run; lia). done.
  - by apply state_wf_holds.
  - rewrite pgdir_set_heap, O5. unfold s1. by rewrite pgdir_set_heap.
  - rewrite heap_of_set. cbn [heap_holds with_holds]. lia.
  - unfold s1 in O6. by rewrite heap_of_set in O6.
  - intros b'. rewrite heap_of_set. transitivity (allocated (heap_of pf s2) b'); [done|].
    rewrite O7. unfold s1. by rewrite heap_of_set.
  - exists a, x, i, d. rewrite heap_of_set. done.
Qed.

(** ** Theorems *)


(** [sys_malloc] of more than 1024 bytes: it returns the space behind the
    header of a run of whole pages large enough for the request, none of them
    part of another arena; blocks and lock stay as they were. *)
Theorem sys_malloc_large_block size s :
  state_wf (cur_pf s) s -> 1024 < size <= heap_pool_size (heap_of (cur_pf s) s) -> size < 3839 * 4096 - 12 ->
  0 <= heap_holds (heap_of (cur_pf s) s) ->
  pa_room (cur_pf s) ((size + 12 + 4095) / 4096) (pages s) ->
  exists p s', sys_malloc size s = Ok (p * 4096 + 12, s') /\ state_wf (cur_pf s) s' /\ pgdir s' = pgdir s /\
    heap_holds (heap_of (cur_pf s) s') = heap_holds (heap_of (cur_pf s) s) /\
    arenas (heap_of (cur_pf s) s) !! (p * 4096) = None /\
    arenas (heap_of (cur_pf s) s') !! (p * 4096) = Some (mk_arena None ((size + 12 + 4095) / 4096) 1) /\
    12 + size <= (size + 12 + 4095) / 4096 * 4096 /\
    (forall b, allocated (heap_of (cur_pf s) s') b <-> allocated (heap_of (cur_pf s) s) b).
Proof.
  intros [Hi Hh] Hs Hlim Hk Hr. set (pf := cur_pf s) in *. set (n := (size + 12 + 4095) / 4096) in *.
  pose proof (Z.div_mod (size + 12 + 4095) 4096 ltac:(lia)) as Ed.
  pose proof (Z.mod_pos_bound (size + 12 + 4095) 4096 ltac:(lia)) as Em. fold n in Ed.
  destruct (pa_malloc_ok pf n (pages s) Hi ltac:(lia) Hr) as (p & pg & Hm & Hi' & Hp0 & Hp1 & Hfr & Hlv).
  set (h := heap_of pf s) in *. set (x := mk_arena None n 1).
  assert (forall y, occupies (p * 4096) x y <-> p <= y < p + n) as Hocc.
  { intros y. unfold occupies. cbn. by rewrite Z.div_mul by lia. }
  pose proof Hh as [W1 W2 W3 W4 W5 W6 W7 W8].
  assert (arenas h !! (p * 4096) = None) as Hno.
  { destruct (arenas h !! (p * 4096)) as [y|] eqn:Hy; [|done]. destruct (Hfr p); [lia|].
    apply (W7 (p * 4096) y p Hy). unfold occupies. rewrite Z.div_mul by lia.
    destruct (desc y) eqn:E; [lia|]. destruct (W6 _ _ Hy E) as (q & _ & _ & _ & Hc & _). lia. }
  assert (heap_wf (pa_live pf pg) None (put_arena (p * 4096) x h)) as Hh'.
  { split; cbn [put_arena descs arenas]; try done.
    - intros j d' b Hd' Hb. destruct (W4 j d' b Hd' Hb) as (a & y & Hy & Hrest). exists a, y.
      rewrite lookup_insert_ne by congruence. done.
    - intros a y di [[<- <-]|[Hne Hy]]%lookup_insert_Some Hdy; [done|by apply W5].
    - intros a y [[<- <-]|[Hne Hy]]%lookup_insert_Some Hdy; [|by apply W6].
      exists p. unfold x. cbn. lia.
    - intros a y z [[<- <-]|[Hne Hy]]%lookup_insert_Some Hz; apply Hlv; [right; by apply Hocc|left].
      by apply (W7 a y z).
    - intros a a' y y' z Hy Hy' Hz Hz'.
      apply lookup_insert_Some in Hy as [[<- <-]|[Hne Hy]], Hy' as [[<- <-]|[Hne' Hy']]; try done.
      + apply Hocc in Hz. destruct (Hfr z Hz). by apply (W7 a' y' z).
      + apply Hocc in Hz'. destruct (Hfr z Hz'). by apply (W7 a y z).
      + by eapply W8. }
  set (s1 := set_heap pf (with_holds (heap_holds h + 1) h) s).
  exists p. eexists. split; [|split; [|split; [|split; [|split; [|split; [|split]]]]]].
  - unfold sys_malloc. rewrite (mbindM_Ok _ _ s s s eq_refl). fold pf h.
    destruct (Z.ltb_spec 0 size); [|lia]. destruct (Z.leb_spec size (heap_pool_size h)); [|lia].
    cbn [andb negb]. mrun (h_lock_run pf s). fold h s1. destruct (Z.ltb_spec 1024 size); [|lia].
    unfold DIV_ROUND_UP, sizeof_arena, PG_SIZE.
    rewrite (wrapu_small 32 (size + 12)), (wrapu_small 32 (size + 12 + 4096 - 1)) by lia.
    replace (size + 12 + 4096 - 1) with (size + 12 + 4095) by lia. fold n. rewrite (wrapu_small 32 n) by lia.
    erewrite mbindM_Ok; cycle 1.
    { apply on_pages_run. unfold s1. rewrite pages_set_heap. exact Hm. }
    unfold NULL. destruct (Z.eqb_spec (p * 4096) 0); [lia|].
    rewrite (mbindM_Ok _ _ _ _ _ (on_heap_run _ _ _)).
    erewrite mbindM_Ok; cycle 1.
    { apply h_unlock_run. rewrite heap_of_set, heap_of_set_pages. unfold s1. rewrite heap_of_set. cbn. lia. }
    rewrite wrapu_small by lia. done.
  - apply state_wf_holds. unfold state_wf, live_pages.
    rewrite heap_of_set, pages_set_heap, heap_of_set_pages. unfold s1. rewrite heap_of_set. split; [done|].
    cbn [pages set_pages]. exact (proj2 (heap_wf_holds _ _ (heap_holds h + 1) _) Hh').
  - rewrite !pgdir_set_heap. cbn. unfold s1. by rewrite pgdir_set_heap.
  - rewrite !heap_of_set, heap_of_set_pages. unfold s1. rewrite heap_of_set. cbn. lia.
  - done.
  - rewrite !heap_of_set, heap_of_set_pages. unfold s1. rewrite heap_of_set. apply lookup_insert_eq.
  - lia.
  - intros b. rewrite !heap_of_set, heap_of_set_pages. unfold s1. rewrite heap_of_set. unfold allocated. cbn.
    split; intros (a & y & i & d & Hy & Hdy & Hrest); exists a, y, i, d.
    + apply lookup_insert_Some in Hy as [[<- <-]|[Hne Hy]]; [done|]. done.
    + rewrite lookup_insert_ne by congruence. done.
Qed.

(** Releasing a block under the lock: the block joins the free list of its
    size; when it was the last allocated one its arena is taken apart. *)
Lemma free_block_run pf b s a x i d :
  state_wf pf s -> arenas (heap_of pf s) !! a = Some x -> desc x = Some (Z.of_nat i) ->
  descs (heap_of pf s) !! i = Some d -> is_block d a b -> b ∉ free_list d ->
  exists s', free_block pf b (Z.of_nat i) s = Ok (tt, s') /\ state_wf pf s' /\
    heap_holds (heap_of pf s') = heap_holds (heap_of pf s) /\ pgdir s' = pgdir s /\
    (forall b', allocated (heap_of pf s') b' <-> allocated (heap_of pf s) b' /\ b' <> b).
Proof.
  intros [Hi Hh] Hx Hdx Hd Hblk Hn. set (h := heap_of pf s) in *.
  pose proof (block_arena Hh a x i d b Hx Hdx Hd Hblk) as Eab.
  destruct (push_wf _ h i d b a x Hh Hd Hx Hdx Hblk Hn) as (Eu & Hle & Hh2 & Ha2). cbn zeta in *.
  rewrite Eu in *.
  set (h2 := put_arena a (mk_arena (desc x) (cnt x + 1) (large x)) (put_free_list (Z.of_nat i) (q_append (free_list d) b) h)) in *.
  set (s2 := set_heap pf h2 s).
  assert (heap_of pf s2 = h2) as E2 by (unfold s2; by rewrite heap_of_set).
  assert (free_block pf b (Z.of_nat i) s =
    (if cnt x + 1 =? blocks_per_arena d then
      _ ← uncarve (Z.to_nat (blocks_per_arena d)) pf a (Z.of_nat i) 0;
      _ ← on_pages (pa_mfree pf a 1); on_heap pf (drop_arena a)
     else mret tt) s2) as ->.
  { unfold free_block. rewrite Eab. rewrite (mbindM_Ok _ _ s d s) by (by apply get_desc_run).
    rewrite (mbindM_Ok _ _ _ _ _ (on_heap_run _ _ _)).
    rewrite (mbindM_Ok _ _ _ x _) by (apply get_arena_run; rewrite heap_of_set; exact Hx).
    rewrite Eu. rewrite (mbindM_Ok _ _ _ _ _ (on_heap_run _ _ _)). rewrite heap_of_set, set_heap_set. done. }
  assert (live_pages pf s2 = live_pages pf s) as EL by (unfold live_pages, s2; by rewrite pages_set_heap).
  rewrite <- EL in Hh2.
  destruct (Z.eqb_spec (cnt x + 1) (blocks_per_arena d)) as [Ec|Nc].
  - destruct (release_arena pf s2 i (with_free (q_append (free_list d) b) d) a (mk_arena (desc x) (cnt x + 1) (large x)))
      as (s3 & R1 & R2 & R3 & R4 & R5 & R6); rewrite ?E2; try done.
    + unfold s2. by rewrite pages_set_heap.
    + unfold h2. cbn [put_arena descs]. rewrite lookup_put_free_list, decide_True by done. cbn. by rewrite Hd.
    + apply lookup_insert_eq.
    + exists s3. split; [exact R1|]. split; [done|]. rewrite E2 in R3, R6. split; [by rewrite R3|].
      split; [rewrite R4; unfold s2; by rewrite pgdir_set_heap|]. intros b'. by rewrite R6, Ha2.
  - exists s2. split; [done|]. rewrite E2. split; [split; [unfold s2; by rewrite pages_set_heap|by rewrite E2]|].
    split; [done|]. split; [unfold s2; by rewrite pgdir_set_heap|]. intros b'. by rewrite Ha2.
Qed.

End HeapOps.

(** [b] is a block of [n] bytes, free or allocated. *)
Definition block_extent (h : heap) (b n : Z) : Prop :=
  exists a x i d, arenas h !! a = Some x /\ desc x = Some (Z.of_nat i) /\ descs h !! i = Some d /\
    is_block d a b /\ n = block_size d.


(** ** Witnesses: a fresh kernel heap on the page allocator of [demo_heap] *)

(** [block_desc_init] and no arena: the heap after start-up. *)
Definition fresh_heap (size : Z) : heap := mk_heap block_desc_init ∅ size 0.

Lemma fresh_heap_wf L size : heap_wf L None (fresh_heap size).
Proof.
  split; cbn [fresh_heap descs arenas]; try (intros; by rewrite lookup_empty in *).
  - reflexivity.
  - intros i d Hd. do 7 (destruct i as [|i]; [injection Hd as <-; split; reflexivity|]). discriminate Hd.
  - intros i d Hd. do 7 (destruct i as [|i]; [injection Hd as <-; constructor|]). discriminate Hd.
  - intros i d b Hd Hb. do 7 (destruct i as [|i]; [injection Hd as <-; by apply elem_of_nil in Hb|]). discriminate Hd.
Qed.

(** Start-up on the machine of the project, with 32 MB: the two pools have 3840
    pages each, behind the 2 MB in use, and the heap of the kernel is fresh. *)
Lemma mem_init_32MB :
  exists kp up kv, mem_init 32768 (replicate (Z.to_nat 0x4000) 0) = Ok (kp, up, kv, block_desc_init) /\
    phy_addr_start kp = 0x200000 /\ frames kp = 3840 /\ phy_addr_start up = 0x1100000 /\ frames up = 3840 /\
    forall L size, heap_wf L None (mk_heap block_desc_init ∅ size 0).
Proof.
  assert (match mem_init 32768 (replicate (Z.to_nat 0x4000) 0) with
    | Ok (kp, up, kv, ds) => ds = block_desc_init /\ phy_addr_start kp = 0x200000 /\ frames kp = 3840 /\ phy_addr_start up = 0x1100000 /\ frames up = 3840
    | _ => False end) as H by (vm_compute; tauto).
  destruct (mem_init _ _) as [[[[kp up] kv] ds]| | |]; [|done..]. destruct H as (-> & H).
  exists kp, up, kv. split; [done|]. split; [tauto|]. split; [tauto|]. split; [tauto|]. split; [tauto|]. intros. apply fresh_heap_wf.
Qed.

Definition demo_hstate : hstate memst := mk_hstate demo_heap (fresh_heap 0x8000) (fresh_heap 0x8000) 0.

Lemma demo_hstate_wf : state_wf PF_KERNEL demo_hstate.
Proof. split; [apply demo_heap_inv|apply fresh_heap_wf]. Qed.

Lemma demo_alloc_room n : 0 < n <= 2 -> alloc_room PF_KERNEL n demo_heap.
Proof.
  intros Hn. assert (n = 1 \/ n = 2) as [->| ->] by lia;
  (split; [split; vm_compute; lia|exists 0; split; [lia|split; [vm_compute; discriminate|split; [|discriminate]]]]).
  - intros j Hj. assert (j = 0) as -> by lia. reflexivity.
  - intros j Hj. assert (j = 0 \/ j = 1) as [->| ->] by lia; reflexivity.
Qed.


Lemma sys_malloc_large_block_witness :
  exists p s', sys_malloc 5000 demo_hstate = Ok (p * 4096 + 12, s') /\ state_wf PF_KERNEL s' /\
    arenas (heap_of PF_KERNEL s') !! (p * 4096) = Some (mk_arena None ((5000 + 12 + 4095) / 4096) 1).
Proof.
  destruct (sys_malloc_large_block 5000 demo_hstate demo_hstate_wf)
    as (p & s' & H1 & H2 & _ & _ & _ & H3 & _);
    [split; [lia|vm_compute; discriminate]|lia|vm_compute; discriminate|apply (demo_alloc_room 2); lia|].
  exists p, s'. exact (conj H1 (conj H2 H3)).
Defined.

(** The first block the allocator hands out. *)
Definition demo_hstate1 : hstate memst :=
  match sys_malloc 100 demo_hstate with Ok (_, s) => s | _ => demo_hstate end.

Lemma demo_hstate1_ok : state_wf PF_KERNEL demo_hstate1 /\
  allocated (heap_of PF_KERNEL demo_hstate1) 0xC020000C.
Proof.
  destruct (sys_malloc_small_run 100 demo_hstate demo_hstate_wf)
    as (b & s' & H1 & H2 & _ & _ & _ & H3 & _);
    [lia|vm_compute; discriminate|vm_compute; discriminate|apply (demo_alloc_room 1); lia|].
  assert (demo_hstate1 = s') as -> by (unfold demo_hstate1; rewrite H1; reflexivity).
  assert (match sys_malloc 100 demo_hstate with Ok (z, _) => z | _ => 0 end = 0xC020000C) as E by (vm_compute; reflexivity).
  rewrite H1 in E. subst b. split; [exact H2|]. apply H3. right. reflexivity.
Qed.


