(* ===== verification/Sched.v ===== *)
(** * Threads and the scheduler (thread/thread.c, device/timer.c, userprog/process.c: process_activate)

    A task is known by the address of its PCB, which is also the identity of
    its list tags (elem2entry only subtracts a field offset); the lists are
    [Queue]s.  The kernel is uniprocessor: a thread runs until it calls
    [schedule], directly or from the timer interrupt.  What a suspended thread
    still has to do when it runs again -- the rest of [thread_block], of
    [sema_down], of the interrupt entry -- is an explicit stack of [frame]s;
    [resume] continues it.  Pages for PCBs come from the page allocator
    interface of [PageAlloc]. *)

From S2P Require Import Prelude Bitmap Interrupt Paging Memory PageAlloc DList.
Import Queue.

Inductive task_status : Type :=
| TASK_RUNNING | TASK_READY | TASK_BLOCKED | TASK_WAITING | TASK_HANGING | TASK_DIED.

#[global] Instance task_status_eq_dec : EqDecision task_status.
Proof. solve_decision. Defined.

(** [struct task_struct] without its list tags and the per-process heap, which
    is [Arena.heap] and [Memory.virtual_addr]. *)
Record task_struct : Type := mk_task {
  self_kstack : Z;
  pid : Z;
  status : task_status;
  name : list Z;
  priority : Z;
  ticks : Z;
  elapsed_ticks : Z;
  pgdir : Z;
  fd_table : list Z;
  cwd_inode_nr : Z;
  parent_pid : Z;
  exit_status : Z;
  stack_magic : Z
}.

Definition set_self_kstack (v : Z) (s : task_struct) : task_struct :=
  mk_task v (pid s) (status s) (name s) (priority s) (ticks s) (elapsed_ticks s) (pgdir s) (fd_table s) (cwd_inode_nr s) (parent_pid s) (exit_status s) (stack_magic s).
Definition set_status (v : task_status) (s : task_struct) : task_struct :=
  mk_task (self_kstack s) (pid s) v (name s) (priority s) (ticks s) (elapsed_ticks s) (pgdir s) (fd_table s) (cwd_inode_nr s) (parent_pid s) (exit_status s) (stack_magic s).
Definition set_ticks (v : Z) (s : task_struct) : task_struct :=
  mk_task (self_kstack s) (pid s) (status s) (name s) (priority s) v (elapsed_ticks s) (pgdir s) (fd_table s) (cwd_inode_nr s) (parent_pid s) (exit_status s) (stack_magic s).
Definition set_elapsed_ticks (v : Z) (s : task_struct) : task_struct :=
  mk_task (self_kstack s) (pid s) (status s) (name s) (priority s) (ticks s) v (pgdir s) (fd_table s) (cwd_inode_nr s) (parent_pid s) (exit_status s) (stack_magic s).
Definition set_pgdir (v : Z) (s : task_struct) : task_struct :=
  mk_task (self_kstack s) (pid s) (status s) (name s) (priority s) (ticks s) (elapsed_ticks s) v (fd_table s) (cwd_inode_nr s) (parent_pid s) (exit_status s) (stack_magic s).
Definition set_parent_pid (v : Z) (s : task_struct) : task_struct :=
  mk_task (self_kstack s) (pid s) (status s) (name s) (priority s) (ticks s) (elapsed_ticks s) (pgdir s) (fd_table s) (cwd_inode_nr s) v (exit_status s) (stack_magic s).
Definition set_exit_status (v : Z) (s : task_struct) : task_struct :=
  mk_task (self_kstack s) (pid s) (status s) (name s) (priority s) (ticks s) (elapsed_ticks s) (pgdir s) (fd_table s) (cwd_inode_nr s) (parent_pid s) v (stack_magic s).

(** [struct semaphore] and the rest of [struct lock]; the semaphore of the
    lock at [l] is the field behind its [holder]. *)
Record semaphore : Type := mk_sema { value : Z; waiters : list Z }.
Record lock : Type := mk_lock { holder : Z; holder_repeat_nr : Z }.
Definition sema_of (plock : Z) : Z := plock + 4.

(** What a thread that called [schedule] still has to do. *)
Inductive frame : Type :=
| KStart                                  (* kernel_thread: enable interrupts, run the function *)
| KRet (old_status : intr_status)         (* the end of thread_block or thread_yield *)
| KIret (eflags : Z)                      (* leave the timer interrupt *)
| KDown (psema : Z) (old_status : intr_status)  (* the loop of sema_down *)
| KTook (plock : Z)                       (* lock_acquire behind its sema_down *)
| KUp (plock : Z).                        (* lock_release before its sema_up *)

Section Sched.
Context {P : Type} `{PageAlloc P}.

(** The globals of thread.c, the semaphores and locks by address, EFLAGS, the
    tick counter, and the two registers [process_activate] loads. *)
Record sched : Type := mk_sched {
  pages : P;
  tasks : gmap Z task_struct;
  thread_ready_list : list Z;
  thread_all_list : list Z;
  cur : Z;
  idle_thread : Z;
  main_thread : Z;
  pid_bitmap : bitmap;
  frames_of : gmap Z (list frame);
  semas : gmap Z semaphore;
  locks : gmap Z lock;
  flags : Z;
  total_ticks : Z;
  cr3 : Z;
  esp0 : Z
}.

Definition set_pages (v : P) (s : sched) : sched :=
  mk_sched v (tasks s) (thread_ready_list s) (thread_all_list s) (cur s) (idle_thread s) (main_thread s) (pid_bitmap s) (frames_of s) (semas s) (locks s) (flags s) (total_ticks s) (cr3 s) (esp0 s).
Definition set_tasks (v : gmap Z task_struct) (s : sched) : sched :=
  mk_sched (pages s) v (thread_ready_list s) (thread_all_list s) (cur s) (idle_thread s) (main_thread s) (pid_bitmap s) (frames_of s) (semas s) (locks s) (flags s) (total_ticks s) (cr3 s) (esp0 s).
Definition set_thread_ready_list (v : list Z) (s : sched) : sched :=
  mk_sched (pages s) (tasks s) v (thread_all_list s) (cur s) (idle_thread s) (main_thread s) (pid_bitmap s) (frames_of s) (semas s) (locks s) (flags s) (total_ticks s) (cr3 s) (esp0 s).
Definition set_thread_all_list (v : list Z) (s : sched) : sched :=
  mk_sched (pages s) (tasks s) (thread_ready_list s) v (cur s) (idle_thread s) (main_thread s) (pid_bitmap s) (frames_of s) (semas s) (locks s) (flags s) (total_ticks s) (cr3 s) (esp0 s).
Definition set_cur (v : Z) (s : sched) : sched :=
  mk_sched (pages s) (tasks s) (thread_ready_list s) (thread_all_list s) v (idle_thread s) (main_thread s) (pid_bitmap s) (frames_of s) (semas s) (locks s) (flags s) (total_ticks s) (cr3 s) (esp0 s).
Definition set_main_thread (v : Z) (s : sched) : sched :=
  mk_sched (pages s) (tasks s) (thread_ready_list s) (thread_all_list s) (cur s) (idle_thread s) v (pid_bitmap s) (frames_of s) (semas s) (locks s) (flags s) (total_ticks s) (cr3 s) (esp0 s).
Definition set_pid_bitmap (v : bitmap) (s : sched) : sched :=
  mk_sched (pages s) (tasks s) (thread_ready_list s) (thread_all_list s) (cur s) (idle_thread s) (main_thread s) v (frames_of s) (semas s) (locks s) (flags s) (total_ticks s) (cr3 s) (esp0 s).
Definition set_frames_of (v : gmap Z (list frame)) (s : sched) : sched :=
  mk_sched (pages s) (tasks s) (thread_ready_list s) (thread_all_list s) (cur s) (idle_thread s) (main_thread s) (pid_bitmap s) v (semas s) (locks s) (flags s) (total_ticks s) (cr3 s) (esp0 s).
Definition set_semas (v : gmap Z semaphore) (s : sched) : sched :=
  mk_sched (pages s) (tasks s) (thread_ready_list s) (thread_all_list s) (cur s) (idle_thread s) (main_thread s) (pid_bitmap s) (frames_of s) v (locks s) (flags s) (total_ticks s) (cr3 s) (esp0 s).
Definition set_locks (v : gmap Z lock) (s : sched) : sched :=
  mk_sched (pages s) (tasks s) (thread_ready_list s) (thread_all_list s) (cur s) (idle_thread s) (main_thread s) (pid_bitmap s) (frames_of s) (semas s) v (flags s) (total_ticks s) (cr3 s) (esp0 s).
Definition set_flags (v : Z) (s : sched) : sched :=
  mk_sched (pages s) (tasks s) (thread_ready_list s) (thread_all_list s) (cur s) (idle_thread s) (main_thread s) (pid_bitmap s) (frames_of s) (semas s) (locks s) v (total_ticks s) (cr3 s) (esp0 s).
Definition set_total_ticks (v : Z) (s : sched) : sched :=
  mk_sched (pages s) (tasks s) (thread_ready_list s) (thread_all_list s) (cur s) (idle_thread s) (main_thread s) (pid_bitmap s) (frames_of s) (semas s) (locks s) (flags s) v (cr3 s) (esp0 s).
Definition set_cr3 (v : Z) (s : sched) : sched :=
  mk_sched (pages s) (tasks s) (thread_ready_list s) (thread_all_list s) (cur s) (idle_thread s) (main_thread s) (pid_bitmap s) (frames_of s) (semas s) (locks s) (flags s) (total_ticks s) v (esp0 s).
Definition set_esp0 (v : Z) (s : sched) : sched :=
  mk_sched (pages s) (tasks s) (thread_ready_list s) (thread_all_list s) (cur s) (idle_thread s) (main_thread s) (pid_bitmap s) (frames_of s) (semas s) (locks s) (flags s) (total_ticks s) (cr3 s) v.

#[global] Program Instance sched_HasEflags : HasEflags sched := {|
  eflags_of := flags;
  with_eflags := set_flags
|}.
Solve Obligations with (intros; repeat match goal with s : sched |- _ => destruct s end; reflexivity).

Definition running_thread : M sched Z := fun s => Ok (cur s, s).

(** A field access through a PCB pointer. *)
Definition get_task (p : Z) : M sched task_struct := fun s =>
  match tasks s !! p with Some t => Ok (t, s) | None => Fault end.
Definition upd_task (p : Z) (f : task_struct -> task_struct) : M sched () := fun s =>
  match tasks s !! p with Some t => Ok (tt, set_tasks (<[p := f t]> (tasks s)) s) | None => Fault end.

(** ** process_activate (userprog/process.c)

    [v2p] is [addr_v2p] of [Paging] on the page directories of processes.
    Directories are kernel pages, and the kernel part of the address space is
    the same in every directory ([create_page_dir] copies it), so it does not
    depend on the directory that is loaded. *)
Context (v2p : Z -> Z).

Definition page_dir_activate (p_thread : Z) : M sched () :=
  t ← get_task p_thread;
  modS (set_cr3 (if pgdir t =? NULL then 0x100000 else v2p (pgdir t))).

Definition update_tss_esp (pthread : Z) : M sched () := modS (set_esp0 (u32 (pthread + PG_SIZE))).

Definition process_activate (p_thread : Z) : M sched () :=
  _ ← assertM (negb (p_thread =? NULL)) "process_activate: p_thread != NULL";
  _ ← page_dir_activate p_thread;
  t ← get_task p_thread;
  if pgdir t =? NULL then mret tt else update_tss_esp p_thread.

(** ** Scheduling *)

Definition blocked_status (st : task_status) : bool :=
  bool_decide (st = TASK_BLOCKED \/ st = TASK_WAITING \/ st = TASK_HANGING).

Definition thread_unblock (pthread : Z) : M sched () :=
  old_status ← intr_disable;
  t ← get_task pthread;
  _ ← assertM (blocked_status (status t)) "thread_unblock: pthread->status is BLOCKED, WAITING or HANGING";
  _ ← (if decide (status t = TASK_READY) then mret tt else
       s ← getS;
       _ ← assertM (negb (q_find (thread_ready_list s) pthread)) "thread_unblock: !elem_find(&thread_ready_list, ...)";
       _ ← modS (set_thread_ready_list (q_push (thread_ready_list s) pthread));
       upd_task pthread (set_status TASK_READY));
  _ ← intr_set_status old_status;
  mret tt.

Definition push_frame (t : Z) (k : frame) : M sched () :=
  modS (fun s => set_frames_of (<[t := k :: default [] (frames_of s !! t)]> (frames_of s)) s).

(** [switch_to cur next]: [cur] is left with the frame [k] to do. *)
Definition switch_to (c next : Z) (k : frame) : M sched () :=
  _ ← push_frame c k;
  modS (set_cur next).

(** [schedule], called by a thread that continues with [k]. *)
Definition schedule (k : frame) : M sched () :=
  st ← intr_get_status;
  _ ← assertM (bool_decide (st = INTR_OFF)) "schedule: intr_get_status() == INTR_OFF";
  c ← running_thread;
  t ← get_task c;
  _ ← (if decide (status t = TASK_RUNNING) then
         s ← getS;
         _ ← assertM (negb (q_find (thread_ready_list s) c)) "schedule: !elem_find(&thread_ready_list, &cur->general_tag)";
         _ ← modS (set_thread_ready_list (q_append (thread_ready_list s) c));
         _ ← upd_task c (fun t => set_ticks (u8 (priority t)) t);
         upd_task c (set_status TASK_READY)
       else mret tt);
  s ← getS;
  _ ← (if q_empty (thread_ready_list s) then thread_unblock (idle_thread s) else mret tt);
  s ← getS;
  _ ← assertM (negb (q_empty (thread_ready_list s))) "schedule: !list_empty(&thread_ready_list)";
  nl ← liftO (q_pop (thread_ready_list s));
  let '(next, l) := nl in
  _ ← modS (set_thread_ready_list l);
  _ ← upd_task next (set_status TASK_RUNNING);
  _ ← process_activate next;
  switch_to c next k.

(** [thread_block], up to the point where the thread loses the processor; [k]
    is what it does afterwards. *)
Definition thread_block_then (stat : task_status) (k : intr_status -> frame) : M sched () :=
  _ ← assertM (blocked_status stat) "thread_block: stat is BLOCKED, WAITING or HANGING";
  old_status ← intr_disable;
  c ← running_thread;
  _ ← upd_task c (set_status stat);
  schedule (k old_status).

Definition thread_block (stat : task_status) : M sched () := thread_block_then stat KRet.

Definition thread_yield : M sched () :=
  c ← running_thread;
  old_status ← intr_disable;
  s ← getS;
  _ ← assertM (negb (q_find (thread_ready_list s) c)) "thread_yield: !elem_find(&thread_ready_list, &cur->general_tag)";
  _ ← modS (set_thread_ready_list (q_append (thread_ready_list s) c));
  _ ← upd_task c (set_status TASK_READY);
  schedule (KRet old_status).

(** ** The timer interrupt (device/timer.c) *)

(** The processor clears the interrupt flag on entry and [iret] restores
    EFLAGS; [intr_timer_handler] runs in between. *)
Definition intr_timer_handler (eflags : Z) : M sched () :=
  c ← running_thread;
  t ← get_task c;
  _ ← assertM (stack_magic t =? 0x19750130) "intr_timer_handler: cur_thread->stack_magic == 0x19750130";
  _ ← upd_task c (fun t => set_elapsed_ticks (u32 (elapsed_ticks t + 1)) t);
  _ ← modS (fun s => set_total_ticks (u32 (total_ticks s + 1)) s);
  t ← get_task c;
  if ticks t =? 0 then schedule (KIret eflags)
  else _ ← upd_task c (fun t => set_ticks (u8 (ticks t - 1)) t); modS (set_flags eflags).

Definition timer_interrupt : M sched () :=
  s ← getS;
  _ ← cli;
  intr_timer_handler (flags s).

(** ** Semaphores and locks (thread/sync.c) *)

Definition get_sema (p : Z) : M sched semaphore := fun s =>
  match semas s !! p with Some x => Ok (x, s) | None => Fault end.
Definition put_sema (p : Z) (x : semaphore) : M sched () := modS (fun s => set_semas (<[p := x]> (semas s)) s).
Definition get_lock (p : Z) : M sched lock := fun s =>
  match locks s !! p with Some x => Ok (x, s) | None => Fault end.
Definition put_lock (p : Z) (x : lock) : M sched () := modS (fun s => set_locks (<[p := x]> (locks s)) s).

Definition sema_init (psema v : Z) : M sched () := put_sema psema (mk_sema (u8 v) []).

Definition lock_init (plock : Z) : M sched () :=
  _ ← put_lock plock (mk_lock NULL 0);
  sema_init (sema_of plock) 1.

(** One round of the loop of [sema_down]: take the semaphore, or wait and
    come back with the frame [KDown]. *)
Definition sema_down_loop (psema : Z) (old_status : intr_status) : M sched () :=
  x ← get_sema psema;
  if value x =? 0 then
    c ← running_thread;
    _ ← assertM (negb (q_find (waiters x) c)) "sema_down: !elem_find(&psema->waiters, &running_thread()->general_tag)";
    _ ← put_sema psema (mk_sema (value x) (q_append (waiters x) c));
    thread_block_then TASK_BLOCKED (fun _ => KDown psema old_status)
  else
    let v := u8 (value x - 1) in
    _ ← put_sema psema (mk_sema v (waiters x));
    _ ← assertM (v =? 0) "sema_down: psema->value == 0";
    _ ← intr_set_status old_status;
    mret tt.

Definition sema_down (psema : Z) : M sched () :=
  old_status ← intr_disable;
  sema_down_loop psema old_status.

Definition sema_up (psema : Z) : M sched () :=
  old_status ← intr_disable;
  x ← get_sema psema;
  _ ← assertM (value x =? 0) "sema_up: psema->value == 0";
  _ ← (if q_empty (waiters x) then mret tt else
       bl ← liftO (q_pop (waiters x));
       let '(thread_blocked, l) := bl in
       _ ← put_sema psema (mk_sema (value x) l);
       thread_unblock thread_blocked);
  x ← get_sema psema;
  let v := u8 (value x + 1) in
  _ ← put_sema psema (mk_sema v (waiters x));
  _ ← assertM (v =? 1) "sema_up: psema->value == 1";
  _ ← intr_set_status old_status;
  mret tt.

(** [lock_acquire]: behind the [sema_down] the lock is still to be marked as
    held, the frame [KTook]. *)
Definition lock_acquire (plock : Z) : M sched () :=
  x ← get_lock plock;
  c ← running_thread;
  if holder x =? c then put_lock plock (mk_lock (holder x) (u32 (holder_repeat_nr x + 1)))
  else
    _ ← push_frame c (KTook plock);
    sema_down (sema_of plock).

Definition lock_took (plock : Z) : M sched () :=
  c ← running_thread;
  x ← get_lock plock;
  _ ← assertM (holder_repeat_nr x =? 0) "lock_acquire: plock->holder_repeat_nr == 0";
  put_lock plock (mk_lock c 1).

(** [lock_release]: between clearing the holder and the [sema_up] interrupts
    are not disabled, the frame [KUp]. *)
Definition lock_release (plock : Z) : M sched () :=
  x ← get_lock plock;
  c ← running_thread;
  _ ← assertM (holder x =? c) "lock_release: plock->holder == running_thread()";
  if 1 <? holder_repeat_nr x then put_lock plock (mk_lock (holder x) (u32 (holder_repeat_nr x - 1)))
  else
    _ ← assertM (holder_repeat_nr x =? 1) "lock_release: plock->holder_repeat_nr == 1";
    _ ← put_lock plock (mk_lock NULL 0);
    push_frame c (KUp plock).

(** The running thread continues with its topmost frame. *)
Definition resume : M sched () := fun s =>
  match frames_of s !! cur s with
  | Some (k :: ks) =>
      (_ ← modS (fun s => set_frames_of (<[cur s := ks]> (frames_of s)) s);
       match k with
       | KStart => _ ← intr_enable; mret tt
       | KRet old_status => _ ← intr_set_status old_status; mret tt
       | KIret eflags => modS (set_flags eflags)
       | KDown psema old_status => _ ← intr_set_status INTR_OFF; sema_down_loop psema old_status
       | KTook plock => lock_took plock
       | KUp plock => sema_up (sema_of plock)
       end) s
  | _ => Ok (tt, s)
  end.

End Sched.
