(* ===== verification/Sync.v ===== *)
(** * Locks, semaphores and scheduling as a transition system (thread/sync.c, thread/thread.c)

    The operations of [Sched] interleaved by the scheduler and the timer.  The
    invariant [sinv] is kept by every transition, no transition stops in an
    [ASSERT], and it gives mutual exclusion and the absence of lost wake-ups.
    Interrupts are off inside the operations and on between them, so the timer
    may strike between the [sema_down] of [lock_acquire] and the assignment of
    the holder, and between the two halves of [lock_release]. *)

From S2P Require Import Prelude Bitmap Interrupt Paging Memory PageAlloc DList Sched.
Import Queue.

(** ** The invariant, on what it depends on *)

(** The rest of an operation that no scheduling decision has cut. *)
Definition base (ks : list frame) : Prop := ks = [] \/ exists l, ks = [KTook l] \/ ks = [KUp l].

(** The frames a thread can have. *)
Inductive shape : list frame -> Prop :=
| sh_base ks : base ks -> shape ks
| sh_iret ef ks : base ks -> shape (KIret ef :: ks)
| sh_start : shape [KStart]
| sh_ret old : shape [KRet old]
| sh_down l old : shape [KDown (sema_of l) old; KTook l].

(** The thread is inside [sema_down] of the lock's semaphore. *)
Definition in_down (l : Z) (ks : list frame) : Prop := exists old, ks = [KDown (sema_of l) old; KTook l].

(** It has taken the semaphore and not yet marked the lock, or unmarked the
    lock and not yet released the semaphore. *)
Definition taking (l : Z) (ks : list frame) : Prop :=
  exists b, (b = [KTook l] \/ b = [KUp l]) /\ (ks = b \/ exists ef, ks = KIret ef :: b).

(** The lock [l] belongs to [t]. *)
Definition owns (fr : Z -> list frame) (l : Z) (x : lock) (t : Z) : Prop :=
  (t = holder x /\ holder x <> NULL) \/ taking l (fr t).

Record lock_ok (st : Z -> option task_status) (fr : Z -> list frame) (l : Z) (x : lock) (m : semaphore) : Prop := {
  lo_value : value m = 0 \/ value m = 1;
  lo_nodup : NoDup (waiters m);
  lo_waiters : forall t, t ∈ waiters m <-> st t = Some TASK_BLOCKED /\ in_down l (fr t);
  lo_repeat : 0 <= holder_repeat_nr x /\ (holder x = NULL <-> holder_repeat_nr x = 0);
  lo_unique : forall t t', owns fr l x t -> owns fr l x t' -> t = t';
  lo_owned : value m = 0 <-> exists t, owns fr l x t;
  lo_phase : forall t, holder x <> NULL -> ~ taking l (fr t);
  lo_wake : value m = 1 -> waiters m <> [] -> exists t, in_down l (fr t) /\ (st t = Some TASK_READY \/ st t = Some TASK_RUNNING)
}.

(** What holds whoever runs: [st] gives the status of the tasks, [fr] their
    frames, [rdy] is the ready list. *)
Record core (st : Z -> option task_status) (fr : Z -> list frame) (rdy : list Z) (idle : Z)
            (lk : gmap Z lock) (sm : gmap Z semaphore) : Prop := {
  co_ready : forall t, t ∈ rdy <-> st t = Some TASK_READY;
  co_nodup : NoDup rdy;
  co_null : st NULL = None;
  co_shape : forall t, shape (fr t);
  co_idle : (exists x, st idle = Some x /\ x <> TASK_DIED) /\
            (forall l, ~ in_down l (fr idle) /\ ~ taking l (fr idle));
  co_dom : forall t l, taking l (fr t) \/ in_down l (fr t) -> is_Some (lk !! l);
  co_locks : forall l x, lk !! l = Some x -> exists m, sm !! sema_of l = Some m /\ lock_ok st fr l x m
}.

Lemma base_not_down l ks : base ks -> ~ in_down l ks.
Proof. intros [->|(l' & [->| ->])] (old & E); done. Qed.

Lemma not_down_of l ks : (forall psema old, ks <> [KDown psema old; KTook l]) -> ~ in_down l ks.
Proof. intros Hk (old & ->). by eapply Hk. Qed.

Lemma in_down_inj l l' ks : in_down l ks -> in_down l' ks -> l = l'.
Proof. intros (old & ->) (old' & E). unfold sema_of in E. injection E as ? ?. lia. Qed.

Lemma taking_iret l ef ks : base ks -> taking l (KIret ef :: ks) <-> taking l ks.
Proof.
  intros Hb. split; intros (b & Hbb & Hk); exists b; (split; [done|]).
  - destruct Hk as [E|(ef' & E)].
    + rewrite <- E in Hbb. by destruct Hbb.
    + injection E as _ ->. by left.
  - destruct Hk as [E|(ef' & E)].
    + subst. right. by exists ef.
    + rewrite E in Hb. by destruct Hb as [?|(l' & [?|?])].
Qed.

Lemma taking_cases l ks : taking l ks -> ks = [KTook l] \/ ks = [KUp l] \/
  exists ef, ks = [KIret ef; KTook l] \/ ks = [KIret ef; KUp l].
Proof. intros (b & [->| ->] & [->|(ef & ->)]); eauto. Qed.

(** Changing the status and the frames of one thread, in a way that no lock
    notices. *)
Lemma lock_ok_quiet st fr st' fr' l x m c :
  lock_ok st fr l x m ->
  (forall t, t <> c -> st' t = st t /\ fr' t = fr t) ->
  ~ in_down l (fr c) -> ~ in_down l (fr' c) -> (taking l (fr' c) <-> taking l (fr c)) ->
  lock_ok st' fr' l x m.
Proof.
  intros [H1 H2 H3 H4 H5 H6 H7 H8] Hoth Hd Hd' Htk.
  assert (forall t, in_down l (fr' t) <-> in_down l (fr t)) as Edown.
  { intros t. destruct (decide (t = c)) as [->|Hne]; [tauto|]. by destruct (Hoth t Hne) as [_ ->]. }
  assert (forall t, taking l (fr' t) <-> taking l (fr t)) as Etk.
  { intros t. destruct (decide (t = c)) as [->|Hne]; [done|]. by destruct (Hoth t Hne) as [_ ->]. }
  assert (forall t, owns fr' l x t <-> owns fr l x t) as Eown by (intros t; unfold owns; by rewrite Etk).
  split; try done.
  - intros t. rewrite H3, Edown. destruct (decide (t = c)) as [->|Hne]; [tauto|]. by destruct (Hoth t Hne) as [-> _].
  - intros t t'. rewrite !Eown. apply H5.
  - rewrite H6. split; intros (t & Ht); exists t; by apply Eown.
  - intros t. rewrite Etk. apply H7.
  - intros Hv Hw. destruct (H8 Hv Hw) as (t & Ht & Hs). exists t. rewrite Edown. split; [done|].
    assert (t <> c) as Hne by congruence. destruct (Hoth t Hne) as [-> _]. done.
Qed.

(** Giving the processor to the first ready thread, or to [idle]. *)
Lemma core_dispatch st fr rdy idle lk sm st' next rest :
  core st fr rdy idle lk sm ->
  (rdy = next :: rest \/ (rdy = [] /\ next = idle /\ rest = [])) ->
  (forall t, st' t = if decide (t = next) then Some TASK_RUNNING else st t) ->
  (forall t, st t <> Some TASK_RUNNING) -> core st' fr rest idle lk sm.
Proof.
  intros [C1 C2 C3 C4 C5 C7 C6] Hr Hst Hno.
  assert (forall l, ~ (st next = Some TASK_BLOCKED /\ in_down l (fr next))) as Hnd.
  { intros l [Hb Hd]. destruct Hr as [->|(-> & -> & ->)]; [|by destruct C5 as [_ C5]; destruct (C5 l)].
    assert (st next = Some TASK_READY) by (apply C1; left). congruence. }
  assert (st next <> None) as Hsome.
  { destruct Hr as [->|(-> & -> & ->)].
    - assert (st next = Some TASK_READY) by (apply C1; left). congruence.
    - destruct C5 as [(y & -> & _) _]. done. }
  split; try done.
  - intros t. rewrite Hst. case_decide as E.
    + subst t. split; [|done]. intros Hin. destruct Hr as [->|(_ & _ & ->)]; [|by apply elem_of_nil in Hin].
      apply NoDup_cons in C2 as [? _]. done.
    + rewrite <- C1. destruct Hr as [->|(-> & _ & ->)]; [|done]. rewrite elem_of_cons. tauto.
  - destruct Hr as [->|(_ & _ & ->)]; [by apply NoDup_cons in C2 as [_ ?]|constructor].
  - rewrite Hst. case_decide as E; [|done]. by rewrite <- E in Hsome.
  - destruct C5 as [(y & Hy & Hd) Hl]. split; [|done]. rewrite Hst. case_decide; eauto.
  - intros l x Hx. destruct (C6 l x Hx) as (m & Hm & [H1 H2 H3 H4 H5 H6 H7 H8]). exists m. split; [done|].
    split; try done.
    + intros t. rewrite H3, Hst. case_decide as E; [subst t|tauto].
      split; [intros [? ?]; by destruct (Hnd l)|by intros [? _]].
    + intros Hv Hw. destruct (H8 Hv Hw) as (t & Ht & Hs). exists t. rewrite Hst. split; [done|].
      case_decide; [by right|done].
Qed.

(** One thread [c] changes its status and frames, and no lock notices. *)
Lemma core_quiet st fr rdy idle lk sm st' fr' rdy' c :
  core st fr rdy idle lk sm ->
  (forall t, t <> c -> st' t = st t /\ fr' t = fr t) ->
  c <> NULL -> (forall l, ~ in_down l (fr c)) -> (forall l, ~ in_down l (fr' c)) ->
  (forall l, taking l (fr' c) <-> taking l (fr c)) -> shape (fr' c) ->
  (exists x, st' c = Some x /\ x <> TASK_DIED) ->
  (forall t, t ∈ rdy' <-> st' t = Some TASK_READY) -> NoDup rdy' ->
  core st' fr' rdy' idle lk sm.
Proof.
  intros [C1 C2 C3 C4 C5 C7 C6] Hoth Hc Hd Hd' Htk Hsh Hx Hrdy Hnd. split; try done.
  - by destruct (Hoth NULL) as [-> _].
  - intros t. destruct (decide (t = c)) as [->|Hne]; [done|]. by destruct (Hoth t Hne) as [_ ->].
  - destruct (decide (idle = c)) as [->|Hne]; [|by destruct (Hoth idle Hne) as [-> ->]].
    split; [done|]. intros l. rewrite Htk. split; [apply Hd'|apply C5].
  - intros t l. destruct (decide (t = c)) as [->|Hne]; [|destruct (Hoth t Hne) as [_ ->]; apply C7].
    rewrite Htk. intros [Ht|Hin]; [apply (C7 c); by left|by apply Hd' in Hin].
  - intros l x Hl. destruct (C6 l x Hl) as (m & Hm & Hok). exists m. split; [done|].
    by apply (lock_ok_quiet st fr st' fr' l x m c).
Qed.

(** ** The steps of the lock operations *)

(** Before the semaphore is tested: a fresh call, or a woken waiter. *)
Definition entering (l : Z) (ks : list frame) : Prop := ks = [] \/ in_down l ks.

Lemma entering_not_taking l l' ks : entering l ks -> ~ taking l' ks.
Proof.
  intros [->|(old & ->)] Ht; apply taking_cases in Ht as [?|[?|(ef & [?|?])]]; done.
Qed.

Lemma entering_not_down l l' ks : entering l ks -> l' <> l -> ~ in_down l' ks.
Proof. intros [->|Hd] Hne Hd'; [by destruct Hd'|]. by apply Hne, (in_down_inj l' l ks). Qed.

Lemma sema_of_inj l l' : sema_of l = sema_of l' -> l = l'.
Proof. unfold sema_of. lia. Qed.

Lemma owns_ext fr fr' l x : (forall t, taking l (fr' t) <-> taking l (fr t)) ->
  forall t, owns fr' l x t <-> owns fr l x t.
Proof. intros E t. unfold owns. by rewrite E. Qed.

(** A waiter queues up on a taken semaphore. *)
Lemma core_wait st fr rdy idle lk sm c l x m old st' fr' :
  core st fr rdy idle lk sm -> lk !! l = Some x -> sm !! sema_of l = Some m -> value m = 0 ->
  st c = Some TASK_RUNNING -> entering l (fr c) -> c <> idle ->
  (forall t, st' t = if decide (t = c) then Some TASK_BLOCKED else st t) ->
  (forall t, fr' t = if decide (t = c) then [KDown (sema_of l) old; KTook l] else fr t) ->
  core st' fr' rdy idle lk (<[sema_of l := mk_sema 0 (q_append (waiters m) c)]> sm) /\ c ∉ waiters m.
Proof.
  intros [C1 C2 C3 C4 C5 C7 C6] Hx Hm Hv Hc He Hidle Hst Hfr.
  assert (fr' c = [KDown (sema_of l) old; KTook l]) as Efc by (by rewrite Hfr, decide_True).
  assert (st' c = Some TASK_BLOCKED) as Esc by (by rewrite Hst, decide_True).
  assert (forall t, t <> c -> st' t = st t /\ fr' t = fr t) as Hoth by (intros t Ht; by rewrite Hst, Hfr, !decide_False).
  assert (forall l', ~ taking l' (fr' c)) as Hnt.
  { intros l' Ht. rewrite Efc in Ht. by apply taking_cases in Ht as [?|[?|(ef & [?|?])]]. }
  destruct (C6 l x Hx) as (m' & Hm' & [H1 H2 H3 H4 H5 H6 H7 H8]). rewrite Hm in Hm'. injection Hm' as <-.
  assert (c ∉ waiters m) as Hcw by (rewrite H3, Hc; by intros [? _]).
  split; [split; try done|done].
  - intros t. rewrite C1, Hst. case_decide; [subst; rewrite Hc|]; done.
  - rewrite Hst. case_decide as E; [|done]. rewrite <- E in Hc. congruence.
  - intros t. destruct (decide (t = c)) as [->|Hne]; [rewrite Efc; apply sh_down|]. by destruct (Hoth t Hne) as [_ ->].
  - by destruct (Hoth idle) as [-> ->].
  - intros t l'. destruct (decide (t = c)) as [->|Hne]; [|destruct (Hoth t Hne) as [_ ->]; apply C7].
    intros [Ht|Hin]; [by apply Hnt in Ht|]. rewrite Efc in Hin. assert (l' = l) as -> by (apply (in_down_inj l' l _ Hin); by exists old).
    by exists x.
  - intros l' x' Hx'. destruct (decide (l' = l)) as [->|Hne].
    + rewrite lookup_insert_eq. eexists. split; [done|]. assert (x' = x) as -> by congruence.
      assert (forall t, taking l (fr' t) <-> taking l (fr t)) as Etk.
      { intros t. destruct (decide (t = c)) as [->|Hne]; [|by destruct (Hoth t Hne) as [_ ->]].
        split; intros Ht; [by apply Hnt in Ht|by apply (entering_not_taking l) in Ht]. }
      split; cbn [value waiters]; try done.
      * by left.
      * unfold q_append. apply NoDup_app. split; [done|]. split; [|apply NoDup_singleton].
        intros t Ht ->%list_elem_of_singleton. done.
      * intros t. unfold q_append. rewrite elem_of_app, list_elem_of_singleton.
        destruct (decide (t = c)) as [->|Hne]; [rewrite Esc, Efc; split; [|by right]; intros _; split; [done|by exists old]|].
        destruct (Hoth t Hne) as [-> ->]. rewrite H3. tauto.
      * intros t t'. rewrite !(owns_ext fr fr' l x Etk). apply H5.
      * rewrite <- Hv at 1. rewrite H6. split; intros (t & Ht); exists t; by apply (owns_ext fr fr' l x Etk).
      * intros t. rewrite Etk. apply H7.
    + rewrite lookup_insert_ne by (intros E; by apply sema_of_inj in E).
      destruct (C6 l' x' Hx') as (m' & Hm' & Hok). exists m'. split; [done|].
      apply (lock_ok_quiet st fr st' fr' l' x' m' c); try done.
      * by apply (entering_not_down l).
      * rewrite Efc. intros Hd. apply Hne. apply (in_down_inj l' l _ Hd). by exists old.
      * split; intros Ht; [by apply Hnt in Ht|by apply (entering_not_taking l) in Ht].
Qed.

(** Taking the free semaphore. *)
Lemma core_take st fr rdy idle lk sm c l x m fr' :
  core st fr rdy idle lk sm -> lk !! l = Some x -> sm !! sema_of l = Some m -> value m = 1 ->
  st c = Some TASK_RUNNING -> entering l (fr c) -> c <> idle ->
  (forall t, fr' t = if decide (t = c) then [KTook l] else fr t) ->
  core st fr' rdy idle lk (<[sema_of l := mk_sema 0 (waiters m)]> sm).
Proof.
  intros [C1 C2 C3 C4 C5 C7 C6] Hx Hm Hv Hc He Hci Hfr.
  assert (fr' c = [KTook l]) as Efc by (by rewrite Hfr, decide_True).
  assert (forall t, t <> c -> fr' t = fr t) as Hoth by (intros t Ht; by rewrite Hfr, !decide_False).
  assert (taking l (fr' c)) as Htk by (rewrite Efc; exists [KTook l]; split; [by left|by left]).
  assert (forall l', ~ in_down l' (fr' c)) as Hnd by (intros l' (old & E); by rewrite Efc in E).
  assert (forall l', l' <> l -> ~ taking l' (fr' c)) as Hnt.
  { intros l' Hne Ht. rewrite Efc in Ht. apply taking_cases in Ht as [E|[?|(ef & [?|?])]]; try done.
    injection E as E. done. }
  destruct (C6 l x Hx) as (m' & Hm' & [H1 H2 H3 H4 H5 H6 H7 H8]). rewrite Hm in Hm'. injection Hm' as <-.
  assert (forall t, ~ owns fr l x t) as Hfree.
  { intros t Ht. assert (value m = 0) by (apply H6; by exists t). lia. }
  split; try done.
  - intros t. destruct (decide (t = c)) as [->|Hne]; [rewrite Efc; constructor; right; exists l; by left|by rewrite Hoth].
  - by rewrite Hoth.
  - intros t l'. destruct (decide (t = c)) as [->|Hne]; [|rewrite Hoth by done; apply C7].
    intros [Ht|Hin]; [|by apply Hnd in Hin]. destruct (decide (l' = l)) as [->|Hne]; [by exists x|by apply Hnt in Ht].
  - intros l' x' Hx'. destruct (decide (l' = l)) as [->|Hne].
    + rewrite lookup_insert_eq. eexists. split; [done|]. assert (x' = x) as -> by congruence.
      assert (forall t, owns fr' l x t <-> t = c) as Eown.
      { intros t. split; [|intros ->; by right]. intros [Hh|Ht].
        - destruct (Hfree t). by left.
        - destruct (decide (t = c)) as [|Hne]; [done|]. rewrite Hoth in Ht by done. destruct (Hfree t). by right. }
      split; cbn [value waiters]; try done.
      * by left.
      * intros t. destruct (decide (t = c)) as [->|Hne]; [|rewrite Hoth by done; apply H3].
        rewrite H3, Hc. split; by intros [? _].
      * intros t t'. rewrite !Eown. congruence.
      * split; [|done]. intros _. exists c. by apply Eown.
      * intros t Hh. destruct (Hfree (holder x)). by left.
    + rewrite lookup_insert_ne by (intros E; by apply sema_of_inj in E).
      destruct (C6 l' x' Hx') as (m' & Hm' & Hok). exists m'. split; [done|].
      apply (lock_ok_quiet st fr st fr' l' x' m' c); try done.
      * intros t Ht. by rewrite Hoth.
      * by apply (entering_not_down l).
      * split; intros Ht; [by destruct (Hnt l' Hne)|by apply (entering_not_taking l) in Ht].
Qed.

(** The frames of the running thread around a lock and its holder. *)
Lemma taking_one l ks l' : ks = [KTook l] \/ ks = [KUp l] -> taking l' ks <-> l' = l.
Proof.
  intros Hk. split.
  - intros Ht. apply taking_cases in Ht. destruct Hk as [->| ->];
      destruct Ht as [E|[E|(ef & [E|E])]]; try done; by injection E as ->.
  - intros ->. exists ks. split; [done|by left].
Qed.

Lemma not_taking_nil l : ~ taking l [].
Proof. intros Ht. by apply taking_cases in Ht as [?|[?|(ef & [?|?])]]. Qed.

(** The holder is set behind [sema_down], or cleared before [sema_up]: the
    lock stays with the running thread. *)
Lemma core_handover st fr rdy idle lk sm c l x x' fr' :
  core st fr rdy idle lk sm -> lk !! l = Some x -> c <> NULL -> c <> idle ->
  ((fr c = [KTook l] /\ fr' c = [] /\ x' = mk_lock c 1) \/
   (fr c = [] /\ fr' c = [KUp l] /\ holder x = c /\ x' = mk_lock NULL 0)) ->
  (forall t, t <> c -> fr' t = fr t) ->
  core st fr' rdy idle (<[l := x']> lk) sm.
Proof.
  intros [C1 C2 C3 C4 C5 C7 C6] Hx Hcn Hci Hcase Hoth.
  assert (forall l', ~ in_down l' (fr c)) as Hnd by (intros l' (old & E); destruct Hcase as [(E' & _)|(E' & _)]; by rewrite E' in E).
  assert (forall l', ~ in_down l' (fr' c)) as Hnd' by (intros l' (old & E); destruct Hcase as [(_ & E' & _)|(_ & E' & _)]; by rewrite E' in E).
  assert (forall t l', in_down l' (fr' t) <-> in_down l' (fr t)) as Ed.
  { intros t l'. destruct (decide (t = c)) as [->|Hne]; [split; intros Hd; [by apply Hnd' in Hd|by apply Hnd in Hd]|by rewrite Hoth]. }
  split; try done.
  - intros t. destruct (decide (t = c)) as [->|Hne]; [|by rewrite Hoth].
    destruct Hcase as [(_ & -> & _)|(_ & -> & _)]; constructor; [by left|right; exists l; by right].
  - by rewrite Hoth.
  - intros t l'. destruct (decide (l' = l)) as [->|Hll]; [rewrite lookup_insert_eq; eauto|].
    rewrite lookup_insert_ne by done. destruct (decide (t = c)) as [->|Hne]; [|rewrite Hoth by done; apply C7].
    intros [Ht|Hin]; [|by apply Hnd' in Hin].
    destruct Hcase as [(_ & E & _)|(_ & E & _)]; rewrite E in Ht; [by apply not_taking_nil in Ht|].
    apply (taking_one l) in Ht; [done|by right].
  - intros l' y Hy. destruct (decide (l' = l)) as [->|Hne].
    + rewrite lookup_insert_eq in Hy. injection Hy as <-.
      destruct (C6 l x Hx) as (m & Hm & [H1 H2 H3 H4 H5 H6 H7 H8]). exists m. split; [done|].
      assert (owns fr l x c) as Hown.
      { destruct Hcase as [(E & _)|(_ & _ & E & _)]; [right; rewrite E; apply (taking_one l); [by left|done]|left; split; [done|by rewrite E]]. }
      assert (forall t, t <> c -> ~ taking l (fr t)) as Hno.
      { intros t Hne Ht. apply Hne. apply H5; [by right|done]. }
      assert (forall t, owns fr' l x' t <-> t = c) as Eown.
      { intros t. destruct Hcase as [(E1 & E2 & ->)|(E1 & E2 & E3 & ->)]; unfold owns; cbn [holder].
        - split; [|intros ->; by left]. intros [[-> _]|Ht]; [done|].
          destruct (decide (t = c)) as [|Hne]; [done|]. rewrite Hoth in Ht by done. by destruct (Hno t).
        - split.
          + intros [[_ ?]|Ht]; [done|]. destruct (decide (t = c)) as [|Hne]; [done|].
            rewrite Hoth in Ht by done. by destruct (Hno t).
          + intros ->. right. rewrite E2. apply (taking_one l); [by right|done]. }
      split; try done.
      * intros t. rewrite Ed. apply H3.
      * destruct Hcase as [(E1 & E2 & ->)|(E1 & E2 & E3 & ->)]; cbn; split; try done; lia.
      * intros t t'. rewrite !Eown. congruence.
      * rewrite H6. split; [intros _; exists c; by apply Eown|intros _; by exists c].
      * intros t Hh Ht. destruct Hcase as [(E1 & E2 & ->)|(E1 & E2 & E3 & ->)]; [|done].
        destruct (decide (t = c)) as [->|Hne]; [rewrite E2 in Ht; by apply not_taking_nil in Ht|].
        rewrite Hoth in Ht by done. by apply (Hno t).
      * intros Hv Hw. destruct (H8 Hv Hw) as (t & Ht & Hs). exists t. by rewrite Ed.
    + rewrite lookup_insert_ne in Hy by done. destruct (C6 l' y Hy) as (m & Hm & Hok). exists m. split; [done|].
      apply (lock_ok_quiet st fr st fr' l' y m c); try done; [intros t Ht; by rewrite Hoth|].
      destruct Hcase as [(E1 & E2 & _)|(E1 & E2 & _)]; rewrite E1, E2.
      * rewrite (taking_one l [KTook l]) by (by left). split; [intros Ht; by apply not_taking_nil in Ht|done].
      * rewrite (taking_one l [KUp l]) by (by right). split; [done|intros Ht; by apply not_taking_nil in Ht].
Qed.

(** Recursive acquisition and its undoing only change the counter. *)
Lemma core_repeat st fr rdy idle lk sm l x n :
  core st fr rdy idle lk sm -> lk !! l = Some x -> holder x <> NULL -> 0 < n ->
  core st fr rdy idle (<[l := mk_lock (holder x) n]> lk) sm.
Proof.
  intros [C1 C2 C3 C4 C5 C7 C6] Hx Hh Hn. split; try done.
  { intros t l' Ht. destruct (decide (l' = l)) as [->|Hne]; [rewrite lookup_insert_eq; eauto|].
    rewrite lookup_insert_ne by done. by apply (C7 t). }
  intros l' y Hy.
  destruct (decide (l' = l)) as [->|Hne]; [|rewrite lookup_insert_ne in Hy by done; by apply C6].
  rewrite lookup_insert_eq in Hy. injection Hy as <-.
  destruct (C6 l x Hx) as (m & Hm & [H1 H2 H3 H4 H5 H6 H7 H8]). exists m. split; [done|].
  split; try done. cbn. split; [lia|]. split; [done|lia].
Qed.

(** Releasing the semaphore, with or without a waiter to wake. *)
Lemma core_up st fr rdy idle lk sm c l x m st' fr' rdy' ws :
  core st fr rdy idle lk sm -> lk !! l = Some x -> sm !! sema_of l = Some m ->
  c <> idle -> fr c = [KUp l] -> fr' c = [] -> (forall t, t <> c -> fr' t = fr t) ->
  ((waiters m = [] /\ ws = [] /\ rdy' = rdy /\ forall t, st' t = st t) \/
   (exists w, waiters m = w :: ws /\ rdy' = w :: rdy /\
      forall t, st' t = if decide (t = w) then Some TASK_READY else st t)) ->
  core st' fr' rdy' idle lk (<[sema_of l := mk_sema 1 ws]> sm).
Proof.
  intros [C1 C2 C3 C4 C5 C7 C6] Hx Hm Hci Hc Hc' Hoth Hcase.
  destruct (C6 l x Hx) as (m' & Hm' & [H1 H2 H3 H4 H5 H6 H7 H8]). rewrite Hm in Hm'. injection Hm' as <-.
  assert (forall t, ~ owns fr' l x t) as Hfree.
  { assert (taking l (fr c)) as Htc by (rewrite Hc; apply (taking_one l); [by right|done]).
    intros t [[_ Hh]|Ht]; [by apply (H7 c Hh)|]. destruct (decide (t = c)) as [->|Hne].
    - rewrite Hc' in Ht. by apply not_taking_nil in Ht.
    - rewrite Hoth in Ht by done. apply Hne. apply H5; by right. }
  assert (forall l' t, in_down l' (fr' t) <-> in_down l' (fr t)) as Ed.
  { intros l' t. destruct (decide (t = c)) as [->|Hne]; [|by rewrite Hoth].
    rewrite Hc, Hc'. split; intros (old & E); done. }
  assert (forall w, w ∈ waiters m -> st w = Some TASK_BLOCKED /\ in_down l (fr w)) as Hwt by (intros; by apply H3).
  assert (forall t, st' t = st t \/ (t ∈ waiters m /\ st' t = Some TASK_READY)) as Hst.
  { intros t. destruct Hcase as [(_ & _ & _ & E)|(w & Ew & _ & E)]; [by left|]. rewrite E.
    case_decide; [|by left]. subst. right. split; [rewrite Ew; left|done]. }
  split.
  - intros t. destruct Hcase as [(_ & _ & -> & E)|(w & Ew & -> & E)]; [by rewrite C1, E|].
    rewrite elem_of_cons, C1, E. case_decide; [|tauto]. split; [done|by left].
  - destruct Hcase as [(_ & _ & -> & _)|(w & Ew & -> & _)]; [done|]. constructor; [|done].
    rewrite C1. destruct (Hwt w) as [-> _]; [rewrite Ew; left|done].
  - destruct (Hst NULL) as [->|[Hin _]]; [done|]. apply Hwt in Hin as [E _]. congruence.
  - intros t. destruct (decide (t = c)) as [->|Hne]; [rewrite Hc'; apply sh_base; by left|by rewrite Hoth].
  - destruct C5 as [(y & Hy & Hd) Hl]. rewrite Hoth by done. split; [|done].
    destruct (Hst idle) as [->|[_ ->]]; [by exists y|by exists TASK_READY].
  - intros t l'. rewrite Ed. intros Ht. apply (C7 t). destruct Ht as [Ht|Ht]; [left|by right].
    destruct (decide (t = c)) as [->|Hne]; [rewrite Hc' in Ht; by apply not_taking_nil in Ht|by rewrite Hoth in Ht].
  - intros l' y Hy. destruct (decide (l' = l)) as [->|Hne].
    + assert (y = x) as -> by congruence. rewrite lookup_insert_eq. eexists. split; [done|].
      split; cbn [value waiters]; try done.
      * by right.
      * destruct Hcase as [(_ & -> & _)|(w & Ew & _)]; [constructor|]. rewrite Ew in H2. by apply NoDup_cons in H2 as [_ ?].
      * intros t. rewrite Ed. destruct Hcase as [(Ew & -> & _ & E)|(w & Ew & _ & E)].
        -- rewrite E, <- H3, Ew. done.
        -- rewrite E. rewrite Ew in H2. apply NoDup_cons in H2 as [Hw _]. case_decide as Etw.
           ++ subst t. split; [done|by intros [? _]].
           ++ rewrite <- H3, Ew, elem_of_cons. tauto.
      * intros t t' Ht. by destruct (Hfree t).
      * split; [done|]. intros (t & Ht). by destruct (Hfree t).
      * intros t Hh. destruct (Hfree (holder x)). by left.
      * intros _ Hws. destruct Hcase as [(_ & -> & _)|(w & Ew & _ & E)]; [done|]. exists w.
        rewrite Ed, E, decide_True by done. split; [|by left]. apply Hwt. rewrite Ew. left.
    + rewrite lookup_insert_ne by (intros E; by apply sema_of_inj in E).
      destruct (C6 l' y Hy) as (m' & Hm' & Hok). exists m'. split; [done|].
      assert (lock_ok st fr' l' y m') as Hok1.
      { apply (lock_ok_quiet st fr st fr' l' y m' c); try done; [intros t Ht; by rewrite Hoth| | |].
        - rewrite Hc. intros (old & E). done.
        - rewrite Hc'. intros (old & E). done.
        - rewrite Hc, Hc', (taking_one l [KUp l]) by (by right). split; [intros Ht; by apply not_taking_nil in Ht|done]. }
      destruct Hcase as [(_ & _ & _ & E)|(w & Ew & _ & E)].
      * apply (lock_ok_quiet st fr' st' fr' l' y m' c); try done; rewrite Hc'; intros (old & E'); done.
      * assert (~ in_down l' (fr' w)) as Hnw.
        { rewrite Ed. intros Hd. apply Hne. apply (in_down_inj l' l (fr w) Hd). apply Hwt. rewrite Ew. left. }
        apply (lock_ok_quiet st fr' st' fr' l' y m' w); try done. intros t Ht. by rewrite E, decide_False.
Qed.

(** ** The kernel state *)

Section System.
Context {P : Type} `{PA : PageAlloc P} (v2p : Z -> Z).
#[local] Abbreviation sched := (@sched P).
Implicit Types s : sched.

Definition st s (t : Z) : option task_status := status <$> tasks s !! t.
Definition fr s (t : Z) : list frame := default [] (frames_of s !! t).

(** The kernel invariant: exactly the current thread runs, [core], intact
    stacks, and with interrupts on the running thread has no frame of the
    scheduler left. *)
Record sinv s : Prop := {
  si_cur : st s (cur s) = Some TASK_RUNNING;
  si_run : forall t, st s t = Some TASK_RUNNING -> t = cur s;
  si_core : core (st s) (fr s) (thread_ready_list s) (idle_thread s) (locks s) (semas s);
  si_magic : forall t x, tasks s !! t = Some x -> stack_magic x = 0x19750130;
  si_off : intr_get_status_of s = INTR_ON -> base (fr s (cur s))
}.

(** What an operation on the tasks and the ready list may change. *)
Record task_effect s s' : Prop := {
  te_magic : (forall t x, tasks s !! t = Some x -> stack_magic x = 0x19750130) ->
             forall t x, tasks s' !! t = Some x -> stack_magic x = 0x19750130;
  te_frames : frames_of s' = frames_of s;
  te_cur : cur s' = cur s;
  te_idle : idle_thread s' = idle_thread s;
  te_locks : locks s' = locks s;
  te_semas : semas s' = semas s;
  te_flags : flags s' = flags s
}.

#[local] Instance task_effect_preorder : PreOrder task_effect.
Proof.
  split; [by split|]. intros s1 s2 s3 [] []. split; try congruence. eauto.
Qed.

Definition keeps_magic (f : task_struct -> task_struct) : Prop := forall x, stack_magic (f x) = stack_magic x.

Lemma upd_task_run s p x f : tasks s !! p = Some x -> keeps_magic f ->
  exists s', upd_task p f s = Ok (tt, s') /\ task_effect s s' /\
    thread_ready_list s' = thread_ready_list s /\ tasks s' = <[p := f x]> (tasks s).
Proof.
  intros Hp Hf. unfold upd_task. rewrite Hp. eexists. split; [done|]. split; [|done].
  split; try done. intros Hm t y. cbn. intros [[<- <-]|[_ Hy]]%lookup_insert_Some; [|by eapply Hm].
  rewrite Hf. by eapply Hm.
Qed.

Lemma st_insert s s' p x : tasks s' = <[p := x]> (tasks s) ->
  forall t, st s' t = if decide (t = p) then Some (status x) else st s t.
Proof.
  intros E t. unfold st. rewrite E, lookup_insert. case_decide as E1; case_decide as E2; congruence || done.
Qed.

Lemma st_ext s s' : tasks s' = tasks s -> forall t, st s' t = st s t.
Proof. intros E t. unfold st. by rewrite E. Qed.

Lemma fr_ext s s' : frames_of s' = frames_of s -> forall t, fr s' t = fr s t.
Proof. intros E t. unfold fr. by rewrite E. Qed.

Lemma st_Some s t x : st s t = Some x -> exists y, tasks s !! t = Some y /\ status y = x.
Proof. unfold st. destruct (tasks s !! t) as [y|]; [|done]. intros [= <-]. by exists y. Qed.

Lemma status_flags s s' : flags s' = flags s -> intr_get_status_of s' = intr_get_status_of s.
Proof. intros E. unfold intr_get_status_of. cbn. by rewrite E. Qed.

Lemma core_ext st1 st2 fr1 fr2 rdy idle lk sm :
  (forall t, st2 t = st1 t) -> (forall t, fr2 t = fr1 t) ->
  core st1 fr1 rdy idle lk sm -> core st2 fr2 rdy idle lk sm.
Proof.
  intros Es Ef [C1 C2 C3 C4 C5 C7 C6]. split; try done.
  - intros t. by rewrite Es.
  - by rewrite Es.
  - intros t. by rewrite Ef.
  - by rewrite Es, Ef.
  - intros t l. rewrite Ef. apply C7.
  - intros l x Hx. destruct (C6 l x Hx) as (m & Hm & [H1 H2 H3 H4 H5 H6 H7 H8]). exists m. split; [done|].
    assert (forall t, owns fr2 l x t <-> owns fr1 l x t) as Eo by (apply owns_ext; intros t; by rewrite Ef).
    split; try done.
    + intros t. by rewrite Es, Ef.
    + intros t t'. rewrite !Eo. apply H5.
    + rewrite H6. split; intros (t & Ht); exists t; by apply Eo.
    + intros t. rewrite Ef. apply H7.
    + intros Hv Hw. destruct (H8 Hv Hw) as (t & Ht). exists t. by rewrite Es, Ef.
Qed.

Lemma assert_bool {S} (c : bool) w (s : S) : c = true -> assertM c w s = Ok (tt, s).
Proof. apply assertM_run. Qed.

Lemma get_task_run s p x : tasks s !! p = Some x -> get_task p s = Ok (x, s).
Proof. intros E. unfold get_task. by rewrite E. Qed.

Lemma q_find_false (l : list Z) e : e ∉ l -> negb (q_find l e) = true.
Proof. intros He. unfold q_find. by rewrite bool_decide_eq_false_2. Qed.

Lemma set_status_magic x : keeps_magic (set_status x).
Proof. done. Qed.

(** Waking a blocked thread with interrupts off. *)
Lemma thread_unblock_run s p x :
  intr_get_status_of s = INTR_OFF -> tasks s !! p = Some x -> blocked_status (status x) = true ->
  p ∉ thread_ready_list s ->
  exists s', thread_unblock p s = Ok (tt, s') /\ task_effect s s' /\
    thread_ready_list s' = p :: thread_ready_list s /\
    (forall t, st s' t = if decide (t = p) then Some TASK_READY else st s t).
Proof.
  intros Hoff Hp Hb Hr.
  set (s1 := set_thread_ready_list (q_push (thread_ready_list s) p) s).
  destruct (upd_task_run s1 p x (set_status TASK_READY) Hp (set_status_magic _)) as (s2 & U & E & R & T).
  assert (intr_get_status_of s2 = INTR_OFF) as Hoff2.
  { rewrite <- Hoff. apply status_flags. by rewrite (te_flags _ _ E). }
  exists s2. split; [|split; [|split]].
  - unfold thread_unblock. rewrite (mbindM_Ok _ _ _ _ _ (intr_disable_run s)), masked_id by done.
    mrun (get_task_run s p x Hp). erewrite mbindM_Ok by (by apply assertM_run).
    assert (status x <> TASK_READY) as Hne.
    { intros E0. unfold blocked_status in Hb. rewrite E0 in Hb. by apply bool_decide_eq_true in Hb as [?|[?|?]]. }
    rewrite decide_False by done.
    erewrite mbindM_Ok; cycle 1.
    { rewrite (mbindM_Ok _ _ s s s eq_refl). erewrite mbindM_Ok by (apply assertM_run; by apply q_find_false).
      rewrite (mbindM_Ok _ _ s tt s1) by done. exact U. }
    rewrite Hoff. unfold intr_set_status. rewrite (mbindM_Ok _ _ _ _ _ (intr_disable_run s2)), masked_id by done. done.
  - etransitivity; [|exact E]. by split.
  - done.
  - intros t. rewrite (st_insert s1 s2 p _ T). done.
Qed.

(** The scheduler: with the caller put away as [st1], [fr1] and [rdy1] say, it
    hands the processor to another thread and restores the invariant. *)
Definition parked (x : task_struct) : task_status :=
  if decide (status x = TASK_RUNNING) then TASK_READY else status x.

Lemma process_activate_run s p x : tasks s !! p = Some x -> p <> NULL ->
  exists s', process_activate v2p p s = Ok (tt, s') /\ task_effect s s' /\
    thread_ready_list s' = thread_ready_list s /\ tasks s' = tasks s.
Proof.
  intros Hp Hn. unfold process_activate. erewrite mbindM_Ok; cycle 1.
  { apply assertM_run. by destruct (Z.eqb_spec p NULL). }
  unfold page_dir_activate. erewrite mbindM_Ok; cycle 1.
  { mrun (get_task_run s p x Hp). done. }
  erewrite mbindM_Ok by (by apply get_task_run).
  destruct (pgdir x =? NULL); eexists; (split; [done|]); (split; [by split|done]).
Qed.

Lemma schedule_run s k x :
  intr_get_status_of s = INTR_OFF -> tasks s !! cur s = Some x ->
  (forall t y, tasks s !! t = Some y -> stack_magic y = 0x19750130) ->
  (forall t, t <> cur s -> st s t <> Some TASK_RUNNING) ->
  (status x = TASK_RUNNING -> cur s ∉ thread_ready_list s) ->
  let rdy1 := if decide (status x = TASK_RUNNING) then thread_ready_list s ++ [cur s] else thread_ready_list s in
  let st1 := fun t => if decide (t = cur s) then Some (parked x) else st s t in
  let fr1 := fun t => if decide (t = cur s) then k :: fr s t else fr s t in
  core st1 fr1 rdy1 (idle_thread s) (locks s) (semas s) ->
  exists s', schedule v2p k s = Ok (tt, s') /\ sinv s' /\
    (forall t, fr s' t = fr1 t) /\ locks s' = locks s /\ semas s' = semas s /\ flags s' = flags s /\
    idle_thread s' = idle_thread s /\
    (forall t, st s' t = if decide (t = cur s') then Some TASK_RUNNING else st1 t) /\
    (cur s' ∈ rdy1 \/ cur s' = idle_thread s).
Proof.
  intros Hoff Hx Hmag Hrun Hnr rdy1 st1 fr1 Hcore.
  assert (exists s1, (if decide (status x = TASK_RUNNING) then
         s0 ← getS;
         _ ← assertM (negb (q_find (thread_ready_list s0) (cur s))) "schedule: !elem_find(&thread_ready_list, &cur->general_tag)";
         _ ← modS (set_thread_ready_list (q_append (thread_ready_list s0) (cur s)));
         _ ← upd_task (cur s) (fun t => set_ticks (u8 (priority t)) t);
         upd_task (cur s) (set_status TASK_READY)
       else mret tt) s = Ok (tt, s1) /\ task_effect s s1 /\ thread_ready_list s1 = rdy1 /\
      forall t, st s1 t = st1 t) as (s1 & R1 & E1 & L1 & S1).
  { unfold rdy1, st1, parked. destruct (decide (status x = TASK_RUNNING)) as [Er|Er].
    - set (s0 := set_thread_ready_list (q_append (thread_ready_list s) (cur s)) s).
      destruct (upd_task_run s0 (cur s) x (fun t => set_ticks (u8 (priority t)) t) Hx) as (s2 & U2 & E2 & R2 & T2); [done|].
      destruct (upd_task_run s2 (cur s) (set_ticks (u8 (priority x)) x) (set_status TASK_READY)) as (s3 & U3 & E3 & R3 & T3).
      { rewrite T2. apply lookup_insert_eq. } { done. }
      exists s3. split; [|split; [|split]].
      + rewrite (mbindM_Ok _ _ s s s eq_refl). erewrite mbindM_Ok by (apply assertM_run, q_find_false, Hnr, Er).
        rewrite (mbindM_Ok _ _ s tt s0) by done. mrun U2. exact U3.
      + etransitivity; [|exact E3]. etransitivity; [|exact E2]. by split.
      + by rewrite R3, R2.
      + intros t. rewrite (st_insert s2 s3 _ _ T3), (st_insert s0 s2 _ _ T2). by repeat case_decide.
    - exists s. split; [done|]. split; [done|]. split; [done|]. intros t. case_decide as E; [|done].
      subst t. unfold st. by rewrite Hx. }
  assert (intr_get_status_of s1 = INTR_OFF) as Hoff1 by (rewrite (status_flags s s1); [done|apply E1]).
  assert (forall t, st1 t <> Some TASK_RUNNING) as Hno.
  { intros t. unfold st1, parked. destruct (decide (t = cur s)); [|by apply Hrun].
    destruct (decide (status x = TASK_RUNNING)); congruence. }
  pose proof Hcore as [C1 C2 C3 C4 C5 C7 C6].
  assert (exists s2 next rest, (if q_empty (thread_ready_list s1) then thread_unblock (idle_thread s1) else mret tt) s1 = Ok (tt, s2) /\
      task_effect s1 s2 /\ thread_ready_list s2 = next :: rest /\
      (rdy1 = next :: rest \/ (rdy1 = [] /\ next = idle_thread s /\ rest = [])) /\
      (forall t, st s2 t = if decide (t = next) then Some TASK_READY else st1 t))
    as (s2 & next & rest & R2 & E2 & L2 & Hnext & S2).
  { rewrite L1. destruct rdy1 as [|next rest] eqn:Er; cbn [q_empty].
    - destruct C5 as [(y & Hy & Hd) _]. rewrite <- S1 in Hy. rewrite <- (te_idle _ _ E1) in Hy.
      destruct (st_Some _ _ _ Hy) as (xi & Hxi & Exi).
      destruct (thread_unblock_run s1 (idle_thread s1) xi Hoff1 Hxi) as (s2 & U & E2 & L2 & S2).
      + rewrite Exi. unfold blocked_status. apply bool_decide_eq_true_2. rewrite S1 in Hy.
        destruct y; try tauto; [by apply Hno in Hy|apply C1 in Hy; by apply elem_of_nil in Hy].
      + rewrite L1. apply not_elem_of_nil.
      + exists s2, (idle_thread s1), []. split; [done|]. split; [done|]. split; [by rewrite L2, L1|].
        split; [right; rewrite (te_idle _ _ E1); done|]. intros t. by rewrite S2, S1.
    - exists s1, next, rest. split; [done|]. split; [done|]. split; [done|]. split; [by left|].
      intros t. rewrite S1. destruct (decide (t = next)) as [->|]; [apply C1; left|done]. }
  assert (exists xn, tasks s2 !! next = Some xn) as (xn & Hxn).
  { assert (st s2 next = Some TASK_READY) as E by (by rewrite S2, decide_True).
    destruct (st_Some _ _ _ E) as (xn & ? & _). by exists xn. }
  assert (next <> NULL) as Hnn.
  { intros ->. destruct Hnext as [E|(_ & E & _)].
    - assert (st1 NULL = Some TASK_READY) by (apply C1; rewrite E; left). congruence.
    - destruct C5 as [(y & Hy & _) _]. rewrite <- E in Hy. congruence. }
  set (s3 := set_thread_ready_list rest s2).
  destruct (upd_task_run s3 next xn (set_status TASK_RUNNING) Hxn) as (s4 & U4 & E4 & L4 & T4); [done|].
  destruct (process_activate_run s4 next (set_status TASK_RUNNING xn)) as (s5 & A5 & E5 & L5 & T5).
  { rewrite T4. apply lookup_insert_eq. } { done. }
  assert (task_effect s s5) as E.
  { etransitivity; [exact E1|]. etransitivity; [exact E2|]. etransitivity; [|exact E5]. etransitivity; [|exact E4]. by split. }
  assert (forall t, st s5 t = if decide (t = next) then Some TASK_RUNNING else st1 t) as S5.
  { intros t. rewrite (st_ext s4 s5) by done. rewrite (st_insert s3 s4 _ _ T4). cbn [status set_status].
    change (st s3 t) with (st s2 t). rewrite S2. by repeat case_decide. }
  set (s6 := set_cur next (set_frames_of (<[cur s := k :: default [] (frames_of s5 !! cur s)]> (frames_of s5)) s5)).
  assert (forall t, fr s6 t = fr1 t) as F6.
  { intros t. unfold fr, s6, fr1. cbn. rewrite lookup_insert, (te_frames _ _ E).
    repeat case_decide; try congruence; subst; done. }
  exists s6. split; [|split; [split|]].
  - unfold schedule. rewrite (mbindM_Ok _ _ s _ s eq_refl). rewrite Hoff.
    erewrite mbindM_Ok by (by apply assertM_run). rewrite (mbindM_Ok _ _ s _ s eq_refl).
    mrun (get_task_run s _ x Hx). mrun R1. rewrite (mbindM_Ok _ _ s1 s1 s1 eq_refl). mrun R2.
    rewrite (mbindM_Ok _ _ s2 s2 s2 eq_refl). rewrite L2. erewrite mbindM_Ok by (by apply assertM_run).
    rewrite (mbindM_Ok _ _ s2 (next, rest) s2) by done. cbn beta iota. rewrite (mbindM_Ok _ _ s2 tt s3) by done. mrun U4. mrun A5.
    done.
  - change (st s6 next = Some TASK_RUNNING). change (st s6 next) with (st s5 next). by rewrite S5, decide_True.
  - intros t. change (st s6 t) with (st s5 t). rewrite S5. destruct (decide (t = next)); [done|]. intros Hr. by apply Hno in Hr.
  - change (thread_ready_list s6) with (thread_ready_list s5). change (locks s6) with (locks s5).
    change (semas s6) with (semas s5). change (idle_thread s6) with (idle_thread s5).
    rewrite L5, L4, (te_locks _ _ E), (te_semas _ _ E), (te_idle _ _ E). cbn [thread_ready_list s3 set_thread_ready_list].
    apply (core_ext (st s5) (st s6) fr1 (fr s6)); [done|done|].
    by apply (core_dispatch st1 fr1 rdy1 (idle_thread s) _ _ (st s5) next rest).
  - exact (te_magic _ _ E Hmag).
  - intros Hon. assert (intr_get_status_of s6 = intr_get_status_of s) as Ef by (apply status_flags; exact (te_flags _ _ E)).
    congruence.
  - split; [done|]. split; [apply E|]. split; [apply E|]. split; [apply E|]. split; [apply E|].
    split; [intros t; change (st s6 t) with (st s5 t); by rewrite S5|]. cbn [cur s6 set_cur].
    destruct Hnext as [->|(_ & -> & _)]; [left; left|by right].
Qed.

(** ** Every operation keeps the invariant *)

Lemma intr_set_any (old : intr_status) s :
  exists r z, intr_set_status old s = Ok (r, set_flags z s).
Proof.
  destruct old; unfold intr_set_status.
  - rewrite intr_disable_run. by exists (intr_get_status_of s), (flags (masked s)).
  - unfold intr_enable, mbind, M_bind, intr_get_status. destruct (intr_get_status_of s) eqn:E.
    + by exists INTR_OFF, (Z.lor (flags s) EFLAGS_IF).
    + exists INTR_ON, (flags s). by destruct s.
Qed.

Lemma sinv_cur_task s : sinv s -> exists x, tasks s !! cur s = Some x /\ status x = TASK_RUNNING /\
  cur s <> NULL /\ cur s ∉ thread_ready_list s.
Proof.
  intros [H1 H2 [C1 C2 C3 C4 C5 C7 C6] H4 H5]. destruct (st_Some _ _ _ H1) as (x & Hx & Ex). exists x.
  split; [done|]. split; [done|]. split; [congruence|]. rewrite C1. congruence.
Qed.

Lemma sinv_flags z s : sinv s -> base (fr s (cur s)) -> sinv (set_flags z s).
Proof. intros [H1 H2 H3 H4 H5] Hb. by split. Qed.

(** Calling the scheduler with the caller in status [stat] and frame [k]
    on top of what it had, when no lock is concerned. *)
Lemma park_run s k stat s1 x :
  sinv s -> tasks s !! cur s = Some x ->
  (forall l, ~ in_down l (fr s (cur s))) -> base (fr s (cur s)) ->
  (fr s (cur s) = [] \/ exists ef, k = KIret ef) -> shape (k :: fr s (cur s)) ->
  intr_get_status_of s1 = INTR_OFF -> cur s1 = cur s -> idle_thread s1 = idle_thread s ->
  frames_of s1 = frames_of s -> locks s1 = locks s -> semas s1 = semas s ->
  (forall t y, tasks s1 !! t = Some y -> stack_magic y = 0x19750130) ->
  (forall t, st s1 t = if decide (t = cur s) then Some stat else st s t) -> stat <> TASK_DIED ->
  thread_ready_list s1 = (if decide (stat = TASK_READY) then thread_ready_list s ++ [cur s] else thread_ready_list s) ->
  (forall l psema old, k <> KDown psema old /\ k <> KTook l /\ k <> KUp l) ->
  exists s', schedule v2p k s1 = Ok (tt, s') /\ sinv s' /\
    (forall t, st s' t = if decide (t = cur s') then Some TASK_RUNNING
               else if decide (t = cur s) then Some (if decide (stat = TASK_RUNNING) then TASK_READY else stat)
               else st s t) /\
    (forall t, fr s' t = if decide (t = cur s) then k :: fr s t else fr s t) /\
    idle_thread s' = idle_thread s /\ flags s' = flags s1 /\
    (stat <> TASK_RUNNING -> cur s' ∈ thread_ready_list s1 \/ cur s' = idle_thread s) /\
    locks s' = locks s.
Proof.
  intros Hs Hx Hnd Hb Hk Hsh Hoff Ec Ei Ef El Em Hmag Hst Hd Hr Hkk.
  destruct (sinv_cur_task s Hs) as (x' & Hx' & Ex & Hn & Hnr). assert (x' = x) as -> by congruence.
  pose proof Hs as [S1 S2 [C1 C2 C3 C4 C5 C7 C6] S4 S5].
  assert (st s1 (cur s) = Some stat) as Estc by (by rewrite Hst, decide_True).
  destruct (st_Some _ _ _ Estc) as (x1 & Hx1 & Ex1).
  destruct (schedule_run s1 k x1) as (s' & R & I & F' & K' & _ & G' & D' & T' & N'); try done.
  - by rewrite Ec.
  - intros t Ht. rewrite Hst, decide_False by congruence. intros Hr'. apply Ht. rewrite Ec. by apply S2.
  - intros E. rewrite Ec, Hr. rewrite Ex1 in E. rewrite E. by rewrite decide_False.
  - rewrite Ec, Ei, El, Em. rewrite Ex1.
    apply (core_quiet (st s) (fr s) (thread_ready_list s) _ _ _ _ _ _ (cur s)); try done.
    + intros t Ht. rewrite !decide_False, Hst, decide_False by done. split; [done|]. unfold fr. by rewrite Ef.
    + intros l (old & E). rewrite decide_True in E by done. injection E as E _. by destruct (Hkk l (sema_of l) old).
    + intros l. rewrite decide_True by done. unfold fr at 1. rewrite Ef. fold (fr s (cur s)).
      destruct Hk as [Hk|(ef & ->)]; [|by apply taking_iret].
      rewrite Hk. split; intros Ht; [|by apply not_taking_nil in Ht].
      apply taking_cases in Ht as [E|[E|(ef & [E|E])]]; try done; injection E as E; by destruct (Hkk l (sema_of l) INTR_OFF) as (? & ? & ?).
    + rewrite decide_True by done. unfold fr. rewrite Ef. exact Hsh.
    + rewrite decide_True by done. unfold parked. rewrite Ex1. destruct (decide (stat = TASK_RUNNING)) as [E0|E0]; [exists TASK_READY; split; [reflexivity|discriminate]|exists stat; split; [reflexivity|exact Hd]].
    + intros t. unfold parked. rewrite Ex1, Hr. destruct (decide (t = cur s)) as [->|Hne].
      * destruct (decide (stat = TASK_RUNNING)) as [->|Hnr'].
        -- rewrite decide_False by done. split; [done|]. intros _. apply elem_of_app. right. by apply list_elem_of_singleton.
        -- case_decide as E; [|split; [intros ?; congruence|congruence]].
           split; [by rewrite E|]. intros _. apply elem_of_app. right. by apply list_elem_of_singleton.
      * rewrite Hst, (decide_False (P := t = cur s)) by done. rewrite <- C1.
        destruct (decide (stat = TASK_RUNNING)), (decide (stat = TASK_READY)); try congruence; try done;
          rewrite elem_of_app, list_elem_of_singleton; tauto.
    + rewrite Hr. assert (NoDup (thread_ready_list s ++ [cur s])) as Hnd2.
      { apply NoDup_app. split; [done|]. split; [|apply NoDup_singleton]. intros t Ht ->%list_elem_of_singleton. done. }
      repeat case_decide; subst; try done.
  - exists s'. split; [done|]. split; [done|]. split; [|split; [|split; [congruence|split; [done|split; [|congruence]]]]].
    + intros t. rewrite T'. rewrite Ec. unfold parked. rewrite Ex1.
      destruct (decide (t = cur s')), (decide (t = cur s)); try done. by rewrite Hst, decide_False.
    + intros t. rewrite F', Ec. unfold fr. by rewrite Ef.
    + intros Hns. rewrite Ex1, decide_False in N' by done. by rewrite Ei in N'.
Qed.

Lemma blocked_status_ne stat : blocked_status stat = true ->
  stat <> TASK_RUNNING /\ stat <> TASK_READY /\ stat <> TASK_DIED.
Proof. intros Hb. unfold blocked_status in Hb. apply bool_decide_eq_true in Hb. destruct Hb as [->|[->| ->]]; done. Qed.

(** [intr_disable] on the kernel state. *)
Definition off s : sched := set_flags (Z.land (flags s) (Z.lnot EFLAGS_IF)) s.

Lemma off_run s : intr_disable s = Ok (intr_get_status_of s, off s).
Proof. exact (intr_disable_run s). Qed.

Lemma off_off s : intr_get_status_of (off s) = INTR_OFF.
Proof. exact (masked_off s). Qed.

Lemma off_id s : intr_get_status_of s = INTR_OFF -> off s = s.
Proof. exact (masked_id s). Qed.

Lemma thread_block_ok s stat : sinv s -> fr s (cur s) = [] -> blocked_status stat = true ->
  exists s', thread_block v2p stat s = Ok (tt, s') /\ sinv s' /\
    (forall t, st s' t = if decide (t = cur s') then Some TASK_RUNNING
               else if decide (t = cur s) then Some stat else st s t) /\
    (forall t, fr s' t = if decide (t = cur s) then KRet (intr_get_status_of s) :: fr s t else fr s t) /\
    idle_thread s' = idle_thread s /\ (cur s' ∈ thread_ready_list s \/ cur s' = idle_thread s) /\
    intr_get_status_of s' = INTR_OFF /\ locks s' = locks s.
Proof.
  intros Hs Hf Hb. destruct (sinv_cur_task s Hs) as (x & Hx & Ex & Hn & Hnr).
  destruct (blocked_status_ne stat Hb) as (B1 & B2 & B3).
  destruct (upd_task_run (off s) (cur s) x (set_status stat) Hx) as (s1 & U & E & R & T); [done|].
  destruct (park_run s (KRet (intr_get_status_of s)) stat s1 x) as (s' & S' & I & T' & F' & D' & G' & N' & K'); try done.
  - rewrite Hf. intros l (old & E'). done.
  - rewrite Hf. by left.
  - by left.
  - rewrite Hf. apply sh_ret.
  - rewrite (status_flags (off s) s1) by apply E. apply off_off.
  - apply E.
  - apply E.
  - apply E.
  - apply E.
  - apply E.
  - apply (te_magic _ _ E). apply Hs.
  - intros t. rewrite (st_insert (off s) s1 _ _ T). done.
  - by rewrite decide_False, R.
  - exists s'. split; [|split; [done|]].
    + unfold thread_block, thread_block_then.
      erewrite mbindM_Ok by (by apply assertM_run). rewrite (mbindM_Ok _ _ _ _ _ (off_run s)).
      rewrite (mbindM_Ok _ _ (off s) (cur s) (off s)) by done. mrun U. exact S'.
    + split; [intros t; rewrite T'; by rewrite (decide_False (P := stat = TASK_RUNNING))|].
      split; [done|]. split; [done|]. split; [rewrite R in N'; by apply N'|].
      split; [|done]. rewrite (status_flags s1 s' G'), (status_flags (off s) s1) by apply E. apply off_off.
Qed.

Lemma thread_yield_ok s : sinv s -> fr s (cur s) = [] ->
  exists s', thread_yield v2p s = Ok (tt, s') /\ sinv s'.
Proof.
  intros Hs Hf. destruct (sinv_cur_task s Hs) as (x & Hx & Ex & Hn & Hnr).
  set (s0 := set_thread_ready_list (q_append (thread_ready_list s) (cur s)) (off s)).
  destruct (upd_task_run s0 (cur s) x (set_status TASK_READY) Hx) as (s1 & U & E & R & T); [done|].
  destruct (park_run s (KRet (intr_get_status_of s)) TASK_READY s1 x) as (s' & S' & I & _); try done.
  - rewrite Hf. intros l (old & E'). done.
  - rewrite Hf. by left.
  - by left.
  - rewrite Hf. apply sh_ret.
  - rewrite (status_flags s0 s1) by apply E. apply off_off.
  - apply E.
  - apply E.
  - apply E.
  - apply E.
  - apply E.
  - apply (te_magic _ _ E). apply Hs.
  - intros t. rewrite (st_insert s0 s1 _ _ T). done.
  - exists s'. split; [|done]. unfold thread_yield.
    rewrite (mbindM_Ok _ _ s (cur s) s) by done. rewrite (mbindM_Ok _ _ _ _ _ (off_run s)).
    rewrite (mbindM_Ok _ _ (off s) (off s) (off s)) by done.
    erewrite mbindM_Ok by (apply assertM_run; by apply q_find_false).
    rewrite (mbindM_Ok _ _ (off s) tt s0) by done. mrun U. exact S'.
Qed.

(** The timer may strike whenever interrupts are on. *)
Lemma timer_interrupt_ok s : sinv s -> intr_get_status_of s = INTR_ON ->
  exists s', timer_interrupt v2p s = Ok (tt, s') /\ sinv s'.
Proof.
  intros Hs Hon. destruct (sinv_cur_task s Hs) as (x & Hx & Ex & Hn & Hnr).
  pose proof (si_off s Hs Hon) as Hb. pose proof (si_magic s Hs _ _ Hx) as Hmag.
  set (s0 := off s).
  set (f := fun t => set_elapsed_ticks (u32 (elapsed_ticks t + 1)) t).
  destruct (upd_task_run s0 (cur s) x f Hx) as (s1 & U1 & E1 & R1 & T1); [done|].
  set (s2 := set_total_ticks (u32 (total_ticks s1 + 1)) s1).
  assert (tasks s2 !! cur s = Some (f x)) as Hx2 by (cbn; rewrite T1; apply lookup_insert_eq).
  assert (forall t, st s2 t = st s t) as S2.
  { intros t. change (st s2 t) with (st s1 t). rewrite (st_insert s0 s1 _ _ T1). case_decide as E; [|done].
    subst t. unfold st. rewrite Hx. done. }
  assert (intr_timer_handler v2p (flags s) s0 =
    (if ticks (f x) =? 0 then schedule v2p (KIret (flags s))
     else _ ← upd_task (cur s) (fun t => set_ticks (u8 (ticks t - 1)) t); modS (set_flags (flags s))) s2) as Eh.
  { unfold intr_timer_handler. rewrite (mbindM_Ok _ _ s0 (cur s) s0) by done.
    mrun (get_task_run s0 (cur s) x Hx). erewrite mbindM_Ok by (apply assertM_run; by rewrite Hmag).
    mrun U1. rewrite (mbindM_Ok _ _ s1 tt s2) by done. mrun (get_task_run s2 (cur s) (f x) Hx2). done. }
  assert (timer_interrupt v2p s = intr_timer_handler v2p (flags s) s0) as -> by done.
  rewrite Eh. clear Eh. destruct (ticks (f x) =? 0).
  - destruct (park_run s (KIret (flags s)) TASK_RUNNING s2 x) as (s' & S' & I & _); try done; try apply E1.
    + intros l. by apply base_not_down.
    + right. by exists (flags s).
    + by apply sh_iret.
    + rewrite (status_flags s0 s2) by apply E1. apply off_off.
    + exact (si_magic s Hs).
    + intros t. rewrite S2. case_decide; [subst t; apply Hs|done].
    + by exists s'.
  - destruct (upd_task_run s2 (cur s) (f x) (fun t => set_ticks (u8 (ticks t - 1)) t) Hx2) as (s3 & U3 & E3 & R3 & T3); [done|].
    exists (set_flags (flags s) s3). split; [by mrun U3|].
    assert (forall t, st s3 t = st s t) as S3.
    { intros t. rewrite (st_insert s2 s3 _ _ T3). case_decide as E; [|by rewrite S2]. subst t. unfold st. rewrite Hx. done. }
    assert (task_effect s0 s3) as E by (etransitivity; [exact E1|etransitivity; [|exact E3]; by split]).
    pose proof Hs as [K1 K2 K3 K4 K5]. split.
    + change (st s3 (cur s3) = Some TASK_RUNNING). rewrite S3. by rewrite (te_cur _ _ E).
    + intros t. change (st s3 t = Some TASK_RUNNING -> t = cur s3). rewrite S3, (te_cur _ _ E). apply K2.
    + cbn [thread_ready_list idle_thread locks semas set_flags].
      rewrite R3, (te_idle _ _ E), (te_locks _ _ E), (te_semas _ _ E). cbn [thread_ready_list s2 set_total_ticks]. rewrite R1.
      apply (core_ext (st s) _ (fr s) _); [exact S3| |exact K3]. intros t. unfold fr. cbn. by rewrite (te_frames _ _ E).
    + apply (te_magic _ _ E). exact K4.
    + intros _. unfold fr. cbn [frames_of cur set_flags]. rewrite (te_frames _ _ E), (te_cur _ _ E). exact Hb.
Qed.

Lemma get_sema_run s p m : semas s !! p = Some m -> get_sema p s = Ok (m, s).
Proof. intros E. unfold get_sema. by rewrite E. Qed.

Lemma get_lock_run s l x : locks s !! l = Some x -> get_lock l s = Ok (x, s).
Proof. intros E. unfold get_lock. by rewrite E. Qed.

(** [s1] is [s] with interrupts off and the running thread about to test the
    semaphore of [l]. *)
Record about_to_take s s1 (l : Z) : Prop := {
  at_off : intr_get_status_of s1 = INTR_OFF;
  at_tasks : tasks s1 = tasks s;
  at_ready : thread_ready_list s1 = thread_ready_list s;
  at_cur : cur s1 = cur s;
  at_idle : idle_thread s1 = idle_thread s;
  at_locks : locks s1 = locks s;
  at_semas : semas s1 = semas s;
  at_frames : forall t, fr s1 t = if decide (t = cur s) then [KTook l] else fr s t
}.

(** One round of [sema_down]: the semaphore is taken, or the thread waits. *)
Lemma sema_down_loop_ok s s1 l x old :
  sinv s -> cur s <> idle_thread s -> entering l (fr s (cur s)) -> locks s !! l = Some x ->
  about_to_take s s1 l ->
  exists s', sema_down_loop v2p (sema_of l) old s1 = Ok (tt, s') /\ sinv s'.
Proof.
  intros Hs Hci He Hx [A1 A2 A3 A4 A5 A6 A7 A8]. destruct (sinv_cur_task s Hs) as (xc & Hxc & Ex & Hn & Hnr).
  pose proof Hs as [S1 S2 S3 S4 S5].
  destruct (co_locks _ _ _ _ _ _ S3 l x Hx) as (m & Hm & Hok).
  unfold sema_down_loop. rewrite (mbindM_Ok _ _ s1 m s1) by (apply get_sema_run; by rewrite A7).
  destruct (Z.eqb_spec (value m) 0) as [Hv|Hv].
  - set (s2 := set_semas (<[sema_of l := mk_sema (value m) (q_append (waiters m) (cur s1))]> (semas s1)) s1).
    assert (intr_get_status_of s2 = INTR_OFF) as Hoff2 by exact A1.
    set (st' := fun t => if decide (t = cur s) then Some TASK_BLOCKED else st s t).
    set (fr' := fun t => if decide (t = cur s) then [KDown (sema_of l) old; KTook l] else fr s t).
    destruct (core_wait (st s) (fr s) _ _ _ _ (cur s) l x m old st' fr' S3 Hx Hm Hv S1 He Hci) as [Hcore Hw]; [done|done|].
    destruct (upd_task_run s2 (cur s) xc (set_status TASK_BLOCKED)) as (s3 & U & E & R & T); [cbn; by rewrite A2|done|].
    assert (forall t, st s3 t = st' t) as S3'.
    { intros t. rewrite (st_insert s2 s3 _ _ T). unfold st'. cbn [status set_status].
      destruct (decide (t = cur s)); [done|]. unfold st. cbn. by rewrite A2. }
    destruct (schedule_run s3 (KDown (sema_of l) old) (set_status TASK_BLOCKED xc)) as (s' & Sc & I & _).
    + rewrite (status_flags s2 s3) by apply E. done.
    + rewrite (te_cur _ _ E). cbn. rewrite A4, T. apply lookup_insert_eq.
    + apply (te_magic _ _ E). cbn. by rewrite A2.
    + intros t. rewrite (te_cur _ _ E). cbn. rewrite A4, S3'. unfold st'. intros Ht.
      rewrite decide_False by done. intros Hr. by apply Ht, S2.
    + done.
    + rewrite (te_cur _ _ E), (te_idle _ _ E), (te_locks _ _ E), (te_semas _ _ E), R.
      cbn [thread_ready_list cur idle_thread locks semas s2 set_semas status set_status parked].
      rewrite decide_False by done. unfold parked. cbn [status set_status]. rewrite decide_False by done.
      rewrite A3, A4, A5, A6, A7, Hv. apply (core_ext st' _ fr' _); [| |exact Hcore].
      * intros t. rewrite S3'. unfold st'. by case_decide.
      * intros t. unfold fr'. rewrite (fr_ext s2 s3) by apply E. change (fr s2 t) with (fr s1 t). rewrite A8.
        by case_decide.
    + exists s'. split; [|done]. rewrite (mbindM_Ok _ _ s1 (cur s1) s1) by done.
      erewrite mbindM_Ok by (apply assertM_run, q_find_false; by rewrite A4).
      rewrite (mbindM_Ok _ _ s1 tt s2) by done. unfold thread_block_then.
      erewrite mbindM_Ok by (by apply assertM_run). rewrite (mbindM_Ok _ _ _ _ _ (off_run s2)), off_id by done.
      rewrite (mbindM_Ok _ _ s2 (cur s) s2) by (unfold running_thread; cbn; by rewrite A4). mrun U. exact Sc.
  - assert (value m = 1) as Hv1 by (destruct (lo_value _ _ _ _ _ Hok); lia).
    set (s2 := set_semas (<[sema_of l := mk_sema 0 (waiters m)]> (semas s1)) s1).
    destruct (intr_set_any old s2) as (r & z & Es). exists (set_flags z s2). split.
    + rewrite Hv1. rewrite (mbindM_Ok _ _ s1 tt s2) by done. erewrite mbindM_Ok by (by apply assertM_run).
      by mrun Es.
    + pose proof (core_take (st s) (fr s) _ _ _ _ (cur s) l x m (fr s1) S3 Hx Hm Hv1 S1 He Hci A8) as Hcore.
      split.
      * change (st s1 (cur s1) = Some TASK_RUNNING). rewrite (st_ext s s1), A4 by done. done.
      * intros t. change (st s1 t = Some TASK_RUNNING -> t = cur s1). rewrite (st_ext s s1), A4 by done. apply S2.
      * cbn [thread_ready_list idle_thread locks semas s2 set_semas set_flags]. rewrite A3, A5, A6, A7.
        apply (core_ext (st s) _ (fr s1) _); [|done|exact Hcore]. intros t. exact (st_ext s s1 A2 t).
      * cbn [tasks s2 set_semas set_flags]. rewrite A2. done.
      * intros _. change (fr (set_flags z s2) (cur (set_flags z s2))) with (fr s1 (cur s1)). rewrite A8, A4, decide_True by done. right. exists l. by left.
Qed.

Lemma fr_push s t k t' : fr (set_frames_of (<[t := k :: default [] (frames_of s !! t)]> (frames_of s)) s) t' =
  if decide (t' = t) then k :: fr s t else fr s t'.
Proof. unfold fr. cbn. rewrite lookup_insert. repeat case_decide; congruence || done. Qed.

Lemma lock_acquire_ok s l x : sinv s -> fr s (cur s) = [] -> cur s <> idle_thread s ->
  locks s !! l = Some x -> holder_repeat_nr x < 2 ^ 32 - 1 ->
  exists s', lock_acquire v2p l s = Ok (tt, s') /\ sinv s'.
Proof.
  intros Hs Hf Hci Hx Hrep. destruct (sinv_cur_task s Hs) as (xc & Hxc & Ex & Hn & Hnr).
  unfold lock_acquire. mrun (get_lock_run s l x Hx). rewrite (mbindM_Ok _ _ s (cur s) s) by done.
  destruct (co_locks _ _ _ _ _ _ (si_core s Hs) l x Hx) as (m & Hm & Hok).
  destruct (Z.eqb_spec (holder x) (cur s)) as [Eh|Eh].
  - eexists. split; [done|]. destruct (lo_repeat _ _ _ _ _ Hok) as [L1 L2].
    assert (holder_repeat_nr x <> 0) by (intros E; apply L2 in E; congruence).
    rewrite wrapu_small by lia. pose proof Hs as [S1 S2 S3 S4 S5]. split; try done.
    apply core_repeat; [exact S3|done|congruence|lia].
  - set (s1 := set_frames_of (<[cur s := KTook l :: default [] (frames_of s !! cur s)]> (frames_of s)) s).
    rewrite (mbindM_Ok _ _ s tt s1) by done. unfold sema_down. rewrite (mbindM_Ok _ _ _ _ _ (off_run s1)).
    apply (sema_down_loop_ok s (off s1) l x); try done; [by left|]. split; try done; [apply off_off|].
    intros t. change (fr (off s1) t) with (fr s1 t). unfold s1. rewrite fr_push, Hf. done.
Qed.

Lemma lock_release_ok s l x : sinv s -> fr s (cur s) = [] -> cur s <> idle_thread s ->
  locks s !! l = Some x -> holder x = cur s -> holder_repeat_nr x < 2 ^ 32 ->
  exists s', lock_release l s = Ok (tt, s') /\ sinv s'.
Proof.
  intros Hs Hf Hci Hx Hh Hrep. destruct (sinv_cur_task s Hs) as (xc & Hxc & Ex & Hn & Hnr).
  destruct (co_locks _ _ _ _ _ _ (si_core s Hs) l x Hx) as (m & Hm & Hok).
  destruct (lo_repeat _ _ _ _ _ Hok) as [L1 L2].
  assert (holder_repeat_nr x <> 0) by (intros E; apply L2 in E; congruence).
  unfold lock_release. mrun (get_lock_run s l x Hx). rewrite (mbindM_Ok _ _ s (cur s) s) by done.
  erewrite mbindM_Ok by (apply assertM_run; by apply Z.eqb_eq).
  pose proof Hs as [S1 S2 S3 S4 S5].
  destruct (Z.ltb_spec 1 (holder_repeat_nr x)) as [Hgt|Hle].
  - eexists. split; [done|]. rewrite wrapu_small by lia. split; try done.
    apply core_repeat; [exact S3|done|congruence|lia].
  - erewrite mbindM_Ok by (apply assertM_run; apply Z.eqb_eq; lia).
    set (s1 := set_locks (<[l := mk_lock NULL 0]> (locks s)) s). rewrite (mbindM_Ok _ _ s tt s1) by done.
    eexists. split; [done|]. split; try done.
    + cbn [thread_ready_list idle_thread locks semas s1 set_locks set_frames_of].
      apply (core_handover (st s) (fr s) _ _ _ _ (cur s) l x); try done.
      * right. split; [done|]. split; [|done]. change (cur s1) with (cur s). rewrite fr_push, decide_True by done. change (fr s1 (cur s)) with (fr s (cur s)). by rewrite Hf.
      * intros t Ht. change (cur s1) with (cur s). by rewrite fr_push, decide_False.
    + intros _. cbn [cur s1 set_locks set_frames_of].
      change (base (fr (set_frames_of (<[cur s1 := KUp l :: default [] (frames_of s1 !! cur s1)]> (frames_of s1)) s1) (cur s1))).
      rewrite fr_push, decide_True by done. change (fr s1 (cur s1)) with (fr s (cur s)). rewrite Hf.
      right. exists l. by right.
Qed.

(** The frames of the running thread without the topmost. *)
Definition popped s (ks : list frame) : sched := set_frames_of (<[cur s := ks]> (frames_of s)) s.

Lemma fr_popped s ks t : fr (popped s ks) t = if decide (t = cur s) then ks else fr s t.
Proof. unfold fr, popped. cbn. rewrite lookup_insert. repeat case_decide; congruence || done. Qed.

Lemma sema_up_ok s l x : sinv s -> locks s !! l = Some x -> fr s (cur s) = [KUp l] -> cur s <> idle_thread s ->
  exists s', sema_up (sema_of l) (popped s []) = Ok (tt, s') /\ sinv s'.
Proof.
  intros Hs Hx Hf Hci. destruct (sinv_cur_task s Hs) as (xc & Hxc & Ex & Hn & Hnr).
  pose proof Hs as [S1 S2 S3 S4 S5].
  destruct (co_locks _ _ _ _ _ _ S3 l x Hx) as (m & Hm & Hok). pose proof Hok as [H1 H2 H3 H4 H5 H6 H7 H8].
  assert (value m = 0) as Hv.
  { apply H6. exists (cur s). right. rewrite Hf. apply (taking_one l); [by right|done]. }
  set (s0 := popped s []). set (s1 := off s0).
  assert (intr_get_status_of s1 = INTR_OFF) as Hoff by apply off_off.
  assert (exists s2 ws, (if q_empty (waiters m) then mret tt else
       bl ← liftO (q_pop (waiters m));
       let '(thread_blocked, lw) := bl in
       _ ← put_sema (sema_of l) (mk_sema (value m) lw);
       thread_unblock thread_blocked) s1 = Ok (tt, s2) /\
     semas s2 !! sema_of l = Some (mk_sema 0 ws) /\
     <[sema_of l := mk_sema 1 ws]> (semas s2) = <[sema_of l := mk_sema 1 ws]> (semas s) /\
     frames_of s2 = frames_of s0 /\ cur s2 = cur s /\ idle_thread s2 = idle_thread s /\ locks s2 = locks s /\
     intr_get_status_of s2 = INTR_OFF /\ (forall t y, tasks s2 !! t = Some y -> stack_magic y = 0x19750130) /\
     ((waiters m = [] /\ ws = [] /\ thread_ready_list s2 = thread_ready_list s /\ forall t, st s2 t = st s t) \/
      (exists w, waiters m = w :: ws /\ thread_ready_list s2 = w :: thread_ready_list s /\
         forall t, st s2 t = if decide (t = w) then Some TASK_READY else st s t)))
    as (s2 & ws & R2 & M2 & I2 & F2 & C2' & D2 & L2 & O2 & G2 & W2).
  { destruct (waiters m) as [|w ws] eqn:Ew; cbn [q_empty].
    - exists s1, []. split; [done|]. split; [cbn; rewrite Hm; destruct m; cbn in *; by subst|].
      do 7 (split; [done|]). by left.
    - assert (st s w = Some TASK_BLOCKED /\ in_down l (fr s w)) as [Hw Hd] by (apply H3; left).
      set (sa := set_semas (<[sema_of l := mk_sema (value m) ws]> (semas s1)) s1).
      destruct (st_Some _ _ _ Hw) as (xw & Hxw & Exw).
      destruct (thread_unblock_run sa w xw Hoff Hxw) as (s2 & U & E & R & T).
      + by rewrite Exw.
      + cbn. rewrite (co_ready _ _ _ _ _ _ S3). congruence.
      + exists s2, ws. split; [|split; [|split; [|split; [|split; [|split; [|split; [|split; [|split]]]]]]]].
        * rewrite (mbindM_Ok _ _ s1 (w, ws) s1) by done. cbn beta iota. rewrite (mbindM_Ok _ _ s1 tt sa) by done. exact U.
        * rewrite (te_semas _ _ E). cbn. rewrite Hv. apply lookup_insert_eq.
        * rewrite (te_semas _ _ E). cbn. by rewrite insert_insert_eq.
        * by rewrite (te_frames _ _ E).
        * by rewrite (te_cur _ _ E).
        * by rewrite (te_idle _ _ E).
        * by rewrite (te_locks _ _ E).
        * rewrite (status_flags sa s2) by apply E. exact Hoff.
        * apply (te_magic _ _ E). exact S4.
        * right. exists w. split; [done|]. split; [done|]. intros t. by rewrite T. }
  set (s3 := set_semas (<[sema_of l := mk_sema 1 ws]> (semas s2)) s2).
  destruct (intr_set_any (intr_get_status_of s0) s3) as (r & z & Es).
  exists (set_flags z s3). split.
  - unfold sema_up. rewrite (mbindM_Ok _ _ _ _ _ (off_run s0)). fold s1.
    rewrite (mbindM_Ok _ _ s1 m s1) by (by apply get_sema_run).
    erewrite mbindM_Ok by (apply assertM_run; by rewrite Hv). mrun R2.
    rewrite (mbindM_Ok _ _ s2 (mk_sema 0 ws) s2) by (by apply get_sema_run).
    rewrite (mbindM_Ok _ _ s2 tt s3) by done. erewrite mbindM_Ok by (by apply assertM_run). by mrun Es.
  - assert (st s2 (cur s) = Some TASK_RUNNING) as Hc2.
    { destruct W2 as [(_ & _ & _ & E)|(w & Ew & _ & E)]; rewrite E; [done|]. case_decide as Ecw; [|done].
      assert (st s w = Some TASK_BLOCKED) by (apply H3; rewrite Ew; left). congruence. }
    assert (forall t, st s2 t = Some TASK_RUNNING -> t = cur s) as Hr2.
    { intros t. destruct W2 as [(_ & _ & _ & E)|(w & Ew & _ & E)]; rewrite E; [apply S2|]. case_decide; [done|apply S2]. }
    split.
    + change (st s2 (cur s2) = Some TASK_RUNNING). by rewrite C2'.
    + intros t. change (st s2 t = Some TASK_RUNNING -> t = cur s2). rewrite C2'. apply Hr2.
    + cbn [thread_ready_list idle_thread locks semas s3 set_semas set_flags]. rewrite D2, L2, I2.
      apply (core_up (st s) (fr s) (thread_ready_list s) _ _ _ (cur s) l x m); try done.
      * rewrite (fr_ext s0) by done. unfold s0. by rewrite fr_popped, decide_True.
      * intros t Ht. rewrite (fr_ext s0) by done. unfold s0. by rewrite fr_popped, decide_False.
    + exact G2.
    + intros _. cbn [cur s3 set_semas set_flags]. rewrite C2', (fr_ext s0) by done. unfold s0.
      rewrite fr_popped, decide_True by done. by left.
Qed.

(** Dropping a frame of the scheduler. *)
Lemma sinv_drop s k ks z : sinv s -> fr s (cur s) = k :: ks -> base ks ->
  (k = KStart \/ (exists old, k = KRet old) \/ exists ef, k = KIret ef) ->
  sinv (set_flags z (popped s ks)).
Proof.
  intros Hs Hf Hb Hk. destruct (sinv_cur_task s Hs) as (xc & Hxc & Ex & Hn & Hnr).
  pose proof Hs as [S1 S2 S3 S4 S5]. pose proof (co_shape _ _ _ _ _ _ S3 (cur s)) as Hsh. rewrite Hf in Hsh.
  assert (forall l, ~ in_down l (k :: ks)) as Hnd.
  { intros l (old & E). injection E as E _. destruct Hk as [?|[(?&?)|(?&?)]]; subst; done. }
  split; try done.
  - cbn [thread_ready_list idle_thread locks semas popped set_frames_of set_flags].
    apply (core_quiet (st s) (fr s) (thread_ready_list s) _ _ _ _ _ _ (cur s)); try done.
    + intros t Ht. split; [done|]. rewrite (fr_ext (popped s ks)) by done. by rewrite fr_popped, decide_False.
    + intros l. rewrite Hf. apply Hnd.
    + intros l. rewrite (fr_ext (popped s ks)) by done. rewrite fr_popped, decide_True by done. by apply base_not_down.
    + intros l. rewrite (fr_ext (popped s ks)) by done. rewrite fr_popped, decide_True, Hf by done.
      destruct Hk as [->|[(old & ->)|(ef & ->)]]; [| |symmetry; by apply taking_iret].
      * inversion Hsh as [ks0 Hbb| | | |]; subst; [by destruct Hbb as [?|(l' & [?|?])]|].
        split; intros Ht; [by apply not_taking_nil in Ht|by apply taking_cases in Ht as [?|[?|(ef & [?|?])]]].
      * inversion Hsh as [ks0 Hbb| | | |]; subst; [by destruct Hbb as [?|(l' & [?|?])]|].
        split; intros Ht; [by apply not_taking_nil in Ht|by apply taking_cases in Ht as [?|[?|(ef & [?|?])]]].
    + rewrite (fr_ext (popped s ks)) by done. rewrite fr_popped, decide_True by done. by apply sh_base.
    + exists TASK_RUNNING. split; [exact S1|done].
    + apply S3.
    + apply S3.
  - intros _. change (base (fr (popped s ks) (cur s))). by rewrite fr_popped, decide_True.
Qed.

Lemma resume_ok s : sinv s -> exists s', resume v2p s = Ok (tt, s') /\ sinv s'.
Proof.
  intros Hs. destruct (fr s (cur s)) as [|k ks] eqn:Hf.
  { exists s. split; [|done]. unfold resume. unfold fr in Hf. destruct (frames_of s !! cur s) as [[|k ks]|]; done. }
  destruct (sinv_cur_task s Hs) as (xc & Hxc & Ex & Hn & Hnr).
  assert (frames_of s !! cur s = Some (k :: ks)) as Hfr.
  { unfold fr in Hf. destruct (frames_of s !! cur s) as [l|]; [cbn in Hf; by subst|done]. }
  pose proof Hs as [S1 S2 S3 S4 S5]. pose proof (co_shape _ _ _ _ _ _ S3 (cur s)) as Hsh. rewrite Hf in Hsh.
  assert (forall l, taking l (k :: ks) \/ in_down l (k :: ks) -> cur s <> idle_thread s /\ exists x, locks s !! l = Some x) as Hlk.
  { intros l Hl. rewrite <- Hf in Hl. split.
    - intros E. rewrite E in Hl. destruct (proj2 (co_idle _ _ _ _ _ _ S3) l). tauto.
    - exact (co_dom _ _ _ _ _ _ S3 _ _ Hl). }
  unfold resume. rewrite Hfr. rewrite (mbindM_Ok _ _ s tt (popped s ks)) by done.
  inversion Hsh as [ks0 Hb E|ef ks0 Hb E|E|old E|l old E]; subst.
  - destruct Hb as [?|(l & [[= -> ->]|[= -> ->]])]; [done| |].
    + destruct (Hlk l) as (Hci & x & Hx); [left; apply (taking_one l); [by left|done]|].
      destruct (co_locks _ _ _ _ _ _ S3 l x Hx) as (m & Hm & Hok).
      assert (taking l (fr s (cur s))) as Htk by (rewrite Hf; apply (taking_one l); [by left|done]).
      assert (holder x = NULL) as Hh.
      { destruct (decide (holder x = NULL)) as [|Hne]; [done|]. by destruct (lo_phase _ _ _ _ _ Hok _ Hne Htk). }
      assert (holder_repeat_nr x = 0) as Hr by (by apply (lo_repeat _ _ _ _ _ Hok)).
      unfold lock_took. rewrite (mbindM_Ok _ _ (popped s []) (cur s) (popped s [])) by done.
      rewrite (mbindM_Ok _ _ (popped s []) x (popped s [])) by (by apply get_lock_run).
      erewrite mbindM_Ok by (apply assertM_run; by rewrite Hr). eexists. split; [done|]. split; try done.
      * apply (core_handover (st s) (fr s) _ _ _ _ (cur s) l x); try done.
        -- left. split; [done|]. split; [|done]. change (fr (popped s []) (cur s) = []). by rewrite fr_popped, decide_True.
        -- intros t Ht. change (fr (popped s []) t = fr s t). by rewrite fr_popped, decide_False.
      * intros _. change (base (fr (popped s []) (cur s))). rewrite fr_popped, decide_True by done. by left.
    + destruct (Hlk l) as (Hci & x & Hx); [left; apply (taking_one l); [by right|done]|].
      by apply (sema_up_ok s l x).
  - eexists. split; [done|]. apply (sinv_drop s (KIret ef)); try done. right. right. by exists ef.
  - destruct (intr_set_any INTR_ON (popped s [])) as (r & z & Es). unfold intr_set_status in Es.
    exists (set_flags z (popped s [])). split; [by mrun Es|]. apply (sinv_drop s KStart); try done; by left.
  - destruct (intr_set_any old (popped s [])) as (r & z & Es).
    exists (set_flags z (popped s [])). split; [by mrun Es|]. apply (sinv_drop s (KRet old)); try done; [by left|].
    right. left. by exists old.
  - assert (in_down l (fr s (cur s))) as Hd by (rewrite Hf; by exists old).
    destruct (Hlk l) as (Hci & x & Hx); [right; by rewrite <- Hf|].
    unfold intr_set_status. rewrite (mbindM_Ok _ _ _ _ _ (off_run (popped s [KTook l]))).
    apply (sema_down_loop_ok s (off (popped s [KTook l])) l x); try done; [by right|].
    split; try done; [apply off_off|]. intros t. change (fr (off (popped s [KTook l])) t) with (fr (popped s [KTook l]) t).
    by rewrite fr_popped.
Qed.

(** A free lock is taken without waiting; interrupts that were off stay off. *)
Lemma lock_acquire_free s l ws : sinv s -> fr s (cur s) = [] -> cur s <> idle_thread s ->
  intr_get_status_of s = INTR_OFF ->
  locks s !! l = Some (mk_lock NULL 0) -> semas s !! sema_of l = Some (mk_sema 1 ws) ->
  exists s1 s2, lock_acquire v2p l s = Ok (tt, s1) /\ resume v2p s1 = Ok (tt, s2) /\ sinv s1 /\ sinv s2 /\
    cur s2 = cur s /\ idle_thread s2 = idle_thread s /\ locks s2 = <[l := mk_lock (cur s) 1]> (locks s) /\
    (forall t, st s2 t = st s t) /\ (forall t, fr s2 t = fr s t) /\ intr_get_status_of s2 = INTR_OFF.
Proof.
  intros Hs Hf Hci Ho Hl Hm. destruct (sinv_cur_task s Hs) as (xc & Hxc & Ex & Hn & Hnr).
  set (s0 := set_frames_of (<[cur s := KTook l :: default [] (frames_of s !! cur s)]> (frames_of s)) s).
  set (s1 := set_semas (<[sema_of l := mk_sema 0 ws]> (semas s0)) s0).
  assert (forall t, fr s1 t = if decide (t = cur s) then [KTook l] else fr s t) as F1.
  { intros t. change (fr s1 t) with (fr s0 t). unfold s0. by rewrite fr_push, Hf. }
  assert (lock_acquire v2p l s = Ok (tt, s1)) as R1.
  { unfold lock_acquire. mrun (get_lock_run s l _ Hl). rewrite (mbindM_Ok _ _ s (cur s) s) by done. cbn [holder].
    destruct (Z.eqb_spec NULL (cur s)); [congruence|]. rewrite (mbindM_Ok _ _ s tt s0) by done.
    unfold sema_down. rewrite (mbindM_Ok _ _ _ _ _ (off_run s0)), (off_id s0 Ho).
    unfold sema_down_loop. rewrite (mbindM_Ok _ _ s0 _ s0 (get_sema_run s0 _ _ Hm)). cbn [value Z.eqb].
    rewrite (mbindM_Ok _ _ s0 tt s1) by done. erewrite mbindM_Ok by (by apply assertM_run).
    unfold intr_set_status. change (intr_get_status_of s0) with (intr_get_status_of s). rewrite Ho.
    rewrite (mbindM_Ok _ _ _ _ _ (off_run s1)), (off_id s1 Ho). done. }
  assert (fr s1 (cur s1) = [KTook l]) as F1c by (rewrite F1; by rewrite decide_True).
  destruct (lock_acquire_ok s l _ Hs Hf Hci Hl) as (s1' & R1' & I1); [done|].
  assert (s1' = s1) as -> by congruence.
  set (s2 := set_locks (<[l := mk_lock (cur s) 1]> (locks s1)) (popped s1 [])).
  assert (resume v2p s1 = Ok (tt, s2)) as R2.
  { unfold resume. assert (frames_of s1 !! cur s1 = Some [KTook l]) as ->.
    { unfold s1, s0. cbn. rewrite lookup_insert_eq. do 2 f_equal. exact Hf. }
    rewrite (mbindM_Ok _ _ s1 tt (popped s1 [])) by done. unfold lock_took.
    rewrite (mbindM_Ok _ _ (popped s1 []) (cur s) (popped s1 [])) by done.
    rewrite (mbindM_Ok _ _ (popped s1 []) (mk_lock NULL 0) (popped s1 [])) by (by apply get_lock_run).
    by erewrite mbindM_Ok by (by apply assertM_run). }
  destruct (resume_ok s1 I1) as (s2' & R2' & I2). assert (s2' = s2) as -> by congruence.
  exists s1, s2. do 8 (split; [done|]). split; [|done].
  intros t. change (fr s2 t) with (fr (popped s1 []) t). rewrite fr_popped, F1. change (cur s1) with (cur s).
  by case_decide; subst.
Qed.

(** Waking a thread that waits for something else than a lock, as [wakeup]
    and [sys_exit] do, with interrupts off. *)
Lemma thread_unblock_ok s t x : sinv s -> intr_get_status_of s = INTR_OFF -> tasks s !! t = Some x ->
  blocked_status (status x) = true -> (forall l, ~ in_down l (fr s t)) ->
  exists s', thread_unblock t s = Ok (tt, s') /\ sinv s' /\ task_effect s s' /\
    (forall u, st s' u = if decide (u = t) then Some TASK_READY else st s u).
Proof.
  intros Hs Hoff Hx Hb Hnd. pose proof Hs as [S1 S2 S3 S4 S5].
  destruct (blocked_status_ne _ Hb) as (B1 & B2 & B3).
  assert (st s t = Some (status x)) as Hst by (unfold st; by rewrite Hx).
  assert (t ∉ thread_ready_list s) as Hnr by (rewrite (co_ready _ _ _ _ _ _ S3); congruence).
  destruct (thread_unblock_run s t x Hoff Hx Hb Hnr) as (s' & U & E & R & T).
  assert (t <> cur s) as Hne by (intros ->; congruence).
  exists s'. split; [done|]. split; [split|done].
  - rewrite T, (te_cur _ _ E), decide_False by done. done.
  - intros u. rewrite T, (te_cur _ _ E). case_decide; [done|]. apply S2.
  - rewrite R, (te_idle _ _ E), (te_locks _ _ E), (te_semas _ _ E).
    apply (core_quiet (st s) (fr s) (thread_ready_list s) _ _ _ _ _ _ t); try done.
    + intros u Hu. rewrite T, decide_False by done. split; [done|]. apply fr_ext, E.
    + intros ->. rewrite (co_null _ _ _ _ _ _ S3) in Hst. done.
    + intros l. rewrite (fr_ext s) by apply E. apply Hnd.
    + intros l. by rewrite (fr_ext s) by apply E.
    + rewrite (fr_ext s) by apply E. apply S3.
    + exists TASK_READY. by rewrite T, decide_True.
    + intros u. rewrite elem_of_cons, (co_ready _ _ _ _ _ _ S3), T. case_decide; [subst; split; [done|by left]|].
      split; [intros [?|?]; done|by right].
    + constructor; [done|apply S3].
  - apply (te_magic _ _ E S4).
  - intros Hon. rewrite (status_flags s s') in Hon by apply E. congruence.
Qed.

(** ** The transition system *)

Inductive action : Type :=
| ARun                          (* the running thread goes on with its topmost frame *)
| ATimer                        (* a timer interrupt *)
| AAcquire (l : Z) | ARelease (l : Z)
| ABlock (stat : task_status) | AYield
| AWake (t : Z).                (* thread_unblock from wakeup or sys_exit *)

Definition run_action (a : action) : M sched () :=
  match a with
  | ARun => resume v2p
  | ATimer => timer_interrupt v2p
  | AAcquire l => lock_acquire v2p l
  | ARelease l => lock_release l
  | ABlock stat => thread_block v2p stat
  | AYield => thread_yield v2p
  | AWake t => thread_unblock t
  end.

(** When the kernel can do it: calls are made by a thread that is not in the
    middle of another operation, the idle thread takes no locks, only the
    holder releases, and the timer needs the interrupt flag. *)
Definition enabled (a : action) s : Prop :=
  match a with
  | ARun => True
  | ATimer => intr_get_status_of s = INTR_ON
  | AAcquire l => fr s (cur s) = [] /\ cur s <> idle_thread s /\
      exists x, locks s !! l = Some x /\ holder_repeat_nr x < 2 ^ 32 - 1
  | ARelease l => fr s (cur s) = [] /\ cur s <> idle_thread s /\
      exists x, locks s !! l = Some x /\ holder x = cur s /\ holder_repeat_nr x < 2 ^ 32
  | ABlock stat => fr s (cur s) = [] /\ blocked_status stat = true
  | AYield => fr s (cur s) = []
  | AWake t => intr_get_status_of s = INTR_OFF /\ (forall l, ~ in_down l (fr s t)) /\
      exists x, tasks s !! t = Some x /\ blocked_status (status x) = true
  end.

Inductive step : sched -> sched -> Prop :=
| step_action a s s' : enabled a s -> run_action a s = Ok (tt, s') -> step s s'.

Lemma action_ok a s : sinv s -> enabled a s -> exists s', run_action a s = Ok (tt, s') /\ sinv s'.
Proof.
  intros Hs He. destruct a; cbn in *.
  - by apply resume_ok.
  - by apply timer_interrupt_ok.
  - destruct He as (Hf & Hc & x & Hx & Hr). by apply (lock_acquire_ok s l x).
  - destruct He as (Hf & Hc & x & Hx & Hh & Hr). by apply (lock_release_ok s l x).
  - destruct He as [Hf Hb]. destruct (thread_block_ok s stat Hs Hf Hb) as (s' & R & I & _). by exists s'.
  - by apply thread_yield_ok.
  - destruct He as (Ho & Hd & x & Hx & Hb). destruct (thread_unblock_ok s t x) as (s' & R & I & _); try done. by exists s'.
Qed.

(** The system after start-up: the main thread runs, the other threads are
    ready and not yet started, all locks are free. *)
Record booted s : Prop := {
  bo_cur : st s (cur s) = Some TASK_RUNNING;
  bo_others : forall t, t <> cur s -> st s t = None \/ st s t = Some TASK_READY;
  bo_ready : forall t, t ∈ thread_ready_list s <-> st s t = Some TASK_READY;
  bo_nodup : NoDup (thread_ready_list s);
  bo_null : st s NULL = None;
  bo_frames : forall t, fr s t = [] \/ fr s t = [KStart];
  bo_main : fr s (cur s) = [];
  bo_idle : st s (idle_thread s) <> None;
  bo_magic : forall t x, tasks s !! t = Some x -> stack_magic x = 0x19750130;
  bo_locks : forall l x, locks s !! l = Some x ->
    x = mk_lock NULL 0 /\ semas s !! sema_of l = Some (mk_sema 1 [])
}.

Lemma booted_sinv s : booted s -> sinv s.
Proof.
  intros [B1 B2 B3 B4 B5 B6 B7 B8 B9 B10].
  assert (forall t l, ~ in_down l (fr s t)) as Hd by (intros t l (old & E); destruct (B6 t) as [E'|E']; by rewrite E' in E).
  assert (forall t l, ~ taking l (fr s t)) as Ht.
  { intros t l Ht. apply taking_cases in Ht. destruct (B6 t) as [E'|E']; rewrite E' in Ht;
      by destruct Ht as [?|[?|(ef & [?|?])]]. }
  split; try done.
  - intros t Hr. destruct (decide (t = cur s)) as [|Hne]; [done|]. destruct (B2 t Hne); congruence.
  - split; try done.
    + intros t. destruct (B6 t) as [->| ->]; [apply sh_base; by left|apply sh_start].
    + split; [|done]. destruct (st s (idle_thread s)) as [y|] eqn:E; [|done]. exists y. split; [done|]. intros ->.
      destruct (decide (idle_thread s = cur s)) as [Ec|Hne]; [congruence|]. destruct (B2 _ Hne); congruence.
    + intros t l [Hx|Hx]; [by apply Ht in Hx|by apply Hd in Hx].
    + intros l x Hx. destruct (B10 l x Hx) as [-> Hm]. exists (mk_sema 1 []). split; [done|].
      assert (forall t, ~ owns (fr s) l (mk_lock NULL 0) t) as Ho by (intros t [[_ ?]|Hk]; [done|by apply Ht in Hk]).
      split; cbn [value waiters holder holder_repeat_nr]; try done.
      * by right.
      * constructor.
      * intros t. split; [by intros Hin%elem_of_nil|]. intros [_ Hx']. by apply Hd in Hx'.
      * intros t t' Hx'. by apply Ho in Hx'.
      * split; [done|]. intros (t & Hx'). by apply Ho in Hx'.
  - intros _. rewrite B7. by left.
Qed.

Lemma reachable_sinv s0 s : booted s0 -> rtc step s0 s -> sinv s.
Proof.
  intros Hb Hr. apply booted_sinv in Hb. revert Hb. induction Hr as [s|s s1 s2 Hst _ IH]; [done|].
  intros Hs. apply IH. destruct Hst as [a s s' He Hrun]. destruct (action_ok a s Hs He) as (s'' & Hrun' & Hs'').
  assert (s'' = s') as <- by congruence. exact Hs''.
Qed.

(** C1. No thread schedule breaks the kernel's assertions: from start-up, under
    any interleaving of timer interrupts, lock operations, blocking, yielding
    and wake-ups, every enabled operation returns -- no [ASSERT] of schedule,
    thread_block, thread_unblock, sema_down, sema_up, lock_acquire or
    lock_release fails -- and exactly the current thread has status RUNNING
    while the ready list holds exactly the READY threads. *)
Theorem scheduling_never_panics s0 s a :
  booted s0 -> rtc step s0 s -> enabled a s ->
  exists s', run_action a s = Ok (tt, s') /\
    (forall t, st s' t = Some TASK_RUNNING <-> t = cur s') /\
    (forall t, t ∈ thread_ready_list s' <-> st s' t = Some TASK_READY).
Proof.
  intros Hb Hr He. destruct (action_ok a s (reachable_sinv s0 s Hb Hr) He) as (s' & R & [S1 S2 S3 S4 S5]).
  exists s'. split; [done|]. split; [|apply S3]. intros t. split; [apply S2|by intros ->].
Qed.

(** C2. Mutual exclusion: in every reachable state at most one thread owns a
    lock, where owning starts when its [sema_down] takes the semaphore, before
    [holder] is written, and ends with its [sema_up], after [holder] was
    cleared; and the semaphore is 0 exactly while there is an owner. *)
Theorem lock_mutual_exclusion s0 s l x :
  booted s0 -> rtc step s0 s -> locks s !! l = Some x ->
  (forall t t', owns (fr s) l x t -> owns (fr s) l x t' -> t = t') /\
  exists m, semas s !! sema_of l = Some m /\ (value m = 0 <-> exists t, owns (fr s) l x t) /\
    (value m = 0 \/ value m = 1).
Proof.
  intros Hb Hr Hx. destruct (co_locks _ _ _ _ _ _ (si_core s (reachable_sinv s0 s Hb Hr)) l x Hx) as (m & Hm & Hok).
  split; [apply Hok|]. exists m. split; [done|]. split; apply Hok.
Qed.

(** C3. No wake-up is lost: when a reachable state has a free lock with
    waiting threads, one thread has already been taken off the waiters list
    and is running or ready inside [sema_down], about to test the semaphore
    again. *)
Theorem lock_no_lost_wakeup s0 s l x m :
  booted s0 -> rtc step s0 s -> locks s !! l = Some x -> semas s !! sema_of l = Some m ->
  value m = 1 -> waiters m <> [] ->
  exists t, in_down l (fr s t) /\ (t ∉ waiters m) /\ (t = cur s \/ t ∈ thread_ready_list s).
Proof.
  intros Hb Hr Hx Hm Hv Hw. pose proof (reachable_sinv s0 s Hb Hr) as [S1 S2 S3 S4 S5].
  destruct (co_locks _ _ _ _ _ _ S3 l x Hx) as (m' & Hm' & Hok). assert (m' = m) as -> by congruence.
  destruct (lo_wake _ _ _ _ _ Hok Hv Hw) as (t & Hd & Hs). exists t. split; [done|]. split.
  - rewrite (lo_waiters _ _ _ _ _ Hok). intros [Hb' _]. destruct Hs; congruence.
  - destruct Hs as [Hs|Hs]; [right; by apply (co_ready _ _ _ _ _ _ S3)|left; by apply S2].
Qed.
End System.

(** ** Witnesses: three threads and one lock, driven by a list of actions *)

(** A page allocator that hands out nothing; scheduling needs no pages. *)
#[global] Instance unit_PageAlloc : PageAlloc unit.
Proof.
  refine {| pa_malloc := fun _ _ _ => Panic "no pages"; pa_mfree := fun _ _ _ s => Ok (tt, s);
            pa_inv := fun _ _ => True; pa_live := fun _ _ _ => False; pa_room := fun _ _ _ => False |}.
  - intros. done.
  - intros pf p n s _ Hn Hl. exists s. split; [done|]. split; [done|]. intros x. destruct (Hl p). lia.
Defined.

Definition demo_task (p st : Z) : task_struct :=
  mk_task (p + 4096) (p / 4096) (if st =? 0 then TASK_RUNNING else TASK_READY) [] 1 1 0 0 [] 0 (if st =? 0 then -1 else 9) 0 0x19750130.

(** Main at 0x9000, idle at 0xA000, two workers, a lock at 0x5000. *)
Definition demo_boot_at {P} (pg : P) : sched := mk_sched pg
  (<[0x9000 := demo_task 0x9000 0]> (<[0xA000 := demo_task 0xA000 1]> (<[0xB000 := demo_task 0xB000 1]>
     (<[0xC000 := demo_task 0xC000 1]> ∅))))
  [0xB000; 0xC000; 0xA000] [0x9000; 0xA000; 0xB000; 0xC000] 0x9000 0xA000 0x9000 (mk_bitmap 1 [15])
  (<[0xA000 := [KStart]]> (<[0xB000 := [KStart]]> (<[0xC000 := [KStart]]> ∅)))
  (<[0x5004 := mk_sema 1 []]> ∅) (<[0x5000 := mk_lock 0 0]> ∅) 0x200 0 0x100000 0.

Lemma demo_booted_at {P} (pg : P) : booted (demo_boot_at pg).
Proof.
  assert (forall t x, tasks (demo_boot_at pg) !! t = Some x -> (t = 0x9000 /\ x = demo_task 0x9000 0) \/
     (t ∈ [0xB000; 0xC000; 0xA000] /\ x = demo_task t 1)) as Hdom.
  { intros t x. unfold demo_boot_at. cbn [tasks].
    intros [[<- <-]|[_ Ht]]%lookup_insert_Some; [by left|].
    apply lookup_insert_Some in Ht as [[<- <-]|[_ Ht]]; [right; split; [set_solver|done]|].
    apply lookup_insert_Some in Ht as [[<- <-]|[_ Ht]]; [right; split; [set_solver|done]|].
    apply lookup_insert_Some in Ht as [[<- <-]|[_ Ht]]; [right; split; [set_solver|done]|].
    by rewrite lookup_empty in Ht. }
  split.
  - reflexivity.
  - intros t Hne. unfold st. destruct (tasks (demo_boot_at pg) !! t) as [x|] eqn:E; [|by left].
    destruct (Hdom t x E) as [[-> ->]|[_ ->]]; [by destruct Hne|by right].
  - intros t. split.
    + intros Ht. assert (t = 0xB000 \/ t = 0xC000 \/ t = 0xA000) as [->|[->| ->]] by set_solver; reflexivity.
    + intros Hs. destruct (st_Some _ _ _ Hs) as (x & Hx & Ex). destruct (Hdom t x Hx) as [[-> ->]|[Hin _]]; done.
  - repeat constructor; set_solver.
  - reflexivity.
  - intros t. unfold fr, demo_boot_at. cbn [frames_of].
    rewrite !lookup_insert, lookup_empty. repeat case_decide; auto.
  - reflexivity.
  - discriminate.
  - intros t x Hx. destruct (Hdom t x Hx) as [[-> ->]|[_ ->]]; done.
  - intros l x Hx. unfold demo_boot_at in Hx. cbn [locks] in Hx.
    apply lookup_insert_Some in Hx as [[<- <-]|[_ Hx]]; [split; reflexivity|]. by rewrite lookup_empty in Hx.
Qed.

Section Demo.
#[local] Abbreviation dsched := (@sched unit).

Definition no_frames (s : dsched) : bool := match fr s (cur s) with [] => true | _ => false end.

(** The actions a schedule may contain, checked by evaluation. *)
Definition enabledb (a : action) (s : dsched) : bool :=
  match a with
  | ARun => true
  | ATimer => bool_decide (intr_get_status_of s = INTR_ON)
  | AAcquire l => no_frames s && negb (cur s =? idle_thread s) &&
      match locks s !! l with Some x => holder_repeat_nr x <? 2 ^ 32 - 1 | None => false end
  | ARelease l => no_frames s && negb (cur s =? idle_thread s) &&
      match locks s !! l with Some x => (holder x =? cur s) && (holder_repeat_nr x <? 2 ^ 32) | None => false end
  | ABlock stat => no_frames s && blocked_status stat
  | AYield => no_frames s
  | AWake _ => false
  end.

Lemma no_frames_nil s : no_frames s = true -> fr s (cur s) = [].
Proof. unfold no_frames. by destruct (fr s (cur s)). Qed.

Lemma enabledb_sound a s : enabledb a s = true -> enabled a s.
Proof.
  destruct a; cbn; intros He; try done.
  - by apply bool_decide_eq_true in He.
  - apply andb_true_iff in He as [[Hf Hc]%andb_true_iff He]. destruct (locks s !! l) as [x|] eqn:Hx; [|done].
    split; [by apply no_frames_nil|]. split; [by apply negb_true_iff, Z.eqb_neq in Hc|].
    exists x. split; [done|]. by apply Z.ltb_lt.
  - apply andb_true_iff in He as [[Hf Hc]%andb_true_iff He]. destruct (locks s !! l) as [x|] eqn:Hx; [|done].
    apply andb_true_iff in He as [Hh He]. split; [by apply no_frames_nil|].
    split; [by apply negb_true_iff, Z.eqb_neq in Hc|]. exists x. split; [done|]. split; [by apply Z.eqb_eq|by apply Z.ltb_lt].
  - apply andb_true_iff in He as [Hf He]. split; [by apply no_frames_nil|done].
  - by apply no_frames_nil.
Qed.

Fixpoint drive (l : list action) (s : dsched) : option dsched :=
  match l with
  | [] => Some s
  | a :: l' => if enabledb a s
               then match run_action id a s with Ok (_, s') => drive l' s' | _ => None end
               else None
  end.

Lemma drive_rtc l : forall s s', drive l s = Some s' -> rtc (step id) s s'.
Proof.
  induction l as [|a l IH]; intros s s'; cbn; [intros [= ->]; apply rtc_refl|].
  destruct (enabledb a s) eqn:He; [|done]. destruct (run_action id a s) as [[[] s1]| | |] eqn:Hr; try done.
  intros Hd. eapply rtc_l; [|by apply IH]. by apply (step_action id a); [apply enabledb_sound|].
Qed.

Definition demo_boot : dsched := demo_boot_at tt.

Lemma demo_booted : booted demo_boot.
Proof. apply demo_booted_at. Qed.

(** Main takes the lock, both workers start and wait for it, then main
    releases it. *)
Definition demo_actions : list action :=
  [AAcquire 0x5000; ARun; AYield; ARun; AAcquire 0x5000; ARun; AAcquire 0x5000; ARun; AYield; ARun;
   ARelease 0x5000; ARun].

Definition demo_final : dsched := match drive demo_actions demo_boot with Some s => s | None => demo_boot end.

Lemma demo_reachable : rtc (step id) demo_boot demo_final.
Proof. apply (drive_rtc demo_actions). vm_compute. reflexivity. Qed.

Lemma scheduling_never_panics_witness :
  exists s', run_action id ATimer demo_final = Ok (tt, s') /\
    (forall t, st s' t = Some TASK_RUNNING <-> t = cur s').
Proof.
  destruct (scheduling_never_panics id demo_boot demo_final ATimer demo_booted demo_reachable) as (s' & H1 & H2 & _).
  - vm_compute. reflexivity.
  - exists s'. exact (conj H1 H2).
Defined.

Lemma lock_mutual_exclusion_witness :
  (~ exists t t', t <> t' /\ owns (fr demo_final) 0x5000 (mk_lock 0 0) t /\ owns (fr demo_final) 0x5000 (mk_lock 0 0) t') /\
  exists m, semas demo_final !! sema_of 0x5000 = Some m.
Proof.
  destruct (lock_mutual_exclusion id demo_boot demo_final 0x5000 (mk_lock 0 0) demo_booted demo_reachable) as [H (m & Hm & _)].
  - vm_compute. reflexivity.
  - split; [intros (t & t' & Hne & H1 & H2); exact (Hne (H t t' H1 H2))|exists m; exact Hm].
Defined.

Lemma lock_no_lost_wakeup_witness :
  exists t, in_down 0x5000 (fr demo_final t) /\ (t ∉ [0xC000]) /\
    (t = cur demo_final \/ t ∈ thread_ready_list demo_final).
Proof.
  apply (lock_no_lost_wakeup id demo_boot demo_final 0x5000 (mk_lock 0 0) (mk_sema 1 [0xC000])
    demo_booted demo_reachable); [vm_compute; reflexivity|vm_compute; reflexivity|reflexivity|discriminate].
Defined.
End Demo.
