(* ===== verification/Screen.v ===== *)
(** * The text screen (lib/kernel/print.s)

    The video memory of the text mode, the cursor registers of the display
    controller, and the routines that print characters, strings and numbers.  A
    screen of 25 rows of 80 cells; a cell is a character and an attribute, two
    bytes of the memory.  Printing refines a text laid out in rows, of which the
    screen shows the last 25. *)

From S2P Require Import Prelude.

(** ** The display *)

(** The segment in GS: 32 KB from 0xC00B8000 on.  [crt_idx] is the index
    register (port 0x3d4), the cursor is in the registers 0x0e and 0x0f. *)
Record vga : Type := mk_vga { video : list Z; crt_idx : Z; cur_hi : Z; cur_lo : Z }.

Definition set_video (l : list Z) (v : vga) : vga := mk_vga l (crt_idx v) (cur_hi v) (cur_lo v).

Definition out_port (port val : Z) : M vga () :=
  modS (fun v =>
    if port =? 0x3d4 then mk_vga (video v) val (cur_hi v) (cur_lo v)
    else if crt_idx v =? 0x0e then mk_vga (video v) (crt_idx v) val (cur_lo v)
    else if crt_idx v =? 0x0f then mk_vga (video v) (crt_idx v) (cur_hi v) val
    else v).

Definition in_port (port : Z) : M vga Z :=
  v ← getS; mret (if port =? 0x3d4 then crt_idx v else if crt_idx v =? 0x0e then cur_hi v else cur_lo v).

(** A byte of the segment. *)
Definition store_gs (off val : Z) : M vga () :=
  v ← getS; l ← liftO (aset (video v) off val); modS (set_video l).

(** A word, low byte first. *)
Definition store_gs_word (off val : Z) : M vga () :=
  _ ← store_gs off (Z.land val 0xff); store_gs (off + 1) (Z.shiftr val 8).

(** ** Moving the cursor and clearing *)

Definition get_cursor : M vga Z :=
  _ ← out_port 0x3d4 0x0e; ah ← in_port 0x3d5;
  _ ← out_port 0x3d4 0x0f; al ← in_port 0x3d5;
  mret (256 * ah + al).

(** The two low bytes of the argument. *)
Definition set_cursor (pos : Z) : M vga () :=
  _ ← out_port 0x3d4 0x0e; _ ← out_port 0x3d5 (u8 (Z.shiftr pos 8));
  _ ← out_port 0x3d4 0x0f; out_port 0x3d5 (u8 pos).

(** The loops [.cls]: [n] blank cells from the offset [ebx] on. *)
Fixpoint cls_loop (n : nat) (ebx : Z) : M vga () :=
  match n with
  | O => mret tt
  | S n => _ ← store_gs_word ebx 0x0720; cls_loop n (ebx + 2)
  end.

Definition cls_screen : M vga () := _ ← cls_loop (80 * 25) 0; set_cursor 0.

(** [rep movsd] on the video memory, addresses as offsets from 0xc00b8000. *)
Fixpoint movsd (n : nat) (esi edi : Z) (l : list Z) : outcome (list Z) :=
  match n with
  | O => Ok l
  | S n =>
      b0 ← aget l esi; b1 ← aget l (esi + 1); b2 ← aget l (esi + 2); b3 ← aget l (esi + 3);
      l ← aset l edi b0; l ← aset l (edi + 1) b1; l ← aset l (edi + 2) b2; l ← aset l (edi + 3) b3;
      movsd n (esi + 4) (edi + 4) l
  end.

Definition roll_screen : M vga () :=
  v ← getS;
  l ← liftO (movsd 960 0xa0 0 (video v));
  _ ← modS (set_video l);
  _ ← cls_loop 80 3840;
  set_cursor 1920.

(** ** Characters *)

(** The labels [.is_line_feed] and [.is_carriage_return]; BX is 16 bits wide and
    compared with sign. *)
Definition line_feed (bx : Z) : M vga () :=
  let bx := u16 (bx - bx mod 80 + 80) in
  if i16 bx <? 2000 then set_cursor bx else roll_screen.

Definition is_backspace (bx ch : Z) : M vga () :=
  let bx := u16 (bx - 1) in
  let bx := u16 (2 * bx) in
  _ ← store_gs bx 0x20;
  let bx := u16 (bx + 1) in
  _ ← store_gs bx ch;
  set_cursor (bx / 2).

Definition put_other (bx cl ch : Z) : M vga () :=
  let bx := u16 (2 * bx) in
  _ ← store_gs bx cl;
  let bx := u16 (bx + 1) in
  _ ← store_gs bx ch;
  let bx := u16 (bx / 2 + 1) in
  if i16 bx <? 2000 then set_cursor bx else line_feed bx.

Definition put_char_color (char_asci attr : Z) : M vga () :=
  bx ← get_cursor;
  let cl := u8 char_asci in
  let ch := u8 attr in
  if (cl =? 0xd) || (cl =? 0xa) then line_feed bx
  else if cl =? 8 then is_backspace bx ch
  else put_other bx cl ch.

Definition put_char (char_asci : Z) : M vga () := put_char_color char_asci 0x07.

(** The characters before the terminating zero. *)
Fixpoint put_str_color (str : list Z) (attr : Z) : M vga () :=
  match str with
  | [] => mret tt
  | c :: str => _ ← put_char_color c attr; put_str_color str attr
  end.

Definition put_str (str : list Z) : M vga () := put_str_color str 0x07.

(** ** Numbers *)

(** The loop [.16based_4bits] fills the buffer from its end. *)
Definition hex_digit (edx : Z) : Z := if 9 <? edx then edx - 10 + 65 else edx + 48.

Fixpoint hex_loop (ecx : nat) (eax edi : Z) (buffer : list Z) : outcome (list Z) :=
  match ecx with
  | O => Ok buffer
  | S ecx =>
      buffer ← aset buffer edi (hex_digit (Z.land eax 0xf));
      hex_loop ecx (Z.shiftr eax 4) (edi - 1) buffer
  end.

(** [.skip_prefix_0]: what is printed from the buffer on, "0" when all digits
    are zero. *)
Fixpoint skip_prefix_0 (buffer : list Z) : list Z :=
  match buffer with
  | [] => [48]
  | c :: rest => if c =? 48 then skip_prefix_0 rest else buffer
  end.

Fixpoint put_each_num (l : list Z) : M vga () :=
  match l with [] => mret tt | c :: l => _ ← put_char c; put_each_num l end.

(** The contents of [put_int_buffer] before do not matter: all its bytes are
    written. *)
Definition put_int (num : Z) : M vga () :=
  buffer ← liftO (hex_loop 8 (u32 num) 7 (replicate 8 0));
  put_each_num (skip_prefix_0 buffer).

(** ** The text the screen shows *)

(** A cell: character and attribute. *)
Definition cell : Type := Z * Z.
Definition blank : cell := (0x20, 0x07).
Definition row_of (r : list cell) : list cell := r ++ replicate (80 - length r) blank.
Definition cell_bytes (c : cell) : list Z := [c.1; c.2].
Definition video_bytes (cs : list cell) : list Z := concat (cell_bytes <$> cs).

(** A text in rows: a line ends at a line feed, a carriage return or when 80
    cells are full; the last row is the one being written. *)
Definition is_newline (c : Z) : bool := (c =? 0xd) || (c =? 0xa).

Definition lay_char (rows : list (list cell) * list cell) (c : cell) : list (list cell) * list cell :=
  let (above, line) := rows in
  if is_newline c.1 then (above ++ [line], [])
  else if (length line =? 79)%nat then (above ++ [line ++ [c]], [])
  else (above, line ++ [c]).

Definition lay : list (list cell) * list cell -> list cell -> list (list cell) * list cell := foldl lay_char.

(** The last 25 rows, the screen filled up with blank ones. *)
Definition window (rows : list (list cell) * list cell) : list (list cell) :=
  let all := rows.1 ++ [rows.2] in
  let seen := drop (length all - 25) all in
  (row_of <$> seen) ++ replicate (25 - length seen) (row_of []).

Definition cursor_of (rows : list (list cell) * list cell) : Z :=
  80 * Z.of_nat (Nat.min (length rows.1) 24) + Z.of_nat (length rows.2).

(** The display shows the text laid out in [rows]. *)
Record shows (v : vga) (rows : list (list cell) * list cell) : Prop := {
  sh_size : length (video v) = Z.to_nat 0x8000;
  sh_cells : take 4000 (video v) = video_bytes (concat (window rows));
  sh_cursor : 256 * cur_hi v + cur_lo v = cursor_of rows;
  sh_hi : 0 <= cur_hi v < 256;
  sh_lo : 0 <= cur_lo v < 256;
  sh_above : Forall (fun r => (length r <= 80)%nat) rows.1;
  sh_line : (length rows.2 < 80)%nat
}.

(** ** Cells in the memory *)

Lemma video_bytes_length cs : length (video_bytes cs) = (2 * length cs)%nat.
Proof. induction cs as [|c cs IH]; [done|]. change (video_bytes (c :: cs)) with (c.1 :: c.2 :: video_bytes cs). cbn [length]. lia. Qed.
Lemma video_bytes_app a b : video_bytes (a ++ b) = video_bytes a ++ video_bytes b.
Proof. unfold video_bytes. by rewrite fmap_app, concat_app. Qed.

(** The two bytes of a cell. *)
Lemma video_bytes_insert cs k c a rest : (k < length cs)%nat ->
  <[(2 * k + 1)%nat := a]> (<[(2 * k)%nat := c]> (video_bytes cs ++ rest)) = video_bytes (<[k := (c, a)]> cs) ++ rest.
Proof.
  intros Hk. destruct (lookup_lt_is_Some_2 cs k Hk) as [x Hx]. rewrite <- (take_drop_middle cs k x Hx).
  assert (length (take k cs) = k) as Hl by (rewrite length_take; lia).
  rewrite (insert_app_r_alt (take k cs)), Hl, Nat.sub_diag by lia. cbn [list_insert insert].
  rewrite !video_bytes_app, <- !(assoc_L (++)). assert (length (video_bytes (take k cs)) = 2 * k)%nat as Hf by (rewrite video_bytes_length; lia).
  rewrite !(insert_app_r_alt (video_bytes (take k cs))) by lia. rewrite Hf.
  replace (2 * k - 2 * k)%nat with 0%nat by lia. replace (2 * k + 1 - 2 * k)%nat with 1%nat by lia. reflexivity.
Qed.

(** The display with the given cells and cursor. *)
Record grid (v : vga) (cells : list cell) (pos : Z) : Prop := {
  gr_video : exists rest, video v = video_bytes cells ++ rest /\ length rest = Z.to_nat 28768;
  gr_cells : length cells = 2000%nat;
  gr_pos : 256 * cur_hi v + cur_lo v = pos;
  gr_hi : 0 <= cur_hi v < 256;
  gr_lo : 0 <= cur_lo v < 256
}.

Lemma grid_size v cells pos : grid v cells pos -> length (video v) = Z.to_nat 0x8000.
Proof. intros [(rest & E & L) Hc _ _ _]. rewrite E, length_app, video_bytes_length, Hc, L. lia. Qed.

Lemma get_cursor_run v cells pos : grid v cells pos -> exists v', get_cursor v = Ok (pos, v') /\ grid v' cells pos.
Proof. intros [G1 G2 G3 G4 G5]. destruct v as [l i h o]. exists (mk_vga l 0x0f h o). split; [by rewrite <- G3|]. by split. Qed.

Lemma set_cursor_run v cells pos p : grid v cells pos -> 0 <= p < 65536 -> exists v', set_cursor p v = Ok (tt, v') /\ grid v' cells p.
Proof.
  intros [G1 G2 G3 G4 G5] Hp. destruct v as [l i h o]. exists (mk_vga l 0x0f (u8 (Z.shiftr p 8)) (u8 p)). split; [reflexivity|].
  rewrite Z.shiftr_div_pow2 by lia. unfold wrapu. change (2 ^ 8) with 256.
  split; cbn [video cur_hi cur_lo]; try done.
  - rewrite (Z.mod_small (p / 256)) by (split; [apply Z.div_pos|apply Z.div_lt_upper_bound]; lia). pose proof (Z.div_mod p 256 ltac:(lia)). lia.
  - apply Z.mod_pos_bound. lia.
  - apply Z.mod_pos_bound. lia.
Qed.

(** Writing the two bytes of a cell. *)
Lemma store_cell_run v cells pos k c a : grid v cells pos -> 0 <= k < 2000 ->
  exists v1 v2, store_gs (2 * k) c v = Ok (tt, v1) /\ store_gs (2 * k + 1) a v1 = Ok (tt, v2) /\ grid v2 (<[Z.to_nat k := (c, a)]> cells) pos.
Proof.
  intros G Hk. pose proof (grid_size _ _ _ G) as Hs. destruct G as [(rest & E & L) G2 G3 G4 G5].
  unfold store_gs. eexists _, _. split; [|split].
  - rewrite getS_bind. erewrite liftO_bind by (apply aset_Ok; lia). reflexivity.
  - rewrite getS_bind. cbn [video set_video]. erewrite liftO_bind by (apply aset_Ok; rewrite length_insert; lia). reflexivity.
  - split; cbn [video cur_hi cur_lo set_video]; try done; [|by rewrite length_insert].
    exists rest. split; [|done]. rewrite E. replace (Z.to_nat (2 * k + 1)) with (2 * Z.to_nat k + 1)%nat by lia.
    replace (Z.to_nat (2 * k)) with (2 * Z.to_nat k)%nat by lia. apply video_bytes_insert. lia.
Qed.

Lemma cls_loop_run n : forall v cells pos k, grid v cells pos -> 0 <= k -> k + Z.of_nat n <= 2000 ->
  exists v', cls_loop n (2 * k) v = Ok (tt, v') /\
    grid v' (take (Z.to_nat k) cells ++ replicate n blank ++ drop (Z.to_nat k + n) cells) pos.
Proof.
  induction n as [|n IH]; intros v cells pos k G Hk Hn.
  - exists v. split; [done|]. rewrite Nat.add_0_r. cbn [replicate app]. by rewrite take_drop.
  - destruct (store_cell_run v cells pos k 0x20 0x07 G) as (v1 & v2 & E1 & E2 & G2); [lia|].
    destruct (IH v2 _ pos (k + 1) G2) as (v' & E & G'); [lia..|].
    exists v'. split.
    + cbn [cls_loop]. unfold store_gs_word. rewrite mbindM_assoc. change (Z.land 0x0720 0xff) with 0x20. change (Z.shiftr 0x0720 8) with 0x07.
      mrun E1. mrun E2. replace (2 * k + 2) with (2 * (k + 1)) by lia. exact E.
    + pose proof (gr_cells _ _ _ G) as Hc. replace (Z.to_nat (k + 1)) with (S (Z.to_nat k)) in G' by lia.
      rewrite (take_S_r _ _ blank) in G' by (apply list_lookup_insert_eq; lia).
      rewrite take_insert_ge, drop_insert_lt, <- (assoc_L (++)) in G' by lia.
      replace (Z.to_nat k + S n)%nat with (S (Z.to_nat k) + n)%nat by lia. exact G'.
Qed.

Lemma cls_screen_run v cells pos : grid v cells pos -> exists v', cls_screen v = Ok (tt, v') /\ grid v' (replicate 2000 blank) 0.
Proof.
  intros G. destruct (cls_loop_run (80 * 25) v cells pos 0 G) as (v1 & E & G1); [lia..|].
  destruct (set_cursor_run v1 _ _ 0 G1) as (v2 & E2 & G2); [lia|]. exists v2. split; [unfold cls_screen; change (2 * 0) with 0 in E; by mrun E|].
  change (take (Z.to_nat 0) cells) with (@nil cell) in G2. rewrite drop_ge, app_nil_r in G2 by (rewrite (gr_cells _ _ _ G); lia). exact G2.
Qed.

(** ** Scrolling *)

Lemma outcome_run {A B} (o : outcome A) a (f : A -> outcome B) : o = Ok a -> o ≫= f = f a.
Proof. by intros ->. Qed.

(** One double word: the four bytes behind [p] become the first four of [y]. *)
Lemma dword_run p x0 x1 x2 x3 x y0 y1 y2 y3 y n (g := S (S (S (S (length x))))) :
  movsd (S n) (Z.of_nat (length p + g)) (Z.of_nat (length p)) (p ++ (x0 :: x1 :: x2 :: x3 :: x) ++ y0 :: y1 :: y2 :: y3 :: y) =
  movsd n (Z.of_nat (length p + g) + 4) (Z.of_nat (length p) + 4) (p ++ y0 :: y1 :: y2 :: y3 :: x ++ y0 :: y1 :: y2 :: y3 :: y).
Proof.
  set (b := x0 :: x1 :: x2 :: x3 :: x). set (t := y0 :: y1 :: y2 :: y3 :: y). cbn [movsd].
  assert (forall q a q' i, t = q ++ a :: q' -> i = Z.of_nat (length p + g + length q) -> aget (p ++ b ++ t) i = Ok a) as G.
  { intros q a q' i -> ->. rewrite app_assoc, app_assoc. apply aget_at. rewrite !length_app. unfold b, g. cbn [length]. lia. }
  assert (forall q a a' q' i, i = Z.of_nat (length p + length q) -> aset (p ++ q ++ a :: q') i a' = Ok (p ++ q ++ a' :: q')) as W.
  { intros q a a' q' i ->. rewrite !app_assoc. apply aset_at. by rewrite length_app. }
  rewrite (outcome_run _ _ _ (G [] y0 _ (Z.of_nat (length p + g)) eq_refl ltac:(cbn [length]; lia))).
  rewrite (outcome_run _ _ _ (G [y0] y1 _ (Z.of_nat (length p + g) + 1) eq_refl ltac:(cbn [length]; lia))).
  rewrite (outcome_run _ _ _ (G [y0; y1] y2 _ (Z.of_nat (length p + g) + 2) eq_refl ltac:(cbn [length]; lia))).
  rewrite (outcome_run _ _ _ (G [y0; y1; y2] y3 _ (Z.of_nat (length p + g) + 3) eq_refl ltac:(cbn [length]; lia))).
  rewrite (outcome_run _ _ _ (W [] x0 y0 (x1 :: x2 :: x3 :: x ++ t) (Z.of_nat (length p)) ltac:(cbn [length]; lia))).
  rewrite (outcome_run _ _ _ (W [y0] x1 y1 (x2 :: x3 :: x ++ t) (Z.of_nat (length p) + 1) ltac:(cbn [length]; lia))).
  rewrite (outcome_run _ _ _ (W [y0; y1] x2 y2 (x3 :: x ++ t) (Z.of_nat (length p) + 2) ltac:(cbn [length]; lia))).
  rewrite (outcome_run _ _ _ (W [y0; y1; y2] x3 y3 (x ++ t) (Z.of_nat (length p) + 3) ltac:(cbn [length]; lia))).
  reflexivity.
Qed.

(** The copy runs upwards, so the source may overlap the destination from above. *)
Lemma movsd_run n : forall p x y, (4 <= length x)%nat -> (4 * n <= length y)%nat ->
  movsd n (Z.of_nat (length p + length x)) (Z.of_nat (length p)) (p ++ x ++ y) = Ok (p ++ take (4 * n) y ++ drop (4 * n) (x ++ y)).
Proof.
  induction n as [|n IH]; intros p x y Hx Hy; [by rewrite Nat.mul_0_r|].
  destruct x as [|x0 [|x1 [|x2 [|x3 x]]]]; cbn [length] in Hx; try lia.
  destruct y as [|y0 [|y1 [|y2 [|y3 y]]]]; cbn [length] in Hy; try lia.
  change (length (x0 :: x1 :: x2 :: x3 :: x)) with (S (S (S (S (length x))))). rewrite dword_run. replace (4 * S n)%nat with (S (S (S (S (4 * n))))) by lia. cbn [take drop app].
  specialize (IH (p ++ [y0; y1; y2; y3]) (x ++ [y0; y1; y2; y3]) y). rewrite !length_app in IH. cbn [length] in IH. rewrite <- !app_assoc in IH. cbn [app] in IH.
  rewrite <- IH by lia. f_equal; lia.
Qed.

Lemma roll_screen_run v cells pos : grid v cells pos ->
  exists v', roll_screen v = Ok (tt, v') /\ grid v' (drop 80 cells ++ replicate 80 blank) 1920.
Proof.
  intros [(rest & E & L) Hc Hp Hh Ho].
  set (x := video_bytes (take 80 cells)). set (y := video_bytes (drop 80 cells) ++ rest).
  assert (length (take 80 cells) = 80%nat /\ length (drop 80 cells) = 1920%nat) as [L1 L2] by (rewrite length_take, length_drop; lia).
  assert (length x = 160%nat /\ length y = (3840 + length rest)%nat) as [Lx Ly] by (unfold x, y; rewrite length_app, !video_bytes_length; lia).
  assert (video v = [] ++ x ++ y) as Ev by (unfold x, y; cbn [app]; by rewrite app_assoc, <- video_bytes_app, take_drop).
  pose proof (movsd_run 960 [] x y ltac:(lia) ltac:(lia)) as R. rewrite <- Ev, Lx in R. change (Z.of_nat (length (@nil Z) + 160)) with 0xa0 in R. change (Z.of_nat (length (@nil Z))) with 0 in R.
  set (cells1 := drop 80 cells ++ drop 1920 cells).
  assert ([] ++ take (4 * 960) y ++ drop (4 * 960) (x ++ y) = video_bytes cells1 ++ rest) as El.
  { cbn [app]. rewrite <- (app_nil_l (x ++ y)), <- Ev, E. unfold y. change (4 * 960)%nat with 3840%nat.
    rewrite take_app_length' by (rewrite video_bytes_length; lia). unfold cells1. rewrite video_bytes_app, <- app_assoc. f_equal.
    rewrite <- (take_drop 1920 cells) at 1. rewrite video_bytes_app, <- app_assoc.
    by rewrite drop_app_length' by (rewrite video_bytes_length, length_take; lia). }
  rewrite El in R. set (v1 := set_video (video_bytes cells1 ++ rest) v).
  assert (grid v1 cells1 pos) as G1.
  { split; try done; [by exists rest|]. unfold cells1. rewrite length_app, !length_drop. lia. }
  destruct (cls_loop_run 80 v1 cells1 pos 1920 G1) as (v2 & E2 & G2); [lia..|].
  destruct (set_cursor_run v2 _ _ 1920 G2) as (v3 & E3 & G3); [lia|]. exists v3. split.
  - unfold roll_screen. rewrite getS_bind, (liftO_bind _ _ _ _ R), modS_bind. fold v1. change 3840 with (2 * 1920). by mrun E2.
  - unfold cells1 in G3. change (Z.to_nat 1920) with 1920%nat in G3. rewrite take_app_length' in G3 by lia.
    rewrite (drop_ge (drop 80 cells ++ drop 1920 cells)), app_nil_r in G3 by (rewrite length_app, !length_drop; lia). exact G3.
Qed.

(** The cursor goes to the start of the next row; below the last row the cells
    move up by one. *)
Lemma line_feed_run v cells pos r : grid v cells pos -> 0 <= pos < 2000 \/ pos = 2000 -> r = pos / 80 ->
  exists v', line_feed pos v = Ok (tt, v') /\
    (r < 24 -> grid v' cells (80 * (r + 1))) /\ (24 <= r -> grid v' (drop 80 cells ++ replicate 80 blank) 1920).
Proof.
  intros G Hp ->. assert (0 <= pos / 80 <= 25) as Hr by (split; [apply Z.div_pos|apply Z.div_le_upper_bound]; lia).
  assert (pos - pos mod 80 + 80 = 80 * (pos / 80 + 1)) as Eb by (pose proof (Z.div_mod pos 80); lia).
  unfold line_feed. rewrite Eb, wrapu_small, wraps_small by lia.
  destruct (Z.ltb_spec (80 * (pos / 80 + 1)) 2000).
  - destruct (set_cursor_run v cells pos (80 * (pos / 80 + 1)) G) as (v' & E & G'); [lia|]. exists v'. split; [done|]. split; [done|lia].
  - destruct (roll_screen_run v cells pos G) as (v' & E & G'). exists v'. split; [done|]. split; [lia|done].
Qed.

(** A character that is not a backspace, at cell [pos]. *)
Lemma put_char_grid v cells pos c a : grid v cells pos -> 0 <= pos < 2000 -> 0 <= c < 256 -> 0 <= a < 256 -> c <> 8 ->
  let cells' := if is_newline c then cells else <[Z.to_nat pos := (c, a)]> cells in
  let next := if is_newline c then 80 * (pos / 80 + 1) else pos + 1 in
  exists v', put_char_color c a v = Ok (tt, v') /\
    (next < 2000 -> grid v' cells' next) /\ (2000 <= next -> grid v' (drop 80 cells' ++ replicate 80 blank) 1920).
Proof.
  intros G Hp Hc Ha H8 cells' next. destruct (get_cursor_run v cells pos G) as (v1 & E1 & G1).
  unfold put_char_color. mrun E1. rewrite !(wrapu_small 8) by lia. fold (is_newline c). unfold cells', next.
  destruct (is_newline c).
  - destruct (line_feed_run v1 cells pos _ G1 (or_introl Hp) eq_refl) as (v' & E & N & Y). exists v'. split; [done|]. split; intros; [apply N|apply Y]; lia.
  - destruct (Z.eqb_spec c 8); [done|]. unfold put_other.
    destruct (store_cell_run v1 cells pos pos c a G1 Hp) as (v2 & v3 & E2 & E3 & G3).
    rewrite (wrapu_small 16 (2 * pos)) by lia. mrun E2. rewrite (wrapu_small 16 (2 * pos + 1)) by lia. mrun E3.
    assert ((2 * pos + 1) / 2 = pos) as -> by (symmetry; apply (Z.div_unique _ 2 _ 1); lia).
    rewrite (wrapu_small 16 (pos + 1)), (wraps_small 16) by lia. destruct (Z.ltb_spec (pos + 1) 2000).
    + destruct (set_cursor_run v3 _ _ (pos + 1) G3) as (v' & E & G'); [lia|]. exists v'. split; [done|]. split; [done|lia].
    + assert (pos + 1 = 2000) as -> by lia.  destruct (roll_screen_run v3 _ _ G3) as (v' & E & G'). exists v'. split; [exact E|]. split; [lia|done].
Qed.

(** ** The window over the rows *)

Lemma row_of_length r : (length r <= 80)%nat -> length (row_of r) = 80%nat.
Proof. intros H. unfold row_of. rewrite length_app, length_replicate. lia. Qed.

Lemma window_split above line :
  window (above, line) = (row_of <$> drop (length above - 24) above) ++ row_of line :: replicate (24 - Nat.min (length above) 24) (row_of []).
Proof.
  unfold window. cbn [fst snd]. rewrite length_app. cbn [length].
  replace (length above + 1 - 25)%nat with (length above - 24)%nat by lia. rewrite drop_app_le by lia.
  rewrite fmap_app, <- app_assoc. cbn [fmap list_fmap app]. rewrite length_app, length_drop. cbn [length]. do 3 f_equal. lia.
Qed.

Lemma concat_rows_length (rs : list (list cell)) : Forall (fun r => (length r <= 80)%nat) rs -> length (concat (row_of <$> rs)) = (80 * length rs)%nat.
Proof. induction 1 as [|r rs Hr _ IH]; [done|]. cbn [fmap list_fmap concat]. rewrite length_app, row_of_length by done. cbn [length]. lia. Qed.

Lemma window_length above line : Forall (fun r => (length r <= 80)%nat) above -> (length line <= 80)%nat -> length (concat (window (above, line))) = 2000%nat.
Proof.
  intros Ha Hl. rewrite window_split, concat_app, length_app, concat_rows_length, length_drop by (by apply Forall_drop). cbn [concat]. rewrite length_app, row_of_length by done.
  assert (forall n, length (concat (replicate n (row_of []))) = (80 * n)%nat) as -> by (intros n; induction n as [|n IH]; [done|]; cbn [replicate concat]; rewrite length_app, IH, row_of_length by (cbn; lia); lia).
  lia.
Qed.

(** A new row: nothing changes while there is room below. *)
Lemma window_newline above line : (length above < 24)%nat -> window (above ++ [line], []) = window (above, line).
Proof.
  intros Hn. rewrite !window_split, length_app. cbn [length]. replace (length above + 1 - 24)%nat with 0%nat by lia. replace (length above - 24)%nat with 0%nat by lia.
  rewrite !drop_0, fmap_app, <- app_assoc.
  cbn [fmap list_fmap app]. replace (24 - Nat.min (length above) 24)%nat with (S (24 - Nat.min (length above + 1) 24)) by lia. reflexivity.
Qed.

(** Otherwise the first row goes. *)
Lemma window_scroll above line : (24 <= length above)%nat -> Forall (fun r => (length r <= 80)%nat) above ->
  concat (window (above ++ [line], [])) = drop 80 (concat (window (above, line))) ++ replicate 80 blank.
Proof.
  intros Hn Ha. rewrite !window_split, length_app. cbn [length]. replace (length above + 1 - 24)%nat with (S (length above - 24)) by lia.
  rewrite drop_app_le, !(Nat.min_r) by lia. destruct (lookup_lt_is_Some_2 above (length above - 24)) as [x Hx]; [lia|].
  rewrite (drop_S above x (length above - 24) Hx). cbn [replicate Nat.sub fmap list_fmap app concat].
  rewrite drop_app_length' by (symmetry; apply row_of_length; by apply (Forall_lookup_1 _ _ _ _ Ha Hx)).
  rewrite fmap_app, !concat_app. cbn [fmap list_fmap concat app]. by rewrite !app_nil_r.
Qed.

(** A cell behind the line. *)
Lemma window_put above line c : Forall (fun r => (length r <= 80)%nat) above -> (length line < 80)%nat ->
  <[(80 * Nat.min (length above) 24 + length line)%nat := c]> (concat (window (above, line))) = concat (window (above, line ++ [c])).
Proof.
  intros Ha Hl. rewrite !window_split, !concat_app. cbn [concat].
  assert (length (concat (row_of <$> drop (length above - 24) above)) = (80 * Nat.min (length above) 24)%nat) as Hw
    by (rewrite concat_rows_length by (by apply Forall_drop); rewrite length_drop; lia).
  rewrite insert_app_r_alt by lia. f_equal. rewrite Hw, Nat.add_comm, Nat.add_sub.
  rewrite insert_app_l by (rewrite row_of_length by lia; lia). f_equal. unfold row_of. rewrite length_app. cbn [length].
  rewrite insert_app_r_alt, Nat.sub_diag by lia. replace (80 - length line)%nat with (S (80 - (length line + 1))) by lia.
  cbn [replicate]. by rewrite <- app_assoc.
Qed.

(** ** Printing lays out the text *)

Lemma shows_grid v rows : shows v rows <-> grid v (concat (window rows)) (cursor_of rows) /\ Forall (fun r => (length r <= 80)%nat) rows.1 /\ (length rows.2 < 80)%nat.
Proof.
  destruct rows as [above line]. split.
  - intros [S1 S2 S3 S4 S5 S6 S7]. cbn [fst snd] in *. split; [|done]. split; try done; [|apply window_length; [done|lia]].
    exists (drop 4000 (video v)). rewrite <- S2, take_drop, length_drop. split; [done|]. rewrite S1. lia.
  - intros (G & Ha & Hl). cbn [fst snd] in *. pose proof (grid_size _ _ _ G) as Hs. destruct G as [(rest & E & L) Hc Hp Hh Ho].
    split; try done. rewrite E. apply take_app_length'. rewrite video_bytes_length, Hc. lia.
Qed.

Lemma cursor_row above line : (length line < 80)%nat -> cursor_of (above, line) / 80 = Z.of_nat (Nat.min (length above) 24).
Proof. intros H. unfold cursor_of. cbn [fst snd]. symmetry. apply (Z.div_unique _ 80 _ (Z.of_nat (length line))); lia. Qed.

Lemma put_char_shows v rows c a : shows v rows -> 0 <= c < 256 -> 0 <= a < 256 -> c <> 8 ->
  exists v', put_char_color c a v = Ok (tt, v') /\ shows v' (lay_char rows (c, a)).
Proof.
  destruct rows as [above line]. intros (G & Ha & Hl)%shows_grid Hc Hat H8. cbn [fst snd] in *.
  pose proof (cursor_row above line Hl) as Er. set (pos := cursor_of (above, line)) in *.
  assert (pos = 80 * Z.of_nat (Nat.min (length above) 24) + Z.of_nat (length line)) as Ep by done.
  destruct (put_char_grid v _ pos c a G ltac:(lia) Hc Hat H8) as (v' & E & N & Y). exists v'. split; [done|]. unfold lay_char. cbn [fst].
  assert (Forall (fun r => (length r <= 80)%nat) (above ++ [line])) as Ha1 by (apply Forall_app; split; [done|]; constructor; [lia|done]).
  destruct (is_newline c).
  - apply shows_grid. cbn [fst snd length]. split; [|split; [done|lia]]. unfold cursor_of. cbn [fst snd length]. rewrite length_app. cbn [length].
    destruct (decide (length above < 24)%nat) as [Hn|Hn].
    + rewrite window_newline by done. rewrite Er in N. replace (80 * _ + 0) with (80 * (Z.of_nat (Nat.min (length above) 24) + 1)) by lia. apply N. lia.
    + rewrite window_scroll by (done || lia). replace (80 * _ + 0) with 1920 by lia. apply Y. rewrite Er. lia.
  - replace (Z.to_nat pos) with (80 * Nat.min (length above) 24 + length line)%nat in * by lia. rewrite window_put in N, Y by done.
    destruct (Nat.eqb_spec (length line) 79) as [El|El].
    + assert (Forall (fun r => (length r <= 80)%nat) (above ++ [line ++ [(c, a)]])) as Ha2
        by (apply Forall_app; split; [done|]; constructor; [rewrite length_app; cbn [length]; lia|done]).
      apply shows_grid. cbn [fst snd length]. split; [|split; [done|lia]]. unfold cursor_of. cbn [fst snd length]. rewrite length_app. cbn [length].
      destruct (decide (length above < 24)%nat) as [Hn|Hn].
      * rewrite window_newline by done. replace (80 * _ + 0) with (pos + 1) by lia. apply N. lia.
      * rewrite window_scroll by (done || lia). replace (80 * _ + 0) with 1920 by lia. apply Y. lia.
    + apply shows_grid. cbn [fst snd]. rewrite length_app. cbn [length]. split; [|split; [done|lia]].
      unfold cursor_of. cbn [fst snd]. rewrite length_app. cbn [length].
      replace (80 * _ + _) with (pos + 1) by lia. apply N. lia.
Qed.

Lemma put_str_shows str a : 0 <= a < 256 -> Forall (fun c => 0 <= c < 256 /\ c <> 8) str -> forall v rows, shows v rows ->
  exists v', put_str_color str a v = Ok (tt, v') /\ shows v' (lay rows ((fun c => (c, a)) <$> str)).
Proof.
  intros Ha H. induction H as [|c str [Hc H8] _ IH]; intros v rows Hs; [by exists v|].
  destruct (put_char_shows v rows c a Hs Hc Ha H8) as (v1 & E1 & S1). destruct (IH v1 _ S1) as (v' & E & S').
  exists v'. split; [|exact S']. cbn [put_str_color]. by mrun E1.
Qed.

(** C38. Printing a string without backspaces on a screen that shows a text lays
    the string out behind it: the characters go into rows of 80 cells, a line
    feed or a carriage return or a full row starts the next one, and the screen
    shows the last 25 rows, whatever has been scrolled away. *)
Theorem put_str_color_lays_out v rows str attr :
  shows v rows -> 0 <= attr < 256 -> Forall (fun c => 0 <= c < 256 /\ c <> 8) str ->
  exists v', put_str_color str attr v = Ok (tt, v') /\ shows v' (lay rows ((fun c => (c, attr)) <$> str)).
Proof. intros Hs Ha H. by apply put_str_shows. Qed.

Lemma bytes_are_cells n : forall l : list Z, length l = (2 * n)%nat -> exists cs, l = video_bytes cs /\ length cs = n.
Proof.
  induction n as [|n IH]; intros l Hl; [exists []; by destruct l|].
  destruct l as [|a [|b l]]; cbn [length] in Hl; try lia. destruct (IH l) as (cs & -> & Hc); [lia|].
  exists ((a, b) :: cs). split; [done|]. cbn [length]. lia.
Qed.

(** Clearing makes a screen for an empty text of any memory. *)
Lemma cls_screen_shows v : length (video v) = Z.to_nat 0x8000 -> 0 <= cur_hi v < 256 -> 0 <= cur_lo v < 256 ->
  exists v', cls_screen v = Ok (tt, v') /\ shows v' ([], []).
Proof.
  intros Hv Hh Hl. destruct (bytes_are_cells 2000 (take 4000 (video v))) as (cs & Ec & Lc); [rewrite length_take; lia|].
  destruct (cls_screen_run v cs (256 * cur_hi v + cur_lo v)) as (v' & E & G).
  { split; [|done|reflexivity|done..]. exists (drop 4000 (video v)). rewrite <- Ec, take_drop, length_drop. split; [done|lia]. }
  exists v'. split; [done|]. apply shows_grid. cbn [fst snd length]. split; [exact G|]. split; [constructor|lia].
Qed.

(** ** Numbers in hexadecimal *)

(** The digits of a number, the most significant first. *)
Fixpoint hexadecimal_of (fuel : nat) (n : Z) : list Z :=
  match fuel with
  | O => []
  | S fuel => if n <? 16 then [hex_digit n] else hexadecimal_of fuel (n / 16) ++ [hex_digit (n mod 16)]
  end.

Lemma put_each_num_str l : forall v, put_each_num l v = put_str l v.
Proof. induction l as [|c l IH]; intros v; [done|]. cbn. unfold mbind, M_bind, put_char. destruct (put_char_color c 7 v) as [[]| | |]; [apply IH|done..]. Qed.

(** All digits, leading zeros included. *)
Fixpoint all_digits (k : nat) (n : Z) : list Z :=
  match k with O => [] | S k => all_digits k (n / 16) ++ [hex_digit (n mod 16)] end.

Lemma hex_digit_zero d : 0 <= d < 16 -> (hex_digit d =? 48) = (d =? 0).
Proof. intros H. unfold hex_digit. destruct (Z.ltb_spec 9 d), (Z.eqb_spec d 0); apply Z.eqb_eq || apply Z.eqb_neq; lia. Qed.

Lemma digits_zero k : Forall (eq 48) (all_digits k 0).
Proof. induction k as [|k IH]; [constructor|]. apply Forall_app. split; [exact IH|]. by constructor. Qed.

Lemma skip_zeros l r : Forall (eq 48) l -> skip_prefix_0 (l ++ r) = skip_prefix_0 r.
Proof. induction 1 as [|x l <- _ IH]; [done|]. exact IH. Qed.

Lemma skip_app l r : Exists (fun c => c <> 48) l -> skip_prefix_0 (l ++ r) = skip_prefix_0 l ++ r.
Proof.
  induction l as [|c l IH]; intros H; [by apply Exists_nil in H|]. cbn [skip_prefix_0 app].
  destruct (Z.eqb_spec c 48); [|done]. apply IH. apply Exists_cons in H as [H|H]; done.
Qed.

Lemma digits_nonzero k : forall n, 0 < n < 16 ^ Z.of_nat k -> Exists (fun c => c <> 48) (all_digits k n).
Proof.
  induction k as [|k IH]; intros n Hn; [change (16 ^ Z.of_nat 0) with 1 in Hn; lia|]. cbn [all_digits]. apply Exists_app.
  rewrite Nat2Z.inj_succ, Z.pow_succ_r in Hn by lia. pose proof (Z.div_mod n 16 ltac:(lia)) as Ed. pose proof (Z.mod_pos_bound n 16 ltac:(lia)).
  destruct (decide (n / 16 = 0)) as [E|E].
  - right. apply Exists_cons_hd. apply Z.eqb_neq. rewrite hex_digit_zero by lia. apply Z.eqb_neq. lia.
  - left. apply IH. pose proof (Z.div_pos n 16). split; [lia|]. apply Z.div_lt_upper_bound; lia.
Qed.

Lemma skip_digits k : forall n, 0 <= n < 16 ^ Z.of_nat (S k) -> skip_prefix_0 (all_digits (S k) n) = hexadecimal_of (S k) n.
Proof.
  induction k as [|k IH]; intros n Hn.
  - change (16 ^ Z.of_nat 1) with 16 in Hn. cbn. rewrite Z.mod_small by lia. destruct (Z.ltb_spec n 16); [|lia].
    rewrite hex_digit_zero by lia. by destruct (Z.eqb_spec n 0) as [->|].
  - change (all_digits (S (S k)) n) with (all_digits (S k) (n / 16) ++ [hex_digit (n mod 16)]).
    change (hexadecimal_of (S (S k)) n) with (if n <? 16 then [hex_digit n] else hexadecimal_of (S k) (n / 16) ++ [hex_digit (n mod 16)]).
    rewrite (Nat2Z.inj_succ (S k)), Z.pow_succ_r in Hn by lia.
    destruct (Z.ltb_spec n 16).
    + rewrite Z.div_small, Z.mod_small by lia. rewrite skip_zeros by apply digits_zero. cbn [skip_prefix_0].
      rewrite hex_digit_zero by lia. by destruct (Z.eqb_spec n 0) as [->|].
    + assert (0 < n / 16 < 16 ^ Z.of_nat (S k)) as Hq by (split; [apply Z.div_str_pos; lia|apply Z.div_lt_upper_bound; lia]).
      rewrite skip_app by (by apply digits_nonzero). rewrite IH by lia. done.
Qed.

Lemma hex_loop_run k : forall n buf tl, length buf = k ->
  hex_loop k n (Z.of_nat k - 1) (buf ++ tl) = Ok (all_digits k n ++ tl).
Proof.
  induction k as [|k IH]; intros n buf tl Hk; [by destruct buf|].
  destruct (exists_last (l := buf)) as (b & x & ->); [by intros ->|]. rewrite length_app in Hk. cbn [length] in Hk.
  cbn [hex_loop]. rewrite <- app_assoc. cbn [app].
  rewrite (outcome_run _ _ _ (aset_at b x (hex_digit (Z.land n 15)) tl (Z.of_nat (S k) - 1) ltac:(lia))).
  replace (Z.of_nat (S k) - 1 - 1) with (Z.of_nat k - 1) by lia. rewrite IH by lia. cbn [all_digits]. rewrite <- app_assoc. cbn [app].
  rewrite Z.shiftr_div_pow2 by lia. change 15 with (Z.ones 4). rewrite Z.land_ones by lia. done.
Qed.

(** [put_int] prints the hexadecimal digits without leading zeros. *)
Lemma put_int_run num v : put_int num v = put_str (hexadecimal_of 8 (u32 num)) v.
Proof.
  unfold put_int. rewrite (liftO_bind _ (all_digits 8 (u32 num))).
  - rewrite put_each_num_str, skip_digits; [done|]. apply (wrapu_range 32). lia.
  - pose proof (hex_loop_run 8 (u32 num) (replicate 8 0) [] eq_refl) as R. rewrite !app_nil_r in R. exact R.
Qed.

(** A backspace at the first cell of the screen leaves the video segment: the
    processor faults. *)
Lemma backspace_at_origin_faults v a : length (video v) = Z.to_nat 0x8000 -> cur_hi v = 0 -> cur_lo v = 0 -> put_char_color 8 a v = Fault.
Proof.
  intros Hv Hh Hl. destruct v as [l i h o]. cbn [video cur_hi cur_lo] in Hv, Hh, Hl. subst h o.
  assert (put_char_color 8 a (mk_vga l i 0 0) = is_backspace 0 (u8 a) (mk_vga l 0x0f 0 0)) as -> by reflexivity.
  unfold is_backspace, mbind at 1, M_bind, store_gs. rewrite getS_bind. cbn [video]. unfold aset.
  change (u16 (2 * u16 (0 - 1))) with 65534. destruct (Z.ltb_spec 65534 0); [lia|]. destruct (Nat.ltb_spec (Z.to_nat 65534) (length l)); [lia|]. reflexivity.
Qed.

(** A cleared screen. *)
Definition demo_vga : vga := mk_vga (video_bytes (replicate 2000 blank) ++ replicate (Z.to_nat 28768) 0) 0 0 0.

Lemma demo_vga_shows : shows demo_vga ([], []).
Proof.
  apply shows_grid. split; [|split; [constructor|cbn; lia]]. split; cbn [video cur_hi cur_lo demo_vga]; try lia.
  - exists (replicate (Z.to_nat 28768) 0). split; [reflexivity|apply length_replicate].
  - reflexivity.
  - reflexivity.
Qed.

Lemma put_str_color_lays_out_witness :
  exists v', put_str_color [72; 105; 10; 33] 0x02 demo_vga = Ok (tt, v') /\ shows v' ([[(72, 2); (105, 2)]], [(33, 2)]).
Proof.
  apply (put_str_color_lays_out demo_vga ([], []) [72; 105; 10; 33] 0x02 demo_vga_shows); [lia|].
  repeat constructor; lia.
Defined.
