(* ===== verification/Task.v ===== *)
(** * Thread creation and removal (thread/thread.c)

    The pid pool, the PCB of a new thread, [thread_start] and [thread_exit].
    A PCB is a page of the kernel pool; the pool is used through the interface
    [PageAlloc].  The pid lock is taken and released around a computation that
    never gives up the processor; [Sync] is about contended locks. *)

From S2P Require Import Prelude Bitmap Interrupt Paging Memory PageAlloc DList Sched Sync.
Import Queue.

Section Task.
Context {P : Type} `{PA : PageAlloc P}.
#[local] Abbreviation sched := (@sched P).
Implicit Types s : sched.

Definition MAX_FILES_OPEN_PER_PROC : nat := 8.
Definition STACK_MAGIC : Z := 0x19750130.
Definition sizeof_intr_stack : Z := 76.
Definition sizeof_thread_stack : Z := 32.
Definition TASK_NAME_LEN : nat := 16.

(** [pid_start] is 1. *)
Definition PID_START : Z := 1.

Definition pid_pool_init : M sched () :=
  b ← liftO (bitmap_init (mk_bitmap 128 (replicate 128 0)));
  modS (set_pid_bitmap b).

Definition allocate_pid : M sched Z :=
  s ← getS;
  bit_idx ← liftO (bitmap_scan (pid_bitmap s) 1);
  b ← liftO (bitmap_set (pid_bitmap s) (u32 bit_idx) 1);
  _ ← modS (set_pid_bitmap b);
  mret (i16 (bit_idx + PID_START)).

Definition release_pid (p : Z) : M sched () :=
  s ← getS;
  b ← liftO (bitmap_set (pid_bitmap s) (u32 (p - PID_START)) 0);
  modS (set_pid_bitmap b).

Definition fork_pid : M sched Z := allocate_pid.

(** [strcpy] into the 16 bytes of [name] from a string without its final 0. *)
Definition name_of (str : list Z) : outcome (list Z) :=
  if (length str <? TASK_NAME_LEN)%nat
  then Ok (str ++ replicate (TASK_NAME_LEN - length str) 0) else Fault.

(** [init_thread]: the PCB at [pthread], whatever it held before. *)
Definition init_thread (pthread : Z) (nm : list Z) (prio : Z) : M sched () :=
  p ← allocate_pid;
  n ← liftO (name_of nm);
  s ← getS;
  let st := if pthread =? main_thread s then TASK_RUNNING else TASK_READY in
  modS (fun s => set_tasks (<[pthread :=
    mk_task (u32 (pthread + PAGE_SIZE)) p st n (u32 prio) (u8 prio) 0 NULL
      ([0; 1; 2] ++ replicate (MAX_FILES_OPEN_PER_PROC - 3) (-1)) 0 (-1) 0 STACK_MAGIC]> (tasks s)) s).

(** [thread_create]: room for the interrupt and the thread stack; the thread
    stack leads to [kernel_thread], the frame [KStart]. *)
Definition thread_create (pthread : Z) : M sched () :=
  _ ← upd_task pthread (fun t => set_self_kstack (u32 (self_kstack t - sizeof_intr_stack)) t);
  _ ← upd_task pthread (fun t => set_self_kstack (u32 (self_kstack t - sizeof_thread_stack)) t);
  modS (fun s => set_frames_of (<[pthread := [KStart]]> (frames_of s)) s).

Definition on_kpages {A} (c : M P A) : M sched A := fun s =>
  match c (pages s) with
  | Ok (a, p) => Ok (a, set_pages p s)
  | Panic w => Panic w
  | Fault => Fault
  | NoFuel => NoFuel
  end.

(** The end of [thread_start] and [process_execute]: both queues get the new
    thread. *)
Definition enqueue_new (thread : Z) : M sched () :=
  s ← getS;
  _ ← assertM (negb (q_find (thread_ready_list s) thread)) "thread_start: !elem_find(&thread_ready_list, &thread->general_tag)";
  _ ← modS (set_thread_ready_list (q_append (thread_ready_list s) thread));
  s ← getS;
  _ ← assertM (negb (q_find (thread_all_list s) thread)) "thread_start: !elem_find(&thread_all_list, &thread->all_list_tag)";
  modS (set_thread_all_list (q_append (thread_all_list s) thread)).

Definition thread_start (nm : list Z) (prio : Z) : M sched Z :=
  thread ← on_kpages (pa_malloc PF_KERNEL 1);
  _ ← init_thread thread nm prio;
  _ ← thread_create thread;
  _ ← enqueue_new thread;
  mret thread.

(** [make_main_thread]: the code that runs already becomes the main thread. *)
Definition make_main_thread : M sched () :=
  c ← running_thread;
  _ ← modS (set_main_thread c);
  _ ← init_thread c [109; 97; 105; 110] 8;
  s ← getS;
  _ ← assertM (negb (q_find (thread_all_list s) c)) "make_main_thread: !elem_find(&thread_all_list, &main_thread->all_list_tag)";
  modS (set_thread_all_list (q_append (thread_all_list s) c)).

Context (v2p : Z -> Z).

(** [thread_exit].  The pid is read from the PCB after its page was given
    back; nothing else runs in between, so it is still there. *)
Definition thread_exit (thread_over : Z) (need_schedule : bool) : M sched () :=
  _ ← intr_disable;
  _ ← upd_task thread_over (set_status TASK_DIED);
  s ← getS;
  _ ← (if q_find (thread_ready_list s) thread_over
       then modS (set_thread_ready_list (q_remove (thread_ready_list s) thread_over)) else mret tt);
  t ← get_task thread_over;
  _ ← (if pgdir t =? NULL then mret tt else on_kpages (pa_mfree PF_KERNEL (pgdir t) 1));
  _ ← modS (fun s => set_thread_all_list (q_remove (thread_all_list s) thread_over) s);
  s ← getS;
  _ ← (if thread_over =? main_thread s then mret tt else on_kpages (pa_mfree PF_KERNEL thread_over 1));
  _ ← release_pid (pid t);
  if need_schedule
  then _ ← schedule v2p (KRet INTR_OFF); panicM "thread_exit: should not be here"
  else modS (fun s => set_tasks (delete thread_over (tasks s)) s).

(** [pid_check] under [list_traversal], and [pid2thread]. *)
Definition pid_check (p : Z) (arg : Z) : M sched bool :=
  t ← get_task p; mret (pid t =? arg).

Definition pid2thread (p : Z) : M sched Z :=
  s ← getS;
  pelem ← q_traversal pid_check p (thread_all_list s);
  if pelem =? NULL then mret NULL else mret pelem.

(** ** wait and exit: the callbacks on the list of all threads (userprog/wait_exit.c) *)

Definition find_child (p ppid : Z) : M sched bool :=
  t ← get_task p; mret (parent_pid t =? ppid).

Definition find_hanging_child (p ppid : Z) : M sched bool :=
  t ← get_task p; mret ((parent_pid t =? ppid) && bool_decide (status t = TASK_HANGING)).

Definition init_adopt_a_child (p ppid : Z) : M sched bool :=
  t ← get_task p;
  _ ← (if parent_pid t =? ppid then upd_task p (set_parent_pid 1) else mret tt);
  mret false.

(** One round of the loop of [sys_wait]: the pid and status of a reaped child,
    -1 without children, or the thread waits ([None]) and starts over. *)
Definition sys_wait_round : M sched (option (Z * Z)) :=
  c ← running_thread;
  t ← get_task c;
  s ← getS;
  child_elem ← q_traversal find_hanging_child (pid t) (thread_all_list s);
  if negb (child_elem =? NULL) then
    ch ← get_task child_elem;
    _ ← thread_exit child_elem false;
    mret (Some (i16 (u16 (pid ch)), exit_status ch))
  else
    child_elem ← q_traversal find_child (pid t) (thread_all_list s);
    if child_elem =? NULL then mret (Some (-1, 0))
    else _ ← thread_block v2p TASK_WAITING; mret None.

(** [sys_exit] from the point where the resources of the process are
    released: hand the children to init, wake a waiting parent, hang. *)
Definition adopt_children (p : Z) : M sched () :=
  s ← getS;
  _ ← q_traversal init_adopt_a_child p (thread_all_list s);
  mret tt.

Definition sys_exit_notify : M sched () :=
  c ← running_thread;
  t ← get_task c;
  parent ← pid2thread (parent_pid t);
  pt ← get_task parent;
  _ ← (if decide (status pt = TASK_WAITING) then thread_unblock parent else mret tt);
  thread_block v2p TASK_HANGING.


(** ** Lemmas *)

Lemma allocate_pid_run s :
  bitmap_wf (pid_bitmap s) -> nbits (pid_bitmap s) <= 1024 ->
  (exists f, 0 <= f < nbits (pid_bitmap s) /\ bit_used (pid_bitmap s) f = false) ->
  exists k b, allocate_pid s = Ok (k + 1, set_pid_bitmap b s) /\ 0 <= k < nbits (pid_bitmap s) /\
    bit_used (pid_bitmap s) k = false /\ bitmap_wf b /\ nbits b = nbits (pid_bitmap s) /\
    (forall j, 0 <= j -> bit_used b j = if j =? k then true else bit_used (pid_bitmap s) j).
Proof.
  intros Hb Hn Hf. destruct (bitmap_claim _ Hb Hf) as (k & b & Hs & Hset & Hk & Hfree & Hb' & Hlen & Hmem & Hr).
  exists k, b. split; [|split; [done|split; [done|split; [done|split; [unfold nbits; by rewrite Hlen|done]]]]].
  unfold allocate_pid. rewrite (mbindM_Ok _ _ s s s eq_refl).
  erewrite mbindM_Ok by (unfold liftO; by rewrite Hs).
  rewrite wrapu_small by lia. erewrite mbindM_Ok by (unfold liftO; by rewrite Hset).
  rewrite (mbindM_Ok _ _ s tt (set_pid_bitmap b s)) by done. unfold PID_START, mret, M_ret.
  rewrite wraps_small by lia. done.
Qed.

(** The first element a reading callback accepts. *)
Lemma q_traversal_first {X} (f : Z -> Z -> M X bool) (test : Z -> bool) arg (s : X) xs :
  (forall x, x ∈ xs -> f x arg s = Ok (test x, s)) ->
  q_traversal f arg xs s = Ok (default 0 (head (filter (fun x => test x = true) xs)), s).
Proof.
  induction xs as [|x xs IH]; intros Hf; [done|]. cbn [q_traversal].
  rewrite (mbindM_Ok _ _ _ _ _ (Hf x ltac:(left))). rewrite filter_cons.
  destruct (test x) eqn:E; [by rewrite decide_True|]. rewrite decide_False by done. apply IH.
  intros y Hy. apply Hf. by right.
Qed.

Definition all_tasks s : Prop := forall t, t ∈ thread_all_list s -> is_Some (tasks s !! t).

Definition pid_of s t : option Z := pid <$> tasks s !! t.

Lemma pid2thread_finds p s :
  all_tasks s ->
  pid2thread p s = Ok (default NULL (head (filter (fun t => pid_of s t = Some p) (thread_all_list s))), s).
Proof.
  intros Hall. unfold pid2thread. rewrite (mbindM_Ok _ _ s s s eq_refl).
  rewrite (mbindM_Ok _ _ s (default 0 (head (filter (fun t => bool_decide (pid_of s t = Some p) = true) (thread_all_list s)))) s).
  2:{ apply q_traversal_first. intros t Ht. destruct (Hall t Ht) as [x Hx]. unfold pid_check.
      rewrite (mbindM_Ok _ _ s x s) by (by apply get_task_run). unfold mret, M_ret, pid_of. rewrite Hx. cbn.
      do 2 f_equal. destruct (Z.eqb_spec (pid x) p) as [->|Hne]; [by rewrite bool_decide_eq_true_2|].
      rewrite bool_decide_eq_false_2; [done|congruence]. }
  rewrite (filter_ext_elem _ (fun t => pid_of s t = Some p)).
  2:{ intros t _. by rewrite bool_decide_eq_true. }
  destruct (Z.eqb_spec (default 0 (head (filter (fun t => pid_of s t = Some p) (thread_all_list s)))) NULL) as [E|]; [|done].
  unfold mret, M_ret. f_equal. f_equal. symmetry. exact E.
Qed.

(** ** Theorems *)

(** [allocate_pid] gives a pid between 1 and 1024 that is not in use, and
    [release_pid] of it restores the pool; so no two live threads ever share a
    pid. *)
Theorem pid_alloc_release_roundtrip s :
  bitmap_wf (pid_bitmap s) -> nbits (pid_bitmap s) <= 1024 ->
  (exists f, 0 <= f < nbits (pid_bitmap s) /\ bit_used (pid_bitmap s) f = false) ->
  exists p s' s'', allocate_pid s = Ok (p, s') /\ 1 <= p <= 1024 /\
    bit_used (pid_bitmap s) (p - 1) = false /\ bit_used (pid_bitmap s') (p - 1) = true /\
    (forall j, 0 <= j -> j <> p - 1 -> bit_used (pid_bitmap s') j = bit_used (pid_bitmap s) j) /\
    release_pid p s' = Ok (tt, s'') /\
    (forall j, 0 <= j -> bit_used (pid_bitmap s'') j = bit_used (pid_bitmap s) j).
Proof.
  intros Hb Hn Hf. destruct (allocate_pid_run s Hb Hn Hf) as (k & b & Ha & Hk & Hfree & Hb' & Hnb & Hr).
  destruct (bitmap_set_ok b k 0 Hb') as (b2 & S2 & W2 & L2 & M2 & U2); [lia|by left|].
  exists (k + 1), (set_pid_bitmap b s), (set_pid_bitmap b2 (set_pid_bitmap b s)).
  replace (k + 1 - 1) with k by lia. cbn [pid_bitmap set_pid_bitmap]. split; [done|]. split; [lia|].
  split; [done|]. split; [by rewrite Hr, Z.eqb_refl by lia|].
  split; [intros j Hj Hne; rewrite Hr by done; by destruct (Z.eqb_spec j k)|]. split.
  - unfold release_pid. rewrite (mbindM_Ok _ _ (set_pid_bitmap b s) (set_pid_bitmap b s) _ eq_refl).
    unfold PID_START. replace (k + 1 - 1) with k by lia. rewrite wrapu_small by lia.
    cbn [pid_bitmap set_pid_bitmap]. erewrite mbindM_Ok by (unfold liftO; by rewrite S2). done.
  - intros j Hj. rewrite U2, Hr by done. destruct (Z.eqb_spec j k) as [->|]; [by rewrite Hfree|done].
Qed.

(** [thread_start] on a page that is no PCB yet: the new thread gets a
    fresh pid and the standard descriptors, is READY at the end of the ready
    list with its kernel stack below the end of its page, and the invariant of
    the scheduler is kept, so it takes part in all interleavings of [Sync]. *)
Theorem thread_start_adds_a_ready_thread nm prio s p pg :
  sinv s -> pa_malloc PF_KERNEL 1 (pages s) = Ok (p * 4096, pg) ->
  0 < p < 0xFFC00 -> tasks s !! (p * 4096) = None -> fr s (p * 4096) = [] ->
  p * 4096 <> main_thread s -> all_tasks s -> (length nm < TASK_NAME_LEN)%nat -> 0 <= prio < 256 ->
  bitmap_wf (pid_bitmap s) -> nbits (pid_bitmap s) <= 1024 ->
  (exists f, 0 <= f < nbits (pid_bitmap s) /\ bit_used (pid_bitmap s) f = false) ->
  exists s' x, thread_start nm prio s = Ok (p * 4096, s') /\ sinv s' /\
    tasks s' !! (p * 4096) = Some x /\ status x = TASK_READY /\ stack_magic x = STACK_MAGIC /\
    self_kstack x = (p + 1) * 4096 - 108 /\ 1 <= pid x <= 1024 /\
    bit_used (pid_bitmap s) (pid x - 1) = false /\
    fd_table x = [0; 1; 2; -1; -1; -1; -1; -1] /\
    thread_ready_list s' = thread_ready_list s ++ [p * 4096] /\
    (forall t, t <> p * 4096 -> tasks s' !! t = tasks s !! t).
Proof.
  intros Hs Hm Hp Hnew Hfr Hmain Hall Hnm Hprio Hb Hn Hf.
  set (a := p * 4096) in *. set (s1 := set_pages pg s).
  destruct (allocate_pid_run s1 Hb Hn Hf) as (k & b & Ha & Hk & Hfree & Hb' & Hnb & Hr).
  set (x0 := mk_task (u32 (a + PAGE_SIZE)) (k + 1) TASK_READY (nm ++ replicate (TASK_NAME_LEN - length nm) 0)
               (u32 prio) (u8 prio) 0 NULL ([0; 1; 2] ++ replicate (MAX_FILES_OPEN_PER_PROC - 3) (-1)) 0 (-1) 0 STACK_MAGIC).
  set (s2 := set_tasks (<[a := x0]> (tasks s)) (set_pid_bitmap b s1)).
  set (x1 := set_self_kstack (u32 (self_kstack x0 - sizeof_intr_stack)) x0).
  set (x2 := set_self_kstack (u32 (self_kstack x1 - sizeof_thread_stack)) x1).
  set (s3 := set_frames_of (<[a := [KStart]]> (frames_of s)) (set_tasks (<[a := x2]> (tasks s)) (set_pid_bitmap b s1))).
  pose proof Hs as [S1 S2 S3 S4 S5].
  assert (st s a = None) as Hsta by (unfold st; by rewrite Hnew).
  assert (a ∉ thread_ready_list s) as Hnr by (rewrite (co_ready _ _ _ _ _ _ S3); congruence).
  assert (a ∉ thread_all_list s) as Hna by (intros Hin; destruct (Hall _ Hin); congruence).
  exists (set_thread_all_list (thread_all_list s ++ [a]) (set_thread_ready_list (thread_ready_list s ++ [a]) s3)), x2.
  split; [|split; [|split; [|split; [|split; [|split; [|split; [|split; [|split; [|split]]]]]]]]].
  - unfold thread_start. rewrite (mbindM_Ok _ _ s a s1) by (unfold on_kpages; by rewrite Hm).
    erewrite mbindM_Ok; cycle 1.
    { unfold init_thread. mrun Ha. erewrite mbindM_Ok; cycle 1.
      { unfold liftO, name_of. destruct (Nat.ltb_spec (length nm) TASK_NAME_LEN); [|lia]. done. }
      rewrite (mbindM_Ok _ _ (set_pid_bitmap b s1) (set_pid_bitmap b s1) _ eq_refl).
      cbn [main_thread s1 set_pid_bitmap set_pages]. rewrite (proj2 (Z.eqb_neq _ _) Hmain). reflexivity. }
    erewrite mbindM_Ok; cycle 1.
    { unfold thread_create. erewrite mbindM_Ok; cycle 1.
      { unfold upd_task. cbn. rewrite lookup_insert_eq. done. }
      erewrite mbindM_Ok; cycle 1.
      { unfold upd_task. cbn. rewrite lookup_insert_eq. done. }
      done. }
    erewrite mbindM_Ok; cycle 1.
    { unfold enqueue_new. erewrite mbindM_Ok by done. erewrite mbindM_Ok by (apply assertM_run, q_find_false, Hnr).
      erewrite mbindM_Ok by done. erewrite mbindM_Ok by done.
      erewrite mbindM_Ok by (apply assertM_run, q_find_false, Hna). done. }
    unfold mret, M_ret. do 2 f_equal. unfold s3, x2, x1. cbn. by rewrite !insert_insert_eq.
  - assert (forall t, st s3 t = if decide (t = a) then Some TASK_READY else st s t) as Hst.
    { intros t. rewrite (st_insert s s3 a x2) by done. done. }
    assert (forall t, fr s3 t = if decide (t = a) then [KStart] else fr s t) as Hfr3.
    { intros t. unfold fr. cbn. rewrite lookup_insert. repeat case_decide; congruence || done. }
    split; try done.
    + change (st s3 (cur s) = Some TASK_RUNNING). rewrite Hst. case_decide as E; [congruence|done].
    + intros t. change (st s3 t = Some TASK_RUNNING -> t = cur s). rewrite Hst. case_decide; [done|apply S2].
    + cbn [thread_ready_list idle_thread locks semas set_thread_all_list set_thread_ready_list s3 set_frames_of set_tasks set_pid_bitmap s1 set_pages].
      apply (core_quiet (st s) (fr s) (thread_ready_list s) _ _ _ _ _ _ a); try done.
      * intros t Ht. change (st s3 t = st s t /\ fr s3 t = fr s t). by rewrite Hst, Hfr3, !decide_False.
      * unfold a, NULL. lia.
      * intros l (old & E). rewrite Hfr in E. done.
      * intros l (old & E). change (fr s3 a = [KDown (sema_of l) old; KTook l]) in E. by rewrite Hfr3, decide_True in E.
      * intros l. change (taking l (fr s3 a) <-> taking l (fr s a)). rewrite Hfr3, decide_True, Hfr by done.
        split; intros Ht; [by apply taking_cases in Ht as [?|[?|(ef & [?|?])]]|by apply not_taking_nil in Ht].
      * change (shape (fr s3 a)). rewrite Hfr3, decide_True by done. apply sh_start.
      * exists TASK_READY. split; [change (st s3 a = Some TASK_READY); by rewrite Hst, decide_True|done].
      * intros t. change (t ∈ thread_ready_list s ++ [a] <-> st s3 t = Some TASK_READY).
        rewrite Hst, elem_of_app, list_elem_of_singleton, (co_ready _ _ _ _ _ _ S3).
        case_decide; [split; [done|by right]|split; [intros [?|?]; done|by left]].
      * apply NoDup_app. split; [apply S3|]. split; [|apply NoDup_singleton]. intros t Ht ->%list_elem_of_singleton. done.
    + intros t y. cbn. intros [[<- <-]|[_ Hy]]%lookup_insert_Some; [done|by eapply S4].
    + intros Hon. change (base (fr s3 (cur s))). rewrite Hfr3, decide_False; [by apply S5|]. intros E. congruence.
  - apply lookup_insert_eq.
  - done.
  - done.
  - unfold x2, x1, x0, sizeof_thread_stack, sizeof_intr_stack, PAGE_SIZE, a. cbn [self_kstack set_self_kstack].
    rewrite (wrapu_small 32 (p * 4096 + 4096)), (wrapu_small 32 (p * 4096 + 4096 - 76)), wrapu_small by lia. lia.
  - change (pid_bitmap s1) with (pid_bitmap s) in Hk. cbn. lia.
  - cbn. by replace (k + 1 - 1) with k by lia.
  - done.
  - done.
  - intros t Ht. cbn. by rewrite lookup_insert_ne.
Qed.

(** [pid2thread] returns the first thread of the list of all threads with
    this pid, and NULL when there is none. *)
Theorem pid2thread_finds_the_thread p s :
  all_tasks s ->
  pid2thread p s = Ok (default NULL (head (filter (fun t => pid_of s t = Some p) (thread_all_list s))), s).
Proof. apply pid2thread_finds. Qed.

(** The exit side of wait/exit: a process whose parent waits makes it
    READY before it hangs itself, and one whose parent does not wait leaves it
    as it is; either way the parent is not left in TASK_WAITING and finds the
    process hanging on its next look. *)
Theorem sys_exit_wakes_waiting_parent s x parent px :
  sinv s -> all_tasks s -> intr_get_status_of s = INTR_OFF -> fr s (cur s) = [] ->
  tasks s !! cur s = Some x ->
  head (filter (fun t => pid_of s t = Some (parent_pid x)) (thread_all_list s)) = Some parent ->
  tasks s !! parent = Some px -> parent <> cur s -> (forall l, ~ in_down l (fr s parent)) ->
  exists s', sys_exit_notify s = Ok (tt, s') /\ sinv s' /\
    st s' parent <> Some TASK_WAITING /\
    (st s' (cur s) = Some TASK_HANGING \/ cur s' = cur s) /\
    (status px = TASK_WAITING -> st s' parent = Some TASK_READY \/ parent = cur s').
Proof.
  intros Hs Hall Hoff Hf Hx Hhd Hpx Hne Hnd.
  assert (pid2thread (parent_pid x) s = Ok (parent, s)) as Hp.
  { pose proof pid2thread_finds as H. rewrite H by done. by rewrite Hhd. }
  assert (st s parent = Some (status px)) as Hsp by (unfold st; by rewrite Hpx).
  assert (exists s1, (if decide (status px = TASK_WAITING) then thread_unblock parent else mret tt) s = Ok (tt, s1) /\
     sinv s1 /\ cur s1 = cur s /\ fr s1 (cur s) = [] /\
     (forall u, st s1 u = if decide (u = parent /\ status px = TASK_WAITING) then Some TASK_READY else st s u))
    as (s1 & R1 & I1 & C1 & F1 & T1).
  { destruct (decide (status px = TASK_WAITING)) as [Ew|Nw].
    - destruct (thread_unblock_ok s parent px) as (s1 & R & I & E & T); try done; [by rewrite Ew|].
      exists s1. split; [done|]. split; [done|]. split; [apply E|]. split; [by rewrite (fr_ext s) by apply E|].
      intros u. rewrite T. destruct (decide (u = parent)), (decide (u = parent /\ status px = TASK_WAITING)); tauto || done.
    - exists s. do 4 (split; [done|]). intros u. rewrite decide_False by tauto. done. }
  destruct (thread_block_ok v2p s1 TASK_HANGING) as (s' & R & I & T & _); try done; [by rewrite C1|].
  assert (st s1 parent <> Some TASK_WAITING /\ (status px = TASK_WAITING -> st s1 parent = Some TASK_READY)) as [Hw1 Hw2].
  { rewrite T1. destruct (decide (parent = parent /\ status px = TASK_WAITING)) as [[_ E]|Nw]; [done|].
    rewrite Hsp. split; [intros [= E]; tauto|tauto]. }
  exists s'. split; [|split; [done|split; [|split]]].
  - unfold sys_exit_notify. rewrite (mbindM_Ok _ _ s (cur s) s) by done.
    rewrite (mbindM_Ok _ _ s x s) by (by apply get_task_run). mrun Hp.
    rewrite (mbindM_Ok _ _ s px s) by (by apply get_task_run). mrun R1. exact R.
  - rewrite T, C1. destruct (decide (parent = cur s')); [done|]. by rewrite decide_False.
  - rewrite T, C1. destruct (decide (cur s = cur s')) as [E|E]; [by right|]. rewrite decide_True by done. by left.
  - intros Ew. rewrite T, C1. destruct (decide (parent = cur s')) as [|E]; [by right|].
    rewrite decide_False by done. left. by apply Hw2.
Qed.
End Task.

(** ** Witnesses *)

Definition demo_kernel : @sched memst := demo_boot_at demo_heap.

Lemma demo_kernel_sinv : sinv demo_kernel.
Proof. apply booted_sinv, demo_booted_at. Qed.

Lemma demo_kernel_all : all_tasks demo_kernel.
Proof.
  intros t Ht. change (t ∈ [0x9000; 0xA000; 0xB000; 0xC000]) in Ht.
  rewrite !elem_of_cons in Ht. destruct Ht as [->|[->|[->|[->|Ht]]]]; try (by eexists). by apply elem_of_nil in Ht.
Qed.

Lemma demo_pid_map : bitmap_wf (mk_bitmap 1 [15]) /\ nbits (mk_bitmap 1 [15]) <= 1024 /\
  exists f, 0 <= f < nbits (mk_bitmap 1 [15]) /\ bit_used (mk_bitmap 1 [15]) f = false.
Proof.
  split; [|split; [unfold nbits; cbn; lia|exists 4; split; [unfold nbits; cbn; lia|reflexivity]]].
  split; cbn; try lia. repeat constructor; unfold is_byte; lia.
Qed.

Lemma pid_alloc_release_roundtrip_witness :
  exists p s' s'', allocate_pid demo_kernel = Ok (p, s') /\ 1 <= p <= 1024 /\ release_pid p s' = Ok (tt, s'').
Proof.
  destruct demo_pid_map as (H1 & H2 & H3).
  destruct (pid_alloc_release_roundtrip demo_kernel H1 H2 H3) as (p & s' & s'' & A & B & _ & _ & _ & C & _).
  exists p, s', s''. exact (conj A (conj B C)).
Defined.

Definition demo_page : memst := match malloc_page PF_KERNEL 1 demo_heap with Ok (_, s) => s | _ => demo_heap end.

Lemma thread_start_adds_a_ready_thread_witness :
  exists s', thread_start [119] 31 demo_kernel = Ok (0xC0200 * 4096, s') /\ sinv s' /\
    thread_ready_list s' = [0xB000; 0xC000; 0xA000] ++ [0xC0200 * 4096].
Proof.
  destruct demo_pid_map as (H1 & H2 & H3).
  destruct (thread_start_adds_a_ready_thread [119] 31 demo_kernel 0xC0200 demo_page demo_kernel_sinv)
    as (s' & x & A & B & _ & _ & _ & _ & _ & _ & _ & C & _);
    [vm_compute; reflexivity|lia|reflexivity|reflexivity|discriminate|exact demo_kernel_all|unfold TASK_NAME_LEN; cbn; lia|lia|exact H1|exact H2|exact H3|].
  exists s'. exact (conj A (conj B C)).
Defined.

Lemma pid2thread_finds_the_thread_witness :
  pid2thread 11 demo_kernel = Ok (0xB000, demo_kernel).
Proof. apply (pid2thread_finds_the_thread 11 demo_kernel demo_kernel_all). Defined.

(** Main waits for a child, the first worker runs and exits. *)
Definition demo_waiting : @sched unit :=
  match drive [ABlock TASK_WAITING; ARun] demo_boot with Some s => s | None => demo_boot end.

Lemma demo_waiting_sinv : sinv demo_waiting.
Proof.
  apply (reachable_sinv id demo_boot); [apply demo_booted|].
  apply (drive_rtc [ABlock TASK_WAITING; ARun]). vm_compute. reflexivity.
Qed.

Lemma sys_exit_wakes_waiting_parent_witness :
  exists s', sys_exit_notify id (set_flags 0 demo_waiting) = Ok (tt, s') /\ sinv s' /\
    st s' 0x9000 <> Some TASK_WAITING.
Proof.
  destruct (sys_exit_wakes_waiting_parent id (set_flags 0 demo_waiting)
    (match tasks demo_waiting !! 0xB000 with Some x => x | None => demo_task 0 0 end) 0x9000
    (match tasks demo_waiting !! 0x9000 with Some x => x | None => demo_task 0 0 end)) as (s' & A & B & C & _).
  - apply sinv_flags; [exact demo_waiting_sinv|]. left. vm_compute. reflexivity.
  - intros t Ht. change (t ∈ [0x9000; 0xA000; 0xB000; 0xC000]) in Ht.
    rewrite !elem_of_cons in Ht. destruct Ht as [->|[->|[->|[->|Ht]]]]; try (vm_compute; eexists; reflexivity).
    by apply elem_of_nil in Ht.
  - vm_compute. reflexivity.
  - vm_compute. reflexivity.
  - vm_compute. reflexivity.
  - vm_compute. reflexivity.
  - vm_compute. reflexivity.
  - vm_compute. discriminate.
  - intros l (old & E). vm_compute in E. discriminate.
  - exists s'. exact (conj A (conj B C)).
Defined.
