(* ===== verification/Ioqueue.v ===== *)
(** * The ring buffer between interrupt handlers and threads (device/ioqueue.c, shell/pipe.c)

    [struct ioqueue] is a ring of [bufsize] characters.  The refinement theorem
    relates it to the list of characters it holds, a FIFO of capacity
    [bufsize - 1].  A reader of an empty queue and a writer of a full one take
    the queue's lock, register as [consumer] or [producer] and sleep with the
    lock held; the other side wakes them.  A thread may lose the processor in
    [lock_acquire] and in [ioq_wait], so both calls are cut there. *)

From S2P Require Import Prelude Interrupt Paging Memory PageAlloc DList Sched Sync.

Definition bufsize : Z := 2048.

(** [struct ioqueue] without its lock. *)
Record ioqueue : Type := mk_ioq { producer : Z; consumer : Z; buf : list Z; head : Z; tail : Z }.

Definition ioqueue_init (q : ioqueue) : ioqueue := mk_ioq NULL NULL (buf q) 0 0.

Definition next_pos (pos : Z) : Z := (pos + 1) mod bufsize.

Definition ioq_full (q : ioqueue) : bool := next_pos (head q) =? tail q.
Definition ioq_empty (q : ioqueue) : bool := head q =? tail q.

Definition ioq_length (q : ioqueue) : Z :=
  if tail q <=? head q then u32 (head q - tail q) else u32 (bufsize - (tail q - head q)).

(** The part of [ioq_getchar] and [ioq_putchar] behind the waiting loop. *)
Definition ioq_take (q : ioqueue) : outcome (Z * ioqueue) :=
  byte ← aget (buf q) (tail q);
  Ok (byte, mk_ioq (producer q) (consumer q) (buf q) (head q) (next_pos (tail q))).

Definition ioq_store (q : ioqueue) (byte : Z) : outcome ioqueue :=
  b ← aset (buf q) (head q) byte;
  Ok (mk_ioq (producer q) (consumer q) b (next_pos (head q)) (tail q)).

Section Waiting.
Context {P : Type} `{PageAlloc P} (v2p : Z -> Z) (plock : Z).

(** A queue, without its lock, and the kernel, which holds the lock at [plock]. *)
Record ioqs : Type := mk_ioqs { ioq : ioqueue; ks : @sched P }.

Definition set_ioq (q : ioqueue) (s : ioqs) : ioqs := mk_ioqs q (ks s).
Definition on_ks {A} (c : M sched A) : M ioqs A := fun s =>
  match c (ks s) with
  | Ok (a, k) => Ok (a, mk_ioqs (ioq s) k)
  | Panic w => Panic w
  | Fault => Fault
  | NoFuel => NoFuel
  end.

Definition set_producer (t : Z) (q : ioqueue) : ioqueue := mk_ioq t (consumer q) (buf q) (head q) (tail q).
Definition set_consumer (t : Z) (q : ioqueue) : ioqueue := mk_ioq (producer q) t (buf q) (head q) (tail q).

Definition assert_intr_off : M ioqs () :=
  s ← getS;
  assertM (bool_decide (intr_get_status_of (ks s) = INTR_OFF)) "ioqueue: intr_get_status() == INTR_OFF".

(** [ioq_wait(&ioq->consumer)] and [ioq_wait(&ioq->producer)]. *)
Definition ioq_wait_consumer : M ioqs () :=
  s ← getS;
  _ ← assertM (consumer (ioq s) =? NULL) "ioq_wait: *waiter == NULL";
  _ ← modS (set_ioq (set_consumer (cur (ks s)) (ioq s)));
  on_ks (thread_block v2p TASK_BLOCKED).
Definition ioq_wait_producer : M ioqs () :=
  s ← getS;
  _ ← assertM (producer (ioq s) =? NULL) "ioq_wait: *waiter == NULL";
  _ ← modS (set_ioq (set_producer (cur (ks s)) (ioq s)));
  on_ks (thread_block v2p TASK_BLOCKED).

Definition wakeup_producer : M ioqs () :=
  s ← getS;
  _ ← assertM (negb (producer (ioq s) =? NULL)) "wakeup: *waiter != NULL";
  _ ← on_ks (thread_unblock (producer (ioq s)));
  modS (fun s => set_ioq (set_producer NULL (ioq s)) s).
Definition wakeup_consumer : M ioqs () :=
  s ← getS;
  _ ← assertM (negb (consumer (ioq s) =? NULL)) "wakeup: *waiter != NULL";
  _ ← on_ks (thread_unblock (consumer (ioq s)));
  modS (fun s => set_ioq (set_consumer NULL (ioq s)) s).

(** Where a thread stands in [ioq_getchar] or [ioq_putchar]: before the test of
    the loop, behind [lock_acquire], behind [ioq_wait], or returned. *)
Inductive ioq_pc (A : Type) : Type := AtTest | AtWait | AtRelease | Returned (a : A).
#[global] Arguments AtTest {A}.
#[global] Arguments AtWait {A}.
#[global] Arguments AtRelease {A}.
#[global] Arguments Returned {A} a.

(** [ioq_getchar] from one point to the next; between them the thread may
    lose the processor. *)
Definition ioq_getchar (pc : ioq_pc Z) : M ioqs (ioq_pc Z) :=
  match pc with
  | AtTest =>
      _ ← assert_intr_off;
      s ← getS;
      if ioq_empty (ioq s) then _ ← on_ks (lock_acquire v2p plock); mret AtWait
      else
        bq ← liftO (ioq_take (ioq s));
        let '(byte, q) := bq in
        _ ← modS (set_ioq q);
        _ ← (if negb (producer q =? NULL) then wakeup_producer else mret tt);
        mret (Returned byte)
  | AtWait => _ ← ioq_wait_consumer; mret AtRelease
  | AtRelease => _ ← on_ks (lock_release plock); mret AtTest
  | Returned byte => mret (Returned byte)
  end.

Definition ioq_putchar (byte : Z) (pc : ioq_pc ()) : M ioqs (ioq_pc ()) :=
  match pc with
  | AtTest =>
      _ ← assert_intr_off;
      s ← getS;
      if ioq_full (ioq s) then _ ← on_ks (lock_acquire v2p plock); mret AtWait
      else
        q ← liftO (ioq_store (ioq s) byte);
        _ ← modS (set_ioq q);
        _ ← (if negb (consumer q =? NULL) then wakeup_consumer else mret tt);
        mret (Returned tt)
  | AtWait => _ ← ioq_wait_producer; mret AtRelease
  | AtRelease => _ ← on_ks (lock_release plock); mret AtTest
  | Returned _ => mret (Returned tt)
  end.

(** The loops of [pipe_read] and [pipe_write] on the pipe's queue, up to the
    first call that does not return at once: the bytes moved so far and where
    the thread stands. *)
Fixpoint read_loop (n : nat) (acc : list Z) : M ioqs (list Z * ioq_pc ()) :=
  match n with
  | O => mret (acc, Returned tt)
  | S n' => pc ← ioq_getchar AtTest;
            match pc with
            | Returned b => read_loop n' (acc ++ [b])
            | _ => mret (acc, AtWait)
            end
  end.
Fixpoint write_loop (buffer : list Z) (bytes_write : Z) : M ioqs (Z * ioq_pc ()) :=
  match buffer with
  | [] => mret (bytes_write, Returned tt)
  | b :: buffer' => pc ← ioq_putchar b AtTest;
                    match pc with
                    | Returned _ => write_loop buffer' (bytes_write + 1)
                    | _ => mret (bytes_write, AtWait)
                    end
  end.

Definition pipe_read (count : Z) : M ioqs (list Z * ioq_pc ()) :=
  s ← getS;
  let ioq_len := ioq_length (ioq s) in
  let size := if count <? ioq_len then count else ioq_len in
  read_loop (Z.to_nat size) [].

Definition pipe_write (buffer : list Z) : M ioqs (Z * ioq_pc ()) :=
  s ← getS;
  let count := Z.of_nat (length buffer) in
  let ioq_left := u32 (bufsize - ioq_length (ioq s)) in
  let size := if count <? ioq_left then count else ioq_left in
  write_loop (take (Z.to_nat size) buffer) 0.

End Waiting.
Arguments ioqs : clear implicits.
Arguments mk_ioqs {P}.

(** ** The abstract queue *)

(** The positions that hold data, from [tail] on. *)
Definition filled (q : ioqueue) : Z := (head q - tail q) mod bufsize.
Definition contents (q : ioqueue) : list Z :=
  (fun i => default 0 (buf q !! Z.to_nat ((tail q + i) mod bufsize))) <$> seqZ 0 (filled q).

Record ioq_wf (q : ioqueue) : Prop := {
  iw_buf : Z.of_nat (length (buf q)) = bufsize;
  iw_head : 0 <= head q < bufsize;
  iw_tail : 0 <= tail q < bufsize
}.

Lemma next_pos_cases p : 0 <= p < bufsize -> next_pos p = if p =? bufsize - 1 then 0 else p + 1.
Proof.
  unfold next_pos, bufsize. intros Hp. destruct (Z.eqb_spec p (2048 - 1)) as [->|]; [done|].
  apply Z.mod_small. lia.
Qed.

Lemma next_pos_range p : 0 <= p < bufsize -> 0 <= next_pos p < bufsize.
Proof. intros Hp. rewrite next_pos_cases by done. unfold bufsize in *. destruct (Z.eqb_spec p (2048 - 1)); lia. Qed.

Lemma filled_cases q : ioq_wf q ->
  filled q = if tail q <=? head q then head q - tail q else bufsize - (tail q - head q).
Proof.
  intros [_ Hh Ht]. unfold filled, bufsize in *. destruct (Z.leb_spec (tail q) (head q)).
  - apply Z.mod_small. lia.
  - rewrite <- (Z.mod_add _ 1) by lia. rewrite Z.mod_small by lia. lia.
Qed.

Lemma filled_range q : ioq_wf q -> 0 <= filled q < bufsize.
Proof. intros _. apply Z.mod_pos_bound. done. Qed.

Lemma ioq_length_contents q : ioq_wf q -> ioq_length q = Z.of_nat (length (contents q)).
Proof.
  intros Hq. unfold contents. rewrite length_fmap, length_seqZ, Z2Nat.id by (by apply filled_range).
  pose proof (filled_range q Hq). rewrite (filled_cases q Hq) in *. unfold ioq_length, bufsize in *.
  destruct (Z.leb_spec (tail q) (head q)); rewrite wrapu_small; lia.
Qed.

Lemma ioq_empty_contents q : ioq_wf q -> ioq_empty q = true <-> contents q = [].
Proof.
  intros Hq. pose proof (filled_range q Hq). pose proof Hq as [_ Hh Ht]. unfold ioq_empty.
  assert (contents q = [] <-> filled q = 0) as ->.
  { unfold contents. split; [|by intros ->]. intros E. apply (f_equal length) in E.
    rewrite length_fmap, length_seqZ in E. cbn in E. lia. }
  rewrite Z.eqb_eq. pose proof (filled_cases q Hq) as E. unfold bufsize in *.
  destruct (Z.leb_spec (tail q) (head q)); lia.
Qed.

Lemma ioq_full_contents q : ioq_wf q -> ioq_full q = true <-> Z.of_nat (length (contents q)) = bufsize - 1.
Proof.
  intros Hq. pose proof (filled_range q Hq). pose proof Hq as [_ Hh Ht]. unfold ioq_full, contents.
  rewrite length_fmap, length_seqZ, Z2Nat.id by lia. rewrite Z.eqb_eq, next_pos_cases by done.
  pose proof (filled_cases q Hq) as E. unfold bufsize in *.
  destruct (Z.leb_spec (tail q) (head q)), (Z.eqb_spec (head q) (2048 - 1)); lia.
Qed.

(** Taking from a non-empty ring removes the oldest character. *)
Lemma ioq_take_run q : ioq_wf q -> ioq_empty q = false ->
  exists b q', ioq_take q = Ok (b, q') /\ ioq_wf q' /\ contents q = b :: contents q' /\
    producer q' = producer q /\ consumer q' = consumer q.
Proof.
  intros Hq He. pose proof Hq as [Hb Hh Ht]. unfold ioq_take.
  destruct (aget_in_range (buf q) (tail q)) as (b & Ha & Hl); [lia|]. rewrite Ha, bind_Ok.
  eexists b, _. split; [done|]. pose proof (next_pos_range _ Ht).
  set (q' := mk_ioq (producer q) (consumer q) (buf q) (head q) (next_pos (tail q))).
  assert (ioq_wf q') as Hq' by (by split). split; [done|]. split; [|done].
  assert (0 < filled q) as Hf.
  { pose proof (filled_range q Hq). destruct (Z.eq_dec (filled q) 0) as [E|]; [|lia].
    assert (ioq_empty q = true); [|congruence]. apply ioq_empty_contents; [done|]. unfold contents. by rewrite E. }
  assert (filled q' = filled q - 1) as Ef.
  { rewrite (filled_cases q Hq) in *. rewrite (filled_cases q' Hq'). cbn [head tail q']. rewrite next_pos_cases by done.
    unfold bufsize in *. destruct (Z.eqb_spec (tail q) (2048 - 1)), (Z.leb_spec (tail q) (head q)); zcase; lia. }
  unfold contents. rewrite Ef, (seqZ_cons 0 (filled q)) by lia. cbn [fmap list_fmap]. f_equal.
  - rewrite Z.add_0_r, Z.mod_small by done. by rewrite Hl.
  - change (Z.succ 0) with (1 + 0). replace (Z.pred (filled q)) with (filled q - 1) by lia.
    rewrite <- (fmap_add_seqZ 1 0 (filled q - 1)). rewrite <- list_fmap_compose. apply list_fmap_ext.
    intros i x Hx. cbn [buf tail q' compose]. do 3 f_equal. unfold next_pos.
    rewrite Zplus_mod_idemp_l. f_equal. lia.
Qed.

(** Storing into a ring that is not full appends. *)
Lemma ioq_store_run q b : ioq_wf q -> ioq_full q = false ->
  exists q', ioq_store q b = Ok q' /\ ioq_wf q' /\ contents q' = contents q ++ [b] /\
    producer q' = producer q /\ consumer q' = consumer q.
Proof.
  intros Hq Hfu. pose proof Hq as [Hb Hh Ht]. unfold ioq_store. rewrite aset_Ok by lia. rewrite bind_Ok.
  eexists. split; [done|]. pose proof (next_pos_range _ Hh).
  set (q' := mk_ioq (producer q) (consumer q) (<[Z.to_nat (head q) := b]> (buf q)) (next_pos (head q)) (tail q)).
  assert (ioq_wf q') as Hq' by (split; cbn; rewrite ?length_insert; done). split; [done|]. split; [|done].
  pose proof (filled_range q Hq) as Hfr.
  assert (filled q <> bufsize - 1) as Hnf.
  { intros E. assert (ioq_full q = true); [|congruence]. apply ioq_full_contents; [done|].
    unfold contents. rewrite length_fmap, length_seqZ. lia. }
  assert (filled q' = filled q + 1) as Ef.
  { rewrite (filled_cases q Hq) in *. rewrite (filled_cases q' Hq'). cbn [head tail q']. rewrite next_pos_cases by done.
    unfold bufsize in *. destruct (Z.eqb_spec (head q) (2048 - 1)), (Z.leb_spec (tail q) (head q)); zcase; lia. }
  assert ((tail q + filled q) mod bufsize = head q) as Ehd.
  { unfold filled. rewrite Zplus_mod_idemp_r. replace (tail q + (head q - tail q)) with (head q) by lia.
    by apply Z.mod_small. }
  unfold contents. rewrite Ef, seqZ_app, fmap_app by lia. f_equal.
  - apply list_fmap_ext. intros i x Hx. apply lookup_seqZ in Hx as [-> Hi]. cbn [buf tail q'].
    rewrite list_lookup_insert_ne; [done|]. intros E. apply Z2Nat.inj in E; [|lia|apply Z.mod_pos_bound; done].
    pose proof (filled_cases q Hq) as E2. unfold bufsize in *.
    assert (0 + Z.of_nat i < filled q) as Hlt by lia.
    destruct (Z.ltb_spec (tail q + (0 + Z.of_nat i)) 2048) as [Hs|Hs].
    + rewrite Z.mod_small in E by lia. destruct (Z.leb_spec (tail q) (head q)); lia.
    + rewrite <- (Z.mod_add _ (-1)) in E by lia. rewrite Z.mod_small in E by lia.
      destruct (Z.leb_spec (tail q) (head q)); lia.
  - rewrite (seqZ_cons (0 + filled q) 1) by lia. cbn [fmap list_fmap]. f_equal. cbn [buf tail q'].
    rewrite Z.add_0_l, Ehd, list_lookup_insert_eq by lia. done.
Qed.

(** ** The queue and its sleepers *)

Section System.
Context {P : Type} `{PA : PageAlloc P} (v2p : Z -> Z) (plock : Z).
#[local] Abbreviation ioqs := (ioqs P).
Implicit Types s : ioqs.

(** [t] sleeps, and not for a lock. *)
Definition sleeping (k : @sched P) (t : Z) : Prop :=
  t <> idle_thread k /\ (exists x, tasks k !! t = Some x /\ blocked_status (status x) = true) /\
  (forall l, ~ in_down l (fr k t)).

(** A registered thread sleeps and holds the queue's lock, so only one is
    registered, and the registration is cleared by the wake-up. *)
Record ioqs_ok s : Prop := {
  io_wf : ioq_wf (ioq s);
  io_sinv : sinv (ks s);
  io_reg : forall t, t = consumer (ioq s) \/ t = producer (ioq s) -> t <> NULL ->
    sleeping (ks s) t /\ exists n, locks (ks s) !! plock = Some (mk_lock t n);
  io_one : consumer (ioq s) = NULL \/ producer (ioq s) = NULL
}.

Definition intr_off s : Prop := intr_get_status_of (ks s) = INTR_OFF.

Lemma assert_intr_off_run s : intr_off s -> assert_intr_off s = Ok (tt, s).
Proof.
  intros Ho. unfold assert_intr_off. rewrite (mbindM_Ok _ _ s s s eq_refl). apply assertM_run.
  by apply bool_decide_eq_true_2.
Qed.

Lemma on_ks_run {A} (c : M (@sched P) A) s a k : c (ks s) = Ok (a, k) -> on_ks c s = Ok (a, mk_ioqs (ioq s) k).
Proof. unfold on_ks. by intros ->. Qed.

(** Waking a sleeper. *)
Lemma wake_run k t : sinv k -> intr_get_status_of k = INTR_OFF -> sleeping k t ->
  exists k', thread_unblock t k = Ok (tt, k') /\ sinv k' /\ intr_get_status_of k' = INTR_OFF /\
    cur k' = cur k /\ locks k' = locks k /\ idle_thread k' = idle_thread k /\ (forall u, fr k' u = fr k u) /\
    (forall u, st k' u = if decide (u = t) then Some TASK_READY else st k u).
Proof.
  intros Hs Ho (_ & (x & Hx & Hb) & Hd).
  destruct (thread_unblock_ok k t x Hs Ho Hx Hb Hd) as (k' & R & I & E & T).
  exists k'. split; [done|]. split; [done|]. split; [rewrite (status_flags k k'); [done|apply E]|].
  split; [apply E|]. split; [apply E|]. split; [apply E|]. split; [apply fr_ext, E|done].
Qed.

Lemma getchar_run s : ioqs_ok s -> intr_off s -> ioq_empty (ioq s) = false ->
  exists b s', ioq_getchar v2p plock AtTest s = Ok (Returned b, s') /\ contents (ioq s) = b :: contents (ioq s') /\
    ioqs_ok s' /\ intr_off s' /\
    (producer (ioq s) <> NULL -> st (ks s') (producer (ioq s)) = Some TASK_READY).
Proof.
  intros [H1 H2 H3 H4] Ho He. destruct (ioq_take_run (ioq s) H1 He) as (b & q' & T1 & T2 & T3 & T4 & T5).
  unfold ioq_getchar. rewrite (mbindM_Ok _ _ _ _ _ (assert_intr_off_run s Ho)).
  rewrite (mbindM_Ok _ _ s s s eq_refl). rewrite He.
  rewrite (mbindM_Ok _ _ s (b, q') s) by (unfold liftO; by rewrite T1). cbn beta iota.
  rewrite (mbindM_Ok _ _ s tt (set_ioq q' s)) by done. rewrite T4.
  destruct (Z.eqb_spec (producer (ioq s)) NULL) as [Ep|Ep]; cbn [negb].
  - exists b, (set_ioq q' s). split; [done|]. split; [done|]. split; [|by split].
    split; cbn [ioq set_ioq ks]; try done; rewrite T4, T5; done.
  - destruct (H3 _ (or_intror eq_refl) Ep) as [Hsl _].
    destruct (wake_run (ks s) _ H2 Ho Hsl) as (k' & U & I & O & C & D & Di & Df & T).
    exists b, (mk_ioqs (set_producer NULL q') k'). split; [|split; [done|split; [|split; [done|]]]].
    + erewrite mbindM_Ok; cycle 1.
      { unfold wakeup_producer. rewrite (mbindM_Ok _ _ (set_ioq q' s) (set_ioq q' s) _ eq_refl). cbn [ioq set_ioq].
        erewrite mbindM_Ok by (apply assertM_run; rewrite T4; by destruct (Z.eqb_spec (producer (ioq s)) NULL)).
        erewrite mbindM_Ok by (apply on_ks_run; cbn; rewrite T4; exact U). reflexivity. }
      done.
    + assert (consumer (ioq s) = NULL) as Hc by (by destruct H4).
      split; cbn [ioq ks producer consumer set_producer]; rewrite ?T5, ?Hc.
      * by destruct T2 as [W1 W2 W3].
      * done.
      * by intros t [->| ->].
      * by left.
    + intros _. cbn [ks]. by rewrite T, decide_True.
Qed.

Lemma putchar_run s b : ioqs_ok s -> intr_off s -> ioq_full (ioq s) = false ->
  exists s', ioq_putchar v2p plock b AtTest s = Ok (Returned tt, s') /\ contents (ioq s') = contents (ioq s) ++ [b] /\
    ioqs_ok s' /\ intr_off s' /\
    (consumer (ioq s) <> NULL -> st (ks s') (consumer (ioq s)) = Some TASK_READY) /\
    cur (ks s') = cur (ks s) /\ locks (ks s') = locks (ks s) /\
    idle_thread (ks s') = idle_thread (ks s) /\ (forall u, fr (ks s') u = fr (ks s) u).
Proof.
  intros [H1 H2 H3 H4] Ho He. destruct (ioq_store_run (ioq s) b H1 He) as (q' & T1 & T2 & T3 & T4 & T5).
  unfold ioq_putchar. rewrite (mbindM_Ok _ _ _ _ _ (assert_intr_off_run s Ho)).
  rewrite (mbindM_Ok _ _ s s s eq_refl). rewrite He.
  rewrite (mbindM_Ok _ _ s q' s) by (unfold liftO; by rewrite T1).
  rewrite (mbindM_Ok _ _ s tt (set_ioq q' s)) by done. rewrite T5.
  destruct (Z.eqb_spec (consumer (ioq s)) NULL) as [Ep|Ep]; cbn [negb].
  - exists (set_ioq q' s). split; [done|]. split; [done|]. split; [|by split].
    split; cbn [ioq set_ioq ks]; try done; rewrite T4, T5; done.
  - destruct (H3 _ (or_introl eq_refl) Ep) as [Hsl _].
    destruct (wake_run (ks s) _ H2 Ho Hsl) as (k' & U & I & O & C & D & Di & Df & T).
    exists (mk_ioqs (set_consumer NULL q') k'). split; [|split; [done|split; [|split; [done|split; [|done]]]]].
    + erewrite mbindM_Ok; cycle 1.
      { unfold wakeup_consumer. rewrite (mbindM_Ok _ _ (set_ioq q' s) (set_ioq q' s) _ eq_refl). cbn [ioq set_ioq].
        erewrite mbindM_Ok by (apply assertM_run; rewrite T5; by destruct (Z.eqb_spec (consumer (ioq s)) NULL)).
        erewrite mbindM_Ok by (apply on_ks_run; cbn; rewrite T5; exact U). reflexivity. }
      done.
    + assert (producer (ioq s) = NULL) as Hc by (by destruct H4).
      split; cbn [ioq ks producer consumer set_consumer]; rewrite ?T4, ?Hc.
      * by destruct T2 as [W1 W2 W3].
      * done.
      * by intros t [->| ->].
      * by left.
    + intros _. cbn [ks]. by rewrite T, decide_True.
Qed.

(** The lock of the queue is free and nobody has taken its semaphore. *)
Definition lock_free (k : @sched P) : Prop :=
  locks k !! plock = Some (mk_lock NULL 0) /\ exists ws, semas k !! sema_of plock = Some (mk_sema 1 ws).

(** The running thread may call: it is not inside another operation. *)
Definition may_call (k : @sched P) : Prop := fr k (cur k) = [] /\ cur k <> idle_thread k.

(** Taking the free lock and going to sleep with it. *)
Lemma sleep_run k : sinv k -> may_call k -> intr_get_status_of k = INTR_OFF -> lock_free k ->
  exists k1 k2 k3, lock_acquire v2p plock k = Ok (tt, k1) /\ resume v2p k1 = Ok (tt, k2) /\
    thread_block v2p TASK_BLOCKED k2 = Ok (tt, k3) /\ cur k2 = cur k /\ sinv k3 /\ sleeping k3 (cur k) /\
    locks k3 !! plock = Some (mk_lock (cur k) 1) /\ cur k3 <> cur k.
Proof.
  intros Hs [Hf Hi] Ho [Hl (ws & Hm)].
  destruct (lock_acquire_free v2p k plock ws Hs Hf Hi Ho Hl Hm) as
    (k1 & k2 & R1 & R2 & I1 & I2 & C2 & D2 & L2 & T2 & F2 & O2).
  destruct (thread_block_ok v2p k2 TASK_BLOCKED I2) as (k3 & R & I & T & F & D & N & O & L); [by rewrite F2, C2|done|].
  assert (cur k3 <> cur k2) as Hne.
  { intros E. destruct N as [N|N]; [|congruence]. rewrite E in N.
    by destruct (sinv_cur_task k2 I2) as (x & _ & _ & _ & Hnr). }
  exists k1, k2, k3. do 5 (split; [done|]). split; [|split; [|congruence]].
  - split; [congruence|]. split.
    + assert (st k3 (cur k) = Some TASK_BLOCKED) as E by (rewrite T, decide_False, decide_True by congruence; done).
      destruct (st_Some _ _ _ E) as (x & Hx & Ex). exists x. split; [done|]. by rewrite Ex.
    + intros l (old & E). rewrite F, decide_True, F2, Hf in E by congruence. done.
  - rewrite L, L2. apply lookup_insert_eq.
Qed.

(** The registration of a sleeper keeps [ioqs_ok]. *)
Lemma register_ok q k c p t : ioq_wf q -> sinv k -> sleeping k t -> locks k !! plock = Some (mk_lock t 1) ->
  (c = t /\ p = NULL) \/ (c = NULL /\ p = t) ->
  ioqs_ok (mk_ioqs (mk_ioq p c (buf q) (head q) (tail q)) k).
Proof.
  intros [W1 W2 W3] Hs Hsl Hl Hcp. split; cbn [ioq ks consumer producer]; [by split|done| |tauto].
  intros u Hu Hne. assert (u = t) as -> by (destruct Hcp as [[-> ->]|[-> ->]], Hu; congruence). eauto.
Qed.

(** Nobody is registered while the lock is free. *)
Lemma free_unregistered s : ioqs_ok s -> lock_free (ks s) -> consumer (ioq s) = NULL /\ producer (ioq s) = NULL.
Proof.
  intros Hok [Hl _]. split.
  - destruct (decide (consumer (ioq s) = NULL)) as [|Hne]; [done|].
    destruct (io_reg s Hok _ (or_introl eq_refl) Hne) as (_ & n & E). congruence.
  - destruct (decide (producer (ioq s) = NULL)) as [|Hne]; [done|].
    destruct (io_reg s Hok _ (or_intror eq_refl) Hne) as (_ & n & E). congruence.
Qed.

(** ** Theorems *)

(** C34. [ioq_getchar] implements the read end of a FIFO: on a non-empty queue
    it returns the oldest character, removes it, and wakes a sleeping writer.
    On an empty queue whose lock is free the reader takes the lock, is
    registered as the consumer and sleeps, holding the lock.  No [ASSERT]
    fails, and registered threads stay asleep with the lock. *)
Theorem ioq_getchar_refines s :
  ioqs_ok s -> intr_off s ->
  (forall b l, contents (ioq s) = b :: l ->
     exists s', ioq_getchar v2p plock AtTest s = Ok (Returned b, s') /\ contents (ioq s') = l /\
       ioqs_ok s' /\ intr_off s' /\
       (producer (ioq s) <> NULL -> st (ks s') (producer (ioq s)) = Some TASK_READY)) /\
  (contents (ioq s) = [] -> may_call (ks s) -> lock_free (ks s) ->
     exists s1 s2 s3, ioq_getchar v2p plock AtTest s = Ok (AtWait, s1) /\ on_ks (resume v2p) s1 = Ok (tt, s2) /\
       ioq_getchar v2p plock AtWait s2 = Ok (AtRelease, s3) /\ consumer (ioq s3) = cur (ks s) /\
       contents (ioq s3) = [] /\ sleeping (ks s3) (cur (ks s)) /\ cur (ks s3) <> cur (ks s) /\ ioqs_ok s3).
Proof.
  intros Hok Ho. split.
  - intros b l Hc. destruct (getchar_run s Hok Ho) as (b' & s' & R & E & I & O & T).
    { destruct (ioq_empty (ioq s)) eqn:Ee; [|done]. apply ioq_empty_contents in Ee; [congruence|apply Hok]. }
    rewrite Hc in E. injection E as <- ->. by exists s'.
  - intros Hc Hm Hl. pose proof Hok as [H1 H2 H3 H4].
    destruct (sleep_run (ks s) H2 Hm Ho Hl) as (k1 & k2 & k3 & R1 & R2 & R3 & C2 & I3 & Sl & L3 & Ne).
    destruct (free_unregistered s Hok Hl) as [Ec Ep].
    assert (ioq_empty (ioq s) = true) as He by (by apply ioq_empty_contents).
    exists (mk_ioqs (ioq s) k1), (mk_ioqs (ioq s) k2), (mk_ioqs (set_consumer (cur k2) (ioq s)) k3).
    split; [|split; [exact (on_ks_run _ (mk_ioqs (ioq s) k1) _ _ R2)|split; [|cbn [ioq ks set_consumer consumer]; rewrite C2; do 4 (split; [done|])]]].
    + unfold ioq_getchar. rewrite (mbindM_Ok _ _ _ _ _ (assert_intr_off_run s Ho)).
      rewrite (mbindM_Ok _ _ s s s eq_refl). rewrite He. by rewrite (mbindM_Ok _ _ _ _ _ (on_ks_run _ _ _ _ R1)).
    + unfold ioq_getchar, ioq_wait_consumer. erewrite mbindM_Ok; cycle 1.
      { rewrite (mbindM_Ok _ _ (mk_ioqs (ioq s) k2) _ _ eq_refl). erewrite mbindM_Ok by (apply assertM_run; cbn; by rewrite Ec).
        rewrite (mbindM_Ok _ _ _ tt (mk_ioqs (set_consumer (cur k2) (ioq s)) k2)) by done. apply on_ks_run. exact R3. }
      done.
    + apply (register_ok (ioq s) k3 _ _ (cur (ks s))); try done. by left.
Qed.

(** C35. [ioq_putchar] implements the write end of a FIFO of capacity 2047: on
    a queue that is not full it appends the character and wakes a sleeping
    reader; on a full one whose lock is free the writer takes the lock, is
    registered as the producer and sleeps. *)
Theorem ioq_putchar_refines s b :
  ioqs_ok s -> intr_off s ->
  (Z.of_nat (length (contents (ioq s))) < bufsize - 1 ->
     exists s', ioq_putchar v2p plock b AtTest s = Ok (Returned tt, s') /\
       contents (ioq s') = contents (ioq s) ++ [b] /\ ioqs_ok s' /\ intr_off s' /\
       (consumer (ioq s) <> NULL -> st (ks s') (consumer (ioq s)) = Some TASK_READY)) /\
  (Z.of_nat (length (contents (ioq s))) = bufsize - 1 -> may_call (ks s) -> lock_free (ks s) ->
     exists s1 s2 s3, ioq_putchar v2p plock b AtTest s = Ok (AtWait, s1) /\ on_ks (resume v2p) s1 = Ok (tt, s2) /\
       ioq_putchar v2p plock b AtWait s2 = Ok (AtRelease, s3) /\ producer (ioq s3) = cur (ks s) /\
       contents (ioq s3) = contents (ioq s) /\ sleeping (ks s3) (cur (ks s)) /\ cur (ks s3) <> cur (ks s) /\ ioqs_ok s3).
Proof.
  intros Hok Ho. split.
  - intros Hlt. destruct (putchar_run s b Hok Ho) as (s' & R & E & I & O & T & _).
    { destruct (ioq_full (ioq s)) eqn:Ee; [|done]. apply ioq_full_contents in Ee; [lia|apply Hok]. }
    by exists s'.
  - intros Hc Hm Hl. pose proof Hok as [H1 H2 H3 H4].
    destruct (sleep_run (ks s) H2 Hm Ho Hl) as (k1 & k2 & k3 & R1 & R2 & R3 & C2 & I3 & Sl & L3 & Ne).
    destruct (free_unregistered s Hok Hl) as [Ec Ep].
    assert (ioq_full (ioq s) = true) as He by (by apply ioq_full_contents).
    exists (mk_ioqs (ioq s) k1), (mk_ioqs (ioq s) k2), (mk_ioqs (set_producer (cur k2) (ioq s)) k3).
    split; [|split; [exact (on_ks_run _ (mk_ioqs (ioq s) k1) _ _ R2)|split; [|cbn [ioq ks set_producer producer]; rewrite C2; do 4 (split; [done|])]]].
    + unfold ioq_putchar. rewrite (mbindM_Ok _ _ _ _ _ (assert_intr_off_run s Ho)).
      rewrite (mbindM_Ok _ _ s s s eq_refl). rewrite He. by rewrite (mbindM_Ok _ _ _ _ _ (on_ks_run _ _ _ _ R1)).
    + unfold ioq_putchar, ioq_wait_producer. erewrite mbindM_Ok; cycle 1.
      { rewrite (mbindM_Ok _ _ (mk_ioqs (ioq s) k2) _ _ eq_refl). erewrite mbindM_Ok by (apply assertM_run; cbn; by rewrite Ep).
        rewrite (mbindM_Ok _ _ _ tt (mk_ioqs (set_producer (cur k2) (ioq s)) k2)) by done. apply on_ks_run. exact R3. }
      done.
    + apply (register_ok (ioq s) k3 _ _ (cur (ks s))); try done. by right.
Qed.

(** The loops of the pipe calls. *)
Lemma read_loop_run n : forall s acc, ioqs_ok s -> intr_off s -> (n <= length (contents (ioq s)))%nat ->
  exists s', read_loop v2p plock n acc s = Ok ((acc ++ take n (contents (ioq s)), Returned tt), s') /\
    ioqs_ok s' /\ intr_off s' /\ contents (ioq s') = drop n (contents (ioq s)).
Proof.
  induction n as [|n IH]; intros s acc Hok Ho Hn; cbn [read_loop].
  { exists s. rewrite take_0, app_nil_r, drop_0. done. }
  destruct (getchar_run s Hok Ho) as (b & s1 & R & E & I & O & _).
  { destruct (ioq_empty (ioq s)) eqn:Ee; [|done]. apply ioq_empty_contents in Ee; [|apply Hok]. rewrite Ee in Hn. cbn in Hn. lia. }
  destruct (IH s1 (acc ++ [b]) I O) as (s' & R' & I' & O' & E'); [rewrite E in Hn; cbn in Hn; lia|].
  exists s'. rewrite (mbindM_Ok _ _ _ _ _ R). split; [|split; [done|split; [done|]]].
  - rewrite R', E. cbn [take]. by rewrite <- app_assoc.
  - by rewrite E', E.
Qed.

Lemma write_loop_run l r : forall s k, ioqs_ok s -> intr_off s ->
  Z.of_nat (length (contents (ioq s))) + Z.of_nat (length l) <= bufsize - 1 ->
  exists s', write_loop v2p plock (l ++ r) k s = write_loop v2p plock r (k + Z.of_nat (length l)) s' /\
    ioqs_ok s' /\ intr_off s' /\ contents (ioq s') = contents (ioq s) ++ l /\
    cur (ks s') = cur (ks s) /\ locks (ks s') = locks (ks s) /\
    idle_thread (ks s') = idle_thread (ks s) /\ (forall u, fr (ks s') u = fr (ks s) u).
Proof.
  induction l as [|b l IH]; intros s k Hok Ho Hn; cbn [write_loop length app].
  { exists s. rewrite app_nil_r, Z.add_0_r. done. }
  destruct (putchar_run s b Hok Ho) as (s1 & R & E & I & O & _ & C & L & D & F).
  { destruct (ioq_full (ioq s)) eqn:Ee; [|done]. apply ioq_full_contents in Ee; [|apply Hok]. cbn in Hn. lia. }
  destruct (IH s1 (k + 1) I O) as (s' & R' & I' & O' & E' & C' & L' & D' & F').
  { rewrite E, length_app. cbn in *. lia. }
  exists s'. rewrite (mbindM_Ok _ _ _ _ _ R). split; [rewrite R'; f_equal; lia|]. split; [done|]. split; [done|].
  split; [by rewrite E', E, <- app_assoc|]. split; [congruence|]. split; [congruence|]. split; [congruence|]. intros u. by rewrite F', F.
Qed.

(** C36. Pipe round trip: bytes written to a pipe that has room for them come
    out of [pipe_read] in order, behind what was in the pipe before, and
    neither call sleeps. *)
Theorem pipe_roundtrip s l count :
  ioqs_ok s -> intr_off s -> 0 <= count ->
  Z.of_nat (length (contents (ioq s))) + Z.of_nat (length l) <= bufsize - 1 ->
  exists s' s'', pipe_write v2p plock l s = Ok ((Z.of_nat (length l), Returned tt), s') /\
    pipe_read v2p plock count s' = Ok ((take (Z.to_nat count) (contents (ioq s) ++ l), Returned tt), s'') /\
    contents (ioq s'') = drop (Z.to_nat count) (contents (ioq s) ++ l) /\ ioqs_ok s''.
Proof.
  intros Hok Ho Hcnt Hn.
  destruct (write_loop_run l [] s 0 Hok Ho Hn) as (s1 & W & I & O & E & _).
  unfold pipe_read. set (n := Z.of_nat (length (contents (ioq s1)))).
  destruct (read_loop_run (Z.to_nat (if count <? n then count else n)) s1 [] I O) as (s2 & R & I2 & O2 & E2).
  { unfold n. destruct (Z.ltb_spec count (Z.of_nat (length (contents (ioq s1))))); lia. }
  exists s1, s2. split.
  { unfold pipe_write. rewrite (mbindM_Ok _ _ s s s eq_refl). rewrite ioq_length_contents by apply Hok.
    unfold bufsize in *. rewrite wrapu_small by lia.
    destruct (Z.ltb_spec (Z.of_nat (length l)) (2048 - Z.of_nat (length (contents (ioq s))))); [|lia].
    rewrite Nat2Z.id, firstn_all. rewrite app_nil_r in W. rewrite W. done. }
  rewrite (mbindM_Ok _ _ s1 s1 s1 eq_refl).
  rewrite ioq_length_contents by apply I. fold n. rewrite R, E2, <- E. cbn [app].
  destruct (Z.ltb_spec count n); [done|].
  unfold n in *. rewrite !Nat2Z.id. rewrite firstn_all, skipn_all.
  rewrite (take_ge _ (Z.to_nat count)), (drop_ge _ (Z.to_nat count)) by lia. done.
Qed.

(** [pipe_write] writes only what fits "to avoid blocking", but counts
    [bufsize - length] free bytes where the ring holds one less: asked for
    that many bytes or more it fills the ring and, with one promised byte
    left, is on its way to sleep behind [lock_acquire]. *)
Theorem pipe_write_may_sleep s l :
  ioqs_ok s -> intr_off s -> may_call (ks s) ->
  (exists x, locks (ks s) !! plock = Some x /\ holder_repeat_nr x < 2 ^ 32 - 1) ->
  bufsize - Z.of_nat (length (contents (ioq s))) <= Z.of_nat (length l) ->
  exists s', pipe_write v2p plock l s = Ok ((bufsize - 1 - Z.of_nat (length (contents (ioq s))), AtWait), s') /\
    Z.of_nat (length (contents (ioq s'))) = bufsize - 1 /\ sinv (ks s').
Proof.
  intros Hok Ho [Hf Hi] (x & Hx & Hr) Hn. pose proof (filled_range (ioq s) (io_wf s Hok)) as Hfr.
  set (k := Z.of_nat (length (contents (ioq s)))) in *.
  assert (k = filled (ioq s)) as Ek by (unfold k, contents; rewrite length_fmap, length_seqZ; lia).
  set (m := Z.to_nat (bufsize - 1 - k)).
  destruct (lookup_lt_is_Some_2 l m) as [b Hb]; [unfold m, bufsize in *; lia|].
  assert (take (Z.to_nat (bufsize - k)) l = take m l ++ [b]) as Et.
  { replace (Z.to_nat (bufsize - k)) with (S m) by (unfold m, bufsize in *; lia). by apply take_S_r. }
  assert (length (take m l) = m) as Hlm by (rewrite length_take; unfold m, bufsize in *; lia).
  destruct (write_loop_run (take m l) [b] s 0 Hok Ho) as (s1 & R & I & O & E & C & L & D & F).
  { rewrite Hlm. fold k. unfold m, bufsize in *. lia. }
  assert (Z.of_nat (length (contents (ioq s1))) = bufsize - 1) as Hfull.
  { rewrite E, length_app, Hlm. unfold m, k, bufsize in *. lia. }
  destruct (lock_acquire_ok v2p (ks s1) plock x) as (k' & Ra & Ia); [apply I|by rewrite F, C|congruence|by rewrite L|done|].
  exists (mk_ioqs (ioq s1) k'). split; [|done].
  unfold pipe_write. rewrite (mbindM_Ok _ _ s s s eq_refl). rewrite ioq_length_contents by apply Hok. fold k.
  rewrite (wrapu_small 32) by (unfold bufsize in *; lia). fold k in Hn.
  destruct (Z.ltb_spec (Z.of_nat (length l)) (bufsize - k)); [lia|]. rewrite Et, R, Hlm. cbn [write_loop].
  assert (ioq_full (ioq s1) = true) as Hfl by (apply ioq_full_contents; [apply I|done]).
  unfold ioq_putchar. erewrite mbindM_Ok; cycle 1.
  { rewrite (mbindM_Ok _ _ _ _ _ (assert_intr_off_run s1 O)). rewrite (mbindM_Ok _ _ s1 s1 s1 eq_refl). rewrite Hfl.
    by rewrite (mbindM_Ok _ _ _ _ _ (on_ks_run _ _ _ _ Ra)). }
  cbn beta iota. unfold mret, M_ret. do 3 f_equal. unfold m, bufsize in *. lia.
Qed.
End System.

(** ** Witnesses *)

(** The threads of [Sync]'s demonstration in a system call, interrupts off,
    and the empty queue; its lock is at 0x5000. *)
Definition demo_ring : ioqueue := mk_ioq 0 0 (replicate 2048 0) 0 0.
Definition demo_ioqs (q : ioqueue) : ioqs unit := mk_ioqs q (set_flags 0 demo_boot).

Lemma demo_ioqs_ok q : ioq_wf q -> consumer q = NULL -> producer q = NULL -> ioqs_ok 0x5000 (demo_ioqs q).
Proof.
  intros Hq Hc Hp. split; cbn [ioq ks demo_ioqs]; [done| | |by left].
  - apply sinv_flags; [apply booted_sinv, demo_booted|by left].
  - rewrite Hc, Hp. by intros t [->| ->].
Qed.

Lemma demo_ring_wf : ioq_wf demo_ring.
Proof. by split. Qed.

Lemma demo_may_call q : may_call (ks (demo_ioqs q)).
Proof. split; [reflexivity|discriminate]. Qed.

Lemma demo_lock_free q : lock_free 0x5000 (ks (demo_ioqs q)).
Proof. split; [reflexivity|]. exists []. reflexivity. Qed.

(** A reader, then the ring with its 2047 characters. *)
Definition demo_full : ioqueue := mk_ioq 0 0 (replicate 2048 7) 2047 0.

Lemma ioq_getchar_refines_witness :
  exists s1 s2 s3, ioq_getchar id 0x5000 AtTest (demo_ioqs demo_ring) = Ok (AtWait, s1) /\
    on_ks (resume id) s1 = Ok (tt, s2) /\ ioq_getchar id 0x5000 AtWait s2 = Ok (AtRelease, s3) /\
    consumer (ioq s3) = 0x9000.
Proof.
  destruct (ioq_getchar_refines id 0x5000 (demo_ioqs demo_ring)
    (demo_ioqs_ok _ demo_ring_wf eq_refl eq_refl) eq_refl) as [_ H].
  destruct (H eq_refl (demo_may_call _) (demo_lock_free _)) as (s1 & s2 & s3 & H1 & H2 & H3 & H4 & _).
  exists s1, s2, s3. exact (conj H1 (conj H2 (conj H3 H4))).
Defined.

Lemma ioq_putchar_refines_witness :
  exists s1 s2 s3, ioq_putchar id 0x5000 65 AtTest (demo_ioqs demo_full) = Ok (AtWait, s1) /\
    on_ks (resume id) s1 = Ok (tt, s2) /\ ioq_putchar id 0x5000 65 AtWait s2 = Ok (AtRelease, s3) /\
    producer (ioq s3) = 0x9000.
Proof.
  destruct (ioq_putchar_refines id 0x5000 (demo_ioqs demo_full) 65) as [_ H].
  - apply demo_ioqs_ok; [by split|reflexivity|reflexivity].
  - reflexivity.
  - destruct H as (s1 & s2 & s3 & H1 & H2 & H3 & H4 & _); [vm_compute; reflexivity|apply demo_may_call|apply demo_lock_free|].
    exists s1, s2, s3. exact (conj H1 (conj H2 (conj H3 H4))).
Defined.

Lemma pipe_roundtrip_witness :
  exists s' s'', pipe_write id 0x5000 [1; 2; 3] (demo_ioqs demo_ring) = Ok ((3, Returned tt), s') /\
    pipe_read id 0x5000 2 s' = Ok (([1; 2], Returned tt), s'') /\ contents (ioq s'') = [3].
Proof.
  destruct (pipe_roundtrip id 0x5000 (demo_ioqs demo_ring) [1; 2; 3] 2
    (demo_ioqs_ok _ demo_ring_wf eq_refl eq_refl) eq_refl) as (s' & s'' & H1 & H2 & H3 & _).
  - lia.
  - vm_compute. discriminate.
  - exists s', s''. exact (conj H1 (conj H2 H3)).
Defined.

Lemma pipe_write_may_sleep_witness :
  exists s', pipe_write id 0x5000 (replicate 2048 1) (demo_ioqs demo_ring) = Ok ((2047, AtWait), s') /\
    Z.of_nat (length (contents (ioq s'))) = 2047.
Proof.
  destruct (pipe_write_may_sleep id 0x5000 (demo_ioqs demo_ring) (replicate 2048 1)
    (demo_ioqs_ok _ demo_ring_wf eq_refl eq_refl) eq_refl (demo_may_call _)) as (s' & H1 & H2 & _).
  - exists (mk_lock 0 0). split; reflexivity.
  - vm_compute. discriminate.
  - exists s'. exact (conj H1 H2).
Defined.

(** ** A reader that sleeps with characters in the queue *)

(** Entry into the kernel: the interrupt gate of a system call clears IF. *)
Definition syscall_entry : M (ioqs unit) () := on_ks (_ ← resume id; cli).

(** Two readers find the queue empty, a writer stores two characters, the
    first reader takes one. *)
Definition two_readers : M (ioqs unit) (ioq_pc Z * ioq_pc Z) :=
  a ← ioq_getchar id 0x5000 AtTest; _ ← on_ks (resume id); a ← ioq_getchar id 0x5000 a;   (* 0x9000 sleeps *)
  _ ← syscall_entry; b ← ioq_getchar id 0x5000 AtTest;                                     (* 0xB000 waits for the lock *)
  _ ← syscall_entry; _ ← ioq_putchar id 0x5000 65 AtTest; _ ← ioq_putchar id 0x5000 66 AtTest;   (* 0xC000 *)
  _ ← on_ks (thread_yield id);
  _ ← on_ks (resume id); a ← ioq_getchar id 0x5000 a; _ ← on_ks (resume id);
  a ← ioq_getchar id 0x5000 a;                                                             (* 0x9000 reads *)
  _ ← on_ks (thread_yield id);
  _ ← on_ks (resume id); _ ← on_ks (resume id); b ← ioq_getchar id 0x5000 b;               (* 0xB000 has the lock *)
  mret (a, b).

(** The loop of [ioq_getchar] does not test the queue again once it has
    the lock: with two readers, the second one registers and goes to sleep
    although the character 66 is in the queue. *)
Theorem second_reader_sleeps_on_data :
  exists s, two_readers (demo_ioqs demo_ring) = Ok ((Returned 65, AtRelease), s) /\
    contents (ioq s) = [66] /\ consumer (ioq s) = 0xB000 /\ st (ks s) 0xB000 = Some TASK_BLOCKED.
Proof. vm_compute. eexists. repeat split. Qed.
