(* ===== verification/Keyboard.v ===== *)
(** * The keyboard driver (device/keyboard.c)

    The interrupt handler turns the scan codes of the keyboard controller into
    characters and puts them into [kbd_buf]; it tracks the modifier keys and
    the 0xe0 prefix in static variables.  The theorem relates it to an abstract
    machine on key presses and releases. *)

From S2P Require Import Prelude Interrupt Paging Memory PageAlloc DList Sched Sync Ioqueue.
From Stdlib Require Import Ascii.

Definition chr (a : ascii) : Z := Z.of_N (N_of_ascii a).

Definition esc : Z := 27.
Definition backspace : Z := 8.
Definition tab : Z := 9.
Definition enter : Z := 13.
Definition char_invisible : Z := 0.

Definition shift_l_make : Z := 0x2a.
Definition shift_r_make : Z := 0x36.
Definition alt_l_make : Z := 0x38.
Definition alt_r_make : Z := 0xe038.
Definition ctrl_l_make : Z := 0x1d.
Definition ctrl_r_make : Z := 0xe01d.
Definition caps_lock_make : Z := 0x3a.

Definition keymap : list (Z * Z) := [
  (* 0x00 *) (0, 0);
  (* 0x01 *) (esc, esc);
  (* 0x02 *) (chr "1", chr "!");
  (* 0x03 *) (chr "2", chr "@");
  (* 0x04 *) (chr "3", chr "#");
  (* 0x05 *) (chr "4", chr "$");
  (* 0x06 *) (chr "5", chr "%");
  (* 0x07 *) (chr "6", chr "^");
  (* 0x08 *) (chr "7", chr "&");
  (* 0x09 *) (chr "8", chr "*");
  (* 0x0A *) (chr "9", chr "(");
  (* 0x0B *) (chr "0", chr ")");
  (* 0x0C *) (chr "-", chr "_");
  (* 0x0D *) (chr "=", chr "+");
  (* 0x0E *) (backspace, backspace);
  (* 0x0F *) (tab, tab);
  (* 0x10 *) (chr "q", chr "Q");
  (* 0x11 *) (chr "w", chr "W");
  (* 0x12 *) (chr "e", chr "E");
  (* 0x13 *) (chr "r", chr "R");
  (* 0x14 *) (chr "t", chr "T");
  (* 0x15 *) (chr "y", chr "Y");
  (* 0x16 *) (chr "u", chr "U");
  (* 0x17 *) (chr "i", chr "I");
  (* 0x18 *) (chr "o", chr "O");
  (* 0x19 *) (chr "p", chr "P");
  (* 0x1A *) (chr "[", chr "{");
  (* 0x1B *) (chr "]", chr "}");
  (* 0x1C *) (enter, enter);
  (* 0x1D *) (char_invisible, char_invisible);
  (* 0x1E *) (chr "a", chr "A");
  (* 0x1F *) (chr "s", chr "S");
  (* 0x20 *) (chr "d", chr "D");
  (* 0x21 *) (chr "f", chr "F");
  (* 0x22 *) (chr "g", chr "G");
  (* 0x23 *) (chr "h", chr "H");
  (* 0x24 *) (chr "j", chr "J");
  (* 0x25 *) (chr "k", chr "K");
  (* 0x26 *) (chr "l", chr "L");
  (* 0x27 *) (chr ";", chr ":");
  (* 0x28 *) (39, 34);
  (* 0x29 *) (chr "`", chr "~");
  (* 0x2A *) (char_invisible, char_invisible);
  (* 0x2B *) (chr "\", chr "|");
  (* 0x2C *) (chr "z", chr "Z");
  (* 0x2D *) (chr "x", chr "X");
  (* 0x2E *) (chr "c", chr "C");
  (* 0x2F *) (chr "v", chr "V");
  (* 0x30 *) (chr "b", chr "B");
  (* 0x31 *) (chr "n", chr "N");
  (* 0x32 *) (chr "m", chr "M");
  (* 0x33 *) (chr ",", chr "<");
  (* 0x34 *) (chr ".", chr ">");
  (* 0x35 *) (chr "/", chr "?");
  (* 0x36 *) (char_invisible, char_invisible);
  (* 0x37 *) (chr "*", chr "*");
  (* 0x38 *) (char_invisible, char_invisible);
  (* 0x39 *) (chr " ", chr " ");
  (* 0x3A *) (char_invisible, char_invisible)
].

(** The static variables of keyboard.c. *)
Record modifiers : Type := mk_mods {
  ctrl_status : bool;
  shift_status : bool;
  alt_status : bool;
  caps_lock_status : bool;
  ext_scancode : bool
}.
#[global] Instance modifiers_eq_dec : EqDecision modifiers.
Proof. solve_decision. Defined.

Definition set_ctrl (b : bool) (m : modifiers) := mk_mods b (shift_status m) (alt_status m) (caps_lock_status m) (ext_scancode m).
Definition set_shift (b : bool) (m : modifiers) := mk_mods (ctrl_status m) b (alt_status m) (caps_lock_status m) (ext_scancode m).
Definition set_alt (b : bool) (m : modifiers) := mk_mods (ctrl_status m) (shift_status m) b (caps_lock_status m) (ext_scancode m).
Definition set_caps (b : bool) (m : modifiers) := mk_mods (ctrl_status m) (shift_status m) (alt_status m) b (ext_scancode m).
Definition set_ext (b : bool) (m : modifiers) := mk_mods (ctrl_status m) (shift_status m) (alt_status m) (caps_lock_status m) b.

(** The keys that carry two symbols. *)
Definition two_symbol_key (scancode : Z) : bool :=
  (scancode <? 0x0e) || (scancode =? 0x29) || (scancode =? 0x1a) || (scancode =? 0x1b) ||
  (scancode =? 0x2b) || (scancode =? 0x27) || (scancode =? 0x28) || (scancode =? 0x33) ||
  (scancode =? 0x34) || (scancode =? 0x35).

(** The column of [keymap] the handler looks into. *)
Definition shift_of (m : modifiers) (scancode : Z) : bool :=
  if two_symbol_key scancode then shift_status m
  else if shift_status m && caps_lock_status m then false
  else if shift_status m || caps_lock_status m then true
  else false.

(** What the handler does with one byte of the keyboard controller. *)
Inductive key_effect : Type :=
| KMods (m : modifiers)              (* new modifier state, no character *)
| KChar (m : modifiers) (c : Z)      (* a character for the buffer *)
| KUnknown (m : modifiers).          (* put_str("unknown key") *)

Definition press_control (m : modifiers) (scancode : Z) : key_effect :=
  if (scancode =? ctrl_l_make) || (scancode =? ctrl_r_make) then KMods (set_ctrl true m)
  else if (scancode =? shift_l_make) || (scancode =? shift_r_make) then KMods (set_shift true m)
  else if (scancode =? alt_l_make) || (scancode =? alt_r_make) then KMods (set_alt true m)
  else if scancode =? caps_lock_make then KMods (set_caps (negb (caps_lock_status m)) m)
  else KUnknown m.

Definition release_control (m : modifiers) (make_code : Z) : key_effect :=
  KMods (if (make_code =? ctrl_l_make) || (make_code =? ctrl_r_make) then set_ctrl false m
         else if (make_code =? shift_l_make) || (make_code =? shift_r_make) then set_shift false m
         else if (make_code =? alt_l_make) || (make_code =? alt_r_make) then set_alt false m
         else m).

Definition key_step (m : modifiers) (byte : Z) : outcome key_effect :=
  if byte =? 0xe0 then Ok (KMods (set_ext true m))
  else
    let scancode := if ext_scancode m then Z.lor 0xe000 byte else byte in
    let m := if ext_scancode m then set_ext false m else m in
    if negb (Z.land scancode 0x0080 =? 0) then
      Ok (release_control m (Z.land scancode 0xff7f))
    else if ((0x00 <? scancode) && (scancode <? 0x3b)) || (scancode =? alt_r_make) || (scancode =? ctrl_r_make) then
      let shift := shift_of m scancode in
      let scancode := Z.land scancode 0x00ff in
      p ← aget keymap (u8 scancode);
      let cur_char := if shift : bool then snd p else fst p in
      if truth cur_char then
        Ok (KChar m (if (ctrl_status m && (cur_char =? chr "l")) || (ctrl_status m && (cur_char =? chr "u"))
                     then cur_char - chr "a" else cur_char))
      else Ok (press_control m scancode)
    else Ok (KMods m).

Section Handler.
Context {P : Type} `{PA : PageAlloc P} (v2p : Z -> Z) (plock : Z).

(** [kbd_buf] with the kernel, the modifiers, and what [put_str] printed. *)
Record kbd : Type := mk_kbd { mods : modifiers; kbd_buf : ioqs P; printed : list string }.

Definition on_buf {A} (c : M (ioqs P) A) : M kbd A := fun s =>
  match c (kbd_buf s) with
  | Ok (a, b) => Ok (a, mk_kbd (mods s) b (printed s))
  | Panic w => Panic w
  | Fault => Fault
  | NoFuel => NoFuel
  end.

Definition set_mods (m : modifiers) (s : kbd) : kbd := mk_kbd m (kbd_buf s) (printed s).

(** [byte] is what [inb(KBD_BUF_PORT)] reads.  The buffer is not full when
    [ioq_putchar] is called, so the handler never waits. *)
Definition intr_keyboard_handler (byte : Z) : M kbd () :=
  s ← getS;
  e ← liftO (key_step (mods s) byte);
  match e with
  | KMods m => modS (set_mods m)
  | KUnknown m => modS (fun s => mk_kbd m (kbd_buf s) ("unknown key" :: printed s))
  | KChar m c =>
      _ ← modS (set_mods m);
      _ ← on_buf assert_intr_off;
      if ioq_full (ioq (kbd_buf s)) then mret tt
      else _ ← on_buf (ioq_putchar v2p plock c AtTest); mret tt
  end.

(** The interrupts of a list of bytes, one after the other. *)
Fixpoint keyboard_bytes (l : list Z) : M kbd () :=
  match l with
  | [] => mret tt
  | b :: l' => _ ← intr_keyboard_handler b; keyboard_bytes l'
  end.

End Handler.
Arguments kbd : clear implicits.
Arguments mk_kbd {P}.

(** ** The abstract keyboard *)

Inductive key : Type :=
| CtrlL | CtrlR | ShiftL | ShiftR | AltL | AltR | CapsLock
| Plain (code : Z)       (* a key with a character, by its make code *)
| Extended (code : Z).   (* arrows, keypad and the like, behind 0xe0 *)

Inductive event : Type := Press (k : key) | Release (k : key).

(** Keys as the hardware numbers them. *)
Definition plain_code (c : Z) : bool :=
  (1 <=? c) && (c <=? 0x39) && negb (bool_decide (c ∈ [0x1d; 0x2a; 0x36; 0x38])).
Definition extended_code (c : Z) : bool :=
  (0 <=? c) && (c <? 0x80) && negb (bool_decide (c ∈ [0x1d; 0x38; 0x60])).

Definition key_ok (k : key) : bool :=
  match k with Plain c => plain_code c | Extended c => extended_code c | _ => true end.
Definition event_ok (e : event) : bool := match e with Press k | Release k => key_ok k end.

(** The make code: prefix and byte. *)
Definition make_bytes (k : key) : list Z :=
  match k with
  | CtrlL => [0x1d] | CtrlR => [0xe0; 0x1d]
  | ShiftL => [0x2a] | ShiftR => [0x36]
  | AltL => [0x38] | AltR => [0xe0; 0x38]
  | CapsLock => [0x3a]
  | Plain c => [c]
  | Extended c => [0xe0; c]
  end.
(** The break code sets bit 7 of the last byte. *)
Definition break_bytes (k : key) : list Z :=
  match make_bytes k with
  | [p; c] => [p; c + 0x80]
  | [c] => [c + 0x80]
  | l => l
  end.
Definition event_bytes (e : event) : list Z :=
  match e with Press k => make_bytes k | Release k => break_bytes k end.

Definition is_lower (c : Z) : bool := (chr "a" <=? c) && (c <=? chr "z").
Definition upper (c : Z) : Z := c - 32.

(** The character of a key: letters follow Shift xor Caps Lock, symbols Shift
    alone; Ctrl with a small l or u gives a control character. *)
Definition plain_char (m : modifiers) (code : Z) : Z :=
  let (lo, hi) := default (0, 0) (keymap !! Z.to_nat code) in
  let c := if is_lower lo then (if xorb (shift_status m) (caps_lock_status m) then upper lo else lo)
           else if shift_status m then hi else lo in
  if ctrl_status m && ((c =? chr "l") || (c =? chr "u")) then c - chr "a" else c.

Definition abs_event (m : modifiers) (e : event) : modifiers * list Z :=
  match e with
  | Press CtrlL | Press CtrlR => (set_ctrl true m, [])
  | Press ShiftL | Press ShiftR => (set_shift true m, [])
  | Press AltL | Press AltR => (set_alt true m, [])
  | Press CapsLock => (set_caps (negb (caps_lock_status m)) m, [])
  | Press (Plain c) => (m, [plain_char m c])
  | Release CtrlL | Release CtrlR => (set_ctrl false m, [])
  | Release ShiftL | Release ShiftR => (set_shift false m, [])
  | Release AltL | Release AltR => (set_alt false m, [])
  | _ => (m, [])
  end.

Fixpoint abs_events (m : modifiers) (l : list event) : modifiers * list Z :=
  match l with
  | [] => (m, [])
  | e :: l' => let (m1, c) := abs_event m e in let (m2, cs) := abs_events m1 l' in (m2, c ++ cs)
  end.

(** ** One event *)

(** The effect of the bytes of one event on the modifiers. *)
Fixpoint key_steps (m : modifiers) (l : list Z) : outcome (modifiers * list Z) :=
  match l with
  | [] => Ok (m, [])
  | b :: l' =>
      e ← key_step m b;
      match e with
      | KMods m' => key_steps m' l'
      | KChar m' c => mc ← key_steps m' l'; Ok (mc.1, c :: mc.2)
      | KUnknown _ => Panic "unknown key"
      end
  end.

Definition all_mods : list modifiers :=
  b1 ← [true; false]; b2 ← [true; false]; b3 ← [true; false]; b4 ← [true; false];
  [mk_mods b1 b2 b3 b4 false].

Lemma elem_all_mods m : ext_scancode m = false -> m ∈ all_mods.
Proof. destruct m as [[] [] [] [] []]; cbn [ext_scancode]; intros; try done; vm_compute; set_solver. Qed.

#[global] Instance outcome_eq_dec {A} `{EqDecision A} : EqDecision (outcome A).
Proof. solve_decision. Defined.

Definition step_agrees (m : modifiers) (e : event) : bool :=
  bool_decide (key_steps m (event_bytes e) = Ok (abs_event m e)).

Definition all_events : list event :=
  (k ← [CtrlL; CtrlR; ShiftL; ShiftR; AltL; AltR; CapsLock] ++ (Plain <$> seqZ 0 128) ++ (Extended <$> seqZ 0 128);
   [Press k; Release k]).

Lemma elem_all_events e : event_ok e = true -> e ∈ all_events.
Proof.
  assert (forall k, key_ok k = true -> k ∈ [CtrlL; CtrlR; ShiftL; ShiftR; AltL; AltR; CapsLock] ++
            (Plain <$> seqZ 0 128) ++ (Extended <$> seqZ 0 128)) as Hk.
  { intros k Hk. destruct k; try (apply elem_of_app; left; set_solver);
      apply elem_of_app; right; apply elem_of_app; [left|right]; apply list_elem_of_fmap; eexists; (split; [done|]);
      apply elem_of_seqZ; cbn in Hk; unfold plain_code, extended_code in Hk;
      apply andb_true_iff in Hk as [[?%Z.leb_le H2]%andb_true_iff _].
    - apply Z.leb_le in H2. lia.
    - apply Z.ltb_lt in H2. lia. }
  intros He. unfold all_events. apply list_elem_of_bind. destruct e as [k|k]; exists k; (split; [|by apply Hk]); [left|right; left].
Qed.

(** Every key in every modifier state, by evaluation. *)
Lemma key_steps_table : forallb (fun e => negb (event_ok e) || forallb (fun m => step_agrees m e) all_mods) all_events = true.
Proof. vm_compute. reflexivity. Qed.

Lemma key_steps_event m e : event_ok e = true -> ext_scancode m = false ->
  key_steps m (event_bytes e) = Ok (abs_event m e).
Proof.
  intros He Hm. pose proof key_steps_table as H. rewrite forallb_forall in H.
  specialize (H e). rewrite <- list_elem_of_In in H. specialize (H (elem_all_events e He)). rewrite He in H. cbn [negb orb] in H.
  rewrite forallb_forall in H. specialize (H m). rewrite <- list_elem_of_In in H.
  specialize (H (elem_all_mods m Hm)). by apply bool_decide_eq_true in H.
Qed.

Lemma abs_event_ext m e : event_ok e = true -> ext_scancode (abs_event m e).1 = ext_scancode m.
Proof. by destruct e as [[]|[]]. Qed.

(** ** A list of events *)

Section Events.
Context {P : Type} `{PA : PageAlloc P} (v2p : Z -> Z) (plock : Z).
Implicit Types s : kbd P.

Lemma on_buf_run {A} (c : M (ioqs P) A) s a b : c (kbd_buf s) = Ok (a, b) -> on_buf c s = Ok (a, mk_kbd (mods s) b (printed s)).
Proof. unfold on_buf. by intros ->. Qed.

(** The buffer holds 2047 characters; what comes on top is dropped. *)
Definition kept (l : list Z) : list Z := take (Z.to_nat (bufsize - 1)) l.

Lemma kept_app l r : kept (kept l ++ r) = kept (l ++ r).
Proof.
  unfold kept. set (n := Z.to_nat (bufsize - 1)).
  destruct (decide (length l <= n)%nat) as [Hx|Hx]; [by rewrite (take_ge l n)|].
  rewrite take_app_length' by (rewrite length_take; lia). by rewrite take_app_le by lia.
Qed.

Lemma contents_bound q : ioq_wf q -> (length (contents q) <= Z.to_nat (bufsize - 1))%nat.
Proof.
  intros Hq. pose proof (filled_range q Hq). unfold contents. rewrite length_fmap, length_seqZ.
  unfold bufsize in *. lia.
Qed.

Record kbd_ok s : Prop := { kb_buf : ioqs_ok plock (kbd_buf s); kb_off : intr_off (kbd_buf s) }.

(** One interrupt. *)
Lemma handler_run s b e : kbd_ok s -> key_step (mods s) b = Ok e ->
  match e with
  | KMods m => intr_keyboard_handler v2p plock b s = Ok (tt, set_mods m s)
  | KChar m c => exists s', intr_keyboard_handler v2p plock b s = Ok (tt, s') /\ kbd_ok s' /\ mods s' = m /\
      printed s' = printed s /\ contents (ioq (kbd_buf s')) = kept (contents (ioq (kbd_buf s)) ++ [c])
  | KUnknown m => True
  end.
Proof.
  intros [H1 H2] He. unfold intr_keyboard_handler. rewrite (mbindM_Ok _ _ s s s eq_refl).
  rewrite (mbindM_Ok _ _ s e s) by (unfold liftO; by rewrite He). destruct e as [m|m c|m]; [done| |done].
  rewrite (mbindM_Ok _ _ s tt (set_mods m s)) by done.
  rewrite (mbindM_Ok _ _ _ _ _ (on_buf_run _ (set_mods m s) _ _ (assert_intr_off_run _ H2))).
  pose proof (contents_bound _ (io_wf _ _ H1)) as Hb.
  destruct (ioq_full (ioq (kbd_buf s))) eqn:Ef.
  - exists (set_mods m s). split; [by destruct s|]. split; [by split|]. do 2 (split; [done|]).
    apply ioq_full_contents in Ef; [|apply H1]. unfold kept. cbn [kbd_buf set_mods].
    rewrite take_app_length' by (unfold bufsize in *; lia). done.
  - destruct (putchar_run v2p plock (kbd_buf s) c H1 H2 Ef) as (b' & R & E & I & O & _).
    exists (mk_kbd m b' (printed s)). split.
    + by rewrite (mbindM_Ok _ _ _ _ _ (on_buf_run _ (set_mods m s) _ _ R)).
    + split; [by split|]. do 2 (split; [done|]). cbn [kbd_buf]. rewrite E. unfold kept. symmetry. apply take_ge.
      assert (~ Z.of_nat (length (contents (ioq (kbd_buf s)))) = bufsize - 1) as Hn.
      { intros Hn. apply ioq_full_contents in Hn; [congruence|apply H1]. }
      rewrite length_app. cbn. unfold bufsize in *. lia.
Qed.

Lemma keyboard_bytes_run l r : forall s m cs, kbd_ok s -> key_steps (mods s) l = Ok (m, cs) ->
  exists s', keyboard_bytes v2p plock (l ++ r) s = keyboard_bytes v2p plock r s' /\ kbd_ok s' /\ mods s' = m /\
    printed s' = printed s /\ contents (ioq (kbd_buf s')) = kept (contents (ioq (kbd_buf s)) ++ cs).
Proof.
  induction l as [|b l IH]; intros s m cs Hs; cbn [key_steps app keyboard_bytes].
  { intros [= <- <-]. exists s. do 4 (split; [done|]). rewrite app_nil_r. unfold kept.
    symmetry. apply take_ge, contents_bound, Hs. }
  intros (e & He & H)%bind_inv. pose proof (handler_run s b e Hs He) as Hr. destruct e as [m1|m1 c|m1]; [| |done].
  - rewrite (mbindM_Ok _ _ _ _ _ Hr). apply (IH (set_mods m1 s)); [by split; apply Hs|done].
  - destruct Hr as (s1 & R & I & Em & Ep & Ec). apply bind_inv in H as ([m2 cs2] & H & [= -> <-]). rewrite (mbindM_Ok _ _ _ _ _ R).
    destruct (IH s1 m cs2 I) as (s' & R' & I' & Em' & Ep' & Ec'); [by rewrite Em|].
    exists s'. split; [done|]. split; [done|]. split; [done|]. split; [congruence|].
    rewrite Ec', Ec, kept_app. by rewrite <- app_assoc.
Qed.

(** C39. Decoding undoes encoding: for every sequence of key presses and
    releases, the interrupts of its scan codes leave the modifier state and
    append to [kbd_buf] the characters of the abstract keyboard (up to the
    2047 characters the buffer holds, the rest is dropped), and the handler
    never meets an "unknown key", never waits and never fails. *)
Theorem keyboard_decodes_events s l :
  kbd_ok s -> ext_scancode (mods s) = false -> forallb event_ok l = true ->
  exists s', keyboard_bytes v2p plock (concat (event_bytes <$> l)) s = Ok (tt, s') /\
    mods s' = (abs_events (mods s) l).1 /\
    contents (ioq (kbd_buf s')) = kept (contents (ioq (kbd_buf s)) ++ (abs_events (mods s) l).2) /\
    printed s' = printed s /\ kbd_ok s'.
Proof.
  revert s. induction l as [|e l IH]; intros s Hs Hx Hl.
  { exists s. cbn. do 2 (split; [done|]). split; [|done]. rewrite app_nil_r. unfold kept.
    symmetry. apply take_ge, contents_bound, Hs. }
  cbn [forallb] in Hl. apply andb_true_iff in Hl as [He Hl].
  pose proof (key_steps_event (mods s) e He Hx) as Hk. pose proof (abs_event_ext (mods s) e He) as Hxe.
  cbn [fmap list_fmap concat abs_events]. destruct (abs_event (mods s) e) as [m1 c1] eqn:Ea. cbn [fst] in Hxe.
  destruct (keyboard_bytes_run (event_bytes e) (concat (event_bytes <$> l)) s m1 c1 Hs Hk) as (s1 & R & I & Em & Ep & Ec).
  destruct (IH s1 I) as (s' & R' & Em' & Ec' & Ep' & I'); [congruence|done|].
  exists s'. rewrite R, R'. split; [done|]. rewrite Em in Em', Ec'.
  destruct (abs_events m1 l) as [m2 cs2] eqn:E2. split; [done|]. split; [|split; [congruence|done]].
  rewrite Ec', Ec. cbn [snd]. rewrite kept_app. by rewrite <- app_assoc.
Qed.

End Events.

(** Shift-H, i, Caps Lock, Ctrl, and an arrow key. *)
Definition demo_events : list event :=
  [Press ShiftL; Press (Plain 0x23); Release (Plain 0x23); Release ShiftL; Press (Plain 0x17); Press (Extended 0x48);
   Press CapsLock; Press (Plain 0x1e); Press (Plain 0x02)].

Definition no_mods : modifiers := mk_mods false false false false false.

Lemma keyboard_decodes_events_witness :
  exists s', keyboard_bytes id 0x5000 (concat (event_bytes <$> demo_events)) (mk_kbd no_mods (demo_ioqs demo_ring) []) = Ok (tt, s') /\
    contents (ioq (kbd_buf s')) = [chr "H"; chr "i"; chr "A"; chr "1"].
Proof.
  destruct (keyboard_decodes_events id 0x5000 (mk_kbd no_mods (demo_ioqs demo_ring) []) demo_events) as (s' & H1 & _ & H2 & _).
  - split; [apply demo_ioqs_ok; [apply demo_ring_wf|reflexivity|reflexivity]|reflexivity].
  - reflexivity.
  - vm_compute. reflexivity.
  - exists s'. exact (conj H1 H2).
Defined.
