(* ===== verification/CString.v ===== *)
(** * Strings and byte blocks in memory (lib/string.c)

    The routines run on a byte-addressed memory; an address that belongs to no
    object faults.  Loops over a string carry fuel; the theorems give the
    amount that is enough (the length of the string and its terminating zero)
    and that the result does not depend on having more. *)

From S2P Require Import Prelude.

(** Bytes by address. *)
Abbreviation mem := (gmap Z Z).

Definition ld (p : Z) : M mem Z := fun m => match m !! p with Some b => Ok (b, m) | None => Fault end.
Definition sto (p b : Z) : M mem () := fun m => match m !! p with Some _ => Ok (tt, <[p := u8 b]> m) | None => Fault end.
(** A [char] is signed. *)
Definition ldc (p : Z) : M mem Z := b ← ld p; mret (i8 b).

Fixpoint memset_loop (n : nat) (dst value : Z) : M mem () :=
  match n with
  | O => mret tt
  | S n' => _ ← sto dst value; memset_loop n' (dst + 1) value
  end.
Definition memset (dst_ value size : Z) : M mem () :=
  _ ← assertM (negb (dst_ =? NULL)) "memset: dst_ != NULL";
  memset_loop (Z.to_nat size) dst_ value.

Fixpoint memcpy_loop (n : nat) (dst src : Z) : M mem () :=
  match n with
  | O => mret tt
  | S n' => b ← ld src; _ ← sto dst b; memcpy_loop n' (dst + 1) (src + 1)
  end.
Definition memcpy (dst_ src_ size : Z) : M mem () :=
  _ ← assertM (negb (dst_ =? NULL) && negb (src_ =? NULL)) "memcpy: dst_ != NULL && src_ != NULL";
  memcpy_loop (Z.to_nat size) dst_ src_.

Fixpoint memcmp_loop (n : nat) (a b : Z) : M mem Z :=
  match n with
  | O => mret 0
  | S n' =>
      x ← ldc a; y ← ldc b;
      if negb (x =? y) then mret (if y <? x then 1 else -1)
      else memcmp_loop n' (a + 1) (b + 1)
  end.
Definition memcmp (a b size : Z) : M mem Z :=
  _ ← assertM (negb (a =? NULL) || negb (b =? NULL)) "memcmp: a != NULL || b != NULL";
  memcmp_loop (Z.to_nat size) a b.

(** The copying loop of [strcpy] and [strcat], up to and with the zero. *)
Fixpoint copy_loop (fuel : nat) (dst src : Z) : M mem () :=
  match fuel with
  | O => fun _ => NoFuel
  | S f => b ← ld src; _ ← sto dst b;
           if truth b then copy_loop f (dst + 1) (src + 1) else mret tt
  end.
Definition strcpy (fuel : nat) (dst_ src_ : Z) : M mem Z :=
  _ ← assertM (negb (dst_ =? NULL) && negb (src_ =? NULL)) "strcpy: dst_ != NULL && src_ != NULL";
  _ ← copy_loop fuel dst_ src_;
  mret dst_.

(** The loop that runs to the end of a string: the address behind the terminating zero. *)
Fixpoint end_loop (fuel : nat) (p : Z) : M mem Z :=
  match fuel with
  | O => fun _ => NoFuel
  | S f => b ← ld p; if truth b then end_loop f (p + 1) else mret (p + 1)
  end.
Definition strlen (fuel : nat) (str : Z) : M mem Z :=
  _ ← assertM (negb (str =? NULL)) "strlen: str != NULL";
  p ← end_loop fuel str;
  mret (u32 (p - str - 1)).

Fixpoint strcmp_loop (fuel : nat) (a b : Z) : M mem Z :=
  match fuel with
  | O => fun _ => NoFuel
  | S f =>
      x ← ldc a; y ← ldc b;
      if negb (x =? 0) && (x =? y) then strcmp_loop f (a + 1) (b + 1)
      else mret (if x <? y then -1 else if y <? x then 1 else 0)
  end.
Definition strcmp (fuel : nat) (a b : Z) : M mem Z :=
  _ ← assertM (negb (a =? NULL) && negb (b =? NULL)) "strcmp: a != NULL && b != NULL";
  strcmp_loop fuel a b.

(** [ch] is a [uint8_t], compared with a signed [char]. *)
Fixpoint strchr_loop (fuel : nat) (str ch : Z) : M mem Z :=
  match fuel with
  | O => fun _ => NoFuel
  | S f => c ← ldc str;
           if c =? 0 then mret NULL
           else if c =? ch then mret str else strchr_loop f (str + 1) ch
  end.
Definition strchr (fuel : nat) (str ch : Z) : M mem Z :=
  _ ← assertM (negb (str =? NULL)) "strchr: str != NULL";
  strchr_loop fuel str ch.

Fixpoint strrchr_loop (fuel : nat) (str ch last_char : Z) : M mem Z :=
  match fuel with
  | O => fun _ => NoFuel
  | S f => c ← ldc str;
           if c =? 0 then mret last_char
           else strrchr_loop f (str + 1) ch (if c =? ch then str else last_char)
  end.
Definition strrchr (fuel : nat) (str ch : Z) : M mem Z :=
  _ ← assertM (negb (str =? NULL)) "strrchr: str != NULL";
  strrchr_loop fuel str ch NULL.

Definition strcat (fuel : nat) (dst_ src_ : Z) : M mem Z :=
  _ ← assertM (negb (dst_ =? NULL) && negb (src_ =? NULL)) "strcat: dst_ != NULL && src_ != NULL";
  str ← end_loop fuel dst_;
  _ ← copy_loop fuel (str - 1) src_;
  mret dst_.

Fixpoint strchrs_loop (fuel : nat) (p ch ch_cnt : Z) : M mem Z :=
  match fuel with
  | O => fun _ => NoFuel
  | S f => c ← ldc p;
           if c =? 0 then mret ch_cnt
           else strchrs_loop f (p + 1) ch (if c =? ch then u32 (ch_cnt + 1) else ch_cnt)
  end.
Definition strchrs (fuel : nat) (str ch : Z) : M mem Z :=
  _ ← assertM (negb (str =? NULL)) "strchrs: str != NULL";
  strchrs_loop fuel str ch 0.

(** ** Blocks and strings in memory *)

(** The bytes [l] lie at [p]. *)
Fixpoint bytes_at (m : mem) (p : Z) (l : list Z) : Prop :=
  match l with [] => True | b :: l' => m !! p = Some b /\ bytes_at m (p + 1) l' end.

(** [l] is a string: bytes, none of them zero. *)
Definition is_str (l : list Z) : Prop := Forall (fun b => 0 < b < 256) l.
Definition str_at (m : mem) (p : Z) (l : list Z) : Prop := is_str l /\ bytes_at m p (l ++ [0]).

(** [m] with [l] written at [p]. *)
Fixpoint write (m : mem) (p : Z) (l : list Z) : mem :=
  match l with [] => m | b :: l' => write (<[p := b]> m) (p + 1) l' end.

(** Every byte of [p, p + n) belongs to an object. *)
Definition room (m : mem) (p n : Z) : Prop := forall a, p <= a < p + n -> is_Some (m !! a).

Lemma write_outside l : forall m p a, a < p \/ p + Z.of_nat (length l) <= a -> write m p l !! a = m !! a.
Proof.
  induction l as [|b l IH]; intros m p a Ha; cbn [write length] in *; [done|].
  rewrite IH by lia. apply lookup_insert_ne. lia.
Qed.

Lemma write_bytes_at l : forall m p, bytes_at (write m p l) p l.
Proof.
  induction l as [|b l IH]; intros m p; cbn [write bytes_at]; [done|].
  split; [|apply IH]. rewrite write_outside by lia. apply lookup_insert_eq.
Qed.

Lemma bytes_at_ext l : forall m m' p, (forall a, p <= a < p + Z.of_nat (length l) -> m' !! a = m !! a) ->
  bytes_at m p l -> bytes_at m' p l.
Proof.
  induction l as [|b l IH]; intros m m' p Hm; cbn [bytes_at length] in *; [done|].
  intros [H1 H2]. split; [rewrite Hm; [done|lia]|]. apply (IH m); [|done]. intros a Ha. apply Hm. lia.
Qed.

Lemma bytes_at_app l1 : forall m p l2, bytes_at m p (l1 ++ l2) <-> bytes_at m p l1 /\ bytes_at m (p + Z.of_nat (length l1)) l2.
Proof.
  induction l1 as [|b l1 IH]; intros m p l2; cbn [bytes_at length app]; [rewrite Z.add_0_r; tauto|].
  rewrite IH. replace (p + 1 + Z.of_nat (length l1)) with (p + Z.of_nat (S (length l1))) by lia. tauto.
Qed.

Lemma bytes_at_room l : forall m p, bytes_at m p l -> room m p (Z.of_nat (length l)).
Proof.
  induction l as [|b l IH]; intros m p; cbn [bytes_at length]; [intros _ a Ha; lia|].
  intros [H1 H2] a Ha. destruct (Z.eq_dec a p) as [->|]; [by eexists|]. apply (IH m (p + 1) H2). lia.
Qed.

Lemma room_insert m p n q b : room m p n -> room (<[q := b]> m) p n.
Proof. intros H a Ha. rewrite lookup_insert. case_decide; [by eexists|by apply H]. Qed.

Lemma room_sub m p n q k : room m p n -> p <= q -> q + k <= p + n -> room m q k.
Proof. intros H H1 H2 a Ha. apply H. lia. Qed.

Lemma ld_run m p b : m !! p = Some b -> ld p m = Ok (b, m).
Proof. unfold ld. by intros ->. Qed.

Lemma ldc_run m p b : m !! p = Some b -> ldc p m = Ok (i8 b, m).
Proof. intros H. unfold ldc. by rewrite (mbindM_Ok _ _ _ _ _ (ld_run m p b H)). Qed.

Lemma sto_run m p b : is_Some (m !! p) -> sto p b m = Ok (tt, <[p := u8 b]> m).
Proof. unfold sto. by intros [x ->]. Qed.

(** The signed value of a byte keeps it apart from zero and from others. *)
Lemma i8_byte b : 0 <= b < 256 -> i8 b = if b <? 128 then b else b - 256.
Proof. intros Hb. unfold wraps. change (2 ^ 8) with 256. change (2 ^ (8 - 1)) with 128. by rewrite Z.mod_small. Qed.

Lemma i8_inj b c : 0 <= b < 256 -> 0 <= c < 256 -> i8 b = i8 c -> b = c.
Proof.
  intros Hb Hc. rewrite !i8_byte by done. destruct (Z.ltb_spec b 128), (Z.ltb_spec c 128); lia.
Qed.

Lemma i8_zero b : 0 <= b < 256 -> (i8 b =? 0) = (b =? 0).
Proof. intros Hb. rewrite i8_byte by done. destruct (Z.ltb_spec b 128); zcase; lia. Qed.

(** ** The loops *)

Lemma memcpy_loop_run l : forall m dst src, bytes_at m src l -> Forall (fun b => 0 <= b < 256) l ->
  room m dst (Z.of_nat (length l)) -> dst + Z.of_nat (length l) <= src \/ src + Z.of_nat (length l) <= dst ->
  memcpy_loop (length l) dst src m = Ok (tt, write m dst l).
Proof.
  induction l as [|b l IH]; intros m dst src Hs Hf Hr Hd; cbn [memcpy_loop length write bytes_at] in *; [done|].
  destruct Hs as [Hb Hs]. inversion Hf as [|? ? Hb' Hf']; subst. mrun (ld_run m src b Hb).
  erewrite mbindM_Ok by (apply sto_run, Hr; lia). rewrite wrapu_small by lia. apply IH; [|done| |lia].
  - apply (bytes_at_ext l m); [|done]. intros a Ha. apply lookup_insert_ne. lia.
  - apply room_insert, (room_sub m dst (Z.of_nat (S (length l)))); [done|lia|lia].
Qed.

Lemma copy_loop_run l : forall fuel m dst src, str_at m src l -> (length l < fuel)%nat ->
  room m dst (Z.of_nat (length l) + 1) -> dst + Z.of_nat (length l) < src \/ src + Z.of_nat (length l) < dst ->
  copy_loop fuel dst src m = Ok (tt, write m dst (l ++ [0])).
Proof.
  induction l as [|b l IH]; intros [|fuel] m dst src [Hn Hs] Hf Hr Hd; cbn [copy_loop length write bytes_at app] in *; try lia.
  - destruct Hs as [Hb _]. mrun (ld_run m src 0 Hb). by erewrite mbindM_Ok by (apply sto_run, Hr; lia).
  - destruct Hs as [Hb Hs]. inversion Hn as [|? ? Hb' Hn']; subst. mrun (ld_run m src b Hb).
    erewrite mbindM_Ok by (apply sto_run, Hr; lia). rewrite wrapu_small by lia.
    assert (truth b = true) as -> by (unfold truth; destruct (Z.eqb_spec b 0); [lia|done]).
    apply IH; [|lia| |lia].
    + split; [done|]. apply (bytes_at_ext (l ++ [0]) m); [|done]. intros a Ha. rewrite length_app in Ha. cbn in Ha.
      apply lookup_insert_ne. lia.
    + apply room_insert, (room_sub m dst (Z.of_nat (S (length l)) + 1)); [done|lia|lia].
Qed.

Lemma end_loop_run l : forall fuel m p, str_at m p l -> (length l < fuel)%nat ->
  end_loop fuel p m = Ok (p + Z.of_nat (length l) + 1, m).
Proof.
  induction l as [|b l IH]; intros [|fuel] m p [Hn Hs] Hf; cbn [end_loop length bytes_at app] in *; try lia.
  - destruct Hs as [Hb _]. mrun (ld_run m p 0 Hb). change (truth 0) with false. cbn iota. unfold mret, M_ret. do 2 f_equal. lia.
  - destruct Hs as [Hb Hs]. inversion Hn as [|? ? Hb' Hn']; subst. mrun (ld_run m p b Hb).
    assert (truth b = true) as -> by (unfold truth; destruct (Z.eqb_spec b 0); [lia|done]).
    rewrite IH; [do 2 f_equal; lia|by split|lia].
Qed.

(** ** The order of [strcmp] *)

(** Lexicographic on signed characters; the end of a string counts as zero. *)
Fixpoint str_order (a b : list Z) : Z :=
  match a, b with
  | x :: a', y :: b' => if i8 x =? i8 y then str_order a' b' else if i8 x <? i8 y then -1 else 1
  | x :: _, [] => if i8 x <? 0 then -1 else 1
  | [], y :: _ => if 0 <? i8 y then -1 else 1
  | [], [] => 0
  end.

Lemma i8_nonzero x : 0 < x < 256 -> i8 x <> 0.
Proof. intros Hx E. assert (x = 0); [apply (i8_inj x 0); lia || done|lia]. Qed.

Lemma strcmp_loop_run a : forall b fuel m p q, str_at m p a -> str_at m q b -> (length a < fuel)%nat ->
  strcmp_loop fuel p q m = Ok (str_order a b, m).
Proof.
  induction a as [|x a IH]; intros b [|fuel] m p q [Hna Ha] [Hnb Hb] Hf; cbn [strcmp_loop length] in *; try lia.
  - destruct Ha as [Ha _]. mrun (ldc_run m p 0 Ha). destruct b as [|y b]; cbn [app bytes_at str_order] in *; destruct Hb as [Hb _].
    + by mrun (ldc_run m q 0 Hb).
    + mrun (ldc_run m q y Hb). inversion Hnb as [|? ? Hy _]; subst. pose proof (i8_nonzero y Hy).
      change (i8 0) with 0. cbn [Z.eqb negb andb]. unfold mret, M_ret. do 2 f_equal. zcase; lia.
  - destruct Ha as [Ha Ha']. inversion Hna as [|? ? Hx Hna']; subst. pose proof (i8_nonzero x Hx). mrun (ldc_run m p x Ha).
    destruct (Z.eqb_spec (i8 x) 0); [lia|]. cbn [negb andb].
    destruct b as [|y b]; cbn [app bytes_at str_order] in *; destruct Hb as [Hb Hb'].
    + mrun (ldc_run m q 0 Hb). change (i8 0) with 0. destruct (Z.eqb_spec (i8 x) 0); [lia|].
      unfold mret, M_ret. do 2 f_equal. zcase; lia.
    + mrun (ldc_run m q y Hb). inversion Hnb as [|? ? Hy Hnb']; subst. destruct (Z.eqb_spec (i8 x) (i8 y)) as [E|E].
      * by apply (IH b); [split|split|lia].
      * unfold mret, M_ret. do 2 f_equal. zcase; lia.
Qed.

Lemma str_order_zero a : forall b, is_str a -> is_str b -> str_order a b = 0 <-> a = b.
Proof.
  induction a as [|x a IH]; intros [|y b] Ha Hb; cbn [str_order]; [done| | |].
  - inversion Hb as [|? ? Hy _]; subst. split; [zcase; lia|done].
  - inversion Ha as [|? ? Hx _]; subst. split; [zcase; lia|done].
  - inversion Ha as [|? ? Hx Ha']; inversion Hb as [|? ? Hy Hb']; subst. destruct (Z.eqb_spec (i8 x) (i8 y)) as [E|E].
    + rewrite IH by done. apply i8_inj in E; [|lia|lia]. subst. split; [by intros ->|by intros [= ->]].
    + split; [zcase; lia|]. intros [= -> _]. done.
Qed.

(** ** Searching *)

Lemma strchr_loop_run l : forall fuel m p ch, str_at m p l -> (length l < fuel)%nat -> 0 < ch < 256 ->
  strchr_loop fuel p ch m = Ok (match list_find (fun c => i8 c = ch) l with
                                 | Some (i, _) => p + Z.of_nat i
                                 | None => NULL end, m).
Proof.
  induction l as [|b l IH]; intros [|fuel] m p ch [Hn Hs] Hf Hc; cbn [strchr_loop length bytes_at app list_find] in *; try lia.
  - destruct Hs as [Hb _]. by mrun (ldc_run m p 0 Hb).
  - destruct Hs as [Hb Hs]. inversion Hn as [|? ? Hb' Hn']; subst. mrun (ldc_run m p b Hb).
    pose proof (i8_nonzero b Hb'). destruct (Z.eqb_spec (i8 b) 0); [lia|].
    destruct (Z.eqb_spec (i8 b) ch) as [E|E].
    + rewrite decide_True by done. by rewrite Z.add_0_r.
    + rewrite decide_False by done. rewrite (IH fuel) by (done || lia || by split). do 2 f_equal.
      destruct (list_find _ l) as [[i c]|]; cbn; [lia|done].
Qed.

Lemma strrchr_loop_run l : forall fuel m p ch last, str_at m p l -> (length l < fuel)%nat -> 0 < ch < 256 ->
  strrchr_loop fuel p ch last m = Ok (match list_find (fun c => i8 c = ch) (reverse l) with
                                 | Some (i, _) => p + Z.of_nat (length l) - 1 - Z.of_nat i
                                 | None => last end, m).
Proof.
  induction l as [|b l IH]; intros [|fuel] m p ch last [Hn Hs] Hf Hc; cbn [strrchr_loop length bytes_at app] in *; try lia.
  - destruct Hs as [Hb _]. by mrun (ldc_run m p 0 Hb).
  - destruct Hs as [Hb Hs]. inversion Hn as [|? ? Hb' Hn']; subst. mrun (ldc_run m p b Hb).
    pose proof (i8_nonzero b Hb'). destruct (Z.eqb_spec (i8 b) 0); [lia|].
    rewrite (IH fuel) by (done || lia || by split). do 2 f_equal. rewrite reverse_cons.
    destruct (list_find (fun c => i8 c = ch) (reverse l)) as [[i c]|] eqn:Ef.
    + rewrite (list_find_app_l _ _ _ _ _ Ef). lia.
    + rewrite list_find_app_r by done. cbn [list_find]. destruct (Z.eqb_spec (i8 b) ch) as [E|E].
      * rewrite decide_True by done. cbn. rewrite length_reverse. lia.
      * by rewrite decide_False.
Qed.

Lemma strchrs_loop_run l : forall fuel m p ch n, str_at m p l -> (length l < fuel)%nat -> 0 < ch < 256 ->
  0 <= n -> n + Z.of_nat (length l) < 2 ^ 32 ->
  strchrs_loop fuel p ch n m = Ok (n + Z.of_nat (length (filter (fun c => i8 c = ch) l)), m).
Proof.
  induction l as [|b l IH]; intros [|fuel] m p ch n [Hn Hs] Hf Hc Hz Hlt; cbn [strchrs_loop length bytes_at app] in *; try lia.
  - destruct Hs as [Hb _]. mrun (ldc_run m p 0 Hb). change (i8 0) with 0. cbn [Z.eqb]. unfold mret, M_ret.
    do 2 f_equal. cbn. lia.
  - destruct Hs as [Hb Hs]. inversion Hn as [|? ? Hb' Hn']; subst. mrun (ldc_run m p b Hb).
    pose proof (i8_nonzero b Hb'). destruct (Z.eqb_spec (i8 b) 0); [lia|]. rewrite filter_cons.
    destruct (Z.eqb_spec (i8 b) ch) as [E|E].
    + rewrite wrapu_small by lia. rewrite (IH fuel) by (done || lia || by split). rewrite decide_True by done.
      cbn [length]. do 2 f_equal. lia.
    + rewrite (IH fuel) by (done || lia || by split). by rewrite decide_False.
Qed.

(** ** Theorems *)

(** The pointer checks of the routines. *)
Lemma not_null1 {A} p w (k : () -> M mem A) m : p <> NULL -> (assertM (negb (p =? NULL)) w ≫= k) m = k tt m.
Proof. intros Hp. erewrite mbindM_Ok; [done|]. by apply assertM_run, negb_true_iff, Z.eqb_neq. Qed.
Lemma not_null2 {A} p q w (k : () -> M mem A) m : p <> NULL -> q <> NULL ->
  (assertM (negb (p =? NULL) && negb (q =? NULL)) w ≫= k) m = k tt m.
Proof.
  intros Hp Hq. erewrite mbindM_Ok; [done|]. apply assertM_run, andb_true_iff.
  split; by apply negb_true_iff, Z.eqb_neq.
Qed.

(** [strcpy] followed by [strcat] builds the concatenation: with [a] and
    [b] in memory and room for both behind [dst], clear of the sources, [dst]
    holds [a ++ b] with its terminating zero, [strlen] measures it, and no
    byte outside is changed. *)
Theorem strcpy_strcat_concatenate fuel m dst p q a b :
  str_at m p a -> str_at m q b -> p <> NULL -> q <> NULL -> dst <> NULL ->
  (length (a ++ b) < fuel)%nat -> Z.of_nat (length (a ++ b)) < 2 ^ 32 ->
  let n := Z.of_nat (length (a ++ b)) + 1 in
  room m dst n ->
  (forall s l, (s, l) ∈ [(p, a); (q, b)] -> dst + n <= s \/ s + Z.of_nat (length l) < dst) ->
  exists m1 m2, strcpy fuel dst p m = Ok (dst, m1) /\ strcat fuel dst q m1 = Ok (dst, m2) /\
    str_at m2 dst (a ++ b) /\ strlen fuel dst m2 = Ok (Z.of_nat (length (a ++ b)), m2) /\
    (forall x, x < dst \/ dst + n <= x -> m2 !! x = m !! x).
Proof.
  intros Ha Hb Hp Hq Hd Hf Hlt n Hr Hdis. unfold n in *. rewrite length_app in *.
  pose proof (Hdis p a ltac:(left)) as Da. pose proof (Hdis q b ltac:(right; left)) as Db.
  set (m1 := write m dst (a ++ [0])). set (m2 := write m1 (dst + Z.of_nat (length a)) (b ++ [0])).
  assert (copy_loop fuel dst p m = Ok (tt, m1)) as C1.
  { apply copy_loop_run; [done|lia| |lia]. apply (room_sub m dst (Z.of_nat (length a + length b) + 1)); [done|lia|lia]. }
  assert (str_at m1 dst a) as S1 by (split; [apply Ha|apply write_bytes_at]).
  assert (str_at m1 q b) as S2.
  { split; [apply Hb|]. apply (bytes_at_ext _ m); [|apply Hb]. intros x Hx. apply write_outside.
    rewrite length_app in *. cbn in *. lia. }
  assert (copy_loop fuel (dst + Z.of_nat (length a)) q m1 = Ok (tt, m2)) as C2.
  { apply copy_loop_run; [done|lia| |lia]. intros x Hx.
    destruct (decide (x < dst + Z.of_nat (length (a ++ [0])))) as [Hin|Hout].
    - apply (bytes_at_room (a ++ [0]) m1 dst); [apply write_bytes_at|lia].
    - unfold m1. rewrite write_outside by lia. apply Hr. lia. }
  assert (str_at m2 dst (a ++ b)) as S3.
  { split; [apply Forall_app; split; [apply Ha|apply Hb]|]. rewrite <- app_assoc. apply bytes_at_app.
    split; [|apply write_bytes_at]. apply (bytes_at_ext a m1); [intros x Hx; apply write_outside; lia|].
    destruct S1 as [_ S1]. apply bytes_at_app in S1. apply S1. }
  exists m1, m2. split; [unfold strcpy; rewrite (not_null2 _ _ _ _ _ Hd Hp); by mrun C1|].
  split; [|split; [done|split]].
  - unfold strcat. rewrite (not_null2 _ _ _ _ _ Hd Hq). erewrite mbindM_Ok by (apply (end_loop_run a); [done|lia]).
    replace (dst + Z.of_nat (length a) + 1 - 1) with (dst + Z.of_nat (length a)) by lia. by mrun C2.
  - unfold strlen. rewrite (not_null1 _ _ _ _ Hd).
    erewrite mbindM_Ok by (apply (end_loop_run (a ++ b)); [done|rewrite length_app; lia]).
    rewrite length_app. unfold mret, M_ret. do 2 f_equal. rewrite wrapu_small by lia. lia.
  - intros x Hx. unfold m2, m1. rewrite !write_outside; [done| |]; rewrite length_app; cbn; lia.
Qed.

(** [strcmp] decides equality and orders strings: its result is the
    lexicographic comparison on signed characters, and it is 0 exactly for
    equal strings. *)
Theorem strcmp_is_string_order fuel m p q a b :
  str_at m p a -> str_at m q b -> p <> NULL -> q <> NULL -> (length a < fuel)%nat ->
  strcmp fuel p q m = Ok (str_order a b, m) /\ (str_order a b = 0 <-> a = b).
Proof.
  intros Ha Hb Hp Hq Hf. split; [|apply str_order_zero; [apply Ha|apply Hb]].
  unfold strcmp. rewrite (not_null2 _ _ _ _ _ Hp Hq).
  by apply strcmp_loop_run.
Qed.

(** [strchr] and [strrchr] find the first and the last occurrence. *)
Theorem strchr_strrchr_find fuel m p l ch :
  str_at m p l -> p <> NULL -> (length l < fuel)%nat -> 0 < ch < 128 ->
  strchr fuel p ch m = Ok (match list_find (fun c => c = ch) l with Some (i, _) => p + Z.of_nat i | None => NULL end, m) /\
  strrchr fuel p ch m = Ok (match list_find (fun c => c = ch) (reverse l) with
                            | Some (i, _) => p + Z.of_nat (length l) - 1 - Z.of_nat i | None => NULL end, m).
Proof.
  intros Hs Hp Hf Hc.
  assert (forall l', Forall (fun b => 0 < b < 256) l' ->
    list_find (fun c => i8 c = ch) l' = list_find (fun c => c = ch) l') as He.
  { induction l' as [|b l' IH]; intros H; [done|]. inversion H as [|? ? Hb H']; subst. cbn [list_find]. rewrite IH by done.
    assert (i8 b = ch <-> b = ch) as E by (rewrite i8_byte by lia; destruct (Z.ltb_spec b 128); lia).
    destruct (decide (i8 b = ch)), (decide (b = ch)); tauto. }
  unfold strchr, strrchr. split; rewrite (not_null1 _ _ _ _ Hp).
  - rewrite (strchr_loop_run l) by (done || lia). rewrite He by apply Hs. done.
  - rewrite (strrchr_loop_run l) by (done || lia). rewrite He by (apply Forall_reverse, Hs). done.
Qed.

(** A character above 127 is never found: it is negative as a [char] and
    positive as a [uint8_t]. *)
Theorem strchr_misses_high_characters fuel m p l ch :
  str_at m p l -> p <> NULL -> (length l < fuel)%nat -> 128 <= ch < 256 -> strchr fuel p ch m = Ok (NULL, m).
Proof.
  intros Hs Hp Hf Hc. unfold strchr. rewrite (not_null1 _ _ _ _ Hp).
  rewrite (strchr_loop_run l) by (done || lia).
  destruct (list_find (fun c => i8 c = ch) l) as [[i c]|] eqn:E; [|done].
  apply list_find_Some in E as (H1 & H2 & _). destruct Hs as [Hs _]. unfold is_str in Hs. rewrite Forall_lookup in Hs.
  specialize (Hs i c H1). cbn in Hs. rewrite i8_byte in H2 by lia. destruct (Z.ltb_spec c 128); lia.
Qed.

(** ** Witnesses *)

(** "ab" at 16, "c" at 32, eight bytes at 64. *)
Definition demo_mem : mem := write (write (write ∅ 16 [97; 98; 0]) 32 [99; 0]) 64 (replicate 8 255).

Lemma demo_ab : str_at demo_mem 16 [97; 98].
Proof. split; [repeat constructor|vm_compute; repeat split]. Qed.
Lemma demo_c : str_at demo_mem 32 [99].
Proof. split; [repeat constructor|vm_compute; repeat split]. Qed.

Lemma strcpy_strcat_concatenate_witness :
  exists m1 m2, strcpy 10 64 16 demo_mem = Ok (64, m1) /\ strcat 10 64 32 m1 = Ok (64, m2) /\ str_at m2 64 [97; 98; 99].
Proof.
  destruct (strcpy_strcat_concatenate 10 demo_mem 64 16 32 [97; 98] [99] demo_ab demo_c) as (m1 & m2 & H1 & H2 & H3 & _).
  - discriminate.
  - discriminate.
  - discriminate.
  - cbn. lia.
  - cbn. lia.
  - intros a Ha. cbn in Ha. assert (a = 64 \/ a = 65 \/ a = 66 \/ a = 67) as [->|[->|[->| ->]]] by lia; vm_compute; eauto.
  - intros s l Hl. cbn. apply elem_of_cons in Hl as [[= -> ->]|Hl]; [cbn; lia|].
    apply list_elem_of_singleton in Hl as [= -> ->]. cbn. lia.
  - exists m1, m2. exact (conj H1 (conj H2 H3)).
Defined.

Lemma strcmp_is_string_order_witness : strcmp 10 16 32 demo_mem = Ok (-1, demo_mem).
Proof.
  apply (strcmp_is_string_order 10 demo_mem 16 32 [97; 98] [99] demo_ab demo_c); [discriminate|discriminate|cbn; lia].
Defined.
