(* ===== verification/Stdio.v ===== *)
(** * Formatted output (lib/stdio.c)

    [vsprintf] on the memory of [CString]; the variable arguments are the list
    of their stack words.  [itoa] recurses once per digit, so 32 levels are
    enough for a 32-bit number in any base from 2 on. *)

From S2P Require Import Prelude CString.
From Stdlib Require Import Ascii.

Definition digit_char (m : Z) : Z := if m <? 10 then m + 48 else m - 10 + 65.

(** [buf_ptr] is [*buf_ptr_addr]; the result is its new value. *)
Fixpoint itoa (fuel : nat) (value buf_ptr base : Z) : M mem Z :=
  match fuel with
  | O => fun _ => NoFuel
  | S f =>
      let m := value mod base in
      let i := value / base in
      buf_ptr ← (if truth i then itoa f i buf_ptr base else mret buf_ptr);
      _ ← sto buf_ptr (digit_char m);
      mret (buf_ptr + 1)
  end.

Definition next_arg (ap : list Z) : outcome (Z * list Z) :=
  match ap with a :: ap' => Ok (a, ap') | [] => Fault end.

Definition ascii_code (a : ascii) : Z := Z.of_N (N_of_ascii a).

(** The loop of [vsprintf]; [index_char] is the character at [index_ptr]. *)
Fixpoint vsprintf_loop (fuel : nat) (buf_ptr index_ptr index_char : Z) (ap : list Z) : M mem () :=
  match fuel with
  | O => fun _ => NoFuel
  | S f =>
      if index_char =? 0 then mret tt
      else if negb (index_char =? ascii_code "%") then
        _ ← sto buf_ptr index_char;
        c ← ldc (index_ptr + 1);
        vsprintf_loop f (buf_ptr + 1) (index_ptr + 1) c ap
      else
        let index_ptr := index_ptr + 1 in
        index_char ← ldc index_ptr;
        if index_char =? ascii_code "s" then
          a ← liftO (next_arg ap);
          let '(arg_str, ap) := a in
          _ ← strcpy fuel buf_ptr arg_str;
          n ← strlen fuel arg_str;
          c ← ldc (index_ptr + 1);
          vsprintf_loop f (buf_ptr + n) (index_ptr + 1) c ap
        else if index_char =? ascii_code "c" then
          a ← liftO (next_arg ap);
          let '(arg_char, ap) := a in
          _ ← sto buf_ptr arg_char;
          c ← ldc (index_ptr + 1);
          vsprintf_loop f (buf_ptr + 1) (index_ptr + 1) c ap
        else if index_char =? ascii_code "d" then
          a ← liftO (next_arg ap);
          let '(arg, ap) := a in
          let arg_int := i32 arg in
          _ ← (if arg_int <? 0 then sto buf_ptr (ascii_code "-") else mret tt);
          buf_ptr ← itoa 33 (u32 (if arg_int <? 0 then i32 (0 - arg_int) else arg_int))
                      (if arg_int <? 0 then buf_ptr + 1 else buf_ptr) 10;
          c ← ldc (index_ptr + 1);
          vsprintf_loop f buf_ptr (index_ptr + 1) c ap
        else if index_char =? ascii_code "x" then
          a ← liftO (next_arg ap);
          let '(arg, ap) := a in
          buf_ptr ← itoa 33 (u32 (i32 arg)) buf_ptr 16;
          c ← ldc (index_ptr + 1);
          vsprintf_loop f buf_ptr (index_ptr + 1) c ap
        else vsprintf_loop f buf_ptr index_ptr index_char ap
  end.

Definition vsprintf (fuel : nat) (str format : Z) (ap : list Z) : M mem Z :=
  c ← ldc format;
  _ ← vsprintf_loop fuel str format c ap;
  strlen fuel str.

Definition sprintf (fuel : nat) (buf format : Z) (args : list Z) : M mem Z := vsprintf fuel buf format args.

(** ** Numerals *)

(** The digits of a number, most significant first. *)
Fixpoint digits (fuel : nat) (base v : Z) : list Z :=
  match fuel with
  | O => []
  | S f => (if v / base =? 0 then [] else digits f base (v / base)) ++ [v mod base]
  end.

Definition char_digit (c : Z) : option Z :=
  if (48 <=? c) && (c <=? 57) then Some (c - 48)
  else if (65 <=? c) && (c <=? 90) then Some (c - 55) else None.

(** Reading a numeral, as [strtoul] would. *)
Fixpoint numeral (base : Z) (l : list Z) (acc : Z) : option Z :=
  match l with
  | [] => Some acc
  | c :: l' => match char_digit c with
               | Some d => if d <? base then numeral base l' (acc * base + d) else None
               | None => None
               end
  end.

Lemma numeral_app base l1 : forall l2 acc v, numeral base l1 acc = Some v -> numeral base (l1 ++ l2) acc = numeral base l2 v.
Proof.
  induction l1 as [|c l1 IH]; intros l2 acc v; cbn; [by intros [= ->]|].
  destruct (char_digit c) as [d|]; [|done]. destruct (d <? base); [apply IH|done].
Qed.

Lemma char_digit_char d : 0 <= d < 36 -> char_digit (digit_char d) = Some d.
Proof.
  intros Hd. apply (forall_range_dec (fun d => bool_decide (char_digit (digit_char d) = Some d)) 36) in Hd; [|by vm_compute].
  by apply bool_decide_eq_true in Hd.
Qed.

Lemma digits_value fuel base : 2 <= base <= 36 -> forall v, 0 <= v < 2 ^ Z.of_nat fuel -> (0 < fuel)%nat ->
  numeral base (digit_char <$> digits fuel base v) 0 = Some v.
Proof.
  intros Hb. induction fuel as [|f IH]; intros v Hv Hf; [lia|]. cbn [digits]. rewrite fmap_app.
  assert (0 <= v mod base < base) as Hm by (apply Z.mod_pos_bound; lia).
  assert (v = base * (v / base) + v mod base) as Ev by (apply Z.div_mod; lia).
  assert (0 <= v / base) as Hq by (apply Z.div_pos; lia).
  assert (v / base < 2 ^ Z.of_nat f) as Hlt.
  { rewrite Nat2Z.inj_succ, Z.pow_succ_r in Hv by lia. apply Z.div_lt_upper_bound; nia. }
  destruct (Z.eqb_spec (v / base) 0) as [E|E].
  - cbn [app fmap list_fmap numeral]. rewrite char_digit_char by lia.
    destruct (Z.ltb_spec (v mod base) base); [|lia]. f_equal. rewrite E in Ev. lia.
  - assert (0 < f)%nat by (destruct f; cbn in Hlt; lia).
    rewrite (numeral_app _ _ _ _ (v / base)) by (apply IH; lia). cbn [fmap list_fmap numeral].
    rewrite char_digit_char by lia. destruct (Z.ltb_spec (v mod base) base); [|lia]. f_equal. lia.
Qed.

Lemma digits_length fuel base v : (length (digits fuel base v) <= fuel)%nat.
Proof.
  revert v. induction fuel as [|f IH]; intros v; cbn [digits]; [done|]. rewrite length_app. cbn.
  destruct (v / base =? 0); cbn; [lia|]. specialize (IH (v / base)). lia.
Qed.

(** No leading zero but for the number zero. *)
Lemma digits_head fuel base : 2 <= base -> forall v, 0 < v < 2 ^ Z.of_nat fuel -> exists d l, digits fuel base v = d :: l /\ 0 < d < base.
Proof.
  intros Hb. induction fuel as [|f IH]; intros v Hv; [cbn in Hv; lia|]. cbn [digits].
  assert (0 <= v mod base < base) as Hm by (apply Z.mod_pos_bound; lia).
  assert (v = base * (v / base) + v mod base) as Ev by (apply Z.div_mod; lia).
  assert (0 <= v / base) as Hq by (apply Z.div_pos; lia).
  destruct (Z.eqb_spec (v / base) 0) as [E|E].
  - exists (v mod base), []. split; [done|]. rewrite E in Ev. lia.
  - destruct (IH (v / base)) as (d & l & Ed & Hd).
    { rewrite Nat2Z.inj_succ, Z.pow_succ_r in Hv by lia. split; [lia|]. apply Z.div_lt_upper_bound; nia. }
    rewrite Ed. by exists d, (l ++ [v mod base]).
Qed.

Lemma room_write l : forall m p q n, room m q n -> room (write m p l) q n.
Proof. induction l as [|b l IH]; intros m p q n H; cbn [write]; [done|]. by apply IH, room_insert. Qed.

Lemma write_snoc l : forall m p b, <[p + Z.of_nat (length l) := b]> (write m p l) = write m p (l ++ [b]).
Proof.
  induction l as [|c l IH]; intros m p b; cbn [write length app]; [by rewrite Z.add_0_r|].
  rewrite <- IH. f_equal. lia.
Qed.

Lemma itoa_run fuel base : 2 <= base <= 36 -> forall v p m, 0 <= v < 2 ^ Z.of_nat fuel -> (0 < fuel)%nat ->
  let ds := digit_char <$> digits fuel base v in
  room m p (Z.of_nat (length ds)) -> itoa fuel v p base m = Ok (p + Z.of_nat (length ds), write m p ds).
Proof.
  intros Hb. induction fuel as [|f IH]; intros v p m Hv Hf; [lia|]. cbn [itoa digits]. rewrite fmap_app. cbn [fmap list_fmap].
  set (rest := digit_char <$> (if v / base =? 0 then [] else digits f base (v / base))). cbn zeta.
  rewrite length_app. cbn [length]. intros Hr.
  assert (0 <= v mod base < base) as Hm by (apply Z.mod_pos_bound; lia).
  assert (0 <= v / base) as Hq by (apply Z.div_pos; lia).
  assert (v / base < 2 ^ Z.of_nat f) as Hlt.
  { rewrite Nat2Z.inj_succ, Z.pow_succ_r in Hv by lia. apply Z.div_lt_upper_bound; nia. }
  assert ((if truth (v / base) then itoa f (v / base) p base else mret p) m = Ok (p + Z.of_nat (length rest), write m p rest)) as R.
  { unfold truth, rest. destruct (Z.eqb_spec (v / base) 0) as [E|E]; cbn [negb]; [cbn; by rewrite Z.add_0_r|].
    assert (0 < f)%nat by (destruct f; cbn in Hlt; lia).
    apply IH; [lia|lia|]. unfold rest in Hr. destruct (Z.eqb_spec (v / base) 0); [lia|].
    eapply room_sub; [exact Hr|lia|lia]. }
  mrun R. erewrite mbindM_Ok by (apply sto_run, room_write with (n := Z.of_nat (length rest + 1)) (q := p); [done|lia]).
  rewrite wrapu_small by (unfold digit_char; destruct (Z.ltb_spec (v mod base) 10); lia).
  rewrite write_snoc. unfold mret, M_ret. do 2 f_equal. lia.
Qed.

(** ** Theorems *)

(** [itoa] prints numbers faithfully: with room for 32 characters it writes
    a numeral without leading zero, of at most 32 digits, that reads back as
    the number, and changes nothing else. *)
Theorem itoa_roundtrip value p base m :
  2 <= base <= 36 -> 0 <= value < 2 ^ 32 -> room m p 32 ->
  exists l, itoa 32 value p base m = Ok (p + Z.of_nat (length l), write m p l) /\
    numeral base l 0 = Some value /\ (0 < length l <= 32)%nat /\ (value <> 0 -> head l <> Some 48).
Proof.
  intros Hb Hv Hr. exists (digit_char <$> digits 32 base value).
  pose proof (digits_length 32 base value) as Hl. split; [|split; [|split; [rewrite length_fmap; split; [|done]|]]].
  - apply itoa_run; [done|done|lia|]. rewrite length_fmap. eapply room_sub; [exact Hr|lia|lia].
  - apply digits_value; [done|done|lia].
  - cbn [digits]. rewrite length_app. cbn. lia.
  - intros Hne. destruct (digits_head 32 base) with (v := value) as (d & l & E & Hd); [lia|lia|].
    rewrite E. cbn. unfold digit_char. destruct (Z.ltb_spec d 10); intros [= ?]; lia.
Qed.

Lemma itoa_roundtrip_witness :
  exists l, itoa 32 255 64 16 (write ∅ 64 (replicate 40 0)) = Ok (64 + Z.of_nat (length l), write (write ∅ 64 (replicate 40 0)) 64 l) /\
    numeral 16 l 0 = Some 255.
Proof.
  destruct (itoa_roundtrip 255 64 16 (write ∅ 64 (replicate 40 0))) as (l & H1 & H2 & _).
  - lia.
  - lia.
  - intros a Ha. apply (bytes_at_room (replicate 40 0) _ 64); [apply write_bytes_at|].
    rewrite length_replicate. lia.
  - exists l. exact (conj H1 H2).
Defined.

(** [vsprintf] does not terminate its output: the same call on a buffer of
    zeros and on a used one. *)
Definition demo_format : mem := write ∅ 16 ([110; 61; 37; 100; 0]).  (* "n=%d" *)
Example vsprintf_zeroed :
  vsprintf 20 64 16 [u32 (-12)] (write demo_format 64 (replicate 8 0)) =
    Ok (5, write (write demo_format 64 (replicate 8 0)) 64 [110; 61; 45; 49; 50]).
Proof. vm_compute. reflexivity. Qed.
Example vsprintf_unterminated :
  vsprintf 20 64 16 [7] (write demo_format 64 [65; 65; 65; 65; 65; 65; 65; 0]) =
    Ok (7, write demo_format 64 [110; 61; 55; 65; 65; 65; 65; 0]).
Proof. vm_compute. reflexivity. Qed.
