(* ===== verification/Printf.v ===== *)
(** * What formatted output prints (lib/stdio.c)

    A format as the sequence of its pieces, the text it stands for, and the
    theorem that [vsprintf] writes that text.  The commands of the shell and the
    listing of the tasks print through it. *)

From S2P Require Import Prelude CString Stdio.
From Stdlib Require Import Ascii.

(** Plain characters and conversions with their arguments; a string argument is
    its address and its characters. *)
Inductive piece : Type :=
| Lit (c : Z)
| PStr (p : Z) (l : list Z)
| PChr (c : Z)
| PDec (v : Z)
| PHex (v : Z).

(** How a piece is written in the format string. *)
Definition spelled (q : piece) : list Z :=
  match q with
  | Lit c => [c]
  | PStr _ _ => [37; 115]
  | PChr _ => [37; 99]
  | PDec _ => [37; 100]
  | PHex _ => [37; 120]
  end.

(** The word of the argument list it takes. *)
Definition argument (q : piece) : list Z :=
  match q with Lit _ => [] | PStr p _ => [p] | PChr c => [c] | PDec v => [u32 v] | PHex v => [v] end.

(** The text of a number. *)
Definition decimal (v : Z) : list Z := digit_char <$> digits 33 10 v.
Definition hexadecimal (v : Z) : list Z := digit_char <$> digits 33 16 v.
Definition signed_decimal (v : Z) : list Z := if v <? 0 then 45 :: decimal (- v) else decimal v.

Definition printed (q : piece) : list Z :=
  match q with
  | Lit c => [c]
  | PStr _ l => l
  | PChr c => [c]
  | PDec v => signed_decimal v
  | PHex v => hexadecimal v
  end.

Definition format_of (qs : list piece) : list Z := concat (spelled <$> qs).
Definition args_of (qs : list piece) : list Z := concat (argument <$> qs).
Definition text_of (qs : list piece) : list Z := concat (printed <$> qs).

(** The values of the pieces are those of their C types. *)
Definition piece_ok (q : piece) : Prop :=
  match q with
  | Lit c => 0 < c < 256 /\ c <> 37
  | PStr p l => p <> NULL /\ is_str l
  | PChr c => 0 < c < 256
  | PDec v => - 2 ^ 31 <= v < 2 ^ 31
  | PHex v => 0 <= v < 2 ^ 32
  end.

(** ** Numbers are text *)

Lemma digits_range fuel base : 0 < base -> forall v, Forall (fun d => 0 <= d < base) (digits fuel base v).
Proof.
  intros Hb. induction fuel as [|f IH]; intros v; cbn [digits]; [constructor|]. apply Forall_app. split.
  - destruct (v / base =? 0); [constructor|apply IH].
  - apply Forall_singleton, Z.mod_pos_bound. lia.
Qed.

Lemma digit_text base v : 0 < base <= 36 -> is_str (digit_char <$> digits 33 base v).
Proof.
  intros Hb. apply Forall_fmap. eapply Forall_impl; [apply (digits_range 33 base); lia|]. intros d Hd. cbn in Hd |- *.
  unfold digit_char. destruct (Z.ltb_spec d 10); lia.
Qed.

Lemma printed_str q : piece_ok q -> is_str (printed q).
Proof.
  destruct q; cbn [piece_ok printed].
  - intros []. by apply Forall_singleton.
  - tauto.
  - intros. by apply Forall_singleton.
  - intros _. unfold signed_decimal. destruct (_ <? _); [constructor; [lia|]|]; apply digit_text; lia.
  - intros _. apply digit_text; lia.
Qed.

Lemma text_str qs : Forall piece_ok qs -> is_str (text_of qs).
Proof.
  intros H. apply Forall_concat, Forall_fmap. eapply Forall_impl; [exact H|]. intros q Hq. by apply printed_str.
Qed.

Lemma spelled_str q : piece_ok q -> is_str (spelled q).
Proof. unfold is_str. destruct q; cbn; intros H; repeat (apply Forall_cons; split; [lia|]); constructor. Qed.

Lemma format_str qs : Forall piece_ok qs -> is_str (format_of qs).
Proof.
  intros H. apply Forall_concat, Forall_fmap. eapply Forall_impl; [exact H|]. intros q Hq. by apply spelled_str.
Qed.

(** ** The buffer *)

Definition zeros (m : mem) (p n : Z) : Prop := forall a, p <= a < p + n -> m !! a = Some 0.

(** [n] bytes at [p] lie outside the buffer of [N] bytes at [B]. *)
Definition clear_of (B N p n : Z) : Prop := p + n <= B \/ B + N <= p.

Lemma write_app l1 : forall m p l2, write m p (l1 ++ l2) = write (write m p l1) (p + Z.of_nat (length l1)) l2.
Proof.
  induction l1 as [|b l1 IH]; intros m p l2; cbn [write app length]; [by rewrite Z.add_0_r|].
  rewrite IH. f_equal. lia.
Qed.

(** Writing a zero over a zero. *)
Lemma write_terminator m p l : zeros m p (Z.of_nat (length l) + 1) -> write m p (l ++ [0]) = write m p l.
Proof.
  intros Hz. rewrite write_app. cbn [write]. apply insert_id. rewrite write_outside by lia. apply Hz. lia.
Qed.

Lemma zeros_write m p l n : zeros m p (Z.of_nat (length l) + n) -> zeros (write m p l) (p + Z.of_nat (length l)) n.
Proof. intros Hz a Ha. rewrite write_outside by lia. apply Hz. lia. Qed.

Lemma zeros_room m p n : zeros m p n -> room m p n.
Proof. intros Hz a Ha. rewrite Hz by done. by eexists. Qed.

Lemma str_at_write B N m p l q t : str_at m q t -> clear_of B N q (Z.of_nat (length t) + 1) ->
  B <= p -> p + Z.of_nat (length l) <= B + N -> str_at (write m p l) q t.
Proof.
  intros [Hs Hb] Hc H1 H2. split; [done|]. apply (bytes_at_ext _ m); [|done]. rewrite length_app. cbn. intros a Ha.
  apply write_outside. destruct Hc; lia.
Qed.

Lemma str_at_tail m p c l : str_at m p (c :: l) -> str_at m (p + 1) l.
Proof. intros [Hs [_ Hb]]. inversion Hs; subst. by split. Qed.

Lemma str_at_head m p l : str_at m p l -> ldc p m = Ok (i8 (hd 0 l), m).
Proof. intros [Hs Hb]. apply ldc_run. by destruct l; cbn in *; destruct Hb. Qed.

Lemma u8_i8 c : 0 <= c < 256 -> u8 (i8 c) = c.
Proof.
  intros H. rewrite i8_byte by done. unfold wrapu. change (2 ^ 8) with 256. destruct (Z.ltb_spec c 128); [apply Z.mod_small; lia|].
  symmetry. apply (Z.mod_unique_pos _ _ (-1)); lia.
Qed.

(** ** The loop *)

(** The rest [qs] of the format is at [idx], the buffer from [b] on is zero and
    has room for its text, and no source overlaps the buffer. *)
Record ready (B N : Z) (qs : list piece) (fuel : nat) (m : mem) (b idx : Z) : Prop := {
  r_ok : Forall piece_ok qs;
  r_fmt : str_at m idx (format_of qs);
  r_fmt_clear : clear_of B N idx (Z.of_nat (length (format_of qs)) + 1);
  r_strs : Forall (fun q => match q with PStr p l => str_at m p l /\ clear_of B N p (Z.of_nat (length l) + 1) | _ => True end) qs;
  r_buf : 0 < B <= b;
  r_room : b + Z.of_nat (length (text_of qs)) + 1 <= B + N;
  r_zeros : zeros m b (Z.of_nat (length (text_of qs)) + 1);
  r_fuel : (length qs + length (text_of qs) < fuel)%nat
}.

Lemma text_cons q qs : text_of (q :: qs) = printed q ++ text_of qs.
Proof. reflexivity. Qed.
Lemma format_cons q qs : format_of (q :: qs) = spelled q ++ format_of qs.
Proof. reflexivity. Qed.
Lemma args_cons q qs : args_of (q :: qs) = argument q ++ args_of qs.
Proof. reflexivity. Qed.

Lemma str_at_drop l1 : forall m p l2, str_at m p (l1 ++ l2) -> str_at m (p + Z.of_nat (length l1)) l2.
Proof.
  intros m p l2 [Hs Hb]. apply Forall_app in Hs as [_ Hs]. split; [done|]. rewrite <- app_assoc in Hb.
  by apply bytes_at_app in Hb as [_ Hb].
Qed.

(** Behind a piece whose text is written. *)
Lemma ready_tail B N q qs fuel m b idx : ready B N (q :: qs) (S fuel) m b idx ->
  ready B N qs fuel (write m b (printed q)) (b + Z.of_nat (length (printed q))) (idx + Z.of_nat (length (spelled q))).
Proof.
  intros [H1 H2 H3 H4 H5 H6 H7 H8]. rewrite text_cons, format_cons, length_app in *.
  apply Forall_cons in H1 as [Hq H1]. apply Forall_cons in H4 as [_ H4]. split; [done| | | | | | |].
  - apply (str_at_write B N); [by apply str_at_drop|destruct H3; [left|right]; lia|lia|lia].
  - destruct H3; [left|right]; lia.
  - eapply Forall_impl; [exact H4|]. intros [c|p l|c|v|v]; try done. intros [Hp Hc]. split; [|done]. by apply (str_at_write B N); [| |lia|lia].
  - lia.
  - lia.
  - apply zeros_write. intros a Ha. apply H7. lia.
  - cbn [length] in H8. lia.
Qed.

(** The first character of a piece, and the one behind a conversion. *)
Lemma next_char m idx s r k : str_at m idx (s ++ r) -> Z.of_nat (length s) = k -> ldc (idx + k) m = Ok (i8 (hd 0 r), m).
Proof. intros H <-. by apply str_at_head, (str_at_drop s). Qed.

Lemma itoa_writes base v m b n : 2 <= base <= 36 -> 0 <= v < 2 ^ 32 -> zeros m b n ->
  Z.of_nat (length (digit_char <$> digits 33 base v)) <= n ->
  itoa 33 v b base m = Ok (b + Z.of_nat (length (digit_char <$> digits 33 base v)), write m b (digit_char <$> digits 33 base v)).
Proof.
  intros Hb Hv Hz Hn. apply itoa_run; [done|cbn; lia|lia|]. apply zeros_room. intros a Ha. apply Hz. lia.
Qed.

(** The next character is read from the memory with the piece written. *)
Lemma char_behind B N q qs fuel m b idx : ready B N (q :: qs) (S fuel) m b idx ->
  ldc (idx + Z.of_nat (length (spelled q))) (write m b (printed q)) = Ok (i8 (hd 0 (format_of qs)), write m b (printed q)).
Proof. intros R. apply str_at_head. apply (r_fmt _ _ _ _ _ _ _ (ready_tail _ _ _ _ _ _ _ _ R)). Qed.

Lemma conv_char B N q qs fuel m b idx c : ready B N (q :: qs) (S fuel) m b idx -> spelled q = [37; c] -> 0 < c < 128 ->
  ldc (idx + 1) m = Ok (c, m).
Proof.
  intros R Es Hc. pose proof (r_fmt _ _ _ _ _ _ _ R) as Hf. rewrite format_cons, Es in Hf.
  rewrite (next_char m idx [37] (c :: format_of qs) 1) by done. cbn [hd]. by rewrite i8_byte by lia; destruct (Z.ltb_spec c 128); [|lia].
Qed.

Lemma sto_writes m b c n : zeros m b n -> 0 < n -> 0 <= c < 256 -> sto b c m = Ok (tt, write m b [c]).
Proof.
  intros Hz Hn Hc. rewrite sto_run by (rewrite Hz by lia; by eexists). cbn [write]. by rewrite wrapu_small by lia.
Qed.

Lemma u32_neg v : - 2 ^ 31 <= v < 0 -> u32 (i32 (0 - v)) = - v.
Proof. intros H. rewrite u32_i32. replace (0 - v) with (- v) by lia. apply wrapu_small. lia. Qed.

(** A [%s] copies its string, whose zero falls on a zero of the buffer. *)
Lemma copy_string B N p l qs fuel m b idx : ready B N (PStr p l :: qs) (S fuel) m b idx ->
  strcpy (S fuel) b p m = Ok (b, write m b l) /\ strlen (S fuel) p (write m b l) = Ok (u32 (Z.of_nat (length l)), write m b l).
Proof.
  intros [H1 H2 H3 H4 H5 H6 H7 H8]. rewrite text_cons, length_app in *. cbn [printed length] in *.
  apply Forall_cons in H1 as [[Hp _] _]. apply Forall_cons in H4 as [[Hs Hc] _].
  assert (zeros m b (Z.of_nat (length l) + 1)) as Hz by (intros a Ha; apply H7; lia).
  assert (str_at (write m b l) p l) as Hs' by (by apply (str_at_write B N); [| |lia|lia]).
  split.
  - unfold strcpy. rewrite not_null2 by (done || (unfold NULL; lia)).
    erewrite mbindM_Ok by (apply (copy_loop_run l); [done|lia|by apply zeros_room|unfold clear_of in Hc; lia]).
    by rewrite write_terminator.
  - unfold strlen. rewrite not_null1 by done. erewrite mbindM_Ok by (apply (end_loop_run l); [done|lia]).
    unfold mret, M_ret. do 3 f_equal. lia.
Qed.

(** A [%d] writes the sign and the digits. *)
Lemma print_decimal v m b n (k : Z -> M mem ()) : - 2 ^ 31 <= v < 2 ^ 31 -> zeros m b n -> Z.of_nat (length (signed_decimal v)) <= n ->
  (_ ← (if i32 (u32 v) <? 0 then sto b (ascii_code "-") else mret tt);
   buf_ptr ← itoa 33 (u32 (if i32 (u32 v) <? 0 then i32 (0 - i32 (u32 v)) else i32 (u32 v))) (if i32 (u32 v) <? 0 then b + 1 else b) 10;
   k buf_ptr) m = k (b + Z.of_nat (length (signed_decimal v))) (write m b (signed_decimal v)).
Proof.
  intros Hv Hz Hn.
  assert (i32 (u32 v) = v) as ->.
  { unfold wraps, wrapu. rewrite Z.mod_mod by lia. fold (wraps 32 v). by apply wraps_small. }
  unfold signed_decimal in *. destruct (Z.ltb_spec v 0) as [Hneg|Hpos].
  - cbn [length] in Hn. change (ascii_code "-") with 45. erewrite mbindM_Ok by (apply (sto_writes _ _ _ n); [done|lia|lia]).
    rewrite u32_neg by lia. erewrite mbindM_Ok.
    2: { apply (itoa_writes 10 (- v) _ _ (n - 1)); [lia|lia| |unfold decimal in Hn; lia]. apply (zeros_write m b [45]). cbn [length]. intros a Ha. apply Hz. lia. }
    fold (decimal (- v)). cbn [length write]. f_equal. lia.
  - rewrite mret_bind. rewrite wrapu_small by lia.
    erewrite mbindM_Ok by (apply (itoa_writes 10 v _ _ n); [lia|lia|done|done]). done.
Qed.

(** The loop meets a percent sign and reads the letter [c] behind it. *)
Ltac at_percent c R :=
  change (i8 37) with 37; change (37 =? 0) with false; change (negb (37 =? ascii_code "%")) with false; cbn iota;
  erewrite mbindM_Ok by (apply (conv_char _ _ _ _ _ _ _ _ c R); [done|lia]).

Lemma vsprintf_loop_run B N qs : N < 2 ^ 32 -> forall fuel m b idx, ready B N qs fuel m b idx ->
  vsprintf_loop fuel b idx (i8 (hd 0 (format_of qs))) (args_of qs) m = Ok (tt, write m b (text_of qs)).
Proof.
  intros HN. induction qs as [|q qs IH]; intros [|fuel] m b idx R; try (pose proof (r_fuel _ _ _ _ _ _ _ R); cbn in *; lia); [done|].
  pose proof (IH fuel _ _ _ (ready_tail _ _ _ _ _ _ _ _ R)) as Hk. pose proof (char_behind _ _ _ _ _ _ _ _ R) as Hn.
  pose proof (r_ok _ _ _ _ _ _ _ R) as [Hq _]%Forall_cons. pose proof (r_zeros _ _ _ _ _ _ _ R) as Hz. pose proof (r_room _ _ _ _ _ _ _ R) as Hr.
  pose proof (r_buf _ _ _ _ _ _ _ R) as HB.
  rewrite text_cons, length_app in Hz, Hr. rewrite text_cons, write_app, <- Hk. clear Hk IH.
  rewrite format_cons, args_cons. cbn [vsprintf_loop]. destruct q as [c|p l|c|v|v]; cbn [spelled printed argument app hd length piece_ok] in *.
  - rewrite i8_zero by lia. destruct (Z.eqb_spec c 0); [lia|].
    assert ((i8 c =? ascii_code "%") = false) as ->.
    { change (ascii_code "%") with 37. apply Z.eqb_neq. rewrite i8_byte by lia. destruct (Z.ltb_spec c 128); lia. }
    cbn [negb]. erewrite mbindM_Ok.
    2: { rewrite sto_run by (rewrite Hz by lia; by eexists). rewrite u8_i8 by lia. reflexivity. }
    erewrite mbindM_Ok by exact Hn. done.
  - at_percent 115 R. change (115 =? ascii_code "s") with true. cbn iota.
    rewrite (liftO_bind _ (p, args_of qs)) by done. destruct (copy_string _ _ _ _ _ _ _ _ _ R) as [E1 E2].
    erewrite mbindM_Ok by exact E1. erewrite mbindM_Ok by exact E2. replace (idx + 1 + 1) with (idx + 2) by lia. erewrite mbindM_Ok by exact Hn.
    rewrite wrapu_small by lia. done.
  - at_percent 99 R. change (99 =? ascii_code "s") with false. change (99 =? ascii_code "c") with true. cbn iota.
    rewrite (liftO_bind _ (c, args_of qs)) by done. erewrite mbindM_Ok by (apply (sto_writes m b c _ Hz); lia).
    replace (idx + 1 + 1) with (idx + 2) by lia. erewrite mbindM_Ok by exact Hn. done.
  - at_percent 100 R.
    change (100 =? ascii_code "s") with false. change (100 =? ascii_code "c") with false. change (100 =? ascii_code "d") with true. cbn iota.
    rewrite (liftO_bind _ (u32 v, args_of qs)) by done. rewrite (print_decimal v m b _ _ Hq Hz) by lia.
    replace (idx + 1 + 1) with (idx + 2) by lia. erewrite mbindM_Ok by exact Hn. done.
  - at_percent 120 R.
    change (120 =? ascii_code "s") with false. change (120 =? ascii_code "c") with false. change (120 =? ascii_code "d") with false.
    change (120 =? ascii_code "x") with true. cbn iota.
    rewrite (liftO_bind _ (v, args_of qs)) by done. rewrite u32_i32, wrapu_small by lia. unfold hexadecimal in Hz |- *.
    erewrite mbindM_Ok by (apply (itoa_writes 16 v m b _ ltac:(lia) Hq Hz); lia).
    replace (idx + 1 + 1) with (idx + 2) by lia. erewrite mbindM_Ok by exact Hn. done.
Qed.

(** C37. [vsprintf] prints what its format says: into a zeroed buffer that has
    room for the text, apart from its sources, it writes the text of the format
    -- plain characters, strings, characters, signed decimal and hexadecimal
    numbers, the arguments taken in order -- and returns its length; no other
    byte of memory is changed. *)
Theorem vsprintf_formats (qs : list piece) (fuel : nat) (m : mem) (str N format : Z) :
  ready str N qs fuel m str format -> N < 2 ^ 32 ->
  vsprintf fuel str format (args_of qs) m = Ok (Z.of_nat (length (text_of qs)), write m str (text_of qs)).
Proof.
  intros R HN. pose proof (r_buf _ _ _ _ _ _ _ R) as HB. pose proof (r_zeros _ _ _ _ _ _ _ R) as Hz. pose proof (r_room _ _ _ _ _ _ _ R) as Hr.
  pose proof (r_fuel _ _ _ _ _ _ _ R) as Hf. unfold vsprintf.
  erewrite mbindM_Ok by (apply str_at_head, (r_fmt _ _ _ _ _ _ _ R)).
  erewrite mbindM_Ok by (by apply (vsprintf_loop_run str N)).
  unfold strlen. rewrite not_null1 by (unfold NULL; lia).
  erewrite mbindM_Ok.
  2: { apply (end_loop_run (text_of qs)); [|lia]. split; [apply text_str, (r_ok _ _ _ _ _ _ _ R)|].
       rewrite <- (write_terminator m str) by done. apply write_bytes_at. }
  unfold mret, M_ret. do 2 f_equal. rewrite wrapu_small by lia. lia.
Qed.

(** "pid %d: %s %x" with a negative number, a string and an address. *)
Definition demo_pieces : list piece := [Lit 112; Lit 58; PDec (-7); Lit 32; PStr 40 [105; 110; 105; 116]; Lit 32; PHex 0xC009F000; PChr 10].
Definition demo_print : mem := write (write (write ∅ 16 (format_of demo_pieces ++ [0])) 40 [105; 110; 105; 116; 0]) 64 (replicate 32 0).

Lemma demo_zero_buffer (m : mem) (p : Z) (n : nat) : zeros (write m p (replicate n 0)) p (Z.of_nat n).
Proof.
  revert m p. induction n as [|n IH]; intros m p a Ha; [lia|]. cbn [replicate write].
  destruct (decide (a = p)) as [->|]; [rewrite write_outside by lia; apply lookup_insert_eq|apply IH; lia].
Qed.

Lemma vsprintf_formats_witness :
  vsprintf 60 64 16 (args_of demo_pieces) demo_print = Ok (19, write demo_print 64 (text_of demo_pieces)) /\
  text_of demo_pieces = [112; 58; 45; 55; 32; 105; 110; 105; 116; 32; 67; 48; 48; 57; 70; 48; 48; 48; 10].
Proof.
  split; [|vm_compute; reflexivity].
  apply (vsprintf_formats demo_pieces 60 demo_print 64 32 16); [|lia]. split.
  - repeat (apply Forall_cons; split; [cbn; unfold NULL, is_str; repeat first [apply Forall_cons | apply Forall_nil_2 | split | lia]|]). constructor.
  - split; [|vm_compute; repeat split]. unfold is_str. cbn. repeat (apply Forall_cons; split; [lia|]). constructor.
  - vm_compute. by left.
  - do 4 (apply Forall_cons; split; [exact I|]). apply Forall_cons. split; [|do 3 (apply Forall_cons; split; [exact I|]); constructor].
    split; [|vm_compute; by left].
    split; [|vm_compute; repeat split]. unfold is_str. repeat (apply Forall_cons; split; [lia|]). constructor.
  - lia.
  - vm_compute. discriminate.
  - intros a Ha. apply (demo_zero_buffer _ 64 32). change (length (text_of demo_pieces)) with 19%nat in Ha. lia.
  - change (length (text_of demo_pieces)) with 19%nat. cbn. lia.
Defined.
