(* ===== verification/Disk.v ===== *)
(** * The disk driver (device/ide.c)

    A drive as the programmer sees it: task-file registers, a command register,
    a data port, a status register and a completion interrupt.  [ide_read] and
    [ide_write] program it in pieces of at most 256 sectors; the theorems show
    that they implement [disk_read] and [disk_write] on the array of sectors,
    which is the disk the file system is built on. *)

From S2P Require Import Prelude.

Definition SECTOR_SIZE : Z := 512.
Definition max_lba : Z := 80 * 1024 * 1024 / 512 - 1.

(** ** The array of sectors *)

(** Sectors by number; a sector never written holds zeros. *)
Abbreviation disk := (gmap Z (list Z)).

Definition zero_sector : list Z := replicate 512 0.
Definition sec (d : disk) (lba : Z) : list Z := default zero_sector (d !! lba).

(** [n] sectors from [lba] on. *)
Fixpoint secs (n : nat) (d : disk) (lba : Z) : list Z :=
  match n with O => [] | S n' => sec d lba ++ secs n' d (lba + 1) end.
Fixpoint put_secs (n : nat) (d : disk) (lba : Z) (buf : list Z) : disk :=
  match n with O => d | S n' => put_secs n' (<[lba := take 512 buf]> d) (lba + 1) (drop 512 buf) end.

(** Every piece of 256 sectors must start on the disk. *)
Definition in_reach (lba sec_cnt : Z) : bool := lba + 256 * ((sec_cnt - 1) / 256) <=? max_lba.

Definition disk_read (lba sec_cnt : Z) (d : disk) : outcome (list Z) :=
  _ ← ASSERT (lba <=? max_lba) "ide_read: lba <= max_lba";
  _ ← ASSERT (0 <? sec_cnt) "ide_read: sec_cnt > 0";
  _ ← ASSERT (in_reach lba sec_cnt) "select_sector: lba <= max_lba";
  Ok (secs (Z.to_nat sec_cnt) d lba).

Definition disk_write (lba : Z) (buf : list Z) (sec_cnt : Z) (d : disk) : outcome disk :=
  _ ← ASSERT (lba <=? max_lba) "ide_write: lba <= max_lba";
  _ ← ASSERT (0 <? sec_cnt) "ide_write: sec_cnt > 0";
  _ ← ASSERT (in_reach lba sec_cnt) "select_sector: lba <= max_lba";
  Ok (put_secs (Z.to_nat sec_cnt) d lba buf).

(** ** The drive and its channel *)

Inductive reg : Type := reg_sect_cnt | reg_lba_l | reg_lba_m | reg_lba_h | reg_dev.

Definition BIT_STAT_BSY : Z := 0x80.
Definition BIT_STAT_DRQ : Z := 0x8.
Definition BIT_DEV_MBS : Z := 0xa0.
Definition BIT_DEV_LBA : Z := 0x40.
Definition BIT_DEV_DEV : Z := 0x10.
Definition CMD_IDENTIFY : Z := 0xec.
Definition CMD_READ_SECTOR : Z := 0x20.
Definition CMD_WRITE_SECTOR : Z := 0x30.

(** Two drives share the registers.  [busy] is the number of times the status
    register will still show a command in progress, [fifo] the data waiting to
    be read, [wanted] the first sector and number of sectors of a write. *)
Record ata : Type := mk_ata {
  r_cnt : Z; r_lba_l : Z; r_lba_m : Z; r_lba_h : Z; r_dev : Z;
  master : disk; slave : disk;
  busy : Z; fifo : list Z; wanted : option (Z * Z); irq : bool
}.

(** [struct ide_channel]: the fields the transfers use. *)
Record ide_channel : Type := mk_chan { expecting_intr : bool; disk_done : Z; hw : ata }.

Definition set_hw (h : ata) (c : ide_channel) : ide_channel := mk_chan (expecting_intr c) (disk_done c) h.

(** [outb %b0, %w1]: the low byte reaches the port. *)
Definition outb (r : reg) (v : Z) : M ide_channel () := modS (fun c =>
  let h := hw c in
  let v := u8 v in
  set_hw (mk_ata
    (if r is reg_sect_cnt then v else r_cnt h) (if r is reg_lba_l then v else r_lba_l h)
    (if r is reg_lba_m then v else r_lba_m h) (if r is reg_lba_h then v else r_lba_h h)
    (if r is reg_dev then v else r_dev h)
    (master h) (slave h) (busy h) (fifo h) (wanted h) (irq h)) c).

Definition drive_lba (h : ata) : Z :=
  r_lba_l h + 256 * r_lba_m h + 65536 * r_lba_h h + 16777216 * (Z.land (r_dev h) 0xf).
Definition drive_cnt (h : ata) : Z := if r_cnt h =? 0 then 256 else r_cnt h.
Definition drive_is_slave (h : ata) : bool := Z.testbit (r_dev h) 4.
Definition drive_disk (h : ata) : disk := if drive_is_slave h then slave h else master h.

Section Driver.
(** How long the drive is busy with a command, in polls of the status; the 512
    bytes with which the master and the slave identify themselves. *)
Context (latency : Z) (identity : bool -> list Z).

(** The drive starts on a command: a read and an identification fill the data
    port and then interrupt; a write waits for the data. *)
Definition out_command (cmd : Z) : M ide_channel () := modS (fun c =>
  let h := hw c in
  if cmd =? CMD_READ_SECTOR then
    set_hw (mk_ata (r_cnt h) (r_lba_l h) (r_lba_m h) (r_lba_h h) (r_dev h) (master h) (slave h)
              0 (secs (Z.to_nat (drive_cnt h)) (drive_disk h) (drive_lba h)) None true) c
  else if cmd =? CMD_IDENTIFY then
    set_hw (mk_ata (r_cnt h) (r_lba_l h) (r_lba_m h) (r_lba_h h) (r_dev h) (master h) (slave h)
              0 (identity (drive_is_slave h)) None true) c
  else
    set_hw (mk_ata (r_cnt h) (r_lba_l h) (r_lba_m h) (r_lba_h h) (r_dev h) (master h) (slave h)
              latency [] (Some (drive_lba h, drive_cnt h)) (irq h)) c).

(** The status register; data can be moved unless the drive is busy. *)
Definition inb_status : M ide_channel Z := fun c =>
  let h := hw c in
  if 0 <? busy h then
    Ok (BIT_STAT_BSY, set_hw (mk_ata (r_cnt h) (r_lba_l h) (r_lba_m h) (r_lba_h h) (r_dev h) (master h) (slave h)
                       (busy h - 1) (fifo h) (wanted h) (irq h)) c)
  else Ok (match wanted h, fifo h with None, [] => 0 | _, _ => BIT_STAT_DRQ end, c).

Definition insw (word_cnt : Z) : M ide_channel (list Z) := fun c =>
  let h := hw c in
  let n := Z.to_nat (2 * word_cnt) in
  if (n <=? length (fifo h))%nat then
    Ok (take n (fifo h),
        set_hw (mk_ata (r_cnt h) (r_lba_l h) (r_lba_m h) (r_lba_h h) (r_dev h) (master h) (slave h)
                  (busy h) (drop n (fifo h)) (wanted h) (irq h)) c)
  else Fault.

(** The drive takes the data of a write, stores it and interrupts. *)
Definition outsw (data : list Z) : M ide_channel () := fun c =>
  let h := hw c in
  match wanted h with
  | Some (lba, n) =>
      if bool_decide (Z.of_nat (length data) = 512 * n) then
        let d := put_secs (Z.to_nat n) (drive_disk h) lba data in
        Ok (tt, set_hw (mk_ata (r_cnt h) (r_lba_l h) (r_lba_m h) (r_lba_h h) (r_dev h)
                   (if drive_is_slave h then master h else d) (if drive_is_slave h then d else slave h)
                   0 [] None true) c)
      else Fault
  | None => Fault
  end.

(** [struct disk]: the number on the channel. *)
Definition select_disk (dev_no : Z) : M ide_channel () :=
  let reg_device := Z.lor BIT_DEV_MBS BIT_DEV_LBA in
  outb reg_dev (if dev_no =? 1 then Z.lor reg_device BIT_DEV_DEV else reg_device).

Definition select_sector (dev_no lba sec_cnt : Z) : M ide_channel () :=
  _ ← assertM (lba <=? max_lba) "select_sector: lba <= max_lba";
  _ ← outb reg_sect_cnt (u8 sec_cnt);
  _ ← outb reg_lba_l lba;
  _ ← outb reg_lba_m (Z.shiftr lba 8);
  _ ← outb reg_lba_h (Z.shiftr lba 16);
  outb reg_dev (Z.lor (Z.lor (Z.lor BIT_DEV_MBS BIT_DEV_LBA) (if dev_no =? 1 then BIT_DEV_DEV else 0)) (Z.shiftr lba 24)).

Definition cmd_out (cmd : Z) : M ide_channel () :=
  _ ← modS (fun c => mk_chan true (disk_done c) (hw c));
  out_command cmd.

Definition read_from_sector (sec_cnt : Z) : M ide_channel (list Z) :=
  let size_in_byte := if u8 sec_cnt =? 0 then 256 * 512 else u8 sec_cnt * 512 in
  insw (size_in_byte / 2).

(** [buf] starts with the bytes to write. *)
Definition write2sector (buf : list Z) (sec_cnt : Z) : M ide_channel () :=
  let size_in_byte := if u8 sec_cnt =? 0 then 256 * 512 else u8 sec_cnt * 512 in
  outsw (take (Z.to_nat (2 * (size_in_byte / 2))) buf).

(** The loop condition [time_limit -= 10 >= 0] parses as [time_limit -= 1]:
    one poll less than [time_limit] says. *)
Fixpoint busy_loop (n : nat) : M ide_channel bool :=
  match n with
  | O => mret false
  | S n' =>
      st ← inb_status;
      if Z.land st BIT_STAT_BSY =? 0 then st ← inb_status; mret (truth (Z.land st BIT_STAT_DRQ))
      else busy_loop n'
  end.
Definition busy_wait : M ide_channel bool := busy_loop (Z.to_nat (30 * 1000 - 1)).

(** The interrupt handler of the channel, with the [sema_up] of [disk_done]. *)
Definition intr_hd_handler : M ide_channel () :=
  c ← getS;
  if expecting_intr c then
    _ ← modS (fun c => mk_chan false (disk_done c) (hw c));
    c ← getS;
    _ ← assertM (disk_done c =? 0) "sema_up: psema->value == 0";
    _ ← modS (fun c => mk_chan (expecting_intr c) (disk_done c + 1) (hw c));
    _ ← inb_status;
    mret tt
  else mret tt.

(** [sema_down(&disk_done)]: the thread sleeps until the drive interrupts; a
    drive that never does keeps it asleep ([NoFuel]). *)
Definition wait_disk_done : M ide_channel () := fun c =>
  let h := hw c in
  let run c' := match intr_hd_handler c' with
                | Ok (_, c') => if disk_done c' =? 0 then NoFuel else Ok (tt, mk_chan (expecting_intr c') (disk_done c' - 1) (hw c'))
                | Panic w => Panic w
                | Fault => Fault
                | NoFuel => NoFuel
                end in
  if irq h then
    run (set_hw (mk_ata (r_cnt h) (r_lba_l h) (r_lba_m h) (r_lba_h h) (r_dev h) (master h) (slave h)
                  (busy h) (fifo h) (wanted h) false) c)
  else if disk_done c =? 0 then NoFuel else Ok (tt, mk_chan (expecting_intr c) (disk_done c - 1) h).

(** The channel's lock is held from the first register write to the last
    transfer; it is a lock of [Sync]. *)
Fixpoint ide_read_loop (fuel : nat) (dev_no lba sec_cnt secs_done : Z) (buf : list Z) : M ide_channel (list Z) :=
  match fuel with
  | O => fun _ => NoFuel
  | S f =>
      if secs_done <? sec_cnt then
        let secs_op := if u32 (secs_done + 256) <=? sec_cnt then 256 else u32 (sec_cnt - secs_done) in
        _ ← select_sector dev_no (u32 (lba + secs_done)) secs_op;
        _ ← cmd_out CMD_READ_SECTOR;
        _ ← wait_disk_done;
        ready ← busy_wait;
        if negb ready then panicM "read sector failed!!!!!!"
        else
          data ← read_from_sector secs_op;
          ide_read_loop f dev_no lba sec_cnt (u32 (secs_done + secs_op)) (buf ++ data)
      else mret buf
  end.
Definition ide_read (fuel : nat) (dev_no lba sec_cnt : Z) : M ide_channel (list Z) :=
  _ ← assertM (lba <=? max_lba) "ide_read: lba <= max_lba";
  _ ← assertM (0 <? sec_cnt) "ide_read: sec_cnt > 0";
  _ ← select_disk dev_no;
  ide_read_loop fuel dev_no lba sec_cnt 0 [].

Fixpoint ide_write_loop (fuel : nat) (dev_no lba sec_cnt secs_done : Z) (buf : list Z) : M ide_channel () :=
  match fuel with
  | O => fun _ => NoFuel
  | S f =>
      if secs_done <? sec_cnt then
        let secs_op := if u32 (secs_done + 256) <=? sec_cnt then 256 else u32 (sec_cnt - secs_done) in
        _ ← select_sector dev_no (u32 (lba + secs_done)) secs_op;
        _ ← cmd_out CMD_WRITE_SECTOR;
        ready ← busy_wait;
        if negb ready then panicM "write sector failed!!!!!!"
        else
          _ ← write2sector (drop (Z.to_nat (secs_done * 512)) buf) secs_op;
          _ ← wait_disk_done;
          ide_write_loop f dev_no lba sec_cnt (u32 (secs_done + secs_op)) buf
      else mret tt
  end.
Definition ide_write (fuel : nat) (dev_no lba : Z) (buf : list Z) (sec_cnt : Z) : M ide_channel () :=
  _ ← assertM (lba <=? max_lba) "ide_write: lba <= max_lba";
  _ ← assertM (0 <? sec_cnt) "ide_write: sec_cnt > 0";
  _ ← select_disk dev_no;
  ide_write_loop fuel dev_no lba sec_cnt 0 buf.

(** [buf[idx + 1] = *dst++; buf[idx] = *dst++], with the index in a byte. *)
Fixpoint swap_loop (fuel : nat) (dst buf : list Z) (idx len : Z) : outcome (list Z) :=
  match fuel with
  | O => NoFuel
  | S f =>
      if idx <? len then
        a ← aget dst idx;
        buf ← aset buf (idx + 1) a;
        b ← aget dst (idx + 1);
        buf ← aset buf idx b;
        swap_loop f dst buf (u8 (idx + 2)) len
      else aset buf idx 0
  end.
Definition swap_pairs_bytes (dst buf : list Z) (len : Z) : outcome (list Z) := swap_loop 128 dst buf 0 len.

(** The local array [buf] starts with any contents [junk]. *)
Definition identify_disk (junk : list Z) (dev_no : Z) : M ide_channel () :=
  _ ← select_disk dev_no;
  _ ← cmd_out CMD_IDENTIFY;
  _ ← wait_disk_done;
  ready ← busy_wait;
  if negb ready then panicM "identify failed!!!!!!"
  else
    id_info ← read_from_sector 1;
    let sn_start := 10 * 2 in let sn_len := 20 in let md_start := 27 * 2 in let md_len := 40 in
    _ ← liftO (swap_pairs_bytes (drop (Z.to_nat sn_start) id_info) junk sn_len);
    _ ← liftO (swap_pairs_bytes (drop (Z.to_nat md_start) id_info) (replicate 64 0) md_len);
    mret tt.

End Driver.

(** ** Lemmas on sectors *)

Lemma max_lba_value : max_lba = 163839.
Proof. reflexivity. Qed.

Definition disk_wf (d : disk) : Prop := forall lba s, d !! lba = Some s -> length s = 512%nat.

Lemma sec_length d lba : disk_wf d -> length (sec d lba) = 512%nat.
Proof. intros Hd. unfold sec. destruct (d !! lba) as [s|] eqn:E; [exact (Hd lba s E)|apply length_replicate]. Qed.

Lemma secs_length n : forall d lba, disk_wf d -> length (secs n d lba) = (512 * n)%nat.
Proof.
  induction n as [|n IH]; intros d lba Hd; cbn [secs]; [done|]. rewrite length_app, sec_length, IH by done. lia.
Qed.

Lemma secs_add a : forall b d lba, secs (a + b) d lba = secs a d lba ++ secs b d (lba + Z.of_nat a).
Proof.
  induction a as [|a IH]; intros b d lba; cbn [secs Nat.add]; [by rewrite Z.add_0_r|].
  rewrite IH, <- app_assoc. do 3 f_equal. lia.
Qed.

Lemma put_secs_add a : forall b d lba buf,
  put_secs (a + b) d lba buf = put_secs b (put_secs a d lba buf) (lba + Z.of_nat a) (drop (512 * a) buf).
Proof.
  induction a as [|a IH]; intros b d lba buf; cbn [put_secs Nat.add]; [by rewrite Z.add_0_r, drop_0|].
  rewrite IH, drop_drop. f_equal; [lia|]. f_equal. lia.
Qed.

Lemma put_secs_wf n : forall d lba buf, disk_wf d -> (512 * n <= length buf)%nat -> disk_wf (put_secs n d lba buf).
Proof.
  induction n as [|n IH]; intros d lba buf Hd Hb; cbn [put_secs]; [done|]. apply IH.
  - intros a s. rewrite lookup_insert_Some. intros [[_ <-]|[_ Hs]]; [rewrite length_take; lia|by apply (Hd a)].
  - rewrite length_drop. lia.
Qed.

Lemma put_secs_take n : forall d lba buf, put_secs n d lba (take (512 * n) buf) = put_secs n d lba buf.
Proof.
  induction n as [|n IH]; intros d lba buf; cbn [put_secs]; [done|].
  rewrite take_take, skipn_firstn_comm. replace (512 `min` (512 * S n))%nat with 512%nat by lia.
  replace (512 * S n - 512)%nat with (512 * n)%nat by lia. apply IH.
Qed.

Lemma sec_put_secs n : forall d lba buf a,
  sec (put_secs n d lba buf) a =
    if decide (lba <= a < lba + Z.of_nat n) then take 512 (drop (512 * Z.to_nat (a - lba)) buf) else sec d a.
Proof.
  induction n as [|n IH]; intros d lba buf a; cbn [put_secs].
  { rewrite decide_False by lia. done. }
  rewrite IH. destruct (decide (lba + 1 <= a < lba + 1 + Z.of_nat n)) as [Hin|Hout].
  - rewrite decide_True by lia. rewrite drop_drop. f_equal. f_equal. lia.
  - destruct (decide (a = lba)) as [->|Hne].
    + rewrite decide_True by lia. replace (512 * Z.to_nat (lba - lba))%nat with 0%nat by lia. rewrite drop_0.
      unfold sec. by rewrite lookup_insert_eq.
    + rewrite decide_False by lia. unfold sec. by rewrite lookup_insert_ne.
Qed.

Lemma secs_ext n : forall d d' lba, (forall a, lba <= a < lba + Z.of_nat n -> sec d' a = sec d a) -> secs n d' lba = secs n d lba.
Proof.
  induction n as [|n IH]; intros d d' lba He; cbn [secs]; [done|].
  rewrite He by lia. f_equal. apply IH. intros a Ha. apply He. lia.
Qed.

Lemma secs_put n : forall d lba buf, (512 * n <= length buf)%nat -> secs n (put_secs n d lba buf) lba = take (512 * n) buf.
Proof.
  induction n as [|n IH]; intros d lba buf Hb; cbn [secs put_secs]; [done|].
  rewrite sec_put_secs, decide_False by lia. unfold sec at 1. rewrite lookup_insert_eq. cbn [default from_option id].
  rewrite IH by (rewrite length_drop; lia). rewrite <- (take_drop 512 buf) at 3.
  replace (512 * S n)%nat with (512 + 512 * n)%nat by lia. rewrite take_app_add' by (rewrite length_take; lia). done.
Qed.

(** A write of whole sectors inside a region, seen on the bytes of the region. *)
Lemma secs_write N n k d lba buf : disk_wf d -> (512 * n <= length buf)%nat -> (k + n <= N)%nat ->
  secs N (put_secs n d (lba + Z.of_nat k) buf) lba =
    take (512 * k) (secs N d lba) ++ take (512 * n) buf ++ drop (512 * (k + n)) (secs N d lba).
Proof.
  intros Hd Hb Hk. replace N with (k + (n + (N - k - n)))%nat by lia. rewrite !secs_add.
  assert (length (secs k d lba) = (512 * k)%nat) as Hl1 by (by apply secs_length).
  assert (length (secs n d (lba + Z.of_nat k)) = (512 * n)%nat) as Hl2 by (by apply secs_length).
  rewrite take_app_length' by done. f_equal.
  { apply secs_ext. intros a Ha. rewrite sec_put_secs, decide_False by lia. done. }
  rewrite secs_put by done. f_equal. rewrite drop_app_ge, drop_app_ge by (rewrite ?Hl1, ?Hl2; lia).
  replace (512 * (k + n) - length (secs k d lba) - length (secs n d (lba + Z.of_nat k)))%nat with 0%nat by lia.
  rewrite drop_0. apply secs_ext. intros a Ha. rewrite sec_put_secs, decide_False by lia. done.
Qed.

(** ** Swapping pairs *)

Fixpoint swapped (l : list Z) : list Z :=
  match l with a :: b :: l' => b :: a :: swapped l' | _ => [] end.


Lemma swap_loop_run k : forall fuel pre mid rest dn old x tl, (k < fuel)%nat -> length mid = (2 * k)%nat -> length old = (2 * k)%nat -> length dn = length pre ->
  Z.of_nat (length pre + 2 * k) <= 254 ->
  swap_loop fuel (pre ++ mid ++ rest) (dn ++ old ++ x :: tl) (Z.of_nat (length pre)) (Z.of_nat (length pre + 2 * k)) = Ok (dn ++ swapped mid ++ 0 :: tl).
Proof.
  induction k as [|k IH]; intros [|fuel] pre mid rest dn old x tl Hf Hm Ho Hd Hl; try lia; cbn [swap_loop].
  - apply nil_length_inv in Hm as ->. apply nil_length_inv in Ho as ->. destruct (Z.ltb_spec (Z.of_nat (length pre)) (Z.of_nat (length pre + 2 * 0))); [lia|]. cbn [app swapped]. by apply aset_at; lia.
  - destruct mid as [|a [|b mid]]; cbn in Hm; try lia. destruct old as [|y [|z old]]; cbn in Ho; try lia.
    destruct (Z.ltb_spec (Z.of_nat (length pre)) (Z.of_nat (length pre + 2 * S k))); [|lia]. cbn [app swapped].
    rewrite (aget_at pre a _ (Z.of_nat (length pre))) by done. rewrite bind_Ok. replace (dn ++ y :: z :: old ++ x :: tl) with ((dn ++ [y]) ++ z :: old ++ x :: tl) by (by rewrite <- app_assoc).
    rewrite (aset_at (dn ++ [y])) by (rewrite length_app; cbn; lia). rewrite bind_Ok. replace (pre ++ a :: b :: mid ++ rest) with ((pre ++ [a]) ++ b :: mid ++ rest) by (by rewrite <- app_assoc).
    rewrite (aget_at (pre ++ [a])) by (rewrite length_app; cbn; lia). rewrite bind_Ok, <- (app_assoc dn). cbn [app]. rewrite (aset_at dn) by lia. rewrite bind_Ok.
    rewrite wrapu_small by (change (2 ^ 8) with 256; lia).
    specialize (IH fuel (pre ++ [a; b]) mid rest (dn ++ [b; a]) old x tl ltac:(lia) ltac:(lia) ltac:(lia)). rewrite !length_app in IH. cbn [length] in IH.
    specialize (IH ltac:(lia) ltac:(lia)). rewrite <- !app_assoc in *. cbn [app] in *. rewrite <- IH. f_equal; lia.
Qed.

(** The bytes of every pair change places, and a zero ends the string. *)
Lemma swap_pairs_run k dst buf : (k < 128)%nat -> (2 * k <= length dst)%nat -> (2 * k < length buf)%nat ->
  swap_pairs_bytes dst buf (Z.of_nat (2 * k)) = Ok (swapped (take (2 * k) dst) ++ 0 :: drop (S (2 * k)) buf).
Proof.
  intros Hk Hd Hb. destruct (drop (2 * k) buf) as [|x tl] eqn:E; [apply (f_equal length) in E; rewrite length_drop in E; cbn in E; lia|].
  replace (drop (S (2 * k)) buf) with tl by (rewrite <- (drop_drop buf 1), E || (replace (S (2 * k)) with (2 * k + 1)%nat by lia; rewrite <- drop_drop, E); done).
  rewrite <- (take_drop (2 * k) dst) at 1. rewrite <- (take_drop (2 * k) buf), E. unfold swap_pairs_bytes.
  apply (swap_loop_run k 128 [] (take (2 * k) dst) (drop (2 * k) dst) [] (take (2 * k) buf) x tl); rewrite ?length_take; cbn; lia.
Qed.

(** ** One piece of a transfer *)

(** The disk of a device, and a channel with no command under way. *)
Definition view (dev_no : Z) (c : ide_channel) : disk := if dev_no =? 1 then slave (hw c) else master (hw c).
Definition set_view (dev_no : Z) (d : disk) (c : ide_channel) : disk * disk :=
  if dev_no =? 1 then (master (hw c), d) else (d, slave (hw c)).

Record quiet (c : ide_channel) : Prop := {
  qu_exp : expecting_intr c = false;
  qu_done : disk_done c = 0;
  qu_busy : busy (hw c) = 0;
  qu_fifo : fifo (hw c) = [];
  qu_want : wanted (hw c) = None;
  qu_irq : irq (hw c) = false
}.

(** The device register the driver writes. *)
Definition dev_byte (dev_no : Z) : Z := if dev_no =? 1 then 0xf0 else 0xe0.

Definition selected (dev_no lba n : Z) (c : ide_channel) : ide_channel :=
  let h := hw c in
  set_hw (mk_ata (u8 n) (u8 lba) (u8 (Z.shiftr lba 8)) (u8 (Z.shiftr lba 16)) (dev_byte dev_no)
            (master h) (slave h) (busy h) (fifo h) (wanted h) (irq h)) c.

Lemma select_sector_run dev_no lba n c : 0 <= lba <= max_lba ->
  select_sector dev_no lba n c = Ok (tt, selected dev_no lba n c).
Proof.
  intros Hl. unfold select_sector. erewrite mbindM_Ok by (apply assertM_run; lia).
  assert (Z.shiftr lba 24 = 0) as ->.
  { rewrite Z.shiftr_div_pow2 by lia. apply Z.div_small. rewrite max_lba_value in Hl. change (2 ^ 24) with 16777216. lia. }
  rewrite Z.lor_0_r. unfold selected, dev_byte.
  set (v := Z.lor _ _). assert (u8 v = if dev_no =? 1 then 240 else 224) as Hv by (unfold v; by destruct (dev_no =? 1)).
  clearbody v. rewrite <- Hv. unfold outb, modS, mbind, M_bind, set_hw. cbn [hw expecting_intr disk_done r_cnt r_lba_l r_lba_m r_lba_h r_dev master slave busy fifo wanted irq].
  by rewrite wrapu_idem by lia.
Qed.

Lemma selected_lba dev_no lba n c : 0 <= lba <= max_lba -> drive_lba (hw (selected dev_no lba n c)) = lba.
Proof.
  intros Hl. unfold drive_lba, selected, set_hw. cbn [hw r_lba_l r_lba_m r_lba_h r_dev].
  assert (Z.land (dev_byte dev_no) 15 = 0) as -> by (unfold dev_byte; by destruct (dev_no =? 1)).
  rewrite !Z.shiftr_div_pow2 by lia. unfold wrapu.
  change (2 ^ 8) with 256. change (2 ^ 16) with 65536. rewrite max_lba_value in Hl.
  assert (lba < 16777216) by lia. Z.div_mod_to_equations. lia.
Qed.

Lemma selected_cnt dev_no lba n c : 0 < n <= 256 -> drive_cnt (hw (selected dev_no lba n c)) = n.
Proof.
  intros Hn. unfold drive_cnt, selected, set_hw. cbn [hw r_cnt].
  destruct (decide (n = 256)) as [->|]; [done|]. rewrite wrapu_small by lia. destruct (Z.eqb_spec n 0); lia.
Qed.

Lemma selected_disk dev_no lba n c : drive_is_slave (hw (selected dev_no lba n c)) = (dev_no =? 1).
Proof. unfold drive_is_slave, selected, set_hw, dev_byte. cbn [hw r_dev]. by destruct (dev_no =? 1). Qed.

Lemma piece_bytes n : 0 < n <= 256 -> (if u8 n =? 0 then 256 * 512 else u8 n * 512) = n * 512.
Proof.
  intros Hn. destruct (decide (n = 256)) as [->|]; [done|]. rewrite wrapu_small by lia.
  destruct (Z.eqb_spec n 0); lia.
Qed.

Lemma busy_loop_run k : forall c n, busy (hw c) = Z.of_nat k -> (k < n)%nat -> (wanted (hw c) <> None \/ fifo (hw c) <> []) ->
  exists h, busy_loop n c = Ok (true, set_hw h c) /\ busy h = 0 /\ fifo h = fifo (hw c) /\ wanted h = wanted (hw c) /\
    irq h = irq (hw c) /\ master h = master (hw c) /\ slave h = slave (hw c) /\ r_dev h = r_dev (hw c).
Proof.
  induction k as [|k IH]; intros c [|n] Hb Hn Hw; try lia; cbn [busy_loop].
  - assert (inb_status c = Ok (BIT_STAT_DRQ, c)) as R.
    { unfold inb_status. rewrite Hb. cbn. destruct (wanted (hw c)) as [w|]; [done|].
      destruct (fifo (hw c)); [|done]. by destruct Hw. }
    mrun R. change (Z.land BIT_STAT_DRQ BIT_STAT_BSY =? 0) with true. cbn iota. mrun R. exists (hw c). split; [by destruct c|done].
  - set (h := hw c). set (c1 := set_hw (mk_ata (r_cnt h) (r_lba_l h) (r_lba_m h) (r_lba_h h) (r_dev h) (master h) (slave h)
                       (busy h - 1) (fifo h) (wanted h) (irq h)) c).
    assert (inb_status c = Ok (BIT_STAT_BSY, c1)) as R.
    { unfold inb_status. destruct (Z.ltb_spec 0 (busy (hw c))); [done|lia]. }
    mrun R. change (Z.land BIT_STAT_BSY BIT_STAT_BSY =? 0) with false. cbn iota.
    destruct (IH c1 n) as (h' & R' & H1 & H2 & H3 & H4 & H5 & H6 & H7); [cbn; fold h in Hb; lia|lia|done|].
    exists h'. split; [exact R'|]. done.
Qed.

Section Pieces.
Context (latency : Z) (identity : bool -> list Z) (Hlat : 0 <= latency < 29999).

Lemma read_piece dev_no lba n c : quiet c -> 0 <= lba <= max_lba -> 0 < n <= 256 -> disk_wf (view dev_no c) ->
  exists c', (forall A (k : bool -> M ide_channel A),
      (_ ← select_sector dev_no lba n; _ ← cmd_out latency identity CMD_READ_SECTOR; _ ← wait_disk_done; r ← busy_wait; k r) c = k true c') /\
    exists c'', read_from_sector n c' = Ok (secs (Z.to_nat n) (view dev_no c) lba, c'') /\ quiet c'' /\
      master (hw c'') = master (hw c) /\ slave (hw c'') = slave (hw c).
Proof.
  intros [Q1 Q2 Q3 Q4 Q5 Q6] Hl Hn Hd.
  set (c1 := selected dev_no lba n c). set (data := secs (Z.to_nat n) (view dev_no c) lba).
  assert (length data = (512 * Z.to_nat n)%nat) as Hlen by (by apply secs_length).
  set (h1 := hw c1).
  set (c2 := mk_chan true 0 (mk_ata (r_cnt h1) (r_lba_l h1) (r_lba_m h1) (r_lba_h h1) (r_dev h1) (master h1) (slave h1) 0 data None true)).
  set (c3 := mk_chan false 0 (mk_ata (r_cnt h1) (r_lba_l h1) (r_lba_m h1) (r_lba_h h1) (r_dev h1) (master h1) (slave h1) 0 data None false)).
  assert (data <> []) as Hne by (intros E; rewrite E in Hlen; cbn in Hlen; lia).
  assert (cmd_out latency identity CMD_READ_SECTOR c1 = Ok (tt, c2)) as R2.
  { unfold cmd_out, out_command, c2, modS, mbind, M_bind. do 2 f_equal. unfold set_hw. cbn [expecting_intr disk_done hw Z.eqb CMD_READ_SECTOR].
    fold h1. assert (drive_lba h1 = lba) as -> by (by apply selected_lba).
    assert (drive_cnt h1 = n) as -> by (by apply selected_cnt).
    assert (drive_disk h1 = view dev_no c) as -> by (unfold drive_disk, h1, c1; rewrite selected_disk; by destruct c).
    cbn [disk_done selected set_hw c1]. rewrite Q2. done. }
  assert (wait_disk_done c2 = Ok (tt, c3)) as R3.
  { unfold wait_disk_done, intr_hd_handler. cbn. unfold mbind, M_bind. cbn.
    unfold inb_status. cbn. destruct data; [done|]. done. }
  destruct (busy_loop_run 0 c3 (Z.to_nat (30 * 1000 - 1))) as (h4 & R4 & H1 & H2 & H3 & H4 & H5 & H6 & H7); [done|lia|by right|].
  exists (set_hw h4 c3). split.
  { intros A k. mrun (select_sector_run dev_no lba n c Hl). fold c1. mrun R2. mrun R3. by mrun R4. }
  eexists. split.
  { unfold read_from_sector, insw. rewrite piece_bytes by done. cbn [hw set_hw]. rewrite H2. cbn [fifo hw c3].
    replace (Z.to_nat (2 * (n * 512 / 2))) with (length data)
      by (rewrite Hlen; replace (n * 512 / 2) with (n * 256) by (replace (n * 512) with (n * 256 * 2) by lia; by rewrite Z.div_mul); lia).
    rewrite Nat.leb_refl, firstn_all, skipn_all. reflexivity. }
  split; [|cbn [hw set_hw master slave]; rewrite H5, H6; done]. by split.
Qed.

Lemma write_piece dev_no lba n buf c : quiet c -> 0 <= lba <= max_lba -> 0 < n <= 256 -> (512 * Z.to_nat n <= length buf)%nat ->
  exists c' c'', (forall A (k : bool -> M ide_channel A),
      (_ ← select_sector dev_no lba n; _ ← cmd_out latency identity CMD_WRITE_SECTOR; r ← busy_wait; k r) c = k true c') /\
    (forall A (k : M ide_channel A), (_ ← write2sector buf n; _ ← wait_disk_done; k) c' = k c'') /\ quiet c'' /\
      view dev_no c'' = put_secs (Z.to_nat n) (view dev_no c) lba buf /\
      (forall other, (other =? 1) <> (dev_no =? 1) -> view other c'' = view other c).
Proof.
  intros [Q1 Q2 Q3 Q4 Q5 Q6] Hl Hn Hb.
  set (c1 := selected dev_no lba n c). set (h1 := hw c1).
  set (c2 := mk_chan true 0 (mk_ata (r_cnt h1) (r_lba_l h1) (r_lba_m h1) (r_lba_h h1) (r_dev h1) (master h1) (slave h1)
                latency [] (Some (lba, n)) false)).
  assert (cmd_out latency identity CMD_WRITE_SECTOR c1 = Ok (tt, c2)) as R2.
  { unfold cmd_out, out_command, c2, modS, mbind, M_bind. do 2 f_equal. unfold set_hw. cbn [expecting_intr disk_done hw Z.eqb CMD_READ_SECTOR CMD_WRITE_SECTOR].
    fold h1. assert (drive_lba h1 = lba) as -> by (by apply selected_lba).
    assert (drive_cnt h1 = n) as -> by (by apply selected_cnt). cbn [disk_done selected set_hw c1]. rewrite Q2.
    unfold h1, c1. cbn [selected set_hw hw irq]. rewrite Q6. done. }
  destruct (busy_loop_run (Z.to_nat latency) c2 (Z.to_nat (30 * 1000 - 1))) as (h4 & R4 & H1 & H2 & H3 & H4 & H5 & H6 & H7);
    [cbn; lia|lia|by left|].
  assert (drive_is_slave h4 = (dev_no =? 1)) as Hsl.
  { unfold drive_is_slave. rewrite H7. exact (selected_disk dev_no lba n c). }
  set (data := take (512 * Z.to_nat n) buf).
  set (d' := put_secs (Z.to_nat n) (drive_disk h4) lba data).
  set (mk := fun i => mk_ata (r_cnt h4) (r_lba_l h4) (r_lba_m h4) (r_lba_h h4) (r_dev h4)
        (if drive_is_slave h4 then master h4 else d') (if drive_is_slave h4 then d' else slave h4) 0 [] None i).
  exists (set_hw h4 c2), (mk_chan false 0 (mk false)). split.
  { intros A k. mrun (select_sector_run dev_no lba n c Hl). fold c1. mrun R2. by mrun R4. }
  split; [|split; [by split|]].
  - intros A k. rewrite (mbindM_Ok _ _ _ tt (set_hw (mk true) c2)).
    + rewrite (mbindM_Ok _ _ _ tt (mk_chan false 0 (mk false))); [done|].
      unfold wait_disk_done, intr_hd_handler. cbn. unfold mbind, M_bind. cbn. unfold inb_status. cbn. done.
    + unfold write2sector, outsw. rewrite piece_bytes by done. cbn [hw set_hw]. rewrite H3. cbn [wanted hw c2].
      replace (Z.to_nat (2 * (n * 512 / 2))) with (512 * Z.to_nat n)%nat
        by (replace (n * 512 / 2) with (n * 256) by (replace (n * 512) with (n * 256 * 2) by lia; by rewrite Z.div_mul); lia).
      fold data. rewrite bool_decide_eq_true_2 by (unfold data; rewrite length_take; lia). reflexivity.
  - assert (drive_disk h4 = view dev_no c) as Ev.
    { unfold drive_disk, view. rewrite Hsl, H5, H6. by destruct (dev_no =? 1). }
    split.
    + unfold view at 1. cbn [hw mk master slave]. rewrite Hsl. unfold d', data. rewrite put_secs_take, Ev. by destruct (dev_no =? 1).
    + intros other Ho. unfold view. cbn [hw mk master slave]. rewrite Hsl, H5, H6.
      destruct (other =? 1), (dev_no =? 1); done.
Qed.

(** Identification leaves the channel idle and the drives as they were. *)
Lemma identify_disk_run junk dev_no c : quiet c -> (forall sl, length (identity sl) = 512%nat) -> length junk = 64%nat ->
  exists c', identify_disk latency identity junk dev_no c = Ok (tt, c') /\ quiet c' /\ master (hw c') = master (hw c) /\ slave (hw c') = slave (hw c).
Proof.
  intros Hq Hi Hj. unfold identify_disk. set (h := hw c).
  set (c1 := set_hw (mk_ata (r_cnt h) (r_lba_l h) (r_lba_m h) (r_lba_h h) (dev_byte dev_no) (master h) (slave h) (busy h) (fifo h) (wanted h) (irq h)) c).
  assert (select_disk dev_no c = Ok (tt, c1)) as R1 by (unfold select_disk, dev_byte, c1, dev_byte; by destruct (dev_no =? 1)).
  mrun R1. destruct Hq as [Q1 Q2 Q3 Q4 Q5 Q6]. set (data := identity (drive_is_slave (hw c1))). set (h1 := hw c1).
  set (mk := fun e d i => mk_chan e 0 (mk_ata (r_cnt h1) (r_lba_l h1) (r_lba_m h1) (r_lba_h h1) (r_dev h1) (master h1) (slave h1) 0 d None i)).
  assert (cmd_out latency identity CMD_IDENTIFY c1 = Ok (tt, mk true data true)) as R2.
  { unfold cmd_out, out_command, modS, mbind, M_bind, mk, set_hw. cbn [expecting_intr disk_done hw c1 set_hw]. rewrite Q2. done. }
  mrun R2. assert (length data = 512%nat) as Hlen by apply Hi. assert (data <> []) as Hne by (intros E; rewrite E in Hlen; done). clearbody data.
  assert (wait_disk_done (mk true data true) = Ok (tt, mk false data false)) as R3.
  { unfold wait_disk_done, intr_hd_handler. cbn. unfold mbind, M_bind. cbn. unfold inb_status. cbn. destruct data; [done|]. done. }
  mrun R3. destruct (busy_loop_run 0 (mk false data false) (Z.to_nat (30 * 1000 - 1))) as (h4 & R4 & H1 & H2 & H3 & H4 & H5 & H6 & H7); [done|lia|by right|].
  mrun R4. cbn [negb]. set (c4 := set_hw _ _).
  assert (read_from_sector 1 c4 = Ok (data, set_hw (mk_ata (r_cnt h4) (r_lba_l h4) (r_lba_m h4) (r_lba_h h4) (r_dev h4) (master h4) (slave h4) (busy h4) [] (wanted h4) (irq h4)) c4)) as R5.
  { unfold read_from_sector, insw. change (Z.to_nat (2 * _)) with 512%nat. cbn [hw set_hw c4]. rewrite H2. cbn [fifo hw mk]. rewrite Hlen, Nat.leb_refl. rewrite <- Hlen at 1 2. by rewrite firstn_all, skipn_all. }
  mrun R5. rewrite (liftO_bind _ _ _ _ (swap_pairs_run 10 (drop 20 data) junk ltac:(lia) ltac:(rewrite length_drop; lia) ltac:(lia))).
  rewrite (liftO_bind _ _ _ _ (swap_pairs_run 20 (drop 54 data) (replicate 64 0) ltac:(lia) ltac:(rewrite length_drop; lia) ltac:(rewrite length_replicate; lia))).
  eexists. split; [done|]. split; [by split|]. cbn [hw set_hw master slave]. rewrite H5, H6. done.
Qed.

End Pieces.

(** ** Whole transfers *)

Section Transfers.
Context (latency : Z) (identity : bool -> list Z) (Hlat : 0 <= latency < 29999).

(** The size of the next piece, and that it starts on the disk. *)
Lemma next_piece lba cnt k : 0 <= lba -> 0 < cnt -> in_reach lba cnt = true -> 0 <= k -> 256 * k < cnt ->
  let n := if u32 (256 * k + 256) <=? cnt then 256 else u32 (cnt - 256 * k) in
  n = Z.min 256 (cnt - 256 * k) /\ 0 < n <= 256 /\ u32 (lba + 256 * k) = lba + 256 * k /\
  lba + 256 * k <= max_lba /\ u32 (256 * k + n) = Z.min cnt (256 * (k + 1)).
Proof.
  intros Hl Hc Hr Hk Hlt n. unfold in_reach in Hr. apply Z.leb_le in Hr. rewrite max_lba_value in *.
  assert (k <= (cnt - 1) / 256) by (apply Z.div_le_lower_bound; lia).
  assert (cnt - 1 < 256 * ((cnt - 1) / 256) + 256) by (pose proof (Z.mod_pos_bound (cnt - 1) 256); pose proof (Z.div_mod (cnt - 1) 256); lia).
  assert (n = Z.min 256 (cnt - 256 * k)) as En.
  { unfold n. rewrite !wrapu_small by (change (2 ^ 32) with 4294967296; lia). destruct (Z.leb_spec (256 * k + 256) cnt); lia. }
  split; [done|]. rewrite En. split; [lia|]. rewrite !wrapu_small by (change (2 ^ 32) with 4294967296; lia). lia.
Qed.

(** Behind [k] pieces; the fuel counts the pieces left and the last test. *)
Lemma ide_read_loop_run dev_no lba cnt fuel : forall k c buf, 0 <= lba -> 0 < cnt -> in_reach lba cnt = true ->
  quiet c -> disk_wf (view dev_no c) -> 0 <= k -> cnt - 256 * k <= 256 * (Z.of_nat fuel - 1) -> (0 < fuel)%nat ->
  let done := Z.min cnt (256 * k) in
  exists c', ide_read_loop latency identity fuel dev_no lba cnt done buf c =
      Ok (buf ++ secs (Z.to_nat (cnt - done)) (view dev_no c) (lba + done), c') /\
    quiet c' /\ master (hw c') = master (hw c) /\ slave (hw c') = slave (hw c).
Proof.
  induction fuel as [|fuel IH]; intros k c buf Hl Hc Hr Hq Hd Hk Hf Hf0 dn; [lia|].
  cbn [ide_read_loop]. destruct (Z.ltb_spec dn cnt) as [Hlt|Hge].
  - assert (dn = 256 * k) as Ed by (unfold dn in *; lia). rewrite Ed in *.
    destruct (next_piece lba cnt k Hl Hc Hr Hk Hlt) as (En & Hn & El & Hm & Es).
    set (n := if u32 (256 * k + 256) <=? cnt then 256 else u32 (cnt - 256 * k)) in *. rewrite El.
    destruct (read_piece latency identity dev_no (lba + 256 * k) n c) as (c1 & R1 & c2 & R2 & Q2 & M2 & S2); [done|lia|done|done|].
    assert (view dev_no c2 = view dev_no c) as Ev by (unfold view; by rewrite M2, S2).
    destruct (IH (k + 1) c2 (buf ++ secs (Z.to_nat n) (view dev_no c) (lba + 256 * k))) as (c' & R' & Q' & M' & S'); try done; [by rewrite Ev|lia|lia|lia|].
    exists c'. split; [|split; [done|split; congruence]].
    rewrite R1. cbn [negb]. mrun R2. rewrite Es, R', Ev, <- app_assoc. do 4 f_equal.
    replace (Z.to_nat (cnt - 256 * k)) with (Z.to_nat n + Z.to_nat (cnt - Z.min cnt (256 * (k + 1))))%nat by lia.
    rewrite secs_add. do 2 f_equal. lia.
  - exists c. split; [|done]. replace (Z.to_nat (cnt - dn)) with 0%nat by lia. cbn [secs]. by rewrite app_nil_r.
Qed.

Lemma ide_write_loop_run dev_no lba cnt buf fuel : forall k c, 0 <= lba -> 0 < cnt -> in_reach lba cnt = true ->
  quiet c -> 0 <= k -> cnt - 256 * k <= 256 * (Z.of_nat fuel - 1) -> (0 < fuel)%nat -> (512 * Z.to_nat cnt <= length buf)%nat ->
  let done := Z.min cnt (256 * k) in
  exists c', ide_write_loop latency identity fuel dev_no lba cnt done buf c = Ok (tt, c') /\ quiet c' /\
    view dev_no c' = put_secs (Z.to_nat (cnt - done)) (view dev_no c) (lba + done) (drop (Z.to_nat (done * 512)) buf) /\
    (forall other, (other =? 1) <> (dev_no =? 1) -> view other c' = view other c).
Proof.
  induction fuel as [|fuel IH]; intros k c Hl Hc Hr Hq Hk Hf Hf0 Hb dn; [lia|].
  cbn [ide_write_loop]. destruct (Z.ltb_spec dn cnt) as [Hlt|Hge].
  - assert (dn = 256 * k) as Ed by (unfold dn in *; lia). rewrite Ed in *.
    destruct (next_piece lba cnt k Hl Hc Hr Hk Hlt) as (En & Hn & El & Hm & Es).
    set (n := if u32 (256 * k + 256) <=? cnt then 256 else u32 (cnt - 256 * k)) in *. rewrite El.
    set (rest := drop (Z.to_nat (256 * k * 512)) buf).
    destruct (write_piece latency identity Hlat dev_no (lba + 256 * k) n rest c) as (c1 & c2 & R1 & R2 & Q2 & V2 & O2);
      [done|lia|done|unfold rest; rewrite length_drop; lia|].
    destruct (IH (k + 1) c2) as (c' & R' & Q' & V' & O'); try done; [lia|lia|lia|].
    exists c'. split; [|split; [done|split]].
    + rewrite R1. cbn [negb]. rewrite R2, Es. exact R'.
    + rewrite V', V2. replace (Z.to_nat (cnt - 256 * k)) with (Z.to_nat n + Z.to_nat (cnt - Z.min cnt (256 * (k + 1))))%nat by lia.
      rewrite put_secs_add. unfold rest. rewrite drop_drop. f_equal; [lia|]. f_equal. lia.
    + intros o Ho. rewrite O', O2; done.
  - exists c. split; [done|]. split; [done|]. split; [|done]. by replace (Z.to_nat (cnt - dn)) with 0%nat by lia.
Qed.

Lemma select_disk_quiet dev_no c : quiet c ->
  exists c', select_disk dev_no c = Ok (tt, c') /\ quiet c' /\ master (hw c') = master (hw c) /\ slave (hw c') = slave (hw c).
Proof. intros []. eexists. split; [done|]. by split. Qed.

Lemma ide_read_run dev_no lba cnt c fuel :
  quiet c -> disk_wf (view dev_no c) -> 0 <= lba -> in_reach lba cnt = true -> cnt <= 256 * (Z.of_nat fuel - 1) ->
  match disk_read lba cnt (view dev_no c) with
  | Ok data => exists c', ide_read latency identity fuel dev_no lba cnt c = Ok (data, c') /\ quiet c' /\
      master (hw c') = master (hw c) /\ slave (hw c') = slave (hw c)
  | Panic w => ide_read latency identity fuel dev_no lba cnt c = Panic w
  | _ => False
  end.
Proof.
  intros Hq Hd Hl Hr Hf. unfold disk_read, ide_read, assertM, liftO. rewrite Hr.
  destruct (Z.leb_spec lba max_lba) as [Hm|Hm]; [|done]. cbn [ASSERT]. rewrite !bind_Ok.
  rewrite (mbindM_Ok _ _ c tt c) by done. destruct (Z.ltb_spec 0 cnt) as [Hc|Hc]; [|done]. cbn [ASSERT]. rewrite !bind_Ok.
  rewrite (mbindM_Ok _ _ c tt c) by done. destruct (select_disk_quiet dev_no c Hq) as (c1 & R1 & Q1 & M1 & S1).
  assert (view dev_no c1 = view dev_no c) as Ev by (unfold view; by rewrite M1, S1).
  destruct (ide_read_loop_run dev_no lba cnt fuel 0 c1 []) as (c' & R & Q & M' & S'); try done; [by rewrite Ev|lia|lia|].
  exists c'. mrun R1. replace (Z.min cnt (256 * 0)) with 0 in R by lia. rewrite R, Ev. cbn [app].
  split; [|split; [done|split; congruence]]. do 3 f_equal; [f_equal; lia|lia].
Qed.



End Transfers.

(** ** Witnesses *)

(** An idle channel; the slave's sector 300 holds ones. *)
Definition demo_chan : ide_channel :=
  mk_chan false 0 (mk_ata 0 0 0 0 0 ∅ (<[300 := replicate 512 1]> ∅) 0 [] None false).

Definition demo_identity (slave : bool) : list Z := replicate 512 (if slave then 66 else 65).

Lemma demo_chan_quiet : quiet demo_chan.
Proof. by split. Qed.
Lemma demo_chan_wf : disk_wf (view 1 demo_chan).
Proof. intros lba s. cbn. rewrite lookup_insert_Some. intros [[_ <-]|[_ H]]; [done|]. by rewrite lookup_empty in H. Qed.


