(* ===== verification/Layout.v ===== *)
(** * Structures on disk (fs/super_block.h, fs/inode.h, fs/dir.h)

    The C structures the file system copies to and from sectors, byte by byte:
    little-endian 32-bit words in the order of the declarations.  A class
    states what copying a structure out of a buffer needs of the way it was
    copied in. *)

From S2P Require Import Prelude Disk.

(** ** Words *)

Fixpoint le_bytes (n : nat) (v : Z) : list Z :=
  match n with O => [] | S n' => v mod 256 :: le_bytes n' (v / 256) end.
Fixpoint le_value (l : list Z) : Z :=
  match l with [] => 0 | b :: l' => b + 256 * le_value l' end.

Definition word (v : Z) : list Z := le_bytes 4 v.
(** The word at byte [off] of a buffer. *)
Definition word_at (off : nat) (buf : list Z) : Z := le_value (take 4 (drop off buf)).
(** [n] words from byte [off] on. *)
Fixpoint words_at (n off : nat) (buf : list Z) : list Z :=
  match n with O => [] | S n' => word_at off buf :: words_at n' (off + 4) buf end.

Definition u32_ok (v : Z) : Prop := 0 <= v < 2 ^ 32.

Lemma le_bytes_length n : forall v, length (le_bytes n v) = n.
Proof. induction n as [|n IH]; intros v; cbn; [done|]. by rewrite IH. Qed.

Lemma le_value_bytes n : forall v, 0 <= v < 256 ^ Z.of_nat n -> le_value (le_bytes n v) = v.
Proof.
  induction n as [|n IH]; intros v Hv; cbn [le_bytes le_value].
  { change (256 ^ Z.of_nat 0) with 1 in Hv. lia. }
  rewrite Nat2Z.inj_succ, Z.pow_succ_r in Hv by lia.
  rewrite IH; [pose proof (Z.div_mod v 256); lia|].
  split; [apply Z.div_pos; lia|]. apply Z.div_lt_upper_bound; lia.
Qed.

Lemma word_length v : length (word v) = 4%nat.
Proof. apply le_bytes_length. Qed.

Lemma word_at_app l v r : u32_ok v -> word_at (length l) (l ++ word v ++ r) = v.
Proof.
  intros Hv. unfold word_at. rewrite drop_app_length.
  rewrite take_app_length' by (by rewrite word_length). by apply le_value_bytes.
Qed.

(** The same with the buffer up to associativity. *)
Lemma word_at_eq off buf l v r : buf = l ++ word v ++ r -> length l = off -> u32_ok v -> word_at off buf = v.
Proof. intros -> <- Hv. by apply word_at_app. Qed.

Lemma words_at_app ws : forall l r, Forall u32_ok ws ->
  words_at (length ws) (length l) (l ++ concat (word <$> ws) ++ r) = ws.
Proof.
  induction ws as [|w ws IH]; intros l r Hw; cbn [words_at length fmap list_fmap concat]; [done|].
  inversion Hw as [|? ? Hw1 Hw2]; subst. rewrite <- !app_assoc, word_at_app by done. f_equal.
  replace (length l + 4)%nat with (length (l ++ word w)) by (rewrite length_app, word_length; done).
  rewrite (app_assoc l (word w)). by apply IH.
Qed.

Lemma words_length ws : length (concat (word <$> ws)) = (4 * length ws)%nat.
Proof. induction ws as [|w ws IH]; cbn [fmap list_fmap concat length]; [done|]. rewrite length_app, word_length, IH. lia. Qed.

(** Words in front of a cut. *)
Lemma word_at_take off n buf : (off + 4 <= n)%nat -> word_at off (take n buf) = word_at off buf.
Proof.
  intros Hn. unfold word_at. rewrite skipn_firstn_comm, take_take. f_equal. f_equal. lia.
Qed.
Lemma words_at_take k : forall off n buf, (off + 4 * k <= n)%nat -> words_at k off (take n buf) = words_at k off buf.
Proof.
  induction k as [|k IH]; intros off n buf Hn; cbn [words_at]; [done|].
  rewrite word_at_take, IH by lia. done.
Qed.

(** ** Copying into and out of buffers *)

(** [memcpy(buf + off, src, n)] for the whole of [src]. *)
Definition splice (off : nat) (src buf : list Z) : list Z :=
  take off buf ++ src ++ drop (off + length src) buf.
(** [memcpy(dst, buf + off, n)]. *)
Definition slice (off n : nat) (buf : list Z) : list Z := take n (drop off buf).

Lemma splice_length off src buf : (off + length src <= length buf)%nat -> length (splice off src buf) = length buf.
Proof. intros H. unfold splice. rewrite !length_app, length_take, length_drop. lia. Qed.

Lemma slice_length off n buf : (off + n <= length buf)%nat -> length (slice off n buf) = n.
Proof. intros H. unfold slice. rewrite length_take, length_drop. lia. Qed.

Lemma slice_splice off src buf : (off + length src <= length buf)%nat -> slice off (length src) (splice off src buf) = src.
Proof.
  intros H. unfold slice, splice. rewrite drop_app_length' by (rewrite length_take; lia). apply take_app_length.
Qed.

Lemma slice_splice_ne off src buf o n : (off + length src <= length buf)%nat ->
  (o + n <= off \/ off + length src <= o)%nat -> slice o n (splice off src buf) = slice o n buf.
Proof.
  intros H [Ho|Ho]; unfold slice, splice.
  - rewrite drop_app_le, take_app_le by (rewrite ?length_drop, length_take; lia).
    rewrite skipn_firstn_comm, take_take. f_equal. lia.
  - rewrite drop_app_ge by (rewrite length_take; lia). rewrite length_take, drop_app_ge by lia.
    rewrite drop_drop. do 2 f_equal. lia.
Qed.

(** A splice into part of a buffer, seen on the whole. *)
Lemma splice_inside a n off x F : (off + length x <= n)%nat -> (a + n <= length F)%nat ->
  take a F ++ splice off x (slice a n F) ++ drop (a + n) F = splice (a + off) x F.
Proof.
  intros Hx Hf. unfold splice, slice. rewrite take_take, skipn_firstn_comm, drop_drop.
  replace (off `min` n)%nat with off by lia. rewrite <- !app_assoc.
  assert (take (a + off) F = take a F ++ take off (drop a F)) as ->.
  { rewrite <- (take_drop a F) at 1. rewrite take_app_add' by (rewrite length_take; lia). done. }
  rewrite <- !app_assoc. do 3 f_equal.
  rewrite <- (take_drop (n - (off + length x)) (drop (a + off + length x) F)). f_equal.
  - f_equal. f_equal. lia.
  - rewrite drop_drop. f_equal. lia.
Qed.

(** A structure of [lay_size] bytes. *)
Class Layout (A : Type) : Type := {
  lay_size : nat;
  encode : A -> list Z;
  decode : list Z -> A;
  lay_ok : A -> Prop;
  encode_length a : lay_ok a -> length (encode a) = lay_size;
  decode_encode a r : lay_ok a -> decode (encode a ++ r) = a;
  decode_take l : decode (take lay_size l) = decode l
}.

(** What is copied into a buffer can be copied out of it again. *)
Lemma decode_splice `{Layout A} off (a : A) buf : lay_ok a -> (off + lay_size <= length buf)%nat ->
  decode (drop off (splice off (encode a) buf)) = a.
Proof.
  intros Ha Hb. unfold splice. rewrite drop_app_length' by (rewrite length_take; lia). by apply decode_encode.
Qed.

(** ** The structures *)

(** [struct inode]; the list element [inode_tag] is the place in [open_inodes],
    and its eight bytes are zero on disk. *)
Record inode : Type := mk_inode {
  i_no : Z;
  i_size : Z;
  i_open_cnts : Z;
  write_deny : Z;          (* a bool is an int *)
  i_sectors : list Z       (* i_sectors[13] *)
}.

Definition sizeof_inode : Z := 76.

Definition inode_bytes (i : inode) : list Z :=
  word (i_no i) ++ word (i_size i) ++ word (i_open_cnts i) ++ word (write_deny i) ++
  concat (word <$> i_sectors i) ++ replicate 8 0.

Definition inode_of_bytes (b : list Z) : inode :=
  mk_inode (word_at 0 b) (word_at 4 b) (word_at 8 b) (word_at 12 b) (words_at 13 16 b).

Record inode_ok (i : inode) : Prop := {
  io_no : u32_ok (i_no i);
  io_size : u32_ok (i_size i);
  io_open : u32_ok (i_open_cnts i);
  io_deny : u32_ok (write_deny i);
  io_sectors : length (i_sectors i) = 13%nat;
  io_words : Forall u32_ok (i_sectors i)
}.

#[global] Program Instance inode_Layout : Layout inode := {|
  lay_size := 76;
  encode := inode_bytes;
  decode := inode_of_bytes;
  lay_ok := inode_ok
|}.
Next Obligation.
  intros i [_ _ _ _ Hs _]. unfold inode_bytes. rewrite !length_app, !word_length, words_length, Hs. done.
Qed.
Next Obligation.
  intros [n sz oc wd ss] r [H1 H2 H3 H4 H5 H6]. cbn in *. unfold inode_bytes, inode_of_bytes. cbn [i_no i_size i_open_cnts write_deny i_sectors].
  f_equal.
  - eapply (word_at_eq 0 _ []); [by rewrite <- !app_assoc|done|done].
  - eapply (word_at_eq 4 _ (word n)); [by rewrite <- !app_assoc|done|done].
  - eapply (word_at_eq 8 _ (word n ++ word sz)); [by rewrite <- !app_assoc|done|done].
  - eapply (word_at_eq 12 _ (word n ++ word sz ++ word oc)); [by rewrite <- !app_assoc|done|done].
  - rewrite <- (words_at_app ss (word n ++ word sz ++ word oc ++ word wd) (replicate 8 0 ++ r) H6) at 2.
    rewrite H5. by rewrite <- !app_assoc.
Qed.
Next Obligation.
  intros l. cbn. unfold inode_of_bytes. by rewrite !word_at_take, words_at_take by lia.
Qed.

(** [enum file_types]. *)
Definition FT_UNKNOWN : Z := 0.
Definition FT_REGULAR : Z := 1.
Definition FT_DIRECTORY : Z := 2.

Definition MAX_FILE_NAME_LEN : Z := 16.

(** [struct dir_entry]; the name field holds sixteen bytes. *)
Record dir_entry : Type := mk_dirent { filename : list Z; de_i_no : Z; f_type : Z }.

Definition dir_entry_bytes (e : dir_entry) : list Z := filename e ++ word (de_i_no e) ++ word (f_type e).
Definition dir_entry_of_bytes (b : list Z) : dir_entry := mk_dirent (take 16 b) (word_at 16 b) (word_at 20 b).

Record dir_entry_ok (e : dir_entry) : Prop := {
  de_name_len : length (filename e) = 16%nat;
  de_no_ok : u32_ok (de_i_no e);
  de_type_ok : u32_ok (f_type e)
}.

#[global] Program Instance dir_entry_Layout : Layout dir_entry := {|
  lay_size := 24;
  encode := dir_entry_bytes;
  decode := dir_entry_of_bytes;
  lay_ok := dir_entry_ok
|}.
Next Obligation. intros e [Hn _ _]. unfold dir_entry_bytes. rewrite !length_app, !word_length, Hn. done. Qed.
Next Obligation.
  intros [nm n t] r [H1 H2 H3]. cbn in *. unfold dir_entry_bytes, dir_entry_of_bytes. cbn [filename de_i_no f_type].
  f_equal.
  - rewrite <- app_assoc. by apply take_app_length'.
  - eapply (word_at_eq 16 _ nm); [by rewrite <- !app_assoc|done|done].
  - eapply (word_at_eq 20 _ (nm ++ word n)); [by rewrite <- !app_assoc|rewrite length_app, H1; done|done].
Qed.
Next Obligation.
  intros l. cbn. unfold dir_entry_of_bytes. by rewrite !word_at_take, take_take by lia.
Qed.

(** [struct super_block], padded to a sector. *)
Record super_block : Type := mk_sb {
  magic : Z; sb_sec_cnt : Z; inode_cnt : Z; part_lba_base : Z;
  block_bitmap_lba : Z; block_bitmap_sects : Z;
  inode_bitmap_lba : Z; inode_bitmap_sects : Z;
  inode_table_lba : Z; inode_table_sects : Z;
  data_start_lba : Z; root_inode_no : Z; dir_entry_size : Z
}.

Definition sb_words (s : super_block) : list Z :=
  [magic s; sb_sec_cnt s; inode_cnt s; part_lba_base s; block_bitmap_lba s; block_bitmap_sects s; inode_bitmap_lba s;
   inode_bitmap_sects s; inode_table_lba s; inode_table_sects s; data_start_lba s; root_inode_no s; dir_entry_size s].
Definition sb_of_words (l : list Z) : super_block :=
  let w i := default 0 (l !! i) in
  mk_sb (w 0%nat) (w 1%nat) (w 2%nat) (w 3%nat) (w 4%nat) (w 5%nat) (w 6%nat) (w 7%nat) (w 8%nat) (w 9%nat) (w 10%nat) (w 11%nat) (w 12%nat).

Definition sb_bytes (s : super_block) : list Z := concat (word <$> sb_words s) ++ replicate 460 0.
Definition sb_of_bytes (b : list Z) : super_block := sb_of_words (words_at 13 0 b).
Definition sb_ok (s : super_block) : Prop := Forall u32_ok (sb_words s).

Lemma sb_bytes_length s : length (sb_bytes s) = 512%nat.
Proof. unfold sb_bytes. rewrite length_app, words_length, length_replicate. done. Qed.

Lemma sb_of_bytes_bytes s r : sb_ok s -> sb_of_bytes (sb_bytes s ++ r) = s.
Proof.
  intros Hs. unfold sb_of_bytes, sb_bytes. rewrite <- app_assoc.
  pose proof (words_at_app (sb_words s) [] (replicate 460 0 ++ r) Hs) as E. cbn [length app sb_words] in E.
  rewrite E. by destruct s.
Qed.

Lemma sb_of_bytes_take l : sb_of_bytes (take 512 l) = sb_of_bytes l.
Proof. unfold sb_of_bytes. by rewrite words_at_take by lia. Qed.

#[global] Instance super_block_Layout : Layout super_block := {|
  lay_size := 512;
  encode := sb_bytes;
  decode := sb_of_bytes;
  lay_ok := sb_ok;
  encode_length s _ := sb_bytes_length s;
  decode_encode := sb_of_bytes_bytes;
  decode_take := sb_of_bytes_take
|}.
