(* ===== verification/Inode.v ===== *)
(** * Inodes, block allocation and the partition in memory (fs/inode.c, fs/file.c)

    The mounted partition, the inodes in memory, which all users of a file
    share, and the operations of inode.c with the bitmap routines of file.c
    they need.  The heap is used through the class [Heap]: a flag says whether
    the caller has set [pgdir] to NULL to get kernel memory.  Buffers are
    private to the routine that allocates them, so their contents are values;
    inodes are shared, so they live in a store, by address. *)

From S2P Require Import Prelude Bitmap Interrupt DList Disk Layout.
Import Queue.

(** ** The heap as the file system uses it *)

Class Heap (H : Type) : Type := {
  h_malloc : bool -> Z -> M H Z;
  h_free : bool -> Z -> M H ();
  (** blocks handed out, by kind of memory *)
  h_live : H -> bool -> Z -> Prop;
  (** so many more requests of at most a megabyte are met *)
  h_room : nat -> H -> Prop;
  h_malloc_ok k kn n h : h_room (S k) h -> 0 < n <= 1048576 ->
    exists p h', h_malloc kn n h = Ok (p, h') /\ p <> NULL /\ ~ h_live h kn p /\ h_room k h' /\
      (forall kn' q, h_live h' kn' q <-> h_live h kn' q \/ (kn' = kn /\ q = p));
  h_free_ok k kn p h : h_room k h -> h_live h kn p ->
    exists h', h_free kn p h = Ok (tt, h') /\ h_room k h' /\
      (forall kn' q, h_live h' kn' q <-> h_live h kn' q /\ ~ (kn' = kn /\ q = p))
}.

(** ** The state *)

(** [struct partition], without the list element and the disk it lies on. *)
Record partition : Type := mk_part {
  start_lba : Z;
  sec_cnt : Z;
  sb : super_block;
  block_bitmap : bitmap;
  inode_bitmap : bitmap;
  open_inodes : list Z
}.

(** [struct file]. *)
Record file : Type := mk_file { fd_pos : Z; fd_flag : Z; fd_inode : Z }.

(** [struct dir]. *)
Record dir : Type := mk_dir { d_inode : Z; dir_pos : Z; dir_buf : list Z }.

Section Fs.
Context {H : Type} `{Heap H}.

(** The disk, [cur_part], the inodes and the directories in memory, the heap,
    the open files of the system and of the running task, its working
    directory, whether its [pgdir] is NULL (a kernel thread), EFLAGS. *)
Record fs : Type := mk_fs {
  dsk : disk;
  cur_part : partition;
  inodes : gmap Z inode;
  dirs : gmap Z dir;
  heap : H;
  file_table : list file;
  fd_table : list Z;
  cwd_inode_nr : Z;
  pgdir_null : bool;
  flags : Z
}.

Definition set_dsk (v : disk) (s : fs) : fs := mk_fs v (cur_part s) (inodes s) (dirs s) (heap s) (file_table s) (fd_table s) (cwd_inode_nr s) (pgdir_null s) (flags s).
Definition set_part (v : partition) (s : fs) : fs := mk_fs (dsk s) v (inodes s) (dirs s) (heap s) (file_table s) (fd_table s) (cwd_inode_nr s) (pgdir_null s) (flags s).
Definition set_inodes (v : gmap Z inode) (s : fs) : fs := mk_fs (dsk s) (cur_part s) v (dirs s) (heap s) (file_table s) (fd_table s) (cwd_inode_nr s) (pgdir_null s) (flags s).
Definition set_dirs (v : gmap Z dir) (s : fs) : fs := mk_fs (dsk s) (cur_part s) (inodes s) v (heap s) (file_table s) (fd_table s) (cwd_inode_nr s) (pgdir_null s) (flags s).
Definition set_heap (v : H) (s : fs) : fs := mk_fs (dsk s) (cur_part s) (inodes s) (dirs s) v (file_table s) (fd_table s) (cwd_inode_nr s) (pgdir_null s) (flags s).
Definition set_file_table (v : list file) (s : fs) : fs := mk_fs (dsk s) (cur_part s) (inodes s) (dirs s) (heap s) v (fd_table s) (cwd_inode_nr s) (pgdir_null s) (flags s).
Definition set_fd_table (v : list Z) (s : fs) : fs := mk_fs (dsk s) (cur_part s) (inodes s) (dirs s) (heap s) (file_table s) v (cwd_inode_nr s) (pgdir_null s) (flags s).
Definition set_cwd (v : Z) (s : fs) : fs := mk_fs (dsk s) (cur_part s) (inodes s) (dirs s) (heap s) (file_table s) (fd_table s) v (pgdir_null s) (flags s).
Definition set_fs_flags (v : Z) (s : fs) : fs := mk_fs (dsk s) (cur_part s) (inodes s) (dirs s) (heap s) (file_table s) (fd_table s) (cwd_inode_nr s) (pgdir_null s) v.

#[global] Program Instance fs_HasEflags : HasEflags fs := {|
  eflags_of := flags;
  with_eflags := set_fs_flags
|}.
Solve Obligations with (intros; repeat match goal with s : fs |- _ => destruct s end; reflexivity).

Definition set_open_inodes (l : list Z) (p : partition) : partition :=
  mk_part (start_lba p) (sec_cnt p) (sb p) (block_bitmap p) (inode_bitmap p) l.
Definition set_block_bitmap (b : bitmap) (p : partition) : partition :=
  mk_part (start_lba p) (sec_cnt p) (sb p) b (inode_bitmap p) (open_inodes p).
Definition set_inode_bitmap (b : bitmap) (p : partition) : partition :=
  mk_part (start_lba p) (sec_cnt p) (sb p) (block_bitmap p) b (open_inodes p).

(** The disk of the partition, through [ide_read] and [ide_write]. *)
Definition ide_rd (lba n : Z) : M fs (list Z) := fun s => data ← disk_read lba n (dsk s); Ok (data, s).
Definition ide_wr (lba : Z) (buf : list Z) (n : Z) : M fs () := fun s => d ← disk_write lba buf n (dsk s); Ok (tt, set_dsk d s).

Definition on_heap {A} (c : M H A) : M fs A := fun s =>
  match c (heap s) with
  | Ok (a, h) => Ok (a, set_heap h s)
  | Panic w => Panic w
  | Fault => Fault
  | NoFuel => NoFuel
  end.
Definition kmalloc (size : Z) : M fs Z := on_heap (h_malloc true size).   (* pgdir set to NULL *)
Definition kfree (p : Z) : M fs () := on_heap (h_free true p).
(* the memory of the running task *)
Definition malloc (size : Z) : M fs Z := s ← getS; on_heap (h_malloc (pgdir_null s) size).
Definition free (p : Z) : M fs () := s ← getS; on_heap (h_free (pgdir_null s) p).

(** A write through a pointer [sys_malloc] returned. *)
Definition need (p : Z) : M fs () := if p =? NULL then faultM else mret tt.

Definition get_inode (p : Z) : M fs inode := fun s =>
  match inodes s !! p with Some i => Ok (i, s) | None => Fault end.
Definition put_inode (p : Z) (i : inode) : M fs () := modS (fun s => set_inodes (<[p := i]> (inodes s)) s).
Definition upd_inode (p : Z) (f : inode -> inode) : M fs () := i ← get_inode p; put_inode p (f i).

Definition set_open_cnts (v : Z) (i : inode) : inode := mk_inode (i_no i) (i_size i) v (write_deny i) (i_sectors i).
Definition set_write_deny (v : Z) (i : inode) : inode := mk_inode (i_no i) (i_size i) (i_open_cnts i) v (i_sectors i).
Definition set_i_size (v : Z) (i : inode) : inode := mk_inode (i_no i) v (i_open_cnts i) (write_deny i) (i_sectors i).
Definition set_i_sectors (v : list Z) (i : inode) : inode := mk_inode (i_no i) (i_size i) (i_open_cnts i) (write_deny i) v.

(** ** Bitmaps (fs/file.c) *)

Inductive bitmap_type : Type := INODE_BITMAP | BLOCK_BITMAP.

Definition inode_bitmap_alloc : M fs Z :=
  s ← getS;
  bit_idx ← liftO (bitmap_scan (inode_bitmap (cur_part s)) 1);
  if bit_idx =? -1 then mret (-1)
  else
    b ← liftO (bitmap_set (inode_bitmap (cur_part s)) bit_idx 1);
    _ ← modS (fun s => set_part (set_inode_bitmap b (cur_part s)) s);
    mret bit_idx.

Definition block_bitmap_alloc : M fs Z :=
  s ← getS;
  bit_idx ← liftO (bitmap_scan (block_bitmap (cur_part s)) 1);
  if bit_idx =? -1 then mret (-1)
  else
    b ← liftO (bitmap_set (block_bitmap (cur_part s)) bit_idx 1);
    _ ← modS (fun s => set_part (set_block_bitmap b (cur_part s)) s);
    mret (i32 (u32 (data_start_lba (sb (cur_part s)) + bit_idx))).

(** The 512 bytes of the bitmap behind [off_size]. *)
Definition bitmap_sector (b : bitmap) (off_size : Z) : outcome (list Z) :=
  let l := slice (Z.to_nat off_size) 512 (bits b) in
  if (length l =? 512)%nat then Ok l else Fault.

Definition bitmap_sync (bit_idx : Z) (btmp_type : bitmap_type) : M fs () :=
  s ← getS;
  let p := cur_part s in
  let off_sec := bit_idx / 4096 in
  let off_size := u32 (off_sec * SECTOR_SIZE) in
  match btmp_type with
  | INODE_BITMAP => l ← liftO (bitmap_sector (inode_bitmap p) off_size); ide_wr (u32 (inode_bitmap_lba (sb p) + off_sec)) l 1
  | BLOCK_BITMAP => l ← liftO (bitmap_sector (block_bitmap p) off_size); ide_wr (u32 (block_bitmap_lba (sb p) + off_sec)) l 1
  end.

(** [bitmap_set] on the maps of the partition. *)
Definition block_bitmap_clear (idx : Z) : M fs () :=
  s ← getS;
  b ← liftO (bitmap_set (block_bitmap (cur_part s)) idx 0);
  modS (fun s => set_part (set_block_bitmap b (cur_part s)) s).
Definition inode_bitmap_clear (idx : Z) : M fs () :=
  s ← getS;
  b ← liftO (bitmap_set (inode_bitmap (cur_part s)) idx 0);
  modS (fun s => set_part (set_inode_bitmap b (cur_part s)) s).

(** ** fs/inode.c *)

Record inode_position : Type := mk_pos { two_sec : bool; sec_lba : Z; off_size : Z }.

Definition inode_locate (inode_no : Z) : M fs inode_position :=
  _ ← assertM (inode_no <? 4096) "inode_locate: inode_no < 4096";
  s ← getS;
  let off := u32 (inode_no * sizeof_inode) in
  let off_sec := off / 512 in
  let off_size_in_sec := off mod 512 in
  let left_in_sec := 512 - off_size_in_sec in
  mret (mk_pos (left_in_sec <? sizeof_inode) (u32 (inode_table_lba (sb (cur_part s)) + off_sec)) off_size_in_sec).

(** Sectors to move for an inode. *)
Definition pos_secs (p : inode_position) : Z := if two_sec p then 2 else 1.

Definition inside_partition (p : inode_position) : M fs () :=
  s ← getS;
  assertM (sec_lba p <=? u32 (start_lba (cur_part s) + sec_cnt (cur_part s))) "sec_lba <= part->start_lba + part->sec_cnt".

(** The copy that goes to the disk. *)
Definition pure_inode (i : inode) : inode := set_write_deny 0 (set_open_cnts 0 i).

Definition inode_sync (i : inode) : M fs () :=
  p ← inode_locate (i_no i);
  _ ← inside_partition p;
  buf ← ide_rd (sec_lba p) (pos_secs p);
  ide_wr (sec_lba p) (splice (Z.to_nat (off_size p)) (encode (pure_inode i)) buf) (pos_secs p).

(** The search in [open_inodes]. *)
Fixpoint find_open (l : list Z) (inode_no : Z) : M fs Z :=
  match l with
  | [] => mret NULL
  | p :: l' => i ← get_inode p; if i_no i =? inode_no then mret p else find_open l' inode_no
  end.

Definition inode_open (inode_no : Z) : M fs Z :=
  s ← getS;
  inode_found ← find_open (open_inodes (cur_part s)) inode_no;
  if negb (inode_found =? NULL) then
    _ ← upd_inode inode_found (fun i => set_open_cnts (u32 (i_open_cnts i + 1)) i);
    mret inode_found
  else
    pos ← inode_locate inode_no;
    inode_found ← kmalloc sizeof_inode;
    inode_buf ← malloc (pos_secs pos * 512);
    _ ← need inode_buf;
    buf ← ide_rd (sec_lba pos) (pos_secs pos);
    _ ← need inode_found;
    _ ← put_inode inode_found (set_open_cnts 1 (decode (drop (Z.to_nat (off_size pos)) buf)));
    _ ← modS (fun s => set_part (set_open_inodes (q_push (open_inodes (cur_part s)) inode_found) (cur_part s)) s);
    _ ← free inode_buf;
    mret inode_found.

Definition inode_close (p : Z) : M fs () :=
  old_status ← intr_disable;
  i ← get_inode p;
  let cnt := u32 (i_open_cnts i - 1) in
  _ ← put_inode p (set_open_cnts cnt i);
  _ ← (if cnt =? 0 then
         _ ← modS (fun s => set_part (set_open_inodes (q_remove (open_inodes (cur_part s)) p) (cur_part s)) s);
         _ ← kfree p;
         modS (fun s => set_inodes (delete p (inodes s)) s)
       else mret tt);
  _ ← intr_set_status old_status;
  mret tt.

Definition inode_delete (inode_no : Z) : M fs () :=
  _ ← assertM (inode_no <? 4096) "inode_delete: inode_no < 4096";
  p ← inode_locate inode_no;
  _ ← inside_partition p;
  buf ← ide_rd (sec_lba p) (pos_secs p);
  ide_wr (sec_lba p) (splice (Z.to_nat (off_size p)) (replicate 76 0) buf) (pos_secs p).

(** Give a block back: its bit and the sector of the bitmap. *)
Definition block_free (lba : Z) : M fs () :=
  s ← getS;
  let block_bitmap_idx := u32 (lba - data_start_lba (sb (cur_part s))) in
  _ ← assertM (0 <? block_bitmap_idx) "inode_release: block_bitmap_idx > 0";
  _ ← block_bitmap_clear block_bitmap_idx;
  bitmap_sync block_bitmap_idx BLOCK_BITMAP.

Fixpoint free_blocks (l : list Z) : M fs () :=
  match l with
  | [] => mret tt
  | b :: l' => _ ← (if b =? 0 then mret tt else block_free b); free_blocks l'
  end.

(** [all_blocks] of an inode: the twelve direct blocks and the table of the
    indirect ones, when there is one; zero-filled to 140. *)
Definition sector_words (buf : list Z) : list Z := words_at 128 0 buf.
Definition all_blocks_of (i : inode) : M fs (list Z) :=
  let direct := take 12 (i_sectors i) in
  tbl ← liftO (aget (i_sectors i) 12);
  if tbl =? 0 then mret (direct ++ replicate 128 0)
  else buf ← ide_rd tbl 1; mret (direct ++ sector_words buf).

Definition inode_release (inode_no : Z) : M fs () :=
  p ← inode_open inode_no;
  i ← get_inode p;
  _ ← assertM (i_no i =? inode_no) "inode_release: inode_to_del->i_no == inode_no";
  all_blocks ← all_blocks_of i;
  tbl ← liftO (aget (i_sectors i) 12);
  _ ← (if tbl =? 0 then mret tt else block_free tbl);
  _ ← free_blocks (if tbl =? 0 then take 12 all_blocks else all_blocks);
  _ ← inode_bitmap_clear inode_no;
  _ ← bitmap_sync inode_no INODE_BITMAP;
  io_buf ← malloc 1024;
  _ ← need io_buf;
  _ ← inode_delete inode_no;
  _ ← free io_buf;
  inode_close p.

Definition inode_init (inode_no : Z) : inode := mk_inode inode_no 0 0 0 (replicate 13 0).

End Fs.
Arguments fs : clear implicits.
Arguments mk_fs {H}.

(** ** The layout of a partition *)

Definition table_secs : nat := 608.   (* 4096 inodes of 76 bytes *)

(** Bitmaps, inode table and data follow each other on the disk, the maps are
    whole sectors, and every free block lies on the disk. *)
Record geometry (p : partition) : Prop := {
  ge_blocks : 0 < block_bitmap_lba (sb p) /\ 0 < block_bitmap_sects (sb p) /\
              block_bitmap_lba (sb p) + block_bitmap_sects (sb p) <= inode_bitmap_lba (sb p);
  ge_inodes : inode_bitmap_sects (sb p) = 1 /\ inode_bitmap_lba (sb p) + 1 <= inode_table_lba (sb p);
  ge_table : inode_table_lba (sb p) + 608 <= data_start_lba (sb p);
  ge_end : data_start_lba (sb p) <= u32 (start_lba p + sec_cnt p);
  ge_reach : data_start_lba (sb p) <= max_lba;
  ge_entry : dir_entry_size (sb p) = 24;
  ge_bmap : bitmap_wf (block_bitmap p) /\ btmp_bytes_len (block_bitmap p) = 512 * block_bitmap_sects (sb p) /\
            Z.of_nat (length (bits (block_bitmap p))) = 512 * block_bitmap_sects (sb p);
  ge_imap : bitmap_wf (inode_bitmap p) /\ btmp_bytes_len (inode_bitmap p) = 512 /\
            length (bits (inode_bitmap p)) = 512%nat;
  ge_data : forall k, 0 <= k < nbits (block_bitmap p) -> bit_used (block_bitmap p) k = false ->
            data_start_lba (sb p) + k <= max_lba
}.

Section Table.
Context {H : Type} `{HE : Heap H}.
Implicit Types s : fs H.

(** The inode table as bytes, and its entry [n]. *)
Definition table (d : disk) (p : partition) : list Z := secs table_secs d (inode_table_lba (sb p)).
Definition inode_at s (n : Z) : inode := decode (slice (76 * Z.to_nat n) 76 (table (dsk s) (cur_part s))).

Lemma geometry_small p : geometry p -> 0 < inode_table_lba (sb p) /\ inode_table_lba (sb p) + 608 <= max_lba /\
  inode_table_lba (sb p) + 608 <= u32 (start_lba p + sec_cnt p) /\ data_start_lba (sb p) < 2 ^ 32.
Proof.
  intros [[? [? ?]] [? ?] ? ? ? ? ? ? ?]. rewrite max_lba_value in *.
  change (2 ^ 32) with 4294967296. repeat split; lia.
Qed.

(** Where inode [n] lies: sector [k] of the table, byte [off] of it. *)
Lemma inode_locate_run s n : geometry (cur_part s) -> 0 <= n < 4096 ->
  exists pos k, inode_locate n s = Ok (pos, s) /\ sec_lba pos = inode_table_lba (sb (cur_part s)) + Z.of_nat k /\
    0 <= off_size pos < 512 /\ (512 * k + Z.to_nat (off_size pos) = 76 * Z.to_nat n)%nat /\
    (k + Z.to_nat (pos_secs pos) <= table_secs)%nat /\ (Z.to_nat (off_size pos) + 76 <= 512 * Z.to_nat (pos_secs pos))%nat.
Proof.
  intros Hg Hn. destruct (geometry_small _ Hg) as (G1 & G2 & G3 & G4). rewrite max_lba_value in G2.
  unfold inode_locate. erewrite mbindM_Ok by (apply assertM_run; lia). rewrite (mbindM_Ok _ _ s s s eq_refl).
  unfold sizeof_inode. rewrite (wrapu_small 32 (n * 76)) by (change (2 ^ 32) with 4294967296; lia).
  pose proof (Z.mod_pos_bound (n * 76) 512 ltac:(lia)) as Hm. pose proof (Z.div_mod (n * 76) 512 ltac:(lia)) as Hdm.
  set (q := n * 76 / 512) in *. set (r := n * 76 mod 512) in *.
  assert (0 <= q < 608) by lia.
  rewrite wrapu_small by (change (2 ^ 32) with 4294967296; lia).
  eexists _, (Z.to_nat q). split; [done|]. unfold pos_secs, table_secs. cbn [sec_lba off_size two_sec].
  split; [lia|]. split; [done|]. destruct (Z.ltb_spec (512 - r) 76); lia.
Qed.

Lemma ide_rd_run s lba n : 0 <= lba -> 0 < n <= 256 -> lba <= max_lba ->
  ide_rd lba n s = Ok (secs (Z.to_nat n) (dsk s) lba, s).
Proof.
  intros Hl Hn Hm. unfold ide_rd, disk_read, in_reach.
  assert ((n - 1) / 256 = 0) as -> by (apply Z.div_small; lia). rewrite Z.mul_0_r, Z.add_0_r.
  destruct (Z.leb_spec lba max_lba); [|lia]. destruct (Z.ltb_spec 0 n); [|lia]. done.
Qed.

Lemma ide_wr_run s lba buf n : 0 <= lba -> 0 < n <= 256 -> lba <= max_lba ->
  ide_wr lba buf n s = Ok (tt, set_dsk (put_secs (Z.to_nat n) (dsk s) lba buf) s).
Proof.
  intros Hl Hn Hm. unfold ide_wr, disk_write, in_reach.
  assert ((n - 1) / 256 = 0) as -> by (apply Z.div_small; lia). rewrite Z.mul_0_r, Z.add_0_r.
  destruct (Z.leb_spec lba max_lba); [|lia]. destruct (Z.ltb_spec 0 n); [|lia]. done.
Qed.

Lemma pos_secs_range pos : 0 < pos_secs pos <= 256.
Proof. unfold pos_secs. destruct (two_sec pos); lia. Qed.

(** The sectors of the inode table. *)
Definition in_table (p : partition) (a : Z) : Prop := inode_table_lba (sb p) <= a < inode_table_lba (sb p) + 608.

(** Overwriting the 76 bytes of entry [n]: read the sectors, splice, write. *)
Lemma table_write s n x pos k : geometry (cur_part s) -> disk_wf (dsk s) -> length x = 76%nat -> 0 <= n < 4096 ->
  sec_lba pos = inode_table_lba (sb (cur_part s)) + Z.of_nat k ->
  0 <= off_size pos < 512 -> (512 * k + Z.to_nat (off_size pos) = 76 * Z.to_nat n)%nat ->
  (k + Z.to_nat (pos_secs pos) <= table_secs)%nat -> (Z.to_nat (off_size pos) + 76 <= 512 * Z.to_nat (pos_secs pos))%nat ->
  forall d', d' = put_secs (Z.to_nat (pos_secs pos)) (dsk s) (sec_lba pos)
              (splice (Z.to_nat (off_size pos)) x (secs (Z.to_nat (pos_secs pos)) (dsk s) (sec_lba pos))) ->
  table d' (cur_part s) = splice (76 * Z.to_nat n) x (table (dsk s) (cur_part s)) /\
  disk_wf d' /\ (forall a, ~ in_table (cur_part s) a -> sec d' a = sec (dsk s) a).
Proof.
  intros Hg Hd Hx Hn El Ho Eo Hk Hf d' ->.
  assert (length (secs (Z.to_nat (pos_secs pos)) (dsk s) (sec_lba pos)) = (512 * Z.to_nat (pos_secs pos))%nat) as Hlen by (by apply secs_length).
  assert (length (splice (Z.to_nat (off_size pos)) x (secs (Z.to_nat (pos_secs pos)) (dsk s) (sec_lba pos))) = (512 * Z.to_nat (pos_secs pos))%nat) as Hlen2.
  { rewrite splice_length; [done|]. rewrite Hx, Hlen. lia. }
  split; [|split].
  - unfold table. rewrite El, secs_write by (done || rewrite <- El; lia). rewrite <- El.
    rewrite (take_ge (splice _ _ _)) by lia.
    assert (secs (Z.to_nat (pos_secs pos)) (dsk s) (sec_lba pos) =
            slice (512 * k) (512 * Z.to_nat (pos_secs pos)) (secs table_secs (dsk s) (inode_table_lba (sb (cur_part s))))) as ->.
    { unfold slice. replace table_secs with (k + (Z.to_nat (pos_secs pos) + (table_secs - k - Z.to_nat (pos_secs pos))))%nat by lia.
      rewrite !secs_add, <- El. rewrite drop_app_length' by (by rewrite secs_length). by rewrite take_app_length' by (by rewrite secs_length). }
    replace (512 * (k + Z.to_nat (pos_secs pos)))%nat with (512 * k + 512 * Z.to_nat (pos_secs pos))%nat by lia.
    rewrite splice_inside; [by rewrite Eo|lia|]. rewrite secs_length by done. lia.
  - apply put_secs_wf; [done|lia].
  - intros a Ha. rewrite sec_put_secs, decide_False; [done|]. unfold in_table, table_secs in *. lia.
Qed.

Lemma table_length s : disk_wf (dsk s) -> length (table (dsk s) (cur_part s)) = (76 * 4096)%nat.
Proof. intros Hd. unfold table. rewrite secs_length by done. unfold table_secs. lia. Qed.

(** The entries of a table after a splice. *)
Lemma table_entries s s' n x : disk_wf (dsk s) -> length x = 76%nat -> 0 <= n < 4096 ->
  table (dsk s') (cur_part s') = splice (76 * Z.to_nat n) x (table (dsk s) (cur_part s)) ->
  forall m, 0 <= m < 4096 -> inode_at s' m = if m =? n then decode x else inode_at s m.
Proof.
  intros Hd Hx Hn Et m Hm. unfold inode_at. rewrite Et. pose proof (table_length s Hd) as Hl.
  destruct (Z.eqb_spec m n) as [->|Hne].
  - f_equal. rewrite <- Hx at 2. apply slice_splice. lia.
  - f_equal. apply slice_splice_ne; [lia|]. rewrite Hx. lia.
Qed.

Lemma encode_inode_length i : inode_ok i -> length (encode (pure_inode i)) = 76%nat.
Proof. intros [? ? ? ? ? ?]. change 76%nat with (@lay_size inode _). apply encode_length. by split. Qed.

Lemma inside_partition_run s pos : geometry (cur_part s) -> sec_lba pos < inode_table_lba (sb (cur_part s)) + 608 ->
  inside_partition pos s = Ok (tt, s).
Proof.
  intros Hg Hp. destruct (geometry_small _ Hg) as (G1 & G2 & G3 & G4).
  unfold inside_partition. rewrite (mbindM_Ok _ _ s s s eq_refl). apply assertM_run. lia.
Qed.

(** [inode_sync], with the state it leaves. *)
Lemma inode_sync_run s i : geometry (cur_part s) -> disk_wf (dsk s) -> inode_ok i -> i_no i < 4096 ->
  exists d, inode_sync i s = Ok (tt, set_dsk d s) /\ disk_wf d /\
    (forall a, ~ in_table (cur_part s) a -> sec d a = sec (dsk s) a) /\
    (forall m, 0 <= m < 4096 -> inode_at (set_dsk d s) m = if m =? i_no i then pure_inode i else inode_at s m).
Proof.
  intros Hg Hd Hi Hn. destruct (geometry_small _ Hg) as (G1 & G2 & G3 & G4). pose proof (io_no i Hi) as Hno.
  unfold u32_ok in Hno. assert (0 <= i_no i < 4096) as Hrange by lia.
  destruct (inode_locate_run s (i_no i) Hg Hrange) as (pos & k & R & El & Ho & Eo & Hk & Hf).
  pose proof (pos_secs_range pos) as Hps. assert (sec_lba pos < inode_table_lba (sb (cur_part s)) + 608) as Hlt by (unfold table_secs in Hk; lia).
  assert (0 <= sec_lba pos <= max_lba) as [? ?] by lia.
  eassert (inode_sync i s = Ok (tt, set_dsk _ s)) as R2.
  { unfold inode_sync. mrun R. mrun (inside_partition_run s pos Hg Hlt).
    mrun (ide_rd_run s (sec_lba pos) (pos_secs pos) ltac:(done) Hps ltac:(done)). by apply ide_wr_run. }
  edestruct (table_write s (i_no i) (encode (pure_inode i)) pos k Hg Hd (encode_inode_length i Hi) Hrange El Ho Eo Hk Hf _ eq_refl) as (T1 & T2 & T3).
  revert R2 T1 T2 T3. generalize (put_secs (Z.to_nat (pos_secs pos)) (dsk s) (sec_lba pos)
    (splice (Z.to_nat (off_size pos)) (encode (pure_inode i)) (secs (Z.to_nat (pos_secs pos)) (dsk s) (sec_lba pos)))).
  intros d R2 T1 T2 T3. exists d. split; [done|]. split; [done|]. split; [done|]. intros m Hm.
  rewrite (table_entries s (set_dsk d s) (i_no i) _ Hd (encode_inode_length i Hi) Hrange T1 m Hm).
  destruct (m =? i_no i); [|done]. rewrite <- (app_nil_r (encode _)). apply decode_encode.
  destruct Hi. by split.
Qed.


(** ** The inodes in memory *)

(** Every listed inode is an allocated object with a positive count, no number
    is listed twice. *)
Record cache_ok s : Prop := {
  ca_nodup : NoDup (open_inodes (cur_part s));
  ca_open p : p ∈ open_inodes (cur_part s) -> p <> NULL /\ h_live (heap s) true p /\
    exists i, inodes s !! p = Some i /\ inode_ok i /\ 0 <= i_no i < 4096 /\ 0 < i_open_cnts i;
  ca_numbers p q i j : p ∈ open_inodes (cur_part s) -> q ∈ open_inodes (cur_part s) ->
    inodes s !! p = Some i -> inodes s !! q = Some j -> i_no i = i_no j -> p = q;
  ca_dom p : is_Some (inodes s !! p) -> h_live (heap s) true p
}.

(** [p] is the object of inode [n]. *)
Definition opened s (n p : Z) : Prop :=
  p ∈ open_inodes (cur_part s) /\ exists i, inodes s !! p = Some i /\ i_no i = n.
Definition not_opened s (n : Z) : Prop := forall p, ~ opened s n p.

Lemma opened_dec s n : (exists p, opened s n p) \/ not_opened s n.
Proof.
  destruct (decide (Exists (fun p => i_no <$> inodes s !! p = Some n) (open_inodes (cur_part s)))) as [He|He].
  - left. apply Exists_exists in He as (p & Hp & Ei). apply fmap_Some in Ei as (i & E & ->). exists p. split; [done|by exists i].
  - right. intros p (Hp & i & E & En). apply He, Exists_exists. exists p. by rewrite E; cbn; rewrite En.
Qed.

Lemma get_inode_run s p i : inodes s !! p = Some i -> get_inode p s = Ok (i, s).
Proof. intros E. unfold get_inode. by rewrite E. Qed.

Lemma find_open_none s n l : (forall p, p ∈ l -> exists i, inodes s !! p = Some i /\ i_no i <> n) ->
  find_open l n s = Ok (NULL, s).
Proof.
  induction l as [|p l IH]; intros Hl; [done|]. cbn [find_open].
  destruct (Hl p ltac:(left)) as (i & Ei & Hi). mrun (get_inode_run s p i Ei).
  destruct (Z.eqb_spec (i_no i) n); [done|]. apply IH. intros q Hq. apply Hl. by right.
Qed.

Lemma find_open_some s n l p i : NoDup l -> p ∈ l -> inodes s !! p = Some i -> i_no i = n ->
  (forall q, q ∈ l -> exists j, inodes s !! q = Some j /\ (i_no j = n -> q = p)) ->
  find_open l n s = Ok (p, s).
Proof.
  intros Hnd Hp Ei Hn. revert Hp. induction l as [|q l IH]; intros Hp Hl; [by apply not_elem_of_nil in Hp|]. cbn [find_open].
  destruct (Hl q ltac:(left)) as (j & Ej & Hj). mrun (get_inode_run s q j Ej).
  destruct (Z.eqb_spec (i_no j) n) as [En|Hne]; [by rewrite (Hj En)|].
  apply NoDup_cons in Hnd as [Hq Hnd]. apply elem_of_cons in Hp as [->|Hp].
  { rewrite Ei in Ej. injection Ej as <-. done. }
  apply IH; [done|done|]. intros q' Hq'. apply Hl. by right.
Qed.

Lemma find_open_cache s n p : cache_ok s -> opened s n p -> find_open (open_inodes (cur_part s)) n s = Ok (p, s).
Proof.
  intros [Hnd Ho Hu _] (Hp & i & Ei & En). apply (find_open_some s n _ p i); [done..|].
  intros q Hq. destruct (Ho q Hq) as (_ & _ & j & Ej & _). exists j. split; [done|].
  intros E. apply (Hu q p j i); [done..|congruence].
Qed.

Lemma find_open_miss s n : cache_ok s -> not_opened s n -> find_open (open_inodes (cur_part s)) n s = Ok (NULL, s).
Proof.
  intros [Hnd Ho Hu _] Hn. apply find_open_none. intros p Hp. destruct (Ho p Hp) as (_ & _ & i & Ei & _).
  exists i. split; [done|]. intros E. apply (Hn p). split; [done|]. by exists i.
Qed.

(** Heap calls through the state. *)
Lemma on_kheap_run {A} (c : M H A) s a h : c (heap s) = Ok (a, h) -> on_heap c s = Ok (a, set_heap h s).
Proof. intros E. unfold on_heap. by rewrite E. Qed.

Lemma kmalloc_run s k n : h_room (S k) (heap s) -> 0 < n <= 1048576 ->
  exists p h, kmalloc n s = Ok (p, set_heap h s) /\ p <> NULL /\ ~ h_live (heap s) true p /\ h_room k h /\
    (forall kn q, h_live h kn q <-> h_live (heap s) kn q \/ (kn = true /\ q = p)).
Proof.
  intros Hr Hn. destruct (h_malloc_ok k true n _ Hr Hn) as (p & h & E & ? & ? & ? & ?).
  exists p, h. split; [by apply on_kheap_run|done].
Qed.

Lemma malloc_run s k n : h_room (S k) (heap s) -> 0 < n <= 1048576 ->
  exists p h, malloc n s = Ok (p, set_heap h s) /\ p <> NULL /\ ~ h_live (heap s) (pgdir_null s) p /\ h_room k h /\
    (forall kn q, h_live h kn q <-> h_live (heap s) kn q \/ (kn = pgdir_null s /\ q = p)).
Proof.
  intros Hr Hn. destruct (h_malloc_ok k (pgdir_null s) n _ Hr Hn) as (p & h & E & ? & ? & ? & ?).
  exists p, h. split; [|done]. unfold malloc. rewrite (mbindM_Ok _ _ s s s eq_refl). by apply on_kheap_run.
Qed.

Lemma kfree_run s k p : h_room k (heap s) -> h_live (heap s) true p ->
  exists h, kfree p s = Ok (tt, set_heap h s) /\ h_room k h /\
    (forall kn q, h_live h kn q <-> h_live (heap s) kn q /\ ~ (kn = true /\ q = p)).
Proof.
  intros Hr Hl. destruct (h_free_ok k true p _ Hr Hl) as (h & E & ? & ?).
  exists h. split; [by apply on_kheap_run|done].
Qed.

Lemma free_run s k p : h_room k (heap s) -> h_live (heap s) (pgdir_null s) p ->
  exists h, free p s = Ok (tt, set_heap h s) /\ h_room k h /\
    (forall kn q, h_live h kn q <-> h_live (heap s) kn q /\ ~ (kn = pgdir_null s /\ q = p)).
Proof.
  intros Hr Hl. destruct (h_free_ok k (pgdir_null s) p _ Hr Hl) as (h & E & ? & ?).
  exists h. split; [|done]. unfold free. rewrite (mbindM_Ok _ _ s s s eq_refl). by apply on_kheap_run.
Qed.

Lemma need_run s p : p <> NULL -> need p s = Ok (tt, s).
Proof. intros Hp. unfold need. destruct (Z.eqb_spec p NULL); [done|]. done. Qed.

(** The state once [p] has been loaded as inode [n]. *)
Definition loaded s (p : Z) (i : inode) (h : H) : fs H :=
  set_heap h (set_part (set_open_inodes (p :: open_inodes (cur_part s)) (cur_part s)) (set_inodes (<[p := i]> (inodes s)) s)).

(** The entry read from the sectors [inode_locate] names. *)
Lemma locate_entry s n pos k : disk_wf (dsk s) -> sec_lba pos = inode_table_lba (sb (cur_part s)) + Z.of_nat k ->
  (512 * k + Z.to_nat (off_size pos) = 76 * Z.to_nat n)%nat -> (k + Z.to_nat (pos_secs pos) <= table_secs)%nat ->
  (Z.to_nat (off_size pos) + 76 <= 512 * Z.to_nat (pos_secs pos))%nat ->
  decode (drop (Z.to_nat (off_size pos)) (secs (Z.to_nat (pos_secs pos)) (dsk s) (sec_lba pos))) = inode_at s n.
Proof.
  intros Hd El Eo Hk Hf. unfold inode_at, slice, table. change (take 76) with (take (A:=Z) (@lay_size inode _)).
  rewrite decode_take, <- Eo, <- drop_drop.
  replace table_secs with (k + (Z.to_nat (pos_secs pos) + (table_secs - k - Z.to_nat (pos_secs pos))))%nat by lia.
  rewrite !secs_add, <- El. rewrite (drop_app_length' (secs k _ _)) by (by rewrite secs_length).
  rewrite drop_app_le by (rewrite secs_length by done; lia).
  rewrite <- (decode_take (drop _ _)), <- (decode_take (_ ++ _)). f_equal.
  rewrite take_app_le; [done|]. rewrite length_drop, secs_length by done. cbn [lay_size inode_Layout]. lia.
Qed.

Lemma inode_open_fresh s n k : geometry (cur_part s) -> disk_wf (dsk s) -> cache_ok s -> not_opened s n -> 0 <= n < 4096 ->
  h_room (S (S k)) (heap s) ->
  exists p h, inode_open n s = Ok (p, loaded s p (set_open_cnts 1 (inode_at s n)) h) /\ p <> NULL /\
    ~ h_live (heap s) true p /\ h_room k h /\
    (forall kn q, h_live h kn q <-> h_live (heap s) kn q \/ (kn = true /\ q = p)).
Proof.
  intros Hg Hd Hc Hn Hr Hroom. destruct (geometry_small _ Hg) as (G1 & G2 & G3 & G4).
  destruct (inode_locate_run s n Hg Hr) as (pos & j & R & El & Ho & Eo & Hk & Hf).
  pose proof (pos_secs_range pos) as Hps. assert (sec_lba pos < inode_table_lba (sb (cur_part s)) + 608) as Hlt by (unfold table_secs in Hk; lia).
  assert (0 <= sec_lba pos <= max_lba) as [Hs1 Hs2] by lia.
  destruct (kmalloc_run s (S k) sizeof_inode Hroom ltac:(unfold sizeof_inode; lia)) as (p & h1 & K1 & K2 & K3 & K4 & K5).
  destruct (malloc_run (set_heap h1 s) k (pos_secs pos * 512) K4 ltac:(unfold pos_secs; destruct (two_sec pos); lia))
    as (b & h2 & B1 & B2 & B3 & B4 & B5).
  set (s2 := set_heap h2 (set_heap h1 s)) in *.
  set (s3 := loaded s p (set_open_cnts 1 (inode_at s n)) h2).
  destruct (free_run s3 k b B4) as (h3 & F1 & F2 & F3).
  { apply B5. by right. }
  exists p, h3. split; [|split; [done|split; [done|split; [done|]]]].
  - unfold inode_open. rewrite (mbindM_Ok _ _ s s s eq_refl). mrun (find_open_miss s n Hc Hn).
    change (negb (NULL =? NULL)) with false. cbn iota. mrun R. mrun K1. mrun B1. mrun (need_run s2 b B2).
    mrun (ide_rd_run s2 (sec_lba pos) (pos_secs pos) Hs1 Hps Hs2). mrun (need_run s2 p K2).
    change (dsk s2) with (dsk s). rewrite (locate_entry s n pos j Hd El Eo Hk Hf).
    unfold put_inode. rewrite !modS_bind. mrunc F1. done.
  - intros kn q. rewrite F3. change (heap s3) with h2. rewrite B5. change (heap (set_heap h1 s)) with h1. rewrite K5.
    change (pgdir_null s3) with (pgdir_null s). change (pgdir_null (set_heap h1 s)) with (pgdir_null s).
    split; [tauto|]. intros Hq. split; [tauto|]. intros [-> ->]. apply B3. apply K5. tauto.
Qed.

(** An inode that is open is shared: the same object, its count one up. *)
Lemma inode_open_shared s n p i : cache_ok s -> opened s n p -> inodes s !! p = Some i -> p <> NULL ->
  inode_open n s = Ok (p, set_inodes (<[p := set_open_cnts (u32 (i_open_cnts i + 1)) i]> (inodes s)) s).
Proof.
  intros Hc Hp Ei Hnn. unfold inode_open. rewrite (mbindM_Ok _ _ s s s eq_refl). mrun (find_open_cache s n p Hc Hp).
  destruct (Z.eqb_spec p NULL); [done|]. cbn [negb].
  unfold upd_inode, mbind, M_bind. unfold get_inode. rewrite Ei. done.
Qed.

(** The state once [p] has been dropped. *)
Definition dropped s (p : Z) (h : H) : fs H :=
  set_inodes (delete p (inodes s)) (set_heap h (set_part (set_open_inodes (q_remove (open_inodes (cur_part s)) p) (cur_part s)) s)).

Lemma set_fs_flags_same s : set_fs_flags (flags s) s = s.
Proof. by destruct s. Qed.

(** [inode_close] on every branch. *)
Lemma inode_close_run s p i k : inodes s !! p = Some i -> 0 < i_open_cnts i < 2 ^ 32 -> h_live (heap s) true p -> h_room k (heap s) ->
  if i_open_cnts i =? 1 then
    exists h, inode_close p s = Ok (tt, dropped s p h) /\ h_room k h /\
      (forall kn q, h_live h kn q <-> h_live (heap s) kn q /\ ~ (kn = true /\ q = p))
  else inode_close p s = Ok (tt, set_inodes (<[p := set_open_cnts (i_open_cnts i - 1) i]> (inodes s)) s).
Proof.
  intros Ei Hc Hl Hr. assert (u32 (i_open_cnts i - 1) = i_open_cnts i - 1) as Eu by (apply wrapu_small; lia).
  set (m := set_inodes (<[p := set_open_cnts (i_open_cnts i - 1) i]> (inodes s)) (masked s)).
  unfold inode_close. mrun (intr_disable_run s). mrun (get_inode_run (masked s) p i Ei). rewrite Eu.
  rewrite (mbindM_Ok (put_inode _ _) _ (masked s) tt m eq_refl).
  replace (i_open_cnts i - 1 =? 0) with (i_open_cnts i =? 1) by (destruct (Z.eqb_spec (i_open_cnts i) 1), (Z.eqb_spec (i_open_cnts i - 1) 0); lia).
  destruct (Z.eqb_spec (i_open_cnts i) 1) as [E1|Hne].
  - set (m1 := set_part (set_open_inodes (q_remove (open_inodes (cur_part s)) p) (cur_part s)) m).
    destruct (kfree_run m1 k p Hr Hl) as (h & F1 & F2 & F3).
    exists h. split; [|split; [done|]].
    + assert (((modS (fun s => set_part (set_open_inodes (q_remove (open_inodes (cur_part s)) p) (cur_part s)) s) : M (fs H) ()) ≫= fun _ =>
               kfree p ≫= fun _ => modS (fun s => set_inodes (delete p (inodes s)) s)) m = Ok (tt, masked (dropped s p h))) as R.
      { rewrite modS_bind. mrunc F1. unfold modS. do 2 f_equal.
        unfold m1, m, dropped, masked, set_inodes. cbn. by rewrite delete_insert_eq. }
      mrun R. destruct (intr_restore_run s (masked (dropped s p h))) as [r Er]; [by destruct s|]. mrun Er.
      by destruct s.
    + intros kn q. rewrite F3. done.
  - assert ((mret tt : M (fs H) ()) m = Ok (tt, masked (set_inodes (<[p := set_open_cnts (i_open_cnts i - 1) i]> (inodes s)) s))) as R by done.
    mrun R. destruct (intr_restore_run s (masked (set_inodes (<[p := set_open_cnts (i_open_cnts i - 1) i]> (inodes s)) s))) as [r Er]; [by destruct s|]. mrun Er. by destruct s.
Qed.

(** The cache through its three changes. *)
Lemma cache_ok_loaded s p i h : cache_ok s -> not_opened s (i_no i) -> p <> NULL -> ~ h_live (heap s) true p ->
  inode_ok i -> 0 <= i_no i < 4096 -> 0 < i_open_cnts i ->
  (forall kn q, h_live h kn q <-> h_live (heap s) kn q \/ (kn = true /\ q = p)) -> cache_ok (loaded s p i h).
Proof.
  intros [Hnd Ho Hu Hdom] Hn Hp Hnl Hi Hno Hcnt Hl.
  assert (p ∉ open_inodes (cur_part s)) as Hfresh by (intros Hin; by destruct (Ho p Hin) as (_ & ? & _)).
  assert (forall q, q ∈ open_inodes (cur_part s) -> q <> p) as Hne by (intros q Hq ->; done).
  split; cbn [loaded set_heap set_part set_inodes set_open_inodes cur_part open_inodes inodes heap].
  - by apply NoDup_cons.
  - intros q [->|Hq]%elem_of_cons.
    + split; [done|]. split; [apply Hl; tauto|]. exists i. by rewrite lookup_insert_eq.
    + destruct (Ho q Hq) as (? & ? & j & Ej & ?). split; [done|]. split; [apply Hl; tauto|].
      exists j. rewrite lookup_insert_ne by (symmetry; by apply Hne). done.
  - intros q r iq ir Hq Hr Eq Er E. apply elem_of_cons in Hq as [->|Hq], Hr as [->|Hr]; [done| | |].
    + rewrite lookup_insert_eq in Eq. injection Eq as <-. rewrite lookup_insert_ne in Er by (symmetry; by apply Hne).
      exfalso. apply (Hn r). split; [done|]. by exists ir.
    + rewrite lookup_insert_eq in Er. injection Er as <-. rewrite lookup_insert_ne in Eq by (symmetry; by apply Hne).
      exfalso. apply (Hn q). split; [done|]. by exists iq.
    + rewrite lookup_insert_ne in Eq, Er by (symmetry; by apply Hne). by apply (Hu q r iq ir).
  - intros q Hq. rewrite lookup_insert in Hq. apply Hl. case_decide; [subst; tauto|]. left. by apply Hdom.
Qed.

Lemma cache_ok_update s p i j : cache_ok s -> p ∈ open_inodes (cur_part s) -> inodes s !! p = Some i ->
  inode_ok j -> i_no j = i_no i -> 0 < i_open_cnts j -> cache_ok (set_inodes (<[p := j]> (inodes s)) s).
Proof.
  intros [Hnd Ho Hu Hdom] Hp Ei Hj En Hc.
  assert (forall q iq, <[p := j]> (inodes s) !! q = Some iq -> exists iq', inodes s !! q = Some iq' /\ i_no iq' = i_no iq) as Hback.
  { intros q iq. rewrite lookup_insert. case_decide; [intros [= <-]; subst; by exists i|]. intros E. by exists iq. }
  split; cbn [set_inodes cur_part inodes heap].
  - done.
  - intros q Hq. destruct (Ho q Hq) as (? & ? & k & Ek & Hk). split; [done|]. split; [done|].
    rewrite lookup_insert. case_decide; [|by exists k]. subst q. rewrite Ei in Ek. injection Ek as <-.
    exists j. rewrite En. tauto.
  - intros q r iq ir Hq Hr Eq Er E. destruct (Hback _ _ Eq) as (iq' & Eq' & Nq), (Hback _ _ Er) as (ir' & Er' & Nr).
    apply (Hu q r iq' ir'); [done..|congruence].
  - intros q Hq. apply Hdom. rewrite lookup_insert in Hq. case_decide; [subst; by exists i|done].
Qed.

Lemma cache_ok_dropped s p h : cache_ok s -> p ∈ open_inodes (cur_part s) ->
  (forall kn q, h_live h kn q <-> h_live (heap s) kn q /\ ~ (kn = true /\ q = p)) -> cache_ok (dropped s p h).
Proof.
  intros [Hnd Ho Hu Hdom] Hp Hl.
  assert (forall q, q ∈ q_remove (open_inodes (cur_part s)) p -> q <> p /\ q ∈ open_inodes (cur_part s)) as Hin
    by (intros q Hq; by apply list_elem_of_filter in Hq).
  split; cbn [dropped set_heap set_part set_inodes set_open_inodes cur_part open_inodes inodes heap].
  - by apply NoDup_filter.
  - intros q [Hne Hq]%Hin. destruct (Ho q Hq) as (? & ? & i & Ei & ?). split; [done|]. split; [apply Hl; naive_solver|].
    exists i. by rewrite lookup_delete_ne.
  - intros q r iq ir [Hq1 Hq2]%Hin [Hr1 Hr2]%Hin. rewrite !lookup_delete_ne by done. by apply Hu.
  - intros q Hq. rewrite lookup_delete in Hq. case_decide; [by destruct Hq|]. apply Hl. naive_solver.
Qed.

(** Closing undoes a load and an increment. *)
Lemma dropped_loaded s p i h h' : p ∉ open_inodes (cur_part s) -> inodes s !! p = None ->
  dropped (loaded s p i h) p h' = set_heap h' s.
Proof.
  intros Hp Hn. assert (q_remove (p :: open_inodes (cur_part s)) p = open_inodes (cur_part s)) as E.
  { unfold q_remove. rewrite filter_cons_False by naive_solver. apply filter_all_elem. by intros x Hx ->. }
  unfold dropped, loaded. destruct s as [d [a b c e f l] im dm hh ft ft' cw pn fl]. cbn in *.
  by rewrite delete_insert_id, E by done.
Qed.

(** [inode_open] shares: an inode that is open comes back as the same
    object with its count one up, any other is loaded from the inode table into
    a fresh kernel object with count one; the list of open inodes keeps its
    invariant, and [inode_close] takes the cache back to what it was before. *)
Theorem inode_open_close_restores s n k :
  geometry (cur_part s) -> disk_wf (dsk s) -> cache_ok s -> 0 <= n < 4096 -> h_room (S (S k)) (heap s) ->
  inode_ok (inode_at s n) -> i_no (inode_at s n) = n ->
  (forall p i, inodes s !! p = Some i -> i_open_cnts i + 1 < 2 ^ 32) ->
  exists p s' s'' i, inode_open n s = Ok (p, s') /\ cache_ok s' /\ opened s' n p /\ inodes s' !! p = Some i /\
    (match inodes s !! p with
     | Some i0 => opened s n p /\ i = set_open_cnts (i_open_cnts i0 + 1) i0
     | None => not_opened s n /\ i = set_open_cnts 1 (inode_at s n)
     end) /\
    inode_close p s' = Ok (tt, s'') /\ inodes s'' = inodes s /\ open_inodes (cur_part s'') = open_inodes (cur_part s) /\
    (forall kn q, h_live (heap s'') kn q <-> h_live (heap s) kn q).
Proof.
  intros Hg Hd Hc Hn Hr Hi Hno Hmax.
  destruct (opened_dec s n) as [(p & Hop)|Hno'].
  - destruct Hop as (Hp & i & E & Ei).
    destruct (ca_open s Hc p Hp) as (Hnn & Hl & i' & E' & Hok & Hr' & Hcnt). rewrite E in E'. injection E' as <-.
    assert (opened s n p) as Hop by (split; [done|by exists i]). specialize (Hmax p i E).
    assert (u32 (i_open_cnts i + 1) = i_open_cnts i + 1) as Eu by (apply wrapu_small; lia).
    set (j := set_open_cnts (i_open_cnts i + 1) i). set (s' := set_inodes (<[p := j]> (inodes s)) s).
    assert (inode_ok j) as Hj by (destruct Hok; split; cbn; [done|done| |done..]; split; lia).
    assert (inodes s' !! p = Some j) as Ej by apply lookup_insert_eq.
    pose proof (inode_close_run s' p j _ Ej ltac:(cbn; lia) Hl Hr) as Hclose.
    destruct (Z.eqb_spec (i_open_cnts j) 1) as [Hbad|_]; [cbn in Hbad; lia|].
    exists p, s'. eexists _, j.
    split; [rewrite (inode_open_shared s n p i Hc Hop E Hnn), Eu; done|].
    split; [apply (cache_ok_update s p i j Hc Hp E Hj eq_refl); cbn; lia|].
    split; [split; [done|]; by exists j|]. split; [done|]. split; [rewrite E; done|]. split; [exact Hclose|].
    split; [|done]. cbn [s' set_inodes inodes]. rewrite insert_insert_eq.
    replace (set_open_cnts (i_open_cnts j - 1) j) with i; [by apply insert_id|]. destruct i. unfold j, set_open_cnts. cbn. f_equal. lia.
  - destruct (inode_open_fresh s n k Hg Hd Hc Hno' Hn Hr) as (p & h & R & Hnn & Hnl & Hrm & Hlv).
    set (i := set_open_cnts 1 (inode_at s n)) in *. set (s' := loaded s p i h) in *.
    assert (i_no i = n) as Ein by exact Hno. assert (i_open_cnts i = 1) as Ecnt by reflexivity.
    assert (inodes s !! p = None) as Enone.
    { apply eq_None_not_Some. intros Hs. by apply Hnl, (ca_dom s Hc). }
    assert (p ∉ open_inodes (cur_part s)) as Hni by (intros Hp; by destruct (ca_open s Hc p Hp) as (_ & ? & _)).
    assert (inodes s' !! p = Some i) as Ei by apply lookup_insert_eq.
    assert (inode_ok i) as Hoki by (destruct Hi; by split).
    pose proof (inode_close_run s' p i k Ei ltac:(lia) ltac:(apply Hlv; tauto) Hrm) as Hclose.
    rewrite Ecnt in Hclose. change (1 =? 1) with true in Hclose. cbn iota in Hclose.
    destruct Hclose as (h' & Rc & _ & Hl').
    exists p, s', (dropped s' p h'), i. split; [done|].
    split; [apply cache_ok_loaded; rewrite ?Ein; done || lia|].
    split; [split; [left|]; by exists i|]. split; [done|]. split; [by rewrite Enone|]. split; [done|].
    unfold s'. rewrite dropped_loaded by done. split; [done|]. split; [done|].
    intros kn q. cbn [set_heap heap]. rewrite Hl'. cbn [s' loaded set_heap heap]. rewrite Hlv.
    split; [tauto|]. intros Hq. split; [tauto|]. intros [-> ->]. done.
Qed.

(** C13. An inode written by [inode_sync] is what [inode_open] loads: number,
    size and block addresses survive the two sectors an entry may straddle, the
    fields that only make sense in memory are cleared; no other inode of the
    table and no sector outside it changes. *)
Theorem inode_sync_open_roundtrip s i k :
  geometry (cur_part s) -> disk_wf (dsk s) -> cache_ok s -> inode_ok i -> i_no i < 4096 ->
  not_opened s (i_no i) -> h_room (S (S k)) (heap s) ->
  exists d p s', inode_sync i s = Ok (tt, set_dsk d s) /\ inode_open (i_no i) (set_dsk d s) = Ok (p, s') /\
    inodes s' !! p = Some (mk_inode (i_no i) (i_size i) 1 0 (i_sectors i)) /\
    (forall m, 0 <= m < 4096 -> m <> i_no i -> inode_at s' m = inode_at s m) /\
    (forall a, ~ in_table (cur_part s) a -> sec (dsk s') a = sec (dsk s) a).
Proof.
  intros Hg Hd Hc Hi Hn Hno Hr. destruct (inode_sync_run s i Hg Hd Hi Hn) as (d & R & Hd' & Hout & Hat).
  pose proof (io_no i Hi) as [Hlo _].
  destruct (inode_open_fresh (set_dsk d s) (i_no i) k Hg Hd') as (p & h & Ro & _); [by destruct Hc|done|done|done|].
  exists d, p. eexists. split; [done|]. split; [exact Ro|].
  split; [|split; [|done]].
  - cbn [loaded set_heap set_part set_inodes inodes]. rewrite lookup_insert_eq, Hat, Z.eqb_refl by lia. done.
  - intros m Hm Hne. change (inode_at (set_dsk d s) m = inode_at s m). rewrite Hat by done.
    by destruct (Z.eqb_spec m (i_no i)).
Qed.

End Table.

(** ** Concrete states *)

(** A heap that hands out increasing addresses. *)
Record bump : Type := mk_bump { nxt : Z; alive : gset (bool * Z); spare : nat }.

#[global] Program Instance bump_Heap : Heap bump := {|
  h_malloc kn n h :=
    match spare h with
    | O => Ok (NULL, h)
    | S k => Ok (nxt h, mk_bump (nxt h + 1024) ({[(kn, nxt h)]} ∪ alive h) k)
    end;
  h_free kn p h :=
    if decide ((kn, p) ∈ alive h) then Ok (tt, mk_bump (nxt h) (alive h ∖ {[(kn, p)]}) (spare h))
    else Panic "sys_free";
  h_live h kn p := (kn, p) ∈ alive h;
  h_room k h := (k <= spare h)%nat /\ 0 < nxt h /\ forall kn p, (kn, p) ∈ alive h -> p < nxt h
|}.
Next Obligation.
  intros k kn n h (Hk & Hp & Hl) _. cbn. destruct (spare h) as [|j] eqn:E; [lia|].
  eexists _, _. split; [done|]. split; [unfold NULL; lia|]. split; [intros Hin; apply Hl in Hin; lia|].
  split; [split; [cbn; lia|split; [cbn; lia|]]|].
  - intros kn' p [[= -> ->]%elem_of_singleton|Hin]%elem_of_union; cbn; [lia|]. apply Hl in Hin. lia.
  - intros kn' q. cbn. rewrite elem_of_union, elem_of_singleton. split; [intros [[= -> ->]|]; tauto|intros [|[-> ->]]; tauto].
Qed.
Next Obligation.
  intros k kn p h (Hk & Hp & Hl) Hlive. cbn. rewrite decide_True by done.
  eexists. split; [done|]. split; [split; [done|split; [done|]]|].
  - intros kn' q [Hin _]%elem_of_difference. by apply (Hl kn').
  - intros kn' q. cbn. rewrite elem_of_difference, elem_of_singleton. split; intros [? Hne]; (split; [done|]).
    + intros [-> ->]. by apply Hne.
    + intros [= -> ->]. by apply Hne.
Qed.

Definition demo_sb : super_block := mk_sb 0x19750130 4096 4096 0 2 1 3 1 4 608 612 0 24.
(** Partitions by the first byte of the block bitmap; with 1 only the block of
    the root directory is in use. *)
Definition demo_part_with (b : Z) : partition :=
  mk_part 0 4096 demo_sb (mk_bitmap 512 (b :: replicate 511 0)) (mk_bitmap 512 (1 :: replicate 511 0)) [].
Definition demo_part : partition := demo_part_with 1.
Definition demo_heap : bump := mk_bump 0x100000 ∅ 1000.
Definition demo_fs : fs bump :=
  mk_fs ∅ demo_part ∅ ∅ demo_heap (replicate 32 (mk_file 0 0 NULL)) ([0; 1; 2] ++ replicate 5 (-1)) 0 true 0x202.

Lemma demo_heap_room k : (k <= 1000)%nat -> h_room k demo_heap.
Proof. intros Hk. split; [exact Hk|]. split; [cbn; lia|]. intros kn p Hin. by apply elem_of_empty in Hin. Qed.

Lemma demo_part_map_wf b : is_byte b -> bitmap_wf (mk_bitmap 512 (b :: replicate 511 0)).
Proof.
  intros Hb. repeat split; try (vm_compute; done). cbn [bits]. apply Forall_cons. split; [done|].
  apply Forall_replicate. unfold is_byte; lia.
Qed.

Lemma demo_geometry_with b : is_byte b -> geometry (demo_part_with b).
Proof.
  intros Hb. split; cbn [demo_part_with demo_sb sb block_bitmap_lba block_bitmap_sects inode_bitmap_lba inode_bitmap_sects inode_table_lba
    data_start_lba dir_entry_size start_lba sec_cnt block_bitmap inode_bitmap btmp_bytes_len bits]; try done.
  - split; [by apply demo_part_map_wf|done].
  - split; [by apply demo_part_map_wf|done].
  - intros k Hk _. unfold nbits in Hk. cbn [btmp_bytes_len] in Hk. rewrite max_lba_value. lia.
Qed.

Lemma demo_geometry : geometry demo_part.
Proof. apply demo_geometry_with. unfold is_byte. lia. Qed.

Lemma demo_disk_wf : disk_wf ∅.
Proof. intros a x E. by rewrite lookup_empty in E. Qed.

Lemma demo_cache_ok : cache_ok demo_fs.
Proof.
  split; cbn [demo_fs demo_part demo_part_with cur_part open_inodes inodes heap].
  - constructor.
  - intros p Hp. by apply not_elem_of_nil in Hp.
  - intros p q i j Hp. by apply not_elem_of_nil in Hp.
  - intros p [i Hi]. by rewrite lookup_empty in Hi.
Qed.

Lemma demo_not_opened n : not_opened demo_fs n.
Proof. intros p [Hp _]. by apply not_elem_of_nil in Hp. Qed.

Lemma demo_inode_at_0 : inode_at demo_fs 0 = mk_inode 0 0 0 0 (replicate 13 0).
Proof. vm_compute. reflexivity. Qed.

Lemma inode_ok_intro n sz oc wd l : u32_ok n -> u32_ok sz -> u32_ok oc -> u32_ok wd -> length l = 13%nat ->
  forallb (fun v => (0 <=? v) && (v <? 4294967296)) l = true -> inode_ok (mk_inode n sz oc wd l).
Proof.
  intros H1 H2 H3 H4 H5 H6. split; cbn; try done. apply Forall_forall. intros x Hx. rewrite forallb_forall in H6.
  specialize (H6 x ltac:(by apply list_elem_of_In)). unfold u32_ok. change (2 ^ 32) with 4294967296. lia.
Qed.

(** Inode 6 straddles the first two sectors of the table. *)
Definition demo_inode : inode := mk_inode 6 100 3 1 (613 :: replicate 12 0).

Lemma demo_inode_ok : inode_ok demo_inode.
Proof. apply inode_ok_intro; done. Qed.

Lemma inode_open_close_restores_witness :
  exists p s' s'' i, inode_open 0 demo_fs = Ok (p, s') /\ cache_ok s' /\ opened s' 0 p /\ inodes s' !! p = Some i /\
    (match inodes demo_fs !! p with
     | Some i0 => opened demo_fs 0 p /\ i = set_open_cnts (i_open_cnts i0 + 1) i0
     | None => not_opened demo_fs 0 /\ i = set_open_cnts 1 (inode_at demo_fs 0)
     end) /\
    inode_close p s' = Ok (tt, s'') /\ inodes s'' = inodes demo_fs /\
    open_inodes (cur_part s'') = open_inodes (cur_part demo_fs) /\
    (forall kn q, h_live (heap s'') kn q <-> h_live (heap demo_fs) kn q).
Proof.
  apply (inode_open_close_restores demo_fs 0 0); [apply demo_geometry|apply demo_disk_wf|apply demo_cache_ok|lia| | | |].
  - apply demo_heap_room. lia.
  - rewrite demo_inode_at_0. apply inode_ok_intro; done.
  - by rewrite demo_inode_at_0.
  - intros p i E. cbn [demo_fs inodes] in E. by rewrite lookup_empty in E.
Defined.

Lemma inode_sync_open_roundtrip_witness :
  exists d p s', inode_sync demo_inode demo_fs = Ok (tt, set_dsk d demo_fs) /\
    inode_open (i_no demo_inode) (set_dsk d demo_fs) = Ok (p, s') /\
    inodes s' !! p = Some (mk_inode (i_no demo_inode) (i_size demo_inode) 1 0 (i_sectors demo_inode)) /\
    (forall m, 0 <= m < 4096 -> m <> i_no demo_inode -> inode_at s' m = inode_at demo_fs m) /\
    (forall a, ~ in_table (cur_part demo_fs) a -> sec (dsk s') a = sec (dsk demo_fs) a).
Proof.
  apply (inode_sync_open_roundtrip demo_fs demo_inode 0); [apply demo_geometry|apply demo_disk_wf|apply demo_cache_ok|
    apply demo_inode_ok|cbn; lia|apply demo_not_opened|apply demo_heap_room; lia].
Defined.
