(* ===== verification/Path.v ===== *)
(** * Path names (fs/fs.c: path_parse, path_depth_cnt)

    A path is the list of its characters in front of the terminating zero; a
    name buffer is the array of sixteen bytes the callers declare. *)

From S2P Require Import Prelude Layout.

Definition slash : Z := 47.   (* '/' *)

(** [while ( *(++pathname) == '/');] *)
Fixpoint skip_slashes (p : list Z) : list Z :=
  match p with
  | [] => []
  | c :: p' => if c =? slash then skip_slashes p' else p
  end.

(** [while ( *pathname != '/' && *pathname != 0) *name_store++ = *pathname++;] *)
Fixpoint copy_name (p : list Z) (name_store : list Z) (k : Z) : outcome (list Z * list Z) :=
  match p with
  | [] => Ok (p, name_store)
  | c :: p' => if c =? slash then Ok (p, name_store)
               else name_store' ← aset name_store k c; copy_name p' name_store' (k + 1)
  end.

(** The rest of the path, [None] for NULL, and the buffer. *)
Definition path_parse (pathname name_store : list Z) : outcome (option (list Z) * list Z) :=
  let p := match pathname with
           | c :: p' => if c =? slash then skip_slashes p' else pathname
           | [] => []
           end in
  '(p, name_store) ← copy_name p name_store 0;
  Ok (match p with [] => None | _ => Some p end, name_store).

Definition zero_name : list Z := replicate 16 0.

Fixpoint depth_loop (fuel : nat) (p : option (list Z)) (name : list Z) (depth : Z) : outcome Z :=
  match fuel with
  | O => NoFuel
  | S f =>
      c ← aget name 0;
      if c =? 0 then Ok (i32 depth)
      else
        '(p, name) ← (match p with Some q => path_parse q zero_name | None => Ok (None, zero_name) end);
        depth_loop f p name (u32 (depth + 1))
  end.

(** [stack] is what the array [name] holds before it is written. *)
Definition path_depth_cnt (pathname stack : list Z) : outcome Z :=
  '(p, name) ← path_parse pathname stack;
  depth_loop (S (S (length pathname))) p name 0.

(** ** Components *)

(** The words between separators: the reference definition. *)
Fixpoint split_on (sep : Z) (cur : list Z) (p : list Z) : list (list Z) :=
  match p with
  | [] => if (length cur =? 0)%nat then [] else [cur]
  | c :: p' => if c =? sep then (if (length cur =? 0)%nat then [] else [cur]) ++ split_on sep [] p'
               else split_on sep (cur ++ [c]) p'
  end.
(** The names of a path. *)
Definition components (p : list Z) : list (list Z) := split_on slash [] p.

(** A name in a buffer. *)
Definition name_buf (n : list Z) : list Z := n ++ replicate (16 - length n) 0.

Definition free_of (sep : Z) (n : list Z) : Prop := Forall (fun c => c <> sep) n.
(** The end of a string or a separator. *)
Definition at_cut (sep : Z) (r : list Z) : Prop := r = [] \/ exists r', r = sep :: r'.

Section Split.
Variable sep : Z.

Lemma split_cut p : exists n r, p = n ++ r /\ free_of sep n /\ at_cut sep r.
Proof.
  induction p as [|c p (n & r & -> & Hn & Hr)]; [exists [], []; repeat split; [constructor|by left]|].
  destruct (Z.eq_dec c sep) as [->|Hc].
  - exists [], (sep :: n ++ r). repeat split; [constructor|right; eauto].
  - exists (c :: n), r. repeat split; [by constructor|done].
Qed.

Lemma split_on_name n : forall cur r, free_of sep n -> split_on sep cur (n ++ r) = split_on sep (cur ++ n) r.
Proof.
  induction n as [|c n IH]; intros cur r Hn; cbn [app]; [by rewrite app_nil_r|].
  inversion Hn as [|? ? Hc Hn']; subst. cbn [split_on]. destruct (Z.eqb_spec c sep); [done|].
  rewrite IH by done. by rewrite <- app_assoc.
Qed.

Lemma split_on_word n r : n <> [] -> free_of sep n -> at_cut sep r -> split_on sep [] (n ++ r) = n :: split_on sep [] r.
Proof.
  intros Hne Hn Hr. rewrite split_on_name by done. cbn [app].
  assert ((length n =? 0)%nat = false) as El by (destruct n; done).
  destruct Hr as [->|(r' & ->)]; cbn [split_on]; rewrite El; [done|]. by rewrite Z.eqb_refl.
Qed.

(** No word is empty, and the words have the characters of the string. *)
Lemma split_on_nonempty p : forall cur, Forall (fun n => n <> []) (split_on sep cur p).
Proof.
  induction p as [|c p IH]; intros cur; cbn [split_on].
  - destruct cur; cbn; repeat constructor. done.
  - destruct (c =? sep); [|apply IH]. apply Forall_app. split; [|apply IH]. destruct cur; cbn; repeat constructor. done.
Qed.

Lemma split_on_chars (P : Z -> Prop) p : Forall P p -> forall cur, Forall P cur -> Forall (Forall P) (split_on sep cur p).
Proof.
  intros Hp. induction Hp as [|c p Hc Hp IH]; intros cur Hcur; cbn [split_on].
  - destruct (length cur =? 0)%nat; repeat constructor. done.
  - destruct (c =? sep); [|apply IH, Forall_app; by repeat constructor].
    apply Forall_app. split; [destruct (length cur =? 0)%nat; by repeat constructor|by apply IH].
Qed.

(** Every word and its separator are part of the string, up to one separator. *)
Lemma split_on_size p : forall cur,
  (sum_list ((fun n => S (length n)) <$> split_on sep cur p) <= length p + (if (length cur =? 0)%nat then 1 else S (length cur)))%nat.
Proof.
  induction p as [|c p IH]; intros cur; cbn [split_on length].
  - destruct (Nat.eqb_spec (length cur) 0); cbn; lia.
  - destruct (c =? sep).
    + rewrite fmap_app, sum_list_with_app. specialize (IH []). cbn in IH. destruct (Nat.eqb_spec (length cur) 0); cbn; lia.
    + specialize (IH (cur ++ [c])). rewrite length_app in IH. cbn [length] in IH.
      destruct (Nat.eqb_spec (length cur + 1) 0); [lia|]. destruct (Nat.eqb_spec (length cur) 0); lia.
Qed.

Lemma split_on_app a b : forall cur, split_on sep cur (a ++ sep :: b) = split_on sep cur a ++ split_on sep [] b.
Proof.
  induction a as [|c a IH]; intros cur; cbn [app split_on]; [by rewrite Z.eqb_refl|].
  destruct (c =? sep); [rewrite IH; by rewrite app_assoc|apply IH].
Qed.

End Split.

Lemma skip_slashes_comp p : components (skip_slashes p) = components p.
Proof.
  induction p as [|c p IH]; [done|]. cbn [skip_slashes]. unfold components in *. cbn [split_on].
  destruct (Z.eqb_spec c slash); [by rewrite IH|]. cbn [split_on]. by destruct (Z.eqb_spec c slash).
Qed.

Lemma skip_slashes_length p : (length (skip_slashes p) <= length p)%nat.
Proof. induction p as [|c p IH]; cbn [skip_slashes length]; [done|]. destruct (c =? slash); cbn [length]; lia. Qed.

Lemma skip_slashes_head p c r : skip_slashes p = c :: r -> c <> slash.
Proof.
  induction p as [|d p IH]; cbn [skip_slashes]; [done|]. destruct (Z.eqb_spec d slash); [done|]. by intros [= -> ->].
Qed.

Lemma copy_name_run n : forall r b k, free_of slash n -> at_cut slash r -> 0 <= k -> (Z.to_nat k + length n <= length b)%nat ->
  copy_name (n ++ r) b k = Ok (r, take (Z.to_nat k) b ++ n ++ drop (Z.to_nat k + length n) b).
Proof.
  induction n as [|c n IH]; intros r b k Hn Hr Hk Hl; cbn [app length].
  - rewrite Nat.add_0_r, take_drop. by destruct Hr as [->|(r' & ->)].
  - inversion Hn as [|? ? Hc Hn']; subst. cbn [copy_name length] in *. destruct (Z.eqb_spec c slash); [done|].
    rewrite aset_Ok, bind_Ok, IH by (rewrite ?length_insert; done || lia). do 2 f_equal.
    replace (Z.to_nat (k + 1)) with (S (Z.to_nat k)) by lia.
    rewrite (take_S_r _ _ c) by (apply list_lookup_insert_eq; lia). rewrite <- app_assoc. cbn [app].
    rewrite take_insert_ge by lia. do 3 f_equal. rewrite drop_insert_lt by lia. f_equal. lia.
Qed.


(** What [path_parse] stores and where it stops. *)
Lemma path_parse_run p b : length b = 16%nat ->
  match components p with
  | [] => path_parse p b = Ok (None, b)
  | n :: ns => (length n <= 16)%nat -> exists rest, path_parse p b = Ok (rest, n ++ drop (length n) b) /\
      components (default [] rest) = ns /\ (length (default [] rest) < length p)%nat
  end.
Proof.
  intros Hb. unfold path_parse.
  set (p1 := match p with c :: p' => if c =? slash then skip_slashes p' else p | [] => [] end).
  assert (p1 = skip_slashes p) as E1 by (destruct p as [|c p']; [done|]; unfold p1; cbn [skip_slashes]; by destruct (c =? slash)).
  rewrite <- (skip_slashes_comp p), <- E1. pose proof (skip_slashes_length p) as Hlen. rewrite <- E1 in Hlen.
  pose proof (skip_slashes_head p) as Hhead. rewrite <- E1 in Hhead. clearbody p1. clear E1.
  destruct (split_cut slash p1) as (n & r & -> & Hn & Hr). destruct n as [|c n].
  - destruct Hr as [->|(r' & ->)]; [done|]. exfalso. by apply (Hhead slash r').
  - unfold components. rewrite split_on_word by done. intros Hl. rewrite (copy_name_run (c :: n) r b 0 Hn Hr ltac:(done) ltac:(rewrite Hb; exact Hl)).
    rewrite bind_Ok. change (Z.to_nat 0) with 0%nat. cbn [take app]. rewrite length_app in Hlen. cbn [length] in Hlen.
    eexists. split; [done|]. destruct r as [|d r]; cbn [from_option id length] in *; split; done || lia.
Qed.

Lemma name_buf_zero n : (length n <= 16)%nat -> n ++ drop (length n) zero_name = name_buf n.
Proof. intros Hn. unfold name_buf, zero_name. by rewrite drop_replicate. Qed.

(** A path: characters, none of them zero; names of at most sixteen characters. *)
Definition path_ok (p : list Z) : Prop := Forall (fun c => c <> 0) p.
Definition names_fit (p : list Z) : Prop := Forall (fun n => (length n <= 16)%nat) (components p).

(** One turn of the loop over the names. *)
Definition next_name (q : option (list Z)) : outcome (option (list Z) * list Z) :=
  match q with Some p => path_parse p zero_name | None => Ok (None, zero_name) end.

Lemma next_name_run q :
  match components (default [] q) with
  | [] => next_name q = Ok (None, zero_name)
  | n :: ns => (length n <= 16)%nat -> exists rest, next_name q = Ok (rest, name_buf n) /\
      components (default [] rest) = ns
  end.
Proof.
  destruct q as [p|]; cbn [from_option id next_name]; [|done].
  pose proof (path_parse_run p zero_name eq_refl) as Hr. destruct (components p) as [|n ns]; [done|].
  intros Hl. destruct (Hr Hl) as (rest & -> & Ec & _). exists rest. by rewrite name_buf_zero.
Qed.

(** A name that can be the value of a name buffer. *)
Definition name_ok (n : list Z) : Prop := n <> [] /\ Forall (fun c => c <> 0) n /\ (length n <= 16)%nat.

Lemma components_names p : path_ok p -> names_fit p -> Forall name_ok (components p).
Proof.
  intros Hp Hf. pose proof (split_on_nonempty slash p []) as Hne. pose proof (split_on_chars slash _ p Hp [] ltac:(constructor)) as Hc.
  unfold names_fit, components in *. rewrite Forall_forall in *. intros n Hn. repeat split; auto.
Qed.

Lemma name_head n b : name_ok n -> exists c, aget (n ++ b) 0 = Ok c /\ c <> 0.
Proof.
  intros (Hne & Hc & _). destruct n as [|c n]; [done|]. exists c. split; [done|]. by inversion Hc.
Qed.

Lemma depth_loop_run ns : forall q b c depth fuel, components (default [] q) = ns -> Forall name_ok ns ->
  aget b 0 = Ok c -> c <> 0 -> (length ns + 2 <= fuel)%nat -> 0 <= depth -> depth + Z.of_nat (length ns) + 1 < 2 ^ 31 ->
  depth_loop fuel q b depth = Ok (depth + 1 + Z.of_nat (length ns)).
Proof.
  induction ns as [|n ns IH]; intros q b c depth fuel Ec Hns Hb Hc Hfuel Hd Hmax;
    (destruct fuel as [|fuel]; [cbn in Hfuel; lia|]); cbn [depth_loop]; rewrite Hb, bind_Ok;
    (destruct (Z.eqb_spec c 0); [done|]); fold (next_name q); pose proof (next_name_run q) as Hn; rewrite Ec in Hn;
    rewrite (wrapu_small 32 (depth + 1)) by (change (2 ^ 31) with 2147483648 in Hmax; change (2 ^ 32) with 4294967296; clear - Hd Hmax; cbn [length] in Hmax; lia).
  - rewrite Hn, bind_Ok. destruct fuel as [|fuel]; [cbn in Hfuel; lia|]. cbn [depth_loop].
    change (aget zero_name 0) with (Ok 0). rewrite bind_Ok, Z.eqb_refl.
    rewrite wraps_small by (change (2 ^ (32 - 1)) with 2147483648; change (2 ^ 31) with 2147483648 in Hmax; lia). f_equal. cbn [length]. lia.
  - inversion Hns as [|? ? Hn1 Hns']; subst. destruct Hn as (rest & -> & Er); [by destruct Hn1 as (_ & _ & ?)|].
    rewrite bind_Ok. destruct (name_head n (replicate (16 - length n) 0) Hn1) as (c' & Hc' & Hne).
    rewrite (IH rest _ c') by (done || cbn [length] in *; lia). f_equal. cbn [length]. lia.
Qed.

Lemma components_length p : (length (components p) <= length p)%nat.
Proof.
  pose proof (split_on_size slash p []) as H. pose proof (split_on_nonempty slash p []) as Hne. change (if (length [] =? 0)%nat then _ else _) with 1%nat in H. fold (components p) in *.
  assert (2 * length (components p) <= sum_list ((fun n => S (length n)) <$> components p))%nat; [|lia]. clear H.
  induction Hne as [|n l Hn _ IH]; cbn; [done|]. destruct n; [done|]. cbn in *. lia.
Qed.

(** [path_depth_cnt] returns the number of names of the path, for every
    path that has a name and whose names fit the sixteen-byte buffer, whatever
    that buffer held; repeated and trailing slashes do not count. *)
Theorem path_depth_cnt_counts p stack :
  path_ok p -> names_fit p -> components p <> [] -> length stack = 16%nat -> (length p < 512)%nat ->
  path_depth_cnt p stack = Ok (Z.of_nat (length (components p))).
Proof.
  intros Hp Hf Hne Hs Hl. pose proof (components_names p Hp Hf) as Hns. pose proof (components_length p) as Hcl.
  pose proof (path_parse_run p stack Hs) as Hr. unfold path_depth_cnt.
  destruct (components p) as [|n ns] eqn:Ec; [done|]. inversion Hns as [|? ? Hn1 Hns']; subst.
  destruct Hr as (rest & -> & Er & _); [by destruct Hn1 as (_ & _ & ?)|]. rewrite bind_Ok.
  destruct (name_head n (drop (length n) stack) Hn1) as (c & Hc & Hc0). cbn [length] in *.
  rewrite (depth_loop_run ns rest _ c) by (done || (change (2 ^ 31) with 2147483648; lia)). f_equal. lia.
Qed.

(** "/usr//bin/" *)
Definition demo_path : list Z := [47; 117; 115; 114; 47; 47; 98; 105; 110; 47].

Lemma path_depth_cnt_counts_witness : path_depth_cnt demo_path (replicate 16 7) = Ok 2.
Proof.
  apply (path_depth_cnt_counts demo_path (replicate 16 7)).
  - repeat constructor; discriminate.
  - vm_compute. repeat constructor.
  - discriminate.
  - reflexivity.
  - cbn. lia.
Defined.
