(* ===== verification/Dir.v ===== *)
(** * Directories (fs/dir.c)

    A directory is an inode whose blocks hold entries of 24 bytes, 21 to a
    sector, none of them across two sectors.  Directories in memory are objects
    with an address, [root_dir] at a fixed one.  What the routines print is
    left out. *)

From S2P Require Import Prelude Bitmap Interrupt DList Disk Layout Inode.

Section Dir.
Context {H : Type} `{HE : Heap H}.
Implicit Types s : fs H.

(** The address of the object [root_dir] of the kernel image. *)
Definition root_dir : Z := 0xc0009000.
Definition sizeof_dir : Z := 520.
Definition sizeof_dir_entry : nat := 24.

Definition get_dir (p : Z) : M (fs H) dir := fun s =>
  match dirs s !! p with Some d => Ok (d, s) | None => Fault end.
Definition put_dir (p : Z) (d : dir) : M (fs H) () := modS (fun s => set_dirs (<[p := d]> (dirs s)) s).

(** The inode of a directory: its address and its value. *)
Definition dir_inode (pdir : Z) : M (fs H) (Z * inode) :=
  d ← get_dir pdir; i ← get_inode (d_inode d); mret (d_inode d, i).

(** [dir_entry_size] of the super block steers the copies of entries; for a
    value other than [sizeof(struct dir_entry)] they do not keep to the
    entries. *)
Definition entry_size : M (fs H) Z :=
  s ← getS;
  if dir_entry_size (sb (cur_part s)) =? 24 then mret 24 else faultM.
Definition entries_per_sec : nat := 21.   (* 512 / 24 *)

(** [!strcmp(a, b)] on the bytes behind two pointers. *)
Fixpoint str_same (a b : list Z) : outcome bool :=
  match a, b with
  | x :: a', y :: b' => if x =? y then (if x =? 0 then Ok true else str_same a' b') else Ok false
  | _, _ => Fault
  end.

Definition open_root_dir : M (fs H) () :=
  s ← getS;
  p ← inode_open (root_inode_no (sb (cur_part s)));
  d ← get_dir root_dir;
  put_dir root_dir (mk_dir p 0 (dir_buf d)).

Definition dir_open (inode_no : Z) : M (fs H) Z :=
  pdir ← malloc sizeof_dir;
  p ← inode_open inode_no;
  _ ← need pdir;
  _ ← put_dir pdir (mk_dir p 0 (replicate 512 0));
  mret pdir.

Definition dir_close (pdir : Z) : M (fs H) () :=
  if pdir =? root_dir then mret tt
  else
    d ← get_dir pdir;
    _ ← inode_close (d_inode d);
    _ ← free pdir;
    modS (fun s => set_dirs (delete pdir (dirs s)) s).

(** The entries of one sector. *)
Fixpoint search_sector (n : nat) (off : nat) (buf name : list Z) : outcome (option dir_entry) :=
  match n with
  | O => Ok None
  | S n' =>
      same ← str_same (drop off buf) name;
      if (same : bool) then Ok (Some (decode (drop off buf))) else search_sector n' (off + sizeof_dir_entry) buf name
  end.

Fixpoint search_blocks (blocks : list Z) (buf : Z) (name : list Z) : M (fs H) (option dir_entry) :=
  match blocks with
  | [] => mret None
  | b :: blocks' =>
      if b =? 0 then search_blocks blocks' buf name
      else
        _ ← need buf;
        data ← ide_rd b 1;
        r ← liftO (search_sector entries_per_sec 0 data name);
        match r with Some e => mret (Some e) | None => search_blocks blocks' buf name end
  end.

Definition search_dir_entry (pdir : Z) (name : list Z) : M (fs H) (option dir_entry) :=
  all_blocks ← malloc 560;
  if all_blocks =? NULL then mret None
  else
    '(_, i) ← dir_inode pdir;
    blocks ← all_blocks_of i;
    buf ← malloc 512;
    _ ← entry_size;
    r ← search_blocks blocks buf name;
    _ ← free buf;
    _ ← free all_blocks;
    mret r.

(** The entry starts as zeros in every caller. *)
Definition create_dir_entry (name : list Z) (inode_no file_type : Z) : outcome dir_entry :=
  _ ← ASSERT (Z.of_nat (length name) <=? MAX_FILE_NAME_LEN) "create_dir_entry: strlen(filename) <= MAX_FILE_NAME_LEN";
  Ok (mk_dirent (name ++ replicate (16 - length name) 0) inode_no (u8 file_type)).

(** The place of the first entry whose type is FT_UNKNOWN. *)
Fixpoint free_entry (n : nat) (off : nat) (buf : list Z) : option nat :=
  match n with
  | O => None
  | S n' => if word_at (off + 20) buf =? FT_UNKNOWN then Some off else free_entry n' (off + sizeof_dir_entry) buf
  end.

Definition set_sector (k v : Z) (i : inode) : inode := set_i_sectors (<[Z.to_nat k := v]> (i_sectors i)) i.
Definition table_bytes (all_blocks : list Z) : list Z := concat (word <$> drop 12 all_blocks).

(** [block_bitmap_alloc] and the sync of the sector the bit lies in. *)
Definition alloc_synced : M (fs H) Z :=
  block_lba ← block_bitmap_alloc;
  if block_lba =? -1 then mret (-1)
  else
    s ← getS;
    let block_bitmap_idx := i32 (u32 (block_lba - data_start_lba (sb (cur_part s)))) in
    _ ← assertM (negb (block_bitmap_idx =? -1)) "sync_dir_entry: block_bitmap_idx != -1";
    _ ← bitmap_sync (u32 block_bitmap_idx) BLOCK_BITMAP;
    mret block_lba.

(** A block for the entry where [all_blocks[block_idx]] is 0: the block and the
    one of the table of indirect blocks; [None] when there is none left. *)
Definition new_dir_block (ip block_idx : Z) (all_blocks : list Z) : M (fs H) (option Z) :=
  block_lba ← alloc_synced;
  if block_lba =? -1 then mret None
  else if block_idx <? 12 then
    _ ← upd_inode ip (set_sector block_idx (u32 block_lba));
    mret (Some (u32 block_lba))
  else if block_idx =? 12 then
    _ ← upd_inode ip (set_sector 12 (u32 block_lba));
    block_lba2 ← alloc_synced;
    if block_lba2 =? -1 then
      s ← getS;
      _ ← block_bitmap_clear (u32 (u32 block_lba - data_start_lba (sb (cur_part s))));
      _ ← upd_inode ip (set_sector 12 0);
      mret None
    else
      _ ← ide_wr (u32 block_lba) (table_bytes (<[12%nat := u32 block_lba2]> all_blocks)) 1;
      mret (Some (u32 block_lba2))
  else
    i ← get_inode ip;
    tbl ← liftO (aget (i_sectors i) 12);
    _ ← ide_wr tbl (table_bytes (<[Z.to_nat block_idx := u32 block_lba]> all_blocks)) 1;
    mret (Some (u32 block_lba)).

Definition grow_dir (ip : Z) : M (fs H) () := upd_inode ip (fun i => set_i_size (u32 (i_size i + 24)) i).

(** The loop over [all_blocks]; [rest] is what is left of it behind [block_idx]. *)
Fixpoint sync_loop (rest : list Z) (block_idx : Z) (all_blocks : list Z) (ip : Z) (p_de : dir_entry) : M (fs H) bool :=
  match rest with
  | [] => mret false
  | b :: rest' =>
      if b =? 0 then
        nb ← new_dir_block ip block_idx all_blocks;
        match nb with
        | None => mret false
        | Some lba =>
            _ ← ide_wr lba (splice 0 (encode p_de) (replicate 512 0)) 1;
            _ ← grow_dir ip;
            mret true
        end
      else
        data ← ide_rd b 1;
        match free_entry entries_per_sec 0 data with
        | Some off =>
            _ ← ide_wr b (splice off (encode p_de) data) 1;
            _ ← grow_dir ip;
            mret true
        | None => sync_loop rest' (block_idx + 1) all_blocks ip p_de
        end
  end.

(** [all_blocks] starts as zeros and takes the twelve direct blocks only. *)
Definition sync_dir_entry (parent_dir : Z) (p_de : dir_entry) : M (fs H) bool :=
  '(ip, i) ← dir_inode parent_dir;
  _ ← entry_size;
  _ ← assertM (i_size i mod 24 =? 0) "sync_dir_entry: dir_size % dir_entry_size == 0";
  let all_blocks := take 12 (i_sectors i) ++ replicate 128 0 in
  sync_loop all_blocks 0 all_blocks ip p_de.

(** What a pass over a sector collects for [delete_dir_entry]. *)
Record sector_count : Type := mk_count { is_dir_first_block : bool; dir_entry_cnt : Z; dir_entry_found : option nat }.

Definition dot : list Z := [46; 0].          (* "." *)
Definition dot_dot : list Z := [46; 46; 0].  (* ".." *)

Fixpoint count_entries (n off : nat) (buf : list Z) (inode_no : Z) (c : sector_count) : outcome sector_count :=
  match n with
  | O => Ok c
  | S n' =>
      c' ← (if word_at (off + 20) buf =? FT_UNKNOWN then Ok c
            else
              is_dot ← str_same (drop off buf) dot;
              if (is_dot : bool) then Ok (mk_count true (dir_entry_cnt c) (dir_entry_found c))
              else
                is_dot_dot ← str_same (drop off buf) dot_dot;
                if (is_dot_dot : bool) then Ok c
                else if word_at (off + 16) buf =? inode_no then
                  _ ← ASSERT (match dir_entry_found c with None => true | Some _ => false end) "delete_dir_entry: dir_entry_found == NULL";
                  Ok (mk_count (is_dir_first_block c) (u8 (dir_entry_cnt c + 1)) (Some off))
                else Ok (mk_count (is_dir_first_block c) (u8 (dir_entry_cnt c + 1)) (dir_entry_found c)));
      count_entries n' (off + sizeof_dir_entry) buf inode_no c'
  end.

(** The entry is in this sector.  For an indirect block that becomes empty the
    loop that counts the indirect blocks never advances its index. *)
Definition remove_entry (ip lba block_idx : Z) (buf : list Z) (c : sector_count) (off : nat) : M (fs H) bool :=
  _ ← assertM (1 <=? dir_entry_cnt c) "delete_dir_entry: dir_entry_cnt >= 1";
  _ ← (if (dir_entry_cnt c =? 1) && negb (is_dir_first_block c) then
         s ← getS;
         let block_bitmap_idx := u32 (lba - data_start_lba (sb (cur_part s))) in
         _ ← block_bitmap_clear block_bitmap_idx;
         _ ← bitmap_sync block_bitmap_idx BLOCK_BITMAP;
         if block_idx <? 12 then upd_inode ip (set_sector block_idx 0)
         else fun _ => NoFuel
       else ide_wr lba (splice off (replicate sizeof_dir_entry 0) buf) 1);
  i ← get_inode ip;
  _ ← assertM (24 <=? i_size i) "delete_dir_entry: dir_inode->i_size >= dir_entry_size";
  let i' := set_i_size (i_size i - 24) i in
  _ ← put_inode ip i';
  _ ← inode_sync i';
  mret true.

Fixpoint delete_loop (blocks : list Z) (block_idx ip inode_no : Z) : M (fs H) bool :=
  match blocks with
  | [] => mret false
  | b :: blocks' =>
      if b =? 0 then delete_loop blocks' (block_idx + 1) ip inode_no
      else
        buf ← ide_rd b 1;
        c ← liftO (count_entries entries_per_sec 0 buf inode_no (mk_count false 0 None));
        match dir_entry_found c with
        | None => delete_loop blocks' (block_idx + 1) ip inode_no
        | Some off => remove_entry ip b block_idx buf c off
        end
  end.

Definition delete_dir_entry (pdir inode_no : Z) : M (fs H) bool :=
  '(ip, i) ← dir_inode pdir;
  blocks ← all_blocks_of i;
  _ ← entry_size;
  delete_loop blocks 0 ip inode_no.

(** [dir_read] returns the place of the entry in [dir_buf], [None] for NULL. *)
Inductive scan_result : Type := Found (off : nat) | Passed (cur_dir_entry_pos : Z).

Fixpoint read_entries (n off : nat) (buf : list Z) (cur_dir_entry_pos dpos : Z) : outcome scan_result :=
  match n with
  | O => Ok (Passed cur_dir_entry_pos)
  | S n' =>
      if word_at (off + 20) buf =? FT_UNKNOWN then read_entries n' (off + sizeof_dir_entry) buf cur_dir_entry_pos dpos
      else if cur_dir_entry_pos <? dpos then
        read_entries n' (off + sizeof_dir_entry) buf (u32 (cur_dir_entry_pos + 24)) dpos
      else
        _ ← ASSERT (cur_dir_entry_pos =? dpos) "dir_read: cur_dir_entry_pos == dir->dir_pos";
        Ok (Found off)
  end.

Fixpoint read_blocks (blocks : list Z) (pdir size cur_dir_entry_pos : Z) : M (fs H) (option nat) :=
  match blocks with
  | [] => mret None
  | b :: blocks' =>
      d ← get_dir pdir;
      if size <=? dir_pos d then mret None
      else if b =? 0 then read_blocks blocks' pdir size cur_dir_entry_pos
      else
        data ← ide_rd b 1;
        _ ← put_dir pdir (mk_dir (d_inode d) (dir_pos d) data);
        r ← liftO (read_entries entries_per_sec 0 data cur_dir_entry_pos (dir_pos d));
        match r with
        | Found off =>
            _ ← put_dir pdir (mk_dir (d_inode d) (u32 (dir_pos d + 24)) data);
            mret (Some off)
        | Passed cur => read_blocks blocks' pdir size cur
        end
  end.

Definition dir_read (pdir : Z) : M (fs H) (option nat) :=
  '(_, i) ← dir_inode pdir;
  tbl ← liftO (aget (i_sectors i) 12);
  all_blocks ← all_blocks_of i;
  _ ← entry_size;
  read_blocks (if tbl =? 0 then take 12 all_blocks else all_blocks) pdir (i_size i) 0.

Definition dir_is_empty (pdir : Z) : M (fs H) bool :=
  '(_, i) ← dir_inode pdir;
  s ← getS;
  mret (i_size i =? u32 (dir_entry_size (sb (cur_part s)) * 2)).

Definition dir_remove (parent_dir child_dir : Z) : M (fs H) Z :=
  '(_, i) ← dir_inode child_dir;
  _ ← assertM (forallb (fun v => v =? 0) (take 12 (drop 1 (i_sectors i)))) "dir_remove: child_dir_inode->i_sectors[block_idx] == 0";
  io_buf ← malloc 1024;
  if io_buf =? NULL then mret (-1)
  else
    _ ← delete_dir_entry parent_dir (i_no i);
    _ ← inode_release (i_no i);
    _ ← free io_buf;
    mret 0.

End Dir.
