(* ===== verification/File.v ===== *)
(** * Files (fs/file.c)

    The table of open files, the descriptors of the running task, and reading
    and writing through the block map of an inode: twelve direct blocks and a
    table of 128 indirect ones.  A [struct file *] is the index of the file in
    [file_table].  What the routines print is left out. *)

From S2P Require Import Prelude Bitmap Interrupt DList Disk Layout Inode Dir.
Import Queue.

Section File.
Context {H : Type} `{HE : Heap H}.
Implicit Types s : fs H.

Definition MAX_FILE_OPEN : Z := 32.
Definition MAX_FILES_OPEN_PER_PROC : Z := 8.
(** [enum oflags]. *)
Definition O_RDONLY : Z := 0.
Definition O_WRONLY : Z := 1.
Definition O_RDWR : Z := 2.
Definition O_CREAT : Z := 4.

Definition get_file (k : Z) : M (fs H) file := s ← getS; liftO (aget (file_table s) k).
Definition put_file (k : Z) (f : file) : M (fs H) () :=
  s ← getS; t ← liftO (aset (file_table s) k f); modS (set_file_table t).

(** The first slot from [fd_idx] on without an inode, or [MAX_FILE_OPEN]. *)
Fixpoint slot_loop (n : nat) (fd_idx : Z) : M (fs H) Z :=
  match n with
  | O => mret fd_idx
  | S n' => f ← get_file fd_idx; if fd_inode f =? NULL then mret fd_idx else slot_loop n' (fd_idx + 1)
  end.
Definition get_free_slot_in_global : M (fs H) Z :=
  fd_idx ← slot_loop 29 3;
  mret (if fd_idx =? MAX_FILE_OPEN then -1 else fd_idx).

Fixpoint install_loop (n : nat) (local_fd_idx globa_fd_idx : Z) : M (fs H) Z :=
  match n with
  | O => mret (-1)
  | S n' =>
      s ← getS;
      v ← liftO (aget (fd_table s) local_fd_idx);
      if v =? -1 then
        t ← liftO (aset (fd_table s) local_fd_idx globa_fd_idx);
        _ ← modS (set_fd_table t);
        mret local_fd_idx
      else install_loop n' (local_fd_idx + 1) globa_fd_idx
  end.
Definition pcb_fd_install (globa_fd_idx : Z) : M (fs H) Z := install_loop 5 3 globa_fd_idx.

Definition create_rollback_1 (inode_no io_buf : Z) : M (fs H) Z :=
  _ ← inode_bitmap_clear inode_no; _ ← free io_buf; mret (-1).
Definition create_rollback_2 (inode_no new_file_inode io_buf : Z) : M (fs H) Z :=
  _ ← free new_file_inode;
  _ ← modS (fun s => set_inodes (delete new_file_inode (inodes s)) s);
  create_rollback_1 inode_no io_buf.
Definition create_rollback_3 (fd_idx inode_no new_file_inode io_buf : Z) : M (fs H) Z :=
  _ ← put_file fd_idx (mk_file 0 0 NULL);
  create_rollback_2 inode_no new_file_inode io_buf.

Definition file_create (parent_dir : Z) (name : list Z) (flag : Z) : M (fs H) Z :=
  io_buf ← malloc 1024;
  if io_buf =? NULL then mret (-1)
  else
    inode_no ← inode_bitmap_alloc;
    if inode_no =? -1 then mret (-1)
    else
      new_file_inode ← malloc sizeof_inode;
      if new_file_inode =? NULL then create_rollback_1 inode_no io_buf
      else
        _ ← put_inode new_file_inode (inode_init inode_no);
        fd_idx ← get_free_slot_in_global;
        if fd_idx =? -1 then create_rollback_2 inode_no new_file_inode io_buf
        else
          _ ← put_file fd_idx (mk_file 0 flag new_file_inode);
          _ ← upd_inode new_file_inode (set_write_deny 0);
          new_dir_entry ← liftO (create_dir_entry name inode_no FT_REGULAR);
          synced ← sync_dir_entry parent_dir new_dir_entry;
          if negb synced then create_rollback_3 fd_idx inode_no new_file_inode io_buf
          else
            '(_, pi) ← dir_inode parent_dir;
            _ ← inode_sync pi;
            ni ← get_inode new_file_inode;
            _ ← inode_sync ni;
            _ ← bitmap_sync inode_no INODE_BITMAP;
            _ ← modS (fun s => set_part (set_open_inodes (q_push (open_inodes (cur_part s)) new_file_inode) (cur_part s)) s);
            _ ← upd_inode new_file_inode (set_open_cnts 1);
            _ ← free io_buf;
            pcb_fd_install fd_idx.

Definition file_open (inode_no flag : Z) : M (fs H) Z :=
  fd_idx ← get_free_slot_in_global;
  if fd_idx =? -1 then mret (-1)
  else
    p ← inode_open inode_no;
    _ ← put_file fd_idx (mk_file 0 flag p);
    if (flag =? O_WRONLY) || (flag =? O_RDWR) then
      old_status ← intr_disable;
      i ← get_inode p;
      if write_deny i =? 0 then
        _ ← put_inode p (set_write_deny 1 i);
        _ ← intr_set_status old_status;
        pcb_fd_install fd_idx
      else
        _ ← intr_set_status old_status;
        mret (-1)
    else pcb_fd_install fd_idx.

(** [file] is not NULL: it is a slot of the table. *)
Definition file_close (k : Z) : M (fs H) Z :=
  f ← get_file k;
  _ ← upd_inode (fd_inode f) (set_write_deny 0);
  _ ← inode_close (fd_inode f);
  _ ← put_file k (mk_file (fd_pos f) (fd_flag f) NULL);
  mret 0.

(** ** file_write *)

(** The three loops that allocate the blocks from [block_idx] up to
    [file_will_use_blocks], [n] of them.  In the first situation every index is
    below 12, in the third none is, so the test of the second one picks their
    bodies; [None] when a block is missing. *)
Fixpoint alloc_blocks (n : nat) (ip block_idx : Z) (all_blocks : list Z) : M (fs H) (option (list Z)) :=
  match n with
  | O => mret (Some all_blocks)
  | S n' =>
      block_lba ← block_bitmap_alloc;
      if block_lba =? -1 then mret None
      else
        i ← get_inode ip;
        _ ← (if block_idx <? 12 then
               old ← liftO (aget (i_sectors i) block_idx);
               _ ← assertM (old =? 0) "file_write: i_sectors[block_idx] == 0";
               put_inode ip (set_sector block_idx (u32 block_lba) i)
             else mret tt);
        all_blocks ← liftO (aset all_blocks block_idx (u32 block_lba));
        s ← getS;
        _ ← bitmap_sync (u32 (block_lba - data_start_lba (sb (cur_part s)))) BLOCK_BITMAP;
        alloc_blocks n' ip (block_idx + 1) all_blocks
  end.

(** [ide_read(indirect_block_table, all_blocks + 12, 1)]. *)
Definition read_table (tbl : Z) (all_blocks : list Z) : M (fs H) (list Z) :=
  data ← ide_rd tbl 1; mret (take 12 all_blocks ++ sector_words data).

(** The block in front of the first new one. *)
Definition last_used (ip has : Z) (all_blocks : list Z) : M (fs H) (list Z) :=
  i ← get_inode ip;
  v ← liftO (aget (i_sectors i) (has - 1));
  liftO (aset all_blocks (has - 1) v).

Definition blocks_for_write (ip has will : Z) (all_blocks : list Z) : M (fs H) (option (list Z)) :=
  let add_blocks := u32 (will - has) in
  i ← get_inode ip;
  tbl ← liftO (aget (i_sectors i) 12);
  if add_blocks =? 0 then
    if has <=? 12 then all ← last_used ip has all_blocks; mret (Some all)
    else
      _ ← assertM (negb (tbl =? 0)) "file_write: i_sectors[12] != 0";
      all ← read_table tbl all_blocks;
      mret (Some all)
  else if will <=? 12 then
    v ← liftO (aget (i_sectors i) (has - 1));
    _ ← assertM (negb (v =? 0)) "file_write: i_sectors[block_idx] != 0";
    all ← last_used ip has all_blocks;
    alloc_blocks (Z.to_nat (will - has)) ip has all
  else if has <=? 12 then
    all ← last_used ip has all_blocks;
    block_lba ← block_bitmap_alloc;
    if block_lba =? -1 then mret None
    else
      _ ← assertM (tbl =? 0) "file_write: i_sectors[12] == 0";
      _ ← upd_inode ip (set_sector 12 (u32 block_lba));
      r ← alloc_blocks (Z.to_nat (will - has)) ip has all;
      match r with
      | None => mret None
      | Some all => _ ← ide_wr (u32 block_lba) (table_bytes all) 1; mret (Some all)
      end
  else
    _ ← assertM (negb (tbl =? 0)) "file_write: i_sectors[12] != 0";
    all ← read_table tbl all_blocks;
    r ← alloc_blocks (Z.to_nat (will - has)) ip has all;
    match r with
    | None => mret None
    | Some all => _ ← ide_wr tbl (table_bytes all) 1; mret (Some all)
    end.

(** [count] bytes of the caller's buffer. *)
Definition read_src (src : list Z) (n : Z) : M (fs H) (list Z) :=
  if n <=? Z.of_nat (length src) then mret (take (Z.to_nat n) src) else faultM.

Fixpoint write_loop (fuel : nat) (k ip : Z) (all_blocks src : list Z) (first_write_block : bool) (size_left : Z) : M (fs H) () :=
  match fuel with
  | O => fun _ => NoFuel
  | S fuel' =>
      if size_left =? 0 then mret tt
      else
        i ← get_inode ip;
        let sec_idx := i_size i / 512 in
        sec_lba ← liftO (aget all_blocks sec_idx);
        let sec_off_bytes := i_size i mod 512 in
        let sec_left_bytes := 512 - sec_off_bytes in
        let chunk_size := if size_left <? sec_left_bytes then size_left else sec_left_bytes in
        io_buf ← (if first_write_block then ide_rd sec_lba 1 else mret (replicate 512 0));
        data ← read_src src chunk_size;
        _ ← ide_wr sec_lba (splice (Z.to_nat sec_off_bytes) data io_buf) 1;
        _ ← put_inode ip (set_i_size (u32 (i_size i + chunk_size)) i);
        f ← get_file k;
        _ ← put_file k (mk_file (u32 (fd_pos f + chunk_size)) (fd_flag f) (fd_inode f));
        write_loop fuel' k ip all_blocks (drop (Z.to_nat chunk_size) src) false (size_left - chunk_size)
  end.

(** The first block of an empty file; [false] when there is none left. *)
Definition first_block (ip : Z) : M (fs H) bool :=
  i ← get_inode ip;
  b0 ← liftO (aget (i_sectors i) 0);
  if b0 =? 0 then
    block_lba ← block_bitmap_alloc;
    if block_lba =? -1 then mret false
    else
      _ ← put_inode ip (set_sector 0 (u32 block_lba) i);
      s ← getS;
      let block_bitmap_idx := u32 (block_lba - data_start_lba (sb (cur_part s))) in
      _ ← assertM (negb (block_bitmap_idx =? 0)) "file_write: block_bitmap_idx != 0";
      _ ← bitmap_sync block_bitmap_idx BLOCK_BITMAP;
      mret true
  else mret true.

(** Iterations of [write_loop] are bounded by the sectors [count] bytes can
    touch.  The loop ends when [bytes_written] reaches [count], which is when
    nothing is left. *)
Definition file_write (k : Z) (buf : list Z) (count : Z) : M (fs H) Z :=
  f ← get_file k;
  let ip := fd_inode f in
  i ← get_inode ip;
  if 71680 <? u32 (i_size i + count) then mret (-1)
  else
    io_buf ← malloc 512;
    if io_buf =? NULL then mret (-1)
    else
      all_blocks ← malloc 560;
      if all_blocks =? NULL then mret (-1)
      else
        ok ← first_block ip;
        if negb ok then mret (-1)
        else
          let file_has_used_blocks := i_size i / 512 + 1 in
          let file_will_use_blocks := u32 (i_size i + count) / 512 + 1 in
          _ ← assertM (file_will_use_blocks <=? 140) "file_write: file_will_use_blocks <= 140";
          r ← blocks_for_write ip file_has_used_blocks file_will_use_blocks (replicate 140 0);
          match r with
          | None => mret (-1)
          | Some blocks =>
              _ ← put_file k (mk_file (u32 (i_size i - 1)) (fd_flag f) (fd_inode f));
              _ ← write_loop (Z.to_nat (count / 512) + 3) k ip blocks buf true count;
              i ← get_inode ip;
              _ ← inode_sync i;
              _ ← free all_blocks;
              _ ← free io_buf;
              mret (i32 count)
          end.

(** ** file_read *)

Fixpoint copy_direct (n : nat) (block_idx : Z) (sectors all_blocks : list Z) : outcome (list Z) :=
  match n with
  | O => Ok all_blocks
  | S n' =>
      v ← aget sectors block_idx;
      all_blocks ← aset all_blocks block_idx v;
      copy_direct n' (block_idx + 1) sectors all_blocks
  end.

Definition blocks_for_read (i : inode) (start_idx end_idx : Z) (all_blocks : list Z) : M (fs H) (list Z) :=
  tbl ← liftO (aget (i_sectors i) 12);
  if u32 (start_idx - end_idx) =? 0 then
    _ ← assertM (end_idx =? start_idx) "file_read: block_read_end_idx == block_read_start_idx";
    if end_idx <? 12 then liftO (copy_direct 1 end_idx (i_sectors i) all_blocks)
    else read_table tbl all_blocks
  else if end_idx <? 12 then liftO (copy_direct (Z.to_nat (end_idx - start_idx + 1)) start_idx (i_sectors i) all_blocks)
  else if start_idx <? 12 then
    all ← liftO (copy_direct (Z.to_nat (12 - start_idx)) start_idx (i_sectors i) all_blocks);
    _ ← assertM (negb (tbl =? 0)) "file_read: i_sectors[12] != 0";
    read_table tbl all
  else
    _ ← assertM (negb (tbl =? 0)) "file_read: i_sectors[12] != 0";
    read_table tbl all_blocks.

(** The bytes stored in the caller's buffer, in order. *)
Fixpoint read_loop (fuel : nat) (k io_buf : Z) (all_blocks : list Z) (size_left : Z) : M (fs H) (list Z) :=
  match fuel with
  | O => fun _ => NoFuel
  | S fuel' =>
      if size_left =? 0 then mret []
      else
        f ← get_file k;
        let sec_idx := fd_pos f / 512 in
        sec_lba ← liftO (aget all_blocks sec_idx);
        let sec_off_bytes := fd_pos f mod 512 in
        let sec_left_bytes := 512 - sec_off_bytes in
        let chunk_size := if size_left <? sec_left_bytes then size_left else sec_left_bytes in
        _ ← assertM (negb (io_buf =? NULL)) "memset: dst_ != NULL";
        data ← ide_rd sec_lba 1;
        _ ← put_file k (mk_file (u32 (fd_pos f + chunk_size)) (fd_flag f) (fd_inode f));
        rest ← read_loop fuel' k io_buf all_blocks (size_left - chunk_size);
        mret (slice (Z.to_nat sec_off_bytes) (Z.to_nat chunk_size) data ++ rest)
  end.

(** The result and what the caller's buffer gets. *)
Definition file_read (k count : Z) : M (fs H) (Z * list Z) :=
  f ← get_file k;
  i ← get_inode (fd_inode f);
  let past := i_size i <? u32 (fd_pos f + count) in
  let size := if past then u32 (i_size i - fd_pos f) else count in
  if past && (size =? 0) then mret (-1, [])
  else
    io_buf ← malloc 512;
    all_blocks ← malloc 560;
    if all_blocks =? NULL then mret (-1, [])
    else
      let block_read_start_idx := fd_pos f / 512 in
      let block_read_end_idx := u32 (fd_pos f + size) / 512 in
      _ ← assertM ((block_read_start_idx <? 139) && (block_read_end_idx <? 139)) "file_read: block_read_start_idx < 139 && block_read_end_idx < 139";
      blocks ← blocks_for_read i block_read_start_idx block_read_end_idx (replicate 140 0);
      data ← read_loop (Z.to_nat (size / 512) + 3) k io_buf blocks size;
      _ ← free all_blocks;
      _ ← free io_buf;
      mret (i32 size, data).

End File.
