(* ===== verification/Alloc.v ===== *)
(** * Allocating blocks (fs/file.c: block_bitmap_alloc, bitmap_sync)

    What one allocation and the write of its bitmap sector do to the partition
    and to the disk; [avail p n] says that [n] blocks are free. *)

From S2P Require Import Prelude Bitmap Interrupt DList Disk Layout Inode.

Definition free_bit (p : partition) (k : Z) : Prop := 0 <= k < nbits (block_bitmap p) /\ bit_used (block_bitmap p) k = false.
Definition avail (p : partition) (n : nat) : Prop :=
  exists l, NoDup l /\ (n <= length l)%nat /\ Forall (free_bit p) l.

(** [p'] is [p] with bit [k] of the block bitmap taken. *)
Definition took (p p' : partition) (k : Z) : Prop :=
  exists b, p' = set_block_bitmap b p /\ bitmap_wf b /\ btmp_bytes_len b = btmp_bytes_len (block_bitmap p) /\
    length (bits b) = length (bits (block_bitmap p)) /\
    forall j, 0 <= j -> bit_used b j = if j =? k then true else bit_used (block_bitmap p) j.

Lemma took_free_bit p p' k j : took p p' k -> free_bit p' j <-> free_bit p j /\ j <> k.
Proof.
  intros (b & -> & _ & Hl & _ & Hb). unfold free_bit, nbits. cbn [set_block_bitmap block_bitmap]. rewrite Hl.
  split.
  - intros [H1 H2]. rewrite Hb in H2 by lia. destruct (Z.eqb_spec j k); done.
  - intros [[H1 H2] Hne]. split; [done|]. rewrite Hb by lia. by destruct (Z.eqb_spec j k).
Qed.

Lemma took_avail p p' k n : took p p' k -> avail p (S n) -> avail p' n.
Proof.
  intros Ht (l & Hnd & Hl & Hf). exists (filter (fun x => x <> k) l). split; [by apply NoDup_filter|]. split.
  - assert (length (filter (fun x => x <> k) l) + 1 >= length l)%nat; [|lia]. clear Hl Hf Ht n.
    induction Hnd as [|x l Hx Hnd IH]; [cbn; lia|]. rewrite filter_cons. destruct (decide (x <> k)) as [Hne|He]; cbn [length]; [lia|].
    assert (x = k) as -> by (by destruct (decide (x = k))). rewrite filter_all_elem; [lia|]. by intros y Hy ->.
  - rewrite Forall_forall in *. intros x [Hne Hx]%list_elem_of_filter. apply (took_free_bit p p' k); [done|]. split; [by apply Hf|done].
Qed.

Lemma took_geometry p p' k : took p p' k -> geometry p -> geometry p'.
Proof.
  intros Ht Hg. pose proof (took_free_bit p p' k) as Hfree. destruct Ht as (b & -> & Hwf & Hl & Hlen & Hb). destruct Hg as [G1 G2 G3 G4 G5 G6 G7 G8 G9].
  destruct G7 as (? & G7a & G7b). split; cbn [set_block_bitmap sb block_bitmap inode_bitmap start_lba sec_cnt]; try done.
  - split; [done|]. rewrite Hl, Hlen. done.
  - intros j Hj Hu. specialize (Hfree j) as [Hfree _]; [by exists b|].
    destruct Hfree as [[H1 H2] _]; [split; done|]. by apply G9.
Qed.

Section Alloc.
Context {H : Type} `{HE : Heap H}.
Implicit Types s : fs H.

Lemma block_alloc_run s n : geometry (cur_part s) -> avail (cur_part s) (S n) ->
  exists k p', block_bitmap_alloc s = Ok (data_start_lba (sb (cur_part s)) + k, set_part p' s) /\
    took (cur_part s) p' k /\ free_bit (cur_part s) k /\ data_start_lba (sb (cur_part s)) + k <= max_lba.
Proof.
  intros Hg Ha. pose proof Hg as [G1 G2 G3 G4 G5 G6 (G7 & _) G8 G9].
  destruct (geometry_small _ Hg) as (D1 & D2 & D3 & D4).
  destruct (bitmap_claim (block_bitmap (cur_part s)) G7) as (k & b & Es & Et & Hk & Hfree & Hwf & Hl & Hlen & Hb).
  { destruct Ha as ([|x l] & _ & Hl & Hf); [cbn in Hl; lia|]. inversion Hf as [|? ? [Hx1 Hx2] _]; subst. by exists x. }
  pose proof (G9 k Hk Hfree) as Hmax. rewrite max_lba_value in *.
  exists k, (set_block_bitmap b (cur_part s)). split; [|split; [by exists b|split; [done|lia]]].
  unfold block_bitmap_alloc. rewrite getS_bind, (liftO_bind _ _ _ _ Es).
  destruct (Z.eqb_spec k (-1)); [lia|]. rewrite (liftO_bind _ _ _ _ Et), modS_bind. unfold mret, M_ret. do 3 f_equal.
  rewrite wrapu_small, wraps_small; [done|lia| |]; [change (2 ^ (32 - 1)) with 2147483648|change (2 ^ 32) with 4294967296]; lia.
Qed.

(** The sectors of the block bitmap. *)
Definition in_block_map (p : partition) (a : Z) : Prop := block_bitmap_lba (sb p) <= a < block_bitmap_lba (sb p) + block_bitmap_sects (sb p).

Lemma block_sync_run s k : geometry (cur_part s) -> disk_wf (dsk s) -> 0 <= k < nbits (block_bitmap (cur_part s)) ->
  exists d, bitmap_sync k BLOCK_BITMAP s = Ok (tt, set_dsk d s) /\ disk_wf d /\
    (forall a, ~ in_block_map (cur_part s) a -> sec d a = sec (dsk s) a) /\
    (forall j, 0 <= j < block_bitmap_sects (sb (cur_part s)) -> sec d (block_bitmap_lba (sb (cur_part s)) + j) =
       if j =? k / 4096 then slice (512 * Z.to_nat j) 512 (bits (block_bitmap (cur_part s))) else sec (dsk s) (block_bitmap_lba (sb (cur_part s)) + j)).
Proof.
  intros Hg Hd Hk. pose proof Hg as [G1 G2 G3 G4 G5 G6 (G7 & G7a & G7b) G8 G9]. rewrite max_lba_value in G5. unfold nbits in Hk.
  pose proof (Z.div_pos k 4096 ltac:(lia) ltac:(lia)) as Hq. assert (k / 4096 < block_bitmap_sects (sb (cur_part s))) as Hq2 by (apply Z.div_lt_upper_bound; lia).
  unfold bitmap_sync. rewrite getS_bind. unfold SECTOR_SIZE.
  rewrite (wrapu_small 32 (k / 4096 * 512)) by (change (2 ^ 32) with 4294967296; lia).
  rewrite (wrapu_small 32 (block_bitmap_lba _ + _)) by (change (2 ^ 32) with 4294967296; lia).
  set (q := k / 4096) in *. set (x := slice (Z.to_nat (q * 512)) 512 (bits (block_bitmap (cur_part s)))).
  assert (length x = 512%nat) as Hx by (apply slice_length; lia).
  assert (bitmap_sector (block_bitmap (cur_part s)) (q * 512) = Ok x) as -> by (unfold bitmap_sector; fold x; by rewrite Hx).
  assert (put_secs 1 (dsk s) (block_bitmap_lba (sb (cur_part s)) + q) x = <[block_bitmap_lba (sb (cur_part s)) + q := x]> (dsk s)) as Eput.
  { cbn [put_secs]. by rewrite take_ge by lia. }
  eexists. split; [rewrite (liftO_bind _ _ _ _ eq_refl); apply ide_wr_run; rewrite ?max_lba_value; lia|].
  change (Z.to_nat 1) with 1%nat. rewrite Eput. split; [|split].
  - intros a y. rewrite lookup_insert. case_decide; [intros [= <-]; done|apply Hd].
  - intros a Ha. unfold sec. rewrite lookup_insert_ne; [done|]. intros <-. apply Ha. unfold in_block_map. lia.
  - intros j Hj. unfold sec. rewrite lookup_insert. destruct (Z.eqb_spec j q) as [->|Hne].
    + rewrite decide_True by done. cbn [from_option id]. unfold x. f_equal. lia.
    + rewrite decide_False by lia. done.
Qed.

End Alloc.
