(* ===== verification/Contents.v ===== *)
(** * The contents of files (fs/file.c)

    The abstract view of a file is the sequence of its bytes: the sectors its
    block map names, cut at its size.  [file_read] returns a piece of that
    sequence and [file_write] extends it. *)

From S2P Require Import Prelude Bitmap Interrupt DList Disk Layout Inode Dir File.

(** ** The abstract file *)

Definition table_of (i : inode) : Z := default 0 (i_sectors i !! 12%nat).
(** The 140 block addresses of an inode. *)
Definition blocks_of (d : disk) (i : inode) : list Z :=
  take 12 (i_sectors i) ++ (if table_of i =? 0 then replicate 128 0 else sector_words (sec d (table_of i))).
Definition file_bytes (d : disk) (blocks : list Z) : list Z := concat (sec d <$> blocks).
Definition contents (d : disk) (i : inode) : list Z := take (Z.to_nat (i_size i)) (file_bytes d (blocks_of d i)).

(** Blocks in use. *)
Definition used_blocks (i : inode) : nat := if default 0 (i_sectors i !! 0%nat) =? 0 then 0 else S (Z.to_nat (i_size i / 512)).

(** A block of the data area, behind the one of the root directory, in use. *)
Definition in_data (p : partition) (b : Z) : Prop :=
  data_start_lba (sb p) < b <= max_lba /\ b - data_start_lba (sb p) < nbits (block_bitmap p) /\
  bit_used (block_bitmap p) (b - data_start_lba (sb p)) = true.

(** [B] are the blocks of an inode: used ones of the data area, all distinct,
    the addresses behind them are 0, and there is a table of indirect blocks
    exactly when there are more than twelve. *)
Record map_ok (p : partition) (d : disk) (i : inode) (B : list Z) : Prop := {
  mo_inode : inode_ok i;
  mo_blocks : blocks_of d i = B ++ replicate (140 - length B) 0;
  mo_bound : (length B <= 140)%nat;
  mo_data : Forall (in_data p) B;
  mo_table : if (length B <=? 12)%nat then table_of i = 0 else in_data p (table_of i);
  mo_distinct : NoDup (table_of i :: B)
}.

(** A file with the blocks [B]. *)
Record file_ok (p : partition) (d : disk) (i : inode) (B : list Z) : Prop := {
  fo_map : map_ok p d i B;
  fo_used : length B = used_blocks i;
  fo_no : i_no i < 4096;
  fo_size : i_size i < 71680;
  fo_empty : B = [] -> i_size i = 0
}.

(** ** Pieces of a list of sectors *)

Lemma slice_add o n c (l : list Z) : (c <= n)%nat -> slice o n l = slice o c l ++ slice (o + c) (n - c) l.
Proof.
  intros Hc. unfold slice. rewrite <- (drop_drop l). rewrite <- (take_drop c (take n (drop o l))).
  rewrite take_take, skipn_firstn_comm. f_equal. f_equal. lia.
Qed.

Lemma file_bytes_length d bl : disk_wf d -> length (file_bytes d bl) = (512 * length bl)%nat.
Proof.
  intros Hd. unfold file_bytes. induction bl as [|b bl IH]; cbn [fmap list_fmap concat length]; [done|].
  rewrite length_app, IH, sec_length by done. lia.
Qed.

Lemma file_bytes_app d a b : file_bytes d (a ++ b) = file_bytes d a ++ file_bytes d b.
Proof. unfold file_bytes. by rewrite fmap_app, concat_app. Qed.

Lemma file_bytes_slice d bl j b o m : disk_wf d -> bl !! j = Some b -> (o + m <= 512)%nat ->
  slice (512 * j + o) m (file_bytes d bl) = slice o m (sec d b).
Proof.
  intros Hd Hj Ho. rewrite <- (take_drop_middle bl j b Hj). rewrite file_bytes_app.
  assert (length (file_bytes d (take j bl)) = (512 * j)%nat) as Hl.
  { rewrite file_bytes_length, length_take by done. apply lookup_lt_Some in Hj. lia. }
  unfold slice. rewrite <- drop_drop, drop_app_length' by done.
  change (file_bytes d (b :: drop (S j) bl)) with (sec d b ++ file_bytes d (drop (S j) bl)).
  rewrite drop_app_le, take_app_le; [done| |]; rewrite ?length_drop, sec_length by done; lia.
Qed.

(** The difference of two block numbers is 0 exactly when they are equal. *)
Lemma wrapu_zero_sub a b : 0 <= a < 2 ^ 32 -> 0 <= b < 2 ^ 32 -> (u32 (a - b) =? 0) = (a =? b).
Proof.
  intros Ha Hb. unfold wrapu. destruct (Z.eqb_spec a b) as [->|Hne]; [by rewrite Z.sub_diag|].
  apply Z.eqb_neq. intros E. apply Z.mod_divide in E as [q E]; [|done]. nia.
Qed.

Lemma secs_1 d a : secs 1 d a = sec d a.
Proof. cbn [secs]. apply app_nil_r. Qed.

Section Contents.
Context {H : Type} `{HE : Heap H}.
Implicit Types s : fs H.

Lemma get_file_run s k f : aget (file_table s) k = Ok f -> get_file k s = Ok (f, s).
Proof. intros E. unfold get_file. rewrite getS_bind. unfold liftO. by rewrite E. Qed.

(** The state with another file in slot [k]. *)
Definition with_file (k : Z) (f : file) s : fs H := set_file_table (<[Z.to_nat k := f]> (file_table s)) s.

Lemma put_file_run s k f g : aget (file_table s) k = Ok g -> put_file k f s = Ok (tt, with_file k f s).
Proof.
  intros E. unfold put_file. rewrite getS_bind.
  apply aget_lookup in E as [Hk E]. rewrite (liftO_bind _ (<[Z.to_nat k := f]> (file_table s))); [done|].
  apply aset_Ok. apply lookup_lt_Some in E. lia.
Qed.

Lemma with_file_get s k f g : aget (file_table s) k = Ok g -> aget (file_table (with_file k f s)) k = Ok f.
Proof.
  intros E. apply aget_lookup in E as [Hk E]. apply aget_Ok; [done|]. apply list_lookup_insert_eq. by apply lookup_lt_Some in E.
Qed.

Lemma with_file_twice s k f g : with_file k f (with_file k g s) = with_file k f s.
Proof. unfold with_file. cbn. by rewrite list_insert_insert_eq. Qed.

Lemma with_file_same s k f : aget (file_table s) k = Ok f -> with_file k f s = s.
Proof.
  intros E. apply aget_lookup in E as [Hk E]. unfold with_file. rewrite list_insert_id by done. by destruct s.
Qed.

(** Sectors that hold the [n] bytes from [pos] on. *)
Definition sectors_spanned (pos n : Z) : nat := if n =? 0 then 0 else Z.to_nat ((pos + n - 1) / 512 - pos / 512 + 1).

(** One step of the loops: [c] bytes up to the end of the sector. *)
Lemma spanned_step pos n : 0 <= pos -> 0 < n ->
  let c := if n <? 512 - pos mod 512 then n else 512 - pos mod 512 in
  0 < c <= n /\ pos mod 512 + c <= 512 /\ sectors_spanned pos n = S (sectors_spanned (pos + c) (n - c)).
Proof.
  intros Hp Hn c. pose proof (Z.mod_pos_bound pos 512 ltac:(lia)) as Hm. pose proof (Z.div_mod pos 512 ltac:(lia)) as Hd.
  assert (0 < c <= n /\ pos mod 512 + c <= 512) as [Hc1 Hc2] by (unfold c; destruct (Z.ltb_spec n (512 - pos mod 512)); lia).
  split; [done|]. split; [done|]. unfold sectors_spanned. destruct (Z.eqb_spec n 0); [lia|].
  destruct (Z.eqb_spec (n - c) 0) as [E0|E0].
  - assert ((pos + n - 1) / 512 = pos / 512) as ->; [|lia]. symmetry. apply (Z.div_unique _ _ _ (pos mod 512 + n - 1)); lia.
  - assert (c = 512 - pos mod 512) as Ec by (unfold c in *; destruct (Z.ltb_spec n (512 - pos mod 512)); lia).
    assert ((pos + c) / 512 = pos / 512 + 1) as ->.
    { symmetry. apply (Z.div_unique _ _ _ 0); lia. }
    replace (pos + c + (n - c) - 1) with (pos + n - 1) by lia.
    assert (pos / 512 + 1 <= (pos + n - 1) / 512) by (apply Z.div_le_lower_bound; lia). lia.
Qed.

Lemma spanned_bound pos n : 0 <= pos -> 0 <= n -> (sectors_spanned pos n <= Z.to_nat (n / 512) + 2)%nat.
Proof.
  intros Hp Hn. unfold sectors_spanned. destruct (Z.eqb_spec n 0); [lia|].
  pose proof (Z.mod_pos_bound pos 512 ltac:(lia)) as Hm. pose proof (Z.div_mod pos 512 ltac:(lia)) as Hd.
  pose proof (Z.mod_pos_bound n 512 ltac:(lia)) as Hm'. pose proof (Z.div_mod n 512 ltac:(lia)) as Hd'.
  assert ((pos + n - 1) / 512 < pos / 512 + n / 512 + 2) by (apply Z.div_lt_upper_bound; lia).
  pose proof (Z.div_pos n 512 ltac:(lia) ltac:(lia)). lia.
Qed.

(** [all_blocks] holds the addresses [bl] has for the bytes [pos, pos + n). *)
Definition covers (all bl : list Z) (pos n : Z) : Prop :=
  forall j, pos / 512 <= Z.of_nat j -> 512 * Z.of_nat j < pos + n ->
    exists b, all !! j = Some b /\ bl !! j = Some b /\ 0 <= b <= max_lba.

Lemma covers_here all bl pos n : 0 <= pos -> 0 < n -> covers all bl pos n ->
  exists b, aget all (pos / 512) = Ok b /\ bl !! Z.to_nat (pos / 512) = Some b /\ 0 <= b <= max_lba.
Proof.
  intros Hp Hn Hc. pose proof (Z.div_pos pos 512 Hp ltac:(lia)) as Hq. pose proof (Z.div_mod pos 512 ltac:(lia)) as Hd.
  pose proof (Z.mod_pos_bound pos 512 ltac:(lia)) as Hm.
  destruct (Hc (Z.to_nat (pos / 512))) as (b & E1 & E2 & Hb); [lia|lia|].
  exists b. split; [by apply aget_Ok|done].
Qed.

Lemma covers_rest all bl pos n c : 0 <= pos -> 0 <= c <= n -> covers all bl pos n -> covers all bl (pos + c) (n - c).
Proof.
  intros Hp Hcn Hc j H1 H2. apply Hc; [|lia]. etransitivity; [|exact H1]. apply Z.div_le_mono; lia.
Qed.

Lemma ide_rd_1 s b : 0 <= b <= max_lba -> ide_rd b 1 s = Ok (sec (dsk s) b, s).
Proof. intros [H1 H2]. rewrite ide_rd_run by lia. change (Z.to_nat 1) with 1%nat. by rewrite secs_1. Qed.

Lemma file_read_loop_run fuel : forall s k io f left all bl, aget (file_table s) k = Ok f -> io <> NULL -> disk_wf (dsk s) ->
  0 <= fd_pos f -> 0 <= left -> fd_pos f + left < 2 ^ 32 -> covers all bl (fd_pos f) left ->
  (sectors_spanned (fd_pos f) left < fuel)%nat ->
  read_loop fuel k io all left s =
    Ok (slice (Z.to_nat (fd_pos f)) (Z.to_nat left) (file_bytes (dsk s) bl),
        with_file k (mk_file (fd_pos f + left) (fd_flag f) (fd_inode f)) s).
Proof.
  induction fuel as [|fuel IH]; intros s k io f left all bl Hf Hio Hd Hp Hl Hmax Hc Hfuel; [lia|]. cbn [read_loop].
  destruct (Z.eqb_spec left 0) as [->|Hl0].
  { rewrite Z.add_0_r. destruct f as [fp ff fi]. cbn [fd_pos fd_flag fd_inode]. by rewrite with_file_same. }
  destruct (spanned_step (fd_pos f) left Hp ltac:(lia)) as (Hc1 & Hc2 & Hspan).
  set (c := if left <? 512 - fd_pos f mod 512 then left else 512 - fd_pos f mod 512) in *.
  destruct (covers_here all bl (fd_pos f) left Hp ltac:(lia) Hc) as (b & Eb & Ebl & Hb).
  mrun (get_file_run s k f Hf). rewrite (liftO_bind _ _ _ _ Eb).
  erewrite mbindM_Ok by (apply assertM_run; by destruct (Z.eqb_spec io NULL)).
  mrun (ide_rd_1 s b Hb). mrun (put_file_run s k (mk_file (u32 (fd_pos f + c)) (fd_flag f) (fd_inode f)) f Hf).
  rewrite (wrapu_small 32 (fd_pos f + c)) by (clearbody c; lia).
  mrun (IH (with_file k (mk_file (fd_pos f + c) (fd_flag f) (fd_inode f)) s) k io _ (left - c) all bl
    (with_file_get s k _ f Hf) Hio Hd ltac:(cbn; lia) ltac:(lia) ltac:(cbn; lia)
    (covers_rest all bl (fd_pos f) left c Hp ltac:(lia) Hc) ltac:(cbn [fd_pos]; lia)).
  unfold mret, M_ret. cbn [fd_pos fd_flag fd_inode]. rewrite with_file_twice. do 3 f_equal; [|f_equal; lia].
  cbn [dsk with_file set_file_table].
  rewrite (slice_add (Z.to_nat (fd_pos f)) (Z.to_nat left) (Z.to_nat c)) by lia.
  pose proof (Z.mod_pos_bound (fd_pos f) 512 ltac:(lia)) as Hm. pose proof (Z.div_mod (fd_pos f) 512 ltac:(lia)) as Hdm.
  pose proof (Z.div_pos (fd_pos f) 512 Hp ltac:(lia)) as Hq.
  f_equal.
  - rewrite <- (file_bytes_slice (dsk s) bl (Z.to_nat (fd_pos f / 512)) b) by (done || lia). f_equal. lia.
  - f_equal; lia.
Qed.

(** ** Collecting the block addresses *)

Lemma copy_direct_run n : forall idx sectors all, 0 <= idx -> (Z.to_nat idx + n <= length sectors)%nat -> (Z.to_nat idx + n <= length all)%nat ->
  exists all', copy_direct n idx sectors all = Ok all' /\ length all' = length all /\
    forall j, all' !! j = if decide (Z.to_nat idx <= j < Z.to_nat idx + n)%nat then sectors !! j else all !! j.
Proof.
  induction n as [|n IH]; intros idx sectors all Hi Hs Ha; cbn [copy_direct].
  { exists all. split; [done|]. split; [done|]. intros j. rewrite decide_False by lia. done. }
  destruct (aget_in_range sectors idx ltac:(lia)) as (v & Ev & Ev'). rewrite Ev, bind_Ok, aset_Ok, bind_Ok by lia.
  destruct (IH (idx + 1) sectors (<[Z.to_nat idx := v]> all)) as (all' & E & Hl & Hj); [lia|lia|rewrite length_insert; lia|].
  exists all'. split; [done|]. split; [by rewrite Hl, length_insert|]. intros j. rewrite Hj.
  replace (Z.to_nat (idx + 1)) with (S (Z.to_nat idx)) by lia.
  destruct (decide (S (Z.to_nat idx) <= j < S (Z.to_nat idx) + n)%nat); [by rewrite decide_True by lia|].
  destruct (decide (j = Z.to_nat idx)) as [->|Hne].
  - rewrite list_lookup_insert_eq by lia. rewrite decide_True by lia. done.
  - rewrite list_lookup_insert_ne by done. rewrite decide_False by lia. done.
Qed.

Lemma words_at_length n : forall off buf, length (words_at n off buf) = n.
Proof. induction n as [|n IH]; intros off buf; cbn [words_at length]; [done|]. by rewrite IH. Qed.

Lemma aget_table i : inode_ok i -> aget (i_sectors i) 12 = Ok (table_of i).
Proof.
  intros Hi. destruct (aget_in_range (i_sectors i) 12) as (v & E & E'); [rewrite (io_sectors i Hi); lia|].
  rewrite E. unfold table_of. change (Z.to_nat 12) with 12%nat in E'. by rewrite E'.
Qed.

Lemma blocks_of_length d i : inode_ok i -> length (blocks_of d i) = 140%nat.
Proof.
  intros Hi. unfold blocks_of. rewrite length_app, length_take, (io_sectors i Hi).
  destruct (table_of i =? 0); [by rewrite length_replicate|]. unfold sector_words. by rewrite words_at_length.
Qed.

Lemma blocks_of_direct d i j : inode_ok i -> (j < 12)%nat -> blocks_of d i !! j = i_sectors i !! j.
Proof.
  intros Hi Hj. unfold blocks_of. rewrite lookup_app_l by (rewrite length_take, (io_sectors i Hi); lia).
  by apply lookup_take_lt.
Qed.

(** [read_table] puts the table behind the direct addresses. *)
Lemma read_table_run s i all : inode_ok i -> length all = 140%nat -> table_of i <> 0 -> 0 <= table_of i <= max_lba ->
  exists all', read_table (table_of i) all s = Ok (all', s) /\ length all' = 140%nat /\
    forall j, all' !! j = if decide (j < 12)%nat then all !! j else blocks_of (dsk s) i !! j.
Proof.
  intros Hi Hl Hne Hr. unfold read_table. mrun (ide_rd_1 s _ Hr). eexists. split; [done|].
  assert (length (take 12 all) = 12%nat) as H12 by (rewrite length_take; lia).
  split; [unfold sector_words; rewrite length_app, H12, words_at_length; done|].
  intros j. unfold blocks_of. destruct (Z.eqb_spec (table_of i) 0); [done|].
  destruct (decide (j < 12)%nat) as [Hj|Hj].
  - rewrite lookup_app_l by lia. by apply lookup_take_lt.
  - rewrite !lookup_app_r by (rewrite ?H12, ?length_take, ?(io_sectors i Hi); lia).
    by rewrite H12, length_take, (io_sectors i Hi).
Qed.

Lemma blocks_for_read_run s i a b : inode_ok i -> 0 <= a -> a <= b < 139 ->
  (12 <= b -> table_of i <> 0 /\ 0 <= table_of i <= max_lba) ->
  exists all, blocks_for_read i a b (replicate 140 0) s = Ok (all, s) /\
    forall j, (Z.to_nat a <= j <= Z.to_nat b)%nat -> all !! j = blocks_of (dsk s) i !! j.
Proof.
  intros Hi Ha Hb Ht. unfold blocks_for_read. rewrite (liftO_bind _ _ _ _ (aget_table i Hi)).
  assert (forall n idx, 0 <= idx -> (Z.to_nat idx + n <= 12)%nat -> exists all, copy_direct n idx (i_sectors i) (replicate 140 0) = Ok all /\
    length all = 140%nat /\ forall j, (Z.to_nat idx <= j < Z.to_nat idx + n)%nat -> all !! j = blocks_of (dsk s) i !! j) as Hcopy.
  { intros n idx Hidx Hn. destruct (copy_direct_run n idx (i_sectors i) (replicate 140 0)) as (all & E & Hl & Hj);
      [done|rewrite (io_sectors i Hi); lia|rewrite length_replicate; lia|].
    exists all. split; [done|]. split; [by rewrite Hl, length_replicate|]. intros j Hj'.
    rewrite Hj, decide_True, blocks_of_direct by (done || lia). done. }
  assert (forall all, length all = 140%nat -> 12 <= b -> exists all', read_table (table_of i) all s = Ok (all', s) /\
    forall j, all' !! j = if decide (j < 12)%nat then all !! j else blocks_of (dsk s) i !! j) as Htab.
  { intros all Hl H12. destruct (Ht H12) as [? ?]. destruct (read_table_run s i all) as (all' & E & _ & Hj); [done..|]. by exists all'. }
  rewrite wrapu_zero_sub by (change (2 ^ 32) with 4294967296; lia).
  destruct (Z.eqb_spec a b) as [->|Hab].
  - erewrite mbindM_Ok by (apply assertM_run; apply Z.eqb_refl). destruct (Z.ltb_spec b 12).
    + destruct (Hcopy 1%nat b) as (all & E & _ & Hj); [done|lia|]. exists all. unfold liftO. rewrite E. split; [done|]. intros j ?. apply Hj. lia.
    + destruct (Htab (replicate 140 0)) as (all & E & Hj); [done|lia|]. exists all. split; [done|]. intros j ?. rewrite Hj, decide_False by lia. done.
  - destruct (Z.ltb_spec b 12).
    + destruct (Hcopy (Z.to_nat (b - a + 1)) a) as (all & E & _ & Hj); [done|lia|]. exists all. unfold liftO. rewrite E. split; [done|]. intros j ?. apply Hj. lia.
    + destruct (Ht ltac:(lia)) as [Hne _]. assert (negb (table_of i =? 0) = true) as Hg by (by destruct (Z.eqb_spec (table_of i) 0)).
      destruct (Z.ltb_spec a 12).
      * destruct (Hcopy (Z.to_nat (12 - a)) a) as (all & E & Hl & Hj); [done|lia|]. rewrite (liftO_bind _ _ _ _ E).
        erewrite mbindM_Ok by (by apply assertM_run). destruct (Htab all Hl) as (all' & E' & Hj'); [lia|].
        exists all'. split; [done|]. intros j ?. rewrite Hj'. destruct (decide (j < 12)%nat); [apply Hj; lia|done].
      * erewrite mbindM_Ok by (by apply assertM_run). destruct (Htab (replicate 140 0)) as (all' & E' & Hj'); [done|lia|].
        exists all'. split; [done|]. intros j ?. rewrite Hj', decide_False by lia. done.
Qed.

Lemma in_data_range p b : geometry p -> in_data p b -> 0 <= b <= max_lba /\ b <> 0.
Proof. intros Hg [H1 _]. destruct (geometry_small _ Hg) as (? & ? & ? & ?). pose proof (ge_table p Hg). lia. Qed.

(** Every sector below the size is a used block. *)
Lemma used_below p d i B j : file_ok p d i B -> 512 * Z.of_nat j <= i_size i -> 0 < i_size i -> (j < length B)%nat.
Proof.
  intros Hok Hj Hs. rewrite (fo_used p d i B Hok). unfold used_blocks in *.
  destruct (default 0 (i_sectors i !! 0%nat) =? 0) eqn:E0.
  - assert (B = []) as HB by (apply length_zero_iff_nil; rewrite (fo_used p d i B Hok); unfold used_blocks; by rewrite E0).
    pose proof (fo_empty p d i B Hok HB). lia.
  - assert (Z.of_nat j <= i_size i / 512) by (apply Z.div_le_lower_bound; lia). lia.
Qed.

Lemma map_lookup p d i B j : map_ok p d i B -> (j < length B)%nat -> blocks_of d i !! j = B !! j.
Proof. intros Hm Hj. rewrite (mo_blocks p d i B Hm). by rewrite lookup_app_l. Qed.

Lemma table_exists p d i B j : geometry p -> file_ok p d i B -> 12 <= j -> 512 * j <= i_size i ->
  table_of i <> 0 /\ 0 <= table_of i <= max_lba.
Proof.
  intros Hg Hok Hj Hs. pose proof (used_below p d i B (Z.to_nat j) Hok ltac:(lia) ltac:(lia)) as Hu.
  pose proof (mo_table p d i B (fo_map p d i B Hok)) as Ht. destruct (Nat.leb_spec (length B) 12); [lia|].
  destruct (in_data_range p _ Hg Ht). done.
Qed.

Lemma file_covers p d i B all pos n : geometry p -> file_ok p d i B -> 0 <= pos -> pos + n <= i_size i ->
  (forall j, (Z.to_nat (pos / 512) <= j <= Z.to_nat ((pos + n) / 512))%nat -> all !! j = blocks_of d i !! j) ->
  covers all B pos n.
Proof.
  intros Hg Hok Hp Hn Hall j H1 H2. pose proof (Z.div_pos pos 512 Hp ltac:(lia)).
  assert (Z.of_nat j <= (pos + n) / 512) by (apply Z.div_le_lower_bound; lia).
  assert (j < length B)%nat as Hu by (apply (used_below p d i); [done|lia|lia]).
  destruct (lookup_lt_is_Some_2 B j Hu) as [b Hb].
  exists b. rewrite Hall, (map_lookup p d i B j) by (lia || apply Hok || done). split; [done|]. split; [done|].
  apply (in_data_range p); [done|]. eapply Forall_lookup_1; [apply (mo_data p d i B), Hok|done].
Qed.

Lemma size_blocks p d i B : file_ok p d i B -> (Z.to_nat (i_size i) <= 512 * length B)%nat.
Proof.
  intros Hok. pose proof (io_size i (mo_inode p d i B (fo_map p d i B Hok))) as [H0 _].
  destruct (decide (i_size i = 0)); [lia|]. pose proof (Z.mul_div_le (i_size i) 512 ltac:(lia)).
  pose proof (used_below p d i B (Z.to_nat (i_size i / 512)) Hok) as Hu. pose proof (Z.div_pos (i_size i) 512 H0 ltac:(lia)).
  pose proof (Z.mod_pos_bound (i_size i) 512 ltac:(lia)). pose proof (Z.div_mod (i_size i) 512 ltac:(lia)). lia.
Qed.

Lemma contents_blocks p d i B : disk_wf d -> file_ok p d i B -> contents d i = take (Z.to_nat (i_size i)) (file_bytes d B).
Proof.
  intros Hd Hok. unfold contents. rewrite (mo_blocks p d i B (fo_map p d i B Hok)), file_bytes_app.
  rewrite take_app_le; [done|]. rewrite file_bytes_length by done. by apply (size_blocks p d).
Qed.

(** Two buffers are taken from the heap and given back. *)
Lemma two_buffers s k a b : h_room (S (S k)) (heap s) -> 0 < a <= 1048576 -> 0 < b <= 1048576 ->
  exists p q h, malloc a s = Ok (p, set_heap h s) /\ p <> NULL /\ q <> NULL /\ exists h', malloc b (set_heap h s) = Ok (q, set_heap h' s) /\
    forall s', pgdir_null s' = pgdir_null s -> heap s' = h' -> exists h'' h3, free q s' = Ok (tt, set_heap h'' s') /\ free p (set_heap h'' s') = Ok (tt, set_heap h3 s') /\
      h_room k h3 /\ (forall kn r, h_live h3 kn r <-> h_live (heap s) kn r).
Proof.
  intros Hr Ha Hb. destruct (malloc_run s (S k) a Hr Ha) as (p & h & E1 & P1 & P2 & P3 & P4).
  destruct (malloc_run (set_heap h s) k b P3 Hb) as (q & h' & E2 & Q1 & Q2 & Q3 & Q4). cbn [pgdir_null heap set_heap] in *.
  exists p, q, h. split; [done|]. split; [done|]. split; [done|]. exists h'. split; [done|].
  intros s' Epn Eh.
  destruct (free_run s' k q) as (h2 & F1 & F2 & F3); [by rewrite Eh|rewrite Eh, Epn; apply Q4; tauto|].
  destruct (free_run (set_heap h2 s') k p) as (h3 & G1 & G2 & G3).
  { done. }
  { apply F3. rewrite Eh. cbn [pgdir_null set_heap]. rewrite Epn. split; [apply Q4; left; apply P4; tauto|].
    intros [_ ->]. apply Q2, P4. tauto. }
  exists h2, h3. split; [done|]. split; [done|]. split; [done|].
  intros kn r. rewrite G3. cbn [heap pgdir_null set_heap]. rewrite F3, Eh, Epn, Q4, P4.
  split; [tauto|]. intros Hl. split; [split; [tauto|]|].
  - intros [-> ->]. apply Q2, P4. tauto.
  - intros [-> ->]. done.
Qed.

Lemma file_read_run s k f i B count r :
  geometry (cur_part s) -> disk_wf (dsk s) -> aget (file_table s) k = Ok f -> inodes s !! fd_inode f = Some i ->
  file_ok (cur_part s) (dsk s) i B -> 0 <= fd_pos f <= i_size i -> 0 <= count < 2 ^ 31 -> i_size i < 139 * 512 ->
  h_room (S (S r)) (heap s) ->
  let n := Z.min count (i_size i - fd_pos f) in
  if (n =? 0) && (0 <? count) then file_read k count s = Ok ((-1, []), s)
  else exists h, file_read k count s =
      Ok ((n, slice (Z.to_nat (fd_pos f)) (Z.to_nat n) (contents (dsk s) i)),
          set_heap h (with_file k (mk_file (fd_pos f + n) (fd_flag f) (fd_inode f)) s)) /\
      h_room r h /\ (forall kn p, h_live h kn p <-> h_live (heap s) kn p).
Proof.
  intros Hg Hd Hf Hi Hok Hp Hc Hbig Hr n.
  assert (fd_pos f + count < 2 ^ 32) as Hw by (change (2 ^ 31) with 2147483648 in Hc; change (2 ^ 32) with 4294967296; lia).
  unfold file_read. mrun (get_file_run s k f Hf). mrun (get_inode_run s _ i Hi).
  rewrite (wrapu_small 32 (fd_pos f + count)) by lia. rewrite (wrapu_small 32 (i_size i - fd_pos f)) by (change (2 ^ 32) with 4294967296; lia).
  set (past := i_size i <? fd_pos f + count).
  assert ((if past then i_size i - fd_pos f else count) = n) as -> by (unfold past, n; destruct (Z.ltb_spec (i_size i) (fd_pos f + count)); lia).
  assert (past && (n =? 0) = (n =? 0) && (0 <? count)) as ->.
  { unfold past, n. destruct (Z.ltb_spec (i_size i) (fd_pos f + count)), (Z.ltb_spec 0 count), (Z.eqb_spec (Z.min count (i_size i - fd_pos f)) 0);
      cbn; done || lia. }
  destruct ((n =? 0) && (0 <? count)) eqn:Eend; [done|].
  assert (0 <= n /\ fd_pos f + n <= i_size i) as [Hn0 Hn1] by (unfold n; lia).
  destruct (two_buffers s r 512 560 Hr ltac:(lia) ltac:(lia)) as (io & all & h1 & E1 & Hio & Hall & h2 & E2 & Hfree).
  mrun E1. mrun E2. destruct (Z.eqb_spec all NULL); [done|].
  rewrite (wrapu_small 32 (fd_pos f + n)) by (change (2 ^ 32) with 4294967296; lia).
  assert ((fd_pos f + n) / 512 < 139) as Hend by (apply Z.div_lt_upper_bound; lia).
  assert (fd_pos f / 512 <= (fd_pos f + n) / 512) as Hse by (apply Z.div_le_mono; lia).
  pose proof (Z.div_pos (fd_pos f) 512 ltac:(lia) ltac:(lia)) as Hq.
  erewrite mbindM_Ok by (apply assertM_run; lia).
  destruct (blocks_for_read_run (set_heap h2 s) i (fd_pos f / 512) ((fd_pos f + n) / 512)) as (bl & E3 & Hbl); [apply (fo_map _ _ _ _ Hok)|done|lia| |].
  { intros H12. apply (table_exists (cur_part s) (dsk s) i B ((fd_pos f + n) / 512)); try done.
    pose proof (Z.mul_div_le (fd_pos f + n) 512). lia. }
  mrun E3.
  assert (covers bl B (fd_pos f) n) as Hcov by (apply (file_covers (cur_part s) (dsk s) i); done || lia).
  mrun (file_read_loop_run (Z.to_nat (n / 512) + 3) (set_heap h2 s) k io f n bl B Hf Hio Hd ltac:(lia) Hn0 ltac:(lia) Hcov
    ltac:(pose proof (spanned_bound (fd_pos f) n ltac:(lia) Hn0); lia)).
  destruct (Hfree (with_file k (mk_file (fd_pos f + n) (fd_flag f) (fd_inode f)) (set_heap h2 s)) eq_refl eq_refl) as (h3 & h4 & F1 & F2 & Hr4 & Hl).
  mrun F1. mrun F2. exists h4. split; [|split; [exact Hr4|exact Hl]]. unfold mret, M_ret.
  rewrite wraps_small by (change (2 ^ (32 - 1)) with 2147483648; change (2 ^ 31) with 2147483648 in Hc; lia).
  do 3 f_equal. rewrite (contents_blocks (cur_part s) (dsk s) i B Hd Hok). unfold slice. cbn [dsk set_heap]. rewrite skipn_firstn_comm, take_take. f_equal. lia.
Qed.

(** C9. [file_read] on a well-formed file returns the bytes of its contents from
    the position on, as many as were asked for or are left, moves the position
    behind them and changes nothing else; at the end of the file it returns -1.
    Reads that end in the last sector of the largest files are excluded: they
    fail an [ASSERT]. *)
Theorem file_read_contents s k f i B count r :
  geometry (cur_part s) -> disk_wf (dsk s) -> aget (file_table s) k = Ok f -> inodes s !! fd_inode f = Some i ->
  file_ok (cur_part s) (dsk s) i B -> 0 <= fd_pos f <= i_size i -> 0 <= count < 2 ^ 31 -> i_size i < 139 * 512 ->
  h_room (S (S r)) (heap s) ->
  let n := Z.min count (i_size i - fd_pos f) in
  if (n =? 0) && (0 <? count) then file_read k count s = Ok ((-1, []), s)
  else exists h, file_read k count s =
      Ok ((n, slice (Z.to_nat (fd_pos f)) (Z.to_nat n) (contents (dsk s) i)),
          set_heap h (with_file k (mk_file (fd_pos f + n) (fd_flag f) (fd_inode f)) s)) /\
      (forall kn p, h_live h kn p <-> h_live (heap s) kn p).
Proof.
  intros Hg Hd Hf Hi Hok Hp Hc Hbig Hr n. pose proof (file_read_run s k f i B count r Hg Hd Hf Hi Hok Hp Hc Hbig Hr) as X. cbv zeta in X. fold n in X.
  destruct ((n =? 0) && (0 <? count)); [exact X|]. destruct X as (h & E & _ & L). by exists h.
Qed.

End Contents.

(** ** A file of two bytes *)

Definition demo_text : list Z := [104; 105].
Definition demo_file_inode : inode := mk_inode 5 2 1 0 (613 :: replicate 12 0).
(** Slot 3 is open at position 1. *)
Definition demo_file_fs : fs bump :=
  mk_fs {[613 := demo_text ++ replicate 510 0]} (demo_part_with 3) {[100 := demo_file_inode]} ∅ demo_heap
    (<[3%nat := mk_file 1 2 100]> (replicate 32 (mk_file 0 0 NULL))) ([0; 1; 2; 3] ++ replicate 4 (-1)) 0 true 0x202.

Lemma demo_file_ok : file_ok (demo_part_with 3) (dsk demo_file_fs) demo_file_inode [613].
Proof.
  assert (in_data (demo_part_with 3) 613) as Hin.
  { split; [rewrite max_lba_value; cbn; lia|]. split; reflexivity. }
  split; [|done..]. split; [|vm_compute; reflexivity|cbn; lia|by repeat constructor|done|].
  - by apply inode_ok_intro.
  - apply NoDup_cons. split; [|apply NoDup_singleton]. by intros ?%list_elem_of_singleton.
Qed.

Lemma demo_file_wf : disk_wf (dsk demo_file_fs).
Proof. intros a x E. cbn [demo_file_fs dsk] in E. apply lookup_singleton_Some in E as [_ <-]. done. Qed.

Lemma file_read_contents_witness :
  exists h, file_read 3 8 demo_file_fs =
      Ok ((1, slice 1 1 (contents (dsk demo_file_fs) demo_file_inode)),
          set_heap h (with_file 3 (mk_file 2 2 100) demo_file_fs)) /\
      (forall kn p, h_live h kn p <-> h_live (heap demo_file_fs) kn p).
Proof.
  apply (file_read_contents demo_file_fs 3 (mk_file 1 2 100) demo_file_inode [613] 8 0).
  - apply demo_geometry_with. unfold is_byte. lia.
  - apply demo_file_wf.
  - reflexivity.
  - reflexivity.
  - apply demo_file_ok.
  - cbn. lia.
  - lia.
  - cbn. lia.
  - apply demo_heap_room. lia.
Defined.

Example demo_contents : contents (dsk demo_file_fs) demo_file_inode = demo_text.
Proof. vm_compute. reflexivity. Qed.
