(* ===== verification/FileWrite.v ===== *)
(** * Writing files (fs/file.c: file_write)

    The loops that allocate blocks and copy the data, and the theorem that
    [file_write] appends. *)

From S2P Require Import Prelude Bitmap Interrupt DList Disk Layout Inode Dir File Contents Alloc.

(** ** Sectors of a file *)

Lemma sec_insert (d : disk) b x a : sec (<[b := x]> d) a = if a =? b then x else sec d a.
Proof.
  unfold sec. rewrite lookup_insert. destruct (Z.eqb_spec a b) as [->|]; [by rewrite decide_True|by rewrite decide_False].
Qed.

Lemma disk_wf_insert (d : disk) b x : disk_wf d -> length x = 512%nat -> disk_wf (<[b := x]> d).
Proof. intros Hd Hx a y. rewrite lookup_insert. case_decide; [by intros [= <-]|apply Hd]. Qed.

Lemma file_bytes_ext d d' B : (forall b, b ∈ B -> sec d' b = sec d b) -> file_bytes d' B = file_bytes d B.
Proof.
  intros He. unfold file_bytes. f_equal. apply list_fmap_ext. intros j b Hb. apply He. by eapply list_elem_of_lookup_2.
Qed.

Lemma file_bytes_insert d B q b x : NoDup B -> B !! q = Some b ->
  file_bytes (<[b := x]> d) B = file_bytes d (take q B) ++ x ++ file_bytes d (drop (S q) B).
Proof.
  intros Hnd Hq. rewrite <- (take_drop_middle B q b Hq) in Hnd |- * at 1. apply NoDup_app in Hnd as (_ & Hd1 & Hd2).
  apply NoDup_cons in Hd2 as [Hd2 _].
  rewrite file_bytes_app. change (file_bytes (<[b := x]> d) (b :: drop (S q) B)) with (sec (<[b := x]> d) b ++ file_bytes (<[b := x]> d) (drop (S q) B)).
  rewrite sec_insert, Z.eqb_refl. f_equal; [|f_equal]; apply file_bytes_ext; intros a Ha; rewrite sec_insert; destruct (Z.eqb_spec a b) as [->|]; try done.
  exfalso. apply (Hd1 b Ha). left.
Qed.

(** The bytes up to the end of a chunk written at [off] of sector [q]. *)
Lemma chunk_prefix d B q b buf off data : disk_wf d -> NoDup B -> B !! q = Some b -> length buf = 512%nat ->
  (off + length data <= 512)%nat -> take off buf = take off (sec d b) ->
  take (512 * q + off + length data) (file_bytes (<[b := splice off data buf]> d) B) = take (512 * q + off) (file_bytes d B) ++ data.
Proof.
  intros Hd Hnd Hq Hb Ho Hpre. rewrite (file_bytes_insert d B q b _ Hnd Hq).
  assert (length (file_bytes d (take q B)) = (512 * q)%nat) as Hl.
  { rewrite file_bytes_length, length_take by done. apply lookup_lt_Some in Hq. lia. }
  assert (file_bytes d B = file_bytes d (take q B) ++ sec d b ++ file_bytes d (drop (S q) B)) as ->.
  { rewrite <- (take_drop_middle B q b Hq) at 1. by rewrite file_bytes_app. }
  rewrite <- Nat.add_assoc, !(take_app_add' (file_bytes d (take q B))) by done. rewrite <- app_assoc. f_equal.
  rewrite (take_app_le (sec d b)) by (rewrite sec_length by done; lia). rewrite <- Hpre.
  unfold splice. rewrite <- !app_assoc. rewrite take_app_add' by (rewrite length_take; lia).
  f_equal. apply take_app_length.
Qed.

Section Write.
Context {H : Type} `{HE : Heap H}.
Implicit Types s : fs H.

Lemma ide_wr_1 s b x : 0 <= b <= max_lba -> length x = 512%nat -> ide_wr b x 1 s = Ok (tt, set_dsk (<[b := x]> (dsk s)) s).
Proof.
  intros [H1 H2] Hx. rewrite ide_wr_run by lia. change (Z.to_nat 1) with 1%nat. cbn [put_secs]. by rewrite take_ge by lia.
Qed.

(** What the loop has changed: the size in memory, the position, the disk. *)
Definition written s (k ip : Z) (f : file) (i : inode) (n : Z) (d : disk) : fs H :=
  with_file k (mk_file (u32 (fd_pos f + n)) (fd_flag f) (fd_inode f))
    (set_dsk d (set_inodes (<[ip := set_i_size (i_size i + n) i]> (inodes s)) s)).

Lemma file_write_loop_run fuel : forall s k ip f i left src all B first,
  aget (file_table s) k = Ok f -> inodes s !! ip = Some i -> disk_wf (dsk s) -> NoDup B -> 0 <= fd_pos f < 2 ^ 32 ->
  0 <= i_size i -> 0 <= left -> i_size i + left < 2 ^ 32 -> (Z.to_nat left <= length src)%nat ->
  covers all B (i_size i) left -> (first = true \/ i_size i mod 512 = 0 \/ left = 0) ->
  (sectors_spanned (i_size i) left < fuel)%nat ->
  exists d, write_loop fuel k ip all src first left s = Ok (tt, written s k ip f i left d) /\ disk_wf d /\
    take (Z.to_nat (i_size i + left)) (file_bytes d B) = take (Z.to_nat (i_size i)) (file_bytes (dsk s) B) ++ take (Z.to_nat left) src /\
    (forall a, a ∉ B -> sec d a = sec (dsk s) a).
Proof.
  induction fuel as [|fuel IH]; intros s k ip f i left src all B first Hf Hi Hd Hnd Hpos Hs Hl Hmax Hsrc Hc Hfirst Hfuel; [lia|].
  cbn [write_loop]. destruct (Z.eqb_spec left 0) as [->|Hl0].
  { exists (dsk s). split; [|split; [done|split; [|done]]].
    - unfold written, mret, M_ret. do 2 f_equal. rewrite !Z.add_0_r, wrapu_small by done.
      replace (set_i_size (i_size i) i) with i by (by destruct i). rewrite insert_id by done.
      destruct f as [fp ff fi]. cbn [fd_pos fd_flag fd_inode]. replace (set_dsk (dsk s) (set_inodes (inodes s) s)) with s by (by destruct s). by rewrite with_file_same.
    - rewrite Z.add_0_r. change (Z.to_nat 0) with 0%nat. cbn [take]. by rewrite app_nil_r. }
  destruct (spanned_step (i_size i) left Hs ltac:(lia)) as (Hc1 & Hc2 & Hspan).
  set (c := if left <? 512 - i_size i mod 512 then left else 512 - i_size i mod 512) in *.
  destruct (covers_here all B (i_size i) left Hs ltac:(lia) Hc) as (b & Eb & EB & Hb).
  pose proof (Z.mod_pos_bound (i_size i) 512 ltac:(lia)) as Hm. pose proof (Z.div_mod (i_size i) 512 ltac:(lia)) as Hdm.
  pose proof (Z.div_pos (i_size i) 512 Hs ltac:(lia)) as Hq.
  set (buf := if first then sec (dsk s) b else replicate 512 0).
  assert (length buf = 512%nat) as Hbuf by (unfold buf; destruct first; [by apply sec_length|apply length_replicate]).
  assert (take (Z.to_nat (i_size i mod 512)) buf = take (Z.to_nat (i_size i mod 512)) (sec (dsk s) b)) as Hpre.
  { unfold buf. destruct first; [done|]. destruct Hfirst as [?|[-> |?]]; [done|done|lia]. }
  set (data := take (Z.to_nat c) src). assert (length data = Z.to_nat c) as Hdata by (unfold data; rewrite length_take; lia).
  set (x := splice (Z.to_nat (i_size i mod 512)) data buf).
  assert (length x = 512%nat) as Hx by (unfold x; rewrite splice_length; lia).
  set (s1 := written s k ip f i c (<[b := x]> (dsk s))).
  mrun (get_inode_run s ip i Hi). rewrite (liftO_bind _ _ _ _ Eb).
  assert ((if first then ide_rd b 1 else mret (replicate 512 0)) s = Ok (buf, s)) as Erd.
  { unfold buf. destruct first; [by apply ide_rd_1|done]. }
  mrun Erd. assert (read_src src c s = Ok (data, s)) as Esrc.
  { unfold read_src. destruct (Z.leb_spec c (Z.of_nat (length src))); [done|lia]. }
  mrun Esrc. mrun (ide_wr_1 s b x Hb Hx). unfold put_inode. rewrite modS_bind. fold c. rewrite (wrapu_small 32 (i_size i + c)) by lia.
  mrunc (get_file_run (set_inodes (<[ip := set_i_size (i_size i + c) i]> (inodes s)) (set_dsk (<[b := x]> (dsk s)) s)) k f Hf).
  mrunc (put_file_run (set_inodes (<[ip := set_i_size (i_size i + c) i]> (inodes s)) (set_dsk (<[b := x]> (dsk s)) s)) k
    (mk_file (u32 (fd_pos f + c)) (fd_flag f) (fd_inode f)) f Hf).
  change (with_file k _ _) with s1.
  destruct (IH s1 k ip (mk_file (u32 (fd_pos f + c)) (fd_flag f) (fd_inode f)) (set_i_size (i_size i + c) i) (left - c)
    (drop (Z.to_nat c) src) all B false) as (d & E & Hd' & Hbytes & Hout).
  - by eapply with_file_get.
  - cbn [s1 written with_file set_file_table set_dsk set_inodes inodes]. apply lookup_insert_eq.
  - by apply disk_wf_insert.
  - done.
  - cbn [fd_pos]. apply wrapu_range. lia.
  - cbn [i_size set_i_size]. lia.
  - lia.
  - cbn [i_size set_i_size]. lia.
  - rewrite length_drop. lia.
  - cbn [i_size set_i_size]. apply covers_rest; done || lia.
  - right. cbn [i_size set_i_size]. unfold c. destruct (Z.ltb_spec left (512 - i_size i mod 512)); [right; lia|left].
    replace (i_size i + (512 - i_size i mod 512)) with ((i_size i / 512 + 1) * 512) by lia. apply Z.mod_mul. lia.
  - cbn [i_size set_i_size]. lia.
  - exists d. split; [|split; [done|split]].
    + rewrite E. do 2 f_equal. unfold s1, written. cbn [fd_pos fd_flag fd_inode set_i_size i_size].
      unfold with_file. cbn. rewrite list_insert_insert_eq, insert_insert_eq. unfold set_i_size. cbn.
      assert (u32 (u32 (fd_pos f + c) + (left - c)) = u32 (fd_pos f + left)) as ->.
      { unfold wrapu. rewrite Zplus_mod_idemp_l. f_equal. lia. }
      replace (i_size i + c + (left - c)) with (i_size i + left) by lia. done.
    + cbn [i_size set_i_size] in Hbytes. replace (i_size i + c + (left - c)) with (i_size i + left) in Hbytes by lia. rewrite Hbytes.
      assert (dsk s1 = <[b := x]> (dsk s)) as -> by reflexivity.
      replace (Z.to_nat (i_size i + c)) with (512 * Z.to_nat (i_size i / 512) + Z.to_nat (i_size i mod 512) + length data)%nat by lia.
      unfold x. rewrite chunk_prefix by (done || lia).
      replace (512 * Z.to_nat (i_size i / 512) + Z.to_nat (i_size i mod 512))%nat with (Z.to_nat (i_size i)) by lia.
      rewrite <- app_assoc. f_equal. unfold data. rewrite <- (take_drop (Z.to_nat c) (take (Z.to_nat left) src)).
      rewrite take_take, skipn_firstn_comm. f_equal; f_equal; lia.
    + intros a Ha. rewrite Hout by done. assert (dsk s1 = <[b := x]> (dsk s)) as -> by reflexivity.
      rewrite sec_insert. destruct (Z.eqb_spec a b) as [->|]; [|done]. exfalso. apply Ha. by eapply list_elem_of_lookup_2.
Qed.

(** ** Allocation *)

(** From [s] to [s'] the blocks [new] were allocated and the inode at [ip] became [i']. *)
Record grown s s' (ip : Z) (i' : inode) (new : list Z) : Prop := {
  gr_state : s' = set_dsk (dsk s') (set_part (cur_part s') (set_inodes (<[ip := i']> (inodes s)) s));
  gr_geometry : geometry (cur_part s');
  gr_wf : disk_wf (dsk s');
  gr_part : exists b, cur_part s' = set_block_bitmap b (cur_part s) /\ btmp_bytes_len b = btmp_bytes_len (block_bitmap (cur_part s));
  gr_bits k : 0 <= k -> bit_used (block_bitmap (cur_part s')) k =
    bit_used (block_bitmap (cur_part s)) k || bool_decide (data_start_lba (sb (cur_part s)) + k ∈ new);
  gr_nodup : NoDup new;
  gr_fresh : Forall (fun b => free_bit (cur_part s) (b - data_start_lba (sb (cur_part s))) /\ b <= max_lba) new;
  gr_disk a : ~ in_block_map (cur_part s) a -> sec (dsk s') a = sec (dsk s) a
}.

Lemma grown_one s ip i' k p' d' : geometry (cur_part s) -> took (cur_part s) p' k -> free_bit (cur_part s) k ->
  data_start_lba (sb (cur_part s)) + k <= max_lba -> disk_wf d' ->
  (forall a, ~ in_block_map (cur_part s) a -> sec d' a = sec (dsk s) a) ->
  grown s (set_dsk d' (set_part p' (set_inodes (<[ip := i']> (inodes s)) s))) ip i' [data_start_lba (sb (cur_part s)) + k].
Proof.
  intros Hg Ht Hk Hm Hd Hout. split; cbn [set_dsk set_part set_inodes dsk cur_part inodes]; try done.
  - by apply (took_geometry (cur_part s) p' k).
  - destruct Ht as (b & -> & _ & Hl & _). by exists b.
  - intros j Hj. destruct Ht as (b & -> & _ & _ & _ & Hb). cbn [set_block_bitmap block_bitmap]. rewrite Hb by done.
    destruct (Z.eqb_spec j k) as [->|Hne].
    + rewrite bool_decide_eq_true_2 by left. by rewrite orb_true_r.
    + rewrite bool_decide_eq_false_2, orb_false_r; [done|]. rewrite list_elem_of_singleton. lia.
  - apply NoDup_singleton.
  - constructor; [|constructor]. replace (_ + k - _) with k by lia. done.
Qed.

Lemma grown_sb s s' ip i' new : grown s s' ip i' new -> sb (cur_part s') = sb (cur_part s) /\ in_block_map (cur_part s') = in_block_map (cur_part s) /\
  nbits (block_bitmap (cur_part s')) = nbits (block_bitmap (cur_part s)).
Proof. intros Hgr. destruct (gr_part _ _ _ _ _ Hgr) as (b & E & Hl). unfold in_block_map, nbits. rewrite E. cbn. by rewrite Hl. Qed.

Lemma grown_trans s s1 s2 ip i1 i2 n1 n2 : grown s s1 ip i1 n1 -> grown s1 s2 ip i2 n2 -> grown s s2 ip i2 (n1 ++ n2).
Proof.
  intros G1 G2. destruct (grown_sb _ _ _ _ _ G1) as (Esb & Emap & Enb). destruct G1 as [A1 A2 A3 A4 A5 A6 A7 A8], G2 as [B1 B2 B3 B4 B5 B6 B7 B8].
  rewrite Esb in *. rewrite Emap in *. split; try done.
  - rewrite B1, A1. cbn. by rewrite insert_insert_eq.
  - destruct A4 as (b1 & E1 & L1), B4 as (b2 & E2 & L2). exists b2. rewrite E2, E1. rewrite E1 in L2. cbn in L2 |- *. split; [done|congruence].
  - intros k Hk. rewrite B5, A5 by done. rewrite <- orb_assoc. f_equal.
    rewrite (bool_decide_ext (_ ∈ n1 ++ n2) (_ ∈ n1 \/ _ ∈ n2)) by apply elem_of_app. by rewrite bool_decide_or.
  - apply NoDup_app. split; [done|]. split; [|done]. intros b Hb1 Hb2. rewrite Forall_forall in A7, B7.
    destruct (A7 b Hb1) as [[Hr _] _], (B7 b Hb2) as [[_ Hu] _]. rewrite A5 in Hu by lia.
    rewrite bool_decide_eq_true_2, orb_true_r in Hu; [done|]. by replace (_ + (b - _)) with b by lia.
  - apply Forall_app. split; [done|]. eapply Forall_impl; [exact B7|]. intros b [[Hr Hu] Hm]. split; [|done].
    split; [by rewrite <- Enb|]. rewrite A5 in Hu by lia. by destruct (bit_used (block_bitmap (cur_part s)) _).
  - intros a Ha. rewrite B8, A8 by done. done.
Qed.

Lemma grown_avail s s' ip i' new n : grown s s' ip i' new -> avail (cur_part s) (length new + n) -> avail (cur_part s') n.
Proof.
  intros Hgr (l & Hnd & Hl & Hf). destruct (grown_sb _ _ _ _ _ Hgr) as (Esb & _ & Enb).
  set (taken := (fun b => b - data_start_lba (sb (cur_part s))) <$> new).
  exists (filter (fun x => x ∉ taken) l). split; [by apply NoDup_filter|]. split.
  - assert (length l <= length (filter (fun x => x ∉ taken) l) + length taken)%nat; [|unfold taken in *; rewrite length_fmap in *; lia].
    rewrite <- length_app. apply submseteq_length, NoDup_submseteq; [done|].
    intros x Hx. apply elem_of_app. destruct (decide (x ∈ taken)); [by right|left]. by apply list_elem_of_filter.
  - rewrite Forall_forall in *. intros x [Hnt Hx]%list_elem_of_filter. destruct (Hf x Hx) as [Hr Hu]. split; [by rewrite Enb|].
    rewrite (gr_bits _ _ _ _ _ Hgr) by lia. rewrite Hu, bool_decide_eq_false_2; [done|]. intros Hin. apply Hnt.
    unfold taken. apply list_elem_of_fmap. exists (data_start_lba (sb (cur_part s)) + x). split; [lia|done].
Qed.

Lemma in_range_u32 b : 0 <= b <= max_lba -> u32 b = b /\ u32_ok b.
Proof. rewrite max_lba_value. intros Hb. unfold u32_ok. change (2 ^ 32) with 4294967296. rewrite wrapu_small; [|change (2 ^ 32) with 4294967296]; lia. Qed.

(** The i-th new address goes to place [idx + i] of [all_blocks], and of
    [i_sectors] when that place is a direct one. *)
Definition placed (idx n : nat) (new old out : list Z) (limit : nat) : Prop :=
  length out = length old /\
  forall j, out !! j = if decide (idx <= j < idx + n /\ j < limit)%nat then new !! (j - idx)%nat else old !! j.

Lemma placed_nil idx new old limit : placed idx 0 new old old limit.
Proof. split; [done|]. intros j. rewrite decide_False by lia. done. Qed.

Lemma placed_cons idx n b new old mid out limit : ((idx < limit)%nat -> (idx < length old)%nat) ->
  mid = (if decide (idx < limit)%nat then <[idx := b]> old else old) ->
  placed (S idx) n new mid out limit -> placed idx (S n) (b :: new) old out limit.
Proof.
  intros Hl Em [Hlen Hj]. assert (length mid = length old) as Hm by (rewrite Em; case_decide; [by rewrite length_insert|done]).
  split; [congruence|]. intros j. rewrite Hj.
  destruct (decide (S idx <= j < S idx + n /\ j < limit)%nat).
  - rewrite decide_True by lia. replace (j - idx)%nat with (S (j - S idx)) by lia. done.
  - destruct (decide (idx <= j < idx + S n /\ j < limit)%nat) as [Hr|Hr].
    + assert (j = idx) as -> by lia. rewrite Em, decide_True, list_lookup_insert_eq, Nat.sub_diag by lia. done.
    + rewrite Em. case_decide; [|done]. rewrite list_lookup_insert_ne; [done|]. lia.
Qed.

Lemma inode_ok_placed i S' idx n new limit : inode_ok i -> placed idx n new (i_sectors i) S' limit -> Forall u32_ok new ->
  inode_ok (set_i_sectors S' i).
Proof.
  intros [H1 H2 H3 H4 H5 H6] [Hl Hj] Hn. split; cbn [set_i_sectors i_no i_size i_open_cnts write_deny i_sectors]; try done; [congruence|].
  apply Forall_lookup. intros j v E. rewrite Hj in E. case_decide; [by eapply Forall_lookup in E|by eapply Forall_lookup in E].
Qed.

Lemma alloc_blocks_run n : forall s ip idx all i, geometry (cur_part s) -> disk_wf (dsk s) -> inodes s !! ip = Some i -> inode_ok i ->
  avail (cur_part s) n -> (idx + n <= 140)%nat -> length all = 140%nat ->
  (forall j, (idx <= j < idx + n)%nat -> (j < 12)%nat -> i_sectors i !! j = Some 0) ->
  exists s' new S' all', alloc_blocks n ip (Z.of_nat idx) all s = Ok (Some all', s') /\ length new = n /\
    grown s s' ip (set_i_sectors S' i) new /\ placed idx n new (i_sectors i) S' 12 /\ placed idx n new all all' 140.
Proof.
  induction n as [|n IH]; intros s ip idx all i Hg Hd Hi Hok Ha Hidx Hall Hz.
  { exists s, [], (i_sectors i), all. split; [done|]. split; [done|]. split; [|split; apply placed_nil].
    assert (set_i_sectors (i_sectors i) i = i) as -> by (by destruct i). split; try done.
    - rewrite insert_id by done. by destruct s.
    - exists (block_bitmap (cur_part s)). split; [by destruct (cur_part s)|done].
    - intros k _. by rewrite orb_false_r.
    - constructor. }
  cbn [alloc_blocks]. destruct (geometry_small _ Hg) as (D1 & D2 & D3 & D4).
  destruct (block_alloc_run s n Hg Ha) as (k & p' & E & Ht & Hfree & Hmax). pose proof (ge_table _ Hg) as Hgt.
  set (b := data_start_lba (sb (cur_part s)) + k) in *. assert (0 <= b <= max_lba) as Hb by (destruct Hfree; lia).
  destruct (in_range_u32 b Hb) as [Eb Hbu].
  mrun E. destruct (Z.eqb_spec b (-1)); [lia|]. mrunc (get_inode_run (set_part p' s) ip i Hi).
  set (S1 := if decide (idx < 12)%nat then <[idx := b]> (i_sectors i) else i_sectors i).
  set (s1 := set_part p' (set_inodes (<[ip := set_i_sectors S1 i]> (inodes s)) s)).
  assert ((if Z.of_nat idx <? 12 then old ← liftO (aget (i_sectors i) (Z.of_nat idx)); _ ← assertM (old =? 0) "file_write: i_sectors[block_idx] == 0";
      put_inode ip (set_sector (Z.of_nat idx) (u32 b) i) else mret tt) (set_part p' s) = Ok (tt, s1)) as Eput.
  { unfold s1, S1. destruct (Z.ltb_spec (Z.of_nat idx) 12) as [H12|H12].
    - rewrite (liftO_bind _ 0) by (apply aget_Ok; [lia|rewrite Nat2Z.id; apply Hz; lia]).
      erewrite mbindM_Ok by (by apply assertM_run). rewrite decide_True by lia. unfold set_sector. rewrite Nat2Z.id, Eb. done.
    - rewrite decide_False by lia. assert (set_i_sectors (i_sectors i) i = i) as -> by (by destruct i). rewrite insert_id by done. by destruct s. }
  mrun Eput. rewrite Eb. rewrite (liftO_bind _ (<[idx := b]> all)).
  2: { rewrite aset_Ok by lia. by rewrite Nat2Z.id. }
  rewrite getS_bind. assert (sb (cur_part s1) = sb (cur_part s)) as Esb by (destruct Ht as (bb & -> & _); done).
  rewrite Esb. replace (b - data_start_lba (sb (cur_part s))) with k by (unfold b; lia).
  rewrite (wrapu_small 32 k) by (rewrite max_lba_value in Hmax; change (2 ^ 32) with 4294967296; destruct Hfree; lia).
  destruct (block_sync_run s1 k) as (d1 & Es & Hd1 & Hout & _).
  { by apply (took_geometry (cur_part s) p' k). }
  { done. }
  { destruct Ht as (bb & -> & _ & Hl & _). cbn. unfold nbits. rewrite Hl. apply Hfree. }
  mrun Es. set (s2 := set_dsk d1 s1).
  assert (grown s s2 ip (set_i_sectors S1 i) [b]) as G1.
  { apply grown_one; try done. intros a Ha'. rewrite Hout; [done|]. unfold in_block_map. by rewrite Esb. }
  assert (placed idx 1 [b] (i_sectors i) S1 12) as P1.
  { apply (placed_cons idx 0 b [] (i_sectors i) S1 S1 12); [|done|apply placed_nil]. rewrite (io_sectors i Hok).
    lia. }
  destruct (IH s2 ip (S idx) (<[idx := b]> all) (set_i_sectors S1 i)) as (s' & new & S' & all' & E' & Hl & G2 & P2 & P3).
  - apply G1.
  - done.
  - apply lookup_insert_eq.
  - apply (inode_ok_placed i S1 idx 1 [b] 12); [done|done|]. by constructor.
  - by apply (grown_avail s s2 ip (set_i_sectors S1 i) [b]).
  - lia.
  - by rewrite length_insert.
  - intros j Hj H12. cbn [set_i_sectors i_sectors]. destruct P1 as [_ P1]. rewrite P1, decide_False by lia. apply Hz; lia.
  - exists s', (b :: new), S', all'. replace (Z.of_nat idx + 1) with (Z.of_nat (S idx)) by lia. split; [exact E'|].
    split; [cbn; lia|]. split; [by apply (grown_trans s s2 s' ip (set_i_sectors S1 i) _ [b] new)|].
    split; [apply (placed_cons idx n b new _ S1); [rewrite (io_sectors i Hok); lia|done|done]|].
    apply (placed_cons idx n b new all (<[idx := b]> all)); [lia|by rewrite decide_True by lia|done].
Qed.

(** ** The block map after an allocation *)

Definition root_taken (p : partition) : Prop := bit_used (block_bitmap p) 0 = true.

Lemma grown_in_data s s' ip i' F b : grown s s' ip i' F -> in_data (cur_part s) b -> in_data (cur_part s') b.
Proof.
  intros Hgr (H1 & H2 & H3). destruct (grown_sb _ _ _ _ _ Hgr) as (Esb & _ & Enb). unfold in_data. rewrite Esb, Enb.
  split; [done|]. split; [done|]. rewrite (gr_bits _ _ _ _ _ Hgr) by lia. by rewrite H3.
Qed.

Lemma grown_free s s' ip i' F k : grown s s' ip i' F -> free_bit (cur_part s') k -> free_bit (cur_part s) k.
Proof.
  intros Hgr [H1 H2]. destruct (grown_sb _ _ _ _ _ Hgr) as (_ & _ & Enb). rewrite Enb in H1. split; [done|].
  rewrite (gr_bits _ _ _ _ _ Hgr) in H2 by lia. by destruct (bit_used (block_bitmap (cur_part s)) k).
Qed.

Lemma grown_fresh s s' ip i' F b : grown s s' ip i' F -> root_taken (cur_part s) -> b ∈ F ->
  in_data (cur_part s') b /\ ~ in_data (cur_part s) b /\ free_bit (cur_part s) (b - data_start_lba (sb (cur_part s))).
Proof.
  intros Hgr Hroot Hb. pose proof (gr_fresh _ _ _ _ _ Hgr) as Hf. rewrite Forall_forall in Hf. destruct (Hf b Hb) as [[Hr Hu] Hm].
  destruct (grown_sb _ _ _ _ _ Hgr) as (Esb & _ & Enb). split; [|split; [|done]].
  - unfold in_data. rewrite Esb, Enb. assert (b - data_start_lba (sb (cur_part s)) <> 0) by (intros E; unfold root_taken in Hroot; rewrite E in Hu; congruence).
    split; [lia|]. split; [lia|]. rewrite (gr_bits _ _ _ _ _ Hgr), bool_decide_eq_true_2 by (lia || by replace (_ + (b - _)) with b by lia). apply orb_true_r.
  - intros (_ & _ & H3). congruence.
Qed.

Lemma blocks_eq X (B new : list Z) : length X = 140%nat -> (length (B ++ new) <= 140)%nat ->
  (forall j, (j < length B)%nat -> X !! j = B !! j) ->
  (forall j, (length B <= j < length (B ++ new))%nat -> X !! j = new !! (j - length B)%nat) ->
  (forall j, (length (B ++ new) <= j < 140)%nat -> X !! j = Some 0) ->
  X = (B ++ new) ++ replicate (140 - length (B ++ new)) 0.
Proof.
  intros HX Hl H1 H2 H3. apply list_eq. intros j. destruct (decide (j < length (B ++ new))%nat) as [Hj|Hj].
  - rewrite lookup_app_l by done. destruct (decide (j < length B)%nat).
    + rewrite lookup_app_l by done. by apply H1.
    + rewrite lookup_app_r by lia. apply H2. lia.
  - rewrite lookup_app_r by lia. destruct (decide (j < 140)%nat).
    + rewrite lookup_replicate_2 by lia. apply H3. lia.
    + rewrite !lookup_ge_None_2; [done| |]; rewrite ?length_replicate; lia.
Qed.

Lemma map_extend p p' d d' i i' B new F : map_ok p d i B -> geometry p' ->
  (forall b, in_data p b -> in_data p' b) -> (forall b, b ∈ F -> in_data p' b /\ ~ in_data p b) -> NoDup F ->
  inode_ok i' -> (length (B ++ new) <= 140)%nat ->
  blocks_of d' i' = (B ++ new) ++ replicate (140 - length (B ++ new)) 0 ->
  ((length (B ++ new) <= 12)%nat /\ F = new /\ table_of i' = 0 \/
   (length B <= 12 < length (B ++ new))%nat /\ F = table_of i' :: new \/
   (12 < length B)%nat /\ F = new /\ table_of i' = table_of i) ->
  map_ok p' d' i' (B ++ new).
Proof.
  intros Hm Hg Hold Hnew Hnd Hi Hl Hbl Hcase. pose proof (mo_data p d i B Hm) as Hdata. pose proof (mo_table p d i B Hm) as Htab.
  pose proof (mo_distinct p d i B Hm) as [Hnt HndB]%NoDup_cons.
  assert (forall b, b ∈ B -> in_data p b) as HB by (by rewrite Forall_forall in Hdata).
  assert (forall b, b ∈ new -> b ∈ F) as HnF by (destruct Hcase as [(_ & -> & _)|[(_ & ->)|(_ & -> & _)]]; [done|by right|done]).
  assert (NoDup new) as Hndn by (destruct Hcase as [(_ & -> & _)|[(_ & ->)|(_ & -> & _)]]; [done|by apply NoDup_cons in Hnd as [_ ?]|done]).
  assert (NoDup (B ++ new)) as Hnd2.
  { apply NoDup_app. split; [done|]. split; [|done]. intros b Hb Hb'. destruct (Hnew b (HnF b Hb')) as [_ Hx]. apply Hx. by apply HB. }
  assert (forall b, b ∈ B ++ new -> in_data p' b) as Hall.
  { intros b [Hb|Hb]%elem_of_app; [by apply Hold, HB|by apply Hnew, HnF]. }
  split; try done.
  - by apply Forall_forall.
  - destruct Hcase as [(H12 & _ & E)|[(H12 & E)|(H12 & _ & E)]].
    + destruct (Nat.leb_spec (length (B ++ new)) 12); [done|lia].
    + destruct (Nat.leb_spec (length (B ++ new)) 12); [lia|]. apply Hnew. rewrite E. left.
    + rewrite E, length_app in *. destruct (Nat.leb_spec (length B) 12); [lia|]. destruct (Nat.leb_spec (length B + length new) 12); [lia|]. by apply Hold.
  - apply NoDup_cons. split; [|done]. destruct Hcase as [(H12 & _ & E)|[(H12 & E)|(H12 & EF & E)]].
    + rewrite E. intros H0. apply Hall in H0. by destruct (in_data_range p' 0 Hg H0).
    + intros [Hb|Hb]%elem_of_app.
      * destruct (Hnew (table_of i')) as [_ Hx]; [rewrite E; left|]. apply Hx. by apply HB.
      * rewrite E in Hnd. by apply NoDup_cons in Hnd as [? _].
    + rewrite E. intros [Hb|Hb]%elem_of_app; [done|]. destruct (Hnew (table_of i) (HnF _ Hb)) as [_ Hx]. apply Hx.
      destruct (Nat.leb_spec (length B) 12); [lia|done].
Qed.

Lemma map_zero p d i B j : map_ok p d i B -> (length B <= j < 140)%nat -> blocks_of d i !! j = Some 0.
Proof. intros Hm Hj. rewrite (mo_blocks p d i B Hm), lookup_app_r, lookup_replicate_2 by lia. done. Qed.

Lemma table_words all : length all = 140%nat -> Forall u32_ok all -> sector_words (table_bytes all) = drop 12 all /\ length (table_bytes all) = 512%nat.
Proof.
  intros Hl Hu. assert (length (drop 12 all) = 128%nat) as Hd by (rewrite length_drop; lia). unfold table_bytes. rewrite words_length, Hd. split; [|done].
  unfold sector_words. pose proof (words_at_app (drop 12 all) [] [] (Forall_drop _ 12 all Hu)) as E. rewrite Hd, app_nil_r in E. exact E.
Qed.

Lemma placed_u32 idx n new old out limit : placed idx n new old out limit -> Forall u32_ok new -> Forall u32_ok old -> Forall u32_ok out.
Proof. intros [_ Hj] Hn Ho. apply Forall_lookup. intros j v E. rewrite Hj in E. case_decide; by eapply Forall_lookup in E. Qed.

Lemma in_data_u32 p b : geometry p -> in_data p b -> u32_ok b.
Proof. intros Hg Hb. destruct (in_data_range p b Hg Hb) as [Hr _]. by apply in_range_u32. Qed.

Lemma last_used_run s ip i u all v : inodes s !! ip = Some i -> (1 <= u <= 13)%nat -> i_sectors i !! (u - 1)%nat = Some v -> length all = 140%nat ->
  last_used ip (Z.of_nat u) all s = Ok (<[(u - 1)%nat := v]> all, s).
Proof.
  intros Hi Hu Hv Hl. unfold last_used. mrun (get_inode_run s ip i Hi).
  rewrite (liftO_bind _ v) by (apply aget_Ok; [lia|by replace (Z.to_nat (Z.of_nat u - 1)) with (u - 1)%nat by lia]).
  unfold liftO. rewrite aset_Ok by lia. by replace (Z.to_nat (Z.of_nat u - 1)) with (u - 1)%nat by lia.
Qed.

(** What [blocks_for_write] leaves. *)
Record extended s s' (ip : Z) (i i' : inode) (B new : list Z) : Prop := {
  ex_state : s' = set_dsk (dsk s') (set_part (cur_part s') (set_inodes (<[ip := i']> (inodes s)) s));
  ex_geometry : geometry (cur_part s');
  ex_wf : disk_wf (dsk s');
  ex_part : exists b, cur_part s' = set_block_bitmap b (cur_part s) /\ btmp_bytes_len b = btmp_bytes_len (block_bitmap (cur_part s));
  ex_old b : in_data (cur_part s) b -> in_data (cur_part s') b;
  ex_map : map_ok (cur_part s') (dsk s') i' (B ++ new);
  ex_inode : exists S', i' = set_i_sectors S' i;
  ex_free k : free_bit (cur_part s') k -> free_bit (cur_part s) k;
  ex_new : Forall (fun b => free_bit (cur_part s) (b - data_start_lba (sb (cur_part s)))) new;
  ex_table : table_of i' = table_of i \/ free_bit (cur_part s) (table_of i' - data_start_lba (sb (cur_part s)));
  ex_frame a : ~ in_block_map (cur_part s) a -> ~ free_bit (cur_part s) (a - data_start_lba (sb (cur_part s))) -> a <> table_of i ->
    sec (dsk s') a = sec (dsk s) a
}.

Lemma extended_refl s ip i B : geometry (cur_part s) -> disk_wf (dsk s) -> inodes s !! ip = Some i ->
  map_ok (cur_part s) (dsk s) i B -> extended s s ip i i B [].
Proof.
  intros Hg Hd Hi Hm. split; try done.
  - rewrite insert_id by done. by destruct s.
  - exists (block_bitmap (cur_part s)). split; [by destruct (cur_part s)|done].
  - by rewrite app_nil_r.
  - exists (i_sectors i). by destruct i.
  - by left.
Qed.

(** Direct blocks only. *)
Lemma extend_direct s s' ip i B new S' : root_taken (cur_part s) -> map_ok (cur_part s) (dsk s) i B ->
  grown s s' ip (set_i_sectors S' i) new -> placed (length B) (length new) new (i_sectors i) S' 12 ->
  (length (B ++ new) <= 12)%nat -> extended s s' ip i (set_i_sectors S' i) B new.
Proof.
  intros Hroot Hm Hgr Hpl H12. rewrite length_app in H12. pose proof (mo_table _ _ _ _ Hm) as Ht. destruct (Nat.leb_spec (length B) 12); [|lia].
  assert (inode_ok (set_i_sectors S' i)) as Hi'.
  { eapply inode_ok_placed; [apply Hm|done|]. apply Forall_forall. intros b Hb. destruct (grown_fresh _ _ _ _ _ _ Hgr Hroot Hb) as [Hin _].
    by apply (in_data_u32 _ _ (gr_geometry _ _ _ _ _ Hgr)). }
  assert (table_of (set_i_sectors S' i) = 0) as Ht'.
  { unfold table_of. cbn [set_i_sectors i_sectors]. destruct Hpl as [_ Hpl]. rewrite Hpl, decide_False by lia. exact Ht. }
  split; try apply Hgr.
  - intros b. by apply (grown_in_data s s' ip (set_i_sectors S' i) new).
  - apply (map_extend (cur_part s) _ (dsk s) _ i _ B new new); try done.
    + apply Hgr.
    + intros b. by apply (grown_in_data s s' ip (set_i_sectors S' i) new).
    + intros b Hb. destruct (grown_fresh _ _ _ _ _ _ Hgr Hroot Hb) as (? & ? & _). done.
    + apply Hgr.
    + rewrite length_app. lia.
    + assert (forall j, (j < 12)%nat -> blocks_of (dsk s') (set_i_sectors S' i) !! j =
        if decide (length B <= j < length B + length new)%nat then new !! (j - length B)%nat else blocks_of (dsk s) i !! j) as Hlow.
      { intros j Hj. rewrite blocks_of_direct by done. cbn [set_i_sectors i_sectors]. destruct Hpl as [_ Hpl]. rewrite Hpl.
        destruct (decide (length B <= j < length B + length new)%nat); [by rewrite decide_True by lia|].
        rewrite decide_False by lia. by rewrite blocks_of_direct by (apply (mo_inode _ _ _ _ Hm) || done). }
      apply blocks_eq; rewrite ?length_app.
      * by apply blocks_of_length.
      * lia.
      * intros j Hj. rewrite Hlow, decide_False by lia. by apply (map_lookup (cur_part s)).
      * intros j Hj. rewrite Hlow, decide_True by lia. done.
      * intros j Hj. destruct (decide (j < 12)%nat) as [Hlt|Hge].
        -- rewrite Hlow, decide_False by lia. apply (map_zero (cur_part s) _ _ B); [done|lia].
        -- unfold blocks_of. rewrite Ht'. cbn [Z.eqb]. rewrite lookup_app_r, lookup_replicate_2; [done| |]; rewrite length_take, (io_sectors _ Hi'); lia.
    + left. rewrite length_app. split; [lia|done].
  - by exists S'.
  - intros k. by apply (grown_free s s' ip (set_i_sectors S' i) new).
  - eapply Forall_impl; [apply (gr_fresh _ _ _ _ _ Hgr)|]. by intros b [? _].
  - left. by rewrite Ht', Ht.
  - intros a Ha _ _. by apply Hgr.
Qed.

(** With the table of indirect blocks, written once all are allocated. *)
Lemma extend_indirect s s2 ip i S2 B new F all : root_taken (cur_part s) -> map_ok (cur_part s) (dsk s) i B ->
  grown s s2 ip (set_i_sectors S2 i) F -> inode_ok (set_i_sectors S2 i) ->
  (12 < length (B ++ new) <= 140)%nat -> length all = 140%nat -> Forall u32_ok all ->
  (forall j, (j < 12)%nat -> S2 !! j = if decide (length B <= j < length (B ++ new))%nat then new !! (j - length B)%nat else blocks_of (dsk s) i !! j) ->
  (forall j, (12 <= j < 140)%nat -> all !! j = if decide (length B <= j < length (B ++ new))%nat then new !! (j - length B)%nat else blocks_of (dsk s) i !! j) ->
  ((length B <= 12)%nat /\ F = table_of (set_i_sectors S2 i) :: new \/ (12 < length B)%nat /\ F = new /\ table_of (set_i_sectors S2 i) = table_of i) ->
  let s3 := set_dsk (<[table_of (set_i_sectors S2 i) := table_bytes all]> (dsk s2)) s2 in
  ide_wr (table_of (set_i_sectors S2 i)) (table_bytes all) 1 s2 = Ok (tt, s3) /\ extended s s3 ip i (set_i_sectors S2 i) B new.
Proof.
  intros Hroot Hm Hgr Hi2 Hw Hl Hu Hlow Hhigh Hcase s3. set (i2 := set_i_sectors S2 i) in *. set (t := table_of i2) in *.
  destruct (table_words all Hl Hu) as [Ews Hlb].
  assert (in_data (cur_part s2) t) as Ht.
  { destruct Hcase as [(_ & E)|(H12 & _ & E)].
    - apply (grown_fresh s s2 ip i2 F); [done|done|]. rewrite E. left.
    - rewrite E. apply (grown_in_data s s2 ip i2 F); [done|]. pose proof (mo_table _ _ _ _ Hm) as Ht. destruct (Nat.leb_spec (length B) 12); [lia|done]. }
  destruct (in_data_range _ _ (gr_geometry _ _ _ _ _ Hgr) Ht) as [Htr Ht0].
  split; [by apply ide_wr_1|].
  assert (forall j, (12 <= j < 140)%nat -> blocks_of (dsk s3) i2 !! j = all !! j) as Htab.
  { intros j Hj. unfold blocks_of. fold t. destruct (Z.eqb_spec t 0); [done|]. cbn [s3 set_dsk dsk]. rewrite sec_insert, Z.eqb_refl, Ews.
    rewrite lookup_app_r by (rewrite length_take, (io_sectors _ Hi2); lia). rewrite length_take, (io_sectors _ Hi2), lookup_drop. f_equal. lia. }
  assert (forall j, (j < 140)%nat -> blocks_of (dsk s3) i2 !! j =
    if decide (length B <= j < length (B ++ new))%nat then new !! (j - length B)%nat else blocks_of (dsk s) i !! j) as Hall.
  { intros j Hj. destruct (decide (j < 12)%nat) as [H12|H12]; [rewrite blocks_of_direct by done; by apply Hlow|]. rewrite Htab by lia. apply Hhigh. lia. }
  split; cbn [s3 set_dsk dsk cur_part].
  - transitivity (set_dsk (<[t := table_bytes all]> (dsk s2)) (set_dsk (dsk s2) (set_part (cur_part s2) (set_inodes (<[ip := i2]> (inodes s)) s)))); [|done].
    unfold s3. f_equal. apply Hgr.
  - apply Hgr.
  - apply disk_wf_insert; [apply Hgr|done].
  - apply Hgr.
  - intros b. by apply (grown_in_data s s2 ip i2 F).
  - apply (map_extend (cur_part s) _ (dsk s) _ i _ B new F); try done.
    + apply Hgr.
    + intros b. by apply (grown_in_data s s2 ip i2 F).
    + intros b Hb. destruct (grown_fresh _ _ _ _ _ _ Hgr Hroot Hb) as (? & ? & _). done.
    + apply Hgr.
    + lia.
    + apply blocks_eq; [by apply blocks_of_length|lia| | |].
      * intros j Hj. rewrite length_app in Hw. rewrite Hall, decide_False by lia. by apply (map_lookup (cur_part s)).
      * intros j Hj. rewrite Hall, decide_True by lia. done.
      * intros j Hj. rewrite Hall, decide_False by lia. rewrite length_app in Hj. apply (map_zero (cur_part s) _ _ B); [done|lia].
    + right. destruct Hcase as [(? & ?)|(? & ? & ?)]; [left|right]; repeat split; done || lia.
  - by exists S2.
  - intros k. by apply (grown_free s s2 ip i2 F).
  - apply Forall_forall. intros b Hb. apply (grown_fresh s s2 ip i2 F b); [done|done|].
    destruct Hcase as [(_ & ->)|(_ & -> & _)]; [by right|done].
  - fold t. destruct Hcase as [(_ & E)|(_ & _ & E)]; [right|by left]. apply (grown_fresh s s2 ip i2 F t); [done|done|]. rewrite E. left.
  - intros a Ha Hfree Hne. rewrite sec_insert. destruct (Z.eqb_spec a t) as [Ea|_]; [|by apply Hgr].
    exfalso. destruct Hcase as [(_ & E)|(_ & _ & E)]; [|congruence].
    apply Hfree. rewrite Ea. apply (grown_fresh s s2 ip i2 F t); [done|done|]. rewrite E. left.
Qed.

(** Blocks needed: the new ones and the table when it is the first time. *)
Definition needed (u w : nat) : nat := (w - u + (if (u <=? 12) && (12 <? w) then 1 else 0))%nat.

(** The rest of the first situation: direct blocks are enough. *)
Lemma situation_1 s ip i B w v : geometry (cur_part s) -> disk_wf (dsk s) -> root_taken (cur_part s) -> inodes s !! ip = Some i ->
  map_ok (cur_part s) (dsk s) i B -> (1 <= length B < w)%nat -> (w <= 12)%nat -> avail (cur_part s) (w - length B) -> B !! (length B - 1)%nat = Some v ->
  exists s' i' new all, alloc_blocks (w - length B) ip (Z.of_nat (length B)) (<[(length B - 1)%nat := v]> (replicate 140 0)) s = Ok (Some all, s') /\
    extended s s' ip i i' B new /\ length (B ++ new) = w /\ forall j, (length B - 1 <= j < w)%nat -> all !! j = (B ++ new) !! j.
Proof.
  intros Hg Hd Hroot Hi Hm Hu Hw Ha Hv. pose proof (mo_inode _ _ _ _ Hm) as Hok.
  destruct (alloc_blocks_run (w - length B) s ip (length B) (<[(length B - 1)%nat := v]> (replicate 140 0)) i)
    as (s' & new & S' & all & E & Hl & Hgr & P1 & P2); try done; [lia|by rewrite length_insert| |].
  { intros j Hj H12. rewrite <- (blocks_of_direct (dsk s)) by done. apply (map_zero _ _ _ _ _ Hm). lia. }
  exists s', (set_i_sectors S' i), new, all. split; [done|]. split; [apply extend_direct; rewrite ?length_app, ?Hl; done || lia|].
  split; [rewrite length_app; lia|]. intros j Hj. destruct P2 as [_ P2]. rewrite P2. destruct (decide (j = length B - 1)%nat) as [->|Hne].
  - rewrite decide_False, list_lookup_insert_eq, lookup_app_l by (rewrite ?length_replicate; lia). done.
  - rewrite decide_True, lookup_app_r by lia. done.
Qed.

(** The addresses the second and third situation end with. *)
Lemma all_blocks_end (B new all0 all : list Z) w (X : list Z) : length new = (w - length B)%nat -> (length B <= w <= 140)%nat ->
  placed (length B) (w - length B) new all0 all 140 ->
  (forall j, (12 <= j < 140)%nat -> (j < length B \/ w <= j)%nat -> all0 !! j = X !! j) ->
  forall j, (12 <= j < 140)%nat -> all !! j = if decide (length B <= j < length (B ++ new))%nat then new !! (j - length B)%nat else X !! j.
Proof.
  intros Hl Hw [_ P] H0 j Hj. rewrite P, length_app, Hl. destruct (decide (length B <= j < length B + (w - length B))%nat).
  - rewrite decide_True by lia. done.
  - rewrite decide_False by lia. apply H0; lia.
Qed.

(** The rest of the second situation: the table is new. *)
Lemma situation_2 s ip i B w v : geometry (cur_part s) -> disk_wf (dsk s) -> root_taken (cur_part s) -> inodes s !! ip = Some i ->
  map_ok (cur_part s) (dsk s) i B -> (1 <= length B <= 12)%nat -> (12 < w <= 140)%nat -> avail (cur_part s) (S (w - length B)) -> B !! (length B - 1)%nat = Some v ->
  exists s' i' new all, (block_lba ← block_bitmap_alloc;
    if block_lba =? -1 then mret None
    else
      _ ← assertM (table_of i =? 0) "file_write: i_sectors[12] == 0";
      _ ← upd_inode ip (set_sector 12 (u32 block_lba));
      r ← alloc_blocks (w - length B) ip (Z.of_nat (length B)) (<[(length B - 1)%nat := v]> (replicate 140 0));
      match r with
      | None => mret None
      | Some all => _ ← ide_wr (u32 block_lba) (table_bytes all) 1; mret (Some all)
      end) s = Ok (Some all, s') /\
    extended s s' ip i i' B new /\ length (B ++ new) = w /\ forall j, (length B - 1 <= j < w)%nat -> all !! j = (B ++ new) !! j.
Proof.
  intros Hg Hd Hroot Hi Hm Hu Hw Ha Hv. pose proof (mo_inode _ _ _ _ Hm) as Hok.
  pose proof (mo_table _ _ _ _ Hm) as Ht. destruct (Nat.leb_spec (length B) 12); [|lia].
  destruct (geometry_small _ Hg) as (D1 & D2 & D3 & D4). pose proof (ge_table _ Hg) as Hgt.
  destruct (block_alloc_run s _ Hg Ha) as (k & p' & E & Htk & Hfree & Hmax).
  set (b := data_start_lba (sb (cur_part s)) + k) in *. assert (0 <= b <= max_lba) as Hb by (destruct Hfree; lia).
  destruct (in_range_u32 b Hb) as [Eb Hbu].
  set (S1 := <[12%nat := b]> (i_sectors i)). set (i1 := set_i_sectors S1 i).
  set (s1 := set_dsk (dsk s) (set_part p' (set_inodes (<[ip := i1]> (inodes s)) s))).
  assert (grown s s1 ip i1 [b]) as G1 by (by apply grown_one).
  assert (inode_ok i1) as Hok1.
  { destruct Hok as [A1 A2 A3 A4 A5 A6]. split; try done; unfold i1, S1; cbn [set_i_sectors i_sectors]; [by rewrite length_insert|by apply Forall_insert]. }
  assert (avail (cur_part s1) (w - length B)) as Ha1 by (by apply (grown_avail s s1 ip i1 [b])).
  destruct (alloc_blocks_run (w - length B) s1 ip (length B) (<[(length B - 1)%nat := v]> (replicate 140 0)) i1)
    as (s2 & new & S2 & all & E2 & Hl & G2 & P1 & P2); try done; [apply G1|apply lookup_insert_eq|lia|by rewrite length_insert| |].
  { intros j Hj H12. unfold i1, S1; cbn [set_i_sectors i_sectors]. rewrite list_lookup_insert_ne by lia.
    rewrite <- (blocks_of_direct (dsk s)) by done. apply (map_zero _ _ _ _ _ Hm). lia. }
  change (set_i_sectors S2 i1) with (set_i_sectors S2 i) in G2.
  pose proof (grown_trans _ _ _ _ _ _ _ _ G1 G2) as Hgr. cbn [app] in Hgr.
  assert (Forall u32_ok new) as Hnu.
  { apply Forall_forall. intros x Hx. apply (in_data_u32 _ _ (gr_geometry _ _ _ _ _ Hgr)). apply (grown_fresh _ _ _ _ _ _ Hgr Hroot). by right. }
  assert (table_of (set_i_sectors S2 i) = b) as Etab.
  { unfold table_of. cbn [set_i_sectors i_sectors]. destruct P1 as [_ P1]. rewrite P1, decide_False by lia. unfold i1, S1; cbn [set_i_sectors i_sectors].
    rewrite list_lookup_insert_eq by (rewrite (io_sectors i Hok); lia). done. }
  assert (in_data (cur_part s) v) as Hvd by (eapply Forall_lookup_1; [apply (mo_data _ _ _ _ Hm)|done]).
  destruct (extend_indirect s s2 ip i S2 B new (b :: new) all) as [Ewr Hext]; try done.
  - by apply (inode_ok_placed i1 S2 (length B) (w - length B) new 12).
  - rewrite length_app. lia.
  - destruct P2 as [P2 _]. by rewrite P2, length_insert.
  - eapply placed_u32; [exact P2|done|]. apply Forall_insert; [|by apply (in_data_u32 (cur_part s))]. apply Forall_replicate. unfold u32_ok. lia.
  - intros j Hj. destruct P1 as [_ P1]. rewrite P1, length_app, Hl. destruct (decide (length B <= j < length B + (w - length B))%nat).
    + rewrite decide_True by lia. done.
    + rewrite decide_False by lia. unfold i1, S1; cbn [set_i_sectors i_sectors]. rewrite list_lookup_insert_ne by lia. by rewrite blocks_of_direct.
  - apply (all_blocks_end B new (<[(length B - 1)%nat := v]> (replicate 140 0)) all w (blocks_of (dsk s) i)); try done; [lia|].
    intros j Hj Hor. rewrite list_lookup_insert_ne, lookup_replicate_2 by lia. symmetry. apply (map_zero _ _ _ _ _ Hm). lia.
  - left. rewrite Etab. split; [lia|done].
  - rewrite Etab in Ewr, Hext. eexists _, _, new, all. split; [|split; [exact Hext|split; [rewrite length_app; lia|]]].
    + mrun E. destruct (Z.eqb_spec b (-1)); [lia|]. erewrite mbindM_Ok by (apply assertM_run; by rewrite Ht).
      assert (upd_inode ip (set_sector 12 (u32 b)) (set_part p' s) = Ok (tt, s1)) as Eup.
      { unfold upd_inode. mrunc (get_inode_run (set_part p' s) ip i Hi). rewrite Eb. by destruct s. }
      mrun Eup. mrun E2. rewrite Eb. mrun Ewr. done.
    + intros j Hj. destruct P2 as [_ P2]. rewrite P2. destruct (decide (j = length B - 1)%nat) as [->|Hne].
      * rewrite decide_False, list_lookup_insert_eq, lookup_app_l by (rewrite ?length_replicate; lia). done.
      * rewrite decide_True, lookup_app_r by lia. done.
Qed.

(** The rest of the third situation: the table exists. *)
Lemma situation_3 s ip i B w : geometry (cur_part s) -> disk_wf (dsk s) -> root_taken (cur_part s) -> inodes s !! ip = Some i ->
  map_ok (cur_part s) (dsk s) i B -> (12 < length B < w)%nat -> (w <= 140)%nat -> avail (cur_part s) (w - length B) ->
  exists s' i' new all, (all ← read_table (table_of i) (replicate 140 0);
      r ← alloc_blocks (w - length B) ip (Z.of_nat (length B)) all;
      match r with
      | None => mret None
      | Some all => _ ← ide_wr (table_of i) (table_bytes all) 1; mret (Some all)
      end) s = Ok (Some all, s') /\
    extended s s' ip i i' B new /\ length (B ++ new) = w /\ forall j, (length B - 1 <= j < w)%nat -> all !! j = (B ++ new) !! j.
Proof.
  intros Hg Hd Hroot Hi Hm Hu Hw Ha. pose proof (mo_inode _ _ _ _ Hm) as Hok.
  pose proof (mo_table _ _ _ _ Hm) as Ht. destruct (Nat.leb_spec (length B) 12); [lia|]. destruct (in_data_range _ _ Hg Ht) as [Htr Ht0].
  destruct (read_table_run s i (replicate 140 0) Hok (length_replicate _ _) Ht0 Htr) as (all0 & E0 & Hl0 & Hj0).
  destruct (alloc_blocks_run (w - length B) s ip (length B) all0 i)
    as (s2 & new & S2 & all & E2 & Hl & Hgr & P1 & P2); try done; [lia|lia|].
  assert (S2 = i_sectors i) as ->.
  { apply list_eq. intros j. destruct P1 as [_ P1]. rewrite P1, decide_False by lia. done. }
  assert (set_i_sectors (i_sectors i) i = i) as Ei by (by destruct i).
  assert (Forall u32_ok new) as Hnu.
  { apply Forall_forall. intros x Hx. apply (in_data_u32 _ _ (gr_geometry _ _ _ _ _ Hgr)). by apply (grown_fresh _ _ _ _ _ _ Hgr Hroot). }
  assert (Forall u32_ok (blocks_of (dsk s) i)) as Hbu.
  { rewrite (mo_blocks _ _ _ _ Hm). apply Forall_app. split; [|apply Forall_replicate; unfold u32_ok; lia].
    eapply Forall_impl; [apply (mo_data _ _ _ _ Hm)|]. intros b. by apply in_data_u32. }
  destruct (extend_indirect s s2 ip i (i_sectors i) B new new all) as [Ewr Hext]; try done.
  - by rewrite Ei.
  - rewrite length_app. lia.
  - destruct P2 as [P2 _]. by rewrite P2.
  - eapply placed_u32; [exact P2|done|]. apply Forall_lookup. intros j v Hv. rewrite Hj0 in Hv. case_decide.
    + apply lookup_replicate in Hv as [-> _]. unfold u32_ok. lia.
    + by eapply Forall_lookup in Hv.
  - intros j Hj. rewrite decide_False by (rewrite length_app; lia). by rewrite blocks_of_direct.
  - apply (all_blocks_end B new all0 all w (blocks_of (dsk s) i)); try done; [lia|].
    intros j Hj _. rewrite Hj0, decide_False by lia. done.
  - right. rewrite Ei. done.
  - rewrite Ei in Ewr, Hext. eexists _, _, new, all. split; [|split; [exact Hext|split; [rewrite length_app; lia|]]].
    + mrun E0. mrun E2. mrun Ewr. done.
    + intros j Hj. destruct P2 as [_ P2]. rewrite P2. destruct (decide (j = length B - 1)%nat) as [->|Hne].
      * rewrite decide_False, Hj0, decide_False, lookup_app_l by lia. apply (map_lookup _ _ _ _ _ Hm). lia.
      * rewrite decide_True, lookup_app_r by lia. done.
Qed.

Lemma blocks_for_write_run s ip i B w : geometry (cur_part s) -> disk_wf (dsk s) -> root_taken (cur_part s) -> inodes s !! ip = Some i ->
  map_ok (cur_part s) (dsk s) i B -> (1 <= length B <= w)%nat -> (w <= 140)%nat -> avail (cur_part s) (needed (length B) w) ->
  exists s' i' new all, blocks_for_write ip (Z.of_nat (length B)) (Z.of_nat w) (replicate 140 0) s = Ok (Some all, s') /\
    extended s s' ip i i' B new /\ length (B ++ new) = w /\
    forall j, (length B - 1 <= j < w)%nat -> all !! j = (B ++ new) !! j.
Proof.
  intros Hg Hd Hroot Hi Hm Hu Hw Ha. pose proof (mo_inode _ _ _ _ Hm) as Hok. unfold blocks_for_write.
  rewrite (wrapu_zero_sub (Z.of_nat w) (Z.of_nat (length B))) by (change (2 ^ 32) with 4294967296; lia).
  mrun (get_inode_run s ip i Hi). rewrite (liftO_bind _ _ _ _ (aget_table i Hok)).
  pose proof (mo_table _ _ _ _ Hm) as Ht.
  assert (forall j, (j < length B)%nat -> (j < 12)%nat -> i_sectors i !! j = B !! j) as Hdir.
  { intros j Hj H12. rewrite <- (map_lookup _ _ _ _ _ Hm Hj). by rewrite blocks_of_direct. }
  destruct (lookup_lt_is_Some_2 B (length B - 1)) as [v Hv]; [lia|].
  assert (forall n, (n + length B <= 140)%nat -> forall j, (length B <= j < length B + n)%nat -> (j < 12)%nat -> i_sectors i !! j = Some 0) as Hzero.
  { intros n Hn j Hj H12. rewrite <- (blocks_of_direct (dsk s)) by done. apply (map_zero _ _ _ _ _ Hm). lia. }
  destruct (Z.eqb_spec (Z.of_nat w) (Z.of_nat (length B))) as [Ew|Ew].
  - destruct (Z.leb_spec (Z.of_nat (length B)) 12) as [H12|H12].
    + mrun (last_used_run s ip i (length B) (replicate 140 0) v Hi ltac:(lia) ltac:(rewrite Hdir by lia; done) (length_replicate _ _)).
      exists s, i, [], (<[(length B - 1)%nat := v]> (replicate 140 0)). split; [done|]. split; [by apply extended_refl|].
      rewrite app_nil_r. split; [lia|]. intros j Hj. assert (j = length B - 1)%nat as -> by lia. rewrite Hv. apply list_lookup_insert_eq. rewrite length_replicate. lia.
    + destruct (Nat.leb_spec (length B) 12); [lia|]. destruct (in_data_range _ _ Hg Ht) as [Htr Ht0].
      destruct (read_table_run s i (replicate 140 0) Hok (length_replicate _ _) Ht0 Htr) as (all & E & _ & Hj).
      erewrite mbindM_Ok by (apply assertM_run; by destruct (Z.eqb_spec (table_of i) 0)). mrun E.
      exists s, i, [], all. split; [done|]. split; [by apply extended_refl|]. rewrite app_nil_r. split; [lia|].
      intros j Hjr. rewrite Hj, decide_False by lia. apply (map_lookup _ _ _ _ _ Hm). lia.
  - destruct (Z.leb_spec (Z.of_nat w) 12) as [H12|H12].
    + rewrite (liftO_bind _ v) by (apply aget_Ok; [lia|]; replace (Z.to_nat (Z.of_nat (length B) - 1)) with (length B - 1)%nat by lia; rewrite Hdir by lia; done).
      assert (v <> 0) as Hv0 by (apply (in_data_range (cur_part s)); [done|]; eapply Forall_lookup_1; [apply (mo_data _ _ _ _ Hm)|done]).
      erewrite mbindM_Ok by (apply assertM_run; by destruct (Z.eqb_spec v 0)).
      mrun (last_used_run s ip i (length B) (replicate 140 0) v Hi ltac:(lia) ltac:(rewrite Hdir by lia; done) (length_replicate _ _)).
      replace (Z.to_nat (Z.of_nat w - Z.of_nat (length B))) with (w - length B)%nat by lia.
      apply situation_1; try done; [lia|lia|]. unfold needed in Ha. destruct (Nat.leb_spec (length B) 12), (Nat.ltb_spec 12 w); try lia. by rewrite Nat.add_0_r in Ha.
    + replace (Z.to_nat (Z.of_nat w - Z.of_nat (length B))) with (w - length B)%nat by lia. unfold needed in Ha.
      destruct (Z.leb_spec (Z.of_nat (length B)) 12).
      * mrun (last_used_run s ip i (length B) (replicate 140 0) v Hi ltac:(lia) ltac:(rewrite Hdir by lia; done) (length_replicate _ _)).
        apply situation_2; try done; [lia|lia|]. destruct (Nat.leb_spec (length B) 12), (Nat.ltb_spec 12 w); try lia. by replace (S (w - length B)) with (w - length B + 1)%nat by lia.
      * destruct (Nat.leb_spec (length B) 12); [lia|]. cbn [andb] in Ha. rewrite Nat.add_0_r in Ha.
        erewrite mbindM_Ok by (apply assertM_run; destruct (in_data_range _ _ Hg Ht) as [_ Ht0]; by destruct (Z.eqb_spec (table_of i) 0)).
        apply situation_3; try done; lia.
Qed.

Lemma extended_sb s s' ip i i' B new : extended s s' ip i i' B new ->
  sb (cur_part s') = sb (cur_part s) /\ in_block_map (cur_part s') = in_block_map (cur_part s).
Proof. intros Hex. destruct (ex_part _ _ _ _ _ _ _ Hex) as (b & E & _). unfold in_block_map. by rewrite E. Qed.

Lemma extended_shape s s' ip i i' B new : extended s s' ip i i' B new ->
  exists d p, s' = set_dsk d (set_part p (set_inodes (<[ip := i']> (inodes s)) s)).
Proof. intros Hex. eexists _, _. apply Hex. Qed.

Lemma extended_trans s s1 s2 ip i i1 i2 B n1 n2 : extended s s1 ip i i1 B n1 -> extended s1 s2 ip i1 i2 (B ++ n1) n2 ->
  extended s s2 ip i i2 B (n1 ++ n2).
Proof.
  intros E1 E2. destruct (extended_sb _ _ _ _ _ _ _ E1) as [Esb Emap].
  destruct E1 as [A1 A2 A3 A4 A5 A6 A7 A8 An A9 A10], E2 as [B1 B2 B3 B4 B5 B6 B7 B8 Bn B9 B10]. rewrite Esb in *. rewrite Emap in *.
  split; try done.
  - transitivity (set_dsk (dsk s2) (set_part (cur_part s2) (set_inodes (<[ip := i2]> (inodes s1)) s1))); [done|].
    rewrite A1. cbn. by rewrite insert_insert_eq.
  - destruct A4 as (b1 & Eb1 & L1), B4 as (b2 & Eb2 & L2). exists b2. rewrite Eb2, Eb1. rewrite Eb1 in L2. cbn in L2 |- *. split; [done|congruence].
  - auto.
  - by rewrite app_assoc.
  - destruct A7 as (S1 & ->), B7 as (S2 & ->). by exists S2.
  - auto.
  - apply Forall_app. split; [done|]. eapply Forall_impl; [exact Bn|]. intros b. apply A8.
  - destruct B9 as [E|Hf]; [rewrite E; done|]. right. by apply A8.
  - intros a H1 H2 H3. rewrite B10; [by apply A10|done|intros Hf; by apply H2, A8|].
    destruct A9 as [->|Hf]; [done|]. by intros ->.
Qed.

Lemma first_block_run s ip i B n : geometry (cur_part s) -> disk_wf (dsk s) -> root_taken (cur_part s) -> inodes s !! ip = Some i ->
  map_ok (cur_part s) (dsk s) i B -> (B = [] -> avail (cur_part s) (S n)) -> (B <> [] -> avail (cur_part s) n) ->
  exists s' i' new, first_block ip s = Ok (true, s') /\ extended s s' ip i i' B new /\ avail (cur_part s') n /\
    length (B ++ new) = Nat.max 1 (length B).
Proof.
  intros Hg Hd Hroot Hi Hm Ha Ha'. pose proof (mo_inode _ _ _ _ Hm) as Hok. unfold first_block. mrun (get_inode_run s ip i Hi).
  destruct (aget_in_range (i_sectors i) 0) as (b0 & Eb0 & Eb0'); [rewrite (io_sectors i Hok); lia|]. rewrite (liftO_bind _ _ _ _ Eb0).
  assert (blocks_of (dsk s) i !! 0%nat = Some b0) as Ebl by (rewrite blocks_of_direct by (done || lia); exact Eb0').
  destruct B as [|b B].
  - rewrite (map_zero _ _ _ _ 0 Hm) in Ebl by (cbn; lia). injection Ebl as <-. cbn [Z.eqb].
    destruct (geometry_small _ Hg) as (D1 & D2 & D3 & D4). pose proof (ge_table _ Hg) as Hgt.
    destruct (block_alloc_run s n Hg (Ha eq_refl)) as (k & p' & E & Htk & Hfree & Hmax).
    set (b := data_start_lba (sb (cur_part s)) + k) in *. assert (0 <= b <= max_lba) as Hb by (destruct Hfree; lia).
    destruct (in_range_u32 b Hb) as [Eb Hbu]. set (S1 := <[0%nat := b]> (i_sectors i)).
    set (s1 := set_part p' (set_inodes (<[ip := set_i_sectors S1 i]> (inodes s)) s)).
    assert (sb (cur_part s1) = sb (cur_part s)) as Esb by (destruct Htk as (bb & -> & _); done).
    destruct (block_sync_run s1 k) as (d1 & Es & Hd1 & Hout & _).
    { by apply (took_geometry (cur_part s) p' k). }
    { done. }
    { destruct Htk as (bb & -> & _ & Hl & _). cbn. unfold nbits. rewrite Hl. apply Hfree. }
    assert (grown s (set_dsk d1 s1) ip (set_i_sectors S1 i) [b]) as G1.
    { apply grown_one; try done. intros a Hna. rewrite Hout; [done|]. unfold in_block_map. by rewrite Esb. }
    exists (set_dsk d1 s1), (set_i_sectors S1 i), [b]. split; [|split; [|split; [|done]]].
    + mrun E. destruct (Z.eqb_spec b (-1)); [lia|]. rewrite Eb. unfold put_inode. rewrite modS_bind, getS_bind. change (set_inodes _ _) with s1.
      rewrite Esb. replace (b - data_start_lba (sb (cur_part s))) with k by (unfold b; lia). cbv zeta.
      rewrite (wrapu_small 32 k) by (rewrite max_lba_value in Hmax; change (2 ^ 32) with 4294967296; destruct Hfree; lia).
      assert (k <> 0) by (intros ->; destruct Hfree as [_ Hf]; unfold root_taken in Hroot; congruence).
      erewrite mbindM_Ok by (apply assertM_run; by destruct (Z.eqb_spec k 0)). mrun Es. done.
    + apply extend_direct; try done; [|cbn; lia]. apply (placed_cons 0 0 b [] (i_sectors i) S1 S1 12); [rewrite (io_sectors i Hok); lia|done|apply placed_nil].
    + apply (grown_avail s _ ip (set_i_sectors S1 i) [b]); [done|by apply Ha].
  - rewrite (map_lookup _ _ _ _ 0 Hm) in Ebl by (cbn; lia). injection Ebl as <-.
    assert (b <> 0) by (apply (in_data_range (cur_part s)); [done|]; by pose proof (mo_data _ _ _ _ Hm) as [? _]%Forall_cons).
    destruct (Z.eqb_spec b 0); [done|]. exists s, i, []. split; [done|]. split; [by apply extended_refl|]. split; [by apply Ha'|].
    rewrite app_nil_r. cbn [length]. lia.
Qed.

(** ** Sectors outside the data area *)

Lemma in_table_region p a : geometry p -> in_table p a -> ~ in_block_map p a /\ 0 < a < data_start_lba (sb p).
Proof.
  intros [(? & ? & ?) (? & ?) ? ? ? ? ? ? ?] [Ha1 Ha2]. unfold in_block_map. split; [|lia]. intros [? ?]. lia.
Qed.

Lemma inode_at_ext s s' m : sb (cur_part s') = sb (cur_part s) -> (forall a, in_table (cur_part s) a -> sec (dsk s') a = sec (dsk s) a) ->
  inode_at s' m = inode_at s m.
Proof.
  intros Esb He. unfold inode_at, table. rewrite Esb. do 2 f_equal. apply secs_ext. intros a Ha. apply He. unfold in_table, table_secs in *. lia.
Qed.

Lemma blocks_of_ext d d' i : (table_of i <> 0 -> sec d' (table_of i) = sec d (table_of i)) -> blocks_of d' i = blocks_of d i.
Proof. intros He. unfold blocks_of. destruct (Z.eqb_spec (table_of i) 0); [done|]. by rewrite He. Qed.

(** A block map survives changes of the disk outside its table, and of the size. *)
Lemma map_ok_disk p d d' i B n : map_ok p d i B -> u32_ok n -> (table_of i <> 0 -> sec d' (table_of i) = sec d (table_of i)) ->
  map_ok p d' (set_i_size n i) B.
Proof.
  intros [[A1 A2 A3 A4 A5 A6] M2 M3 M4 M5 M6] Hn He. split; try done. change (blocks_of d' i = B ++ replicate (140 - length B) 0).
  by rewrite (blocks_of_ext d).
Qed.

(** Copying the data and writing the inode back. *)
Lemma write_data_run {A} s k ip f i B all buf n (rest : M (fs H) A) :
  geometry (cur_part s) -> disk_wf (dsk s) -> aget (file_table s) k = Ok f -> inodes s !! ip = Some i -> i_no i < 4096 ->
  map_ok (cur_part s) (dsk s) i B -> 0 <= n -> length buf = Z.to_nat n -> i_size i + n < 2 ^ 32 -> covers all B (i_size i) n ->
  exists d, (_ ← put_file k (mk_file (u32 (i_size i - 1)) (fd_flag f) (fd_inode f));
     _ ← write_loop (Z.to_nat (n / 512) + 3) k ip all buf true n;
     i ← get_inode ip;
     _ ← inode_sync i;
     rest) s =
    rest (written s k ip (mk_file (i_size i - 1) (fd_flag f) (fd_inode f)) i n d) /\
    disk_wf d /\
    take (Z.to_nat (i_size i + n)) (file_bytes d B) = take (Z.to_nat (i_size i)) (file_bytes (dsk s) B) ++ buf /\
    map_ok (cur_part s) d (set_i_size (i_size i + n) i) B /\
    (forall a, a ∉ B -> ~ in_table (cur_part s) a -> sec d a = sec (dsk s) a) /\
    (forall m, 0 <= m < 4096 -> inode_at (set_dsk d s) m = if m =? i_no i then pure_inode (set_i_size (i_size i + n) i) else inode_at s m).
Proof.
  intros Hg Hd Hf Hi Hno Hm Hn Hbuf Hmax Hcov. set (f1 := mk_file (u32 (i_size i - 1)) (fd_flag f) (fd_inode f)).
  pose proof (mo_inode _ _ _ _ Hm) as Hok. pose proof (io_size i Hok) as [Hs0 _]. pose proof (mo_distinct _ _ _ _ Hm) as [Hnt Hnd]%NoDup_cons.
  assert (forall a, a ∈ B -> ~ in_table (cur_part s) a) as HBt.
  { intros a Ha Ht. pose proof (mo_data _ _ _ _ Hm) as Hdt. rewrite Forall_forall in Hdt. destruct (Hdt a Ha) as [H1 _].
    destruct (in_table_region _ _ Hg Ht) as [_ H2]. lia. }
  destruct (file_write_loop_run (Z.to_nat (n / 512) + 3) (with_file k f1 s) k ip f1 i n buf all B true) as (d1 & E & Hd1 & Hbytes & Hout).
  { by eapply with_file_get. }
  { done. }
  { done. }
  { done. }
  { cbn [f1 fd_pos]. apply wrapu_range. lia. }
  { done. }
  { done. }
  { done. }
  { lia. }
  { done. }
  { by left. }
  { pose proof (spanned_bound (i_size i) n Hs0 Hn). lia. }
  set (i' := set_i_size (i_size i + n) i) in *. set (s1 := written (with_file k f1 s) k ip f1 i n d1) in *.
  assert (inode_ok i') as Hok' by (destruct Hok; split; try done; split; cbn; lia).
  destruct (inode_sync_run s1 i' Hg Hd1 Hok' Hno) as (d2 & E2 & Hd2 & Hout2 & Hat). exists d2.
  assert (forall a, a ∉ B -> ~ in_table (cur_part s) a -> sec d2 a = sec (dsk s) a) as Hframe.
  { intros a Ha Ht. rewrite Hout2 by done. by apply Hout. }
  split; [|split; [done|split; [|split; [|split; [done|]]]]].
  - mrun (put_file_run s k f1 f Hf). mrun E. fold s1.
    assert (inodes s1 !! ip = Some i') as Ei by apply lookup_insert_eq. mrun (get_inode_run s1 ip i' Ei). mrun E2. f_equal.
    unfold s1, written, with_file. cbn. rewrite list_insert_insert_eq. unfold wrapu. by rewrite Zplus_mod_idemp_l.
  - rewrite (file_bytes_ext d1 d2); [|intros b Hb; apply Hout2; by apply HBt]. rewrite Hbytes. f_equal. apply take_ge. lia.
  - apply (map_ok_disk _ (dsk s)); [done|destruct Hok'; done|]. intros Ht0. apply Hframe; [done|]. intros Ht.
    pose proof (mo_table _ _ _ _ Hm) as Htab. destruct (Nat.leb_spec (length B) 12); [done|]. destruct Htab as [H1 _].
    destruct (in_table_region _ _ Hg Ht) as [_ H2]. lia.
  - intros m Hr. change (inode_at (set_dsk d2 s) m) with (inode_at (set_dsk d2 s1) m). rewrite Hat by done.
    change (i_no i') with (i_no i). destruct (m =? i_no i); [done|]. apply inode_at_ext; [done|]. intros a Ht. apply Hout.
    intros Hb. by apply (HBt a).
Qed.

(** The blocks of a file of [n] bytes. *)
Definition sectors_for (n : Z) : nat := S (Z.to_nat (n / 512)).

Lemma file_blocks p d i B : file_ok p d i B -> Nat.max 1 (length B) = sectors_for (i_size i).
Proof.
  intros Hok. rewrite (fo_used _ _ _ _ Hok). unfold used_blocks, sectors_for. destruct (default 0 (i_sectors i !! 0%nat) =? 0) eqn:E0; [|lia].
  assert (B = []) as HB by (apply length_zero_iff_nil; rewrite (fo_used p d i B Hok); unfold used_blocks; by rewrite E0).
  rewrite (fo_empty _ _ _ _ Hok HB). done.
Qed.

Lemma needed_first u w : (1 <= w)%nat -> u = 0%nat -> needed u w = S (needed (Nat.max 1 u) w).
Proof. intros Hw ->. unfold needed. cbn [Nat.max Nat.leb]. cbn [andb]. destruct (12 <? w)%nat; lia. Qed.

Lemma needed_later u w : u <> 0%nat -> needed u w = needed (Nat.max 1 u) w.
Proof. intros Hu. by replace (Nat.max 1 u) with u by lia. Qed.

(** Both allocation steps together. *)
Lemma file_grow_run s ip i B w : geometry (cur_part s) -> disk_wf (dsk s) -> root_taken (cur_part s) -> inodes s !! ip = Some i ->
  map_ok (cur_part s) (dsk s) i B -> (Nat.max 1 (length B) <= w <= 140)%nat -> avail (cur_part s) (needed (length B) w) ->
  exists s1 s' i' new all, first_block ip s = Ok (true, s1) /\
    blocks_for_write ip (Z.of_nat (Nat.max 1 (length B))) (Z.of_nat w) (replicate 140 0) s1 = Ok (Some all, s') /\
    extended s s' ip i i' B new /\ length (B ++ new) = w /\
    forall j, (Nat.max 1 (length B) - 1 <= j < w)%nat -> all !! j = (B ++ new) !! j.
Proof.
  intros Hg Hd Hroot Hi Hm Hw Ha.
  destruct (first_block_run s ip i B (needed (Nat.max 1 (length B)) w)) as (s1 & i1 & n1 & E1 & X1 & Ha1 & Hl1); try done.
  { intros ->. by rewrite <- needed_first by (cbn; lia). }
  { intros HB. rewrite <- needed_later; [done|]. by destruct B. }
  destruct (extended_shape _ _ _ _ _ _ _ X1) as (d1 & p1 & Es1).
  destruct (blocks_for_write_run s1 ip i1 (B ++ n1) w) as (s2 & i2 & n2 & all & E2 & X2 & Hl2 & Hj); rewrite ?Hl1.
  { apply X1. }
  { apply X1. }
  { pose proof (ex_free _ _ _ _ _ _ _ X1) as Hfree. unfold root_taken in *. destruct (bit_used (block_bitmap (cur_part s1)) 0) eqn:E0; [done|].
    destruct (Hfree 0) as [_ ?]; [|congruence]. split; [|done]. pose proof (ge_bmap _ Hg) as (_ & Hb & _). pose proof (ge_blocks _ Hg).
    rewrite Es1. destruct (ex_part _ _ _ _ _ _ _ X1) as (b & Ep & Hlb). rewrite Es1 in Ep. rewrite Ep. unfold nbits. cbn. rewrite Hlb, Hb. lia. }
  { rewrite Es1. apply lookup_insert_eq. }
  { apply X1. }
  { lia. }
  { lia. }
  { done. }
  rewrite Hl1 in E2, Hj. exists s1, s2, i2, (n1 ++ n2), all. split; [done|]. split; [done|]. split; [by apply (extended_trans s s1 s2 ip i i1)|].
  rewrite app_assoc. done.
Qed.

(** What [extended] says about the sectors of others. *)
Lemma extended_old_sectors s s' ip i i' B new a : geometry (cur_part s) -> extended s s' ip i i' B new ->
  in_data (cur_part s) a -> a <> table_of i -> sec (dsk s') a = sec (dsk s) a.
Proof.
  intros Hg X (Ha1 & Ha2 & Ha3) Hne. apply (ex_frame _ _ _ _ _ _ _ X); [| |done].
  - intros [_ Hx]. pose proof (ge_blocks _ Hg). pose proof (ge_inodes _ Hg). pose proof (ge_table _ Hg). lia.
  - intros [_ Hx]. congruence.
Qed.

Lemma extended_inode_table s s' ip i i' B new m : geometry (cur_part s) -> map_ok (cur_part s) (dsk s) i B -> extended s s' ip i i' B new ->
  inode_at s' m = inode_at s m.
Proof.
  intros Hg Hm X. destruct (extended_sb _ _ _ _ _ _ _ X) as [Esb _]. apply inode_at_ext; [done|]. intros a Ht.
  destruct (in_table_region (cur_part s) a Hg Ht) as [Hnb Hlow]. apply (ex_frame _ _ _ _ _ _ _ X); [done| |].
  - intros [[Hz _] _]. lia.
  - pose proof (mo_table _ _ _ _ Hm) as Htab. destruct (length B <=? 12)%nat; [lia|]. destruct Htab as [? _]. lia.
Qed.

(** The block map at its new length makes a file again. *)
Lemma file_ok_sized p d i B : geometry p -> map_ok p d i B -> i_no i < 4096 -> 0 <= i_size i < 71680 ->
  length B = sectors_for (i_size i) -> file_ok p d i B.
Proof.
  intros Hg Hm Hno Hs Hl. destruct B as [|b0 B']; [done|].
  split; [exact Hm| |done|apply Hs|done]. rewrite Hl. unfold used_blocks, sectors_for.
  assert (i_sectors i !! 0%nat = Some b0) as E0.
  { rewrite <- (blocks_of_direct d) by (apply (mo_inode _ _ _ _ Hm) || lia). rewrite (map_lookup _ _ _ _ 0 Hm) by (cbn; lia). done. }
  rewrite E0. cbn [from_option id]. assert (b0 <> 0).
  { apply (in_data_range p); [done|]. by pose proof (mo_data _ _ _ _ Hm) as [? _]%Forall_cons. }
  by destruct (Z.eqb_spec b0 0).
Qed.

(** The blocks a write goes through are those of the file with its new ones. *)
Lemma extended_covers s s' ip i i' B new all n w :
  extended s s' ip i i' B new -> length (B ++ new) = w -> 0 <= i_size i -> 0 <= n -> w = sectors_for (i_size i + n) ->
  Z.of_nat (Nat.max 1 (length B)) = i_size i / 512 + 1 ->
  (forall j, (Nat.max 1 (length B) - 1 <= j < w)%nat -> all !! j = (B ++ new) !! j) -> covers all (B ++ new) (i_size i) n.
Proof.
  intros X Hl Hs Hn Ew Ehas Hall j Hj1 Hj2.
  assert (Z.of_nat j <= (i_size i + n) / 512) by (apply Z.div_le_lower_bound; lia).
  assert (j < w)%nat by (subst w; unfold sectors_for in *; lia).
  destruct (lookup_lt_is_Some_2 (B ++ new) j) as [b Hb]; [lia|]. exists b. rewrite Hall by lia. split; [done|]. split; [done|].
  apply (in_data_range (cur_part s')); [apply X|]. eapply Forall_lookup_1; [apply (mo_data _ _ _ _ (ex_map _ _ _ _ _ _ _ X))|done].
Qed.

(** What a write of [buf] at the end makes of the contents of the file. *)
Lemma extended_contents s s' ip i i' B new d n buf :
  geometry (cur_part s) -> disk_wf (dsk s) -> disk_wf d -> file_ok (cur_part s) (dsk s) i B -> extended s s' ip i i' B new ->
  file_ok (cur_part s') d (set_i_size (i_size i' + n) i') (B ++ new) -> i_size i' = i_size i ->
  take (Z.to_nat (i_size i' + n)) (file_bytes d (B ++ new)) = take (Z.to_nat (i_size i')) (file_bytes (dsk s') (B ++ new)) ++ buf ->
  contents d (set_i_size (i_size i' + n) i') = contents (dsk s) i ++ buf.
Proof.
  intros Hg Hd Hd3 Hfo X Hfo' Esz Hbytes. pose proof (fo_map _ _ _ _ Hfo) as Hm.
  pose proof (mo_data _ _ _ _ Hm) as HdB. pose proof (mo_distinct _ _ _ _ Hm) as [HtB _]%NoDup_cons.
  rewrite (contents_blocks (cur_part s') d _ (B ++ new) Hd3 Hfo'), (contents_blocks (cur_part s) (dsk s) i B Hd Hfo).
  cbn [set_i_size i_size]. rewrite Hbytes, Esz. f_equal. rewrite file_bytes_app.
  rewrite take_app_le by (rewrite file_bytes_length by apply X; by apply (size_blocks (cur_part s) (dsk s))).
  f_equal. apply file_bytes_ext. intros b Hb. apply (extended_old_sectors s s' ip i i' B new); [done|done|by rewrite Forall_forall in HdB; apply HdB|].
  by intros ->.
Qed.

(** A block in use by somebody else is none of the blocks a write touches. *)
Lemma extended_foreign s s' ip i i' B new a :
  geometry (cur_part s) -> extended s s' ip i i' B new -> in_data (cur_part s) a -> a ∉ B ->
  a ∉ B ++ new /\ ~ in_table (cur_part s') a.
Proof.
  intros Hg X (Hlow & _ & Hu') Hn. destruct (extended_sb _ _ _ _ _ _ _ X) as [Esb _]. split.
  - intros [Hx|Hx]%elem_of_app; [done|]. pose proof (ex_new _ _ _ _ _ _ _ X) as Hnew.
    rewrite Forall_forall in Hnew. destruct (Hnew a Hx) as [_ Hu]. congruence.
  - intros Ht. unfold in_table in Ht. rewrite Esb in Ht. apply (in_table_region (cur_part s) a Hg) in Ht as [_ Ht]. lia.
Qed.


End Write.

(** ** An append that opens the second block *)

