(* ===== verification/DirSpec.v ===== *)
(** * What directories hold (fs/dir.c)

    A directory is the sequence of the entries of its blocks; an entry of type
    FT_UNKNOWN is a free place.  [search_dir_entry] is the search in that
    sequence, [sync_dir_entry] puts an entry into the first free place. *)

From S2P Require Import Prelude Bitmap Interrupt DList Disk Layout Inode Path Dir Contents Alloc FileWrite.

(** ** The abstract directory *)

Definition sector_entries (data : list Z) : list dir_entry := (fun k => decode (drop (24 * k) data)) <$> seq 0 entries_per_sec.
(** The entries of the blocks that exist. *)
Definition dir_entries (d : disk) (blocks : list Z) : list dir_entry :=
  concat ((fun b => if b =? 0 then [] else sector_entries (sec d b)) <$> blocks).
Definition live_entries (d : disk) (blocks : list Z) : list dir_entry := filter (fun e => f_type e <> FT_UNKNOWN) (dir_entries d blocks).

(** The name of an entry is the string [n]. *)
Definition named (n : list Z) (e : dir_entry) : bool := bool_decide (take (S (length n)) (filename e) = n ++ [0]).

(** ** Searching *)

Lemma str_same_run n : forall a r, Forall (fun c => c <> 0) n -> (length n < length a)%nat ->
  str_same a (n ++ 0 :: r) = Ok (bool_decide (take (S (length n)) a = n ++ [0])).
Proof.
  induction n as [|c n IH]; intros a r Hn Ha; (destruct a as [|x a]; [cbn in Ha; lia|]); cbn [app str_same length].
  - cbn [take]. destruct (Z.eqb_spec x 0) as [->|Hx]; [by rewrite bool_decide_eq_true_2|]. rewrite bool_decide_eq_false_2; [done|]. by intros [= ->].
  - inversion Hn as [|? ? Hc Hn']; subst. cbn [length] in Ha. cbn [take].
    destruct (Z.eqb_spec x c) as [->|Hx].
    + destruct (Z.eqb_spec c 0); [done|]. rewrite IH by (done || lia). f_equal. apply bool_decide_ext. split; [by intros ->|by intros [= ->]].
    + rewrite bool_decide_eq_false_2; [done|]. by intros [= -> _].
Qed.

Lemma name_buf_term n : (length n < 16)%nat -> name_buf n = n ++ 0 :: replicate (15 - length n) 0.
Proof. intros Hn. unfold name_buf. by replace (16 - length n)%nat with (S (15 - length n)) by lia. Qed.

Lemma named_decode n l : (length n < 16)%nat -> named n (decode l : dir_entry) = bool_decide (take (S (length n)) l = n ++ [0]).
Proof.
  intros Hn. unfold named. cbn [decode dir_entry_Layout dir_entry_of_bytes filename]. rewrite take_take.
  by replace (S (length n) `min` 16)%nat with (S (length n)) by lia.
Qed.

Lemma search_sector_run n k : forall j data, Forall (fun c => c <> 0) n -> (length n < 16)%nat -> length data = 512%nat -> (j + k <= 21)%nat ->
  search_sector k (24 * j) data (name_buf n) = Ok (List.find (named n) ((fun m => decode (drop (24 * m) data)) <$> seq j k)).
Proof.
  induction k as [|k IH]; intros j data Hn Hl Hd Hj; [done|]. cbn [search_sector seq fmap list_fmap List.find].
  rewrite name_buf_term, str_same_run, bind_Ok by (done || rewrite length_drop; lia). rewrite <- name_buf_term by done.
  rewrite named_decode by done. case_bool_decide; [done|].
  replace (24 * j + sizeof_dir_entry)%nat with (24 * S j)%nat by (unfold sizeof_dir_entry; lia). apply IH; done || lia.
Qed.

Section Search.
Context {H : Type} `{HE : Heap H}.
Implicit Types s : fs H.

Lemma find_app {A} (f : A -> bool) l1 l2 : List.find f (l1 ++ l2) = match List.find f l1 with Some x => Some x | None => List.find f l2 end.
Proof. induction l1 as [|x l1 IH]; [done|]. cbn. by destruct (f x). Qed.

Lemma search_blocks_run s buf n bl : Forall (fun c => c <> 0) n -> (length n < 16)%nat -> buf <> NULL -> disk_wf (dsk s) ->
  Forall (fun b => 0 <= b <= max_lba) bl ->
  search_blocks bl buf (name_buf n) s = Ok (List.find (named n) (dir_entries (dsk s) bl), s).
Proof.
  intros Hn Hl Hb Hd. induction bl as [|b bl IH]; intros Hr; [done|]. apply Forall_cons in Hr as [Hb' Hr]. cbn [search_blocks].
  unfold dir_entries. cbn [fmap list_fmap concat]. fold (dir_entries (dsk s) bl). destruct (Z.eqb_spec b 0) as [->|Hb0]; [by rewrite IH|].
  mrun (need_run s buf Hb). mrun (ide_rd_1 s b Hb').
  rewrite (liftO_bind _ _ _ _ (search_sector_run n entries_per_sec 0 _ Hn Hl (sec_length _ _ Hd) ltac:(unfold entries_per_sec; lia))).
  rewrite find_app. fold (sector_entries (sec (dsk s) b)). destruct (List.find (named n) (sector_entries (sec (dsk s) b))); [done|]. by apply IH.
Qed.

Lemma all_blocks_of_run s i : inode_ok i -> 0 <= table_of i <= max_lba -> all_blocks_of i s = Ok (blocks_of (dsk s) i, s).
Proof.
  intros Hi Ht. unfold all_blocks_of. rewrite (liftO_bind _ _ _ _ (aget_table i Hi)). unfold blocks_of.
  destruct (Z.eqb_spec (table_of i) 0); [done|]. mrun (ide_rd_1 s _ Ht). done.
Qed.

(** [pdir] is a directory in memory whose inode is [i], at [ip]. *)
Definition dir_at s (pdir ip : Z) (i : inode) : Prop :=
  exists d, dirs s !! pdir = Some d /\ d_inode d = ip /\ inodes s !! ip = Some i.

Lemma dir_inode_run s pdir ip i : dir_at s pdir ip i -> dir_inode pdir s = Ok ((ip, i), s).
Proof.
  intros (d & Ed & <- & Ei). unfold dir_inode, get_dir. unfold mbind, M_bind. rewrite Ed. unfold get_inode. by rewrite Ei.
Qed.


End Search.

(** ** Adding an entry *)

Lemma sector_entries_lookup data j : (j < 21)%nat -> sector_entries data !! j = Some (decode (drop (24 * j) data)).
Proof. intros Hj. unfold sector_entries, entries_per_sec. rewrite list_lookup_fmap, lookup_seq_lt by done. done. Qed.

Lemma sector_entries_length data : length (sector_entries data) = 21%nat.
Proof. unfold sector_entries. by rewrite length_fmap, length_seq. Qed.

Lemma sector_entries_splice data k e : dir_entry_ok e -> (k < 21)%nat -> length data = 512%nat ->
  sector_entries (splice (24 * k) (encode e) data) = <[k := e]> (sector_entries data).
Proof.
  intros He Hk Hd. assert (length (encode e) = 24%nat) as Hle by (change 24%nat with (@lay_size dir_entry _); by apply encode_length).
  apply list_eq. intros j. destruct (decide (j < 21)%nat) as [Hj|Hj].
  2: { rewrite !lookup_ge_None_2; [done| |]; rewrite ?length_insert, sector_entries_length; lia. }
  rewrite sector_entries_lookup by done. destruct (decide (j = k)) as [->|Hne].
  - rewrite list_lookup_insert_eq by (by rewrite sector_entries_length). f_equal. apply decode_splice; [done|].
    change (@lay_size dir_entry _) with 24%nat. lia.
  - rewrite list_lookup_insert_ne, sector_entries_lookup by done. f_equal.
    rewrite <- (decode_take (drop _ (splice _ _ _))), <- (decode_take (drop _ data)). change (@lay_size dir_entry _) with 24%nat.
    f_equal. change (slice (24 * j) 24 (splice (24 * k) (encode e) data) = slice (24 * j) 24 data). apply slice_splice_ne; rewrite Hle; lia.
Qed.

Lemma f_type_word data k : f_type (decode (drop (24 * k) data) : dir_entry) = word_at (24 * k + 20) data.
Proof. cbn [decode dir_entry_Layout dir_entry_of_bytes f_type]. unfold word_at. by rewrite drop_drop. Qed.

Lemma free_entry_some n : forall j data off, free_entry n (24 * j) data = Some off ->
  exists k, off = (24 * k)%nat /\ (j <= k < j + n)%nat /\ f_type (decode (drop (24 * k) data) : dir_entry) = FT_UNKNOWN.
Proof.
  induction n as [|n IH]; intros j data off; cbn [free_entry]; [done|].
  destruct (Z.eqb_spec (word_at (24 * j + 20) data) FT_UNKNOWN) as [E|_].
  - intros [= <-]. exists j. rewrite f_type_word. split; [done|]. split; [lia|done].
  - replace (24 * j + sizeof_dir_entry)%nat with (24 * S j)%nat by (unfold sizeof_dir_entry; lia). intros (k & ? & ? & ?)%IH. exists k. split; [done|]. split; [lia|done].
Qed.

(** Putting a live entry where a dead one was. *)
Lemma live_insert (l : list dir_entry) k e old : l !! k = Some old -> f_type old = FT_UNKNOWN -> f_type e <> FT_UNKNOWN ->
  filter (fun e => f_type e <> FT_UNKNOWN) (<[k := e]> l) ≡ₚ e :: filter (fun e => f_type e <> FT_UNKNOWN) l.
Proof.
  intros Hk Hold He. rewrite insert_take_drop by (by eapply lookup_lt_Some). rewrite <- (take_drop_middle l k old Hk) at 3.
  rewrite !filter_app, filter_cons_True, filter_cons_False by (done || by intros Hn; apply Hn). by rewrite Permutation_middle.
Qed.

Lemma dir_entries_app d a b : dir_entries d (a ++ b) = dir_entries d a ++ dir_entries d b.
Proof. unfold dir_entries. by rewrite fmap_app, concat_app. Qed.

Lemma dir_entries_ext d d' bl : (forall b, b ∈ bl -> b <> 0 -> sec d' b = sec d b) -> dir_entries d' bl = dir_entries d bl.
Proof.
  intros He. unfold dir_entries. f_equal. apply list_fmap_ext. intros j b Hb. apply list_elem_of_lookup_2 in Hb.
  destruct (Z.eqb_spec b 0); [done|]. by rewrite He.
Qed.

Lemma dir_entries_cons d b bl : dir_entries d (b :: bl) = (if b =? 0 then [] else sector_entries (sec d b)) ++ dir_entries d bl.
Proof. done. Qed.

Lemma dir_entries_zeros d n : dir_entries d (replicate n 0) = [].
Proof. induction n as [|n IH]; [done|]. cbn [replicate]. by rewrite dir_entries_cons, IH. Qed.

(** An empty sector holds no live entry. *)
Lemma zero_sector_dead : filter (fun e => f_type e <> FT_UNKNOWN) (sector_entries (replicate 512 0)) = [].
Proof. vm_compute. reflexivity. Qed.

(** A directory without a table of indirect blocks: its blocks are used ones of
    the data area and distinct. *)
Definition dir_block (p : partition) (b : Z) : Prop :=
  data_start_lba (sb p) <= b <= max_lba /\ b - data_start_lba (sb p) < nbits (block_bitmap p) /\
  bit_used (block_bitmap p) (b - data_start_lba (sb p)) = true.

Record dir_ok (p : partition) (i : inode) : Prop := {
  do_inode : inode_ok i;
  do_no : i_no i < 4096;
  do_table : table_of i = 0;
  do_size : i_size i mod 24 = 0 /\ i_size i + 24 < 2 ^ 32;
  do_blocks : Forall (fun b => b = 0 \/ dir_block p b) (take 12 (i_sectors i));
  do_distinct : NoDup (filter (fun b => b <> 0) (take 12 (i_sectors i)))
}.

Lemma dir_blocks_of p d i : dir_ok p i -> blocks_of d i = take 12 (i_sectors i) ++ replicate 128 0.
Proof. intros Hok. unfold blocks_of. by rewrite (do_table p i Hok). Qed.

Lemma dir_live p d i : dir_ok p i -> live_entries d (blocks_of d i) = live_entries d (take 12 (i_sectors i)).
Proof. intros Hok. unfold live_entries. by rewrite (dir_blocks_of p d i Hok), dir_entries_app, dir_entries_zeros, app_nil_r. Qed.

(** A block that has room for an entry: no block yet, or a free place. *)
Definition has_place (d : disk) (b : Z) : Prop := b = 0 \/ free_entry entries_per_sec 0 (sec d b) <> None.
#[global] Instance has_place_dec d b : Decision (has_place d b).
Proof. unfold has_place. apply _. Defined.

Lemma first_place d bl : Exists (has_place d) bl -> exists pre b post, bl = pre ++ b :: post /\ has_place d b /\ Forall (fun b => ~ has_place d b) pre.
Proof.
  intros He. induction bl as [|b bl IH]; [by inversion He|]. destruct (decide (has_place d b)) as [Hb|Hb].
  - exists [], b, bl. done.
  - apply Exists_cons in He as [He|He]; [done|]. destruct (IH He) as (pre & x & post & -> & Hx & Hpre). exists (b :: pre), x, post.
    split; [done|]. split; [done|]. by constructor.
Qed.

Lemma distinct_split pre b post : NoDup (filter (fun b => b <> 0) (pre ++ b :: post)) -> b <> 0 -> (b ∉ pre) /\ (b ∉ post).
Proof.
  intros Hnd Hb. rewrite filter_app, filter_cons_True in Hnd by done. apply NoDup_app in Hnd as (_ & Hd & [Hn _]%NoDup_cons). split; intros Hin.
  - apply (Hd b); [by apply list_elem_of_filter|left].
  - apply Hn. by apply list_elem_of_filter.
Qed.

(** The entry goes into place [k] of block [b]. *)
Lemma live_write d pre b post k e : disk_wf d -> b <> 0 -> b ∉ pre -> b ∉ post -> dir_entry_ok e -> f_type e <> FT_UNKNOWN ->
  (k < 21)%nat -> f_type (decode (drop (24 * k) (sec d b)) : dir_entry) = FT_UNKNOWN ->
  live_entries (<[b := splice (24 * k) (encode e) (sec d b)]> d) (pre ++ b :: post) ≡ₚ e :: live_entries d (pre ++ b :: post).
Proof.
  intros Hd Hb Hpre Hpost He Ht Hk Hold. unfold live_entries. rewrite !dir_entries_app, !dir_entries_cons.
  destruct (Z.eqb_spec b 0); [done|].
  rewrite (dir_entries_ext d _ pre), (dir_entries_ext d _ post); [|intros x Hx _; rewrite sec_insert; destruct (Z.eqb_spec x b) as [->|]; done..].
  rewrite sec_insert, Z.eqb_refl, sector_entries_splice by (done || by apply sec_length).
  rewrite !filter_app, (live_insert _ k e (decode (drop (24 * k) (sec d b)))); [|by apply sector_entries_lookup|done|done].
  cbn [app]. by rewrite <- Permutation_middle.
Qed.

(** The entry is the first of a new block. *)
Lemma live_new d pre b post e : b <> 0 -> b ∉ pre -> b ∉ post -> dir_entry_ok e -> f_type e <> FT_UNKNOWN ->
  live_entries (<[b := splice 0 (encode e) (replicate 512 0)]> d) (pre ++ b :: post) ≡ₚ e :: live_entries d (pre ++ 0 :: post).
Proof.
  intros Hb Hpre Hpost He Ht. unfold live_entries. rewrite !dir_entries_app, !dir_entries_cons.
  destruct (Z.eqb_spec b 0); [done|]. cbn [Z.eqb app].
  rewrite (dir_entries_ext d _ pre), (dir_entries_ext d _ post); [|intros x Hx _; rewrite sec_insert; destruct (Z.eqb_spec x b) as [->|]; done..].
  rewrite sec_insert, Z.eqb_refl.
  rewrite (sector_entries_splice (replicate 512 0) 0 e He ltac:(lia) eq_refl : sector_entries (splice 0 _ _) = _).
  rewrite !filter_app, (live_insert _ 0 e (decode (drop (24 * 0) (replicate 512 0)))); [|apply sector_entries_lookup; lia|vm_compute; reflexivity|done].
  rewrite zero_sector_dead. cbn [app]. by rewrite <- Permutation_middle.
Qed.

Section Add.
Context {H : Type} `{HE : Heap H}.
Implicit Types s : fs H.

Lemma sync_loop_skip s ip e all rest : forall pre idx, Forall (fun b => ~ has_place (dsk s) b) pre -> Forall (fun b => 0 <= b <= max_lba) pre ->
  sync_loop (pre ++ rest) idx all ip e s = sync_loop rest (idx + Z.of_nat (length pre)) all ip e s.
Proof.
  induction pre as [|b pre IH]; intros idx Hp Hr; cbn [app length]; [by rewrite Z.add_0_r|].
  apply Forall_cons in Hp as [Hb Hp], Hr as [Hb' Hr]. cbn [sync_loop]. destruct (Z.eqb_spec b 0) as [->|Hb0]; [exfalso; apply Hb; by left|].
  mrun (ide_rd_1 s b Hb'). destruct (free_entry entries_per_sec 0 (sec (dsk s) b)) eqn:E; [exfalso; apply Hb; right; by rewrite E|].
  rewrite IH by done. f_equal. lia.
Qed.

(** A block and its bitmap sector for a directory. *)
Lemma alloc_synced_run s n : geometry (cur_part s) -> disk_wf (dsk s) -> avail (cur_part s) (S n) ->
  exists k p' d', alloc_synced s = Ok (data_start_lba (sb (cur_part s)) + k, set_dsk d' (set_part p' s)) /\
    took (cur_part s) p' k /\ free_bit (cur_part s) k /\ data_start_lba (sb (cur_part s)) + k <= max_lba /\ disk_wf d' /\
    (forall a, ~ in_block_map (cur_part s) a -> sec d' a = sec (dsk s) a).
Proof.
  intros Hg Hd Ha. destruct (geometry_small _ Hg) as (D1 & D2 & D3 & D4). pose proof (ge_table _ Hg) as Hgt.
  destruct (block_alloc_run s n Hg Ha) as (k & p' & E & Htk & Hfree & Hmax). rewrite max_lba_value in *. pose proof Hfree as [Hk _].
  assert (sb p' = sb (cur_part s)) as Esb by (destruct Htk as (bb & -> & _); done).
  destruct (block_sync_run (set_part p' s) k) as (d1 & Es & Hd1 & Hout & _).
  { by apply (took_geometry (cur_part s) p' k). }
  { done. }
  { destruct Htk as (bb & -> & _ & Hl & _). cbn. unfold nbits. rewrite Hl. apply Hfree. }
  exists k, p', d1. split; [|split; [done|split; [done|split; [lia|split; [done|]]]]].
  - unfold alloc_synced. mrun E. destruct (Z.eqb_spec (data_start_lba (sb (cur_part s)) + k) (-1)); [lia|]. rewrite getS_bind.
    cbn [cur_part set_part]. rewrite Esb. replace (data_start_lba (sb (cur_part s)) + k - data_start_lba (sb (cur_part s))) with k by lia.
    assert (i32 (u32 k) = k /\ u32 k = k) as [-> Eu].
    { rewrite wrapu_small by (change (2 ^ 32) with 4294967296; lia). split; [|done]. apply wraps_small; [lia|]. change (2 ^ (32 - 1)) with 2147483648. lia. }
    erewrite mbindM_Ok by (apply assertM_run; destruct (Z.eqb_spec k (-1)); [lia|done]). rewrite Eu. mrun Es. done.
  - intros a Hna. apply Hout. unfold in_block_map. cbn [cur_part set_part]. by rewrite Esb.
Qed.

Lemma upd_inode_run s ip i f : inodes s !! ip = Some i -> upd_inode ip f s = Ok (tt, set_inodes (<[ip := f i]> (inodes s)) s).
Proof. intros E. unfold upd_inode. mrun (get_inode_run s ip i E). done. Qed.

(** The state after an entry has been added: disk, inode and block bitmap. *)
Definition entered s (ip : Z) (i' : inode) (d : disk) (p : partition) : fs H :=
  set_inodes (<[ip := i']> (inodes s)) (set_dsk d (set_part p s)).

Lemma dir_block_range p b : geometry p -> dir_block p b -> 0 <= b <= max_lba /\ b <> 0.
Proof. intros Hg [H1 _]. destruct (geometry_small _ Hg) as (? & ? & ? & ?). pose proof (ge_table p Hg). lia. Qed.


Lemma table_insert i j v : (j < 12)%nat -> table_of (set_i_sectors (<[j := v]> (i_sectors i)) i) = table_of i.
Proof. intros Hj. unfold table_of. cbn [set_i_sectors i_sectors]. rewrite list_lookup_insert_ne by lia. done. Qed.

(** The two ways an entry is added, behind the blocks that are full. *)
Lemma add_in_block s ip i e pre b post all idx : geometry (cur_part s) -> disk_wf (dsk s) -> inodes s !! ip = Some i -> dir_ok (cur_part s) i ->
  take 12 (i_sectors i) = pre ++ b :: post -> b <> 0 -> has_place (dsk s) b -> dir_entry_ok e -> f_type e <> FT_UNKNOWN ->
  exists d, (forall rest, sync_loop (b :: rest) idx all ip e s = Ok (true, entered s ip (set_i_size (i_size i + 24) i) d (cur_part s))) /\ disk_wf d /\
    live_entries d (take 12 (i_sectors i)) ≡ₚ e :: live_entries (dsk s) (take 12 (i_sectors i)) /\
    (forall a, a <> b -> sec d a = sec (dsk s) a).
Proof.
  intros Hg Hd Hi Hok HL Hb Hpl He Ht. destruct Hpl as [?|Hpl]; [done|].
  assert (dir_block (cur_part s) b) as Hdb.
  { pose proof (do_blocks _ _ Hok) as Hbl. rewrite HL in Hbl. apply Forall_app in Hbl as [_ [[?|?] _]%Forall_cons]; done. }
  destruct (dir_block_range _ _ Hg Hdb) as [Hbr _].
  pose proof (do_distinct _ _ Hok) as Hnd. rewrite HL in Hnd. destruct (distinct_split _ _ _ Hnd Hb) as [Hpre Hpost].
  destruct (free_entry entries_per_sec 0 (sec (dsk s) b)) as [off|] eqn:E; [|done].
  destruct (free_entry_some entries_per_sec 0 _ off E) as (k & -> & Hk & Hold). unfold entries_per_sec in Hk.
  assert (length (encode e) = 24%nat) as Hle by (change 24%nat with (@lay_size dir_entry _); by apply encode_length).
  exists (<[b := splice (24 * k) (encode e) (sec (dsk s) b)]> (dsk s)).
  assert (length (splice (24 * k) (encode e) (sec (dsk s) b)) = 512%nat) as Hls by (rewrite splice_length; rewrite sec_length by done; lia).
  split; [|split; [by apply disk_wf_insert|split]].
  - intros rest. cbn [sync_loop]. destruct (Z.eqb_spec b 0); [done|]. mrun (ide_rd_1 s b Hbr). rewrite E. mrun (ide_wr_1 s b _ Hbr Hls).
    unfold grow_dir. mrunc (upd_inode_run (set_dsk (<[b := splice (24 * k) (encode e) (sec (dsk s) b)]> (dsk s)) s) ip i (fun i => set_i_size (u32 (i_size i + 24)) i) Hi).
    unfold mret, M_ret. rewrite wrapu_small by (pose proof (io_size i (do_inode _ _ Hok)) as [? _]; destruct (do_size _ _ Hok); lia). unfold entered. by destruct s.
  - rewrite HL. apply live_write; done || lia.
  - intros a Ha. rewrite sec_insert. by destruct (Z.eqb_spec a b).
Qed.

Lemma add_new_block s ip i e pre post all : geometry (cur_part s) -> disk_wf (dsk s) -> inodes s !! ip = Some i -> dir_ok (cur_part s) i ->
  take 12 (i_sectors i) = pre ++ 0 :: post -> dir_entry_ok e -> f_type e <> FT_UNKNOWN -> avail (cur_part s) 1 ->
  exists b d p', let i1 := set_i_sectors (<[length pre := b]> (i_sectors i)) i in
    (forall rest, sync_loop (0 :: rest) (Z.of_nat (length pre)) all ip e s = Ok (true, entered s ip (set_i_size (i_size i + 24) i1) d p')) /\ disk_wf d /\
    took (cur_part s) p' (b - data_start_lba (sb (cur_part s))) /\ free_bit (cur_part s) (b - data_start_lba (sb (cur_part s))) /\ b <= max_lba /\
    live_entries d (pre ++ b :: post) ≡ₚ e :: live_entries (dsk s) (take 12 (i_sectors i)) /\
    (forall a, a <> b -> ~ in_block_map (cur_part s) a -> sec d a = sec (dsk s) a).
Proof.
  intros Hg Hd Hi Hok HL He Ht Ha. destruct (geometry_small _ Hg) as (D1 & D2 & D3 & D4). pose proof (ge_table _ Hg) as Hgt.
  destruct (alloc_synced_run s 0 Hg Hd Ha) as (k & p' & d1 & E & Htk & Hfree & Hmax & Hd1 & Hout).
  set (b := data_start_lba (sb (cur_part s)) + k) in *. assert (0 <= b <= max_lba) as Hb by (destruct Hfree; lia).
  destruct (in_range_u32 b Hb) as [Eb _]. assert (b <> 0) as Hb0 by (destruct Hfree; lia).
  assert (length pre < 12)%nat as Hidx.
  { assert (length (take 12 (i_sectors i)) = 12%nat) as Hl by (rewrite length_take, (io_sectors i (do_inode _ _ Hok)); lia).
    rewrite HL, length_app in Hl. cbn in Hl. lia. }
  assert (forall a, a ∈ pre ++ 0 :: post -> a <> b /\ (a <> 0 -> ~ in_block_map (cur_part s) a)) as Hothers.
  { intros a Hin. pose proof (do_blocks _ _ Hok) as Hbl. rewrite HL, Forall_forall in Hbl. destruct (Hbl a Hin) as [->|(Hr & _ & Hu)]; [done|].
    split; [|intros _ [_ Hx]; pose proof (ge_blocks _ Hg); pose proof (ge_inodes _ Hg); lia].
    intros ->. unfold b in Hu. replace (data_start_lba (sb (cur_part s)) + k - data_start_lba (sb (cur_part s))) with k in Hu by lia. destruct Hfree. congruence. }
  set (x := splice 0 (encode e) (replicate 512 0)).
  assert (length (encode e) = 24%nat) as Hle by (change 24%nat with (@lay_size dir_entry _); by apply encode_length).
  assert (length x = 512%nat) as Hx by (unfold x; rewrite splice_length; rewrite length_replicate; lia).
  exists b, (<[b := x]> d1), p'. cbv zeta. replace (b - data_start_lba (sb (cur_part s))) with k by (unfold b; lia).
  split; [|split; [by apply disk_wf_insert|split; [done|split; [done|split; [done|split]]]]].
  - intros rest. cbn [sync_loop Z.eqb]. set (i1 := set_i_sectors (<[length pre := b]> (i_sectors i)) i).
    assert (new_dir_block ip (Z.of_nat (length pre)) all s = Ok (Some b, set_inodes (<[ip := i1]> (inodes s)) (set_dsk d1 (set_part p' s)))) as En.
    { unfold new_dir_block. mrun E. destruct (Z.eqb_spec b (-1)); [lia|]. destruct (Z.ltb_spec (Z.of_nat (length pre)) 12); [|lia].
      rewrite Eb. mrunc (upd_inode_run (set_dsk d1 (set_part p' s)) ip i (set_sector (Z.of_nat (length pre)) b) Hi). unfold set_sector. by rewrite Nat2Z.id. }
    mrun En. mrunc (ide_wr_1 (set_inodes (<[ip := i1]> (inodes s)) (set_dsk d1 (set_part p' s))) b x Hb Hx). unfold grow_dir.
    mrunc (upd_inode_run (set_dsk (<[b := x]> d1) (set_inodes (<[ip := i1]> (inodes s)) (set_dsk d1 (set_part p' s)))) ip i1
      (fun i => set_i_size (u32 (i_size i + 24)) i) (lookup_insert_eq _ _ _)).
    unfold mret, M_ret. cbn [i_size i1 set_i_sectors]. rewrite wrapu_small by (pose proof (io_size i (do_inode _ _ Hok)) as [? _]; destruct (do_size _ _ Hok); lia).
    unfold entered, set_inodes, set_dsk, set_part. cbn. rewrite insert_insert_eq. done.
  - unfold x. rewrite live_new; [|done|by intros Hin; destruct (Hothers b); [apply elem_of_app; by left|]
      |by intros Hin; destruct (Hothers b); [apply elem_of_app; right; by right|]|done|done].
    rewrite HL. unfold live_entries. by rewrite (dir_entries_ext (dsk s) d1) by (intros a Hin Ha0; apply Hout; by apply Hothers).
  - intros a Hne Hna. rewrite sec_insert. destruct (Z.eqb_spec a b); [done|]. by apply Hout.
Qed.

Lemma dir_block_took p p' k b : took p p' k -> dir_block p b -> dir_block p' b.
Proof.
  intros (bb & -> & _ & Hl & _ & Hb) (H1 & H2 & H3). unfold dir_block, nbits in *. cbn [set_block_bitmap sb block_bitmap]. rewrite Hl.
  split; [done|]. split; [done|]. rewrite Hb by lia. by destruct (_ =? k).
Qed.

Lemma dir_ok_grow p i : dir_ok p i -> dir_ok p (set_i_size (i_size i + 24) i) \/ 2 ^ 32 <= i_size i + 48.
Proof.
  intros [[A1 A2 A3 A4 A5 A6] D2 D3 D4 D5 D6]. destruct (decide (2 ^ 32 <= i_size i + 48)) as [|Hs]; [by right|left].
  destruct A2 as [? _], D4 as [D4 _]. split; try done.
  - split; try done. cbn. split; lia.
  - cbn [set_i_size i_size]. split; [|lia]. rewrite <- Zplus_mod_idemp_r. change (24 mod 24) with 0. by rewrite Z.add_0_r.
Qed.

Lemma dir_ok_new p p' i b pre post : geometry p -> dir_ok p i -> take 12 (i_sectors i) = pre ++ 0 :: post ->
  took p p' (b - data_start_lba (sb p)) -> free_bit p (b - data_start_lba (sb p)) -> b <= max_lba ->
  take 12 (<[length pre := b]> (i_sectors i)) = pre ++ b :: post /\ dir_ok p' (set_i_sectors (<[length pre := b]> (i_sectors i)) i).
Proof.
  intros Hg Hok HL Htk [Hfr Hfu] Hb. destruct (geometry_small _ Hg) as (D1 & D2 & D3 & D4). pose proof (ge_table _ Hg) as Hgt.
  assert (length pre < 12)%nat as Hidx.
  { assert (length (take 12 (i_sectors i)) = 12%nat) as Hl by (rewrite length_take, (io_sectors i (do_inode _ _ Hok)); lia).
    rewrite HL, length_app in Hl. cbn in Hl. lia. }
  assert (take 12 (<[length pre := b]> (i_sectors i)) = pre ++ b :: post) as HL'.
  { rewrite take_insert_lt by done. rewrite HL. rewrite <- (Nat.add_0_r (length pre)). by rewrite insert_app_r. }
  split; [done|]. destruct Hok as [[A1 A2 A3 A4 A5 A6] O2 O3 O4 O5 O6].
  split; cbn [set_i_sectors i_sectors i_no i_size]; try done.
  - split; cbn [set_i_sectors i_sectors i_no i_size i_open_cnts write_deny]; try done; [by rewrite length_insert|].
    apply Forall_insert; [done|]. apply in_range_u32. lia.
  - rewrite table_insert by done. done.
  - rewrite HL'. rewrite HL in O5. apply Forall_app in O5 as [O5a [_ O5b]%Forall_cons].
    assert (forall l, Forall (fun b => b = 0 \/ dir_block p b) l -> Forall (fun b => b = 0 \/ dir_block p' b) l) as Hmono.
    { intros l Hl. eapply Forall_impl; [exact Hl|]. intros x [?|?]; [by left|right]. by eapply dir_block_took. }
    apply Forall_app. split; [by apply Hmono|]. constructor; [|by apply Hmono]. right.
    destruct Htk as (bb & -> & _ & Hl & _ & Hbb). unfold dir_block, nbits in *. cbn [set_block_bitmap sb block_bitmap]. rewrite Hl.
    split; [lia|]. split; [lia|]. rewrite Hbb by lia. by rewrite Z.eqb_refl.
  - rewrite HL'. rewrite HL in O5, O6. rewrite filter_app, filter_cons_False in O6 by (by intros Hn).
    rewrite filter_app, filter_cons_True by lia. rewrite <- Permutation_middle. apply NoDup_cons. split; [|done].
    rewrite <- filter_app. intros [_ Hin]%list_elem_of_filter. rewrite Forall_forall in O5.
    destruct (O5 b) as [->|(_ & _ & Hu)]; [|lia|congruence]. apply elem_of_app in Hin as [?|?]; apply elem_of_app; [by left|right; by right].
Qed.


End Add.

(** ** The root directory of a fresh partition *)

Definition demo_sector : list Z :=
  splice 24 (encode (mk_dirent (46 :: 46 :: replicate 14 0) 0 FT_DIRECTORY))
    (splice 0 (encode (mk_dirent (46 :: replicate 15 0) 0 FT_DIRECTORY)) (replicate 512 0)).
Definition demo_root_inode : inode := mk_inode 0 48 1 0 (612 :: replicate 12 0).
Definition demo_dir_fs : fs bump :=
  mk_fs {[612 := demo_sector]} demo_part {[100 := demo_root_inode]} {[root_dir := mk_dir 100 0 (replicate 512 0)]} demo_heap
    (replicate 32 (mk_file 0 0 NULL)) ([0; 1; 2] ++ replicate 5 (-1)) 0 true 0x202.
(** An entry "a" for inode 7. *)
Definition demo_entry : dir_entry := mk_dirent (97 :: replicate 15 0) 7 FT_REGULAR.

Lemma demo_dir_at : dir_at demo_dir_fs root_dir 100 demo_root_inode.
Proof. exists (mk_dir 100 0 (replicate 512 0)). repeat split; reflexivity. Qed.

Lemma demo_dir_wf : disk_wf (dsk demo_dir_fs).
Proof. intros a x E. cbn [demo_dir_fs dsk] in E. apply lookup_singleton_Some in E as [_ <-]. vm_compute. reflexivity. Qed.

Lemma demo_root_ok : inode_ok demo_root_inode.
Proof. by apply inode_ok_intro. Qed.

Lemma demo_dir_ok : dir_ok demo_part demo_root_inode.
Proof.
  split; [apply demo_root_ok|done|done|done| |].
  - constructor; [right; split; [rewrite max_lba_value; cbn; lia|split; reflexivity]|]. repeat constructor.
  - vm_compute. repeat constructor. apply not_elem_of_nil.
Qed.


