(* ===== verification/Fs.v ===== *)
(** * System calls of the file system (fs/fs.c, shell/pipe.c)

    Path search and the calls on files, descriptors and directories.  Rings of
    pipes, the console and the keyboard are other components; the calls that
    reach them go through the class [Devices].  What is printed is left out. *)

From S2P Require Import Prelude Bitmap Interrupt DList Disk Layout Inode Path Dir File.

(** The components behind descriptors that are not files. *)
Class Devices (H : Type) : Type := {
  dev_get_page : M (fs H) Z;                       (* get_kernel_pages(1) *)
  dev_free_page : Z -> M (fs H) ();                (* mfree_page(PF_KERNEL, p, 1) *)
  dev_ioqueue_init : Z -> M (fs H) ();             (* ioqueue_init *)
  dev_ring_write : Z -> list Z -> Z -> M (fs H) Z; (* the body of pipe_write on a ring *)
  dev_ring_read : Z -> Z -> M (fs H) (Z * list Z); (* the body of pipe_read *)
  dev_printk : list Z -> M (fs H) ();
  dev_getchar : M (fs H) Z                         (* ioq_getchar(&kbd_buf) *)
}.

Section Calls.
Context {H : Type} `{HE : Heap H} `{DE : Devices H}.
Implicit Types s : fs H.

Definition MAX_PATH_LEN : Z := 512.

(** The string in a buffer. *)
Fixpoint c_str (buf : list Z) : outcome (list Z) :=
  match buf with
  | [] => Fault
  | c :: buf' => if c =? 0 then Ok [] else l ← c_str buf'; Ok (c :: l)
  end.

(** [strcat] onto a string in an array of [size] bytes. *)
Definition cat_into (size : Z) (a b : list Z) : outcome (list Z) :=
  if Z.of_nat (length a + length b) <? size then Ok (a ++ b) else Fault.

(** ** search_file *)

(** [struct path_search_record]. *)
Record path_search_record : Type := mk_record { searched_path : list Z; parent_dir : Z; file_type : Z }.

(** The loop over the names.  [dir_e] is [None] as long as it is not set. *)
Fixpoint search_loop (fuel : nat) (sub_path : option (list Z)) (name : list Z) (parent_inode_no : Z)
    (dir_e : option dir_entry) (r : path_search_record) : M (fs H) (Z * path_search_record) :=
  match fuel with
  | O => fun _ => NoFuel
  | S fuel' =>
      c ← liftO (aget name 0);
      if c =? 0 then
        _ ← dir_close (parent_dir r);
        pd ← dir_open parent_inode_no;
        match dir_e with
        | Some e => mret (de_i_no e, mk_record (searched_path r) pd FT_DIRECTORY)
        | None => faultM
        end
      else
        _ ← assertM (Z.of_nat (length (searched_path r)) <? 512) "search_file: strlen(searched_path) < 512";
        nm ← liftO (c_str name);
        path ← liftO (cat_into MAX_PATH_LEN (searched_path r) (slash :: nm));
        found ← search_dir_entry (parent_dir r) name;
        match found with
        | None => mret (-1, mk_record path (parent_dir r) (file_type r))
        | Some e =>
            '(sub_path, name) ← liftO (next_name sub_path);
            if f_type e =? FT_DIRECTORY then
              '(_, pi) ← dir_inode (parent_dir r);
              _ ← dir_close (parent_dir r);
              pd ← dir_open (de_i_no e);
              search_loop fuel' sub_path name (i_no pi) (Some e) (mk_record path pd (file_type r))
            else if f_type e =? FT_REGULAR then mret (de_i_no e, mk_record path (parent_dir r) FT_REGULAR)
            else search_loop fuel' sub_path name parent_inode_no (Some e) (mk_record path (parent_dir r) (file_type r))
        end
  end.

Definition is_root (pathname : list Z) : bool :=
  bool_decide (pathname = [slash]) || bool_decide (pathname = [slash; 46]) || bool_decide (pathname = [slash; 46; 46]).

(** The record of the callers is zeroed. *)
Definition search_file (pathname : list Z) : M (fs H) (Z * path_search_record) :=
  if is_root pathname then mret (0, mk_record [] root_dir FT_DIRECTORY)
  else
    let path_len := Z.of_nat (length pathname) in
    _ ← assertM ((hd 0 pathname =? slash) && (1 <? path_len) && (path_len <? MAX_PATH_LEN)) "search_file: pathname[0] == '/' && path_len > 1 && path_len < MAX_PATH_LEN";
    '(sub_path, name) ← liftO (path_parse pathname zero_name);
    search_loop (S (S (length pathname))) sub_path name 0 None (mk_record [] root_dir FT_UNKNOWN).

(** [strrchr(p, '/') + 1]. *)
Fixpoint after_last_slash (acc : option (list Z)) (p : list Z) : option (list Z) :=
  match p with
  | [] => acc
  | c :: p' => after_last_slash (if c =? slash then Some p' else acc) p'
  end.
Definition base_name (p : list Z) : outcome (list Z) :=
  match after_last_slash None p with Some n => Ok n | None => Fault end.

(** ** Descriptors *)

(** [stack1] and [stack2] are what the array of [path_depth_cnt] holds at its
    two calls. *)
Definition sys_open (stack1 stack2 : list Z) (pathname : list Z) (flags : Z) : M (fs H) Z :=
  last_char ← liftO (aget pathname (Z.of_nat (length pathname) - 1));
  if last_char =? slash then mret (-1)
  else
    _ ← assertM (flags <=? 7) "sys_open: flags <= 7";
    pathname_depth ← liftO (path_depth_cnt pathname stack1);
    '(inode_no, r) ← search_file pathname;
    let found := negb (inode_no =? -1) in
    if file_type r =? FT_DIRECTORY then _ ← dir_close (parent_dir r); mret (-1)
    else
      path_searched_depth ← liftO (path_depth_cnt (searched_path r) stack2);
      if negb (pathname_depth =? path_searched_depth) then _ ← dir_close (parent_dir r); mret (-1)
      else
        let create := truth (Z.land flags O_CREAT) in
        if negb found && negb create then _ ← dir_close (parent_dir r); mret (-1)
        else if found && create then _ ← dir_close (parent_dir r); mret (-1)
        else if create then
          name ← liftO (base_name pathname);
          fd ← file_create (parent_dir r) name flags;
          _ ← dir_close (parent_dir r);
          mret fd
        else file_open inode_no flags.

Definition fd_local2global (local_fd : Z) : M (fs H) Z :=
  s ← getS;
  global_fd ← liftO (aget (fd_table s) local_fd);
  _ ← assertM ((0 <=? global_fd) && (global_fd <? MAX_FILE_OPEN)) "fd_local2global: global_fd >= 0 && global_fd < MAX_FILE_OPEN";
  mret global_fd.

Definition PIPE_FLAG : Z := 0xFFFF.
Definition is_pipe (local_fd : Z) : M (fs H) bool :=
  global_fd ← fd_local2global local_fd;
  f ← get_file global_fd;
  mret (fd_flag f =? PIPE_FLAG).

Definition set_fd (fd v : Z) : M (fs H) () :=
  s ← getS; t ← liftO (aset (fd_table s) fd v); modS (set_fd_table t).

Definition sys_close (fd : Z) : M (fs H) Z :=
  if 2 <? fd then
    global_fd ← fd_local2global fd;
    pipe ← is_pipe fd;
    ret ← (if (pipe : bool) then
             f ← get_file global_fd;
             let cnt := u32 (fd_pos f - 1) in
             _ ← put_file global_fd (mk_file cnt (fd_flag f) (fd_inode f));
             _ ← (if cnt =? 0 then
                    _ ← dev_free_page (fd_inode f);
                    put_file global_fd (mk_file cnt (fd_flag f) NULL)
                  else mret tt);
             mret 0
           else file_close global_fd);
    _ ← set_fd fd (-1);
    mret ret
  else mret (-1).

Definition pipe_write (fd : Z) (buf : list Z) (count : Z) : M (fs H) Z :=
  global_fd ← fd_local2global fd; f ← get_file global_fd; dev_ring_write (fd_inode f) buf count.
Definition pipe_read (fd count : Z) : M (fs H) (Z * list Z) :=
  global_fd ← fd_local2global fd; f ← get_file global_fd; dev_ring_read (fd_inode f) count.

Definition sys_pipe : M (fs H) (Z * list Z) :=
  global_fd ← get_free_slot_in_global;
  p ← dev_get_page;
  f ← get_file global_fd;
  _ ← put_file global_fd (mk_file (fd_pos f) (fd_flag f) p);
  _ ← dev_ioqueue_init p;
  if p =? NULL then mret (-1, [])
  else
    _ ← put_file global_fd (mk_file 2 PIPE_FLAG p);
    fd0 ← pcb_fd_install global_fd;
    fd1 ← pcb_fd_install global_fd;
    mret (0, [fd0; fd1]).

Definition sys_fd_redirect (old_local_fd new_local_fd : Z) : M (fs H) () :=
  if new_local_fd <? 3 then set_fd old_local_fd new_local_fd
  else
    s ← getS;
    new_global_fd ← liftO (aget (fd_table s) new_local_fd);
    set_fd old_local_fd new_global_fd.

Definition sys_write (fd : Z) (buf : list Z) (count : Z) : M (fs H) Z :=
  if fd <? 0 then mret (-1)
  else
    pipe ← is_pipe fd;
    if (pipe : bool) then pipe_write fd buf count
    else if fd =? 1 then
      if (1024 <? count) || (Z.of_nat (length buf) <? count) then faultM
      else
        str ← liftO (c_str (splice 0 (take (Z.to_nat count) buf) (replicate 1024 0)));
        _ ← dev_printk str;
        mret (i32 count)
    else
      _fd ← fd_local2global fd;
      wr_file ← get_file _fd;
      if truth (Z.land (fd_flag wr_file) O_WRONLY) || truth (Z.land (fd_flag wr_file) O_RDWR)
      then file_write _fd buf count
      else mret (-1).

Fixpoint kbd_loop (n : nat) : M (fs H) (list Z) :=
  match n with
  | O => mret []
  | S n' => c ← dev_getchar; l ← kbd_loop n'; mret (c :: l)
  end.

(** The caller's buffer is not NULL; the bytes stored in it are returned. *)
Definition sys_read (fd count : Z) : M (fs H) (Z * list Z) :=
  if (fd <? 0) || (fd =? 1) || (fd =? 2) then mret (-1, [])
  else
    pipe ← is_pipe fd;
    if (pipe : bool) then pipe_read fd count
    else if fd =? 0 then
      l ← kbd_loop (Z.to_nat count);
      mret (if count =? 0 then -1 else i32 count, l)
    else
      global_fd ← fd_local2global fd;
      file_read global_fd count.

Definition SEEK_SET : Z := 1.
Definition SEEK_CUR : Z := 2.
Definition SEEK_END : Z := 3.

Definition sys_lseek (fd offset whence : Z) : M (fs H) Z :=
  if fd <? 0 then mret (-1)
  else
    _ ← assertM ((0 <? whence) && (whence <? 4)) "sys_lseek: whence > 0 && whence < 4";
    _fd ← fd_local2global fd;
    pf ← get_file _fd;
    i ← get_inode (fd_inode pf);
    let file_size := i32 (i_size i) in
    let new_pos := if whence =? SEEK_SET then offset
                   else if whence =? SEEK_CUR then i32 (i32 (fd_pos pf) + offset)
                   else i32 (file_size + offset) in
    if (new_pos <? 0) || (i32 (file_size - 1) <? new_pos) then mret (-1)
    else
      _ ← put_file _fd (mk_file (u32 new_pos) (fd_flag pf) (fd_inode pf));
      mret (i32 (u32 new_pos)).

(** ** Names *)

(** The slot of the table that has inode [inode_no] open, or [MAX_FILE_OPEN]. *)
Fixpoint in_use_loop (n : nat) (file_idx inode_no : Z) : M (fs H) Z :=
  match n with
  | O => mret file_idx
  | S n' =>
      f ← get_file file_idx;
      if fd_inode f =? NULL then in_use_loop n' (file_idx + 1) inode_no
      else
        i ← get_inode (fd_inode f);
        if i_no i =? inode_no then mret file_idx else in_use_loop n' (file_idx + 1) inode_no
  end.

Definition sys_unlink (pathname : list Z) : M (fs H) Z :=
  _ ← assertM (Z.of_nat (length pathname) <? MAX_PATH_LEN) "sys_unlink: strlen(pathname) < MAX_PATH_LEN";
  '(inode_no, r) ← search_file pathname;
  _ ← assertM (negb (inode_no =? 0)) "sys_unlink: inode_no != 0";
  if inode_no =? -1 then _ ← dir_close (parent_dir r); mret (-1)
  else if file_type r =? FT_DIRECTORY then _ ← dir_close (parent_dir r); mret (-1)
  else
    file_idx ← in_use_loop 32 0 inode_no;
    if file_idx <? MAX_FILE_OPEN then _ ← dir_close (parent_dir r); mret (-1)
    else
      io_buf ← malloc 1024;
      if io_buf =? NULL then _ ← dir_close (parent_dir r); mret (-1)
      else
        _ ← delete_dir_entry (parent_dir r) inode_no;
        _ ← inode_release inode_no;
        _ ← free io_buf;
        _ ← dir_close (parent_dir r);
        mret 0.

(** The first block of a directory: the entries for itself and its parent. *)
Definition dot_entries (self parent : Z) : list Z :=
  splice 24 (encode (mk_dirent (46 :: 46 :: replicate 14 0) parent FT_DIRECTORY))
    (splice 0 (encode (mk_dirent (46 :: replicate 15 0) self FT_DIRECTORY)) (replicate 512 0)).

Definition mkdir_rollback_1 (r : path_search_record) (io_buf : Z) : M (fs H) Z :=
  _ ← dir_close (parent_dir r); _ ← free io_buf; mret (-1).
Definition mkdir_rollback_2 (inode_no : Z) (r : path_search_record) (io_buf : Z) : M (fs H) Z :=
  _ ← inode_bitmap_clear inode_no; mkdir_rollback_1 r io_buf.

Definition sys_mkdir (stack1 stack2 : list Z) (pathname : list Z) : M (fs H) Z :=
  io_buf ← malloc 1024;
  if io_buf =? NULL then mret (-1)
  else
    '(inode_no, r) ← search_file pathname;
    if negb (inode_no =? -1) then mkdir_rollback_1 r io_buf
    else
      pathname_depth ← liftO (path_depth_cnt pathname stack1);
      path_searched_depth ← liftO (path_depth_cnt (searched_path r) stack2);
      if negb (pathname_depth =? path_searched_depth) then mkdir_rollback_1 r io_buf
      else
        dirname ← liftO (base_name (searched_path r));
        inode_no ← inode_bitmap_alloc;
        if inode_no =? -1 then mkdir_rollback_1 r io_buf
        else
          block_lba ← block_bitmap_alloc;
          if block_lba =? -1 then mkdir_rollback_2 inode_no r io_buf
          else
            s ← getS;
            let block_bitmap_idx := u32 (block_lba - data_start_lba (sb (cur_part s))) in
            _ ← assertM (negb (block_bitmap_idx =? 0)) "sys_mkdir: block_bitmap_idx != 0";
            _ ← bitmap_sync block_bitmap_idx BLOCK_BITMAP;
            '(_, pi) ← dir_inode (parent_dir r);
            _ ← ide_wr (u32 block_lba) (dot_entries inode_no (i_no pi)) 1;
            let new_dir_inode := mk_inode inode_no (u32 (2 * dir_entry_size (sb (cur_part s)))) 0 0 (u32 block_lba :: replicate 12 0) in
            new_dir_entry ← liftO (create_dir_entry dirname inode_no FT_DIRECTORY);
            synced ← sync_dir_entry (parent_dir r) new_dir_entry;
            if negb synced then mkdir_rollback_2 inode_no r io_buf
            else
              '(_, pi) ← dir_inode (parent_dir r);
              _ ← inode_sync pi;
              _ ← inode_sync new_dir_inode;
              _ ← bitmap_sync inode_no INODE_BITMAP;
              _ ← free io_buf;
              _ ← dir_close (parent_dir r);
              mret 0.

(** The test of line 652 holds for no path but the root. *)
Definition sys_opendir (pathname : list Z) : M (fs H) Z :=
  _ ← assertM (Z.of_nat (length pathname) <? MAX_PATH_LEN) "sys_opendir: strlen(pathname) < MAX_PATH_LEN";
  if (hd 0 pathname =? slash) && ((length pathname =? 1)%nat || (hd 0 pathname =? 46)) then mret root_dir
  else
    '(inode_no, r) ← search_file pathname;
    ret ← (if inode_no =? -1 then mret NULL
           else if file_type r =? FT_REGULAR then mret NULL
           else if file_type r =? FT_DIRECTORY then dir_open inode_no
           else mret NULL);
    _ ← dir_close (parent_dir r);
    mret ret.

Definition sys_closedir (d : Z) : M (fs H) Z :=
  if d =? NULL then mret (-1) else _ ← dir_close d; mret 0.

Definition sys_readdir (d : Z) : M (fs H) (option nat) :=
  _ ← assertM (negb (d =? NULL)) "sys_readdir: dir != NULL";
  dir_read d.

Definition sys_rewinddir (d : Z) : M (fs H) () :=
  x ← get_dir d; put_dir d (mk_dir (d_inode x) 0 (dir_buf x)).

Definition sys_rmdir (pathname : list Z) : M (fs H) Z :=
  '(inode_no, r) ← search_file pathname;
  _ ← assertM (negb (inode_no =? 0)) "sys_rmdir: inode_no != 0";
  retval ← (if inode_no =? -1 then mret (-1)
            else if file_type r =? FT_REGULAR then mret (-1)
            else
              d ← dir_open inode_no;
              empty ← dir_is_empty d;
              retval ← (if negb empty then mret (-1)
                        else x ← dir_remove (parent_dir r) d; mret (if x =? 0 then 0 else -1));
              _ ← dir_close d;
              mret retval);
  _ ← dir_close (parent_dir r);
  mret retval.

Definition get_parent_dir_inode_nr (child_inode_nr : Z) : M (fs H) Z :=
  p ← inode_open child_inode_nr;
  i ← get_inode p;
  block_lba ← liftO (aget (i_sectors i) 0);
  s ← getS;
  _ ← assertM (data_start_lba (sb (cur_part s)) <=? block_lba) "get_parent_dir_inode_nr: block_lba >= data_start_lba";
  _ ← inode_close p;
  data ← ide_rd block_lba 1;
  let e := decode (drop 24 data) : dir_entry in
  _ ← assertM ((de_i_no e <? 4096) && (f_type e =? FT_DIRECTORY)) "get_parent_dir_inode_nr: dir_e[1].i_no < 4096 && dir_e[1].f_type == FT_DIRECTORY";
  mret (de_i_no e).

Fixpoint name_in_sector (n off : nat) (buf : list Z) (c_inode_nr : Z) : outcome (option (list Z)) :=
  match n with
  | O => Ok None
  | S n' => if word_at (off + 16) buf =? c_inode_nr then l ← c_str (drop off buf); Ok (Some l)
            else name_in_sector n' (off + sizeof_dir_entry) buf c_inode_nr
  end.

Fixpoint name_in_blocks (blocks : list Z) (c_inode_nr : Z) : M (fs H) (option (list Z)) :=
  match blocks with
  | [] => mret None
  | b :: blocks' =>
      if b =? 0 then name_in_blocks blocks' c_inode_nr
      else
        data ← ide_rd b 1;
        r ← liftO (name_in_sector entries_per_sec 0 data c_inode_nr);
        match r with Some l => mret (Some l) | None => name_in_blocks blocks' c_inode_nr end
  end.

(** The path with "/" and the name behind it, [None] for -1. *)
Definition get_child_dir_name (p_inode_nr c_inode_nr : Z) (path : list Z) : M (fs H) (option (list Z)) :=
  p ← inode_open p_inode_nr;
  i ← get_inode p;
  tbl ← liftO (aget (i_sectors i) 12);
  all_blocks ← all_blocks_of i;
  _ ← inode_close p;
  _ ← entry_size;
  r ← name_in_blocks (if tbl =? 0 then take 12 all_blocks else all_blocks) c_inode_nr;
  match r with
  | None => mret None
  | Some l => path' ← liftO (cat_into MAX_PATH_LEN path (slash :: l)); mret (Some path')
  end.

Fixpoint cwd_loop (fuel : nat) (child_inode_nr : Z) (full_path_reverse : list Z) : M (fs H) (option (list Z)) :=
  match fuel with
  | O => fun _ => NoFuel
  | S fuel' =>
      if child_inode_nr =? 0 then mret (Some full_path_reverse)
      else
        parent_inode_nr ← get_parent_dir_inode_nr child_inode_nr;
        r ← get_child_dir_name parent_inode_nr child_inode_nr full_path_reverse;
        match r with
        | None => mret None
        | Some path => cwd_loop fuel' parent_inode_nr path
        end
  end.

(** The part in front of the last slash and the part from it on. *)
Fixpoint cut_last_slash (p : list Z) : option (list Z * list Z) :=
  match p with
  | [] => None
  | c :: p' =>
      match cut_last_slash p' with
      | Some (a, b) => Some (c :: a, b)
      | None => if c =? slash then Some ([], c :: p') else None
      end
  end.

Fixpoint reverse_path (fuel : nat) (full_path_reverse buf : list Z) (size : Z) : outcome (list Z) :=
  match fuel with
  | O => NoFuel
  | S fuel' =>
      match cut_last_slash full_path_reverse with
      | None => Ok buf
      | Some (a, b) => buf' ← cat_into size buf b; reverse_path fuel' a buf' size
      end
  end.

(** The path in [buf], [None] for NULL; a chain of 4096 parents is a cycle. *)
Definition sys_getcwd (size : Z) : M (fs H) (option (list Z)) :=
  io_buf ← malloc 512;
  if io_buf =? NULL then mret None
  else
    s ← getS;
    let child_inode_nr := cwd_inode_nr s in
    _ ← assertM ((0 <=? child_inode_nr) && (child_inode_nr <? 4096)) "sys_getcwd: child_inode_nr >= 0 && child_inode_nr < 4096";
    if child_inode_nr =? 0 then mret (Some [slash])
    else
      r ← cwd_loop (S (Z.to_nat 4096)) child_inode_nr [];
      match r with
      | None => _ ← free io_buf; mret None
      | Some full_path_reverse =>
          _ ← assertM (Z.of_nat (length full_path_reverse) <=? size) "sys_getcwd: strlen(full_path_reverse) <= size";
          buf ← liftO (reverse_path (S (length full_path_reverse)) full_path_reverse [] size);
          _ ← free io_buf;
          mret (Some buf)
      end.

Definition sys_chdir (path : list Z) : M (fs H) Z :=
  '(inode_no, r) ← search_file path;
  ret ← (if (negb (inode_no =? -1)) && (file_type r =? FT_DIRECTORY) then
           _ ← modS (set_cwd inode_no); mret 0
         else mret (-1));
  _ ← dir_close (parent_dir r);
  mret ret.

(** [struct stat]. *)
Record stat : Type := mk_stat { st_ino : Z; st_size : Z; st_filetype : Z }.

Definition sys_stat (path : list Z) : M (fs H) (Z * option stat) :=
  if is_root path then
    '(_, i) ← dir_inode root_dir;
    mret (0, Some (mk_stat 0 (i_size i) FT_DIRECTORY))
  else
    '(inode_no, r) ← search_file path;
    res ← (if negb (inode_no =? -1) then
             p ← inode_open inode_no;
             i ← get_inode p;
             _ ← inode_close p;
             mret (0, Some (mk_stat inode_no (i_size i) (file_type r)))
           else mret (-1, None));
    _ ← dir_close (parent_dir r);
    mret res.

End Calls.
