(* ===== verification/Proc.v ===== *)
(** * Processes (userprog/process.c, userprog/fork.c, userprog/wait_exit.c)

    [process_execute], [sys_fork], [sys_wait] and [sys_exit] over the whole
    kernel: scheduler and memory, files, and what a PCB page holds besides the
    task structure of [Sched] -- the pool of virtual addresses, the heap
    descriptors, and the two stack frames at its end. *)

From S2P Require Import Prelude Bitmap Interrupt Paging Memory PageAlloc Process Fork DList Disk Layout Inode Path Dir File Fs Arena Sched Sync Task.
Import Queue.

(** What [switch_to] pops: the registers and the return address. *)
Record thread_stack : Type := mk_tstack { ts_ebp : Z; ts_ebx : Z; ts_edi : Z; ts_esi : Z; ts_eip : Z }.

(** [k_sched] has the tasks and, as its pages, the memory; the pool of virtual
    addresses, the files and the working directory of the running task are
    those of [Memory] and [Inode].  By PCB: [k_bits], the address of the bitmap
    of the pool; [k_vaddr], the pools of the tasks that do not run; [k_descs],
    the heap descriptors; [k_intr] and [k_switch], the stack frames. *)
Record kernel (H : Type) : Type := mk_kernel {
  k_sched : @sched memst;
  k_fs : fs H;
  k_bits : gmap Z Z;
  k_vaddr : gmap Z virtual_addr;
  k_descs : gmap Z (list mem_block_desc);
  k_intr : gmap Z intr_stack;
  k_switch : gmap Z thread_stack
}.
Arguments mk_kernel {H}.
Arguments k_sched {H}. Arguments k_fs {H}. Arguments k_bits {H}. Arguments k_vaddr {H}.
Arguments k_descs {H}. Arguments k_intr {H}. Arguments k_switch {H}.

Section Proc.
Context {H : Type} `{HE : Heap H} `{DE : Devices H}.
#[local] Abbreviation kernel := (kernel H).

Definition set_k_sched (v : @sched memst) (k : kernel) : kernel := mk_kernel v (k_fs k) (k_bits k) (k_vaddr k) (k_descs k) (k_intr k) (k_switch k).
Definition set_k_fs (v : fs H) (k : kernel) : kernel := mk_kernel (k_sched k) v (k_bits k) (k_vaddr k) (k_descs k) (k_intr k) (k_switch k).
Definition set_k_bits (v : gmap Z Z) (k : kernel) : kernel := mk_kernel (k_sched k) (k_fs k) v (k_vaddr k) (k_descs k) (k_intr k) (k_switch k).
Definition set_k_vaddr (v : gmap Z virtual_addr) (k : kernel) : kernel := mk_kernel (k_sched k) (k_fs k) (k_bits k) v (k_descs k) (k_intr k) (k_switch k).
Definition set_k_descs (v : gmap Z (list mem_block_desc)) (k : kernel) : kernel := mk_kernel (k_sched k) (k_fs k) (k_bits k) (k_vaddr k) v (k_intr k) (k_switch k).
Definition set_k_intr (v : gmap Z intr_stack) (k : kernel) : kernel := mk_kernel (k_sched k) (k_fs k) (k_bits k) (k_vaddr k) (k_descs k) v (k_switch k).
Definition set_k_switch (v : gmap Z thread_stack) (k : kernel) : kernel := mk_kernel (k_sched k) (k_fs k) (k_bits k) (k_vaddr k) (k_descs k) (k_intr k) v.

(** A step of one part. *)
Definition on_part {S A} (get : kernel -> S) (set : S -> kernel -> kernel) (c : M S A) : M kernel A := fun k =>
  match c (get k) with
  | Ok (a, x) => Ok (a, set x k)
  | Panic w => Panic w
  | Fault => Fault
  | NoFuel => NoFuel
  end.
Definition on_sched {A} : M (@sched memst) A -> M kernel A := on_part k_sched set_k_sched.
Definition on_fs {A} : M (fs H) A -> M kernel A := on_part k_fs set_k_fs.
Definition on_memory {A} (c : M memst A) : M kernel A := on_sched (on_kpages c).

(** A field of a PCB page. *)
Definition the {A} (m : gmap Z A) (p : Z) : M kernel A := match m !! p with Some a => mret a | None => faultM end.

(** ** process_execute *)

Definition default_prio : Z := 8.

(** Up to its first time slice: [start_process] is what the thread runs then. *)
Definition process_execute (nm : list Z) : M kernel () :=
  thread ← on_memory (get_kernel_pages 1);
  _ ← on_sched (init_thread thread nm default_prio);
  '(bits, v) ← on_memory create_user_vaddr_bitmap;
  _ ← modS (fun k => set_k_bits (<[thread := bits]> (k_bits k)) (set_k_vaddr (<[thread := v]> (k_vaddr k)) k));
  _ ← on_sched (thread_create thread);
  dir ← on_memory create_page_dir;
  _ ← on_sched (upd_task thread (set_pgdir dir));
  _ ← modS (fun k => set_k_descs (<[thread := block_desc_init]> (k_descs k)) k);
  old_status ← on_sched intr_disable;
  _ ← on_sched (enqueue_new thread);
  _ ← on_sched (intr_set_status old_status);
  mret tt.

(** ** fork *)

(** [strcat(name, "_fork")] with the assertion before it. *)
Definition fork_suffix : list Z := [95; 102; 111; 114; 107].
Definition fork_name (nm : list Z) : outcome (list Z) :=
  str ← c_str nm;
  _ ← ASSERT (Z.of_nat (length str) <? 11) "copy_pcb_vaddrbitmap_stack0: strlen(child_thread->name) < 11";
  Ok (splice (length str) (fork_suffix ++ [0]) nm).

Definition set_child (pd : Z) (ppid : Z) (t : task_struct) : task_struct :=
  mk_task (self_kstack t) pd TASK_READY (name t) (priority t) (u8 (priority t)) 0 (pgdir t) (Sched.fd_table t) (Sched.cwd_inode_nr t)
    ppid (exit_status t) (stack_magic t).
Definition set_name (nm : list Z) (t : task_struct) : task_struct :=
  mk_task (self_kstack t) (pid t) (status t) nm (priority t) (ticks t) (elapsed_ticks t) (pgdir t) (Sched.fd_table t) (Sched.cwd_inode_nr t)
    (parent_pid t) (exit_status t) (stack_magic t).
(** The PCB of the running task as it lies in memory, with the files and the
    working directory that are kept in [Inode.fs]. *)
Definition pcb_image (f : fs H) (t : task_struct) : task_struct :=
  mk_task (self_kstack t) (pid t) (status t) (name t) (priority t) (ticks t) (elapsed_ticks t) (pgdir t) (Inode.fd_table f) (Inode.cwd_inode_nr f)
    (parent_pid t) (exit_status t) (stack_magic t).

(** The bitmap of the pool is copied to pages of the child's own; before, the
    child's pool is the parent's. *)
Definition copy_pcb_vaddrbitmap_stack0 (child_thread parent_thread : Z) : M kernel Z :=
  k ← getS;
  t ← on_sched (get_task parent_thread);
  intr ← the (k_intr k) parent_thread;
  bits ← the (k_bits k) parent_thread;
  _ ← on_sched (modS (fun s => set_tasks (<[child_thread := pcb_image (k_fs k) t]> (tasks s)) s));
  _ ← modS (fun k => set_k_intr (<[child_thread := intr]> (k_intr k)) k);
  _ ← modS (fun k => set_k_bits (<[child_thread := bits]> (k_bits k)) k);
  _ ← modS (fun k => set_k_vaddr (<[child_thread := userprog_vaddr (pages (k_sched k))]> (k_vaddr k)) k);
  p ← on_sched fork_pid;
  _ ← on_sched (upd_task child_thread (set_child p (pid t)));
  _ ← modS (fun k => set_k_descs (<[child_thread := block_desc_init]> (k_descs k)) k);
  vaddr_btmp ← on_memory (get_kernel_pages (DIV_ROUND_UP user_bytes PG_SIZE));
  if vaddr_btmp =? NULL then mret (-1)
  else
    _ ← modS (fun k => set_k_bits (<[child_thread := vaddr_btmp]> (k_bits k)) k);
    c ← on_sched (get_task child_thread);
    nm ← liftO (fork_name (name c));
    _ ← on_sched (upd_task child_thread (set_name nm));
    mret 0.

Definition set_eax (v : Z) (i : intr_stack) : intr_stack :=
  mk_intr (vec_no i) (edi i) (esi i) (ebp i) (esp_dummy i) (ebx i) (edx i) (ecx i) v (gs i) (Process.fs i) (es i) (ds i)
    (err_code i) (eip i) (cs i) (eflags i) (esp i) (ss i).

(** [intr_exit] is the address of the assembly routine of that name. *)
Definition build_child_stack (intr_exit child_thread : Z) : M kernel Z :=
  k ← getS;
  intr_0_stack ← the (k_intr k) child_thread;
  _ ← modS (set_k_intr (<[child_thread := set_eax 0 intr_0_stack]> (k_intr k)));
  _ ← modS (fun k => set_k_switch (<[child_thread := mk_tstack 0 0 0 0 intr_exit]> (k_switch k)) k);
  _ ← on_sched (upd_task child_thread (set_self_kstack (u32 (child_thread + PG_SIZE - sizeof_intr_stack - 5 * 4))));
  mret 0.

(** The loop from descriptor [local_fd] on; [is_pipe] asks the running task. *)
Fixpoint open_cnts_loop (n : nat) (tbl : list Z) (local_fd : Z) : M (fs H) () :=
  match n with
  | O => mret tt
  | S n' =>
      global_fd ← liftO (aget tbl local_fd);
      _ ← assertM (global_fd <? MAX_FILE_OPEN) "update_inode_open_cnts: global_fd < MAX_FILE_OPEN";
      _ ← (if global_fd =? -1 then mret tt
           else
             pipe ← is_pipe local_fd;
             f ← get_file global_fd;
             if (pipe : bool) then put_file global_fd (mk_file (u32 (fd_pos f + 1)) (fd_flag f) (fd_inode f))
             else upd_inode (fd_inode f) (fun i => set_open_cnts (u32 (i_open_cnts i + 1)) i));
      open_cnts_loop n' tbl (local_fd + 1)
  end.
Definition update_inode_open_cnts (thread : Z) : M kernel () :=
  t ← on_sched (get_task thread);
  on_fs (open_cnts_loop 5 (Sched.fd_table t) 3).

Definition copy_process (intr_exit child_thread parent_thread : Z) : M kernel Z :=
  buf_page ← on_memory (get_kernel_pages 1);
  if buf_page =? NULL then mret (-1)
  else
    r ← copy_pcb_vaddrbitmap_stack0 child_thread parent_thread;
    if r =? -1 then mret (-1)
    else
      dir ← on_memory create_page_dir;
      _ ← on_sched (upd_task child_thread (set_pgdir dir));
      if dir =? NULL then mret (-1)
      else
        t ← on_sched (get_task parent_thread);
        k ← getS;
        _ ← on_memory (copy_body_stack3 dir (pgdir t) (userprog_vaddr (pages (k_sched k))) buf_page);
        _ ← build_child_stack intr_exit child_thread;
        _ ← update_inode_open_cnts child_thread;
        _ ← on_memory (mfree_page PF_KERNEL buf_page 1);
        mret 0.

Definition sys_fork (intr_exit : Z) : M kernel Z :=
  parent_thread ← on_sched running_thread;
  child_thread ← on_memory (get_kernel_pages 1);
  if child_thread =? NULL then mret (-1)
  else
    st ← on_sched intr_get_status;
    t ← on_sched (get_task parent_thread);
    _ ← assertM (bool_decide (st = INTR_OFF) && negb (pgdir t =? NULL)) "sys_fork: INTR_OFF == intr_get_status() && parent_thread->pgdir != NULL";
    r ← copy_process intr_exit child_thread parent_thread;
    if r =? -1 then mret (-1)
    else
      _ ← on_sched (enqueue_new child_thread);
      c ← on_sched (get_task child_thread);
      mret (pid c).

(** ** exit *)

(** The entries of one page table. *)
Fixpoint free_ptes (n : nat) (first_pte_vaddr_in_pde pte_idx : Z) : M memst () :=
  match n with
  | O => mret tt
  | S n' =>
      pte ← on_mmu (vload (u32 (first_pte_vaddr_in_pde + pte_idx * 4)));
      _ ← (if present pte then free_a_phy_page (Z.land pte 0xfffff000) else mret tt);
      free_ptes n' first_pte_vaddr_in_pde (pte_idx + 1)
  end.
(** The directory entries below 0xC0000000. *)
Fixpoint free_pdes (n : nat) (pgdir_vaddr pde_idx : Z) : M memst () :=
  match n with
  | O => mret tt
  | S n' =>
      pde ← on_mmu (vload (u32 (pgdir_vaddr + pde_idx * 4)));
      _ ← (if present pde then
             _ ← free_ptes 1024 (pte_ptr (u32 (pde_idx * 0x400000))) 0;
             free_a_phy_page (Z.land pde 0xfffff000)
           else mret tt);
      free_pdes n' pgdir_vaddr (pde_idx + 1)
  end.

(** The descriptors from [local_fd] on. *)
Fixpoint close_files (n : nat) (local_fd : Z) : M kernel () :=
  match n with
  | O => mret tt
  | S n' =>
      k ← getS;
      g ← liftO (aget (Inode.fd_table (k_fs k)) local_fd);
      _ ← (if g =? -1 then mret tt
           else
             pipe ← on_fs (is_pipe local_fd);
             if (pipe : bool) then
               global_fd ← on_fs (fd_local2global local_fd);
               f ← on_fs (get_file global_fd);
               let cnt := u32 (fd_pos f - 1) in
               _ ← on_fs (put_file global_fd (mk_file cnt (fd_flag f) (fd_inode f)));
               if cnt =? 0 then
                 _ ← on_memory (mfree_page PF_KERNEL (fd_inode f) 1);
                 on_fs (put_file global_fd (mk_file cnt (fd_flag f) NULL))
               else mret tt
             else _ ← on_fs (sys_close local_fd); mret tt);
      close_files n' (local_fd + 1)
  end.

Definition release_prog_resource (release_thread : Z) : M kernel () :=
  t ← on_sched (get_task release_thread);
  _ ← on_memory (free_pdes 768 (pgdir t) 0);
  k ← getS;
  let bitmap_pg_cnt := btmp_bytes_len (vaddr_bitmap (userprog_vaddr (pages (k_sched k)))) / PG_SIZE in
  user_vaddr_pool_bitmap ← the (k_bits k) release_thread;
  _ ← on_memory (mfree_page PF_KERNEL user_vaddr_pool_bitmap bitmap_pg_cnt);
  close_files 5 3.

(** [v2p] is the translation of page directories, as in [Sched]. *)
Definition sys_exit (v2p : Z -> Z) (status : Z) : M kernel () :=
  child_thread ← on_sched running_thread;
  _ ← on_sched (upd_task child_thread (set_exit_status (i8 status)));
  t ← on_sched (get_task child_thread);
  _ ← (if parent_pid t =? -1 then panicM "sys_exit: child_thread->parent_pid is -1" else mret tt);
  _ ← on_sched (adopt_children (pid t));
  _ ← release_prog_resource child_thread;
  on_sched (sys_exit_notify v2p).

End Proc.
