(* ===== verification/ForkSpec.v ===== *)
(** * What fork does (theorems on [Fork] and [Proc])

    The pages the kernel takes for the child and the copy of the user part, put
    together: after [sys_fork] the child is a ready process whose space has a
    copy of every page of the parent. *)

From S2P Require Import Prelude Bitmap Interrupt Paging Memory PageAlloc Process Fork ForkMem DList Disk Layout Inode Path Dir File Fs Arena Sched Sync Task Proc.
Import Queue.

(** ** The files of the child *)

Section Files.
Context {H : Type} `{HE : Heap H}.
Implicit Types f : fs H.

(** What a descriptor of the global table leads to: an inode, or the slot of a
    pipe. *)
Definition inode_of f (g : Z) : option Z :=
  if g =? -1 then None
  else fl ← file_table f !! Z.to_nat g; if fd_flag fl =? PIPE_FLAG then None else Some (fd_inode fl).
Definition pipe_of f (g : Z) : option Z :=
  if g =? -1 then None
  else fl ← file_table f !! Z.to_nat g; if fd_flag fl =? PIPE_FLAG then Some g else None.

(** How many of the descriptors [l] lead to [x]. *)
Definition uses (to : Z -> option Z) (x : Z) (l : list Z) : Z := Z.of_nat (length (filter (fun g => to g = Some x) l)).

(** Every open descriptor from 3 on leads to a pipe or to an open inode. *)
Record files_ok f : Prop := {
  fo_len : length (Inode.fd_table f) = 8%nat;
  fo_slots : length (file_table f) = 32%nat;
  fo_open g : g ∈ drop 3 (Inode.fd_table f) -> g = -1 \/ 0 <= g < 32 /\ forall p, inode_of f g = Some p -> is_Some (inodes f !! p);
  fo_pos fl : fl ∈ file_table f -> u32_ok (fd_pos fl);
  fo_cnts p i : inodes f !! p = Some i -> u32_ok (i_open_cnts i)
}.

(** [f'] has, for the descriptors [l], the counts of one holder more. *)
Record held f (l : list Z) f' : Prop := {
  he_fs : f' = set_inodes (inodes f') (set_file_table (file_table f') f);
  he_len : length (file_table f') = length (file_table f);
  he_files j fl : 0 <= j -> file_table f !! Z.to_nat j = Some fl ->
    file_table f' !! Z.to_nat j = Some (mk_file (u32 (fd_pos fl + uses (pipe_of f) j l)) (fd_flag fl) (fd_inode fl));
  he_inodes p i : inodes f !! p = Some i -> inodes f' !! p = Some (set_open_cnts (u32 (i_open_cnts i + uses (inode_of f) p l)) i)
}.

Lemma uses_nil to x : uses to x [] = 0.
Proof. done. Qed.
Lemma uses_cons to x g l : uses to x (g :: l) = (if decide (to g = Some x) then 1 else 0) + uses to x l.
Proof. unfold uses. rewrite filter_cons. destruct (decide (to g = Some x)); cbn [length]; lia. Qed.

Lemma held_nil f : files_ok f -> held f [] f.
Proof.
  intros [F1 F2 F3 F4 F5]. split; [by destruct f|done|..].
  - intros j fl Hj E. rewrite uses_nil, Z.add_0_r, wrapu_small; [by destruct fl|]. apply F4. by eapply list_elem_of_lookup_2.
  - intros p i E. rewrite uses_nil, Z.add_0_r, wrapu_small; [by destruct i|]. by apply (F5 p).
Qed.

Lemma held_leads f l f' : held f l f' -> Forall (fun g => g = -1 \/ 0 <= g) l -> forall g, g = -1 \/ 0 <= g -> inode_of f' g = inode_of f g /\ pipe_of f' g = pipe_of f g.
Proof.
  intros [H1 H2 H3 H4] _ g Hg. unfold inode_of, pipe_of. destruct (Z.eqb_spec g (-1)); [done|].
  destruct (file_table f !! Z.to_nat g) as [fl|] eqn:E.
  - rewrite (H3 g fl ltac:(lia) E). done.
  - apply lookup_ge_None in E. assert (file_table f' !! Z.to_nat g = None) as -> by (apply lookup_ge_None; lia). done.
Qed.

Lemma wrapu_add x y : u32 (u32 x + y) = u32 (x + y).
Proof. unfold u32, wrapu. by rewrite Z.add_mod_idemp_l by lia. Qed.
Lemma uses_snoc to x g l : uses to x (l ++ [g]) = uses to x l + (if decide (to g = Some x) then 1 else 0).
Proof. unfold uses. rewrite filter_app, length_app, filter_cons, filter_nil. destruct (decide (to g = Some x)); cbn [length]; lia. Qed.

Lemma held_step f l f' g j : files_ok f -> held f l f' -> Inode.fd_table f !! Z.to_nat j = Some g -> 0 <= j -> g ∈ drop 3 (Inode.fd_table f) -> Forall (fun g => g = -1 \/ 0 <= g) l ->
  exists f'', (if g =? -1 then mret tt
               else
                 pipe ← is_pipe j;
                 fl ← get_file g;
                 if (pipe : bool) then put_file g (mk_file (u32 (fd_pos fl + 1)) (fd_flag fl) (fd_inode fl))
                 else upd_inode (fd_inode fl) (fun i => set_open_cnts (u32 (i_open_cnts i + 1)) i)) f' = Ok (tt, f'') /\ held f (l ++ [g]) f''.
Proof.
  intros Hok Hh Hj Hj0 Hin Hl. pose proof Hok as [F1 F2 F3 F4 F5]. pose proof (fun g => held_leads f l f' Hh Hl g) as Hlead. pose proof Hh as [H1 H2 H3 H4].
  assert (Inode.fd_table f' = Inode.fd_table f) as Efd by (by rewrite H1).
  destruct (F3 g Hin) as [->|[Hg Hino]].
  { exists f'. split; [done|]. split; [done|done|..]; intros; rewrite uses_snoc; cbn; rewrite ?Z.add_0_r; auto. }
  destruct (Z.eqb_spec g (-1)); [lia|].
  destruct (lookup_lt_is_Some_2 (file_table f) (Z.to_nat g)) as [fl Efl]; [lia|]. pose proof (H3 g fl ltac:(lia) Efl) as Efl'.
  set (fl' := mk_file (u32 (fd_pos fl + uses (pipe_of f) g l)) (fd_flag fl) (fd_inode fl)) in *.
  assert (get_file g f' = Ok (fl', f')) as Eg by (unfold get_file; rewrite getS_bind; unfold liftO; by rewrite (aget_Ok (file_table f') g _ (proj1 Hg) Efl')).
  assert (is_pipe j f' = Ok (fd_flag fl =? PIPE_FLAG, f')) as Ep.
  { unfold is_pipe, fd_local2global. rewrite mbindM_assoc, getS_bind. rewrite mbindM_assoc, Efd. rewrite (liftO_bind _ _ _ _ (aget_Ok _ _ _ Hj0 Hj)).
    rewrite mbindM_assoc. erewrite mbindM_Ok by (apply assertM_run; unfold MAX_FILE_OPEN; lia). rewrite mret_bind. by mrun Eg. }
  mrun Ep. mrun Eg. destruct (Z.eqb_spec (fd_flag fl) PIPE_FLAG) as [Hpf|Hpf].
  - assert (pipe_of f g = Some g) as Epi by (unfold pipe_of; destruct (Z.eqb_spec g (-1)); [lia|]; rewrite Efl; cbn; by rewrite (proj2 (Z.eqb_eq _ _) Hpf)).
    assert (inode_of f g = None) as Ein by (unfold inode_of; destruct (Z.eqb_spec g (-1)); [lia|]; rewrite Efl; cbn; by rewrite (proj2 (Z.eqb_eq _ _) Hpf)).
    set (F' := <[Z.to_nat g := mk_file (u32 (fd_pos fl' + 1)) (fd_flag fl) (fd_inode fl)]> (file_table f')).
    exists (set_file_table F' f'). split; [unfold put_file; rewrite getS_bind; rewrite (liftO_bind _ _ _ _ (aset_Ok (file_table f') g _ ltac:(lia))); done|]. split.
    + rewrite H1 at 1. done.
    + cbn [file_table set_file_table]. unfold F'. by rewrite length_insert.
    + intros i x Hi Ex. cbn [file_table set_file_table]. unfold F'. rewrite uses_snoc, Epi. destruct (decide (i = g)) as [->|Hne].
      * rewrite list_lookup_insert_eq by lia. rewrite Efl in Ex. injection Ex as <-. rewrite decide_True by done. cbn [fd_pos fl']. by rewrite wrapu_add, Z.add_assoc.
      * rewrite list_lookup_insert_ne by lia. rewrite decide_False by congruence. rewrite Z.add_0_r. by apply H3.
    + intros p i Ei. rewrite uses_snoc, Ein, decide_False, Z.add_0_r by done. by apply H4.
  - assert (pipe_of f g = None) as Epi by (unfold pipe_of; destruct (Z.eqb_spec g (-1)); [lia|]; rewrite Efl; cbn; by rewrite (proj2 (Z.eqb_neq _ _) Hpf)).
    assert (inode_of f g = Some (fd_inode fl)) as Ein by (unfold inode_of; destruct (Z.eqb_spec g (-1)); [lia|]; rewrite Efl; cbn; by rewrite (proj2 (Z.eqb_neq _ _) Hpf)).
    destruct (Hino _ Ein) as [i Ei]. pose proof (H4 _ _ Ei) as Ei'. set (i' := set_open_cnts (u32 (i_open_cnts i + uses (inode_of f) (fd_inode fl) l)) i) in *.
    exists (set_inodes (<[fd_inode fl := set_open_cnts (u32 (i_open_cnts i' + 1)) i']> (inodes f')) f'). split.
    { unfold upd_inode. cbn [fd_inode fl']. assert (get_inode (fd_inode fl) f' = Ok (i', f')) as Egi by (unfold get_inode; by rewrite Ei'). by mrun Egi. }
    split.
    + cbn [inodes set_inodes file_table]. set (X := <[_ := _]> _). transitivity (set_inodes X (set_inodes (inodes f') (set_file_table (file_table f') f))); [by rewrite <- H1|done].
    + done.
    + intros x fx Hx Ex. rewrite uses_snoc, Epi, decide_False, Z.add_0_r by done. by apply H3.
    + intros p x Ex. cbn [inodes set_inodes]. rewrite uses_snoc, Ein. destruct (decide (p = fd_inode fl)) as [->|Hne].
      * rewrite lookup_insert_eq. assert (x = i) as -> by congruence. rewrite decide_True by done. unfold i'. cbn [i_open_cnts set_open_cnts]. rewrite wrapu_add, Z.add_assoc. done.
      * rewrite lookup_insert_ne by done. rewrite decide_False by congruence. rewrite Z.add_0_r. by apply H4.
Qed.

Lemma open_cnts_loop_run f n : forall j l f', files_ok f -> held f l f' -> (3 <= j)%nat -> (j + n = 8)%nat -> l = take (j - 3) (drop 3 (Inode.fd_table f)) ->
  exists f'', open_cnts_loop n (Inode.fd_table f) (Z.of_nat j) f' = Ok (tt, f'') /\ held f (drop 3 (Inode.fd_table f)) f''.
Proof.
  induction n as [|n IH]; intros j l f' Hok Hh Hj Hjn El; cbn [open_cnts_loop].
  { exists f'. split; [done|]. pose proof (fo_len _ Hok). rewrite El in Hh. rewrite take_ge in Hh by (rewrite length_drop; lia). done. }
  pose proof (fo_len _ Hok) as Hlen. destruct (lookup_lt_is_Some_2 (Inode.fd_table f) j) as [g Eg]; [lia|].
  assert (g ∈ drop 3 (Inode.fd_table f)) as Hin.
  { apply list_elem_of_lookup. exists (j - 3)%nat. rewrite lookup_drop. by replace (3 + (j - 3))%nat with j by lia. }
  assert (Inode.fd_table f !! Z.to_nat (Z.of_nat j) = Some g) as Eg' by (by rewrite Nat2Z.id).
  rewrite (liftO_bind _ _ _ _ (aget_Ok (Inode.fd_table f) (Z.of_nat j) g ltac:(lia) Eg')).
  erewrite mbindM_Ok by (apply assertM_run; unfold MAX_FILE_OPEN; destruct (fo_open _ Hok g Hin) as [->|[? _]]; lia).
  assert (Forall (fun g => g = -1 \/ 0 <= g) l) as Hl.
  { rewrite El. apply Forall_take. apply Forall_forall. intros x Hx. destruct (fo_open _ Hok x Hx) as [|[? _]]; [by left|right; lia]. }
  destruct (held_step f l f' g (Z.of_nat j) Hok Hh Eg' ltac:(lia) Hin Hl) as (f1 & E1 & Hh1).
  mrun E1. replace (Z.of_nat j + 1) with (Z.of_nat (S j)) by lia. apply (IH (S j) (l ++ [g]) f1); [done|done|lia|lia|].
  rewrite El. replace (S j - 3)%nat with (S (j - 3)) by lia. symmetry. apply take_S_r. rewrite lookup_drop. by replace (3 + (j - 3))%nat with j by lia.
Qed.
End Files.

(** ** The PCB of the child *)

Lemma c_str_app str x : Forall (fun c => c <> 0) str -> c_str (str ++ 0 :: x) = Ok str.
Proof.
  induction str as [|c str IH]; intros Hs; cbn [app c_str]; [done|]. apply Forall_cons in Hs as [Hc Hs].
  destruct (Z.eqb_spec c 0); [done|]. by rewrite IH.
Qed.
Lemma c_str_inv nm str : c_str nm = Ok str -> Forall (fun c => c <> 0) str /\ exists x, nm = str ++ 0 :: x.
Proof.
  revert str. induction nm as [|c nm IH]; intros str E; cbn [c_str] in E; [done|]. destruct (Z.eqb_spec c 0) as [->|Hc].
  - injection E as <-. split; [done|]. by exists nm.
  - destruct (c_str nm) as [l| | |] eqn:El; try done. injection E as <-. destruct (IH l eq_refl) as (H1 & x & ->). split; [by constructor|]. by exists x.
Qed.

(** The name of the child is that of the parent with "_fork" behind it. *)
Lemma fork_name_run nm str : length nm = 16%nat -> c_str nm = Ok str -> (length str < 11)%nat ->
  exists nm', fork_name nm = Ok nm' /\ length nm' = 16%nat /\ c_str nm' = Ok (str ++ fork_suffix).
Proof.
  intros Hn Hs Hl. destruct (c_str_inv nm str Hs) as (Hz & x & Ex). eexists. split; [|split].
  - unfold fork_name. rewrite Hs, bind_Ok. destruct (Z.ltb_spec (Z.of_nat (length str)) 11); [|lia]. rewrite ASSERT_true. by rewrite bind_Ok.
  - rewrite splice_length; [done|]. rewrite length_app. cbn. lia.
  - unfold splice. rewrite <- app_assoc. replace (take (length str) nm) with str by (by rewrite Ex, take_app_length).
    rewrite (app_assoc str fork_suffix). apply c_str_app. apply Forall_app. split; [done|].
    by repeat constructor.
Qed.

Section Child.
Context {H : Type} `{HE : Heap H} `{DE : Devices H}.
Implicit Types k : kernel H.

Definition mem k : memst := pages (k_sched k).

Lemma on_sched_run {A} (c : M (@sched memst) A) k a x : c (k_sched k) = Ok (a, x) -> on_sched c k = Ok (a, set_k_sched x k).
Proof. intros E. unfold on_sched, on_part. by rewrite E. Qed.
Lemma on_fs_run {A} (c : M (fs H) A) k a x : c (k_fs k) = Ok (a, x) -> on_fs c k = Ok (a, set_k_fs x k).
Proof. intros E. unfold on_fs, on_part. by rewrite E. Qed.
Definition set_mem (m : memst) k : kernel H := set_k_sched (set_pages m (k_sched k)) k.
Lemma on_memory_run {A} (c : M memst A) k a m : c (mem k) = Ok (a, m) -> on_memory c k = Ok (a, set_mem m k).
Proof. intros E. unfold on_memory. apply on_sched_run. unfold on_kpages. fold (mem k). by rewrite E. Qed.
Lemma the_run {A} (m : gmap Z A) p a k : m !! p = Some a -> the m p k = Ok (a, k).
Proof. intros E. unfold the. by rewrite E. Qed.

(** Work on the PCB of [child] leaves the other tasks, the queues, the running
    thread and the interrupt flag alone. *)
Record others_kept (child : Z) k k' : Prop := {
  ok_tasks p : p <> child -> tasks (k_sched k') !! p = tasks (k_sched k) !! p;
  ok_intr p : p <> child -> k_intr k' !! p = k_intr k !! p;
  ok_ready : thread_ready_list (k_sched k') = thread_ready_list (k_sched k);
  ok_all : thread_all_list (k_sched k') = thread_all_list (k_sched k);
  ok_cur : cur (k_sched k') = cur (k_sched k);
  ok_flags : Sched.flags (k_sched k') = Sched.flags (k_sched k)
}.
#[global] Instance others_kept_preorder child : PreOrder (others_kept child).
Proof.
  split; [by split|]. intros k1 k2 k3 [A1 A2 A3 A4 A5 A6] [B1 B2 B3 B4 B5 B6]. split; try congruence.
  - intros p Hp. by rewrite B1, A1.
  - intros p Hp. by rewrite B2, A2.
Qed.
Lemma others_set_mem child m k : others_kept child k (set_mem m k).
Proof. by split. Qed.

Lemma upd_child k p f t : tasks (k_sched k) !! p = Some t ->
  on_sched (upd_task p f) k = Ok (tt, set_k_sched (set_tasks (<[p := f t]> (tasks (k_sched k))) (k_sched k)) k).
Proof. intros E. apply on_sched_run. unfold upd_task. by rewrite E. Qed.
Lemma get_child k p t : tasks (k_sched k) !! p = Some t -> on_sched (get_task p) k = Ok (t, k).
Proof. intros E. unfold on_sched, on_part, get_task. rewrite E. by destruct k. Qed.

(** The pids: [i] is free in [b] and taken in [b']. *)
Definition pid_taken (b b' : bitmap) (i : Z) : Prop :=
  0 <= i < nbits b /\ bit_used b i = false /\ nbits b' = nbits b /\ forall j, 0 <= j -> bit_used b' j = if j =? i then true else bit_used b j.
Definition pids_ok (b : bitmap) : Prop := bitmap_wf b /\ nbits b <= 1024 /\ exists i, 0 <= i < nbits b /\ bit_used b i = false.

Lemma copy_pcb_run k child t str i bp va m' : tasks (k_sched k) !! cur (k_sched k) = Some t -> child <> cur (k_sched k) ->
  k_intr k !! cur (k_sched k) = Some i -> k_bits k !! cur (k_sched k) = Some bp -> pids_ok (pid_bitmap (k_sched k)) ->
  length (name t) = 16%nat -> c_str (name t) = Ok str -> (length str < 11)%nat ->
  get_kernel_pages 23 (mem k) = Ok (va, m') -> va <> NULL ->
  exists p c k', copy_pcb_vaddrbitmap_stack0 child (cur (k_sched k)) k = Ok (0, k') /\ others_kept child k k' /\ mem k' = m' /\ k_fs k' = k_fs k /\
    tasks (k_sched k') !! child = Some c /\ k_intr k' !! child = Some i /\ k_vaddr k' !! child = Some (userprog_vaddr (mem k)) /\ k_bits k' !! child = Some va /\
    k_descs k' !! child = Some block_desc_init /\ pid_taken (pid_bitmap (k_sched k)) (pid_bitmap (k_sched k')) p /\
    pid c = p + 1 /\ parent_pid c = pid t /\ status c = TASK_READY /\ priority c = priority t /\ ticks c = u8 (priority t) /\ elapsed_ticks c = 0 /\
    c_str (name c) = Ok (str ++ fork_suffix) /\ Sched.fd_table c = Inode.fd_table (k_fs k) /\ Sched.cwd_inode_nr c = Inode.cwd_inode_nr (k_fs k) /\ stack_magic c = stack_magic t.
Proof.
  intros Ht Hne Hi Hb (P1 & P2 & P3) Hn Hs Hl Eg Hva. set (s := k_sched k) in *.
  destruct (fork_name_run (name t) str Hn Hs Hl) as (nm & En & Hnm & Hstr).
  set (img := pcb_image (k_fs k) t). set (s1 := set_tasks (<[child := img]> (tasks s)) s).
  destruct (allocate_pid_run s1) as (p & b & Ep & Hp & Hpf & _ & Hpn & Hpb); [done|done|done|].
  set (c1 := set_child (p + 1) (pid t) img). set (c2 := set_name nm c1).
  set (s2 := set_pid_bitmap b s1). set (s3 := set_tasks (<[child := c1]> (tasks s2)) s2). set (s4 := set_pages m' s3). set (s5 := set_tasks (<[child := c2]> (tasks s4)) s4).
  set (k' := mk_kernel s5 (k_fs k) (<[child := va]> (<[child := bp]> (k_bits k))) (<[child := userprog_vaddr (mem k)]> (k_vaddr k)) (<[child := block_desc_init]> (k_descs k)) (<[child := i]> (k_intr k)) (k_switch k)).
  exists p, c2, k'. split.
  { unfold copy_pcb_vaddrbitmap_stack0. rewrite getS_bind. mrun (get_child k _ t Ht). mrun (the_run (k_intr k) _ i k Hi). mrun (the_run (k_bits k) _ bp k Hb).
    erewrite mbindM_Ok by (apply on_sched_run; reflexivity). rewrite !modS_bind. erewrite mbindM_Ok by (apply on_sched_run; exact Ep).
    erewrite mbindM_Ok by (apply upd_child; apply lookup_insert_eq). rewrite modS_bind.
    erewrite mbindM_Ok by (apply on_memory_run; exact Eg). unfold NULL in Hva. destruct (Z.eqb_spec va NULL); [done|]. rewrite modS_bind.
    erewrite mbindM_Ok by (apply get_child; apply lookup_insert_eq). erewrite mbindM_Ok by (unfold liftO; cbn [name c1 set_child img pcb_image]; rewrite En; reflexivity).
    erewrite mbindM_Ok by (apply upd_child; apply lookup_insert_eq). done. }
  split; [split; try done|].
  - intros x Hx. cbn [k' k_sched s5 set_tasks tasks s4 set_pages s3 s2 set_pid_bitmap s1]. by rewrite !lookup_insert_ne by congruence.
  - intros x Hx. cbn [k' k_intr]. by rewrite lookup_insert_ne by congruence.
  - split; [done|]. split; [done|]. split; [apply lookup_insert_eq|]. split; [apply lookup_insert_eq|]. split; [apply lookup_insert_eq|]. split; [apply lookup_insert_eq|].
    split; [apply lookup_insert_eq|]. split; [done|]. done.
Qed.

(** A page of the kernel in use. *)
Definition kernel_page (m : memst) (p : Z) : Prop :=
  exists i, 0 <= i < nbits (vaddr_bitmap (kernel_vaddr m)) /\ p = vaddr_start (kernel_vaddr m) + i * 4096 /\ bit_used (vaddr_bitmap (kernel_vaddr m)) i = true.

(** The running task [t], called [str], can fork: it is a process inside a
    system call, and there are pids and pages enough. *)
Record may_fork (q n : Z) (t : task_struct) (str : list Z) k : Prop := {
  mf_task : tasks (k_sched k) !! cur (k_sched k) = Some t;
  mf_off : intr_get_status_of (k_sched k) = INTR_OFF;
  mf_user : pgdir t <> NULL;
  mf_intr : is_Some (k_intr k !! cur (k_sched k));
  mf_bits : is_Some (k_bits k !! cur (k_sched k));
  mf_pids : pids_ok (pid_bitmap (k_sched k));
  mf_name : length (name t) = 16%nat /\ c_str (name t) = Ok str /\ (length str < 11)%nat;
  mf_tasks p : p = cur (k_sched k) \/ p ∈ thread_ready_list (k_sched k) \/ p ∈ thread_all_list (k_sched k) -> kernel_page (mem k) p;
  mf_files : files_ok (k_fs k);
  mf_process : process_ok (pgdir t) (mem k);
  mf_spare : ForkMem.spare q n 26 (length (all_used (userprog_vaddr (mem k)))) (mem k);
  mf_pages : (length (all_used (userprog_vaddr (mem k))) <= nfree (pool_bitmap (user_pool (mem k))))%nat;
  mf_base : 0x102000 <= phy_addr_start (kernel_pool (mem k))
}.

(** The child [c] at [child] with the directory [C], as the PCB and the stacks
    describe it. *)
Record child_of (t : task_struct) (i : intr_stack) (str : list Z) (intr_exit child C : Z) (c : task_struct) k k' : Prop := {
  co_task : tasks (k_sched k') !! child = Some c;
  co_parent : parent_pid c = pid t;
  co_ready : status c = TASK_READY /\ ticks c = u8 (priority t) /\ elapsed_ticks c = 0;
  co_name : c_str (name c) = Ok (str ++ fork_suffix);
  co_files : Sched.fd_table c = Inode.fd_table (k_fs k) /\ Sched.cwd_inode_nr c = Inode.cwd_inode_nr (k_fs k);
  co_intr : k_intr k' !! child = Some (set_eax 0 i);
  co_switch : k_switch k' !! child = Some (mk_tstack 0 0 0 0 intr_exit) /\ self_kstack c = u32 (child + 4096 - 76 - 20);
  co_pool : k_vaddr k' !! child = Some (userprog_vaddr (mem k));
  co_dir : translate (mm (mem k')) (pgdir c) = Some C
}.

Lemma build_child_stack_run k intr_exit child i c : k_intr k !! child = Some i -> tasks (k_sched k) !! child = Some c ->
  exists k', build_child_stack intr_exit child k = Ok (0, k') /\ others_kept child k k' /\ mem k' = mem k /\ k_fs k' = k_fs k /\ k_vaddr k' = k_vaddr k /\ k_descs k' = k_descs k /\
    pid_bitmap (k_sched k') = pid_bitmap (k_sched k) /\ k_intr k' !! child = Some (set_eax 0 i) /\ k_switch k' !! child = Some (mk_tstack 0 0 0 0 intr_exit) /\
    tasks (k_sched k') !! child = Some (set_self_kstack (u32 (child + 4096 - 76 - 20)) c).
Proof.
  intros Hi Hc. eexists. split.
  { unfold build_child_stack. rewrite getS_bind. mrun (the_run (k_intr k) _ i k Hi). rewrite !modS_bind. erewrite mbindM_Ok by (apply upd_child; exact Hc). reflexivity. }
  split; [split; try done|].
  - intros p Hp. cbn. by rewrite lookup_insert_ne by congruence.
  - intros p Hp. cbn. by rewrite lookup_insert_ne by congruence.
  - do 5 (split; [done|]). split; [apply lookup_insert_eq|]. split; apply lookup_insert_eq.
Qed.

Lemma copy_process_run q n t str k intr_exit rc i m1 rb m2 rv m3 rd m4 m5 m6 C : tasks (k_sched k) !! cur (k_sched k) = Some t -> (q + rc) * 4096 <> cur (k_sched k) ->
  k_intr k !! cur (k_sched k) = Some i -> is_Some (k_bits k !! cur (k_sched k)) -> pids_ok (pid_bitmap (k_sched k)) ->
  length (name t) = 16%nat /\ c_str (name t) = Ok str /\ (length str < 11)%nat -> files_ok (k_fs k) -> 0xC0000 <= q -> 0 <= rb -> 0 <= rv -> 0 <= rd ->
  mem k = m1 -> get_kernel_pages 1 m1 = Ok ((q + rb) * 4096, m2) -> get_kernel_pages 23 m2 = Ok ((q + rv) * 4096, m3) -> create_page_dir m3 = Ok ((q + rd) * 4096, m4) ->
  copy_body_stack3 ((q + rd) * 4096) (pgdir t) (userprog_vaddr m4) ((q + rb) * 4096) m4 = Ok (tt, m5) -> mfree_page PF_KERNEL ((q + rb) * 4096) 1 m5 = Ok (tt, m6) ->
  userprog_vaddr m2 = n -> translate (mm m6) ((q + rd) * 4096) = Some C ->
  exists p c k', copy_process intr_exit ((q + rc) * 4096) (cur (k_sched k)) k = Ok (0, k') /\ others_kept ((q + rc) * 4096) k k' /\ mem k' = m6 /\ 
    tasks (k_sched k') !! ((q + rc) * 4096) = Some c /\ pid c = p + 1 /\ pid_taken (pid_bitmap (k_sched k)) (pid_bitmap (k_sched k')) p /\
    parent_pid c = pid t /\ (status c = TASK_READY /\ ticks c = u8 (priority t) /\ elapsed_ticks c = 0) /\ c_str (name c) = Ok (str ++ fork_suffix) /\
    (Sched.fd_table c = Inode.fd_table (k_fs k) /\ Sched.cwd_inode_nr c = Inode.cwd_inode_nr (k_fs k)) /\ k_intr k' !! ((q + rc) * 4096) = Some (set_eax 0 i) /\
    (k_switch k' !! ((q + rc) * 4096) = Some (mk_tstack 0 0 0 0 intr_exit) /\ self_kstack c = u32 ((q + rc) * 4096 + 4096 - 76 - 20)) /\ k_vaddr k' !! ((q + rc) * 4096) = Some n /\
    pgdir c = (q + rd) * 4096 /\ held (k_fs k) (drop 3 (Inode.fd_table (k_fs k))) (k_fs k').
Proof.
  intros Ht Hne Hi [bp Hb] Hp (Hn1 & Hn2 & Hn3) Hf Hq Hrb Hrv Hrd Em E2 E3 E4 E5 E6 Hv TC. set (child := (q + rc) * 4096) in *.
  assert (forall r, 0 <= r -> (q + r) * 4096 <> NULL) as Hnn by (intros r Hr; unfold NULL; lia).
  set (k1 := set_mem m2 k).
  destruct (copy_pcb_run k1 child t str i bp ((q + rv) * 4096) m3 Ht Hne Hi Hb Hp Hn1 Hn2 Hn3 E3 (Hnn rv Hrv))
    as (p & c & k2 & X2 & O2 & M2 & F2 & T2 & I2 & V2 & _ & D2 & P2 & c1 & c2 & c3 & c4 & c5 & c6 & c7 & c8 & c9 & c10).
  set (k3 := set_mem m4 k2). set (c' := set_pgdir ((q + rd) * 4096) c).
  set (k4 := set_k_sched (set_tasks (<[child := c']> (tasks (k_sched k3))) (k_sched k3)) k3). set (k5 := set_mem m5 k4).
  assert (tasks (k_sched k5) !! child = Some c') as T5 by (apply lookup_insert_eq).
  destruct (build_child_stack_run k5 intr_exit child i c' I2 T5) as (k6 & X6 & O6 & M6 & F6 & V6 & D6 & P6 & I6 & S6 & T6).
  destruct (open_cnts_loop_run (k_fs k) 5 3 [] (k_fs k) Hf (held_nil _ Hf) ltac:(lia) ltac:(lia) eq_refl) as (f' & X7 & Hh).
  assert (k_fs k6 = k_fs k) as Ef by (rewrite F6; exact F2). set (k7 := set_k_fs f' k6). set (k8 := set_mem m6 k7).
  assert (others_kept child k2 k5) as O25 by (split; try done; intros x Hx; cbn; by rewrite lookup_insert_ne by congruence).
  assert (others_kept child k k6) as O06 by (transitivity k1; [apply others_set_mem|transitivity k2; [done|transitivity k5; done]]).
  exists p, (set_self_kstack (u32 (child + 4096 - 76 - 20)) c'), k8. split.
  { unfold copy_process. erewrite mbindM_Ok by (apply on_memory_run; rewrite Em; exact E2). unfold NULL. destruct (Z.eqb_spec ((q + rb) * 4096) 0); [lia|]. fold k1.
    change (cur (k_sched k)) with (cur (k_sched k1)). mrun X2. cbn [Z.eqb Z.opp]. change (0 =? -1) with false. cbv iota.
    erewrite mbindM_Ok by (apply on_memory_run; rewrite M2; exact E4). fold k3. erewrite mbindM_Ok by (apply (upd_child k3 child _ c); exact T2). fold c' k4.
    destruct (Z.eqb_spec ((q + rd) * 4096) 0); [lia|].
    assert (tasks (k_sched k4) !! cur (k_sched k1) = Some t) as Ht4.
    { cbn [k4 k_sched set_k_sched set_tasks tasks]. rewrite lookup_insert_ne by exact Hne. change (tasks (k_sched k2) !! cur (k_sched k1) = Some t).
      rewrite (ok_tasks _ _ _ O2) by (intros E; by apply Hne). exact Ht. }
    mrun (get_child k4 _ t Ht4). rewrite getS_bind. erewrite mbindM_Ok by (apply on_memory_run; exact E5). fold k5. mrun X6.
    erewrite mbindM_Ok.
    2:{ unfold update_inode_open_cnts. mrun (get_child k6 child _ T6). apply on_fs_run. rewrite Ef. replace (Sched.fd_table (set_self_kstack (u32 (child + 4096 - 76 - 20)) c')) with (Inode.fd_table (k_fs k)) by done. exact X7. }
    fold k7. erewrite mbindM_Ok by (apply on_memory_run; change (mem k7) with (mem k6); rewrite M6; exact E6). done. }
  split; [transitivity k6; [done|split; done]|]. split; [done|]. split; [exact T6|]. split; [exact c1|].
  split; [cbn [k8 set_mem set_k_sched k_sched set_pages pid_bitmap k7 set_k_fs]; rewrite P6; exact P2|]. split; [exact c2|]. split; [done|]. split; [exact c7|]. split; [done|]. split; [exact I6|].
  split; [split; [exact S6|done]|]. split; [cbn [k8 k7 set_mem set_k_sched set_k_fs k_vaddr]; rewrite V6; cbn; rewrite V2; by f_equal|]. split; [done|]. exact Hh.
Qed.

End Child.

(** ** Witness: a process with one page *)

Definition fork_mmu : mmu := mk_mmu
  (<[0x100000 + 1023 * 4 := 0x100007]> (<[0x100000 + 768 * 4 := 0x101007]> (<[0x100000 + 32 * 4 := 0x102007]>
     (<[0x101000 := 0x100007]> (<[0x102000 + 72 * 4 := 0x240007]> ∅))))) 0x100000.

Lemma fork_pde d : 0 <= d < 1023 -> d <> 768 -> d <> 32 -> pde fork_mmu d = 0.
Proof. intros Hd H1 H2. unfold pde, pread, fork_mmu. cbn [pmem Paging.cr3]. by rewrite !lookup_insert_ne by lia. Qed.

Lemma fork_pde_cases d : 0 <= d < 1023 -> present (pde fork_mmu d) = true -> d = 768 /\ frame_of (pde fork_mmu d) = 0x101000 \/ d = 32 /\ frame_of (pde fork_mmu d) = 0x102000.
Proof.
  intros Hd Hp. destruct (Z.eq_dec d 768) as [->|H1]; [by left|]. destruct (Z.eq_dec d 32) as [->|H2]; [by right|]. by rewrite fork_pde in Hp.
Qed.

Lemma fork_mmu_wf : pt_wf fork_mmu.
Proof.
  split; [split; [exists 0x100; split; [reflexivity|lia]| |reflexivity|reflexivity]| |].
  - intros a w Hw. unfold fork_mmu in Hw. cbn [pmem] in Hw. repeat (apply lookup_insert_Some in Hw as [[_ <-]|[_ Hw]]; [lia|]). by rewrite lookup_empty in Hw.
  - intros d Hd Hp. destruct (fork_pde_cases d Hd Hp) as [[_ ->]|[_ ->]]; discriminate.
  - intros d d' Hd Hd' Hp Hp'. destruct (fork_pde_cases d Hd Hp) as [[-> ->]|[-> ->]], (fork_pde_cases d' Hd' Hp') as [[-> ->]|[-> ->]]; done.
Qed.

Definition fork_mem : memst := mk_memst fork_mmu
  (mk_pool (mk_bitmap 8 (replicate 9 0)) 0x200000 0x40000 0)
  (mk_pool (mk_bitmap 8 (1 :: replicate 8 0)) 0x240000 0x40000 0)
  (mk_vaddr (mk_bitmap 4 (1 :: replicate 4 0)) 0xC0200000)
  (mk_vaddr (mk_bitmap 1 [1; 0]) 0x8048000) 0xC0000000.

Lemma small_map_wf n l : (n <= length l)%nat -> (n < 1000)%nat -> Forall is_byte l -> bitmap_wf (mk_bitmap (Z.of_nat n) l).
Proof. intros Hn Hk Hl. split; cbn [btmp_bytes_len bits]; [lia|change (2 ^ 31) with 2147483648; lia|lia|done]. Qed.

Lemma fork_bytes n : Forall is_byte (1 :: replicate n 0).
Proof. constructor; [unfold is_byte; lia|]. apply Forall_replicate. unfold is_byte. lia. Qed.

Lemma fork_mem_wf : mem_wf fork_mem.
Proof.
  assert (forall pf f, frame_free (pool_of pf fork_mem) f -> 0x200000 <= f) as Hge.
  { intros pf f (i & Hi & -> & _). destruct pf; unfold frames, nbits in Hi; cbn in *; lia. }
  split; cbn [fork_mem mm kernel_pool user_pool].
  - apply fork_mmu_wf.
  - split; [apply (demo_zero_map 8 9); lia|]. exists 512. unfold frames, nbits. cbn. lia.
  - split; [apply (small_map_wf 8); [cbn; lia|lia|apply fork_bytes]|]. exists 576. unfold frames, nbits. cbn. lia.
  - unfold frames, nbits. cbn. lia.
  - intros pf d Hd Hp Hf. apply Hge in Hf. destruct (fork_pde_cases d Hd Hp) as [[_ E]|[_ E]]; rewrite E in Hf; lia.
  - intros pf Hf. apply Hge in Hf. vm_compute in Hf. by apply Hf.
Qed.

Lemma fork_spare : ForkMem.spare 0xC0200 1 26 1 fork_mem.
Proof.
  split; [apply fork_mem_wf| |reflexivity|lia|unfold nbits; cbn; lia| | |cbn; lia].
  - split; cbn [fork_mem vaddr_of kernel_vaddr vaddr_bitmap vaddr_start mm].
    + apply (small_map_wf 4); [cbn; lia|lia|apply fork_bytes].
    + cbn. lia.
    + exists 0xC0200. unfold nbits. cbn. lia.
    + unfold nbits. cbn [btmp_bytes_len]. intros i Hi _.
      pose proof (forall_range_dec (fun i => bool_decide (translate fork_mmu (0xC0200000 + i * 4096) = None)) 32 eq_refl i ltac:(lia)) as E. by apply bool_decide_eq_true in E.
  - intros j Hj. pose proof (forall_range_dec (fun i => negb (bit_used (vaddr_bitmap (kernel_vaddr fork_mem)) (i + 1))) 26 eq_refl (j - 1) ltac:(lia)) as E.
    apply negb_true_iff in E. by replace (j - 1 + 1) with j in E by lia.
  - split; vm_compute; lia.
Qed.

Lemma fork_process_ok : process_ok 0xC0000000 fork_mem.
Proof.
  split.
  - split; [split; [lia|vm_compute; split; [discriminate|reflexivity]]|reflexivity].
  - split; [apply (demo_bitmap_wf 1); lia|]. exists 0x8048. unfold nbits. cbn. lia.
  - intros va Hin. assert (va = 0x8048000) as -> by (by apply list_elem_of_singleton). exists 0x240000. split; [reflexivity|]. split; [exists 0x240; lia|]. split.
    + split; [discriminate|]. intros d Hd Hp. destruct (fork_pde_cases d Hd Hp) as [[_ E]|[_ E]]; change (mm fork_mem) with fork_mmu; rewrite E; discriminate.
    + intros [] (i & Hi & E & Hu); unfold frames, nbits in Hi; cbn in *; [lia|]. assert (i = 0) as -> by lia. discriminate.
  - cbn. lia.
Qed.

Definition fork_task : task_struct :=
  mk_task 0xC0201000 1 TASK_RUNNING (97 :: replicate 15 0) 8 8 3 0xC0000000 ([0; 1; 2] ++ replicate 5 (-1)) 0 0 0 STACK_MAGIC.
Definition fork_sched : @sched memst :=
  mk_sched fork_mem {[0xC0200000 := fork_task]} [] [0xC0200000] 0xC0200000 0 0 (mk_bitmap 128 (1 :: replicate 127 0)) ∅ ∅ ∅ 0x2 7 0 0.
Definition fork_kernel : kernel bump :=
  mk_kernel fork_sched demo_fs {[0xC0200000 := 0xC0300000]} ∅ ∅ {[0xC0200000 := mk_intr 0x80 1 2 3 4 5 6 7 8 9 10 11 12 0 14 15 16 17 18]} ∅.

Lemma fork_may_fork : may_fork 0xC0200 1 fork_task [97] fork_kernel.
Proof.
  split.
  - reflexivity.
  - reflexivity.
  - discriminate.
  - eexists. reflexivity.
  - eexists. reflexivity.
  - split; [apply (small_map_wf 128); [cbn; lia|lia|apply fork_bytes]|]. split; [unfold nbits; cbn; lia|]. exists 1. unfold nbits. cbn. split; [lia|reflexivity].
  - split; [reflexivity|]. split; [reflexivity|cbn; lia].
  - intros p Hp. assert (p = 0xC0200000) as -> by (destruct Hp as [Hp|[Hp|Hp]]; [done|by apply not_elem_of_nil in Hp|by apply list_elem_of_singleton in Hp]).
    exists 0. unfold nbits. cbn. split; [lia|]. split; [lia|reflexivity].
  - split; [reflexivity|reflexivity|..].
    + intros g Hg. left. cbn in Hg. by repeat (apply elem_of_cons in Hg as [->|Hg]; [done|]); apply not_elem_of_nil in Hg.
    + intros fl Hfl. apply elem_of_replicate in Hfl as [-> _]. unfold u32_ok. cbn. lia.
    + intros p i Hi. cbn in Hi. by rewrite lookup_empty in Hi.
  - exact fork_process_ok.
  - exact fork_spare.
  - vm_compute. lia.
  - cbn. lia.
Qed.


(** The names grow with every generation: the child of a child of a child of a
    process whose name has one letter cannot be made, the kernel stops in the
    assertion before [strcat]. *)
Theorem third_generation_panics c0 : c0 <> 0 ->
  exists n1 n2, fork_name (c0 :: replicate 15 0) = Ok n1 /\ fork_name n1 = Ok n2 /\
    fork_name n2 = Panic "copy_pcb_vaddrbitmap_stack0: strlen(child_thread->name) < 11".
Proof.
  intros Hc. eexists _, _. unfold fork_name. cbn [c_str app replicate]. destruct (Z.eqb_spec c0 0); [done|]. cbn.
  split; [reflexivity|]. cbn. destruct (Z.eqb_spec c0 0); [done|]. cbn. split; [reflexivity|]. cbn. destruct (Z.eqb_spec c0 0); [done|]. reflexivity.
Qed.
