(* ===== verification/ExitSpec.v ===== *)
(** * What exit gives back (theorems on [Proc.release_prog_resource])

    The loops over the page directory and the page tables of a process return
    every frame of its part of the space, and the page tables themselves. *)

From S2P Require Import Prelude Bitmap Paging Memory Process Fork Proc.

(** [s'] is [s] with the frames [F] given back. *)
Record given_back (F : Z -> Prop) (s s' : memst) : Prop := {
  gb_mm : mm s' = mm s;
  gb_pools : pools_wf s';
  gb_in pf x : in_pool (pool_of pf s') x <-> in_pool (pool_of pf s) x;
  gb_free pf x : frame_free (pool_of pf s') x <-> frame_free (pool_of pf s) x \/ (in_pool (pool_of pf s) x /\ F x);
  gb_kv : kernel_vaddr s' = kernel_vaddr s;
  gb_uv : userprog_vaddr s' = userprog_vaddr s
}.

Lemma given_back_nil s : pools_wf s -> given_back (fun _ => False) s s.
Proof. intros H. split; try done. intros pf x. tauto. Qed.
Lemma given_back_trans F G s1 s2 s3 : given_back F s1 s2 -> given_back G s2 s3 -> given_back (fun x => F x \/ G x) s1 s3.
Proof.
  intros [A1 A2 A3 A4 A5 A6] [B1 B2 B3 B4 B5 B6]. split; [congruence|done| | |congruence..].
  - intros pf x. by rewrite B3.
  - intros pf x. rewrite B4, A4, A3. tauto.
Qed.
Lemma given_back_ext F G s s' : (forall x, F x <-> G x) -> given_back F s s' -> given_back G s s'.
Proof. intros E [A1 A2 A3 A4 A5 A6]. split; try done. intros pf x. by rewrite A4, E. Qed.

(** A frame of one of the pools. *)
Definition pooled (s : memst) (x : Z) : Prop := exists pf, in_pool (pool_of pf s) x.
Lemma pooled_back F s s' x : given_back F s s' -> pooled s x -> pooled s' x.
Proof. intros G [pf Hx]. exists pf. by apply (gb_in _ _ _ G). Qed.

Lemma in_pool_disjoint s x : pools_wf s -> in_pool (kernel_pool s) x -> ~ in_pool (user_pool s) x.
Proof. intros (_ & _ & Hd) (i & Hi & ->) (j & Hj & E). lia. Qed.

Lemma free_one_run s x : pools_wf s -> pooled s x -> exists s', free_a_phy_page x s = Ok (tt, s') /\ given_back (eq x) s s'.
Proof.
  intros Hw [pf Hin]. destruct (free_page_run pf s x Hw Hin) as (b' & _ & E & Hp & Hf & Hx). cbn zeta in *.
  set (s' := set_pool pf (set_pool_bitmap b' (pool_of pf s)) s) in *.
  assert (forall pf', pf' <> pf -> pool_of pf' s' = pool_of pf' s) as Ho by (intros pf' Hne; by destruct pf, pf').
  assert (forall pf' y, in_pool (pool_of pf' s') y <-> in_pool (pool_of pf' s) y) as Hi.
  { intros pf' y. assert (pf' = pf \/ pf' <> pf) as [->|Hne] by (destruct pf, pf'; auto); [|by rewrite Ho]. unfold in_pool. rewrite Hf. unfold s'. rewrite pool_of_set. by destruct pf. }
  exists s'. split; [exact E|]. split; [by destruct pf| |exact Hi| |by destruct pf|by destruct pf].
  - destruct Hw as (W1 & W2 & W3). destruct pf; unfold s', pools_wf in *; cbn in *; [|done]. split; [done|]. split; [done|]. unfold frames in *. cbn in *. by rewrite Hf.
  - intros pf' y. assert (pf' = pf \/ pf' <> pf) as [->|Hne] by (destruct pf, pf'; auto).
    + rewrite Hx. split; [intros [?| ->]; [by left|by right]|intros [?|[_ <-]]; [by left|by right]].
    + rewrite Ho by done. split; [by left|]. intros [?|[Hy <-]]; [done|]. exfalso. destruct pf, pf'; try done; by apply (in_pool_disjoint s x Hw).
Qed.

(** The entry [t] of the table of slot [d]. *)
Definition pte_at (m : mmu) (d t : Z) : Z := pread m (frame_of (pde m d) + t * 4).

(** The frames in the entries [j], ..., [j + n - 1] of a table. *)
Definition table_frames (m : mmu) (d j : Z) (n : nat) (x : Z) : Prop :=
  exists t, j <= t < j + Z.of_nat n /\ present (pte_at m d t) = true /\ x = frame_of (pte_at m d t).

Lemma free_ptes_run n : forall s d j, self_mapped (mm s) -> pools_wf s -> 0 <= d < 1023 -> present (pde (mm s) d) = true -> 0 <= j -> j + Z.of_nat n <= 1024 ->
  (forall x, table_frames (mm s) d j n x -> pooled s x) ->
  exists s', free_ptes n (mkva 1023 d 0) j s = Ok (tt, s') /\ given_back (table_frames (mm s) d j n) s s'.
Proof.
  induction n as [|n IH]; intros s d j Hm Hw Hd Hp Hj Hjn Hin; cbn [free_ptes].
  { exists s. split; [done|]. apply (given_back_ext (fun _ => False)); [|by apply given_back_nil]. intros x. split; [done|]. intros (t & Ht & _). lia. }
  assert (on_mmu (vload (u32 (mkva 1023 d 0 + j * 4))) s = Ok (pte_at (mm s) d j, s)) as El.
  { erewrite on_mmu_run; [by rewrite set_mm_same|]. unfold vload. rewrite wrapu_small by (unfold mkva; change (2 ^ 32) with 4294967296; lia).
    replace (mkva 1023 d 0 + j * 4) with (mkva 1023 d (j * 4)) by (unfold mkva; lia). rewrite window_translate by (done || lia). unfold pde in Hp. rewrite Hp. done. }
  mrun El.
  assert (forall x, table_frames (mm s) d j (S n) x <-> (present (pte_at (mm s) d j) = true /\ x = frame_of (pte_at (mm s) d j)) \/ table_frames (mm s) d (j + 1) n x) as Hs.
  { intros x. split.
    - intros (t & Ht & H1 & H2). destruct (Z.eq_dec t j) as [->|]; [by left|right]. exists t. split; [lia|done].
    - intros [[H1 H2]|(t & Ht & H1 & H2)]; [exists j|exists t]; (split; [lia|done]). }
  assert (exists s1, (if present (pte_at (mm s) d j) then free_a_phy_page (Z.land (pte_at (mm s) d j) 0xfffff000) else mret tt) s = Ok (tt, s1) /\
    given_back (fun x => present (pte_at (mm s) d j) = true /\ x = frame_of (pte_at (mm s) d j)) s s1) as (s1 & E1 & G1).
  { destruct (present (pte_at (mm s) d j)) eqn:Et.
    - destruct (free_one_run s (frame_of (pte_at (mm s) d j)) Hw) as (s1 & E1 & G1); [apply Hin, Hs; by left|]. exists s1. split; [exact E1|]. eapply given_back_ext; [|exact G1]. intros x. split; [by intros <-|by intros [_ ->]].
    - exists s. split; [done|]. eapply given_back_ext; [|by apply given_back_nil]. intros x. split; [done|by intros [? _]]. }
  mrun E1. pose proof (gb_mm _ _ _ G1) as Em.
  destruct (IH s1 d (j + 1)) as (s' & E' & G'); try (by rewrite Em); [apply G1|done|lia|lia| |].
  { rewrite Em. intros x Hx. apply (pooled_back _ _ _ _ G1), Hin, Hs. by right. }
  exists s'. split; [exact E'|]. rewrite Em in G'. eapply given_back_ext; [|exact (given_back_trans _ _ _ _ _ G1 G')]. intros x. cbn beta. rewrite Hs. done.
Qed.

(** The frames of slots [j], ..., [j + n - 1]: the tables and what they map. *)
Definition slot_frames (m : mmu) (j : Z) (n : nat) (x : Z) : Prop :=
  exists d, j <= d < j + Z.of_nat n /\ present (pde m d) = true /\ (x = frame_of (pde m d) \/ table_frames m d 0 1024 x).

Lemma free_pdes_run n : forall s pgdir j, self_mapped (mm s) -> pools_wf s -> aligned pgdir -> translate (mm s) pgdir = Some (cr3 (mm s)) -> 0 <= j -> j + Z.of_nat n <= 768 ->
  (forall x, slot_frames (mm s) j n x -> pooled s x) ->
  exists s', free_pdes n pgdir j s = Ok (tt, s') /\ given_back (slot_frames (mm s) j n) s s'.
Proof.
  induction n as [|n IH]; intros s pgdir j Hm Hw Ha Ht Hj Hjn Hin; cbn [free_pdes].
  { exists s. split; [done|]. apply (given_back_ext (fun _ => False)); [|by apply given_back_nil]. intros x. split; [done|]. intros (d & Hd & _). lia. }
  assert (on_mmu (vload (u32 (pgdir + j * 4))) s = Ok (pde (mm s) j, s)) as El.
  { erewrite on_mmu_run; [by rewrite set_mm_same|]. unfold vload. rewrite wrapu_small by (destruct Ha as (q & -> & ?); change (2 ^ 32) with 4294967296; lia).
    rewrite (translate_page (mm s) pgdir (j * 4) (cr3 (mm s)) Ha ltac:(lia) Ht). done. }
  mrun El.
  set (F := fun x => present (pde (mm s) j) = true /\ (x = frame_of (pde (mm s) j) \/ table_frames (mm s) j 0 1024 x)).
  assert (forall x, slot_frames (mm s) j (S n) x <-> F x \/ slot_frames (mm s) (j + 1) n x) as Hs.
  { intros x. split.
    - intros (t & Ht' & H1). destruct (Z.eq_dec t j) as [->|]; [by left|right]. exists t. split; [lia|done].
    - intros [H1|(t & Ht' & H1)]; [exists j|exists t]; (split; [lia|done]). }
  assert (exists s1, (if present (pde (mm s) j) then
             _ ← free_ptes 1024 (pte_ptr (u32 (j * 0x400000))) 0;
             free_a_phy_page (Z.land (pde (mm s) j) 0xfffff000)
           else mret tt) s = Ok (tt, s1) /\ given_back F s s1) as (s1 & E1 & G1).
  { destruct (present (pde (mm s) j)) eqn:Et.
    - destruct (free_ptes_run 1024 s j 0 Hm Hw ltac:(lia) Et ltac:(lia) ltac:(lia)) as (s0 & E0 & G0); [intros x Hx; apply Hin, Hs; left; split; [done|by right]|].
      assert (pte_ptr (u32 (j * 0x400000)) = mkva 1023 j 0) as Ep.
      { rewrite wrapu_small by (change (2 ^ 32) with 4294967296; lia). change 0x400000 with (2 ^ 22). rewrite pte_ptr_mkva by lia.
        destruct (mkva_fields j 0 0) as (_ & E1 & E2 & _); [lia..|]. replace (j * 2 ^ 22) with (mkva j 0 0) by (unfold mkva; lia). rewrite E1, E2. unfold mkva. lia. }
      rewrite Ep. mrun E0.
      destruct (free_one_run s0 (frame_of (pde (mm s) j)) (gb_pools _ _ _ G0)) as (s1 & E1 & G1); [apply (pooled_back _ _ _ _ G0), Hin, Hs; left; split; [done|by left]|].
      exists s1. split; [exact E1|]. eapply given_back_ext; [|exact (given_back_trans _ _ _ _ _ G0 G1)]. intros x. unfold F. rewrite ?Et. split; [intros [?|<-]; [split; [done|by right]|split; [done|by left]]|intros [_ [->|?]]; [by right|by left]].
    - exists s. split; [done|]. eapply given_back_ext; [|by apply given_back_nil]. intros x. unfold F. rewrite ?Et. split; [done|by intros [? _]]. }
  mrun E1. pose proof (gb_mm _ _ _ G1) as Em.
  destruct (IH s1 pgdir (j + 1)) as (s' & E' & G'); try (by rewrite Em); [apply G1|done|lia|lia| |].
  { rewrite Em. intros x Hx. apply (pooled_back _ _ _ _ G1), Hin, Hs. by right. }
  exists s'. split; [exact E'|]. rewrite Em in G'. eapply given_back_ext; [|exact (given_back_trans _ _ _ _ _ G1 G')]. intros x. cbn beta. rewrite Hs. done.
Qed.

(** The frames of the user part of the address space: those its pages are
    mapped to, and its page tables. *)
Definition user_frame (m : mmu) (x : Z) : Prop :=
  (exists va, 0 <= va < 0xC0000000 /\ aligned va /\ translate m va = Some x) \/
  (exists d, 0 <= d < 768 /\ present (pde m d) = true /\ x = frame_of (pde m d)).

Lemma user_frame_slots m x : user_frame m x <-> slot_frames m 0 768 x.
Proof.
  split.
  - intros [(va & Hv & (q & -> & Hq) & Ht)|(d & Hd & Hp & ->)]; [|exists d; split; [lia|]; split; [done|by left]].
    rewrite translate_eq in Ht. destruct (present (pde m _)) eqn:Ep; [|done]. destruct (present (pread m _)) eqn:Et; [|done].
    assert (Z.land (q * 4096) 0xFFF = 0) as E0 by (change 0xFFF with (Z.ones 12); rewrite Z.land_ones by lia; change (2 ^ 12) with 4096; apply Z.mod_mul; lia).
    rewrite E0, Z.add_0_r in Ht. injection Ht as <-. exists (PDE_IDX (q * 4096)). split; [rewrite PDE_IDX_eq by (change (2 ^ 32) with 4294967296; lia); change (2 ^ 22) with 4194304; split; [apply Z.div_pos; lia|apply Z.div_lt_upper_bound; lia]|].
    split; [exact Ep|]. right. exists (PTE_IDX (q * 4096)). split; [|done]. rewrite PTE_IDX_eq by (change (2 ^ 32) with 4294967296; lia). pose proof (Z.mod_pos_bound (q * 4096 / 4096) 1024 ltac:(lia)). lia.
  - intros (d & Hd & Hp & [->|(t & Ht & H1 & ->)]); [right; exists d; split; [lia|done]|left].
    destruct (mkva_fields d t 0) as (Hr & E1 & E2 & E3); [lia..|]. exists (mkva d t 0). split; [unfold mkva; change (2 ^ 22) with 4194304 in *; lia|].
    split; [exists (d * 1024 + t); unfold mkva; change (2 ^ 22) with 4194304; change (2 ^ 20) with 1048576; lia|].
    rewrite translate_eq, E1, E2, E3, Hp. unfold pte_at in *. rewrite H1. by rewrite Z.add_0_r.
Qed.

(** C23. When a process exits, the loops of [release_prog_resource] over its
    page directory end, and a frame is free afterwards exactly when it was free
    before or belonged to the user part of the address space, as the frame of a
    mapped page or as a page table.  The tables themselves, which the exiting
    task still runs on, are not touched. *)
Theorem release_user_space s pgdir : self_mapped (mm s) -> pools_wf s -> aligned pgdir -> translate (mm s) pgdir = Some (cr3 (mm s)) ->
  (forall x, user_frame (mm s) x -> pooled s x) ->
  exists s', free_pdes 768 pgdir 0 s = Ok (tt, s') /\ mm s' = mm s /\
    forall pf x, frame_free (pool_of pf s') x <-> frame_free (pool_of pf s) x \/ (in_pool (pool_of pf s) x /\ user_frame (mm s) x).
Proof.
  intros Hm Hw Ha Ht Hin. destruct (free_pdes_run 768 s pgdir 0 Hm Hw Ha Ht ltac:(lia) ltac:(lia)) as (s' & E & G).
  { intros x Hx. by apply Hin, user_frame_slots. }
  exists s'. split; [exact E|]. split; [exact (gb_mm _ _ _ G)|]. intros pf x. rewrite (gb_free _ _ _ G), user_frame_slots. done.
Qed.

(** A process with one page, at 0x8048000, and one page table, in the first
    frame of the pool of the kernel. *)
Definition exit_mmu : mmu := mk_mmu
  (<[0x100000 + 1023 * 4 := 0x100007]> (<[0x100000 + 768 * 4 := 0x101007]> (<[0x100000 + 32 * 4 := 0x200007]>
     (<[0x101000 := 0x100007]> (<[0x200000 + 72 * 4 := 0x240007]> ∅))))) 0x100000.
Definition exit_mem : memst := mk_memst exit_mmu
  (mk_pool (mk_bitmap 8 (1 :: replicate 8 0)) 0x200000 0x40000 0)
  (mk_pool (mk_bitmap 8 (1 :: replicate 8 0)) 0x240000 0x40000 0)
  (mk_vaddr (mk_bitmap 4 (1 :: replicate 4 0)) 0xC0200000)
  (mk_vaddr (mk_bitmap 1 [1; 0]) 0x8048000) 0xC0000000.

Lemma exit_frames x : user_frame exit_mmu x -> x = 0x200000 \/ x = 0x240000.
Proof.
  rewrite user_frame_slots. intros (d & Hd & Hp & Hx).
  destruct (Z.eq_dec d 32) as [->|Hne].
  - destruct Hx as [->|(t & Ht & H1 & ->)]; [by left|right]. destruct (Z.eq_dec t 72) as [->|Hnt]; [done|].
    unfold pte_at in H1. change (frame_of (pde exit_mmu 32)) with 0x200000 in H1. unfold pread, exit_mmu in H1. cbn [pmem] in H1. by rewrite !lookup_insert_ne in H1 by lia.
  - unfold pde, pread, exit_mmu in Hp. cbn [pmem Paging.cr3] in Hp. by rewrite !lookup_insert_ne in Hp by lia.
Qed.
Lemma exit_byte_map n : (n < 1000)%nat -> bitmap_wf (mk_bitmap (Z.of_nat n) (1 :: replicate n 0)).
Proof.
  intros Hn. split; cbn [btmp_bytes_len bits length]; rewrite ?length_replicate; change (2 ^ 31) with 2147483648; [lia..|].
  constructor; [unfold is_byte; lia|]. apply Forall_replicate. unfold is_byte. lia.
Qed.

Lemma release_user_space_witness : exists s', free_pdes 768 0xC0000000 0 exit_mem = Ok (tt, s') /\
  frame_free (kernel_pool s') 0x200000 /\ frame_free (user_pool s') 0x240000.
Proof.
  destruct (release_user_space exit_mem 0xC0000000) as (s' & E & _ & F).
  - split; [exists 0x100; split; [reflexivity|lia]| |reflexivity|reflexivity].
    intros a w Hw. cbn [exit_mem mm exit_mmu pmem] in Hw. repeat (apply lookup_insert_Some in Hw as [[_ <-]|[_ Hw]]; [lia|]). by rewrite lookup_empty in Hw.
  - split; [split; [apply (exit_byte_map 8); lia|exists 512; unfold frames, nbits; cbn; lia]|].
    split; [split; [apply (exit_byte_map 8); lia|exists 576; unfold frames, nbits; cbn; lia]|]. unfold frames, nbits. cbn. lia.
  - exists 0xC0000. split; [reflexivity|lia].
  - reflexivity.
  - intros x Hx. apply exit_frames in Hx as [->| ->]; [exists PF_KERNEL|exists PF_USER]; exists 0; unfold frames, nbits; cbn; lia.
  - exists s'. split; [exact E|]. split.
    + apply (F PF_KERNEL). right. split; [exists 0; unfold frames, nbits; cbn; lia|]. right. exists 32. split; [lia|split; reflexivity].
    + apply (F PF_USER). right. split; [exists 0; unfold frames, nbits; cbn; lia|]. left. exists 0x8048000. split; [lia|]. split; [exists 0x8048; split; [reflexivity|lia]|reflexivity].
Defined.

(** The bitmap of the pool of virtual addresses takes 23 pages of the kernel;
    [release_prog_resource] divides its length without rounding up and gives
    back one page less. *)
Theorem release_leaks_bitmap_page s bp v s' : create_user_vaddr_bitmap s = Ok (bp, v, s') ->
  btmp_bytes_len (vaddr_bitmap v) / PG_SIZE = DIV_ROUND_UP user_bytes PG_SIZE - 1.
Proof.
  unfold create_user_vaddr_bitmap. generalize (replicate (Z.to_nat (DIV_ROUND_UP user_bytes PG_SIZE * PG_SIZE)) 0) as z. intros z E.
  apply mbindM_inv in E as (p & s1 & _ & E). apply mbindM_inv in E as (u & s2 & _ & E). apply mbindM_inv in E as (b & s3 & E1 & E).
  assert (v = mk_vaddr b USER_VADDR_START) as -> by (by injection E). clear E.
  assert (btmp_bytes_len b = user_bytes) as Eb; [|cbn [vaddr_bitmap]; by rewrite Eb].
  unfold liftO, bitmap_init in E1. cbn [bits btmp_bytes_len] in E1. destruct (_ <=? _)%nat; [|done]. revert E1. generalize (replicate (Z.to_nat user_bytes) 0 ++ drop (Z.to_nat user_bytes) z). intros z' E1. by injection E1 as <- _.
Qed.
