(* ===== verification/Exec.v ===== *)
(** * Replacing the program of a process (userprog/exec.c)

    [sys_execv] loads an ELF file into the address space of the running process
    and builds the frame with which the interrupt returns to it. *)

From S2P Require Import Prelude Bitmap Interrupt Paging Memory Process Fork DList Disk Layout Inode Path Dir File Fs Arena Sched Sync Task Proc.

(** ** ELF headers *)

Record Elf32_Ehdr : Type := mk_ehdr {
  e_ident : list Z; e_type : Z; e_machine : Z; e_version : Z; e_entry : Z; e_phoff : Z; e_shoff : Z; e_flags : Z;
  e_ehsize : Z; e_phentsize : Z; e_phnum : Z; e_shentsize : Z; e_shnum : Z; e_shstrndx : Z
}.
Record Elf32_Phdr : Type := mk_phdr {
  p_type : Z; p_offset : Z; p_vaddr : Z; p_paddr : Z; p_filesz : Z; p_memsz : Z; p_flags : Z; p_align : Z
}.
Definition PT_LOAD : Z := 1.

(** The 16-bit field at byte [off]. *)
Definition half (v : Z) : list Z := le_bytes 2 v.
Definition half_at (off : nat) (buf : list Z) : Z := le_value (take 2 (drop off buf)).

Definition ehdr_bytes (h : Elf32_Ehdr) : list Z :=
  e_ident h ++ half (e_type h) ++ half (e_machine h) ++ word (e_version h) ++ word (e_entry h) ++ word (e_phoff h) ++ word (e_shoff h) ++ word (e_flags h) ++
  half (e_ehsize h) ++ half (e_phentsize h) ++ half (e_phnum h) ++ half (e_shentsize h) ++ half (e_shnum h) ++ half (e_shstrndx h).
Definition ehdr_of_bytes (b : list Z) : Elf32_Ehdr :=
  mk_ehdr (take 16 b) (half_at 16 b) (half_at 18 b) (word_at 20 b) (word_at 24 b) (word_at 28 b) (word_at 32 b) (word_at 36 b)
    (half_at 40 b) (half_at 42 b) (half_at 44 b) (half_at 46 b) (half_at 48 b) (half_at 50 b).
Definition phdr_words (h : Elf32_Phdr) : list Z :=
  [p_type h; p_offset h; p_vaddr h; p_paddr h; p_filesz h; p_memsz h; p_flags h; p_align h].
Definition phdr_bytes (h : Elf32_Phdr) : list Z := concat (word <$> phdr_words h).
Definition phdr_of_bytes (b : list Z) : Elf32_Phdr :=
  mk_phdr (word_at 0 b) (word_at 4 b) (word_at 8 b) (word_at 12 b) (word_at 16 b) (word_at 20 b) (word_at 24 b) (word_at 28 b).

Definition sizeof_Ehdr : Z := 52.
Definition sizeof_Phdr : Z := 32.

(** "\177ELF\1\1\1" *)
Definition elf_magic : list Z := [127; 69; 76; 70; 1; 1; 1].
(** The test of [load], negated. *)
Definition elf_ok (h : Elf32_Ehdr) : bool :=
  bool_decide (take 7 (e_ident h) = elf_magic) && (e_type h =? 2) && (e_machine h =? 3) && (e_version h =? 1) &&
  negb (1024 <? e_phnum h) && (e_phentsize h =? sizeof_Phdr).

(** ** Bytes in memory *)

(** Memory is words; a byte is a part of the word around it. *)
Definition byte_addr (pa : Z) : Z * nat := (pa - pa mod 4, Z.to_nat (pa mod 4)).
Definition byte_at (m : mmu) (pa : Z) : Z := let '(a, k) := byte_addr pa in nth k (word (pread m a)) 0.
Definition byte_put (m : mmu) (pa b : Z) : mmu := let '(a, k) := byte_addr pa in pwrite m a (le_value (<[k := b]> (word (pread m a)))).

Definition vload_byte (m : mmu) (va : Z) : option Z := byte_at m <$> translate m va.
Definition vstore_byte (va b : Z) : M mmu () := fun m =>
  match translate m va with Some pa => Ok (tt, byte_put m pa b) | None => Fault end.
(** Storing the bytes [l] from [va] on. *)
Fixpoint store_bytes (va : Z) (l : list Z) : M mmu () :=
  match l with
  | [] => mret tt
  | b :: l' => _ ← vstore_byte va b; store_bytes (u32 (va + 1)) l'
  end.

(** ** Loading a segment *)

Definition occupy_pages (filesz vaddr : Z) : Z :=
  let size_in_first_page := PG_SIZE - Z.land vaddr 0xfff in
  if size_in_first_page <? filesz
  then u32 (DIV_ROUND_UP (filesz - size_in_first_page) PG_SIZE + 1)
  else 1.

(** A fresh page at [vaddr_page] whatever was there; false when there is none. *)
Definition fresh_page (vaddr_page : Z) : M memst bool :=
  pde ← on_mmu (vload (pde_ptr vaddr_page));
  mapped ← (if present pde then pte ← on_mmu (vload (pte_ptr vaddr_page)); mret (present pte) else mret false);
  _ ← (if (mapped : bool) then mfree_page PF_USER vaddr_page 1 else mret tt);
  p ← get_a_page PF_USER vaddr_page;
  mret (negb (p =? NULL)).

Fixpoint fresh_pages (n : nat) (vaddr_page : Z) : M memst bool :=
  match n with
  | O => mret true
  | S n' =>
      ok ← fresh_page vaddr_page;
      if (ok : bool) then fresh_pages n' (u32 (vaddr_page + PG_SIZE)) else mret false
  end.

Section Exec.
Context {H : Type} `{HE : Heap H} `{DE : Devices H}.
#[local] Abbreviation kernel := (kernel H).

(** [sys_read] into memory at [buf]. *)
Definition read_to (fd buf count : Z) : M kernel Z :=
  '(n, data) ← on_fs (sys_read fd count);
  _ ← on_memory (on_mmu (store_bytes buf data));
  mret n.

Definition segment_load (fd offset filesz vaddr : Z) : M kernel bool :=
  ok ← on_memory (fresh_pages (Z.to_nat (occupy_pages filesz vaddr)) (Z.land vaddr 0xfffff000));
  if (ok : bool) then
    _ ← on_fs (sys_lseek fd (i32 offset) SEEK_SET);
    _ ← read_to fd vaddr filesz;
    mret true
  else mret false.

(** The loop over the program headers: false for the jumps to [done]. *)
Fixpoint load_segments (n : nat) (fd phentsize prog_header_offset : Z) : M kernel bool :=
  match n with
  | O => mret true
  | S n' =>
      _ ← on_fs (sys_lseek fd (i32 prog_header_offset) SEEK_SET);
      '(r, data) ← on_fs (sys_read fd phentsize);
      if negb (r =? phentsize) then mret false
      else
        let prog_header := phdr_of_bytes data in
        ok ← (if PT_LOAD =? p_type prog_header
              then segment_load fd (p_offset prog_header) (p_filesz prog_header) (p_vaddr prog_header)
              else mret true);
        if (ok : bool) then load_segments n' fd phentsize (u32 (prog_header_offset + phentsize)) else mret false
  end.

(** [stack1] and [stack2] are uninitialised locals of [sys_open]. *)
Definition load (stack1 stack2 pathname : list Z) : M kernel Z :=
  fd ← on_fs (sys_open stack1 stack2 pathname O_RDONLY);
  if fd =? -1 then mret (-1)
  else
    '(r, data) ← on_fs (sys_read fd sizeof_Ehdr);
    ret ← (if negb (r =? sizeof_Ehdr) then mret (-1)
           else
             let elf_header := ehdr_of_bytes data in
             if negb (elf_ok elf_header) then mret (-1)
             else
               ok ← load_segments (Z.to_nat (e_phnum elf_header)) fd (e_phentsize elf_header) (e_phoff elf_header);
               mret (if (ok : bool) then i32 (e_entry elf_header) else -1));
    _ ← on_fs (sys_close fd);
    mret ret.

(** ** execv *)

(** [while (argv[argc]) argc++], the array in the memory of the process. *)
Fixpoint count_args (fuel : nat) (argv argc : Z) : M mmu Z :=
  match fuel with
  | O => fun _ => NoFuel
  | S f => w ← vload (u32 (argv + argc * 4)); if w =? 0 then mret argc else count_args f argv (u32 (argc + 1))
  end.

(** The frame for the new program; [vec_no] and [err_code] stay. *)
Definition exec_frame (entry_point argv argc : Z) (i : intr_stack) : intr_stack :=
  mk_intr (vec_no i) 0 0 0 0 argv 0 argc 0 SELECTOR_U_DATA SELECTOR_U_DATA SELECTOR_U_DATA SELECTOR_U_DATA
    (err_code i) entry_point SELECTOR_U_CODE EFLAGS_user (USER_STACK3_VADDR + PG_SIZE) SELECTOR_U_DATA.

(** [path] is the memory from the address of the path name on.  [None] is the
    return of -1; [Some i] is the jump to [intr_exit] with frame [i]. *)
Definition sys_execv (fuel : nat) (stack1 stack2 path : list Z) (argv : Z) : M kernel (option intr_stack) :=
  argc ← on_memory (on_mmu (count_args fuel argv 0));
  cur ← on_sched running_thread;
  k ← getS;
  descs ← the (k_descs k) cur;
  _ ← modS (fun k => set_k_descs (<[cur := (fun d => mk_desc (block_size d) (blocks_per_arena d) []) <$> descs]> (k_descs k)) k);
  pathname ← liftO (c_str path);
  entry_point ← load stack1 stack2 pathname;
  if entry_point =? -1 then mret None
  else
    _ ← on_sched (upd_task cur (set_name (take 15 path ++ [0])));
    k ← getS;
    i ← the (k_intr k) cur;
    let intr_0_stack := exec_frame (u32 entry_point) argv argc i in
    _ ← modS (fun k => set_k_intr (<[cur := intr_0_stack]> (k_intr k)) k);
    mret (Some intr_0_stack).

End Exec.
