(* ===== verification/ExecSpec.v ===== *)
(** * What execv loads (theorems on [Exec])

    A segment gets fresh pages, wherever pages of the old program were, and
    the bytes of the file; the rest of the space stays as it is. *)

From S2P Require Import Prelude Bitmap Paging Memory PageAlloc Process Disk Layout Inode Path Dir File Contents Fs Arena Sched Task Proc ForkSpec ExitSpec Exec.

(** ** The pages of a process *)

(** Page [i] of the pool of virtual addresses. *)
Definition upage (s : memst) (i : Z) : Z := vaddr_start (userprog_vaddr s) + i * 4096.
Definition upages (s : memst) : Z := nbits (vaddr_bitmap (userprog_vaddr s)).

Record process (s : memst) : Prop := {
  pr_mem : mem_wf s;
  pr_vaddr : vaddr_wf PF_USER s;
  pr_pgdir : cur_pgdir s <> NULL;
  pr_holds : 0 <= holds (user_pool s);
  pr_low : 0x102000 <= phy_addr_start (kernel_pool s);
  pr_frame i f : 0 <= i < upages s -> translate (mm s) (upage s i) = Some f -> in_pool (user_pool s) f /\ data_frame s f /\ ~ frame_free (user_pool s) f;
  pr_inj i j f : 0 <= i < upages s -> 0 <= j < upages s -> translate (mm s) (upage s i) = Some f -> translate (mm s) (upage s j) = Some f -> i = j
}.

(** More free frames make more free bits. *)
Lemma nfree_mono p p' : phy_addr_start p' = phy_addr_start p -> (forall x, frame_free p x -> frame_free p' x) ->
  (nfree (pool_bitmap p) <= nfree (pool_bitmap p'))%nat.
Proof.
  intros Hs Hf. unfold nfree. apply submseteq_length, NoDup_submseteq; [apply NoDup_filter, NoDup_seqZ|].
  intros i [Hu Hi%elem_of_seqZ]%list_elem_of_filter. destruct (Hf (phy_addr_start p + i * 4096)) as (j & Hj & E & Hu'); [exists i; unfold frames; split; [lia|done]|].
  apply list_elem_of_filter. unfold frames in Hj. assert (j = i) as -> by lia. split; [done|]. apply elem_of_seqZ. lia.
Qed.

Lemma user_not_kernel_free s x : mem_wf s -> in_pool (user_pool s) x -> ~ frame_free (kernel_pool s) x.
Proof. intros Hw Hx (i & Hi & E & _). apply (in_pool_disjoint s x (mem_wf_pools _ Hw)); [by exists i|done]. Qed.

(** What a step that gives page [i] a new frame leaves alone. *)
Record remapped (i : Z) (s s' : memst) : Prop := {
  rm_start : vaddr_start (userprog_vaddr s') = vaddr_start (userprog_vaddr s);
  rm_pages : upages s' = upages s;
  rm_other p : 0 <= p < 0xFFC00 -> p * 4096 <> upage s i -> translate (mm s') (p * 4096) = translate (mm s) (p * 4096);
  rm_kpool pf : phy_addr_start (pool_of pf s') = phy_addr_start (pool_of pf s);
  rm_pgdir : cur_pgdir s' = cur_pgdir s;
  rm_room n : room PF_USER (S n) s -> room PF_USER n s';
  rm_words j f o : 0 <= j < upages s -> j <> i -> translate (mm s) (upage s j) = Some f -> 0 <= o < 4096 -> pread (mm s') (f + o) = pread (mm s) (f + o)
}.

(** An unmapped page gets a frame. *)
Lemma map_user_page s i : process s -> 0 <= i < upages s -> translate (mm s) (upage s i) = None -> room PF_USER 1 s ->
  exists s' f, get_a_page PF_USER (upage s i) s = Ok (upage s i, s') /\ process s' /\ translate (mm s') (upage s i) = Some f /\ remapped i s s'.
Proof.
  intros [P1 P2 P3 P4 P5 P6 P7] Hi Ht Hr. pose proof (vw_start _ _ P2) as (q & Hq & Hq0 & Hq1). cbn [vaddr_of] in *. fold (upages s) in Hq1.
  destruct (get_a_page_run s i P1 P2 P3 Hi Ht Hr P4) as (s' & f & E & W & V & F & T & _ & O & K & N & D & R & Es & En & Wk).
  fold (upage s i) in *. unfold upages in *. pose proof (kp_free _ _ K PF_USER) as Kf. pose proof (kp_start _ _ K) as Ks. pose proof (kp_frames _ _ K) as Kr. cbn [pool_of] in Kf.
  assert (forall j, 0 <= j < nbits (vaddr_bitmap (userprog_vaddr s)) -> j <> i -> translate (mm s') (upage s' j) = translate (mm s) (upage s j)) as Ho.
  { intros j Hj Hne. unfold upage. rewrite Es. apply O; [lia| |].
    - rewrite Hq. replace (q * 4096 + j * 4096) with ((q + j) * 4096) by lia. apply page_not_window. lia.
    - unfold same_page, upage. rewrite Hq. replace (q * 4096 + j * 4096) with ((q + j) * 4096) by lia. replace (q * 4096 + i * 4096) with ((q + i) * 4096) by lia. rewrite !Z.div_mul by lia. lia. }
  assert (upage s' i = upage s i) as Eui by (unfold upage; by rewrite Es).
  assert (forall x, in_pool (user_pool s') x <-> in_pool (user_pool s) x) as Hin.
  { intros x. unfold in_pool. assert (phy_addr_start (user_pool s') = phy_addr_start (user_pool s)) as -> by exact (Ks PF_USER). by assert (frames (user_pool s') = frames (user_pool s)) as -> by exact (Kr PF_USER). }
  exists s', f. split; [exact E|]. split; [split; try done|].
  - by rewrite (kp_pgdir _ _ K).
  - assert (holds (user_pool s') = holds (user_pool s)) as -> by exact (kp_holds _ _ K PF_USER). done.
  - assert (phy_addr_start (kernel_pool s') = phy_addr_start (kernel_pool s)) as -> by exact (Ks PF_KERNEL). done.
  - intros j g Hj Hg. unfold upages in Hj. rewrite En in Hj. rewrite Hin. destruct (Z.eq_dec j i) as [->|Hne].
    + rewrite Eui in Hg. assert (g = f) as -> by congruence. split; [|done]. destruct F as (l & Hl & -> & _). by exists l.
    + rewrite Ho in Hg by done. destruct (P6 j g Hj Hg) as (G1 & G2 & G3). split; [done|]. split; [|intros X; by apply G3, Kf].
      apply (data_frame_keeps _ _ _ K); [exact G2|]. exact (user_not_kernel_free s g P1 G1).
  - intros j l g Hj Hl Hgj Hgl. unfold upages in *. rewrite En in *.
    assert (forall j g, 0 <= j < nbits (vaddr_bitmap (userprog_vaddr s)) -> j <> i -> translate (mm s') (upage s' j) = Some g -> g <> f) as Hnf.
    { intros j' g' Hj' Hne Hg' ->. rewrite Ho in Hg' by done. destruct (P6 j' f Hj' Hg') as (_ & _ & X). by apply X. }
    destruct (Z.eq_dec j i) as [->|Hj'], (Z.eq_dec l i) as [->|Hl']; [done| | |].
    + rewrite Eui in Hgj. exfalso. by apply (Hnf l g Hl Hl' Hgl); congruence.
    + rewrite Eui in Hgl. exfalso. by apply (Hnf j g Hj Hj' Hgj); congruence.
    + rewrite Ho in Hgj, Hgl by done. by apply (P7 j l g).
  - split; [exact T|]. split; try done.
    + intros p Hp Hne. apply O; [lia|by apply page_not_window|]. unfold same_page, upage in *. rewrite Hq in *. replace (q * 4096 + i * 4096) with ((q + i) * 4096) in * by lia. rewrite !Z.div_mul by lia. lia.
    + exact (kp_pgdir _ _ K).
    + intros j g o Hj Hne Hg Ho'. destruct (P6 j g Hj Hg) as (G1 & G2 & G3). apply Wk; [by apply (in_pool_aligned PF_USER s)|done| |done].
      intros [] X; [by apply (user_not_kernel_free s g)|by apply G3].
Qed.

(** A mapped page loses its frame. *)
Lemma unmap_user_page s i f : process s -> 0 <= i < upages s -> translate (mm s) (upage s i) = Some f ->
  exists s', mfree_page PF_USER (upage s i) 1 s = Ok (tt, s') /\ process s' /\ translate (mm s') (upage s i) = None /\
    vaddr_start (userprog_vaddr s') = vaddr_start (userprog_vaddr s) /\ upages s' = upages s /\ cur_pgdir s' = cur_pgdir s /\
    (forall p, 0 <= p < 0xFFC00 -> p * 4096 <> upage s i -> translate (mm s') (p * 4096) = translate (mm s) (p * 4096)) /\
    (forall pf, phy_addr_start (pool_of pf s') = phy_addr_start (pool_of pf s)) /\ (forall n, room PF_USER n s -> room PF_USER n s') /\
    forall g o, aligned g -> data_frame s g -> 0 <= o < 4096 -> pread (mm s') (g + o) = pread (mm s) (g + o).
Proof.
  intros [P1 P2 P3 P4 P5 P6 P7] Hi Ht. pose proof (vw_start _ _ P2) as (q & Hq & Hq0 & Hq1). cbn [vaddr_of] in *. fold (upages s) in Hq1.
  assert (forall j, upage s j = (q + j) * 4096) as Eu by (intros j; unfold upage; rewrite Hq; lia).
  destruct (P6 i f Hi Ht) as (I1 & I2 & I3).
  destruct (mfree_page_run PF_USER s q i [f] P1 P2 Hq P5) as (s' & E & W & V & _ & T & F & I & D & S' & Es & En & EC & _); [done|lia|cbn [length vaddr_of]; unfold upages in Hi; lia|by apply Forall_singleton| |].
  { intros [|j] g Hg; [|done]. injection Hg as <-. by rewrite Z.add_0_r, <- Eu. }
  cbn [length vaddr_of pool_of] in *. change (Z.of_nat 1) with 1 in *. destruct EC as [J1 J2 J3 J4 J5 J6]. rewrite <- Eu in E.
  assert (forall p, 0 <= p < 0xFFC00 -> p * 4096 <> upage s i -> translate (mm s') (p * 4096) = translate (mm s) (p * 4096)) as Ho.
  { intros p Hp Hne. rewrite Eu in Hne. rewrite T by done. destruct (Z.leb_spec (q + i) p), (Z.ltb_spec p (q + i + 1)); cbn [andb]; done || lia. }
  assert (forall j, upage s' j = upage s j) as Eu' by (intros j; unfold upage; by rewrite Es).
  assert (forall j, 0 <= j < upages s -> j <> i -> translate (mm s') (upage s' j) = translate (mm s) (upage s j)) as Hoj.
  { intros j Hj Hne. rewrite Eu', Eu. apply Ho; [lia|]. rewrite Eu. lia. }
  assert (translate (mm s') (upage s i) = None) as Hn.
  { rewrite Eu, T by lia. destruct (Z.leb_spec (q + i) (q + i)), (Z.ltb_spec (q + i) (q + i + 1)); cbn [andb]; done || lia. }
  exists s'. split; [exact E|]. split; [split; try done|split; [exact Hn|split; [done|split; [exact En|split; [done|split; [exact Ho|split; [exact S'|split]]]]]]].
  - by rewrite J5.
  - assert (holds (user_pool s') = holds (user_pool s)) as -> by exact (J6 PF_USER). done.
  - assert (phy_addr_start (kernel_pool s') = phy_addr_start (kernel_pool s)) as -> by exact (S' PF_KERNEL). done.
  - intros j g Hj Hg. unfold upages in Hj. rewrite En in Hj. destruct (Z.eq_dec j i) as [->|Hne]; [rewrite Eu' in Hg; congruence|].
    rewrite Hoj in Hg by done. destruct (P6 j g Hj Hg) as (G1 & G2 & G3). split; [by apply I|]. split; [by apply D|].
    intros [X| ->%list_elem_of_singleton]%F; [done|]. apply Hne. by apply (P7 j i f).
  - intros j l g Hj Hl Hgj Hgl. unfold upages in *. rewrite En in *.
    destruct (Z.eq_dec j i) as [->|Hj']; [rewrite Eu' in Hgj; congruence|]. destruct (Z.eq_dec l i) as [->|Hl']; [rewrite Eu' in Hgl; congruence|].
    rewrite Hoj in Hgj, Hgl by done. by apply (P7 j l g).
  - intros n [R1 R2]. split; cbn [pool_of] in *.
    + pose proof (nfree_mono (user_pool s) (user_pool s') (S' PF_USER) ltac:(intros x Hx; apply F; by left)). lia.
    + assert (kernel_pool s' = kernel_pool s) as -> by exact (J4 PF_KERNEL ltac:(discriminate)). lia.
  - intros g o Hg [D1 D2] Ho'. apply J3. intros j Hj Hin. assert (j = 0) as -> by lia. rewrite Z.add_0_r in Hin.
    assert (0 <= (q + i) * 4096 < 2 ^ 32) as Hr by (change (2 ^ 32) with 4294967296; lia). pose proof (PDE_IDX_range _ Hr). pose proof (page_not_window (q + i) ltac:(lia)).
    rewrite Eu, translate_eq in Ht. destruct (present (pde (mm s) (PDE_IDX ((q + i) * 4096)))) eqn:Ep; [|done].
    apply (D2 (PDE_IDX ((q + i) * 4096))); [lia|done|]. assert (aligned (frame_of (pde (mm s) (PDE_IDX ((q + i) * 4096))))) as Hal by (apply frame_aligned, pread_range, P1).
    destruct (aligned_same_page g _ o (g + o - frame_of (pde (mm s) (PDE_IDX ((q + i) * 4096)))) Hg Hal) as [E' _]; [lia|lia|lia|done].
Qed.

(** Whether a page is mapped, as [segment_load] asks it. *)
Lemma mapped_run s va : mem_wf s -> 0 <= va < 2 ^ 32 -> PDE_IDX va <> 1023 ->
  forall B (k : bool -> M memst B),
  (pde ← on_mmu (vload (pde_ptr va)); mapped ← (if present pde then pte ← on_mmu (vload (pte_ptr va)); mret (present pte) else mret false); k mapped) s =
    k (bool_decide (translate (mm s) va <> None)) s.
Proof.
  intros Hw Hv Hd B k. pose proof (pw_self _ (mw_pt _ Hw)) as Hs.
  erewrite mbindM_Ok by (apply on_mmu_run; unfold vload; rewrite translate_pde by done; reflexivity). rewrite set_mm_same, translate_eq. fold (pde (mm s) (PDE_IDX va)).
  change (pread (mm s) (pde_pa (mm s) va)) with (pde (mm s) (PDE_IDX va)).
  destruct (present (pde (mm s) (PDE_IDX va))) eqn:Ep; [|by rewrite mret_bind].
  rewrite mbindM_assoc. erewrite mbindM_Ok by (apply on_mmu_run; unfold vload; rewrite translate_pte by done; unfold pde in Ep; unfold pde_pa at 1; rewrite Ep; reflexivity). rewrite set_mm_same, mret_bind.
  by destruct (present (pread (mm s) _)).
Qed.

Lemma fresh_page_run s i : process s -> 0 <= i < upages s -> room PF_USER 1 s ->
  exists s' f, fresh_page (upage s i) s = Ok (true, s') /\ process s' /\ translate (mm s') (upage s i) = Some f /\ remapped i s s'.
Proof.
  intros P Hi Hr. pose proof (vw_start _ _ (pr_vaddr _ P)) as (q & Hq & Hq0 & Hq1). cbn [vaddr_of] in *. fold (upages s) in Hq1.
  assert (upage s i = (q + i) * 4096) as Eu by (unfold upage; rewrite Hq; lia).
  unfold fresh_page. rewrite mapped_run; [|apply P|lia|rewrite Eu; apply page_not_window; lia].
  assert (negb (upage s i =? NULL) = true) as Hnn by (unfold NULL; destruct (Z.eqb_spec (upage s i) 0); [lia|done]).
  destruct (translate (mm s) (upage s i)) as [f|] eqn:Ht.
  - rewrite bool_decide_eq_true_2 by done. destruct (unmap_user_page s i f P Hi Ht) as (s1 & E1 & Q1 & T1 & S1 & N1 & G1 & O1 & K1 & R1 & W1). mrun E1.
    assert (upage s1 i = upage s i) as Eu1 by (unfold upage; by rewrite S1).
    destruct (map_user_page s1 i Q1) as (s2 & g & E2 & Q2 & T2 & [M1 M2 M3 M4 M5 M6 M7]); [by rewrite N1|by rewrite Eu1|by apply R1|]. rewrite Eu1 in *. mrun E2. rewrite Hnn.
    exists s2, g. split; [done|]. split; [done|]. split; [done|]. split; [congruence|congruence| |intros pf; by rewrite M4|congruence| |].
    + intros p Hp Hne. rewrite M3 by (rewrite ?Eu1; done). by apply O1.
    + intros n Hn. by apply M6, R1.
    + intros j h o Hj Hne Hh Ho. destruct (pr_frame _ P j h Hj Hh) as (H1 & H2 & _). assert (aligned h) as Ha by (by apply (in_pool_aligned PF_USER s); [apply P|]).
      rewrite (M7 j h o); [by apply W1|by rewrite N1|done| |done]. unfold upage in *. rewrite S1, Hq in *. replace (q * 4096 + j * 4096) with ((q + j) * 4096) in * by lia. rewrite O1; [done|lia|lia].
  - rewrite bool_decide_eq_false_2 by (intros X; by apply X). rewrite mret_bind. destruct (map_user_page s i P Hi Ht Hr) as (s2 & g & E2 & Q2 & T2 & M2). mrun E2. rewrite Hnn. by exists s2, g.
Qed.

(** The pages from [i] on, [n] of them, have new frames. *)
Record replaced (i n : Z) (s s' : memst) : Prop := {
  rp_start : vaddr_start (userprog_vaddr s') = vaddr_start (userprog_vaddr s);
  rp_pages : upages s' = upages s;
  rp_mapped j : i <= j < i + n -> exists f, translate (mm s') (upage s j) = Some f;
  rp_other p : 0 <= p < 0xFFC00 -> (forall j, i <= j < i + n -> p * 4096 <> upage s j) -> translate (mm s') (p * 4096) = translate (mm s) (p * 4096);
  rp_words j f o : 0 <= j < upages s -> ~ i <= j < i + n -> translate (mm s) (upage s j) = Some f -> 0 <= o < 4096 -> pread (mm s') (f + o) = pread (mm s) (f + o);
  rp_room k : room PF_USER (Z.to_nat n + k) s -> room PF_USER k s'
}.

Lemma fresh_pages_run n : forall s i, process s -> 0 <= i -> i + Z.of_nat n <= upages s -> room PF_USER n s ->
  exists s', fresh_pages n (upage s i) s = Ok (true, s') /\ process s' /\ replaced i (Z.of_nat n) s s'.
Proof.
  induction n as [|n IH]; intros s i P Hi Hn Hr; cbn [fresh_pages]; [exists s; split; [done|]; split; [done|]; split; try done; lia|].
  pose proof (vw_start _ _ (pr_vaddr _ P)) as (q & Hq & Hq0 & Hq1). cbn [vaddr_of] in *. fold (upages s) in Hq1.
  assert (forall j, upage s j = (q + j) * 4096) as Eu by (intros j; unfold upage; rewrite Hq; lia).
  destruct (fresh_page_run s i P ltac:(lia)) as (s1 & f & E1 & P1 & T1 & [M1 M2 M3 M4 M5 M6 M7]); [destruct Hr; split; cbn in *; lia|]. mrun E1.
  assert (forall j, upage s1 j = upage s j) as Eu1 by (intros j; unfold upage; by rewrite M1).
  replace (u32 (upage s i + PG_SIZE)) with (upage s1 (i + 1)) by (rewrite Eu1, !Eu; unfold PG_SIZE; rewrite wrapu_small by (change (2 ^ 32) with 4294967296; lia); lia).
  destruct (IH s1 (i + 1) P1 ltac:(lia) ltac:(lia) (M6 n Hr)) as (s' & E' & P' & [R1 R2 R3 R4 R5 R6]). exists s'. split; [exact E'|]. split; [done|]. split; [congruence|congruence| | | |].
  - intros j Hj. destruct (Z.eq_dec j i) as [->|Hne]; [|rewrite <- Eu1; apply R3; lia]. exists f. rewrite Eu. rewrite R4; [by rewrite <- Eu|lia|]. intros j Hj'. rewrite Eu1, Eu. lia.
  - intros p Hp Ho. rewrite R4; [apply M3; [done|]; apply Ho; lia|done|]. intros j Hj. rewrite Eu1. apply Ho. lia.
  - intros j g o Hj Hne Hg Ho. rewrite (R5 j g o); [apply (M7 j); lia || done|lia|lia| |done]. rewrite Eu1, Eu. rewrite M3; [by rewrite <- Eu|lia|]. rewrite Eu. lia.
  - intros k Hk. apply R6. rewrite Nat2Z.id in *. apply M6. exact Hk.
Qed.

(** ** Bytes *)

Lemma le_bytes_value l : Forall is_byte l -> le_bytes (length l) (le_value l) = l.
Proof.
  induction 1 as [|b l Hb Hl IH]; [done|]. unfold is_byte in Hb. cbn [length le_bytes le_value]. f_equal.
  - rewrite Z.mul_comm, Z.mod_add by lia. apply Z.mod_small. lia.
  - rewrite Z.mul_comm, Z.div_add, Z.div_small by lia. rewrite Z.add_0_l. exact IH.
Qed.
Lemma le_value_range l : Forall is_byte l -> 0 <= le_value l < 256 ^ Z.of_nat (length l).
Proof.
  induction 1 as [|b l Hb Hl IH]; [cbn; lia|]. unfold is_byte in Hb. cbn [length le_value]. rewrite Nat2Z.inj_succ, Z.pow_succ_r by lia. lia.
Qed.
Lemma le_bytes_bytes n : forall v, Forall is_byte (le_bytes n v).
Proof. induction n as [|n IH]; intros v; cbn; constructor; [|apply IH]. pose proof (Z.mod_pos_bound v 256 ltac:(lia)). unfold is_byte. lia. Qed.

(** The word around a byte after a store. *)
Lemma put_word w k b : is_byte b -> (k < 4)%nat -> word (le_value (<[k := b]> (word w))) = <[k := b]> (word w) /\ 0 <= le_value (<[k := b]> (word w)) < 2 ^ 32.
Proof.
  intros Hb Hk. assert (Forall is_byte (<[k := b]> (word w))) as Hf by (apply Forall_insert; [apply le_bytes_bytes|done]).
  assert (length (<[k := b]> (word w)) = 4%nat) as Hl by (rewrite length_insert; apply word_length). split.
  - unfold word at 1. rewrite <- Hl at 1. by apply le_bytes_value.
  - pose proof (le_value_range _ Hf) as X. rewrite Hl in X. exact X.
Qed.

Lemma byte_put_at m pa b pa' : is_byte b -> byte_at (byte_put m pa b) pa' = if decide (pa = pa') then b else byte_at m pa'.
Proof.
  intros Hb. unfold byte_at, byte_put, byte_addr. pose proof (Z.mod_pos_bound pa 4 ltac:(lia)). pose proof (Z.mod_pos_bound pa' 4 ltac:(lia)). rewrite pread_pwrite. case_decide as E.
  - destruct (put_word (pread m (pa - pa mod 4)) (Z.to_nat (pa mod 4)) b Hb ltac:(lia)) as [-> _]. rewrite !nth_lookup. case_decide as E'.
    + subst pa'. by rewrite list_lookup_insert_eq by (rewrite word_length; lia).
    + rewrite list_lookup_insert_ne by lia. by rewrite E.
  - case_decide as E'; [by subst pa'|done].
Qed.

Lemma page_aligned pa : 0 <= pa < 2 ^ 32 -> aligned (page_of pa) /\ pa = page_of pa + pa mod 4096.
Proof. intros Hp. change (2 ^ 32) with 4294967296 in Hp. unfold page_of. split; [exists (pa / 4096)|]; change (2 ^ 20) with 1048576; Z.div_mod_to_equations; lia. Qed.

Lemma differs_byte_put m pa b : 0 <= pa < 2 ^ 32 -> is_byte b -> differs (eq (page_of pa)) m (byte_put m pa b).
Proof.
  intros Hp Hb. destruct (page_aligned pa Hp) as [Ha Eo]. unfold byte_put, byte_addr. pose proof (Z.mod_pos_bound pa 4 ltac:(lia)).
  assert (pa - pa mod 4 = page_of pa + (pa mod 4096 - pa mod 4)) as -> by lia.
  apply differs_pwrite; [done| |apply put_word; [done|lia]]. pose proof (Z.mod_pos_bound pa 4096 ltac:(lia)).
  assert (pa mod 4 <= pa mod 4096); [|lia]. replace (pa mod 4) with ((pa mod 4096) mod 4) by (replace 4096 with (4 * 1024) by lia; rewrite Z.rem_mul_r by lia; rewrite Z.mul_comm, Z.mod_add by lia; apply Z.mod_mod; lia).
  apply Z.mod_le; lia.
Qed.

Lemma translate_range m va pa : pt_wf m -> translate m va = Some pa -> 0 <= pa < 2 ^ 32.
Proof.
  intros Hm. rewrite translate_eq. destruct (present _); [|done]. destruct (present _); [|done]. intros [= <-]. rewrite land_FFF. pose proof (Z.mod_pos_bound va 4096 ltac:(lia)).
  match goal with |- 0 <= frame_of (pread m ?a) + _ < _ => destruct (frame_aligned _ (pread_range m a (pw_self _ Hm))) as (q & -> & Hq) end. change (2 ^ 20) with 1048576 in Hq. change (2 ^ 32) with 4294967296. lia.
Qed.

(** The bytes from [va] on lie in data pages, each at an address of its own. *)
Record writable (m : mmu) (va n : Z) : Prop := {
  wr_range : 0 <= va /\ va + n <= 0xFFC00000;
  wr_data k : 0 <= k < n -> exists pa, translate m (va + k) = Some pa /\ ~ table_page m (page_of pa);
  wr_inj j k pa : 0 <= j < n -> 0 <= k < n -> translate m (va + j) = Some pa -> translate m (va + k) = Some pa -> j = k
}.
Definition hit (m : mmu) (va n : Z) (pa : Z) : Prop := exists k, 0 <= k < n /\ translate m (va + k) = Some pa.

Lemma store_bytes_run l : forall m va, pt_wf m -> writable m va (Z.of_nat (length l)) -> Forall is_byte l ->
  exists m', store_bytes va l m = Ok (tt, m') /\ differs (fun p => exists pa, hit m va (Z.of_nat (length l)) pa /\ p = page_of pa) m m' /\
    (forall k b, l !! k = Some b -> vload_byte m' (va + Z.of_nat k) = Some b) /\
    (forall pa, ~ hit m va (Z.of_nat (length l)) pa -> byte_at m' pa = byte_at m pa).
Proof.
  induction l as [|b l IH]; intros m va Hm Hw Hb; cbn [store_bytes]; [exists m; split; [done|]; split; [apply differs_refl|]; split; [by intros|done]|].
  apply Forall_cons in Hb as [Hb Hl]. destruct Hw as [[W1 W1'] W2 W3]. cbn [length] in *. rewrite Nat2Z.inj_succ in *. set (n := Z.of_nat (length l)) in *.
  destruct (W2 0 ltac:(lia)) as (pa & Hpa & Hnt). rewrite Z.add_0_r in Hpa. pose proof (translate_range m va pa Hm Hpa) as Hr.
  assert (vstore_byte va b m = Ok (tt, byte_put m pa b)) as E by (unfold vstore_byte; by rewrite Hpa). mrun E. set (m1 := byte_put m pa b).
  pose proof (differs_byte_put m pa b Hr Hb) as D1. fold m1 in D1.
  destruct (differs_space _ _ _ Hm D1 ltac:(by intros p <-)) as (Hm1 & Hp1 & T1).
  assert (forall k, 0 <= k < Z.succ n -> translate m1 (va + k) = translate m (va + k)) as T by (intros k Hk; apply T1; change (2 ^ 32) with 4294967296; lia).
  rewrite wrapu_small by (change (2 ^ 32) with 4294967296; lia).
  destruct (IH m1 (va + 1) Hm1) as (m' & E' & D' & B' & O'); [|done|].
  { split; [lia| |].
    - intros k Hk. destruct (W2 (k + 1) ltac:(lia)) as (x & Hx & Nx). exists x. replace (va + 1 + k) with (va + (k + 1)) by lia. rewrite T by lia. split; [done|].
      intros Htab. apply Nx. by apply (table_page_ext m m1 (df_cr3 _ _ _ D1) Hp1).
    - intros j k x Hj Hk. replace (va + 1 + j) with (va + (j + 1)) by lia. replace (va + 1 + k) with (va + (k + 1)) by lia. rewrite !T by lia. intros H1 H2. pose proof (W3 (j + 1) (k + 1) x ltac:(lia) ltac:(lia) H1 H2). lia. }
  assert (forall x, hit m1 (va + 1) n x -> hit m va (Z.succ n) x /\ x <> pa) as Hh.
  { intros x (k & Hk & Hx). replace (va + 1 + k) with (va + (k + 1)) in Hx by lia. rewrite T in Hx by lia. split; [exists (k + 1); split; [lia|done]|].
    intros ->. rewrite <- (Z.add_0_r va) in Hpa. pose proof (W3 0 (k + 1) pa ltac:(lia) ltac:(lia) Hpa Hx). lia. }
  exists m'. split; [exact E'|]. split; [|split].
  - eapply differs_mono; [|exact (differs_trans _ _ _ _ _ D1 D')]. intros p [<-|(x & Hx & ->)]; [exists pa; split; [exists 0; rewrite Z.add_0_r; split; [lia|done]|done]|]. exists x. split; [by apply Hh|done].
  - intros [|k] c Hk; cbn in Hk.
    + injection Hk as <-. rewrite Z.add_0_r. unfold vload_byte. destruct (differs_space _ _ _ Hm1 D') as (_ & _ & T2).
      { intros p (x & (k & Hk & Hx) & ->). replace (va + 1 + k) with (va + (k + 1)) in Hx by lia. rewrite T in Hx by lia. destruct (W2 (k + 1) ltac:(lia)) as (x' & Hx' & Nx). assert (x' = x) as -> by congruence.
        intros Htab. apply Nx. by apply (table_page_ext m m1 (df_cr3 _ _ _ D1) Hp1). }
      rewrite T2 by (change (2 ^ 32) with 4294967296; lia). rewrite T1 by (change (2 ^ 32) with 4294967296; lia). rewrite Hpa. change (Some (byte_at m' pa) = Some b). f_equal. rewrite O' by (intros Hx; by apply Hh in Hx as [_ ?]).
      unfold m1. rewrite byte_put_at by done. by rewrite decide_True.
    + replace (va + Z.of_nat (S k)) with (va + 1 + Z.of_nat k) by lia. by apply B'.
  - intros x Hx. rewrite O' by (intros Hy; by apply Hh in Hy as [? _]). unfold m1. rewrite byte_put_at by done. rewrite decide_False; [done|]. intros <-. apply Hx. exists 0. rewrite Z.add_0_r. split; [lia|done].
Qed.

(** ** A segment in memory *)

Lemma process_differs F s m' : process s -> differs F (mm s) m' -> (forall p, F p -> data_frame s p) -> process (set_mm m' s).
Proof.
  intros [P1 P2 P3 P4 P5 P6 P7] D HF. assert (forall p, F p -> ~ table_page (mm s) p) as HF' by (intros p Hp; apply data_not_table; auto).
  destruct (differs_space F (mm s) m' (mw_pt _ P1) D HF') as (_ & Hp & T). pose proof (vw_start _ _ P2) as (q & Hq & Hq0 & Hq1). cbn [vaddr_of] in *. fold (upages s) in Hq1.
  assert (forall j, 0 <= j < upages s -> translate m' (upage s j) = translate (mm s) (upage s j)) as Tj.
  { intros j Hj. apply T. unfold upage. rewrite Hq. change (2 ^ 32) with 4294967296. lia. }
  split; try done.
  - by apply (mem_wf_differs F).
  - by apply (vaddr_wf_differs F).
  - intros j f Hj Hf. change (translate m' (upage s j) = Some f) in Hf. rewrite Tj in Hf by done. destruct (P6 j f Hj Hf) as (I1 & I2 & I3). split; [done|]. split; [|done].
    apply data_not_table. intros Ht. apply (data_not_table s f) in I2. apply I2. by apply (table_page_ext (mm s) m' (df_cr3 _ _ _ D) Hp).
  - intros j l f Hj Hl Hfj Hfl. change (translate m' (upage s j) = Some f) in Hfj. change (translate m' (upage s l) = Some f) in Hfl. rewrite Tj in Hfj, Hfl by done. by apply (P7 j l f).
Qed.

(** Byte [k] behind page [i] and where it lies. *)
Lemma user_byte s i o k f : process s -> 0 <= i -> 0 <= o -> 0 <= k -> 0 <= i + (o + k) / 4096 < upages s -> translate (mm s) (upage s (i + (o + k) / 4096)) = Some f ->
  translate (mm s) (upage s i + o + k) = Some (f + (o + k) mod 4096) /\ page_of (f + (o + k) mod 4096) = f /\ data_frame s f.
Proof.
  intros P Hi Ho Hk Hj Hf. destruct (pr_frame _ P _ f Hj Hf) as (I1 & I2 & _). pose proof (Z.mod_pos_bound (o + k) 4096 ltac:(lia)).
  pose proof (vw_start _ _ (pr_vaddr _ P)) as (q & Hq & Hq0 & Hq1). cbn [vaddr_of] in *. fold (upages s) in Hq1.
  assert (aligned f) as Ha by (by apply (in_pool_aligned PF_USER s); [apply P|]). split; [|split; [by apply page_of_off|done]].
  replace (upage s i + o + k) with (upage s (i + (o + k) / 4096) + (o + k) mod 4096) by (unfold upage; Z.div_mod_to_equations; lia).
  apply translate_page; [|lia|done]. exists (q + (i + (o + k) / 4096)). unfold upage. rewrite Hq. change (2 ^ 20) with 1048576. lia.
Qed.

Lemma user_writable s i n o len : process s -> 0 <= i -> 0 <= n -> i + n <= upages s -> 0 <= o < 4096 -> 0 <= len -> o + len <= 4096 * n ->
  (forall j, i <= j < i + n -> exists f, translate (mm s) (upage s j) = Some f) -> writable (mm s) (upage s i + o) len.
Proof.
  intros P Hi Hn Hin Ho Hl Hol Hm. pose proof (vw_start _ _ (pr_vaddr _ P)) as (q & Hq & Hq0 & Hq1). cbn [vaddr_of] in *. fold (upages s) in Hq1.
  assert (forall k, 0 <= k < len -> 0 <= (o + k) / 4096 < n) as Hd by (intros k Hk; split; [apply Z.div_pos; lia|apply Z.div_lt_upper_bound; lia]).
  assert (forall k, 0 <= k < len -> exists f, translate (mm s) (upage s (i + (o + k) / 4096)) = Some f) as Hf by (intros k Hk; apply Hm; specialize (Hd k Hk); lia).
  split.
  - unfold upage. rewrite Hq. lia.
  - intros k Hk. destruct (Hf k Hk) as (f & Hfk). specialize (Hd k Hk). destruct (user_byte s i o k f P Hi ltac:(lia) ltac:(lia) ltac:(lia) Hfk) as (E & Ep & D).
    eexists. split; [exact E|]. rewrite Ep. by apply data_not_table.
  - intros j k pa Hj Hk Ej Ek. destruct (Hf j Hj) as (f & Hfj), (Hf k Hk) as (g & Hgk). pose proof (Hd j Hj). pose proof (Hd k Hk).
    destruct (user_byte s i o j f P Hi ltac:(lia) ltac:(lia) ltac:(lia) Hfj) as (E1 & Ep1 & _). destruct (user_byte s i o k g P Hi ltac:(lia) ltac:(lia) ltac:(lia) Hgk) as (E2 & Ep2 & _).
    assert (f + (o + j) mod 4096 = g + (o + k) mod 4096) as E by congruence. assert (f = g) as -> by (rewrite <- Ep1, <- Ep2; by rewrite E).
    pose proof (pr_inj _ P (i + (o + j) / 4096) (i + (o + k) / 4096) g ltac:(lia) ltac:(lia) Hfj Hgk). Z.div_mod_to_equations. lia.
Qed.

(** Fresh pages and the bytes [l] from offset [o] of page [i] on. *)
Lemma segment_memory s i n o l : process s -> 0 <= i -> i + Z.of_nat n <= upages s -> 0 <= o < 4096 -> o + Z.of_nat (length l) <= 4096 * Z.of_nat n -> Forall is_byte l -> room PF_USER n s ->
  exists s1 s', fresh_pages n (upage s i) s = Ok (true, s1) /\ on_mmu (store_bytes (upage s i + o) l) s1 = Ok (tt, s') /\ process s' /\
    vaddr_start (userprog_vaddr s') = vaddr_start (userprog_vaddr s) /\ upages s' = upages s /\ (forall k, room PF_USER (n + k) s -> room PF_USER k s') /\
    (forall k b, l !! k = Some b -> vload_byte (mm s') (upage s i + o + Z.of_nat k) = Some b) /\
    (forall j f, 0 <= j < upages s -> ~ i <= j < i + Z.of_nat n -> translate (mm s) (upage s j) = Some f ->
       translate (mm s') (upage s j) = Some f /\ forall x, 0 <= x < 4096 -> byte_at (mm s') (f + x) = byte_at (mm s) (f + x)).
Proof.
  intros P Hi Hn Ho Hl Hb Hr. destruct (fresh_pages_run n s i P Hi Hn Hr) as (s1 & E1 & P1 & [R1 R2 R3 R4 R5 R6]).
  assert (forall j, upage s1 j = upage s j) as Eu by (intros j; unfold upage; by rewrite R1).
  pose proof (user_writable s1 i (Z.of_nat n) o (Z.of_nat (length l)) P1 Hi ltac:(lia) ltac:(lia) Ho ltac:(lia) Hl ltac:(intros j Hj; rewrite Eu; by apply R3)) as W.
  rewrite Eu in W. destruct (store_bytes_run l (mm s1) (upage s i + o) (mw_pt _ (pr_mem _ P1)) W Hb) as (m' & E2 & D & B & O).
  assert (forall pa, hit (mm s1) (upage s i + o) (Z.of_nat (length l)) pa -> exists j f, i <= j < i + Z.of_nat n /\ translate (mm s1) (upage s j) = Some f /\ page_of pa = f /\ data_frame s1 f) as Hh.
  { intros pa (k & Hk & Hpa). assert (0 <= (o + k) / 4096 < Z.of_nat n) as Hd by (split; [apply Z.div_pos; lia|apply Z.div_lt_upper_bound; lia]).
    destruct (R3 (i + (o + k) / 4096) ltac:(lia)) as (f & Hf). rewrite <- Eu in Hf. destruct (user_byte s1 i o k f P1 Hi ltac:(lia) ltac:(lia) ltac:(lia) Hf) as (X1 & X2 & X3).
    rewrite Eu in X1, Hf. assert (pa = f + (o + k) mod 4096) as -> by congruence. exists (i + (o + k) / 4096), f. split; [lia|done]. }
  assert (process (set_mm m' s1)) as P2 by (apply (process_differs _ _ _ P1 D); intros p (pa & Hpa & ->); destruct (Hh pa Hpa) as (j & f & _ & _ & -> & X); exact X).
  exists s1, (set_mm m' s1). split; [exact E1|]. split; [by apply on_mmu_run|]. split; [exact P2|]. split; [exact R1|]. split; [exact R2|].
  split; [intros k Hk; apply (R6 k); by rewrite Nat2Z.id|]. split; [exact B|].
  intros j f Hj Hne Hf. pose proof (vw_start _ _ (pr_vaddr _ P)) as (q & Hq & Hq0 & Hq1). cbn [vaddr_of] in *. fold (upages s) in Hq1.
  assert (forall j, upage s j = (q + j) * 4096) as Eq by (intros j'; unfold upage; rewrite Hq; lia).
  assert (translate (mm s1) (upage s j) = Some f) as Hf1 by (rewrite Eq, R4; [by rewrite <- Eq|lia|intros j' Hj'; rewrite Eq; lia]).
  destruct (differs_space _ _ _ (mw_pt _ (pr_mem _ P1)) D) as (_ & _ & T); [intros p (pa & Hpa & ->); destruct (Hh pa Hpa) as (j' & f' & _ & _ & -> & X); by apply data_not_table|].
  split; [cbn; rewrite T; [done|rewrite Eq; change (2 ^ 32) with 4294967296; lia]|]. intros x Hx.
  destruct (pr_frame _ P j f Hj Hf) as (I1 & _ & _). assert (aligned f) as Ha by (by apply (in_pool_aligned PF_USER s); [apply P|]).
  rewrite O.
  - unfold byte_at, byte_addr. pose proof (Z.mod_pos_bound (f + x) 4 ltac:(lia)). destruct Ha as (z & -> & _).
    assert ((z * 4096 + x) mod 4 = x mod 4) as Em by (replace (z * 4096 + x) with (x + (z * 1024) * 4) by lia; apply Z.mod_add; lia). rewrite Em in *.
    replace (z * 4096 + x - x mod 4) with (z * 4096 + (x - x mod 4)) by lia. rewrite (R5 j _ (x - x mod 4) Hj Hne Hf); [done|]. pose proof (Z.mod_le x 4 ltac:(lia) ltac:(lia)). lia.
  - intros Hit. destruct (Hh _ Hit) as (j' & f' & Hj' & Hf' & Ep & _). rewrite page_of_off in Ep by done. subst f'.
    rewrite <- Eu in Hf1, Hf'. pose proof (pr_inj _ P1 j j' f ltac:(lia) ltac:(lia) Hf1 Hf'). lia.
Qed.

(** ** The file *)

Section Load.
Context {H : Type} `{HE : Heap H} `{DE : Devices H}.

(** Descriptor [fd] of the running task is file [g] of the table, an open
    regular file with inode [i] and blocks [B], at position [pos]. *)
Record opened (f : fs H) (fd g pos : Z) (i : inode) (B : list Z) : Prop := {
  op_fd : 3 <= fd;
  op_global : aget (Inode.fd_table f) fd = Ok g;
  op_slot : 0 <= g < 32;
  op_file : exists fl ip, aget (file_table f) g = Ok (mk_file pos fl ip) /\ fl <> PIPE_FLAG /\ inodes f !! ip = Some i;
  op_geometry : geometry (cur_part f);
  op_disk : disk_wf (dsk f);
  op_ok : file_ok (cur_part f) (dsk f) i B;
  op_small : i_size i < 139 * 512;
  op_pos : 0 <= pos <= i_size i
}.

Lemma local2global_run f fd g pos i B : opened f fd g pos i B -> fd_local2global fd f = Ok (g, f).
Proof.
  intros [O1 O2 O3 _ _ _ _ _ _]. unfold fd_local2global. rewrite getS_bind, (liftO_bind _ _ _ _ O2). erewrite mbindM_Ok; [done|]. apply assertM_run. unfold MAX_FILE_OPEN.
  destruct (Z.leb_spec 0 g), (Z.ltb_spec g 32); done || lia.
Qed.

Lemma opened_move f fd g pos pos' fl ip i B h : opened f fd g pos i B -> aget (file_table f) g = Ok (mk_file pos fl ip) -> fl <> PIPE_FLAG -> inodes f !! ip = Some i -> 0 <= pos' <= i_size i ->
  opened (Inode.set_heap h (with_file g (mk_file pos' fl ip) f)) fd g pos' i B.
Proof.
  intros [O1 O2 O3 _ O5 O6 O7 O8 _] E1 E2 E3 Hp. split; try done. exists fl, ip. split; [|done]. by apply (with_file_get f g _ (mk_file pos fl ip)).
Qed.

Lemma lseek_run f fd g pos i B off : opened f fd g pos i B -> 0 <= off < i_size i ->
  exists f', sys_lseek fd (i32 off) SEEK_SET f = Ok (off, f') /\ opened f' fd g off i B /\ dsk f' = dsk f /\ Inode.heap f' = Inode.heap f.
Proof.
  intros O Hoff. pose proof O as [O1 O2 O3 (fl & ip & E1 & E2 & E3) O5 O6 O7 O8 O9]. rewrite wraps_small by (change (2 ^ (32 - 1)) with 2147483648; lia).
  exists (Inode.set_heap (Inode.heap f) (with_file g (mk_file off fl ip) f)). split; [|split; [apply (opened_move f fd g pos); done || lia|done]].
  unfold sys_lseek. destruct (Z.ltb_spec fd 0); [lia|]. erewrite mbindM_Ok by (by apply assertM_run). mrun (local2global_run f fd g pos i B O). mrun (get_file_run f g _ E1).
  mrun (get_inode_run f ip i E3). cbv zeta. change (SEEK_SET =? SEEK_SET) with true. cbv iota.
  rewrite (wraps_small 32 (i_size i)) by (change (2 ^ (32 - 1)) with 2147483648; lia). rewrite (wraps_small 32 (i_size i - 1)) by (change (2 ^ (32 - 1)) with 2147483648; lia).
  destruct (Z.ltb_spec off 0), (Z.ltb_spec (i_size i - 1) off); try lia. cbn [orb fd_flag fd_inode].
  rewrite wrapu_small by (change (2 ^ 32) with 4294967296; lia). erewrite mbindM_Ok by (apply (put_file_run f g _ _ E1)). rewrite wraps_small by (change (2 ^ (32 - 1)) with 2147483648; lia). done.
Qed.

(** The call on the descriptor of a regular file is [file_read] on its slot. *)
Lemma sys_read_opened f fd g pos i B cnt : opened f fd g pos i B -> sys_read fd cnt f = file_read g cnt f.
Proof.
  intros O. pose proof O as [O1 O2 O3 (fl & ip & E1 & E2 & E3) _ _ _ _ _].
  unfold sys_read. destruct (Z.ltb_spec fd 0), (Z.eqb_spec fd 1), (Z.eqb_spec fd 2), (Z.eqb_spec fd 0); try lia. cbn [orb].
  assert (is_pipe fd f = Ok (false, f)) as Ep.
  { unfold is_pipe. mrun (local2global_run f fd g pos i B O). mrun (get_file_run f g _ E1). cbn [fd_flag]. by destruct (Z.eqb_spec fl PIPE_FLAG). }
  mrun Ep. by mrun (local2global_run f fd g pos i B O).
Qed.

Lemma read_run f fd g pos i B cnt r : opened f fd g pos i B -> 0 < cnt -> pos + cnt <= i_size i -> h_room (S (S r)) (Inode.heap f) ->
  exists f', sys_read fd cnt f = Ok (cnt, slice (Z.to_nat pos) (Z.to_nat cnt) (contents (dsk f) i), f') /\ opened f' fd g (pos + cnt) i B /\ dsk f' = dsk f /\ h_room r (Inode.heap f').
Proof.
  intros O Hc Hp Hr. rewrite (sys_read_opened f fd g pos i B cnt O). pose proof O as [O1 O2 O3 (fl & ip & E1 & E2 & E3) O5 O6 O7 O8 O9].
  pose proof (file_read_run f g (mk_file pos fl ip) i B cnt r O5 O6 E1 E3 O7 ltac:(cbn; lia) ltac:(change (2 ^ 31) with 2147483648; lia) O8 Hr) as X.
  cbv zeta in X. cbn [fd_pos fd_flag fd_inode] in X. replace (Z.min cnt (i_size i - pos)) with cnt in X by lia. destruct (Z.eqb_spec cnt 0); [lia|]. cbn [andb] in X.
  destruct X as (h & E & Hh & _). exists (Inode.set_heap h (with_file g (mk_file (pos + cnt) fl ip) f)). split; [exact E|split; [apply (opened_move f fd g pos); done || lia|done]].
Qed.

(** ** One segment *)

(** The first page of a segment, and how many pages it takes. *)
Definition seg_page (s : memst) (ph : Elf32_Phdr) : Z := (p_vaddr ph - vaddr_start (userprog_vaddr s)) / 4096.
Definition seg_pages (ph : Elf32_Phdr) : Z := occupy_pages (p_filesz ph) (p_vaddr ph).

Record seg_ok (s : memst) (size : Z) (ph : Elf32_Phdr) : Prop := {
  so_file : 0 <= p_offset ph /\ 0 < p_filesz ph /\ p_offset ph + p_filesz ph <= size;
  so_low : vaddr_start (userprog_vaddr s) <= p_vaddr ph;
  so_high : seg_page s ph + seg_pages ph <= upages s
}.

(** The bytes of the file are in memory. *)
Definition loaded (s : memst) (C : list Z) (ph : Elf32_Phdr) : Prop :=
  forall k, 0 <= k < p_filesz ph -> vload_byte (mm s) (p_vaddr ph + k) = C !! Z.to_nat (p_offset ph + k).

Lemma occupy_pages_enough filesz o q : 0 < filesz < 2 ^ 31 -> 0 <= o < 4096 -> 0 <= q ->
  let n := occupy_pages filesz (q * 4096 + o) in 0 < n /\ o + filesz <= 4096 * n.
Proof.
  intros Hf Ho Hq n. unfold n, occupy_pages, PG_SIZE. rewrite land_FFF. rewrite Z.add_comm, Z.mod_add, Z.mod_small by lia. change (2 ^ 31) with 2147483648 in Hf.
  destruct (Z.ltb_spec (4096 - o) filesz); [|lia]. unfold DIV_ROUND_UP. assert (0 <= (filesz - (4096 - o) + 4096 - 1) / 4096 < 1048576) as Hd by (split; [apply Z.div_pos; lia|apply Z.div_lt_upper_bound; lia]).
  rewrite (wrapu_small 32 (filesz - (4096 - o) + 4096 - 1)) by (change (2 ^ 32) with 4294967296; lia).
  rewrite (wrapu_small 32 (_ / 4096)) by (change (2 ^ 32) with 4294967296; lia). rewrite wrapu_small by (change (2 ^ 32) with 4294967296; lia). Z.div_mod_to_equations. lia.
Qed.

Lemma contents_length f fd g pos i B : opened f fd g pos i B -> length (contents (dsk f) i) = Z.to_nat (i_size i).
Proof.
  intros [_ _ _ _ _ O6 O7 _ _]. rewrite (contents_blocks (cur_part f) (dsk f) i B O6 O7), length_take, file_bytes_length by done. pose proof (size_blocks (cur_part f) (dsk f) i B O7). lia.
Qed.

Lemma slice_lookup o n (l : list Z) k : (k < n)%nat -> slice o n l !! k = l !! (o + k)%nat.
Proof. intros Hk. unfold slice. by rewrite lookup_take_lt, lookup_drop by done. Qed.

(** Pages outside [n] pages from [i] on keep their frames and bytes. *)
Definition kept_outside (P : Z -> Prop) (s s' : memst) : Prop :=
  forall j f, 0 <= j < upages s -> ~ P j -> translate (mm s) (upage s j) = Some f ->
    translate (mm s') (upage s j) = Some f /\ forall x, 0 <= x < 4096 -> byte_at (mm s') (f + x) = byte_at (mm s) (f + x).

Definition covers (s : memst) (ph : Elf32_Phdr) (j : Z) : Prop := seg_page s ph <= j < seg_page s ph + seg_pages ph.

Lemma segment_load_run k fd g pos i B ph r : process (mem k) -> opened (k_fs k) fd g pos i B -> seg_ok (mem k) (i_size i) ph ->
  Forall is_byte (contents (dsk (k_fs k)) i) -> room PF_USER (Z.to_nat (seg_pages ph)) (mem k) -> h_room (S (S r)) (Inode.heap (k_fs k)) ->
  exists s' f', segment_load fd (p_offset ph) (p_filesz ph) (p_vaddr ph) k = Ok (true, set_k_fs f' (set_mem s' k)) /\ process s' /\
    vaddr_start (userprog_vaddr s') = vaddr_start (userprog_vaddr (mem k)) /\ upages s' = upages (mem k) /\
    (forall n, room PF_USER (Z.to_nat (seg_pages ph) + n) (mem k) -> room PF_USER n s') /\ loaded s' (contents (dsk (k_fs k)) i) ph /\ kept_outside (covers (mem k) ph) (mem k) s' /\
    opened f' fd g (p_offset ph + p_filesz ph) i B /\ dsk f' = dsk (k_fs k) /\ h_room r (Inode.heap f').
Proof.
  intros P O [(F1 & F2 & F3) Lo Hi] Hb Hr Hh. set (s := mem k) in *. set (C := contents (dsk (k_fs k)) i) in *. pose proof (op_small _ _ _ _ _ _ O) as Hsm.
  pose proof (vw_start _ _ (pr_vaddr _ P)) as (q & Hq & Hq0 & Hq1). cbn [vaddr_of] in *. fold (upages s) in Hq1. unfold seg_page in Hi. rewrite Hq in *.
  set (ip := (p_vaddr ph - q * 4096) / 4096) in *. set (o := p_vaddr ph mod 4096). pose proof (Z.mod_pos_bound (p_vaddr ph) 4096 ltac:(lia)) as Ho. fold o in Ho.
  assert (p_vaddr ph / 4096 = q + ip) as Edv by (unfold ip; replace (p_vaddr ph - q * 4096) with (p_vaddr ph + (- q) * 4096) by lia; rewrite Z.div_add by lia; lia).
  assert (p_vaddr ph = (q + ip) * 4096 + o) as Ev by (rewrite <- Edv; unfold o; pose proof (Z.div_mod (p_vaddr ph) 4096); lia).
  assert (0 <= ip) as Hip by (apply Z.div_pos; lia).
  destruct (occupy_pages_enough (p_filesz ph) o (q + ip)) as [Hn Hon]; [change (2 ^ 31) with 2147483648; lia|done|lia|]. rewrite <- Ev in Hn, Hon. fold (seg_pages ph) in Hn, Hon.
  assert (upage s ip = (q + ip) * 4096) as Eu by (unfold upage; rewrite Hq; lia).
  assert (Z.land (p_vaddr ph) 0xfffff000 = upage s ip) as El by (fold (frame_of (p_vaddr ph)); rewrite frame_of_eq by (change (2 ^ 32) with 4294967296; lia); rewrite Edv; lia).
  destruct (lseek_run (k_fs k) fd g pos i B (p_offset ph) O ltac:(lia)) as (f1 & E1 & O1 & D1 & H1).
  destruct (read_run f1 fd g (p_offset ph) i B (p_filesz ph) r O1 F2 F3 ltac:(by rewrite H1)) as (f2 & E2 & O2 & D2 & H2). rewrite D1 in E2. fold C in E2.
  set (l := slice (Z.to_nat (p_offset ph)) (Z.to_nat (p_filesz ph)) C) in *.
  assert (length C = Z.to_nat (i_size i)) as HC by (exact (contents_length _ _ _ _ _ _ O)).
  assert (length l = Z.to_nat (p_filesz ph)) as Hl by (unfold l; apply slice_length; lia).
  destruct (segment_memory s ip (Z.to_nat (seg_pages ph)) o l P Hip) as (s1 & s' & M1 & M2 & P' & S' & U' & R' & B' & K'); [lia|done|rewrite Hl; lia|unfold l, slice; by apply Forall_take, Forall_drop|exact Hr|].
  exists s', f2. split.
  { unfold segment_load. fold (seg_pages ph). rewrite El. erewrite mbindM_Ok by (apply on_memory_run; exact M1). cbv iota.
    erewrite mbindM_Ok by (apply on_fs_run; exact E1). unfold read_to. rewrite mbindM_assoc. erewrite mbindM_Ok by (apply on_fs_run; exact E2).
    cbv beta iota. rewrite mbindM_assoc. rewrite (mbindM_Ok _ _ _ tt (set_k_fs f2 (set_mem s' k))); [reflexivity|]. rewrite Ev, <- Eu. change (set_k_fs f2 (set_mem s' k)) with (set_mem s' (set_k_fs f2 (set_k_fs f1 (set_mem s1 k)))). apply on_memory_run. exact M2. }
  split; [done|]. split; [by rewrite S', Hq|]. split; [done|]. split; [exact R'|]. split; [|split; [|split; [done|split; [congruence|done]]]].
  - intros x Hx. rewrite Ev, <- Eu. assert (is_Some (l !! Z.to_nat x)) as [b Hbx] by (apply lookup_lt_is_Some; lia). pose proof (B' _ _ Hbx) as X. rewrite Z2Nat.id in X by lia. rewrite X.
    unfold l in Hbx. rewrite slice_lookup in Hbx by lia. rewrite <- Hbx. f_equal. lia.
  - intros j f Hj Hnc Hf. apply K'; [done| |done]. intros Hx. apply Hnc. unfold covers, seg_page. fold s. rewrite Hq. fold ip. lia.
Qed.

(** ** The image *)

(** A segment outside the pages that change stays in memory. *)
Lemma loaded_kept P s s' size C ph : process s -> seg_ok s size ph -> p_filesz ph < 2 ^ 31 -> (forall k, 0 <= k < p_filesz ph -> is_Some (C !! Z.to_nat (p_offset ph + k))) ->
  loaded s C ph -> kept_outside P s s' -> (forall j, covers s ph j -> ~ P j) -> loaded s' C ph.
Proof.
  intros Pr [(F1 & F2 & F3) Lo Hi] Hf HC L K Hj k Hk. destruct (HC k Hk) as [b Hb]. specialize (L k Hk). rewrite Hb in *.
  pose proof (vw_start _ _ (pr_vaddr _ Pr)) as (q & Hq & Hq0 & Hq1). cbn [vaddr_of] in *. fold (upages s) in Hq1. unfold seg_page in Hi. rewrite Hq in *.
  set (va := p_vaddr ph + k) in *. set (j := va / 4096 - q). pose proof (Z.div_mod va 4096 ltac:(lia)) as Ev. pose proof (Z.mod_pos_bound va 4096 ltac:(lia)) as Hm.
  assert (p_vaddr ph / 4096 = q + (p_vaddr ph - q * 4096) / 4096) as Edv by (replace (p_vaddr ph - q * 4096) with (p_vaddr ph + (- q) * 4096) by lia; rewrite Z.div_add by lia; lia).
  assert (covers s ph j) as Hc.
  { unfold covers, seg_page. rewrite Hq. destruct (occupy_pages_enough (p_filesz ph) (p_vaddr ph mod 4096) (p_vaddr ph / 4096)) as [Hn Hon]; [lia|apply Z.mod_pos_bound; lia|apply Z.div_pos; lia|].
    replace (p_vaddr ph / 4096 * 4096 + p_vaddr ph mod 4096) with (p_vaddr ph) in Hn, Hon by (pose proof (Z.div_mod (p_vaddr ph) 4096); lia). fold (seg_pages ph) in Hn, Hon. unfold j, va in *. Z.div_mod_to_equations. lia. }
  assert (0 <= j < upages s) as Hju.
  { unfold covers, seg_page in Hc. rewrite Hq in Hc. pose proof (Z.div_pos (p_vaddr ph - q * 4096) 4096 ltac:(lia) ltac:(lia)). lia. }
  assert (upage s j = page_of va) as Eu by (unfold upage, page_of, j; rewrite Hq; lia).
  unfold vload_byte in *. destruct (translate (mm s) va) as [pa|] eqn:Et; [|done]. change (Some (byte_at (mm s) pa) = Some b) in L. assert (0 <= va < 2 ^ 32) as Hva by (change (2 ^ 32) with 4294967296; unfold j in Hju; lia).
  pose proof (translate_floor _ _ _ Hva Et) as Tf. rewrite <- Eu in Tf. destruct (K j _ Hju (Hj j Hc) Tf) as [T' B'].
  assert (aligned (upage s j)) as Ha by (exists (q + j); unfold upage; rewrite Hq; change (2 ^ 20) with 1048576; lia).
  pose proof (translate_page (mm s') (upage s j) (va mod 4096) _ Ha Hm T') as T2. replace (upage s j + va mod 4096) with va in T2 by (rewrite Eu; unfold page_of; lia).
  rewrite T2. change (Some (byte_at (mm s') (pa - va mod 4096 + va mod 4096)) = Some b). rewrite B' by done. by replace (pa - va mod 4096 + va mod 4096) with pa by lia.
Qed.

Definition is_load (ph : Elf32_Phdr) : Prop := p_type ph = PT_LOAD.
#[local] Instance is_load_dec ph : Decision (is_load ph).
Proof. unfold is_load. apply _. Defined.

(** The program headers from byte [off] of the file on. *)
Definition headers (C : list Z) (off : Z) (phs : list Elf32_Phdr) : Prop :=
  forall n ph, phs !! n = Some ph -> phdr_of_bytes (slice (Z.to_nat (off + 32 * Z.of_nat n)) 32 C) = ph.
(** No two segments have a page in common. *)
Fixpoint apart (s : memst) (phs : list Elf32_Phdr) : Prop :=
  match phs with
  | [] => True
  | ph :: phs' => (is_load ph -> Forall (fun ph' => is_load ph' -> forall j, covers s ph j -> ~ covers s ph' j) phs') /\ apart s phs'
  end.
Definition image_pages (phs : list Elf32_Phdr) : nat := sum_list_with (fun ph => if decide (is_load ph) then Z.to_nat (seg_pages ph) else 0%nat) phs.
(** The buffers [file_read] allocates on the way. *)
Definition image_reads (phs : list Elf32_Phdr) : nat := sum_list_with (fun ph => if decide (is_load ph) then 4%nat else 2%nat) phs.
Definition in_image (s : memst) (phs : list Elf32_Phdr) (j : Z) : Prop := exists ph, ph ∈ phs /\ is_load ph /\ covers s ph j.

Lemma covers_same s s' ph j : vaddr_start (userprog_vaddr s') = vaddr_start (userprog_vaddr s) -> covers s' ph j <-> covers s ph j.
Proof. intros E. unfold covers, seg_page. by rewrite E. Qed.
Lemma apart_same s s' phs : vaddr_start (userprog_vaddr s') = vaddr_start (userprog_vaddr s) -> apart s phs -> apart s' phs.
Proof.
  intros E. induction phs as [|ph phs IH]; [done|]. intros [A1 A2]. split; [|by apply IH]. intros Hl. eapply Forall_impl; [exact (A1 Hl)|]. intros ph' X Hl' j. rewrite !(covers_same s s') by done. by apply X.
Qed.
Lemma seg_ok_same s s' size ph : vaddr_start (userprog_vaddr s') = vaddr_start (userprog_vaddr s) -> upages s' = upages s -> seg_ok s size ph -> seg_ok s' size ph.
Proof. intros E1 E2 [S1 S2 S3]. split; [done|by rewrite E1|]. unfold seg_page in *. by rewrite E1, E2. Qed.

Lemma kept_outside_refl P s : kept_outside P s s.
Proof. by intros j f Hj Hp Hf. Qed.
Lemma kept_outside_trans (P Q R : Z -> Prop) s s1 s2 : upages s1 = upages s -> vaddr_start (userprog_vaddr s1) = vaddr_start (userprog_vaddr s) -> (forall j, P j -> R j) -> (forall j, Q j -> R j) ->
  kept_outside P s s1 -> kept_outside Q s1 s2 -> kept_outside R s s2.
Proof.
  intros Eu Es HP HQ K1 K2 j f Hj Hr Hf. destruct (K1 j f Hj ltac:(auto) Hf) as [T1 B1].
  destruct (K2 j f) as [T2 B2]; [by rewrite Eu|auto|unfold upage in *; by rewrite Es|]. unfold upage in *. rewrite Es in T2. split; [done|]. intros x Hx. by rewrite B2, B1.
Qed.

Section Image.
Context (fd g : Z) (i : inode) (B : list Z) (C : list Z) (Hbytes : Forall is_byte C).

(** The work on one program header. *)
Lemma one_header k pos off r ph : opened (k_fs k) fd g pos i B -> C = contents (dsk (k_fs k)) i -> process (mem k) -> 0 <= off -> off + 32 <= i_size i ->
  phdr_of_bytes (slice (Z.to_nat off) 32 C) = ph -> (is_load ph -> seg_ok (mem k) (i_size i) ph) -> room PF_USER (image_pages [ph]) (mem k) -> h_room (image_reads [ph] + r) (Inode.heap (k_fs k)) ->
  exists s' f' pos', (forall n, load_segments (S n) fd 32 off k = load_segments n fd 32 (u32 (off + 32)) (set_k_fs f' (set_mem s' k))) /\ process s' /\
    vaddr_start (userprog_vaddr s') = vaddr_start (userprog_vaddr (mem k)) /\ upages s' = upages (mem k) /\ (forall n, room PF_USER (image_pages [ph] + n) (mem k) -> room PF_USER n s') /\
    (is_load ph -> loaded s' C ph) /\ kept_outside (in_image (mem k) [ph]) (mem k) s' /\ opened f' fd g pos' i B /\ dsk f' = dsk (k_fs k) /\ h_room r (Inode.heap f').
Proof.
  intros O EC P Hoff Hend Hph Hseg Hroom Hh.
  destruct (lseek_run (k_fs k) fd g pos i B off O ltac:(lia)) as (f1 & E1 & O1 & D1 & H1).
  destruct (read_run f1 fd g off i B 32 (if decide (is_load ph) then S (S r) else r) O1 ltac:(lia) ltac:(lia) ltac:(rewrite H1; unfold image_reads in Hh; cbn in Hh; by destruct (decide (is_load ph)))) as (f2 & E2 & O2 & D2 & H2). rewrite D1, <- EC in E2. change (Z.to_nat 32) with 32%nat in E2.
  set (k2 := set_k_fs f2 k).
  assert (forall n, load_segments (S n) fd 32 off k =
    (ok ← (if PT_LOAD =? p_type ph then segment_load fd (p_offset ph) (p_filesz ph) (p_vaddr ph) else mret true);
     if (ok : bool) then load_segments n fd 32 (u32 (off + 32)) else mret false) k2) as El.
  { intros n. cbn [load_segments]. erewrite mbindM_Ok by (apply on_fs_run; exact E1). erewrite mbindM_Ok by (apply on_fs_run; exact E2). cbv beta iota. change (negb (32 =? 32)) with false. cbv iota zeta. by rewrite Hph. }
  unfold image_pages in *. cbn [sum_list_with] in *. destruct (decide (is_load ph)) as [Hld|Hnl].
  - rewrite Nat.add_0_r in *. destruct (segment_load_run k2 fd g (off + 32) i B ph r P O2 (Hseg Hld)) as (s' & f' & X1 & X2 & X3 & X4 & X5 & X6 & X7 & X8 & X9 & X10); [cbn [k2 set_k_fs k_fs]; by rewrite D2, D1, <- EC|exact Hroom|exact H2|].
    cbn [k2 set_k_fs k_fs] in X6, X9. rewrite D2, D1, <- EC in X6. exists s', f', (p_offset ph + p_filesz ph). split; [|split; [exact X2|split; [exact X3|split; [exact X4|split; [exact X5|split; [by intros _|split; [|split; [exact X8|split; [congruence|exact X10]]]]]]]]].
    + intros n. rewrite El. unfold is_load in Hld. rewrite Hld, Z.eqb_refl. erewrite mbindM_Ok by exact X1. done.
    + intros j f Hj Hn Hf. apply X7; [exact Hj| |exact Hf]. intros Hc. apply Hn. exists ph. split; [by apply list_elem_of_singleton|done].
  - exists (mem k), f2, (off + 32). split; [|split; [exact P|split; [done|split; [done|split; [done|split; [done|split; [apply kept_outside_refl|split; [exact O2|split; [congruence|]]]]]]]]].
    + intros n. rewrite El. destruct (Z.eqb_spec PT_LOAD (p_type ph)) as [E|_]; [by exfalso; apply Hnl|]. rewrite mret_bind. f_equal. unfold k2, set_mem, mem, set_k_sched, set_k_fs. cbn. by destruct k as [[] ? ? ? ? ? ?].
    + exact H2.
Qed.

Lemma load_segments_run phs : forall k pos off r, opened (k_fs k) fd g pos i B -> C = contents (dsk (k_fs k)) i -> process (mem k) -> 0 <= off -> off + 32 * Z.of_nat (length phs) <= i_size i ->
  headers C off phs -> Forall (fun ph => is_load ph -> seg_ok (mem k) (i_size i) ph) phs -> apart (mem k) phs -> room PF_USER (image_pages phs) (mem k) -> h_room (image_reads phs + r) (Inode.heap (k_fs k)) ->
  exists s' f' pos', load_segments (length phs) fd 32 off k = Ok (true, set_k_fs f' (set_mem s' k)) /\ process s' /\
    Forall (fun ph => is_load ph -> loaded s' C ph) phs /\ kept_outside (in_image (mem k) phs) (mem k) s' /\ opened f' fd g pos' i B /\ dsk f' = dsk (k_fs k) /\ h_room r (Inode.heap f').
Proof.
  induction phs as [|ph phs IH]; intros k pos off r O EC P Hoff Hend Hh Hs Ha Hr Hm.
  { exists (mem k), (k_fs k), pos. split; [unfold set_mem, mem; cbn; by destruct k as [[] ? ? ? ? ? ?]|]. split; [done|]. split; [done|]. split; [apply kept_outside_refl|done]. }
  cbn [length] in Hend. apply Forall_cons in Hs as [Hs1 Hs2]. destruct Ha as [Ha1 Ha2]. pose proof (Hh 0%nat ph eq_refl) as H0. rewrite Z.add_0_r in H0. pose proof (op_small _ _ _ _ _ _ O) as Hsm.
  assert (forall l, image_pages (ph :: l) = (image_pages [ph] + image_pages l)%nat) as Ep by (intros l; unfold image_pages; cbn; lia).
  assert (forall l, image_reads (ph :: l) = (image_reads [ph] + image_reads l)%nat) as Er by (intros l; unfold image_reads; cbn; lia).
  rewrite Ep in Hr. rewrite Er, <- Nat.add_assoc in Hm.
  destruct (one_header k pos off (image_reads phs + r) ph O EC P Hoff ltac:(lia) H0 Hs1) as (s1 & f1 & pos1 & E1 & P1 & S1 & U1 & R1 & L1 & K1 & O1 & D1 & H1); [destruct Hr; split; lia|exact Hm|].
  set (k1 := set_k_fs f1 (set_mem s1 k)) in *.
  destruct (IH k1 pos1 (off + 32) r O1 ltac:(by rewrite EC; cbn; rewrite D1) P1 ltac:(lia) ltac:(lia)) as (s' & f' & pos' & E' & P' & L' & K' & O' & D' & H'); [| |by apply (apart_same (mem k))|by apply R1|exact H1|].
  { intros n ph' Hn. rewrite <- (Hh (S n) ph' Hn). do 3 f_equal. lia. }
  { eapply Forall_impl; [exact Hs2|]. intros ph' X Hl. apply (seg_ok_same (mem k)); [exact S1|exact U1|by apply X]. }
  exists s', f', pos'. split; [change (length (ph :: phs)) with (S (length phs)); rewrite E1, wrapu_small by (change (2 ^ 32) with 4294967296; lia); exact E'|]. split; [exact P'|]. split; [|split; [|split; [exact O'|split; [cbn in D'; congruence|exact H']]]].
  - constructor; [|exact L']. intros Hld. pose proof (contents_length _ _ _ _ _ _ O) as HC. rewrite <- EC in HC. destruct (Hs1 Hld) as [(F1 & F2 & F3) _ _].
    apply (loaded_kept (in_image s1 phs) s1 s' (i_size i)); [exact P1|by apply (seg_ok_same (mem k)), Hs1|change (2 ^ 31) with 2147483648; lia|intros x Hx; apply lookup_lt_is_Some; lia|by apply L1|exact K'|].
    intros j Hc (ph' & Hin & Hl' & Hc'). rewrite (covers_same (mem k) s1) in Hc, Hc' by done. specialize (Ha1 Hld). rewrite Forall_forall in Ha1. by apply (Ha1 ph' Hin Hl' j).
  - apply (kept_outside_trans (in_image (mem k) [ph]) (in_image s1 phs) _ (mem k) s1 s'); [exact U1|exact S1| | |exact K1|exact K'].
    + intros j (ph' & ->%list_elem_of_singleton & Hl & Hc). exists ph. split; [by left|done].
    + intros j (ph' & Hin & Hl & Hc). exists ph'. split; [by right|]. split; [done|]. by apply (covers_same (mem k) s1).
Qed.

End Image.
End Load.

(** ** Headers as bytes *)

Lemma half_at_eq off buf l v r : buf = l ++ half v ++ r -> length l = off -> 0 <= v < 2 ^ 16 -> half_at off buf = v.
Proof.
  intros -> <- Hv. unfold half_at, half. rewrite drop_app_length, take_app_length' by (by rewrite le_bytes_length). by apply (le_value_bytes 2).
Qed.

Definition u16_ok (v : Z) : Prop := 0 <= v < 2 ^ 16.
Record ehdr_ok (h : Elf32_Ehdr) : Prop := {
  eo_ident : length (e_ident h) = 16%nat;
  eo_halves : Forall u16_ok [e_type h; e_machine h; e_ehsize h; e_phentsize h; e_phnum h; e_shentsize h; e_shnum h; e_shstrndx h];
  eo_words : Forall u32_ok [e_version h; e_entry h; e_phoff h; e_shoff h; e_flags h]
}.

Lemma half_at_take off n buf : (off + 2 <= n)%nat -> half_at off (take n buf) = half_at off buf.
Proof. intros Hn. unfold half_at. rewrite skipn_firstn_comm, take_take. f_equal. f_equal. lia. Qed.

(** What [load] reads out of the first 52 bytes of a file is the header that was
    written there. *)
#[global] Program Instance ehdr_Layout : Layout Elf32_Ehdr := {|
  lay_size := 52;
  encode := ehdr_bytes;
  decode := ehdr_of_bytes;
  lay_ok := ehdr_ok
|}.
Next Obligation. intros h [Hi _ _]. unfold ehdr_bytes. rewrite !length_app, Hi, !word_length. unfold half. by rewrite !le_bytes_length. Qed.
Next Obligation.
  intros [id ty ma ve en po so fl es pe pn se sn sx] r [H1 H2 H3]. cbn [e_ident e_type e_machine e_version e_entry e_phoff e_shoff e_flags e_ehsize e_phentsize e_phnum e_shentsize e_shnum e_shstrndx] in *. repeat (apply Forall_cons in H2 as [? H2]). repeat (apply Forall_cons in H3 as [? H3]).
  unfold ehdr_bytes, ehdr_of_bytes. cbn [e_ident e_type e_machine e_version e_entry e_phoff e_shoff e_flags e_ehsize e_phentsize e_phnum e_shentsize e_shnum e_shstrndx].
  f_equal.
  - rewrite <- app_assoc. by apply take_app_length'.
  - eapply (half_at_eq 16 _ id); [by rewrite <- !app_assoc|done|done].
  - eapply (half_at_eq 18 _ (id ++ half ty)); [by rewrite <- !app_assoc|by rewrite length_app, H1|done].
  - eapply (word_at_eq 20 _ (id ++ half ty ++ half ma)); [by rewrite <- !app_assoc|by rewrite length_app, H1|done].
  - eapply (word_at_eq 24 _ (id ++ half ty ++ half ma ++ word ve)); [by rewrite <- !app_assoc|by rewrite length_app, H1|done].
  - eapply (word_at_eq 28 _ (id ++ half ty ++ half ma ++ word ve ++ word en)); [by rewrite <- !app_assoc|by rewrite length_app, H1|done].
  - eapply (word_at_eq 32 _ (id ++ half ty ++ half ma ++ word ve ++ word en ++ word po)); [by rewrite <- !app_assoc|by rewrite length_app, H1|done].
  - eapply (word_at_eq 36 _ (id ++ half ty ++ half ma ++ word ve ++ word en ++ word po ++ word so)); [by rewrite <- !app_assoc|by rewrite length_app, H1|done].
  - eapply (half_at_eq 40 _ (id ++ half ty ++ half ma ++ word ve ++ word en ++ word po ++ word so ++ word fl)); [by rewrite <- !app_assoc|by rewrite length_app, H1|done].
  - eapply (half_at_eq 42 _ (id ++ half ty ++ half ma ++ word ve ++ word en ++ word po ++ word so ++ word fl ++ half es)); [by rewrite <- !app_assoc|by rewrite length_app, H1|done].
  - eapply (half_at_eq 44 _ (id ++ half ty ++ half ma ++ word ve ++ word en ++ word po ++ word so ++ word fl ++ half es ++ half pe)); [by rewrite <- !app_assoc|by rewrite length_app, H1|done].
  - eapply (half_at_eq 46 _ (id ++ half ty ++ half ma ++ word ve ++ word en ++ word po ++ word so ++ word fl ++ half es ++ half pe ++ half pn)); [by rewrite <- !app_assoc|by rewrite length_app, H1|done].
  - eapply (half_at_eq 48 _ (id ++ half ty ++ half ma ++ word ve ++ word en ++ word po ++ word so ++ word fl ++ half es ++ half pe ++ half pn ++ half se)); [by rewrite <- !app_assoc|by rewrite length_app, H1|done].
  - eapply (half_at_eq 50 _ (id ++ half ty ++ half ma ++ word ve ++ word en ++ word po ++ word so ++ word fl ++ half es ++ half pe ++ half pn ++ half se ++ half sn)); [by rewrite <- !app_assoc|by rewrite length_app, H1|done].
Qed.
Next Obligation. intros l. cbn. unfold ehdr_of_bytes. by rewrite !half_at_take, !word_at_take, take_take by lia. Qed.

(** ** A failed execv *)

Create HintDb leaves.

Section Failure.
Context {H : Type} `{HE : Heap H} `{DE : Devices H}.

(** Steps that leave the heap descriptors and the frames of all tasks alone. *)
Definition leaves {A} (c : M (kernel H) A) : Prop := forall k a k', c k = Ok (a, k') -> k_descs k' = k_descs k /\ cur (k_sched k') = cur (k_sched k).

Lemma leaves_fs {A} (c : M (fs H) A) : leaves (on_fs c).
Proof. intros k a k'. unfold on_fs, on_part. destruct (c (k_fs k)) as [[x f]| | |]; [|done..]. intros E. by injection E as <- <-. Qed.
Lemma leaves_memory {A} (c : M memst A) : leaves (on_memory c).
Proof. intros k a k'. unfold on_memory, on_sched, on_part, on_kpages. destruct (c (pages (k_sched k))) as [[x f]| | |]; [|done..]. intros E. by injection E as <- <-. Qed.
Lemma leaves_ret {A} (a : A) : leaves (mret a).
Proof. intros k x k' E. by injection E as <- <-. Qed.
Lemma leaves_bind {A B} (c : M (kernel H) A) (f : A -> M (kernel H) B) : leaves c -> (forall a, leaves (f a)) -> leaves (c ≫= f).
Proof.
  intros H1 H2 k b k' E. apply mbindM_inv in E as (a & k1 & E1 & E2). destruct (H1 _ _ _ E1) as [X1 X2], (H2 _ _ _ _ E2) as [Y1 Y2]. split; congruence.
Qed.
#[local] Hint Resolve leaves_fs leaves_memory leaves_ret leaves_bind : leaves.

Lemma leaves_segment fd a b c : leaves (segment_load fd a b c).
Proof.
  unfold segment_load, read_to. apply leaves_bind; [auto with leaves|]. intros []; [|auto with leaves]. apply leaves_bind; [auto with leaves|]. intros _. apply leaves_bind; [|auto with leaves].
  apply leaves_bind; [auto with leaves|]. intros [n data]. apply leaves_bind; auto with leaves.
Qed.
Lemma leaves_segments n : forall fd e o, leaves (load_segments n fd e o).
Proof.
  induction n as [|n IH]; intros fd e o; cbn [load_segments]; [auto with leaves|]. apply leaves_bind; [auto with leaves|]. intros _. apply leaves_bind; [auto with leaves|]. intros [r data].
  destruct (negb _); [auto with leaves|]. apply leaves_bind; [destruct (_ =? _); [apply leaves_segment|auto with leaves]|]. intros []; auto with leaves.
Qed.
Lemma leaves_load a b p : leaves (load a b p).
Proof.
  unfold load. apply leaves_bind; [auto with leaves|]. intros fd. destruct (fd =? -1); [auto with leaves|]. apply leaves_bind; [auto with leaves|]. intros [r data].
  apply leaves_bind; [|intros x; apply leaves_bind; auto with leaves]. destruct (negb _); [auto with leaves|]. destruct (negb _); [auto with leaves|]. apply leaves_bind; [apply leaves_segments|auto with leaves].
Qed.

(** When the file cannot be loaded the old program goes on, but its free blocks
    are forgotten: the free lists were emptied before. *)
Theorem failed_execv_forgets_heap fuel a b path argv k k' descs : k_descs k !! cur (k_sched k) = Some descs ->
  sys_execv fuel a b path argv k = Ok (None, k') ->
  k_descs k' !! cur (k_sched k) = Some ((fun d => mk_desc (block_size d) (blocks_per_arena d) []) <$> descs).
Proof.
  intros Hd E. unfold sys_execv in E. apply mbindM_inv in E as (argc & k1 & E1 & E). apply leaves_memory in E1 as [D1 C1].
  apply mbindM_inv in E as (c & k2 & E2 & E). unfold on_sched, on_part in E2. cbn in E2. injection E2 as <- <-. rewrite getS_bind in E.
  apply mbindM_inv in E as (ds & k3 & E3 & E). unfold the in E3. cbn [set_k_sched k_descs] in E3. rewrite C1, D1, Hd in E3. injection E3 as <- <-. rewrite modS_bind in E.
  apply mbindM_inv in E as (pn & k4 & E4 & E). unfold liftO in E4. destruct (c_str path); try done. injection E4 as -> <-.
  apply mbindM_inv in E as (ep & k5 & E5 & E). apply leaves_load in E5 as [D5 _]. destruct (ep =? -1).
  - injection E as <-. rewrite D5. cbn [set_k_descs k_descs set_k_sched]. rewrite C1. by rewrite lookup_insert_eq.
  - apply mbindM_inv in E as (? & ? & _ & E). rewrite getS_bind in E. apply mbindM_inv in E as (? & ? & _ & E). rewrite modS_bind in E. by injection E.
Qed.
End Failure.

(** ** Witness: a program of five bytes *)

Definition exec_phdr : Elf32_Phdr := mk_phdr 1 32 0x8048010 0 5 5 5 0x1000.
Definition exec_bytes : list Z := phdr_bytes exec_phdr ++ [0xb8; 1; 0; 0; 0].
Definition exec_inode : inode := mk_inode 5 37 1 0 (613 :: replicate 12 0).
Definition exec_fs : fs bump :=
  mk_fs {[613 := exec_bytes ++ replicate 475 0]} (demo_part_with 3) {[100 := exec_inode]} ∅ demo_heap
    (<[3%nat := mk_file 0 1 100]> (replicate 32 (mk_file 0 0 NULL))) ([0; 1; 2; 3] ++ replicate 4 (-1)) 0 true 0x202.
Definition exec_kernel : kernel bump := mk_kernel fork_sched exec_fs ∅ ∅ ∅ ∅ ∅.

(** Devices without input; no pipe is used. *)
#[local] Instance exec_devices : Devices bump := {|
  dev_get_page := mret 0xC0300000; dev_free_page _ := mret tt; dev_ioqueue_init _ := mret tt;
  dev_ring_write _ _ n := mret n; dev_ring_read _ _ := mret (0, []); dev_printk _ := mret tt; dev_getchar := mret 0
|}.

Lemma exec_file_ok : file_ok (demo_part_with 3) (dsk exec_fs) exec_inode [613].
Proof.
  assert (in_data (demo_part_with 3) 613) as Hin.
  { split; [rewrite max_lba_value; cbn; lia|]. split; reflexivity. }
  split; [|done..]. split; [|vm_compute; reflexivity|cbn; lia|by repeat constructor|done|].
  - by apply inode_ok_intro.
  - apply NoDup_cons. split; [|apply NoDup_singleton]. by intros ?%list_elem_of_singleton.
Qed.

Lemma exec_opened : opened exec_fs 3 3 0 exec_inode [613].
Proof.
  split; [lia|reflexivity|lia| | | |exact exec_file_ok|cbn; lia|cbn; lia].
  - exists 1, 100. split; [reflexivity|]. split; [discriminate|reflexivity].
  - apply demo_geometry_with. unfold is_byte. lia.
  - intros a x E. cbn [exec_fs dsk] in E. apply lookup_singleton_Some in E as [_ <-]. reflexivity.
Qed.

Lemma exec_contents : contents (dsk exec_fs) exec_inode = exec_bytes.
Proof. vm_compute. reflexivity. Qed.

Lemma exec_user_pages i : 0 <= i < 8 -> translate fork_mmu (0x8048000 + i * 4096) = if i =? 0 then Some 0x240000 else None.
Proof.
  intros Hi. pose proof (forall_range_dec (fun i => bool_decide (translate fork_mmu (0x8048000 + i * 4096) = if i =? 0 then Some 0x240000 else None)) 8 eq_refl i ltac:(lia)) as E.
  by apply bool_decide_eq_true in E.
Qed.

Lemma exec_process : process fork_mem.
Proof.
  assert (upages fork_mem = 8) as Eu by reflexivity.
  split; [exact fork_mem_wf| |discriminate|cbn; lia|cbn; lia| |].
  - split; cbn [fork_mem vaddr_of userprog_vaddr vaddr_bitmap vaddr_start mm].
    + apply (demo_bitmap_wf 1); lia.
    + cbn. lia.
    + exists 0x8048. unfold nbits. cbn. lia.
    + intros i Hi Hu. change (0 <= i < 8) in Hi. rewrite exec_user_pages by done. destruct (Z.eqb_spec i 0) as [->|]; [discriminate|done].
  - intros i f Hi Hf. rewrite Eu in Hi. change (translate fork_mmu (0x8048000 + i * 4096) = Some f) in Hf. rewrite exec_user_pages in Hf by done. destruct (Z.eqb_spec i 0); [|done]. injection Hf as <-.
    split; [exists 0; unfold frames, nbits; cbn; lia|]. split.
    + split; [discriminate|]. intros d Hd Hp. destruct (fork_pde_cases d Hd Hp) as [[_ E]|[_ E]]; change (mm fork_mem) with fork_mmu; rewrite E; discriminate.
    + intros (j & Hj & E & Hu). cbn in E. assert (j = 0) as -> by lia. discriminate.
  - intros i j f Hi Hj Hfi Hfj. rewrite Eu in *. change (translate fork_mmu (0x8048000 + i * 4096) = Some f) in Hfi. change (translate fork_mmu (0x8048000 + j * 4096) = Some f) in Hfj.
    rewrite exec_user_pages in Hfi, Hfj by done. destruct (Z.eqb_spec i 0), (Z.eqb_spec j 0); try done; lia.
Qed.

