(* ===== verification/Ps.v ===== *)
(** * Listing the tasks, and the first tasks (thread/thread.c, userprog/syscall-init.c)

    [sys_ps] prints one line per task.  A state is paired with what has been
    written to the standard output; [sprintf] is used through the text of its
    format ([Printf]), into the sixteen bytes of [out_pad]. *)

From S2P Require Import Prelude Bitmap Interrupt Paging Memory PageAlloc DList Sched Sync Task CString Stdio Printf.
From Stdlib Require Import Ascii.
From Stdlib Require String.
Import Queue.

(** The characters of a C string literal. *)
Definition chars (s : string) : list Z := ascii_code <$> String.list_ascii_of_string s.

(** A string literal of the kernel image as an argument of [%s]. *)
Definition lit (s : string) : list piece := Lit <$> chars s.

Section Ps.
Context {P : Type} `{PA : PageAlloc P}.
Abbreviation out := (@sched P * list Z)%type.

Definition on_tasks {A} (c : M (@sched P) A) : M out A := fun so =>
  let '(s, o) := so in
  match c s with Ok (a, s') => Ok (a, (s', o)) | Panic w => Panic w | Fault => Fault | NoFuel => NoFuel end.

(** [sys_write(stdout_no, buf, count)] of a part of [out_pad]. *)
Definition put (l : list Z) : M out () := modS (fun so : out => (so.1, so.2 ++ l)).

(** [sprintf] into [out_pad], which is zero behind the text; the text must
    leave one zero.  The result is the buffer and the length. *)
Definition sprintf_pad (qs : list piece) : M out (list Z * Z) :=
  let t := text_of qs in
  if (length t <? 16)%nat then mret (t ++ replicate (16 - length t) 0, Z.of_nat (length t)) else faultM.

(** [while (i < buf_len) buf[i++] = ' ';], with an index below 17 in either type
    it is counted in. *)
Fixpoint blanks (n : nat) (buf : list Z) (i buf_len : Z) : outcome (list Z) :=
  match n with
  | O => Ok buf
  | S n' => if i <? buf_len then buf ← aset buf i 32; blanks n' buf (u8 (i + 1)) buf_len else Ok buf
  end.

(** [pad_print(out_pad, 16, ptr, format)], by what [ptr] and [format] print. *)
Definition pad_print (buf_len : Z) (qs : list piece) : M out () :=
  '(buf, out_pad_0idx) ← sprintf_pad qs;
  buf ← liftO (blanks 16 buf (u8 out_pad_0idx) buf_len);
  put (take (Z.to_nat (buf_len - 1)) buf).

Definition status_name (st : task_status) : list Z :=
  chars match st with
        | TASK_RUNNING => "RUNNING" | TASK_READY => "READY" | TASK_BLOCKED => "BLOCKED"
        | TASK_WAITING => "WAITING" | TASK_HANGING => "HANGING" | TASK_DIED => "DIED"
        end.

(** The characters of the name in front of its first zero. *)
Fixpoint name_str (buf : list Z) : outcome (list Z) :=
  match buf with
  | [] => Fault
  | c :: buf' => if c =? 0 then Ok [] else l ← name_str buf'; Ok (c :: l)
  end.

(** The last column: the name and a newline, built in [out_pad]. *)
Definition put_name (t : task_struct) : M out () :=
  n ← liftO (name_str (name t));
  _ ← assertM (length n <? 17)%nat "elem2thread_info: strlen(pthread->name) < 17";
  if (length n + 2 <=? 16)%nat then put (n ++ [10]) else faultM.

(** The callback of [list_traversal].  [lits] is where the literals are. *)
Definition elem2thread_info (lits : list Z -> Z) (pthread arg : Z) : M out bool :=
  t ← on_tasks (get_task pthread);
  '(out_pad, col_idx) ← sprintf_pad (if parent_pid t =? -1 then PDec (pid t) :: lit "/NULL"
                                     else [PDec (pid t); Lit 47; PDec (parent_pid t)]);
  out_pad ← liftO (blanks 16 out_pad col_idx 16);
  _ ← put (take 15 out_pad);
  _ ← pad_print 16 [PHex pthread];
  _ ← pad_print 16 [PStr (lits (status_name (status t))) (status_name (status t))];
  _ ← pad_print 16 [PHex (elapsed_ticks t)];
  _ ← put_name t;
  mret false.

(** The two lines of the head go to the screen with a colour of their own. *)
Definition sys_ps (lits : list Z -> Z) : M out () :=
  '(s, _) ← getS;
  _ ← q_traversal (elem2thread_info lits) 0 (thread_all_list s);
  mret tt.

Definition sys_getpid : M (@sched P) Z :=
  c ← running_thread; t ← get_task c; mret (u32 (pid t)).

(** ** What is printed *)

(** A column: the text, filled with blanks to fifteen characters. *)
Definition column (t : list Z) : list Z := t ++ replicate (15 - length t) 32.

Definition ppid_text (t : task_struct) : list Z :=
  signed_decimal (pid t) ++ 47 :: (if parent_pid t =? -1 then chars "NULL" else signed_decimal (parent_pid t)).

(** The line of a task whose PCB is at [p] and whose name is [n]. *)
Definition ps_line (p : Z) (t : task_struct) (n : list Z) : list Z :=
  column (ppid_text t) ++ column (hexadecimal p) ++ column (status_name (status t)) ++
  column (hexadecimal (elapsed_ticks t)) ++ n ++ [10].

(** A task as the kernel keeps it: values in the range of their types, a name
    of at most fourteen characters with a zero behind it. *)
Record listed (t : task_struct) (n : list Z) : Prop := {
  l_pid : - 2 ^ 15 <= pid t < 2 ^ 15;
  l_ppid : - 2 ^ 15 <= parent_pid t < 2 ^ 15;
  l_ticks : 0 <= elapsed_ticks t < 2 ^ 32;
  l_name : Forall (fun c => c <> 0) n /\ exists r, name t = n ++ 0 :: r;
  l_len : (length n <= 14)%nat
}.

Lemma digits_few base k : 0 < base -> forall fuel v, 0 <= v < base ^ Z.of_nat k -> (0 < k)%nat -> (length (digits fuel base v) <= k)%nat.
Proof.
  intros Hb. induction k as [|k IH]; intros [|fuel] v Hv Hk; cbn [digits length]; try lia. rewrite length_app. cbn [length].
  destruct (Z.eqb_spec (v / base) 0); [cbn; lia|].
  destruct (decide (k = 0%nat)) as [->|]; [rewrite Z.div_small in n by (change (Z.of_nat 1) with 1 in Hv; rewrite Z.pow_1_r in Hv; lia); done|].
  assert (length (digits fuel base (v / base)) <= k)%nat; [|lia]. apply IH; [|lia].
  rewrite Nat2Z.inj_succ, Z.pow_succ_r in Hv by lia. split; [apply Z.div_pos; lia|]. apply Z.div_lt_upper_bound; lia.
Qed.

Lemma signed_decimal_short v : - 2 ^ 15 <= v < 2 ^ 15 -> (length (signed_decimal v) <= 6)%nat.
Proof.
  intros Hv. unfold signed_decimal, decimal. destruct (Z.ltb_spec v 0); cbn [length]; rewrite length_fmap.
  - pose proof (digits_few 10 5 ltac:(lia) 33 (- v)). lia.
  - pose proof (digits_few 10 5 ltac:(lia) 33 v). lia.
Qed.

Lemma hexadecimal_short v : 0 <= v < 2 ^ 32 -> (length (hexadecimal v) <= 8)%nat.
Proof. intros Hv. unfold hexadecimal. rewrite length_fmap. apply digits_few; [lia|done|lia]. Qed.

(** The loop fills the sixteen bytes. *)
Lemma blanks_run fuel : forall t r, (length t + length r = 16)%nat -> (length r <= fuel)%nat ->
  blanks fuel (t ++ r) (Z.of_nat (length t)) 16 = Ok (t ++ replicate (length r) 32).
Proof.
  induction fuel as [|fuel IH]; intros t r Ht Hr; cbn [blanks].
  { destruct r; [done|cbn in Hr; lia]. }
  destruct r as [|x r]; [destruct (Z.ltb_spec (Z.of_nat (length t)) 16); [cbn in Ht; lia|done]|].
  cbn [length] in *. destruct (Z.ltb_spec (Z.of_nat (length t)) 16); [|lia].
  rewrite aset_Ok by (rewrite length_app; cbn; lia). rewrite bind_Ok, Nat2Z.id.
  replace (<[length t := 32]> (t ++ x :: r)) with ((t ++ [32]) ++ r).
  2: { rewrite <- (Nat.add_0_r (length t)), insert_app_r. cbn. by rewrite <- app_assoc. }
  rewrite wrapu_small by lia. replace (Z.of_nat (length t) + 1) with (Z.of_nat (length (t ++ [32]))) by (rewrite length_app; cbn; lia).
  rewrite IH by (rewrite ?length_app; cbn in *; lia). by rewrite <- app_assoc.
Qed.

Lemma take_column t k : (length t < 16)%nat -> k = (16 - length t)%nat -> take 15 (t ++ replicate k 32) = column t.
Proof.
  intros Ht ->. unfold column. rewrite take_app, take_ge by lia. f_equal. rewrite take_replicate. f_equal. lia.
Qed.

Lemma sprintf_pad_run qs so : (length (text_of qs) < 16)%nat ->
  sprintf_pad qs so = Ok ((text_of qs ++ replicate (16 - length (text_of qs)) 0, Z.of_nat (length (text_of qs))), so).
Proof. intros H. unfold sprintf_pad. by destruct (Nat.ltb_spec (length (text_of qs)) 16); [|lia]. Qed.

Lemma blanks_text t : (length t < 16)%nat ->
  blanks 16 (t ++ replicate (16 - length t) 0) (Z.of_nat (length t)) 16 = Ok (t ++ replicate (16 - length t) 32).
Proof. intros H. by rewrite blanks_run by (rewrite length_replicate; lia); rewrite length_replicate. Qed.

Lemma pad_print_run qs so : (length (text_of qs) < 16)%nat -> pad_print 16 qs so = Ok (tt, (so.1, so.2 ++ column (text_of qs))).
Proof.
  intros H. unfold pad_print. erewrite mbindM_Ok by (by apply sprintf_pad_run). cbn beta iota.
  rewrite wrapu_small by lia. rewrite (liftO_bind _ _ _ _ (blanks_text _ H)).
  unfold put, modS. change (Z.to_nat (16 - 1)) with 15%nat. by rewrite take_column.
Qed.

Lemma text_lits l : text_of (Lit <$> l) = l.
Proof. unfold text_of. induction l as [|c l IH]; [done|]. cbn. by f_equal. Qed.

Lemma name_str_run n r : Forall (fun c => c <> 0) n -> name_str (n ++ 0 :: r) = Ok n.
Proof. induction 1 as [|c n Hc _ IH]; cbn; [done|]. destruct (Z.eqb_spec c 0); [done|]. by rewrite IH. Qed.

Lemma on_tasks_bind {A B} (c : M (@sched P) A) (k : A -> M out B) s o a s' : c s = Ok (a, s') -> (on_tasks c ≫= k) (s, o) = k a (s', o).
Proof. intros E. erewrite mbindM_Ok; [done|]. unfold on_tasks. by rewrite E. Qed.

Lemma ppid_pieces t : text_of (if parent_pid t =? -1 then PDec (pid t) :: lit "/NULL" else [PDec (pid t); Lit 47; PDec (parent_pid t)]) = ppid_text t.
Proof.
  unfold ppid_text. destruct (parent_pid t =? -1); [done|]. rewrite !text_cons. cbn [printed app text_of concat fmap list_fmap]. by rewrite app_nil_r.
Qed.

Lemma text_one q : text_of [q] = printed q.
Proof. unfold text_of. cbn. apply app_nil_r. Qed.

(** The columns of a task but its name. *)
Definition columns (p : Z) (t : task_struct) : list Z :=
  column (ppid_text t) ++ column (hexadecimal p) ++ column (status_name (status t)) ++ column (hexadecimal (elapsed_ticks t)).

Lemma columns_run lits s o p t arg : tasks s !! p = Some t -> 0 <= p < 2 ^ 32 ->
  - 2 ^ 15 <= pid t < 2 ^ 15 -> - 2 ^ 15 <= parent_pid t < 2 ^ 15 -> 0 <= elapsed_ticks t < 2 ^ 32 ->
  elem2thread_info lits p arg (s, o) = (_ ← put_name t; mret false) (s, o ++ columns p t).
Proof.
  intros Et Hp H1 H2 H3. unfold elem2thread_info.
  erewrite on_tasks_bind by (unfold get_task; by rewrite Et).
  assert (length (ppid_text t) < 16)%nat as Hl.
  { unfold ppid_text. rewrite length_app. cbn [length]. pose proof (signed_decimal_short _ H1). pose proof (signed_decimal_short _ H2).
    destruct (parent_pid t =? -1); [cbn|]; lia. }
  rewrite <- ppid_pieces in Hl. erewrite mbindM_Ok by (by apply sprintf_pad_run). rewrite ppid_pieces in *. cbn beta iota.
  rewrite (liftO_bind _ _ _ _ (blanks_text _ Hl)). unfold put at 1. rewrite modS_bind, take_column by done.
  pose proof (hexadecimal_short p Hp). pose proof (hexadecimal_short _ H3).
  erewrite mbindM_Ok by (apply pad_print_run; rewrite text_one; cbn [printed]; lia). rewrite text_one.
  erewrite mbindM_Ok by (apply pad_print_run; rewrite text_one; by destruct (status t); cbn; lia). rewrite text_one.
  erewrite mbindM_Ok by (apply pad_print_run; rewrite text_one; cbn [printed]; lia). rewrite text_one.
  cbn [fst snd printed]. unfold columns. by rewrite <- !app_assoc.
Qed.

(** One call of the callback writes one line and goes on. *)
Lemma elem2thread_info_run lits s o p t n arg : tasks s !! p = Some t -> listed t n -> 0 <= p < 2 ^ 32 ->
  elem2thread_info lits p arg (s, o) = Ok (false, (s, o ++ ps_line p t n)).
Proof.
  intros Et [H1 H2 H3 [H4 (r & H5)] H6] Hp. rewrite (columns_run lits s o p t arg) by done.
  erewrite mbindM_Ok.
  2: { unfold put_name. rewrite (liftO_bind _ n) by (rewrite H5; by apply name_str_run).
       unfold assertM. rewrite (liftO_bind _ tt) by (by destruct (Nat.ltb_spec (length n) 17); [|lia]).
       destruct (Nat.leb_spec (length n + 2) 16); [reflexivity|lia]. }
  unfold mret, M_ret, ps_line, columns. cbn [fst snd]. by rewrite <- !app_assoc.
Qed.

Lemma ps_lines lits s xs : forall ns o, Forall2 (fun p n => 0 <= p < 2 ^ 32 /\ exists t, tasks s !! p = Some t /\ listed t n) xs ns ->
  exists lines, q_traversal (elem2thread_info lits) 0 xs (s, o) = Ok (0, (s, o ++ concat lines)) /\
    Forall2 (fun '(p, n) l => exists t, tasks s !! p = Some t /\ l = ps_line p t n) (zip xs ns) lines.
Proof.
  induction xs as [|p xs IH]; intros [|n ns] o F; try (by inversion F).
  { exists []. cbn. by rewrite app_nil_r. }
  apply Forall2_cons in F as [(Hp & t & Et & Hl) F]. cbn [q_traversal zip zip_with].
  erewrite mbindM_Ok by (by apply elem2thread_info_run). destruct (IH ns (o ++ ps_line p t n) F) as (ls & E & Hls).
  exists (ps_line p t n :: ls). rewrite E. cbn [concat]. rewrite <- app_assoc. split; [done|]. constructor; [|done]. by exists t.
Qed.

(** [sys_ps] writes one line for each task, in the order of the list of all
    tasks: pid and parent, the address of the PCB, the state and the ticks in
    columns of fifteen characters, then the name; it changes nothing. *)
Theorem sys_ps_lists_tasks lits s o ns :
  Forall2 (fun p n => 0 <= p < 2 ^ 32 /\ exists t, tasks s !! p = Some t /\ listed t n) (thread_all_list s) ns ->
  exists lines, sys_ps lits (s, o) = Ok (tt, (s, o ++ concat lines)) /\
    Forall2 (fun '(p, n) l => exists t, tasks s !! p = Some t /\ l = ps_line p t n) (zip (thread_all_list s) ns) lines.
Proof.
  intros F. destruct (ps_lines lits s _ ns o F) as (ls & E & Hls). exists ls. split; [|done].
  unfold sys_ps. rewrite getS_bind. by erewrite mbindM_Ok by exact E.
Qed.

(** A name of fifteen characters, which [init_thread] and [fork] allow, leaves
    no room for the newline and its zero: [strcat] writes behind [out_pad]. *)
Lemma ps_overruns_out_pad lits s o p t n : tasks s !! p = Some t -> name t = n ++ [0] -> length n = 15%nat -> Forall (fun c => c <> 0) n ->
  - 2 ^ 15 <= pid t < 2 ^ 15 -> - 2 ^ 15 <= parent_pid t < 2 ^ 15 -> 0 <= elapsed_ticks t < 2 ^ 32 -> 0 <= p < 2 ^ 32 ->
  elem2thread_info lits p 0 (s, o) = Fault.
Proof.
  intros Et En Hn Hz H1 H2 H3 Hp. rewrite (columns_run lits s o p t 0) by done. unfold put_name. rewrite mbindM_assoc.
  rewrite (liftO_bind _ n) by (rewrite En; by apply name_str_run).
  unfold assertM. rewrite mbindM_assoc, (liftO_bind _ tt) by (by rewrite Hn). by rewrite Hn.
Qed.

End Ps.

(** ** Witness: the tasks of a small kernel *)

Definition ps_task (p pp : Z) (st : task_status) (nm : list Z) : task_struct :=
  mk_task 0 p st (nm ++ replicate (16 - length nm) 0) 8 8 0x1F 0 [] 0 pp 0 STACK_MAGIC.
Definition ps_sched : @sched unit :=
  mk_sched tt {[0xC0101000 := ps_task 1 (-1) TASK_READY [105]; 0xC009E000 := ps_task 2 (-1) TASK_RUNNING [109]; 0xC0120000 := ps_task 4 1 TASK_WAITING [115; 104]]}
    [] [0xC0101000; 0xC009E000; 0xC0120000] 0xC009E000 0 0xC009E000 (mk_bitmap 128 (replicate 128 0)) ∅ ∅ ∅ 0 0 0 0.

Lemma ps_listed p pp st nm : 0 <= p < 100 -> -1 <= pp < 100 -> Forall (fun c => c <> 0) nm -> (length nm <= 14)%nat -> listed (ps_task p pp st nm) nm.
Proof.
  intros H1 H2 H3 H4. split; cbn; try lia. split; [done|]. exists (replicate (15 - length nm) 0). f_equal.
  replace (16 - length nm)%nat with (S (15 - length nm)) by lia. done.
Qed.

Lemma sys_ps_lists_tasks_witness :
  exists lines, sys_ps (fun _ => 0xC0090000) (ps_sched, []) = Ok (tt, (ps_sched, concat lines)) /\ length lines = 3%nat.
Proof.
  destruct (sys_ps_lists_tasks (fun _ => 0xC0090000) ps_sched [] [[105]; [109]; [115; 104]]) as (ls & E & F).
  - constructor; [|constructor; [|constructor; [|constructor]]]; (split; [lia|]).
    + exists (ps_task 1 (-1) TASK_READY [105]). split; [reflexivity|]. apply ps_listed; [lia|lia|by repeat constructor|cbn; lia].
    + exists (ps_task 2 (-1) TASK_RUNNING [109]). split; [reflexivity|]. apply ps_listed; [lia|lia|by repeat constructor|cbn; lia].
    + exists (ps_task 4 1 TASK_WAITING [115; 104]). split; [reflexivity|]. apply ps_listed; [lia|lia|by repeat constructor|cbn; lia].
  - exists ls. split; [exact E|]. apply Forall2_length in F. cbn in F. lia.
Defined.
