(* ===== verification/Console.v ===== *)
(** * The console (device/console.c, lib/kernel/printk.c, userprog/syscall-init.c)

    Threads print through routines that take the lock of the console, send their
    characters to the screen one by one and release the lock.  Between two
    characters the timer may give the processor to another thread.  The
    routines run on the transition system of [Sync] and on the display of
    [Screen]; the theorem is that the texts of different calls never mix. *)

From S2P Require Import Prelude Interrupt Paging Memory PageAlloc DList Sched Sync Screen CString Stdio Printf Ps.
Import Queue.

(** ** The routines *)

(** What a routine does in order.  [CPut] is [put_char_color]. *)
Inductive cop : Type := CAcquire | CPut (char_asci attr : Z) | CRelease.

Definition console_acquire : list cop := [CAcquire].
Definition console_release : list cop := [CRelease].

(** [put_str_color] and [put_int] as the characters they put. *)
Definition puts (str : list Z) (attr : Z) : list cop := (fun c => CPut c attr) <$> str.
Definition put_number (num : Z) : list cop := puts (hexadecimal_of 8 (u32 num)) 0x07.

Definition console_put_str (str : list Z) : list cop := console_acquire ++ puts str 0x07 ++ console_release.
Definition console_put_str_color (str : list Z) (attr : Z) : list cop := console_acquire ++ puts str (u8 attr) ++ console_release.
Definition console_put_char (char_asci : Z) : list cop := console_acquire ++ [CPut (u8 char_asci) 0x07] ++ console_release.
Definition console_put_char_color (char_asci attr : Z) : list cop := console_acquire ++ [CPut (u8 char_asci) (u8 attr)] ++ console_release.
Definition console_put_int (num : Z) : list cop := console_acquire ++ put_number num ++ console_release.

(** [printk] and [printkc] print what [vsprintf] has formatted; a text of 1024
    characters or more overruns the buffer. *)
Definition formatted (qs : list piece) : outcome (list Z) :=
  if (length (text_of qs) <? 1024)%nat then Ok (text_of qs) else Fault.
Definition printk (qs : list piece) : outcome (list cop) := t ← formatted qs; Ok (console_put_str t).
Definition printkc (attr : Z) (qs : list piece) : outcome (list cop) := t ← formatted qs; Ok (console_put_str_color t attr).

Definition sys_putchar (char_asci : Z) : list cop := console_put_char char_asci.
Definition sys_putstr_color (str : list Z) (attr : Z) : list cop := console_put_str_color str attr.

Definition task_status_str (st : task_status) : list Z :=
  match st with
  | TASK_RUNNING => chars "RUNNING" | TASK_READY => chars "READY" | TASK_BLOCKED => chars "BLOCKED"
  | TASK_WAITING => chars "WAITING" | TASK_HANGING => chars "HANGING" | TASK_DIED => chars "DIED"
  end.

(** The name behind the call [myname]. *)
Definition MY_NAME : list Z := chars "Eric Cui".
Definition sys_myname : list Z := MY_NAME.

(** A field of the PCB is read when its routine is called; [t] is the PCB at that
    time, [start] is [userprog_vaddr.vaddr_start]. *)
Definition pcb_call : Type := task_struct -> list cop.
Definition field (label : string) (v : task_struct -> list cop) : list pcb_call :=
  [(fun _ => console_put_str (chars label)); v; (fun _ => console_put_char 10)].

Definition sys_print_pcb (start : Z) : list pcb_call :=
  [(fun _ => console_put_str ([10] ++ chars "===== PCB =====" ++ [10]))] ++
  field " name: " (fun t => console_put_str (name t)) ++
  field " pid: 0x" (fun t => console_put_int (pid t)) ++
  field " self_kstack: 0x" (fun t => console_put_int (self_kstack t)) ++
  field " pgdir: 0x" (fun t => console_put_int (pgdir t)) ++
  field " priority: 0x" (fun t => console_put_int (priority t)) ++
  field " ticks: 0x" (fun t => console_put_int (ticks t)) ++
  field " elapsed_ticks: 0x" (fun t => console_put_int (elapsed_ticks t)) ++
  field " status: " (fun t => console_put_str (task_status_str (status t))) ++
  field " u_vaddr_start: 0x" (fun _ => console_put_int start) ++
  [(fun _ => console_put_str (chars "=== PCB End ===" ++ [10]))].

(** Every routine is of this form: the lock around a text. *)
Definition op_of (c : cell) : cop := CPut c.1 c.2.
Definition routine (text : list cell) : list cop := CAcquire :: (op_of <$> text) ++ [CRelease].
Definition text_cells (p : list cop) : list cell := omap (fun o => match o with CPut c a => Some (c, a) | _ => None end) p.

Definition is_routine (p : list cop) : Prop := p = routine (text_cells p).

Lemma cells_of_ops text : text_cells ((op_of <$> text) ++ [CRelease]) = text.
Proof. induction text as [|[c a] text IH]; [done|]. cbn. by f_equal. Qed.

Lemma routine_is text : is_routine (routine text).
Proof. unfold is_routine, routine. change (text_cells (CAcquire :: ?l)) with (text_cells l). by rewrite cells_of_ops. Qed.

Lemma puts_cells str a : puts str a = op_of <$> ((fun c => (c, a)) <$> str).
Proof. unfold puts. by rewrite <- list_fmap_compose. Qed.

(** The calls of console.c. *)
Inductive console_call : list cop -> Prop :=
| call_str str : console_call (console_put_str str)
| call_str_color str attr : console_call (console_put_str_color str attr)
| call_char char_asci : console_call (console_put_char char_asci)
| call_char_color char_asci attr : console_call (console_put_char_color char_asci attr)
| call_int num : console_call (console_put_int num).

Lemma console_calls_are_routines p : console_call p -> is_routine p.
Proof.
  destruct 1; unfold console_put_str, console_put_str_color, console_put_int, put_number; rewrite ?puts_cells; try apply routine_is.
  - apply (routine_is [(u8 char_asci, 0x07)]).
  - apply (routine_is [(u8 char_asci, u8 attr)]).
Qed.

(** [sys_help] *)
Definition help_lines : list string :=
  ["    buildin commands:";
   "        ls: show directory or file information";
   "        cd: change current work directory";
   "        mkdir: create a directory";
   "        rmdir: remove a empty directory";
   "        rm: remove a regular file";
   "        pwd: show current work directory";
   "        ps: show process information";
   "        clear: clear screen";
   "    shortcut key:";
   "        ctrl+l: clear screen";
   "        ctrl+u: clear input"; ""]%string.
Definition sys_help : outcome (list cop) := printk (concat ((fun l => lit l ++ [Lit 10]) <$> help_lines)).

(** The help text fits the buffer of [printk] and is one call of the console. *)
Lemma sys_help_call : exists p, sys_help = Ok p /\ console_call p /\ is_routine p.
Proof.
  unfold sys_help, printk, formatted. eexists. split; [reflexivity|]. split; [constructor|]. apply console_calls_are_routines. constructor.
Qed.

(** ** The console in the kernel *)

Section Console.
Context {P : Type} `{PA : PageAlloc P} (v2p : Z -> Z) (console_lock : Z).
#[local] Abbreviation sched := (@sched P).
Implicit Types s : sched.

(** The routine a thread is in: its whole text, and what is left to do. *)
Record job : Type := mk_job { text : list cell; todo : list cop }.

(** The kernel, the display, the routines the threads are in; [sent] are the
    characters in the order they were put, [finished] the calls that have
    returned, with the thread and the text. *)
Record con : Type := mk_con {
  kern : sched; display : vga; jobs : gmap Z job; sent : list cell; finished : list (Z * list cell)
}.

(** [console_init]. *)
Definition console_init : M sched () := lock_init console_lock.

(** What the scheduler and the other code may do meanwhile: interrupts and
    resumed operations at any time; calls of the running thread when it is not in
    a routine of the console, and never on its lock. *)
Definition elsewhere (a : action) (k : con) : Prop :=
  match a with
  | ARun | ATimer | AWake _ => True
  | AAcquire l | ARelease l => l <> console_lock /\ jobs k !! cur (kern k) = None
  | ABlock _ | AYield => jobs k !! cur (kern k) = None
  end.

(** The next operation of the routine of the running thread. *)
Definition console_op (o : cop) (rest : list cop) (j : job) (k : con) : outcome con :=
  let t := cur (kern k) in
  match o with
  | CAcquire =>
      '(_, s) ← lock_acquire v2p console_lock (kern k);
      Ok (mk_con s (display k) (<[t := mk_job (text j) rest]> (jobs k)) (sent k) (finished k))
  | CPut c a =>
      '(_, d) ← put_char_color c a (display k);
      Ok (mk_con (kern k) d (<[t := mk_job (text j) rest]> (jobs k)) (sent k ++ [(c, a)]) (finished k))
  | CRelease =>
      '(_, s) ← lock_release console_lock (kern k);
      Ok (mk_con s (display k) (delete t (jobs k)) (sent k) (finished k ++ [(t, text j)]))
  end.

(** A thread that is in no operation of the scheduler calls a routine, or does
    the next step of the one it is in. *)
Inductive cstep : con -> con -> Prop :=
| c_call k p : fr (kern k) (cur (kern k)) = [] -> cur (kern k) <> idle_thread (kern k) -> jobs k !! cur (kern k) = None -> console_call p ->
    cstep k (mk_con (kern k) (display k) (<[cur (kern k) := mk_job (text_cells p) p]> (jobs k)) (sent k) (finished k))
| c_op k k' j o rest : fr (kern k) (cur (kern k)) = [] -> jobs k !! cur (kern k) = Some j -> todo j = o :: rest ->
    console_op o rest j k = Ok k' -> cstep k k'
| c_else k a s : elsewhere a k -> enabled a (kern k) -> run_action v2p a (kern k) = Ok (tt, s) ->
    cstep k (mk_con s (display k) (jobs k) (sent k) (finished k)).

(** ** What the operations of the scheduler leave alone *)

(** Frames, locks and the running thread are the same. *)
Record same s s' : Prop := {
  sm_frames : frames_of s' = frames_of s;
  sm_locks : locks s' = locks s;
  sm_cur : cur s' = cur s;
  sm_idle : idle_thread s' = idle_thread s
}.
#[local] Instance same_preorder : PreOrder same.
Proof. split; [by split|]. intros s1 s2 s3 [] []. split; congruence. Qed.

Definition calm {A} (c : M sched A) : Prop := forall s a s', c s = Ok (a, s') -> same s s'.

Lemma calm_bind {A B} (c : M sched A) (f : A -> M sched B) : calm c -> (forall a, calm (f a)) -> calm (c ≫= f).
Proof. intros Hc Hf s b s'' E. apply mbindM_inv in E as (a & s' & E1 & E2). etransitivity; [exact (Hc _ _ _ E1)|exact (Hf _ _ _ _ E2)]. Qed.
Lemma calm_ret {A} (a : A) : calm (mret a).
Proof. intros s b s' [= <- <-]. reflexivity. Qed.
Lemma calm_liftO {A} (o : outcome A) : calm (liftO o).
Proof. intros s b s' E. unfold liftO in E. destruct o; [|done..]. injection E as <- <-. reflexivity. Qed.
Lemma calm_assert c w : calm (assertM c w).
Proof. apply calm_liftO. Qed.
Lemma calm_getS : calm getS.
Proof. intros s b s' [= <- <-]. reflexivity. Qed.
Lemma calm_modS (f : sched -> sched) : (forall s, same s (f s)) -> calm (modS f).
Proof. intros H s b s' [= <- <-]. apply H. Qed.
Lemma calm_upd_task p f : calm (upd_task p f).
Proof. intros s b s' E. unfold upd_task in E. destruct (tasks s !! p); [|done]. injection E as <- <-. by split. Qed.
Lemma calm_get_task p : calm (get_task p).
Proof. intros s b s' E. unfold get_task in E. destruct (tasks s !! p); [|done]. injection E as <- <-. reflexivity. Qed.
Lemma calm_get_sema p : calm (get_sema p).
Proof. intros s b s' E. unfold get_sema in E. destruct (semas s !! p); [|done]. injection E as <- <-. reflexivity. Qed.
Lemma calm_get_lock p : calm (get_lock p).
Proof. intros s b s' E. unfold get_lock in E. destruct (locks s !! p); [|done]. injection E as <- <-. reflexivity. Qed.
Lemma calm_status : calm intr_get_status.
Proof. intros s b s' [= <- <-]. reflexivity. Qed.
Lemma calm_running : calm running_thread.
Proof. intros s b s' E. unfold running_thread in E. injection E as <- <-. reflexivity. Qed.

Create HintDb calm.
#[local] Hint Resolve calm_ret calm_liftO calm_assert calm_getS calm_upd_task calm_get_task calm_get_sema calm_get_lock calm_status calm_running : calm.

Ltac calm :=
  repeat lazymatch goal with
  | |- forall _, _ => intros
  | |- calm (mbind _ _) => apply calm_bind
  | |- calm (modS _) => apply calm_modS; by split
  | |- calm (match ?x with _ => _ end) => destruct x
  | |- calm _ => solve [auto 2 with calm]
  end.

Lemma calm_disable : calm intr_disable.
Proof. unfold intr_disable, cli. calm. Qed.
Lemma calm_enable : calm intr_enable.
Proof. unfold intr_enable, sti. calm. Qed.
#[local] Hint Resolve calm_disable calm_enable : calm.
Lemma calm_set_status st : calm (intr_set_status st).
Proof. unfold intr_set_status. calm. Qed.
#[local] Hint Resolve calm_set_status : calm.
Lemma calm_unblock t : calm (thread_unblock t).
Proof. unfold thread_unblock. calm. Qed.
Lemma calm_activate p : calm (process_activate v2p p).
Proof. unfold process_activate, page_dir_activate, update_tss_esp. calm. Qed.
Lemma calm_put_sema p x : calm (put_sema p x).
Proof. unfold put_sema. calm. Qed.
#[local] Hint Resolve calm_unblock calm_activate calm_put_sema : calm.
Lemma calm_up p : calm (sema_up p).
Proof. unfold sema_up. calm. Qed.
#[local] Hint Resolve calm_up : calm.

(** ** Frames and locks *)

Lemma calm_bind_inv {A B} (c : M sched A) (f : A -> M sched B) s b s'' : calm c -> (c ≫= f) s = Ok (b, s'') ->
  exists a s', same s s' /\ c s = Ok (a, s') /\ f a s' = Ok (b, s'').
Proof. intros Hc E. apply mbindM_inv in E as (a & s' & E1 & E2). exists a, s'. split; [exact (Hc _ _ _ E1)|done]. Qed.

(** The frames of [c] become [ks], nothing else of interest changes. *)
Record reframed s s' (ks : list frame) : Prop := {
  rf_frames : frames_of s' = <[cur s := ks]> (frames_of s);
  rf_locks : locks s' = locks s;
  rf_idle : idle_thread s' = idle_thread s
}.

Lemma reframed_same s s1 s2 ks : same s s1 -> reframed s1 s2 ks -> reframed s s2 ks.
Proof. intros [S1 S2 S3 S4] [R1 R2 R3]. split; [by rewrite R1, S1, S3|congruence..]. Qed.

Lemma fr_same s s' t : same s s' -> fr s' t = fr s t.
Proof. intros H. unfold fr. by rewrite (sm_frames _ _ H). Qed.

(** Go past computations that leave frames and locks alone. *)
Ltac past E :=
  let a := fresh "a" in let s1 := fresh "s" in let S := fresh "S" in
  apply calm_bind_inv in E as (a & s1 & S & _ & E); [cbn beta iota in E|unfold cli; calm].
Ltac same_chain := repeat (eassumption || (etransitivity; [eassumption|])).

Lemma running_bind {B} (f : Z -> M sched B) s : (running_thread ≫= f) s = f (cur s) s.
Proof. done. Qed.

Lemma schedule_frames k s s' : schedule v2p k s = Ok (tt, s') -> reframed s s' (k :: fr s (cur s)).
Proof.
  unfold schedule. intros E. do 2 past E. rewrite running_bind in E. do 6 past E.
  apply calm_bind_inv in E as ([next l] & s9 & S9 & _ & E); [|calm]. do 3 past E.
  match type of E with switch_to _ _ _ ?s1 = _ => assert (same s s1) as Sa by same_chain end.
  replace (cur s1) with (cur s) in E by (symmetry; etransitivity; [apply (sm_cur _ _ S0)|apply S]).
  unfold switch_to, push_frame in E. rewrite modS_bind in E. injection E as <-.
  eapply reframed_same; [exact Sa|]. rewrite <- (fr_same s _ _ Sa), <- (sm_cur _ _ Sa). by split.
Qed.

(** A thread that gives up the processor behind calm computations. *)
Lemma schedule_after k s s1 s' : same s s1 -> schedule v2p k s1 = Ok (tt, s') -> reframed s s' (k :: fr s (cur s)).
Proof.
  intros Sa E. apply (reframed_same s s1); [exact Sa|]. rewrite <- (fr_same s s1), <- (sm_cur _ _ Sa) by exact Sa. by apply schedule_frames.
Qed.

(** *** The operations, one by one *)

Lemma block_frames stat k s s' : thread_block_then v2p stat k s = Ok (tt, s') -> exists old, reframed s s' (k old :: fr s (cur s)).
Proof. unfold thread_block_then. intros E. do 4 past E. eexists. eapply schedule_after; [|exact E]. same_chain. Qed.

Lemma yield_frames s s' : thread_yield v2p s = Ok (tt, s') -> exists old, reframed s s' (KRet old :: fr s (cur s)).
Proof. unfold thread_yield. intros E. do 6 past E. eexists. eapply schedule_after; [|exact E]. same_chain. Qed.

Lemma timer_frames s s' : timer_interrupt v2p s = Ok (tt, s') -> same s s' \/ exists ef, reframed s s' (KIret ef :: fr s (cur s)).
Proof.
  unfold timer_interrupt, intr_timer_handler. intros E. do 8 past E. destruct (_ =? 0).
  - right. eexists. eapply schedule_after; [|exact E]. same_chain.
  - left. past E. injection E as <-. transitivity s8; [same_chain|by split].
Qed.

Lemma down_frames p old s s' : sema_down_loop v2p p old s = Ok (tt, s') -> same s s' \/ reframed s s' (KDown p old :: fr s (cur s)).
Proof.
  unfold sema_down_loop. intros E. past E. destruct (_ =? 0).
  - do 3 past E. apply block_frames in E as (o & R). right. 
    match type of R with reframed ?s1 _ _ => assert (same s s1) as Sa by same_chain; rewrite (fr_same s s1), (sm_cur _ _ Sa) in R by exact Sa; by apply (reframed_same s s1) end.
  - left. do 3 past E. injection E as <-. same_chain.
Qed.

(** The thread has called [lock_acquire] on [l] and is not yet the holder. *)
Definition enters (l : Z) (ks : list frame) : Prop := in_down l ks \/ ks = [KTook l] \/ exists ef, ks = [KIret ef; KTook l].

Lemma enters_took l l' : enters l [KTook l'] <-> l' = l.
Proof. split; [intros [(o & [=])|[[= ->]|(ef & [=])]]; done|intros ->; right; by left]. Qed.
Lemma enters_down l l' o : enters l [KDown (sema_of l') o; KTook l'] <-> l' = l.
Proof. split; [intros [(o' & [= _ _ ->])|[[=]|(ef & [=])]]; done|intros ->; left; by exists o]. Qed.
Lemma enters_nil l : ~ enters l [].
Proof. intros [(o & [=])|[[=]|(ef & [=])]]. Qed.
Lemma enters_up l l' : ~ enters l [KUp l'].
Proof. intros [(o & [=])|[[=]|(ef & [=])]]. Qed.
Lemma enters_one l k : (forall l', k <> KTook l') -> ~ enters l [k].
Proof. intros H [(o & [=])|[[= ->]|(ef & [=])]]. by destruct (H l). Qed.
Lemma enters_iret l ef ks : base ks -> enters l (KIret ef :: ks) <-> enters l ks.
Proof.
  intros [->|(l' & [->| ->])].
  - split; intros H; exfalso; [by apply (enters_one l (KIret ef))|by apply (enters_nil l)].
  - rewrite enters_took. split; [intros [(o & [=])|[[=]|(ef' & [= _ ->])]]; done|intros ->; right; right; by exists ef].
  - split; intros H; exfalso; [destruct H as [(o & [=])|[[=]|(ef' & [=])]]|by apply (enters_up l l')].
Qed.

(** An operation changes the frames of the running thread only; seen from the
    lock [l], that thread stays where it is, or it becomes the holder. *)
Record effect (l : Z) (x : lock) s s' : Prop := {
  ef_others : forall t, t <> cur s -> fr s' t = fr s t;
  ef_idle : idle_thread s' = idle_thread s;
  ef_lock : (locks s' !! l = Some x /\ (enters l (fr s' (cur s)) <-> enters l (fr s (cur s)))) \/
            (locks s' !! l = Some (mk_lock (cur s) 1) /\ fr s (cur s) = [KTook l] /\ fr s' (cur s) = [])
}.

Lemma effect_same l x s s' : locks s !! l = Some x -> same s s' -> effect l x s s'.
Proof. intros Hx Sa. split; [intros t _; by apply fr_same|apply Sa|]. left. by rewrite (sm_locks _ _ Sa), (fr_same _ _ _ Sa). Qed.

Lemma fr_reframed s s' ks t : reframed s s' ks -> fr s' t = if decide (t = cur s) then ks else fr s t.
Proof. intros [R _ _]. unfold fr. rewrite R, lookup_insert. repeat case_decide; congruence || done. Qed.

Lemma effect_reframed l x s s' ks : locks s !! l = Some x -> reframed s s' ks -> (enters l ks <-> enters l (fr s (cur s))) -> effect l x s s'.
Proof.
  intros Hx R He. split; [intros t Ht; by rewrite (fr_reframed _ _ _ _ R), decide_False|apply R|]. left.
  by rewrite (rf_locks _ _ _ R), (fr_reframed _ _ _ _ R), decide_True.
Qed.

Lemma reframed_popped s ks s' : same (popped s ks) s' -> reframed s s' ks.
Proof. intros [S1 S2 S3 S4]. split; by rewrite ?S1, ?S2, ?S4. Qed.

Lemma resume_effect l x s s' : sinv s -> locks s !! l = Some x -> resume v2p s = Ok (tt, s') -> effect l x s s'.
Proof.
  intros Hs Hx E. unfold resume in E. pose proof (co_shape _ _ _ _ _ _ (si_core s Hs) (cur s)) as Hsh.
  destruct (frames_of s !! cur s) as [[|k ks]|] eqn:Ef; [injection E as <-; by apply effect_same| |injection E as <-; by apply effect_same].
  assert (fr s (cur s) = k :: ks) as Hf by (unfold fr; by rewrite Ef). rewrite Hf in Hsh. rewrite modS_bind in E. fold (popped s ks) in E.
  inversion Hsh as [ks0 Hb Ek|ef ks0 Hb Ek|Ek|old Ek|l' old Ek]; subst.
  - destruct Hb as [?|(l' & [[= -> ->]|[= -> ->]])]; [done| |].
    + unfold lock_took in E. rewrite running_bind in E. past E. past E. unfold put_lock in E. injection E as <-.
      assert (same (popped s []) s1) as Sa by same_chain. pose proof (reframed_popped s [] s1 Sa) as R.
      assert (forall t, fr (set_locks (<[l' := mk_lock (cur s) 1]> (locks s1)) s1) t = if decide (t = cur s) then [] else fr s t) as F
        by (intros t; exact (fr_reframed _ _ _ t R)).
      split; [intros t Ht; by rewrite F, decide_False|apply R|]. rewrite F, decide_True, Hf by done.
      change (locks (set_locks ?m s1)) with m. rewrite (rf_locks _ _ _ R). destruct (decide (l' = l)) as [->|Hne].
      * right. by rewrite lookup_insert_eq.
      * left. rewrite lookup_insert_ne, enters_took by done. split; [done|]. split; [by intros ?%enters_nil|done].
    + apply (effect_reframed l x s s' []); [done| |rewrite Hf; split; intros ?; exfalso; [by apply (enters_nil l)|by apply (enters_up l l')]].
      apply reframed_popped. by apply (calm_up (sema_of l') _ tt).
  - injection E as <-. apply (effect_reframed l x s _ ks); [done|apply reframed_popped; by split|rewrite Hf; symmetry; by apply enters_iret].
  - past E. injection E as <-. apply (effect_reframed l x s _ []); [done|by apply reframed_popped|].
    rewrite Hf. split; intros ?; exfalso; [by apply (enters_nil l)|by apply (enters_one l KStart)].
  - past E. injection E as <-. apply (effect_reframed l x s _ []); [done|by apply reframed_popped|].
    rewrite Hf. split; intros ?; exfalso; [by apply (enters_nil l)|by apply (enters_one l (KRet old))].
  - past E. pose proof (reframed_popped s _ _ S) as R. pose proof (fr_reframed _ _ _ (cur s) R) as F. rewrite decide_True in F by done.
    apply down_frames in E as [S1|R1].
    + apply (effect_reframed l x s _ [KTook l']); [done|apply reframed_popped; by etransitivity|]. by rewrite Hf, enters_took, enters_down.
    + assert (cur s0 = cur s) as Ec by apply S. rewrite Ec, F in R1.
      apply (effect_reframed l x s _ [KDown (sema_of l') old; KTook l']); [done| |by rewrite Hf].
      split; [rewrite (rf_frames _ _ _ R1), (rf_frames _ _ _ R), Ec; apply insert_insert_eq|by rewrite (rf_locks _ _ _ R1), (rf_locks _ _ _ R)|by rewrite (rf_idle _ _ _ R1), (rf_idle _ _ _ R)].
Qed.

Lemma acquire_frames l x s s' : locks s !! l = Some x -> fr s (cur s) = [] -> lock_acquire v2p l s = Ok (tt, s') ->
  (holder x = cur s /\ s' = set_locks (<[l := mk_lock (holder x) (u32 (holder_repeat_nr x + 1))]> (locks s)) s) \/
  (holder x <> cur s /\ (reframed s s' [KTook l] \/ exists old, reframed s s' [KDown (sema_of l) old; KTook l])).
Proof.
  intros Hx Hf E. unfold lock_acquire in E. rewrite (mbindM_Ok _ _ _ _ _ (get_lock_run s l x Hx)), running_bind in E.
  destruct (Z.eqb_spec (holder x) (cur s)) as [Eh|Eh]; [left; injection E as <-; done|right; split; [done|]].
  unfold push_frame in E. rewrite modS_bind in E. set (s1 := set_frames_of _ s) in E.
  assert (reframed s s1 [KTook l]) as R1 by (split; [|done..]; cbn; f_equal; unfold fr in Hf; by rewrite Hf).
  unfold sema_down in E. past E. apply down_frames in E as [S1|R2].
  - left. assert (same s1 s') as Sa by same_chain. destruct R1 as [A1 A2 A3], Sa as [B1 B2 B3 B4]. split; congruence.
  - right. exists a. rewrite (fr_same _ _ _ S), (sm_cur _ _ S) in R2. change (cur s1) with (cur s) in R2.
    rewrite (fr_reframed _ _ _ _ R1), decide_True in R2 by done.
    destruct R1 as [A1 A2 A3], S as [B1 B2 B3 B4], R2 as [C1 C2 C3]. split; [|congruence..].
    rewrite C1, B1, B3, A1. change (cur s1) with (cur s). apply insert_insert_eq.
Qed.

Lemma release_frames l x s s' : locks s !! l = Some x -> fr s (cur s) = [] -> lock_release l s = Ok (tt, s') ->
  holder x = cur s /\ (forall t, t <> cur s -> fr s' t = fr s t) /\ idle_thread s' = idle_thread s /\ (fr s' (cur s) = [] \/ fr s' (cur s) = [KUp l]) /\
  exists x', locks s' = <[l := x']> (locks s) /\ (holder_repeat_nr x = 1 -> x' = mk_lock NULL 0).
Proof.
  intros Hx Hf E. unfold lock_release in E. rewrite (mbindM_Ok _ _ _ _ _ (get_lock_run s l x Hx)), running_bind in E.
  destruct (Z.eqb_spec (holder x) (cur s)) as [Eh|Eh]; [|done]. rewrite (mbindM_Ok _ _ _ _ _ (assertM_run true _ s eq_refl)) in E. split; [done|].
  destruct (Z.ltb_spec 1 (holder_repeat_nr x)) as [Hg|Hg].
  - injection E as <-. split; [done|]. split; [done|]. split; [by left|]. eexists. split; [reflexivity|lia].
  - past E. unfold put_lock, push_frame in E. rewrite modS_bind in E. injection E as <-. set (s2 := set_locks _ s0).
    assert (forall t, fr (set_frames_of (<[cur s := KUp l :: default [] (frames_of s2 !! cur s)]> (frames_of s2)) s2) t = if decide (t = cur s) then KUp l :: fr s2 (cur s) else fr s2 t) as F
      by (intros t; apply fr_push).
    assert (forall t, fr s2 t = fr s t) as F2 by (intros t; exact (fr_same _ _ t S)).
    split; [intros t Ht; by rewrite F, decide_False|]. split; [apply S|]. split; [right; by rewrite F, decide_True, F2, Hf|].
    exists (mk_lock NULL 0). split; [cbn; by rewrite (sm_locks _ _ S)|done].
Qed.

(** What other code does, seen from the lock of the console. *)
Lemma action_effect l x a s s' : sinv s -> enabled a s -> a <> AAcquire l -> a <> ARelease l -> locks s !! l = Some x ->
  run_action v2p a s = Ok (tt, s') -> effect l x s s'.
Proof.
  intros Hs He Ha Hr Hx E. destruct a as [| |l'|l'|stat| |t]; cbn in He, E.
  - by apply resume_effect.
  - apply timer_frames in E as [S|(ef & R)]; [by apply effect_same|].
    apply (effect_reframed l x s _ _ Hx R). apply enters_iret. by apply (si_off s Hs).
  - destruct He as (Hf & _ & x' & Hx' & _). assert (l' <> l) as Hne by congruence.
    destruct (acquire_frames _ _ _ _ Hx' Hf E) as [[_ ->]|[_ [R|(old & R)]]].
    + split; [done..|]. left. split; [cbn; by rewrite lookup_insert_ne|done].
    + apply (effect_reframed l x s _ _ Hx R). rewrite Hf, enters_took. split; [done|by intros ?%enters_nil].
    + apply (effect_reframed l x s _ _ Hx R). rewrite Hf, enters_down. split; [done|by intros ?%enters_nil].
  - destruct He as (Hf & _ & x' & Hx' & _). assert (l' <> l) as Hne by congruence.
    destruct (release_frames _ _ _ _ Hx' Hf E) as (_ & Ho & Hi & Hc & x1 & Hl & _). split; [done..|]. left.
    rewrite Hl, lookup_insert_ne by done. split; [done|]. rewrite Hf. destruct Hc as [->| ->]; split; intros H; try done; exfalso; [by apply (enters_up l l')|by apply (enters_nil l)].
  - destruct He as [Hf _]. apply block_frames in E as (old & R). apply (effect_reframed l x s _ _ Hx R). rewrite Hf.
    split; intros H; exfalso; [by apply (enters_one l (KRet old))|by apply (enters_nil l)].
  - apply yield_frames in E as (old & R). apply (effect_reframed l x s _ _ Hx R). rewrite He.
    split; intros H; exfalso; [by apply (enters_one l (KRet old))|by apply (enters_nil l)].
  - apply effect_same; [done|]. by apply (calm_unblock t _ tt).
Qed.

(** ** The invariant *)

Definition texts (k : con) : list cell := concat (snd <$> finished k).
Definition rest_of (rest : list cell) : list cop := (op_of <$> rest) ++ [CRelease].
Definition printable (c : cell) : Prop := 0 <= c.1 < 256 /\ c.1 <> 8 /\ 0 <= c.2 < 256.

(** Where a thread stands: outside; before the lock; waiting for it; inside with
    a part of its text printed. *)
Inductive stage (x : lock) (k : con) (t : Z) : option job -> Prop :=
| st_out : (holder x = t -> t = NULL) -> ~ enters console_lock (fr (kern k) t) -> stage x k t None
| st_before tx : holder x <> t -> ~ enters console_lock (fr (kern k) t) -> stage x k t (Some (mk_job tx (routine tx)))
| st_waits tx : holder x <> t -> enters console_lock (fr (kern k) t) -> stage x k t (Some (mk_job tx (rest_of tx)))
| st_inside done rest : holder x = t -> ~ enters console_lock (fr (kern k) t) -> sent k = texts k ++ done ->
    stage x k t (Some (mk_job (done ++ rest) (rest_of rest))).

Record cinv (rows : list (list cell) * list cell) (k : con) (x : lock) : Prop := {
  ci_sched : sinv (kern k);
  ci_lock : locks (kern k) !! console_lock = Some x;
  ci_once : holder x = NULL \/ holder_repeat_nr x = 1;
  ci_alive : forall t, is_Some (jobs k !! t) -> t <> NULL /\ t <> idle_thread (kern k);
  ci_stage : forall t, stage x k t (jobs k !! t);
  ci_free : holder x = NULL -> sent k = texts k;
  ci_shown : Forall printable (sent k) -> shows (display k) (lay rows (sent k))
}.

Lemma sinv_cur_null s : sinv s -> cur s <> NULL.
Proof. intros Hs E. pose proof (si_cur s Hs) as H. rewrite E, (co_null _ _ _ _ _ _ (si_core s Hs)) in H. done. Qed.

(** A thread whose frames, lock and job stay as they were stays where it was. *)
Lemma stage_stays x x' k k' t o : stage x k t o ->
  (enters console_lock (fr (kern k') t) <-> enters console_lock (fr (kern k) t)) ->
  (holder x' = t <-> holder x = t) -> (holder x = t -> o <> None -> sent k' = sent k /\ texts k' = texts k) -> stage x' k' t o.
Proof.
  intros H Hf Hh Hs. destruct H as [H1 H2|tx H1 H2|tx H1 H2|done rest H1 H2 H3].
  - apply st_out; tauto.
  - apply st_before; tauto.
  - apply st_waits; tauto.
  - destruct (Hs H1) as [E1 E2]; [done|]. apply st_inside; [tauto..|congruence].
Qed.

(** A new call. *)
Lemma call_keeps rows k x p : cinv rows k x -> fr (kern k) (cur (kern k)) = [] -> cur (kern k) <> idle_thread (kern k) -> jobs k !! cur (kern k) = None -> is_routine p ->
  cinv rows (mk_con (kern k) (display k) (<[cur (kern k) := mk_job (text_cells p) p]> (jobs k)) (sent k) (finished k)) x.
Proof.
  intros [C1 C2 C3 C4 C5 C6 C7] Hf Hi Hj Hp. pose proof (sinv_cur_null _ C1) as Hn. split; try done; cbn [jobs kern].
  - intros t. rewrite lookup_insert. case_decide as E; [subst; done|apply C4].
  - intros t. rewrite lookup_insert. case_decide as E; [subst t|by apply (stage_stays x x k)].
    replace (mk_job (text_cells p) p) with (mk_job (text_cells p) (routine (text_cells p))) by (f_equal; symmetry; exact Hp). apply st_before; cbn [kern]; [|rewrite Hf; apply enters_nil].
    intros Eh. pose proof (C5 (cur (kern k))) as St. rewrite Hj in St. inversion St. by auto.
Qed.

(** The lock is asked for. *)
Lemma acquire_keeps rows k x j rest k' : cinv rows k x -> fr (kern k) (cur (kern k)) = [] -> jobs k !! cur (kern k) = Some j -> todo j = CAcquire :: rest ->
  console_op CAcquire rest j k = Ok k' -> cinv rows k' x.
Proof.
  intros [C1 C2 C3 C4 C5 C6 C7] Hf Hj Ht E. cbn in E. apply bind_inv in E as ([[] s'] & El & [= <-]).
  destruct (C4 (cur (kern k)) ltac:(by rewrite Hj)) as [Hn Hi]. pose proof (C5 (cur (kern k))) as St. rewrite Hj in St.
  assert (exists tx, j = mk_job tx (routine tx) /\ holder x <> cur (kern k)) as (tx & -> & Hh).
  { inversion St as [|tx H1 H2 E1|tx H1 H2 E1|done0 r H1 H2 H3 E1]; subst j; cbn [todo] in Ht.
    - by exists tx. - by destruct tx. - by destruct r. }
  injection Ht as <-. assert (enabled (AAcquire console_lock) (kern k)) as He.
  { split; [done|]. split; [done|]. exists x. split; [done|]. destruct C3 as [C3| ->]; [|lia].
    destruct (co_locks _ _ _ _ _ _ (si_core _ C1) _ x C2) as (m & _ & Ok). rewrite (proj1 (proj2 (lo_repeat _ _ _ _ _ Ok)) C3). lia. }
  destruct (action_ok v2p _ _ C1 He) as (s1 & R1 & I1). cbn in R1. assert (s1 = s') as -> by congruence.
  destruct (acquire_frames _ _ _ _ C2 Hf El) as [[? _]|[_ R]]; [done|].
  assert (exists ks, reframed (kern k) s' ks /\ enters console_lock ks) as (ks & Rf & En).
  { destruct R as [R|(old & R)]; eexists; (split; [exact R|]); [by apply enters_took|by apply enters_down]. }
  split; try done; cbn [kern jobs].
  - by rewrite (rf_locks _ _ _ Rf).
  - rewrite (rf_idle _ _ _ Rf). intros t. rewrite lookup_insert. case_decide; [subst; done|apply C4].
  - intros t. rewrite lookup_insert. case_decide as E; [subst t|].
    + apply st_waits; [done|]. cbn [kern]. by rewrite (fr_reframed _ _ _ _ Rf), decide_True.
    + apply (stage_stays x x k); try done. cbn [kern]. by rewrite (fr_reframed _ _ _ _ Rf), decide_False.
Qed.

(** A thread between the lock and the end of its text is the holder. *)
Lemma inside rows k x j o rest : cinv rows k x -> fr (kern k) (cur (kern k)) = [] -> jobs k !! cur (kern k) = Some j -> todo j = o :: rest -> o <> CAcquire ->
  exists done r, j = mk_job (done ++ r) (rest_of r) /\ holder x = cur (kern k) /\ holder x <> NULL /\ sent k = texts k ++ done.
Proof.
  intros C Hf Hj Ht Ho. destruct (ci_alive _ _ _ C (cur (kern k)) ltac:(by rewrite Hj)) as [Hn _].
  pose proof (ci_stage _ _ _ C (cur (kern k))) as St. rewrite Hj in St.
  inversion St as [|tx H1 H2 E1|tx H1 H2 E1|done0 r H1 H2 H3 E1]; subst j; cbn [todo] in Ht.
  - unfold routine in Ht. congruence.
  - rewrite Hf in H2. by apply enters_nil in H2.
  - exists done0, r. split; [done|]. split; [done|]. split; [congruence|done].
Qed.

Lemma stage_inside x k t tx td done rest : tx = done ++ rest -> td = rest_of rest -> holder x = t -> ~ enters console_lock (fr (kern k) t) -> sent k = texts k ++ done ->
  stage x k t (Some (mk_job tx td)).
Proof. intros -> ->. apply st_inside. Qed.

(** A character is put. *)
Lemma put_keeps rows k x j rest k' c a : cinv rows k x -> fr (kern k) (cur (kern k)) = [] -> jobs k !! cur (kern k) = Some j -> todo j = CPut c a :: rest ->
  console_op (CPut c a) rest j k = Ok k' -> cinv rows k' x.
Proof.
  intros C Hf Hj Ht E. destruct (inside _ _ _ _ _ _ C Hf Hj Ht) as (dn & r & -> & Hh & Hn & Hs); [done|].
  cbn in E. apply bind_inv in E as ([[] d] & Ed & [= <-]).
  destruct r as [|[c' a'] r]; [done|]. injection Ht as -> -> <-. destruct C as [C1 C2 C3 C4 C5 C6 C7].
  split; try done; cbn [kern jobs sent display].
  - intros t. rewrite lookup_insert. case_decide as E; [|apply C4]. intros _. subst t. apply C4. by rewrite Hj.
  - intros t. rewrite lookup_insert. case_decide as E; [subst t|].
    + apply (stage_inside _ _ _ _ _ (dn ++ [(c, a)]) r); [by rewrite <- app_assoc|done..| |cbn; rewrite Hs; by rewrite <- app_assoc].
      cbn [kern]. rewrite Hf. apply enters_nil.
    + apply (stage_stays x x k); try done. intros H. congruence.
  - intros [H1 H2]%Forall_app. apply Forall_singleton in H2 as (P1 & P2 & P3). cbn in P1, P2, P3.
    destruct (put_char_shows _ _ c a (C7 H1) P1 P3 P2) as (d' & Ed' & Sh). assert (d' = d) as -> by congruence.
    unfold lay. rewrite foldl_app. exact Sh.
Qed.

(** The lock is given back. *)
Lemma release_keeps rows k x j rest k' : cinv rows k x -> fr (kern k) (cur (kern k)) = [] -> jobs k !! cur (kern k) = Some j -> todo j = CRelease :: rest ->
  console_op CRelease rest j k = Ok k' -> cinv rows k' (mk_lock NULL 0).
Proof.
  intros C Hf Hj Ht E. destruct (inside _ _ _ _ _ _ C Hf Hj Ht) as (dn & r & -> & Hh & Hn & Hs); [done|].
  destruct r as [|[c' a'] r]; [|done]. cbn in E. apply bind_inv in E as ([[] s'] & El & [= <-]). destruct C as [C1 C2 C3 C4 C5 C6 C7].
  destruct (C4 (cur (kern k)) ltac:(by rewrite Hj)) as [_ Hi]. assert (holder_repeat_nr x = 1) as H1 by (by destruct C3).
  assert (enabled (ARelease console_lock) (kern k)) as He.
  { split; [done|]. split; [done|]. exists x. split; [done|]. split; [done|]. rewrite H1. lia. }
  destruct (action_ok v2p _ _ C1 He) as (s1 & R1 & I1). cbn in R1. assert (s1 = s') as -> by congruence.
  destruct (release_frames _ _ _ _ C2 Hf El) as (_ & Ho & Hid & Hc & x' & Hl & Hx'). rewrite (Hx' H1) in Hl.
  assert (texts (mk_con s' (display k) (delete (cur (kern k)) (jobs k)) (sent k) (finished k ++ [(cur (kern k), dn ++ [])])) = texts k ++ dn) as Et.
  { unfold texts. cbn [finished]. rewrite fmap_app, concat_app. cbn. by rewrite !app_nil_r. }
  split; try done; cbn [kern jobs sent display].
  - rewrite Hl. apply lookup_insert_eq.
  - by left.
  - intros t [y Hy]. apply lookup_delete_Some in Hy as [_ Hy]. rewrite Hid. apply C4. by rewrite Hy.
  - intros t. rewrite lookup_delete. case_decide as E; [subst t|].
    + apply st_out; [by intros <-|]. cbn [kern]. destruct Hc as [->| ->]; [apply enters_nil|apply enters_up].
    + pose proof (C5 t) as St. assert (holder x <> t) as Hxt by congruence.
      destruct (jobs k !! t) as [y|] eqn:Ey.
      * destruct (C4 t ltac:(by rewrite Ey)) as [Htn _].
        apply (stage_stays x _ k); [exact St|cbn [kern]; by rewrite Ho by done|cbn; split; congruence|congruence].
      * inversion St. apply st_out; [by intros <-|]. cbn [kern]. by rewrite Ho.
  - intros _. rewrite Et. exact Hs.
Qed.

(** Something else happens. *)
Lemma else_keeps rows k x a s : cinv rows k x -> elsewhere a k -> enabled a (kern k) -> run_action v2p a (kern k) = Ok (tt, s) ->
  exists x', cinv rows (mk_con s (display k) (jobs k) (sent k) (finished k)) x'.
Proof.
  intros [C1 C2 C3 C4 C5 C6 C7] Hel He E.
  destruct (action_ok v2p _ _ C1 He) as (s1 & R1 & I1). assert (s1 = s) as -> by congruence.
  assert (a <> AAcquire console_lock /\ a <> ARelease console_lock) as [N1 N2] by (split; intros ->; destruct Hel; done).
  destruct (action_effect _ _ _ _ _ C1 He N1 N2 C2 E) as [E1 E2 E3].
  destruct E3 as [[Hx Hen]|(Hx & Hk & Hk')].
  - exists x. split; try done; cbn [kern jobs]; [by rewrite E2|]. intros t. apply (stage_stays x x k); try done. cbn [kern].
    destruct (decide (t = cur (kern k))) as [->|Hne]; [done|by rewrite E1].
  - exists (mk_lock (cur (kern k)) 1). assert (holder x = NULL) as Hh.
    { destruct (co_locks _ _ _ _ _ _ (si_core _ C1) _ x C2) as (m & _ & Ok). destruct (decide (holder x = NULL)) as [|Hne]; [done|].
      destruct (lo_phase _ _ _ _ _ Ok (cur (kern k)) Hne). rewrite Hk. apply (taking_one console_lock); [by left|done]. }
    pose proof (sinv_cur_null _ C1) as Hn.
    split; try done; cbn [kern jobs]; [by right|by rewrite E2|].
    intros t. pose proof (C5 t) as St. destruct (decide (t = cur (kern k))) as [->|Hne].
    + assert (enters console_lock (fr (kern k) (cur (kern k)))) as En by (rewrite Hk; by apply enters_took).
      inversion St as [H1 H2 E4|tx H1 H2 E4|tx H1 H2 E4|dn r H1 H2 H3 E4]; try done.
      apply (st_inside _ _ _ []); [done|cbn [kern]; rewrite Hk'; apply enters_nil|]. cbn [sent]. rewrite app_nil_r. by apply C6.
    + assert (jobs k !! t = None \/ t <> NULL) as Ht.
      { destruct (jobs k !! t) eqn:Ej; [right; apply C4; by rewrite Ej|by left]. }
      inversion St as [H1 H2 E4|tx H1 H2 E4|tx H1 H2 E4|dn r H1 H2 H3 E4].
      * apply st_out; [intros E5; cbn in E5; congruence|cbn [kern]; by rewrite E1].
      * apply st_before; [cbn; congruence|cbn [kern]; by rewrite E1].
      * apply st_waits; [cbn; congruence|cbn [kern]; by rewrite E1].
      * exfalso. destruct Ht as [Ht|Ht]; congruence.
Qed.

Lemma step_keeps rows k k' x : cinv rows k x -> cstep k k' -> exists x', cinv rows k' x'.
Proof.
  intros C H. destruct H as [k p H1 H2 H3 H4|k k' j o rest H1 H2 H3 H4|k a s H1 H2 H3].
  - exists x. apply call_keeps; try done. by apply console_calls_are_routines.
  - destruct o as [|c a|]; [exists x; by apply (acquire_keeps rows k x j rest)|exists x; by apply (put_keeps rows k x j rest k' c a)|].
    exists (mk_lock NULL 0). by apply (release_keeps rows k x j rest).
  - by apply (else_keeps rows k x a s).
Qed.

(** The console after start-up, with nothing printed yet behind [rows]. *)
Record opened (rows : list (list cell) * list cell) (k : con) : Prop := {
  op_boot : booted (kern k);
  op_lock : is_Some (locks (kern k) !! console_lock);
  op_jobs : jobs k = ∅;
  op_sent : sent k = [];
  op_finished : finished k = [];
  op_shows : shows (display k) rows
}.

Lemma opened_inv rows k : opened rows k -> cinv rows k (mk_lock NULL 0).
Proof.
  intros [O1 [x Hx] O3 O4 O5 O6]. destruct (bo_locks _ O1 _ _ Hx) as [-> _]. split; [by apply booted_sinv|done|by left| | |by rewrite O4; unfold texts; rewrite O5|by rewrite O4].
  - intros t. rewrite O3, lookup_empty. by intros [? ?].
  - intros t. rewrite O3, lookup_empty. apply st_out; [by intros <-|]. destruct (bo_frames _ O1 t) as [->| ->]; [apply enters_nil|by apply enters_one].
Qed.

Lemma reachable_inv rows k0 k : opened rows k0 -> rtc cstep k0 k -> exists x, cinv rows k x.
Proof.
  intros Ho Hr. assert (exists x, cinv rows k0 x) as H0 by (eexists; by apply opened_inv). clear Ho.
  induction Hr as [k|k k1 k2 Hst _ IH]; [done|]. destruct H0 as [x C]. apply IH. by apply (step_keeps rows k k1 x).
Qed.

(** The next operation of a routine does not fail. *)
Lemma op_succeeds rows k x j o rest : cinv rows k x -> fr (kern k) (cur (kern k)) = [] -> jobs k !! cur (kern k) = Some j -> todo j = o :: rest ->
  Forall printable (sent k ++ text j) -> exists k', console_op o rest j k = Ok k'.
Proof.
  intros C Hf Hj Ht Hp. destruct (ci_alive _ _ _ C (cur (kern k)) ltac:(by rewrite Hj)) as [Hn Hi].
  pose proof C as [C1 C2 C3 C4 C5 C6 C7]. destruct (co_locks _ _ _ _ _ _ (si_core _ C1) _ x C2) as (m & _ & Hok).
  destruct (lo_repeat _ _ _ _ _ Hok) as [L1 L2].
  destruct o as [|c a|].
  - assert (holder_repeat_nr x < 2 ^ 32 - 1) as Hr by (destruct C3 as [C3| ->]; [apply L2 in C3|]; lia).
    destruct (lock_acquire_ok v2p _ _ x C1 Hf Hi C2 Hr) as (s' & E & _). cbn. rewrite E. by eexists.
  - destruct (inside _ _ _ _ _ _ C Hf Hj Ht) as (dn & r & -> & _ & _ & Hs); [done|]. cbn in Ht. destruct r as [|[c' a'] r]; [done|]. injection Ht as -> -> _.
    cbn [text] in Hp. rewrite !Forall_app, Forall_cons in Hp. destruct Hp as (P1 & _ & (Q1 & Q2 & Q3) & _). cbn in Q1, Q2, Q3.
    destruct (put_char_shows _ _ c a (C7 P1) Q1 Q3 Q2) as (d & E & _). cbn. rewrite E. by eexists.
  - destruct (inside _ _ _ _ _ _ C Hf Hj Ht) as (dn & r & -> & Hh & Hnn & Hs); [done|].
    assert (holder_repeat_nr x < 2 ^ 32) as Hr by (destruct C3 as [C3| ->]; [done|lia]).
    destruct (lock_release_ok _ _ x C1 Hf Hi C2 Hh Hr) as (s' & E & _). cbn. rewrite E. by eexists.
Qed.

(** C4. Texts printed through the console are not mixed, however the threads
    that print are interleaved with each other, with the timer and with other
    code: what has been sent to the screen is the texts of the finished calls,
    whole and in the order they finished, and behind them the beginning of the
    text of at most one call, whose thread is still inside; as long as no
    backspace is among them the screen shows exactly this; and the next
    operation of the running thread's routine never stops in an [ASSERT]. *)
Theorem console_texts_whole rows k0 k : opened rows k0 -> rtc cstep k0 k ->
  (exists part, sent k = concat (snd <$> finished k) ++ part /\
    (part = [] \/ exists t rest, jobs k !! t = Some (mk_job (part ++ rest) ((op_of <$> rest) ++ [CRelease])))) /\
  (Forall printable (sent k) -> shows (display k) (lay rows (sent k))) /\
  (forall j o rest, fr (kern k) (cur (kern k)) = [] -> jobs k !! cur (kern k) = Some j -> todo j = o :: rest ->
    Forall printable (sent k ++ text j) -> exists k', console_op o rest j k = Ok k').
Proof.
  intros Ho Hr. destruct (reachable_inv rows k0 k Ho Hr) as (x & C). split; [|split; [apply C|intros j o rest; by apply (op_succeeds rows k x)]].
  destruct (decide (holder x = NULL)) as [Hn|Hn].
  - exists []. rewrite app_nil_r. split; [by apply (ci_free _ _ _ C)|by left].
  - pose proof (ci_stage _ _ _ C (holder x)) as St. inversion St as [H1 H2 E|tx H1 H2 E|tx H1 H2 E|dn r H1 H2 H3 E]; [tauto|done|done|].
    exists dn. split; [done|]. right. by exists (holder x), r.
Qed.
End Console.

(** ** The routines of the source *)

(** [sys_print_pcb] prints one routine after the other, so another thread may
    print between two lines of it, and not inside one. *)
Lemma print_pcb_calls start t : Forall (fun c => console_call (c t)) (sys_print_pcb start).
Proof. unfold sys_print_pcb, field. rewrite !Forall_app. repeat split; repeat constructor. Qed.

(** What [console_put_int] sends is what [put_int] prints. *)
Lemma console_put_int_text num v : put_int num v = put_str (fst <$> text_cells (console_put_int num)) v.
Proof.
  rewrite put_int_run. f_equal. unfold console_put_int, put_number. rewrite puts_cells.
  change (text_cells (console_acquire ++ ?l ++ console_release)) with (text_cells (l ++ [CRelease])). rewrite cells_of_ops, <- list_fmap_compose.
  symmetry. apply list_fmap_id.
Qed.

(** ** Two threads print at the same time *)

Section Demo.
#[local] Abbreviation dcon := (@con unit).

Inductive event : Type := ECall (str : list Z) | EOp | EAct (a : action).

Definition elsewhereb (a : action) (k : dcon) : bool :=
  match a with
  | ARun | ATimer | AWake _ => true
  | AAcquire l | ARelease l => negb (l =? 0x5000) && bool_decide (jobs k !! cur (kern k) = None)
  | ABlock _ | AYield => bool_decide (jobs k !! cur (kern k) = None)
  end.

Definition happen (e : event) (k : dcon) : option dcon :=
  match e with
  | ECall str =>
      if no_frames (kern k) && negb (cur (kern k) =? idle_thread (kern k)) && bool_decide (jobs k !! cur (kern k) = None)
      then Some (mk_con (kern k) (display k) (<[cur (kern k) := mk_job (text_cells (console_put_str str)) (console_put_str str)]> (jobs k)) (sent k) (finished k))
      else None
  | EOp =>
      if no_frames (kern k) then
        match jobs k !! cur (kern k) with
        | Some j => match todo j with
                    | o :: rest => match console_op id 0x5000 o rest j k with Ok k' => Some k' | _ => None end
                    | [] => None
                    end
        | None => None
        end
      else None
  | EAct a =>
      if elsewhereb a k && enabledb a (kern k)
      then match run_action id a (kern k) with Ok (_, s) => Some (mk_con s (display k) (jobs k) (sent k) (finished k)) | _ => None end
      else None
  end.

Fixpoint unfold_events (es : list event) (k : dcon) : option dcon :=
  match es with [] => Some k | e :: es => k' ← happen e k; unfold_events es k' end.

Lemma happen_step e k k' : happen e k = Some k' -> cstep id 0x5000 k k'.
Proof.
  destruct e as [str| |a]; cbn [happen].
  - destruct (no_frames (kern k)) eqn:E1; [|done]. destruct (Z.eqb_spec (cur (kern k)) (idle_thread (kern k))); [done|].
    destruct (bool_decide_reflect (jobs k !! cur (kern k) = None)); [|done]. intros [= <-].
    apply (c_call id 0x5000 k (console_put_str str)); [by apply no_frames_nil|done..|apply call_str].
  - destruct (no_frames (kern k)) eqn:E1; [|done]. destruct (jobs k !! cur (kern k)) as [j|] eqn:Ej; [|done].
    destruct (todo j) as [|o rest] eqn:Et; [done|]. destruct (console_op id 0x5000 o rest j k) as [k1| | |] eqn:Eo; try done.
    intros [= <-]. by apply (c_op _ _ _ _ j o rest); [apply no_frames_nil|..].
  - destruct (elsewhereb a k) eqn:E1; [|done]. destruct (enabledb a (kern k)) eqn:E2; [|done]. cbn [andb].
    destruct (run_action id a (kern k)) as [[[] s]| | |] eqn:Er; try done. intros [= <-]. apply (c_else _ _ _ a); [|by apply enabledb_sound|done].
    destruct a; cbn in E1 |- *; try done; try by apply bool_decide_eq_true in E1.
    + apply andb_true_iff in E1 as [H1 H2]. apply bool_decide_eq_true in H2. split; [|done]. intros ->. done.
    + apply andb_true_iff in E1 as [H1 H2]. apply bool_decide_eq_true in H2. split; [|done]. intros ->. done.
Qed.

Lemma unfold_events_rtc es : forall k k', unfold_events es k = Some k' -> rtc (cstep id 0x5000) k k'.
Proof.
  induction es as [|e es IH]; intros k k'; cbn; [intros [= ->]; apply rtc_refl|].
  destruct (happen e k) as [k1|] eqn:E; [|done]. intros H. eapply rtc_l; [by apply (happen_step e)|by apply IH].
Qed.

Definition demo_con : dcon := mk_con demo_boot demo_vga ∅ [] [].

Lemma demo_opened : opened 0x5000 ([], []) demo_con.
Proof. split; [apply demo_booted|by eexists|done..|apply demo_vga_shows]. Qed.

(** Main prints "ab" and loses the processor behind the first character; a worker
    wants to print "c", has to wait, and prints when main has released the lock. *)
Definition demo_events : list event :=
  [ECall [97; 98]; EOp; EAct ARun; EOp; EAct ATimer; EAct ATimer; EAct ARun; ECall [99]; EOp;
   EAct ARun; EAct AYield; EAct ARun; EAct AYield; EAct ARun; EOp; EOp; EAct ARun;
   EAct AYield; EAct ARun; EAct ARun; EOp; EOp].
Definition demo_end : dcon := default demo_con (unfold_events demo_events demo_con).

Lemma demo_end_reached : rtc (cstep id 0x5000) demo_con demo_end.
Proof.
  unfold demo_end. destruct (unfold_events demo_events demo_con) as [k|] eqn:E; [by apply (unfold_events_rtc demo_events)|apply rtc_refl].
Qed.

Lemma console_texts_whole_witness :
  finished demo_end = [(0x9000, [(97, 7); (98, 7)]); (0xB000, [(99, 7)])] /\
  sent demo_end = [(97, 7); (98, 7); (99, 7)] /\ shows (display demo_end) ([], [(97, 7); (98, 7); (99, 7)]).
Proof.
  assert (finished demo_end = [(0x9000, [(97, 7); (98, 7)]); (0xB000, [(99, 7)])]) as E1 by (vm_compute; reflexivity).
  assert (sent demo_end = [(97, 7); (98, 7); (99, 7)]) as E2 by (vm_compute; reflexivity).
  destruct (console_texts_whole id 0x5000 ([], []) demo_con demo_end demo_opened demo_end_reached) as (_ & H & _).
  rewrite E2 in H. split; [exact E1|]. split; [exact E2|]. apply H. repeat constructor; cbn; lia.
Defined.
End Demo.
