(* ===== verification/Boot.v ===== *)
(** * The first tasks (thread/thread.c: thread_init; userprog/process.c: process_execute)

    [thread_init] makes the three tasks the kernel starts with: the process
    init, the main thread out of the code that runs, and the idle thread. *)

From S2P Require Import Prelude Bitmap Interrupt Paging Memory PageAlloc Process Fork ForkMem DList Disk Layout Inode Path Dir File Fs Arena Sched Sync Task Proc ForkSpec.
Import Queue.

Section Boot.
Context {H : Type} `{HE : Heap H} `{DE : Devices H}.
Implicit Types k : kernel H.

Definition set_idle_thread (v : Z) (s : @sched memst) : sched :=
  mk_sched (pages s) (tasks s) (thread_ready_list s) (thread_all_list s) (cur s) v (main_thread s) (pid_bitmap s) (frames_of s) (semas s) (locks s) (Sched.flags s) (total_ticks s) (Sched.cr3 s) (esp0 s).

Definition init_name : list Z := [105; 110; 105; 116].
Definition idle_name : list Z := [105; 100; 108; 101].

Definition thread_init : M (kernel H) () :=
  _ ← on_sched (modS (set_thread_ready_list []));
  _ ← on_sched (modS (set_thread_all_list []));
  _ ← on_sched pid_pool_init;
  _ ← process_execute init_name;
  _ ← on_sched make_main_thread;
  idle ← on_sched (thread_start idle_name 4);
  on_sched (modS (set_idle_thread idle)).

(** ** Pids from a fresh pool *)

(** The pool with its first bits taken as the byte [b] says. *)
Definition pid_map (b : Z) : bitmap := mk_bitmap 128 (b :: replicate 127 0).

Lemma first_pid b b' i (s : @sched memst) : pid_bitmap s = pid_map b -> bitmap_scan (pid_map b) 1 = Ok i -> bitmap_set (pid_map b) (u32 i) 1 = Ok (pid_map b') ->
  allocate_pid s = Ok (i16 (i + 1), set_pid_bitmap (pid_map b') s).
Proof.
  intros E E1 E2. unfold allocate_pid. rewrite getS_bind, E, (liftO_bind _ _ _ _ E1), (liftO_bind _ _ _ _ E2). done.
Qed.

Lemma pid_one (s : @sched memst) : pid_bitmap s = pid_map 0 -> allocate_pid s = Ok (1, set_pid_bitmap (pid_map 1) s).
Proof. intros E. by apply (first_pid 0 1 0). Qed.
Lemma pid_two (s : @sched memst) : pid_bitmap s = pid_map 1 -> allocate_pid s = Ok (2, set_pid_bitmap (pid_map 3) s).
Proof. intros E. by apply (first_pid 1 3 1). Qed.
Lemma pid_three (s : @sched memst) : pid_bitmap s = pid_map 3 -> allocate_pid s = Ok (3, set_pid_bitmap (pid_map 7) s).
Proof. intros E. by apply (first_pid 3 7 2). Qed.

(** ** The steps *)

(** The PCB [init_thread] writes. *)
Definition new_task (a p : Z) (st : task_status) (nm : list Z) (prio : Z) : task_struct :=
  mk_task (u32 (a + PAGE_SIZE)) p st (nm ++ replicate (TASK_NAME_LEN - length nm) 0) (u32 prio) (u8 prio) 0 NULL
    ([0; 1; 2] ++ replicate (MAX_FILES_OPEN_PER_PROC - 3) (-1)) 0 (-1) 0 STACK_MAGIC.

Lemma init_thread_run a nm prio p b (s : @sched memst) : (length nm < TASK_NAME_LEN)%nat -> allocate_pid s = Ok (p, set_pid_bitmap b s) ->
  init_thread a nm prio s = Ok (tt, set_tasks (<[a := new_task a p (if a =? main_thread s then TASK_RUNNING else TASK_READY) nm prio]> (tasks s)) (set_pid_bitmap b s)).
Proof.
  intros Hl E. unfold init_thread. mrun E. rewrite (liftO_bind _ (nm ++ replicate (TASK_NAME_LEN - length nm) 0)); [by rewrite getS_bind|].
  unfold name_of. by destruct (Nat.ltb_spec (length nm) TASK_NAME_LEN); [|lia].
Qed.

(** The stack of a new thread. *)
Definition with_stack (t : task_struct) : task_struct :=
  set_self_kstack (u32 (u32 (self_kstack t - sizeof_intr_stack) - sizeof_thread_stack)) t.

Lemma thread_create_run a t (s : @sched memst) : tasks s !! a = Some t ->
  thread_create a s = Ok (tt, set_frames_of (<[a := [KStart]]> (frames_of s)) (set_tasks (<[a := with_stack t]> (tasks s)) s)).
Proof.
  intros E. unfold thread_create. erewrite mbindM_Ok by (unfold upd_task; rewrite E; reflexivity).
  erewrite mbindM_Ok by (unfold upd_task; cbn; rewrite lookup_insert_eq; reflexivity).
  unfold modS. do 2 f_equal. cbn. by rewrite insert_insert_eq.
Qed.

Lemma enqueue_new_run a (s : @sched memst) : a ∉ thread_ready_list s -> a ∉ thread_all_list s ->
  enqueue_new a s = Ok (tt, set_thread_all_list (thread_all_list s ++ [a]) (set_thread_ready_list (thread_ready_list s ++ [a]) s)).
Proof.
  intros H1 H2. unfold enqueue_new. rewrite getS_bind. erewrite mbindM_Ok by (apply assertM_run, q_find_false, H1).
  rewrite modS_bind, getS_bind. cbn [thread_all_list set_thread_ready_list]. by erewrite mbindM_Ok by (apply assertM_run, q_find_false, H2).
Qed.

(** ** Pages *)

Lemma spare_user_bitmap q n n' N s : ForkMem.spare q n (23 + n') N s ->
  exists b s' r fs, create_user_vaddr_bitmap s = Ok ((q + r) * 4096, mk_vaddr b USER_VADDR_START, s') /\
    handed_out PF_KERNEL s s' q r fs /\ 0 <= r /\ length fs = 23%nat /\ ForkMem.spare q (n + 23) n' N s' /\ (forall i, 0 <= i < nbits b -> bit_used b i = false).
Proof.
  intros Hs. destruct (spare_pages q n 23 n' N s Hs) as (s' & r & fs & E & Hr & _ & Hl & Ho & Hs' & _); [lia|].
  pose proof (sp_high _ _ _ _ _ Hs) as Hq.
  assert (DIV_ROUND_UP user_bytes PG_SIZE = 23) as Epg by reflexivity. assert (user_bytes = 94199) as Eub by reflexivity.
  remember (replicate (Z.to_nat (23 * PG_SIZE)) 0) as z eqn:Ez.
  assert (Z.of_nat (length z) = 94208) as Hz by (rewrite Ez, length_replicate; unfold PG_SIZE; lia).
  assert (Forall is_byte z) as Hzb by (rewrite Ez; apply Forall_replicate; unfold is_byte; lia).
  destruct (bitmap_init_ok (mk_bitmap user_bytes z)) as (b & E2 & _ & _ & _ & _ & Hbz); cbn [btmp_bytes_len bits]; [lia|change (2 ^ 31) with 2147483648; lia|lia|done|].
  exists b, s', r, fs. split; [|split; [exact Ho|split; [lia|split; [exact Hl|split; [exact Hs'|exact Hbz]]]]]. unfold create_user_vaddr_bitmap. rewrite Epg. mrun E.
  unfold NULL. erewrite mbindM_Ok by (apply assertM_run; destruct (Z.eqb_spec ((q + r) * 4096) 0); [lia|done]).
  rewrite <- Ez. by rewrite (liftO_bind _ _ _ _ E2).
Qed.

Lemma spare_malloc q n n' N s : ForkMem.spare q n (1 + n') N s ->
  exists s' r f, malloc_page PF_KERNEL 1 s = Ok ((q + r) * 4096, s') /\ handed_out PF_KERNEL s s' q r [f] /\ 0 <= r /\
    bit_used (vaddr_bitmap (kernel_vaddr s)) r = false /\ q + nbits (vaddr_bitmap (kernel_vaddr s)) <= 0xFFC00.
Proof.
  intros [S1 S2 S3 S4 S5 S6 S7 S8].
  destruct (malloc_page_run PF_KERNEL s 1 n q S1 S2 S3) as (s' & r & fs & E & Hr & Hrr & Hl & Ho & _ & _ & _ & Hq & _); [lia|lia|cbn [vaddr_of]; lia| |done|destruct S7; split; cbn in *; lia|].
  { intros j Hj. apply S6. lia. }
  destruct fs as [|f [|]]; cbn in Hl; try lia. exists s', r, f. split; [done|]. split; [done|]. split; [lia|]. split; [|done].
  apply Hrr. lia.
Qed.

(** A page that is in use stays in use. *)
Lemma kernel_page_kept s s' q r fs p : handed_out PF_KERNEL s s' q r fs -> kernel_page s p -> kernel_page s' p.
Proof.
  intros Ho (i & Hi & -> & Hu). exists i. pose proof (ho_nbits _ _ _ _ _ _ Ho) as E1. pose proof (ho_start _ _ _ _ _ _ Ho) as E2. pose proof (ho_bits _ _ _ _ _ _ Ho i ltac:(lia)) as E3.
  cbn [vaddr_of] in *. rewrite E1, E2, E3, Hu. split; [lia|]. split; [done|]. by destruct (_ && _).
Qed.

Lemma handed_page s s' q r f : handed_out PF_KERNEL s s' q r [f] -> vaddr_start (kernel_vaddr s) = q * 4096 -> 0 <= r < nbits (vaddr_bitmap (kernel_vaddr s)) ->
  kernel_page s' ((q + r) * 4096).
Proof.
  intros Ho Hs Hr. exists r. pose proof (ho_nbits _ _ _ _ _ _ Ho) as E1. pose proof (ho_start _ _ _ _ _ _ Ho) as E2. pose proof (ho_bits _ _ _ _ _ _ Ho r ltac:(lia)) as E3.
  cbn [vaddr_of length] in *. rewrite E1, E2, E3, Hs. split; [lia|]. split; [lia|].
  destruct (Z.leb_spec r r), (Z.ltb_spec r (r + Z.of_nat 1)); done || lia.
Qed.

(** [process_execute] in the quiet of start-up: the new process at [a] has the
    pid the pool gives, a page directory, and is last in both queues. *)
Lemma process_execute_run q n n' N k nm p b : ForkMem.spare q n (25 + n') N (mem k) -> intr_get_status_of (k_sched k) = INTR_OFF -> (length nm < TASK_NAME_LEN)%nat ->
  (forall s : @sched memst, pid_bitmap s = pid_bitmap (k_sched k) -> allocate_pid s = Ok (p, set_pid_bitmap b s)) -> main_thread (k_sched k) < q * 4096 ->
  thread_ready_list (k_sched k) = [] -> thread_all_list (k_sched k) = [] ->
  exists a d k', process_execute nm k = Ok (tt, k') /\ q * 4096 <= a /\ d <> NULL /\ kernel_page (mem k') a /\ ForkMem.spare q (n + 25) n' N (mem k') /\
    k_sched k' = set_pages (mem k') (set_thread_all_list [a] (set_thread_ready_list [a] (set_frames_of (<[a := [KStart]]> (frames_of (k_sched k)))
      (set_tasks (<[a := set_pgdir d (with_stack (new_task a p TASK_READY nm default_prio))]> (tasks (k_sched k))) (set_pid_bitmap b (k_sched k)))))).
Proof.
  intros Hs Hoff Hl Hp Hm Hrd Hal. pose proof (sp_high _ _ _ _ _ Hs) as Hq. pose proof (sp_start _ _ _ _ _ Hs) as Hst.
  destruct (spare_pages q n 1 (24 + n') N (mem k) Hs) as (m1 & r1 & fs1 & E1 & Hr1 & Hrun1 & Hl1 & Ho1 & Hs1 & _ & _ & Hn1); [lia|].
  destruct fs1 as [|f1 [|]]; cbn in Hl1; try lia. set (a := (q + r1) * 4096) in *.
  destruct (spare_user_bitmap q (n + 1) (1 + n') N m1 Hs1) as (bm & m2 & r2 & fs2 & E2 & Ho2 & Hr2 & Hl2 & Hs2 & _).
  destruct (spare_dir q (n + 1 + 23) n' N m2 Hs2) as (m3 & r3 & f3 & E3 & Hr3 & Ho3 & Hs3 & _).
  assert (kernel_page m3 a) as Hpg.
  { eapply kernel_page_kept, (kernel_page_kept _ _ _ _ _ _ Ho2), (handed_page _ _ _ _ _ Ho1 Hst); [exact Ho3|]. pose proof (sp_k _ _ _ _ _ Hs). lia. }
  set (sk := k_sched k) in *. set (d := (q + r3) * 4096).
  set (x0 := new_task a p TASK_READY nm default_prio).
  set (s1 := set_tasks (<[a := x0]> (tasks sk)) (set_pid_bitmap b (set_pages m1 sk))).
  exists a, d, (mk_kernel (set_pages m3 (set_thread_all_list [a] (set_thread_ready_list [a] (set_frames_of (<[a := [KStart]]> (frames_of sk))
      (set_tasks (<[a := set_pgdir d (with_stack x0)]> (tasks sk)) (set_pid_bitmap b sk))))))
    (k_fs k) (<[a := (q + r2) * 4096]> (k_bits k)) (<[a := mk_vaddr bm USER_VADDR_START]> (k_vaddr k)) (<[a := block_desc_init]> (k_descs k)) (k_intr k) (k_switch k)).
  split; [|split; [unfold a; lia|split; [unfold d, NULL; lia|split; [exact Hpg|split; [|done]]]]].
  2: { replace (n + 25) with (n + 1 + 23 + 1) by lia. exact Hs3. }
  unfold process_execute. erewrite mbindM_Ok by (apply on_memory_run; exact E1).
  assert (init_thread a nm default_prio (set_pages m1 sk) = Ok (tt, s1)) as Ei.
  { rewrite (init_thread_run a nm default_prio p b) by (done || by apply Hp). cbn [main_thread set_pages].
    by destruct (Z.eqb_spec a (main_thread sk)); [unfold a in *; lia|]. }
  erewrite mbindM_Ok by (apply on_sched_run; exact Ei).
  erewrite mbindM_Ok by (apply on_memory_run; exact E2). cbn beta iota. rewrite modS_bind.
  erewrite mbindM_Ok by (apply on_sched_run, (thread_create_run a x0); cbn; apply lookup_insert_eq).
  erewrite mbindM_Ok by (apply on_memory_run; exact E3).
  erewrite mbindM_Ok by (apply (upd_child _ a _ (with_stack x0)); cbn; apply lookup_insert_eq).
  rewrite modS_bind. erewrite mbindM_Ok by (apply on_sched_run, intr_disable_run).
  rewrite masked_id by exact Hoff.
  erewrite mbindM_Ok by (apply on_sched_run, enqueue_new_run; cbn; rewrite ?Hrd, ?Hal; apply not_elem_of_nil).
  erewrite mbindM_Ok.
  2: { apply on_sched_run. unfold intr_set_status. cbn [k_sched set_k_sched]. change (intr_get_status_of _) with (intr_get_status_of sk). rewrite Hoff.
       rewrite intr_disable_run, masked_id by exact Hoff. reflexivity. }
  unfold mret, M_ret. do 2 f_equal. cbn. rewrite !insert_insert_eq, Hrd, Hal. reflexivity.
Qed.


(** The running code becomes the main thread. *)
Definition main_name : list Z := [109; 97; 105; 110].

Lemma make_main_thread_run p b (s : @sched memst) : (forall s' : @sched memst, pid_bitmap s' = pid_bitmap s -> allocate_pid s' = Ok (p, set_pid_bitmap b s')) ->
  cur s ∉ thread_all_list s ->
  make_main_thread s = Ok (tt, set_thread_all_list (thread_all_list s ++ [cur s])
    (set_tasks (<[cur s := new_task (cur s) p TASK_RUNNING main_name 8]> (tasks s)) (set_pid_bitmap b (set_main_thread (cur s) s)))).
Proof.
  intros Hp Hn. unfold make_main_thread. erewrite mbindM_Ok by reflexivity. rewrite modS_bind.
  erewrite mbindM_Ok by (apply (init_thread_run _ _ _ p b); [cbn; unfold TASK_NAME_LEN; lia|by apply Hp]).
  cbn [main_thread set_main_thread]. rewrite Z.eqb_refl, getS_bind.
  by erewrite mbindM_Ok by (by apply assertM_run, q_find_false).
Qed.

(** A kernel thread on the page [a]. *)
Lemma thread_start_run a nm prio p b m (s : @sched memst) : (length nm < TASK_NAME_LEN)%nat -> malloc_page PF_KERNEL 1 (pages s) = Ok (a, m) ->
  (forall s' : @sched memst, pid_bitmap s' = pid_bitmap s -> allocate_pid s' = Ok (p, set_pid_bitmap b s')) ->
  a <> main_thread s -> a ∉ thread_ready_list s -> a ∉ thread_all_list s ->
  thread_start nm prio s = Ok (a, set_thread_all_list (thread_all_list s ++ [a]) (set_thread_ready_list (thread_ready_list s ++ [a])
    (set_frames_of (<[a := [KStart]]> (frames_of s)) (set_tasks (<[a := with_stack (new_task a p TASK_READY nm prio)]> (tasks s)) (set_pid_bitmap b (set_pages m s)))))).
Proof.
  intros Hl E2 Hp Hm Hr Ha. unfold thread_start.
  erewrite mbindM_Ok by (unfold on_kpages; change (pa_malloc PF_KERNEL 1) with (malloc_page PF_KERNEL 1); rewrite E2; reflexivity).
  assert (init_thread a nm prio (set_pages m s) = Ok (tt, set_tasks (<[a := new_task a p TASK_READY nm prio]> (tasks s)) (set_pid_bitmap b (set_pages m s)))) as Ei.
  { rewrite (init_thread_run a nm prio p b) by (done || by apply Hp). cbn [main_thread set_pages]. by destruct (Z.eqb_spec a (main_thread s)). }
  erewrite mbindM_Ok by exact Ei. erewrite mbindM_Ok by (apply (thread_create_run a (new_task a p TASK_READY nm prio)); apply lookup_insert_eq).
  erewrite mbindM_Ok by (by apply enqueue_new_run). unfold mret, M_ret. do 2 f_equal. cbn. by rewrite insert_insert_eq.
Qed.

(** The kernel when [thread_init] is called: interrupts are off, the code runs
    on a stack below the pages of the kernel's pool, no thread is called main
    yet, and 26 pages are to be had. *)
Record may_init (q n : Z) k : Prop := {
  mi_spare : ForkMem.spare q n 26 0 (mem k);
  mi_off : intr_get_status_of (k_sched k) = INTR_OFF;
  mi_cur : 0 < cur (k_sched k) < q * 4096;
  mi_main : main_thread (k_sched k) = NULL
}.

(** What the kernel relies on of a first task. *)
Record first_task k (a p : Z) (nm : list Z) (st : task_status) (t : task_struct) : Prop := {
  ft_task : tasks (k_sched k) !! a = Some t;
  ft_pid : pid t = p;
  ft_name : name t = nm ++ replicate (TASK_NAME_LEN - length nm) 0;
  ft_status : status t = st;
  ft_magic : stack_magic t = STACK_MAGIC;
  ft_files : Sched.fd_table t = [0; 1; 2; -1; -1; -1; -1; -1];
  ft_parent : parent_pid t = -1
}.


End Boot.

(** ** Witness *)

Definition boot_sched : @sched memst :=
  mk_sched fork_mem ∅ [] [] 0xC009E000 0 0 (mk_bitmap 128 (replicate 128 0)) ∅ ∅ ∅ 0x2 0 0 0.
Definition boot_kernel : kernel bump := mk_kernel boot_sched demo_fs ∅ ∅ ∅ ∅ ∅.

Lemma boot_may_init : may_init 0xC0200 1 boot_kernel.
Proof.
  split; [|reflexivity|cbn; lia|reflexivity].
  destruct fork_spare as [S1 S2 S3 S4 S5 S6 S7 S8]. split; try done. destruct S7. split; cbn in *; lia.
Qed.

