(* ===== verification/Format.v ===== *)
(** * Creating and mounting a file system (fs/fs.c)

    [partition_format] lays out boot sector, super block, block bitmap, inode
    bitmap, inode table and data; [mount_partition] reads the super block and
    the bitmaps back into memory. *)

From S2P Require Import Prelude Bitmap Interrupt DList Disk Layout Inode Dir File Fs.

Section Format.
Context {H : Type} `{HE : Heap H}.
Implicit Types s : fs H.

Definition SUPER_MAGIC : Z := 0x19750130.
Definition MAX_FILES_PER_PART : Z := 4096.
Definition BITS_PER_SECTOR : Z := 4096.

(** Bits the block bitmap has to have, and the sectors it takes. *)
Definition used_sects : Z :=
  1 + 1 + DIV_ROUND_UP MAX_FILES_PER_PART BITS_PER_SECTOR + DIV_ROUND_UP (sizeof_inode * MAX_FILES_PER_PART) SECTOR_SIZE.
Definition block_bitmap_bit_len (part_sec_cnt : Z) : Z :=
  let free_sects := u32 (part_sec_cnt - used_sects) in
  u32 (free_sects - DIV_ROUND_UP free_sects BITS_PER_SECTOR).

Definition format_sb (part_start_lba part_sec_cnt : Z) : super_block :=
  let inode_bitmap_sects := DIV_ROUND_UP MAX_FILES_PER_PART BITS_PER_SECTOR in
  let inode_table_sects := DIV_ROUND_UP (sizeof_inode * MAX_FILES_PER_PART) SECTOR_SIZE in
  let block_bitmap_sects := DIV_ROUND_UP (block_bitmap_bit_len part_sec_cnt) BITS_PER_SECTOR in
  let block_bitmap_lba := u32 (part_start_lba + 2) in
  let inode_bitmap_lba := u32 (block_bitmap_lba + block_bitmap_sects) in
  let inode_table_lba := u32 (inode_bitmap_lba + inode_bitmap_sects) in
  mk_sb SUPER_MAGIC part_sec_cnt MAX_FILES_PER_PART part_start_lba block_bitmap_lba block_bitmap_sects
    inode_bitmap_lba inode_bitmap_sects inode_table_lba inode_table_sects (u32 (inode_table_lba + inode_table_sects)) 0 24.

(** [buf[last_byte] &= ~(1 << bit_idx++)], [n] times. *)
Fixpoint clear_bits (n : nat) (bit_idx : Z) (byte : Z) : Z :=
  match n with O => byte | S n' => clear_bits n' (bit_idx + 1) (u8 (Z.land byte (Z.lnot (Z.shiftl 1 bit_idx)))) end.

(** The block bitmap in the zeroed buffer of [buf_size] bytes: bit 0 for the
    root directory, the bits from the last byte on set to the end of its
    sector, those of the last byte up to [block_bitmap_last_bit] cleared. *)
Definition format_bitmap (bit_len : Z) (buf_size : nat) : outcome (list Z) :=
  let buf := 1 :: replicate (buf_size - 1) 0 in
  let block_bitmap_last_byte := bit_len / 8 in
  let block_bitmap_last_bit := bit_len mod 8 in
  let last_size := SECTOR_SIZE - block_bitmap_last_byte mod SECTOR_SIZE in
  if Z.of_nat buf_size <? block_bitmap_last_byte + last_size then Fault
  else
    let buf := splice (Z.to_nat block_bitmap_last_byte) (replicate (Z.to_nat last_size) 0xff) buf in
    byte ← aget buf block_bitmap_last_byte;
    aset buf block_bitmap_last_byte (clear_bits (S (Z.to_nat block_bitmap_last_bit)) 0 byte).

(** The root inode at the start of the table. *)
Definition root_inode (data_lba : Z) : inode := mk_inode 0 48 0 0 (data_lba :: replicate 12 0).

Definition partition_format (part_start_lba part_sec_cnt : Z) : M (fs H) () :=
  let sb := format_sb part_start_lba part_sec_cnt in
  _ ← ide_wr (u32 (part_start_lba + 1)) (encode sb) 1;
  let buf_size := if inode_bitmap_sects sb <=? block_bitmap_sects sb then block_bitmap_sects sb else inode_bitmap_sects sb in
  let buf_size := u32 ((if inode_table_sects sb <=? buf_size then buf_size else inode_table_sects sb) * SECTOR_SIZE) in
  buf ← malloc buf_size;
  _ ← need buf;
  let zeros := replicate (Z.to_nat buf_size) 0 in
  map ← liftO (format_bitmap (block_bitmap_bit_len part_sec_cnt) (Z.to_nat buf_size));
  _ ← ide_wr (block_bitmap_lba sb) map (block_bitmap_sects sb);
  _ ← ide_wr (inode_bitmap_lba sb) (splice 0 [1] zeros) (inode_bitmap_sects sb);
  _ ← ide_wr (inode_table_lba sb) (splice 0 (encode (root_inode (data_start_lba sb))) zeros) (inode_table_sects sb);
  _ ← ide_wr (data_start_lba sb) (splice 0 (take 48 (dot_entries 0 0)) zeros) 1;
  free buf.

(** A partition of [partition_list]: name, first sector, size. *)
Record part_info : Type := mk_info { p_name : list Z; p_start : Z; p_cnt : Z }.

Definition mount_partition (part_name : list Z) (part : part_info) : M (fs H) bool :=
  if bool_decide (p_name part = part_name) then
    sb_buf ← malloc SECTOR_SIZE;
    sbp ← malloc 512;
    _ ← assertM (negb (sbp =? NULL)) "alloc memory failed!";
    _ ← assertM (negb (sb_buf =? NULL)) "memset: dst_ != NULL";
    data ← ide_rd (u32 (p_start part + 1)) 1;
    let sb := decode data : super_block in
    bp ← malloc (u32 (block_bitmap_sects sb * SECTOR_SIZE));
    _ ← assertM (negb (bp =? NULL)) "alloc memory failed!";
    bmap ← ide_rd (block_bitmap_lba sb) (block_bitmap_sects sb);
    ip ← malloc (u32 (inode_bitmap_sects sb * SECTOR_SIZE));
    _ ← assertM (negb (ip =? NULL)) "alloc memory failed!";
    imap ← ide_rd (inode_bitmap_lba sb) (inode_bitmap_sects sb);
    _ ← modS (set_part (mk_part (p_start part) (p_cnt part) sb
          (mk_bitmap (u32 (block_bitmap_sects sb * SECTOR_SIZE)) bmap)
          (mk_bitmap (u32 (inode_bitmap_sects sb * SECTOR_SIZE)) imap) []));
    mret true
  else mret false.

(** [list_traversal]: up to the first element the callback accepts. *)
Fixpoint traverse (l : list part_info) (part_name : list Z) : M (fs H) bool :=
  match l with
  | [] => mret false
  | p :: l' => stop ← mount_partition part_name p; if (stop : bool) then mret true else traverse l' part_name
  end.

(** The twelve slots of the disk; a slot of size 0 is empty.  A partition
    without the magic number is formatted by two statements. *)
Fixpoint format_missing (parts : list part_info) : M (fs H) () :=
  match parts with
  | [] => mret tt
  | p :: parts' =>
      _ ← (if p_cnt p =? 0 then mret tt
           else
             data ← ide_rd (u32 (p_start p + 1)) 1;
             if word_at 0 data =? SUPER_MAGIC then mret tt
             else
               _ ← partition_format (p_start p) (p_cnt p);
               partition_format (p_start p) (p_cnt p));
      format_missing parts'
  end.

Definition default_part : list Z := [115; 100; 98; 49].   (* "sdb1" *)

(** [part_idx] is not reset between disks, so the slots of the first slave disk
    are the only ones looked at. *)
Definition filesys_init (slots partition_list : list part_info) : M (fs H) () :=
  sb_buf ← malloc SECTOR_SIZE;
  _ ← assertM (negb (sb_buf =? NULL)) "alloc memory failed!";
  _ ← format_missing slots;
  _ ← free sb_buf;
  mounted ← traverse partition_list default_part;
  if (mounted : bool) then
    _ ← open_root_dir;
    modS (fun s => set_file_table ((fun f => mk_file (fd_pos f) (fd_flag f) NULL) <$> file_table s) s)
  else faultM.

End Format.
