(* ===== verification/Partition.v ===== *)
(** * Finding the partitions of a disk (device/ide.c)

    [partition_scan] follows the partition table in the first sector and the
    chain of tables of the extended partition; [ide_init] does so for every
    slave disk after it has set up the channels.  The theorems compare the
    slots that are filled with the tables on the disk. *)

From S2P Require Import Prelude DList Disk Layout Interrupt Inode Stdio Sched Format.

(** ** The partition table *)

Record partition_table_entry : Type := mk_pte {
  bootable : Z; start_head : Z; start_sec : Z; start_chs : Z;
  fs_type : Z; end_head : Z; end_sec : Z; end_chs : Z;
  e_start_lba : Z; e_sec_cnt : Z
}.

Definition pte_bytes (e : partition_table_entry) : list Z :=
  [bootable e; start_head e; start_sec e; start_chs e; fs_type e; end_head e; end_sec e; end_chs e] ++ word (e_start_lba e) ++ word (e_sec_cnt e).
Definition pte_of_bytes (b : list Z) : partition_table_entry :=
  let byte i := nth i b 0 in
  mk_pte (byte 0%nat) (byte 1%nat) (byte 2%nat) (byte 3%nat) (byte 4%nat) (byte 5%nat) (byte 6%nat) (byte 7%nat) (word_at 8 b) (word_at 12 b).
Definition pte_ok (e : partition_table_entry) : Prop := u32_ok (e_start_lba e) /\ u32_ok (e_sec_cnt e).

Lemma nth_take {A} i n (l : list A) x : (i < n)%nat -> nth i (take n l) x = nth i l x.
Proof. revert i l. induction n as [|n IH]; intros i [|y l] Hi; [lia..|by destruct i|]. destruct i; [done|]. cbn. apply IH. lia. Qed.

#[global] Program Instance pte_Layout : Layout partition_table_entry := {|
  lay_size := 16;
  encode := pte_bytes;
  decode := pte_of_bytes;
  lay_ok := pte_ok
|}.
Next Obligation. done. Qed.
Next Obligation.
  intros [b1 b2 b3 b4 b5 b6 b7 b8 s c] r [H1 H2]. cbn in *. unfold pte_bytes, pte_of_bytes. cbn [bootable start_head start_sec start_chs fs_type end_head end_sec end_chs e_start_lba e_sec_cnt].
  f_equal.
  - apply (word_at_eq 8 _ [b1; b2; b3; b4; b5; b6; b7; b8] s (word c ++ r)); [reflexivity|done|done].
  - apply (word_at_eq 12 _ ([b1; b2; b3; b4; b5; b6; b7; b8] ++ word s) c r); [reflexivity|done|done].
Qed.
Next Obligation. intros l. cbn. unfold pte_of_bytes. by rewrite !nth_take, !word_at_take by lia. Qed.

(** [partition_table[4]] of a boot sector. *)
Definition partition_table (sector : list Z) : list partition_table_entry :=
  (fun i => decode (drop (446 + 16 * i) sector)) <$> seq 0 4.

(** ** The state of a scan *)

(** [struct disk]; the slots are [struct partition] as far as [Format] needs
    them, an unused slot has size 0. *)
Record hd : Type := mk_hd { hd_name : list Z; prim_parts : list part_info; logic_parts : list part_info }.

(** The address of a slot: channel, drive, kind of slot and index. *)
Record part_ref : Type := mk_ref { ref_channel : Z; ref_dev : Z; ref_logic : bool; ref_idx : Z }.

Record scan (H : Type) : Type := mk_scan {
  sc_heap : H; sc_io : ide_channel; sc_hd : hd;
  ext_lba_base : Z; p_no : Z; l_no : Z; partition_list : list part_ref
}.
Arguments mk_scan {H}.
Arguments sc_heap {H}. Arguments sc_io {H}. Arguments sc_hd {H}. Arguments ext_lba_base {H}.
Arguments p_no {H}. Arguments l_no {H}. Arguments partition_list {H}.

(** [sprintf(buf, "%s%d", nm, n)] into a buffer of zeros. *)
Definition numbered (nm : list Z) (n : Z) : list Z := nm ++ (digit_char <$> digits 33 10 n).

Section Scan.
Context {H : Type} `{HE : Heap H} (latency : Z) (identity : bool -> list Z).
(** The disk that is scanned. *)
Context (channel_no dev_no : Z).
#[local] Abbreviation scan := (scan H).

Definition set_heap (h : H) (s : scan) : scan := mk_scan h (sc_io s) (sc_hd s) (ext_lba_base s) (p_no s) (l_no s) (partition_list s).
Definition set_io (c : ide_channel) (s : scan) : scan := mk_scan (sc_heap s) c (sc_hd s) (ext_lba_base s) (p_no s) (l_no s) (partition_list s).
Definition set_base (b : Z) (s : scan) : scan := mk_scan (sc_heap s) (sc_io s) (sc_hd s) b (p_no s) (l_no s) (partition_list s).

(** The kernel starts without a process, so [sys_malloc] takes kernel pages. *)
Definition on_heap {A} (c : M H A) : M scan A := fun s =>
  match c (sc_heap s) with Ok (a, h) => Ok (a, set_heap h s) | Panic w => Panic w | Fault => Fault | NoFuel => NoFuel end.
Definition on_io {A} (c : M ide_channel A) : M scan A := fun s =>
  match c (sc_io s) with Ok (a, x) => Ok (a, set_io x s) | Panic w => Panic w | Fault => Fault | NoFuel => NoFuel end.

Definition add_prim (ext_lba : Z) (p : partition_table_entry) : M scan () :=
  s ← getS;
  l ← liftO (aset (prim_parts (sc_hd s)) (p_no s)
               (mk_info (numbered (hd_name (sc_hd s)) (p_no s + 1)) (u32 (ext_lba + e_start_lba p)) (e_sec_cnt p)));
  _ ← modS (fun s => mk_scan (sc_heap s) (sc_io s) (mk_hd (hd_name (sc_hd s)) l (logic_parts (sc_hd s))) (ext_lba_base s)
                       (u8 (p_no s + 1)) (l_no s) (partition_list s ++ [mk_ref channel_no dev_no false (p_no s)]));
  s ← getS;
  assertM (p_no s <? 4) "partition_scan: p_no < 4".

(** True when the array is full and the scan returns. *)
Definition add_logic (ext_lba : Z) (p : partition_table_entry) : M scan bool :=
  s ← getS;
  l ← liftO (aset (logic_parts (sc_hd s)) (l_no s)
               (mk_info (numbered (hd_name (sc_hd s)) (l_no s + 5)) (u32 (ext_lba + e_start_lba p)) (e_sec_cnt p)));
  _ ← modS (fun s => mk_scan (sc_heap s) (sc_io s) (mk_hd (hd_name (sc_hd s)) (prim_parts (sc_hd s)) l) (ext_lba_base s)
                       (p_no s) (u8 (l_no s + 1)) (partition_list s ++ [mk_ref channel_no dev_no true (l_no s)]));
  s ← getS;
  mret (8 <=? l_no s).

(** One entry; true when [partition_scan] returns from the middle of the loop. *)
Definition scan_entry (rec : Z -> M scan ()) (ext_lba : Z) (p : partition_table_entry) : M scan bool :=
  if fs_type p =? 0x5 then
    s ← getS;
    _ ← (if negb (ext_lba_base s =? 0) then rec (u32 (e_start_lba p + ext_lba_base s))
         else
           _ ← modS (set_base (i32 (e_start_lba p)));
           rec (e_start_lba p));
    mret false
  else if negb (fs_type p =? 0) then
    if ext_lba =? 0 then _ ← add_prim ext_lba p; mret false
    else add_logic ext_lba p
  else mret false.

Fixpoint scan_entries (rec : Z -> M scan ()) (ext_lba : Z) (entries : list partition_table_entry) : M scan bool :=
  match entries with
  | [] => mret false
  | p :: entries' =>
      stop ← scan_entry rec ext_lba p;
      if (stop : bool) then mret true else scan_entries rec ext_lba entries'
  end.

(** The fuel bounds the depth of the recursion. *)
Fixpoint partition_scan (fuel : nat) (ext_lba : Z) : M scan () :=
  match fuel with
  | O => fun _ => NoFuel
  | S f =>
      bs ← on_heap (h_malloc true 512);
      sector ← on_io (ide_read latency identity 2 dev_no ext_lba 1);
      _ ← (if bs =? NULL then faultM else mret tt);
      returned ← scan_entries (partition_scan f) ext_lba (partition_table sector);
      if (returned : bool) then mret tt else on_heap (h_free true bs)
  end.

(** ** What the tables say *)

Definition is_part (e : partition_table_entry) : bool := negb (fs_type e =? 0x5) && negb (fs_type e =? 0).

(** An entry of the table in sector [lba]: [rec] answers for a table further on. *)
Definition entry_parts (rec : Z -> option (list Z * list (Z * Z))) (base lba : Z) (e : partition_table_entry) : option (list Z * list (Z * Z)) :=
  if fs_type e =? 0x5 then rec (u32 (e_start_lba e + base))
  else if fs_type e =? 0 then Some ([], [])
  else Some ([], [(u32 (lba + e_start_lba e), e_sec_cnt e)]).

(** The tables reached from the one in sector [lba] of an extended partition
    that starts at [base], and the logical partitions in them, with their
    start and size. *)
Fixpoint logical (n : nat) (d : disk) (base lba : Z) : option (list Z * list (Z * Z)) :=
  match n with
  | O => None
  | S n' =>
      if (0 <? lba) && (lba <=? max_lba) then
        found ← mapM (entry_parts (logical n' d base) base lba) (partition_table (sec d lba));
        Some (lba :: concat (fst <$> found), concat (snd <$> found))
      else None
  end.

(** ** Filling the slots *)

(** The effect of finding a partition: logical or not, start and size. *)
Definition place (x : bool * (Z * Z)) (s : scan) : scan :=
  let h := sc_hd s in
  if x.1 then
    mk_scan (sc_heap s) (sc_io s)
      (mk_hd (hd_name h) (prim_parts h) (<[Z.to_nat (l_no s) := mk_info (numbered (hd_name h) (l_no s + 5)) x.2.1 x.2.2]> (logic_parts h)))
      (ext_lba_base s) (p_no s) (l_no s + 1) (partition_list s ++ [mk_ref channel_no dev_no true (l_no s)])
  else
    mk_scan (sc_heap s) (sc_io s)
      (mk_hd (hd_name h) (<[Z.to_nat (p_no s) := mk_info (numbered (hd_name h) (p_no s + 1)) x.2.1 x.2.2]> (prim_parts h)) (logic_parts h))
      (ext_lba_base s) (p_no s + 1) (l_no s) (partition_list s ++ [mk_ref channel_no dev_no false (p_no s)]).
Definition place_all (l : list (bool * (Z * Z))) (s : scan) : scan := foldl (fun s x => place x s) s l.

(** Heap, channel and base changed. *)
Definition frame (b : Z) (h : H) (io : ide_channel) (s : scan) : scan := mk_scan h io (sc_hd s) b (p_no s) (l_no s) (partition_list s).

Lemma place_all_frame b h io l : forall s, place_all l (frame b h io s) = frame b h io (place_all l s).
Proof.
  induction l as [|x l IH]; intros s; [done|]. unfold place_all in *. cbn [foldl].
  assert (place x (frame b h io s) = frame b h io (place x s)) as -> by (by destruct x as [[] y]). apply IH.
Qed.

Definition count (k : bool) (l : list (bool * (Z * Z))) : Z := Z.of_nat (length (filter (fun x => x.1 = k) l)).
Lemma count_cons k x l : count k (x :: l) = (if Bool.eqb x.1 k then 1 else 0) + count k l.
Proof.
  unfold count. rewrite filter_cons. destruct (decide (x.1 = k)) as [->|Hn]; [rewrite eqb_reflx; cbn [length]; lia|].
  destruct (Bool.eqb_spec x.1 k); [done|lia].
Qed.
Lemma count_app k l l' : count k (l ++ l') = count k l + count k l'.
Proof. unfold count. rewrite filter_app, length_app. lia. Qed.
Lemma count_nonneg k l : 0 <= count k l.
Proof. unfold count. lia. Qed.

Lemma place_all_counts l : forall s, p_no (place_all l s) = p_no s + count false l /\ l_no (place_all l s) = l_no s + count true l /\
  length (prim_parts (sc_hd (place_all l s))) = length (prim_parts (sc_hd s)) /\ length (logic_parts (sc_hd (place_all l s))) = length (logic_parts (sc_hd s)).
Proof.
  induction l as [|x l IH]; intros s; [unfold count; cbn; lia|]. rewrite !count_cons. cbn [place_all foldl]. fold (place_all l (place x s)).
  destruct (IH (place x s)) as (-> & -> & -> & ->). destruct x as [[] y]; cbn; rewrite ?length_insert; repeat split; lia.
Qed.

Section Chain.
Context (d : disk) (Hd : disk_wf d).

Record good (b : Z) (s : scan) : Prop := {
  go_quiet : quiet (sc_io s);
  go_disk : view dev_no (sc_io s) = d;
  go_base : ext_lba_base s = b;
  go_prim : length (prim_parts (sc_hd s)) = 4%nat;
  go_logic : length (logic_parts (sc_hd s)) = 8%nat;
  go_p : 0 <= p_no s;
  go_l : 0 <= l_no s
}.
Definition fits (l : list (bool * (Z * Z))) (s : scan) : Prop := p_no s + count false l <= 3 /\ l_no s + count true l <= 7.

(** [c] finds the partitions [l] and reads [v] sectors; it returns [r], leaves
    [b'] as the base, and leaves the drives and the blocks of the heap alone. *)
Definition adds {A} (b b' : Z) (c : M scan A) (r : A) (v : nat) (l : list (bool * (Z * Z))) : Prop :=
  forall s k, good b s -> fits l s -> h_room (v + k) (sc_heap s) ->
  exists h io, c s = Ok (r, frame b' h io (place_all l s)) /\ quiet io /\
    master (hw io) = master (hw (sc_io s)) /\ slave (hw io) = slave (hw (sc_io s)) /\
    h_room k h /\ forall kn q, h_live h kn q <-> h_live (sc_heap s) kn q.

Lemma good_frame b b' h io l s : good b s -> quiet io -> master (hw io) = master (hw (sc_io s)) -> slave (hw io) = slave (hw (sc_io s)) ->
  good b' (frame b' h io (place_all l s)).
Proof.
  intros [G1 G2 G3 G4 G5 G6 G7] Hq Hm Hs. destruct (place_all_counts l s) as (E1 & E2 & E3 & E4).
  pose proof (count_nonneg true l). pose proof (count_nonneg false l).
  split; cbn; [done| |done|congruence|congruence|lia|lia]. unfold view in *. by rewrite Hm, Hs.
Qed.

Lemma adds_bind {A B} b b1 b2 (c : M scan A) (f : A -> M scan B) r r' v v' l l' :
  adds b b1 c r v l -> adds b1 b2 (f r) r' v' l' -> adds b b2 (c ≫= f) r' (v + v') (l ++ l').
Proof.
  intros H1 H2 s k G [F1 F2] R. rewrite count_app in F1, F2. pose proof (count_nonneg true l'). pose proof (count_nonneg false l').
  destruct (H1 s (v' + k)%nat G) as (h & io & E & Q & M1 & S1 & R1 & L1); [split; lia|by replace (v + (v' + k))%nat with (v + v' + k)%nat by lia|].
  destruct (place_all_counts l s) as (E1 & E2 & _ & _).
  destruct (H2 _ k (good_frame b b1 h io l s G Q M1 S1)) as (h' & io' & E' & Q' & M2 & S2 & R2 & L2); [split; cbn; lia|exact R1|].
  exists h', io'. cbn [sc_io sc_heap frame] in *. split; [|split; [done|]; split; [congruence|]; split; [congruence|]; split; [done|intros kn q; by rewrite L2, L1]].
  erewrite mbindM_Ok by exact E. rewrite E', place_all_frame. unfold place_all. rewrite foldl_app. done.
Qed.

Lemma adds_ret {A} b (a : A) : adds b b (mret a) a 0 [].
Proof.
  intros s k G _ R. exists (sc_heap s), (sc_io s). split; [|split; [apply G|done]]. cbn. destruct s, G as [_ _ Hb _ _ _ _]. cbn in *. by subst.
Qed.

Lemma adds_prim b lba p : lba = 0 -> adds b b (add_prim lba p) tt 0 [(false, (u32 (e_start_lba p), e_sec_cnt p))].
Proof.
  intros -> s k [G1 G2 G3 G4 G5 G6 G7] [F1 F2] R. rewrite count_cons in F1. cbn in F1. unfold count in F1. cbn in F1.
  exists (sc_heap s), (sc_io s). split; [|done]. unfold add_prim. rewrite getS_bind.
  assert (forall x, aset (prim_parts (sc_hd s)) (p_no s) x = Ok (<[Z.to_nat (p_no s) := x]> (prim_parts (sc_hd s)))) as Es.
  { intros x. unfold aset. destruct (Z.ltb_spec (p_no s) 0); [lia|]. destruct (Nat.ltb_spec (Z.to_nat (p_no s)) (length (prim_parts (sc_hd s)))); [done|lia]. }
  rewrite (liftO_bind _ _ _ _ (Es _)), modS_bind, getS_bind. cbn [p_no]. rewrite wrapu_small by (change (2 ^ 8) with 256; lia).
  unfold assertM, liftO. destruct (Z.ltb_spec (p_no s + 1) 4); [|lia]. cbn. unfold frame. cbn. by rewrite G3.
Qed.

Lemma adds_logic b lba p : adds b b (add_logic lba p) false 0 [(true, (u32 (lba + e_start_lba p), e_sec_cnt p))].
Proof.
  intros s k [G1 G2 G3 G4 G5 G6 G7] [F1 F2] R. rewrite count_cons in F2. cbn in F2. unfold count in F2. cbn in F2.
  exists (sc_heap s), (sc_io s). split; [|done]. unfold add_logic. rewrite getS_bind.
  assert (forall x, aset (logic_parts (sc_hd s)) (l_no s) x = Ok (<[Z.to_nat (l_no s) := x]> (logic_parts (sc_hd s)))) as Es.
  { intros x. unfold aset. destruct (Z.ltb_spec (l_no s) 0); [lia|]. destruct (Nat.ltb_spec (Z.to_nat (l_no s)) (length (logic_parts (sc_hd s)))); [done|lia]. }
  rewrite (liftO_bind _ _ _ _ (Es _)), modS_bind, getS_bind. cbn [l_no]. rewrite wrapu_small by (change (2 ^ 8) with 256; lia).
  destruct (Z.leb_spec 8 (l_no s + 1)); [lia|]. cbn. unfold frame. cbn. by rewrite G3.
Qed.

Lemma table_sector_run lba c : 0 <= lba <= max_lba -> quiet c -> view dev_no c = d ->
  exists c', ide_read latency identity 2 dev_no lba 1 c = Ok (sec d lba, c') /\ quiet c' /\ master (hw c') = master (hw c) /\ slave (hw c') = slave (hw c).
Proof.
  intros Hl Hq Hv. assert (in_reach lba 1 = true) as Hr by (unfold in_reach; change (256 * ((1 - 1) / 256)) with 0; apply Z.leb_le; lia).
  pose proof (ide_read_run latency identity dev_no lba 1 c 2 Hq ltac:(by rewrite Hv) ltac:(lia) Hr ltac:(lia)) as X.
  unfold disk_read in X. rewrite Hr in X. destruct (Z.leb_spec lba max_lba) as [_|]; [|lia]. change (0 <? 1) with true in X. cbn [ASSERT] in X. rewrite !bind_Ok in X.
  destruct X as (io & E2 & X). rewrite Hv in E2. change (Z.to_nat 1) with 1%nat in E2. cbn [secs] in E2. rewrite app_nil_r in E2. by exists io.
Qed.

(** One table: the buffer is allocated and freed around the entries. *)
Lemma adds_scan b b' f lba v l : 0 <= lba <= max_lba ->
  adds b b' (scan_entries (partition_scan f) lba (partition_table (sec d lba))) false v l ->
  adds b b' (partition_scan (S f) lba) tt (S v) l.
Proof.
  intros Hl Ha s k G F R. cbn [partition_scan].
  destruct (h_malloc_ok (v + k) true 512 (sc_heap s) R ltac:(lia)) as (bs & h1 & E1 & Hne & Hfr & R1 & L1).
  erewrite mbindM_Ok by (unfold on_heap; by rewrite E1). destruct G as [G1 G2 G3 G4 G5 G6 G7].
  destruct (table_sector_run lba (sc_io s) Hl G1 G2) as (io & E2 & Q2 & M2 & S2).
  erewrite mbindM_Ok by (unfold on_io; cbn [sc_io set_heap]; by rewrite E2). destruct (Z.eqb_spec bs NULL); [done|]. rewrite mret_bind.
  set (s1 := set_io io (set_heap h1 s)).
  destruct (Ha s1 k) as (h & io' & E & Q & M3 & S3 & R3 & L3); [|exact F|exact R1|].
  { split; cbn; try done. unfold view in *. by rewrite M2, S2. }
  erewrite mbindM_Ok by exact E. cbv iota.
  destruct (h_free_ok k true bs h R3) as (h' & E4 & R4 & L4); [apply L3; cbn; apply L1; by right|].
  exists h', io'. split.
  { unfold on_heap. cbn [sc_heap frame]. rewrite E4. do 2 f_equal. replace s1 with (frame (ext_lba_base s) h1 io s) by (by destruct s). by rewrite place_all_frame. }
  split; [done|]. cbn in *. split; [congruence|]. split; [congruence|]. split; [done|].
  intros kn q. rewrite L4, L3. cbn. rewrite L1. split; [intros [[?|?] ?]; [done|by exfalso; auto]|].
  intros Hq. split; [by left|]. intros [-> ->]. by apply Hfr.
Qed.

Lemma adds_ext base rec lba p v l : base <> 0 -> fs_type p = 5 -> adds base base (rec (u32 (e_start_lba p + base))) tt v l ->
  adds base base (scan_entry rec lba p) false v l.
Proof.
  intros Hb Ht Ha s k G F R. unfold scan_entry. rewrite Ht. cbn [Z.eqb Pos.eqb]. rewrite getS_bind, (go_base _ _ G).
  destruct (Z.eqb_spec base 0); [done|]. cbn [negb]. destruct (Ha s k G F R) as (h & io & E & X). exists h, io. split; [|exact X]. by erewrite mbindM_Ok by exact E.
Qed.

Lemma adds_first_ext rec lba p v l : fs_type p = 5 -> 0 < e_start_lba p <= max_lba ->
  adds (e_start_lba p) (e_start_lba p) (rec (e_start_lba p)) tt v l -> adds 0 (e_start_lba p) (scan_entry rec lba p) false v l.
Proof.
  intros Ht Hs Ha s k G F R. unfold scan_entry. rewrite Ht. cbn [Z.eqb Pos.eqb]. rewrite getS_bind, (go_base _ _ G). cbn [Z.eqb negb]. rewrite max_lba_value in Hs.
  rewrite mbindM_assoc, modS_bind. rewrite wraps_small by (change (2 ^ (32 - 1)) with 2147483648; lia).
  destruct (Ha (set_base (e_start_lba p) s) k) as (h & io & E & X); [by destruct G; split|exact F|exact R|].
  exists h, io. split; [|exact X]. erewrite mbindM_Ok by exact E. cbn. do 2 f_equal.
  replace (set_base (e_start_lba p) s) with (frame (e_start_lba p) (sc_heap s) (sc_io s) s) by done. by rewrite place_all_frame.
Qed.

Lemma adds_eq {A} b b' (c c' : M scan A) r v l : (forall s, c' s = c s) -> adds b b' c r v l -> adds b b' c' r v l.
Proof. intros E Ha s k G F R. rewrite E. by apply Ha. Qed.

Lemma adds_entries_app b b1 b2 rec lba es es' v v' l l' : adds b b1 (scan_entries rec lba es) false v l -> adds b1 b2 (scan_entries rec lba es') false v' l' ->
  adds b b2 (scan_entries rec lba (es ++ es')) false (v + v') (l ++ l').
Proof.
  intros H1 H2. eapply adds_eq; [|apply (adds_bind _ _ _ _ (fun stop : bool => if stop then mret true else scan_entries rec lba es') _ _ _ _ _ _ H1 H2)].
  clear. intros s. revert s. induction es as [|e es IH]; intros s; cbn [app scan_entries]; [by rewrite mret_bind|].
  rewrite mbindM_assoc. apply mbindM_ext. intros [] s'; [by rewrite mret_bind|apply IH].
Qed.
Lemma adds_entry b b' rec lba e v l : adds b b' (scan_entry rec lba e) false v l -> adds b b' (scan_entries rec lba [e]) false v l.
Proof.
  intros Ha. cbn [scan_entries]. replace v with (v + 0)%nat by lia. rewrite <- (app_nil_r l). eapply adds_bind; [exact Ha|]. apply adds_ret.
Qed.

(** The chain of an extended partition. *)
Lemma adds_logical n : forall base lba v l, base <> 0 -> logical n d base lba = Some (v, l) ->
  adds base base (partition_scan n lba) tt (length v) (pair true <$> l).
Proof.
  induction n as [|n IH]; intros base lba v l Hb E; cbn [logical] in E; [done|].
  destruct (Z.ltb_spec 0 lba) as [H0|]; [|done]. destruct (Z.leb_spec lba max_lba) as [Hm|]; [|done]. cbn [andb] in E.
  destruct (mapM _ (partition_table (sec d lba))) as [found|] eqn:Ef; [|done]. cbn in E. injection E as <- <-. cbn [length].
  apply adds_scan; [lia|]. apply mapM_Some in Ef. induction Ef as [|e [v l] es found He Ef IHf]; [apply adds_ret|].
  change (e :: es) with ([e] ++ es). cbn [fmap list_fmap concat fst snd]. rewrite length_app, fmap_app. eapply adds_entries_app; [apply adds_entry|exact IHf].
  unfold entry_parts in He. clear IHf Ef. destruct (Z.eqb_spec (fs_type e) 5) as [H5|H5]; [apply (adds_ext _ _ _ _ _ _ Hb H5), IH; done|].
  unfold scan_entry. destruct (Z.eqb_spec (fs_type e) 5); [done|]. destruct (Z.eqb_spec (fs_type e) 0) as [Hz|Hz]; injection He as <- <-; cbn [negb].
  - apply adds_ret.
  - destruct (Z.eqb_spec lba 0); [lia|]. apply adds_logic.
Qed.

(** The primary partitions in entries of the first table. *)
Definition prims (es : list partition_table_entry) : list (Z * Z) := (fun e => (u32 (e_start_lba e), e_sec_cnt e)) <$> filter (fun e => is_part e = true) es.

Lemma adds_prims b rec es : Forall (fun e => fs_type e <> 5) es -> adds b b (scan_entries rec 0 es) false 0 (pair false <$> prims es).
Proof.
  induction 1 as [|e es He Hes IH]; [apply adds_ret|]. change (e :: es) with ([e] ++ es). unfold prims. rewrite filter_app, !fmap_app.
  apply (adds_entries_app b b b rec 0 [e] es 0 0); [apply adds_entry|exact IH]. unfold scan_entry. rewrite filter_cons. unfold is_part.
  destruct (Z.eqb_spec (fs_type e) 5); [done|]. destruct (Z.eqb_spec (fs_type e) 0); cbn [negb andb Z.eqb]; [apply adds_ret|].
  rewrite decide_True by done. cbn [filter list_filter fmap list_fmap].
  apply (adds_bind b b b _ (fun _ => mret false) tt false 0 0 [(false, (u32 (e_start_lba e), e_sec_cnt e))] []); [by apply adds_prim|apply adds_ret].
Qed.

(** The partitions of the disk in the order of its tables -- at most one entry
    of the first table is an extended partition -- and the tables of that. *)
Definition disk_parts (n : nat) (v : list Z) (l : list (bool * (Z * Z))) : Prop :=
  let es := partition_table (sec d 0) in
  (Forall (fun e => fs_type e <> 5) es /\ v = [] /\ l = (pair false <$> prims es)) \/
  exists pre x post l', es = pre ++ x :: post /\ Forall (fun e => fs_type e <> 5) (pre ++ post) /\ fs_type x = 5 /\
    logical n d (e_start_lba x) (e_start_lba x) = Some (v, l') /\
    l = (pair false <$> prims pre) ++ (pair true <$> l') ++ (pair false <$> prims post).

Lemma adds_disk n v l : disk_parts n v l -> exists b, adds 0 b (partition_scan (S n) 0) tt (S (length v)) l.
Proof.
  intros [(Hn & -> & ->)|(pre & x & post & l' & Ees & Hn & Hx & El & ->)].
  - exists 0. apply adds_scan; [rewrite max_lba_value; lia|]. by apply adds_prims.
  - assert (0 < e_start_lba x <= max_lba) as Hs.
    { destruct n; [done|]. cbn [logical] in El. destruct (Z.ltb_spec 0 (e_start_lba x)), (Z.leb_spec (e_start_lba x) max_lba); cbn [andb] in El; done || lia. }
    exists (e_start_lba x). apply adds_scan; [rewrite max_lba_value; lia|]. rewrite Ees. apply Forall_app in Hn as [Hp Hq].
    apply (adds_entries_app 0 0 _ _ _ _ _ 0 (length v)); [by apply adds_prims|]. change (x :: post) with ([x] ++ post).
    replace (length v) with (length v + 0)%nat by lia. eapply adds_entries_app; [|by apply adds_prims]. apply adds_entry, adds_first_ext; [done|done|].
    apply adds_logical; [lia|done].
Qed.

(** The slot a reference leads to, and that it describes a partition. *)
Definition slot (x : hd) (r : part_ref) : option part_info := (if ref_logic r then logic_parts x else prim_parts x) !! Z.to_nat (ref_idx r).
Definition describes (x : hd) (r : part_ref) (y : bool * (Z * Z)) : Prop :=
  ref_channel r = channel_no /\ ref_dev r = dev_no /\ ref_logic r = y.1 /\
  slot x r = Some (mk_info (numbered (hd_name x) (ref_idx r + if y.1 then 5 else 1)) y.2.1 y.2.2).

Definition below (s : scan) (r : part_ref) : Prop := 0 <= ref_idx r < if ref_logic r then l_no s else p_no s.

Lemma place_listed s refs l y : Forall2 (describes (sc_hd s)) refs l -> Forall (below s) refs -> NoDup refs ->
  0 <= p_no s -> 0 <= l_no s -> fits [y] s -> length (prim_parts (sc_hd s)) = 4%nat -> length (logic_parts (sc_hd s)) = 8%nat ->
  let r := mk_ref channel_no dev_no y.1 (if y.1 then l_no s else p_no s) in
  Forall2 (describes (sc_hd (place y s))) (refs ++ [r]) (l ++ [y]) /\ Forall (below (place y s)) (refs ++ [r]) /\ NoDup (refs ++ [r]).
Proof.
  intros Hd' Hb Hn Hp Hl [F1 F2] L1 L2 r. rewrite count_cons in F1, F2. pose proof (count_nonneg true []). pose proof (count_nonneg false []). split; [|split].
  - apply Forall2_app; [|constructor; [|done]].
    + clear Hn. induction Hd' as [|r' y' refs l (X1 & X2 & X3 & X4) Hd' IH]; [done|]. apply Forall_cons in Hb as [B1 B2]. constructor; [|by apply IH].
      split; [done|]. split; [done|]. split; [done|]. unfold slot, below in *. destruct r' as [c' d' [] i], y as [[] z]; cbn in *; rewrite ?list_lookup_insert_ne by lia; exact X4.
    + split; [done|]. split; [done|]. split; [done|]. unfold slot, r. destruct y as [[] z]; cbn in *; rewrite list_lookup_insert_eq by lia; done.
  - apply Forall_app. split; [|constructor; [|done]].
    + eapply Forall_impl; [exact Hb|]. intros r' [B1 B2]. split; [done|]. destruct y as [[] z], (ref_logic r'); cbn in *; lia.
    + unfold below, r. destruct y as [[] z]; cbn; lia.
  - apply NoDup_app. split; [done|]. split; [|apply NoDup_singleton]. intros r' Hin E. apply list_elem_of_singleton in E as ->.
    rewrite Forall_forall in Hb. apply Hb in Hin. unfold below, r in Hin. cbn in Hin. destruct y.1; lia.
Qed.

Lemma place_all_listed l s : p_no s = 0 -> l_no s = 0 -> fits l s -> length (prim_parts (sc_hd s)) = 4%nat -> length (logic_parts (sc_hd s)) = 8%nat ->
  exists refs, partition_list (place_all l s) = partition_list s ++ refs /\ hd_name (sc_hd (place_all l s)) = hd_name (sc_hd s) /\
    Forall2 (describes (sc_hd (place_all l s))) refs l /\ Forall (below (place_all l s)) refs /\ NoDup refs.
Proof.
  intros Hp Hl F L1 L2. induction l as [|y l IH] using rev_ind; [exists []; rewrite app_nil_r; by repeat constructor|].
  destruct F as [F1 F2]. rewrite count_app in F1, F2. pose proof (count_nonneg true [y]). pose proof (count_nonneg false [y]). pose proof (count_nonneg true l). pose proof (count_nonneg false l).
  destruct IH as (refs & E & En & R1 & R2 & R3); [split; lia|]. destruct (place_all_counts l s) as (C1 & C2 & C3 & C4).
  destruct (place_listed (place_all l s) refs l y R1 R2 R3) as (X1 & X2 & X3); [lia|lia|split; lia|congruence|congruence|].
  assert (place_all (l ++ [y]) s = place y (place_all l s)) as Ea by (unfold place_all; by rewrite foldl_app). rewrite Ea.
  eexists. split; [|split; [|split; [exact X1|split; [exact X2|exact X3]]]].
  - rewrite app_assoc, <- E. by destruct y as [[] z].
  - rewrite <- En. by destruct y as [[] z].
Qed.

Lemma scan_disk_run n v l s k : disk_parts n v l -> good 0 s -> p_no s = 0 -> l_no s = 0 -> count false l <= 3 -> count true l <= 7 ->
  h_room (S (length v) + k) (sc_heap s) ->
  exists s' refs, partition_scan (S n) 0 s = Ok (tt, s') /\ partition_list s' = partition_list s ++ refs /\ NoDup refs /\ Forall2 (describes (sc_hd s')) refs l /\
    hd_name (sc_hd s') = hd_name (sc_hd s) /\ quiet (sc_io s') /\ master (hw (sc_io s')) = master (hw (sc_io s)) /\ slave (hw (sc_io s')) = slave (hw (sc_io s)) /\
    h_room k (sc_heap s') /\ forall kn q, h_live (sc_heap s') kn q <-> h_live (sc_heap s) kn q.
Proof.
  intros Hp G P L C1 C2 R. destruct (adds_disk n v l Hp) as (b & Ha). assert (fits l s) as F by (split; lia).
  destruct (Ha s k G F R) as (h & io & E & Q & M1 & S1 & R1 & L1).
  destruct (place_all_listed l s P L F (go_prim _ _ G) (go_logic _ _ G)) as (refs & E1 & E2 & E3 & _ & E4).
  exists (frame b h io (place_all l s)), refs. done.
Qed.


(** A fourth primary partition stops the kernel although it gets a slot. *)
Theorem fourth_primary_panics b p s : good b s -> p_no s = 3 -> add_prim 0 p s = Panic "partition_scan: p_no < 4".
Proof.
  intros [G1 G2 G3 G4 G5 G6 G7] Hp. unfold add_prim. rewrite getS_bind, Hp.
  assert (forall x, aset (prim_parts (sc_hd s)) 3 x = Ok (<[3%nat := x]> (prim_parts (sc_hd s)))) as Es.
  { intros x. unfold aset. rewrite G4. done. }
  rewrite (liftO_bind _ _ _ _ (Es _)), modS_bind, getS_bind. cbn [p_no]. rewrite Hp. done.
Qed.

(** A chain of tables that leads back to itself without a partition on the way
    is followed for ever. *)
Theorem cyclic_chain_never_ends fuel : forall lba p es s, 0 <= lba <= max_lba -> partition_table (sec d lba) = p :: es -> fs_type p = 5 ->
  ext_lba_base s <> 0 -> u32 (e_start_lba p + ext_lba_base s) = lba -> quiet (sc_io s) -> view dev_no (sc_io s) = d -> h_room fuel (sc_heap s) ->
  partition_scan fuel lba s = NoFuel.
Proof.
  induction fuel as [|fuel IH]; intros lba p es s Hl Et Hp Hb Hs Hq Hv Hr; [done|]. cbn [partition_scan].
  destruct (h_malloc_ok fuel true 512 (sc_heap s) Hr ltac:(lia)) as (bs & h1 & E1 & Hne & Hfr & R1 & L1).
  erewrite mbindM_Ok by (unfold on_heap; by rewrite E1). destruct (table_sector_run lba (sc_io s) Hl Hq Hv) as (io & E2 & Q2 & M2 & S2).
  erewrite mbindM_Ok by (unfold on_io; cbn [sc_io set_heap]; by rewrite E2). destruct (Z.eqb_spec bs NULL); [done|]. rewrite mret_bind, Et. cbn [scan_entries]. rewrite !mbindM_assoc.
  set (s1 := set_io io (set_heap h1 s)). assert (partition_scan fuel lba s1 = NoFuel) as E by (apply (IH lba p es); try done; unfold view in *; cbn; by rewrite M2, S2).
  apply mbindM_NoFuel. unfold scan_entry. rewrite Hp. cbn [Z.eqb Pos.eqb]. rewrite getS_bind. change (ext_lba_base s1) with (ext_lba_base s).
  destruct (Z.eqb_spec (ext_lba_base s) 0); [done|]. cbn [negb]. rewrite Hs. by apply mbindM_NoFuel.
Qed.

End Chain.
End Scan.

(** ** Start-up *)

(** [struct ide_channel]; [ch_io] has the fields and the drives of [Disk]. *)
Record channel : Type := mk_channel {
  ch_name : list Z; port_base : Z; irq_no : Z; ch_lock : lock * semaphore; ch_io : ide_channel; devices : list hd
}.

Record ide (H : Type) : Type := mk_ide {
  i_heap : H; channels : list channel; channel_cnt : Z; i_ext_lba_base : Z; i_p_no : Z; i_l_no : Z;
  i_partition_list : list part_ref; idt_table : list Z
}.
Arguments mk_ide {H}.
Arguments i_heap {H}. Arguments channels {H}. Arguments channel_cnt {H}. Arguments i_ext_lba_base {H}. Arguments i_p_no {H}. Arguments i_l_no {H}.
Arguments i_partition_list {H}. Arguments idt_table {H}.

Section Init.
Context {H : Type} `{HE : Heap H} (latency : Z) (identity : Z -> bool -> list Z).
(** The address of the interrupt handler, the first contents of a local array,
    and the bound on the depth of the chain of tables. *)
Context (intr_hd : Z) (junk : list Z) (fuel : nat).
#[local] Abbreviation ide := (ide H).

Definition set_channels (l : list channel) (s : ide) : ide :=
  mk_ide (i_heap s) l (channel_cnt s) (i_ext_lba_base s) (i_p_no s) (i_l_no s) (i_partition_list s) (idt_table s).

(** A step on [&channels[channel_no].devices[dev_no]] and what a scan shares. *)
Definition on_disk {A} (channel_no dev_no : Z) (c : M (scan H) A) : M ide A := fun s =>
  match aget (channels s) channel_no with
  | Ok x =>
      match aget (devices x) dev_no with
      | Ok y =>
          match c (mk_scan (i_heap s) (ch_io x) y (i_ext_lba_base s) (i_p_no s) (i_l_no s) (i_partition_list s)) with
          | Ok (a, t) =>
              let x' := mk_channel (ch_name x) (port_base x) (irq_no x) (ch_lock x) (sc_io t) (<[Z.to_nat dev_no := sc_hd t]> (devices x)) in
              Ok (a, mk_ide (sc_heap t) (<[Z.to_nat channel_no := x']> (channels s)) (channel_cnt s) (ext_lba_base t) (p_no t) (l_no t) (partition_list t) (idt_table s))
          | Panic w => Panic w | Fault => Fault | NoFuel => NoFuel
          end
      | Panic w => Panic w | Fault => Fault | NoFuel => NoFuel
      end
  | Panic w => Panic w | Fault => Fault | NoFuel => NoFuel
  end.

(** [sprintf(hd->name, "sd%c", 'a' + channel_no * 2 + dev_no)]. *)
Definition disk_name (channel_no dev_no : Z) : list Z := [115; 100; u8 (97 + channel_no * 2 + dev_no)].

Definition init_disk (channel_no dev_no : Z) : M ide () :=
  _ ← on_disk channel_no dev_no (modS (fun t : scan H =>
        mk_scan (sc_heap t) (sc_io t) (mk_hd (disk_name channel_no dev_no) (prim_parts (sc_hd t)) (logic_parts (sc_hd t)))
          (ext_lba_base t) (p_no t) (l_no t) (partition_list t)));
  _ ← on_disk channel_no dev_no (on_io (identify_disk latency (identity channel_no) junk dev_no));
  _ ← (if dev_no =? 0 then mret tt
       else on_disk channel_no dev_no (partition_scan latency (identity channel_no) channel_no dev_no fuel 0));
  modS (fun s => mk_ide (i_heap s) (channels s) (channel_cnt s) (i_ext_lba_base s) 0 0 (i_partition_list s) (idt_table s)).

(** The ports and the vector of a channel; a third channel keeps what it has. *)
Definition ports (channel_no : Z) (x : channel) : Z * Z :=
  if channel_no =? 0 then (0x1f0, 0x20 + 14)
  else if channel_no =? 1 then (0x170, 0x20 + 15)
  else (port_base x, irq_no x).

Definition init_channel (channel_no : Z) : M ide () :=
  s ← getS;
  x ← liftO (aget (channels s) channel_no);
  let '(base, irq) := ports channel_no x in
  l ← liftO (aset (channels s) channel_no
        (mk_channel (numbered [105; 100; 101] channel_no) base irq (mk_lock NULL 0, mk_sema 1 []) (mk_chan false 0 (hw (ch_io x))) (devices x)));
  _ ← modS (set_channels l);
  t ← liftO (register_handler (idt_table s) irq intr_hd);
  _ ← modS (fun s => mk_ide (i_heap s) (channels s) (channel_cnt s) (i_ext_lba_base s) (i_p_no s) (i_l_no s) (i_partition_list s) t);
  _ ← init_disk channel_no 0;
  init_disk channel_no 1.

Fixpoint init_channels (n : nat) (channel_no : Z) : M ide () :=
  match n with
  | O => mret tt
  | S n' => _ ← init_channel channel_no; init_channels n' (channel_no + 1)
  end.

(** [hd_cnt] is the byte the BIOS left at 0x475.  The traversal at the end calls
    [partition_info], which only printed. *)
Definition ide_init (hd_cnt : Z) : M ide () :=
  _ ← assertM (0 <? hd_cnt) "ide_init: hd_cnt > 0";
  let cnt := u8 (DIV_ROUND_UP hd_cnt 2) in
  _ ← modS (fun s => mk_ide (i_heap s) (channels s) cnt (i_ext_lba_base s) (i_p_no s) (i_l_no s) [] (idt_table s));
  init_channels (Z.to_nat cnt) 0.

(** What the drives are at start-up: no command under way. *)
Definition idle (h : ata) : Prop := busy h = 0 /\ fifo h = [] /\ wanted h = None /\ irq h = false.

Lemma on_disk_run {A} s c dv x y (m : M (scan H) A) a t : channels s !! Z.to_nat c = Some x -> devices x !! Z.to_nat dv = Some y -> 0 <= c -> 0 <= dv ->
  m (mk_scan (i_heap s) (ch_io x) y (i_ext_lba_base s) (i_p_no s) (i_l_no s) (i_partition_list s)) = Ok (a, t) ->
  on_disk c dv m s = Ok (a, mk_ide (sc_heap t) (<[Z.to_nat c := mk_channel (ch_name x) (port_base x) (irq_no x) (ch_lock x) (sc_io t) (<[Z.to_nat dv := sc_hd t]> (devices x))]> (channels s))
    (channel_cnt s) (ext_lba_base t) (p_no t) (l_no t) (partition_list t) (idt_table s)).
Proof.
  intros H1 H2 H3 H4 E. unfold on_disk, aget. destruct (Z.ltb_spec c 0); [lia|]. rewrite H1. destruct (Z.ltb_spec dv 0); [lia|]. by rewrite H2, E.
Qed.

Lemma init_disk_run s c dv x y (P : scan H -> Prop) : channels s !! Z.to_nat c = Some x -> devices x !! Z.to_nat dv = Some y -> 0 <= c -> 0 <= dv ->
  quiet (ch_io x) -> (forall sl, length (identity c sl) = 512%nat) -> length junk = 64%nat ->
  (forall io, quiet io -> master (hw io) = master (hw (ch_io x)) -> slave (hw io) = slave (hw (ch_io x)) ->
     exists t, (if dv =? 0 then mret tt else partition_scan latency (identity c) c dv fuel 0)
       (mk_scan (i_heap s) io (mk_hd (disk_name c dv) (prim_parts y) (logic_parts y)) (i_ext_lba_base s) (i_p_no s) (i_l_no s) (i_partition_list s)) = Ok (tt, t) /\ P t) ->
  exists t, P t /\
    init_disk c dv s = Ok (tt, mk_ide (sc_heap t) (<[Z.to_nat c := mk_channel (ch_name x) (port_base x) (irq_no x) (ch_lock x) (sc_io t) (<[Z.to_nat dv := sc_hd t]> (devices x))]> (channels s))
      (channel_cnt s) (ext_lba_base t) 0 0 (partition_list t) (idt_table s)).
Proof.
  intros H1 H2 H3 H4 Hq Hi Hj Ht. destruct (identify_disk_run latency (identity c) junk dv (ch_io x) Hq Hi Hj) as (io & E1 & Q & M1 & S1).
  destruct (Ht io Q M1 S1) as (t & Et & Hp). exists t. split; [done|]. unfold init_disk.
  erewrite mbindM_Ok by (eapply on_disk_run; [exact H1|exact H2|done|done|reflexivity]). cbn [sc_heap sc_io sc_hd ext_lba_base p_no l_no partition_list].
  assert (forall (z : channel), (<[Z.to_nat c := z]> (channels s)) !! Z.to_nat c = Some z) as Hz by (intros z; apply list_lookup_insert_eq; by eapply lookup_lt_Some).
  assert (forall (z : hd), (<[Z.to_nat dv := z]> (devices x)) !! Z.to_nat dv = Some z) as Hy by (intros z; apply list_lookup_insert_eq; by eapply lookup_lt_Some).
  erewrite mbindM_Ok.
  2:{ eapply on_disk_run; [cbn [channels]; apply Hz|cbn [devices]; apply Hy|done|done|]. unfold on_io. cbn [sc_io ch_io]. rewrite E1. reflexivity. }
  cbn [channels devices ch_name port_base irq_no ch_lock ch_io sc_heap sc_io sc_hd ext_lba_base p_no l_no partition_list i_heap i_ext_lba_base i_p_no i_l_no i_partition_list channel_cnt idt_table set_io].
  rewrite list_insert_insert_eq, list_insert_insert_eq.
  destruct (Z.eqb_spec dv 0) as [Hdv|Hdv].
  - rewrite mret_bind. injection Et as <-. done.
  - erewrite mbindM_Ok by (eapply on_disk_run; [cbn [channels]; apply Hz|cbn [devices]; apply Hy|done|done|cbn; exact Et]).
    cbn [channels devices ch_name port_base irq_no ch_lock ch_io sc_heap sc_io sc_hd channel_cnt idt_table].
    by rewrite list_insert_insert_eq, list_insert_insert_eq.
Qed.

End Init.

(** ** Witnesses: one primary and two logical partitions *)

Definition entry (t start cnt : Z) : partition_table_entry := mk_pte 0 0 0 0 t 0 0 0 start cnt.
Definition boot_sector (es : list partition_table_entry) : list Z := replicate 446 0 ++ concat (encode <$> es) ++ [0x55; 0xaa].
Definition none : partition_table_entry := entry 0 0 0.

Definition demo_disk : disk :=
  <[0 := boot_sector [entry 0x83 63 200; entry 0x5 300 1000; none; none]]>
  (<[300 := boot_sector [entry 0x83 10 50; entry 0x5 100 200; none; none]]>
  (<[400 := boot_sector [entry 0x83 5 20; none; none; none]]> ∅)).
Definition demo_parts : list (bool * (Z * Z)) := [(false, (63, 200)); (true, (310, 50)); (true, (405, 20))].

Lemma part_disk_wf : disk_wf demo_disk.
Proof. intros lba x Hx. unfold demo_disk in Hx. repeat (apply lookup_insert_Some in Hx as [[_ <-]|[_ Hx]]; [reflexivity|]). by rewrite lookup_empty in Hx. Qed.

Lemma demo_disk_parts : disk_parts demo_disk 2 [300; 400] demo_parts.
Proof.
  right. exists [entry 0x83 63 200], (entry 0x5 300 1000), [none; none], [(310, 50); (405, 20)]. split; [vm_compute; reflexivity|].
  split; [repeat constructor; discriminate|]. split; [reflexivity|]. split; vm_compute; reflexivity.
Qed.

Definition demo_io : ide_channel := mk_chan false 0 (mk_ata 0 0 0 0 0 ∅ demo_disk 0 [] None false).
Definition demo_hd : hd := mk_hd [115; 100; 98] (replicate 4 (mk_info [] 0 0)) (replicate 8 (mk_info [] 0 0)).
Definition demo_scan : scan bump := mk_scan demo_heap demo_io demo_hd 0 0 0 [].

Lemma part_heap_room k : (k <= 1000)%nat -> h_room k demo_heap.
Proof. intros Hk. split; [exact Hk|]. split; [cbn; lia|]. intros kn q Hq. by apply not_elem_of_empty in Hq. Qed.


Definition demo_ide : ide bump :=
  mk_ide demo_heap [mk_channel [] 0 0 (mk_lock 7 7, mk_sema 0 []) demo_io [demo_hd; demo_hd]] 0 0 0 0 [] (replicate 0x81 0).

