(* ===== verification/FormatSpec.v ===== *)
(** * A fresh file system (fs/fs.c: partition_format, mount_partition)

    What [partition_format] writes and what [mount_partition] makes of it. *)

From S2P Require Import Prelude Bitmap Interrupt DList Disk Layout Inode Dir File Fs Contents Alloc FileWrite DirSpec Format.

(** ** The block bitmap *)

Lemma clear_bits_spec n r : (n <= 8)%nat -> 0 <= r < 8 -> Z.testbit (clear_bits n 0 255) r = negb (r <? Z.of_nat n).
Proof.
  intros Hn Hr. apply Bool.eqb_prop.
  apply (forall_range_dec (fun r => Bool.eqb (Z.testbit (clear_bits n 0 255) r) (negb (r <? Z.of_nat n))) 8); [|done].
  do 9 (destruct n as [|n]; [reflexivity|]). lia.
Qed.

Lemma clear_bits_byte n : (n <= 8)%nat -> is_byte (clear_bits n 0 255).
Proof. intros Hn. do 9 (destruct n as [|n]; [vm_compute; split; congruence|]). lia. Qed.

(** The byte at place [q]. *)
Definition map_byte (bit_len : Z) (q : nat) : Z :=
  if decide (q < Z.to_nat (bit_len / 8))%nat then (if decide (q = 0)%nat then 1 else 0)
  else if decide (q = Z.to_nat (bit_len / 8)) then clear_bits (S (Z.to_nat (bit_len mod 8))) 0 255 else 255.

Lemma format_bitmap_run bit_len bs : 8 <= bit_len ->
  let last := (Z.to_nat (bit_len / 8) + Z.to_nat (512 - (bit_len / 8) mod 512))%nat in
  (last <= bs)%nat ->
  exists buf, format_bitmap bit_len bs = Ok buf /\ length buf = bs /\
    forall q, (q < last)%nat -> buf !! q = Some (map_byte bit_len q).
Proof.
  intros Hlen last Hbs. pose proof (Z.mod_pos_bound (bit_len / 8) 512 ltac:(lia)) as Hm. pose proof (Z.mod_pos_bound bit_len 8 ltac:(lia)) as Hm8.
  assert (1 <= bit_len / 8) as Hlb by (apply Z.div_le_lower_bound; lia). unfold format_bitmap, SECTOR_SIZE.
  set (lb := bit_len / 8) in *. set (ls := 512 - lb mod 512) in *. destruct (Z.ltb_spec (Z.of_nat bs) (lb + ls)); [unfold last in *; lia|].
  set (buf0 := 1 :: replicate (bs - 1) 0). assert (length buf0 = bs) as H0 by (unfold buf0; cbn; rewrite length_replicate; unfold last in *; lia).
  set (buf1 := splice (Z.to_nat lb) (replicate (Z.to_nat ls) 255) buf0).
  assert (length buf1 = bs) as H1 by (unfold buf1; rewrite splice_length; rewrite ?length_replicate; unfold last in *; lia).
  assert (forall q, (q < last)%nat -> buf1 !! q = Some (if decide (q < Z.to_nat lb)%nat then (if decide (q = 0)%nat then 1 else 0) else 255)) as Hq.
  { intros q Hq. unfold buf1, splice. destruct (decide (q < Z.to_nat lb)%nat) as [Hlt|Hge].
    - rewrite lookup_app_l, lookup_take_lt by (rewrite ?length_take; lia). unfold buf0. destruct q as [|q]; [done|].
      rewrite lookup_cons_ne_0 by lia. rewrite lookup_replicate_2; [done|]. unfold last in *. cbn [Init.Nat.pred]. lia.
    - rewrite lookup_app_r by (rewrite length_take; lia). rewrite length_take, lookup_app_l, lookup_replicate_2; [done| |]; rewrite ?length_replicate; unfold last in *; lia. }
  rewrite (aget_Ok buf1 lb 255), bind_Ok by (lia || (rewrite Hq by (unfold last; lia); rewrite decide_False by lia; done)).
  rewrite aset_Ok by (unfold last in *; lia). eexists. split; [done|]. split; [by rewrite length_insert|].
  intros q Hql. unfold map_byte. fold lb. destruct (decide (q = Z.to_nat lb)) as [->|Hne].
  - rewrite list_lookup_insert_eq by (unfold last in *; lia). rewrite decide_False by lia. done.
  - rewrite list_lookup_insert_ne, Hq by done. done.
Qed.

Lemma map_byte_bit bit_len k : 8 <= bit_len -> 0 <= k ->
  Z.testbit (map_byte bit_len (Z.to_nat (k / 8))) (k mod 8) = (k =? 0) || (bit_len <? k).
Proof.
  intros Hl Hk. pose proof (Z.div_mod k 8 ltac:(lia)) as Ek. pose proof (Z.mod_pos_bound k 8 ltac:(lia)) as Hm.
  pose proof (Z.div_mod bit_len 8 ltac:(lia)) as El. pose proof (Z.mod_pos_bound bit_len 8 ltac:(lia)) as Hml.
  pose proof (Z.div_pos k 8 Hk ltac:(lia)). unfold map_byte. assert (1 <= bit_len / 8) as Hlb by (apply Z.div_le_lower_bound; lia).
  destruct (decide (Z.to_nat (k / 8) < Z.to_nat (bit_len / 8))%nat) as [Hlt|Hge].
  - destruct (Z.ltb_spec bit_len k); [lia|]. rewrite orb_false_r. destruct (decide (Z.to_nat (k / 8) = 0)%nat) as [E0|E0].
    + change 1 with (2 ^ 0). rewrite Z.pow2_bits_eqb by lia. destruct (Z.eqb_spec 0 (k mod 8)), (Z.eqb_spec k 0); lia.
    + rewrite Z.bits_0. destruct (Z.eqb_spec k 0); [lia|done].
  - destruct (Z.eqb_spec k 0); [lia|]. cbn [orb]. destruct (decide (Z.to_nat (k / 8) = Z.to_nat (bit_len / 8))) as [Eq|Ne].
    + rewrite clear_bits_spec by lia. destruct (Z.ltb_spec (k mod 8) (Z.of_nat (S (Z.to_nat (bit_len mod 8))))), (Z.ltb_spec bit_len k); lia.
    + destruct (Z.ltb_spec bit_len k); [|lia]. apply (forall_range_dec (fun r => Z.testbit 255 r) 8); [reflexivity|lia].
Qed.

Lemma map_byte_ok bit_len q : is_byte (map_byte bit_len q).
Proof.
  pose proof (Z.mod_pos_bound bit_len 8 ltac:(lia)). unfold map_byte. case_decide; [case_decide; unfold is_byte; lia|].
  case_decide; [apply clear_bits_byte; lia|unfold is_byte; lia].
Qed.

(** ** Sizes

    The sectors in front of the data: boot sector, super block, [B] sectors of
    block bitmap, one of inode bitmap, 608 of inode table. *)

Record sizes (start cnt L B : Z) : Prop := {
  sz_start : 0 <= start;
  sz_end : start + cnt <= max_lba;
  sz_len : block_bitmap_bit_len cnt = L;
  sz_sb : format_sb start cnt =
    mk_sb SUPER_MAGIC cnt 4096 start (start + 2) B (start + 2 + B) 1 (start + 3 + B) 608 (start + 611 + B) 0 24;
  sz_L : 256 <= L;
  sz_B : 1 <= B <= 40;
  sz_fit : 4096 * (B - 1) < L <= 4096 * B;
  sz_data : start + 611 + B + L <= start + cnt
}.

Lemma DIV_ROUND_UP_small x : 0 <= x < 2 ^ 31 -> DIV_ROUND_UP x 4096 = (x + 4095) / 4096.
Proof.
  change (2 ^ 31) with 2147483648. intros Hx. unfold DIV_ROUND_UP. replace (x + 4096 - 1) with (x + 4095) by lia.
  rewrite (wrapu_small 32 (x + 4095)) by (change (2 ^ 32) with 4294967296; lia). apply wrapu_small. change (2 ^ 32) with 4294967296.
  split; [apply Z.div_pos; lia|]. apply Z.div_lt_upper_bound; lia.
Qed.

Lemma used_sects_value : used_sects = 611.
Proof. reflexivity. Qed.

Lemma format_sizes start cnt : 0 <= start -> 1024 <= cnt -> start + cnt <= max_lba -> exists L B, sizes start cnt L B.
Proof.
  intros Hs Hc He. set (D := (cnt - 611 + 4095) / 4096). set (L := cnt - 611 - D). set (B := (L + 4095) / 4096).
  rewrite max_lba_value in He. pose proof (Z.div_mod (cnt - 611 + 4095) 4096 ltac:(lia)) as ED. pose proof (Z.mod_pos_bound (cnt - 611 + 4095) 4096 ltac:(lia)) as MD.
  pose proof (Z.div_mod (L + 4095) 4096 ltac:(lia)) as EB. pose proof (Z.mod_pos_bound (L + 4095) 4096 ltac:(lia)) as MB. fold D in ED. fold B in EB.
  assert (block_bitmap_bit_len cnt = L) as HL.
  { unfold block_bitmap_bit_len. rewrite used_sects_value. rewrite (wrapu_small 32 (cnt - 611)) by (change (2 ^ 32) with 4294967296; lia).
    change BITS_PER_SECTOR with 4096. rewrite DIV_ROUND_UP_small by (change (2 ^ 31) with 2147483648; lia). apply wrapu_small. change (2 ^ 32) with 4294967296. lia. }
  assert (DIV_ROUND_UP L 4096 = B) as HB by (apply DIV_ROUND_UP_small; change (2 ^ 31) with 2147483648; lia).
  exists L, B. split; try done; try (rewrite ?max_lba_value; lia).
  unfold format_sb. rewrite HL. change BITS_PER_SECTOR with 4096. rewrite HB.
  change (DIV_ROUND_UP MAX_FILES_PER_PART 4096) with 1. change (DIV_ROUND_UP (sizeof_inode * MAX_FILES_PER_PART) SECTOR_SIZE) with 608.
  change MAX_FILES_PER_PART with 4096.
  assert (forall z, 0 <= z < 1000000 -> u32 z = z) as Hu by (intros z Hz; apply wrapu_small; change (2 ^ 32) with 4294967296; lia).
  rewrite (Hu (start + 2)), (Hu (start + 2 + B)), (Hu (start + 2 + B + 1)), (Hu (start + 2 + B + 1 + 608)) by lia. f_equal; lia.
Qed.

Section Fresh.
Context {H : Type} `{HE : Heap H}.
Implicit Types s : fs H.

(** Transfers of any size that stay on the disk. *)
Lemma in_reach_any lba n : 0 <= lba -> 0 < n -> lba + n <= max_lba + 1 -> in_reach lba n = true.
Proof.
  intros Hl Hn Hm. unfold in_reach. pose proof (Z.div_mod (n - 1) 256 ltac:(lia)). pose proof (Z.mod_pos_bound (n - 1) 256 ltac:(lia)). lia.
Qed.
Lemma ide_wr_any s lba buf n : 0 <= lba -> 0 < n -> lba + n <= max_lba + 1 ->
  ide_wr lba buf n s = Ok (tt, set_dsk (put_secs (Z.to_nat n) (dsk s) lba buf) s).
Proof.
  intros Hl Hn Hm. unfold ide_wr, disk_write. rewrite in_reach_any by done.
  destruct (Z.leb_spec lba max_lba); [|lia]. destruct (Z.ltb_spec 0 n); [|lia]. done.
Qed.
Lemma ide_rd_any s lba n : 0 <= lba -> 0 < n -> lba + n <= max_lba + 1 ->
  ide_rd lba n s = Ok (secs (Z.to_nat n) (dsk s) lba, s).
Proof.
  intros Hl Hn Hm. unfold ide_rd, disk_read. rewrite in_reach_any by done.
  destruct (Z.leb_spec lba max_lba); [|lia]. destruct (Z.ltb_spec 0 n); [|lia]. done.
Qed.

(** What a formatted partition holds. *)
Record formatted (start cnt L B : Z) (d d' : disk) : Prop := {
  fm_wf : disk_wf d';
  fm_sb : sec d' (start + 1) = encode (format_sb start cnt);
  fm_map : secs (Z.to_nat B) d' (start + 2) = map_byte L <$> seq 0 (512 * Z.to_nat B);
  fm_imap : sec d' (start + 2 + B) = 1 :: replicate 511 0;
  fm_table : secs 608 d' (start + 3 + B) = splice 0 (encode (root_inode (start + 611 + B))) (replicate (512 * 608) 0);
  fm_root : sec d' (start + 611 + B) = dot_entries 0 0;
  fm_frame a : ~ (start + 1 <= a <= start + 611 + B) -> sec d' a = sec d a
}.

Lemma take_map_bytes L n buf : (forall q, (q < n)%nat -> buf !! q = Some (map_byte L q)) -> take n buf = map_byte L <$> seq 0 n.
Proof.
  intros Hq. apply list_eq. intros q. rewrite list_lookup_fmap. destruct (decide (q < n)%nat).
  - rewrite lookup_take_lt, Hq, lookup_seq_lt by lia. done.
  - rewrite lookup_take_ge, lookup_seq_ge by lia. done.
Qed.

Lemma take_splice_0 n x buf : (length x <= n <= length buf)%nat -> take n (splice 0 x buf) = splice 0 x (take n buf).
Proof.
  intros Hn. unfold splice. rewrite !take_0, !app_nil_l, !Nat.add_0_l, take_app_ge by lia. f_equal.
  by rewrite skipn_firstn_comm.
Qed.

(** The five writes of [partition_format]. *)
Definition format_disk (start cnt L B : Z) (map zeros : list Z) (d : disk) : disk :=
  let d := put_secs 1 d (start + 1) (encode (format_sb start cnt)) in
  let d := put_secs (Z.to_nat B) d (start + 2) map in
  let d := put_secs 1 d (start + 2 + B) (splice 0 [1] zeros) in
  let d := put_secs 608 d (start + 3 + B) (splice 0 (encode (root_inode (start + 611 + B))) zeros) in
  put_secs 1 d (start + 611 + B) (splice 0 (take 48 (dot_entries 0 0)) zeros).

Lemma take_replicate_le {A} (x : A) n m : (n <= m)%nat -> take n (replicate m x) = replicate n x.
Proof. intros Hn. rewrite take_replicate. f_equal. lia. Qed.

Lemma format_disk_holds start cnt L B map d : sizes start cnt L B -> disk_wf d -> (512 * Z.to_nat B <= length map)%nat ->
  (forall q, (q < 512 * Z.to_nat B)%nat -> map !! q = Some (map_byte L q)) ->
  formatted start cnt L B d (format_disk start cnt L B map (replicate (512 * 608) 0) d).
Proof.
  intros [S1 S2 S3 S4 S5 S6 S7 S8] Hd Hlen Hmap. remember (replicate (512 * 608) 0) as z eqn:Ezz.
  assert (Z.of_nat (length z) = 512 * 608) as Hz by (rewrite Ezz, length_replicate; lia).
  assert (length (encode (root_inode (start + 611 + B))) = 76%nat) as Hri by reflexivity.
  assert (length (take 48 (dot_entries 0 0)) = 48%nat) as Hdots by reflexivity.
  assert (take 512 z = replicate 512 0) as Ez by (rewrite Ezz; apply take_replicate_le; lia).
  split; rewrite <- ?Ezz; clear Ezz.
  - unfold format_disk. repeat apply put_secs_wf; [exact Hd| |exact Hlen|..];
      [change (length (encode (format_sb start cnt))) with (length (sb_bytes (format_sb start cnt))); rewrite sb_bytes_length; lia|..];
      rewrite splice_length; rewrite ?Hri, ?Hdots; cbn [length]; lia.
  - unfold format_disk. rewrite !sec_put_secs, !decide_False, decide_True by lia. rewrite Z.sub_diag, drop_0. apply take_ge.
    change (length (sb_bytes (format_sb start cnt)) <= 512)%nat. rewrite sb_bytes_length. lia.
  - etransitivity; [|apply take_map_bytes, Hmap]. rewrite <- (secs_put _ (put_secs 1 d (start + 1) (encode (format_sb start cnt))) (start + 2)) by done.
    apply secs_ext. intros a Ha. unfold format_disk. rewrite (sec_put_secs 1), (sec_put_secs 608), (sec_put_secs 1), !decide_False by lia. reflexivity.
  - unfold format_disk. rewrite (sec_put_secs 1), (sec_put_secs 608), (sec_put_secs 1), !decide_False, decide_True by lia.
    rewrite Z.sub_diag, drop_0, take_splice_0, Ez by (cbn [length]; lia). reflexivity.
  - unfold format_disk. etransitivity; [apply secs_ext; intros a Ha; rewrite sec_put_secs, decide_False by lia; reflexivity|].
    rewrite secs_put, take_ge; [reflexivity| |]; rewrite splice_length; rewrite ?Hri; lia.
  - unfold format_disk. rewrite sec_put_secs, decide_True by lia. rewrite Z.sub_diag, drop_0, take_splice_0, Ez by (rewrite Hdots; lia). reflexivity.
  - intros a Ha. unfold format_disk. rewrite !sec_put_secs, !decide_False by lia. done.
Qed.

Lemma partition_format_run s r start cnt L B : sizes start cnt L B -> disk_wf (dsk s) -> h_room (S r) (heap s) ->
  exists d h, partition_format start cnt s = Ok (tt, set_heap h (set_dsk d s)) /\ formatted start cnt L B (dsk s) d /\ h_room r h /\
    (forall kn p, h_live h kn p <-> h_live (heap s) kn p).
Proof.
  intros Hs Hd Hr. pose proof Hs as [S1 S2 S3 S4 S5 S6 S7 S8]. unfold partition_format. rewrite S3. remember (encode (format_sb start cnt)) as sbb eqn:Esb. rewrite S4. rewrite max_lba_value in S2.
  cbn [block_bitmap_lba block_bitmap_sects inode_bitmap_lba inode_bitmap_sects inode_table_lba inode_table_sects data_start_lba].
  assert (u32 ((if 608 <=? (if 1 <=? B then B else 1) then if 1 <=? B then B else 1 else 608) * SECTOR_SIZE) = 311296) as ->.
  { destruct (Z.leb_spec 1 B); [|lia]. destruct (Z.leb_spec 608 B); [lia|reflexivity]. }
  replace (Z.to_nat 311296) with (512 * 608)%nat by lia.
  rewrite (wrapu_small 32 (start + 1)) by (change (2 ^ 32) with 4294967296; lia).
  pose proof (ide_wr_any s (start + 1) sbb 1 ltac:(lia) ltac:(lia) ltac:(rewrite max_lba_value; lia)) as E1. mrun E1.
  set (s1 := set_dsk (put_secs (Z.to_nat 1) (dsk s) (start + 1) sbb) s).
  destruct (malloc_run s1 r 311296 Hr ltac:(lia)) as (p & h & E2 & Hp & Hpl & Hrh & Hlh). mrun E2.
  mrun (need_run (set_heap h s1) p Hp).
  destruct (format_bitmap_run L (512 * 608) ltac:(lia)) as (map & Em & Hml & Hmap).
  { pose proof (Z.div_mod (L / 8) 512 ltac:(lia)). pose proof (Z.mod_pos_bound (L / 8) 512 ltac:(lia)). assert (L / 8 <= 20480) by (apply Z.div_le_upper_bound; lia).
    pose proof (Z.div_pos L 8 ltac:(lia) ltac:(lia)). lia. }
  rewrite (liftO_bind _ _ _ _ Em). remember (replicate (512 * 608) 0) as z eqn:Ezz.
  pose proof (ide_wr_any (set_heap h s1) (start + 2) map B ltac:(lia) ltac:(lia) ltac:(rewrite max_lba_value; lia)) as E3. mrun E3.
  set (s2 := set_dsk _ (set_heap h s1)).
  pose proof (ide_wr_any s2 (start + 2 + B) (splice 0 [1] z) 1 ltac:(lia) ltac:(lia) ltac:(rewrite max_lba_value; lia)) as E4. mrun E4.
  set (s3 := set_dsk _ s2).
  pose proof (ide_wr_any s3 (start + 3 + B) (splice 0 (encode (root_inode (start + 611 + B))) z) 608 ltac:(lia) ltac:(lia) ltac:(rewrite max_lba_value; lia)) as E5. mrun E5.
  set (s4 := set_dsk _ s3).
  pose proof (ide_wr_any s4 (start + 611 + B) (splice 0 (take 48 (dot_entries 0 0)) z) 1 ltac:(lia) ltac:(lia) ltac:(rewrite max_lba_value; lia)) as E6. mrun E6.
  set (s5 := set_dsk _ s4).
  destruct (free_run s5 r p Hrh ltac:(apply Hlh; by right)) as (h' & E7 & Hr' & Hl'). rewrite E7.
  exists (dsk s5), h'. split; [reflexivity|]. split; [|split; [exact Hr'|]].
  - assert (dsk s5 = format_disk start cnt L B map z (dsk s)) as -> by (unfold format_disk; rewrite <- Esb; reflexivity). rewrite Ezz. apply format_disk_holds; [done|done|lia|].
    intros q Hq. apply Hmap. pose proof (Z.div_mod (L / 8) 512 ltac:(lia)). pose proof (Z.mod_pos_bound (L / 8) 512 ltac:(lia)).
    pose proof (Z.div_mod L 8 ltac:(lia)). pose proof (Z.mod_pos_bound L 8 ltac:(lia)). pose proof (Z.div_pos (L / 8) 512 ltac:(lia) ltac:(lia)). lia.
  - intros kn q. rewrite Hl'. change (heap s5) with h. rewrite Hlh. change (heap s1) with (heap s). change (pgdir_null s5) with (pgdir_null s). change (pgdir_null s1) with (pgdir_null s) in *.
    split; [tauto|]. intros Hq. split; [by left|]. intros [-> ->]. by apply Hpl.
Qed.

(** ** Mounting *)

Definition fresh_part (start cnt L B : Z) : partition :=
  mk_part start cnt (format_sb start cnt) (mk_bitmap (B * 512) (map_byte L <$> seq 0 (512 * Z.to_nat B)))
    (mk_bitmap 512 (1 :: replicate 511 0)) [].

Lemma sizes_sb_ok start cnt L B : sizes start cnt L B -> sb_ok (format_sb start cnt).
Proof.
  intros [S1 S2 S3 S4 S5 S6 S7 S8]. rewrite max_lba_value in S2. rewrite S4. unfold sb_ok, sb_words, u32_ok. change (2 ^ 32) with 4294967296.
  cbn [magic sb_sec_cnt inode_cnt part_lba_base block_bitmap_lba block_bitmap_sects inode_bitmap_lba inode_bitmap_sects inode_table_lba inode_table_sects data_start_lba root_inode_no dir_entry_size].
  unfold SUPER_MAGIC. repeat (apply Forall_cons; split; [lia|]). constructor.
Qed.

Lemma mount_partition_run s r name start cnt L B d0 : sizes start cnt L B -> formatted start cnt L B d0 (dsk s) -> h_room (4 + r) (heap s) ->
  exists h, mount_partition name (mk_info name start cnt) s = Ok (true, set_heap h (set_part (fresh_part start cnt L B) s)) /\ h_room r h.
Proof.
  intros Hs Hf Hr. pose proof Hs as [S1 S2 S3 S4 S5 S6 S7 S8]. rewrite max_lba_value in S2. unfold mount_partition. cbn [p_name p_start p_cnt].
  rewrite bool_decide_true by done. cbn [Nat.add] in Hr.
  destruct (malloc_run s _ SECTOR_SIZE Hr ltac:(unfold SECTOR_SIZE; lia)) as (p1 & h1 & E1 & N1 & _ & R1 & _). mrun E1.
  destruct (malloc_run (set_heap h1 s) _ 512 R1 ltac:(lia)) as (p2 & h2 & E2 & N2 & _ & R2 & _). mrun E2.
  change (set_heap h2 (set_heap h1 s)) with (set_heap h2 s).
  erewrite mbindM_Ok by (apply assertM_run; destruct (Z.eqb_spec p2 NULL); done).
  erewrite mbindM_Ok by (apply assertM_run; destruct (Z.eqb_spec p1 NULL); done).
  rewrite (wrapu_small 32 (start + 1)) by (change (2 ^ 32) with 4294967296; lia).
  pose proof (ide_rd_any (set_heap h2 s) (start + 1) 1 ltac:(lia) ltac:(lia) ltac:(rewrite max_lba_value; lia)) as E3. mrun E3.
  assert (decode (secs (Z.to_nat 1) (dsk (set_heap h2 s)) (start + 1)) = format_sb start cnt) as ->.
  { change (Z.to_nat 1) with 1%nat. cbn [secs set_heap dsk]. rewrite (fm_sb _ _ _ _ _ _ Hf). by apply decode_encode, (sizes_sb_ok start cnt L B). }
  remember (format_sb start cnt) as b eqn:Eb.
  assert (block_bitmap_sects b = B) as Eb1 by (by rewrite S4). assert (block_bitmap_lba b = start + 2) as Eb2 by (by rewrite S4).
  assert (inode_bitmap_sects b = 1) as Eb3 by (by rewrite S4). assert (inode_bitmap_lba b = start + 2 + B) as Eb4 by (by rewrite S4).
  rewrite Eb1, Eb2, Eb3, Eb4. unfold SECTOR_SIZE. rewrite (wrapu_small 32 (B * 512)), (wrapu_small 32 (1 * 512)) by (change (2 ^ 32) with 4294967296; lia).
  destruct (malloc_run (set_heap h2 s) _ (B * 512) R2 ltac:(lia)) as (p3 & h3 & E4 & N3 & _ & R3 & _). mrun E4.
  change (set_heap h3 (set_heap h2 s)) with (set_heap h3 s).
  erewrite mbindM_Ok by (apply assertM_run; destruct (Z.eqb_spec p3 NULL); done).
  pose proof (ide_rd_any (set_heap h3 s) (start + 2) B ltac:(lia) ltac:(lia) ltac:(rewrite max_lba_value; lia)) as E5. mrun E5.
  destruct (malloc_run (set_heap h3 s) _ (1 * 512) R3 ltac:(lia)) as (p4 & h4 & E6 & N4 & _ & R4 & _). mrun E6.
  change (set_heap h4 (set_heap h3 s)) with (set_heap h4 s).
  erewrite mbindM_Ok by (apply assertM_run; destruct (Z.eqb_spec p4 NULL); done).
  pose proof (ide_rd_any (set_heap h4 s) (start + 2 + B) 1 ltac:(lia) ltac:(lia) ltac:(rewrite max_lba_value; lia)) as E7. mrun E7.
  exists h4. split; [|exact R4]. rewrite modS_bind. cbn [set_heap dsk]. rewrite (fm_map _ _ _ _ _ _ Hf). change (Z.to_nat 1) with 1%nat. cbn [secs].
  rewrite (fm_imap _ _ _ _ _ _ Hf), app_nil_r. unfold fresh_part. rewrite <- Eb. reflexivity.
Qed.

(** The bits of the fresh maps. *)
Lemma fresh_block_bits start cnt L B k : sizes start cnt L B -> 0 <= k < nbits (block_bitmap (fresh_part start cnt L B)) ->
  bit_used (block_bitmap (fresh_part start cnt L B)) k = (k =? 0) || (L <? k).
Proof.
  intros [S1 S2 S3 S4 S5 S6 S7 S8] Hk. unfold nbits in Hk. cbn [fresh_part block_bitmap btmp_bytes_len] in Hk. unfold bit_used. cbn [fresh_part block_bitmap bits].
  pose proof (Z.div_mod k 8 ltac:(lia)). pose proof (Z.mod_pos_bound k 8 ltac:(lia)). pose proof (Z.div_pos k 8 ltac:(lia) ltac:(lia)).
  rewrite list_lookup_fmap, lookup_seq_lt by lia. cbn [fmap option_fmap option_map]. rewrite Nat.add_0_l. apply map_byte_bit; lia.
Qed.

Lemma fresh_inode_bits start cnt L B k : 0 <= k < 4096 -> bit_used (inode_bitmap (fresh_part start cnt L B)) k = (k =? 0).
Proof.
  intros Hk. unfold bit_used. cbn [fresh_part inode_bitmap bits]. pose proof (Z.div_mod k 8 ltac:(lia)). pose proof (Z.mod_pos_bound k 8 ltac:(lia)).
  pose proof (Z.div_pos k 8 ltac:(lia) ltac:(lia)). destruct (decide (Z.to_nat (k / 8) = 0%nat)) as [E|E].
  - rewrite E, lookup_cons. change 1 with (2 ^ 0). rewrite Z.pow2_bits_eqb by lia. destruct (Z.eqb_spec 0 (k mod 8)), (Z.eqb_spec k 0); lia.
  - rewrite lookup_cons_ne_0, lookup_replicate_2 by lia. rewrite Z.bits_0. destruct (Z.eqb_spec k 0); [lia|done].
Qed.

Lemma fresh_geometry start cnt L B : sizes start cnt L B -> geometry (fresh_part start cnt L B).
Proof.
  intros Hs. pose proof Hs as [S1 S2 S3 S4 S5 S6 S7 S8]. pose proof (fresh_block_bits start cnt L B) as Hbits. rewrite max_lba_value in S2. change (2 ^ 31) with 2147483648 in *.
  unfold fresh_part in *. rewrite S4 in *.
  split; cbn [sb start_lba sec_cnt block_bitmap inode_bitmap block_bitmap_lba block_bitmap_sects inode_bitmap_lba inode_bitmap_sects inode_table_lba
    data_start_lba dir_entry_size btmp_bytes_len bits] in *; rewrite ?max_lba_value; try lia.
  - rewrite wrapu_small by (change (2 ^ 32) with 4294967296; lia). lia.
  - split; [|rewrite length_fmap, length_seq; lia]. split; cbn [btmp_bytes_len bits]; [lia|change (2 ^ 31) with 2147483648; lia|rewrite length_fmap, length_seq; lia|].
    apply Forall_fmap, Forall_true. intros q. apply map_byte_ok.
  - split; [|done]. apply demo_part_map_wf. unfold is_byte; lia.
  - intros k Hk. rewrite Hbits by done. destruct (Z.ltb_spec L k); [by rewrite orb_true_r|lia].
Qed.

Lemma root_inode_ok a : u32_ok a -> inode_ok (root_inode a).
Proof.
  intros Ha. split; cbn [root_inode i_no i_size i_open_cnts write_deny i_sectors]; try done. apply Forall_cons. split; [done|].
  apply Forall_replicate. done.
Qed.

Lemma fresh_root_ok start cnt L B : sizes start cnt L B -> dir_ok (fresh_part start cnt L B) (root_inode (start + 611 + B)).
Proof.
  intros Hs. pose proof Hs as [S1 S2 S3 S4 S5 S6 S7 S8]. rewrite max_lba_value in S2. split; try done.
  - apply root_inode_ok. unfold u32_ok. change (2 ^ 32) with 4294967296. lia.
  - cbn [root_inode i_sectors]. change (take 12 (start + 611 + B :: replicate 12 0)) with (start + 611 + B :: replicate 11 0).
    apply Forall_cons. split; [right|apply Forall_replicate; by left].
    assert (data_start_lba (sb (fresh_part start cnt L B)) = start + 611 + B) as E by (cbn [fresh_part sb]; by rewrite S4).
    unfold dir_block. rewrite E, max_lba_value, Z.sub_diag, (fresh_block_bits start cnt L B 0 Hs) by (unfold nbits; cbn [fresh_part block_bitmap btmp_bytes_len]; lia).
    unfold nbits; cbn [fresh_part block_bitmap btmp_bytes_len]. split; [lia|]. split; [lia|reflexivity].
  - cbn [root_inode i_sectors]. change (take 12 (start + 611 + B :: replicate 12 0)) with (start + 611 + B :: replicate 11 0).
    rewrite filter_cons_True by lia. rewrite filter_none_elem; [apply NoDup_singleton|]. intros x Hx%elem_of_replicate. tauto.
Qed.

Lemma formatted_root s start cnt L B d0 p : sizes start cnt L B -> formatted start cnt L B d0 (dsk s) -> cur_part s = p ->
  sb p = format_sb start cnt -> inode_at s 0 = root_inode (start + 611 + B).
Proof.
  intros Hs Hf <- Esb. pose proof Hs as [S1 S2 S3 S4 S5 S6 S7 S8]. rewrite max_lba_value in S2.
  assert (inode_ok (root_inode (start + 611 + B))) as Hok by (apply root_inode_ok; unfold u32_ok; change (2 ^ 32) with 4294967296; lia).
  unfold inode_at, table. rewrite Esb, S4. cbn [inode_table_lba]. change table_secs with 608%nat.
  rewrite (fm_table _ _ _ _ _ _ Hf). change (76 * Z.to_nat 0)%nat with 0%nat.
  assert (length (encode (root_inode (start + 611 + B))) = 76%nat) as Hl by reflexivity. rewrite <- Hl at 1. rewrite slice_splice by (rewrite Hl, length_replicate; lia).
  rewrite <- (app_nil_r (encode _)). by apply decode_encode.
Qed.

(** The entries of the root for itself and for its parent. *)
Definition dot_entries : list dir_entry :=
  [mk_dirent (46 :: replicate 15 0) 0 FT_DIRECTORY; mk_dirent (46 :: 46 :: replicate 14 0) 0 FT_DIRECTORY].


(** The bit of the sector behind the partition is free: the loop that clears
    the bits of the last byte runs once too often (fs.c:146), so the file system
    may hand out a block that is not its own.  Stated for the sizes at which one
    sector of bitmap is enough. *)
Theorem block_behind_partition_is_free s r name start cnt : disk_wf (dsk s) -> h_room (5 + r) (heap s) ->
  0 <= start -> 1024 <= cnt <= 4707 -> start + cnt <= max_lba ->
  exists s1 s2, partition_format start cnt s = Ok (tt, s1) /\ mount_partition name (mk_info name start cnt) s1 = Ok (true, s2) /\
    free_bit (cur_part s2) (cnt - 612) /\ data_start_lba (sb (cur_part s2)) + (cnt - 612) = start + cnt.
Proof.
  intros Hd Hr H1 H2 H3. destruct (format_sizes start cnt H1 ltac:(lia) H3) as (L & B & Hs). pose proof Hs as [S1 S2 S3 S4 S5 S6 S7 S8].
  destruct (partition_format_run s (4 + r) start cnt L B Hs Hd Hr) as (d & h & E1 & Hf & Hr1 & _).
  destruct (mount_partition_run (set_heap h (set_dsk d s)) r name start cnt L B (dsk s) Hs Hf Hr1) as (h2 & E2 & _).
  eexists _, _. split; [exact E1|]. split; [exact E2|]. cbn [set_heap set_part dsk cur_part].
  assert (L = cnt - 612) as HL.
  { rewrite <- S3. unfold block_bitmap_bit_len. rewrite used_sects_value, (wrapu_small 32 (cnt - 611)) by (change (2 ^ 32) with 4294967296; lia).
    change BITS_PER_SECTOR with 4096. rewrite DIV_ROUND_UP_small by (change (2 ^ 31) with 2147483648; lia).
    assert ((cnt - 611 + 4095) / 4096 = 1) as -> by (symmetry; apply (Z.div_unique _ _ _ (cnt - 611 - 1)); lia).
    rewrite wrapu_small by (change (2 ^ 32) with 4294967296; lia). lia. }
  assert (0 <= cnt - 612 < nbits (block_bitmap (fresh_part start cnt L B))) as Hk by (unfold nbits; cbn [fresh_part block_bitmap btmp_bytes_len]; lia).
  split; [split; [exact Hk|]|].
  - rewrite (fresh_block_bits start cnt L B _ Hs Hk). destruct (Z.eqb_spec (cnt - 612) 0), (Z.ltb_spec L (cnt - 612)); lia || done.
  - cbn [fresh_part sb]. rewrite S4. cbn [data_start_lba]. lia.
Qed.

End Fresh.

