(* ===== verification/Shell.v ===== *)
(** * The shell (shell/shell.c, shell/buildin_cmd.c)

    Reading a command line, cutting it into words, and turning the path a user
    types into an absolute path without "." and "..".  Buffers are arrays of
    characters; a pointer into one is an offset.  What is printed is left out. *)

From S2P Require Import Prelude Bitmap Interrupt DList Disk Layout Inode Path Dir DirSpec Fs.

(** ** Strings in buffers (lib/string.c, on arrays) *)

(** [strlen]. *)
Fixpoint str_len (buf : list Z) : outcome nat :=
  match buf with
  | [] => Fault
  | c :: buf' => if c =? 0 then Ok 0%nat else n ← str_len buf'; Ok (S n)
  end.

(** [strcat]: the string of [src] and its zero behind the string of [dst]. *)
Definition str_cat (dst src : list Z) : outcome (list Z) :=
  n ← str_len dst;
  m ← str_len src;
  if (n + S m <=? length dst)%nat then Ok (splice n (take (S m) src) dst) else Fault.

(** [strrchr]: the place of the last [c] in front of the zero. *)
Fixpoint str_rchr (buf : list Z) (c k : Z) (last : option Z) : outcome (option Z) :=
  match buf with
  | [] => Fault
  | x :: buf' => if x =? 0 then Ok last else str_rchr buf' c (k + 1) (if x =? c then Some k else last)
  end.

(** ** Paths (shell/buildin_cmd.c) *)

Definition slash_str : list Z := [slash; 0].

(** What one name of the path does to [new_abs_path]. *)
Definition wash_name (name new_abs_path : list Z) : outcome (list Z) :=
  up ← str_same dot_dot name;
  if (up : bool) then
    slash_ptr ← str_rchr new_abs_path slash 0 None;
    match slash_ptr with
    | None => Fault
    | Some k => if k =? 0 then aset new_abs_path 1 0 else aset new_abs_path k 0
    end
  else
    here ← str_same dot name;
    if (here : bool) then Ok new_abs_path
    else
      top ← str_same new_abs_path slash_str;
      new_abs_path ← (if (top : bool) then Ok new_abs_path else str_cat new_abs_path slash_str);
      str_cat new_abs_path name.

Fixpoint wash_loop (fuel : nat) (sub_path : option (list Z)) (name new_abs_path : list Z) : outcome (list Z) :=
  match fuel with
  | O => NoFuel
  | S f =>
      c ← aget name 0;
      if c =? 0 then Ok new_abs_path
      else
        new_abs_path ← wash_name name new_abs_path;
        '(sub_path, name) ← next_name sub_path;
        wash_loop f sub_path name new_abs_path
  end.

Definition wash_path (old_abs_path new_abs_path : list Z) : outcome (list Z) :=
  _ ← ASSERT (match old_abs_path with c :: _ => c =? slash | [] => false end) "old_abs_path[0] == '/'";
  '(sub_path, name) ← path_parse old_abs_path zero_name;
  c ← aget name 0;
  if c =? 0 then
    new_abs_path ← aset new_abs_path 0 slash;
    aset new_abs_path 1 0
  else
    new_abs_path ← aset new_abs_path 0 0;
    new_abs_path ← str_cat new_abs_path slash_str;
    wash_loop (S (S (length old_abs_path))) sub_path name new_abs_path.

(** [cwd] is what the call of [getcwd] stores, [None] when it fails. *)
Definition make_clear_abs_path (cwd : option (list Z)) (path final_path : list Z) : outcome (list Z) :=
  let abs_path := replicate (Z.to_nat MAX_PATH_LEN) 0 in
  abs_path ← (if hd 0 path =? slash then Ok abs_path
    else match cwd with
         | None => Ok abs_path
         | Some w =>
             abs_path ← str_cat abs_path (w ++ [0]);
             top ← str_same abs_path slash_str;
             if (top : bool) then Ok abs_path else str_cat abs_path slash_str
         end);
  abs_path ← str_cat abs_path (path ++ [0]);
  n ← str_len abs_path;
  wash_path (take n abs_path) final_path.

(** ** Command lines (shell/shell.c) *)

Definition MAX_ARG_NR : Z := 16.

(** [while ( *next == token) next++;] *)
Fixpoint skip_token (fuel : nat) (buf : list Z) (next token : Z) : outcome Z :=
  match fuel with
  | O => NoFuel
  | S f => c ← aget buf next; if c =? token then skip_token f buf (next + 1) token else Ok next
  end.
(** [while ( *next && *next != token) next++;] *)
Fixpoint word_end (fuel : nat) (buf : list Z) (next token : Z) : outcome Z :=
  match fuel with
  | O => NoFuel
  | S f => c ← aget buf next; if (c =? 0) || (c =? token) then Ok next else word_end f buf (next + 1) token
  end.

Fixpoint parse_loop (fuel : nat) (buf : list Z) (argv : list (option Z)) (next argc token : Z) : outcome (Z * list Z * list (option Z)) :=
  match fuel with
  | O => NoFuel
  | S f =>
      c ← aget buf next;
      if c =? 0 then Ok (argc, buf, argv)
      else
        next ← skip_token (S (length buf)) buf next token;
        c ← aget buf next;
        if c =? 0 then Ok (argc, buf, argv)
        else
          argv ← aset argv argc (Some next);
          next ← word_end (S (length buf)) buf next token;
          c ← aget buf next;
          '(buf, next) ← (if c =? 0 then Ok (buf, next) else buf ← aset buf next 0; Ok (buf, next + 1));
          if MAX_ARG_NR <? argc then Ok (-1, buf, argv)
          else parse_loop f buf argv next (argc + 1) token
  end.

(** The number of words, the line with zeros behind them, and [argv]. *)
Definition cmd_parse (cmd_str : list Z) (token : Z) : outcome (Z * list Z * list (option Z)) :=
  parse_loop (S (length cmd_str)) cmd_str (replicate (Z.to_nat MAX_ARG_NR) None) 0 0 token.

(** Ctrl-U: [while (buf != pos) ... *(pos--) = 0;] *)
Fixpoint clear_line (pos : nat) (buf : list Z) : outcome (list Z) :=
  match pos with O => Ok buf | S pos' => buf ← aset buf (Z.of_nat pos) 0; clear_line pos' buf end.

(** [keys] are the characters [read] will return; when there are none left it
    returns -1.  The result is the buffer and what is left to read. *)
Fixpoint readline_loop (keys : list Z) (buf : list Z) (pos count : Z) : outcome (list Z * list Z) :=
  match keys with
  | [] => Ok (buf, [])
  | c :: keys' =>
      buf ← aset buf pos c;
      if pos <? count then
        if (c =? 10) || (c =? 13) then buf ← aset buf pos 0; Ok (buf, keys')
        else if c =? 8 then
          c0 ← aget buf 0;
          readline_loop keys' buf (if negb (c0 =? 8) then pos - 1 else pos) count
        else if c =? 11 then buf ← aset buf pos 0; readline_loop keys' buf pos count
        else if c =? 20 then buf ← clear_line (Z.to_nat pos) buf; readline_loop keys' buf 0 count
        else readline_loop keys' buf (pos + 1) count
      else Ok (buf, keys')
  end.
Definition readline (keys buf : list Z) (count : Z) : outcome (list Z * list Z) :=
  _ ← ASSERT (0 <? count) "buf != NULL && count > 0";
  readline_loop keys buf 0 count.

(** ** Strings in buffers: laws *)

(** The buffer holds the string [s]. *)
Definition holds (buf s : list Z) : Prop := Forall (fun c => c <> 0) s /\ exists r, buf = s ++ 0 :: r.

Lemma str_len_run s r : Forall (fun c => c <> 0) s -> str_len (s ++ 0 :: r) = Ok (length s).
Proof. induction 1 as [|c s Hc _ IH]; cbn [app str_len length]; [done|]. destruct (Z.eqb_spec c 0); [done|]. by rewrite IH. Qed.

Lemma str_cat_run buf s t r : holds buf s -> Forall (fun c => c <> 0) t -> (length s + length t < length buf)%nat ->
  exists buf', str_cat buf (t ++ 0 :: r) = Ok buf' /\ holds buf' (s ++ t) /\ length buf' = length buf.
Proof.
  intros [Hs (q & ->)] Ht Hl. unfold str_cat. rewrite !str_len_run, !bind_Ok by done. rewrite length_app in Hl. cbn [length] in Hl.
  assert (length s + S (length t) <= length (s ++ 0%Z :: q))%nat as Hle by (rewrite length_app; cbn [length]; lia).
  destruct (Nat.leb_spec (length s + S (length t)) (length (s ++ 0 :: q))) as [_|]; [|lia].
  assert (take (S (length t)) (t ++ 0 :: r) = t ++ [0]) as -> by (by rewrite cons_middle, app_assoc, take_app_length' by (rewrite length_app; cbn; lia)).
  eexists. split; [done|]. split; [|rewrite splice_length; [done|rewrite length_app; cbn [length]; lia]].
  split; [by apply Forall_app|]. unfold splice. rewrite take_app_length. eexists. rewrite <- !app_assoc. cbn [app]. reflexivity.
Qed.

Lemma same_strings s : forall t q r, Forall (fun c => c <> 0) s -> Forall (fun c => c <> 0) t ->
  str_same (s ++ 0 :: q) (t ++ 0 :: r) = Ok (bool_decide (s = t)).
Proof.
  induction s as [|c s IH]; intros [|d t] q r Hs Ht; cbn [app str_same]; try done.
  - inversion Ht; subst. destruct (Z.eqb_spec 0 d); [congruence|]. by rewrite bool_decide_eq_false_2.
  - inversion Hs; subst. destruct (Z.eqb_spec c 0); [done|]. by rewrite bool_decide_eq_false_2.
  - inversion Hs; inversion Ht; subst. destruct (Z.eqb_spec c d) as [->|]; [|rewrite bool_decide_eq_false_2; [done|congruence]].
    destruct (Z.eqb_spec d 0); [done|]. rewrite IH by done. f_equal. apply bool_decide_ext. split; [by intros ->|by intros [= ->]].
Qed.

(** The last slash of a path whose last name is [n]. *)
Lemma str_rchr_free n c : forall k last r, Forall (fun x => x <> 0) n -> free_of c n -> str_rchr (n ++ 0 :: r) c k last = Ok last.
Proof.
  induction n as [|x n IH]; intros k last r Hn Hc; cbn [app str_rchr]; [done|].
  inversion Hn; inversion Hc; subst. destruct (Z.eqb_spec x 0); [done|]. destruct (Z.eqb_spec x c); [done|]. by apply IH.
Qed.
Lemma str_rchr_run s n c r : c <> 0 -> Forall (fun x => x <> 0) s -> Forall (fun x => x <> 0) n -> free_of c n ->
  str_rchr (s ++ c :: n ++ 0 :: r) c 0 None = Ok (Some (Z.of_nat (length s))).
Proof.
  intros Hc0 Hs Hn Hc. assert (forall k last, str_rchr (s ++ c :: n ++ 0 :: r) c k last = Ok (Some (k + Z.of_nat (length s)))) as E; [|apply E].
  induction Hs as [|x s Hx Hs IH]; intros k last; cbn [app str_rchr length].
  - destruct (Z.eqb_spec c 0); [done|]. rewrite Z.eqb_refl, str_rchr_free by done. do 2 f_equal. cbn. lia.
  - destruct (Z.eqb_spec x 0); [done|]. rewrite IH. do 2 f_equal. lia.
Qed.

(** A zero written into the string cuts it. *)
Lemma holds_cut buf s k : holds buf s -> (k <= length s)%nat -> exists buf', aset buf (Z.of_nat k) 0 = Ok buf' /\ holds buf' (take k s) /\ length buf' = length buf.
Proof.
  intros [Hs (r & ->)] Hk. rewrite aset_Ok by (rewrite length_app; cbn; lia). rewrite Nat2Z.id. eexists. split; [done|]. split; [|by rewrite length_insert].
  split; [by apply Forall_take|]. exists (drop (S k) (s ++ 0 :: r)). rewrite <- (take_drop_middle (s ++ 0 :: r) k (default 0 ((s ++ 0 :: r) !! k))) at 1.
  2:{ destruct (lookup_lt_is_Some_2 (s ++ 0 :: r) k) as [x Hx]; [rewrite length_app; cbn; lia|]. by rewrite Hx. }
  assert (length (take k (s ++ 0 :: r)) = k) as Hl by (rewrite length_take, length_app; cbn; lia).
  rewrite <- Hl at 1. rewrite <- (Nat.add_0_r (length _)), insert_app_r. rewrite take_app_le by lia. done.
Qed.

(** ** Canonical paths *)

Definition dots : list Z := [46].
Definition dotdots : list Z := [46; 46].

(** What a name does to the directories walked so far. *)
Definition canon_step (st : list (list Z)) (n : list Z) : list (list Z) :=
  if bool_decide (n = dotdots) then removelast st else if bool_decide (n = dots) then st else st ++ [n].
Definition canonical (p : list Z) : list (list Z) := foldl canon_step [] (components p).
(** The path of a list of names. *)
Definition flat (st : list (list Z)) : list Z := concat ((fun n => slash :: n) <$> st).
Definition render (st : list (list Z)) : list Z := match st with [] => [slash] | _ => flat st end.

(** Names as [path_parse] delivers them, with their terminating zero. *)
Definition plain (n : list Z) : Prop := n <> [] /\ Forall (fun c => c <> 0) n /\ free_of slash n /\ (length n < 16)%nat.

Lemma flat_app a b : flat (a ++ b) = flat a ++ flat b.
Proof. unfold flat. by rewrite fmap_app, concat_app. Qed.
Lemma flat_chars st : Forall plain st -> Forall (fun c => c <> 0) (flat st).
Proof.
  induction 1 as [|n st (_ & Hn & _) _ IH]; unfold flat in *; cbn [fmap list_fmap concat]; [constructor|]. apply Forall_app. split; [|done].
  constructor; [done|done].
Qed.
Lemma render_chars st : Forall plain st -> Forall (fun c => c <> 0) (render st).
Proof. intros Hst. destruct st; [repeat constructor; done|by apply flat_chars]. Qed.
Lemma render_slash st : Forall plain st -> render st = [slash] <-> st = [].
Proof.
  intros Hst. split; [|by intros ->]. destruct Hst as [|n st (Hn & _) _]; [done|]. unfold render, flat. cbn [fmap list_fmap concat app].
  intros [= E]. apply app_eq_nil in E as [-> _]. done.
Qed.

Lemma plain_step st n : Forall plain st -> plain n -> Forall plain (canon_step st n).
Proof.
  intros Hst Hn. unfold canon_step. repeat case_bool_decide; [|done|apply Forall_app; split; [done|by apply Forall_singleton]].
  apply Forall_forall. intros x Hx. rewrite Forall_forall in Hst. apply Hst. destruct st as [|y st _] using rev_ind; [done|].
  rewrite removelast_last in Hx. apply elem_of_app. by left.
Qed.

(** ".." *)
Lemma wash_up buf st : holds buf (render st) -> Forall plain st -> (2 <= length buf)%nat ->
  exists buf', (slash_ptr ← str_rchr buf slash 0 None;
     match slash_ptr with None => Fault | Some k => if k =? 0 then aset buf 1 0 else aset buf k 0 end) = Ok buf' /\
    holds buf' (render (removelast st)) /\ length buf' = length buf.
Proof.
  intros Hb Hst Hl. pose proof Hb as [Hc (r & Er)]. destruct st as [|n st _] using rev_ind.
  - rewrite Er. change (str_rchr (render [] ++ 0 :: r) slash 0 None) with (@Ok (option Z) (Some 0)). rewrite bind_Ok, <- Er. cbn [Z.eqb].
    destruct (holds_cut buf _ 1 Hb ltac:(cbn; lia)) as (b' & E & Hh & Hlen). exists b'. change (Z.of_nat 1) with 1 in E. by rewrite E.
  - rewrite removelast_last. apply Forall_app in Hst as [Hst [(Hn1 & Hn2 & Hn3 & _) _]%Forall_cons].
    assert (render (st ++ [n]) = flat st ++ slash :: n) as Ef.
    { transitivity (flat (st ++ [n])); [by destruct st|]. rewrite flat_app. unfold flat at 2. cbn. by rewrite app_nil_r. }
    rewrite Ef in Hb, Er. rewrite <- app_assoc in Er. cbn [app] in Er.
    assert (str_rchr buf slash 0 None = Ok (Some (Z.of_nat (length (flat st))))) as Es by (rewrite Er; apply str_rchr_run; done || by apply flat_chars).
    rewrite Es, bind_Ok.
    destruct st as [|m st].
    + cbn [flat length]. change (Z.of_nat (length (flat []))) with 0. cbn [Z.eqb]. destruct (holds_cut buf _ 1 Hb ltac:(cbn; lia)) as (b' & E & Hh & Hlen).
      exists b'. change (Z.of_nat 1) with 1 in E. by rewrite E.
    + destruct (Z.eqb_spec (Z.of_nat (length (flat (m :: st)))) 0) as [E0|_]; [unfold flat in E0; cbn in E0; lia|].
      destruct (holds_cut buf _ (length (flat (m :: st))) Hb ltac:(rewrite length_app; lia)) as (b' & E & Hh & Hlen). rewrite take_app_length in Hh.
      exists b'. by rewrite E.
Qed.

Lemma wash_name_run buf st n : holds buf (render st) -> Forall plain st -> plain n -> (length (flat st) + S (length n) + 2 <= length buf)%nat ->
  exists buf', wash_name (name_buf n) buf = Ok buf' /\ holds buf' (render (canon_step st n)) /\ length buf' = length buf.
Proof.
  intros Hb Hst Hn Hl. pose proof Hn as (Hn1 & Hn2 & Hn3 & Hn4). unfold wash_name, canon_step. rewrite name_buf_term by done.
  rewrite (same_strings dotdots n [] _) by first [done|by repeat constructor]. rewrite bind_Ok.
  rewrite (bool_decide_ext (dotdots = n) (n = dotdots)) by (split; congruence). case_bool_decide; [apply wash_up; [done|done|lia]|].
  rewrite (same_strings dots n [] _) by first [done|by repeat constructor]. rewrite bind_Ok.
  rewrite (bool_decide_ext (dots = n) (n = dots)) by (split; congruence). case_bool_decide; [by exists buf|].
  assert (str_same buf slash_str = Ok (bool_decide (st = []))) as Et.
  { destruct Hb as [Hc (r & ->)]. rewrite <- (bool_decide_ext _ _ (render_slash st Hst)). apply (same_strings (render st) [slash] r []); [done|repeat constructor; done]. }
  rewrite Et, bind_Ok. clear Et.
  assert (render (st ++ [n]) = flat st ++ slash :: n) as Ef.
  { transitivity (flat (st ++ [n])); [by destruct st|]. rewrite flat_app. unfold flat at 2. cbn. by rewrite app_nil_r. }
  rewrite Ef. case_bool_decide as Hst0.
  - subst st. rewrite bind_Ok. destruct (str_cat_run buf [slash] n (replicate (15 - length n) 0) Hb Hn2 ltac:(cbn in *; lia)) as (b' & E & Hh & Hlen).
    exists b'. by rewrite E.
  - assert (render st = flat st) as Er' by (by destruct st). rewrite Er' in Hb.
    destruct (str_cat_run buf (flat st) [slash] [] Hb ltac:(repeat constructor; done) ltac:(cbn; lia)) as (b1 & E1 & Hh1 & Hl1).
    change ([slash] ++ [0]) with slash_str in E1. rewrite E1, bind_Ok.
    destruct (str_cat_run b1 _ n (replicate (15 - length n) 0) Hh1 Hn2 ltac:(rewrite length_app; cbn; lia)) as (b2 & E2 & Hh2 & Hl2).
    exists b2. rewrite E2. split; [done|]. split; [by rewrite <- app_assoc in Hh2|congruence].
Qed.

Lemma flat_step st n : (length (flat (canon_step st n)) <= length (flat st) + S (length n))%nat.
Proof.
  unfold canon_step. repeat case_bool_decide; [|lia|].
  - destruct st as [|m st _] using rev_ind; [cbn; lia|]. rewrite removelast_last, flat_app, length_app. lia.
  - rewrite flat_app, length_app. unfold flat at 2. cbn. rewrite app_nil_r. cbn. lia.
Qed.

Lemma flat_cons n st : length (flat (n :: st)) = (S (length n) + length (flat st))%nat.
Proof. unfold flat. cbn. by rewrite length_app. Qed.

Lemma plain_head n : plain n -> exists c, aget (name_buf n) 0 = Ok c /\ c <> 0.
Proof. intros (H1 & H2 & _ & H4). apply name_head. repeat split; [done|done|lia]. Qed.

Lemma wash_loop_run ns : forall n q buf st fuel, components (default [] q) = ns -> Forall plain ns -> plain n -> Forall plain st ->
  holds buf (render st) -> (length (flat st) + length (flat (n :: ns)) + 2 <= length buf)%nat -> (length ns + 2 <= fuel)%nat ->
  exists buf', wash_loop fuel q (name_buf n) buf = Ok buf' /\ holds buf' (render (foldl canon_step st (n :: ns))) /\ length buf' = length buf.
Proof.
  induction ns as [|m ns IH]; intros n q buf st fuel Eq Hns Hn Hst Hb Hl Hf; (destruct fuel as [|fuel]; [cbn in Hf; lia|]); cbn [wash_loop];
    destruct (plain_head n Hn) as (c & Ec & Hc); rewrite Ec, bind_Ok; (destruct (Z.eqb_spec c 0); [done|]);
    rewrite flat_cons in Hl;
    destruct (wash_name_run buf st n Hb Hst Hn ltac:(lia)) as (b1 & E1 & Hh1 & Hl1); rewrite E1, bind_Ok; pose proof (next_name_run q) as Hq; rewrite Eq in Hq.
  - rewrite Hq, bind_Ok. destruct fuel as [|fuel]; [cbn in Hf; lia|]. cbn [wash_loop]. change (aget zero_name 0) with (Ok 0). rewrite bind_Ok, Z.eqb_refl.
    by exists b1.
  - inversion Hns as [|? ? Hm Hns']; subst. destruct Hq as (rest & Er & Ers); [destruct Hm as (_ & _ & _ & ?); lia|]. rewrite Er, bind_Ok.
    pose proof (flat_step st n). cbn [length] in *.
    destruct (IH m rest b1 (canon_step st n) fuel Ers Hns' Hm (plain_step _ _ Hst Hn) Hh1 ltac:(lia) ltac:(lia)) as (b2 & E2 & Hh2 & Hl2).
    exists b2. rewrite E2. split; [done|]. split; [done|congruence].
Qed.

(** A path whose names fit the buffer with their terminating zero. *)
Definition path_fits (p : list Z) : Prop := path_ok p /\ Forall (fun n => (length n < 16)%nat) (components p).

Lemma split_on_free sep p : forall cur, free_of sep cur -> Forall (free_of sep) (split_on sep cur p).
Proof.
  induction p as [|c p IH]; intros cur Hc; cbn [split_on].
  - destruct (length cur =? 0)%nat; by repeat constructor.
  - destruct (Z.eqb_spec c sep) as [->|Hne].
    + apply Forall_app. split; [destruct (length cur =? 0)%nat; by repeat constructor|]. apply IH. constructor.
    + apply IH. apply Forall_app. split; [done|]. by repeat constructor.
Qed.

Lemma components_plain p : path_fits p -> Forall plain (components p).
Proof.
  intros [Hp Hf]. pose proof (split_on_nonempty slash p []) as H1. pose proof (split_on_chars slash _ p Hp [] ltac:(constructor)) as H2.
  pose proof (split_on_free slash p [] ltac:(constructor)) as H3. fold (components p) in *. rewrite Forall_forall in *.
  intros n Hn. repeat split; auto.
Qed.

Lemma flat_length st : length (flat st) = sum_list ((fun n => S (length n)) <$> st).
Proof. induction st as [|n st IH]; unfold flat in *; cbn; [done|]. rewrite length_app, IH. done. Qed.

Lemma flat_components p : (length (flat (components (slash :: p))) <= S (length p))%nat.
Proof. rewrite flat_length. unfold components. cbn [split_on]. rewrite Z.eqb_refl. cbn [app length]. pose proof (split_on_size slash p []). cbn in *. lia. Qed.

(** [wash_path] computes canonical paths: for every absolute path with names
    of at most fifteen characters it stores the path of the names that remain
    when "." is dropped and ".." takes back the name in front of it, whatever
    the destination held; the result needs no more room than the path. *)
Lemma wash_path_run p buf : path_fits (slash :: p) -> (length p + 3 <= length buf)%nat ->
  exists buf', wash_path (slash :: p) buf = Ok buf' /\ holds buf' (render (canonical (slash :: p))) /\ length buf' = length buf.
Proof.
  intros Hp Hl. unfold wash_path, canonical. rewrite Z.eqb_refl, ASSERT_true, bind_Ok. pose proof (components_plain _ Hp) as Hc. pose proof (flat_components p) as Hfl.
  pose proof (components_length (slash :: p)) as Hcl. pose proof (path_parse_run (slash :: p) zero_name eq_refl) as Hr. destruct (components (slash :: p)) as [|n ns] eqn:Ec.
  - rewrite Hr, bind_Ok. change (aget zero_name 0) with (Ok 0). rewrite bind_Ok, Z.eqb_refl.
    destruct buf as [|x [|y buf]]; [cbn in Hl; lia..|]. eexists. split; [reflexivity|]. split; [|done]. split; [repeat constructor; done|]. by exists buf.
  - inversion Hc as [|? ? Hn Hns]; subst. destruct Hr as (rest & -> & Er & _); [destruct Hn as (_ & _ & _ & ?); lia|]. rewrite bind_Ok.
    rewrite name_buf_zero by (destruct Hn as (_ & _ & _ & ?); lia). destruct (plain_head n Hn) as (c & Ec' & Hc0). rewrite Ec', bind_Ok.
    destruct (Z.eqb_spec c 0); [done|]. destruct buf as [|x buf]; [cbn in Hl; lia|]. change (aset (x :: buf) 0 0) with (Ok (0 :: buf)). rewrite bind_Ok.
    destruct (str_cat_run (0 :: buf) [] [slash] []) as (b1 & E1 & Hh1 & Hl1); [split; [constructor|by exists buf]|repeat constructor; done|cbn in *; lia|].
    change ([slash] ++ [0]) with slash_str in E1. rewrite E1, bind_Ok.
    destruct (wash_loop_run ns n rest b1 [] (S (S (length (slash :: p)))) Er Hns Hn (Forall_nil_2 _) Hh1) as (b2 & E2 & Hh2 & Hl2).
    { change (length (flat [])) with 0%nat. cbn [length] in *. lia. }
    { cbn [length] in *. lia. }
    exists b2. rewrite E2. split; [done|]. split; [done|]. cbn in *; congruence.
Qed.

(** The names of a rendered path are its names. *)
Lemma components_flat st : Forall plain st -> components (flat st) = st.
Proof.
  induction 1 as [|n st (Hn1 & _ & Hn3 & _) _ IH]; [done|]. unfold flat. cbn [fmap list_fmap concat]. fold (flat st).
  unfold components in *. cbn [app split_on]. rewrite Z.eqb_refl. cbn [length app]. change ((0 =? 0)%nat) with true. cbn [app].
  rewrite split_on_word; [by rewrite IH|done|done|]. destruct st as [|m st]; [by left|right; unfold flat; cbn; eauto].
Qed.

Lemma components_render st : Forall plain st -> components (render st) = st.
Proof. intros Hst. destruct st; [done|by apply components_flat]. Qed.

Lemma canonical_plain ns : forall st, Forall plain ns -> Forall plain st -> Forall plain (foldl canon_step st ns).
Proof. induction ns as [|n ns IH]; intros st Hns Hst; [done|]. inversion Hns; subst. cbn. apply IH; [done|]. by apply plain_step. Qed.

Lemma canonical_no_dots ns : forall st, Forall (fun n => n <> dots /\ n <> dotdots) st -> Forall (fun n => n <> dots /\ n <> dotdots) (foldl canon_step st ns).
Proof.
  induction ns as [|n ns IH]; intros st Hst; cbn [foldl]; [done|]. apply IH. unfold canon_step. repeat case_bool_decide; [|done|].
  - apply Forall_forall. intros x Hx. rewrite Forall_forall in Hst. apply Hst. destruct st as [|y st _] using rev_ind; [done|].
    rewrite removelast_last in Hx. apply elem_of_app. by left.
  - apply Forall_app. split; [done|]. by apply Forall_singleton.
Qed.

(** The path [make_clear_abs_path] washes. *)
Definition absolute (cwd path : list Z) : list Z := if hd 0 path =? slash then path else if bool_decide (cwd = [slash]) then cwd ++ path else cwd ++ [slash] ++ path.

Lemma abs_path_run cwd path final : path_ok cwd -> path_ok path -> (length cwd + length path < 511)%nat ->
  make_clear_abs_path (Some cwd) path final = wash_path (absolute cwd path) final.
Proof.
  intros Hc Hp Hl. unfold make_clear_abs_path, absolute. set (z := replicate (Z.to_nat MAX_PATH_LEN) 0).
  assert (holds z []) as Hz by (split; [constructor|by exists (replicate 511 0)]). assert (length z = 512%nat) as Hzl by reflexivity. clearbody z.
  assert (forall b s, holds b s -> length b = 512%nat -> (length s + length path < 512)%nat ->
    (abs_path ← str_cat b (path ++ [0]); n ← str_len abs_path; wash_path (take n abs_path) final) = wash_path (s ++ path) final) as Hlast.
  { intros b s Hb Hbl Hs. destruct (str_cat_run b s path [] Hb Hp ltac:(lia)) as (b' & -> & [Hc' (r & ->)] & _). rewrite bind_Ok, str_len_run, bind_Ok by done.
    by rewrite take_app_length. }
  destruct (hd 0 path =? slash).
  - rewrite bind_Ok. apply (Hlast z []); [done|done|cbn; lia].
  - destruct (str_cat_run z [] cwd [] Hz Hc ltac:(cbn; lia)) as (b1 & -> & Hh1 & Hl1). cbn [app] in Hh1. rewrite !bind_Ok.
    assert (str_same b1 slash_str = Ok (bool_decide (cwd = [slash]))) as ->.
    { destruct Hh1 as [_ (r & ->)]. apply (same_strings cwd [slash] r []); [done|repeat constructor; done]. }
    rewrite bind_Ok. case_bool_decide; [rewrite bind_Ok; apply Hlast; [done|congruence|lia]|].
    destruct (str_cat_run b1 cwd [slash] [] Hh1 ltac:(repeat constructor; done) ltac:(cbn; lia)) as (b2 & E2 & Hh2 & Hl2). change ([slash] ++ [0]) with slash_str in E2.
    rewrite E2, bind_Ok, (app_assoc cwd). apply Hlast; [done|congruence|rewrite length_app; cbn; lia].
Qed.

Lemma absolute_components cwd path : components (absolute cwd path) = if hd 0 path =? slash then components path else components cwd ++ components path.
Proof.
  unfold absolute, components. destruct (hd 0 path =? slash); [done|]. case_bool_decide as Hw; [subst cwd; cbn [app split_on]; by rewrite Z.eqb_refl|].
  apply split_on_app.
Qed.

Lemma make_clear_abs_path_run cwd path final : path_fits cwd -> hd 0 cwd = slash -> path_fits path ->
  (length cwd + length path < 509)%nat -> length final = Z.to_nat MAX_PATH_LEN ->
  exists buf' p', make_clear_abs_path (Some cwd) path final = Ok buf' /\ holds buf' p' /\ length buf' = length final /\ hd 0 p' = slash /\
    components p' = foldl canon_step (if hd 0 path =? slash then [] else foldl canon_step [] (components cwd)) (components path) /\
    Forall (fun n => n <> dots /\ n <> dotdots) (components p').
Proof.
  intros [Hc Hcf] Hh [Hp Hpf] Hl Hfl. rewrite abs_path_run by (done || lia). pose proof (absolute_components cwd path) as Eab.
  assert (path_fits (absolute cwd path)) as Hab.
  { split; [|rewrite Eab; destruct (hd 0 path =? slash); [done|by apply Forall_app]]. unfold path_ok, absolute in *.
    destruct (hd 0 path =? slash); [done|]. case_bool_decide; rewrite ?Forall_app; [done|]. split; [done|]. split; [by repeat constructor|done]. }
  assert (exists q, absolute cwd path = slash :: q /\ (length q < 509)%nat) as (q & Eq & Hq).
  { unfold absolute. destruct (Z.eqb_spec (hd 0 path) slash) as [E|E]; [destruct path as [|c path]; [done|]; cbn in E; subst c; exists path; split; [done|cbn in *; lia]|].
    destruct cwd as [|c cwd]; [done|]. cbn in Hh. subst c. case_bool_decide; (eexists; split; [reflexivity|]); cbn in Hl |- *; rewrite ?length_app; cbn [length]; lia. }
  rewrite Eq in *. destruct (wash_path_run q final Hab) as (b & E & Hb & Hbl); [rewrite Hfl; change (Z.to_nat MAX_PATH_LEN) with 512%nat; lia|].
  pose proof (components_plain _ Hab) as Hpl. pose proof (canonical_plain _ [] Hpl (Forall_nil_2 _)) as Hcp. fold (canonical (slash :: q)) in Hcp.
  exists b, (render (canonical (slash :: q))). split; [done|]. split; [done|]. split; [exact Hbl|]. split; [by destruct (canonical (slash :: q))|].
  rewrite components_render by done. split; [|apply canonical_no_dots, Forall_nil_2]. unfold canonical. rewrite Eab.
  destruct (hd 0 path =? slash); [done|]. by rewrite foldl_app.
Qed.

(** [make_clear_abs_path] resolves what a user types: an absolute path by
    itself, any other against the working directory; the result is absolute,
    has no "." or ".." in it, and its names are those of walking the path name
    by name from the working directory. *)
Theorem make_clear_abs_path_resolves cwd path final : path_fits cwd -> hd 0 cwd = slash -> path_fits path ->
  (length cwd + length path < 509)%nat -> length final = Z.to_nat MAX_PATH_LEN ->
  exists buf' p', make_clear_abs_path (Some cwd) path final = Ok buf' /\ holds buf' p' /\ hd 0 p' = slash /\
    components p' = foldl canon_step (if hd 0 path =? slash then [] else foldl canon_step [] (components cwd)) (components path) /\
    Forall (fun n => n <> dots /\ n <> dotdots) (components p').
Proof.
  intros H1 H2 H3 H4 H5. destruct (make_clear_abs_path_run cwd path final H1 H2 H3 H4 H5) as (b & p & E & Hh & _ & R). by exists b, p.
Qed.

(** ** Words of a command line *)

Lemma aget_middle {A} (pre : list A) x post : aget (pre ++ x :: post) (Z.of_nat (length pre)) = Ok x.
Proof. apply aget_Ok; [lia|]. by rewrite Nat2Z.id, list_lookup_middle. Qed.

Lemma skip_token_run k : forall fuel pre c post token, c <> token -> (k < fuel)%nat ->
  skip_token fuel (pre ++ replicate k token ++ c :: post) (Z.of_nat (length pre)) token = Ok (Z.of_nat (length pre + k)).
Proof.
  induction k as [|k IH]; intros fuel pre c post token Hc Hf; (destruct fuel as [|fuel]; [lia|]); cbn [skip_token replicate app]; rewrite aget_middle, bind_Ok.
  - destruct (Z.eqb_spec c token); [done|]. by rewrite Nat.add_0_r.
  - rewrite Z.eqb_refl. replace (Z.of_nat (length pre) + 1) with (Z.of_nat (length (pre ++ [token]))) by (rewrite length_app; cbn; lia).
    rewrite cons_middle, app_assoc, IH by (done || lia). rewrite length_app. cbn [length]. do 2 f_equal. lia.
Qed.

Lemma word_end_run w : forall fuel pre c post token, Forall (fun x => x <> 0) w -> free_of token w -> c = 0 \/ c = token -> (length w < fuel)%nat ->
  word_end fuel (pre ++ w ++ c :: post) (Z.of_nat (length pre)) token = Ok (Z.of_nat (length pre + length w)).
Proof.
  induction w as [|x w IH]; intros fuel pre c post token Hz Hw Hc Hf; (destruct fuel as [|fuel]; [lia|]); cbn [word_end app]; rewrite aget_middle, bind_Ok.
  - rewrite Nat.add_0_r. destruct (Z.eqb_spec c 0), (Z.eqb_spec c token); done || lia.
  - inversion Hz; inversion Hw; subst. destruct (Z.eqb_spec x 0); [done|]. destruct (Z.eqb_spec x token); [done|]. cbn [orb].
    replace (Z.of_nat (length pre) + 1) with (Z.of_nat (length (pre ++ [x]))) by (rewrite length_app; cbn; lia). cbn [length] in Hf.
    rewrite cons_middle, app_assoc, IH by (done || lia). rewrite length_app. cbn [length]. do 2 f_equal. lia.
Qed.

(** A line is tokens, a word, and the rest from the next token on. *)
Lemma line_cut token s : exists k, s = replicate k token \/
  exists w r, s = replicate k token ++ w ++ r /\ w <> [] /\ free_of token w /\ at_cut token r.
Proof.
  induction s as [|c s (k & [->|(w & r & -> & Hw)])]; [exists 0%nat; by left| |].
  - destruct (Z.eq_dec c token) as [->|Hc]; [exists (S k); by left|]. exists 0%nat. right. exists [c], (replicate k token).
    repeat split; [done|by apply Forall_singleton|]. destruct k; [by left|right; cbn; eauto].
  - destruct (Z.eq_dec c token) as [->|Hc]; [exists (S k); right; by exists w, r|]. exists 0%nat. right.
    destruct (split_cut token (replicate k token ++ w ++ r)) as (w' & r' & -> & Hw' & Hr'). exists (c :: w'), r'. repeat split; [done|by constructor|done].
Qed.

Lemma split_on_tokens token k s : split_on token [] (replicate k token ++ s) = split_on token [] s.
Proof. induction k as [|k IH]; cbn [replicate app split_on]; [done|]. by rewrite Z.eqb_refl. Qed.

(** The word [w] with its zero stands at [off]. *)
Definition word_at_off (buf : list Z) (off : Z) (w : list Z) : Prop := 0 <= off /\ slice (Z.to_nat off) (S (length w)) buf = w ++ [0].

Lemma word_off_app l w r : word_at_off (l ++ w ++ 0 :: r) (Z.of_nat (length l)) w.
Proof. split; [lia|]. unfold slice. rewrite Nat2Z.id, drop_app_length, cons_middle, app_assoc. by rewrite take_app_length' by (rewrite length_app; cbn; lia). Qed.

(** What [parse_loop] leaves in [argv]: the words from place [argc] on. *)
Record parsed (argv argv' : list (option Z)) (buf' : list Z) (argc : nat) (ws : list (list Z)) : Prop := {
  pa_len : length argv' = length argv;
  pa_words j w : ws !! j = Some w -> exists off, argv' !! (argc + j)%nat = Some (Some off) /\ word_at_off buf' off w;
  pa_rest i : (i < argc \/ argc + length ws <= i)%nat -> argv' !! i = argv !! i
}.

(** The tail of [parse_loop] behind a word that was put into [argv]. *)
Lemma parsed_cons argv argv' buf' argc w ws off : (argc < length argv)%nat -> parsed (<[argc := Some off]> argv) argv' buf' (S argc) ws ->
  word_at_off buf' off w -> parsed argv argv' buf' argc (w :: ws).
Proof.
  intros Ha [P1 P2 P3] Hw. rewrite length_insert in P1. split; [done| |].
  - intros [|j] w' E; [|rewrite Nat.add_succ_r; by apply (P2 j)]. injection E as <-. exists off. split; [|done]. rewrite Nat.add_0_r, P3 by lia. by apply list_lookup_insert_eq.
  - intros i Hi. rewrite P3 by (cbn [length] in Hi; lia). apply list_lookup_insert_ne. cbn [length] in Hi. lia.
Qed.

(** One round of [parse_loop] that finds the word [w]. *)
Lemma parse_word fuel pre k w d post argv argc token : token <> 0 -> w <> [] -> Forall (fun c => c <> 0) w -> free_of token w -> d = 0 \/ d = token ->
  length argv = 16%nat -> (argc < 16)%nat ->
  parse_loop (S fuel) (pre ++ replicate k token ++ w ++ d :: post) argv (Z.of_nat (length pre)) (Z.of_nat argc) token =
    parse_loop fuel (pre ++ replicate k token ++ w ++ 0 :: post) (<[argc := Some (Z.of_nat (length pre + k))]> argv)
      (Z.of_nat (length pre + k + length w + (if d =? 0 then 0 else 1))) (Z.of_nat (S argc)) token.
Proof.
  intros Ht Hw Hz Hf Hd Hl Ha. destruct w as [|x w]; [done|]. inversion Hz as [|? ? Hx Hz']; inversion Hf as [|? ? Hxt Hf']; subst. cbn [parse_loop].
  set (buf := pre ++ replicate k token ++ (x :: w) ++ d :: post).
  assert (exists c, aget buf (Z.of_nat (length pre)) = Ok c /\ c <> 0) as (c & Ec & Hc).
  { destruct k as [|k]; [exists x|exists token]; (split; [apply aget_middle|done]). }
  rewrite Ec, bind_Ok. destruct (Z.eqb_spec c 0); [done|]. clear c Ec Hc n.
  assert (length buf = length pre + k + S (length w) + S (length post))%nat as Hlen by (unfold buf; rewrite !length_app, length_replicate; cbn [length]; lia).
  rewrite (skip_token_run k _ pre x (w ++ d :: post) token) by (done || lia). rewrite bind_Ok.
  set (P := pre ++ replicate k token). assert (length P = length pre + k)%nat as HP by (unfold P; by rewrite length_app, length_replicate).
  assert (buf = P ++ (x :: w) ++ d :: post) as Eb by (unfold buf, P; by rewrite <- app_assoc). rewrite <- HP, Eb. cbn [app]. rewrite aget_middle, bind_Ok.
  destruct (Z.eqb_spec x 0); [done|]. rewrite aset_Ok by lia. rewrite bind_Ok, Nat2Z.id.
  change (P ++ x :: w ++ d :: post) with (P ++ (x :: w) ++ d :: post). rewrite (word_end_run (x :: w) _ P d post token) by (done || (rewrite <- Eb, Hlen; cbn [length]; lia)). rewrite bind_Ok.
  assert (Z.of_nat (length P + length (x :: w)) = Z.of_nat (length (P ++ x :: w))) as Ep by (by rewrite length_app). rewrite Ep.
  assert (P ++ (x :: w) ++ d :: post = (P ++ x :: w) ++ d :: post) as Eb2 by (by rewrite <- app_assoc). rewrite Eb2, aget_middle, bind_Ok.
  assert ((MAX_ARG_NR <? Z.of_nat argc) = false) as Em by (unfold MAX_ARG_NR; lia).
  replace (Z.of_nat (S argc)) with (Z.of_nat argc + 1) by lia.
  assert (pre ++ replicate k token ++ (x :: w) ++ 0 :: post = (P ++ x :: w) ++ 0 :: post) as Eb3 by (unfold P; by rewrite <- !app_assoc).
  change (pre ++ replicate k token ++ x :: w ++ 0 :: post) with (pre ++ replicate k token ++ (x :: w) ++ 0 :: post). rewrite Eb3.
  destruct (Z.eqb_spec d 0) as [->|Hd0].
  - rewrite bind_Ok, Em. f_equal. rewrite length_app. lia.
  - rewrite aset_Ok by (rewrite !length_app; cbn [length]; lia). rewrite !bind_Ok, Em, Nat2Z.id.
    rewrite <- (Nat.add_0_r (length (P ++ x :: w))) at 1. rewrite insert_app_r. cbn [insert list_insert]. f_equal. rewrite length_app. lia.
Qed.

Lemma parse_loop_run n : forall s pre r argv argc fuel token, (length s <= n)%nat -> (length s < fuel)%nat -> token <> 0 -> Forall (fun c => c <> 0) s ->
  length argv = 16%nat -> (argc + length (split_on token [] s) <= 16)%nat ->
  exists s' argv', length s' = length s /\
    parse_loop fuel (pre ++ s ++ 0 :: r) argv (Z.of_nat (length pre)) (Z.of_nat argc) token =
      Ok (Z.of_nat (argc + length (split_on token [] s)), pre ++ s' ++ 0 :: r, argv') /\ parsed argv argv' (pre ++ s' ++ 0 :: r) argc (split_on token [] s).
Proof.
  induction n as [|n IH]; intros s pre r argv argc fuel token Hn Hf Ht Hs Hargv Hargc; (destruct fuel as [|fuel]; [lia|]).
  { destruct s as [|]; [|cbn in Hn; lia]. cbn [app parse_loop]. rewrite aget_middle, bind_Ok, Z.eqb_refl. exists [], argv. split; [done|]. cbn [split_on length].
    rewrite Nat.add_0_r. split; [done|]. split; [done|done|done]. }
  destruct (line_cut token s) as (k & [->|(w & t & -> & Hw1 & Hw2 & Ht')]).
  - assert (split_on token [] (replicate k token) = []) as E0 by (rewrite <- (app_nil_r (replicate k token)), split_on_tokens; done). rewrite E0. cbn [length].
    rewrite Nat.add_0_r. exists (replicate k token), argv. split; [done|]. split; [|split; done]. cbn [parse_loop].
    destruct k as [|k]; [cbn [replicate app]; by rewrite aget_middle, bind_Ok, Z.eqb_refl|].
    cbn [replicate app]. rewrite aget_middle, bind_Ok. destruct (Z.eqb_spec token 0); [done|].
    rewrite (skip_token_run (S k) _ pre 0 r token) by (done || (rewrite !length_app, !length_cons, length_app, length_replicate; lia)). rewrite bind_Ok.
    assert (pre ++ token :: replicate k token ++ 0 :: r = (pre ++ replicate (S k) token) ++ 0 :: r) as Ea by (by rewrite <- app_assoc).
    assert (Z.of_nat (length pre + S k) = Z.of_nat (length (pre ++ replicate (S k) token))) as En by (by rewrite length_app, length_replicate).
    rewrite Ea, En, aget_middle, bind_Ok, Z.eqb_refl. done.
  - rewrite split_on_tokens, split_on_word in * by done. cbn [length] in Hargc. rewrite !length_app, length_replicate in Hn, Hf.
    apply Forall_app in Hs as [_ [Hwz Htz]%Forall_app]. assert (0 < length w)%nat by (destruct w; [done|cbn; lia]).
    set (P := pre ++ replicate k token). assert (length P = length pre + k)%nat as HP by (unfold P; by rewrite length_app, length_replicate).
    destruct Ht' as [->|(t' & ->)].
    + cbn [app split_on length]. rewrite <- !app_assoc. cbn [app]. rewrite parse_word by (done || lia || by left). change (0 =? 0) with true. cbn iota.
      destruct fuel as [|fuel]; [cbn in Hf; lia|]. cbn [parse_loop].
      assert (pre ++ replicate k token ++ w ++ 0 :: r = (P ++ w) ++ 0 :: r) as Eb by (unfold P; by rewrite <- !app_assoc).
      assert (aget (pre ++ replicate k token ++ w ++ 0 :: r) (Z.of_nat (length pre + k + length w + 0)) = Ok 0) as ->.
      { rewrite Eb. etransitivity; [|apply (aget_middle (P ++ w) 0 r)]. f_equal. rewrite length_app. lia. }
      rewrite bind_Ok, Z.eqb_refl. exists (replicate k token ++ w), (<[argc := Some (Z.of_nat (length pre + k))]> argv). rewrite <- !app_assoc.
      split; [by rewrite app_nil_r|]. split; [by rewrite Nat.add_1_r|].
      apply (parsed_cons _ _ _ argc w [] (Z.of_nat (length pre + k))); [lia|split; done|]. rewrite Eb, <- HP, <- app_assoc. apply word_off_app.
    + rewrite <- !app_assoc. cbn [app]. rewrite parse_word by (done || lia || by right). destruct (Z.eqb_spec token 0); [done|].
      assert (pre ++ replicate k token ++ w ++ 0 :: t' ++ 0 :: r = (P ++ w ++ [0]) ++ t' ++ 0 :: r) as Eb by (unfold P; by rewrite <- !app_assoc).
      rewrite Eb. cbn [split_on] in *. rewrite Z.eqb_refl in *. change (if (length [] =? 0)%nat then [] else [[]]) with (@nil (list Z)) in *. cbn [app] in *.
      destruct (IH t' (P ++ w ++ [0]) r (<[argc := Some (Z.of_nat (length pre + k))]> argv) (S argc) fuel token) as (b' & argv' & El & E & Hp);
        [cbn [length] in *; lia|cbn [length] in *; lia|done|by inversion Htz|by rewrite length_insert|lia|].
      replace (Z.of_nat (length pre + k + length w + 1)) with (Z.of_nat (length (P ++ w ++ [0]))) by (rewrite !length_app; cbn; lia).
      exists (replicate k token ++ w ++ [0] ++ b'), argv'. split; [rewrite !length_app; cbn [length]; lia|].
      assert ((P ++ w ++ [0]) ++ b' ++ 0 :: r = pre ++ (replicate k token ++ w ++ [0] ++ b') ++ 0 :: r) as Eb' by (unfold P; by rewrite <- !app_assoc).
      rewrite <- Eb'. cbn [length]. split; [rewrite E, Nat.add_succ_r; reflexivity|].
      eapply parsed_cons; [lia|exact Hp|]. rewrite <- HP, <- !app_assoc. cbn [app]. apply word_off_app.
Qed.

(** [cmd_parse] cuts a command line of at most sixteen words into its words:
    it returns their number, [argv] points to each of them, followed by a zero,
    in order, and the other places of [argv] are NULL. *)
Theorem cmd_parse_words line r token : token <> 0 -> Forall (fun c => c <> 0) line -> (length (split_on token [] line) <= 16)%nat ->
  exists buf' argv', cmd_parse (line ++ 0 :: r) token = Ok (Z.of_nat (length (split_on token [] line)), buf', argv') /\ length argv' = 16%nat /\
    (forall j w, split_on token [] line !! j = Some w -> exists off, argv' !! j = Some (Some off) /\ word_at_off buf' off w) /\
    (forall j, (length (split_on token [] line) <= j < 16)%nat -> argv' !! j = Some None).
Proof.
  intros Ht Hl Hn. destruct (parse_loop_run (length line) line [] r (replicate 16 None) 0 (S (length (line ++ 0 :: r))) token) as (b & argv' & _ & E & [P1 P2 P3]); try done.
  { rewrite length_app. lia. }
  exists (b ++ 0 :: r), argv'. split; [exact E|]. split; [done|]. split; [exact P2|]. intros j Hj. rewrite P3 by lia. apply lookup_replicate_2. lia.
Qed.

(** Seventeen words: the seventeenth is stored behind the end of [argv], in
    front of the test that should prevent it. *)
Theorem cmd_parse_overruns_argv : cmd_parse (concat (replicate 17 [97; 32]) ++ [0]) 32 = Fault.
Proof. vm_compute. reflexivity. Qed.

(** ** Editing a line *)

(** The line a user has typed: the reference definition.  [None] when it never
    ends or grows to [n] characters. *)
Fixpoint edit (n : nat) (line keys : list Z) : option (list Z * list Z) :=
  match keys with
  | [] => None
  | c :: keys' =>
      if (n <=? length line)%nat then None
      else if (c =? 10) || (c =? 13) then Some (line, keys')
      else if c =? 8 then edit n (removelast line) keys'
      else if c =? 11 then edit n line keys'
      else if c =? 20 then edit n [] keys'
      else edit n (line ++ [c]) keys'
  end.

Lemma clear_line_run k : forall buf, (k < length buf)%nat -> exists buf', clear_line k buf = Ok buf' /\ length buf' = length buf.
Proof.
  induction k as [|k IH]; intros buf Hk; cbn [clear_line]; [by exists buf|]. rewrite aset_Ok, bind_Ok by lia.
  destruct (IH (<[Z.to_nat (Z.of_nat (S k)) := 0]> buf)) as (b & E & Hl); [rewrite length_insert; lia|]. exists b. rewrite E. split; [done|]. by rewrite Hl, length_insert.
Qed.

(** A zero behind the line makes it the string of the buffer. *)
Lemma put_zero buf line : take (length line) buf = line -> (length line < length buf)%nat -> Forall (fun c => c <> 0) line ->
  exists buf', aset buf (Z.of_nat (length line)) 0 = Ok buf' /\ holds buf' line /\ length buf' = length buf /\ take (length line) buf' = line.
Proof.
  intros Hb Hl Hz. rewrite aset_Ok by lia. rewrite Nat2Z.id. eexists. split; [done|]. split; [|split; [by rewrite length_insert|by rewrite take_insert_ge by lia]].
  split; [done|]. exists (drop (S (length line)) buf). rewrite insert_take_drop by done. by rewrite Hb.
Qed.

(** The line typed so far stands in front of [pos]. *)
Lemma readline_loop_run keys : forall buf line res, take (length line) buf = line -> (length line <= length buf)%nat -> Forall (fun c => c <> 0 /\ c <> 8) line ->
  Forall (fun c => c <> 0) keys -> edit (length buf) line keys = Some res ->
  exists buf', readline_loop keys buf (Z.of_nat (length line)) (Z.of_nat (length buf)) = Ok (buf', snd res) /\ holds buf' (fst res).
Proof.
  induction keys as [|c keys IH]; intros buf line res Hb Hl Hline Hk E; cbn [edit readline_loop] in *; [done|].
  destruct (Nat.leb_spec (length buf) (length line)) as [|Hlt]; [done|]. inversion Hk as [|? ? Hc Hk']; subst.
  rewrite aset_Ok, bind_Ok by lia. rewrite Nat2Z.id. set (b1 := <[length line := c]> buf).
  assert (length b1 = length buf) as Hb1 by (unfold b1; by rewrite length_insert). assert (take (length line) b1 = line) as Ht1 by (unfold b1; by rewrite take_insert_ge by lia).
  destruct (Z.ltb_spec (Z.of_nat (length line)) (Z.of_nat (length buf))) as [_|]; [|lia]. rewrite <- Hb1 in E, Hlt |- *.
  assert (Forall (fun c => c <> 0) line) as Hz by (eapply Forall_impl; [exact Hline|]; by intros x [? _]).
  assert (Forall (fun c => c <> 8) line) as Hz8 by (eapply Forall_impl; [exact Hline|]; by intros x [_ ?]).
  destruct ((c =? 10) || (c =? 13)).
  { injection E as <-. destruct (put_zero b1 line Ht1 Hlt Hz) as (b2 & E2 & Hh & _). exists b2. by rewrite E2, bind_Ok. }
  destruct (Z.eqb_spec c 8) as [->|H8].
  { destruct line as [|x line _] using rev_ind.
    - assert (aget b1 0 = Ok 8) as -> by (apply aget_Ok; [lia|]; unfold b1; by rewrite list_lookup_insert_eq by (cbn in *; lia)).
      rewrite bind_Ok. change (negb (8 =? 8)) with false. cbn iota. apply (IH b1 [] res); [done|cbn; lia|done|done|done].
    - rewrite removelast_last in E. apply Forall_app in Hline as [Hline _]. assert (exists y l, line ++ [x] = y :: l /\ y <> 8) as (y & l & Ey & Hy).
      { destruct (line ++ [x]) as [|y l] eqn:Ey; [by destruct line|]. inversion Hz8; subst. by exists y, l. }
      assert (aget b1 0 = Ok y) as -> by (apply aget_Ok; [lia|]; change (Z.to_nat 0) with 0%nat; rewrite <- (lookup_take_lt b1 (length (line ++ [x])) 0) by (rewrite Ey; cbn; lia); by rewrite Ht1, Ey).
      rewrite bind_Ok. destruct (Z.eqb_spec y 8); [done|]. cbn [negb]. rewrite length_app in *. cbn [length] in *.
      replace (Z.of_nat (length line + 1) - 1) with (Z.of_nat (length line)) by lia.
      apply (IH b1 line res); [|lia|done|done|done]. rewrite <- (take_app_length line [x]) at 2. rewrite <- Ht1. rewrite take_take. f_equal. lia. }
  destruct (c =? 11).
  { destruct (put_zero b1 line Ht1 Hlt Hz) as (b2 & E2 & _ & Hl2 & Ht2). rewrite E2, bind_Ok, <- Hl2. rewrite <- Hl2 in E. apply (IH b2 line res); [done|lia|done|done|done]. }
  destruct (c =? 20).
  { destruct (clear_line_run (length line) b1 Hlt) as (b2 & -> & Hl2). rewrite bind_Ok, <- Hl2. rewrite <- Hl2 in E.
    by apply (IH b2 [] res); [|cbn; lia|constructor| |]. }
  replace (Z.of_nat (length line) + 1) with (Z.of_nat (length (line ++ [c]))) by (rewrite length_app; cbn; lia).
  apply (IH b1 (line ++ [c]) res); [|rewrite length_app; cbn; lia| |done|done].
  - rewrite length_app. cbn [length]. rewrite Nat.add_1_r, (take_S_r _ _ c) by (unfold b1; apply list_lookup_insert_eq; lia). by rewrite Ht1.
  - apply Forall_app. split; [done|]. by apply Forall_singleton.
Qed.

(** [readline] is a line editor: from the keys the user types, backspace
    taking back the last character, ctrl-u the whole line and ctrl-l nothing, up
    to the enter key, it leaves the edited line as a string in the buffer and
    has read no key behind it. *)
Theorem readline_edits keys buf line rest : Forall (fun c => c <> 0) keys -> (0 < length buf)%nat ->
  edit (length buf) [] keys = Some (line, rest) ->
  exists buf', readline keys buf (Z.of_nat (length buf)) = Ok (buf', rest) /\ holds buf' line.
Proof.
  intros Hk Hl E. unfold readline. assert ((0 <? Z.of_nat (length buf)) = true) as -> by lia. rewrite ASSERT_true, bind_Ok.
  destruct (readline_loop_run keys buf [] (line, rest)) as (b & E' & Hh); [done|cbn; lia|constructor|done|done|]. exists b. split; [exact E'|exact Hh].
Qed.

(** A line that fills the buffer: the next key is stored behind its end. *)
Theorem readline_overruns_buffer : readline (replicate 513 97) (replicate 512 0) MAX_PATH_LEN = Fault.
Proof. vm_compute. reflexivity. Qed.

(** ** Witnesses *)

(** Keys "lss", backspace, " -l", enter, "x" on a buffer of 16 bytes. *)
Definition demo_keys : list Z := [108; 115; 115; 8; 32; 45; 108; 13; 120].

Lemma readline_edits_witness :
  exists buf', readline demo_keys (replicate 16 7) 16 = Ok (buf', [120]) /\ holds buf' [108; 115; 32; 45; 108].
Proof.
  apply (readline_edits demo_keys (replicate 16 7)).
  - repeat constructor; discriminate.
  - cbn. lia.
  - reflexivity.
Defined.

(** " ls  -l" *)
Definition demo_line : list Z := [32; 108; 115; 32; 32; 45; 108].

Lemma cmd_parse_words_witness :
  exists buf' argv', cmd_parse (demo_line ++ [0]) 32 = Ok (2, buf', argv') /\ length argv' = 16%nat /\
    (forall j w, [[108; 115]; [45; 108]] !! j = Some w -> exists off, argv' !! j = Some (Some off) /\ word_at_off buf' off w) /\
    (forall j, (2 <= j < 16)%nat -> argv' !! j = Some None).
Proof.
  apply (cmd_parse_words demo_line [] 32).
  - discriminate.
  - repeat constructor; discriminate.
  - cbn. lia.
Defined.

(** "../lib/./x" from "/usr/bin". *)
Lemma make_clear_abs_path_resolves_witness :
  exists buf' p', make_clear_abs_path (Some [47; 117; 115; 114; 47; 98; 105; 110]) [46; 46; 47; 108; 105; 98; 47; 46; 47; 120] (replicate 512 7) = Ok buf' /\
    holds buf' p' /\ hd 0 p' = slash /\ components p' = [[117; 115; 114]; [108; 105; 98]; [120]] /\ Forall (fun n => n <> dots /\ n <> dotdots) (components p').
Proof.
  apply (make_clear_abs_path_resolves [47; 117; 115; 114; 47; 98; 105; 110] [46; 46; 47; 108; 105; 98; 47; 46; 47; 120]).
  - split; [repeat constructor; discriminate|]. vm_compute. repeat constructor.
  - reflexivity.
  - split; [repeat constructor; discriminate|]. vm_compute. repeat constructor.
  - cbn. lia.
  - reflexivity.
Defined.
