(* ===== verification/Commands.v ===== *)
(** * Commands of the shell (shell/shell.c, shell/buildin_cmd.c)

    The built-in commands, the choice between them and a program on disk, and
    the loop of the shell with its pipelines.  The shell is a user program: its
    system calls are the classes [FileCalls] and [TaskCalls], with strings as
    values; the calls of
    the file system have an instance made of [Fs].  After [fork] the model
    follows the process that got the result.  The prompt and the echo of the
    keys, which are not written to a descriptor, are left out. *)

From S2P Require Import Prelude Bitmap Interrupt DList Disk Layout Inode Path Dir File DirSpec Fs CString Stdio Printf Sched Ps Shell.

(** ** What the shell uses of the system *)
Class FileCalls (K : Type) : Type := {
  getcwd : Z -> M K (option (list Z));
  chdir : list Z -> M K Z;
  stat_path : list Z -> M K (Z * option stat);
  opendir : list Z -> M K Z;
  readdir : Z -> M K (option dir_entry);
  rewinddir : Z -> M K ();
  closedir : Z -> M K Z;
  mkdir : list Z -> M K Z;
  rmdir : list Z -> M K Z;
  unlink : list Z -> M K Z;
  write : Z -> list Z -> M K Z;
  pipe : M K (Z * Z);
  fd_redirect : Z -> Z -> M K ();
  close : Z -> M K Z
}.
Class TaskCalls (K : Type) : Type := {
  ps : M K ();
  clear : M K ();
  help : M K ();
  fork : M K Z;
  wait : M K (Z * Z);
  execv : list Z -> list (option (list Z)) -> M K Z;
  exit : Z -> M K ()
}.

(** The calls of [Fs]; a directory entry is read where [sys_readdir] points.
    [stack1], [stack2] are what the stacks of the kernel hold.  When [pipe] fails
    the array of the shell keeps its initial values -1 and 0. *)
#[global] Instance fs_FileCalls {H} `{HE : Heap H} `{DE : !Devices H} (stack1 stack2 : list Z) : FileCalls (fs H) := {|
  getcwd := sys_getcwd;
  chdir := sys_chdir;
  stat_path := sys_stat;
  opendir := sys_opendir;
  readdir d := r ← sys_readdir d;
    match r with
    | None => mret None
    | Some off => x ← get_dir d; mret (Some (dir_entry_of_bytes (drop off (dir_buf x))))
    end;
  rewinddir := sys_rewinddir;
  closedir := sys_closedir;
  mkdir := sys_mkdir stack1 stack2;
  rmdir := sys_rmdir;
  unlink := sys_unlink;
  write fd l := sys_write fd l (Z.of_nat (length l));
  pipe := '(r, fds) ← sys_pipe; mret (nth 0 fds (-1), nth 1 fds 0);
  fd_redirect := sys_fd_redirect;
  close := sys_close
|}.

(** The buffers of shell.c, the keys that are still to be typed, and the system. *)
Record shell (K : Type) : Type := mk_shell {
  cmd_line : list Z; final_path : list Z; cwd_cache : list Z; keys : list Z; os : K
}.
Arguments mk_shell {K}. Arguments cmd_line {K}. Arguments final_path {K}. Arguments cwd_cache {K}.
Arguments keys {K}. Arguments os {K}.

Section Commands.
Context {K : Type} `{FC : FileCalls K} `{TC : TaskCalls K}.
#[local] Abbreviation shell := (shell K).

Definition set_line (l : list Z) (s : shell) : shell := mk_shell l (final_path s) (cwd_cache s) (keys s) (os s).
Definition set_final (l : list Z) (s : shell) : shell := mk_shell (cmd_line s) l (cwd_cache s) (keys s) (os s).
Definition set_cache (l : list Z) (s : shell) : shell := mk_shell (cmd_line s) (final_path s) l (keys s) (os s).
Definition set_keys (l : list Z) (s : shell) : shell := mk_shell (cmd_line s) (final_path s) (cwd_cache s) l (os s).

(** A system call. *)
Definition sys {A} (c : M K A) : M shell A := fun s =>
  match c (os s) with
  | Ok (a, k) => Ok (a, mk_shell (cmd_line s) (final_path s) (cwd_cache s) (keys s) k)
  | Panic w => Panic w
  | Fault => Fault
  | NoFuel => NoFuel
  end.

Definition get_final : M shell (list Z) := fun s => Ok (final_path s, s).
Definition put_final (l : list Z) : M shell () := modS (set_final l).
Definition put_cache (l : list Z) : M shell () := modS (set_cache l).

(** [printf]: the text goes through a buffer of 1024 bytes to descriptor 1. *)
Definition printf (text : list Z) : M shell () :=
  if (length text <? 1024)%nat then _ ← sys (write 1 text); mret tt else faultM.

(** An argument, by its place; [NULL] and a place behind the array cannot be read. *)
Definition arg (argv : list (option (list Z))) (i : nat) : M shell (list Z) :=
  match argv !! i with Some (Some w) => mret w | _ => faultM end.

(** [make_clear_abs_path(path, final_path)]: the system call in it comes only
    with a path that is not absolute. *)
Definition resolve (path : list Z) : M shell () :=
  cwd ← (if hd 0 path =? slash then mret None else sys (getcwd MAX_PATH_LEN));
  buf ← get_final;
  buf ← liftO (make_clear_abs_path cwd path buf);
  put_final buf.

(** The string in [final_path]. *)
Definition final_str : M shell (list Z) := buf ← get_final; liftO (c_str buf).

(** A string put at the start of [final_path]. *)
Definition set_final_str (p : list Z) : M shell () :=
  buf ← get_final;
  if (length p <? length buf)%nat then put_final (p ++ 0 :: drop (S (length p)) buf) else faultM.

(** [if (NULL != getcwd(final_path, MAX_PATH_LEN))] *)
Definition cwd_to_final : M shell bool :=
  r ← sys (getcwd MAX_PATH_LEN);
  match r with None => mret false | Some p => _ ← set_final_str p; mret true end.

(** ** Built-in commands *)

Definition buildin_pwd (argc : Z) : M shell () :=
  if negb (argc =? 1) then printf (chars "pwd: no argument support!" ++ [10])
  else
    found ← cwd_to_final;
    if (found : bool) then p ← final_str; printf (p ++ [10])
    else printf (chars "pwd: get current work directory failed." ++ [10]).

(** [true]: a pointer to [final_path], [false]: NULL. *)
Definition buildin_cd (argc : Z) (argv : list (option (list Z))) : M shell bool :=
  if 2 <? argc then _ ← printf (chars "cd: only support 1 argument!" ++ [10]); mret false
  else
    _ ← (if argc =? 1 then set_final_str [slash] else a ← arg argv 1; resolve a);
    p ← final_str;
    r ← sys (chdir p);
    if r =? -1 then _ ← printf (chars "cd: no such directory " ++ p ++ [10]); mret false
    else mret true.

(** The options of [ls]: the long form, and a path.  [None]: the command has
    printed why it ends. *)
Fixpoint ls_args (n : nat) (args : list (option (list Z))) (long_info : bool) (pathname : option (list Z)) : M shell (option (bool * option (list Z))) :=
  match n with
  | O => mret (Some (long_info, pathname))
  | S n' =>
      match args with
      | Some a :: args =>
          if hd 0 a =? 45 then
            if bool_decide (a = chars "-l") then ls_args n' args true pathname
            else if bool_decide (a = chars "-h") then
              _ ← printf (chars "usage: -l list all infomation about the file." ++ 10 :: chars "-h for help" ++ 10 :: chars "list all files in the current dirctory if no option" ++ [10]);
              mret None
            else
              _ ← printf (chars "ls: invalid option " ++ a ++ 10 :: chars "Try `ls -h' for more information." ++ [10]);
              mret None
          else
            match pathname with
            | None => ls_args n' args long_info (Some a)
            | Some _ => _ ← printf (chars "ls: only support one path" ++ [10]); mret None
            end
      | _ => faultM
      end
  end.

Definition no_access (p : list Z) : list Z := chars "ls: cannot access " ++ p ++ chars ": No such file or directory" ++ [10].

(** The lines of the long form; [base] ends with a slash.  [false]: an entry
    could not be examined and the command returned in the middle. *)
Fixpoint ls_long (fuel : nat) (dir : Z) (base : list Z) : M shell bool :=
  match fuel with
  | O => fun _ => NoFuel
  | S fuel =>
      e ← sys (readdir dir);
      match e with
      | None => mret true
      | Some e =>
          let ftype := if f_type e =? FT_REGULAR then 45 else 100 in
          name ← liftO (c_str (filename e));
          sub ← liftO (cat_into MAX_PATH_LEN base name);
          '(r, st) ← sys (stat_path sub);
          if r =? -1 then _ ← printf (no_access name); mret false
          else
            let size := match st with Some st => st_size st | None => 0 end in
            _ ← printf (ftype :: chars "  " ++ signed_decimal (i32 (de_i_no e)) ++ chars "  " ++ signed_decimal (i32 size) ++ chars "  " ++ name ++ [10]);
            ls_long fuel dir base
      end
  end.

Fixpoint ls_short (fuel : nat) (dir : Z) : M shell () :=
  match fuel with
  | O => fun _ => NoFuel
  | S fuel =>
      e ← sys (readdir dir);
      match e with
      | None => mret tt
      | Some e => name ← liftO (c_str (filename e)); _ ← printf (name ++ [32]); ls_short fuel dir
      end
  end.

(** A directory: all entries, then [closedir]. *)
Definition ls_dir (fuel : nat) (long_info : bool) (pathname : list Z) (st : stat) : M shell () :=
  dir ← sys (opendir pathname);
  base ← liftO (if last pathname is Some 47 then cat_into MAX_PATH_LEN pathname [] else cat_into (MAX_PATH_LEN + 1) pathname [slash]);
  _ ← sys (rewinddir dir);
  if long_info then
    _ ← printf (chars "total: " ++ signed_decimal (i32 (st_size st)) ++ [10]);
    full ← ls_long fuel dir base;
    if (full : bool) then _ ← sys (closedir dir); mret tt else mret tt
  else
    _ ← ls_short fuel dir;
    _ ← printf [10];
    _ ← sys (closedir dir);
    mret tt.

Definition buildin_ls (fuel : nat) (argc : Z) (argv : list (option (list Z))) : M shell () :=
  opts ← ls_args (Z.to_nat (argc - 1)) (drop 1 argv) false None;
  match opts with
  | None => mret tt
  | Some (long_info, pathname) =>
      found ← match pathname with None => cwd_to_final | Some p => _ ← resolve p; mret true end;
      if negb found then printf (chars "ls: getcwd for default path failed" ++ [10])
      else
        p ← final_str;
        '(r, st) ← sys (stat_path p);
        match (if r =? -1 then None else st) with
        | None => printf (no_access p)
        | Some st =>
            if st_filetype st =? FT_DIRECTORY then ls_dir fuel long_info p st
            else if long_info then printf (45 :: chars "  " ++ signed_decimal (i32 (st_ino st)) ++ chars "  " ++ signed_decimal (i32 (st_size st)) ++ chars "  " ++ p ++ [10])
            else printf (p ++ [10])
        end
  end.

Definition buildin_ps (argc : Z) : M shell () :=
  if negb (argc =? 1) then printf (chars "ps: no argument support!" ++ [10]) else sys ps.

Definition buildin_clear (argc : Z) : M shell () :=
  if negb (argc =? 1) then printf (chars "clear: no argument support!" ++ [10]) else sys clear.

(** The shape of [mkdir], [rmdir] and [rm]: the root is left alone. *)
Definition on_path (argc : Z) (argv : list (option (list Z))) (usage failed : list Z) (tail : list Z) (call : list Z -> M K Z) : M shell Z :=
  if negb (argc =? 2) then _ ← printf usage; mret (-1)
  else
    a ← arg argv 1;
    _ ← resolve a;
    p ← final_str;
    if bool_decide (p = [slash]) then mret (-1)
    else
      r ← sys (call p);
      if r =? 0 then mret 0 else _ ← printf (failed ++ a ++ tail); mret (-1).

Definition buildin_mkdir (argc : Z) (argv : list (option (list Z))) : M shell Z :=
  on_path argc argv (chars "mkdir: only support 1 argument!" ++ [10]) (chars "mkdir: create directory ") (chars " failed." ++ [10]) mkdir.
Definition buildin_rmdir (argc : Z) (argv : list (option (list Z))) : M shell Z :=
  on_path argc argv (chars "rmdir: only support 1 argument!" ++ [10]) (chars "rmdir: remove ") (chars " failed." ++ [10]) rmdir.
Definition buildin_rm (argc : Z) (argv : list (option (list Z))) : M shell Z :=
  on_path argc argv (chars "rm: only support 1 argument!" ++ [10]) (chars "rm: delete ") (chars " failed." ++ [10]) unlink.

Definition buildin_help : M shell () := sys help.

(** ** Executing a command *)

(** The part of the child process: when [execv] fails it returns, and the child
    goes on as a second shell. *)
Definition run_child (argv : list (option (list Z))) : M shell () :=
  a ← arg argv 0;
  _ ← resolve a;
  p ← final_str;
  '(r, _) ← sys (stat_path p);
  if r =? -1 then
    _ ← printf (chars "my_shell: cannot access " ++ p ++ chars ": No such file or directory" ++ [10]);
    sys (exit (-1))
  else
    _ ← sys (execv p (<[0%nat := Some p]> argv));
    mret tt.

Definition run_external (argv : list (option (list Z))) : M shell () :=
  pid ← sys fork;
  if negb (pid =? 0) then
    '(child_pid, _) ← sys wait;
    if child_pid =? -1 then panicM "my_shell: no child" else mret tt
  else run_child argv.

Definition cmd_execute (fuel : nat) (argc : Z) (argv : list (option (list Z))) : M shell () :=
  match argv !! 0%nat with
  | None => faultM
  | Some None => panicM "strcmp: a != NULL && b != NULL"
  | Some (Some w) =>
      if bool_decide (w = chars "ls") then buildin_ls fuel argc argv
      else if bool_decide (w = chars "cd") then
        ok ← buildin_cd argc argv;
        if (ok : bool) then
          buf ← get_final;
          cache ← liftO (str_cat (replicate (Z.to_nat MAX_PATH_LEN) 0) buf);
          put_cache cache
        else mret tt
      else if bool_decide (w = chars "pwd") then buildin_pwd argc
      else if bool_decide (w = chars "ps") then buildin_ps argc
      else if bool_decide (w = chars "clear") then buildin_clear argc
      else if bool_decide (w = chars "mkdir") then _ ← buildin_mkdir argc argv; mret tt
      else if bool_decide (w = chars "rmdir") then _ ← buildin_rmdir argc argv; mret tt
      else if bool_decide (w = chars "rm") then _ ← buildin_rm argc argv; mret tt
      else if bool_decide (w = chars "help") then buildin_help
      else run_external argv
  end.

(** ** The loop *)

(** The words [argv] points at. *)
Fixpoint words_at (buf : list Z) (argv : list (option Z)) : outcome (list (option (list Z))) :=
  match argv with
  | [] => Ok []
  | None :: argv => ws ← words_at buf argv; Ok (None :: ws)
  | Some off :: argv => w ← c_str (drop (Z.to_nat off) buf); ws ← words_at buf argv; Ok (Some w :: ws)
  end.

(** [argc = cmd_parse(each_cmd, argv, ' ')] on the command at [off]. *)
Definition parse_at (off : nat) : M shell (Z * list (option (list Z))) :=
  s ← getS;
  '(argc, buf, argv) ← liftO (cmd_parse (drop off (cmd_line s)) 32);
  _ ← modS (set_line (take off (cmd_line s) ++ buf));
  ws ← liftO (words_at buf argv);
  mret (argc, ws).

(** [strchr(each_cmd, '|')]: the distance to the first bar. *)
Fixpoint bar_in (buf : list Z) (k : nat) : outcome (option nat) :=
  match buf with
  | [] => Fault
  | c :: buf => if c =? 0 then Ok None else if c =? 124 then Ok (Some k) else bar_in buf (S k)
  end.
Definition find_bar (off : nat) : M shell (option nat) := s ← getS; liftO (bar_in (drop off (cmd_line s)) off).

(** [*pipe_symbol = 0;] *)
Definition cut (p : nat) : M shell () :=
  s ← getS; l ← liftO (aset (cmd_line s) (Z.of_nat p) 0); modS (set_line l).

Section Line.
Variable execute : Z -> list (option (list Z)) -> M shell ().

Definition run_at (off : nat) : M shell () := '(argc, ws) ← parse_at off; execute argc ws.

(** The commands between the first bar and the last one; the result is where
    the last command begins. *)
Fixpoint middle (fuel : nat) (each_cmd : nat) : M shell nat :=
  match fuel with
  | O => fun _ => NoFuel
  | S fuel =>
      b ← find_bar each_cmd;
      match b with
      | None => mret each_cmd
      | Some p => _ ← cut p; _ ← run_at each_cmd; middle fuel (S p)
      end
  end.

Definition run_pipeline : M shell () :=
  '(fd0, fd1) ← sys pipe;
  _ ← sys (fd_redirect 1 fd1);
  b ← find_bar 0;
  match b with
  | None => faultM
  | Some p =>
      _ ← cut p;
      _ ← run_at 0;
      _ ← sys (fd_redirect 0 fd0);
      s ← getS;
      each_cmd ← middle (S (length (cmd_line s))) (S p);
      _ ← sys (fd_redirect 1 1);
      _ ← run_at each_cmd;
      _ ← sys (fd_redirect 0 0);
      _ ← sys (close fd0);
      _ ← sys (close fd1);
      mret tt
  end.

Definition run_line : M shell () :=
  b ← find_bar 0;
  match b with
  | Some _ => run_pipeline
  | None =>
      '(argc, ws) ← parse_at 0;
      if argc =? -1 then printf (chars "num of arguments exceed " ++ signed_decimal MAX_ARG_NR ++ [10])
      else execute argc ws
  end.
End Line.

(** One round of the loop of [my_shell]. *)
Definition my_shell_round (fuel : nat) : M shell () :=
  let zero := replicate (Z.to_nat MAX_PATH_LEN) 0 in
  _ ← put_final zero;
  s ← getS;
  '(buf, rest) ← liftO (readline (keys s) zero MAX_PATH_LEN);
  _ ← modS (fun s => set_keys rest (set_line buf s));
  c ← liftO (aget buf 0);
  if c =? 0 then mret tt else run_line (cmd_execute fuel).

Fixpoint my_shell_loop (rounds : nat) (fuel : nat) : M shell () :=
  match rounds with O => mret tt | S n => _ ← my_shell_round fuel; my_shell_loop n fuel end.
(** [n] commands of a session, from [cwd_cache[0] = '/'] on. *)
Definition my_shell (n fuel : nat) : M shell () :=
  s ← getS; l ← liftO (aset (cwd_cache s) 0 slash); _ ← put_cache l; my_shell_loop n fuel.

(** ** Commands do not look at the line *)

Definition rmap {A} (f : shell -> shell) (o : outcome (A * shell)) : outcome (A * shell) :=
  match o with Ok (a, s) => Ok (a, f s) | Panic w => Panic w | Fault => Fault | NoFuel => NoFuel end.

(** What [c] does is the same with any other contents of [cmd_line], which it
    leaves alone. *)
Definition blind {A} (c : M shell A) : Prop := forall l s, c (set_line l s) = rmap (set_line l) (c s).

Lemma blind_bind {A B} (c : M shell A) (f : A -> M shell B) : blind c -> (forall a, blind (f a)) -> blind (c ≫= f).
Proof. intros Hc Hf l s. unfold mbind, M_bind. rewrite Hc. destruct (c s) as [[a s']| | |]; cbn; [apply Hf|done..]. Qed.
Lemma blind_ret {A} (a : A) : blind (mret a).
Proof. done. Qed.
Lemma blind_fault {A} : blind (@faultM shell A).
Proof. done. Qed.
Lemma blind_panic {A} w : blind (@panicM shell A w).
Proof. done. Qed.
Lemma blind_nofuel {A} : blind (fun _ : shell => @NoFuel (A * shell)).
Proof. done. Qed.
Lemma blind_liftO {A} (o : outcome A) : blind (liftO o).
Proof. intros l s. by destruct o. Qed.
Lemma blind_sys {A} (c : M K A) : blind (sys c).
Proof. intros l s. unfold sys. cbn. by destruct (c (os s)) as [[]| | |]. Qed.
Lemma blind_get_final : blind get_final.
Proof. done. Qed.
Lemma blind_put_final l : blind (put_final l).
Proof. done. Qed.
Lemma blind_put_cache l : blind (put_cache l).
Proof. done. Qed.

Create HintDb blind.
#[local] Hint Resolve blind_ret blind_fault blind_panic blind_nofuel blind_liftO blind_sys blind_get_final blind_put_final blind_put_cache : blind.

Ltac blind :=
  repeat lazymatch goal with
  | |- forall _, _ => intros
  | |- blind (mbind _ _) => apply blind_bind
  | |- blind (match ?x with _ => _ end) => destruct x
  | |- blind _ => solve [auto 2 with blind]
  end.

Lemma blind_printf t : blind (printf t).
Proof. unfold printf. blind. Qed.
Lemma blind_arg argv i : blind (arg argv i).
Proof. unfold arg. blind. Qed.
Lemma blind_resolve p : blind (resolve p).
Proof. unfold resolve. blind. Qed.
Lemma blind_final_str : blind final_str.
Proof. unfold final_str. blind. Qed.
#[local] Hint Resolve blind_printf blind_arg blind_resolve blind_final_str : blind.
Lemma blind_set_final_str p : blind (set_final_str p).
Proof. unfold set_final_str. blind. Qed.
#[local] Hint Resolve blind_set_final_str : blind.
Lemma blind_cwd_to_final : blind cwd_to_final.
Proof. unfold cwd_to_final. blind. Qed.
#[local] Hint Resolve blind_cwd_to_final : blind.

Lemma blind_ls_args n : forall args l p, blind (ls_args n args l p).
Proof. induction n as [|n IH]; intros args l p; cbn [ls_args]; blind. Qed.
Lemma blind_ls_long fuel : forall dir base, blind (ls_long fuel dir base).
Proof. induction fuel as [|fuel IH]; intros dir base; cbn [ls_long]; blind. Qed.
Lemma blind_ls_short fuel : forall dir, blind (ls_short fuel dir).
Proof. induction fuel as [|fuel IH]; intros dir; cbn [ls_short]; blind. Qed.
#[local] Hint Resolve blind_ls_args blind_ls_long blind_ls_short : blind.
Lemma blind_ls fuel argc argv : blind (buildin_ls fuel argc argv).
Proof. unfold buildin_ls, ls_dir. blind. Qed.
Lemma blind_on_path argc argv u f t c : blind (on_path argc argv u f t c).
Proof. unfold on_path. blind. Qed.
#[local] Hint Resolve blind_ls blind_on_path : blind.

Lemma blind_execute fuel argc argv : blind (cmd_execute fuel argc argv).
Proof.
  unfold cmd_execute, buildin_cd, buildin_pwd, buildin_ps, buildin_clear, buildin_mkdir, buildin_rmdir, buildin_rm, buildin_help, run_external, run_child.
  blind.
Qed.

(** ** A line is its commands *)

(** [argv] with the words [ws]. *)
Definition padded (ws : list (list Z)) : list (option (list Z)) := (Some <$> ws) ++ replicate (16 - length ws) None.

Lemma c_str_word buf off w : Forall (fun c => c <> 0) w -> word_at_off buf off w -> c_str (drop (Z.to_nat off) buf) = Ok w.
Proof.
  intros Hw [_ Hs]. unfold slice in Hs. rewrite <- (take_drop (S (length w)) (drop (Z.to_nat off) buf)), Hs, <- app_assoc. cbn [app]. clear Hs.
  generalize (drop (S (length w)) (drop (Z.to_nat off) buf)) as r. intros r. induction Hw as [|c w Hc _ IH]; [done|]. cbn [app c_str]. destruct (Z.eqb_spec c 0); [done|]. by rewrite IH.
Qed.

Lemma words_at_run buf argv : forall res, length res = length argv ->
  (forall j off, argv !! j = Some (Some off) -> exists w, res !! j = Some (Some w) /\ c_str (drop (Z.to_nat off) buf) = Ok w) ->
  (forall j, argv !! j = Some None -> res !! j = Some None) -> words_at buf argv = Ok res.
Proof.
  induction argv as [|[off|] argv IH]; intros [|x res] Hl H1 H2; try done.
  - destruct (H1 0%nat off eq_refl) as (w & [= ->] & E). cbn [words_at]. rewrite E, bind_Ok. rewrite (IH res); [done|by injection Hl|intros j; apply (H1 (S j))|intros j; apply (H2 (S j))].
  - pose proof (H2 0%nat eq_refl) as [= ->]. cbn [words_at]. rewrite (IH res); [done|by injection Hl|intros j; apply (H1 (S j))|intros j; apply (H2 (S j))].
Qed.

(** A command in a line: characters that are not zero, and at most sixteen words. *)
Definition command (c : list Z) : Prop := Forall (fun x => x <> 0) c /\ (length (split_on 32 [] c) <= 16)%nat.

Lemma parse_command c r : command c -> exists c' argv, length c' = length c /\
  cmd_parse (c ++ 0 :: r) 32 = Ok (Z.of_nat (length (split_on 32 [] c)), c' ++ 0 :: r, argv) /\ words_at (c' ++ 0 :: r) argv = Ok (padded (split_on 32 [] c)).
Proof.
  intros [Hc Hn]. set (ws := split_on 32 [] c) in *.
  destruct (parse_loop_run (length c) c [] r (replicate 16 None) 0 (S (length (c ++ 0 :: r))) 32) as (c' & argv & Hl & E & [P1 P2 P3]); try done.
  { rewrite length_app. lia. }
  exists c', argv. split; [done|]. split; [exact E|]. fold ws in E, P2, P3.
  assert (Forall (Forall (fun x => x <> 0)) ws) as Hws by (by apply split_on_chars).
  rewrite length_replicate in P1.
  apply words_at_run; unfold padded.
  - rewrite length_app, length_fmap, length_replicate. lia.
  - intros j off Hj. destruct (decide (j < length ws)%nat) as [Hlt|Hge].
    + destruct (lookup_lt_is_Some_2 ws j Hlt) as [w Hw]. destruct (P2 j w Hw) as (off' & Ho & Hat). cbn in Ho. rewrite Hj in Ho. injection Ho as <-.
      exists w. rewrite lookup_app_l by (rewrite length_fmap; lia). rewrite list_lookup_fmap, Hw. split; [done|].
      apply c_str_word; [|done]. rewrite Forall_lookup in Hws. by eapply Hws.
    + rewrite P3 in Hj by lia. apply lookup_replicate in Hj as [Hj _]. done.
  - intros j Hj. assert (j < 16)%nat as Hj16 by (apply lookup_lt_Some in Hj; lia). destruct (decide (j < length ws)%nat) as [Hlt|Hge].
    + destruct (lookup_lt_is_Some_2 ws j Hlt) as [w Hw]. destruct (P2 j w Hw) as (off' & Ho & _). cbn in Ho. congruence.
    + rewrite lookup_app_r by (rewrite length_fmap; lia). rewrite length_fmap. apply lookup_replicate. split; [done|lia].
Qed.

Lemma parse_at_run pre c r : command c -> exists c', length c' = length c /\
  forall s, parse_at (length pre) (set_line (pre ++ c ++ 0 :: r) s) = Ok ((Z.of_nat (length (split_on 32 [] c)), padded (split_on 32 [] c)), set_line (pre ++ c' ++ 0 :: r) s).
Proof.
  intros Hc. destruct (parse_command c r Hc) as (c' & argv & Hl & E & Ew). exists c'. split; [done|]. intros s.
  unfold parse_at. rewrite getS_bind. cbn [cmd_line set_line]. rewrite drop_app_length, take_app_length, (liftO_bind _ _ _ _ E). cbn beta iota.
  rewrite modS_bind, (liftO_bind _ _ _ _ Ew). done.
Qed.

(** The command [c] by itself. *)
Definition run_words (execute : Z -> list (option (list Z)) -> M shell ()) (c : list Z) : M shell () :=
  let ws := split_on 32 [] c in execute (Z.of_nat (length ws)) (padded ws).

Fixpoint stages (execute : Z -> list (option (list Z)) -> M shell ()) (cs : list (list Z)) : M shell () :=
  match cs with [] => mret tt | c :: cs => _ ← run_words execute c; stages execute cs end.

(** A pipeline without its text: the first command writes to the pipe, the ones
    in between read from it and write to it, the last one reads from it and
    writes to the screen; then both ends are restored and closed. *)
Definition staged (execute : Z -> list (option (list Z)) -> M shell ()) (first : list Z) (mids : list (list Z)) (lastc : list Z) : M shell () :=
  '(fd0, fd1) ← sys pipe;
  _ ← sys (fd_redirect 1 fd1);
  _ ← run_words execute first;
  _ ← sys (fd_redirect 0 fd0);
  _ ← stages execute mids;
  _ ← sys (fd_redirect 1 1);
  _ ← run_words execute lastc;
  _ ← sys (fd_redirect 0 0);
  _ ← sys (close fd0);
  _ ← sys (close fd1);
  mret tt.

(** A step with the line beside a step without it. *)
Lemma step_line {A B} (c d : M shell A) (f g : A -> M shell B) l l' l'' s :
  c (set_line l s) = rmap (set_line l') (d s) -> (forall a s, f a (set_line l' s) = rmap (set_line l'') (g a s)) ->
  (c ≫= f) (set_line l s) = rmap (set_line l'') ((d ≫= g) s).
Proof. intros E Hf. unfold mbind, M_bind. rewrite E. destruct (d s) as [[a s']| | |]; cbn; [apply Hf|done..]. Qed.

Lemma bar_in_run c : forall k r, Forall (fun x => x <> 0 /\ x <> 124) c -> bar_in (c ++ 124 :: r) k = Ok (Some (k + length c)%nat) /\ bar_in (c ++ 0 :: r) k = Ok None.
Proof.
  induction c as [|x c IH]; intros k r H; cbn [app bar_in length]; [by rewrite Nat.add_0_r|].
  apply Forall_cons in H as [[H1 H2] H]. destruct (Z.eqb_spec x 0); [done|]. destruct (Z.eqb_spec x 124); [done|].
  destruct (IH (S k) r H) as [-> ->]. by rewrite Nat.add_succ_r.
Qed.

Lemma find_bar_run pre c r s : Forall (fun x => x <> 0 /\ x <> 124) c ->
  find_bar (length pre) (set_line (pre ++ c ++ 124 :: r) s) = Ok (Some (length pre + length c)%nat, set_line (pre ++ c ++ 124 :: r) s).
Proof.
  intros H. unfold find_bar. rewrite getS_bind. cbn [cmd_line set_line]. rewrite drop_app_length. unfold liftO. by rewrite (proj1 (bar_in_run c (length pre) r H)).
Qed.
Lemma find_bar_none pre c r s : Forall (fun x => x <> 0 /\ x <> 124) c ->
  find_bar (length pre) (set_line (pre ++ c ++ 0 :: r) s) = Ok (None, set_line (pre ++ c ++ 0 :: r) s).
Proof.
  intros H. unfold find_bar. rewrite getS_bind. cbn [cmd_line set_line]. rewrite drop_app_length. unfold liftO. by rewrite (proj2 (bar_in_run c (length pre) r H)).
Qed.
Lemma cut_run pre c r s : cut (length pre + length c) (set_line (pre ++ c ++ 124 :: r) s) = Ok (tt, set_line (pre ++ c ++ 0 :: r) s).
Proof.
  unfold cut. rewrite getS_bind. cbn [cmd_line set_line]. rewrite (liftO_bind _ (pre ++ c ++ 0 :: r)); [done|].
  rewrite aset_Ok by (rewrite !length_app; cbn; lia). rewrite Nat2Z.id, app_assoc. f_equal.
  rewrite <- length_app, <- (Nat.add_0_r (length (pre ++ c))), insert_app_r. by rewrite <- app_assoc.
Qed.

(** ** Pipelines *)

(** A command of a pipeline has no bar in it. *)
Definition stage (c : list Z) : Prop := command c /\ Forall (fun x => x <> 0 /\ x <> 124) c.

(** Commands, each with the bar behind it. *)
Definition barred (cs : list (list Z)) : list Z := concat ((fun c => c ++ [124]) <$> cs).

Section Pipeline.
Variable execute : Z -> list (option (list Z)) -> M shell ().
Hypothesis execute_blind : forall argc argv, blind (execute argc argv).

Lemma run_words_blind c : blind (run_words execute c).
Proof. apply execute_blind. Qed.

(** A command in its place in the line. *)
Lemma run_at_run pre c r : command c -> exists c', length c' = length c /\
  forall s, run_at execute (length pre) (set_line (pre ++ c ++ 0 :: r) s) = rmap (set_line (pre ++ c' ++ 0 :: r)) (run_words execute c s).
Proof.
  intros Hc. destruct (parse_at_run pre c r Hc) as (c' & Hl & E). exists c'. split; [done|]. intros s.
  unfold run_at. erewrite mbindM_Ok by apply E. cbn beta iota. apply execute_blind.
Qed.

(** A command whose bar has become a zero; behind it comes [r]. *)
Lemma run_stage pre c : command c -> forall r, exists pre', length pre' = (length pre + length c + 1)%nat /\
  forall s, run_at execute (length pre) (set_line (pre ++ c ++ 0 :: r) s) = rmap (set_line (pre' ++ r)) (run_words execute c s).
Proof.
  intros Hc r. destruct (run_at_run pre c r Hc) as (c' & Hl & E). exists (pre ++ c' ++ [0]). rewrite !length_app. cbn [length].
  split; [lia|]. intros s. rewrite <- !app_assoc. apply E.
Qed.

(** The same when the step computes a number the other one knows. *)
Lemma step_const {A B} (c : M shell A) (d : M shell ()) (f : A -> M shell B) (g : () -> M shell B) x l l' l'' s :
  c (set_line l s) = rmap (set_line l') ((_ ← d; mret x) s) -> (forall s, f x (set_line l' s) = rmap (set_line l'') (g tt s)) ->
  (c ≫= f) (set_line l s) = rmap (set_line l'') ((d ≫= g) s).
Proof. intros E Hf. unfold mbind, M_bind in *. rewrite E. destruct (d s) as [[[] s']| | |]; cbn; [apply Hf|done..]. Qed.

Lemma middle_run cs : forall pre lastc r fuel, Forall stage cs -> stage lastc -> (length cs < fuel)%nat ->
  exists pre', length pre' = (length pre + length (barred cs))%nat /\
  forall s, middle execute fuel (length pre) (set_line (pre ++ barred cs ++ lastc ++ 0 :: r) s)
    = rmap (set_line (pre' ++ lastc ++ 0 :: r)) ((_ ← stages execute cs; mret (length pre')) s).
Proof.
  induction cs as [|c cs IH]; intros pre lastc r [|fuel] Hcs Hl Hf; try (cbn in Hf; lia).
  - exists pre. split; [cbn; lia|]. intros s. cbn [middle barred fmap list_fmap concat app]. by rewrite (mbindM_Ok _ _ _ _ _ (find_bar_none pre lastc r s (proj2 Hl))).
  - apply Forall_cons in Hcs as [[Hc Hb] Hcs]. destruct (run_stage pre c Hc (barred cs ++ lastc ++ 0 :: r)) as (pre1 & Hl1 & E1).
    destruct (IH pre1 lastc r fuel Hcs Hl ltac:(cbn in Hf; lia)) as (pre2 & Hl2 & E2). exists pre2.
    assert (pre ++ barred (c :: cs) ++ lastc ++ 0 :: r = pre ++ c ++ 124 :: barred cs ++ lastc ++ 0 :: r) as ->.
    { unfold barred. cbn. by rewrite <- !app_assoc. }
    split; [rewrite Hl2, Hl1; unfold barred; cbn; rewrite !length_app; cbn; lia|]. intros s. cbn [stages middle].
    rewrite (mbindM_Ok _ _ _ _ _ (find_bar_run pre c _ s Hb)), (mbindM_Ok _ _ _ _ _ (cut_run pre c _ s)), mbindM_assoc.
    apply (step_line _ _ _ _ _ (pre1 ++ barred cs ++ lastc ++ 0 :: r)); [apply E1|]. intros [] s'.
    replace (S (length pre + length c)) with (length pre1) by lia. apply E2.
Qed.

Lemma barred_count mids : (length mids <= length (barred mids))%nat.
Proof. unfold barred. induction mids as [|c cs IH]; [done|]. cbn. rewrite !length_app. cbn. lia. Qed.

(** A line with bars runs as the sequence of its commands. *)
Lemma run_pipeline_run first mids lastc r : stage first -> Forall stage mids -> stage lastc ->
  exists buf, forall s, run_line execute (set_line (first ++ 124 :: barred mids ++ lastc ++ 0 :: r) s) = rmap (set_line buf) (staged execute first mids lastc s).
Proof.
  intros [Hf Hfb] Hm Hl. set (L1 := first ++ 124 :: barred mids ++ lastc ++ 0 :: r).
  destruct (run_stage [] first Hf (barred mids ++ lastc ++ 0 :: r)) as (pre1 & Hl1 & E1).
  set (L2 := pre1 ++ barred mids ++ lastc ++ 0 :: r). assert (length mids < S (length L2))%nat as Hn.
  { unfold L2. rewrite !length_app. pose proof (barred_count mids). lia. }
  destruct (middle_run mids pre1 lastc r (S (length L2)) Hm Hl Hn) as (pre2 & Hl2 & E2).
  destruct (run_at_run pre2 lastc r (proj1 Hl)) as (c' & Hl3 & E3). set (L3 := pre2 ++ lastc ++ 0 :: r). set (L4 := pre2 ++ c' ++ 0 :: r).
  exists L4. intros s. unfold run_line.
  assert (forall s, find_bar 0 (set_line L1 s) = Ok (Some (length first), set_line L1 s)) as Eb by (intros s0; apply (find_bar_run [] first), Hfb).
  rewrite (mbindM_Ok _ _ _ _ _ (Eb s)). unfold run_pipeline, staged.
  apply (step_line _ _ _ _ _ L1); [apply blind_sys|]. intros [fd0 fd1] s1. apply (step_line _ _ _ _ _ L1); [apply blind_sys|]. intros _ s2.
  rewrite (mbindM_Ok _ _ _ _ _ (Eb s2)), (mbindM_Ok _ _ _ _ _ (cut_run [] first (barred mids ++ lastc ++ 0 :: r) s2)).
  apply (step_line _ _ _ _ _ L2); [apply E1|]. intros _ s3. apply (step_line _ _ _ _ _ L2); [apply blind_sys|]. intros _ s4.
  rewrite getS_bind. cbn [cmd_line set_line]. replace (S (length first)) with (length pre1) by (cbn in Hl1; lia).
  apply (step_const _ _ _ _ (length pre2) _ L3); [apply E2|]. intros s5.
  apply (step_line _ _ _ _ _ L3); [apply blind_sys|]. intros _ s6. apply (step_line _ _ _ _ _ L4); [apply E3|]. intros _ s7.
  do 3 (apply (step_line _ _ _ _ _ L4); [apply blind_sys|]; intros ? ?). done.
Qed.
End Pipeline.


(** C26. A line with bars in it runs as its commands, in order: the shell makes a
    pipe, the first command runs with the pipe as its output, the others with the
    pipe as their input and all but the last with it as their output; in the end
    the standard descriptors are restored and both ends are closed.  Each command
    gets its words; what the line buffer holds in between has no influence. *)
Theorem pipeline_runs_stages fuel first mids lastc r s : stage first -> Forall stage mids -> stage lastc ->
  cmd_line s = first ++ 124 :: barred mids ++ lastc ++ 0 :: r ->
  exists buf, run_line (cmd_execute fuel) s = rmap (set_line buf) (staged (cmd_execute fuel) first mids lastc s).
Proof.
  intros Hf Hm Hl E. destruct (run_pipeline_run (cmd_execute fuel) (blind_execute fuel) first mids lastc r Hf Hm Hl) as (buf & R).
  exists buf. rewrite <- R, <- E. by destruct s.
Qed.

(** ** Changing the directory *)

Definition set_os (k : K) (s : shell) : shell := mk_shell (cmd_line s) (final_path s) (cwd_cache s) (keys s) k.

(** The directory a path is taken from; the system is asked for it when the
    path is not absolute. *)
Definition finds_cwd (path cwd : list Z) (k k1 : K) : Prop :=
  if hd 0 path =? slash then cwd = [slash] /\ k1 = k else getcwd MAX_PATH_LEN k = Ok (Some cwd, k1).

(** The absolute path without dots that [path] names from [cwd]. *)
Definition target (cwd path p : list Z) : Prop :=
  hd 0 p = slash /\
  components p = foldl canon_step (if hd 0 path =? slash then [] else foldl canon_step [] (components cwd)) (components path) /\
  Forall (fun n => n <> dots /\ n <> dotdots) (components p).

Lemma sys_run {A} (c : M K A) s a k : c (os s) = Ok (a, k) -> sys c s = Ok (a, set_os k s).
Proof. intros E. unfold sys. by rewrite E. Qed.

(** The first step may start from another state. *)
Lemma mbindM_head {S A B} (m m' : M S A) (f : A -> M S B) s s' : m s = m' s' -> (m ≫= f) s = (m' ≫= f) s'.
Proof. intros E. unfold mbind, M_bind. by rewrite E. Qed.

Lemma resolve_run path cwd s k1 : finds_cwd path cwd (os s) k1 -> path_fits cwd -> hd 0 cwd = slash -> path_fits path ->
  (length cwd + length path < 509)%nat -> length (final_path s) = Z.to_nat MAX_PATH_LEN ->
  exists buf p, resolve path s = Ok (tt, set_final buf (set_os k1 s)) /\ holds buf p /\ length buf = Z.to_nat MAX_PATH_LEN /\ target cwd path p.
Proof.
  intros Hc H1 H2 H3 H4 H5. destruct (make_clear_abs_path_run cwd path (final_path s) H1 H2 H3 H4 H5) as (buf & p & E & Hh & Hl & T).
  exists buf, p. split; [|split; [done|split; [congruence|exact T]]]. unfold resolve, finds_cwd in *.
  destruct (hd 0 path =? slash) eqn:Ea.
  - destruct Hc as [-> ->]. rewrite mret_bind. erewrite mbindM_Ok by reflexivity.
    rewrite (liftO_bind _ buf); [by destruct s|]. rewrite <- E. unfold make_clear_abs_path. by rewrite Ea.
  - rewrite (mbindM_Ok _ _ _ _ _ (sys_run _ s _ _ Hc)). erewrite mbindM_Ok by reflexivity. by rewrite (liftO_bind _ _ _ _ E).
Qed.

Lemma c_str_holds buf p : holds buf p -> c_str buf = Ok p.
Proof. intros [Hp (r & ->)]. induction Hp as [|c p Hc _ IH]; cbn; [done|]. destruct (Z.eqb_spec c 0); [done|]. by rewrite IH. Qed.

Definition no_directory (p : list Z) : list Z := chars "cd: no such directory " ++ p ++ [10].

(** [cd] with a path goes to the directory the path names: the system is
    asked to change to its absolute path without "." and ".."; when it does, the
    prompt shows that path, and when it does not, the shell says so and stays as
    it was. *)
Theorem cd_enters_directory fuel cwd path s k1 : finds_cwd path cwd (os s) k1 -> path_fits cwd -> hd 0 cwd = slash -> path_fits path ->
  (length cwd + length path < 509)%nat -> length (final_path s) = Z.to_nat MAX_PATH_LEN ->
  exists p, target cwd path p /\ forall rc k2, chdir p k1 = Ok (rc, k2) ->
    (rc <> -1 -> exists s', cmd_execute fuel 2 (padded [chars "cd"; path]) s = Ok (tt, s') /\ os s' = k2 /\ holds (cwd_cache s') p) /\
    (rc = -1 -> forall n k3, write 1 (no_directory p) k2 = Ok (n, k3) ->
      exists s', cmd_execute fuel 2 (padded [chars "cd"; path]) s = Ok (tt, s') /\ os s' = k3 /\ cwd_cache s' = cwd_cache s).
Proof.
  intros Hc H1 H2 H3 H4 H5. destruct (resolve_run path cwd s k1 Hc H1 H2 H3 H4 H5) as (buf & p & E & Hh & Hl & T).
  exists p. split; [exact T|]. intros rc k2 Ec. set (s1 := set_final buf (set_os k1 s)) in *.
  assert (buildin_cd 2 (padded [chars "cd"; path]) s =
    (if rc =? -1 then _ ← printf (no_directory p); mret false else mret true) (set_os k2 s1)) as Eb.
  { unfold buildin_cd. change (2 <? 2) with false. change (2 =? 1) with false. cbn iota. rewrite mbindM_assoc. erewrite mbindM_Ok by reflexivity.
    rewrite (mbindM_Ok _ _ _ _ _ E). fold s1. unfold final_str. rewrite mbindM_assoc. erewrite mbindM_Ok by reflexivity.
    cbn [final_path set_final s1]. rewrite (liftO_bind _ _ _ _ (c_str_holds buf p Hh)). by rewrite (mbindM_Ok _ _ _ _ _ (sys_run (chdir p) s1 _ _ Ec)). }
  assert (cmd_execute fuel 2 (padded [chars "cd"; path]) s = (ok ← (if rc =? -1 then _ ← printf (no_directory p); mret false else mret true);
    if (ok : bool) then buf ← get_final; cache ← liftO (str_cat (replicate (Z.to_nat MAX_PATH_LEN) 0) buf); put_cache cache else mret tt) (set_os k2 s1)) as Ee
    by (rewrite <- (mbindM_head _ _ _ _ _ Eb); reflexivity).
  rewrite Ee. destruct Hh as [Hp (r & ->)]. change (Z.to_nat MAX_PATH_LEN) with 512%nat in Hl. rewrite length_app in Hl. cbn [length] in Hl.
  destruct (Z.eqb_spec rc (-1)) as [->|Hne]; split; intros Hx; try done.
  - intros n k3 Ew. unfold printf. assert (length (no_directory p) < 1024)%nat as Hlen.
    { unfold no_directory. rewrite !length_app. change (length (chars "cd: no such directory ")) with 22%nat. cbn [length]. lia. }
    destruct (Nat.ltb_spec (length (no_directory p)) 1024); [|lia]. rewrite !mbindM_assoc. rewrite (mbindM_Ok _ _ _ _ _ (sys_run (write 1 (no_directory p)) (set_os k2 s1) _ _ Ew)).
    eexists. split; [reflexivity|]. done.
  - rewrite mret_bind. erewrite mbindM_Ok by reflexivity. cbn [final_path set_final set_os s1].
    destruct (str_cat_run (replicate (Z.to_nat MAX_PATH_LEN) 0) [] p r) as (b & Es & Hb & _); [by split; [constructor|exists (replicate 511 0)]|done|rewrite length_replicate; change (Z.to_nat MAX_PATH_LEN) with 512%nat; cbn [length]; lia|].
    rewrite (liftO_bind _ _ _ _ Es). eexists. split; [reflexivity|]. done.
Qed.


(** ** Against the intention *)

(** A line of blanks, or an empty command between bars, has no word: [argv[0]]
    is NULL and the comparison with "ls" stops the shell. *)
Lemma empty_command_panics fuel s : run_words (cmd_execute fuel) [32; 32] s = Panic "strcmp: a != NULL && b != NULL".
Proof. reflexivity. Qed.

(** The child of a command that cannot be executed comes back from
    [cmd_execute] like the parent and goes on reading commands. *)
Lemma failed_execv_leaves_second_shell path st s k1 k2 k3 n : path_fits path -> hd 0 path = slash -> (length path < 508)%nat ->
  length (final_path s) = Z.to_nat MAX_PATH_LEN -> fork (os s) = Ok (0, k1) ->
  (forall p, target [slash] path p -> stat_path p k1 = Ok (0, Some st, k2) /\ forall argv, execv p argv k2 = Ok (n, k3)) ->
  exists s', run_external (padded [path]) s = Ok (tt, s') /\ os s' = k3.
Proof.
  intros H1 H2 H3 H4 Ef Hx. unfold run_external. rewrite (mbindM_Ok _ _ _ _ _ (sys_run fork s _ _ Ef)). change (negb (0 =? 0)) with false. cbn iota.
  unfold run_child. erewrite mbindM_Ok by reflexivity.
  destruct (resolve_run path [slash] (set_os k1 s) k1) as (buf & p & E & Hh & _ & T); [unfold finds_cwd; by rewrite H2|by split; [repeat constructor|constructor]|done|done|cbn; lia|done|].
  rewrite (mbindM_Ok _ _ _ _ _ E). unfold final_str. rewrite mbindM_assoc. erewrite mbindM_Ok by reflexivity. cbn [final_path set_final].
  rewrite (liftO_bind _ _ _ _ (c_str_holds buf p Hh)). destruct (Hx p T) as [Es Ee].
  rewrite (mbindM_Ok _ _ _ _ _ (sys_run (stat_path p) (set_final buf (set_os k1 (set_os k1 s))) _ _ Es)). change (0 =? -1) with false. cbn iota.
  rewrite (mbindM_Ok _ _ _ _ _ (sys_run (execv p _) (set_os k2 (set_final buf (set_os k1 (set_os k1 s)))) _ _ (Ee _))). eexists. split; reflexivity.
Qed.

End Commands.

(** ** Witnesses: a system that keeps a record *)

(** Where descriptors 0 and 1 lead, and what was written where. *)
Record demo_sys : Type := mk_demo { d_in : Z; d_out : Z; d_log : list (Z * Z * list Z) }.

Definition say (l : list Z) : M demo_sys () := modS (fun k => mk_demo (d_in k) (d_out k) (d_log k ++ [(d_in k, d_out k, l)])).

#[local] Instance demo_FileCalls : FileCalls demo_sys := {|
  getcwd _ := mret (Some [slash; 104]); chdir p := _ ← say p; mret 0;
  stat_path _ := mret (-1, None); opendir _ := mret 0; readdir _ := mret None; rewinddir _ := mret tt; closedir _ := mret 0;
  mkdir _ := mret 0; rmdir _ := mret 0; unlink _ := mret 0;
  write _ l := _ ← say l; mret (Z.of_nat (length l));
  pipe := mret (3, 4);
  fd_redirect old new := modS (fun k => if old =? 0 then mk_demo new (d_out k) (d_log k) else mk_demo (d_in k) new (d_log k));
  close _ := mret 0
|}.
#[local] Instance demo_TaskCalls : TaskCalls demo_sys := {|
  ps := say (chars "ps"); clear := say (chars "clear"); help := say (chars "help");
  fork := mret 7; wait := mret (7, 0); execv _ _ := mret (-1); exit _ := mret tt
|}.

Definition demo_shell (line : list Z) : shell demo_sys :=
  mk_shell (line ++ replicate (512 - length line) 0) (replicate 512 0) (replicate 512 0) [] (mk_demo 0 1 []).

Lemma demo_stage c : forallb (fun x => negb (x =? 0) && negb (x =? 124)) c = true -> (length (split_on 32 [] c) <=? 16)%nat = true -> stage c.
Proof.
  intros H1 H2. assert (Forall (fun x => x <> 0 /\ x <> 124) c) as F.
  { apply Forall_forall. intros x Hx. apply forallb_forall with (x := x) in H1; [lia|by apply list_elem_of_In]. }
  split; [split|done]; [|by apply Nat.leb_le]. eapply Forall_impl; [exact F|]. by intros x [].
Qed.

(** "ps|help |clear" *)
Lemma pipeline_runs_stages_witness :
  exists buf, run_line (cmd_execute 9) (demo_shell (chars "ps|help |clear")) =
    rmap (set_line buf) (staged (cmd_execute 9) (chars "ps") [chars "help "] (chars "clear") (demo_shell (chars "ps|help |clear"))) /\
    match staged (cmd_execute 9) (chars "ps") [chars "help "] (chars "clear") (demo_shell (chars "ps|help |clear")) with
    | Ok (_, s) => os s = mk_demo 0 1 [(0, 4, chars "ps"); (3, 4, chars "help"); (3, 1, chars "clear")]
    | _ => False
    end.
Proof.
  destruct (pipeline_runs_stages 9 (chars "ps") [chars "help "] (chars "clear") (replicate 497 0) (demo_shell (chars "ps|help |clear"))) as (buf & E).
  - apply demo_stage; reflexivity.
  - constructor; [apply demo_stage; reflexivity|constructor].
  - apply demo_stage; reflexivity.
  - reflexivity.
  - exists buf. split; [exact E|]. vm_compute. reflexivity.
Defined.

Lemma cd_enters_directory_witness :
  exists p s', target [slash; 104] (chars "../a/.") p /\ cmd_execute 9 2 (padded [chars "cd"; chars "../a/."]) (demo_shell []) = Ok (tt, s') /\ holds (cwd_cache s') p.
Proof.
  destruct (cd_enters_directory 9 [slash; 104] (chars "../a/.") (demo_shell []) (mk_demo 0 1 [])) as (p & T & R).
  - reflexivity.
  - split; [repeat constructor; discriminate|]. repeat constructor.
  - reflexivity.
  - split; [repeat constructor; discriminate|]. repeat constructor.
  - cbn. lia.
  - reflexivity.
  - destruct (R 0 (mk_demo 0 1 [(0, 1, p)])) as [R1 _]; [reflexivity|]. destruct (R1 ltac:(discriminate)) as (s' & E & _ & Hw).
    exists p, s'. exact (conj T (conj E Hw)).
Defined.
