(* ===== verification/Session.v ===== *)
(** * Sessions: the shell on the file system

    The commands of [Commands] on the calls of [Fs], on a disk that [Format] has
    just formatted and mounted: every layer from the keys to the sectors runs. *)

From S2P Require Import Prelude Bitmap Interrupt DList Disk Layout Inode Path Dir File DirSpec Fs Format CString Stdio Printf Sched Ps Shell Commands.

(** A terminal that shows nothing, and no programs to run. *)
#[local] Instance quiet_devices : Devices bump := {|
  dev_get_page := mret 0xC0300000; dev_free_page _ := mret tt; dev_ioqueue_init _ := mret tt;
  dev_ring_write _ _ n := mret n; dev_ring_read _ _ := mret (0, []); dev_printk _ := mret tt; dev_getchar := mret 0
|}.
#[local] Instance no_programs : TaskCalls (fs bump) := {|
  ps := mret tt; clear := mret tt; help := mret tt; fork := mret (-1); wait := mret (-1, 0); execv _ _ := mret (-1); exit _ := mret tt
|}.

(** A blank disk with the static directory of dir.c. *)
Definition blank_fs : fs bump :=
  mk_fs ∅ demo_part ∅ {[root_dir := mk_dir 0 0 (replicate 512 0)]} demo_heap (replicate 32 (mk_file 0 0 NULL)) ([0; 1; 2] ++ replicate 5 (-1)) 0 true 0x202.

(** [partition_format], [mount_partition] and [open_root_dir] as [filesys_init] calls them. *)
Definition mounted : outcome (fs bump) :=
  '(_, s) ← partition_format 2048 8192 blank_fs;
  '(_, s) ← mount_partition default_part (mk_info default_part 2048 8192) s;
  '(_, s) ← open_root_dir s;
  Ok s.

Definition stack : list Z := replicate 512 0.

(** The shell after the lines [ls] have been typed. *)
Definition session (ls : list string) : outcome (shell (fs bump)) :=
  s ← mounted;
  let zero := replicate 512 0 in
  '(_, sh) ← my_shell (FC := fs_FileCalls stack stack) (length ls) 20
               (mk_shell zero zero zero (concat ((fun l => chars l ++ [13]) <$> ls)) s);
  Ok sh.

(** The prompt and the inode of the working directory. *)
Definition whereabouts (o : outcome (shell (fs bump))) : outcome (list Z * Z) :=
  sh ← o; p ← c_str (cwd_cache sh); Ok (p, Inode.cwd_inode_nr (os sh)).

(** Directories are made and entered; what is shown is where the process is. *)
Example session_enters : whereabouts (session ["mkdir a"; "mkdir a/b"; "cd a/../a/b"; "pwd"; "ls -l .."]%string) = Ok (chars "/a/b", 2).
Proof. vm_compute. reflexivity. Qed.

(** A directory that was removed cannot be entered any more. *)
Example session_removes : whereabouts (session ["mkdir a"; "mkdir a/b"; "cd a"; "rmdir b"; "cd b"; "ls | ls -l /"]%string) = Ok (chars "/a", 1).
Proof. vm_compute. reflexivity. Qed.

(** Removing the working directory is not refused; the next command that asks
    where the process is stops the kernel in an assertion. *)
Example removed_cwd_panics : whereabouts (session ["mkdir a"; "cd a"; "rmdir ../a"; "pwd"]%string) = Panic "get_parent_dir_inode_nr: block_lba >= data_start_lba".
Proof. vm_compute. reflexivity. Qed.

(** A line of blanks stops the shell. *)
Example blank_line_panics : whereabouts (session [" "]%string) = Panic "strcmp: a != NULL && b != NULL".
Proof. vm_compute. reflexivity. Qed.
