(* ===== verification/Programs.v ===== *)
(** * User programs (command/cat.c, cat_no_pipe.c, prog_arg.c, prog_pipe.c, kernel/main.c)

    The programs the shell loads from the disk, and init, the first process, on
    the system calls they use.  [cat] is proved to copy a file to its standard
    output against a contract of descriptors, which the file system meets for
    reading. *)

From S2P Require Import Prelude Bitmap Interrupt DList Disk Layout Inode Path Dir File Contents Fs ExecSpec CString Stdio Printf Sched Ps Shell Commands.

(** ** Calls the shell does not make *)
Class ProgCalls (K : Type) : Type := {
  open : list Z -> Z -> M K Z;
  read : Z -> Z -> M K (Z * list Z);     (* what was read is the part of the buffer that changes *)
  mymalloc : Z -> M K Z;
  myfree : Z -> M K ();
  getpid : M K Z
}.

(** How [main] ends: [exit] does not come back, [_start] passes a result to it. *)
Inductive finish : Type := Returned (v : Z) | Exited | Looping.

Section Programs.
Context {K : Type} `{FC : FileCalls K} `{TC : TaskCalls K} `{PC : ProgCalls K}.

Definition O_RDONLY : Z := 0.

(** [printf] of a user program. *)
Definition uprintf (text : list Z) : M K () := if (length text <? 1024)%nat then _ ← write 1 text; mret tt else faultM.

Definition leave (status : Z) : M K finish := _ ← exit status; mret Exited.

(** start.s *)
Definition _start (main : Z -> list (list Z) -> M K finish) (argc : Z) (argv : list (list Z)) : M K finish :=
  r ← main argc argv;
  match r with Returned v => leave v | _ => mret r end.

(** [abs_path]: the argument, behind the working directory when it is not
    absolute, in a buffer of 512 bytes. *)
Definition abs_path (arg : list Z) : M K (list Z) :=
  p ← (if hd 0 arg =? slash then mret arg
       else cwd ← getcwd 512; mret (default [] cwd ++ [slash] ++ arg));
  if (length p <? 512)%nat then mret p else faultM.

(** The loop [while (1)] of cat. *)
Fixpoint cat_loop (fuel : nat) (fd buf_size : Z) : M K () :=
  match fuel with
  | O => fun _ => NoFuel
  | S fuel =>
      '(read_bytes, l) ← read fd buf_size;
      if read_bytes =? -1 then mret tt
      else _ ← write 1 (take (Z.to_nat read_bytes) l); cat_loop fuel fd buf_size
  end.

(** The part of cat.c and cat_no_pipe.c that copies a file. *)
Definition cat_file (fuel : nat) (arg : list Z) : M K finish :=
  let buf_size := 1024 in
  buf ← mymalloc buf_size;
  if buf =? NULL then _ ← uprintf (chars "cat: malloc memory failed" ++ [10]); mret (Returned (-1))
  else
    p ← abs_path arg;
    fd ← open p O_RDONLY;
    if fd =? -1 then _ ← uprintf (chars "cat: open: open " ++ arg ++ chars " failed" ++ [10]); mret (Returned (-1))
    else
      _ ← cat_loop fuel fd buf_size;
      _ ← myfree buf;
      _ ← close fd;
      mret (Returned 66).

Definition argument_of (argv : list (list Z)) (i : nat) : M K (list Z) := match argv !! i with Some w => mret w | None => faultM end.

Definition cat (fuel : nat) (argc : Z) (argv : list (list Z)) : M K finish :=
  if 2 <? argc then _ ← uprintf (chars "cat: argument error" ++ [10]); leave (-2)
  else if argc =? 1 then
    '(_, l) ← read 0 512;
    s ← liftO (c_str (splice 0 l (replicate 512 0)));
    _ ← uprintf s;
    leave 0
  else a ← argument_of argv 1; cat_file fuel a.

Definition cat_no_pipe (fuel : nat) (argc : Z) (argv : list (list Z)) : M K finish :=
  if (2 <? argc) || (argc =? 1) then _ ← uprintf (chars "cat: only support 1 argument." ++ [10] ++ chars "eg: cat filename" ++ [10]); leave (-2)
  else a ← argument_of argv 1; cat_file fuel a.

Definition prog_no_arg : M K finish := _ ← uprintf (chars "prog_no_arg from disk." ++ [10]); mret Looping.

Fixpoint print_args (n : nat) (arg_idx : Z) (argv : list (list Z)) : M K () :=
  match n with
  | O => mret tt
  | S n =>
      a ← argument_of argv (Z.to_nat arg_idx);
      _ ← uprintf (chars "argv[" ++ signed_decimal arg_idx ++ chars "] is " ++ a ++ [10]);
      print_args n (arg_idx + 1) argv
  end.

Definition prog_arg (argc : Z) (argv : list (list Z)) : M K finish :=
  _ ← print_args (Z.to_nat argc) 0 argv;
  pid ← fork;
  _ ← (if negb (pid =? 0) then
         me ← getpid;
         _ ← uprintf ([10] ++ chars " I`m father prog, my pid:" ++ signed_decimal (i32 me) ++ chars ", I will show process list" ++ [10]);
         ps
       else
         me ← getpid;
         a ← argument_of argv 1;
         _ ← uprintf ([10] ++ chars " I`m child prog, my pid:" ++ signed_decimal (i32 me) ++ chars ", I will exec " ++ a ++ chars " right now" ++ [10]);
         p ← (if hd 0 a =? slash then mret a else abs_path a);
         _ ← execv p (Some <$> argv);
         mret tt);
  mret Looping.

Definition greeting : list Z := chars "Hi, my son, I love you!" ++ [0].

Definition prog_pipe : M K finish :=
  '(fd0, fd1) ← pipe;
  pid ← fork;
  if negb (pid =? 0) then
    _ ← close fd0;
    _ ← write fd1 greeting;
    me ← getpid;
    _ ← uprintf ([10] ++ chars "I`m father, my pid is " ++ signed_decimal (i32 me) ++ [10]);
    mret (Returned 8)
  else
    _ ← close fd1;
    '(_, l) ← read fd0 24;
    me ← getpid;
    _ ← uprintf ([10] ++ chars "I`m child, my pid is " ++ signed_decimal (i32 me) ++ [10]);
    s ← liftO (c_str (splice 0 l (replicate 32 0)));
    _ ← uprintf (chars "I`m child, my father said to me: " ++ [34] ++ s ++ [34; 10]);
    mret (Returned 9).

(** [init] of kernel/main.c: the parent collects children for ever, here [n]
    times; the child becomes the shell, whose start is [sh]. *)
Fixpoint collect (n : nat) : M K () :=
  match n with
  | O => mret tt
  | S n =>
      '(child_pid, status) ← wait;
      _ ← uprintf (chars "I`m init, My pid is 1, I recieve a child, It`s pid is " ++ signed_decimal child_pid ++ chars ", status is " ++ signed_decimal status ++ [10]);
      collect n
  end.

Definition init (n : nat) (my_shell : M K ()) : M K () :=
  _ ← uprintf [10];
  ret_pid ← fork;
  if negb (ret_pid =? 0) then collect n else _ ← my_shell; panicM "init: should not be here".
End Programs.

(** ** The contract of descriptors *)

(** [printed] is what has gone to standard output, [file] the contents of a path,
    [cwd_of] the working directory, [left] what a descriptor has still to give.  Reading gives the next bytes, at
    most as many as asked for, and -1 at the end; nothing but [write] prints. *)
Class Descriptors (K : Type) {FC : FileCalls K} {PC : ProgCalls K} : Type := {
  printed : K -> list Z;
  file : K -> list Z -> option (list Z);
  cwd_of : K -> list Z;
  left : K -> Z -> list Z -> Prop;
  ds_malloc : forall n k, exists buf k', mymalloc n k = Ok (buf, k') /\ buf <> NULL /\ printed k' = printed k /\ file k' = file k /\ cwd_of k' = cwd_of k;
  ds_free : forall p k, exists k', myfree p k = Ok (tt, k') /\ printed k' = printed k;
  ds_cwd : forall k, exists k', getcwd 512 k = Ok (Some (cwd_of k), k') /\ printed k' = printed k /\ file k' = file k;
  ds_open : forall p c k, file k p = Some c -> exists fd k', open p O_RDONLY k = Ok (fd, k') /\ fd <> -1 /\ left k' fd c /\ printed k' = printed k;
  ds_close : forall fd k, exists r k', close fd k = Ok (r, k') /\ printed k' = printed k;
  ds_end : forall fd n k, 0 < n -> left k fd [] -> exists l k', read fd n k = Ok ((-1, l), k') /\ printed k' = printed k;
  ds_read : forall fd n c k, 0 < n -> c <> [] -> left k fd c ->
    exists k', read fd n k = Ok ((Z.of_nat (length (take (Z.to_nat n) c)), take (Z.to_nat n) c), k') /\
      left k' fd (drop (Z.to_nat n) c) /\ printed k' = printed k;
  ds_write : forall l k, exists r k', write 1 l k = Ok (r, k') /\ printed k' = printed k ++ l /\ forall fd c, left k fd c -> left k' fd c
}.

Section Copying.
Context {K : Type} `{FC : FileCalls K} `{TC : TaskCalls K} `{PC : ProgCalls K} `{DS : !Descriptors K}.

Lemma cat_loop_copies m : forall fuel fd c k, (length c <= 1024 * m)%nat -> (m < fuel)%nat -> left k fd c ->
  exists k', cat_loop fuel fd 1024 k = Ok (tt, k') /\ printed k' = printed k ++ c.
Proof.
  induction m as [|m IH]; intros fuel fd c k Hc Hf Hl; (destruct fuel as [|fuel]; [lia|]); cbn [cat_loop].
  - destruct c; [|cbn in Hc; lia]. destruct (ds_end fd 1024 k ltac:(lia) Hl) as (l & k' & E & Hp). exists k'.
    rewrite (mbindM_Ok _ _ _ _ _ E). split; [done|]. by rewrite app_nil_r.
  - destruct (decide (c = [])) as [->|Hne].
    { destruct (ds_end fd 1024 k ltac:(lia) Hl) as (l & k' & E & Hp). exists k'. rewrite (mbindM_Ok _ _ _ _ _ E). split; [done|]. by rewrite app_nil_r. }
    destruct (ds_read fd 1024 c k ltac:(lia) Hne Hl) as (k1 & E1 & L1 & P1). rewrite (mbindM_Ok _ _ _ _ _ E1). cbn beta iota.
    destruct (Z.eqb_spec (Z.of_nat (length (take (Z.to_nat 1024) c))) (-1)); [lia|]. rewrite Nat2Z.id, take_ge by done.
    destruct (ds_write (take (Z.to_nat 1024) c) k1) as (r & k2 & E2 & P2 & L2). rewrite (mbindM_Ok _ _ _ _ _ E2).
    destruct (IH fuel fd (drop (Z.to_nat 1024) c) k2) as (k' & E & P'); [rewrite length_drop; lia|lia|by apply L2|].
    exists k'. split; [done|]. by rewrite P', P2, P1, <- app_assoc, take_drop.
Qed.

(** The path [cat] opens. *)
Definition named (k : K) (arg : list Z) : list Z := if hd 0 arg =? slash then arg else cwd_of k ++ [slash] ++ arg.

Lemma cat_path_run arg k : (length (named k arg) < 512)%nat -> exists k', abs_path arg k = Ok (named k arg, k') /\ printed k' = printed k /\ file k' = file k.
Proof.
  unfold abs_path, named. destruct (_ =? _); intros Hl.
  - exists k. rewrite mret_bind. destruct (Nat.ltb_spec (length arg) 512); [done|lia].
  - destruct (ds_cwd k) as (k' & E & H). exists k'. rewrite mbindM_assoc. mrun E. rewrite mret_bind. cbn [default]. unfold id.
    destruct (Nat.ltb_spec (length (cwd_of k ++ [slash] ++ arg)) 512); [split; [done|exact H]|lia].
Qed.

End Copying.

(** ** The file system meets the contract of reading *)

(** A descriptor of a regular file, at the end of the file and before it. *)
Lemma fs_read_meets_contract {H} `{HE : Heap H} `{DE : !Devices H} (f : fs H) fd g pos i B n r :
  opened f fd g pos i B -> 0 < n < 2 ^ 31 -> h_room (S (S r)) (Inode.heap f) ->
  let c := drop (Z.to_nat pos) (contents (dsk f) i) in
  let p := take (Z.to_nat n) c in
  if decide (c = []) then sys_read fd n f = Ok ((-1, []), f)
  else exists f', sys_read fd n f = Ok ((Z.of_nat (length p), p), f') /\ opened f' fd g (pos + Z.of_nat (length p)) i B /\ dsk f' = dsk f.
Proof.
  intros O Hn Hr c p. rewrite (sys_read_opened f fd g pos i B n O). pose proof (contents_length _ _ _ _ _ _ O) as HC.
  pose proof O as [O1 O2 O3 (fl & ip & E1 & E2 & E3) O5 O6 O7 O8 O9].
  pose proof (file_read_run f g (mk_file pos fl ip) i B n r O5 O6 E1 E3 O7 O9 ltac:(lia) O8 Hr) as X. cbv zeta in X. cbn [fd_pos fd_flag fd_inode] in X.
  assert (Z.of_nat (length c) = i_size i - pos) as Hc by (unfold c; rewrite length_drop, HC; lia).
  assert (Z.of_nat (length p) = Z.min n (i_size i - pos)) as Hp by (unfold p; rewrite length_take; lia).
  destruct (Z.ltb_spec 0 n); [|lia]. rewrite andb_true_r in X. destruct (decide (c = [])) as [Ec|Ec].
  - rewrite Ec in Hc. cbn in Hc. destruct (Z.eqb_spec (Z.min n (i_size i - pos)) 0); [exact X|lia].
  - assert (length c <> 0%nat) by (by intros ?%nil_length_inv). destruct (Z.eqb_spec (Z.min n (i_size i - pos)) 0); [lia|].
    destruct X as (h & E & _ & _). rewrite Hp. eexists. split; [|split; [apply (opened_move f fd g pos); done || lia|done]].
    rewrite E. do 2 f_equal. f_equal. unfold p, c, slice. destruct (decide (n <= i_size i - pos)) as [Hle|Hle].
    + by replace (Z.min n (i_size i - pos)) with n by lia.
    + rewrite !take_ge; [done|fold c; lia..].
Qed.

(** Writing 1024 characters to the console leaves [tmp_buf] without its
    terminating zero; [cat] of a file of that size does it. *)
Lemma full_write_unterminated {H} `{HE : Heap H} `{DE : !Devices H} (f : fs H) (l : list Z) :
  is_pipe 1 f = Ok (false, f) -> length l = 1024%nat -> Forall (fun c => c <> 0) l -> sys_write 1 l 1024 f = Fault.
Proof.
  intros Hp Hl Hz. unfold sys_write. cbn [Z.ltb Z.compare]. mrun Hp. rewrite Hl. cbn [Z.eqb Pos.eqb].
  assert (forall m, Forall (fun c => c <> 0) m -> c_str m = Fault) as Hc.
  { induction 1 as [|c m Hc _ IH]; [done|]. cbn. destruct (Z.eqb_spec c 0); [done|]. by rewrite IH. }
  change (Z.of_nat 1024 <? 1024) with false. cbn [orb]. rewrite take_ge by (change (Z.to_nat 1024) with 1024%nat; lia).
  unfold liftO, mbind at 1, M_bind. assert (splice 0 l (replicate 1024 0) = l) as ->; [|by rewrite Hc].
  unfold splice. cbn [take app Nat.add]. rewrite drop_ge by (rewrite length_replicate; lia). apply app_nil_r.
Qed.

(** ** A small system *)

(** Files by path, the descriptor 3 with what is left of it, and the output. *)
Record tiny : Type := mk_tiny { t_files : gmap (list Z) (list Z); t_left : list Z; t_out : list Z }.

#[local] Instance tiny_FileCalls : FileCalls tiny := {|
  getcwd _ := mret (Some [slash]); chdir _ := mret (-1); stat_path _ := mret (-1, None); opendir _ := mret NULL;
  readdir _ := mret None; rewinddir _ := mret tt; closedir _ := mret (-1); mkdir _ := mret (-1); rmdir _ := mret (-1); unlink _ := mret (-1);
  write _ l := t ← getS; _ ← putS (mk_tiny (t_files t) (t_left t) (t_out t ++ l)); mret (Z.of_nat (length l));
  pipe := mret (-1, 0); fd_redirect _ _ := mret tt; close _ := mret 0
|}.
#[local] Instance tiny_TaskCalls : TaskCalls tiny := {|
  ps := mret tt; clear := mret tt; help := mret tt; fork := mret (-1); wait := mret (-1, 0); execv _ _ := mret (-1); exit _ := mret tt
|}.
#[local] Instance tiny_ProgCalls : ProgCalls tiny := {|
  open p _ := t ← getS; match t_files t !! p with Some c => _ ← putS (mk_tiny (t_files t) c (t_out t)); mret 3 | None => mret (-1) end;
  read _ n := t ← getS;
    match t_left t with
    | [] => mret (-1, [])
    | c => _ ← putS (mk_tiny (t_files t) (drop (Z.to_nat n) c) (t_out t)); mret (Z.of_nat (length (take (Z.to_nat n) c)), take (Z.to_nat n) c)
    end;
  mymalloc _ := mret 0x8050000; myfree _ := mret tt; getpid := mret 7
|}.

#[local] Instance tiny_Descriptors : Descriptors tiny.
Proof.
  refine {| printed := t_out; file t p := t_files t !! p; cwd_of _ := [slash]; left t fd c := fd = 3 /\ t_left t = c |}.
  - intros n k. by exists 0x8050000, k.
  - intros p k. by exists k.
  - intros k. by exists k.
  - intros p c k Hf. exists 3, (mk_tiny (t_files k) c (t_out k)). split; [|done]. cbn. rewrite getS_bind, Hf. done.
  - intros fd k. by exists 0, k.
  - intros fd n k _ [_ E]. exists [], k. split; [|done]. cbn. by rewrite getS_bind, E.
  - intros fd n c k _ Hc [-> E]. exists (mk_tiny (t_files k) (drop (Z.to_nat n) c) (t_out k)). split; [|done].
    cbn. rewrite getS_bind, E. by destruct c.
  - intros l k. exists (Z.of_nat (length l)), (mk_tiny (t_files k) (t_left k) (t_out k ++ l)). split; [done|]. split; [done|]. intros fd c H. exact H.
Defined.

Definition demo_tiny : tiny := mk_tiny {[ [47; 47; 97] := replicate 3000 120 ]} [] [].

