(* ===== verification/Syscall.v ===== *)
(** * System calls (lib/user/syscall.c, lib/user/syscall.h, userprog/syscall-init.c, kernel/kernel.s)

    A user program calls a stub; the stub loads the number of the call and up
    to three arguments into registers and executes [int 0x80].  The entry of
    kernel.s saves the registers in the layout of [struct intr_stack], pushes
    the three arguments, calls the routine the table names and writes its
    result over the saved EAX, so that [intr_exit] delivers it.  The kernel
    routines have their models in their components; here they are a parameter
    [run] that is given the values of its C parameters. *)

From S2P Require Import Prelude Process.

(** ** C types as they travel through a register *)
Inductive ctype : Type := Tint32 | Tuint32 | Tint16 | Tuint8 | Tchar | Tpointer | Tvoid.

(** The number of low bits of a register or stack slot a value occupies. *)
Definition width (t : ctype) : Z :=
  match t with Tint32 | Tuint32 | Tpointer => 32 | Tint16 => 16 | Tuint8 | Tchar => 8 | Tvoid => 0 end.

(** Reading a value of the type out of a word. *)
Definition conv (t : ctype) (w : Z) : Z :=
  match t with
  | Tint32 => i32 w | Tuint32 | Tpointer => u32 w | Tint16 => i16 w | Tuint8 => u8 w | Tchar => i8 w | Tvoid => 0
  end.

(** The values of a type. *)
Definition in_type (t : ctype) (v : Z) : Prop :=
  match t with
  | Tint32 => - 2 ^ 31 <= v < 2 ^ 31
  | Tuint32 | Tpointer => 0 <= v < 2 ^ 32
  | Tint16 => - 2 ^ 15 <= v < 2 ^ 15
  | Tuint8 => 0 <= v < 2 ^ 8
  | Tchar => - 2 ^ 7 <= v < 2 ^ 7
  | Tvoid => v = 0
  end.

(** ** Numbers of the calls *)
Inductive SYSCALL_NR : Type :=
| SYS_GETPID | SYS_WRITE | SYS_MYMALLOC | SYS_MYFREE | SYS_FORK | SYS_READ | SYS_PUTCHAR | SYS_CLEAR
| SYS_GETCWD | SYS_OPEN | SYS_CLOSE | SYS_LSEEK | SYS_UNLINK | SYS_MKDIR | SYS_OPENDIR | SYS_CLOSEDIR
| SYS_CHDIR | SYS_RMDIR | SYS_READDIR | SYS_REWINDDIR | SYS_STAT | SYS_PS | SYS_EXECV | SYS_EXIT
| SYS_WAIT | SYS_PIPE | SYS_FD_REDIRECT | SYS_HELP | SYS_MYNAME | SYS_PRINT_PCB | SYS_PUTS_COLOR.

(** The enumerators count from 0. *)
Definition nr (n : SYSCALL_NR) : Z :=
  match n with
  | SYS_GETPID => 0 | SYS_WRITE => 1 | SYS_MYMALLOC => 2 | SYS_MYFREE => 3 | SYS_FORK => 4 | SYS_READ => 5
  | SYS_PUTCHAR => 6 | SYS_CLEAR => 7 | SYS_GETCWD => 8 | SYS_OPEN => 9 | SYS_CLOSE => 10 | SYS_LSEEK => 11
  | SYS_UNLINK => 12 | SYS_MKDIR => 13 | SYS_OPENDIR => 14 | SYS_CLOSEDIR => 15 | SYS_CHDIR => 16
  | SYS_RMDIR => 17 | SYS_READDIR => 18 | SYS_REWINDDIR => 19 | SYS_STAT => 20 | SYS_PS => 21
  | SYS_EXECV => 22 | SYS_EXIT => 23 | SYS_WAIT => 24 | SYS_PIPE => 25 | SYS_FD_REDIRECT => 26
  | SYS_HELP => 27 | SYS_MYNAME => 28 | SYS_PRINT_PCB => 29 | SYS_PUTS_COLOR => 30
  end.

(** ** The kernel routines behind the calls *)
Inductive handler : Type :=
| sys_getpid | sys_write | sys_malloc | sys_free | sys_fork | sys_read | sys_putchar | cls_screen
| sys_getcwd | sys_open | sys_close | sys_lseek | sys_unlink | sys_mkdir | sys_opendir | sys_closedir
| sys_chdir | sys_rmdir | sys_readdir | sys_rewinddir | sys_stat | sys_ps | sys_execv | sys_exit
| sys_wait | sys_pipe | sys_fd_redirect | sys_help | sys_myname | sys_print_pcb | sys_putstr_color.

(** Their prototypes in fs.h, memory.h, thread.h, fork.h, exec.h, wait_exit.h,
    pipe.h, print.h and syscall-init.h: parameters and result ([pid_t] is
    [int16_t]). *)
Definition prototype (h : handler) : list ctype * ctype :=
  match h with
  | sys_getpid => ([], Tuint32)
  | sys_write => ([Tint32; Tpointer; Tuint32], Tint32)
  | sys_malloc => ([Tuint32], Tpointer)
  | sys_free => ([Tpointer], Tvoid)
  | sys_fork => ([], Tint16)
  | sys_read => ([Tint32; Tpointer; Tuint32], Tint32)
  | sys_putchar => ([Tchar], Tvoid)
  | cls_screen => ([], Tvoid)
  | sys_getcwd => ([Tpointer; Tuint32], Tpointer)
  | sys_open => ([Tpointer; Tuint8], Tint32)
  | sys_close => ([Tint32], Tint32)
  | sys_lseek => ([Tint32; Tint32; Tuint8], Tint32)
  | sys_unlink | sys_mkdir | sys_rmdir | sys_chdir => ([Tpointer], Tint32)
  | sys_opendir => ([Tpointer], Tpointer)
  | sys_closedir => ([Tpointer], Tint32)
  | sys_readdir => ([Tpointer], Tpointer)
  | sys_rewinddir => ([Tpointer], Tvoid)
  | sys_stat => ([Tpointer; Tpointer], Tint32)
  | sys_ps | sys_help | sys_print_pcb => ([], Tvoid)
  | sys_execv => ([Tpointer; Tpointer], Tint32)
  | sys_exit => ([Tint32], Tvoid)
  | sys_wait => ([Tpointer], Tint16)
  | sys_pipe => ([Tpointer], Tint32)
  | sys_fd_redirect => ([Tuint32; Tuint32], Tvoid)
  | sys_myname => ([], Tpointer)
  | sys_putstr_color => ([Tpointer; Tuint8], Tvoid)
  end.

(** ** The table *)
Definition syscall_nr : nat := 32.

(** The array is in the bss: an entry nobody assigned is NULL. *)
Definition empty_table : list (option handler) := replicate syscall_nr None.

Definition table_entries : list (SYSCALL_NR * handler) :=
  [(SYS_GETPID, sys_getpid); (SYS_WRITE, sys_write); (SYS_MYMALLOC, sys_malloc); (SYS_MYFREE, sys_free);
   (SYS_FORK, sys_fork); (SYS_READ, sys_read); (SYS_PUTCHAR, sys_putchar); (SYS_CLEAR, cls_screen);
   (SYS_GETCWD, sys_getcwd); (SYS_OPEN, sys_open); (SYS_CLOSE, sys_close); (SYS_LSEEK, sys_lseek);
   (SYS_UNLINK, sys_unlink); (SYS_MKDIR, sys_mkdir); (SYS_OPENDIR, sys_opendir); (SYS_CLOSEDIR, sys_closedir);
   (SYS_CHDIR, sys_chdir); (SYS_RMDIR, sys_rmdir); (SYS_READDIR, sys_readdir); (SYS_REWINDDIR, sys_rewinddir);
   (SYS_STAT, sys_stat); (SYS_PS, sys_ps); (SYS_EXECV, sys_execv); (SYS_EXIT, sys_exit); (SYS_WAIT, sys_wait);
   (SYS_PIPE, sys_pipe); (SYS_FD_REDIRECT, sys_fd_redirect); (SYS_HELP, sys_help); (SYS_MYNAME, sys_myname);
   (SYS_PRINT_PCB, sys_print_pcb); (SYS_PUTS_COLOR, sys_putstr_color)].

(** One assignment per line of the routine. *)
Fixpoint assign_all (es : list (SYSCALL_NR * handler)) (table : list (option handler)) : outcome (list (option handler)) :=
  match es with
  | [] => Ok table
  | (n, h) :: es => table ← aset table (nr n) (Some h); assign_all es table
  end.
Definition syscall_init (table : list (option handler)) : outcome (list (option handler)) := assign_all table_entries table.

(** ** The trap *)

(** The registers of a user program. *)
Record cpu : Type := mk_cpu {
  c_eax : Z; c_ebx : Z; c_ecx : Z; c_edx : Z; c_esi : Z; c_edi : Z; c_ebp : Z; c_esp : Z;
  c_ds : Z; c_es : Z; c_fs : Z; c_gs : Z; c_eip : Z; c_cs : Z; c_eflags : Z; c_ss : Z
}.

(** What the processor pushes on the kernel stack of the task when it enters
    the kernel from ring 3, the last word pushed first. *)
Definition int_0x80 (c : cpu) : list Z := [c_eip c; c_cs c; c_eflags c; c_esp c; c_ss c].

(** [push 0], the segment registers, [pushad], [push 0x80].  [kesp] is the value
    of ESP that [pushad] saves; [popad] skips it. *)
Definition save_context (kesp : Z) (c : cpu) (st : list Z) : list Z :=
  let st := c_gs c :: c_fs c :: c_es c :: c_ds c :: 0 :: st in
  let st := c_edi c :: c_esi c :: c_ebp c :: kesp :: c_ebx c :: c_edx c :: c_ecx c :: c_eax c :: st in
  0x80 :: st.

(** [struct intr_stack] laid over the stack. *)
Definition frame_words (f : intr_stack) : list Z :=
  [vec_no f; edi f; esi f; ebp f; esp_dummy f; ebx f; edx f; ecx f; eax f; gs f; fs f; es f; ds f;
   err_code f; eip f; cs f; eflags f; esp f; ss f].
Definition frame_of (st : list Z) : outcome intr_stack :=
  match st with
  | [v; di; si; bp; d; b; dx; cx; a; g; f; e; s; err; ip; c; fl; sp; st] =>
      Ok (mk_intr v di si bp d b dx cx a g f e s err ip c fl sp st)
  | _ => Fault
  end.

(** Skip the vector, [popad], the segment registers, skip the error code, [iretd]. *)
Definition intr_exit (st : list Z) : outcome cpu :=
  match st with
  | [_; di; si; bp; _; b; dx; cx; a; g; f; e; s; _; ip; c; fl; sp; st] =>
      Ok (mk_cpu a b cx dx si di bp sp s e f g ip c fl st)
  | _ => Fault
  end.

Section Machine.
Context {K : Type}.

(** The routines of the kernel, on the arguments they read from the stack and
    on the saved frame, which [fork] copies and [execv] replaces.  [Some r]: the
    routine returns with [r] in EAX, of which the bits beyond its result type
    mean nothing.  [None]: it jumped to [intr_exit] itself. *)
Variable run : handler -> list Z -> M (intr_stack * K) (option Z).
Variable syscall_table : list (option handler).
Variable kesp : Z.

Record machine : Type := mk_machine { regs : cpu; kern : K }.

(** A C routine takes its parameters from the words above its return address. *)
Definition parameters (h : handler) (st : list Z) : list Z := zip_with conv (prototype h).1 st.

(** [call [syscall_table + eax * 4]], with the three words pushed. *)
Definition syscall_handler : M machine () := fun m =>
  let c := regs m in
  let st := save_context kesp c (int_0x80 c) in
  let st := c_ebx c :: c_ecx c :: c_edx c :: st in
  entry ← aget syscall_table (c_eax c);
  match entry with
  | None => Fault
  | Some h =>
      frame ← frame_of (drop 3 st);
      '(ret, (frame, k)) ← run h (parameters h st) (frame, kern m);
      let st := frame_words frame in
      let st := match ret with Some r => <[8%nat := u32 r]> st | None => st end in
      c ← intr_exit st;
      Ok (tt, mk_machine c k)
  end.

(** ** The stubs *)

Definition load (f : cpu -> cpu) : M machine () := modS (fun m => mk_machine (f (regs m)) (kern m)).
Definition retval : M machine Z := fun m => Ok (i32 (c_eax (regs m)), m).

Definition with_eax (a : Z) (c : cpu) : cpu :=
  mk_cpu a (c_ebx c) (c_ecx c) (c_edx c) (c_esi c) (c_edi c) (c_ebp c) (c_esp c)
    (c_ds c) (c_es c) (c_fs c) (c_gs c) (c_eip c) (c_cs c) (c_eflags c) (c_ss c).
Definition with_ebx (b : Z) (c : cpu) : cpu :=
  mk_cpu (c_eax c) b (c_ecx c) (c_edx c) (c_esi c) (c_edi c) (c_ebp c) (c_esp c)
    (c_ds c) (c_es c) (c_fs c) (c_gs c) (c_eip c) (c_cs c) (c_eflags c) (c_ss c).
Definition with_ecx (x : Z) (c : cpu) : cpu :=
  mk_cpu (c_eax c) (c_ebx c) x (c_edx c) (c_esi c) (c_edi c) (c_ebp c) (c_esp c)
    (c_ds c) (c_es c) (c_fs c) (c_gs c) (c_eip c) (c_cs c) (c_eflags c) (c_ss c).
Definition with_edx (x : Z) (c : cpu) : cpu :=
  mk_cpu (c_eax c) (c_ebx c) (c_ecx c) x (c_esi c) (c_edi c) (c_ebp c) (c_esp c)
    (c_ds c) (c_es c) (c_fs c) (c_gs c) (c_eip c) (c_cs c) (c_eflags c) (c_ss c).

(** The macros: the operands of the assembly statement are loaded, widened to
    the register, and the output operand is EAX as an [int]. *)
Definition _syscall0 (NUMBER : SYSCALL_NR) : M machine Z :=
  _ ← load (with_eax (nr NUMBER)); _ ← syscall_handler; retval.
Definition _syscall1 (NUMBER : SYSCALL_NR) (ARG1 : Z) : M machine Z :=
  _ ← load (with_eax (nr NUMBER) ∘ with_ebx (u32 ARG1)); _ ← syscall_handler; retval.
Definition _syscall2 (NUMBER : SYSCALL_NR) (ARG1 ARG2 : Z) : M machine Z :=
  _ ← load (with_eax (nr NUMBER) ∘ with_ebx (u32 ARG1) ∘ with_ecx (u32 ARG2)); _ ← syscall_handler; retval.
Definition _syscall3 (NUMBER : SYSCALL_NR) (ARG1 ARG2 ARG3 : Z) : M machine Z :=
  _ ← load (with_eax (nr NUMBER) ∘ with_ebx (u32 ARG1) ∘ with_ecx (u32 ARG2) ∘ with_edx (u32 ARG3));
  _ ← syscall_handler; retval.

(** [return] converts to the result type of the stub; a stub without result
    drops the value. *)
Definition returning (t : ctype) (c : M machine Z) : M machine Z := r ← c; mret (conv t r).

Definition getpid : M machine Z := returning Tuint32 (_syscall0 SYS_GETPID).
Definition fork : M machine Z := returning Tint16 (_syscall0 SYS_FORK).
Definition write (fd buf count : Z) : M machine Z := returning Tuint32 (_syscall3 SYS_WRITE fd buf count).
Definition read (fd buf count : Z) : M machine Z := returning Tuint32 (_syscall3 SYS_READ fd buf count).
Definition mymalloc (size : Z) : M machine Z := returning Tpointer (_syscall1 SYS_MYMALLOC size).
Definition myfree (ptr : Z) : M machine Z := returning Tvoid (_syscall1 SYS_MYFREE ptr).
Definition putchar (char_asci : Z) : M machine Z := returning Tvoid (_syscall1 SYS_PUTCHAR char_asci).
Definition clear : M machine Z := returning Tvoid (_syscall0 SYS_CLEAR).
Definition getcwd (buf size : Z) : M machine Z := returning Tpointer (_syscall2 SYS_GETCWD buf size).
Definition open (pathname flag : Z) : M machine Z := returning Tint32 (_syscall2 SYS_OPEN pathname flag).
Definition close (fd : Z) : M machine Z := returning Tint32 (_syscall1 SYS_CLOSE fd).
Definition lseek (fd offset whence : Z) : M machine Z := returning Tint32 (_syscall3 SYS_LSEEK fd offset whence).
Definition unlink (pathname : Z) : M machine Z := returning Tint32 (_syscall1 SYS_UNLINK pathname).
Definition mkdir (pathname : Z) : M machine Z := returning Tint32 (_syscall1 SYS_MKDIR pathname).
Definition opendir (name : Z) : M machine Z := returning Tpointer (_syscall1 SYS_OPENDIR name).
Definition closedir (dir : Z) : M machine Z := returning Tint32 (_syscall1 SYS_CLOSEDIR dir).
Definition rmdir (pathname : Z) : M machine Z := returning Tint32 (_syscall1 SYS_RMDIR pathname).
Definition readdir (dir : Z) : M machine Z := returning Tpointer (_syscall1 SYS_READDIR dir).
Definition rewinddir (dir : Z) : M machine Z := returning Tvoid (_syscall1 SYS_REWINDDIR dir).
Definition stat (path buf : Z) : M machine Z := returning Tint32 (_syscall2 SYS_STAT path buf).
Definition chdir (path : Z) : M machine Z := returning Tint32 (_syscall1 SYS_CHDIR path).
Definition ps : M machine Z := returning Tvoid (_syscall0 SYS_PS).
Definition execv (pathname argv : Z) : M machine Z := returning Tint32 (_syscall2 SYS_EXECV pathname argv).
Definition exit (status : Z) : M machine Z := returning Tvoid (_syscall1 SYS_EXIT status).
Definition wait (status : Z) : M machine Z := returning Tint32 (_syscall1 SYS_WAIT status).
Definition pipe (pipefd : Z) : M machine Z := returning Tint32 (_syscall1 SYS_PIPE pipefd).
Definition fd_redirect (old_local_fd new_local_fd : Z) : M machine Z :=
  returning Tvoid (_syscall2 SYS_FD_REDIRECT old_local_fd new_local_fd).
Definition help : M machine Z := returning Tvoid (_syscall0 SYS_HELP).
Definition myname : M machine Z := returning Tpointer (_syscall0 SYS_MYNAME).
Definition print_pcb : M machine Z := returning Tvoid (_syscall0 SYS_PRINT_PCB).
Definition putstr_color (str attr : Z) : M machine Z := returning Tvoid (_syscall2 SYS_PUTS_COLOR str attr).

End Machine.

(** ** What the calls promise *)

(** A call a program can make, with its arguments. *)
Inductive call : Type :=
| Getpid | Write (fd buf count : Z) | Mymalloc (size : Z) | Myfree (ptr : Z) | Fork | Read (fd buf count : Z)
| Putchar (char_asci : Z) | Clear | Getcwd (buf size : Z) | Open (pathname flag : Z) | Close (fd : Z)
| Lseek (fd offset whence : Z) | Unlink (pathname : Z) | Mkdir (pathname : Z) | Opendir (name : Z)
| Closedir (dir : Z) | Chdir (path : Z) | Rmdir (pathname : Z) | Readdir (dir : Z) | Rewinddir (dir : Z)
| Stat (path buf : Z) | Ps | Execv (pathname argv : Z) | Exit (status : Z) | Wait (status : Z)
| Pipe (pipefd : Z) | Fd_redirect (old_local_fd new_local_fd : Z) | Help | Myname | Print_pcb
| Putstr_color (str attr : Z).

(** The routine that serves it, and the arguments in the order of its parameters. *)
Definition service (c : call) : handler * list Z :=
  match c with
  | Getpid => (sys_getpid, [])
  | Write fd buf count => (sys_write, [fd; buf; count])
  | Mymalloc size => (sys_malloc, [size])
  | Myfree ptr => (sys_free, [ptr])
  | Fork => (sys_fork, [])
  | Read fd buf count => (sys_read, [fd; buf; count])
  | Putchar ch => (sys_putchar, [ch])
  | Clear => (cls_screen, [])
  | Getcwd buf size => (sys_getcwd, [buf; size])
  | Open pathname flag => (sys_open, [pathname; flag])
  | Close fd => (sys_close, [fd])
  | Lseek fd offset whence => (sys_lseek, [fd; offset; whence])
  | Unlink pathname => (sys_unlink, [pathname])
  | Mkdir pathname => (sys_mkdir, [pathname])
  | Opendir name => (sys_opendir, [name])
  | Closedir dir => (sys_closedir, [dir])
  | Chdir path => (sys_chdir, [path])
  | Rmdir pathname => (sys_rmdir, [pathname])
  | Readdir dir => (sys_readdir, [dir])
  | Rewinddir dir => (sys_rewinddir, [dir])
  | Stat path buf => (sys_stat, [path; buf])
  | Ps => (sys_ps, [])
  | Execv pathname argv => (sys_execv, [pathname; argv])
  | Exit status => (sys_exit, [status])
  | Wait status => (sys_wait, [status])
  | Pipe pipefd => (sys_pipe, [pipefd])
  | Fd_redirect old_local_fd new_local_fd => (sys_fd_redirect, [old_local_fd; new_local_fd])
  | Help => (sys_help, [])
  | Myname => (sys_myname, [])
  | Print_pcb => (sys_print_pcb, [])
  | Putstr_color str attr => (sys_putstr_color, [str; attr])
  end.

(** The prototype of its stub in syscall.h. *)
Definition stub_prototype (c : call) : list ctype * ctype :=
  match c with
  | Getpid => ([], Tuint32)
  | Write _ _ _ | Read _ _ _ => ([Tint32; Tpointer; Tuint32], Tuint32)
  | Mymalloc _ => ([Tuint32], Tpointer)
  | Myfree _ => ([Tpointer], Tvoid)
  | Fork => ([], Tint16)
  | Putchar _ => ([Tchar], Tvoid)
  | Clear | Ps | Help | Print_pcb => ([], Tvoid)
  | Getcwd _ _ => ([Tpointer; Tuint32], Tpointer)
  | Open _ _ => ([Tpointer; Tuint8], Tint32)
  | Close _ => ([Tint32], Tint32)
  | Lseek _ _ _ => ([Tint32; Tint32; Tuint8], Tint32)
  | Unlink _ | Mkdir _ | Rmdir _ | Chdir _ | Closedir _ => ([Tpointer], Tint32)
  | Opendir _ | Readdir _ => ([Tpointer], Tpointer)
  | Rewinddir _ => ([Tpointer], Tvoid)
  | Stat _ _ | Execv _ _ => ([Tpointer; Tpointer], Tint32)
  | Exit _ => ([Tint32], Tvoid)
  | Wait _ | Pipe _ => ([Tpointer], Tint32)
  | Fd_redirect _ _ => ([Tuint32; Tuint32], Tvoid)
  | Myname => ([], Tpointer)
  | Putstr_color _ _ => ([Tpointer; Tuint8], Tvoid)
  end.

(** The number under which a routine is to be found. *)
Definition number_of (h : handler) : SYSCALL_NR :=
  match h with
  | sys_getpid => SYS_GETPID | sys_write => SYS_WRITE | sys_malloc => SYS_MYMALLOC | sys_free => SYS_MYFREE
  | sys_fork => SYS_FORK | sys_read => SYS_READ | sys_putchar => SYS_PUTCHAR | cls_screen => SYS_CLEAR
  | sys_getcwd => SYS_GETCWD | sys_open => SYS_OPEN | sys_close => SYS_CLOSE | sys_lseek => SYS_LSEEK
  | sys_unlink => SYS_UNLINK | sys_mkdir => SYS_MKDIR | sys_opendir => SYS_OPENDIR | sys_closedir => SYS_CLOSEDIR
  | sys_chdir => SYS_CHDIR | sys_rmdir => SYS_RMDIR | sys_readdir => SYS_READDIR | sys_rewinddir => SYS_REWINDDIR
  | sys_stat => SYS_STAT | sys_ps => SYS_PS | sys_execv => SYS_EXECV | sys_exit => SYS_EXIT | sys_wait => SYS_WAIT
  | sys_pipe => SYS_PIPE | sys_fd_redirect => SYS_FD_REDIRECT | sys_help => SYS_HELP | sys_myname => SYS_MYNAME
  | sys_print_pcb => SYS_PRINT_PCB | sys_putstr_color => SYS_PUTS_COLOR
  end.

(** The arguments are values of the types the stub declares. *)
Definition well_typed (c : call) : Prop := Forall2 in_type (stub_prototype c).1 (service c).2.

(** The saved EAX written over. *)
Definition set_eax (v : Z) (f : intr_stack) : intr_stack :=
  mk_intr (vec_no f) (edi f) (esi f) (ebp f) (esp_dummy f) (ebx f) (edx f) (ecx f) v (gs f) (fs f) (es f) (ds f)
    (err_code f) (eip f) (cs f) (eflags f) (esp f) (ss f).

Section Contract.
Context {K : Type} (run : handler -> list Z -> M (intr_stack * K) (option Z)) (table : list (option handler)) (kesp : Z).

(** Making the call. *)
Definition stub (c : call) : M (@machine K) Z :=
  match c with
  | Getpid => getpid run table kesp
  | Write fd buf count => write run table kesp fd buf count
  | Mymalloc size => mymalloc run table kesp size
  | Myfree ptr => myfree run table kesp ptr
  | Fork => fork run table kesp
  | Read fd buf count => read run table kesp fd buf count
  | Putchar ch => putchar run table kesp ch
  | Clear => clear run table kesp
  | Getcwd buf size => getcwd run table kesp buf size
  | Open pathname flag => open run table kesp pathname flag
  | Close fd => close run table kesp fd
  | Lseek fd offset whence => lseek run table kesp fd offset whence
  | Unlink pathname => unlink run table kesp pathname
  | Mkdir pathname => mkdir run table kesp pathname
  | Opendir name => opendir run table kesp name
  | Closedir dir => closedir run table kesp dir
  | Chdir path => chdir run table kesp path
  | Rmdir pathname => rmdir run table kesp pathname
  | Readdir dir => readdir run table kesp dir
  | Rewinddir dir => rewinddir run table kesp dir
  | Stat path buf => stat run table kesp path buf
  | Ps => ps run table kesp
  | Execv pathname argv => execv run table kesp pathname argv
  | Exit status => exit run table kesp status
  | Wait status => wait run table kesp status
  | Pipe pipefd => pipe run table kesp pipefd
  | Fd_redirect old_local_fd new_local_fd => fd_redirect run table kesp old_local_fd new_local_fd
  | Help => help run table kesp
  | Myname => myname run table kesp
  | Print_pcb => print_pcb run table kesp
  | Putstr_color str attr => putstr_color run table kesp str attr
  end.

(** The frame a program with registers [c] leaves on its kernel stack. *)
Definition frame_at (c : cpu) : intr_stack :=
  mk_intr 0x80 (c_edi c) (c_esi c) (c_ebp c) kesp (c_ebx c) (c_edx c) (c_ecx c) (c_eax c)
    (c_gs c) (c_fs c) (c_es c) (c_ds c) 0 (c_eip c) (c_cs c) (c_eflags c) (c_esp c) (c_ss c).

(** The registers a frame restores. *)
Definition resumed (f : intr_stack) : cpu :=
  mk_cpu (eax f) (ebx f) (ecx f) (edx f) (esi f) (edi f) (ebp f) (esp f) (ds f) (es f) (fs f) (gs f)
    (eip f) (cs f) (eflags f) (ss f).

(** The registers when the arguments are loaded. *)
Definition loaded (n : Z) (args : list Z) (c : cpu) : cpu :=
  match args with
  | [] => with_eax n c
  | [a1] => with_eax n (with_ebx (u32 a1) c)
  | [a1; a2] => with_eax n (with_ebx (u32 a1) (with_ecx (u32 a2) c))
  | a1 :: a2 :: a3 :: _ => with_eax n (with_ebx (u32 a1) (with_ecx (u32 a2) (with_edx (u32 a3) c)))
  end.

Definition with_result (ret : option Z) (f : intr_stack) : intr_stack :=
  match ret with Some r => set_eax (u32 r) f | None => f end.

(** A call, without registers and tables: the routine runs on the arguments of
    the call, its result comes back in the type of the stub, and the program
    goes on with the registers of the frame. *)
Definition serve (c : call) : M (@machine K) Z := fun m =>
  let '(h, args) := service c in
  '(ret, (f, k)) ← run h args (frame_at (loaded (nr (number_of h)) args (regs m)), kern m);
  let f := with_result ret f in
  Ok (conv (stub_prototype c).2 (eax f), mk_machine (resumed f) k).

End Contract.

(** ** Words and types *)

Lemma wraps_wrapu (w v z : Z) : 0 < w -> w <= v -> wraps w (z mod 2 ^ v) = wraps w z.
Proof.
  intros Hw Hv. unfold wraps. rewrite Z.mod_mod_divide; [done|].
  exists (2 ^ (v - w)). rewrite <- Z.pow_add_r by lia. f_equal. lia.
Qed.

Lemma wrapu_wrapu (w v z : Z) : 0 <= w -> w <= v -> wrapu w (z mod 2 ^ v) = wrapu w z.
Proof.
  intros Hw Hv. unfold wrapu. rewrite Z.mod_mod_divide; [done|].
  exists (2 ^ (v - w)). rewrite <- Z.pow_add_r by lia. f_equal. lia.
Qed.

(** Reading a value depends on the low bits of its type only. *)
Lemma conv_low (t : ctype) (w : Z) : conv t (w mod 2 ^ width t) = conv t w.
Proof. destruct t; cbn [conv width]; try (by apply wraps_wrapu); try (by apply wrapu_wrapu); done. Qed.

Lemma conv_agree (t : ctype) (w w' : Z) : w mod 2 ^ width t = w' mod 2 ^ width t -> conv t w = conv t w'.
Proof. intros E. by rewrite <- (conv_low t w), <- (conv_low t w'), E. Qed.

Lemma width_le (t : ctype) : 0 <= width t <= 32.
Proof. destruct t; cbn; lia. Qed.

Lemma mod_mod_le (z w v : Z) : 0 <= w <= v -> (z mod 2 ^ v) mod 2 ^ w = z mod 2 ^ w.
Proof. intros [Hw Hv]. exact (wrapu_wrapu w v z Hw Hv). Qed.

Lemma conv_u32 (t : ctype) (w : Z) : conv t (u32 w) = conv t w.
Proof. apply conv_agree, mod_mod_le, width_le. Qed.

Lemma conv_i32 (t : ctype) (w : Z) : conv t (i32 w) = conv t w.
Proof. rewrite <- conv_u32, u32_i32. apply conv_u32. Qed.

(** A value survives the trip through a word. *)
Lemma conv_value (t : ctype) (v : Z) : in_type t v -> conv t (u32 v) = v.
Proof.
  rewrite conv_u32. destruct t; cbn [in_type conv]; intros H; try (by apply wraps_small); try (by apply wrapu_small); done.
Qed.

(** Arguments that have the types of the parameters arrive as they are. *)
Lemma parameters_read (h : handler) (args rest : list Z) :
  Forall2 in_type (prototype h).1 args -> parameters h (((fun a => u32 a) <$> args) ++ rest) = args.
Proof.
  unfold parameters. intros H. induction H as [|t v ts vs Hv _ IH]; cbn; [by destruct rest|].
  by rewrite conv_value, IH.
Qed.

(** ** The trap delivers the call *)

(** Where a routine is in the table. *)
Lemma table_ready : exists table, syscall_init empty_table = Ok table /\
  forall h, aget table (nr (number_of h)) = Ok (Some h).
Proof. eexists. split; [reflexivity|]. intros []; reflexivity. Qed.

(** A stub declares the parameter types of the routine it reaches. *)
Lemma same_parameters (c : call) : (stub_prototype c).1 = (prototype (service c).1).1.
Proof. by destruct c. Qed.

Section Delivery.
Context {K : Type} (run : handler -> list Z -> M (intr_stack * K) (option Z)) (table : list (option handler)) (kesp : Z).

(** The entry in kernel.s around a routine: save, call, result, restore. *)
Lemma trap_run (m : machine) (h : handler) : aget table (c_eax (regs m)) = Ok (Some h) ->
  syscall_handler run table kesp m =
    '(ret, (f, k)) ← run h (parameters h (c_ebx (regs m) :: c_ecx (regs m) :: c_edx (regs m) ::
                             frame_words (frame_at kesp (regs m)))) (frame_at kesp (regs m), kern m);
    Ok (tt, mk_machine (resumed (with_result ret f)) k).
Proof.
  intros E. unfold syscall_handler. rewrite E. cbn [mbind outcome_bind].
  change (frame_of _) with (Ok (frame_at kesp (regs m))). cbn [mbind outcome_bind].
  destruct (run _ _ _) as [[[r|] [f k]]| | |]; reflexivity.
Qed.

(** The same from the stub's side, for any number of arguments. *)
Lemma stub_run (m m' : machine) (h : handler) (args : list Z) (t : ctype) :
  aget table (nr (number_of h)) = Ok (Some h) -> Forall2 in_type (prototype h).1 args -> (length args <= 3)%nat ->
  m' = mk_machine (loaded (nr (number_of h)) args (regs m)) (kern m) ->
  returning t (_ ← syscall_handler run table kesp; retval) m' =
    '(ret, (f, k)) ← run h args (frame_at kesp (regs m'), kern m');
    let f := with_result ret f in Ok (conv t (eax f), mk_machine (resumed f) k).
Proof.
  intros E Ht Hl ->. unfold returning, mbind at 1 2, M_bind at 1 2. rewrite (trap_run _ h).
  2: { by destruct args as [|? [|? [|? [|]]]]. }
  set (m' := mk_machine _ _). assert (exists rest, c_ebx (regs m') :: c_ecx (regs m') :: c_edx (regs m') ::
    frame_words (frame_at kesp (regs m')) = ((fun a => u32 a) <$> args) ++ rest) as [rest ->].
  { destruct args as [|? [|? [|? [|]]]]; cbn in Hl |- *; try lia; eexists; reflexivity. }
  rewrite parameters_read by done.
  destruct (run _ _ _) as [[r [f k]]| | |]; [|reflexivity..]. cbn. by rewrite conv_i32.
Qed.

(** C25. With the table as [syscall_init] leaves it, a call of any of the stubs
    is the run of its kernel routine on the arguments of the call: the number
    finds the routine, the three registers carry the arguments in the order of
    the parameters and in their types, the result lands in the saved EAX and
    comes back in the type of the stub, and the program goes on with the
    registers of its frame. *)
Theorem syscall_refines (c : call) (m : machine) :
  syscall_init empty_table = Ok table -> well_typed c ->
  stub run table kesp c m = serve run kesp c m.
Proof.
  intros Ht Hc. destruct table_ready as [table' [E Hn]].
  replace table' with table in Hn by congruence. specialize (Hn (service c).1).
  unfold well_typed in Hc. rewrite same_parameters in Hc.
  assert (length (service c).2 <= 3)%nat as Hl by (destruct c; cbn; lia).
  pose proof (stub_run m _ _ _ (stub_prototype c).2 Hn Hc Hl eq_refl) as S.
  unfold serve. destruct c; exact S.
Qed.

End Delivery.

(** The registers with the arguments in them are what an untouched frame restores. *)
Lemma resumed_frame (kesp : Z) (c : cpu) (r : Z) : resumed (set_eax r (frame_at kesp c)) = with_eax r c.
Proof. by destruct c. Qed.

(** A kernel that records the calls it gets and answers with how many there were. *)
Definition demo_run (h : handler) (args : list Z) : M (intr_stack * list (handler * list Z)) (option Z) :=
  '(f, k) ← getS; _ ← putS (f, k ++ [(h, args)]); mret (Some (Z.of_nat (length k))).

Definition demo_cpu : cpu := mk_cpu 9 9 9 9 1 2 3 0xBFFFF000 51 51 51 0 0x8048100 43 0x202 51.

Definition demo_table : list (option handler) := match syscall_init empty_table with Ok t => t | _ => [] end.

Lemma syscall_refines_witness :
  stub demo_run demo_table 0 (Lseek 3 (-1) 2) (mk_machine demo_cpu []) =
    Ok (0, mk_machine (mk_cpu 0 3 4294967295 2 1 2 3 0xBFFFF000 51 51 51 0 0x8048100 43 0x202 51)
             [(sys_lseek, [3; -1; 2])]).
Proof.
  rewrite (syscall_refines demo_run demo_table 0 (Lseek 3 (-1) 2)).
  - vm_compute. reflexivity.
  - vm_compute. reflexivity.
  - repeat constructor; cbn; lia.
Defined.

(** ** Types of the results *)

(** The bits of EAX a routine defines: those of its result type. *)
Definition same_result (h : handler) (r r' : Z) : Prop :=
  r mod 2 ^ width (prototype h).2 = r' mod 2 ^ width (prototype h).2.



(** [sys_wait] returns a [pid_t], which is 16 bits wide, and [wait] takes all 32
    bits of the register for its result. *)
Lemma wait_reads_undefined_bits : exists r r', same_result sys_wait r r' /\
  conv (stub_prototype (Wait 0)).2 (u32 r) <> conv (stub_prototype (Wait 0)).2 (u32 r').
Proof. exists 0x10003, 3. split; vm_compute; [reflexivity|discriminate]. Qed.

(** Entry 31 is never assigned and the number in EAX is not compared with the
    size of the table: with any other number the processor jumps to what is
    found there. *)
Lemma unknown_number_not_refused {K} (run : handler -> list Z -> M (intr_stack * K) (option Z)) table kesp m :
  syscall_init empty_table = Ok table -> ~ (0 <= c_eax (regs m) <= 30) -> syscall_handler run table kesp m = Fault.
Proof.
  intros Ht Hn. destruct table_ready as [table' [E _]]. rewrite E in Ht. injection Ht as <-.
  vm_compute in E. injection E as <-. unfold syscall_handler, aget.
  destruct (Z.ltb_spec (c_eax (regs m)) 0); [done|].
  destruct (decide (c_eax (regs m) = 31)) as [->|Hne]; [reflexivity|].
  rewrite lookup_ge_None_2; [done|]. cbn. lia.
Qed.
