(* ===== verification/Startup.v ===== *)
(** * Tables and devices at start-up (userprog/tss.c, kernel/interrupt.c, device/timer.c, kernel/kernel.s)

    What [init_all] leaves in the descriptor tables, in the two interrupt
    controllers and in the interval timer before interrupts are enabled.  The
    controllers are modelled as far as they are programmed: the initialisation
    words, the mask, and which vector a request line raises. *)

From S2P Require Import Prelude Interrupt Process Ioqueue.

(** ** The global descriptor table *)

(** [struct gdt_desc] *)
Record gdt_desc : Type := mk_gdt_desc {
  limit_low_word : Z; base_low_word : Z; base_mid_byte : Z; attr_low_byte : Z; limit_high_attr_high : Z; base_high_byte : Z
}.

(** Attributes: [(P << 7) + (DPL << 5) + (S << 4) + TYPE] and [(G << 7) + (D << 6) + (L << 5) + (AVL << 4)]. *)
Definition GDT_ATTR_HIGH : Z := Z.shiftl 1 7 + Z.shiftl 1 6 + Z.shiftl 0 5 + Z.shiftl 0 4.
Definition GDT_CODE_ATTR_LOW_DPL3 : Z := Z.shiftl 1 7 + Z.shiftl 3 5 + Z.shiftl 1 4 + 8.
Definition GDT_DATA_ATTR_LOW_DPL3 : Z := Z.shiftl 1 7 + Z.shiftl 3 5 + Z.shiftl 1 4 + 2.
Definition TSS_ATTR_HIGH : Z := Z.shiftl 1 7 + Z.shiftl 0 6 + Z.shiftl 0 5 + Z.shiftl 0 4 + 0x0.
Definition TSS_ATTR_LOW : Z := Z.shiftl 1 7 + Z.shiftl 0 5 + Z.shiftl 0 4 + 9.
Definition SELECTOR_TSS : Z := Z.shiftl 4 3 + Z.shiftl 0 2 + 0.
Definition SELECTOR_K_STACK : Z := Z.shiftl 2 3 + Z.shiftl 0 2 + 0.

Definition make_gdt_desc (desc_base limit attr_low attr_high : Z) : gdt_desc :=
  mk_gdt_desc (u16 (Z.land limit 0x0000ffff)) (u16 (Z.land desc_base 0x0000ffff))
    (u8 (Z.shiftr (Z.land desc_base 0x00ff0000) 16)) (u8 attr_low)
    (u8 (Z.shiftr (Z.land limit 0x000f0000) 16 + u8 attr_high)) (u8 (Z.shiftr desc_base 24)).

(** [struct tss] *)
Record tss : Type := mk_tss {
  backlink : Z; esp0 : Z; ss0 : Z; esp1 : Z; ss1 : Z; esp2 : Z; ss2 : Z; t_cr3 : Z; t_eip : Z; t_eflags : Z;
  t_eax : Z; t_ecx : Z; t_edx : Z; t_ebx : Z; t_esp : Z; t_ebp : Z; t_esi : Z; t_edi : Z; t_es : Z; t_cs : Z;
  t_ss : Z; t_ds : Z; t_fs : Z; t_gs : Z; ldt : Z; trace : Z; io_base : Z
}.
Definition sizeof_tss : Z := 27 * 4.
Definition zero_tss : tss := mk_tss 0 0 0 0 0 0 0 0 0 0 0 0 0 0 0 0 0 0 0 0 0 0 0 0 0 0 0.

(** The table at [0xc0001000] with the registers that point at it. *)
Record segments : Type := mk_segments { gdt : list gdt_desc; gdtr : Z; tr : Z; the_tss : tss }.

Definition GDT_BASE : Z := 0xc0001000.

(** A store of a descriptor at an address of the table. *)
Definition store_desc (addr : Z) (d : gdt_desc) : M segments () :=
  s ← getS;
  l ← liftO (aset (gdt s) ((addr - GDT_BASE) / 8) d);
  putS (mk_segments l (gdtr s) (tr s) (the_tss s)).

(** [tss_addr] is the address of the static structure. *)
Definition tss_init (tss_addr : Z) : M segments () :=
  let tss_size := sizeof_tss in
  _ ← modS (fun s => mk_segments (gdt s) (gdtr s) (tr s)
              (mk_tss 0 0 SELECTOR_K_STACK 0 0 0 0 0 0 0 0 0 0 0 0 0 0 0 0 0 0 0 0 0 0 0 tss_size));
  _ ← store_desc 0xc0001020 (make_gdt_desc tss_addr (tss_size - 1) TSS_ATTR_LOW TSS_ATTR_HIGH);
  _ ← store_desc 0xc0001028 (make_gdt_desc 0 0xfffff GDT_CODE_ATTR_LOW_DPL3 GDT_ATTR_HIGH);
  _ ← store_desc 0xc0001030 (make_gdt_desc 0 0xfffff GDT_DATA_ATTR_LOW_DPL3 GDT_ATTR_HIGH);
  let gdt_operand := Z.lor (8 * 7 - 1) (Z.shiftl GDT_BASE 16) in
  modS (fun s => mk_segments (gdt s) gdt_operand SELECTOR_TSS (the_tss s)).

(** ** How the processor reads a descriptor *)
Definition desc_base (d : gdt_desc) : Z :=
  base_low_word d + 2 ^ 16 * base_mid_byte d + 2 ^ 24 * base_high_byte d.
Definition desc_limit (d : gdt_desc) : Z := limit_low_word d + 2 ^ 16 * (limit_high_attr_high d mod 16).
Definition desc_big (d : gdt_desc) : bool := Z.testbit (limit_high_attr_high d) 7.
(** The offset of the last byte: with the granularity bit the limit counts pages. *)
Definition last_byte (d : gdt_desc) : Z := if desc_big d then desc_limit d * 4096 + 4095 else desc_limit d.
Definition desc_present (d : gdt_desc) : bool := Z.testbit (attr_low_byte d) 7.
Definition desc_dpl (d : gdt_desc) : Z := attr_low_byte d / 32 mod 4.
Definition desc_type (d : gdt_desc) : Z := attr_low_byte d mod 32.    (* S and TYPE *)

(** The descriptor a selector names, within the limit of GDTR. *)
Definition descriptor (s : segments) (sel : Z) : option gdt_desc :=
  if sel / 8 * 8 + 7 <=? gdtr s mod 2 ^ 16 then gdt s !! Z.to_nat (sel / 8) else None.

(** ** The interrupt controllers *)

(** An 8259A: the byte it expects at its data port (ICW2, ICW3, ICW4, or the mask),
    the vector of its first line, the wiring of the cascade, and the mask. *)
Inductive expects : Type := ICW2 | ICW3 | ICW4 | OCW1.
Record pic : Type := mk_pic { next_word : expects; vector_base : Z; cascade : Z; mode : Z; imr : Z }.

(** ICW1 starts the sequence (bit 4) and clears the mask; other words at the
    control port (the end of an interrupt) change nothing here. *)
Definition pic_ctrl (v : Z) (p : pic) : pic :=
  if Z.testbit v 4 then mk_pic ICW2 (vector_base p) (cascade p) (mode p) 0 else p.
Definition pic_data (v : Z) (p : pic) : pic :=
  match next_word p with
  | ICW2 => mk_pic ICW3 v (cascade p) (mode p) (imr p)
  | ICW3 => mk_pic ICW4 (vector_base p) v (mode p) (imr p)
  | ICW4 => mk_pic OCW1 (vector_base p) (cascade p) v (imr p)
  | OCW1 => mk_pic OCW1 (vector_base p) (cascade p) (mode p) v
  end.

(** The interval timer: the control word, the bytes of the count written so far. *)
Record pit : Type := mk_pit { control : Z; count_bytes : list Z }.

(** The devices and the tables of interrupt.c. *)
Record board : Type := mk_board {
  pic_m : pic; pic_s : pic; timer0 : pit;
  idt : list gate_desc; idtr : Z; idt_table : list Z; intr_name : list string
}.

Definition PIC_M_CTRL : Z := 0x20.
Definition PIC_M_DATA : Z := 0x21.
Definition PIC_S_CTRL : Z := 0xa0.
Definition PIC_S_DATA : Z := 0xa1.
Definition PIT_CONTROL_PORT : Z := 0x43.
Definition CONTRER0_PORT : Z := 0x40.

Definition set_pic_m (p : pic) (b : board) : board := mk_board p (pic_s b) (timer0 b) (idt b) (idtr b) (idt_table b) (intr_name b).
Definition set_pic_s (p : pic) (b : board) : board := mk_board (pic_m b) p (timer0 b) (idt b) (idtr b) (idt_table b) (intr_name b).
Definition set_timer0 (p : pit) (b : board) : board := mk_board (pic_m b) (pic_s b) p (idt b) (idtr b) (idt_table b) (intr_name b).
Definition set_idt (l : list gate_desc) (b : board) : board := mk_board (pic_m b) (pic_s b) (timer0 b) l (idtr b) (idt_table b) (intr_name b).
Definition set_idtr (v : Z) (b : board) : board := mk_board (pic_m b) (pic_s b) (timer0 b) (idt b) v (idt_table b) (intr_name b).
Definition set_idt_table (l : list Z) (b : board) : board := mk_board (pic_m b) (pic_s b) (timer0 b) (idt b) (idtr b) l (intr_name b).
Definition set_intr_name (l : list string) (b : board) : board := mk_board (pic_m b) (pic_s b) (timer0 b) (idt b) (idtr b) (idt_table b) l.

(** [outb %b0, %w1]: the low byte reaches the port. *)
Definition outb (port v : Z) : M board () := modS (fun b =>
  let v := u8 v in
  if port =? PIC_M_CTRL then set_pic_m (pic_ctrl v (pic_m b)) b
  else if port =? PIC_M_DATA then set_pic_m (pic_data v (pic_m b)) b
  else if port =? PIC_S_CTRL then set_pic_s (pic_ctrl v (pic_s b)) b
  else if port =? PIC_S_DATA then set_pic_s (pic_data v (pic_s b)) b
  else if port =? PIT_CONTROL_PORT then set_timer0 (mk_pit v []) b
  else if port =? CONTRER0_PORT then set_timer0 (mk_pit (control (timer0 b)) (count_bytes (timer0 b) ++ [v])) b
  else b).

Definition pic_init : M board () :=
  _ ← outb PIC_M_CTRL 0x11; _ ← outb PIC_M_DATA 0x20; _ ← outb PIC_M_DATA 0x04; _ ← outb PIC_M_DATA 0x01;
  _ ← outb PIC_S_CTRL 0x11; _ ← outb PIC_S_DATA 0x28; _ ← outb PIC_S_DATA 0x02; _ ← outb PIC_S_DATA 0x01;
  _ ← outb PIC_M_DATA 0xf8;
  outb PIC_S_DATA 0xbf.

(** ** Handlers *)

Section Handlers.
(** Addresses of routines and tables. *)
Context (general_intr_handler_addr intr_timer_handler syscall_handler idt_addr : Z).

(** The names by vector; 15 and those from 20 on keep the name of the loop. *)
Definition names : list (Z * string) :=
  [(0, "#DE Divide Error"); (1, "#DB Debug Exception"); (2, "NMI Interrupt"); (3, "#BP Breakpoint Exception");
   (4, "#OF Overflow Exception"); (5, "#BR BOUND Range Exceeded Exception"); (6, "#UD Invalid Opcode Exception");
   (7, "#NM Device Not Available Exception"); (8, "#DF Double Fault Exception"); (9, "Coprocessor Segment Overrun");
   (10, "#TS Invalid TSS Exception"); (11, "#NP Segment Not Present"); (12, "#SS Stack Fault Exception");
   (13, "#GP General Protection Exception"); (14, "#PF Page-Fault Exception"); (16, "#MF x87 FPU Floating-Point Error");
   (17, "#AC Alignment Check Exception"); (18, "#MC Machine-Check Exception"); (19, "#XF SIMD Floating-Point Exception")]%string.

Fixpoint assign_names (l : list (Z * string)) : M board () :=
  match l with
  | [] => mret tt
  | (i, n) :: l =>
      b ← getS;
      t ← liftO (aset (intr_name b) i n);
      _ ← modS (set_intr_name t);
      assign_names l
  end.

(** The loop over the [IDT_DESC_CNT] vectors. *)
Fixpoint exception_loop (n : nat) (i : Z) : M board () :=
  match n with
  | O => mret tt
  | S n' =>
      b ← getS;
      t ← liftO (aset (idt_table b) i general_intr_handler_addr);
      _ ← modS (set_idt_table t);
      u ← liftO (aset (intr_name b) i "unknown"%string);
      _ ← modS (set_intr_name u);
      exception_loop n' (i + 1)
  end.

Definition exception_init : M board () :=
  _ ← exception_loop (Z.to_nat IDT_DESC_CNT) 0;
  assign_names names.

(** [intr_entry_table] as memory shows it from the address of the table on. *)
Definition idt_init (intr_entry_table : list Z) : M board () :=
  g ← liftO (idt_desc_init intr_entry_table syscall_handler);
  _ ← modS (set_idt g);
  _ ← exception_init;
  _ ← pic_init;
  modS (set_idtr (Z.lor (8 * IDT_DESC_CNT - 1) (Z.shiftl idt_addr 16))).

(** ** The interval timer *)
Definition IRQ0_FREQUENCY : Z := 100.
Definition INPUT_FREQUENCY : Z := 1193180.
Definition COUNTER0_VALUE : Z := INPUT_FREQUENCY / IRQ0_FREQUENCY.
Definition COUNTER0_NO : Z := 0.
Definition COUNTER_MODE : Z := 2.
Definition READ_WRITE_LATCH : Z := 3.

Definition frequency_set (counter_port counter_no rwl counter_mode counter_value : Z) : M board () :=
  _ ← outb PIT_CONTROL_PORT (Z.lor (Z.lor (Z.shiftl counter_no 6) (Z.shiftl rwl 4)) (Z.shiftl counter_mode 1));
  _ ← outb counter_port (u8 counter_value);
  outb counter_port (u8 (Z.shiftr counter_value 8)).

Definition board_register (vector_no function : Z) : M board () :=
  b ← getS;
  t ← liftO (register_handler (idt_table b) vector_no function);
  modS (set_idt_table t).

Definition timer_init : M board () :=
  _ ← frequency_set CONTRER0_PORT COUNTER0_NO READ_WRITE_LATCH COUNTER_MODE (u16 COUNTER0_VALUE);
  board_register 0x20 intr_timer_handler.

(** [keyboard_init] on the ring of the keyboard; the lock of the ring is one of
    the locks of the kernel ([lock_init]). *)
Definition keyboard_init (intr_keyboard_handler : Z) (kbd_buf : ioqueue) : M board ioqueue :=
  let kbd_buf := ioqueue_init kbd_buf in
  _ ← board_register 0x21 intr_keyboard_handler;
  mret kbd_buf.

End Handlers.

(** ** Sleeping *)

(** What the sleeping routines use of the scheduler: the count of interrupts
    and [thread_yield], which comes back after others have run. *)
Class Clock (S : Type) : Type := {
  ticks : S -> Z;
  thread_yield : M S ()
}.

Section Sleep.
Context {S : Type} `{!Clock S}.

Definition mil_seconds_per_intr : Z := 1000 / IRQ0_FREQUENCY.

Fixpoint sleep_loop (fuel : nat) (start_tick sleep_ticks : Z) : M S () :=
  match fuel with
  | O => fun _ => NoFuel
  | Datatypes.S fuel =>
      s ← getS;
      if u32 (ticks s - start_tick) <? sleep_ticks
      then _ ← thread_yield; sleep_loop fuel start_tick sleep_ticks
      else mret tt
  end.

Definition ticks_to_sleep (fuel : nat) (sleep_ticks : Z) : M S () :=
  s ← getS; sleep_loop fuel (ticks s) sleep_ticks.

Definition mtime_sleep (fuel : nat) (m_seconds : Z) : M S () :=
  let sleep_ticks := DIV_ROUND_UP m_seconds mil_seconds_per_intr in
  _ ← assertM (0 <? sleep_ticks) "mtime_sleep: sleep_ticks > 0";
  ticks_to_sleep fuel sleep_ticks.

(** [k] times [thread_yield]. *)
Fixpoint yields (k : nat) : M S () :=
  match k with O => mret tt | Datatypes.S k => _ ← thread_yield; yields k end.

Lemma yields_inv k s s2 : yields (Datatypes.S k) s = Ok (tt, s2) -> exists s1, thread_yield s = Ok (tt, s1) /\ yields k s1 = Ok (tt, s2).
Proof. cbn [yields]. intros E. apply mbindM_inv in E as ([] & s' & E & E1). eauto. Qed.

(** The counter is the number of interrupts since start-up, modulo [2 ^ 32]. *)
Context (elapsed : S -> Z).

(** A yield takes less than [2 ^ 32 - n] interrupts. *)
Definition brief (n : Z) (s : S) : Prop :=
  forall s', thread_yield s = Ok (tt, s') -> elapsed s <= elapsed s' < elapsed s + 2 ^ 32 - n.

Lemma sleep_loop_run n t0 k : forall fuel s sk,
  (forall s, ticks s = u32 (elapsed s)) -> (forall s, brief n s) -> (k < fuel)%nat -> 0 < n < 2 ^ 32 ->
  t0 <= elapsed s < t0 + 2 ^ 32 -> yields k s = Ok (tt, sk) -> t0 + n <= elapsed sk ->
  exists k' s', (k' <= k)%nat /\ sleep_loop fuel (u32 t0) n s = Ok (tt, s') /\ yields k' s = Ok (tt, s') /\
    t0 + n <= elapsed s' /\ forall j sj, (j < k')%nat -> yields j s = Ok (tt, sj) -> elapsed sj < t0 + n.
Proof.
  induction k as [|k IH]; intros [|fuel] s sk Ht Hb Hf Hn H0 Hy Hk; try lia; cbn [sleep_loop]; rewrite getS_bind.
  all: assert (u32 (ticks s - u32 t0) = elapsed s - t0) as ->
    by (rewrite Ht; unfold wrapu; rewrite <- Zminus_mod; apply Z.mod_small; lia).
  - cbn in Hy. injection Hy as ->. destruct (Z.ltb_spec (elapsed sk - t0) n); [lia|].
    exists O, sk. split; [lia|]. split; [done|]. split; [done|]. split; [done|]. lia.
  - destruct (Z.ltb_spec (elapsed s - t0) n).
    + apply yields_inv in Hy as (s1 & E1 & Hy). erewrite mbindM_Ok by exact E1.
      destruct (IH fuel s1 sk) as (k' & s' & Hk' & E & Ey & He & Hj); [done|done|lia|lia| |done|done|].
      { pose proof (Hb s s1 E1). lia. }
      exists (Datatypes.S k'), s'. split; [lia|]. split; [done|]. split; [cbn [yields]; by erewrite mbindM_Ok by exact E1|].
      split; [done|]. intros [|j] sj Hlt E2; [cbn in E2; injection E2 as <-; lia|].
      apply yields_inv in E2 as (s1' & E1' & E2). rewrite E1 in E1'. injection E1' as <-. apply (Hj j sj); [lia|done].
    + exists O, s. split; [lia|]. split; [done|]. split; [done|]. split; [lia|]. lia.
Qed.

(** [mtime_sleep] gives the processor away until ceil(ms / 10) interrupts
    have come, and then returns at its first look at the counter, also when the
    counter wraps around in between. *)
Theorem mtime_sleep_waits ms fuel k s sk :
  (forall s, ticks s = u32 (elapsed s)) -> (forall s, brief ((ms + 9) / 10) s) -> 0 < ms -> ms + 9 < 2 ^ 32 ->
  yields k s = Ok (tt, sk) -> elapsed s + (ms + 9) / 10 <= elapsed sk -> (k < fuel)%nat ->
  exists k' s', (k' <= k)%nat /\ mtime_sleep fuel ms s = Ok (tt, s') /\ yields k' s = Ok (tt, s') /\
    elapsed s + (ms + 9) / 10 <= elapsed s' /\
    forall j sj, (j < k')%nat -> yields j s = Ok (tt, sj) -> elapsed sj < elapsed s + (ms + 9) / 10.
Proof.
  intros Ht Hb H0 Hms Hy Hk Hf.
  assert (DIV_ROUND_UP ms mil_seconds_per_intr = (ms + 9) / 10) as Ed.
  { unfold DIV_ROUND_UP. change mil_seconds_per_intr with 10. replace (ms + 10 - 1) with (ms + 9) by lia.
    rewrite (wrapu_small 32 (ms + 9)) by lia. apply wrapu_small. split; [apply Z.div_pos; lia|]. apply Z.div_lt_upper_bound; lia. }
  assert (0 < (ms + 9) / 10 < 2 ^ 32) as Hn by (split; [apply Z.div_str_pos; lia|apply Z.div_lt_upper_bound; lia]).
  destruct (sleep_loop_run ((ms + 9) / 10) (elapsed s) k fuel s sk) as (k' & s' & R); [done|done|done|done|lia|done|done|].
  exists k', s'. destruct R as (R1 & R2 & R3). split; [done|]. split; [|done].
  unfold mtime_sleep. rewrite Ed. destruct (Z.ltb_spec 0 ((ms + 9) / 10)); [|lia].
  unfold assertM. rewrite (liftO_bind _ tt) by done. unfold ticks_to_sleep. rewrite getS_bind, Ht. exact R2.
Qed.

End Sleep.

(** A machine on which three interrupts come while others run. *)
#[local] Instance demo_clock : Clock Z := {| ticks s := u32 s; thread_yield := modS (fun s => s + 3) |}.

Lemma mtime_sleep_waits_witness :
  exists k' s', (k' <= 4)%nat /\ mtime_sleep 9 95 (2 ^ 32 - 2) = Ok (tt, s') /\ yields k' (2 ^ 32 - 2) = Ok (tt, s') /\
    2 ^ 32 - 2 + 10 <= s' /\ forall j sj, (j < k')%nat -> yields j (2 ^ 32 - 2) = Ok (tt, sj) -> sj < 2 ^ 32 - 2 + 10.
Proof.
  apply (mtime_sleep_waits (fun s => s) 95 9 4 (2 ^ 32 - 2) (2 ^ 32 + 10)).
  - reflexivity.
  - intros s s' E. cbn in E. injection E as <-. change ((95 + 9) / 10) with 10. lia.
  - lia.
  - lia.
  - reflexivity.
  - change ((95 + 9) / 10) with 10. lia.
  - lia.
Defined.

(** Asking for no time at all, or for almost 50 days, fails the ASSERT. *)
Lemma mtime_sleep_zero_panics {S} `{!Clock S} fuel ms (s : S) : ms = 0 \/ 2 ^ 32 - 9 <= ms < 2 ^ 32 ->
  mtime_sleep fuel ms s = Panic "mtime_sleep: sleep_ticks > 0".
Proof.
  intros H. unfold mtime_sleep. replace (DIV_ROUND_UP ms mil_seconds_per_intr) with 0; [done|].
  unfold DIV_ROUND_UP. change mil_seconds_per_intr with 10. destruct H as [->|H]; [done|].
  assert (u32 (ms + 10 - 1) = ms + 9 - 2 ^ 32) as ->.
  { unfold wrapu. symmetry. apply (Z.mod_unique_pos _ _ 1); lia. }
  rewrite Z.div_small by lia. done.
Qed.

(** ** Descriptors say what they were made for *)

Lemma land_low (z n : Z) : 0 <= n -> Z.land z (Z.ones n) = z mod 2 ^ n.
Proof. apply Z.land_ones. Qed.

Lemma shifted_field (z lo n : Z) : 0 <= lo -> 0 <= n -> Z.shiftr (Z.land z (Z.shiftl (Z.ones n) lo)) lo = z / 2 ^ lo mod 2 ^ n.
Proof.
  intros Hl Hn. rewrite Z.shiftr_land, Z.shiftr_shiftl_l, Z.sub_diag, Z.shiftl_0_r by lia.
  by rewrite Z.land_ones, Z.shiftr_div_pow2 by lia.
Qed.

Lemma split_base (b : Z) : 0 <= b < 2 ^ 32 ->
  b mod 2 ^ 16 + 2 ^ 16 * (b / 2 ^ 16 mod 2 ^ 8) + 2 ^ 24 * (b / 2 ^ 24) = b.
Proof. intros H. Z.to_euclidean_division_equations. lia. Qed.

Lemma make_gdt_desc_decodes (base limit attr_low attr_high : Z) :
  0 <= base < 2 ^ 32 -> 0 <= limit < 2 ^ 20 -> 0 <= attr_low < 2 ^ 8 -> 0 <= attr_high < 2 ^ 8 -> attr_high mod 16 = 0 ->
  let d := make_gdt_desc base limit attr_low attr_high in
  desc_base d = base /\ desc_limit d = limit /\ attr_low_byte d = attr_low /\ desc_big d = Z.testbit attr_high 7.
Proof.
  intros Hb Hl Ha Hh H0. unfold make_gdt_desc.
  change 0x0000ffff with (Z.ones 16). change 0x00ff0000 with (Z.shiftl (Z.ones 8) 16). change 0x000f0000 with (Z.shiftl (Z.ones 4) 16).
  rewrite !land_low, !shifted_field, Z.shiftr_div_pow2 by lia.
  assert (0 <= base / 2 ^ 24 < 2 ^ 8) by (Z.to_euclidean_division_equations; lia).
  assert (0 <= limit / 2 ^ 16 < 2 ^ 4) as Hq by (Z.to_euclidean_division_equations; lia).
  rewrite (wrapu_small 8 (base / 2 ^ 24)), (wrapu_small 8 attr_high), (wrapu_small 8 attr_low) by lia.
  rewrite (Z.mod_small (limit / 2 ^ 16)) by lia.
  rewrite (wrapu_small 16 (base mod _)), (wrapu_small 16 (limit mod _)), (wrapu_small 8 (_ mod 2 ^ 8)) by (apply Z.mod_pos_bound; lia).
  assert (limit / 2 ^ 16 + attr_high < 2 ^ 8) by (Z.to_euclidean_division_equations; lia).
  rewrite (wrapu_small 8 (_ + _)) by lia.
  unfold desc_base, desc_limit, desc_big. cbn [base_low_word base_mid_byte base_high_byte limit_low_word limit_high_attr_high attr_low_byte].
  repeat split.
  - by apply split_base.
  - rewrite Z.add_mod, H0, Z.add_0_r, Z.mod_mod, (Z.mod_small _ 16) by lia. Z.to_euclidean_division_equations. lia.
  - replace (limit / 2 ^ 16 + attr_high) with (limit / 2 ^ 16 + (attr_high / 16) * 2 ^ 4) by (Z.to_euclidean_division_equations; lia).
    rewrite !Z.testbit_odd, !Z.shiftr_div_pow2 by lia. f_equal.
    replace (2 ^ 7) with (2 ^ 4 * 2 ^ 3) by done. rewrite <- !Z.div_div by lia. rewrite Z.div_add, (Z.div_small (_ / _) (2 ^ 4)) by lia. done.
Qed.

Lemma store_desc_run (i : nat) (d : gdt_desc) (s : segments) : (i < length (gdt s))%nat ->
  store_desc (GDT_BASE + 8 * Z.of_nat i) d s = Ok (tt, mk_segments (<[i := d]> (gdt s)) (gdtr s) (tr s) (the_tss s)).
Proof.
  intros H. unfold store_desc. rewrite getS_bind.
  replace (GDT_BASE + 8 * Z.of_nat i - GDT_BASE) with (Z.of_nat i * 8) by lia. rewrite Z.div_mul by done.
  rewrite (liftO_bind _ (<[i := d]> (gdt s))); [done|]. rewrite aset_Ok by lia. by rewrite Nat2Z.id.
Qed.

(** The table and the registers as [tss_init] leaves them. *)
Lemma tss_init_run (tss_addr : Z) (s : segments) : (7 <= length (gdt s))%nat ->
  tss_init tss_addr s = Ok (tt, mk_segments
    (<[6%nat := make_gdt_desc 0 0xfffff GDT_DATA_ATTR_LOW_DPL3 GDT_ATTR_HIGH]>
      (<[5%nat := make_gdt_desc 0 0xfffff GDT_CODE_ATTR_LOW_DPL3 GDT_ATTR_HIGH]>
        (<[4%nat := make_gdt_desc tss_addr (sizeof_tss - 1) TSS_ATTR_LOW TSS_ATTR_HIGH]> (gdt s))))
    (Z.lor (8 * 7 - 1) (Z.shiftl GDT_BASE 16)) SELECTOR_TSS
    (mk_tss 0 0 SELECTOR_K_STACK 0 0 0 0 0 0 0 0 0 0 0 0 0 0 0 0 0 0 0 0 0 0 0 sizeof_tss)).
Proof.
  intros H. unfold tss_init. rewrite modS_bind.
  erewrite mbindM_Ok by (apply (store_desc_run 4); cbn [gdt]; lia).
  erewrite mbindM_Ok by (apply (store_desc_run 5); cbn [gdt]; rewrite length_insert; lia).
  erewrite mbindM_Ok by (apply (store_desc_run 6); cbn [gdt]; rewrite !length_insert; lia).
  reflexivity.
Qed.

(** A segment that covers all four gigabytes, as a selector loads it. *)
Definition flat_segment (s : segments) (sel type dpl : Z) : Prop :=
  exists d, descriptor s sel = Some d /\ desc_present d = true /\ desc_base d = 0 /\ last_byte d = 2 ^ 32 - 1 /\
    desc_type d = type /\ desc_dpl d = dpl.

(** After [tss_init] the three new slots of the table hold what the
    selectors of the kernel expect: the task state segment (present, available
    32-bit TSS, ring 0, at the address of the structure), and flat code and data
    segments of ring 3 under the selectors that [start_process] puts in the
    frame of a process, whose requested privilege is 3.  The first four
    descriptors are not touched, and the structure gives the stack of the kernel. *)
Theorem tss_init_segments (tss_addr : Z) (s : segments) :
  0 <= tss_addr < 2 ^ 32 -> (7 <= length (gdt s))%nat ->
  exists s', tss_init tss_addr s = Ok (tt, s') /\
    (exists d, descriptor s' SELECTOR_TSS = Some d /\ desc_present d = true /\ desc_base d = tss_addr /\
       desc_limit d = sizeof_tss - 1 /\ desc_type d = 9 /\ desc_dpl d = 0) /\
    flat_segment s' SELECTOR_U_CODE (16 + 8) 3 /\ flat_segment s' SELECTOR_U_DATA (16 + 2) 3 /\
    SELECTOR_U_CODE mod 4 = 3 /\ SELECTOR_U_DATA mod 4 = 3 /\
    take 4 (gdt s') = take 4 (gdt s) /\ gdtr s' / 2 ^ 16 = GDT_BASE /\ tr s' = SELECTOR_TSS /\
    ss0 (the_tss s') = SELECTOR_K_STACK.
Proof.
  intros Ha Hl. destruct s as [g r t ts]. cbn in Hl.
  destruct g as [|d0 [|d1 [|d2 [|d3 [|d4 [|d5 [|d6 g]]]]]]]; cbn in Hl; try lia.
  eexists. split; [apply tss_init_run; cbn; lia|].
  destruct (make_gdt_desc_decodes tss_addr (sizeof_tss - 1) TSS_ATTR_LOW TSS_ATTR_HIGH) as (B & L & A & _); [done|done|done|done|done|].
  split; [|repeat split; try reflexivity; eexists; repeat split; reflexivity].
  eexists. split; [reflexivity|]. unfold desc_present, desc_dpl, desc_type. rewrite A, B, L. done.
Qed.

Definition demo_segments : segments := mk_segments (replicate 7 (mk_gdt_desc 0 0 0 0 0 0)) 0x1000001F 0 zero_tss.

Lemma tss_init_segments_witness :
  exists s', tss_init 0xc0012340 demo_segments = Ok (tt, s') /\
    flat_segment s' SELECTOR_U_CODE (16 + 8) 3 /\ flat_segment s' SELECTOR_U_DATA (16 + 2) 3 /\ tr s' = SELECTOR_TSS.
Proof.
  destruct (tss_init_segments 0xc0012340 demo_segments) as (s' & E & _ & C & D & _ & _ & _ & _ & T & _); [lia|cbn; lia|].
  exists s'. done.
Defined.

(** The limit of the task state segment counts pages: the permission bitmap
    [io_base] announces, meant to lie behind the end of the segment, lies inside
    it, on the memory that follows the structure. *)
Lemma io_map_inside_segment (tss_addr : Z) (s s' : segments) :
  0 <= tss_addr < 2 ^ 32 -> (7 <= length (gdt s))%nat -> tss_init tss_addr s = Ok (tt, s') ->
  exists d, descriptor s' SELECTOR_TSS = Some d /\ io_base (the_tss s') + 8192 <= last_byte d.
Proof.
  intros Ha Hl. destruct s as [g r t ts]. cbn in Hl.
  destruct g as [|d0 [|d1 [|d2 [|d3 [|d4 [|d5 [|d6 g]]]]]]]; cbn in Hl; try lia.
  rewrite tss_init_run by (cbn; lia). intros [= <-]. eexists. split; [reflexivity|].
  destruct (make_gdt_desc_decodes tss_addr (sizeof_tss - 1) TSS_ATTR_LOW TSS_ATTR_HIGH) as (_ & L & _ & G); [done|done|done|done|done|].
  unfold last_byte. rewrite G, L. done.
Qed.

(** ** Interrupts reach their handlers *)

Definition masked_line (p : pic) (n : Z) : bool := Z.testbit (imr p) n.

(** The vector the processor gets for a request on line [irq]: the lines of the
    second controller pass through the line of the first one they are wired to,
    which carries no device of its own. *)
Definition irq_vector (b : board) (irq : Z) : option Z :=
  if irq <? 8 then
    if Z.testbit (cascade (pic_m b)) irq || masked_line (pic_m b) irq then None else Some (vector_base (pic_m b) + irq)
  else
    let line := cascade (pic_s b) in
    if negb (Z.testbit (cascade (pic_m b)) line) || masked_line (pic_m b) line || masked_line (pic_s b) (irq - 8) then None
    else Some (vector_base (pic_s b) + (irq - 8)).

(** The routine of the kernel that runs: through the gate to an entry of
    kernel.s, the [i]th of which calls [idt_table[i]]. *)
Definition irq_routine (entries : list Z) (b : board) (irq : Z) : option Z :=
  v ← irq_vector b irq;
  g ← idt b !! Z.to_nat v;
  '(i, _) ← list_find (fun e => e = gate_offset g) entries;
  idt_table b !! i.

(** Programming the controllers leaves them initialised whatever they were. *)
Lemma pic_init_run b : pic_init b = Ok (tt, set_pic_s (mk_pic OCW1 0x28 2 1 0xbf) (set_pic_m (mk_pic OCW1 0x20 4 1 0xf8) b)).
Proof. reflexivity. Qed.

Lemma exception_loop_run g n : forall i b, 0 <= i -> (Z.to_nat i + n <= length (idt_table b))%nat -> length (intr_name b) = length (idt_table b) ->
  exists t u, exception_loop g n i b = Ok (tt, set_intr_name u (set_idt_table t b)) /\
    length t = length (idt_table b) /\ length u = length (intr_name b) /\
    (forall j, (Z.to_nat i <= j < Z.to_nat i + n)%nat -> t !! j = Some g) /\
    (forall j, (j < Z.to_nat i)%nat -> t !! j = idt_table b !! j).
Proof.
  induction n as [|n IH]; intros i b Hi Hl He; cbn [exception_loop].
  { exists (idt_table b), (intr_name b). split; [by destruct b|]. split; [done|]. split; [done|]. split; [intros; lia|done]. }
  rewrite getS_bind, (liftO_bind _ (<[Z.to_nat i := g]> (idt_table b))) by (apply aset_Ok; lia).
  rewrite modS_bind, (liftO_bind _ (<[Z.to_nat i := "unknown"%string]> (intr_name b))) by (apply aset_Ok; lia).
  rewrite modS_bind. set (b' := set_intr_name _ _).
  assert (length (idt_table b') = length (idt_table b)) as El by apply length_insert.
  assert (length (intr_name b') = length (intr_name b)) as En by apply length_insert.
  destruct (IH (i + 1) b') as (t & u & E & Lt & Lu & Hg & Hk); [lia|rewrite El; lia|congruence|].
  exists t, u. rewrite E. split; [done|]. split; [congruence|]. split; [congruence|].
  replace (Z.to_nat (i + 1)) with (Datatypes.S (Z.to_nat i)) in * by lia. split.
  - intros j Hj. destruct (decide (j = Z.to_nat i)) as [->|]; [|apply Hg; lia].
    rewrite Hk by lia. apply list_lookup_insert_eq. lia.
  - intros j Hj. rewrite Hk by lia. apply list_lookup_insert_ne. lia.
Qed.

Lemma assign_names_run l : forall b, Forall (fun e => 0 <= e.1 < Z.of_nat (length (intr_name b))) l ->
  exists u, assign_names l b = Ok (tt, set_intr_name u b) /\ length u = length (intr_name b).
Proof.
  induction l as [|[i n] l IH]; intros b H; cbn [assign_names].
  { exists (intr_name b). split; [by destruct b|done]. }
  apply Forall_cons in H as [Hi H]. cbn in Hi.
  rewrite getS_bind, (liftO_bind _ (<[Z.to_nat i := n]> (intr_name b))) by (apply aset_Ok; lia).
  rewrite modS_bind. destruct (IH (set_intr_name (<[Z.to_nat i := n]> (intr_name b)) b)) as (u & E & L).
  - cbn. by rewrite length_insert.
  - exists u. rewrite E. split; [done|]. rewrite L. apply length_insert.
Qed.

Lemma exception_init_run g b : length (idt_table b) = Z.to_nat IDT_DESC_CNT -> length (intr_name b) = Z.to_nat IDT_DESC_CNT ->
  exists u, exception_init g b = Ok (tt, set_intr_name u (set_idt_table (replicate (Z.to_nat IDT_DESC_CNT) g) b)).
Proof.
  intros Ht Hn. unfold exception_init.
  destruct (exception_loop_run g (Z.to_nat IDT_DESC_CNT) 0 b) as (t & u & E & Lt & Lu & Hg & _); [lia|cbn -[length]; lia|congruence|].
  rewrite (mbindM_Ok _ _ _ _ _ E). destruct (assign_names_run names (set_intr_name u (set_idt_table t b))) as (u' & E' & L').
  { cbn [intr_name set_intr_name]. rewrite Lu, Hn. repeat constructor; cbn; lia. }
  exists u'. rewrite E'. assert (t = replicate (Z.to_nat IDT_DESC_CNT) g) as ->; [|done].
  apply list_eq_same_length with (n := Z.to_nat IDT_DESC_CNT); [by rewrite length_replicate|congruence|].
  intros j x y Hj Hx Hy. rewrite Hg in Hx by lia. apply lookup_replicate in Hy as [-> _]. congruence.
Qed.

Section Delivery.
Context (general timer kbd hd syscall_handler idt_addr : Z) (entries beyond : list Z).

(** The entries of kernel.s: one routine per vector below 0x30.  The C
    declaration makes the table 0x81 long; [beyond] is what memory holds behind it. *)
Hypothesis entries_len : length entries = 0x30%nat.
Hypothesis beyond_len : length beyond = 0x51%nat.
Hypothesis entries_distinct : NoDup entries.
Hypothesis entries_addr : Forall (fun a => 0 <= a < 2 ^ 32) entries.

(** The calls of [init_all] that fill the tables: [idt_init], [timer_init],
    [keyboard_init], and what [ide_init] registers. *)
Definition init_interrupts (kbd_buf : ioqueue) : M board ioqueue :=
  _ ← idt_init general syscall_handler idt_addr (entries ++ beyond);
  _ ← timer_init timer;
  kbd_buf ← keyboard_init kbd kbd_buf;
  _ ← board_register (0x20 + 14) hd;
  mret kbd_buf.

Definition routines : list Z :=
  <[46%nat := hd]> (<[33%nat := kbd]> (<[32%nat := timer]> (replicate (Z.to_nat IDT_DESC_CNT) general))).

Lemma init_interrupts_run q b : length (idt_table b) = Z.to_nat IDT_DESC_CNT -> length (intr_name b) = Z.to_nat IDT_DESC_CNT ->
  exists u, init_interrupts q b = Ok (ioqueue_init q, mk_board (mk_pic OCW1 0x20 4 1 0xf8) (mk_pic OCW1 0x28 2 1 0xbf)
    (mk_pit 0x34 [COUNTER0_VALUE mod 256; COUNTER0_VALUE / 256])
    (<[128%nat := make_idt_desc IDT_DESC_ATTR_DPL3 syscall_handler]> (make_idt_desc IDT_DESC_ATTR_DPL0 <$> (entries ++ beyond)))
    (Z.lor (8 * IDT_DESC_CNT - 1) (Z.shiftl idt_addr 16)) routines u).
Proof.
  intros Ht Hn. unfold init_interrupts, idt_init.
  assert (length (entries ++ beyond) = Z.to_nat IDT_DESC_CNT) as Hl by (rewrite length_app, entries_len, beyond_len; done).
  rewrite mbindM_assoc, (liftO_bind _ _ _ _ (idt_desc_init_run _ syscall_handler Hl)), mbindM_assoc, modS_bind.
  set (b1 := set_idt _ b). destruct (exception_init_run general b1) as (u & E); [done|done|].
  exists u. rewrite mbindM_assoc. erewrite mbindM_Ok by exact E. rewrite mbindM_assoc. erewrite mbindM_Ok by (apply pic_init_run).
  rewrite modS_bind. reflexivity.
Qed.

(** An open line leads through its gate and its entry to the slot of the table. *)
Lemma routine_of b irq v h :
  idt b = <[128%nat := make_idt_desc IDT_DESC_ATTR_DPL3 syscall_handler]> (make_idt_desc IDT_DESC_ATTR_DPL0 <$> (entries ++ beyond)) ->
  irq_vector b irq = Some v -> 0 <= v < 0x30 -> idt_table b !! Z.to_nat v = Some h -> irq_routine entries b irq = Some h.
Proof.
  intros Ei Ev Hv Hh. unfold irq_routine. rewrite Ev. cbn [mbind option_bind].
  destruct (lookup_lt_is_Some_2 entries (Z.to_nat v)) as [e He]; [rewrite entries_len; lia|].
  rewrite Ei, list_lookup_insert_ne, list_lookup_fmap, lookup_app_l, He by (rewrite ?entries_len; lia). cbn [fmap option_fmap option_map mbind option_bind].
  rewrite gate_offset_make by (by eapply Forall_lookup_1 in entries_addr).
  assert (list_find (fun x => x = e) entries = Some (Z.to_nat v, e)) as ->; [|done].
  apply list_find_Some. split; [done|]. split; [done|]. intros j y Hj Hlt ->.
  pose proof (NoDup_lookup _ _ _ _ entries_distinct Hj He). lia.
Qed.

(** C29. After start-up a request of the timer, of the keyboard or of the first
    disk channel runs the routine registered for it -- controller, gate, entry of
    kernel.s and handler table agree on the vectors -- and no other line
    interrupts the kernel.  The timer counts its input down from 11931, which is
    a hundred interrupts a second to one in ten thousand.  The ring of the
    keyboard is empty. *)
Theorem interrupts_reach_handlers q b :
  length (idt_table b) = Z.to_nat IDT_DESC_CNT -> length (intr_name b) = Z.to_nat IDT_DESC_CNT ->
  exists q' b', init_interrupts q b = Ok (q', b') /\ ioq_empty q' = true /\ ioq_length q' = 0 /\
    irq_routine entries b' 0 = Some timer /\ irq_routine entries b' 1 = Some kbd /\ irq_routine entries b' 14 = Some hd /\
    (forall irq, 0 <= irq < 16 -> irq ∉ [0; 1; 14] -> irq_vector b' irq = None) /\
    exists lo hi, timer0 b' = mk_pit 0x34 [lo; hi] /\ 0 <= lo < 256 /\ 0 <= hi < 256 /\
      10000 * Z.abs (INPUT_FREQUENCY - IRQ0_FREQUENCY * (lo + 256 * hi)) <= INPUT_FREQUENCY.
Proof.
  intros Ht Hn. destruct (init_interrupts_run q b Ht Hn) as (u & E). eexists _, _. split; [exact E|]. split; [done|]. split; [done|].
  split; [by apply (routine_of _ 0 0x20)|]. split; [by apply (routine_of _ 1 0x21)|]. split; [by apply (routine_of _ 14 0x2e)|]. split.
  - intros irq Hi Hx.
    assert (irq = 2 \/ irq = 3 \/ irq = 4 \/ irq = 5 \/ irq = 6 \/ irq = 7 \/ irq = 8 \/ irq = 9 \/ irq = 10 \/ irq = 11 \/ irq = 12 \/ irq = 13 \/ irq = 15) as H.
    { rewrite !elem_of_cons, elem_of_nil in Hx. lia. }
    repeat destruct H as [->|H]; [reflexivity..|]. by subst.
  - eexists _, _. split; [reflexivity|]. vm_compute. intuition discriminate.
Qed.

End Delivery.

Definition demo_board : board :=
  mk_board (mk_pic OCW1 8 4 0 0xff) (mk_pic ICW3 0x70 2 0 0xff) (mk_pit 0 []) [] 0 (replicate 129 0) (replicate 129 ""%string).

Lemma interrupts_reach_handlers_witness :
  exists q' b', init_interrupts 1000 1001 1002 1003 1004 1005 (seqZ 5000 0x30) (replicate 0x51 0) (mk_ioq 7 9 (replicate 2048 0) 3 1) demo_board = Ok (q', b') /\
    ioq_empty q' = true /\
    irq_routine (seqZ 5000 0x30) b' 0 = Some 1001 /\ irq_routine (seqZ 5000 0x30) b' 1 = Some 1002 /\ irq_routine (seqZ 5000 0x30) b' 14 = Some 1003.
Proof.
  destruct (interrupts_reach_handlers 1000 1001 1002 1003 1004 1005 (seqZ 5000 0x30) (replicate 0x51 0)) with (q := mk_ioq 7 9 (replicate 2048 0) 3 1) (b := demo_board)
    as (q' & b' & E & Hq & _ & H0 & H1 & H2 & _).
  - reflexivity.
  - reflexivity.
  - apply NoDup_seqZ.
  - apply Forall_seqZ. lia.
  - reflexivity.
  - reflexivity.
  - exists q', b'. exact (conj E (conj Hq (conj H0 (conj H1 H2)))).
Defined.

(** The interrupt of the second channel, for which [ide_init] registers vector
    0x2f, is masked: a transfer to a disk there never completes. *)
Lemma second_channel_masked general timer kbd hd sh ia entries beyond q b :
  length entries = 0x30%nat -> length beyond = 0x51%nat ->
  length (idt_table b) = Z.to_nat IDT_DESC_CNT -> length (intr_name b) = Z.to_nat IDT_DESC_CNT ->
  exists b', init_interrupts general timer kbd hd sh ia entries beyond q b = Ok (ioqueue_init q, b') /\ irq_vector b' 15 = None.
Proof.
  intros He Hb Ht Hn. destruct (init_interrupts_run general timer kbd hd sh ia entries beyond He Hb q b Ht Hn) as (u & E).
  eexists. split; [exact E|reflexivity].
Qed.

(** [idt_desc_init] reads 0x81 entries of a table in which kernel.s defines 0x30. *)
Lemma entry_table_overread entries sys : length entries = 0x30%nat -> idt_desc_init entries sys = Fault.
Proof.
  intros H. unfold idt_desc_init.
  assert (forall l n, (length l < n)%nat -> fill_gates l n = Fault) as F.
  { induction l as [|e l IH]; intros [|n] Hn; cbn in Hn |- *; try lia; [done|]. rewrite IH by lia. done. }
  rewrite F by (rewrite H; unfold IDT_DESC_CNT; lia). done.
Qed.
