(* ===== verification/Messages.v ===== *)
(** * What the kernel shows before it stops (kernel/debug.c, kernel/interrupt.c)

    [panic_spin], behind every [ASSERT] and [PANIC], and the general interrupt
    handler, behind every exception, print on the screen and spin.  They bypass
    the lock of the console. *)

From S2P Require Import Prelude Interrupt Screen CString Stdio Printf DList Sched Ps Startup.

(** How a routine ends: it returns, or loops for ever with the processor. *)
Inductive ending : Type := Returns | Spins.

(** ** panic_spin *)

(** The display and EFLAGS. *)
Record machine : Type := mk_machine { screen : vga; eflags : Z }.

#[export] Instance machine_eflags : HasEflags machine.
Proof.
  refine {| eflags_of := eflags; with_eflags := fun z m => mk_machine (screen m) z |}; [done|by intros []|done].
Defined.

Definition on_screen {A} (c : M vga A) : M machine A := fun m =>
  match c (screen m) with Ok (a, v) => Ok (a, mk_machine v (eflags m)) | Panic w => Panic w | Fault => Fault | NoFuel => NoFuel end.

Definition error_head : list Z := [10; 10; 10] ++ chars "!!!!! error !!!!!" ++ [10].

Definition panic_spin (filename : list Z) (line : Z) (func condition : list Z) : M machine ending :=
  _ ← intr_disable;
  _ ← on_screen (put_str error_head);
  _ ← on_screen (put_str (chars "filename: "));
  _ ← on_screen (put_str filename);
  _ ← on_screen (put_str [10]);
  _ ← on_screen (put_str (chars "line: 0x"));
  _ ← on_screen (put_int line);
  _ ← on_screen (put_str [10]);
  _ ← on_screen (put_str (chars "function: "));
  _ ← on_screen (put_str func);
  _ ← on_screen (put_str [10]);
  _ ← on_screen (put_str (chars "condition: "));
  _ ← on_screen (put_str condition);
  _ ← on_screen (put_str [10]);
  mret Spins.

(** ** The general interrupt handler *)

Fixpoint put_spaces (n : nat) : M vga () :=
  match n with O => mret tt | S n => _ ← put_char 32; put_spaces n end.

Definition begin_message : list Z := chars "!!!!!!!      excetion message begin  !!!!!!!!".
Definition end_message : list Z := chars "!!!!!!!      excetion message end  !!!!!!!!".
Definition fault_message : list Z := chars "page fault addr is ".

(** [cr2] is what the processor has left in CR2.  The interrupts 7 and 15 of the
    controllers may be spurious and are passed over. *)
Definition general_intr_handler (intr_name : list string) (cr2 vec_nr : Z) : M vga ending :=
  let vec_nr := u8 vec_nr in
  if (vec_nr =? 0x27) || (vec_nr =? 0x2f) then mret Returns
  else
    _ ← set_cursor 0;
    _ ← put_spaces 320;
    _ ← set_cursor 0;
    _ ← put_str (begin_message ++ [10]);
    _ ← set_cursor 88;
    n ← liftO (aget intr_name vec_nr);
    _ ← put_str (chars n);
    _ ← (if vec_nr =? 14 then _ ← put_str ([10] ++ fault_message); put_int cr2 else mret tt);
    _ ← put_str ([10] ++ end_message ++ [10]);
    mret Spins.

(** ** Theorems *)

Definition in_white (str : list Z) : list cell := (fun c => (c, 0x07)) <$> str.
Definition plain (str : list Z) : Prop := Forall (fun c => 0 <= c < 256 /\ c <> 8) str.

(** A string of characters that are not control characters, within the screen. *)
Definition visible (str : list Z) : Prop := Forall (fun c => 0 <= c < 256 /\ c <> 8 /\ is_newline c = false) str.

Definition stamp (pos : nat) (str : list Z) (cells : list cell) : list cell :=
  take pos cells ++ in_white str ++ drop (pos + length str) cells.

Lemma put_str_grid str : visible str -> forall v cells pos, grid v cells pos -> 0 <= pos -> pos + Z.of_nat (length str) < 2000 ->
  exists v', put_str str v = Ok (tt, v') /\ grid v' (stamp (Z.to_nat pos) str cells) (pos + Z.of_nat (length str)).
Proof.
  unfold put_str, stamp. induction 1 as [|c str (Hc & H8 & Hn) _ IH]; intros v cells pos G Hp Hl.
  - exists v. cbn [length in_white fmap list_fmap app]. rewrite Nat.add_0_r, Z.add_0_r, take_drop. done.
  - cbn [length] in Hl. destruct (put_char_grid v cells pos c 0x07 G ltac:(lia) Hc ltac:(lia) H8) as (v1 & E1 & N & _).
    rewrite Hn in N. specialize (N ltac:(lia)). destruct (IH v1 _ _ N) as (v' & E & G'); [lia..|].
    exists v'. split; [cbn [put_str_color]; by mrun E1|]. pose proof (gr_cells _ _ _ G) as Hcs.
    replace (Z.to_nat (pos + 1)) with (S (Z.to_nat pos)) in G' by lia.
    rewrite (take_S_r _ _ ((c, 0x07) : cell)) in G' by (apply list_lookup_insert_eq; unfold cell in *; lia).
    rewrite take_insert_ge, drop_insert_lt, <- app_assoc in G' by lia. cbn [length in_white fmap list_fmap app] in *.
    replace (pos + Z.of_nat (S (length str))) with (pos + 1 + Z.of_nat (length str)) by lia.
    replace (Z.to_nat pos + S (length str))%nat with (S (Z.to_nat pos) + length str)%nat by lia. exact G'.
Qed.

Lemma put_spaces_str n v : put_spaces n v = put_str (replicate n 32) v.
Proof.
  revert v. induction n as [|n IH]; intros v; [done|]. cbn. unfold mbind, M_bind, put_char. destruct (put_char_color 32 7 v) as [[]| | |]; [apply IH|done..].
Qed.

Lemma new_line_grid v cells pos : grid v cells pos -> 0 <= pos < 1920 -> exists v', put_str [10] v = Ok (tt, v') /\ grid v' cells (80 * (pos / 80 + 1)).
Proof.
  intros G Hp. destruct (put_char_grid v cells pos 10 7 G) as (v' & E & N & _); [lia..|]. exists v'. split.
  - unfold put_str. cbn [put_str_color]. by mrun E.
  - apply N. cbn. assert (pos / 80 < 24) by (apply Z.div_lt_upper_bound; lia). lia.
Qed.

Lemma put_str_app a b v : put_str (a ++ b) v = (_ ← put_str a; put_str b) v.
Proof.
  unfold put_str. revert v. induction a as [|c a IH]; intros v; [done|]. cbn [app put_str_color]. rewrite mbindM_assoc.
  apply mbindM_ext. intros _ v'. apply IH.
Qed.

(** A text and the end of its line, in row [r]. *)
Lemma put_line_grid str v cells pos r : visible str -> grid v cells pos -> 0 <= pos -> pos / 80 = r -> (pos + Z.of_nat (length str)) / 80 = r -> r < 24 ->
  exists v', put_str (str ++ [10]) v = Ok (tt, v') /\ grid v' (stamp (Z.to_nat pos) str cells) (80 * (r + 1)).
Proof.
  intros Hs G Hp Hr Hr' H24. assert (pos + Z.of_nat (length str) < 1920) as Hl.
  { pose proof (Z.div_mod (pos + Z.of_nat (length str)) 80 ltac:(lia)). pose proof (Z.mod_pos_bound (pos + Z.of_nat (length str)) 80 ltac:(lia)). lia. }
  destruct (put_str_grid str Hs v cells pos G Hp ltac:(lia)) as (v1 & E1 & G1).
  destruct (new_line_grid v1 _ _ G1) as (v2 & E2 & G2); [lia|]. exists v2. rewrite put_str_app. split; [by mrun E1|]. by rewrite Hr' in G2.
Qed.

Lemma in_row n k r : 80 * r <= k -> k + Z.of_nat n < 80 * (r + 1) -> k / 80 = r /\ (k + Z.of_nat n) / 80 = r.
Proof. intros H1 H2. split; symmetry; [apply (Z.div_unique k 80 r (k - 80 * r))|apply (Z.div_unique (k + Z.of_nat n) 80 r (k + Z.of_nat n - 80 * r))]; lia. Qed.

(** The upper rows after an exception with the name [n]. *)
Definition message_rows (n : list Z) (fault : option Z) (cells : list cell) : list cell :=
  let named := stamp 88 n (stamp 0 begin_message (stamp 0 (replicate 320 32) cells)) in
  match fault with
  | None => stamp 160 end_message named
  | Some a => stamp 240 end_message (stamp 160 (fault_message ++ hexadecimal_of 8 (u32 a)) named)
  end.

Lemma visible_check str : forallb (fun c => (0 <=? c) && (c <? 256) && negb (c =? 8) && negb (is_newline c)) str = true -> visible str.
Proof.
  intros H. apply Forall_forall. intros c Hc. rewrite forallb_forall in H. specialize (H c ltac:(by apply list_elem_of_In)).
  destruct (Z.leb_spec 0 c), (Z.ltb_spec c 256), (Z.eqb_spec c 8), (is_newline c); cbn in H; try done; lia.
Qed.

Lemma visible_plain str : visible str -> plain str.
Proof. intros H. eapply Forall_impl; [exact H|]. cbn. intros c (? & ? & _). done. Qed.

Lemma hex_digit_visible d : 0 <= d < 16 -> 0 <= hex_digit d < 256 /\ hex_digit d <> 8 /\ is_newline (hex_digit d) = false.
Proof.
  intros Hd. unfold hex_digit, is_newline. destruct (Z.ltb_spec 9 d);
  (split; [lia|split; [lia|apply orb_false_iff; split; apply Z.eqb_neq; lia]]).
Qed.

Lemma hexadecimal_visible k : forall n, 0 <= n -> visible (hexadecimal_of k n) /\ (length (hexadecimal_of k n) <= k)%nat.
Proof.
  induction k as [|k IH]; intros n Hn; [split; [constructor|cbn; lia]|]. cbn [hexadecimal_of]. destruct (Z.ltb_spec n 16).
  - split; [constructor; [apply hex_digit_visible; lia|constructor]|cbn; lia].
  - destruct (IH (n / 16)) as [H1 H2]; [apply Z.div_pos; lia|]. split; [|rewrite length_app; cbn; lia].
    apply Forall_app. split; [done|]. constructor; [apply hex_digit_visible, Z.mod_pos_bound; lia|constructor].
Qed.

(** The name of the exception, from column 8 of the second row on. *)
Lemma message_head intr_name cr2 v cells pos vec n : grid v cells pos -> (vec =? 0x27) || (vec =? 0x2f) = false -> u8 vec = vec -> aget intr_name vec = Ok n ->
  visible (chars n) -> (length (chars n) < 72)%nat ->
  exists v1, general_intr_handler intr_name cr2 vec v =
      (_ ← (if vec =? 14 then _ ← put_str ([10] ++ fault_message); put_int cr2 else mret tt); _ ← put_str ([10] ++ end_message ++ [10]); mret Spins) v1 /\
    grid v1 (stamp 88 (chars n) (stamp 0 begin_message (stamp 0 (replicate 320 32) cells))) (88 + Z.of_nat (length (chars n))).
Proof.
  intros G Hv Hu Hn Hvis Hl. unfold general_intr_handler. rewrite Hu, Hv.
  destruct (set_cursor_run v cells pos 0 G) as (v1 & E1 & G1); [lia|]. mrun E1.
  destruct (put_str_grid (replicate 320 32)) with (v := v1) (cells := cells) (pos := 0) as (v2 & E2 & G2); [by apply visible_check|done|lia|rewrite length_replicate; lia|].
  rewrite (mbindM_Ok _ _ _ _ _ (eq_trans (put_spaces_str 320 v1) E2)).
  destruct (set_cursor_run v2 _ _ 0 G2) as (v3 & E3 & G3); [lia|]. mrun E3.
  destruct (put_line_grid begin_message v3 _ 0 0 (visible_check begin_message eq_refl) G3) as (v4 & E4 & G4); [lia|reflexivity..|lia|]. mrun E4.
  destruct (set_cursor_run v4 _ _ 88 G4) as (v5 & E5 & G5); [lia|]. mrun E5. rewrite (liftO_bind _ _ _ _ Hn).
  destruct (put_str_grid (chars n) Hvis v5 _ 88 G5) as (v6 & E6 & G6); [lia..|]. mrun E6. by exists v6.
Qed.

Lemma end_grid v cells pos r : grid v cells pos -> 0 <= pos -> pos / 80 = r -> r < 22 ->
  exists v', put_str ([10] ++ end_message ++ [10]) v = Ok (tt, v') /\ grid v' (stamp (Z.to_nat (80 * (r + 1))) end_message cells) (80 * (r + 2)).
Proof.
  intros G Hp Hr H22. pose proof (Z.div_mod pos 80 ltac:(lia)). pose proof (Z.mod_pos_bound pos 80 ltac:(lia)).
  assert (0 <= r) by (subst r; by apply Z.div_pos).
  destruct (new_line_grid v cells pos G) as (v1 & E1 & G1); [lia|]. rewrite Hr in G1.
  destruct (in_row (length end_message) (80 * (r + 1)) (r + 1)) as [R1 R2]; [lia|change (length end_message) with 43%nat; lia|].
  destruct (put_line_grid end_message v1 _ _ (r + 1) (visible_check end_message eq_refl) G1) as (v2 & E2 & G2); [lia|done..|lia|].
  exists v2. rewrite put_str_app. split; [by mrun E1|]. by replace (80 * (r + 2)) with (80 * (r + 1 + 1)) by lia.
Qed.

(** An exception clears the first four rows of the screen and shows its name
    there, with the address that was missing when it is a page fault; whatever
    was on the other rows stays, and the handler does not return. *)
Theorem exception_shows intr_name cr2 v cells pos vec n :
  grid v cells pos -> 0 <= vec < 256 -> vec <> 0x27 -> vec <> 0x2f -> aget intr_name vec = Ok n -> visible (chars n) -> (length (chars n) < 72)%nat ->
  exists v', general_intr_handler intr_name cr2 vec v = Ok (Spins, v') /\
    grid v' (message_rows (chars n) (if vec =? 14 then Some cr2 else None) cells) (if vec =? 14 then 320 else 240).
Proof.
  intros G Hv H1 H2 Hn Hvis Hl.
  destruct (message_head intr_name cr2 v cells pos vec n G) as (v1 & E1 & G1); [apply orb_false_iff; split; by apply Z.eqb_neq|by apply wrapu_small|done..|].
  rewrite E1. destruct (in_row (length (chars n)) 88 1) as [_ R1]; [lia..|].
  destruct (vec =? 14).
  - destruct (new_line_grid v1 _ _ G1) as (v2 & E2 & G2); [lia|]. rewrite R1 in G2. change (80 * (1 + 1)) with 160 in G2.
    destruct (hexadecimal_visible 8 (u32 cr2)) as [Hx Hxl]; [apply wrapu_range; lia|].
    set (t := fault_message ++ hexadecimal_of 8 (u32 cr2)).
    assert (length t = 19 + length (hexadecimal_of 8 (u32 cr2)))%nat as Ht by (unfold t; rewrite length_app; reflexivity).
    assert (visible t) as Htv by (apply Forall_app; split; [by apply visible_check|done]).
    destruct (put_str_grid t Htv v2 _ 160 G2) as (v3 & E3 & G3); [lia..|].
    destruct (in_row (length t) 160 2) as [_ R2]; [lia..|].
    destruct (end_grid v3 _ _ 2 G3) as (v4 & E4 & G4); [lia|done|lia|]. exists v4. split; [|exact G4].
    rewrite mbindM_assoc. unfold t in E3. rewrite put_str_app in E3. apply mbindM_inv in E3 as ([] & v3' & E3 & E3').
    erewrite mbindM_Ok; [|rewrite put_str_app; mrun E2; exact E3]. erewrite mbindM_Ok by (rewrite put_int_run; exact E3'). by mrun E4.
  - rewrite mret_bind. destruct (end_grid v1 _ _ 1 G1) as (v2 & E2 & G2); [lia|done|lia|]. exists v2. split; [by mrun E2|exact G2].
Qed.

Lemma exception_shows_witness :
  exists v', general_intr_handler (replicate 129 "#PF"%string) 0x1234 14 demo_vga = Ok (Spins, v') /\
    grid v' (message_rows (chars "#PF") (Some 0x1234) (replicate 2000 blank)) 320.
Proof.
  apply (exception_shows (replicate 129 "#PF"%string) 0x1234 demo_vga (replicate 2000 blank) 0 14 "#PF"); [|lia|done|done|reflexivity|by apply visible_check|cbn; lia].
  pose proof (proj1 (proj1 (shows_grid _ _) demo_vga_shows)) as G. exact G.
Defined.

(** *** The text of a panic *)

Definition panic_text (filename : list Z) (line : Z) (func condition : list Z) : list Z :=
  error_head ++ chars "filename: " ++ filename ++ [10] ++ chars "line: 0x" ++ hexadecimal_of 8 (u32 line) ++ [10] ++
  chars "function: " ++ func ++ [10] ++ chars "condition: " ++ condition ++ [10].

Lemma on_screen_bind {A B} (c : M vga A) (f : A -> M vga B) (g : B -> M machine ending) m :
  (on_screen c ≫= fun a => on_screen (f a) ≫= g) m = (on_screen (c ≫= f) ≫= g) m.
Proof. unfold mbind, M_bind, on_screen. destruct (c (screen m)) as [[]| | |]; [|done..]. cbn. by destruct (f _ _) as [[]| | |]. Qed.

Lemma on_screen_str a b (g : () -> M machine ending) m :
  (on_screen (put_str a) ≫= fun _ => on_screen (put_str b) ≫= g) m = (on_screen (put_str (a ++ b)) ≫= g) m.
Proof. rewrite on_screen_bind. unfold mbind, M_bind, on_screen. by rewrite put_str_app. Qed.

Lemma on_screen_int a n (g : () -> M machine ending) m :
  (on_screen (put_str a) ≫= fun _ => on_screen (put_int n) ≫= g) m = (on_screen (put_str (a ++ hexadecimal_of 8 (u32 n))) ≫= g) m.
Proof.
  rewrite <- on_screen_str. apply mbindM_ext. intros _ m'. unfold mbind, M_bind, on_screen. by rewrite put_int_run.
Qed.

Lemma panic_spin_text filename line func condition m :
  panic_spin filename line func condition m = (_ ← on_screen (put_str (panic_text filename line func condition)); mret Spins) (masked m).
Proof.
  unfold panic_spin. rewrite (mbindM_Ok _ _ _ _ _ (intr_disable_run m)).
  rewrite !on_screen_str, on_screen_int, !on_screen_str. unfold panic_text. by rewrite <- !app_assoc.
Qed.

(** A failed ASSERT switches the interrupts off and shows file, line, function
    and condition behind what was on the screen. *)
Theorem panic_spin_shows rows filename line func condition m :
  shows (screen m) rows -> plain filename -> plain func -> plain condition ->
  exists m', panic_spin filename line func condition m = Ok (Spins, m') /\ intr_get_status_of m' = INTR_OFF /\
    shows (screen m') (lay rows (in_white (panic_text filename line func condition))).
Proof.
  intros Hs H1 H2 H3. destruct (put_str_shows (panic_text filename line func condition) 7) with (v := screen m) (rows := rows) as (v' & E & S'); [lia| |done|].
  - destruct (hexadecimal_visible 8 (u32 line)) as [Hx _]; [apply wrapu_range; lia|].
    assert (plain [10]) as Hn by (repeat constructor; lia).
    unfold panic_text, error_head, plain in *. rewrite !Forall_app.
    repeat split; try done; try (by apply visible_plain, visible_check); try (by apply visible_plain). repeat constructor; lia.
  - exists (mk_machine v' (eflags (masked m))). split; [|split; [exact (masked_off m)|exact S']].
    rewrite panic_spin_text. unfold mbind, M_bind, on_screen. change (screen (masked m)) with (screen m). unfold put_str. by rewrite E.
Qed.

Lemma panic_spin_shows_witness :
  exists m', panic_spin (chars "a.c") 0x1f (chars "f") (chars "x > 0") (mk_machine demo_vga 0x202) = Ok (Spins, m') /\
    intr_get_status_of m' = INTR_OFF /\
    shows (screen m') (lay ([], []) (in_white (panic_text (chars "a.c") 0x1f (chars "f") (chars "x > 0")))).
Proof.
  apply (panic_spin_shows ([], []) (chars "a.c") 0x1f (chars "f") (chars "x > 0") (mk_machine demo_vga 0x202) demo_vga_shows); by apply visible_plain, visible_check.
Defined.
